(* ===== verification/_CoqProject ===== *)
-Q . S2P
Prelude.v
KMonad.v
CString.v
Params.v
Bio.v
BioSpec.v
Log.v
LogSpec.v
Crash.v
Store.v
LogOps.v
Users.v
Fs.v
Pipe.v
Kalloc.v
Vm.v
VmSpec.v
Proc.v
Kern.v
Sysfile.v
Passwd.v
Exec.v
UserMem.v
FsSpec.v
FileSpec.v
Dinode.v
Content.v
ReadWrite.v
Paths.v
ICache.v
Dirs.v
Names.v
Tree.v
Create.v
Access.v
Accounts.v
FileIO.v
LockOrder.v
Ulib.v
Grep.v
Spinlock.v
Sched.v
SchedSpec.v
Sys.v
Progs.v
ProgsSpec.v
Ls.v
Sh.v
ShSpec.v
ShParse.v
ShRun.v
ShRunSpec.v
Login.v
Umalloc.v
UmallocSpec.v
Malloc.v
Console.v
ConsoleSpec.v
LineDisc.v
Ide.v
IdeSpec.v
Mp.v
Boot.v
Apic.v
Segs.v
SegsSpec.v
Trap.v
TrapSpec.v
Mkfs.v
MkfsSpec.v
MkfsBoot.v
FirstBoot.v
