(* ===== verification/Prelude.v ===== *)
(** * xv6 with user accounts: a verification development

    The program under src/xv6-public is the xv6 teaching kernel for the x86, with
    user accounts, file ownership and permissions added, and its user programs.
    This library models the kernel as Rocq functions over explicit states and
    proves what its parts promise.

    ** How code becomes definitions

    Kernel code is a function from a state to an outcome (KMonad.v): a value and a
    new state, or the reason it stopped: a panic, sleeping, leaving for the
    scheduler in exit, an access outside an object, or an exhausted iteration
    bound.  [wp m Q s] says that [m] returns from [s] with [Q]; theorems that an
    operation works are stated with it or as an equation with [Ok], so they
    include termination and the absence of panics.  Integers are [Z] with the
    wrap-around of their C width written out ([u32], [i16], ...); memory objects
    are byte lists; a read or write outside one is [None] or a fault.  A pointer
    to an entry of a kernel table is its index.

    ** Files

    The kernel:
    - Prelude.v: words, byte lists, little-endian fields; KMonad.v: the monad.
    - CString.v: string.c.  Params.v: constants and layout (param.h, fs.h, ...).
    - Bio.v, BioSpec.v: the buffer cache of bio.c over the disk of memide.c, with
      the sleep locks of sleeplock.c.
    - Log.v, LogSpec.v, Crash.v, LogOps.v: log.c.  A write log records the order of
      disk writes, so a crash is a prefix of it, and recovery runs on the image.
    - Store.v: [TxStore], the interface between fs.c and the storage, as a type
      class with laws; LogOps.v gives the instance.  Fs.v and everything above it
      is written for any instance.
    - Users.v: the user table of usermanage.c.  Fs.v: every function of fs.c.
    - FsSpec.v (block allocator), FileSpec.v (bmap), Dinode.v (disk inodes),
      Content.v and ReadWrite.v (readi and writei), Paths.v (skipelem), ICache.v
      (the inode cache), Dirs.v (dirlookup and dirlink), Names.v (namex), Tree.v (the
      disk as a whole), Create.v (ialloc and create).
    - Pipe.v: pipe.c.  Kalloc.v: kalloc.c.  Vm.v, VmSpec.v: the page tables of vm.c.
    - Proc.v: the process table of proc.c, with its critical sections, and the
      statements of fork outside them one by one, as steps.  Spinlock.v: spinlock.c.
      Sched.v, SchedSpec.v: scheduler, sched, yield, sleep, wakeup, fork, exit and wait
      on several processors, statement by statement.
    - Kern.v: the whole kernel state; file.c and the argument functions of
      syscall.c.  Sysfile.v: sysfile.c.  Passwd.v: /passwd (usermanage.c) and
      sysuser.c.  Exec.v: exec.c, fork, exit, wait, sysproc.c and the system-call
      table.
    - Access.v: theorems on permissions, accounts and user pointers.  Accounts.v: the
      account calls down to the disk and over a restart.  UserMem.v: the memory of a
      process as the kernel reads and writes it.  FileIO.v: filewrite and fileread.
      LockOrder.v: fstat and addUser in turns.
    - Segs.v, SegsSpec.v: descriptor tables, gates and task-state segments (mmu.h,
      vm.c, trap.c, main.c), and what the processor makes of them.  Trap.v,
      TrapSpec.v: trap.c over the kernel and the devices.
    - Console.v: console.c with the keyboard (kbd.c) and the serial port (uart.c);
      ConsoleSpec.v: a terminal screen as the meaning of what is printed;
      LineDisc.v: the queue of lines that the input buffer implements.
    - Ide.v, IdeSpec.v: the disk driver ide.c, its controller, and the service of
      its queue.
    - Mp.v: mp.c.  Boot.v: bootmain.c.  Apic.v: lapic.c, ioapic.c, picirq.c.

    User programs and tools:
    - Ulib.v: ulib.c and printf.c.  Grep.v: the matcher of grep.c.  Umalloc.v,
      UmallocSpec.v, Malloc.v: the user memory allocator umalloc.c.
    - Sys.v: programs as interaction trees over the system calls.  Progs.v,
      ProgsSpec.v: cat, wc, echo, kill, ln, mkdir, rm, zombie and grep.  Ls.v: ls.c.
      Login.v: init.c and login.c.
    - Sh.v, ShSpec.v, ShParse.v: the parser of the shell sh.c, the grammar, and
      their agreement.  ShRun.v, ShRunSpec.v: runcmd and the command loop.
    - Mkfs.v, MkfsSpec.v, MkfsBoot.v: the image builder mkfs.c.  FirstBoot.v: a
      kernel that starts on its image for the first time (forkret, init_usertable).

    ** What is proved

    - Storage: a system call's block updates reach the disk all or none whatever
      the moment of a crash ([transaction_atomic]).
    - Files: [writei] and [readi] act on a file as on a byte string, through direct
      and indirect blocks, without touching other files, and within the log space
      [begin_op] reserves; a write of any length to an open file ends with its bytes
      in the file ([filewrite_correct]), and reading brings them back to the memory
      of the process ([file_round_trip]); the block allocator; a directory is a map from names to
      inodes ([dirlink_correct]); [namex] returns the inode a path names on the
      disk and accounts for every reference and lock ([namex_resolves]); [create]
      adds a file or directory to the tree of names and keeps every other path and
      file, with the whole disk well formed ([create_correct]).
    - Memory: mapping and growing a process; the page allocator.
    - Processes: the process table stays consistent under every interleaving of its
      critical sections and of the statements of fork ([ptable_invariant]); the
      processors, running the code of the scheduler in any interleaving, do not panic
      (save that init may not exit), lose no wakeup, and do to the table what those
      steps do ([switch_safe], [wakeup_reaches], [switch_refines]); whatever they are
      about to execute, no processors spin in a circle on ptable.lock, kmem.lock and the
      locks given to sleep ([never_deadlocks]); a killed process makes no further call.
    - The boundary to user mode: code in user mode gets into the kernel by the gate
      of the system calls only, on its own kernel stack ([kernel_entry]); interrupts
      are served and change nothing but what they are about, exceptions in user mode
      end the process, and exceptions in the kernel panic ([traps_handled]).
    - Accounts: [getuid] accepts exactly the accounts of the table; the account calls
      leave the table in /passwd, and a restart reads the same accounts
      ([account_calls_saved], [accounts_survive]); a descriptor from
      [sys_open] with one of the three plain modes can do no more than the permissions
      of the file allow ([open_permission]); only root changes accounts.
    - Pipes deliver in order exactly the bytes that the writers were told they wrote,
      also over sleeps in the middle of a write ([pipe_fifo]); spin locks keep interrupts off and restore
      them; the string routines meet their specifications.
    - Devices: the console refines a queue of lines under every sequence of
      interrupts, reads and writes, and shows what is written to it; every disk
      request completes, with the buffer and the disk in agreement; the boot loader
      loads every segment; the processor table is read as the firmware wrote it; the
      clock is read consistently.
    - User programs: the shell's parser returns for every line and returns what the
      grammar gives it; a run of the shell is a session of the commands it read
      ([sh_main_session]); login starts a shell only after a successful login call
      ([login_guards_shell]); grep, wc, cat and ls end on every input with the output
      that is due, for grep by the meaning of its patterns as regular expressions; [malloc] and [free] keep blocks apart and their contents.
    - mkfs returns an image that has the layout the file theorems assume, and the
      files it was given ([mkfs_image]); their paths lead to them ([mkfs_names]); the
      first boot on it ends with the administrator's account and every file of the
      image in place ([first_boot]).
    - Findings: theorems named after what goes wrong exhibit executions in which
      the code does not do what it means to ([begin_op_overcommits],
      [getuid_releases_foreign_lock], [create_leaks_lock],
      [open_create_takes_over], [fstat_adduser_deadlock], [kill_zero_condemns],
      [grep_loses_split_line], [malloc_wraps], [ide_read_error_valid],
      [mkfs_root_hole], [mpinit_unknown_entry]).

    ** Bounds and assumptions

    Loops whose iterations are bounded by their data take that bound as fuel:
    [readi], [writei] and [filewrite] the byte count (every round moves a byte), [namex] the
    length of the path (every element shortens it), the line loop of grep the
    length of the buffer, [runcmd] the depth of the command, the shell's parser a
    multiple of the length of the line, and [malloc] twice the number of headers that
    fit the process's memory.  The theorems on these return results, so the fuel
    suffices.  The busy wait of the disk driver
    takes a bound on the rounds until the drive is ready, which its theorems assume.
    Programs that do not end (login, init) are checked for every number of steps.
    The file theorems assume the layout mkfs produces: one bitmap block
    ([sb_size <= BPB]; mkfs makes 1000 blocks), everything before the data area
    marked in use, and the log outside the blocks of files.  File-system code runs
    one process at a time: a sleep lock that is held ends the run; interleaving is
    modelled where a theorem is about it (Proc.v, Spinlock.v, Sched.v, Pipe.v,
    LockOrder.v).  A device inode is read and written through the table [devsw] of
    file.h, which is an argument of the definitions.  Hardware is an argument where
    its answers matter (status registers, key codes, the firmware's memory, the
    clock), and SegsSpec.v states how the processor reads its tables.

    ** Not modelled

    Assembly (bootasm.S, entry.S, entryother.S, initcode.S, swtch.S, trapasm.S,
    usys.S), which has no C semantics to translate; swtch is the change of thread in
    Sched.v, and the trap frame is an argument of [trap].  Of main.c, the calls that
    only start one component after the other, and the copy of the start code in
    startothers.  The test programs (usertests.c, forktest.c, stressfs.c and the
    account tests), which are checks of the system and not parts of it.  Declarations
    (defs.h, user.h, types.h).  Definitions without a theorem on their results
    include exec, fork, wait, sys_link and sys_unlink. *)

From Stdlib Require Export ZArith Lia.
From stdpp Require Export base tactics numbers strings option gmap list.

#[global] Open Scope Z_scope.

(** ** Tactics *)

(** [lia] extended to division and remainder by constants. *)
Ltac mlia := Z.to_euclidean_division_equations; lia.

(** Split the boolean tests of a goal or hypothesis into propositions. *)
Ltac bool_cases :=
  repeat match goal with
  | H : (_ && _)%bool = true |- _ => apply andb_true_iff in H as [? ?]
  | H : (_ || _)%bool = false |- _ => apply orb_false_iff in H as [? ?]
  | H : negb _ = true |- _ => apply negb_true_iff in H
  | H : negb _ = false |- _ => apply negb_false_iff in H
  | H : (_ =? _) = true |- _ => apply Z.eqb_eq in H
  | H : (_ =? _) = false |- _ => apply Z.eqb_neq in H
  | H : (_ <? _) = true |- _ => apply Z.ltb_lt in H
  | H : (_ <? _) = false |- _ => apply Z.ltb_ge in H
  | H : (_ <=? _) = true |- _ => apply Z.leb_le in H
  | H : (_ <=? _) = false |- _ => apply Z.leb_gt in H
  end.

(** Case split on the test of the first [if] of the goal. *)
Ltac case_if :=
  match goal with
  | |- context [if ?b then _ else _] => let E := fresh "E" in destruct b eqn:E
  end.

Ltac case_if_in H :=
  match type of H with
  | context [if ?b then _ else _] => let E := fresh "E" in destruct b eqn:E
  end.

(** ** Machine integers *)

(** C's [uint] arithmetic is arithmetic modulo 2^32; [ushort] modulo 2^16 and
    [uchar] modulo 2^8; [int], [short] and [char] are the two's complement
    readings. *)
Definition u32 (x : Z) : Z := x mod 4294967296.
Definition u16 (x : Z) : Z := x mod 65536.
Definition u8 (x : Z) : Z := x mod 256.
Definition i32 (x : Z) : Z := (x + 2147483648) mod 4294967296 - 2147483648.
Definition i16 (x : Z) : Z := (x + 32768) mod 65536 - 32768.
Definition i8 (x : Z) : Z := (x + 128) mod 256 - 128.

Definition is_u32 (x : Z) : Prop := 0 <= x < 4294967296.
Definition is_u16 (x : Z) : Prop := 0 <= x < 65536.
Definition is_byte (x : Z) : Prop := 0 <= x < 256.
Definition is_i32 (x : Z) : Prop := -2147483648 <= x < 2147483648.
Definition is_i16 (x : Z) : Prop := -32768 <= x < 32768.
Definition is_i8 (x : Z) : Prop := -128 <= x < 128.

Create HintDb word.
Create Rewrite HintDb word.

Lemma u32_range x : is_u32 (u32 x).
Proof. unfold is_u32, u32. mlia. Qed.

Lemma u16_range x : is_u16 (u16 x).
Proof. unfold is_u16, u16. mlia. Qed.

Lemma u8_range x : is_byte (u8 x).
Proof. unfold is_byte, u8. mlia. Qed.

Lemma u32_id x : is_u32 x -> u32 x = x.
Proof. unfold is_u32, u32. intros. by apply Z.mod_small. Qed.

Lemma u16_id x : is_u16 x -> u16 x = x.
Proof. unfold is_u16, u16. intros. by apply Z.mod_small. Qed.

Lemma u8_id x : is_byte x -> u8 x = x.
Proof. unfold is_byte, u8. intros. by apply Z.mod_small. Qed.

Lemma i32_id x : is_i32 x -> i32 x = x.
Proof. unfold is_i32, i32. intros. rewrite Z.mod_small; lia. Qed.

Lemma i16_id x : is_i16 x -> i16 x = x.
Proof. unfold is_i16, i16. intros. rewrite Z.mod_small; lia. Qed.

Lemma i8_id x : is_i8 x -> i8 x = x.
Proof. unfold is_i8, i8. intros. rewrite Z.mod_small; lia. Qed.

Lemma i32_u32 x : i32 (u32 x) = i32 x.
Proof. unfold i32, u32. mlia. Qed.

Lemma i16_u16 x : i16 (u16 x) = i16 x.
Proof. unfold i16, u16. mlia. Qed.

Lemma i8_u8 x : i8 (u8 x) = i8 x.
Proof. unfold i8, u8. mlia. Qed.

Lemma u32_add_l x y : u32 (u32 x + y) = u32 (x + y).
Proof. unfold u32. by rewrite Zplus_mod_idemp_l. Qed.

Lemma u32_add_r x y : u32 (x + u32 y) = u32 (x + y).
Proof. unfold u32. by rewrite Zplus_mod_idemp_r. Qed.

#[export] Hint Resolve u32_range u16_range u8_range : word.
#[export] Hint Rewrite u32_add_l u32_add_r i32_u32 i16_u16 i8_u8 : word.

(** A number or-ed with one that only has lower bits. *)
Lemma lor_low a b k : 0 <= k -> 0 <= b < 2 ^ k -> Z.lor (a * 2 ^ k) b = a * 2 ^ k + b.
Proof.
  intros Hk Hb. rewrite <- Z.add_lor_land.
  replace (Z.land (a * 2 ^ k) b) with 0; [lia|]. symmetry.
  apply Z.bits_inj'. intros n Hn. rewrite Z.land_spec, Z.bits_0.
  destruct (decide (n < k)); [by rewrite Z.mul_pow2_bits_low by lia|].
  rewrite <- (Z.mod_small b (2 ^ k)) by lia. rewrite Z.mod_pow2_bits_high by lia. apply andb_false_r.
Qed.

(** A check of finitely many cases. *)
Lemma forallb_seqZ f n i : forallb f (seqZ 0 n) = true -> 0 <= i < n -> f i = true.
Proof.
  intros H Hi. rewrite forallb_forall in H. apply H. rewrite <- list_elem_of_In, elem_of_seqZ. lia.
Qed.

(** ** Arrays indexed by [Z]

    A C array is a list; an index outside the array is a fault, so reading and
    writing are partial. *)
Definition zget {A} (l : list A) (i : Z) : option A :=
  if 0 <=? i then l !! Z.to_nat i else None.

Definition zset {A} (l : list A) (i : Z) (x : A) : option (list A) :=
  if (0 <=? i) && (i <? Z.of_nat (length l))
  then Some (<[Z.to_nat i := x]> l) else None.

Definition zlen {A} (l : list A) : Z := Z.of_nat (length l).

(** [len] bytes of [l] from offset [off]. *)
Definition slice {A} (off len : nat) (l : list A) : list A := take len (drop off l).

(** [src] stored over [l] from offset [off]. *)
Definition splice {A} (off : nat) (src l : list A) : list A :=
  take off l ++ src ++ drop (off + length src) l.

Create HintDb arr.
Create Rewrite HintDb arr.

Section Arrays.
Context {A : Type}.
Implicit Types (l src : list A) (x y : A) (i j : Z).

Lemma zget_nat l (n : nat) : zget l (Z.of_nat n) = l !! n.
Proof. unfold zget. rewrite (proj2 (Z.leb_le 0 _)) by lia. by rewrite Nat2Z.id. Qed.

Lemma zget_Some l i x : zget l i = Some x -> 0 <= i < zlen l /\ l !! Z.to_nat i = Some x.
Proof.
  unfold zget, zlen. case_if; [|done]. intros H. bool_cases.
  apply lookup_lt_Some in H as Hl. split; [lia | done].
Qed.

Lemma zget_is_Some l i : 0 <= i < zlen l -> is_Some (zget l i).
Proof.
  unfold zget, zlen. intros [H1 H2]. rewrite (proj2 (Z.leb_le 0 i)) by lia.
  apply lookup_lt_is_Some. lia.
Qed.

Lemma zget_None l i : zget l i = None <-> i < 0 \/ zlen l <= i.
Proof.
  unfold zget, zlen. case_if; bool_cases.
  - rewrite lookup_ge_None. lia.
  - split; [lia | done].
Qed.

Lemma zset_Some l i x l' :
  zset l i x = Some l' -> 0 <= i < zlen l /\ l' = <[Z.to_nat i := x]> l.
Proof. unfold zset, zlen. case_if; [|done]. intros [= <-]. bool_cases. done. Qed.

Lemma zset_ok l i x : 0 <= i < zlen l -> zset l i x = Some (<[Z.to_nat i := x]> l).
Proof.
  unfold zset, zlen. intros. rewrite (proj2 (Z.leb_le 0 i)), (proj2 (Z.ltb_lt i _)) by lia.
  done.
Qed.

Lemma zset_nat l (n : nat) x :
  (n < length l)%nat -> zset l (Z.of_nat n) x = Some (<[n := x]> l).
Proof. intros. rewrite zset_ok by (unfold zlen; lia). by rewrite Nat2Z.id. Qed.

Lemma elem_of_take_sub n l x : x ∈ take n l -> x ∈ l.
Proof. rewrite elem_of_take. intros (i & Hi & _). by eapply list_elem_of_lookup_2. Qed.

Lemma zlen_nonneg l : 0 <= zlen l.
Proof. unfold zlen. lia. Qed.

Lemma length_slice off len l :
  (off + len <= length l)%nat -> length (slice off len l) = len.
Proof. intros. unfold slice. rewrite length_take, length_drop. lia. Qed.

Lemma length_splice off src l :
  (off + length src <= length l)%nat -> length (splice off src l) = length l.
Proof. intros. unfold splice. rewrite !length_app, length_take, length_drop. lia. Qed.

Lemma lookup_slice off len l k :
  (k < len)%nat -> slice off len l !! k = l !! (off + k)%nat.
Proof. intros. unfold slice. rewrite lookup_take_lt, lookup_drop by lia. done. Qed.

Lemma lookup_splice_in off src l k :
  (off + length src <= length l)%nat -> (off <= k < off + length src)%nat ->
  splice off src l !! k = src !! (k - off)%nat.
Proof.
  intros Hl Hk. unfold splice.
  rewrite lookup_app_r by (rewrite length_take; lia).
  rewrite lookup_app_l by (rewrite length_take; lia).
  f_equal. rewrite length_take. lia.
Qed.

Lemma lookup_splice_out off src l k :
  (off + length src <= length l)%nat -> (k < off \/ off + length src <= k)%nat ->
  splice off src l !! k = l !! k.
Proof.
  intros Hl Hk. unfold splice. destruct (decide (k < off)%nat).
  - rewrite lookup_app_l by (rewrite length_take; lia). by apply lookup_take_lt.
  - rewrite lookup_app_r by (rewrite length_take; lia).
    rewrite lookup_app_r by (rewrite length_take; lia).
    rewrite lookup_drop. f_equal. rewrite length_take. lia.
Qed.

Lemma slice_splice_same off src l :
  (off + length src <= length l)%nat -> slice off (length src) (splice off src l) = src.
Proof.
  intros H. apply list_eq. intros k. destruct (decide (k < length src)%nat).
  - rewrite lookup_slice, lookup_splice_in by lia. f_equal. lia.
  - rewrite !lookup_ge_None_2; [done | lia |].
    rewrite length_slice by (rewrite length_splice; lia). lia.
Qed.

Lemma slice_splice_disjoint off src l o n :
  (off + length src <= length l)%nat -> (o + n <= off \/ off + length src <= o)%nat ->
  slice o n (splice off src l) = slice o n l.
Proof.
  intros H Hd. apply list_eq. intros k. destruct (decide (k < n)%nat).
  - rewrite !lookup_slice by lia. apply lookup_splice_out; lia.
  - rewrite !lookup_ge_None_2; [done | |];
      unfold slice; rewrite length_take; lia.
Qed.

Lemma slice_all l : slice 0 (length l) l = l.
Proof. unfold slice. rewrite drop_0, take_ge; done. Qed.

Lemma Forall_splice (P : A -> Prop) off src l :
  Forall P l -> Forall P src -> Forall P (splice off src l).
Proof.
  intros. unfold splice. rewrite !Forall_app.
  repeat split; auto using Forall_take, Forall_drop.
Qed.

End Arrays.

#[export] Hint Rewrite @length_slice @length_splice using lia : arr.
#[export] Hint Resolve zlen_nonneg Forall_splice : arr.

(** ** Little-endian integers in byte arrays *)

(** The low [n] bytes of [x], least significant first. *)
Fixpoint le_bytes (n : nat) (x : Z) : list Z :=
  match n with
  | O => []
  | S n' => x mod 256 :: le_bytes n' (x / 256)
  end.

Fixpoint le_val (bs : list Z) : Z :=
  match bs with
  | [] => 0
  | b :: bs' => b + 256 * le_val bs'
  end.

Lemma length_le_bytes n x : length (le_bytes n x) = n.
Proof. revert x. induction n; intros; simpl; auto. Qed.

Lemma le_bytes_byte n x : Forall is_byte (le_bytes n x).
Proof.
  revert x. induction n as [|n IH]; intros x; simpl; constructor; auto.
  apply u8_range.
Qed.

Lemma le_val_bytes n x : 0 <= x < 256 ^ Z.of_nat n -> le_val (le_bytes n x) = x.
Proof.
  revert x. induction n as [|n IH]; intros x Hx.
  - change (256 ^ Z.of_nat 0) with 1 in Hx. simpl. lia.
  - rewrite Nat2Z.inj_succ, Z.pow_succ_r in Hx by lia. cbn [le_bytes le_val].
    rewrite IH by (split; [apply Z.div_pos | apply Z.div_lt_upper_bound]; lia).
    pose proof (Z.div_mod x 256). lia.
Qed.

Lemma le_bytes_val bs : Forall is_byte bs -> le_bytes (length bs) (le_val bs) = bs.
Proof.
  induction 1 as [|b bs Hb _ IH]; [done|]. cbn [length le_bytes le_val].
  unfold is_byte in Hb.
  replace ((b + 256 * le_val bs) mod 256) with b
    by (rewrite Z.mul_comm, Z_mod_plus_full, Z.mod_small; lia).
  rewrite (Z.mul_comm 256), Z.div_add, Z.div_small by lia.
  by rewrite Z.add_0_l, IH.
Qed.

Lemma le_val_range bs : Forall is_byte bs -> 0 <= le_val bs < 256 ^ zlen bs.
Proof.
  unfold zlen. induction 1 as [|b bs Hb _ IH]; [simpl; lia|].
  cbn [length le_val]. unfold is_byte in Hb.
  rewrite Nat2Z.inj_succ, Z.pow_succ_r by lia. lia.
Qed.

(** A [uint] / [ushort] / [uchar] field at byte offset [off]. *)
Definition get_le (n off : nat) (d : list Z) : Z := le_val (slice off n d).
Definition set_le (n off : nat) (x : Z) (d : list Z) : list Z := splice off (le_bytes n x) d.

Lemma get_set_le_same n off x d :
  (off + n <= length d)%nat -> 0 <= x < 256 ^ Z.of_nat n ->
  get_le n off (set_le n off x d) = x.
Proof.
  intros Hl Hx. unfold get_le, set_le.
  rewrite <- (length_le_bytes n x) at 1.
  rewrite slice_splice_same by (rewrite length_le_bytes; lia).
  by apply le_val_bytes.
Qed.

Lemma get_set_le_other n off m o x d :
  (off + n <= length d)%nat -> (o + m <= off \/ off + n <= o)%nat ->
  get_le m o (set_le n off x d) = get_le m o d.
Proof.
  intros Hl Ho. unfold get_le, set_le.
  rewrite slice_splice_disjoint; rewrite ?length_le_bytes; done.
Qed.

Lemma length_set_le n off x d :
  (off + n <= length d)%nat -> length (set_le n off x d) = length d.
Proof. intros. unfold set_le. apply length_splice. rewrite length_le_bytes. lia. Qed.

Lemma set_le_bytes n off x d : Forall is_byte d -> Forall is_byte (set_le n off x d).
Proof. intros. apply Forall_splice; auto using le_bytes_byte. Qed.

Lemma get_le_range n off d :
  (off + n <= length d)%nat -> Forall is_byte d -> 0 <= get_le n off d < 256 ^ Z.of_nat n.
Proof.
  intros Hl Hd. unfold get_le.
  pose proof (le_val_range (slice off n d)) as H. unfold zlen in H.
  rewrite length_slice in H by lia. apply H.
  unfold slice. auto using Forall_take, Forall_drop.
Qed.

#[export] Hint Resolve set_le_bytes le_bytes_byte : arr.

(** ** Total functions updated at one point *)

Definition upd {A} (V : Z -> A) (b : Z) (d : A) : Z -> A :=
  fun b' => if decide (b' = b) then d else V b'.

Lemma upd_eq {A} (V : Z -> A) b d : upd V b d b = d.
Proof. unfold upd. by rewrite decide_True. Qed.

Lemma upd_ne {A} (V : Z -> A) b d b' : b' ≠ b -> upd V b d b' = V b'.
Proof. intros. unfold upd. by rewrite decide_False. Qed.
