(* ===== verification/KMonad.v ===== *)
(** * The kernel monad

    Kernel code is imperative: it reads and writes global tables, and it may
    stop.  A piece of kernel code is a function from the global state to an
    outcome: it returns a value and a new state, or it stops for one of five
    reasons.  [panic] is the kernel's [panic()] (console.c), which never
    returns; [asleep] means the running process would block in [sleep()] and
    nothing in the same thread can wake it; [exited] means it left for the
    scheduler in [exit()], which does not return; [fault] is an access outside an
    object (a NULL dereference, an index outside an array); [fuel] is only used
    by loops given an iteration bound, and theorems that a loop returns exclude
    it. *)

From S2P Require Import Prelude.

Inductive stop : Type :=
| panic_stop (msg : string)
| asleep_stop
| exited_stop
| fault_stop
| fuel_stop.

Inductive outcome (S A : Type) : Type :=
| Ok (a : A) (s : S)
| Halt (e : stop) (s : S).

Arguments Ok {S A} a s.
Arguments Halt {S A} e s.

#[export] Instance stop_eq_dec : EqDecision stop.
Proof. solve_decision. Defined.

Definition M (S A : Type) : Type := S -> outcome S A.

Definition ret {S A} (a : A) : M S A := fun s => Ok a s.

Definition bind {S A B} (m : M S A) (k : A -> M S B) : M S B :=
  fun s => match m s with Ok a s' => k a s' | Halt e s' => Halt e s' end.

Definition gets {S A} (f : S -> A) : M S A := fun s => Ok (f s) s.
Definition modify {S} (f : S -> S) : M S unit := fun s => Ok tt (f s).
Definition halt {S A} (e : stop) : M S A := fun s => Halt e s.
Definition panic {S A} (msg : string) : M S A := halt (panic_stop msg).

(** How a run ended. *)
Definition halted_with {S A} (e : stop) (o : outcome S A) : bool :=
  match o with Ok _ _ => false | Halt e' _ => bool_decide (e' = e) end.

(** A partial access: [None] is a fault. *)
Definition from_opt {S A} (o : option A) : M S A :=
  match o with Some a => ret a | None => halt fault_stop end.

Definition when {S} (b : bool) (m : M S unit) : M S unit := if b then m else ret tt.

(** Run code of a component inside a larger state. *)
Definition lift {S T A} (get : S -> T) (put : T -> S -> S) (m : M T A) : M S A :=
  fun s => match m (get s) with
           | Ok a t => Ok a (put t s)
           | Halt e t => Halt e (put t s)
           end.

Declare Scope kernel_scope.
Delimit Scope kernel_scope with kernel.

Notation "x <- c ;; k" := (bind c (fun x => k))
  (at level 100, c at next level, right associativity) : kernel_scope.
Notation "'let*' p := c 'in' k" := (bind c (fun p => k))
  (at level 100, p strict pattern, c at level 200, right associativity) : kernel_scope.
Notation "c ;;; k" := (bind c (fun _ => k))
  (at level 100, right associativity) : kernel_scope.

#[global] Open Scope kernel_scope.

(** [for (x in l) body(x)], in order. *)
Fixpoint for_each {S A} (l : list A) (body : A -> M S unit) : M S unit :=
  match l with
  | [] => ret tt
  | x :: l' => body x ;;; for_each l' body
  end.

(** A loop whose body may leave it with a value. *)
Fixpoint for_until {S A R} (l : list A) (body : A -> M S (option R)) : M S (option R) :=
  match l with
  | [] => ret None
  | x :: l' =>
      r <- body x ;;
      match r with Some v => ret (Some v) | None => for_until l' body end
  end.

(** ** Total correctness

    [wp m Q s]: started in [s], [m] returns, with a value and a state that
    satisfy [Q]; in particular it neither panics, blocks nor faults. *)
Definition wp {S A} (m : M S A) (Q : A -> S -> Prop) (s : S) : Prop :=
  match m s with Ok a s' => Q a s' | Halt _ _ => False end.

Create HintDb wp.

Section WP.
Context {S : Type}.

Lemma wp_ret {A} (a : A) Q (s : S) : Q a s -> wp (ret a) Q s.
Proof. done. Qed.

Lemma wp_bind {A B} (m : M S A) (k : A -> M S B) Q s :
  wp m (fun a => wp (k a) Q) s -> wp (bind m k) Q s.
Proof. unfold wp, bind. by destruct (m s). Qed.

Lemma bind_assoc {A B C} (m : M S A) (n : A -> M S B) (k : B -> M S C) s :
  bind m (fun a => bind (n a) k) s = bind (bind m n) k s.
Proof. unfold bind. by destruct (m s). Qed.

Lemma wp_assoc {A B C} (m : M S A) (n : A -> M S B) (k : B -> M S C) Q s :
  wp (bind (bind m n) k) Q s -> wp (bind m (fun a => bind (n a) k)) Q s.
Proof. unfold wp. by rewrite bind_assoc. Qed.

Lemma bind_Ok {A B} (m : M S A) (k : A -> M S B) s a s' :
  m s = Ok a s' -> bind m k s = k a s'.
Proof. unfold bind. by intros ->. Qed.

Lemma bind_inv {A B} (m : M S A) (k : A -> M S B) s b s' :
  bind m k s = Ok b s' -> exists a s1, m s = Ok a s1 /\ k a s1 = Ok b s'.
Proof. unfold bind. destruct (m s) as [a s1|]; [eauto|done]. Qed.

Lemma wp_gets {A} (f : S -> A) Q s : Q (f s) s -> wp (gets f) Q s.
Proof. done. Qed.

Lemma wp_modify (f : S -> S) (Q : unit -> S -> Prop) s : Q tt (f s) -> wp (modify f) Q s.
Proof. done. Qed.

Lemma wp_from_opt {A} (o : option A) a Q (s : S) : o = Some a -> Q a s -> wp (from_opt o) Q s.
Proof. by intros ->. Qed.

Lemma wp_mono {A} (m : M S A) (P Q : A -> S -> Prop) s :
  wp m P s -> (forall a s', P a s' -> Q a s') -> wp m Q s.
Proof. unfold wp. destruct (m s); auto. Qed.

Lemma wp_Ok {A} (m : M S A) Q s :
  wp m Q s <-> exists a s', m s = Ok a s' /\ Q a s'.
Proof.
  unfold wp. split.
  - destruct (m s) as [a s'|]; [eauto | done].
  - by intros (a & s' & -> & H).
Qed.

Lemma wp_for_each {A} (l : list A) (body : A -> M S unit)
    (I : list A -> list A -> S -> Prop) s :
  I [] l s ->
  (forall done x rest s', l = done ++ x :: rest -> I done (x :: rest) s' ->
     wp (body x) (fun _ => I (done ++ [x]) rest) s') ->
  wp (for_each l body) (fun _ => I l []) s.
Proof.
  intros H0 Hstep.
  enough (forall rest d s', l = d ++ rest -> I d rest s' ->
            wp (for_each rest body) (fun _ => I l []) s') as H by (by apply (H l [] s)).
  clear H0 s. induction rest as [|x rest IH]; intros d s' El HI; simpl.
  - apply wp_ret. rewrite app_nil_r in El. by subst.
  - apply wp_bind. eapply wp_mono; [by eapply Hstep|].
    intros [] s1 H1. apply (IH (d ++ [x])); [|done].
    by rewrite <- app_assoc.
Qed.

Lemma wp_for_seq (n : nat) (body : nat -> M S unit) (I : nat -> S -> Prop) s :
  I 0%nat s ->
  (forall i s', (i < n)%nat -> I i s' -> wp (body i) (fun _ => I (Datatypes.S i)) s') ->
  wp (for_each (seq 0 n) body) (fun _ => I n) s.
Proof.
  intros H0 Hstep.
  enough (Hg : forall k i s', (i + k = n)%nat -> I i s' ->
     wp (for_each (seq i k) body) (fun _ => I n) s') by (by apply (Hg n 0%nat)).
  induction k as [|k IH]; intros i s' Hik Hi; simpl.
  - apply wp_ret. by replace n with i by lia.
  - apply wp_bind. eapply wp_mono; [apply Hstep; [lia|done]|]. intros [] s1 H1. apply IH; [lia|done].
Qed.

End WP.

Lemma wp_lift {S T A} (get : S -> T) put (m : M T A) Q s :
  wp m (fun a t => Q a (put t s)) (get s) -> wp (lift get put m) Q s.
Proof. unfold wp, lift. by destruct (m (get s)). Qed.

#[export] Hint Resolve wp_ret wp_gets wp_modify : wp.

(** One symbolic step of a [wp] goal. *)
Ltac wp_step :=
  lazymatch goal with
  | |- wp (bind _ _) _ _ => apply wp_bind
  | |- wp (ret _) _ _ => apply wp_ret
  | |- wp (gets _) _ _ => apply wp_gets
  | |- wp (modify _) _ _ => apply wp_modify
  | |- wp (lift _ _ _) _ _ => apply wp_lift
  | |- wp (from_opt (Some _)) _ _ => apply (wp_from_opt _ _ _ _ eq_refl)
  | |- wp (when true _) _ _ => unfold when
  | |- wp (when false _) _ _ => unfold when
  end; cbn beta.

Ltac wp_steps := repeat wp_step.
