(* ===== verification/CString.v ===== *)
(** * string.c: memory and string routines of the kernel

    [memset], [memmove] and [memcmp] work on addresses, so they are modelled on
    a memory: the list of bytes from address 0.  The string routines only move
    forward from their pointer arguments; a pointer is modelled by the list of
    bytes from it to the end of the object it points into, and running past the
    end of that list is a fault ([None]).

    [cstr] is the abstract value of a C string, [cstrn n] the value of a string
    stored in a field of at most [n] bytes, which need not be terminated. *)

From S2P Require Import Prelude.

(** ** Memory blocks *)

(** [rep stosb] of x86.h: store the byte [data] [cnt] times. *)
Fixpoint stosb (mem : list Z) (addr data : Z) (cnt : nat) : option (list Z) :=
  match cnt with
  | O => Some mem
  | S cnt' => m ← zset mem addr (u8 data); stosb m (addr + 1) data cnt'
  end.

(** [rep stosl] of x86.h: store the 32-bit word [data], little endian. *)
Fixpoint stosl (mem : list Z) (addr data : Z) (cnt : nat) : option (list Z) :=
  match cnt with
  | O => Some mem
  | S cnt' =>
      m0 ← zset mem addr (u8 data);
      m1 ← zset m0 (addr + 1) (u8 (Z.shiftr data 8));
      m2 ← zset m1 (addr + 2) (u8 (Z.shiftr data 16));
      m3 ← zset m2 (addr + 3) (u8 (Z.shiftr data 24));
      stosl m3 (addr + 4) data cnt'
  end.

Definition memset (mem : list Z) (dst c n : Z) : option (list Z) :=
  if (Z.rem dst 4 =? 0) && (n mod 4 =? 0) then
    let c := Z.land c 255 in
    stosl mem dst
      (Z.lor (Z.lor (Z.lor (Z.shiftl c 24) (Z.shiftl c 16)) (Z.shiftl c 8)) c)
      (Z.to_nat (n / 4))
  else stosb mem dst c (Z.to_nat n).

(** [while(n-- > 0) *d++ = *s++;] *)
Fixpoint copy_up (mem : list Z) (d s : Z) (n : nat) : option (list Z) :=
  match n with
  | O => Some mem
  | S n' => b ← zget mem s; m ← zset mem d b; copy_up m (d + 1) (s + 1) n'
  end.

(** [while(n-- > 0) *--d = *--s;] *)
Fixpoint copy_down (mem : list Z) (d s : Z) (n : nat) : option (list Z) :=
  match n with
  | O => Some mem
  | S n' => b ← zget mem (s - 1); m ← zset mem (d - 1) b; copy_down m (d - 1) (s - 1) n'
  end.

Definition memmove (mem : list Z) (dst src n : Z) : option (list Z) :=
  if (src <? dst) && (src + n >? dst)
  then copy_down mem (dst + n) (src + n) (Z.to_nat n)
  else copy_up mem dst src (Z.to_nat n).

Definition memcpy (mem : list Z) (dst src n : Z) : option (list Z) := memmove mem dst src n.

Fixpoint memcmp (s1 s2 : list Z) (n : nat) : option Z :=
  match n with
  | O => Some 0
  | S n' =>
      match s1, s2 with
      | a :: s1', b :: s2' => if negb (a =? b) then Some (a - b) else memcmp s1' s2' n'
      | _, _ => None
      end
  end.

(** ** Strings *)

Fixpoint strncmp (p q : list Z) (n : nat) : option Z :=
  match n with
  | O => Some 0
  | S n' =>
      match p, q with
      | a :: p', b :: q' =>
          if negb (a =? 0) && (a =? b) then strncmp p' q' n' else Some (a - b)
      | _, _ => None
      end
  end.

(** [while(n-- > 0) *s++ = 0;] *)
Fixpoint zero_fill (s : list Z) (n : nat) : option (list Z) :=
  match n with
  | O => Some s
  | S n' => match s with [] => None | _ :: s' => cons 0 <$> zero_fill s' n' end
  end.

Fixpoint strncpy (s t : list Z) (n : nat) : option (list Z) :=
  match n with
  | O => Some s
  | S n' =>
      match s, t with
      | _ :: s', c :: t' =>
          if c =? 0 then cons 0 <$> zero_fill s' n' else cons c <$> strncpy s' t' n'
      | _, _ => None
      end
  end.

(** [*s = 0] *)
Definition put_nul (s : list Z) : option (list Z) :=
  match s with [] => None | _ :: s' => Some (0 :: s') end.

(** The loop of [safestrcpy] with [m] bytes left before the last one. *)
Fixpoint safestrcpy_loop (s t : list Z) (m : nat) : option (list Z) :=
  match m with
  | O => put_nul s
  | S m' =>
      match s, t with
      | _ :: s', c :: t' =>
          if c =? 0 then cons 0 <$> put_nul s' else cons c <$> safestrcpy_loop s' t' m'
      | _, _ => None
      end
  end.

Definition safestrcpy (s t : list Z) (n : Z) : option (list Z) :=
  if n <=? 0 then Some s else safestrcpy_loop s t (Z.to_nat (n - 1)).

Fixpoint strlen (s : list Z) : option Z :=
  match s with
  | [] => None
  | c :: s' => if c =? 0 then Some 0 else Z.succ <$> strlen s'
  end.

(** ** Abstract strings *)

Fixpoint cstrn (n : nat) (s : list Z) : list Z :=
  match n, s with
  | S n', c :: s' => if c =? 0 then [] else c :: cstrn n' s'
  | _, _ => []
  end.

Definition cstr (s : list Z) : list Z := cstrn (length s) s.

(** The string at a pointer to [s]; [None] when the scan leaves the object. *)
Definition string_at (s : list Z) : option (list Z) := if existsb (Z.eqb 0) s then Some (cstr s) else None.

(** The first [n] bytes of [s] can be scanned as a string: the scan meets a NUL
    or [n] bytes before the end of the object. *)
Fixpoint readable (n : nat) (s : list Z) : bool :=
  match n, s with
  | O, _ => true
  | S _, [] => false
  | S n', c :: s' => (c =? 0) || readable n' s'
  end.

(** [s] holds a terminated string. *)
Definition terminated (s : list Z) : bool := existsb (Z.eqb 0) s.

(** A C string for [l] inside a larger object. *)
Definition string_bytes (l rest : list Z) : list Z := l ++ 0 :: rest.

(** ** Memory blocks: lemmas *)

Lemma splice_nil {A} off (l : list A) : splice off [] l = l.
Proof. unfold splice. simpl. rewrite Nat.add_0_r. apply take_drop. Qed.

Lemma splice_cons {A} off (x : A) src l :
  (off + S (length src) <= length l)%nat ->
  splice (S off) src (<[off := x]> l) = splice off (x :: src) l.
Proof.
  intros H. apply list_eq. intros k.
  destruct (decide (off <= k < off + S (length src))%nat).
  - rewrite (lookup_splice_in off (x :: src)) by (simpl; lia).
    destruct (decide (k = off)) as [->|].
    + rewrite lookup_splice_out by (rewrite ?length_insert; lia).
      rewrite list_lookup_insert_eq by lia. by rewrite Nat.sub_diag.
    + rewrite lookup_splice_in by (rewrite ?length_insert; lia).
      replace (k - off)%nat with (S (k - S off)) by lia. done.
  - rewrite (lookup_splice_out off (x :: src)) by (simpl; lia).
    rewrite lookup_splice_out by (rewrite ?length_insert; lia).
    apply list_lookup_insert_ne. lia.
Qed.

Lemma splice_snoc {A} off (x : A) src l :
  (off + S (length src) <= length l)%nat ->
  splice off src (<[(off + length src)%nat := x]> l) = splice off (src ++ [x]) l.
Proof.
  intros H. apply list_eq. intros k.
  destruct (decide (off <= k < off + S (length src))%nat).
  - rewrite (lookup_splice_in off (src ++ [x])) by (rewrite ?length_app; simpl; lia).
    destruct (decide (k = off + length src)%nat) as [->|].
    + rewrite lookup_splice_out by (rewrite ?length_insert; lia).
      rewrite list_lookup_insert_eq by lia.
      rewrite lookup_app_r by lia. by replace (off + length src - off - length src)%nat with 0%nat by lia.
    + rewrite lookup_splice_in by (rewrite ?length_insert; lia).
      rewrite lookup_app_l by lia. done.
  - rewrite (lookup_splice_out off (src ++ [x])) by (rewrite ?length_app; simpl; lia).
    rewrite lookup_splice_out by (rewrite ?length_insert; lia).
    apply list_lookup_insert_ne. lia.
Qed.

Lemma stosb_fill mem (addr cnt : nat) c :
  (addr + cnt <= length mem)%nat ->
  stosb mem (Z.of_nat addr) c cnt = Some (splice addr (replicate cnt (u8 c)) mem).
Proof.
  revert mem addr. induction cnt as [|cnt IH]; intros mem addr H; simpl.
  - by rewrite splice_nil.
  - rewrite zset_nat by lia. simpl.
    replace (Z.of_nat addr + 1) with (Z.of_nat (S addr)) by lia.
    rewrite IH by (rewrite length_insert; lia).
    rewrite splice_cons by (rewrite length_replicate; lia). done.
Qed.

(** The four bytes of the word [memset] builds are all [c]. *)
Lemma fill_word_bytes c k :
  0 <= c < 256 -> k ∈ [0; 8; 16; 24] ->
  u8 (Z.shiftr (Z.lor (Z.lor (Z.lor (Z.shiftl c 24) (Z.shiftl c 16)) (Z.shiftl c 8)) c) k) = c.
Proof.
  intros Hc Hk.
  assert (Hall : Forall (fun c => Forall (fun k =>
    u8 (Z.shiftr (Z.lor (Z.lor (Z.lor (Z.shiftl c 24) (Z.shiftl c 16)) (Z.shiftl c 8)) c) k) = c)
    [0; 8; 16; 24]) (seqZ 0 256)).
  { apply (bool_decide_unpack _). by vm_compute. }
  rewrite Forall_forall in Hall. specialize (Hall c ltac:(apply elem_of_seqZ; lia)).
  rewrite Forall_forall in Hall. auto.
Qed.

Lemma stosl_fill mem (addr cnt : nat) c :
  0 <= c < 256 -> (addr + 4 * cnt <= length mem)%nat ->
  stosl mem (Z.of_nat addr)
    (Z.lor (Z.lor (Z.lor (Z.shiftl c 24) (Z.shiftl c 16)) (Z.shiftl c 8)) c) cnt
  = Some (splice addr (replicate (4 * cnt) c) mem).
Proof.
  intros Hc. revert mem addr. induction cnt as [|cnt IH]; intros mem addr H.
  - simpl. by rewrite splice_nil.
  - cbn [stosl].
    assert (Hb := fun k => fill_word_bytes c k Hc).
    rewrite <- (Z.shiftr_0_r (Z.lor _ c)) at 1.
    rewrite !Hb by (rewrite !elem_of_cons; tauto).
    replace (Z.of_nat addr + 1) with (Z.of_nat (S addr)) by lia.
    replace (Z.of_nat addr + 2) with (Z.of_nat (S (S addr))) by lia.
    replace (Z.of_nat addr + 3) with (Z.of_nat (S (S (S addr)))) by lia.
    replace (Z.of_nat addr + 4) with (Z.of_nat (S (S (S (S addr))))) by lia.
    do 4 (rewrite zset_nat by (rewrite ?length_insert; lia); cbn [mbind option_bind]).
    rewrite IH by (rewrite !length_insert; lia).
    replace (4 * S cnt)%nat with (S (S (S (S (4 * cnt))))) by lia.
    cbn [replicate]. f_equal.
    rewrite !splice_cons; rewrite ?length_insert; cbn [length];
      rewrite ?length_replicate; try lia. done.
Qed.

(** [memset] fills [n] bytes with [c], whatever the alignment of [dst]. *)
Lemma memset_fill mem (dst n : nat) c :
  (dst + n <= length mem)%nat ->
  memset mem (Z.of_nat dst) c (Z.of_nat n) = Some (splice dst (replicate n (u8 c)) mem).
Proof.
  intros H. unfold memset. case_if.
  - bool_cases. rewrite Z.rem_mod_nonneg in * by lia.
    replace (Z.land c 255) with (u8 c) by (symmetry; exact (Z.land_ones c 8 ltac:(lia))).
    rewrite stosl_fill by (unfold u8; mlia).
    do 3 f_equal. f_equal. mlia.
  - rewrite Nat2Z.id. by apply stosb_fill.
Qed.

Lemma slice_cons {A} off n (l : list A) x :
  l !! off = Some x -> slice off (S n) l = x :: slice (S off) n l.
Proof. intros H. unfold slice. by rewrite (drop_S l x off H). Qed.

Lemma slice_snoc {A} off n (l : list A) x :
  l !! (off + n)%nat = Some x -> slice off (S n) l = slice off n l ++ [x].
Proof.
  intros H. unfold slice. erewrite take_S_r; [done|]. by rewrite lookup_drop.
Qed.

Lemma copy_up_ok mem (d s n : nat) :
  (d + n <= length mem)%nat -> (s + n <= length mem)%nat ->
  (d <= s \/ s + n <= d)%nat ->
  copy_up mem (Z.of_nat d) (Z.of_nat s) n = Some (splice d (slice s n mem) mem).
Proof.
  revert mem d s. induction n as [|n IH]; intros mem d s Hd Hs Ho; simpl.
  - unfold slice. rewrite take_0. by rewrite splice_nil.
  - destruct (lookup_lt_is_Some_2 mem s ltac:(lia)) as [b Hb].
    rewrite zget_nat, Hb. simpl. rewrite zset_nat by lia. simpl.
    replace (Z.of_nat d + 1) with (Z.of_nat (S d)) by lia.
    replace (Z.of_nat s + 1) with (Z.of_nat (S s)) by lia.
    rewrite IH by (rewrite ?length_insert; lia). f_equal.
    rewrite (slice_cons _ _ _ _ Hb).
    rewrite <- splice_cons by (rewrite length_slice; lia).
    f_equal. apply list_eq. intros k. destruct (decide (k < n)%nat).
    + rewrite !lookup_slice by lia. apply list_lookup_insert_ne. lia.
    + rewrite !lookup_ge_None_2; [done| |]; unfold slice; rewrite length_take; lia.
Qed.

Lemma copy_down_ok mem (d s n : nat) :
  (d + n <= length mem)%nat -> (s + n <= length mem)%nat -> (s <= d)%nat ->
  copy_down mem (Z.of_nat (d + n)) (Z.of_nat (s + n)) n = Some (splice d (slice s n mem) mem).
Proof.
  revert mem. induction n as [|n IH]; intros mem Hd Hs Ho; simpl.
  - unfold slice. rewrite take_0. by rewrite splice_nil.
  - replace (Z.of_nat (s + S n) - 1) with (Z.of_nat (s + n)) by lia.
    replace (Z.of_nat (d + S n) - 1) with (Z.of_nat (d + n)) by lia.
    destruct (lookup_lt_is_Some_2 mem (s + n)%nat ltac:(lia)) as [b Hb].
    rewrite zget_nat, Hb. simpl. rewrite zset_nat by lia. simpl.
    rewrite IH by (rewrite ?length_insert; lia). f_equal.
    rewrite (slice_snoc _ _ _ _ Hb).
    rewrite <- splice_snoc by (rewrite length_slice; lia).
    rewrite length_slice by lia.
    f_equal. apply list_eq. intros k. destruct (decide (k < n)%nat).
    + rewrite !lookup_slice by lia. apply list_lookup_insert_ne. lia.
    + rewrite !lookup_ge_None_2; [done| |]; unfold slice; rewrite length_take; lia.
Qed.

(** [memmove] leaves at [dst] the [n] bytes that were at [src] before the
    call and changes nothing else, also when the two ranges overlap. *)
Theorem memmove_correct mem (dst src n : nat) :
  (dst + n <= length mem)%nat -> (src + n <= length mem)%nat ->
  memmove mem (Z.of_nat dst) (Z.of_nat src) (Z.of_nat n)
  = Some (splice dst (slice src n mem) mem).
Proof.
  intros Hd Hs. unfold memmove. rewrite Nat2Z.id. case_if.
  - bool_cases. rewrite <- !Nat2Z.inj_add. apply copy_down_ok; lia.
  - apply copy_up_ok; [lia..|].
    apply andb_false_iff in E as [E|E]; bool_cases; [lia|].
    rewrite Z.gtb_ltb in E. bool_cases. lia.
Qed.

Lemma memmove_correct_witness :
  memmove [1; 2; 3; 4; 5; 6] 2 0 4 = Some [1; 2; 1; 2; 3; 4].
Proof. apply (memmove_correct [1; 2; 3; 4; 5; 6] 2 0 4); simpl; lia. Defined.

(** [memset] stores [n] copies of the low byte of [c] from [dst] on and
    changes nothing else, on the word-filling path for aligned arguments as on
    the byte-filling path. *)
Theorem memset_correct mem (dst n : nat) c :
  (dst + n <= length mem)%nat ->
  memset mem (Z.of_nat dst) c (Z.of_nat n) = Some (splice dst (replicate n (u8 c)) mem).
Proof. exact (memset_fill mem dst n c). Qed.

Lemma memset_correct_witness :
  memset [9; 9; 9; 9; 9; 9; 9; 9] 4 257 4 = Some [9; 9; 9; 9; 1; 1; 1; 1].
Proof. apply (memset_correct [9; 9; 9; 9; 9; 9; 9; 9] 4 4 257); simpl; lia. Defined.

(** ** Strings: lemmas *)

Lemma cstrn_nonzero n s : Forall (fun c => c ≠ 0) (cstrn n s).
Proof.
  revert s. induction n as [|n IH]; intros [|c s]; simpl; try done.
  case_if; [done|]. bool_cases. by constructor.
Qed.

Lemma cstrn_length n s : (length (cstrn n s) <= n)%nat.
Proof.
  revert s. induction n as [|n IH]; intros [|c s]; simpl; try lia.
  case_if; simpl; [lia|]. specialize (IH s). lia.
Qed.

Lemma cstrn_bytes n s : Forall is_byte s -> Forall is_byte (cstrn n s).
Proof.
  intros Hs. revert n. induction Hs as [|c s Hc Hs IH]; intros [|n]; simpl; try done.
  case_if; [done|]. by constructor.
Qed.

Lemma cstrn_take n m s : (n <= m)%nat -> take n (cstrn m s) = cstrn n s.
Proof.
  revert m s. induction n as [|n IH]; intros [|m] [|c s] H; simpl; try done; [lia|].
  case_if; [done|]. simpl. f_equal. apply IH. lia.
Qed.

Lemma readable_length n s : (n <= length s)%nat -> readable n s = true.
Proof.
  revert s. induction n as [|n IH]; intros [|c s] H; simpl in *; try done; [lia|].
  rewrite IH by lia. apply orb_true_r.
Qed.

Lemma terminated_cons c s : terminated (c :: s) = ((c =? 0) || terminated s)%bool.
Proof. rewrite Z.eqb_sym. done. Qed.

Lemma readable_terminated n s : terminated s = true -> readable n s = true.
Proof.
  revert s. induction n as [|n IH]; intros [|c s] H; simpl; try done.
  rewrite terminated_cons in H. apply orb_true_iff in H as [->|H]; [done|].
  rewrite IH by done. apply orb_true_r.
Qed.

Lemma cstr_string_bytes l rest : Forall (fun c => c ≠ 0) l -> cstr (string_bytes l rest) = l.
Proof.
  unfold cstr, string_bytes. induction 1 as [|c l Hc Hl IH]; simpl; [done|].
  rewrite (proj2 (Z.eqb_neq c 0)) by done. by f_equal.
Qed.

Lemma terminated_string_bytes l rest : terminated (string_bytes l rest) = true.
Proof. unfold terminated, string_bytes. rewrite existsb_app. simpl. apply orb_true_r. Qed.

Lemma string_at_bytes l rest : Forall (fun c => c ≠ 0) l -> string_at (l ++ 0 :: rest) = Some l.
Proof.
  intros Hl. unfold string_at. fold (terminated (l ++ 0 :: rest)). change (l ++ 0 :: rest) with (string_bytes l rest).
  by rewrite terminated_string_bytes, cstr_string_bytes.
Qed.

(** Two strings in [n]-byte fields compare equal exactly when they denote the
    same characters; otherwise the result is the difference at the first
    character where they differ. *)
Lemma strncmp_total p q n :
  readable n p = true -> readable n q = true -> is_Some (strncmp p q n).
Proof.
  revert p q. induction n as [|n IH]; intros [|a p] [|b q]; simpl; try done.
  intros Hp Hq. case_if; [|done]. bool_cases. subst b.
  rewrite (proj2 (Z.eqb_neq a 0)) in Hp, Hq by done. auto.
Qed.

Lemma strncmp_zero p q n r :
  strncmp p q n = Some r -> (r = 0 <-> cstrn n p = cstrn n q).
Proof.
  revert p q. induction n as [|n IH]; intros [|a p] [|b q]; simpl; try (intros [= <-]; done); try done.
  case_if.
  - bool_cases. subst b. rewrite (proj2 (Z.eqb_neq a 0)) by done.
    intros Hr. rewrite (IH _ _ Hr). split; [by intros -> | by intros [= ->]].
  - intros [= <-]. apply andb_false_iff in E as [E|E]; bool_cases.
    + subst a. simpl. case_if; bool_cases; [by subst|]. split; [lia | done].
    + repeat case_if; bool_cases; subst; (split; [lia|]); try done. intros [= ->]. lia.
Qed.

(** [strncmp] returns 0 exactly when its arguments denote the same string in
    their first [n] bytes, and it never reads past a terminated (or long
    enough) argument. *)
Theorem strncmp_correct p q n :
  readable n p = true -> readable n q = true ->
  exists r, strncmp p q n = Some r /\ (r = 0 <-> cstrn n p = cstrn n q).
Proof.
  intros Hp Hq. destruct (strncmp_total p q n Hp Hq) as [r Hr].
  exists r. split; [done|]. by apply strncmp_zero.
Qed.

Lemma strncmp_correct_witness :
  exists r, strncmp [114; 111; 111; 116; 0] [114; 111; 111; 0; 5] 16 = Some r
            /\ (r = 0 <-> [114; 111; 111; 116] = [114; 111; 111]).
Proof. apply (strncmp_correct [114; 111; 111; 116; 0] [114; 111; 111; 0; 5] 16); reflexivity. Defined.

Lemma zero_fill_ok s n : (n <= length s)%nat -> zero_fill s n = Some (replicate n 0 ++ drop n s).
Proof.
  revert s. induction n as [|n IH]; intros [|c s] H; simpl in *; try done; [lia|].
  by rewrite IH by lia.
Qed.

Lemma strncpy_spec s t n :
  (n <= length s)%nat -> readable n t = true ->
  strncpy s t n = Some (cstrn n t ++ replicate (n - length (cstrn n t)) 0 ++ drop n s).
Proof.
  revert s t. induction n as [|n IH]; intros [|x s] [|c t] Hs Ht; simpl in *; try done; try lia.
  case_if.
  - rewrite zero_fill_ok by lia. done.
  - rewrite IH; [done | lia | done].
Qed.

Lemma cstrn_app_zero n l rest :
  Forall (fun c => c ≠ 0) l -> (length l <= n)%nat ->
  cstrn n (l ++ replicate (n - length l) 0 ++ rest) = l.
Proof.
  intros Hl. revert n. induction Hl as [|c l Hc Hl IH]; intros n Hn; simpl in *.
  - rewrite Nat.sub_0_r. destruct n; simpl; [by destruct rest|done].
  - destruct n as [|n]; [lia|]. simpl. rewrite (proj2 (Z.eqb_neq c 0)) by done.
    rewrite IH by lia. done.
Qed.

(** [strncpy] into an [n]-byte field stores the string [t] (cut to [n]
    characters), pads the field with NULs, and leaves what follows the field
    untouched; the field then denotes [t]. *)
Theorem strncpy_correct s t n :
  (n <= length s)%nat -> readable n t = true ->
  exists s', strncpy s t n = Some s' /\ cstrn n s' = cstrn n t
             /\ length s' = length s /\ drop n s' = drop n s.
Proof.
  intros Hs Ht. eexists. split; [by apply strncpy_spec|].
  pose proof (cstrn_length n t) as Hl. split; [|split].
  - apply cstrn_app_zero; [apply cstrn_nonzero | done].
  - rewrite !length_app, length_replicate, length_drop. lia.
  - rewrite app_assoc, drop_app_length'; [done|].
    rewrite length_app, length_replicate. lia.
Qed.

Lemma strncpy_correct_witness :
  exists s', strncpy [1; 2; 3; 4; 5] [65; 66; 0] 4 = Some s' /\ cstrn 4 s' = [65; 66]
             /\ length s' = 5%nat /\ drop 4 s' = [5].
Proof. apply (strncpy_correct [1; 2; 3; 4; 5] [65; 66; 0] 4); [simpl; lia | reflexivity]. Defined.

Lemma put_nul_ok s : (1 <= length s)%nat -> put_nul s = Some (0 :: drop 1 s).
Proof. destruct s; simpl; [lia | done]. Qed.

Lemma safestrcpy_loop_spec s t m :
  (m < length s)%nat -> readable m t = true ->
  exists s', safestrcpy_loop s t m = Some s' /\ length s' = length s
             /\ drop (S m) s' = drop (S m) s
             /\ exists rest, s' = cstrn m t ++ 0 :: rest.
Proof.
  revert s t. induction m as [|m IH]; intros [|x s] t Hs Ht; simpl in *; try lia.
  - eexists. do 3 (split; [done|]). by exists s.
  - destruct t as [|c t]; [done|]. case_if.
    + rewrite put_nul_ok by lia. eexists. split; [done|].
      destruct s as [|y s]; simpl in *; [lia|]. do 2 (split; [done|]). eauto.
    + destruct (IH s t ltac:(lia) Ht) as (s' & -> & Hl & Hd & rest & ->).
      eexists. split; [done|]. simpl in *. split; [lia|]. split; [done|]. eauto.
Qed.

(** [safestrcpy] into a buffer of [n > 0] bytes always leaves a terminated
    string there: [t] cut to [n - 1] characters; bytes after the buffer are
    untouched. *)
Theorem safestrcpy_correct s t n :
  0 < n <= zlen s -> readable (Z.to_nat (n - 1)) t = true ->
  exists s', safestrcpy s t n = Some s' /\ cstr s' = cstrn (Z.to_nat (n - 1)) t
             /\ length s' = length s /\ drop (Z.to_nat n) s' = drop (Z.to_nat n) s.
Proof.
  unfold zlen. intros Hn Ht. unfold safestrcpy.
  rewrite (proj2 (Z.leb_gt n 0)) by lia.
  destruct (safestrcpy_loop_spec s t (Z.to_nat (n - 1)) ltac:(lia) Ht)
    as (s' & -> & Hl & Hd & rest & ->).
  eexists. split; [done|]. split; [|split; [done|]].
  - apply (cstr_string_bytes _ rest). apply cstrn_nonzero.
  - by replace (Z.to_nat n) with (S (Z.to_nat (n - 1))) by lia.
Qed.

Lemma safestrcpy_correct_witness :
  exists s', safestrcpy [9; 9; 9; 9] [65; 66; 67; 68; 0] 3 = Some s' /\ cstr s' = [65; 66]
             /\ length s' = 4%nat /\ drop 3 s' = [9].
Proof. apply (safestrcpy_correct [9; 9; 9; 9] [65; 66; 67; 68; 0] 3); [split; reflexivity || discriminate | reflexivity]. Defined.

Lemma strlen_spec s : terminated s = true -> strlen s = Some (zlen (cstr s)).
Proof.
  unfold cstr, zlen. induction s as [|c s IH]; [done|]. intros H.
  rewrite terminated_cons in H. simpl. destruct (c =? 0); [done|].
  simpl in H. rewrite IH by done. simpl. f_equal. lia.
Qed.

Lemma cstr_cstrn n s : terminated s = true -> (length (cstr s) < n)%nat -> cstrn n s = cstr s.
Proof.
  unfold cstr. revert n. induction s as [|c s IH]; intros n Ht Hn; [by destruct n|].
  rewrite terminated_cons in Ht. destruct n as [|n]; simpl in *; [lia|].
  destruct (c =? 0); [done|]. simpl in *.
  f_equal. apply IH; [done | lia].
Qed.
