(* ===== verification/Params.v ===== *)
(** * Constants and on-disk formats: param.h, fs.h, stat.h, buf.h, fcntl.h, types

    The limits of param.h, the disk layout of fs.h with the byte offsets of the
    fields of its structures, and the macros that locate inodes and bitmap
    bits. *)

From S2P Require Import Prelude.

(** ** param.h *)
Definition NPROC : Z := 64.
Definition KSTACKSIZE : Z := 4096.
Definition NCPU : Z := 8.
Definition NOFILE : Z := 16.
Definition NFILE : Z := 100.
Definition NINODE : Z := 50.
Definition NDEV : Z := 10.
Definition ROOTDEV : Z := 1.
Definition MAXARG : Z := 32.
Definition MAXOPBLOCKS : Z := 10.
Definition LOGSIZE : Z := MAXOPBLOCKS * 3.
Definition NBUF : Z := MAXOPBLOCKS * 3.
Definition FSSIZE : Z := 1000.
Definition USERNAME_MAXLEN : Z := 16.
Definition USER_PW_MAXLEN : Z := 16.
Definition NUSER : Z := 10.
Definition ROOT_UID : Z := 1.

(** ** fs.h *)
Definition ROOTINO : Z := 1.
Definition BSIZE : Z := 512.
Definition NDIRECT : Z := 11.
Definition NINDIRECT : Z := BSIZE / 4.
Definition MAXFILE : Z := NDIRECT + NINDIRECT.
Definition DIRSIZ : Z := 14.

Record superblock := mkSuperblock {
  sb_size : Z; sb_nblocks : Z; sb_ninodes : Z; sb_nlog : Z;
  sb_logstart : Z; sb_inodestart : Z; sb_bmapstart : Z }.

(** [struct dinode]: perm 0, type 1, major 2, minor 4, nlink 6, size 8,
    addrs 12 .. 59, owner 60. *)
Definition sizeof_dinode : Z := 64.
Definition IPB : Z := BSIZE / sizeof_dinode.
Definition IBLOCK (i : Z) (sb : superblock) : Z := i / IPB + sb_inodestart sb.
Definition BPB : Z := BSIZE * 8.
Definition BBLOCK (b : Z) (sb : superblock) : Z := b / BPB + sb_bmapstart sb.

(** [struct dirent]: inum 0, name 2 .. 15. *)
Definition sizeof_dirent : Z := 16.

Definition MODE_RUSR : Z := 32.
Definition MODE_WUSR : Z := 16.
Definition MODE_XUSR : Z := 8.
Definition MODE_ROTH : Z := 4.
Definition MODE_WOTH : Z := 2.
Definition MODE_XOTH : Z := 1.
Definition MODE_ALL : Z := 63.

(** ** stat.h, buf.h, fcntl.h *)
Definition T_DIR : Z := 1.
Definition T_FILE : Z := 2.
Definition T_DEV : Z := 3.

Definition B_VALID : Z := 2.
Definition B_DIRTY : Z := 4.

Definition O_RDONLY : Z := 0.
Definition O_WRONLY : Z := 1.
Definition O_RDWR : Z := 2.
Definition O_CREATE : Z := 512.

(** ** Blocks *)

Definition zero_block : list Z := replicate 512 0.

Definition wf_block (d : list Z) : Prop := length d = 512%nat /\ Forall is_byte d.

(** [memmove(sb, bp->data, sizeof( *sb))]: the super block at the start of a block. *)
Definition decode_superblock (d : list Z) : superblock :=
  mkSuperblock (get_le 4 0 d) (get_le 4 4 d) (get_le 4 8 d) (get_le 4 12 d)
               (get_le 4 16 d) (get_le 4 20 d) (get_le 4 24 d).

Lemma zero_block_wf : wf_block zero_block.
Proof. split; [done|]. by apply Forall_replicate. Qed.

Lemma wf_block_set_le n off x d :
  (off + n <= 512)%nat -> wf_block d -> wf_block (set_le n off x d).
Proof.
  intros Hn [Hl Hb]. split; [|auto with arr].
  rewrite length_set_le; lia.
Qed.

#[export] Hint Resolve zero_block_wf wf_block_set_le : arr.
