(* ===== verification/Bio.v ===== *)
(** * bio.c, memide.c, sleeplock.c: the buffer cache over the disk

    The state is the array of [NBUF] buffers, the order of the list through
    their [next] pointers (from [bcache.head.next], most recently used first),
    and the disk.  The disk driver is memide.c's: a request is carried out by
    [iderw] itself.  [wlog] records every block write the driver has issued, in
    order: a crash leaves the effect of some prefix of these writes on the disk.

    The model is of one process running kernel code; it would block ([asleep])
    where the code sleeps on a lock that is held. *)

From S2P Require Import Prelude KMonad Params.

(** ** Sleep locks (sleeplock.c) *)

Record sleeplock := mkSleeplock { sl_locked : Z; sl_pid : Z }.

Definition initsleeplock : sleeplock := mkSleeplock 0 0.

(** [None]: the caller sleeps until the lock is released. *)
Definition acquiresleep (pid : Z) (lk : sleeplock) : option sleeplock :=
  if negb (sl_locked lk =? 0) then None else Some (mkSleeplock 1 pid).

Definition releasesleep (lk : sleeplock) : sleeplock := mkSleeplock 0 0.

Definition holdingsleep (pid : Z) (lk : sleeplock) : bool :=
  negb (sl_locked lk =? 0) && (sl_pid lk =? pid).

(** ** Buffers and the disk *)

Record buf := mkBuf {
  b_flags : Z; b_dev : Z; b_blockno : Z; b_lock : sleeplock; b_refcnt : Z;
  b_data : list Z }.

Record bio := mkBio {
  bufs : list buf;              (* bcache.buf *)
  lru : list nat;               (* bcache.head.next, its next, ... *)
  disk : gmap Z (list Z);       (* memdisk, one entry per block written so far *)
  disksize : Z;
  wlog : list (Z * list Z);
  cpid : Z                      (* myproc()->pid *)
}.

Definition set_bufs (l : list buf) (s : bio) : bio :=
  mkBio l (lru s) (disk s) (disksize s) (wlog s) (cpid s).
Definition set_lru (l : list nat) (s : bio) : bio :=
  mkBio (bufs s) l (disk s) (disksize s) (wlog s) (cpid s).

(** A block of the disk image; blocks never written hold zeroes. *)
Definition dread (d : gmap Z (list Z)) (b : Z) : list Z := default zero_block (d !! b).

Definition disk_write (b : Z) (d : list Z) (s : bio) : bio :=
  mkBio (bufs s) (lru s) (<[b := d]> (disk s)) (disksize s) (wlog s ++ [(b, d)]) (cpid s).

(** The effect of a sequence of block writes on a disk. *)
Definition apply_writes (ws : list (Z * list Z)) (d : gmap Z (list Z)) : gmap Z (list Z) :=
  foldl (fun d w => <[w.1 := w.2]> d) d ws.

Definition get_buf (i : nat) : M bio buf := fun s => from_opt (bufs s !! i) s.
Definition put_buf (i : nat) (b : buf) : M bio unit :=
  modify (fun s => set_bufs (<[i := b]> (bufs s)) s).

Definition set_flags (f : Z) (b : buf) : buf :=
  mkBuf f (b_dev b) (b_blockno b) (b_lock b) (b_refcnt b) (b_data b).
Definition set_lock (l : sleeplock) (b : buf) : buf :=
  mkBuf (b_flags b) (b_dev b) (b_blockno b) l (b_refcnt b) (b_data b).
Definition set_refcnt (r : Z) (b : buf) : buf :=
  mkBuf (b_flags b) (b_dev b) (b_blockno b) (b_lock b) r (b_data b).
Definition set_data (d : list Z) (b : buf) : buf :=
  mkBuf (b_flags b) (b_dev b) (b_blockno b) (b_lock b) (b_refcnt b) d.

(** [b->data], read and stored through the buffer pointer. *)
Definition read_data (i : nat) : M bio (list Z) := b <- get_buf i ;; ret (b_data b).
Definition write_data (i : nat) (d : list Z) : M bio unit :=
  b <- get_buf i ;; put_buf i (set_data d b).

Definition flag (f : Z) (b : buf) : bool := negb (Z.land (b_flags b) f =? 0).

(** ** Operations *)

(** [bcache] after [binit]: every buffer zeroed, pushed in turn to the front of
    the list. *)
Definition zero_buf : buf := mkBuf 0 0 0 initsleeplock 0 zero_block.

Definition binit (d : gmap Z (list Z)) (dsize pid : Z) : bio :=
  mkBio (replicate (Z.to_nat NBUF) zero_buf)
        (foldl (fun l i => i :: l) [] (seq 0 (Z.to_nat NBUF))) d dsize [] pid.

(** The first buffer in list order [order] that satisfies [p]. *)
Fixpoint scan (p : buf -> bool) (order : list nat) (l : list buf) : option nat :=
  match order with
  | [] => None
  | i :: order' =>
      match l !! i with
      | Some b => if p b then Some i else scan p order' l
      | None => scan p order' l
      end
  end.

Definition buf_is (dev blockno : Z) (b : buf) : bool :=
  (b_dev b =? dev) && (b_blockno b =? blockno).

Definition buf_unused (b : buf) : bool :=
  (b_refcnt b =? 0) && (Z.land (b_flags b) B_DIRTY =? 0).

Definition acquire_buf (i : nat) : M bio unit :=
  b <- get_buf i ;;
  pid <- gets cpid ;;
  match acquiresleep pid (b_lock b) with
  | Some l => put_buf i (set_lock l b)
  | None => halt asleep_stop
  end.

Definition bget (dev blockno : Z) : M bio nat :=
  s <- gets id ;;
  match scan (buf_is dev blockno) (lru s) (bufs s) with
  | Some i =>
      b <- get_buf i ;;
      put_buf i (set_refcnt (u32 (b_refcnt b + 1)) b) ;;;
      acquire_buf i ;;; ret i
  | None =>
      match scan buf_unused (rev (lru s)) (bufs s) with
      | Some i =>
          b <- get_buf i ;;
          put_buf i (mkBuf 0 dev blockno (b_lock b) 1 (b_data b)) ;;;
          acquire_buf i ;;; ret i
      | None => panic "bget: no buffers"
      end
  end.

(** memide.c: sync the buffer with the disk. *)
Definition iderw (i : nat) : M bio unit :=
  b <- get_buf i ;;
  pid <- gets cpid ;;
  if negb (holdingsleep pid (b_lock b)) then panic "iderw: buf not locked"
  else if Z.land (b_flags b) (Z.lor B_VALID B_DIRTY) =? B_VALID
  then panic "iderw: nothing to do"
  else if negb (b_dev b =? 1) then panic "iderw: request not for disk 1"
  else
    sz <- gets disksize ;;
    if sz <=? b_blockno b then panic "iderw: block out of range"
    else if flag B_DIRTY b then
      modify (disk_write (b_blockno b) (b_data b)) ;;;
      put_buf i (set_flags (Z.lor (Z.land (b_flags b) (Z.lnot B_DIRTY)) B_VALID) b)
    else
      d <- gets disk ;;
      put_buf i (set_flags (Z.lor (b_flags b) B_VALID)
                   (set_data (dread d (b_blockno b)) b)).

Definition bread (dev blockno : Z) : M bio nat :=
  i <- bget dev blockno ;;
  b <- get_buf i ;;
  when (Z.land (b_flags b) B_VALID =? 0) (iderw i) ;;;
  ret i.

Definition bwrite (i : nat) : M bio unit :=
  b <- get_buf i ;;
  pid <- gets cpid ;;
  if negb (holdingsleep pid (b_lock b)) then panic "bwrite"
  else
    put_buf i (set_flags (Z.lor (b_flags b) B_DIRTY) b) ;;;
    iderw i.

(** [b->flags |= B_DIRTY]: keep the buffer in the cache (log.c). *)
Definition pin (i : nat) : M bio unit :=
  b <- get_buf i ;; put_buf i (set_flags (Z.lor (b_flags b) B_DIRTY) b).

(** [b->next->prev = b->prev; ... bcache.head.next = b;]: unlink [i] from the
    list and insert it at the front. *)
Definition move_to_front (i : nat) (l : list nat) : list nat :=
  i :: filter (fun j => j ≠ i) l.

Definition brelse (i : nat) : M bio unit :=
  b <- get_buf i ;;
  pid <- gets cpid ;;
  if negb (holdingsleep pid (b_lock b)) then panic "brelse"
  else
    let b := set_refcnt (u32 (b_refcnt b - 1)) (set_lock (releasesleep (b_lock b)) b) in
    put_buf i b ;;;
    when (b_refcnt b =? 0) (modify (fun s => set_lru (move_to_front i (lru s)) s)).

(** ** Invariant *)

Definition free_lock : sleeplock := mkSleeplock 0 0.

(** A buffer between two calls: never used, or holding a block of disk 1; held
    by the running process or not; and when it is neither held nor dirty its
    data is what the disk holds. *)
Record buf_ok (d : gmap Z (list Z)) (dsize pid : Z) (b : buf) : Prop := {
  bo_data : wf_block (b_data b);
  bo_state : (b_flags b = 0 /\ b_dev b = 0 /\ b_refcnt b = 0)
             \/ ((b_flags b = 2 \/ b_flags b = 6) /\ b_dev b = 1 /\ 0 <= b_blockno b < dsize);
  bo_lock : (b_refcnt b = 0 /\ b_lock b = free_lock)
            \/ (b_refcnt b = 1 /\ b_lock b = mkSleeplock 1 pid);
  bo_clean : b_refcnt b = 0 -> b_flags b = 2 -> b_data b = dread d (b_blockno b) }.

Record bio_inv (s : bio) : Prop := {
  bi_len : length (bufs s) = Z.to_nat NBUF;
  bi_lru : lru s ≡ₚ seq 0 (Z.to_nat NBUF);
  bi_ok : Forall (buf_ok (disk s) (disksize s) (cpid s)) (bufs s);
  bi_uniq : forall i j bi bj, bufs s !! i = Some bi -> bufs s !! j = Some bj ->
      b_dev bi = 1 -> b_dev bj = 1 -> b_blockno bi = b_blockno bj -> i = j;
  bi_disk : map_Forall (fun _ d => wf_block d) (disk s) }.

(** The block contents the kernel works with: the cached copy when there is
    one, else what the disk holds. *)
Definition view (s : bio) (b : Z) : list Z :=
  match scan (buf_is 1 b) (lru s) (bufs s) with
  | Some i => match bufs s !! i with Some bf => b_data bf | None => [] end
  | None => dread (disk s) b
  end.

Definition held (s : bio) (i : nat) (bf : buf) : Prop :=
  bufs s !! i = Some bf /\ b_refcnt bf = 1.

(** ** Lemmas on scanning and on the invariant *)

Lemma scan_Some p order l i :
  scan p order l = Some i -> i ∈ order /\ exists b, l !! i = Some b /\ p b = true.
Proof.
  induction order as [|j order IH]; simpl; [done|].
  destruct (l !! j) as [b|] eqn:Hj.
  - destruct (p b) eqn:Hp.
    + intros [= <-]. split; [by left | eauto].
    + intros H. apply IH in H as [? ?]. split; [by right|done].
  - intros H. apply IH in H as [? ?]. split; [by right|done].
Qed.

Lemma scan_None p order l i b :
  scan p order l = None -> i ∈ order -> l !! i = Some b -> p b = false.
Proof.
  induction order as [|j order IH]; simpl; [set_solver|].
  destruct (l !! j) as [b'|] eqn:Hj.
  - destruct (p b') eqn:Hp; [done|]. intros Hs [->|Hi]%elem_of_cons Hb; [congruence|auto].
  - intros Hs [->|Hi]%elem_of_cons Hb; [congruence|auto].
Qed.

Lemma scan_is_Some p order l i b :
  i ∈ order -> l !! i = Some b -> p b = true -> is_Some (scan p order l).
Proof.
  intros Hi Hb Hp. destruct (scan p order l) eqn:E; [done|].
  rewrite (scan_None _ _ _ _ _ E Hi Hb) in Hp. done.
Qed.

Lemma buf_is_true dev b bf : buf_is dev b bf = true <-> b_dev bf = dev /\ b_blockno bf = b.
Proof. unfold buf_is. rewrite andb_true_iff, !Z.eqb_eq. done. Qed.

Lemma dread_wf d b : map_Forall (fun _ x => wf_block x) d -> wf_block (dread d b).
Proof.
  intros H. unfold dread. destruct (d !! b) eqn:E; simpl; [by eapply H | apply zero_block_wf].
Qed.

Section Inv.
Variable s : bio.
Hypothesis Hinv : bio_inv s.

Lemma inv_buf i bf : bufs s !! i = Some bf -> buf_ok (disk s) (disksize s) (cpid s) bf.
Proof. intros H. eapply Forall_lookup_1; [apply (bi_ok _ Hinv) | done]. Qed.

Lemma inv_in_lru i bf : bufs s !! i = Some bf -> i ∈ lru s.
Proof.
  intros H. rewrite (bi_lru _ Hinv). apply elem_of_seq.
  apply lookup_lt_Some in H. rewrite (bi_len _ Hinv) in H. lia.
Qed.

Lemma inv_scan_hit b i bf :
  bufs s !! i = Some bf -> b_dev bf = 1 -> b_blockno bf = b ->
  scan (buf_is 1 b) (lru s) (bufs s) = Some i.
Proof.
  intros Hi Hd Hb.
  destruct (scan_is_Some (buf_is 1 b) (lru s) (bufs s) i bf) as [j Hj];
    [by eapply inv_in_lru | done | by apply buf_is_true |].
  rewrite Hj. f_equal. apply scan_Some in Hj as [_ (bj & Hbj & Hp)].
  apply buf_is_true in Hp as [? ?].
  by eapply (bi_uniq _ Hinv j i bj bf); try congruence.
Qed.

Lemma view_cached b i bf :
  bufs s !! i = Some bf -> b_dev bf = 1 -> b_blockno bf = b -> view s b = b_data bf.
Proof. intros Hi Hd Hb. unfold view. rewrite (inv_scan_hit b i bf) by done. by rewrite Hi. Qed.

Lemma view_uncached b :
  (forall i bf, bufs s !! i = Some bf -> buf_is 1 b bf = false) -> view s b = dread (disk s) b.
Proof.
  intros H. unfold view. destruct (scan _ _ _) as [i|] eqn:E; [|done].
  apply scan_Some in E as [_ (bf & Hbf & Hp)]. rewrite (H _ _ Hbf) in Hp. done.
Qed.

Lemma view_cases b :
  (exists i bf, bufs s !! i = Some bf /\ b_dev bf = 1 /\ b_blockno bf = b /\ view s b = b_data bf)
  \/ ((forall i bf, bufs s !! i = Some bf -> buf_is 1 b bf = false)
      /\ view s b = dread (disk s) b).
Proof.
  destruct (scan (buf_is 1 b) (lru s) (bufs s)) as [i|] eqn:E.
  - left. apply scan_Some in E as [_ (bf & Hbf & Hp)]. apply buf_is_true in Hp as [? ?].
    exists i, bf. repeat split; try done. by eapply view_cached.
  - right. assert (forall i bf, bufs s !! i = Some bf -> buf_is 1 b bf = false) as H.
    { intros i bf Hi. eapply scan_None; [done | by eapply inv_in_lru | done]. }
    split; [done | by apply view_uncached].
Qed.

Lemma view_wf b : wf_block (view s b).
Proof.
  destruct (view_cases b) as [(i & bf & Hi & _ & _ & ->)|[_ ->]].
  - apply (inv_buf _ _ Hi).
  - apply dread_wf, (bi_disk _ Hinv).
Qed.

(** Replacing one buffer and possibly the disk keeps the invariant when the
    new buffer is fine, is the only one for its block, and the other clean
    buffers still agree with the disk. *)
Lemma inv_update i bf bf' d' wl :
  bufs s !! i = Some bf ->
  buf_ok d' (disksize s) (cpid s) bf' ->
  (b_dev bf' = 1 -> forall j bj, j ≠ i -> bufs s !! j = Some bj ->
     b_dev bj = 1 -> b_blockno bj ≠ b_blockno bf') ->
  (forall j bj, j ≠ i -> bufs s !! j = Some bj -> b_dev bj = 1 ->
     dread d' (b_blockno bj) = dread (disk s) (b_blockno bj)) ->
  map_Forall (fun _ x => wf_block x) d' ->
  bio_inv (mkBio (<[i := bf']> (bufs s)) (lru s) d' (disksize s) wl (cpid s)).
Proof.
  intros Hi Hok Hu Hd Hd'. split; simpl.
  - rewrite length_insert. apply Hinv.
  - apply Hinv.
  - apply Forall_lookup_2. intros j bj Hj.
    destruct (decide (j = i)) as [->|Hne].
    + rewrite list_lookup_insert_eq in Hj by (by eapply lookup_lt_Some). by simplify_eq.
    + rewrite list_lookup_insert_ne in Hj by done.
      destruct (inv_buf _ _ Hj) as [H1 H2 H3 H4]. split; try done.
      intros Hr Hf. rewrite (Hd j bj) by (done || (destruct H2 as [[? _]|[_ [? _]]]; [lia|done])).
      auto.
  - intros j k bj bk Hj Hk Hdj Hdk Hb.
    destruct (decide (j = i)) as [->|Hj']; destruct (decide (k = i)) as [->|Hk']; try done;
      rewrite ?list_lookup_insert_eq in Hj by (by eapply lookup_lt_Some);
      rewrite ?list_lookup_insert_eq in Hk by (by eapply lookup_lt_Some);
      rewrite ?list_lookup_insert_ne in Hj by done;
      rewrite ?list_lookup_insert_ne in Hk by done; simplify_eq.
    + exfalso. by eapply (Hu Hdj k bk).
    + exfalso. by eapply (Hu Hdk j bj).
    + by eapply (bi_uniq _ Hinv).
  - done.
Qed.

(** The view after such an update. *)
Lemma view_update i bf bf' d' wl b :
  bufs s !! i = Some bf ->
  bio_inv (mkBio (<[i := bf']> (bufs s)) (lru s) d' (disksize s) wl (cpid s)) ->
  (b_dev bf = 1 -> b_blockno bf ≠ b_blockno bf' -> b_data bf = dread d' (b_blockno bf)) ->
  b_dev bf' = 1 -> b ≠ b_blockno bf' ->
  (dread d' b = dread (disk s) b) ->
  view (mkBio (<[i := bf']> (bufs s)) (lru s) d' (disksize s) wl (cpid s)) b = view s b.
Proof.
  intros Hi Hinv' Hold Hdev Hb Hd. set (s' := mkBio _ _ _ _ _ _) in *.
  assert (Hil : (i < length (bufs s))%nat) by (by eapply lookup_lt_Some).
  destruct (view_cases b) as [(j & bj & Hj & Hdj & Hbj & ->)|[Hno ->]].
  - destruct (decide (j = i)) as [->|Hne].
    + assert (bj = bf) as -> by congruence. unfold view. destruct (scan _ _ _) as [k|] eqn:E.
      * exfalso. apply scan_Some in E as [_ (bk & Hk & Hp)]. apply buf_is_true in Hp as [? ?].
        simpl in Hk. destruct (decide (k = i)) as [->|].
        -- rewrite list_lookup_insert_eq in Hk by done. congruence.
        -- rewrite list_lookup_insert_ne in Hk by done.
           assert (k = i); [|done]. eapply (bi_uniq _ Hinv k i bk bf); congruence.
      * simpl. symmetry. rewrite <- Hbj. apply Hold; [done|congruence].
    + unfold view. assert (scan (buf_is 1 b) (lru s') (bufs s') = Some j) as ->.
      { destruct (scan_is_Some (buf_is 1 b) (lru s') (bufs s') j bj) as [k Hk].
        - by eapply inv_in_lru.
        - simpl. by rewrite list_lookup_insert_ne.
        - by apply buf_is_true.
        - rewrite Hk. f_equal. apply scan_Some in Hk as [_ (bk & Hbk & Hp)].
          apply buf_is_true in Hp as [? ?].
          eapply (bi_uniq _ Hinv' k j bk bj); try done; [|congruence].
          simpl. by rewrite list_lookup_insert_ne. }
      simpl. by rewrite list_lookup_insert_ne, Hj.
  - unfold view. destruct (scan _ _ _) as [k|] eqn:E; [|done].
    exfalso. apply scan_Some in E as [_ (bk & Hk & Hp)]. simpl in Hk.
    destruct (decide (k = i)) as [->|].
    + rewrite list_lookup_insert_eq in Hk by done. simplify_eq.
      apply buf_is_true in Hp as [? ?]. congruence.
    + rewrite list_lookup_insert_ne in Hk by done. rewrite (Hno _ _ Hk) in Hp. done.
Qed.
End Inv.

(** ** Symbolic execution of the operations *)

Lemma filter_notin (i : nat) (l : list nat) : i ∉ l -> filter (fun j => j ≠ i) l = l.
Proof.
  induction l as [|j l IH]; intros H; [done|]. rewrite not_elem_of_cons in H.
  rewrite filter_cons_True by (intros ->; tauto). f_equal. tauto.
Qed.

Definition held_buf (f pid b : Z) (d : list Z) : buf :=
  mkBuf f 1 b (mkSleeplock 1 pid) 1 d.

Lemma wp_get_buf i bf (Q : buf -> bio -> Prop) s :
  bufs s !! i = Some bf -> Q bf s -> wp (get_buf i) Q s.
Proof. intros H HQ. unfold wp, get_buf. by rewrite H. Qed.

Lemma wp_put_buf i bf (Q : unit -> bio -> Prop) s :
  Q tt (set_bufs (<[i := bf]> (bufs s)) s) -> wp (put_buf i bf) Q s.
Proof. done. Qed.

Lemma wp_acquire_buf i bf (Q : unit -> bio -> Prop) s :
  bufs s !! i = Some bf -> b_lock bf = free_lock ->
  Q tt (set_bufs (<[i := set_lock (mkSleeplock 1 (cpid s)) bf]> (bufs s)) s) ->
  wp (acquire_buf i) Q s.
Proof.
  intros Hi Hl HQ. unfold acquire_buf. wp_step. eapply wp_get_buf; [done|].
  wp_steps. by rewrite Hl.
Qed.

Lemma wp_iderw_read i b d (Q : unit -> bio -> Prop) s :
  bufs s !! i = Some (held_buf 0 (cpid s) b d) -> b < disksize s ->
  Q tt (set_bufs (<[i := held_buf 2 (cpid s) b (dread (disk s) b)]> (bufs s)) s) ->
  wp (iderw i) Q s.
Proof.
  intros Hi Hb HQ. unfold iderw. wp_step. eapply wp_get_buf; [done|]. wp_steps.
  unfold holdingsleep. simpl. rewrite Z.eqb_refl. simpl. wp_steps.
  by rewrite (proj2 (Z.leb_gt _ _)).
Qed.

Lemma wp_iderw_write i b d (Q : unit -> bio -> Prop) s :
  bufs s !! i = Some (held_buf 6 (cpid s) b d) -> b < disksize s ->
  Q tt (set_bufs (<[i := held_buf 2 (cpid s) b d]> (bufs s)) (disk_write b d s)) ->
  wp (iderw i) Q s.
Proof.
  intros Hi Hb HQ. unfold iderw. wp_step. eapply wp_get_buf; [done|]. wp_steps.
  unfold holdingsleep. simpl. rewrite Z.eqb_refl. simpl. wp_steps.
  by rewrite (proj2 (Z.leb_gt _ _)).
Qed.

Section Ops.
Variable s : bio.
Hypothesis Hinv : bio_inv s.

Lemma lookup_inserted i bf bf' :
  bufs s !! i = Some bf -> <[i := bf']> (bufs s) !! i = Some bf'.
Proof. intros H. apply list_lookup_insert_eq. by eapply lookup_lt_Some. Qed.

Lemma inv_unused i bf :
  bufs s !! i = Some bf -> b_refcnt bf = 0 -> b_lock bf = free_lock.
Proof. intros H Hr. destruct (inv_buf _ Hinv _ _ H) as [_ _ [[_ ?]|[? _]] _]; [done|lia]. Qed.

(** [bget] locks the cached buffer, or recycles one that is unused and clean. *)
Lemma bget_spec b :
  (forall i bf, bufs s !! i = Some bf -> buf_is 1 b bf = true -> b_refcnt bf = 0) ->
  (exists i bf, bufs s !! i = Some bf /\ (buf_is 1 b bf = true \/ buf_unused bf = true)) ->
  wp (bget 1 b) (fun i s' => exists bf f d,
      bufs s !! i = Some bf /\ b_refcnt bf = 0
      /\ s' = set_bufs (<[i := held_buf f (cpid s) b d]> (bufs s)) s
      /\ ((b_dev bf = 1 /\ b_blockno bf = b /\ f = b_flags bf /\ d = b_data bf)
          \/ (f = 0 /\ b_flags bf ≠ 6
              /\ forall j bj, bufs s !! j = Some bj -> buf_is 1 b bj = false))) s.
Proof.
  intros Hnh Hroom. unfold bget. wp_steps. unfold id.
  destruct (scan (buf_is 1 b) (lru s) (bufs s)) as [i|] eqn:E.
  - apply scan_Some in E as [_ (bf & Hi & Hp)]. pose proof (Hnh _ _ Hi Hp) as Hr.
    apply buf_is_true in Hp as [Hdev Hbn].
    wp_step. eapply wp_get_buf; [done|]. wp_step. apply wp_put_buf. wp_step.
    eapply wp_acquire_buf; [simpl; by eapply lookup_inserted | simpl; by eapply inv_unused |].
    wp_step. simpl. rewrite list_insert_insert_eq, Hr.
    exists bf, (b_flags bf), (b_data bf). repeat split; try done; [|by left].
    unfold set_bufs, set_lock, set_refcnt, held_buf. simpl. by rewrite Hdev, Hbn.
  - assert (Hno : forall j bj, bufs s !! j = Some bj -> buf_is 1 b bj = false).
    { intros j bj Hj. eapply scan_None; [done | by eapply inv_in_lru | done]. }
    destruct (scan buf_unused (rev (lru s)) (bufs s)) as [i|] eqn:E2.
    2:{ exfalso. destruct Hroom as (i & bf & Hi & [Hp|Hp]).
        - by rewrite (Hno _ _ Hi) in Hp.
        - rewrite (scan_None _ _ _ i bf E2) in Hp; [done| |done].
          rewrite list_elem_of_In, <- in_rev, <- list_elem_of_In. by eapply inv_in_lru. }
    apply scan_Some in E2 as [_ (bf & Hi & Hp)]. unfold buf_unused in Hp. bool_cases.
    wp_step. eapply wp_get_buf; [done|]. wp_step. apply wp_put_buf. wp_step.
    eapply wp_acquire_buf; [simpl; by eapply lookup_inserted | simpl; by eapply inv_unused |].
    wp_step. simpl. rewrite list_insert_insert_eq.
    exists bf, 0, (b_data bf). repeat split; try done. right. repeat split; try done.
    intros Hf. rewrite Hf in *. done.
Qed.

(** [bread]: the caller gets a locked buffer with the block's current contents. *)
Lemma bread_spec b :
  0 <= b < disksize s ->
  (forall i bf, bufs s !! i = Some bf -> buf_is 1 b bf = true -> b_refcnt bf = 0) ->
  (exists i bf, bufs s !! i = Some bf /\ (buf_is 1 b bf = true \/ buf_unused bf = true)) ->
  wp (bread 1 b) (fun i s' => exists bf f,
      bufs s !! i = Some bf /\ b_refcnt bf = 0
      /\ s' = set_bufs (<[i := held_buf f (cpid s) b (view s b)]> (bufs s)) s
      /\ ((b_dev bf = 1 /\ b_blockno bf = b /\ f = b_flags bf)
          \/ (f = 2 /\ b_flags bf ≠ 6
              /\ forall j bj, bufs s !! j = Some bj -> buf_is 1 b bj = false))) s.
Proof.
  intros Hb Hnh Hroom. unfold bread. wp_step. eapply wp_mono; [by apply bget_spec|].
  intros i s' (bf & f & d & Hi & Hr & -> & Hc). wp_step.
  eapply wp_get_buf; [simpl; by eapply lookup_inserted|]. wp_step.
  destruct Hc as [(Hdev & Hbn & -> & ->)|(-> & Hf & Hno)]; simpl.
  - destruct (inv_buf _ Hinv _ _ Hi) as [_ [(_ & Hd0 & _)|(Hf & _)] _ _]; [lia|].
    replace (Z.land (b_flags bf) B_VALID =? 0) with false by (destruct Hf as [-> | ->]; done).
    wp_steps. exists bf, (b_flags bf). repeat split; try done; [|by left].
    by rewrite (view_cached _ Hinv b i bf).
  - unfold when. eapply wp_iderw_read; [simpl; by eapply lookup_inserted | simpl; lia |].
    wp_step. simpl. rewrite list_insert_insert_eq, <- (view_uncached s b) by done.
    exists bf, 2. repeat split; try done. by right.
Qed.

Lemma bwrite_spec i f b d :
  bufs s !! i = Some (held_buf f (cpid s) b d) ->
  wp (bwrite i) (fun _ s' =>
    s' = set_bufs (<[i := held_buf 2 (cpid s) b d]> (bufs s)) (disk_write b d s)) s.
Proof.
  intros Hi. destruct (inv_buf _ Hinv _ _ Hi) as [_ Hst _ _].
  destruct Hst as [(_ & ? & _)|(Hf & _ & Hb)]; [done|]. simpl in Hf, Hb.
  unfold bwrite. wp_step. eapply wp_get_buf; [done|]. wp_steps.
  unfold holdingsleep. simpl. rewrite Z.eqb_refl. simpl. wp_step. apply wp_put_buf.
  unfold set_flags. simpl.
  replace (Z.lor f B_DIRTY) with 6 by (destruct Hf as [-> | ->]; done).
  eapply wp_iderw_write; [simpl; by eapply lookup_inserted | simpl; lia |].
  simpl. by rewrite list_insert_insert_eq.
Qed.

Lemma brelse_spec i f b d :
  bufs s !! i = Some (held_buf f (cpid s) b d) ->
  wp (brelse i) (fun _ s' =>
    s' = set_lru (move_to_front i (lru s))
           (set_bufs (<[i := mkBuf f 1 b free_lock 0 d]> (bufs s)) s)) s.
Proof.
  intros Hi. unfold brelse. wp_step. eapply wp_get_buf; [done|]. wp_steps.
  unfold holdingsleep. simpl. rewrite Z.eqb_refl. simpl. wp_step. apply wp_put_buf.
  done.
Qed.

Lemma move_to_front_perm i : (i < length (bufs s))%nat -> move_to_front i (lru s) ≡ₚ lru s.
Proof.
  intros Hi. rewrite (bi_len _ Hinv) in Hi. unfold move_to_front.
  assert (i ∈ lru s) as Hin by (rewrite (bi_lru _ Hinv), elem_of_seq; lia).
  assert (NoDup (lru s)) as Hnd by (rewrite (bi_lru _ Hinv); apply NoDup_seq).
  revert Hin Hnd. clear. induction (lru s) as [|j l IH]; intros Hin Hnd; [by apply elem_of_nil in Hin|].
  apply NoDup_cons in Hnd as [Hj Hnd]. rewrite filter_cons.
  destruct (decide (j ≠ i)) as [Hne|He].
  - apply elem_of_cons in Hin as [->|Hin]; [done|].
    etransitivity; [apply perm_swap|]. constructor. by apply IH.
  - apply dec_stable in He as ->. constructor.
    by rewrite filter_notin.
Qed.
End Ops.

(** The view does not depend on the order of the list. *)
Lemma view_set_lru s l b : bio_inv s -> bio_inv (set_lru l s) -> view (set_lru l s) b = view s b.
Proof.
  intros H1 H2. destruct (view_cases s H1 b) as [(i & bf & Hi & Hd & Hb & ->)|[Hno ->]].
  - by apply (view_cached _ H2 b i bf).
  - by apply (view_uncached (set_lru l s)).
Qed.

Lemma inv_set_lru s l : bio_inv s -> l ≡ₚ lru s -> bio_inv (set_lru l s).
Proof. intros [H1 H2 H3 H4 H5] Hl. split; simpl; try done. by rewrite Hl. Qed.
