(* ===== verification/BioSpec.v ===== *)
(** * The abstract block store the buffer cache implements

    [rep s V D H U]: the cache and disk state [s] represents the block contents
    [V], with the set [D] of dirty (pinned) blocks, the held buffers [H] (from
    handle to block number), and the set [U] of held blocks that were modified
    in memory and are neither dirty nor written back.  Each operation of bio.c
    is specified by its effect on this abstract state. *)

From S2P Require Import Prelude KMonad Params Bio.

Record rep (s : bio) (V : Z -> list Z) (D : gset Z) (H : gmap nat Z) (U : gset Z) : Prop := {
  r_inv : bio_inv s;
  r_view : forall b, view s b = V b;
  r_dirty : forall b, b ∈ D <-> exists i bf, bufs s !! i = Some bf /\ b_dev bf = 1
                               /\ b_blockno bf = b /\ b_flags bf = 6;
  r_held : forall i b, H !! i = Some b <-> exists bf, bufs s !! i = Some bf
                               /\ b_refcnt bf = 1 /\ b_blockno bf = b;
  r_mod : forall i bf, bufs s !! i = Some bf -> b_flags bf = 2 -> b_blockno bf ∉ U ->
             b_data bf = dread (disk s) (b_blockno bf) }.

(** The parts of the state no cache operation changes. *)
Definition same_disk (s s' : bio) : Prop :=
  disk s' = disk s /\ wlog s' = wlog s /\ disksize s' = disksize s /\ cpid s' = cpid s.

Section Rep.
Context (s : bio) (V : Z -> list Z) (D : gset Z) (H : gmap nat Z) (U : gset Z).
Hypothesis HR : rep s V D H U.

Let Hinv : bio_inv s := r_inv _ _ _ _ _ HR.

Lemma rep_held_buf i b :
  H !! i = Some b ->
  exists f, bufs s !! i = Some (held_buf f (cpid s) b (V b)) /\ (f = 2 \/ f = 6)
            /\ 0 <= b < disksize s.
Proof.
  intros Hi. apply (r_held _ _ _ _ _ HR) in Hi as (bf & Hbf & Hr & Hb).
  destruct (inv_buf _ Hinv _ _ Hbf) as [_ Hst Hlk _].
  destruct Hlk as [[? _]|[_ Hlk]]; [lia|]. destruct Hst as [(_ & _ & ?)|(Hf & Hdev & Hrg)]; [lia|].
  exists (b_flags bf). split; [|split; [done|by subst]].
  rewrite Hbf. f_equal. rewrite <- (r_view _ _ _ _ _ HR b), (view_cached _ Hinv b i bf) by done.
  destruct bf; unfold held_buf; simpl in *. by subst.
Qed.

Lemma rep_held_inj i j b : H !! i = Some b -> H !! j = Some b -> i = j.
Proof.
  intros Hi Hj. apply rep_held_buf in Hi as (f & Hi & _ & _).
  apply rep_held_buf in Hj as (g & Hj & _ & _).
  by eapply (bi_uniq _ Hinv i j).
Qed.

Lemma rep_not_held b i bf :
  (forall j, H !! j ≠ Some b) -> bufs s !! i = Some bf -> buf_is 1 b bf = true -> b_refcnt bf = 0.
Proof.
  intros Hn Hi Hp. apply buf_is_true in Hp as [Hd Hb].
  destruct (inv_buf _ Hinv _ _ Hi) as [_ _ [[? _]|[Hr _]] _]; [done|].
  exfalso. apply (Hn i), (r_held _ _ _ _ _ HR). eauto.
Qed.

(** Every buffer in use is held or dirty, so fewer than [NBUF] of those leave a
    buffer to recycle.  [use_key] names what keeps buffer [i] in use. *)
Definition use_key (i : nat) : nat + Z :=
  match bufs s !! i with
  | Some bf => if b_refcnt bf =? 1 then inl i else inr (b_blockno bf)
  | None => inl i
  end.

Lemma busy_valid i bf : bufs s !! i = Some bf -> buf_unused bf = false -> b_dev bf = 1.
Proof.
  intros Hi Hu. destruct (inv_buf _ Hinv _ _ Hi) as [_ [(Hf & _ & Hr)|(_ & ? & _)] _ _]; [|done].
  unfold buf_unused in Hu. by rewrite Hf, Hr in Hu.
Qed.

Lemma use_key_in i bf :
  bufs s !! i = Some bf -> buf_unused bf = false ->
  use_key i ∈ (inl <$> (map_to_list H).*1) ++ (inr <$> elements D).
Proof.
  intros Hbf Hu. unfold use_key. rewrite Hbf, elem_of_app.
  destruct (inv_buf _ Hinv _ _ Hbf) as [_ Hst Hlk _].
  destruct Hlk as [[Hr _]|[Hr _]]; rewrite Hr; simpl.
  - right. apply list_elem_of_fmap. eexists. split; [done|].
    apply elem_of_elements, (r_dirty _ _ _ _ _ HR). exists i, bf.
    unfold buf_unused in Hu. rewrite Hr in Hu.
    destruct Hst as [(Hf & _)|([Hf|Hf] & Hd & _)]; rewrite Hf in Hu; done.
  - left. apply list_elem_of_fmap. exists i. split; [done|].
    apply list_elem_of_fmap. exists (i, b_blockno bf). split; [done|].
    apply elem_of_map_to_list, (r_held _ _ _ _ _ HR). eauto.
Qed.

Lemma use_key_inj i j bi bj :
  bufs s !! i = Some bi -> bufs s !! j = Some bj ->
  buf_unused bi = false -> buf_unused bj = false -> use_key i = use_key j -> i = j.
Proof.
  intros Hi Hj Hui Huj. unfold use_key. rewrite Hi, Hj.
  destruct (b_refcnt bi =? 1), (b_refcnt bj =? 1); try congruence.
  intros [= Hb]. eapply (bi_uniq _ Hinv i j); eauto using busy_valid.
Qed.

Lemma rep_room :
  (size H + size D < Z.to_nat NBUF)%nat ->
  exists i bf, bufs s !! i = Some bf /\ buf_unused bf = true.
Proof.
  intros Hsz. destruct (decide (Exists (fun bf => buf_unused bf = true) (bufs s))) as [He|Hne].
  { apply Exists_exists in He as (bf & Hin & Hu).
    apply list_elem_of_lookup in Hin as [i Hi]. eauto. }
  exfalso.
  assert (Hbusy : forall i, (i < length (bufs s))%nat ->
            exists bf, bufs s !! i = Some bf /\ buf_unused bf = false).
  { intros i [bf Hi]%lookup_lt_is_Some. exists bf. split; [done|].
    destruct (buf_unused bf) eqn:E; [|done]. exfalso. apply Hne, Exists_exists.
    exists bf. split; [|done]. apply list_elem_of_lookup. eauto. }
  assert (Hsub : use_key <$> seq 0 (length (bufs s))
                 ⊆+ (inl <$> (map_to_list H).*1) ++ (inr <$> elements D)).
  { apply NoDup_submseteq.
    - apply NoDup_fmap_2_strong; [|apply NoDup_seq].
      intros i j Hi Hj. rewrite elem_of_seq in Hi, Hj.
      destruct (Hbusy i ltac:(lia)) as (bi & ? & ?), (Hbusy j ltac:(lia)) as (bj & ? & ?).
      by eapply use_key_inj.
    - intros k Hk. apply list_elem_of_fmap in Hk as (i & -> & Hi). rewrite elem_of_seq in Hi.
      destruct (Hbusy i ltac:(lia)) as (bi & ? & ?). by eapply use_key_in. }
  apply submseteq_length in Hsub.
  rewrite length_app, !length_fmap, length_seq, length_map_to_list, (bi_len _ Hinv) in Hsub.
  change (length (elements D)) with (size D) in Hsub. lia.
Qed.
End Rep.

(** Case analysis on a lookup in an updated array of buffers. *)
Ltac buf_cases Hj :=
  lazymatch type of Hj with
  | <[?i := ?x]> ?l !! ?j = Some ?y =>
      let Hil := fresh "Hil" in
      destruct (decide (j = i)) as [->|?];
      [ rewrite list_lookup_insert_eq in Hj by (by eapply lookup_lt_Some); simplify_eq
      | rewrite list_lookup_insert_ne in Hj by done ]
  end.

(** ** Effect of the operations on the abstract state *)
Section Specs.
Context (s : bio) (V : Z -> list Z) (D : gset Z) (H : gmap nat Z) (U : gset Z).
Hypothesis HR : rep s V D H U.

Let Hinv : bio_inv s := r_inv _ _ _ _ _ HR.

(** Replacing a buffer for block [b] (or one recycled for it) by [bf'], with
    disk contents [d'] for [b] only: the abstract state changes at [b] only. *)
Lemma rep_update i bf bf' d' wl V' D' H' U' :
  let b := b_blockno bf' in
  let s' := mkBio (<[i := bf']> (bufs s)) (lru s) d' (disksize s) wl (cpid s) in
  bufs s !! i = Some bf ->
  b_dev bf' = 1 -> (b_flags bf' = 2 \/ b_flags bf' = 6) -> 0 <= b < disksize s ->
  wf_block (b_data bf') ->
  ((b_refcnt bf' = 0 /\ b_lock bf' = free_lock)
   \/ (b_refcnt bf' = 1 /\ b_lock bf' = mkSleeplock 1 (cpid s))) ->
  ((b_dev bf = 1 /\ b_blockno bf = b)
   \/ (b_refcnt bf = 0 /\ b_flags bf ≠ 6
       /\ forall j bj, bufs s !! j = Some bj -> buf_is 1 b bj = false)) ->
  (forall b', b' ≠ b -> dread d' b' = dread (disk s) b') ->
  map_Forall (fun _ x => wf_block x) d' ->
  (forall b', b' ≠ b -> V' b' = V b') -> V' b = b_data bf' ->
  (forall b', b' ≠ b -> b' ∈ D' <-> b' ∈ D) -> (b ∈ D' <-> b_flags bf' = 6) ->
  (forall j, j ≠ i -> H' !! j = H !! j) ->
  H' !! i = (if b_refcnt bf' =? 1 then Some b else None) ->
  (forall b', b' ≠ b -> b' ∉ U' -> b' ∉ U) ->
  (b_flags bf' = 2 -> (b ∉ U' \/ b_refcnt bf' = 0) -> b_data bf' = dread d' b) ->
  rep s' V' D' H' U'.
Proof.
  intros b s' Hi Hdev Hfl Hrg Hwf Hlk Hold Hd Hdw HV HVb HD HDb HH HHi HU HUb.
  assert (Hother : forall j bj, j ≠ i -> bufs s !! j = Some bj -> b_dev bj = 1 -> b_blockno bj ≠ b).
  { intros j bj Hne Hj Hdj Hbj. destruct Hold as [[Hd1 Hb1]|(_ & _ & Hno)].
    - apply Hne. eapply (bi_uniq _ Hinv j i bj bf); congruence.
    - specialize (Hno _ _ Hj). apply not_true_iff_false in Hno. apply Hno. by apply buf_is_true. }
  assert (Hinv' : bio_inv s').
  { apply (inv_update s Hinv i bf); [done | | | | done].
    - split; [done | by right | done |]. intros ? ?. apply HUb; auto.
    - intros _. exact Hother.
    - intros j bj Hne Hj Hdj. by apply Hd, (Hother j bj). }
  split; [done| | | |].
  - intros b'. destruct (decide (b' = b)) as [->|Hne].
    + rewrite HVb. apply (view_cached s' Hinv' b i bf'); try done. simpl. by eapply lookup_inserted.
    + rewrite HV, <- (r_view _ _ _ _ _ HR b') by done.
      apply (view_update s Hinv i bf); auto.
      intros Hdb Hbne. fold b in Hbne. rewrite Hd by done.
      destruct Hold as [[_ ?]|(Hr0 & Hf6 & _)]; [congruence|].
      destruct (inv_buf _ Hinv _ _ Hi) as [_ [(_ & ? & _)|([Hf2|?] & _)] _ Hcl]; [lia|auto|done].
  - intros b'. destruct (decide (b' = b)) as [->|Hne].
    + rewrite HDb. split.
      * intros Hf. exists i, bf'. split; [simpl; by eapply lookup_inserted|done].
      * intros (j & bj & Hj & Hdj & Hbj & Hfj). simpl in Hj. buf_cases Hj; [done|].
        exfalso. by eapply (Hother j bj).
    + rewrite HD, (r_dirty _ _ _ _ _ HR b') by done. split; intros (j & bj & Hj & Hdj & Hbj & Hfj).
      * exists j, bj. split; [|done]. simpl. destruct (decide (j = i)) as [->|?].
        { exfalso. assert (bj = bf) as -> by congruence.
          destruct Hold as [[_ ?]|(_ & ? & _)]; congruence. }
        by rewrite list_lookup_insert_ne.
      * simpl in Hj. buf_cases Hj. by exists j, bj.
  - intros j b'. destruct (decide (j = i)) as [->|Hne].
    + rewrite HHi. split.
      * intros Hb'. exists bf'. split; [simpl; by eapply lookup_inserted|].
        destruct (b_refcnt bf' =? 1) eqn:E; [|done]. bool_cases. by simplify_eq.
      * intros (bj & Hj & Hr & Hb'). simpl in Hj.
        rewrite (lookup_inserted s i bf) in Hj by done. simplify_eq. by rewrite Hr.
    + rewrite HH, (r_held _ _ _ _ _ HR j b') by done. simpl. by rewrite list_lookup_insert_ne.
  - intros j bj Hj Hfj Hbj. simpl in Hj |- *. buf_cases Hj.
    + apply HUb; [done|by left].
    + pose proof (inv_buf _ Hinv _ _ Hj) as [_ [(? & _)|(_ & Hdj & _)] _ _]; [lia|].
      rewrite Hd by eauto. eapply (r_mod _ _ _ _ _ HR); eauto.
Qed.

Lemma rep_data_wf b : wf_block (V b).
Proof. rewrite <- (r_view _ _ _ _ _ HR b). by apply view_wf. Qed.

Lemma rep_bread b :
  0 <= b < disksize s -> (forall j, H !! j ≠ Some b) ->
  (b ∈ D \/ (size H + size D < Z.to_nat NBUF)%nat) ->
  wp (bread 1 b) (fun i s' => rep s' V D (<[i := b]> H) U /\ H !! i = None /\ same_disk s s') s.
Proof.
  intros Hb Hnh Hroom. eapply wp_mono.
  { apply bread_spec; [done | done | by intros; eapply rep_not_held |].
    destruct Hroom as [HbD|Hsz].
    - apply (r_dirty _ _ _ _ _ HR) in HbD as (i & bf & Hi & Hd & Hbb & _).
      exists i, bf. split; [done|]. left. by apply buf_is_true.
    - destruct (rep_room _ _ _ _ _ HR Hsz) as (i & bf & Hi & Hu). eauto. }
  intros i s' (bf & f & Hi & Hr & -> & Hcase).
  assert (HHi : H !! i = None).
  { destruct (H !! i) as [b'|] eqn:E; [|done].
    apply (r_held _ _ _ _ _ HR) in E as (bf' & ? & ? & _). simplify_eq. lia. }
  split; [|done].
  assert (Hst : b_flags bf = 0 /\ b_dev bf = 0 \/ (b_flags bf = 2 \/ b_flags bf = 6) /\ b_dev bf = 1).
  { destruct (inv_buf _ Hinv _ _ Hi) as [_ [(? & ? & _)|(? & ? & _)] _ _]; auto. }
  apply (rep_update i bf); simpl; try done.
  - destruct Hcase as [(? & _ & ->)|(-> & _)]; [|by left].
    destruct Hst as [[_ ?]|[? _]]; [lia|done].
  - by apply view_wf.
  - by right.
  - destruct Hcase as [(? & ? & _)|(_ & ? & ?)]; auto.
  - apply Hinv.
  - symmetry. apply HR.
  - rewrite (r_dirty _ _ _ _ _ HR b). split.
    + intros (j & bj & Hj & Hdj & Hbj & Hfj). destruct Hcase as [(? & ? & ->)|(_ & _ & Hno)].
      * assert (j = i) as -> by (eapply (bi_uniq _ Hinv j i); eauto; congruence). congruence.
      * specialize (Hno _ _ Hj). apply not_true_iff_false in Hno. destruct Hno. by apply buf_is_true.
    + intros ->. destruct Hcase as [(? & ? & ?)|(? & _)]; [|lia]. by exists i, bf.
  - intros j Hne. by rewrite lookup_insert_ne.
  - by rewrite lookup_insert_eq.
  - intros -> [HU|?]; [|lia]. destruct Hcase as [(Hd & Hbb & Hf)|(_ & _ & Hno)].
    + rewrite (view_cached _ Hinv b i bf) by done. rewrite <- Hbb.
      eapply (r_mod _ _ _ _ _ HR); [done | done | by rewrite Hbb].
    + by apply view_uncached.
Qed.

Lemma rep_held_flags i f pid b d :
  bufs s !! i = Some (held_buf f pid b d) -> f = if bool_decide (b ∈ D) then 6 else 2.
Proof.
  intros Hi. case_bool_decide as HbD.
  - apply (r_dirty _ _ _ _ _ HR) in HbD as (j & bj & Hj & Hdj & Hbj & Hfj).
    assert (j = i) as -> by exact (bi_uniq _ Hinv j i _ _ Hj Hi Hdj eq_refl Hbj).
    rewrite Hi in Hj. injection Hj as <-. exact Hfj.
  - destruct (inv_buf _ Hinv _ _ Hi) as [_ [(_ & ? & _)|([?|?] & _)] _ _]; simpl in *; [lia|done|].
    exfalso. apply HbD, (r_dirty _ _ _ _ _ HR). eexists _, _. by split.
Qed.

Lemma rep_read_data i b :
  H !! i = Some b -> wp (read_data i) (fun d s' => d = V b /\ s' = s) s.
Proof.
  intros Hi. destruct (rep_held_buf _ _ _ _ _ HR _ _ Hi) as (f & Hbf & _).
  unfold read_data. wp_step. eapply wp_get_buf; [done|]. by wp_step.
Qed.

(** Storing new data into a held buffer. *)
Lemma rep_write_data i b d :
  H !! i = Some b -> wf_block d ->
  wp (write_data i d) (fun _ s' => rep s' (upd V b d) D H ({[b]} ∪ U) /\ same_disk s s') s.
Proof.
  intros Hi Hd. destruct (rep_held_buf _ _ _ _ _ HR _ _ Hi) as (f & Hbf & Hf & Hrg).
  pose proof (rep_held_flags _ _ _ _ _ Hbf) as Hfl.
  unfold write_data. wp_step. eapply wp_get_buf; [done|]. apply wp_put_buf. split; [|done].
  apply (rep_update i (held_buf f (cpid s) b (V b))); simpl; try done.
  - by right.
  - by left.
  - apply Hinv.
  - intros. by rewrite upd_ne.
  - by rewrite upd_eq.
  - case_bool_decide; naive_solver.
  - set_solver.
  - intros _ [?|?]; [set_solver|lia].
Qed.

Lemma rep_bwrite i b :
  H !! i = Some b ->
  wp (bwrite i) (fun _ s' => rep s' V (D ∖ {[b]}) H (U ∖ {[b]})
      /\ disk s' = <[b := V b]> (disk s) /\ wlog s' = wlog s ++ [(b, V b)]
      /\ disksize s' = disksize s /\ cpid s' = cpid s) s.
Proof.
  intros Hi. destruct (rep_held_buf _ _ _ _ _ HR _ _ Hi) as (f & Hbf & Hf & Hrg).
  eapply wp_mono; [by eapply bwrite_spec|]. intros [] s' ->. split; [|done].
  apply (rep_update i (held_buf f (cpid s) b (V b))); simpl; try done.
  - by left.
  - apply rep_data_wf.
  - by right.
  - by left.
  - intros. unfold dread. by rewrite lookup_insert_ne.
  - apply map_Forall_insert_2; [apply rep_data_wf | apply Hinv].
  - set_solver.
  - set_solver.
  - set_solver.
  - intros _ _. unfold dread. by rewrite lookup_insert_eq.
Qed.

Lemma rep_pin i b :
  H !! i = Some b ->
  wp (pin i) (fun _ s' => rep s' V ({[b]} ∪ D) H (U ∖ {[b]}) /\ same_disk s s') s.
Proof.
  intros Hi. destruct (rep_held_buf _ _ _ _ _ HR _ _ Hi) as (f & Hbf & Hf & Hrg).
  unfold pin. wp_step. eapply wp_get_buf; [done|]. apply wp_put_buf. split; [|done].
  unfold set_flags. simpl.
  replace (Z.lor f B_DIRTY) with 6 by (destruct Hf as [-> | ->]; done).
  apply (rep_update i (held_buf f (cpid s) b (V b))); simpl; try done.
  - by right.
  - apply rep_data_wf.
  - by right.
  - by left.
  - apply Hinv.
  - set_solver.
  - set_solver.
  - set_solver.
Qed.

Lemma rep_set_lru l : l ≡ₚ lru s -> rep (set_lru l s) V D H U.
Proof.
  intros Hl. assert (bio_inv (set_lru l s)) by (by apply inv_set_lru).
  destruct HR as [? Hv ? ? ?]. split; simpl; try done.
  intros b. rewrite view_set_lru; [apply Hv | done | done].
Qed.
End Specs.

Lemma rep_brelse s V D H U i b :
  rep s V D H U -> H !! i = Some b -> (b ∉ U \/ b ∈ D) ->
  wp (brelse i) (fun _ s' => rep s' V D (delete i H) U /\ same_disk s s') s.
Proof.
  intros HR Hi HbU. destruct (rep_held_buf _ _ _ _ _ HR _ _ Hi) as (f & Hbf & Hf & Hrg).
  pose proof (r_inv _ _ _ _ _ HR) as Hinv.
  pose proof (rep_held_flags _ _ _ _ _ HR _ _ _ _ _ Hbf) as Hfl.
  eapply wp_mono; [by eapply brelse_spec|]. intros [] s' ->. split; [|done].
  apply rep_set_lru; [|by apply (move_to_front_perm s Hinv); eapply lookup_lt_Some].
  apply (rep_update s V D H U HR i (held_buf f (cpid s) b (V b))); simpl; try done.
  - by eapply rep_data_wf.
  - by left.
  - by left.
  - apply Hinv.
  - case_bool_decide; naive_solver.
  - intros j Hne. by rewrite lookup_delete_ne.
  - by rewrite lookup_delete_eq.
  - intros -> _. case_bool_decide; [done|].
    destruct HbU as [HbU|?]; [|done].
    by apply (r_mod _ _ _ _ _ HR i _ Hbf).
Qed.

(** The cache after [binit] represents the disk. *)
Lemma binit_rep d dsize pid :
  map_Forall (fun _ x => wf_block x) d -> rep (binit d dsize pid) (dread d) ∅ ∅ ∅.
Proof.
  intros Hd.
  assert (Hz : forall i bf, bufs (binit d dsize pid) !! i = Some bf -> bf = zero_buf).
  { intros i bf Hi. apply lookup_replicate in Hi. tauto. }
  assert (Hinv : bio_inv (binit d dsize pid)).
  { split; [done | | | | done].
    - apply (bool_decide_unpack _). by vm_compute.
    - apply Forall_lookup_2. intros i bf ->%Hz.
      split; [apply zero_block_wf | by left | by left | done].
    - intros i j bi bj Hi Hj Hdi. apply Hz in Hi as ->. done. }
  split; [done | | | | ].
  - intros b. apply view_uncached. intros i bf Hi. by apply Hz in Hi as ->.
  - intros b. split; [set_solver|]. intros (i & bf & Hi & Hdv & _). by apply Hz in Hi as ->.
  - intros i b. split; [done|]. intros (bf & Hi & Hr & _). by apply Hz in Hi as ->.
  - intros i bf Hi. by apply Hz in Hi as ->.
Qed.
