(* ===== verification/Log.v ===== *)
(** * log.c: the write-ahead log

    The state of the storage system is the buffer cache and disk (Bio.v) and
    the in-memory [struct log].  A transaction's blocks stay in the cache until
    [commit] writes them to the log area, writes the header (the commit point),
    installs them, and clears the header. *)

From S2P Require Import Prelude KMonad Params Bio BioSpec.

Record log := mkLog {
  l_start : Z; l_size : Z;
  l_outstanding : Z; l_committing : Z; l_dev : Z;
  lh_n : Z;                    (* lh.n *)
  lh_block : list Z            (* lh.block[LOGSIZE] *)
}.

Record store := mkStore { s_bio : bio; s_log : log }.

Definition on_bio {A} (m : M bio A) : M store A :=
  lift s_bio (fun b s => mkStore b (s_log s)) m.

Definition get_log {A} (f : log -> A) : M store A := gets (fun s => f (s_log s)).

Definition set_log (f : log -> log) : M store unit :=
  modify (fun s => mkStore (s_bio s) (f (s_log s))).

Definition set_lh_n (n : Z) (l : log) : log :=
  mkLog (l_start l) (l_size l) (l_outstanding l) (l_committing l) (l_dev l) n (lh_block l).
Definition set_lh_block (bl : list Z) (l : log) : log :=
  mkLog (l_start l) (l_size l) (l_outstanding l) (l_committing l) (l_dev l) (lh_n l) bl.
Definition set_outstanding (n : Z) (l : log) : log :=
  mkLog (l_start l) (l_size l) n (l_committing l) (l_dev l) (lh_n l) (lh_block l).
Definition set_committing (n : Z) (l : log) : log :=
  mkLog (l_start l) (l_size l) (l_outstanding l) n (l_dev l) (lh_n l) (lh_block l).

(** fs.c: [readsb]. *)
Definition readsb (dev : Z) : M store superblock :=
  bp <- on_bio (bread dev 1) ;;
  d <- on_bio (read_data bp) ;;
  on_bio (brelse bp) ;;;
  ret (decode_superblock d).

(** [for (tail = 0; tail < log.lh.n; tail++)] *)
Definition tails (n : Z) : list Z := seqZ 0 n.

Definition install_trans : M store unit :=
  n <- get_log lh_n ;;
  for_each (tails n) (fun tail =>
    l <- get_log id ;;
    dst <- from_opt (zget (lh_block l) tail) ;;
    on_bio (
      lbuf <- bread (l_dev l) (l_start l + tail + 1) ;;
      dbuf <- bread (l_dev l) dst ;;
      d <- read_data lbuf ;;
      write_data dbuf d ;;;
      bwrite dbuf ;;;
      brelse lbuf ;;;
      brelse dbuf)).

(** [struct logheader] in a block: [n] at 0, [block[i]] at 4 + 4 i; both are
    [int]. *)
Definition hdr_n (d : list Z) : Z := i32 (get_le 4 0 d).
Definition hdr_block (i : Z) (d : list Z) : Z := i32 (get_le 4 (4 + 4 * Z.to_nat i) d).

Definition read_head : M store unit :=
  l <- get_log id ;;
  bp <- on_bio (bread (l_dev l) (l_start l)) ;;
  d <- on_bio (read_data bp) ;;
  set_log (set_lh_n (hdr_n d)) ;;;
  for_each (tails (hdr_n d)) (fun i =>
    bl <- get_log lh_block ;;
    bl' <- from_opt (zset bl i (hdr_block i d)) ;;
    set_log (set_lh_block bl')) ;;;
  on_bio (brelse bp).

Definition write_head : M store unit :=
  l <- get_log id ;;
  bp <- on_bio (bread (l_dev l) (l_start l)) ;;
  d <- on_bio (read_data bp) ;;
  on_bio (write_data bp (set_le 4 0 (u32 (lh_n l)) d)) ;;;
  for_each (tails (lh_n l)) (fun i =>
    b <- from_opt (zget (lh_block l) i) ;;
    d <- on_bio (read_data bp) ;;
    on_bio (write_data bp (set_le 4 (4 + 4 * Z.to_nat i) (u32 b) d))) ;;;
  on_bio (bwrite bp) ;;;
  on_bio (brelse bp).

Definition recover_from_log : M store unit :=
  read_head ;;;
  install_trans ;;;
  set_log (set_lh_n 0) ;;;
  write_head.

Definition sizeof_logheader : Z := 4 + 4 * LOGSIZE.

Definition initlog (dev : Z) : M store unit :=
  if BSIZE <=? sizeof_logheader then panic "initlog: too big logheader"
  else
    sb <- readsb dev ;;
    set_log (fun l => mkLog (sb_logstart sb) (sb_nlog sb) (l_outstanding l)
                        (l_committing l) dev (lh_n l) (lh_block l)) ;;;
    recover_from_log.

Definition begin_op : M store unit :=
  l <- get_log id ;;
  if negb (l_committing l =? 0) then halt asleep_stop
  else if LOGSIZE <? lh_n l + (l_outstanding l + 1) * MAXOPBLOCKS then halt asleep_stop
  else set_log (set_outstanding (l_outstanding l + 1)).

Definition write_log : M store unit :=
  n <- get_log lh_n ;;
  for_each (tails n) (fun tail =>
    l <- get_log id ;;
    src <- from_opt (zget (lh_block l) tail) ;;
    on_bio (
      to <- bread (l_dev l) (l_start l + tail + 1) ;;
      from <- bread (l_dev l) src ;;
      d <- read_data from ;;
      write_data to d ;;;
      bwrite to ;;;
      brelse from ;;;
      brelse to)).

Definition commit : M store unit :=
  n <- get_log lh_n ;;
  when (0 <? n) (
    write_log ;;;
    write_head ;;;
    install_trans ;;;
    set_log (set_lh_n 0) ;;;
    write_head).

Definition end_op : M store unit :=
  l <- get_log id ;;
  set_log (set_outstanding (l_outstanding l - 1)) ;;;
  if negb (l_committing l =? 0) then panic "log.committing"
  else if l_outstanding l - 1 =? 0 then
    set_log (set_committing 1) ;;;
    commit ;;;
    set_log (set_committing 0)
  else ret tt.

(** The index of [blockno] in the first [n] entries, or [n]. *)
Fixpoint log_index (blockno : Z) (n : nat) (bl : list Z) : nat :=
  match n, bl with
  | S n', b :: bl' => if b =? blockno then O else S (log_index blockno n' bl')
  | _, _ => O
  end.

Definition log_write (bp : nat) : M store unit :=
  l <- get_log id ;;
  if (LOGSIZE <=? lh_n l) || (l_size l - 1 <=? lh_n l) then panic "too big a transaction"
  else if l_outstanding l <? 1 then panic "log_write outside of trans"
  else
    b <- on_bio (get_buf bp) ;;
    let i := Z.of_nat (log_index (b_blockno b) (Z.to_nat (lh_n l)) (lh_block l)) in
    bl <- from_opt (zset (lh_block l) i (b_blockno b)) ;;
    set_log (set_lh_block bl) ;;;
    when (i =? lh_n l) (set_log (set_lh_n (lh_n l + 1))) ;;;
    on_bio (pin bp).

(** The log as the kernel image has it (zeroed static data), and the part of
    the boot that concerns storage: [binit], then [initlog] on the disk. *)
Definition log_bss : log := mkLog 0 0 0 0 0 0 (replicate (Z.to_nat LOGSIZE) 0).

Definition boot_log (d : gmap Z (list Z)) (dsize pid : Z) : outcome store unit :=
  initlog ROOTDEV (mkStore (binit d dsize pid) log_bss).
