(* ===== verification/LogSpec.v ===== *)
(** * The log refines an atomic update of the disk

    Specifications of the functions of log.c against the abstract block store,
    and the crash theorem: whatever prefix of the writes issued by [commit]
    reached the disk, recovery brings the disk to the state before the
    transaction or to the state after it. *)

From S2P Require Import Prelude KMonad Params Bio BioSpec Log.

(** ** Execution of cache operations inside the storage system *)

Lemma wp_on_bio {A} (m : M bio A) (Q : A -> store -> Prop) s :
  wp m (fun a b => Q a (mkStore b (s_log s))) (s_bio s) -> wp (on_bio m) Q s.
Proof. unfold wp, on_bio, lift. by destruct (m (s_bio s)). Qed.

Lemma wp_get_log {A} (f : log -> A) (Q : A -> store -> Prop) s :
  Q (f (s_log s)) s -> wp (get_log f) Q s.
Proof. done. Qed.

Lemma wp_set_log f (Q : unit -> store -> Prop) s :
  Q tt (mkStore (s_bio s) (f (s_log s))) -> wp (set_log f) Q s.
Proof. done. Qed.

(** Abstract effect of a sequence of writes on block contents. *)
Definition applyV (ws : list (Z * list Z)) (V : Z -> list Z) : Z -> list Z :=
  foldl (fun V w => upd V w.1 w.2) V ws.

Lemma applyV_app ws1 ws2 V : applyV (ws1 ++ ws2) V = applyV ws2 (applyV ws1 V).
Proof. apply foldl_app. Qed.

Lemma apply_writes_app ws1 ws2 d :
  apply_writes (ws1 ++ ws2) d = apply_writes ws2 (apply_writes ws1 d).
Proof. apply foldl_app. Qed.

Lemma applyV_notin ws V b : b ∉ ws.*1 -> applyV ws V b = V b.
Proof.
  revert V. induction ws as [|[b' d'] ws IH]; intros V Hb; simpl; [done|].
  rewrite fmap_cons, not_elem_of_cons in Hb. simpl in Hb.
  rewrite IH by tauto. apply upd_ne. tauto.
Qed.

Lemma applyV_in ws V b d : NoDup ws.*1 -> (b, d) ∈ ws -> applyV ws V b = d.
Proof.
  revert V. induction ws as [|[b' d'] ws IH]; intros V Hnd Hin; [by apply elem_of_nil in Hin|].
  rewrite fmap_cons, NoDup_cons in Hnd. destruct Hnd as [Hn Hnd].
  apply elem_of_cons in Hin as [[= <- <-]|Hin]; simpl.
  - rewrite applyV_notin by done. apply upd_eq.
  - by apply IH.
Qed.

Lemma dread_apply ws d b : dread (apply_writes ws d) b = applyV ws (dread d) b.
Proof.
  revert d. induction ws as [|[b' d'] ws IH]; intros d; simpl; [done|].
  rewrite IH. clear IH. revert b.
  assert (Hext : forall b, dread (<[b' := d']> d) b = upd (dread d) b' d' b).
  { intros b. unfold dread, upd. destruct (decide (b = b')) as [->|].
    - by rewrite lookup_insert_eq.
    - by rewrite lookup_insert_ne. }
  revert Hext. generalize (dread (<[b' := d']> d)) (upd (dread d) b' d').
  induction ws as [|[b'' d''] ws IH]; intros f g Hfg b; simpl; [done|].
  apply IH. intros b0. unfold upd. by destruct (decide (b0 = b'')).
Qed.

Lemma applyV_ext ws V V' : (forall b, V b = V' b) -> forall b, applyV ws V b = applyV ws V' b.
Proof.
  revert V V'. induction ws as [|w ws IH]; intros V V' HV b; simpl; [done|].
  apply IH. intros b0. unfold upd. by destruct (decide (b0 = w.1)).
Qed.

Lemma rep_ext s V V' D H U : (forall b, V b = V' b) -> rep s V D H U -> rep s V' D H U.
Proof. intros HV [? Hv ? ? ?]. split; try done. intros b. by rewrite <- HV. Qed.

Lemma rep_clean s V D b : rep s V D ∅ ∅ -> b ∉ D -> V b = dread (disk s) b.
Proof.
  intros HR HbD. rewrite <- (r_view _ _ _ _ _ HR b). pose proof (r_inv _ _ _ _ _ HR) as Hinv.
  destruct (view_cases s Hinv b) as [(i & bf & Hi & Hd & Hb & ->)|[_ ->]]; [|done].
  rewrite <- Hb. apply (r_mod _ _ _ _ _ HR i); [done | | set_solver].
  destruct (inv_buf _ Hinv _ _ Hi) as [_ [(_ & ? & _)|([?|Hf] & _)] _ _]; [lia|done|].
  exfalso. apply HbD, (r_dirty _ _ _ _ _ HR). eauto 10.
Qed.

(** The result of running code that leaves no buffer held: new contents [V'],
    dirty set [D'], and the block writes [ws] issued, in order. *)
Definition done_with (b0 : bio) (V' : Z -> list Z) (D' : gset Z) (ws : list (Z * list Z))
    (b : bio) : Prop :=
  rep b V' D' ∅ ∅ /\ disk b = apply_writes ws (disk b0) /\ wlog b = wlog b0 ++ ws
  /\ disksize b = disksize b0 /\ cpid b = cpid b0.

Lemma done_with_refl b0 V D : rep b0 V D ∅ ∅ -> done_with b0 V D [] b0.
Proof. intros H. split; [done|]. by rewrite app_nil_r. Qed.

Lemma done_with_trans b0 V1 D1 w1 b1 V2 D2 w2 b2 :
  done_with b0 V1 D1 w1 b1 -> done_with b1 V2 D2 w2 b2 -> done_with b0 V2 D2 (w1 ++ w2) b2.
Proof.
  intros (_ & Hd1 & Hw1 & Hs1 & Hp1) (HR & Hd2 & Hw2 & Hs2 & Hp2). split; [done|].
  rewrite apply_writes_app, app_assoc. repeat split; congruence.
Qed.

(** Copy between two held buffers and write the target back: the core of
    [write_log] and [install_trans]. *)
Lemma copy_held s V D H src dst bsrc bdst :
  rep s V D H ∅ -> H = <[src := bsrc]> (<[dst := bdst]> ∅) -> src ≠ dst -> bsrc ≠ bdst ->
  wp (d <- read_data src ;; write_data dst d ;;; bwrite dst ;;; brelse src ;;; brelse dst)
     (fun _ s' => done_with s (upd V bdst (V bsrc)) (D ∖ {[bdst]}) [(bdst, V bsrc)] s') s.
Proof.
  intros HR HH Hne Hbne.
  assert (Hs : H !! src = Some bsrc) by (subst; by rewrite lookup_insert_eq).
  assert (Hd : H !! dst = Some bdst)
    by (subst; rewrite lookup_insert_ne, lookup_insert_eq by done; done).
  wp_step. eapply wp_mono; [by eapply rep_read_data|]. intros ? ? [-> ->].
  wp_step. eapply wp_mono; [eapply rep_write_data; [done | done | by eapply rep_data_wf]|].
  intros _ s1 [HR1 (Hd1 & Hw1 & Hz1 & Hp1)].
  wp_step. eapply wp_mono; [by eapply rep_bwrite|].
  intros _ s2 (HR2 & Hd2 & Hw2 & Hz2 & Hp2). rewrite upd_eq in Hd2, Hw2.
  wp_step. eapply wp_mono; [eapply rep_brelse; [done | done | left; set_solver]|].
  intros _ s3 [HR3 (Hd3 & Hw3 & Hz3 & Hp3)].
  eapply wp_mono; [eapply (rep_brelse _ _ _ _ _ dst bdst); [done | | left; set_solver]|].
  { by rewrite lookup_delete_ne. }
  intros _ s4 [HR4 (Hd4 & Hw4 & Hz4 & Hp4)]. split; [|repeat split; simpl; congruence].
  replace (delete dst (delete src H)) with (∅ : gmap nat Z) in HR4.
  - by replace (({[bdst]} ∪ ∅) ∖ {[bdst]}) with (∅ : gset Z) in HR4 by set_solver.
  - subst H. apply map_eq. intros k. rewrite lookup_empty. symmetry.
    destruct (decide (k = dst)) as [->|]; [by rewrite lookup_delete_eq|].
    rewrite lookup_delete_ne by done.
    destruct (decide (k = src)) as [->|]; [by rewrite lookup_delete_eq|].
    rewrite lookup_delete_ne, !lookup_insert_ne by done. done.
Qed.

(** ** Copies between the log area and home locations *)

(** A well-formed log: [n] distinct home blocks outside the log area. *)
Record log_wf (l : log) (dsize : Z) : Prop := {
  lw_dev : l_dev l = 1;
  lw_n : 0 <= lh_n l < NBUF;
  lw_len : length (lh_block l) = Z.to_nat LOGSIZE;
  lw_size : lh_n l < l_size l;
  lw_area : 0 <= l_start l /\ l_start l + l_size l <= dsize;
  lw_dsize : dsize < 2147483648;
  lw_home : forall i b, lh_block l !! i = Some b -> Z.of_nat i < lh_n l ->
              0 <= b < dsize /\ (b < l_start l \/ l_start l + l_size l <= b) }.

Definition in_log (l : log) (b : Z) : Prop := l_start l <= b < l_start l + l_size l.

Definition logged (l : log) : list Z := take (Z.to_nat (lh_n l)) (lh_block l).

(** The writes of [write_log] and of [install_trans] for block contents [V]. *)
Definition log_ws (l : log) (V : Z -> list Z) : list (Z * list Z) :=
  imap (fun i b => (l_start l + Z.of_nat i + 1, V b)) (logged l).
Definition install_ws (l : log) (V : Z -> list Z) : list (Z * list Z) :=
  imap (fun i b => (b, V (l_start l + Z.of_nat i + 1))) (logged l).

Section Copies.
Context (l : log) (dsize : Z).
Hypothesis Hwf : log_wf l dsize.

Lemma length_logged : length (logged l) = Z.to_nat (lh_n l).
Proof.
  unfold logged. rewrite length_take, (lw_len _ _ Hwf).
  destruct Hwf as [_ Hn _ _ _ _ _]. unfold NBUF, LOGSIZE in *. lia.
Qed.

Lemma logged_home i b :
  logged l !! i = Some b -> 0 <= b < dsize /\ ~ in_log l b.
Proof.
  intros Hi. unfold logged in Hi. apply lookup_take_Some in Hi as [Hi Hlt].
  destruct (lw_home _ _ Hwf i b Hi ltac:(lia)) as [? ?]. split; [done|]. unfold in_log. lia.
Qed.

Lemma log_slot_range i : (i < Z.to_nat (lh_n l))%nat ->
  0 <= l_start l + Z.of_nat i + 1 < dsize /\ in_log l (l_start l + Z.of_nat i + 1).
Proof. intros Hi. destruct Hwf. unfold in_log. lia. Qed.

(** The log buffer and the home buffer, both held. *)
Lemma bread_pair s V D x y :
  rep s V D ∅ ∅ -> 0 <= x < disksize s -> 0 <= y < disksize s -> x ≠ y ->
  (size D < Z.to_nat NBUF)%nat -> (y ∈ D \/ (1 + size D < Z.to_nat NBUF)%nat) ->
  wp (bread 1 x) (fun i s1 => wp (bread 1 y) (fun j s2 =>
     rep s2 V D (<[j := y]> (<[i := x]> ∅)) ∅ /\ i ≠ j /\ same_disk s s2) s1) s.
Proof.
  intros HR Hx Hy Hne Hsz Hroom. eapply wp_mono.
  { eapply rep_bread; [done | done | done | right; by rewrite map_size_empty]. }
  intros i s1 (HR1 & _ & Hd1 & Hw1 & Hz1 & Hp1). eapply wp_mono.
  { eapply rep_bread; [done | by rewrite Hz1 | |].
    - intros k. destruct (decide (k = i)) as [->|].
      + rewrite lookup_insert_eq. congruence.
      + by rewrite lookup_insert_ne.
    - destruct Hroom as [?|?]; [by left|right].
      rewrite map_size_insert_None, map_size_empty by done. done. }
  intros j s2 (HR2 & Hj & Hd2 & Hw2 & Hz2 & Hp2). split; [done|]. split.
  - intros ->. by rewrite lookup_insert_eq in Hj.
  - repeat split; congruence.
Qed.
End Copies.

(** A loop over the tails is a loop over the logged blocks. *)
Lemma tails_seq n : tails n = Z.of_nat <$> seq 0 (Z.to_nat n).
Proof.
  unfold tails, seqZ. apply list_fmap_ext. intros. lia.
Qed.

(** Iterating a body that does one copy per logged block. *)
Lemma for_tails (body : Z -> M store unit) (lb : list Z)
    (I : nat -> store -> Prop) (n : Z) s :
  length lb = Z.to_nat n ->
  I 0%nat s ->
  (forall i b s', lb !! i = Some b -> I i s' -> wp (body (Z.of_nat i)) (fun _ => I (S i)) s') ->
  wp (for_each (tails n) body) (fun _ => I (length lb)) s.
Proof.
  intros Hlen H0 Hstep. rewrite tails_seq, <- Hlen.
  assert (Hg : forall k i s', (i + k = length lb)%nat -> I i s' ->
     wp (for_each (Z.of_nat <$> seq i k) body) (fun _ => I (length lb)) s').
  { induction k as [|k IH]; intros i s' Hik Hi; simpl.
    - rewrite Nat.add_0_r in Hik. by subst.
    - wp_step. destruct (lookup_lt_is_Some_2 lb i ltac:(lia)) as [b Hb].
      eapply wp_mono; [by eapply Hstep|]. intros [] s1 H1. apply (IH (S i)); [lia|done]. }
  by apply (Hg (length lb) 0%nat).
Qed.

Section Loops.
Context (s0 : store) (V : Z -> list Z) (D : gset Z).
Let l := s_log s0.
Hypothesis Hwf : log_wf l (disksize (s_bio s0)).
Hypothesis HR : rep (s_bio s0) V D ∅ ∅.
Hypothesis Hsize : (size D < Z.to_nat NBUF)%nat.

Lemma log_ws_lookup i b :
  logged l !! i = Some b -> log_ws l V !! i = Some (l_start l + Z.of_nat i + 1, V b).
Proof. intros H. unfold log_ws. by rewrite list_lookup_imap, H. Qed.

Lemma install_ws_lookup i b :
  logged l !! i = Some b -> install_ws l V !! i = Some (b, V (l_start l + Z.of_nat i + 1)).
Proof. intros H. unfold install_ws. by rewrite list_lookup_imap, H. Qed.

Lemma log_ws_area b d : (b, d) ∈ log_ws l V -> in_log l b /\ b ≠ l_start l.
Proof using Hwf.
  clear HR Hsize.
  intros (i & Hi)%list_elem_of_lookup. unfold log_ws in Hi.
  rewrite list_lookup_imap in Hi. destruct (logged l !! i) as [b'|] eqn:E; [|done].
  simpl in Hi. injection Hi as <- _. apply lookup_lt_Some in E. rewrite (length_logged l _ Hwf) in E.
  destruct (log_slot_range l _ Hwf i E). split; [done|lia].
Qed.

Lemma install_ws_home b d : (b, d) ∈ install_ws l V -> b ∈ logged l /\ ~ in_log l b.
Proof using Hwf.
  clear HR Hsize.
  intros (i & Hi)%list_elem_of_lookup. unfold install_ws in Hi.
  rewrite list_lookup_imap in Hi. destruct (logged l !! i) as [b'|] eqn:E; [|done].
  simpl in Hi. injection Hi as <- _. split; [by eapply list_elem_of_lookup_2|].
  by eapply (logged_home l _ Hwf).
Qed.

Lemma applyV_take_log i b :
  ~ in_log l b -> applyV (take i (log_ws l V)) V b = V b.
Proof using Hwf.
  clear HR Hsize.
  intros Hb. apply applyV_notin. intros ([b' d] & -> & Hin)%list_elem_of_fmap.
  apply Hb. eapply log_ws_area. by eapply elem_of_take_sub.
Qed.

Lemma applyV_take_install i b :
  in_log l b -> applyV (take i (install_ws l V)) V b = V b.
Proof using Hwf.
  clear HR Hsize.
  intros Hb. apply applyV_notin. intros ([b' d] & -> & Hin)%list_elem_of_fmap.
  eapply install_ws_home; [by eapply elem_of_take_sub | done].
Qed.

Lemma write_log_spec :
  (forall b, b ∈ logged l -> b ∈ D) -> (forall b, b ∈ D -> ~ in_log l b) ->
  wp write_log (fun _ s' => s_log s' = l
      /\ done_with (s_bio s0) (applyV (log_ws l V) V) D (log_ws l V) (s_bio s')) s0.
Proof.
  intros HlD HDl. unfold write_log. wp_step. apply wp_get_log. fold l.
  pose proof (length_logged l _ Hwf) as Hlen.
  assert (Hlw : length (log_ws l V) = length (logged l)) by apply length_imap.
  eapply wp_mono.
  - apply (for_tails _ (logged l) (fun i s' => s_log s' = l /\
      done_with (s_bio s0) (applyV (take i (log_ws l V)) V) D (take i (log_ws l V)) (s_bio s')));
      [done | by split; [|apply done_with_refl] |].
    intros i b s' Hi [Hl Hdone]. pose proof Hdone as (HRi & _ & _ & Hzi & _).
    destruct (logged_home l _ Hwf i b Hi) as [Hb Hbl].
    assert (Hin : (i < Z.to_nat (lh_n l))%nat) by (rewrite <- Hlen; by eapply lookup_lt_Some).
    destruct (log_slot_range l _ Hwf i Hin) as [Hx Hxl].
    assert (Hxb : l_start l + Z.of_nat i + 1 ≠ b) by (intros Heq; apply Hbl; by rewrite <- Heq).
    wp_step. apply wp_get_log. rewrite Hl. unfold id. rewrite (lw_dev _ _ Hwf).
    wp_step. eapply wp_from_opt.
    { rewrite zget_nat. unfold logged in Hi. by apply lookup_take_Some in Hi as [? _]. }
    apply wp_on_bio. wp_step. eapply wp_mono.
    { eapply (bread_pair _ _ _ _ b HRi); try (rewrite Hzi; done); try done.
      left. apply HlD. by eapply list_elem_of_lookup_2. }
    intros x s1 Hs1. wp_step. eapply wp_mono; [exact Hs1|]. cbn beta.
    intros y s2 (HR2 & Hxy & Hd2 & Hw2 & Hz2 & Hp2).
    eapply wp_mono; [eapply (copy_held _ _ _ _ y x b); [exact HR2 | done | done | done]|].
    intros [] s3 Hs3. cbn beta in Hs3. split; [done|]. simpl.
    erewrite take_S_r by (by apply log_ws_lookup). rewrite applyV_app. simpl.
    rewrite (applyV_take_log i b Hbl) in Hs3.
    replace (D ∖ {[l_start l + Z.of_nat i + 1]}) with D in Hs3
      by (apply leibniz_equiv; intros z; rewrite elem_of_difference, elem_of_singleton; naive_solver).
    eapply done_with_trans; [exact Hdone|].
    destruct Hs3 as (? & ? & ? & ? & ?). split; [done|]. repeat split; congruence.
  - intros [] s' H. by rewrite take_ge in H by lia.
Qed.

Lemma install_trans_spec :
  (forall i b, logged l !! i = Some b ->
     b ∈ D ∖ list_to_set (take i (logged l)) \/ (1 + size D < Z.to_nat NBUF)%nat) ->
  wp install_trans (fun _ s' => s_log s' = l
      /\ done_with (s_bio s0) (applyV (install_ws l V) V) (D ∖ list_to_set (logged l))
           (install_ws l V) (s_bio s')) s0.
Proof.
  intros Hroom. unfold install_trans. wp_step. apply wp_get_log. fold l.
  pose proof (length_logged l _ Hwf) as Hlen.
  assert (Hlw : length (install_ws l V) = length (logged l)) by apply length_imap.
  eapply wp_mono.
  - apply (for_tails _ (logged l) (fun i s' => s_log s' = l /\
      done_with (s_bio s0) (applyV (take i (install_ws l V)) V)
        (D ∖ list_to_set (take i (logged l))) (take i (install_ws l V)) (s_bio s')));
      [done | | ].
    { split; [done|]. simpl. replace (D ∖ ∅) with D by set_solver. by apply done_with_refl. }
    intros i b s' Hi [Hl Hdone]. pose proof Hdone as (HRi & _ & _ & Hzi & _).
    destruct (logged_home l _ Hwf i b Hi) as [Hb Hbl].
    assert (Hin : (i < Z.to_nat (lh_n l))%nat) by (rewrite <- Hlen; by eapply lookup_lt_Some).
    destruct (log_slot_range l _ Hwf i Hin) as [Hx Hxl].
    assert (Hxb : l_start l + Z.of_nat i + 1 ≠ b) by (intros Heq; apply Hbl; by rewrite <- Heq).
    assert (Hsz : (size (D ∖ list_to_set (take i (logged l))) <= size D)%nat)
      by (apply subseteq_size; set_solver).
    wp_step. apply wp_get_log. rewrite Hl. unfold id. rewrite (lw_dev _ _ Hwf).
    wp_step. eapply wp_from_opt.
    { rewrite zget_nat. unfold logged in Hi. by apply lookup_take_Some in Hi as [? _]. }
    apply wp_on_bio. wp_step. eapply wp_mono.
    { eapply (bread_pair _ _ _ _ b HRi); try (rewrite Hzi; done); try done; [lia|].
      destruct (Hroom i b Hi); [by left | right; lia]. }
    intros x s1 Hs1. wp_step. eapply wp_mono; [exact Hs1|]. cbn beta.
    intros y s2 (HR2 & Hxy & Hd2 & Hw2 & Hz2 & Hp2). rewrite insert_insert_ne in HR2 by done.
    eapply wp_mono; [eapply (copy_held _ _ _ _ x y _ b); [exact HR2 | done | done | done]|].
    intros [] s3 Hs3. cbn beta in Hs3. split; [done|]. simpl.
    erewrite take_S_r by (by apply install_ws_lookup). rewrite applyV_app. simpl.
    rewrite (applyV_take_install i _ Hxl) in Hs3.
    replace (D ∖ list_to_set (take (S i) (logged l)))
      with (D ∖ list_to_set (take i (logged l)) ∖ {[b]})
      by (erewrite take_S_r by done; rewrite list_to_set_app_L; set_solver).
    eapply done_with_trans; [exact Hdone|].
    destruct Hs3 as (? & ? & ? & ? & ?). split; [done|]. repeat split; congruence.
  - intros [] s' Hs. by rewrite !take_ge in Hs by lia.
Qed.
End Loops.

(** ** The header block *)

Fixpoint put_blocks (i : nat) (bl : list Z) (d : list Z) : list Z :=
  match bl with
  | [] => d
  | b :: bl' => put_blocks (S i) bl' (set_le 4 (4 + 4 * i) (u32 b) d)
  end.

(** The header block [write_head] writes over the old one [d]. *)
Definition encode_hdr (l : log) (d : list Z) : list Z :=
  put_blocks 0 (logged l) (set_le 4 0 (u32 (lh_n l)) d).

Lemma put_blocks_snoc i bl b d :
  put_blocks i (bl ++ [b]) d = set_le 4 (4 + 4 * (i + length bl)) (u32 b) (put_blocks i bl d).
Proof.
  revert i d. induction bl as [|b' bl IH]; intros i d; cbn [put_blocks app length].
  - by rewrite Nat.add_0_r.
  - rewrite IH. by replace (S i + length bl)%nat with (i + S (length bl))%nat by lia.
Qed.

Lemma put_blocks_wf i bl d :
  (4 + 4 * (i + length bl) <= 512)%nat -> wf_block d -> wf_block (put_blocks i bl d).
Proof.
  revert i d. induction bl as [|b bl IH]; intros i d Hl Hd; simpl in *; [done|].
  apply IH; [lia|]. apply wf_block_set_le; [lia|done].
Qed.

Lemma put_blocks_low i bl d o :
  (o + 4 <= 4 + 4 * i)%nat -> (4 + 4 * (i + length bl) <= 512)%nat -> length d = 512%nat ->
  get_le 4 o (put_blocks i bl d) = get_le 4 o d.
Proof.
  revert i d. induction bl as [|b bl IH]; intros i d Ho Hl Hd; simpl in *; [done|].
  rewrite IH; [|lia|lia|].
  - rewrite get_set_le_other; [done|lia|lia].
  - rewrite length_set_le; lia.
Qed.

Lemma put_blocks_get i bl d k b :
  bl !! k = Some b -> (4 + 4 * (i + length bl) <= 512)%nat -> length d = 512%nat ->
  get_le 4 (4 + 4 * (i + k)) (put_blocks i bl d) = u32 b.
Proof.
  revert i d k. induction bl as [|b' bl IH]; intros i d k Hk Hl Hd; [done|].
  cbn [length put_blocks] in *. destruct k as [|k]; simpl in Hk.
  - simplify_eq. rewrite Nat.add_0_r, put_blocks_low; [|lia|lia|rewrite length_set_le; lia].
    apply get_set_le_same; [lia|]. pose proof (u32_range b). by unfold is_u32 in *.
  - replace (i + S k)%nat with (S i + k)%nat by lia. apply IH; [done|lia|].
    rewrite length_set_le; lia.
Qed.

Section Header.
Context (l : log) (dsize : Z).
Hypothesis Hwf : log_wf l dsize.

Lemma hdr_fits : (4 + 4 * (0 + length (logged l)) <= 512)%nat.
Proof. rewrite (length_logged l _ Hwf). destruct Hwf. unfold NBUF, MAXOPBLOCKS in *. lia. Qed.

Lemma encode_hdr_wf d : wf_block d -> wf_block (encode_hdr l d).
Proof.
  intros Hd. apply put_blocks_wf; [apply hdr_fits|]. apply wf_block_set_le; [lia|done].
Qed.

Lemma encode_hdr_n d : wf_block d -> hdr_n (encode_hdr l d) = lh_n l.
Proof.
  intros [Hd _]. unfold hdr_n, encode_hdr.
  rewrite put_blocks_low; [|lia|apply hdr_fits|rewrite length_set_le; lia].
  rewrite get_set_le_same; [|lia|apply u32_range].
  rewrite i32_u32. apply i32_id. destruct Hwf. unfold is_i32, NBUF, MAXOPBLOCKS in *. lia.
Qed.

Lemma encode_hdr_block d i b :
  wf_block d -> logged l !! i = Some b -> hdr_block (Z.of_nat i) (encode_hdr l d) = b.
Proof.
  intros [Hd _] Hi. unfold hdr_block, encode_hdr. rewrite Nat2Z.id.
  change (4 + 4 * i)%nat with (4 + 4 * (0 + i))%nat.
  rewrite (put_blocks_get 0 (logged l) _ i b Hi hdr_fits) by (rewrite length_set_le; lia).
  rewrite i32_u32. apply i32_id.
  destruct (logged_home l _ Hwf i b Hi) as [? _]. destruct Hwf. unfold is_i32. lia.
Qed.
End Header.

Section WriteHead.
Context (s0 : store) (V : Z -> list Z) (D : gset Z).
Let l := s_log s0.
Hypothesis Hwf : log_wf l (disksize (s_bio s0)).
Hypothesis HR : rep (s_bio s0) V D ∅ ∅.
Hypothesis Hsize : (size D < Z.to_nat NBUF)%nat.

Lemma write_head_spec :
  l_start l ∉ D ->
  wp write_head (fun _ s' => s_log s' = l
      /\ done_with (s_bio s0) (upd V (l_start l) (encode_hdr l (V (l_start l)))) D
           [(l_start l, encode_hdr l (V (l_start l)))] (s_bio s')) s0.
Proof.
  intros HsD. unfold write_head. wp_step. apply wp_get_log. unfold id. fold l.
  set (st := l_start l) in *. pose proof (length_logged l _ Hwf) as Hlen.
  rewrite (lw_dev _ _ Hwf). wp_step. apply wp_on_bio. eapply wp_mono.
  { eapply rep_bread; [done | destruct Hwf; unfold st; lia | done | right; by rewrite map_size_empty]. }
  intros bp s1 (HR1 & _ & Hd1 & Hw1 & Hz1 & Hp1).
  assert (Hbp : (<[bp := st]> (∅ : gmap nat Z)) !! bp = Some st) by apply lookup_insert_eq.
  pose proof (rep_data_wf _ _ _ _ _ HR st) as HVst.
  wp_step. apply wp_on_bio. eapply wp_mono; [by eapply rep_read_data|]. cbn beta.
  intros d ? [-> ->]. wp_step. apply wp_on_bio. eapply wp_mono.
  { eapply rep_write_data; [exact HR1 | exact Hbp | apply wf_block_set_le; [lia|done]]. }
  cbn beta. intros [] s2 [HR2 Hs2]. set (d0 := set_le 4 0 (u32 (lh_n l)) (V st)) in *.
  wp_step. eapply wp_mono.
  { apply (for_tails _ (logged l) (fun i s' => s_log s' = l /\ same_disk s1 (s_bio s')
      /\ rep (s_bio s') (upd V st (put_blocks 0 (take i (logged l)) d0)) D (<[bp := st]> ∅) {[st]}));
      [done | |].
    { split; [done|]. split; [done|]. simpl. by replace {[st]} with ({[st]} ∪ ∅ : gset Z) by set_solver. }
    intros i b s' Hi (Hl & (Hd & Hw & Hz & Hp) & HRi). wp_step. eapply wp_from_opt.
    { rewrite zget_nat. unfold logged in Hi. by apply lookup_take_Some in Hi as [? _]. }
    wp_step. apply wp_on_bio. eapply wp_mono; [by eapply rep_read_data|]. cbn beta.
    intros ? ? [-> ->]. rewrite upd_eq. apply wp_on_bio.
    assert (Hfit : (4 + 4 * i + 4 <= 512)%nat).
    { pose proof (hdr_fits l _ Hwf). apply lookup_lt_Some in Hi. lia. }
    eapply wp_mono.
    { eapply rep_write_data; [exact HRi | exact Hbp |]. apply wf_block_set_le; [lia|].
      apply put_blocks_wf; [rewrite length_take; lia|]. apply wf_block_set_le; [lia|done]. }
    cbn beta. intros [] s3 [HR3 (Hd3 & Hw3 & Hz3 & Hp3)]. simpl. rewrite Nat2Z.id in HR3.
    split; [done|]. split; [unfold same_disk; simpl in *; repeat split; congruence|].
    erewrite take_S_r by done. rewrite put_blocks_snoc, length_take.
    replace (0 + (i `min` length (logged l)))%nat with i by (apply lookup_lt_Some in Hi; lia).
    replace ({[st]} ∪ {[st]}) with ({[st]} : gset Z) in HR3 by set_solver.
    eapply rep_ext; [|exact HR3]. intros b0. unfold upd. by destruct (decide (b0 = st)). }
  cbn beta. intros [] s3 (Hl3 & (Hd3 & Hw3 & Hz3 & Hp3) & HR3). rewrite take_ge in HR3 by lia.
  fold (encode_hdr l (V st)) in HR3.
  wp_step. apply wp_on_bio. eapply wp_mono; [by eapply rep_bwrite|]. cbn beta.
  intros [] s4 (HR4 & Hd4 & Hw4 & Hz4 & Hp4). rewrite upd_eq in Hd4, Hw4.
  apply wp_on_bio. eapply wp_mono; [eapply rep_brelse; [exact HR4 | exact Hbp | left; set_solver]|].
  cbn beta. intros [] s5 [HR5 (Hd5 & Hw5 & Hz5 & Hp5)]. split; [done|]. simpl.
  split; [|simpl in *; rewrite Hd5, Hd4, Hd3, Hd1, Hw5, Hw4, Hw3, Hw1; repeat split; congruence].
  replace (D ∖ {[st]}) with D in HR5 by set_solver.
  replace ({[st]} ∖ {[st]}) with (∅ : gset Z) in HR5 by set_solver.
  by rewrite delete_insert_eq in HR5.
Qed.
End WriteHead.

(** ** Commit *)

(** Ready to commit: no system call is in progress, the dirty blocks are exactly
    the logged ones, and the log on disk is empty. *)
Record commit_ready (s : store) (V : Z -> list Z) (D : gset Z) : Prop := {
  cr_wf : log_wf (s_log s) (disksize (s_bio s));
  cr_rep : rep (s_bio s) V D ∅ ∅;
  cr_nodup : NoDup (logged (s_log s));
  cr_dirty : D = list_to_set (logged (s_log s));
  cr_empty : hdr_n (dread (disk (s_bio s)) (l_start (s_log s))) = 0 }.

Definition home_ws (l : log) (V : Z -> list Z) : list (Z * list Z) :=
  (fun b => (b, V b)) <$> logged l.

(** The header that commits, and the one that clears the log again. *)
Definition hdr1 (l : log) (V : Z -> list Z) : list Z := encode_hdr l (V (l_start l)).
Definition hdr0 (l : log) (V : Z -> list Z) : list Z := set_le 4 0 0 (hdr1 l V).

(** All the block writes of a commit, in order. *)
Definition commit_ws (l : log) (V : Z -> list Z) : list (Z * list Z) :=
  log_ws l V ++ [(l_start l, hdr1 l V)] ++ home_ws l V ++ [(l_start l, hdr0 l V)].

Section Commit.
Context (s0 : store) (V : Z -> list Z) (D : gset Z).
Hypothesis HC : commit_ready s0 V D.
Let l := s_log s0.
Let Hwf : log_wf l (disksize (s_bio s0)) := cr_wf _ _ _ HC.

Lemma commit_size : (size D < Z.to_nat NBUF)%nat.
Proof.
  rewrite (cr_dirty _ _ _ HC), size_list_to_set by apply HC.
  fold l. rewrite (length_logged l _ Hwf). destruct Hwf. unfold NBUF, MAXOPBLOCKS in *. lia.
Qed.

Lemma dirty_home b : b ∈ D -> ~ in_log l b.
Proof.
  rewrite (cr_dirty _ _ _ HC), elem_of_list_to_set. intros [i Hi]%list_elem_of_lookup.
  by eapply (logged_home l _ Hwf).
Qed.

Lemma start_in_log : in_log l (l_start l).
Proof. destruct Hwf. unfold in_log. lia. Qed.

Definition V_logged : Z -> list Z := upd (applyV (log_ws l V) V) (l_start l) (hdr1 l V).

Lemma log_ws_start : applyV (log_ws l V) V (l_start l) = V (l_start l).
Proof.
  apply applyV_notin. intros ([b d] & Hb & Hin)%list_elem_of_fmap.
  eapply (log_ws_area s0 V Hwf) in Hin as [_ Hn]. by apply Hn.
Qed.

Lemma log_ws_nodup : NoDup (log_ws l V).*1.
Proof.
  unfold log_ws.
  apply NoDup_alt. intros i j b Hi Hj.
  rewrite list_lookup_fmap, list_lookup_imap in Hi, Hj.
  destruct (logged l !! i), (logged l !! j); simpl in *; simplify_eq. lia.
Qed.

Lemma V_logged_slot i b :
  logged l !! i = Some b -> V_logged (l_start l + Z.of_nat i + 1) = V b.
Proof.
  intros Hi. unfold V_logged. rewrite upd_ne by lia.
  apply applyV_in; [apply log_ws_nodup|]. eapply list_elem_of_lookup_2.
  by apply (log_ws_lookup s0).
Qed.

Lemma install_home : install_ws l V_logged = home_ws l V.
Proof.
  apply list_eq. intros i. unfold install_ws, home_ws.
  rewrite list_lookup_imap, list_lookup_fmap.
  destruct (logged l !! i) as [b|] eqn:E; simpl; [|done]. by rewrite (V_logged_slot i b E).
Qed.

(** Block contents after the commit: unchanged outside the log area. *)
Definition V_committed : Z -> list Z :=
  upd (applyV (home_ws l V) V_logged) (l_start l) (hdr0 l V).

Lemma applyV_home b : ~ in_log l b -> applyV (home_ws l V) V_logged b = V b.
Proof.
  intros Hb. assert (Hf : (home_ws l V).*1 = logged l).
  { unfold home_ws. rewrite <- list_fmap_compose. apply list_fmap_id. }
  destruct (decide (b ∈ logged l)) as [Hin|Hn].
  - apply applyV_in; [rewrite Hf; apply HC|]. apply list_elem_of_fmap. eauto.
  - rewrite applyV_notin by (by rewrite Hf). unfold V_logged.
    rewrite upd_ne by (intros ->; by apply Hb, start_in_log).
    rewrite applyV_notin; [done|]. intros ([b' d] & -> & Hin)%list_elem_of_fmap.
    by apply Hb, (log_ws_area s0 V Hwf _ _ Hin).
Qed.

Lemma V_committed_home b : ~ in_log l b -> V_committed b = V b.
Proof.
  intros Hb. unfold V_committed. rewrite upd_ne by (intros ->; by apply Hb, start_in_log).
  by apply applyV_home.
Qed.

Lemma commit_spec :
  0 < lh_n l ->
  wp commit (fun _ s' => s_log s' = set_lh_n 0 l
     /\ done_with (s_bio s0) V_committed ∅ (commit_ws l V) (s_bio s')) s0.
Proof.
  intros Hn. unfold commit. wp_step. apply wp_get_log. fold l.
  rewrite (proj2 (Z.ltb_lt _ _) Hn). unfold when. pose proof commit_size as Hsz.
  wp_step. eapply wp_mono.
  { apply (write_log_spec s0 V D Hwf (cr_rep _ _ _ HC) Hsz).
    - intros b Hb. rewrite (cr_dirty _ _ _ HC). by apply elem_of_list_to_set.
    - apply dirty_home. }
  cbn beta. intros [] s1 [Hl1 H1]. fold l in Hl1, H1. pose proof H1 as (HR1 & _ & _ & Hz1 & _).
  wp_step. eapply wp_mono.
  { eapply (write_head_spec s1); [by rewrite Hl1, Hz1 | exact HR1 | done |].
    rewrite Hl1. intros Hs. by apply dirty_home in Hs; apply Hs, start_in_log. }
  cbn beta. rewrite Hl1, log_ws_start. fold (hdr1 l V). fold V_logged.
  intros [] s2 [Hl2 H2]. pose proof H2 as (HR2 & _ & _ & Hz2 & _).
  wp_step. eapply wp_mono.
  { eapply (install_trans_spec s2 V_logged D); [by rewrite Hl2, Hz2, Hz1 | exact HR2 | done |].
    intros i b Hi. left. rewrite Hl2 in Hi |- *. rewrite (cr_dirty _ _ _ HC). fold l.
    apply elem_of_difference. split; [apply elem_of_list_to_set; by eapply list_elem_of_lookup_2|].
    rewrite elem_of_list_to_set. intros (j & Hj & Hlt)%elem_of_take.
    pose proof (NoDup_lookup _ i j b (cr_nodup _ _ _ HC) Hi Hj). lia. }
  cbn beta. rewrite Hl2, install_home. intros [] s3 [Hl3 H3].
  replace (D ∖ list_to_set (logged l)) with (∅ : gset Z) in H3
    by (rewrite (cr_dirty _ _ _ HC); fold l; set_solver).
  pose proof H3 as (HR3 & _ & _ & Hz3 & _).
  wp_step. apply wp_set_log. eapply wp_mono.
  { eapply (write_head_spec (mkStore (s_bio s3) (set_lh_n 0 (s_log s3)))); [|exact HR3 | |].
    - rewrite Hl3. simpl. rewrite Hz3, Hz2, Hz1. destruct Hwf. split; simpl; try done; lia.
    - rewrite size_empty. unfold NBUF, MAXOPBLOCKS. lia.
    - set_solver. }
  cbn beta. rewrite Hl3. simpl. intros [] s4 [Hl4 H4]. split; [done|].
  unfold commit_ws. eapply done_with_trans; [exact H1|]. eapply done_with_trans; [exact H2|].
  eapply done_with_trans; [exact H3|].
  assert (Hst : applyV (home_ws l V) V_logged (l_start l) = hdr1 l V).
  { rewrite <- install_home. rewrite applyV_notin; [by unfold V_logged; rewrite upd_eq|].
    intros ([b d] & Hb & Hin)%list_elem_of_fmap.
    apply (install_ws_home s0 V_logged Hwf) in Hin as [_ Hnl]. apply Hnl.
    simpl in Hb. rewrite <- Hb. apply start_in_log. }
  rewrite Hst in H4. unfold encode_hdr, logged, set_lh_n in H4. simpl in H4. exact H4.
Qed.
End Commit.
