(* ===== verification/Crash.v ===== *)
(** * Crash safety of the log

    [recover_from_log] run on whatever a crash left on the disk, and the
    theorem that a transaction is atomic: recovery yields the disk before the
    transaction or the disk after it, never a mixture. *)

From S2P Require Import Prelude KMonad Params Bio BioSpec Log LogSpec.

(** The in-memory header after [read_head] reads the block [d]. *)
Definition hdr_blocks (d : list Z) : list Z :=
  (fun i => hdr_block (Z.of_nat i) d) <$> seq 0 (Z.to_nat (hdr_n d)).

Definition load_hdr (d : list Z) (l : log) : log :=
  set_lh_block (hdr_blocks d ++ drop (Z.to_nat (hdr_n d)) (lh_block l)) (set_lh_n (hdr_n d) l).

Lemma length_hdr_blocks d : length (hdr_blocks d) = Z.to_nat (hdr_n d).
Proof. unfold hdr_blocks. by rewrite length_fmap, length_seq. Qed.

Lemma logged_load d l : logged (load_hdr d l) = hdr_blocks d.
Proof.
  unfold logged. simpl. rewrite take_app_le by (rewrite length_hdr_blocks; lia).
  by rewrite take_ge by (rewrite length_hdr_blocks; lia).
Qed.

Lemma hdr_blocks_step d i b bl0 :
  hdr_blocks d !! i = Some b -> (i < length bl0)%nat ->
  <[i := b]> (take i (hdr_blocks d) ++ drop i bl0) = take (S i) (hdr_blocks d) ++ drop (S i) bl0.
Proof.
  intros Hi Hlt. pose proof (lookup_lt_Some _ _ _ Hi).
  rewrite insert_app_r_alt by (rewrite length_take; lia).
  rewrite length_take, Nat.min_l, Nat.sub_diag by lia.
  destruct (lookup_lt_is_Some_2 bl0 i Hlt) as [x Hx].
  rewrite (drop_S bl0 x i Hx). simpl. erewrite take_S_r by done. by rewrite <- app_assoc.
Qed.

Section ReadHead.
Context (s0 : store) (V : Z -> list Z).
Let l := s_log s0.
Let d := V (l_start l).
Hypothesis HR : rep (s_bio s0) V ∅ ∅ ∅.
Hypothesis Hdev : l_dev l = 1.
Hypothesis Hst : 0 <= l_start l < disksize (s_bio s0).
Hypothesis Hlen : length (lh_block l) = Z.to_nat LOGSIZE.
Hypothesis Hn : 0 <= hdr_n d <= LOGSIZE.

Lemma read_head_spec :
  wp read_head (fun _ s' => s_log s' = load_hdr d l
     /\ done_with (s_bio s0) V ∅ [] (s_bio s')) s0.
Proof.
  unfold read_head. wp_step. apply wp_get_log. unfold id. fold l. rewrite Hdev.
  wp_step. apply wp_on_bio. eapply wp_mono.
  { eapply rep_bread; [done | done | done |].
    right. rewrite map_size_empty, size_empty. unfold NBUF, MAXOPBLOCKS. lia. }
  intros bp s1 (HR1 & _ & Hd1 & Hw1 & Hz1 & Hp1).
  assert (Hbp : (<[bp := l_start l]> (∅ : gmap nat Z)) !! bp = Some (l_start l))
    by apply lookup_insert_eq.
  wp_step. apply wp_on_bio. eapply wp_mono; [by eapply rep_read_data|]. cbn beta.
  intros ? ? [-> ->]. fold d. wp_step. apply wp_set_log. simpl. fold l.
  wp_step. eapply wp_mono.
  { apply (for_tails _ (hdr_blocks d) (fun i s' => s_bio s' = s1 /\
      s_log s' = set_lh_block (take i (hdr_blocks d) ++ drop i (lh_block l))
                   (set_lh_n (hdr_n d) l))).
    - by rewrite length_hdr_blocks.
    - split; [done|]. simpl. by destruct l.
    - intros i b s' Hi [Hb Hl]. pose proof (lookup_lt_Some _ _ _ Hi) as Hlt.
      rewrite length_hdr_blocks in Hlt. wp_step. apply wp_get_log. rewrite Hl. simpl.
      wp_step. eapply wp_from_opt.
      { rewrite zset_nat; [done|]. rewrite length_app, length_take, length_drop, length_hdr_blocks. lia. }
      apply wp_set_log. simpl. split; [done|]. rewrite Hl.
      pose proof Hi as Hi'. unfold hdr_blocks in Hi'. rewrite list_lookup_fmap, lookup_seq_lt in Hi' by lia.
      simpl in Hi'. injection Hi' as Hi'. rewrite Hi'. erewrite hdr_blocks_step; [done | done | lia]. }
  cbn beta. intros [] s2 [Hb2 Hl2]. rewrite take_ge in Hl2 by done.
  apply wp_on_bio. rewrite Hb2. eapply wp_mono.
  { eapply rep_brelse; [exact HR1 | exact Hbp | left; set_solver]. }
  cbn beta. intros [] s3 [HR3 (Hd3 & Hw3 & Hz3 & Hp3)]. simpl.
  rewrite delete_insert_eq in HR3. split.
  - rewrite Hl2. unfold load_hdr. by rewrite length_hdr_blocks.
  - split; [done|]. simpl. rewrite app_nil_r. repeat split; congruence.
Qed.
End ReadHead.

(** ** Recovery *)

Section Recover.
Context (s0 : store) (V : Z -> list Z).
Let l := s_log s0.
Let d := V (l_start l).
Let l1 := load_hdr d l.
Hypothesis HR : rep (s_bio s0) V ∅ ∅ ∅.
Hypothesis Hlen : length (lh_block l) = Z.to_nat LOGSIZE.
Hypothesis Hwf : log_wf l1 (disksize (s_bio s0)).

(** Contents after recovery: the logged blocks installed, the header cleared. *)
Definition V_recovered : Z -> list Z :=
  upd (applyV (install_ws l1 V) V) (l_start l) (set_le 4 0 0 d).

Lemma recover_spec :
  wp recover_from_log (fun _ s' => s_log s' = set_lh_n 0 l1
     /\ done_with (s_bio s0) V_recovered ∅
          (install_ws l1 V ++ [(l_start l, set_le 4 0 0 d)]) (s_bio s')) s0.
Proof.
  unfold recover_from_log. pose proof Hwf as [Hdev Hn _ Hsz Har _ _]. simpl in Hdev, Hn, Hsz, Har.
  assert (He : (size (∅ : gset Z) < Z.to_nat NBUF)%nat)
    by (rewrite size_empty; unfold NBUF, MAXOPBLOCKS; lia).
  wp_step. eapply wp_mono.
  { apply (read_head_spec s0 V HR); fold l; [done | lia | done |].
    change (0 <= hdr_n d <= LOGSIZE). unfold NBUF, LOGSIZE, MAXOPBLOCKS in *. lia. }
  cbn beta. fold l d l1. intros [] s1 [Hl1 H1]. pose proof H1 as (HR1 & _ & _ & Hz1 & _).
  wp_step. eapply wp_mono.
  { eapply (install_trans_spec s1 V ∅); [by rewrite Hl1, Hz1 | done | done |].
    right. rewrite size_empty. unfold NBUF, MAXOPBLOCKS. lia. }
  cbn beta. rewrite Hl1. intros [] s2 [Hl2 H2].
  replace (∅ ∖ list_to_set (logged l1)) with (∅ : gset Z) in H2 by set_solver.
  pose proof H2 as (HR2 & _ & _ & Hz2 & _).
  wp_step. apply wp_set_log. eapply wp_mono.
  { eapply (write_head_spec (mkStore (s_bio s2) (set_lh_n 0 (s_log s2)))); [|exact HR2 | done | ].
    - rewrite Hl2. simpl. rewrite Hz2, Hz1. destruct Hwf. split; simpl in *; try done; lia.
    - set_solver. }
  cbn beta. rewrite Hl2. simpl. intros [] s3 [Hl3 H3]. split; [done|].
  assert (Hs : applyV (install_ws l1 V) V (l_start l) = d).
  { rewrite applyV_notin; [done|]. intros ([b x] & Hb & Hin)%list_elem_of_fmap.
    apply (install_ws_home (mkStore (s_bio s0) l1) V Hwf) in Hin as [_ Hnl]. apply Hnl.
    simpl in Hb. rewrite <- Hb. unfold in_log. simpl. lia. }
  rewrite Hs in H3. unfold encode_hdr, logged, set_lh_n in H3. simpl in H3.
  apply (done_with_trans _ _ _ [] _ _ _ _ _ H1). by eapply done_with_trans.
Qed.
End Recover.

(** ** The disk images a crash can leave *)

Lemma map_Forall_apply_writes ws d :
  Forall (fun w => wf_block w.2) ws -> map_Forall (fun _ x => wf_block x) d ->
  map_Forall (fun _ x => wf_block x) (apply_writes ws d).
Proof.
  intros Hws. revert d. induction Hws as [|[b x] ws Hx Hws IH]; intros d Hd; simpl; [done|].
  apply IH. by apply map_Forall_insert_2.
Qed.

Lemma hdr_n_clear d : wf_block d -> hdr_n (set_le 4 0 0 d) = 0.
Proof. intros [Hl _]. unfold hdr_n. rewrite get_set_le_same; [done|lia|lia]. Qed.

Section Images.
Context (s0 : store) (V : Z -> list Z) (D : gset Z).
Hypothesis HC : commit_ready s0 V D.
Let l := s_log s0.
Let st := l_start l.
Let d0 := disk (s_bio s0).
Let Hwf : log_wf l (disksize (s_bio s0)) := cr_wf _ _ _ HC.

(** Before the commit point: nothing outside the log has changed. *)
Definition image_old (W : Z -> list Z) : Prop :=
  W st = dread d0 st /\ forall b, ~ in_log l b -> W b = dread d0 b.
(** Committed: the log holds the transaction, the home blocks may be stale. *)
Definition image_mid (W : Z -> list Z) : Prop :=
  W st = hdr1 l V
  /\ (forall i b, logged l !! i = Some b -> W (st + Z.of_nat i + 1) = V b)
  /\ (forall b, ~ in_log l b -> b ∉ logged l -> W b = V b).
(** Installed, header cleared. *)
Definition image_new (W : Z -> list Z) : Prop :=
  W st = hdr0 l V /\ forall b, ~ in_log l b -> W b = V b.

Lemma clean_view b : b ∉ logged l -> dread d0 b = V b.
Proof.
  intros Hb. symmetry. apply (rep_clean _ _ _ _ (cr_rep _ _ _ HC)).
  rewrite (cr_dirty _ _ _ HC). by rewrite elem_of_list_to_set.
Qed.

Lemma commit_ws_wf : Forall (fun w => wf_block w.2) (commit_ws l V).
Proof.
  pose proof (rep_data_wf _ _ _ _ _ (cr_rep _ _ _ HC)) as HV.
  assert (H1 : wf_block (hdr1 l V)) by (by apply (encode_hdr_wf l _ Hwf)).
  unfold commit_ws. rewrite !Forall_app, !Forall_singleton. split_and!; [|done| |].
  - apply Forall_forall. intros [b x] (i & Hi)%list_elem_of_lookup. unfold log_ws in Hi.
    rewrite list_lookup_imap in Hi. destruct (logged l !! i); simplify_eq/=. apply HV.
  - apply Forall_fmap, Forall_forall. intros b _. apply HV.
  - apply wf_block_set_le; [lia|done].
Qed.

Lemma home_ws_fst : (home_ws l V).*1 = logged l.
Proof. unfold home_ws. rewrite <- list_fmap_compose. apply list_fmap_id. Qed.

Lemma log_ws_notin b : ~ in_log l b \/ b = st -> b ∉ (log_ws l V).*1.
Proof.
  intros Hb ([b' x] & -> & Hin)%list_elem_of_fmap.
  apply (log_ws_area s0 V Hwf) in Hin as [Hi Hn]. by destruct Hb.
Qed.

Lemma take_old k b :
  (k <= length (logged l))%nat -> ~ in_log l b \/ b = st ->
  applyV (take k (commit_ws l V)) (dread d0) b = dread d0 b.
Proof.
  intros Hk Hb. unfold commit_ws. rewrite take_app_le by (unfold log_ws; rewrite length_imap; done).
  apply applyV_notin. rewrite fmap_take. intros Hin%elem_of_take_sub. by eapply log_ws_notin.
Qed.

(** The contents after the header that commits was written. *)
Let W1 := upd (applyV (log_ws l V) (dread d0)) st (hdr1 l V).

Lemma st_not_logged : st ∉ logged l.
Proof.
  intros [i Hi]%list_elem_of_lookup. apply (logged_home l _ Hwf) in Hi as [_ Hn].
  apply Hn, (start_in_log s0 V D HC).
Qed.

Lemma W1_slot i b : logged l !! i = Some b -> W1 (st + Z.of_nat i + 1) = V b.
Proof.
  intros Hi. unfold W1. rewrite upd_ne by lia.
  apply applyV_in; [apply (log_ws_nodup s0 V)|]. eapply list_elem_of_lookup_2.
  by apply (log_ws_lookup s0).
Qed.

Lemma W1_home b : ~ in_log l b -> W1 b = dread d0 b.
Proof.
  intros Hb. unfold W1. rewrite upd_ne.
  - apply applyV_notin, log_ws_notin. by left.
  - intros ->. apply Hb, (start_in_log s0 V D HC).
Qed.

Lemma home_take_notin j b : b ∉ logged l -> b ∉ (take j (home_ws l V)).*1.
Proof. intros Hb. rewrite fmap_take, home_ws_fst. intros H. by apply Hb, (elem_of_take_sub j). Qed.

Lemma mid_home j : image_mid (applyV (take j (home_ws l V)) W1).
Proof.
  split_and!.
  - rewrite applyV_notin by apply home_take_notin, st_not_logged. apply upd_eq.
  - intros i b Hi. rewrite applyV_notin; [by apply W1_slot|]. apply home_take_notin.
    intros [i' Hi']%list_elem_of_lookup. apply (logged_home l _ Hwf) in Hi' as [_ Hn].
    apply Hn, (log_slot_range l _ Hwf). rewrite <- (length_logged l _ Hwf).
    by eapply lookup_lt_Some.
  - intros b Hb Hl. rewrite applyV_notin by (by apply home_take_notin).
    rewrite W1_home by done. by apply clean_view.
Qed.

Lemma new_home : image_new (upd (applyV (home_ws l V) W1) st (hdr0 l V)).
Proof.
  split; [apply upd_eq|]. intros b Hb.
  rewrite upd_ne by (intros ->; apply Hb, (start_in_log s0 V D HC)).
  destruct (decide (b ∈ logged l)) as [Hin|Hn].
  - apply applyV_in; [rewrite home_ws_fst; apply HC|]. apply list_elem_of_fmap. eauto.
  - rewrite applyV_notin by (by rewrite home_ws_fst). rewrite W1_home by done. by apply clean_view.
Qed.

(** Every prefix of the writes of a commit leaves one of the three images. *)
Lemma crash_image k :
  let n := length (logged l) in
  let W := dread (apply_writes (take k (commit_ws l V)) d0) in
  if decide (k <= n)%nat then image_old W
  else if decide (k <= n + 1 + n)%nat then image_mid W else image_new W.
Proof.
  intros n W.
  assert (HW : forall b, W b = applyV (take k (commit_ws l V)) (dread d0) b)
    by (intros; apply dread_apply).
  assert (Hlw : length (log_ws l V) = n) by apply length_imap.
  assert (Hlh : length (home_ws l V) = n) by apply length_fmap.
  destruct (decide (k <= n)%nat) as [Hk|Hk].
  { split; intros; rewrite HW; apply take_old; auto. }
  assert (Htk : take k (commit_ws l V)
      = log_ws l V ++ (st, hdr1 l V) :: take (k - n - 1) (home_ws l V ++ [(st, hdr0 l V)])).
  { unfold commit_ws. rewrite take_app_ge, Hlw by lia. f_equal.
    destruct (k - n)%nat as [|j] eqn:E; [lia|]. simpl. repeat f_equal. lia. }
  destruct (decide (k <= n + 1 + n)%nat) as [Hk2|Hk2].
  - destruct (mid_home (k - n - 1)) as (H1 & H2 & H3). rewrite take_app_le in Htk by lia.
    split_and!; intros; rewrite HW, Htk, applyV_app; simpl; [apply H1 | by apply H2 | by apply H3].
  - destruct new_home as [H1 H2]. rewrite (take_ge (home_ws l V ++ _)) in Htk by (rewrite length_app; simpl; lia).
    split; intros; rewrite HW, Htk, applyV_app; simpl; rewrite applyV_app; simpl;
      [apply H1 | by apply H2].
Qed.
End Images.

(** ** Recovery from each image *)

(** What the boot establishes: an empty log and the contents [W] outside it. *)
Definition recovered_to (l : log) (W : Z -> list Z) (s : store) : Prop :=
  l_start (s_log s) = l_start l /\ l_size (s_log s) = l_size l /\ l_dev (s_log s) = 1
  /\ lh_n (s_log s) = 0 /\ l_outstanding (s_log s) = 0 /\ l_committing (s_log s) = 0
  /\ hdr_n (dread (disk (s_bio s)) (l_start l)) = 0
  /\ (exists V', rep (s_bio s) V' ∅ ∅ ∅)
  /\ forall b, ~ in_log l b -> dread (disk (s_bio s)) b = W b.

Lemma done_with_disk b0 V' D' ws b :
  done_with b0 V' D' ws b -> D' = ∅ -> forall x, dread (disk b) x = V' x.
Proof. intros (HR & _) -> x. symmetry. apply (rep_clean _ _ _ _ HR). set_solver. Qed.

(** The log of a booting kernel once [initlog] has read the super block. *)
Definition boot_header (l : log) : log :=
  mkLog (l_start l) (l_size l) 0 0 1 0 (lh_block log_bss).

Section RecoverImage.
Context (l : log) (dk : gmap Z (list Z)) (dsize : Z) (b1 : bio).
Hypothesis Hwf : log_wf l dsize.
Hypothesis HR : rep b1 (dread dk) ∅ ∅ ∅.
Hypothesis Hdz : disksize b1 = dsize.
Let W := dread dk.
Let lb := boot_header l.

Lemma load_wf bl :
  hdr_blocks (W (l_start l)) = bl -> 0 <= hdr_n (W (l_start l)) <= lh_n l ->
  (forall i b, bl !! i = Some b -> logged l !! i = Some b) ->
  log_wf (load_hdr (W (l_start l)) lb) dsize.
Proof.
  intros Hbl Hn Hlog. destruct Hwf as [_ Hn0 _ Hsz Har Hds Hhome].
  unfold NBUF, MAXOPBLOCKS in *.
  split; cbn -[Z.to_nat hdr_n]; fold (W (l_start l)); try (lia || done).
  - unfold NBUF, MAXOPBLOCKS. lia.
  - rewrite length_app, length_drop, length_hdr_blocks, length_replicate. unfold LOGSIZE, MAXOPBLOCKS. lia.
  - intros i b Hi Hlt. rewrite Hbl, lookup_app_l in Hi
      by (rewrite <- Hbl, length_hdr_blocks; lia).
    apply Hlog in Hi. unfold logged in Hi. apply lookup_take_Some in Hi as [Hi ?].
    apply (Hhome i b Hi). lia.
Qed.

Lemma recover_image (Q : Z -> list Z) :
  log_wf (load_hdr (W (l_start l)) lb) dsize ->
  (forall b, ~ in_log l b -> applyV (install_ws (load_hdr (W (l_start l)) lb) W) W b = Q b) ->
  wp recover_from_log (fun _ s' => recovered_to l Q s') (mkStore b1 lb).
Proof.
  intros Hwl HQ. eapply wp_mono.
  { apply (recover_spec (mkStore b1 lb) W); [done | done |]. simpl. by rewrite Hdz. }
  cbn beta. intros [] s' [Hl Hdone]. pose proof (done_with_disk _ _ _ _ _ Hdone eq_refl) as Hd.
  pose proof (rep_data_wf _ _ _ _ _ HR (l_start l)) as Hst.
  unfold recovered_to. rewrite Hl. simpl. split_and!; try done.
  - rewrite Hd. unfold V_recovered. simpl. rewrite upd_eq. by apply hdr_n_clear.
  - eexists. apply Hdone.
  - intros b Hb. rewrite Hd. unfold V_recovered. rewrite upd_ne; [by apply HQ|].
    intros ->. apply Hb. destruct Hwf. unfold in_log. simpl. lia.
Qed.

(** An empty header: nothing to install. *)
Lemma recover_empty :
  hdr_n (W (l_start l)) = 0 ->
  wp recover_from_log (fun _ s' => recovered_to l W s') (mkStore b1 lb).
Proof.
  intros Hn. pose proof Hwf as [_ ? _ _ _ _ _].
  assert (Hb : hdr_blocks (W (l_start l)) = []) by (unfold hdr_blocks; by rewrite Hn).
  apply recover_image.
  - apply (load_wf []); [done | lia | done].
  - intros b _. unfold install_ws. by rewrite logged_load, Hb.
Qed.

(** The header of a committed transaction: its blocks are installed. *)
Lemma recover_committed (V : Z -> list Z) d :
  wf_block d -> W (l_start l) = encode_hdr l d -> NoDup (logged l) ->
  (forall i b, logged l !! i = Some b -> W (l_start l + Z.of_nat i + 1) = V b) ->
  (forall b, ~ in_log l b -> b ∉ logged l -> W b = V b) ->
  wp recover_from_log (fun _ s' => recovered_to l V s') (mkStore b1 lb).
Proof.
  intros Hd Hh Hnd Hlog Hrest. pose proof (encode_hdr_n l _ Hwf d Hd) as Hn.
  assert (Hb : hdr_blocks (W (l_start l)) = logged l).
  { rewrite Hh. apply list_eq. intros i. unfold hdr_blocks. rewrite Hn.
    pose proof (length_logged l _ Hwf) as Hll. rewrite list_lookup_fmap.
    destruct (decide (i < Z.to_nat (lh_n l))%nat) as [Hi|Hi].
    - rewrite lookup_seq_lt by done. destruct (lookup_lt_is_Some_2 (logged l) i ltac:(lia)) as [b Hb].
      simpl. by rewrite Hb, (encode_hdr_block l _ Hwf d i b Hd Hb).
    - rewrite lookup_seq_ge by lia. simpl. symmetry. apply lookup_ge_None. lia. }
  pose proof Hwf as [_ Hn0 _ _ _ _ _]. apply recover_image.
  - apply (load_wf (logged l)); [done | rewrite Hh, Hn; lia | done].
  - intros b Hbl. set (l1 := load_hdr _ _).
    assert (Hf : (install_ws l1 W).*1 = logged l).
    { unfold install_ws, l1. rewrite logged_load, Hb. apply list_eq. intros i.
      rewrite list_lookup_fmap, list_lookup_imap. by destruct (logged l !! i). }
    destruct (decide (b ∈ logged l)) as [[i Hi]%list_elem_of_lookup|Hn'].
    + apply applyV_in; [by rewrite Hf|]. apply (list_elem_of_lookup_2 _ i).
      unfold install_ws, l1. rewrite logged_load, Hb, list_lookup_imap, Hi. simpl.
      by rewrite (Hlog i b Hi).
    + rewrite applyV_notin by (by rewrite Hf). by apply Hrest.
Qed.
End RecoverImage.

(** ** The boot *)

Lemma readsb_spec s V :
  rep (s_bio s) V ∅ ∅ ∅ -> 1 < disksize (s_bio s) ->
  wp (readsb 1) (fun sb s' => sb = decode_superblock (V 1) /\ s_log s' = s_log s
      /\ done_with (s_bio s) V ∅ [] (s_bio s')) s.
Proof.
  intros HR Hz. unfold readsb. wp_step. apply wp_on_bio. eapply wp_mono.
  { eapply rep_bread; [done | lia | done |].
    right. rewrite map_size_empty, size_empty. unfold NBUF, MAXOPBLOCKS. lia. }
  intros bp s1 (HR1 & _ & Hd1 & Hw1 & Hz1 & Hp1).
  assert (Hbp : (<[bp := 1]> (∅ : gmap nat Z)) !! bp = Some 1) by apply lookup_insert_eq.
  wp_step. apply wp_on_bio. eapply wp_mono; [by eapply rep_read_data|]. cbn beta.
  intros ? ? [-> ->]. wp_step. apply wp_on_bio. eapply wp_mono.
  { eapply rep_brelse; [exact HR1 | exact Hbp | left; set_solver]. }
  cbn beta. intros [] s3 [HR3 (Hd3 & Hw3 & Hz3 & Hp3)]. rewrite delete_insert_eq in HR3.
  split; [done|]. split; [done|]. split; [done|]. simpl. rewrite app_nil_r.
  simpl in *. repeat split; congruence.
Qed.

(** The super block describes the log [l]. *)
Definition sb_describes (l : log) (d : list Z) : Prop :=
  sb_logstart (decode_superblock d) = l_start l /\ sb_nlog (decode_superblock d) = l_size l.

Lemma boot_log_spec l (dk : gmap Z (list Z)) dsize pid (Q : Z -> list Z) :
  map_Forall (fun _ x => wf_block x) dk -> 1 < dsize -> sb_describes l (dread dk 1) ->
  (forall b1, rep b1 (dread dk) ∅ ∅ ∅ -> disksize b1 = dsize ->
     wp recover_from_log (fun _ s' => recovered_to l Q s') (mkStore b1 (boot_header l))) ->
  exists s', boot_log dk dsize pid = Ok tt s' /\ recovered_to l Q s'.
Proof.
  intros Hdk Hdz [Hst Hsz] Hrec.
  assert (Hwp : wp (initlog ROOTDEV) (fun _ s' => recovered_to l Q s')
                  (mkStore (binit dk dsize pid) log_bss)).
  { unfold initlog. change (BSIZE <=? sizeof_logheader) with false. cbv iota.
    wp_step. eapply wp_mono.
    { apply readsb_spec; [by apply binit_rep | done]. }
    cbn beta. intros sb s1 (-> & Hl1 & (HR1 & _ & _ & Hz1 & _)). wp_step. apply wp_set_log.
    rewrite Hl1, Hst, Hsz. by apply Hrec. }
  unfold wp in Hwp. unfold boot_log. destruct (initlog _ _) as [[] s'|]; [by eauto|done].
Qed.

(** ** Atomicity of a transaction *)

Section Atomic.
Context (s0 : store) (V : Z -> list Z) (D : gset Z).
Hypothesis HC : commit_ready s0 V D.
Let l := s_log s0.
Let d0 := disk (s_bio s0).
Let dsize := disksize (s_bio s0).

(** Whatever prefix of the commit's writes reached the disk, the next boot
    succeeds and finds the state before or after the transaction; the switch
    happens at the write of the header. *)
Lemma crash_recovery k pid :
  1 < l_start l -> sb_describes l (V 1) -> 1 ∉ logged l ->
  exists s', boot_log (apply_writes (take k (commit_ws l V)) d0) dsize pid = Ok tt s'
    /\ recovered_to l (if decide (k <= length (logged l))%nat then dread d0 else V) s'.
Proof.
  intros Hst Hsb H1. pose proof (cr_wf _ _ _ HC) as Hwf. fold l in Hwf.
  pose proof (crash_image s0 V D HC k) as Him. cbv zeta in Him. fold l d0 in Him.
  pose proof (rep_data_wf _ _ _ _ _ (cr_rep _ _ _ HC)) as HV.
  assert (Hnl : ~ in_log l 1) by (unfold in_log; lia).
  assert (Hv1 : dread d0 1 = V 1) by (by apply (clean_view s0 V D HC)).
  set (dk := apply_writes _ _) in *.
  assert (Hdk : map_Forall (fun _ x => wf_block x) dk).
  { apply map_Forall_apply_writes; [|apply (r_inv _ _ _ _ _ (cr_rep _ _ _ HC))].
    apply Forall_take, (commit_ws_wf s0 V D HC). }
  assert (Hdz : 1 < dsize) by (destruct Hwf; unfold dsize; lia).
  destruct (decide (k <= length (logged l))%nat) as [Hk|Hk];
    [|destruct (decide (k <= length (logged l) + 1 + length (logged l))%nat)].
  - destruct Him as [Hs Ho]. apply boot_log_spec; [done | done | by rewrite Ho; fold d0; rewrite ?Hv1 |].
    intros b1 HR Hz. eapply wp_mono.
    { eapply (recover_empty l dk dsize); [done | done | done |].
      fold l in Hs. rewrite Hs. apply HC. }
    intros [] s' (? & ? & ? & ? & ? & ? & ? & ? & Hb). unfold recovered_to. split_and!; try done.
    intros b Hbl. rewrite Hb, Ho; done.
  - destruct Him as (Hs & Hl & Ho). apply boot_log_spec; [done | done | by rewrite Ho |].
    intros b1 HR Hz. by eapply (recover_committed l dk dsize) with (d := V (l_start l)); try apply HC.
  - destruct Him as [Hs Ho]. apply boot_log_spec; [done | done | by rewrite Ho |].
    intros b1 HR Hz. eapply wp_mono.
    { eapply (recover_empty l dk dsize); [done | done | done |]. fold l in Hs. rewrite Hs.
      apply hdr_n_clear, (encode_hdr_wf l _ Hwf), HV. }
    intros [] s' (? & ? & ? & ? & ? & ? & ? & ? & Hb). unfold recovered_to. split_and!; try done.
    intros b Hbl. rewrite Hb, Ho; done.
Qed.
End Atomic.
