(* ===== verification/Store.v ===== *)
(** * The interface between the file system and the storage below it

    fs.c reads and writes blocks only through [bread], [bp->data], [log_write],
    [brelse], [begin_op] and [end_op].  [TxStore] is that interface: the
    operations, an abstraction relation to an abstract store [astate] (block
    contents, buffers held, blocks of the transaction), and the laws clients
    rely on.  LogOps.v discharges the laws for the log over the buffer cache. *)

From S2P Require Import Prelude KMonad Params.

Record astate := mkA {
  a_view : Z -> list Z;        (* current contents of every block *)
  a_held : gmap nat Z;         (* handles of locked buffers, and their block *)
  a_mod : gset Z;              (* blocks changed in their buffer but not yet logged *)
  a_logged : gset Z;           (* blocks of the open transaction *)
  a_open : Z;                  (* system calls inside [begin_op] .. [end_op] *)
  a_home : Z -> bool           (* blocks of the disk outside the log area *)
}.

Definition with_view V (a : astate) : astate :=
  mkA V (a_held a) (a_mod a) (a_logged a) (a_open a) (a_home a).
Definition with_held H (a : astate) : astate :=
  mkA (a_view a) H (a_mod a) (a_logged a) (a_open a) (a_home a).
Definition with_mod U (a : astate) : astate :=
  mkA (a_view a) (a_held a) U (a_logged a) (a_open a) (a_home a).
Definition with_logged L (a : astate) : astate :=
  mkA (a_view a) (a_held a) (a_mod a) L (a_open a) (a_home a).
Definition with_open n (a : astate) : astate :=
  mkA (a_view a) (a_held a) (a_mod a) (a_logged a) n (a_home a).

(** Blocks a transaction can hold: one block of the log is its header. *)
Definition log_capacity : nat := Z.to_nat (LOGSIZE - 1).

Class TxStore (S : Type) := {
  tx_bread : Z -> Z -> M S nat;
  tx_read_data : nat -> M S (list Z);
  tx_write_data : nat -> list Z -> M S unit;
  tx_log_write : nat -> M S unit;
  tx_brelse : nat -> M S unit;
  tx_begin_op : M S unit;
  tx_end_op : M S unit;
  tx_rep : S -> astate -> Prop;

  tx_wf_ok s a b : tx_rep s a -> wf_block (a_view a b);
  tx_bread_ok s a b : tx_rep s a -> a_home a b = true -> (forall i, a_held a !! i ≠ Some b) ->
    (size (a_held a) + size (a_logged a) < Z.to_nat NBUF)%nat ->
    wp (tx_bread ROOTDEV b) (fun i s' => a_held a !! i = None
       /\ tx_rep s' (with_held (<[i := b]> (a_held a)) a)) s;
  tx_read_data_ok s a i b : tx_rep s a -> a_held a !! i = Some b ->
    wp (tx_read_data i) (fun d s' => d = a_view a b /\ s' = s) s;
  tx_write_data_ok s a i b d : tx_rep s a -> a_held a !! i = Some b -> wf_block d ->
    wp (tx_write_data i d) (fun _ s' =>
       tx_rep s' (with_mod ({[b]} ∪ a_mod a) (with_view (upd (a_view a) b d) a))) s;
  tx_log_write_ok s a i b : tx_rep s a -> a_held a !! i = Some b -> 0 < a_open a ->
    (size (a_logged a) < log_capacity)%nat ->
    wp (tx_log_write i) (fun _ s' =>
       tx_rep s' (with_logged ({[b]} ∪ a_logged a) (with_mod (a_mod a ∖ {[b]}) a))) s;
  tx_brelse_ok s a i b : tx_rep s a -> a_held a !! i = Some b -> b ∉ a_mod a ->
    wp (tx_brelse i) (fun _ s' => tx_rep s' (with_held (delete i (a_held a)) a)) s;
  tx_begin_op_ok s a : tx_rep s a ->
    Z.of_nat (size (a_logged a)) + (a_open a + 1) * MAXOPBLOCKS <= LOGSIZE ->
    wp tx_begin_op (fun _ s' => tx_rep s' (with_open (a_open a + 1) a)) s;
  tx_end_op_ok s a : tx_rep s a -> 1 < a_open a ->
    wp tx_end_op (fun _ s' => tx_rep s' (with_open (a_open a - 1) a)) s;
  tx_end_last_ok s a : tx_rep s a -> a_open a = 1 -> a_held a = ∅ -> a_mod a = ∅ ->
    wp tx_end_op (fun _ s' => exists V', tx_rep s' (mkA V' ∅ ∅ ∅ 0 (a_home a))
       /\ forall b, a_home a b = true -> V' b = a_view a b) s
}.
