(* ===== verification/LogOps.v ===== *)
(** * Transactions: [begin_op], [log_write], [end_op]

    The log over the buffer cache implements the [TxStore] interface of Store.v:
    the invariant of the log between operations, that each operation keeps it
    and has the effect the interface states, and [Instance log_store]. *)

From S2P Require Import Prelude KMonad Params Bio BioSpec Log LogSpec Crash Store.

(** Blocks that belong to the file system: on the disk, outside the log. *)
Definition home_block (l : log) (dsize b : Z) : bool :=
  (0 <=? b) && (b <? dsize) && negb ((l_start l <=? b) && (b <? l_start l + l_size l)).

Record log_rep (s : store) (a : astate) : Prop := {
  lr_wf : log_wf (s_log s) (disksize (s_bio s));
  lr_rep : rep (s_bio s) (a_view a) (a_logged a) (a_held a) (a_mod a);
  lr_nodup : NoDup (logged (s_log s));
  lr_logged : a_logged a = list_to_set (logged (s_log s));
  lr_empty : hdr_n (dread (disk (s_bio s)) (l_start (s_log s))) = 0;
  lr_size : l_size (s_log s) = LOGSIZE;
  lr_open : a_open a = l_outstanding (s_log s);
  lr_idle : l_committing (s_log s) = 0;
  lr_home : forall b, a_home a b = home_block (s_log s) (disksize (s_bio s)) b;
  lr_held_home : forall i b, a_held a !! i = Some b -> a_home a b = true }.

Lemma home_block_true l dsize b :
  home_block l dsize b = true <-> 0 <= b < dsize /\ (b < l_start l \/ l_start l + l_size l <= b).
Proof. unfold home_block. rewrite !andb_true_iff, negb_true_iff, andb_false_iff. lia. Qed.

(** A log with no transaction, on a disk whose header is clear. *)
Lemma log_rep_empty s V o home :
  l_outstanding (s_log s) = o ->
  l_dev (s_log s) = 1 -> lh_n (s_log s) = 0 ->
  length (lh_block (s_log s)) = Z.to_nat LOGSIZE -> l_size (s_log s) = LOGSIZE ->
  0 <= l_start (s_log s) /\ l_start (s_log s) + l_size (s_log s) <= disksize (s_bio s) ->
  disksize (s_bio s) < 2147483648 -> l_committing (s_log s) = 0 ->
  rep (s_bio s) V ∅ ∅ ∅ -> hdr_n (dread (disk (s_bio s)) (l_start (s_log s))) = 0 ->
  (forall b, home b = home_block (s_log s) (disksize (s_bio s)) b) ->
  log_rep s (mkA V ∅ ∅ ∅ o home).
Proof.
  intros <- Hdev Hn Hlen Hsz Har Hds Hc HR Hh Hhome.
  assert (Hlg : logged (s_log s) = []) by (unfold logged; by rewrite Hn).
  split; simpl; try done; rewrite ?Hlg; try done.
  - split; rewrite ?Hn, ?Hsz; unfold NBUF, LOGSIZE, MAXOPBLOCKS in *; try (done || lia).
  - apply NoDup_nil_2.
Qed.

(** No block was written to the disk, and the log area is where it was. *)
Definition quiet (s s' : store) : Prop :=
  same_disk (s_bio s) (s_bio s') /\ l_start (s_log s') = l_start (s_log s)
  /\ l_size (s_log s') = l_size (s_log s).

Section Ops.
Context (s : store) (a : astate).
Hypothesis HL : log_rep s a.
Let l := s_log s.

Lemma lr_count : size (a_logged a) = Z.to_nat (lh_n l).
Proof.
  rewrite (lr_logged _ _ HL), size_list_to_set by apply HL.
  apply (length_logged _ _ (lr_wf _ _ HL)).
Qed.

(** Operations of the cache that leave the disk and the log alone. *)
Lemma lr_bio b' V H U :
  rep b' V (a_logged a) H U -> same_disk (s_bio s) b' ->
  (forall i b, H !! i = Some b -> a_home a b = true) ->
  log_rep (mkStore b' l) (mkA V H U (a_logged a) (a_open a) (a_home a)).
Proof.
  intros HR (Hd & _ & Hz & _) Hh. destruct HL. split; simpl; try done.
  - by rewrite Hz.
  - by rewrite Hd.
  - intros b. rewrite Hz. auto.
Qed.

Lemma lr_bread b :
  a_home a b = true -> (forall i, a_held a !! i ≠ Some b) ->
  (size (a_held a) + size (a_logged a) < Z.to_nat NBUF)%nat ->
  wp (on_bio (bread ROOTDEV b)) (fun i s' => a_held a !! i = None
       /\ log_rep s' (with_held (<[i := b]> (a_held a)) a) /\ quiet s s') s.
Proof.
  intros Hb Hnh Hroom. apply wp_on_bio.
  pose proof Hb as Hrg. rewrite (lr_home _ _ HL), home_block_true in Hrg. eapply wp_mono.
  { eapply (rep_bread _ _ _ _ _ (lr_rep _ _ HL) b); [lia | done | by right]. }
  intros i s' (HR & Hi & Hd). split; [done|]. split; [|done]. apply (lr_bio _ _ _ _ HR Hd).
  intros j b'. destruct (decide (j = i)) as [->|].
  - rewrite lookup_insert_eq. by intros [= <-].
  - rewrite lookup_insert_ne by done. apply HL.
Qed.

Lemma lr_read i b :
  a_held a !! i = Some b -> wp (on_bio (read_data i)) (fun d s' => d = a_view a b /\ s' = s) s.
Proof.
  intros Hi. apply wp_on_bio. eapply wp_mono; [by eapply rep_read_data; [apply HL|]|].
  intros d s' [-> ->]. by destruct s.
Qed.

Lemma lr_write i b d :
  a_held a !! i = Some b -> wf_block d ->
  wp (on_bio (write_data i d)) (fun _ s' =>
      log_rep s' (with_mod ({[b]} ∪ a_mod a) (with_view (upd (a_view a) b d) a)) /\ quiet s s') s.
Proof.
  intros Hi Hd. apply wp_on_bio. eapply wp_mono; [by eapply rep_write_data; [apply HL| |]|].
  intros [] s' [HR Hsd]. split; [|done]. apply (lr_bio _ _ _ _ HR Hsd), HL.
Qed.

Lemma lr_brelse i b :
  a_held a !! i = Some b -> b ∉ a_mod a ->
  wp (on_bio (brelse i)) (fun _ s' => log_rep s' (with_held (delete i (a_held a)) a) /\ quiet s s') s.
Proof.
  intros Hi Hm. apply wp_on_bio. eapply wp_mono; [eapply rep_brelse; [apply HL|done|by left]|].
  intros [] s' [HR Hsd]. split; [|done]. apply (lr_bio _ _ _ _ HR Hsd).
  intros j b' [_ Hj]%lookup_delete_Some. by eapply HL.
Qed.

Lemma lr_begin :
  Z.of_nat (size (a_logged a)) + (a_open a + 1) * MAXOPBLOCKS <= LOGSIZE ->
  wp begin_op (fun _ s' => log_rep s' (with_open (a_open a + 1) a) /\ quiet s s') s.
Proof.
  intros Hroom. rewrite lr_count in Hroom. destruct (lr_wf _ _ HL) as [_ Hn _ _ _ _ _].
  unfold begin_op. wp_step. apply wp_get_log. unfold id. rewrite (lr_idle _ _ HL). simpl negb.
  cbv iota. rewrite (lr_open _ _ HL) in Hroom. fold l in Hn.
  rewrite (proj2 (Z.ltb_ge _ _)) by (unfold l in *; lia). apply wp_set_log.
  split; [|done]. destruct HL as [[] ? ? ? ? ? Ho ? ? ?]. rewrite Ho.
  by repeat (split; simpl; try done).
Qed.

Lemma lr_end_some :
  1 < a_open a -> wp end_op (fun _ s' => log_rep s' (with_open (a_open a - 1) a)) s.
Proof.
  intros Ho. pose proof (lr_open _ _ HL) as Ho'. unfold end_op. wp_step. apply wp_get_log.
  unfold id. wp_step. apply wp_set_log. rewrite (lr_idle _ _ HL). simpl negb. cbv iota.
  rewrite (proj2 (Z.eqb_neq _ _)) by lia. wp_step. rewrite Ho'.
  destruct HL as [[] ? ? ? ? ? ? ? ? ?]. by repeat (split; simpl; try done).
Qed.

(** The search for a block already in the log ("log absorption"). *)
Lemma log_index_found b n bl :
  b ∈ take n bl -> (log_index b n bl < n)%nat /\ bl !! log_index b n bl = Some b.
Proof.
  clear. revert bl. induction n as [|n IH]; intros bl Hin; [by apply elem_of_nil in Hin|].
  destruct bl as [|b' bl]; [by apply elem_of_nil in Hin|]. simpl.
  destruct (Z.eqb_spec b' b) as [->|Hne]; [split; [lia|done]|].
  apply elem_of_cons in Hin as [->|Hin]; [done|]. destruct (IH bl Hin). split; [lia|done].
Qed.

Lemma log_index_absent b n bl :
  (n <= length bl)%nat -> b ∉ take n bl -> log_index b n bl = n.
Proof.
  clear. revert bl. induction n as [|n IH]; intros [|b' bl] Hl Hn; simpl in *; try (done || lia).
  apply not_elem_of_cons in Hn as [Hne Hn]. rewrite (proj2 (Z.eqb_neq _ _)) by done.
  f_equal. apply IH; [lia|done].
Qed.

(** The log after [log_write] of block [b]. *)
Definition log_add (b : Z) : log :=
  if decide (b ∈ logged l) then l
  else set_lh_n (lh_n l + 1) (set_lh_block (<[Z.to_nat (lh_n l) := b]> (lh_block l)) l).

Lemma logged_add b :
  logged (log_add b) = if decide (b ∈ logged l) then logged l else logged l ++ [b].
Proof.
  unfold log_add. destruct (decide (b ∈ logged l)) as [|Hn]; [done|].
  destruct (lr_wf _ _ HL) as [_ Hr Hlen _ _ _ _]. fold l in Hr, Hlen. unfold logged. simpl.
  replace (Z.to_nat (lh_n l + 1)) with (S (Z.to_nat (lh_n l))) by lia.
  unfold NBUF, LOGSIZE in *.
  erewrite take_S_r by (apply list_lookup_insert_eq; lia).
  by rewrite take_insert_ge by lia.
Qed.

Lemma log_add_wf b :
  (size (a_logged a) < log_capacity)%nat -> a_home a b = true ->
  log_wf (log_add b) (disksize (s_bio s)).
Proof.
  intros Hcap Hb. rewrite lr_count in Hcap. unfold log_capacity in Hcap.
  pose proof (lr_wf _ _ HL) as Hwf. pose proof (lr_size _ _ HL) as Hsz. fold l in Hwf, Hsz.
  rewrite (lr_home _ _ HL), home_block_true in Hb. fold l in Hb.
  unfold log_add. destruct (decide (b ∈ logged l)) as [|Hn]; [done|].
  destruct Hwf as [Hdev Hr Hlen Hlt Har Hds Hhome]. unfold NBUF, LOGSIZE, MAXOPBLOCKS in *.
  split; simpl; try (done || lia).
  - unfold NBUF, MAXOPBLOCKS. lia.
  - rewrite length_insert. exact Hlen.
  - intros i b' Hi Hi'. destruct (decide (i = Z.to_nat (lh_n l))) as [->|Hne].
    + rewrite list_lookup_insert_eq in Hi by (rewrite Hlen; lia). by injection Hi as <-.
    + rewrite list_lookup_insert_ne in Hi by done. apply (Hhome i b' Hi). lia.
Qed.

Lemma logged_add_set b : list_to_set (logged (log_add b)) = {[b]} ∪ a_logged a.
Proof.
  rewrite logged_add, (lr_logged _ _ HL). fold l.
  destruct (decide (b ∈ logged l)); [set_solver|]. rewrite list_to_set_app_L. set_solver.
Qed.

Lemma logged_add_nodup b : NoDup (logged (log_add b)).
Proof.
  rewrite logged_add. pose proof (lr_nodup _ _ HL) as Hnd. fold l in Hnd.
  destruct (decide (b ∈ logged l)); [done|]. apply NoDup_app. split_and!; [done | |].
  - intros x Hx. by intros ->%list_elem_of_singleton.
  - apply NoDup_singleton.
Qed.

(** The end of [log_write]: mark the buffer dirty, so that it stays cached. *)
Lemma lr_pin i b (s' : store) :
  a_held a !! i = Some b -> log_wf (log_add b) (disksize (s_bio s)) ->
  s_bio s' = s_bio s -> s_log s' = log_add b ->
  wp (on_bio (pin i)) (fun _ s'' =>
     log_rep s'' (with_logged ({[b]} ∪ a_logged a) (with_mod (a_mod a ∖ {[b]}) a))
     /\ quiet s s'') s'.
Proof.
  intros Hi Hwf' Hbio Hl'. apply wp_on_bio. rewrite Hbio.
  eapply wp_mono; [by eapply rep_pin; [apply HL|]|].
  intros [] s2 [HR2 Hsd]. rewrite Hl'.
  assert (Hg : l_start (log_add b) = l_start l /\ l_size (log_add b) = l_size l
     /\ l_outstanding (log_add b) = l_outstanding l /\ l_committing (log_add b) = l_committing l).
  { unfold log_add. by destruct decide. }
  destruct Hg as (Hg1 & Hg2 & Hg3 & Hg4). split; [|by split].
  destruct Hsd as (Hd & _ & Hz & _). pose proof HL as HL'. destruct HL'. split; simpl; try done.
  - by rewrite Hz.
  - apply logged_add_nodup.
  - by rewrite logged_add_set.
  - by rewrite Hd, Hg1.
  - by rewrite Hg2.
  - by rewrite Hg3.
  - by rewrite Hg4.
  - intros b'. unfold home_block. rewrite Hz, Hg1, Hg2. auto.
Qed.

Lemma lr_log_write i b :
  a_held a !! i = Some b -> 0 < a_open a -> (size (a_logged a) < log_capacity)%nat ->
  wp (log_write i) (fun _ s' =>
     log_rep s' (with_logged ({[b]} ∪ a_logged a) (with_mod (a_mod a ∖ {[b]}) a))
     /\ quiet s s') s.
Proof.
  intros Hi Ho Hcap. pose proof (lr_held_home _ _ HL i b Hi) as Hb.
  pose proof (log_add_wf b Hcap Hb) as Hwf'. pose proof Hcap as Hc. rewrite lr_count in Hc.
  destruct (lr_wf _ _ HL) as [_ Hr Hlen _ _ _ _]. pose proof (lr_size _ _ HL) as Hsz.
  fold l in Hr, Hlen, Hsz. unfold log_capacity, LOGSIZE, MAXOPBLOCKS in *.
  unfold log_write. wp_step. apply wp_get_log. unfold id. fold l.
  rewrite (proj2 (Z.leb_gt LOGSIZE _)), (proj2 (Z.leb_gt (l_size l - 1) _))
    by (unfold LOGSIZE, MAXOPBLOCKS; lia).
  rewrite (lr_open _ _ HL) in Ho. fold l in Ho. rewrite (proj2 (Z.ltb_ge _ 1)) by lia. cbn [orb].
  wp_step. apply wp_on_bio. destruct (rep_held_buf _ _ _ _ _ (lr_rep _ _ HL) _ _ Hi) as (f & Hbf & _).
  eapply wp_get_buf; [done|]. cbn [b_blockno held_buf].
  destruct (decide (b ∈ logged l)) as [Hin|Hn].
  - destruct (log_index_found b _ _ Hin) as [Hlt Hat]. wp_step. eapply wp_from_opt.
    { apply zset_nat. by eapply lookup_lt_Some. }
    wp_step. apply wp_set_log. rewrite (proj2 (Z.eqb_neq _ _)) by lia. unfold when. wp_step.
    wp_step. rewrite list_insert_id by done. apply (lr_pin i b); try done.
    unfold log_add. rewrite decide_True by done. simpl. fold l. by destruct l.
  - rewrite (log_index_absent b _ _) by (done || lia). wp_step. eapply wp_from_opt.
    { apply zset_nat. unfold NBUF, MAXOPBLOCKS in *. lia. }
    wp_step. apply wp_set_log. rewrite (proj2 (Z.eqb_eq _ _)) by lia. unfold when.
    wp_step. apply wp_set_log. apply (lr_pin i b); try done.
    unfold log_add. by rewrite decide_False by done.
Qed.

(** Blocks already in the transaction need no record of modification. *)
Lemma lr_ready : a_held a = ∅ -> a_mod a = ∅ -> commit_ready s (a_view a) (a_logged a).
Proof.
  intros Hh Hm. destruct HL as [? Hrep ? ? ? ? ? ? ? ?]. rewrite Hh, Hm in Hrep. by split.
Qed.

Lemma lr_commit :
  a_open a = 1 -> a_held a = ∅ -> a_mod a = ∅ ->
  wp end_op (fun _ s' =>
    let V' := if decide (0 < lh_n l) then V_committed s (a_view a) else a_view a in
    let ws := if decide (0 < lh_n l) then commit_ws l (a_view a) else [] in
    log_rep s' (mkA V' ∅ ∅ ∅ 0 (a_home a)) /\ disk (s_bio s') = apply_writes ws (disk (s_bio s))
    /\ wlog (s_bio s') = wlog (s_bio s) ++ ws) s.
Proof.
  intros Ho Hh Hm. pose proof (lr_ready Hh Hm) as HC. pose proof HL as [Hwf _ _ _ _ Hsz Hop _ Hho _].
  unfold end_op. wp_step. apply wp_get_log. unfold id. wp_step. apply wp_set_log.
  rewrite (lr_idle _ _ HL). simpl negb. cbv iota. fold l in Hop |- *.
  rewrite (proj2 (Z.eqb_eq _ 0)) by lia. wp_step. apply wp_set_log.
  set (s1 := mkStore _ _). wp_step.
  assert (HC1 : commit_ready s1 (a_view a) (a_logged a)).
  { destruct HC as [[] ? ? ? ?]. by repeat (split; simpl; try done). }
  destruct (decide (0 < lh_n l)) as [Hn|Hn].
  - eapply wp_mono; [by apply (commit_spec s1 _ _ HC1)|]. cbn beta.
    intros [] s2 [Hl2 Hdone]. apply wp_set_log. rewrite Hl2.
    pose proof (done_with_disk _ _ _ _ _ Hdone eq_refl) as Hdk.
    destruct Hdone as (HR2 & Hd2 & Hw2 & Hz2 & _). simpl in Hd2, Hw2, Hz2. split; [|done].
    destruct Hwf. apply log_rep_empty; simpl; unfold l in *;
      try (done || lia || congruence).
    + rewrite Hdk. unfold V_committed. simpl. rewrite upd_eq.
      apply hdr_n_clear, (encode_hdr_wf _ _ (cr_wf _ _ _ HC1)).
      apply (rep_data_wf _ _ _ _ _ (cr_rep _ _ _ HC)).
    + intros b. by rewrite Hz2, Hho.
  - assert (Hz : lh_n l = 0) by (destruct Hwf; unfold l in *; lia).
    unfold commit. wp_step. apply wp_get_log. simpl. fold l. rewrite Hz. unfold when. simpl.
    wp_step. apply wp_set_log. rewrite app_nil_r. split; [|done].
    destruct Hwf, HC as [? HR ? HD ?]. apply log_rep_empty; simpl; unfold l in *; try (done || lia).
    rewrite HD in HR. unfold logged in HR. by rewrite Hz in HR.
Qed.

End Ops.

(** ** The instance *)

#[export] Program Instance log_store : TxStore store := {|
  tx_bread dev b := on_bio (bread dev b);
  tx_read_data i := on_bio (read_data i);
  tx_write_data i d := on_bio (write_data i d);
  tx_log_write := log_write;
  tx_brelse i := on_bio (brelse i);
  tx_begin_op := begin_op;
  tx_end_op := end_op;
  tx_rep := log_rep |}.
Next Obligation. intros s a b HL. apply (rep_data_wf _ _ _ _ _ (lr_rep _ _ HL)). Qed.
Next Obligation.
  intros s a b HL Hb Hn Hr. eapply wp_mono; [by apply (lr_bread s a HL)|]. intros i s' (? & ? & _). done.
Qed.
Next Obligation. intros s a i b HL Hi. by apply lr_read. Qed.
Next Obligation.
  intros s a i b d HL Hi Hd. eapply wp_mono; [by apply (lr_write s a HL)|]. by intros [] s' [? _].
Qed.
Next Obligation.
  intros s a i b HL Hi Ho Hc. eapply wp_mono; [by apply (lr_log_write s a HL)|]. by intros [] s' [? _].
Qed.
Next Obligation.
  intros s a i b HL Hi Hm. eapply wp_mono; [by apply (lr_brelse s a HL i b)|]. by intros [] s' [? _].
Qed.
Next Obligation.
  intros s a HL Hr. eapply wp_mono; [by apply (lr_begin s a HL)|]. by intros [] s' [? _].
Qed.
Next Obligation. intros s a HL Ho. by apply lr_end_some. Qed.
Next Obligation.
  intros s a HL Ho Hh Hm. eapply wp_mono; [by apply (lr_commit s a HL)|].
  cbn beta zeta. intros [] s' (HL' & _). eexists. split; [exact HL'|].
  intros b Hb. destruct (decide _); [|done]. apply (V_committed_home s _ _ (lr_ready s a HL Hh Hm)).
  rewrite (lr_home _ _ HL), home_block_true in Hb. unfold in_log. lia.
Qed.

(** ** A whole transaction *)

(** A system call that updates blocks: [begin_op], for each block [bread], a
    change of the buffer, [log_write] and [brelse], then [end_op]. *)
Definition update_block (u : Z * list Z) : M store unit :=
  i <- on_bio (bread ROOTDEV u.1) ;;
  on_bio (write_data i u.2) ;;;
  log_write i ;;;
  on_bio (brelse i).

Definition transaction (ups : list (Z * list Z)) : M store unit :=
  begin_op ;;; for_each ups update_block ;;; end_op.

Lemma quiet_trans s1 s2 s3 : quiet s1 s2 -> quiet s2 s3 -> quiet s1 s3.
Proof. unfold quiet, same_disk. intros [(?&?&?&?) [? ?]] [(?&?&?&?) [? ?]]. repeat split; congruence. Qed.

(** Between operations of one system call: no buffer held. *)
Definition idle_rep (V : Z -> list Z) (L : gset Z) (o : Z) (home : Z -> bool) (s : store) : Prop :=
  log_rep s (mkA V ∅ ∅ L o home).

Lemma update_block_spec s V L o home u :
  idle_rep V L o home s -> 0 < o -> (size L < log_capacity)%nat ->
  home u.1 = true -> wf_block u.2 ->
  wp (update_block u) (fun _ s' => idle_rep (upd V u.1 u.2) ({[u.1]} ∪ L) o home s'
     /\ quiet s s') s.
Proof.
  intros HL Ho Hc Hh Hd. destruct u as [b d]. simpl in *. unfold update_block. cbn [fst snd].
  unfold log_capacity, LOGSIZE, MAXOPBLOCKS in Hc.
  wp_step. eapply wp_mono; [apply (lr_bread _ _ HL b); try done|].
  { simpl. rewrite map_size_empty. unfold NBUF, MAXOPBLOCKS. lia. }
  cbn beta. intros i s1 (_ & HL1 & Hq1). unfold with_held in HL1. simpl in HL1.
  assert (Hi : (<[i := b]> (∅ : gmap nat Z)) !! i = Some b) by apply lookup_insert_eq.
  wp_step. eapply wp_mono; [by apply (lr_write _ _ HL1 i b)|]. cbn beta.
  intros [] s2 [HL2 Hq2]. unfold with_mod, with_view in HL2. simpl in HL2.
  wp_step. eapply wp_mono; [by apply (lr_log_write _ _ HL2 i b)|]. cbn beta.
  intros [] s3 [HL3 Hq3]. unfold with_mod, with_logged in HL3. simpl in HL3.
  eapply wp_mono; [apply (lr_brelse _ _ HL3 i b); [done | set_solver]|]. cbn beta.
  intros [] s4 [HL4 Hq4]. unfold with_held in HL4. simpl in HL4.
  rewrite delete_insert_eq in HL4. split.
  - unfold idle_rep. by replace (({[b]} ∪ ∅) ∖ {[b]}) with (∅ : gset Z) in HL4 by set_solver.
  - eauto using quiet_trans.
Qed.

(** The updates of a transaction that fits in the log, in order. *)
Lemma updates_spec ups s V L o home :
  idle_rep V L o home s -> 0 < o -> (size L + length ups <= log_capacity)%nat ->
  Forall (fun u => home u.1 = true /\ wf_block u.2) ups ->
  wp (for_each ups update_block) (fun _ s' => quiet s s' /\ exists L',
     idle_rep (applyV ups V) L' o home s' /\ L' = list_to_set (ups.*1) ∪ L) s.
Proof.
  intros HL Ho. revert s V L HL. induction ups as [|u ups IH]; intros s V L HL Hc Hups; simpl.
  { split; [by unfold quiet|]. exists L. split; [done|set_solver]. }
  simpl in Hc. apply Forall_cons in Hups as [[Hh Hd] Hups].
  wp_step. eapply wp_mono; [apply (update_block_spec _ _ _ _ _ _ HL); try (done || lia)|]. cbn beta.
  intros [] s1 [HL1 Hq1]. eapply wp_mono; [apply (IH _ _ _ HL1); [|done]|].
  { pose proof (size_union_alt ({[u.1]} : gset Z) L). rewrite size_singleton in *.
    pose proof (subseteq_size (L ∖ {[u.1]}) L ltac:(set_solver)). lia. }
  cbn beta. intros [] s2 [Hq2 (L' & HL2 & ->)]. split; [by eapply quiet_trans|].
  eexists. split; [exact HL2|]. set_solver.
Qed.

Section Txn.
Context (s : store) (V : Z -> list Z) (home : Z -> bool) (ups : list (Z * list Z)).
Hypothesis HL : idle_rep V ∅ 0 home s.
Hypothesis Hlen : (0 < length ups <= Z.to_nat MAXOPBLOCKS)%nat.
Hypothesis Hups : Forall (fun u => home u.1 = true /\ u.1 ≠ 1 /\ wf_block u.2) ups.

(** Just before the commit, with the state that [end_op] commits. *)
Lemma before_commit :
  wp (begin_op ;;; for_each ups update_block) (fun _ s' => quiet s s' /\
     idle_rep (applyV ups V) (list_to_set (ups.*1)) 1 home s') s.
Proof.
  unfold MAXOPBLOCKS in Hlen. wp_step. eapply wp_mono; [apply (lr_begin _ _ HL); by simpl|].
  cbn beta. intros [] s1 [HL1 Hq1]. unfold with_open in HL1. simpl in HL1.
  eapply wp_mono; [apply (updates_spec ups _ _ _ _ _ HL1)|].
  - lia.
  - rewrite size_empty. unfold log_capacity, LOGSIZE, MAXOPBLOCKS. lia.
  - eapply Forall_impl; [exact Hups|]. by intros u (? & _ & ?).
  - cbn beta. intros [] s2 [Hq2 (L & HL2 & ->)]. split; [by eapply quiet_trans|].
    by rewrite union_empty_r_L in HL2.
Qed.
End Txn.

Lemma idle_ready V L o home s : idle_rep V L o home s -> commit_ready s V L.
Proof. intros HL. by apply (lr_ready _ _ HL). Qed.

Lemma idle_nonempty V L o home s : idle_rep V L o home s -> L ≠ ∅ -> 0 < lh_n (s_log s).
Proof.
  intros HL Hne. pose proof (lr_count _ _ HL) as Hc. simpl in Hc.
  assert (size L ≠ 0%nat); [|lia]. intros H0. by apply Hne, leibniz_equiv, size_empty_inv.
Qed.

Lemma recovered_ext l W W' s :
  (forall b, ~ in_log l b -> W b = W' b) -> recovered_to l W s -> recovered_to l W' s.
Proof.
  unfold recovered_to. intros HW (? & ? & ? & ? & ? & ? & ? & ? & Hb). split_and!; try done.
  intros b Hn. by rewrite Hb, HW.
Qed.

(** C1: A system call is atomic with respect to crashes.  From any idle state of
    the storage system (empty log, no buffer held), run [begin_op], up to
    MAXOPBLOCKS block updates through [bread], [log_write] and [brelse], and
    [end_op].  It returns; whatever number [k] of the disk writes it issued had
    reached the disk when the machine stopped, the next boot succeeds and finds
    outside the log area either all the updates or none; after all the writes it
    finds all the updates. *)
Theorem transaction_atomic s V home ups pid :
  idle_rep V ∅ 0 home s -> (0 < length ups <= Z.to_nat MAXOPBLOCKS)%nat ->
  Forall (fun u => home u.1 = true /\ u.1 ≠ 1 /\ wf_block u.2) ups ->
  1 < l_start (s_log s) -> sb_describes (s_log s) (V 1) ->
  exists s1 ws, transaction ups s = Ok tt s1
    /\ wlog (s_bio s1) = wlog (s_bio s) ++ ws
    /\ (forall b, home b = true -> view (s_bio s1) b = applyV ups V b)
    /\ forall k, exists s',
        boot_log (apply_writes (take k ws) (disk (s_bio s))) (disksize (s_bio s)) pid = Ok tt s'
        /\ (recovered_to (s_log s) (applyV ups V) s'
            \/ (k < length ws)%nat /\ recovered_to (s_log s) V s').
Proof.
  intros HL Hlen Hups Hst Hsb. pose proof (before_commit s V home ups HL Hlen Hups) as Hb.
  apply wp_Ok in Hb as ([] & s1 & Hrun & [[(Hd & Hw & Hz & _) [Hs Hl]] HL1]).
  pose proof (idle_ready _ _ _ _ _ HL1) as HC.
  assert (Hn : 0 < lh_n (s_log s1)).
  { eapply idle_nonempty; [exact HL1|]. destruct ups as [|u ?]; simpl in *; [lia|set_solver]. }
  pose proof (lr_commit _ _ HL1 eq_refl eq_refl eq_refl) as He. simpl a_view in He.
  rewrite decide_True, decide_True in He by done. apply wp_Ok in He as ([] & s2 & He & HL2 & Hd2 & Hw2).
  set (ws := commit_ws (s_log s1) (applyV ups V)) in *. exists s2, ws.
  assert (H1 : 1 ∉ ups.*1).
  { intros ([b d] & Hb & Hin)%list_elem_of_fmap. rewrite Forall_forall in Hups. simpl in Hb.
    destruct (Hups _ Hin) as (_ & Hne & _). by rewrite <- Hb in Hne. }
  assert (Hlg : list_to_set (logged (s_log s1)) = (list_to_set ups.*1 : gset Z))
    by (symmetry; apply HC).
  split_and!.
  - unfold transaction. by rewrite bind_assoc, (bind_Ok _ _ _ _ _ Hrun).
  - by rewrite Hw2, Hw.
  - intros b Hb. rewrite (r_view _ _ _ _ _ (lr_rep _ _ HL2)). simpl.
    apply (V_committed_home _ _ _ HC). rewrite (lr_home _ _ HL1), home_block_true in Hb.
    unfold in_log. lia.
  - intros k. destruct (crash_recovery s1 _ _ HC k pid) as (s' & Hboot & Hrec).
    { by rewrite Hs. }
    { unfold sb_describes. by rewrite Hs, Hl, applyV_notin. }
    { intros Hin. apply H1. apply (elem_of_list_to_set (C := gset Z)). rewrite <- Hlg.
      by apply elem_of_list_to_set. }
    fold ws in Hboot. rewrite Hd, Hz in Hboot. exists s'. split; [done|].
    assert (Hg : forall W, recovered_to (s_log s1) W s' -> recovered_to (s_log s) W s').
    { unfold recovered_to, in_log. by rewrite Hs, Hl. }
    destruct (decide _) as [Hk|Hk]; [right|left; by apply Hg]. split.
    + unfold ws, commit_ws, log_ws. rewrite length_app, length_imap. simpl. lia.
    + rewrite Hd in Hrec. eapply recovered_ext; [|by apply Hg].
      intros b _. rewrite <- (rep_clean _ _ _ b (lr_rep _ _ HL)); [done|set_solver].
Qed.

(** A freshly made disk of 1000 blocks: super block, then 30 blocks of log. *)
Definition demo_sb : list Z :=
  set_le 4 16 2 (set_le 4 12 30 (set_le 4 8 200 (set_le 4 4 941 (set_le 4 0 1000 zero_block)))).
Definition demo_disk : gmap Z (list Z) := {[1 := demo_sb]}.
Definition demo_store : store :=
  mkStore (binit demo_disk 1000 1) (mkLog 2 30 0 0 1 0 (replicate (Z.to_nat LOGSIZE) 0)).

Lemma demo_sb_wf : wf_block demo_sb.
Proof. unfold demo_sb. repeat (apply wf_block_set_le; [lia|]). apply zero_block_wf. Qed.

Lemma demo_idle :
  idle_rep (dread demo_disk) ∅ 0 (home_block (s_log demo_store) 1000) demo_store.
Proof.
  apply log_rep_empty; simpl; try (done || lia).
  apply binit_rep, map_Forall_singleton, demo_sb_wf.
Qed.

Lemma transaction_atomic_witness :
  exists s1 ws, transaction [(40, replicate 512 7); (41, replicate 512 8)] demo_store = Ok tt s1
    /\ wlog (s_bio s1) = wlog (s_bio demo_store) ++ ws.
Proof.
  destruct (transaction_atomic demo_store (dread demo_disk)
    (home_block (s_log demo_store) 1000) [(40, replicate 512 7); (41, replicate 512 8)] 1
    demo_idle) as (s1 & ws & Hrun & Hw & _).
  - unfold MAXOPBLOCKS. simpl. lia.
  - repeat constructor; try done; by apply Forall_replicate.
  - simpl. lia.
  - by vm_compute.
  - exists s1, ws. split; [exact Hrun | exact Hw].
Defined.

(** The log is full: one more [log_write] panics. *)
Lemma update_block_full s V L o home u :
  idle_rep V L o home s -> size L = log_capacity -> home u.1 = true -> wf_block u.2 ->
  exists s', update_block u s = Halt (panic_stop "too big a transaction") s'.
Proof.
  intros HL Hc Hh Hd. destruct u as [b d]. unfold update_block. cbn [fst snd] in *.
  assert (Hr : wp (on_bio (bread ROOTDEV b)) (fun i s' => (a_held (mkA V ∅ ∅ L o home) !! i = None)
     /\ log_rep s' (with_held (<[i := b]> ∅) (mkA V ∅ ∅ L o home)) /\ quiet s s') s).
  { apply (lr_bread _ _ HL b); [done|done|]. cbn [a_held a_logged]. rewrite map_size_empty, Hc. vm_compute. lia. }
  apply wp_Ok in Hr as (i & s1 & E1 & _ & HL1 & _). rewrite (bind_Ok _ _ _ _ _ E1).
  assert (Hi : (<[i := b]> (∅ : gmap nat Z)) !! i = Some b) by apply lookup_insert_eq.
  pose proof (lr_write _ _ HL1 i b d Hi Hd) as Hw. apply wp_Ok in Hw as ([] & s2 & E2 & HL2 & _).
  rewrite (bind_Ok _ _ _ _ _ E2). pose proof (lr_count _ _ HL2) as Hn. cbn [a_logged with_mod with_view with_held] in Hn. rewrite Hc in Hn.
  exists s2. unfold bind at 1, log_write, bind at 1, get_log, gets, id. rewrite (lr_size _ _ HL2).
  rewrite (proj2 (Z.leb_le (LOGSIZE - 1) _)), orb_true_r; [done|].
  unfold log_capacity in Hn. unfold LOGSIZE, MAXOPBLOCKS in *. lia.
Qed.

Lemma begin_three s V home : idle_rep V ∅ 0 home s ->
  exists s', (begin_op ;;; begin_op ;;; begin_op) s = Ok tt s' /\ idle_rep V ∅ 3 home s'.
Proof.
  intros HL. assert (Hb : forall o s1, 0 <= o <= 2 -> idle_rep V ∅ o home s1 -> exists s2, begin_op s1 = Ok tt s2 /\ idle_rep V ∅ (o + 1) home s2).
  { intros o s1 Ho H1. pose proof (lr_begin _ _ H1) as Hw. cbn [a_logged a_open] in Hw. rewrite size_empty in Hw.
    apply wp_Ok in Hw as ([] & s2 & E & H2 & _); [eauto|]. unfold LOGSIZE, MAXOPBLOCKS. lia. }
  destruct (Hb 0 s ltac:(lia) HL) as (s1 & E1 & H1). destruct (Hb 1 s1 ltac:(lia) H1) as (s2 & E2 & H2). destruct (Hb 2 s2 ltac:(lia) H2) as (s3 & E3 & H3).
  exists s3. split; [|done]. by rewrite (bind_Ok _ _ _ _ _ E1), (bind_Ok _ _ _ _ _ E2).
Qed.

(** C30: The reservation of [begin_op] admits more than the log can hold.  From any
    idle state of the storage system (a log of LOGSIZE blocks, one of them the
    header) three system calls are admitted together, each reserving MAXOPBLOCKS
    blocks; when together they change 3 * MAXOPBLOCKS distinct blocks, whichever and
    in whatever order, every [log_write] but the last returns, and the last panics. *)
Theorem begin_op_overcommits s V home us u :
  idle_rep V ∅ 0 home s -> Z.of_nat (length (us ++ [u])) = 3 * MAXOPBLOCKS -> NoDup (us ++ [u]).*1 ->
  Forall (fun u => home u.1 = true /\ wf_block u.2) (us ++ [u]) ->
  exists s1 s2 s3, (begin_op ;;; begin_op ;;; begin_op) s = Ok tt s1 /\ for_each us update_block s1 = Ok tt s2
    /\ update_block u s2 = Halt (panic_stop "too big a transaction") s3.
Proof.
  intros HL Hn Hnd Hups. destruct (begin_three s V home HL) as (s1 & E1 & H1). exists s1.
  apply Forall_app in Hups as [Hus [Hu Hd]%Forall_singleton]. rewrite fmap_app in Hnd. apply NoDup_app in Hnd as (Hnd & _ & _).
  rewrite length_app in Hn. unfold MAXOPBLOCKS in Hn. cbn [length] in Hn. assert (Hl : length us = log_capacity) by (change log_capacity with 29%nat; lia).
  pose proof (updates_spec us s1 V ∅ 3 home H1 ltac:(lia)) as Hw. rewrite size_empty, Hl in Hw. specialize (Hw ltac:(done) Hus).
  apply wp_Ok in Hw as ([] & s2 & E2 & _ & L & H2 & ->). rewrite union_empty_r_L in H2.
  destruct (update_block_full s2 _ _ _ _ u H2) as [s3 E3]; [|done|done|by exists s2, s3]. rewrite size_list_to_set by done. by rewrite length_fmap.
Qed.

Lemma begin_op_overcommits_witness : exists s1 s2 s3, (begin_op ;;; begin_op ;;; begin_op) demo_store = Ok tt s1
  /\ for_each ((fun b => (b, zero_block)) <$> seqZ 40 29) update_block s1 = Ok tt s2
  /\ update_block (69, zero_block) s2 = Halt (panic_stop "too big a transaction") s3.
Proof.
  apply (begin_op_overcommits demo_store (dread demo_disk) (home_block (s_log demo_store) 1000) ((fun b => (b, zero_block)) <$> seqZ 40 29) (69, zero_block) demo_idle).
  - reflexivity.
  - apply (bool_decide_unpack _). vm_compute. exact I.
  - apply Forall_forall. intros x Hx. apply elem_of_app in Hx as [(b & -> & Hb)%list_elem_of_fmap|Hx].
    + split; [|apply zero_block_wf]. apply elem_of_seqZ in Hb. cbn [fst]. apply home_block_true. cbn. lia.
    + apply list_elem_of_singleton in Hx as ->. split; [reflexivity|apply zero_block_wf].
Defined.
