(* ===== verification/Users.v ===== *)
(** * usermanage.c: the user table

    [struct User utable[NUSER]] with its lock and the counter of user ids.  This
    file has the operations on the table in memory; the functions that also
    write the table to /passwd are in Passwd.v. *)

From S2P Require Import Prelude KMonad CString Params Bio.

Record User := mkUser { u_username : list Z; u_passwd : list Z; u_uid : Z }.

Record utab := mkUtab {
  utable : list User;
  next_uid : Z;
  utable_initialized : bool;
  utable_ip : option nat;        (* the inode of /passwd *)
  utable_lock : sleeplock
}.

Definition set_utable (t : list User) (u : utab) : utab :=
  mkUtab t (next_uid u) (utable_initialized u) (utable_ip u) (utable_lock u).
Definition set_next_uid (n : Z) (u : utab) : utab :=
  mkUtab (utable u) n (utable_initialized u) (utable_ip u) (utable_lock u).
Definition set_ut_lock (l : sleeplock) (u : utab) : utab :=
  mkUtab (utable u) (next_uid u) (utable_initialized u) (utable_ip u) l.

(** [acquiresleep(&utable_lock)]: a holder makes the caller sleep. *)
Definition lock_utable (pid : Z) : M utab unit :=
  u <- gets id ;;
  match acquiresleep pid (utable_lock u) with
  | Some l => modify (set_ut_lock l)
  | None => halt asleep_stop
  end.

Definition unlock_utable : M utab unit := modify (fun u => set_ut_lock (releasesleep (utable_lock u)) u).

Definition is_valid_username (username : list Z) : option bool :=
  l ← strlen username; Some ((2 <=? l) && (l <? USERNAME_MAXLEN)).

Definition is_valid_passwd (passwd : list Z) : option bool :=
  l ← strlen passwd; Some ((2 <=? l) && (l <? USER_PW_MAXLEN)).

(** The loops return the index of the entry; [None] is an access fault. *)
Fixpoint find_user_with_username (t : list User) (username : list Z) (i : nat)
    : option (option nat) :=
  match t with
  | [] => Some None
  | u :: t' =>
      if u_uid u =? 0 then find_user_with_username t' username (S i)
      else
        r ← strncmp (u_username u) username (Z.to_nat USERNAME_MAXLEN);
        if negb (r =? 0) then find_user_with_username t' username (S i) else Some (Some i)
  end.

Fixpoint find_user_with_uid (t : list User) (uid : Z) (i : nat) : option nat :=
  match t with
  | [] => None
  | u :: t' =>
      if (u_uid u =? 0) || negb (u_uid u =? uid) then find_user_with_uid t' uid (S i) else Some i
  end.

Definition getuid (pid : Z) (username passwd : list Z) : M utab Z :=
  vu <- from_opt (is_valid_username username) ;;
  vp <- (if vu : bool then from_opt (is_valid_passwd passwd) else ret false) ;;
  if negb vu || negb vp then
    unlock_utable ;;; ret 0
  else
    lock_utable pid ;;;
    t <- gets utable ;;
    r <- from_opt (find_user_with_username t username 0) ;;
    match r with
    | None => unlock_utable ;;; ret 0
    | Some i =>
        user <- from_opt (t !! i) ;;
        c <- from_opt (strncmp (u_passwd user) passwd (Z.to_nat USER_PW_MAXLEN)) ;;
        if negb (c =? 0) then unlock_utable ;;; ret 0
        else
          unlock_utable ;;;
          t' <- gets utable ;;
          user' <- from_opt (t' !! i) ;;
          ret (u_uid user')
    end.

(** The loop of [add_user]: [inl tt] when the name is taken, else the last
    empty slot seen. *)
Fixpoint find_slot (t : list User) (username : list Z) (i : nat) (empty : option nat)
    : option (unit + option nat) :=
  match t with
  | [] => Some (inr empty)
  | u :: t' =>
      if u_uid u =? 0 then find_slot t' username (S i) (Some i)
      else
        r ← strncmp (u_username u) username (Z.to_nat USERNAME_MAXLEN);
        if r =? 0 then Some (inl tt) else find_slot t' username (S i) empty
  end.

(** [strncpy(empty->username, ...); strncpy(empty->passwd, ...);
    empty->uid = next_uid++;] *)
Definition fill_slot (i : nat) (username passwd : list Z) : M utab unit :=
  u <- gets id ;;
  e <- from_opt (utable u !! i) ;;
  n <- from_opt (strncpy (u_username e) username (Z.to_nat USERNAME_MAXLEN)) ;;
  p <- from_opt (strncpy (u_passwd e) passwd (Z.to_nat USER_PW_MAXLEN)) ;;
  modify (set_utable (<[i := mkUser n p (next_uid u)]> (utable u))) ;;;
  modify (set_next_uid (u32 (next_uid u + 1))).

(** [memset] of both fields, [user->uid = 0]. *)
Definition clear_slot (i : nat) : M utab unit :=
  t <- gets utable ;;
  e <- from_opt (t !! i) ;;
  n <- from_opt (memset (u_username e) 0 0 USERNAME_MAXLEN) ;;
  p <- from_opt (memset (u_passwd e) 0 0 USER_PW_MAXLEN) ;;
  modify (set_utable (<[i := mkUser n p 0]> t)).

(** Returns the 16 bytes stored at [username], or [None] for the result -1. *)
Definition get_username_with_uid (pid uid : Z) (buf : list Z) : M utab (option (list Z)) :=
  lock_utable pid ;;;
  t <- gets utable ;;
  match find_user_with_uid t uid 0 with
  | None => unlock_utable ;;; ret None
  | Some i =>
      user <- from_opt (t !! i) ;;
      b <- from_opt (strncpy buf (u_username user) (Z.to_nat USERNAME_MAXLEN)) ;;
      unlock_utable ;;;
      ret (Some b)
  end.

(** ** Abstract accounts *)

Definition NAMELEN : nat := Z.to_nat USERNAME_MAXLEN.

Definition name_of (u : User) : list Z := cstrn NAMELEN (u_username u).
Definition pass_of (u : User) : list Z := cstrn NAMELEN (u_passwd u).
Definition used (u : User) : bool := negb (u_uid u =? 0).

(** The account [name] with its password and user id. *)
Definition account (t : list User) (name pw : list Z) (uid : Z) : Prop :=
  exists u, u ∈ t /\ used u = true /\ name_of u = name /\ pass_of u = pw /\ u_uid u = uid.

Record user_wf (u : User) : Prop := {
  uw_name : length (u_username u) = NAMELEN;
  uw_pass : length (u_passwd u) = NAMELEN;
  uw_name_bytes : Forall is_byte (u_username u);
  uw_pass_bytes : Forall is_byte (u_passwd u);
  uw_uid : is_u32 (u_uid u) }.

Definition str_root : list Z := [114; 111; 111; 116].

(** The invariant of the table: entries are well formed, names and user ids
    identify an account, ids were handed out by [next_uid], and the
    administrator's account is there with id [ROOT_UID]. *)
Record ut_ok (u : utab) : Prop := {
  ut_len : length (utable u) = Z.to_nat NUSER;
  ut_wf : Forall user_wf (utable u);
  ut_names : forall i j a b, utable u !! i = Some a -> utable u !! j = Some b ->
     used a = true -> used b = true -> name_of a = name_of b -> i = j;
  ut_uids : forall i j a b, utable u !! i = Some a -> utable u !! j = Some b ->
     used a = true -> u_uid a = u_uid b -> i = j;
  ut_next : forall a, a ∈ utable u -> u_uid a < next_uid u;
  ut_next_range : ROOT_UID < next_uid u;
  ut_root : exists a, a ∈ utable u /\ u_uid a = ROOT_UID /\ name_of a = str_root }.

Lemma used_true u : used u = true <-> u_uid u ≠ 0.
Proof. unfold used. rewrite negb_true_iff, Z.eqb_neq. done. Qed.

(** Comparison of a stored field with an argument decides equality of strings. *)
Lemma cmp_field f s :
  length f = NAMELEN -> readable NAMELEN s = true ->
  exists r, strncmp f s NAMELEN = Some r /\ (r =? 0) = bool_decide (cstrn NAMELEN f = cstrn NAMELEN s).
Proof.
  intros Hf Hs. assert (Hr : readable NAMELEN f = true) by (apply readable_length; by rewrite Hf).
  destruct (strncmp_total f s NAMELEN Hr Hs) as [r Hc].
  exists r. split; [done|]. pose proof (strncmp_zero _ _ _ _ Hc) as Hz.
  apply eq_true_iff_eq. rewrite Z.eqb_eq, bool_decide_eq_true. exact Hz.
Qed.

Section Find.
Context (t : list User) (username : list Z).
Hypothesis Hwf : Forall user_wf t.
Hypothesis Hname : readable NAMELEN username = true.
Let name := cstrn NAMELEN username.

Lemma find_user_spec i0 :
  exists r, find_user_with_username t username i0 = Some r /\
    match r with
    | Some i => exists k u, i = (i0 + k)%nat /\ t !! k = Some u /\ used u = true /\ name_of u = name
    | None => forall u, u ∈ t -> used u = true -> name_of u ≠ name
    end.
Proof.
  revert i0. induction t as [|u t' IH]; intros i0.
  { exists None. split; [done|]. by intros u ?%elem_of_nil. }
  apply Forall_cons in Hwf as [Hu Hwf']. simpl. destruct (IH Hwf' (S i0)) as (r & Hr & Hspec).
  assert (Hskip : (used u = true -> name_of u ≠ name) ->
     match r with
     | Some i => exists k v, i = (i0 + k)%nat /\ (u :: t') !! k = Some v /\ used v = true /\ name_of v = name
     | None => forall v, v ∈ u :: t' -> used v = true -> name_of v ≠ name
     end).
  { intros Hu'. destruct r as [i|].
    - destruct Hspec as (k & v & -> & Hk & ? & ?). exists (S k), v. split; [lia|done].
    - intros v [->|Hv]%elem_of_cons; auto. }
  destruct (Z.eqb_spec (u_uid u) 0) as [Hz|Hz].
  - exists r. split; [done|]. apply Hskip. rewrite used_true. done.
  - destruct (cmp_field (u_username u) username (uw_name _ Hu) Hname) as (c & Hc & Hz').
    change (Z.to_nat USERNAME_MAXLEN) with NAMELEN. rewrite Hc. simpl. rewrite Hz'.
    case_bool_decide as Hn; simpl.
    + exists (Some i0). split; [done|]. exists 0%nat, u.
      rewrite used_true. split_and!; [lia | done..].
    + exists r. split; [done|]. by apply Hskip.
Qed.
End Find.

(** Names and passwords that [is_valid_username] and [is_valid_passwd] accept. *)
Definition valid_len (s : list Z) : bool := (2 <=? zlen (cstr s)) && (zlen (cstr s) <? 16).

Lemma is_valid_username_spec s : terminated s = true -> is_valid_username s = Some (valid_len s).
Proof. intros Hs. unfold is_valid_username. by rewrite strlen_spec. Qed.

Lemma is_valid_passwd_spec s : terminated s = true -> is_valid_passwd s = Some (valid_len s).
Proof. intros Hs. unfold is_valid_passwd. by rewrite strlen_spec. Qed.

(** A valid string is stored in full. *)
Lemma valid_cstrn s : terminated s = true -> valid_len s = true -> cstrn NAMELEN s = cstr s.
Proof.
  intros Hs Hv. apply cstr_cstrn; [done|]. unfold valid_len, zlen in Hv.
  apply andb_true_iff in Hv as [_ Hv%Z.ltb_lt]. unfold NAMELEN, USERNAME_MAXLEN. lia.
Qed.

Lemma account_unique u name pw pw' uid uid' :
  ut_ok u -> account (utable u) name pw uid -> account (utable u) name pw' uid' ->
  pw = pw' /\ uid = uid'.
Proof.
  intros Hok (a & Ha & Hua & Hna & <- & <-) (b & Hb & Hub & Hnb & <- & <-).
  apply list_elem_of_lookup in Ha as [i Hi], Hb as [j Hj].
  assert (i = j) as -> by (eapply (ut_names _ Hok); eauto; congruence).
  rewrite Hi in Hj. by injection Hj as ->.
Qed.

Definition free_ut (u : utab) : Prop := utable_lock u = mkSleeplock 0 0.

Lemma wp_lock_utable pid (Q : unit -> utab -> Prop) u :
  free_ut u -> Q tt (set_ut_lock (mkSleeplock 1 pid) u) -> wp (lock_utable pid) Q u.
Proof. intros Hf HQ. unfold lock_utable. wp_step. wp_step. unfold id. rewrite Hf. simpl. by wp_step. Qed.

Lemma wp_unlock_utable (Q : unit -> utab -> Prop) u :
  Q tt (set_ut_lock (mkSleeplock 0 0) u) -> wp unlock_utable Q u.
Proof. done. Qed.

Lemma relock u l : free_ut u -> set_ut_lock (mkSleeplock 0 0) (set_ut_lock l u) = u.
Proof. unfold free_ut. destruct u. simpl. by intros ->. Qed.

(** C18: Authentication is exact.  With the table lock free, [getuid] returns the
    user id of the account whose name and password are the given strings, and 0
    when there is no such account (or a string has an unacceptable length); the
    table and its lock are left as they were. *)
Theorem getuid_correct u pid username passwd :
  ut_ok u -> free_ut u -> terminated username = true -> terminated passwd = true ->
  exists r, getuid pid username passwd u = Ok r u
    /\ forall uid, uid ≠ 0 ->
        (r = uid <-> valid_len username = true /\ valid_len passwd = true
                     /\ account (utable u) (cstr username) (cstr passwd) uid).
Proof.
  intros Hok Hfree Hn Hp.
  assert (Hwp : wp (getuid pid username passwd) (fun r u' => u' = u /\ forall uid, uid ≠ 0 ->
      (r = uid <-> valid_len username = true /\ valid_len passwd = true
         /\ account (utable u) (cstr username) (cstr passwd) uid)) u);
    [|apply wp_Ok in Hwp as (r & ? & ? & -> & ?); eauto].
  unfold getuid. rewrite is_valid_username_spec, is_valid_passwd_spec by done. wp_steps.
  assert (Hself : set_ut_lock (mkSleeplock 0 0) u = u)
    by (destruct u; unfold free_ut in Hfree; simpl in *; by subst).
  destruct (valid_len username) eqn:Hvn; wp_steps; cbn [negb orb]; wp_steps.
  2:{ apply wp_unlock_utable. wp_steps. split; [done|].
      intros uid Huid. split; [by intros <- | by intros []]. }
  destruct (valid_len passwd) eqn:Hvp; cbn [negb]; wp_steps.
  2:{ apply wp_unlock_utable. wp_steps. split; [done|].
      intros uid Huid. split; [by intros <- | by intros (_ & ? & _)]. }
  apply wp_lock_utable; [done|]. wp_steps. simpl.
  destruct (find_user_spec (utable u) username (ut_wf _ Hok) (readable_terminated _ _ Hn) 0)
    as (r & -> & Hr). rewrite (valid_cstrn username) in Hr by done. wp_steps.
  destruct r as [i|].
  - destruct Hr as (k & v & -> & Hk & Hu & Hnm). simpl. rewrite Hk. wp_steps.
    pose proof (proj1 (Forall_lookup _ _) (ut_wf _ Hok) _ _ Hk) as Hwv.
    destruct (cmp_field (u_passwd v) passwd (uw_pass _ Hwv) (readable_terminated _ _ Hp))
      as (c & Hc & Hz). change (Z.to_nat USER_PW_MAXLEN) with NAMELEN. rewrite Hc. wp_steps.
    rewrite (valid_cstrn passwd) in Hz by done. rewrite Hz. clear c Hc Hz.
    assert (Hv : account (utable u) (cstr username) (pass_of v) (u_uid v)).
    { exists v. split; [by eapply list_elem_of_lookup_2|done]. }
    case_bool_decide as Hpw; cbn [negb]; wp_steps; apply wp_unlock_utable; wp_steps.
    + simpl. rewrite Hk. wp_steps. split; [by rewrite relock|]. intros uid Huid. split.
      * intros <-. unfold pass_of in Hv. rewrite Hpw in Hv. done.
      * intros (_ & _ & Ha). by destruct (account_unique u _ _ _ _ _ Hok Hv Ha).
    + split; [by rewrite relock|]. intros uid Huid. split; [by intros <-|].
      intros (_ & _ & Ha). destruct (account_unique u _ _ _ _ _ Hok Hv Ha). done.
  - wp_step. apply wp_unlock_utable. wp_step. split; [by rewrite relock|].
    intros uid Huid. split; [by intros <-|]. intros (_ & _ & v & Hv & Hu & Hnm & _).
    exfalso. by apply (Hr v).
Qed.

(** A table with the administrator and one user, and free slots. *)
Definition field (s : list Z) : list Z := s ++ replicate (NAMELEN - length s) 0.
Definition empty_user : User := mkUser (field []) (field []) 0.
Definition demo_utab : utab :=
  mkUtab (mkUser (field str_root) (field [48; 48; 48; 48]) 1
          :: mkUser (field [97; 98]) (field [120; 121; 122]) 2 :: replicate 8 empty_user)
         3 true (Some 3%nat) (mkSleeplock 0 0).

Lemma field_wf n p uid :
  (length n <= 16)%nat -> (length p <= 16)%nat -> Forall is_byte n -> Forall is_byte p ->
  is_u32 uid -> user_wf (mkUser (field n) (field p) uid).
Proof.
  intros Hn Hp Hbn Hbp Hu. unfold field.
  split; simpl; try done; change NAMELEN with 16%nat.
  - rewrite length_app, length_replicate. lia.
  - rewrite length_app, length_replicate. lia.
  - apply Forall_app. split; [done|]. by apply Forall_replicate.
  - apply Forall_app. split; [done|]. by apply Forall_replicate.
Qed.

Lemma two_users_ok t n1 :
  t = utable demo_utab -> 2 < n1 -> ut_ok (mkUtab t n1 true (Some 3%nat) (mkSleeplock 0 0)).
Proof.
  intros -> Hn. split; simpl.
  - done.
  - repeat (apply Forall_cons; split; [apply field_wf; simpl; repeat constructor; unfold is_byte, is_u32; lia|]).
    done.
  - intros i j a b Hi Hj. do 10 (destruct i as [|i]; [do 10 (destruct j as [|j]; [simpl in *; simplify_eq; done|]); by destruct j|]). by destruct i.
  - intros i j a b Hi Hj. do 10 (destruct i as [|i]; [do 10 (destruct j as [|j]; [simpl in *; simplify_eq; done|]); by destruct j|]). by destruct i.
  - intros a Ha. repeat (apply elem_of_cons in Ha as [->|Ha]; [simpl; lia|]). by apply elem_of_nil in Ha.
  - unfold ROOT_UID. lia.
  - eexists. split; [by left|]. done.
Qed.

Lemma getuid_correct_witness :
  exists r, getuid 7 [97; 98; 0] [120; 121; 122; 0] demo_utab = Ok r demo_utab.
Proof.
  destruct (getuid_correct demo_utab 7 [97; 98; 0] [120; 121; 122; 0]) as (r & Hr & _);
    [apply two_users_ok; [reflexivity | lia] | reflexivity | reflexivity | reflexivity |].
  exists r. exact Hr.
Defined.

(** C29: [getuid] gives up a lock it never took.  Called with a name or password of
    unacceptable length while another process holds the table lock, it returns 0
    and leaves the lock free, so a third process can enter the critical section
    beside the holder. *)
Theorem getuid_releases_foreign_lock u pid other username passwd :
  utable_lock u = mkSleeplock 1 other -> terminated username = true -> valid_len username = false ->
  exists u', getuid pid username passwd u = Ok 0 u'
    /\ utable u' = utable u /\ utable_lock u' = mkSleeplock 0 0
    /\ forall third, acquiresleep third (utable_lock u') = Some (mkSleeplock 1 third).
Proof.
  intros Hl Ht Hv. exists (set_ut_lock (mkSleeplock 0 0) u). split_and!; try done.
  unfold getuid. rewrite is_valid_username_spec by done. by rewrite Hv.
Qed.

Lemma getuid_releases_foreign_lock_witness :
  exists u', getuid 7 [97; 0] [] (set_ut_lock (mkSleeplock 1 9) demo_utab) = Ok 0 u'.
Proof.
  destruct (getuid_releases_foreign_lock (set_ut_lock (mkSleeplock 1 9) demo_utab) 7 9 [97; 0] [])
    as (u' & Hu & _); [reflexivity.. |]. exists u'. exact Hu.
Defined.

(** ** Adding and removing an entry *)

Section Slot.
Context (username : list Z).
Hypothesis Hname : readable NAMELEN username = true.
Let name := cstrn NAMELEN username.

Lemma find_slot_spec t i0 e :
  Forall user_wf t ->
  exists r, find_slot t username i0 e = Some r /\
    match r with
    | inl _ => exists u, u ∈ t /\ used u = true /\ name_of u = name
    | inr e' => (forall u, u ∈ t -> used u = true -> name_of u ≠ name)
        /\ ((e' = e /\ forall u, u ∈ t -> used u = true)
            \/ exists k u, e' = Some (i0 + k)%nat /\ t !! k = Some u /\ u_uid u = 0)
    end.
Proof.
  revert i0 e. induction t as [|u t IH]; intros i0 e Hwf.
  { exists (inr e). split; [done|]. split; [by intros u ?%elem_of_nil|].
    left. split; [done|]. by intros u ?%elem_of_nil. }
  apply Forall_cons in Hwf as [Hu Hwf]. simpl. destruct (Z.eqb_spec (u_uid u) 0) as [Hz|Hz].
  - destruct (IH (S i0) (Some i0) Hwf) as (r & Hr & Hspec). exists r. split; [done|].
    destruct r as [[]|e'].
    + destruct Hspec as (v & ? & ? & ?). exists v. split; [by right|done].
    + destruct Hspec as [Hn Hd]. split.
      * intros v [->|Hv]%elem_of_cons; [by rewrite used_true|auto].
      * right. destruct Hd as [[-> _]|(k & v & -> & Hk & ?)].
        -- exists 0%nat, u. split_and!; [f_equal; lia | done | done].
        -- exists (S k), v. split_and!; [f_equal; lia | done | done].
  - destruct (cmp_field (u_username u) username (uw_name _ Hu) Hname) as (c & Hc & Hz').
    change (Z.to_nat USERNAME_MAXLEN) with NAMELEN. rewrite Hc. simpl. rewrite Hz'.
    case_bool_decide as Hn.
    + exists (inl tt). split; [done|]. exists u. rewrite used_true. split; [by left|done].
    + destruct (IH (S i0) e Hwf) as (r & Hr & Hspec). exists r. split; [done|].
      destruct r as [[]|e'].
      * destruct Hspec as (v & ? & ? & ?). exists v. split; [by right|done].
      * destruct Hspec as [Hn' Hd]. split; [by intros v [->|Hv]%elem_of_cons; auto|].
        destruct Hd as [[-> Hall]|(k & v & -> & Hk & ?)].
        -- left. split; [done|]. intros v [->|Hv]%elem_of_cons; [by rewrite used_true|auto].
        -- right. exists (S k), v. split_and!; [f_equal; lia | done | done].
Qed.
End Slot.

(** Replacing the entry of slot [i] keeps the invariant when the new entry is
    free, or has a fresh name and a fresh user id. *)
Lemma ut_update u i e e' n' :
  ut_ok u -> utable u !! i = Some e -> user_wf e' -> u_uid e ≠ ROOT_UID -> next_uid u <= n' ->
  u_uid e' < n' ->
  (used e' = true -> (forall j b, j ≠ i -> utable u !! j = Some b -> used b = true ->
                        name_of b ≠ name_of e' /\ u_uid b ≠ u_uid e')) ->
  ut_ok (set_next_uid n' (set_utable (<[i := e']> (utable u)) u)).
Proof.
  intros [Hlen Hwf Hnm Hid Hnx Hnr (a & Ha & Hra & Hrn)] Hi Hwe Hroot Hn Hlt Hfresh.
  assert (Hil : (i < length (utable u))%nat) by (by eapply lookup_lt_Some).
  assert (Hcase : forall j b, <[i := e']> (utable u) !! j = Some b ->
      (j = i /\ b = e') \/ (j ≠ i /\ utable u !! j = Some b)).
  { intros j b. destruct (decide (j = i)) as [->|Hne].
    - rewrite list_lookup_insert_eq by done. intros [= <-]. by left.
    - rewrite list_lookup_insert_ne by done. by right. }
  split; simpl.
  - by rewrite length_insert.
  - by apply Forall_insert.
  - intros j k x y Hj Hk Hux Huy Hxy.
    destruct (Hcase _ _ Hj) as [[-> ->]|[Hj' Hj2]], (Hcase _ _ Hk) as [[-> ->]|[Hk' Hk2]]; try done.
    + by destruct (Hfresh Hux _ _ Hk' Hk2 Huy).
    + by destruct (Hfresh Huy _ _ Hj' Hj2 Hux).
    + eauto.
  - intros j k x y Hj Hk Hux Hxy.
    destruct (Hcase _ _ Hj) as [[-> ->]|[Hj' Hj2]], (Hcase _ _ Hk) as [[-> ->]|[Hk' Hk2]]; try done.
    + assert (Huy : used y = true) by (rewrite used_true in *; by rewrite <- Hxy).
      by destruct (Hfresh Hux _ _ Hk' Hk2 Huy).
    + assert (Huy : used e' = true) by (rewrite used_true in *; by rewrite <- Hxy).
      by destruct (Hfresh Huy _ _ Hj' Hj2 Hux).
    + eauto.
  - intros x (j & Hj)%list_elem_of_lookup.
    destruct (Hcase _ _ Hj) as [[-> ->]|[_ Hj2]]; [done|].
    apply list_elem_of_lookup_2, Hnx in Hj2. lia.
  - lia.
  - exists a. split; [|done]. apply list_elem_of_lookup in Ha as [j Hj].
    apply (list_elem_of_lookup_2 _ j). rewrite list_lookup_insert_ne; [done|].
    intros <-. rewrite Hi in Hj. by injection Hj as ->.
Qed.

(** The accounts after replacing slot [i], whose entry was [e]. *)
Lemma account_update u i e e' name pw uid :
  ut_ok u -> utable u !! i = Some e ->
  account (<[i := e']> (utable u)) name pw uid <->
  (used e' = true /\ name_of e' = name /\ pass_of e' = pw /\ u_uid e' = uid)
  \/ (account (utable u) name pw uid /\ (used e = true -> name ≠ name_of e)).
Proof.
  intros Hok Hi. assert (Hil : (i < length (utable u))%nat) by (by eapply lookup_lt_Some).
  split.
  - intros (x & (j & Hj)%list_elem_of_lookup & Hu & Hn & Hp & Hd).
    destruct (decide (j = i)) as [->|Hne].
    + rewrite list_lookup_insert_eq in Hj by done. injection Hj as <-. by left.
    + rewrite list_lookup_insert_ne in Hj by done. right. split.
      * exists x. split; [by eapply list_elem_of_lookup_2|done].
      * intros He Heq. apply Hne. eapply (ut_names _ Hok); eauto. congruence.
  - intros [H|[(x & (j & Hj)%list_elem_of_lookup & Hu & Hn & Hp & Hd) Hne]].
    + exists e'. split; [|done]. apply (list_elem_of_lookup_2 _ i). by apply list_lookup_insert_eq.
    + exists x. split; [|done]. apply (list_elem_of_lookup_2 _ j).
      rewrite list_lookup_insert_ne; [done|]. intros <-. rewrite Hi in Hj. injection Hj as ->.
      by apply Hne.
Qed.

Lemma strncpy_field f s :
  length f = NAMELEN -> Forall is_byte s -> readable NAMELEN s = true ->
  exists f', strncpy f s NAMELEN = Some f' /\ length f' = NAMELEN /\ Forall is_byte f'
             /\ cstrn NAMELEN f' = cstrn NAMELEN s.
Proof.
  intros Hf Hb Hr. eexists. split; [by apply strncpy_spec; [rewrite Hf|]|].
  pose proof (cstrn_length NAMELEN s). rewrite (drop_ge f) by lia. rewrite app_nil_r. split_and!.
  - rewrite length_app, length_replicate. lia.
  - apply Forall_app. split; [by apply cstrn_bytes|]. by apply Forall_replicate.
  - pose proof (cstrn_app_zero NAMELEN (cstrn NAMELEN s) []) as Hz. rewrite app_nil_r in Hz.
    by apply Hz; [apply cstrn_nonzero|].
Qed.

(** [fill_slot] adds the account under the next user id. *)
Lemma fill_slot_spec u i e username passwd :
  ut_ok u -> utable u !! i = Some e -> u_uid e = 0 -> next_uid u + 1 < 2 ^ 32 ->
  readable NAMELEN username = true -> readable NAMELEN passwd = true ->
  Forall is_byte username -> Forall is_byte passwd ->
  (forall v, v ∈ utable u -> used v = true -> name_of v ≠ cstrn NAMELEN username) ->
  wp (fill_slot i username passwd) (fun _ u' => ut_ok u' /\ next_uid u' = next_uid u + 1
     /\ (exists n p, utable u' = <[i := mkUser n p (next_uid u)]> (utable u))
     /\ utable_lock u' = utable_lock u /\ utable_ip u' = utable_ip u
     /\ forall name pw uid, account (utable u') name pw uid <->
          (name = cstrn NAMELEN username /\ pw = cstrn NAMELEN passwd /\ uid = next_uid u)
          \/ account (utable u) name pw uid) u.
Proof.
  intros Hok Hi He Hmax Hrn Hrp Hbn Hbp Hfresh.
  pose proof (proj1 (Forall_lookup _ _) (ut_wf _ Hok) _ _ Hi) as Hwe.
  destruct (strncpy_field (u_username e) username (uw_name _ Hwe) Hbn Hrn) as (n & Hn & Hln & Hbn' & Hcn).
  destruct (strncpy_field (u_passwd e) passwd (uw_pass _ Hwe) Hbp Hrp) as (p & Hp & Hlp & Hbp' & Hcp).
  unfold fill_slot. wp_steps. unfold id. rewrite Hi. wp_steps.
  change (Z.to_nat USERNAME_MAXLEN) with NAMELEN. change (Z.to_nat USER_PW_MAXLEN) with NAMELEN.
  rewrite Hn. wp_steps. rewrite Hp. wp_steps.
  pose proof (ut_next_range _ Hok) as Hr. unfold ROOT_UID in Hr.
  rewrite u32_id by (unfold is_u32; lia). set (e' := mkUser n p (next_uid u)).
  assert (Hue : used e' = true) by (rewrite used_true; simpl; lia).
  split_and!; try done.
  - eapply ut_update; eauto; simpl; try lia.
    + split; simpl; try done. unfold is_u32. lia.
    + unfold ROOT_UID. lia.
    + intros _ j b Hj Hb Hub. apply list_elem_of_lookup_2 in Hb. split.
      * change (name_of e') with (cstrn NAMELEN n). rewrite Hcn. auto.
      * pose proof (ut_next _ Hok _ Hb). lia.
  - by exists n, p.
  - intros name pw uid. simpl. rewrite (account_update u i e e') by done.
    change (name_of e') with (cstrn NAMELEN n). change (pass_of e') with (cstrn NAMELEN p).
    change (u_uid e') with (next_uid u). rewrite Hcn, Hcp.
    rewrite (used_true e), He. naive_solver.
Qed.

Lemma memset_field f :
  length f = NAMELEN -> memset f 0 0 USERNAME_MAXLEN = Some (field []).
Proof.
  intros Hf. change NAMELEN with 16%nat in *. change USERNAME_MAXLEN with (Z.of_nat 16).
  change 0 with (Z.of_nat 0) at 1. rewrite memset_fill by (rewrite Hf; lia).
  unfold splice. rewrite drop_ge by (rewrite Hf, length_replicate; lia). done.
Qed.

(** [clear_slot] removes exactly the account of the slot. *)
Lemma clear_slot_spec u i e :
  ut_ok u -> utable u !! i = Some e -> used e = true -> u_uid e ≠ ROOT_UID ->
  wp (clear_slot i) (fun _ u' => ut_ok u' /\ next_uid u' = next_uid u
     /\ utable_lock u' = utable_lock u /\ utable_ip u' = utable_ip u
     /\ forall name pw uid, account (utable u') name pw uid <->
          name ≠ name_of e /\ account (utable u) name pw uid) u.
Proof.
  intros Hok Hi Hue Hroot.
  pose proof (proj1 (Forall_lookup _ _) (ut_wf _ Hok) _ _ Hi) as Hwe.
  unfold clear_slot. wp_steps. rewrite Hi. wp_steps.
  change USER_PW_MAXLEN with USERNAME_MAXLEN.
  rewrite !memset_field by apply Hwe. wp_steps.
  change (mkUtab _ _ _ _ _) with (set_next_uid (next_uid u)
    (set_utable (<[i := empty_user]> (utable u)) u)).
  split_and!; try done.
  - pose proof (ut_next_range _ Hok). unfold ROOT_UID in *.
    eapply ut_update; eauto; simpl; try (done || lia).
    apply field_wf; simpl; done || lia.
  - intros name pw uid. simpl. rewrite (account_update u i e empty_user) by done.
    rewrite Hue. naive_solver.
Qed.
