(* ===== verification/Fs.v ===== *)
(** * fs.c: blocks, inodes, files, directories and paths

    The functions of fs.c over any storage that implements [TxStore].  The state
    adds to the storage the super block, the inode cache, the user table (which
    [stati] reads) and the fields of the running process that fs.c uses.  An
    [struct inode*] is an index into the cache.  Reading and writing a device
    inode goes through [devsw], a table of functions, which is a parameter. *)

From S2P Require Import Prelude KMonad CString Params Bio Users Store.

(** [struct dinode]. *)
Record dinode := mkDinode {
  d_perm : Z; d_type : Z; d_major : Z; d_minor : Z; d_nlink : Z; d_size : Z;
  d_addrs : list Z;              (* NDIRECT + 1 block numbers *)
  d_owner : Z
}.

(** [struct inode]; [i_d] is its copy of the disk inode. *)
Record inode := mkInode {
  i_dev : Z; i_inum : Z; i_ref : Z; i_lock : sleeplock; i_valid : bool; i_d : dinode
}.

Definition i_type (ip : inode) : Z := d_type (i_d ip).
Definition i_size (ip : inode) : Z := d_size (i_d ip).
Definition i_addrs (ip : inode) : list Z := d_addrs (i_d ip).
Definition i_perm (ip : inode) : Z := d_perm (i_d ip).
Definition i_owner (ip : inode) : Z := d_owner (i_d ip).
Definition i_nlink (ip : inode) : Z := d_nlink (i_d ip).
Definition i_major (ip : inode) : Z := d_major (i_d ip).

Definition set_d (d : dinode) (ip : inode) : inode :=
  mkInode (i_dev ip) (i_inum ip) (i_ref ip) (i_lock ip) (i_valid ip) d.
Definition set_ref (r : Z) (ip : inode) : inode :=
  mkInode (i_dev ip) (i_inum ip) r (i_lock ip) (i_valid ip) (i_d ip).
Definition set_ilock (l : sleeplock) (ip : inode) : inode :=
  mkInode (i_dev ip) (i_inum ip) (i_ref ip) l (i_valid ip) (i_d ip).
Definition set_valid (v : bool) (ip : inode) : inode :=
  mkInode (i_dev ip) (i_inum ip) (i_ref ip) (i_lock ip) v (i_d ip).

Definition d_set_type (t : Z) (d : dinode) : dinode :=
  mkDinode (d_perm d) t (d_major d) (d_minor d) (d_nlink d) (d_size d) (d_addrs d) (d_owner d).
Definition d_set_size (n : Z) (d : dinode) : dinode :=
  mkDinode (d_perm d) (d_type d) (d_major d) (d_minor d) (d_nlink d) n (d_addrs d) (d_owner d).
Definition d_set_addrs (a : list Z) (d : dinode) : dinode :=
  mkDinode (d_perm d) (d_type d) (d_major d) (d_minor d) (d_nlink d) (d_size d) a (d_owner d).
Definition d_set_nlink (n : Z) (d : dinode) : dinode :=
  mkDinode (d_perm d) (d_type d) (d_major d) (d_minor d) n (d_size d) (d_addrs d) (d_owner d).
Definition d_set_perm (p : Z) (d : dinode) : dinode :=
  mkDinode p (d_type d) (d_major d) (d_minor d) (d_nlink d) (d_size d) (d_addrs d) (d_owner d).
Definition d_set_owner (u : Z) (d : dinode) : dinode :=
  mkDinode (d_perm d) (d_type d) (d_major d) (d_minor d) (d_nlink d) (d_size d) (d_addrs d) u.
Definition d_set_dev (major minor : Z) (d : dinode) : dinode :=
  mkDinode (d_perm d) (d_type d) major minor (d_nlink d) (d_size d) (d_addrs d) (d_owner d).

(** The disk inode at byte [o] of block data [b]: [perm] and [type] are [char]
    (signed), [major], [minor] and [nlink] are [short], the rest [uint]. *)
Definition NADDRS : nat := Z.to_nat (NDIRECT + 1).

Definition read_dinode (o : nat) (b : list Z) : dinode :=
  mkDinode (i8 (get_le 1 o b)) (i8 (get_le 1 (o + 1) b)) (i16 (get_le 2 (o + 2) b))
    (i16 (get_le 2 (o + 4) b)) (i16 (get_le 2 (o + 6) b)) (get_le 4 (o + 8) b)
    ((fun k => get_le 4 (o + 12 + 4 * k) b) <$> seq 0 NADDRS)
    (get_le 4 (o + 60) b).

(** [memmove(dip->addrs, ip->addrs, sizeof(ip->addrs))] *)
Fixpoint put_addrs (o : nat) (a : list Z) (b : list Z) : list Z :=
  match a with
  | [] => b
  | x :: a' => put_addrs (o + 4) a' (set_le 4 o (u32 x) b)
  end.

Definition write_dinode (o : nat) (d : dinode) (b : list Z) : list Z :=
  let b := set_le 1 (o + 1) (u8 (d_type d)) b in
  let b := set_le 2 (o + 2) (u16 (d_major d)) b in
  let b := set_le 2 (o + 4) (u16 (d_minor d)) b in
  let b := set_le 2 (o + 6) (u16 (d_nlink d)) b in
  let b := set_le 4 (o + 8) (u32 (d_size d)) b in
  let b := set_le 1 o (u8 (d_perm d)) b in
  let b := set_le 4 (o + 60) (u32 (d_owner d)) b in
  put_addrs (o + 12) (d_addrs d) b.

(** The fields of [struct proc] that fs.c and usermanage.c use. *)
Record curproc := mkCurproc { c_pid : Z; c_uid : Z; c_cwd : option nat }.

Record fs (S : Type) := mkFs {
  f_store : S; f_sb : superblock; f_icache : list inode; f_ut : utab; f_cur : curproc
}.
Arguments mkFs {S}.
Arguments f_store {S}.
Arguments f_sb {S}.
Arguments f_icache {S}.
Arguments f_ut {S}.
Arguments f_cur {S}.

(** Bitmap bits. *)
Definition bit_mask (bi : Z) : Z := Z.shiftl 1 (bi mod 8).
Definition bit_set (d : list Z) (bi : Z) : bool :=
  negb (Z.land (d !!! Z.to_nat (bi / 8)) (bit_mask bi) =? 0).
Definition mark_bit (bi : Z) (d : list Z) : list Z :=
  <[Z.to_nat (bi / 8) := u8 (Z.lor (d !!! Z.to_nat (bi / 8)) (bit_mask bi))]> d.
Definition clear_bit (bi : Z) (d : list Z) : list Z :=
  <[Z.to_nat (bi / 8) := u8 (Z.land (d !!! Z.to_nat (bi / 8)) (Z.lnot (bit_mask bi)))]> d.

(** The inner loop of [balloc]: the first clear bit [bi] with [bi < BPB] and
    [b + bi < sb.size]. *)
Definition free_bit (d : list Z) (n : Z) : option Z :=
  List.find (fun bi => negb (bit_set d bi)) (seqZ 0 (Z.min BPB n)).

(** [for(b = 0; b < sb.size; b += BPB)] *)
Definition bitmap_starts (size : Z) : list Z :=
  (fun i => i * BPB) <$> seqZ 0 ((size + BPB - 1) / BPB).

(** The byte offset in its block of disk inode [inum]. *)
Definition dinode_off (inum : Z) : nat := Z.to_nat ((inum mod IPB) * sizeof_dinode).

(** The search of [iget]: the cached entry, and the first free one. *)
Fixpoint icache_find (dev inum : Z) (ic : list inode) (i : nat) : option nat :=
  match ic with
  | [] => None
  | ip :: ic' =>
      if (0 <? i_ref ip) && (i_dev ip =? dev) && (i_inum ip =? inum) then Some i
      else icache_find dev inum ic' (S i)
  end.
Fixpoint icache_empty (ic : list inode) (i : nat) : option nat :=
  match ic with
  | [] => None
  | ip :: ic' => if i_ref ip =? 0 then Some i else icache_empty ic' (S i)
  end.

Section Fs.
Context {S : Type} `{TxStore S}.
Local Abbreviation F := (M (fs S)).

Definition on_store {A} (m : M S A) : F A :=
  lift f_store (fun t s => mkFs t (f_sb s) (f_icache s) (f_ut s) (f_cur s)) m.
Definition on_ut {A} (m : M utab A) : F A :=
  lift f_ut (fun u s => mkFs (f_store s) (f_sb s) (f_icache s) u (f_cur s)) m.

Definition get_inode (ip : nat) : F inode := fun s => from_opt (f_icache s !! ip) s.
Definition put_inode (ip : nat) (x : inode) : F unit :=
  modify (fun s => mkFs (f_store s) (f_sb s) (<[ip := x]> (f_icache s)) (f_ut s) (f_cur s)).
(** [ip->field = ...] *)
Definition upd_inode (ip : nat) (f : inode -> inode) : F unit :=
  x <- get_inode ip ;; put_inode ip (f x).
Definition upd_d (ip : nat) (f : dinode -> dinode) : F unit :=
  upd_inode ip (fun x => set_d (f (i_d x)) x).

Definition bread (dev b : Z) : F nat := on_store (tx_bread dev b).
Definition read_data (bp : nat) : F (list Z) := on_store (tx_read_data bp).
Definition write_data (bp : nat) (d : list Z) : F unit := on_store (tx_write_data bp d).
Definition log_write (bp : nat) : F unit := on_store (tx_log_write bp).
Definition brelse (bp : nat) : F unit := on_store (tx_brelse bp).
Definition begin_op : F unit := on_store tx_begin_op.
Definition end_op : F unit := on_store tx_end_op.

(** ** Blocks *)

Definition bzero (dev bno : Z) : F unit :=
  bp <- bread dev bno ;;
  write_data bp zero_block ;;;
  log_write bp ;;;
  brelse bp.

Definition balloc (dev : Z) : F Z :=
  sb <- gets f_sb ;;
  r <- for_until (bitmap_starts (sb_size sb)) (fun b =>
    bp <- bread dev (BBLOCK b sb) ;;
    d <- read_data bp ;;
    match free_bit d (sb_size sb - b) with
    | Some bi =>
        write_data bp (mark_bit bi d) ;;;
        log_write bp ;;;
        brelse bp ;;;
        bzero dev (b + bi) ;;;
        ret (Some (b + bi))
    | None => brelse bp ;;; ret None
    end) ;;
  match r with Some b => ret b | None => panic "balloc: out of blocks" end.

Definition bfree (dev b : Z) : F unit :=
  sb <- gets f_sb ;;
  bp <- bread dev (BBLOCK b sb) ;;
  d <- read_data bp ;;
  let bi := b mod BPB in
  if negb (bit_set d bi) then panic "freeing free block"
  else
    write_data bp (clear_bit bi d) ;;;
    log_write bp ;;;
    brelse bp.

(** ** Inodes *)

Definition readsb (dev : Z) : F superblock :=
  bp <- bread dev 1 ;;
  d <- read_data bp ;;
  brelse bp ;;;
  ret (decode_superblock d).

Definition iinit (dev : Z) : F unit :=
  modify (fun s => mkFs (f_store s) (f_sb s)
            (set_ilock initsleeplock <$> f_icache s) (f_ut s) (f_cur s)) ;;;
  sb <- readsb dev ;;
  modify (fun s => mkFs (f_store s) sb (f_icache s) (f_ut s) (f_cur s)).

Definition iget (dev inum : Z) : F nat :=
  ic <- gets f_icache ;;
  match icache_find dev inum ic 0 with
  | Some ip => upd_inode ip (fun x => set_ref (i_ref x + 1) x) ;;; ret ip
  | None =>
      match icache_empty ic 0 with
      | None => panic "iget: no inodes"
      | Some ip =>
          upd_inode ip (fun x => mkInode dev inum 1 (i_lock x) false (i_d x)) ;;; ret ip
      end
  end.

Definition ialloc (dev type : Z) : F nat :=
  sb <- gets f_sb ;;
  r <- for_until (seqZ 1 (sb_ninodes sb - 1)) (fun inum =>
    bp <- bread dev (IBLOCK inum sb) ;;
    d <- read_data bp ;;
    let o := dinode_off inum in
    if d_type (read_dinode o d) =? 0 then
      write_data bp (set_le 1 (o + 1) (u8 type) (splice o (replicate 64 0) d)) ;;;
      log_write bp ;;;
      brelse bp ;;;
      ip <- iget dev inum ;;
      ret (Some ip)
    else brelse bp ;;; ret None) ;;
  match r with Some ip => ret ip | None => panic "ialloc: no inodes" end.

Definition iupdate (ip : nat) : F unit :=
  x <- get_inode ip ;;
  sb <- gets f_sb ;;
  bp <- bread (i_dev x) (IBLOCK (i_inum x) sb) ;;
  d <- read_data bp ;;
  write_data bp (write_dinode (dinode_off (i_inum x)) (i_d x) d) ;;;
  log_write bp ;;;
  brelse bp.

Definition idup (ip : nat) : F nat :=
  upd_inode ip (fun x => set_ref (i_ref x + 1) x) ;;; ret ip.

(** [acquiresleep(&ip->lock)] and [releasesleep(&ip->lock)]. *)
Definition acquire_inode (ip : nat) : F unit :=
  x <- get_inode ip ;;
  cur <- gets f_cur ;;
  match acquiresleep (c_pid cur) (i_lock x) with
  | Some l => put_inode ip (set_ilock l x)
  | None => halt asleep_stop
  end.
Definition release_inode (ip : nat) : F unit :=
  upd_inode ip (fun x => set_ilock (releasesleep (i_lock x)) x).

Definition ilock (ip : nat) : F unit :=
  x <- get_inode ip ;;
  if i_ref x <? 1 then panic "ilock"
  else
    acquire_inode ip ;;;
    x <- get_inode ip ;;
    if i_valid x then ret tt
    else
      sb <- gets f_sb ;;
      bp <- bread (i_dev x) (IBLOCK (i_inum x) sb) ;;
      d <- read_data bp ;;
      upd_inode ip (set_d (read_dinode (dinode_off (i_inum x)) d)) ;;;
      brelse bp ;;;
      upd_inode ip (set_valid true) ;;;
      x <- get_inode ip ;;
      if i_type x =? 0 then panic "ilock: no type" else ret tt.

Definition iunlock (ip : nat) : F unit :=
  x <- get_inode ip ;;
  cur <- gets f_cur ;;
  if negb (holdingsleep (c_pid cur) (i_lock x)) || (i_ref x <? 1) then panic "iunlock"
  else release_inode ip.

(** ** Inode content *)

(** [ip->addrs[i]] and its update. *)
Definition get_addr (ip : nat) (i : Z) : F Z :=
  x <- get_inode ip ;; from_opt (zget (i_addrs x) i).
Definition set_addr (ip : nat) (i v : Z) : F unit :=
  x <- get_inode ip ;;
  a <- from_opt (zset (i_addrs x) i v) ;;
  put_inode ip (set_d (d_set_addrs a (i_d x)) x).

(** [a[j]] of an indirect block. *)
Definition ind_get (d : list Z) (j : Z) : Z := get_le 4 (4 * Z.to_nat j) d.
Definition ind_set (d : list Z) (j v : Z) : list Z := set_le 4 (4 * Z.to_nat j) v d.

Definition bmap (ip : nat) (bn : Z) : F Z :=
  x <- get_inode ip ;;
  if bn <? NDIRECT then
    addr <- get_addr ip bn ;;
    if addr =? 0 then
      addr <- balloc (i_dev x) ;; set_addr ip bn addr ;;; ret addr
    else ret addr
  else
    let bn := bn - NDIRECT in
    if bn <? NINDIRECT then
      addr <- get_addr ip NDIRECT ;;
      addr <- (if addr =? 0 then
                 addr <- balloc (i_dev x) ;; set_addr ip NDIRECT addr ;;; ret addr
               else ret addr) ;;
      bp <- bread (i_dev x) addr ;;
      d <- read_data bp ;;
      let addr := ind_get d bn in
      addr <- (if addr =? 0 then
                 addr <- balloc (i_dev x) ;;
                 d <- read_data bp ;;
                 write_data bp (ind_set d bn addr) ;;;
                 log_write bp ;;;
                 ret addr
               else ret addr) ;;
      brelse bp ;;;
      ret addr
    else panic "bmap: out of range".

Definition itrunc (ip : nat) : F unit :=
  x <- get_inode ip ;;
  for_each (seqZ 0 NDIRECT) (fun i =>
    a <- get_addr ip i ;;
    when (negb (a =? 0)) (bfree (i_dev x) a ;;; set_addr ip i 0)) ;;;
  a <- get_addr ip NDIRECT ;;
  when (negb (a =? 0)) (
    bp <- bread (i_dev x) a ;;
    for_each (seqZ 0 NINDIRECT) (fun j =>
      d <- read_data bp ;;
      when (negb (ind_get d j =? 0)) (bfree (i_dev x) (ind_get d j))) ;;;
    brelse bp ;;;
    bfree (i_dev x) a ;;;
    set_addr ip NDIRECT 0) ;;;
  upd_d ip (d_set_size 0) ;;;
  iupdate ip.

Definition iput (ip : nat) : F unit :=
  acquire_inode ip ;;;
  x <- get_inode ip ;;
  when (i_valid x && (i_nlink x =? 0) && (i_ref x =? 1)) (
    itrunc ip ;;;
    upd_d ip (d_set_type 0) ;;;
    iupdate ip ;;;
    upd_inode ip (set_valid false)) ;;;
  release_inode ip ;;;
  upd_inode ip (fun x => set_ref (i_ref x - 1) x).

Definition iunlockput (ip : nat) : F unit := iunlock ip ;;; iput ip.

(** [struct stat]. *)
Record stat := mkStat {
  st_perm : Z; st_type : Z; st_dev : Z; st_ino : Z; st_nlink : Z; st_size : Z; st_owner : Z;
  st_owner_name : list Z
}.

(** [owner_name] is the caller's uninitialised buffer. *)
Definition stati (ip : nat) (owner_name : list Z) : F stat :=
  x <- get_inode ip ;;
  cur <- gets f_cur ;;
  r <- on_ut (get_username_with_uid (c_pid cur) (i_owner x) owner_name) ;;
  name <- match r with
          | Some b => ret b
          | None => from_opt (put_nul owner_name)
          end ;;
  ret (mkStat (i_perm x) (i_type x) (i_dev x) (i_inum x) (i_nlink x) (i_size x) (i_owner x) name).

(** [devsw[major].read] and [devsw[major].write]; [None] is a null pointer.  A
    read yields the result and the bytes stored at [dst]. *)
Context (devsw_read : Z -> option (nat -> Z -> F (Z * list Z))).
Context (devsw_write : Z -> option (nat -> list Z -> Z -> F Z)).

(** [bp->data + off%BSIZE] and the number of bytes to move. *)
Definition chunk (tot off n : Z) : Z := Z.min (n - tot) (BSIZE - off mod BSIZE).

(** The loop of [readi] from [tot], with the bytes read so far. *)
Fixpoint readi_loop (fuel : nat) (ip : nat) (tot off n : Z) (acc : list Z) : F (list Z) :=
  if tot <? n then
    match fuel with
    | O => halt fuel_stop
    | Datatypes.S fuel' =>
        x <- get_inode ip ;;
        b <- bmap ip (off / BSIZE) ;;
        bp <- bread (i_dev x) b ;;
        let m := chunk tot off n in
        d <- read_data bp ;;
        brelse bp ;;;
        readi_loop fuel' ip (tot + m) (off + m) n
          (acc ++ slice (Z.to_nat (off mod BSIZE)) (Z.to_nat m) d)
    end
  else ret acc.

Definition readi (ip : nat) (off n : Z) : F (Z * list Z) :=
  x <- get_inode ip ;;
  if i_type x =? T_DEV then
    if (i_major x <? 0) || (NDEV <=? i_major x) then ret (-1, [])
    else match devsw_read (i_major x) with
         | None => ret (-1, [])
         | Some f => f ip n
         end
  else if (i_size x <? off) || (u32 (off + n) <? off) then ret (-1, [])
  else
    let n := if i_size x <? off + n then i_size x - off else n in
    bytes <- readi_loop (Z.to_nat n) ip 0 off n [] ;;
    ret (n, bytes).

(** The loop of [writei]; [src] are the bytes not yet written.  Returns the
    final [off]. *)
Fixpoint writei_loop (fuel : nat) (ip : nat) (src : list Z) (tot off n : Z) : F Z :=
  if tot <? n then
    match fuel with
    | O => halt fuel_stop
    | Datatypes.S fuel' =>
        x <- get_inode ip ;;
        b <- bmap ip (off / BSIZE) ;;
        bp <- bread (i_dev x) b ;;
        let m := chunk tot off n in
        d <- read_data bp ;;
        (if zlen src <? m then halt fault_stop
         else write_data bp (splice (Z.to_nat (off mod BSIZE)) (take (Z.to_nat m) src) d)) ;;;
        log_write bp ;;;
        brelse bp ;;;
        writei_loop fuel' ip (drop (Z.to_nat m) src) (tot + m) (off + m) n
    end
  else ret off.

Definition writei (ip : nat) (src : list Z) (off n : Z) : F Z :=
  x <- get_inode ip ;;
  if i_type x =? T_DEV then
    if (i_major x <? 0) || (NDEV <=? i_major x) then ret (-1)
    else match devsw_write (i_major x) with
         | None => ret (-1)
         | Some f => f ip src n
         end
  else if (i_size x <? off) || (u32 (off + n) <? off) then ret (-1)
  else if MAXFILE * BSIZE <? off + n then ret (-1)
  else
    off' <- writei_loop (Z.to_nat n) ip src 0 off n ;;
    x <- get_inode ip ;;
    when ((0 <? n) && (i_size x <? off')) (
      upd_d ip (d_set_size off') ;;;
      iupdate ip) ;;;
    ret n.

(** ** Directories *)

Definition namecmp (s t : list Z) : option Z := strncmp s t (Z.to_nat DIRSIZ).

(** [struct dirent] in its 16 bytes. *)
Definition de_inum (de : list Z) : Z := get_le 2 0 de.
Definition de_name (de : list Z) : list Z := slice 2 14 de.
Definition mk_dirent (inum : Z) (name : list Z) : list Z := le_bytes 2 (u16 inum) ++ name.

(** [for(off = 0; off < dp->size; off += sizeof(de))] *)
Definition dirent_offs (size : Z) : list Z :=
  (fun i => i * sizeof_dirent) <$> seqZ 0 ((size + sizeof_dirent - 1) / sizeof_dirent).

(** Returns the inode and [*poff]. *)
Definition dirlookup (dp : nat) (name : list Z) : F (option (nat * Z)) :=
  x <- get_inode dp ;;
  if negb (i_type x =? T_DIR) then panic "dirlookup not DIR"
  else
    for_until (dirent_offs (i_size x)) (fun off =>
      r <- readi dp off sizeof_dirent ;;
      if negb (fst r =? sizeof_dirent) then panic "dirlookup read"
      else
        let de := snd r in
        if de_inum de =? 0 then ret None
        else
          c <- from_opt (namecmp name (de_name de)) ;;
          if c =? 0 then
            ip <- iget (i_dev x) (de_inum de) ;; ret (Some (ip, off))
          else ret None).

(** The scan of [dirlink] for an empty entry: its offset, and the last entry read. *)
Fixpoint find_empty (dp : nat) (offs : list Z) (last : Z) (de : list Z) : F (Z * list Z) :=
  match offs with
  | [] => ret (last, de)
  | off :: offs' =>
      r <- readi dp off sizeof_dirent ;;
      if negb (fst r =? sizeof_dirent) then panic "dirlink read"
      else if de_inum (snd r) =? 0 then ret (off, snd r)
      else find_empty dp offs' (off + sizeof_dirent) (snd r)
  end.

(** [de] is the uninitialised local. *)
Definition dirlink (dp : nat) (name : list Z) (inum : Z) : F Z :=
  r <- dirlookup dp name ;;
  match r with
  | Some (ip, _) => iput ip ;;; ret (-1)
  | None =>
      x <- get_inode dp ;;
      e <- find_empty dp (dirent_offs (i_size x)) 0 (replicate 16 0) ;;
      name' <- from_opt (strncpy (de_name (snd e)) name (Z.to_nat DIRSIZ)) ;;
      w <- writei dp (mk_dirent inum name') (fst e) sizeof_dirent ;;
      if negb (w =? sizeof_dirent) then panic "dirlink" else ret 0
  end.
End Fs.

(** ** Paths *)

Definition SLASH : Z := 47.

(** [while( *path == '/') path++;] *)
Fixpoint skip_slashes (path : list Z) : option (list Z) :=
  match path with
  | [] => None
  | c :: path' => if c =? SLASH then skip_slashes path' else Some path
  end.

(** [while( *path != '/' && *path != 0) path++;]: the element, and what follows. *)
Fixpoint take_elem (path : list Z) : option (list Z * list Z) :=
  match path with
  | [] => None
  | c :: path' =>
      if negb (c =? SLASH) && negb (c =? 0) then
        r ← take_elem path'; Some (c :: fst r, snd r)
      else Some ([], path)
  end.

(** [Some None] is the null result; else the rest of the path and the [name]
    buffer (DIRSIZ bytes) as it was left. *)
Definition skipelem (path name : list Z) : option (option (list Z * list Z)) :=
  path ← skip_slashes path;
  match path with
  | [] => None
  | c :: _ =>
      if c =? 0 then Some None
      else
        r ← take_elem path;
        let len := zlen (fst r) in
        let name' := if DIRSIZ <=? len then splice 0 (take (Z.to_nat DIRSIZ) (fst r)) name
                     else splice 0 (fst r ++ [0]) name in
        path' ← skip_slashes (snd r);
        Some (Some (path', name'))
  end.

(** ** Permissions *)

Definition has_own (cur : curproc) (ip : inode) : bool :=
  (c_uid cur =? i_owner ip) || (c_uid cur =? ROOT_UID).

Definition perm_bit (ip : inode) (m : Z) : bool := negb (Z.land (i_perm ip) m =? 0).

Definition has_read_permission (cur : curproc) (ip : inode) : bool :=
  if i_type ip =? T_DEV then true
  else if has_own cur ip then perm_bit ip MODE_RUSR else perm_bit ip MODE_ROTH.

Definition has_write_permission (cur : curproc) (ip : inode) : bool :=
  if i_type ip =? T_DEV then true
  else if has_own cur ip then perm_bit ip MODE_WUSR else perm_bit ip MODE_WOTH.

Definition has_execute_permission (cur : curproc) (ip : inode) : bool :=
  if i_type ip =? T_DEV then true
  else if has_own cur ip then perm_bit ip MODE_XUSR else perm_bit ip MODE_XOTH.

Section Namex.
Context {S : Type} `{TxStore S}.
Context (devsw_read : Z -> option (nat -> Z -> M (fs S) (Z * list Z))).
Local Abbreviation F := (M (fs S)).

(** [*path == '\0'] *)
Definition at_end (path : list Z) : option bool :=
  match path with [] => None | c :: _ => Some (c =? 0) end.

(** The loop of [namex]; every element shortens the path, so its length bounds
    the iterations.  Returns the inode and the last element. *)
Fixpoint namex_loop (fuel : nat) (ip : nat) (path : list Z) (nameiparent : bool) (name : list Z)
    : F (option (nat * list Z)) :=
  r <- from_opt (skipelem path name) ;;
  match r with
  | None => if nameiparent then iput ip ;;; ret None else ret (Some (ip, name))
  | Some (path, name) =>
      match fuel with
      | O => halt fuel_stop
      | Datatypes.S fuel' =>
          ilock ip ;;;
          x <- get_inode ip ;;
          cur <- gets f_cur ;;
          if negb (i_type x =? T_DIR) then iunlockput ip ;;; ret None
          else if negb (has_execute_permission cur x) then iunlockput ip ;;; ret None
          else
            last <- from_opt (at_end path) ;;
            if nameiparent && last then iunlock ip ;;; ret (Some (ip, name))
            else
              next <- dirlookup devsw_read ip name ;;
              match next with
              | None => iunlockput ip ;;; ret None
              | Some (nx, _) => iunlockput ip ;;; namex_loop fuel' nx path nameiparent name
              end
      end
  end.

Definition namex (path : list Z) (nameiparent : bool) (name : list Z) : F (option (nat * list Z)) :=
  c <- from_opt (head path) ;;
  cur <- gets f_cur ;;
  ip <- (if c =? SLASH then iget ROOTDEV ROOTINO else d <- from_opt (c_cwd cur) ;; idup d) ;;
  namex_loop (length path) ip path nameiparent name.

Definition namei (path : list Z) : F (option nat) :=
  r <- namex path false (replicate 14 0) ;; ret (fst <$> r).

Definition nameiparent (path name : list Z) : F (option (nat * list Z)) := namex path true name.
End Namex.
