(* ===== verification/Pipe.v ===== *)
(** * pipe.c: the bounded byte channel

    [nread] and [nwrite] are 32-bit counters that run freely and wrap around;
    the ring buffer is indexed by them modulo PIPESIZE.  [pipewrite] and
    [piperead] hold the pipe's lock except while they sleep, so the unit of
    interleaving is the code between two sleeps: an operation runs until it
    returns or has to sleep, and is resumed from where it slept. *)

From S2P Require Import Prelude.

Definition PIPESIZE : Z := 512.

Record pipe := mkPipe {
  p_data : list Z; nread : Z; nwrite : Z; readopen : bool; writeopen : bool
}.

(** [pipealloc]'s initialisation; [data] is whatever the page held. *)
Definition pipe_init (data : list Z) : pipe := mkPipe data 0 0 true true.

(** How a run of an operation ended: it returned a value, it went to sleep
    having done [i] bytes, or it accessed memory outside its buffer. *)
Inductive presult := PRet (r : Z) | PSleep (i : Z) | PFault.

Definition pipe_full (p : pipe) : bool := nwrite p =? u32 (nread p + PIPESIZE).
Definition pipe_empty (p : pipe) : bool := nread p =? nwrite p.

(** [p->data[p->nwrite++ % PIPESIZE] = c] *)
Definition pipe_put (c : Z) (p : pipe) : option pipe :=
  d ← zset (p_data p) (nwrite p mod PIPESIZE) c;
  Some (mkPipe d (nread p) (u32 (nwrite p + 1)) (readopen p) (writeopen p)).

(** [p->data[p->nread++ % PIPESIZE]] *)
Definition pipe_get (p : pipe) : option (Z * pipe) :=
  c ← zget (p_data p) (nread p mod PIPESIZE);
  Some (c, mkPipe (p_data p) (u32 (nread p + 1)) (nwrite p) (readopen p) (writeopen p)).

(** The loop of [pipewrite] from byte [i], with [k] bytes to go; [src] is the
    memory from [addr + i]. *)
Fixpoint pipewrite_from (killed : bool) (src : list Z) (k : nat) (i : Z) (p : pipe)
    {struct k} : pipe * presult :=
  match k with
  | O => (p, PRet i)
  | S k' =>
      if pipe_full p then
        if negb (readopen p) || killed then (p, PRet (-1)) else (p, PSleep i)
      else
        match src with
        | [] => (p, PFault)
        | c :: src' =>
            match pipe_put c p with
            | None => (p, PFault)
            | Some p' => pipewrite_from killed src' k' (i + 1) p'
            end
        end
  end.

Definition pipewrite (killed : bool) (src : list Z) (n : Z) (p : pipe) : pipe * presult :=
  if n <? 0 then (p, PRet n) else pipewrite_from killed src (Z.to_nat n) 0 p.

(** [for(i = 0; i < n; i++){ if(p->nread == p->nwrite) break; ... }] *)
Fixpoint piperead_copy (k : nat) (p : pipe) : option (list Z * pipe) :=
  match k with
  | O => Some ([], p)
  | S k' =>
      if pipe_empty p then Some ([], p)
      else
        '(c, p') ← pipe_get p;
        '(l, p'') ← piperead_copy k' p';
        Some (c :: l, p'')
  end.

(** The bytes stored at [addr], and the result. *)
Definition piperead (killed : bool) (n : Z) (p : pipe) : pipe * list Z * presult :=
  if pipe_empty p && writeopen p then
    if killed then (p, [], PRet (-1)) else (p, [], PSleep 0)
  else
    match piperead_copy (Z.to_nat n) p with
    | None => (p, [], PFault)
    | Some (l, p') => (p', l, PRet (zlen l))
    end.

(** Returns the pipe, and whether its page is freed. *)
Definition pipeclose (writable : bool) (p : pipe) : pipe * bool :=
  let p' := if writable then mkPipe (p_data p) (nread p) (nwrite p) (readopen p) false
            else mkPipe (p_data p) (nread p) (nwrite p) false (writeopen p) in
  (p', negb (readopen p') && negb (writeopen p')).

(** ** The abstract channel *)

(** Bytes written and not yet read, oldest first. *)
Definition count (p : pipe) : Z := u32 (nwrite p - nread p).
Definition contents (p : pipe) : list Z :=
  (fun k => p_data p !!! Z.to_nat ((nread p + k) mod PIPESIZE)) <$> seqZ 0 (count p).

Record pipe_ok (p : pipe) : Prop := {
  po_data : length (p_data p) = Z.to_nat PIPESIZE;
  po_r : is_u32 (nread p);
  po_w : is_u32 (nwrite p);
  po_count : count p <= PIPESIZE }.

Lemma length_contents p : length (contents p) = Z.to_nat (count p).
Proof. unfold contents. by rewrite length_fmap, length_seqZ. Qed.

Lemma count_range p : 0 <= count p.
Proof. unfold count. pose proof (u32_range (nwrite p - nread p)). unfold is_u32 in *. lia. Qed.

Lemma pipe_empty_spec p : pipe_ok p -> pipe_empty p = true <-> contents p = [].
Proof.
  intros [_ Hr Hw _]. unfold pipe_empty, is_u32 in *. rewrite Z.eqb_eq.
  pose proof (length_contents p) as Hl. pose proof (count_range p). unfold count, u32 in *. split.
  - intros E. rewrite E, Z.sub_diag in Hl. by apply nil_length_inv.
  - intros E. rewrite E in Hl. simpl in Hl. mlia.
Qed.

Lemma pipe_full_spec p : pipe_ok p -> pipe_full p = true <-> count p = PIPESIZE.
Proof.
  intros [_ Hr Hw _]. unfold pipe_full, count, u32, is_u32, PIPESIZE in *. rewrite Z.eqb_eq. mlia.
Qed.

(** Ring positions: the counters index the buffer consistently across their
    wrap-around, since PIPESIZE divides 2^32. *)
Lemma u32_mod_pipe x : u32 x mod PIPESIZE = x mod PIPESIZE.
Proof. unfold u32, PIPESIZE. mlia. Qed.

Lemma pipe_put_spec c p :
  pipe_ok p -> pipe_full p = false ->
  exists p', pipe_put c p = Some p' /\ pipe_ok p' /\ contents p' = contents p ++ [c]
    /\ readopen p' = readopen p /\ writeopen p' = writeopen p.
Proof.
  intros Hok Hf. pose proof Hok as [Hd Hr Hw Hc]. unfold is_u32 in Hr, Hw.
  assert (Hlt : count p < PIPESIZE).
  { destruct (decide (count p = PIPESIZE)) as [E|]; [|lia].
    apply pipe_full_spec in E; [congruence|done]. }
  pose proof (count_range p) as H0.
  assert (Hm : 0 <= nwrite p mod PIPESIZE < PIPESIZE) by (apply Z.mod_pos_bound; done).
  unfold pipe_put. rewrite zset_ok by (unfold zlen; rewrite Hd; unfold PIPESIZE in *; lia). simpl.
  eexists. split; [done|].
  assert (Hc' : u32 (u32 (nwrite p + 1) - nread p) = count p + 1)
    by (unfold count, u32, PIPESIZE in *; mlia).
  split_and!; try done.
  - split; simpl; [by rewrite length_insert | done | apply u32_range |].
    unfold count at 1. simpl. lia.
  - unfold contents, count at 1. simpl. rewrite Hc'.
    rewrite seqZ_app by lia. rewrite fmap_app, Z.add_0_l. f_equal.
    + apply list_fmap_ext. intros i k [-> Hi]%lookup_seqZ.
      rewrite list_lookup_total_insert_ne; [done|]. unfold count, u32, PIPESIZE in *. mlia.
    + change (seqZ (count p) 1) with [Z.of_nat 0 + count p]. cbn [fmap list_fmap].
      f_equal. replace ((nread p + (Z.of_nat 0 + count p)) mod PIPESIZE) with (nwrite p mod PIPESIZE)
        by (unfold count, u32, PIPESIZE in *; mlia).
      apply list_lookup_total_insert_eq. rewrite Hd. unfold PIPESIZE in *. lia.
Qed.

Lemma pipe_get_spec p :
  pipe_ok p -> pipe_empty p = false ->
  exists c p', pipe_get p = Some (c, p') /\ pipe_ok p' /\ contents p = c :: contents p'
    /\ readopen p' = readopen p /\ writeopen p' = writeopen p.
Proof.
  intros Hok He. pose proof Hok as [Hd Hr Hw Hc]. unfold is_u32 in Hr, Hw.
  assert (Hlt : 0 < count p).
  { pose proof (count_range p). destruct (decide (count p = 0)) as [E|]; [|lia].
    rewrite (proj2 (pipe_empty_spec p Hok)) in He; [done|].
    apply nil_length_inv. by rewrite length_contents, E. }
  assert (Hm : 0 <= nread p mod PIPESIZE < PIPESIZE) by (apply Z.mod_pos_bound; done).
  destruct (zget_is_Some (p_data p) (nread p mod PIPESIZE)) as [c Hg].
  { unfold zlen. rewrite Hd. unfold PIPESIZE in *. lia. }
  unfold pipe_get. rewrite Hg. simpl. eexists _, _. split; [done|].
  assert (Hc' : u32 (nwrite p - u32 (nread p + 1)) = count p - 1)
    by (unfold count, u32, PIPESIZE in *; mlia).
  split_and!; try done.
  - split; simpl; [done | apply u32_range | done |]. unfold count. simpl. lia.
  - unfold contents, count at 2. simpl. rewrite Hc'.
    replace (count p) with (1 + (count p - 1)) at 1 by lia. rewrite seqZ_app by lia.
    rewrite fmap_app. change (seqZ 0 1) with [0]. cbn [fmap list_fmap app]. f_equal.
    + rewrite Z.add_0_r. apply zget_Some in Hg as [_ Hg]. by apply list_lookup_total_correct.
    + change (0 + 1) with (1 + 0). rewrite <- (fmap_add_seqZ 1 0), <- list_fmap_compose.
      apply list_fmap_ext.
      intros i k _. unfold compose. by replace ((u32 (nread p + 1) + k) mod PIPESIZE)
        with ((nread p + (1 + k)) mod PIPESIZE) by (unfold u32, PIPESIZE; mlia).
Qed.

(** A write appends the bytes it stores; it sleeps only when the pipe is full. *)
Lemma pipewrite_from_spec killed src k i p :
  pipe_ok p -> (k <= length src)%nat ->
  exists m p' r, pipewrite_from killed src k i p = (p', r) /\ pipe_ok p' /\ (m <= k)%nat
    /\ contents p' = contents p ++ take m src
    /\ readopen p' = readopen p /\ writeopen p' = writeopen p
    /\ (r = PRet (i + Z.of_nat k) /\ m = k
        \/ (m < k)%nat /\ pipe_full p' = true /\
           (r = PSleep (i + Z.of_nat m) /\ readopen p = true /\ killed = false
            \/ r = PRet (-1) /\ (readopen p = false \/ killed = true))).
Proof.
  intros Hok. revert src i p Hok. induction k as [|k IH]; intros src i p Hok Hl; simpl.
  { exists 0%nat, p, (PRet i). cbn [take]. rewrite app_nil_r, Z.add_0_r.
    split_and!; try (done || lia). by left. }
  destruct (pipe_full p) eqn:Hf.
  - exists 0%nat, p. rewrite app_nil_r, Z.add_0_r.
    destruct (negb (readopen p) || killed) eqn:E; eexists; (split_and!; [done|done|lia|done|done|done|]).
    + right. split_and!; [lia|done|]. right. split; [done|].
      apply orb_true_iff in E as [E|E]; [left; by apply negb_true_iff in E | by right].
    + apply orb_false_iff in E as [E1 E2]. apply negb_false_iff in E1.
      right. split_and!; [lia|done|]. by left.
  - destruct src as [|c src]; simpl in Hl; [lia|].
    destruct (pipe_put_spec c p Hok Hf) as (p1 & -> & Hok1 & Hc1 & Hr1 & Hw1).
    destruct (IH src (i + 1) p1 Hok1 ltac:(lia)) as (m & p' & r & Hrun & Hok' & Hm & Hc & Hr & Hw & Hres).
    exists (S m), p', r. rewrite Hc, Hc1, <- app_assoc, Hr, Hr1, Hw, Hw1. split_and!; try done; [lia|].
    rewrite Hr1 in Hres. replace (i + Z.of_nat (S k)) with (i + 1 + Z.of_nat k) by lia.
    replace (i + Z.of_nat (S m)) with (i + 1 + Z.of_nat m) by lia.
    destruct Hres as [[-> ->]|(? & ? & ?)]; [by left|]. right. split; [lia|done].
Qed.

Lemma piperead_copy_spec k p :
  pipe_ok p -> exists p', piperead_copy k p = Some (take k (contents p), p') /\ pipe_ok p'
    /\ contents p' = drop k (contents p)
    /\ readopen p' = readopen p /\ writeopen p' = writeopen p.
Proof.
  revert p. induction k as [|k IH]; intros p Hok; [by exists p|].
  cbn [piperead_copy]. destruct (pipe_empty p) eqn:He.
  - apply pipe_empty_spec in He as E; [|done]. rewrite E. by exists p.
  - destruct (pipe_get_spec p Hok He) as (c & p1 & -> & Hok1 & Hc & Hr1 & Hw1).
    destruct (IH p1 Hok1) as (p' & Hcopy & Hok' & Hc' & Hr' & Hw'). exists p'.
    rewrite Hc. simpl. rewrite Hcopy. simpl. split_and!; congruence || done.
Qed.

(** ** Interleavings *)

(** What some process does to the pipe until it returns or sleeps: a call, a write
    that goes on at byte [i] after a sleep, or a close. *)
Inductive pipe_op := DoWrite (killed : bool) (src : list Z) | DoResume (killed : bool) (src : list Z) (i : nat)
  | DoRead (killed : bool) (n : nat) | DoClose (writable : bool).

Definition op_ok (op : pipe_op) : Prop := match op with DoResume _ src i => (i <= length src)%nat | _ => True end.

(** One of them, with the result and the bytes stored at the reader's address. *)
Record event := mkEvent { e_op : pipe_op; e_before : pipe; e_after : pipe; e_result : presult; e_bytes : list Z }.

Definition pipe_step (op : pipe_op) (p : pipe) : event :=
  match op with
  | DoWrite killed src => let '(p', r) := pipewrite killed src (zlen src) p in mkEvent op p p' r []
  | DoResume killed src i =>
      let '(p', r) := pipewrite_from killed (drop i src) (length src - i) (Z.of_nat i) p in mkEvent op p p' r []
  | DoRead killed n => let '(p', l, r) := piperead killed (Z.of_nat n) p in mkEvent op p p' r l
  | DoClose w => mkEvent op p (pipeclose w p).1 (PRet 0) []
  end.

Fixpoint pipe_run (ops : list pipe_op) (p : pipe) : list event :=
  match ops with
  | [] => []
  | op :: ops' => let e := pipe_step op p in e :: pipe_run ops' (e_after e)
  end.

Definition last_pipe (p : pipe) (es : list event) : pipe := default p (e_after <$> last es).

(** What a writer may conclude from the result of writing [src] from byte [i] on:
    [n] is returned when every byte is in the pipe; the writer sleeps at a byte, with
    those before it in the full pipe, while there is a reader; -1 says that it was
    killed or nobody reads, with the pipe full. *)
Inductive wrote (killed : bool) (src : list Z) (i : nat) (p p' : pipe) : presult -> list Z -> Prop :=
| wrote_all : wrote killed src i p p' (PRet (zlen src)) (drop i src)
| wrote_part m : (i + m < length src)%nat -> count p' = PIPESIZE -> readopen p = true -> killed = false ->
    wrote killed src i p p' (PSleep (Z.of_nat (i + m))) (take m (drop i src))
| wrote_fail m : (i + m < length src)%nat -> count p' = PIPESIZE -> readopen p = false \/ killed = true ->
    wrote killed src i p p' (PRet (-1)) (take m (drop i src)).

(** And a reader of up to [n] bytes: it gets the oldest ones, their number is
    returned, and 0 only for [n = 0] or at the end of the stream; it sleeps, or is
    killed, only while the pipe is empty and may be written to. *)
Inductive took (killed : bool) (n : nat) (p : pipe) : presult -> list Z -> Prop :=
| took_bytes l : l = take n (contents p) -> contents p ≠ [] \/ writeopen p = false -> took killed n p (PRet (zlen l)) l
| took_sleep : contents p = [] -> writeopen p = true -> killed = false -> took killed n p (PSleep 0) []
| took_fail : contents p = [] -> writeopen p = true -> killed = true -> took killed n p (PRet (-1)) [].

(** [ins] are the bytes that an event has put into the pipe, as its result tells. *)
Definition put_in (e : event) (ins : list Z) : Prop :=
  match e_op e with
  | DoWrite killed src => wrote killed src 0 (e_before e) (e_after e) (e_result e) ins /\ e_bytes e = []
  | DoResume killed src i => wrote killed src i (e_before e) (e_after e) (e_result e) ins /\ e_bytes e = []
  | DoRead killed n => took killed n (e_before e) (e_result e) (e_bytes e) /\ ins = []
  | DoClose w => readopen (e_after e) = (w && readopen (e_before e)) /\ writeopen (e_after e) = (negb w && writeopen (e_before e)) /\ e_bytes e = [] /\ ins = []
  end.

Lemma resume_spec killed src i p : pipe_ok p -> (i <= length src)%nat ->
  exists ins p' r, pipewrite_from killed (drop i src) (length src - i) (Z.of_nat i) p = (p', r)
    /\ pipe_ok p' /\ contents p' = contents p ++ ins /\ wrote killed src i p p' r ins.
Proof.
  intros Hok Hi. destruct (pipewrite_from_spec killed (drop i src) (length src - i) (Z.of_nat i) p Hok) as (m & p' & r & E & Hok' & Hm & Hc & _ & _ & Hr).
  { rewrite length_drop. lia. }
  exists (take m (drop i src)), p', r. split_and!; try done. destruct Hr as [[-> ->]|(Hlt & Hf & Hr)].
  - rewrite take_ge by (rewrite length_drop; lia). replace (Z.of_nat i + Z.of_nat (length src - i)) with (zlen src) by (unfold zlen; lia). constructor.
  - apply pipe_full_spec in Hf; [|done]. destruct Hr as [(-> & Ho & Hk)|[-> Hk]].
    + replace (Z.of_nat i + Z.of_nat m) with (Z.of_nat (i + m)) by lia. constructor; try done. lia.
    + constructor; try done. lia.
Qed.

Lemma read_spec killed n p : pipe_ok p -> exists p' l r, piperead killed (Z.of_nat n) p = (p', l, r)
  /\ pipe_ok p' /\ l ++ contents p' = contents p /\ took killed n p r l.
Proof.
  intros Hok. unfold piperead. destruct (pipe_empty p) eqn:He; cbn [andb].
  - pose proof (proj1 (pipe_empty_spec p Hok) He) as E. destruct (writeopen p) eqn:Hw.
    + destruct killed; eexists _, _, _; (split; [reflexivity|]); (split; [done|]); split; try done; by constructor.
    + rewrite Nat2Z.id. destruct (piperead_copy_spec n p Hok) as (p' & -> & Hok' & Hc & _). eexists _, _, _. split; [reflexivity|]. split; [done|].
      split; [rewrite Hc; apply take_drop|]. constructor; [done|by right].
  - rewrite Nat2Z.id. destruct (piperead_copy_spec n p Hok) as (p' & -> & Hok' & Hc & _). eexists _, _, _. split; [reflexivity|]. split; [done|].
    split; [rewrite Hc; apply take_drop|]. constructor; [done|left]. intros E. apply pipe_empty_spec in E; [congruence|done].
Qed.

Lemma pipe_step_fifo op p : pipe_ok p -> op_ok op ->
  let e := pipe_step op p in exists ins, put_in e ins /\ pipe_ok (e_after e) /\ e_bytes e ++ contents (e_after e) = contents p ++ ins.
Proof.
  intros Hok Hop. destruct op as [killed src|killed src i|killed n|w]; cbn [pipe_step].
  - destruct (resume_spec killed src 0 p Hok ltac:(lia)) as (ins & p' & r & E & Hok' & Hc & Hw). rewrite drop_0, Nat.sub_0_r in E.
    unfold pipewrite, zlen. rewrite Nat2Z.id, (proj2 (Z.ltb_ge _ _)) by lia. change 0 with (Z.of_nat 0). rewrite E. exists ins. done.
  - destruct (resume_spec killed src i p Hok Hop) as (ins & p' & r & -> & Hok' & Hc & Hw). exists ins. done.
  - destruct (read_spec killed n p Hok) as (p' & l & r & -> & Hok' & Hc & Ht). exists []. rewrite app_nil_r. done.
  - exists []. rewrite app_nil_r. split; [by destruct w|]. destruct w; (split; [by destruct Hok|done]).
Qed.

(** C22: A pipe is a FIFO channel for every interleaving of readers and writers.
    Started from a fresh pipe, for any sequence of calls of [pipewrite], [piperead]
    and [pipeclose] and of writes that go on after a sleep, the bytes read so far
    followed by the bytes in the buffer are the bytes written so far, in order, where
    what was written is what the results say: all the bytes of a write that returns
    [n], and those before the byte at which a writer sleeps, which it does only when
    the pipe is full and somebody may read.  Reads return the oldest bytes; the
    buffer never holds more than PIPESIZE, also when the counters wrap around. *)
Theorem pipe_fifo data ops : length data = Z.to_nat PIPESIZE -> Forall op_ok ops ->
  let es := pipe_run ops (pipe_init data) in let p := last_pipe (pipe_init data) es in
  exists ins, Forall2 put_in es ins /\ concat (e_bytes <$> es) ++ contents p = concat ins /\ pipe_ok p.
Proof.
  intros Hd Hops.
  assert (Hg : forall p, pipe_ok p -> exists ins, Forall2 put_in (pipe_run ops p) ins
    /\ concat (e_bytes <$> pipe_run ops p) ++ contents (last_pipe p (pipe_run ops p)) = contents p ++ concat ins /\ pipe_ok (last_pipe p (pipe_run ops p))).
  { induction Hops as [|op ops Hop Hops IH]; intros p Hok; cbn [pipe_run].
    - exists []. split; [constructor|]. by rewrite app_nil_r.
    - destruct (pipe_step_fifo op p Hok Hop) as (i1 & Hi1 & Hok1 & Hs). set (e := pipe_step op p) in *. destruct (IH (e_after e) Hok1) as (ins & Hf & Hc & Hok2).
      assert (El : last_pipe p (e :: pipe_run ops (e_after e)) = last_pipe (e_after e) (pipe_run ops (e_after e))).
      { unfold last_pipe. rewrite last_cons. by destruct (last (pipe_run ops (e_after e))). }
      exists (i1 :: ins). rewrite El. split; [by constructor|]. split; [|done]. cbn [fmap list_fmap concat]. rewrite <- app_assoc, Hc, app_assoc, Hs, <- app_assoc. done. }
  destruct (Hg (pipe_init data)) as (ins & H1 & H2 & H3); [by split|]. exists ins. done.
Qed.

(** A write of 600 bytes sleeps at byte 512, and goes on after 100 bytes were read. *)
Definition demo_ops : list pipe_op :=
  [DoWrite false (replicate 600 7); DoRead false 100; DoResume false (replicate 600 7) 512; DoRead false 600].

Lemma pipe_fifo_witness : let es := pipe_run demo_ops (pipe_init (replicate 512 0)) in
  (e_result <$> es) = [PSleep 512; PRet 100; PRet 600; PRet 500] /\ exists ins, Forall2 put_in es ins /\ concat (e_bytes <$> es) = concat ins.
Proof.
  destruct (pipe_fifo (replicate 512 0) demo_ops) as (ins & H1 & H2 & _).
  - reflexivity.
  - apply Forall_cons; split; [exact I|]. apply Forall_cons; split; [exact I|]. apply Forall_cons; split; [cbn [op_ok]; rewrite length_replicate; lia|]. apply Forall_cons; split; [exact I|constructor].
  - split; [vm_compute; reflexivity|]. exists ins. split; [exact H1|]. rewrite <- H2.
    assert (E : contents (last_pipe (pipe_init (replicate 512 0)) (pipe_run demo_ops (pipe_init (replicate 512 0)))) = []) by (vm_compute; reflexivity).
    by rewrite E, app_nil_r.
Defined.
