(* ===== verification/Kalloc.v ===== *)
(** * kalloc.c: physical memory and the page allocator

    Kernel memory is a map from page addresses (kernel virtual addresses,
    multiples of PGSIZE) to pages; a page is the byte it was last filled with
    and the 32-bit words stored since.  The free list is threaded through the
    free pages themselves, as in the code: the first word of a free page is the
    address of the next one.  [free_list] relates that chain to a list of
    pages. *)

From S2P Require Import Prelude KMonad.

Definition PGSIZE : Z := 4096.
Definition KERNBASE : Z := 2147483648.
Definition EXTMEM : Z := 1048576.
Definition PHYSTOP : Z := 234881024.
Definition DEVSPACE : Z := 4261412864.
Definition KERNLINK : Z := KERNBASE + EXTMEM.
Definition V2P (a : Z) : Z := u32 (a - KERNBASE).
Definition P2V (a : Z) : Z := u32 (a + KERNBASE).

(** [((sz)+PGSIZE-1) & ~(PGSIZE-1)] and [(a) & ~(PGSIZE-1)] on [uint]. *)
Definition PGROUNDUP (sz : Z) : Z := Z.land (u32 (sz + PGSIZE - 1)) (u32 (Z.lnot (PGSIZE - 1))).
Definition PGROUNDDOWN (a : Z) : Z := Z.land (u32 a) (u32 (Z.lnot (PGSIZE - 1))).

Record page := mkPage { pg_fill : Z; pg_words : gmap Z Z }.

Definition page_word (p : page) (i : Z) : Z :=
  default (pg_fill p * 16843009) (pg_words p !! i).

(** The whole of kernel memory and the allocator's globals; [kend] is the
    linker symbol [end]. *)
Record kmem := mkKmem { mem : gmap Z page; freelist : Z; kend : Z }.

Definition K := M kmem.

Definition page_of (a : Z) : Z := a - a mod PGSIZE.

(** A 32-bit load and store at a word-aligned kernel address; an address outside
    every page is a fault. *)
Definition rd32 (m : gmap Z page) (a : Z) : option Z :=
  p ← m !! page_of a; Some (page_word p (a mod PGSIZE / 4)).
Definition wr32 (m : gmap Z page) (a v : Z) : option (gmap Z page) :=
  p ← m !! page_of a;
  Some (<[page_of a := mkPage (pg_fill p) (<[a mod PGSIZE / 4 := v]> (pg_words p))]> m).

(** [memset(v, c, PGSIZE)] of a whole page. *)
Definition fill_page (m : gmap Z page) (v c : Z) : option (gmap Z page) :=
  _ ← m !! v; Some (<[v := mkPage (u8 c) ∅]> m).

Definition set_mem (m : gmap Z page) (k : kmem) : kmem := mkKmem m (freelist k) (kend k).

Definition load (a : Z) : K Z := fun k => from_opt (rd32 (mem k) a) k.
Definition store (a v : Z) : K unit :=
  m <- gets mem ;; m' <- from_opt (wr32 m a v) ;; modify (set_mem m').
Definition memset_page (v c : Z) : K unit :=
  m <- gets mem ;; m' <- from_opt (fill_page m v c) ;; modify (set_mem m').

Definition kfree (v : Z) : K unit :=
  k <- gets id ;;
  if negb (v mod PGSIZE =? 0) || (v <? kend k) || (PHYSTOP <=? V2P v) then panic "kfree"
  else
    memset_page v 1 ;;;
    store v (freelist k) ;;;
    modify (fun k => mkKmem (mem k) v (kend k)).

Definition kalloc : K Z :=
  r <- gets freelist ;;
  when (negb (r =? 0)) (
    next <- load r ;;
    modify (fun k => mkKmem (mem k) next (kend k))) ;;;
  ret r.

(** The pages [freerange] frees: [p + PGSIZE <= vend]. *)
Definition range_pages (vstart vend : Z) : list Z :=
  let p := PGROUNDUP vstart in
  (fun i => p + i * PGSIZE) <$> seqZ 0 ((vend - p) / PGSIZE).

Definition freerange (vstart vend : Z) : K unit := for_each (range_pages vstart vend) kfree.

Definition kinit1 (vstart vend : Z) : K unit := freerange vstart vend.
Definition kinit2 (vstart vend : Z) : K unit := freerange vstart vend.

(** ** The free list as a list of pages *)

(** A page the allocator may manage. *)
Definition good_page (kend_ : Z) (v : Z) : Prop :=
  v mod PGSIZE = 0 /\ kend_ <= v /\ 0 < v < 4294967296 /\ V2P v < PHYSTOP.

(** The chain from [r] through the first words of the pages [l]. *)
Fixpoint chain (m : gmap Z page) (r : Z) (l : list Z) : Prop :=
  match l with
  | [] => r = 0
  | p :: l' => r = p /\ exists next, rd32 m p = Some next /\ chain m next l'
  end.

Record free_list (k : kmem) (l : list Z) : Prop := {
  fl_chain : chain (mem k) (freelist k) l;
  fl_good : Forall (good_page (kend k)) l;
  fl_nodup : NoDup l }.

Lemma page_of_page v : v mod PGSIZE = 0 -> page_of v = v.
Proof. unfold page_of. intros ->. lia. Qed.

Lemma rd32_insert m v pg p :
  p mod PGSIZE = 0 -> p ≠ v -> rd32 (<[v := pg]> m) p = rd32 m p.
Proof. intros Hp Hne. unfold rd32. rewrite page_of_page, lookup_insert_ne by done. done. Qed.

(** Changing a page outside the chain leaves the chain. *)
Lemma chain_insert m r l v pg :
  Forall (fun p => p mod PGSIZE = 0) l -> v ∉ l -> chain m r l -> chain (<[v := pg]> m) r l.
Proof.
  intros Hal. revert r. induction Hal as [|p l Hp Hal IH]; intros r Hv Hc; simpl in *; [done|].
  apply not_elem_of_cons in Hv as [Hne Hv]. destruct Hc as (-> & next & Hr & Hc).
  split; [done|]. exists next. split; [by rewrite rd32_insert | auto].
Qed.

Lemma good_aligned kend_ l : Forall (good_page kend_) l -> Forall (fun p => p mod PGSIZE = 0) l.
Proof. intros Hl. eapply Forall_impl; [exact Hl|]. by intros p [? _]. Qed.

(** Freeing a page and allocating one are push and pop.  On an allocator whose
    free pages are [l], [kfree] of a page that is not free puts it first;
    [kalloc] then returns that page and leaves [l], and on an empty list returns
    the null pointer; no page of [l] is ever handed out twice, since the free
    list never holds a page twice. *)
Theorem kfree_kalloc k l v :
  free_list k l -> good_page (kend k) v -> v ∉ l -> is_Some (mem k !! v) ->
  exists k1 k2, kfree v k = Ok tt k1 /\ free_list k1 (v :: l)
    /\ kalloc k1 = Ok v k2 /\ free_list k2 l
    /\ (l = [] -> kalloc k2 = Ok 0 k2).
Proof.
  intros [Hch Hgood Hnd] Hv Hnin [pg Hpg]. pose proof Hv as (Hal & Hke & Hrg & Hphys).
  set (m1 := <[v := mkPage (u8 1) (<[0 := freelist k]> ∅)]> (mem k)).
  exists (mkKmem m1 v (kend k)), (mkKmem m1 (freelist k) (kend k)).
  assert (Hrd : rd32 m1 v = Some (freelist k)).
  { unfold rd32, m1. rewrite page_of_page, lookup_insert_eq by done. simpl. rewrite Hal. simpl.
    unfold page_word. simpl. by rewrite lookup_insert_eq. }
  assert (Hchain : chain m1 (freelist k) l)
    by (apply chain_insert; [by eapply good_aligned | done | done]).
  split_and!.
  - unfold kfree. cbn [bind gets id]. unfold id. rewrite (proj2 (Z.eqb_eq _ _) Hal).
    rewrite (proj2 (Z.ltb_ge _ _) Hke), (proj2 (Z.leb_gt _ _) Hphys). simpl.
    unfold memset_page, store, fill_page, wr32, bind, gets. rewrite Hpg. simpl.
    rewrite page_of_page, lookup_insert_eq by done. simpl. rewrite Hal. simpl.
    unfold set_mem, modify. simpl. rewrite insert_insert_eq. done.
  - split; simpl; [by eauto | by constructor | by constructor].
  - unfold kalloc, bind, gets. simpl. rewrite (proj2 (Z.eqb_neq v 0)) by lia. simpl.
    unfold load. simpl. by rewrite Hrd.
  - by split.
  - intros ->. simpl in Hch. unfold kalloc, bind, gets. simpl. by rewrite Hch.
Qed.

(** An allocator with two free pages. *)
Definition demo_kmem : kmem :=
  mkKmem (<[2152726528 := mkPage 1 (<[0 := 0]> ∅)]>
          (<[2152730624 := mkPage 1 (<[0 := 2152726528]> ∅)]> (<[2152734720 := mkPage 0 ∅]> ∅)))
         2152730624 2152726528.

Lemma demo_free_list : free_list demo_kmem [2152730624; 2152726528].
Proof.
  split.
  - simpl. split; [done|]. eexists. split; [by vm_compute|]. split; [done|]. eexists.
    split; [by vm_compute|done].
  - repeat constructor; unfold V2P, u32, PHYSTOP, KERNBASE; simpl; try done; lia.
  - apply (bool_decide_unpack _). by vm_compute.
Qed.

Lemma kfree_kalloc_witness :
  exists k1 k2, kfree 2152734720 demo_kmem = Ok tt k1 /\ kalloc k1 = Ok 2152734720 k2
    /\ free_list k2 [2152730624; 2152726528].
Proof.
  destruct (kfree_kalloc demo_kmem [2152730624; 2152726528] 2152734720 demo_free_list)
    as (k1 & k2 & H1 & _ & H2 & H3 & _).
  - repeat split; vm_compute; done.
  - apply (bool_decide_unpack _). by vm_compute.
  - eexists. by vm_compute.
  - exists k1, k2. split; [exact H1 | split; [exact H2 | exact H3]].
Defined.
