(* ===== verification/Vm.v ===== *)
(** * vm.c: page tables

    Two-level x86 page tables held in kernel memory.  The functions work on the
    words of page directories and page tables, as the code does; [translate] is
    what the paging hardware makes of them. *)

From S2P Require Import Prelude KMonad Kalloc.

Definition PDX (va : Z) : Z := Z.land (Z.shiftr (u32 va) 22) 1023.
Definition PTX (va : Z) : Z := Z.land (Z.shiftr (u32 va) 12) 1023.
Definition PGADDR (d t o : Z) : Z := u32 (Z.lor (Z.lor (Z.shiftl d 22) (Z.shiftl t 12)) o).
Definition NPDENTRIES : Z := 1024.
Definition PTE_P : Z := 1.
Definition PTE_W : Z := 2.
Definition PTE_U : Z := 4.
Definition PTE_ADDR (pte : Z) : Z := Z.land (u32 pte) (u32 (Z.lnot 4095)).
Definition PTE_FLAGS (pte : Z) : Z := Z.land (u32 pte) 4095.

Definition present (pte : Z) : bool := negb (Z.land pte PTE_P =? 0).

(** What the paging hardware does with [va]. *)
Definition entry (m : gmap Z page) (pgdir va : Z) : option Z :=
  v ← rd32 m (pgdir + 4 * PDX va);
  if present v then
    (w ← rd32 m (P2V (PTE_ADDR v) + 4 * PTX va); if present w then Some w else None)
  else None.

Definition walkpgdir (pgdir va : Z) (alloc : bool) : K (option Z) :=
  let pde := pgdir + 4 * PDX va in
  v <- load pde ;;
  if present v then ret (Some (P2V (PTE_ADDR v) + 4 * PTX va))
  else if negb alloc then ret None
  else
    pgtab <- kalloc ;;
    if pgtab =? 0 then ret None
    else
      memset_page pgtab 0 ;;;
      store pde (Z.lor (Z.lor (Z.lor (V2P pgtab) PTE_P) PTE_W) PTE_U) ;;;
      ret (Some (pgtab + 4 * PTX va)).

(** The loop of [mappages] over [n] pages from [a]. *)
Fixpoint mappages_loop (n : nat) (pgdir a pa perm : Z) : K Z :=
  match n with
  | O => ret 0
  | S n' =>
      p <- walkpgdir pgdir a true ;;
      match p with
      | None => ret (-1)
      | Some pte =>
          v <- load pte ;;
          if present v then panic "remap"
          else
            store pte (Z.lor (Z.lor pa perm) PTE_P) ;;;
            mappages_loop n' pgdir (u32 (a + PGSIZE)) (u32 (pa + PGSIZE)) perm
      end
  end.

Definition mappages (pgdir va size pa perm : Z) : K Z :=
  let a := PGROUNDDOWN va in
  let last := PGROUNDDOWN (va + size - 1) in
  mappages_loop (Z.to_nat (u32 (last - a) / PGSIZE + 1)) pgdir a pa perm.

(** The loop of [deallocuvm]; [fuel] bounds the pages between [a] and [oldsz]. *)
Fixpoint deallocuvm_loop (fuel : nat) (pgdir a oldsz : Z) : K unit :=
  if a <? oldsz then
    match fuel with
    | O => halt fuel_stop
    | S fuel' =>
        p <- walkpgdir pgdir a false ;;
        match p with
        | None => deallocuvm_loop fuel' pgdir (u32 (PGADDR (PDX a + 1) 0 0 - PGSIZE + PGSIZE)) oldsz
        | Some pte =>
            v <- load pte ;;
            when (present v) (
              let pa := PTE_ADDR v in
              if pa =? 0 then panic "kfree"
              else kfree (P2V pa) ;;; store pte 0) ;;;
            deallocuvm_loop fuel' pgdir (u32 (a + PGSIZE)) oldsz
        end
    end
  else ret tt.

Definition deallocuvm (pgdir oldsz newsz : Z) : K Z :=
  if oldsz <=? newsz then ret oldsz
  else
    deallocuvm_loop (Z.to_nat (oldsz / PGSIZE + 1)) pgdir (PGROUNDUP newsz) oldsz ;;;
    ret newsz.

Definition freevm (pgdir : Z) : K unit :=
  if pgdir =? 0 then panic "freevm: no pgdir"
  else
    _ <- deallocuvm pgdir KERNBASE 0 ;;
    for_each (seqZ 0 NPDENTRIES) (fun i =>
      v <- load (pgdir + 4 * i) ;;
      when (present v) (kfree (P2V (PTE_ADDR v)))) ;;;
    kfree pgdir.

(** The loop of [allocuvm] over the pages [a, a + PGSIZE, ...]; [true] when all
    were mapped. *)
Fixpoint allocuvm_loop (n : nat) (pgdir a oldsz newsz : Z) : K bool :=
  match n with
  | O => ret true
  | S n' =>
      mem <- kalloc ;;
      if mem =? 0 then
        _ <- deallocuvm pgdir newsz oldsz ;; ret false
      else
        memset_page mem 0 ;;;
        r <- mappages pgdir a PGSIZE (V2P mem) (Z.lor PTE_W PTE_U) ;;
        if r <? 0 then
          _ <- deallocuvm pgdir newsz oldsz ;; kfree mem ;;; ret false
        else allocuvm_loop n' pgdir (u32 (a + PGSIZE)) oldsz newsz
  end.

(** Pages [a] with [PGROUNDUP(oldsz) <= a < newsz]. *)
Definition pages_between (a newsz : Z) : nat := Z.to_nat ((newsz - a + PGSIZE - 1) / PGSIZE).

Definition allocuvm (pgdir oldsz newsz : Z) : K Z :=
  if KERNBASE <=? newsz then ret 0
  else if newsz <? oldsz then ret oldsz
  else
    let a := PGROUNDUP oldsz in
    ok <- allocuvm_loop (pages_between a newsz) pgdir a oldsz newsz ;;
    if ok : bool then ret newsz else ret 0.

Definition clearpteu (pgdir uva : Z) : K unit :=
  p <- walkpgdir pgdir uva false ;;
  match p with
  | None => panic "clearpteu"
  | Some pte => v <- load pte ;; store pte (Z.land v (u32 (Z.lnot PTE_U)))
  end.

(** Bytes of a page. *)
Definition rd8 (m : gmap Z page) (a : Z) : option Z :=
  w ← rd32 m (a - a mod 4); Some (u8 (Z.shiftr w (8 * (a mod 4)))).
Definition wr8 (m : gmap Z page) (a c : Z) : option (gmap Z page) :=
  let sh := 8 * (a mod 4) in
  w ← rd32 m (a - a mod 4);
  wr32 m (a - a mod 4) (Z.lor (Z.land w (u32 (Z.lnot (Z.shiftl 255 sh)))) (Z.shiftl (u8 c) sh)).

Fixpoint wr_bytes (m : gmap Z page) (a : Z) (l : list Z) : option (gmap Z page) :=
  match l with
  | [] => Some m
  | c :: l' => m' ← wr8 m a c; wr_bytes m' (a + 1) l'
  end.

Definition store_bytes (a : Z) (l : list Z) : K unit :=
  m <- gets mem ;; m' <- from_opt (wr_bytes m a l) ;; modify (set_mem m').

(** [memmove(dst, src, PGSIZE)] of two pages. *)
Definition copy_page (dst src : Z) : K unit :=
  m <- gets mem ;;
  p <- from_opt (m !! src) ;;
  _ <- from_opt (m !! dst) ;;
  modify (set_mem (<[dst := p]> m)).

Definition inituvm (pgdir : Z) (init : list Z) : K unit :=
  if PGSIZE <=? zlen init then panic "inituvm: more than a page"
  else
    mem <- kalloc ;;
    memset_page mem 0 ;;;
    _ <- mappages pgdir 0 PGSIZE (V2P mem) (Z.lor PTE_W PTE_U) ;;
    store_bytes mem init.

(** [None] is the null result.  The source reads through the pointer of
    [walkpgdir] without a null test; a missing page table is a fault here. *)
Definition uva2ka (pgdir uva : Z) : K (option Z) :=
  p <- walkpgdir pgdir uva false ;;
  match p with
  | None => halt fault_stop
  | Some pte =>
      v <- load pte ;;
      if negb (present v) then ret None
      else if Z.land v PTE_U =? 0 then ret None
      else ret (Some (P2V (PTE_ADDR v)))
  end.

(** Every round moves at least one byte, so [len] bounds the rounds. *)
Fixpoint copyout_loop (fuel : nat) (pgdir va : Z) (buf : list Z) : K Z :=
  match buf with
  | [] => ret 0
  | _ =>
      match fuel with
      | O => halt fuel_stop
      | S fuel' =>
          let va0 := PGROUNDDOWN va in
          pa0 <- uva2ka pgdir va0 ;;
          match pa0 with
          | None => ret (-1)
          | Some pa0 =>
              let n := Z.min (PGSIZE - (va - va0)) (zlen buf) in
              store_bytes (pa0 + (va - va0)) (take (Z.to_nat n) buf) ;;;
              copyout_loop fuel' pgdir (u32 (va0 + PGSIZE)) (drop (Z.to_nat n) buf)
          end
      end
  end.

Definition copyout (pgdir va : Z) (buf : list Z) : K Z := copyout_loop (length buf) pgdir va buf.

Section Kvm.
(** The linker symbol [data]: the end of the kernel's text and read-only data. *)
Context (data : Z).

Record kmap_entry := mkKmap { km_virt : Z; km_start : Z; km_end : Z; km_perm : Z }.

Definition kmap : list kmap_entry :=
  [mkKmap KERNBASE 0 EXTMEM PTE_W;
   mkKmap KERNLINK (V2P KERNLINK) (V2P data) 0;
   mkKmap data (V2P data) PHYSTOP PTE_W;
   mkKmap DEVSPACE DEVSPACE 0 PTE_W].

(** Returns the new directory, or 0. *)
Definition setupkvm : K Z :=
  pgdir <- kalloc ;;
  if pgdir =? 0 then ret 0
  else
    memset_page pgdir 0 ;;;
    if DEVSPACE <? P2V PHYSTOP then panic "PHYSTOP too high"
    else
      r <- for_until kmap (fun k =>
        r <- mappages pgdir (km_virt k) (u32 (km_end k - km_start k)) (km_start k) (km_perm k) ;;
        if r <? 0 then freevm pgdir ;;; ret (Some tt) else ret None) ;;
      match r with Some _ => ret 0 | None => ret pgdir end.

(** The loop of [copyuvm]; [false] is the jump to [bad]. *)
Fixpoint copyuvm_loop (n : nat) (pgdir d i : Z) : K bool :=
  match n with
  | O => ret true
  | S n' =>
      p <- walkpgdir pgdir i false ;;
      match p with
      | None => panic "copyuvm: pte should exist"
      | Some pte =>
          v <- load pte ;;
          if negb (present v) then panic "copyuvm: page not present"
          else
            let pa := PTE_ADDR v in
            let flags := PTE_FLAGS v in
            mem <- kalloc ;;
            if mem =? 0 then ret false
            else
              copy_page mem (P2V pa) ;;;
              r <- mappages d i PGSIZE (V2P mem) flags ;;
              if r <? 0 then kfree mem ;;; ret false
              else copyuvm_loop n' pgdir d (u32 (i + PGSIZE))
      end
  end.

Definition copyuvm (pgdir sz : Z) : K Z :=
  d <- setupkvm ;;
  if d =? 0 then ret 0
  else
    ok <- copyuvm_loop (pages_between 0 sz) pgdir d 0 ;;
    if ok : bool then ret d else freevm d ;;; ret 0.
End Kvm.
