(* ===== verification/VmSpec.v ===== *)
(** * What the page tables mean

    [entry m pgdir va] is the page-table entry the hardware finds for virtual
    address [va], if present.  [mappages] adds exactly the mapping asked for,
    and [allocuvm] maps fresh zeroed pages exactly at the new part of the
    address space, leaving every other mapping as it was. *)

From S2P Require Import Prelude KMonad Kalloc Vm.

(** ** Words *)

Lemma rd32_wr32_same m m' a v : wr32 m a v = Some m' -> rd32 m' a = Some v.
Proof.
  unfold wr32, rd32. destruct (m !! page_of a) as [p|]; simpl; [|done]. intros [= <-].
  rewrite lookup_insert_eq. simpl. unfold page_word. simpl. by rewrite lookup_insert_eq.
Qed.

Lemma rd32_wr32_other m m' a a' v :
  wr32 m a v = Some m' -> a mod 4 = 0 -> a' mod 4 = 0 -> a ≠ a' -> rd32 m' a' = rd32 m a'.
Proof.
  unfold wr32, rd32. destruct (m !! page_of a) as [p|] eqn:E; simpl; [|done]. intros [= <-] Ha Ha' Hne.
  destruct (decide (page_of a' = page_of a)) as [Hp|Hp].
  - rewrite Hp, lookup_insert_eq, E. simpl. unfold page_word. simpl.
    rewrite lookup_insert_ne; [done|]. unfold page_of, PGSIZE in *. mlia.
  - by rewrite lookup_insert_ne.
Qed.

Lemma wr32_page m m' a v p :
  wr32 m a v = Some m' -> p ≠ page_of a -> m' !! p = m !! p.
Proof.
  unfold wr32. destruct (m !! page_of a); simpl; [|done]. intros [= <-] Hp. by rewrite lookup_insert_ne.
Qed.

Lemma wr32_is_Some m a v : is_Some (m !! page_of a) -> is_Some (wr32 m a v).
Proof. intros [p Hp]. unfold wr32. rewrite Hp. simpl. eauto. Qed.

Lemma wr32_dom m m' a v p : wr32 m a v = Some m' -> is_Some (m !! p) -> is_Some (m' !! p).
Proof.
  unfold wr32. destruct (m !! page_of a); simpl; [|done]. intros [= <-] Hp.
  destruct (decide (p = page_of a)) as [->|]; [rewrite lookup_insert_eq; eauto|].
  by rewrite lookup_insert_ne.
Qed.

Lemma rd32_is_Some m a : is_Some (m !! page_of a) -> is_Some (rd32 m a).
Proof. intros [p Hp]. unfold rd32. rewrite Hp. simpl. eauto. Qed.

Lemma page_of_word p i : p mod PGSIZE = 0 -> 0 <= i < 1024 -> page_of (p + 4 * i) = p.
Proof. unfold page_of, PGSIZE. intros. mlia. Qed.

(** ** Entries *)

Lemma PDX_div va : PDX va = u32 va / 4194304.
Proof.
  unfold PDX. rewrite Z.shiftr_div_pow2 by lia. change 1023 with (Z.ones 10).
  rewrite Z.land_ones by lia. apply Z.mod_small. pose proof (u32_range va). unfold is_u32 in *.
  change (2 ^ 22) with 4194304. change (2 ^ 10) with 1024. mlia.
Qed.

Lemma PTX_div va : PTX va = (u32 va / 4096) mod 1024.
Proof.
  unfold PTX. rewrite Z.shiftr_div_pow2 by lia. change 1023 with (Z.ones 10).
  by rewrite Z.land_ones by lia.
Qed.

Lemma land_page x : Z.land (u32 x) (u32 (Z.lnot 4095)) = u32 x - u32 x mod 4096.
Proof.
  pose proof (u32_range x) as Hx. unfold is_u32 in Hx.
  replace (u32 (Z.lnot 4095)) with (Z.ldiff (Z.ones 32) (Z.ones 12)) by done.
  rewrite Z.ldiff_land, Z.land_assoc, (Z.land_ones _ 32) by lia.
  rewrite (Z.mod_small (u32 x)) by (change (2 ^ 32) with 4294967296; lia).
  rewrite <- Z.ldiff_land, Z.ldiff_ones_r by lia.
  rewrite Z.shiftl_mul_pow2, Z.shiftr_div_pow2 by lia. change (2 ^ 12) with 4096. mlia.
Qed.

Lemma PTE_ADDR_eq x : PTE_ADDR x = u32 x - u32 x mod 4096.
Proof. apply land_page. Qed.

Lemma PGROUNDDOWN_eq x : PGROUNDDOWN x = u32 x - u32 x mod 4096.
Proof. apply land_page. Qed.

(** A page address or-ed with flags below PGSIZE. *)
Lemma lor_flags pa f : 0 <= pa -> pa mod 4096 = 0 -> 0 <= f < 4096 -> Z.lor pa f = pa + f.
Proof.
  intros H0 Hp Hf. replace pa with (pa / 4096 * 2 ^ 12) by (change (2 ^ 12) with 4096; mlia).
  apply lor_low; [lia|done].
Qed.

Lemma present_flags pa f : pa mod 4096 = 0 -> present (pa + f) = present f.
Proof.
  intros Hp. unfold present, PTE_P. f_equal. f_equal. change 1 with (Z.ones 1).
  rewrite !Z.land_ones by lia. change (2 ^ 1) with 2. mlia.
Qed.

(** The page table behind directory entry [i]. *)
Definition table_at (m : gmap Z page) (pgdir i t : Z) : Prop :=
  0 <= i < 1024
  /\ (exists v, rd32 m (pgdir + 4 * i) = Some v /\ present v = true /\ t = P2V (PTE_ADDR v)).

Record vm_ok (k : kmem) (pgdir : Z) (l : list Z) : Prop := {
  vo_free : free_list k l;
  vo_mem : Forall (fun p => is_Some (mem k !! p)) l;
  vo_dir : good_page (kend k) pgdir /\ is_Some (mem k !! pgdir) /\ pgdir ∉ l;
  vo_tab : forall i t, table_at (mem k) pgdir i t ->
             good_page (kend k) t /\ is_Some (mem k !! t) /\ ~ (t ∈ l) /\ t ≠ pgdir;
  vo_inj : forall i j t, table_at (mem k) pgdir i t -> table_at (mem k) pgdir j t -> i = j }.

Lemma PDX_range va : 0 <= PDX va < 1024.
Proof. rewrite PDX_div. pose proof (u32_range va). unfold is_u32 in *. mlia. Qed.

Lemma PTX_range va : 0 <= PTX va < 1024.
Proof. rewrite PTX_div. mlia. Qed.

(** Two addresses with the same indices are on the same page. *)
Lemma same_page va va' :
  PDX va = PDX va' -> PTX va = PTX va' -> PGROUNDDOWN va = PGROUNDDOWN va'.
Proof.
  rewrite !PDX_div, !PTX_div, !PGROUNDDOWN_eq. pose proof (u32_range va). pose proof (u32_range va').
  unfold is_u32 in *. mlia.
Qed.

Section Store.
Context (k : kmem) (pgdir : Z) (l : list Z).
Hypothesis Hok : vm_ok k pgdir l.

(** A page of the tables is not on the free list, so a store to it keeps the
    free list. *)
Lemma store_free_list p v m' :
  wr32 (mem k) p v = Some m' -> page_of p ∉ l -> free_list (set_mem m' k) l.
Proof.
  intros Hw Hp. destruct Hok as [[Hc Hg Hnd] _ _ _ _]. split; simpl; try done.
  unfold wr32 in Hw. destruct (mem k !! page_of p); simpl in Hw; [|done]. injection Hw as <-.
  apply chain_insert; [by eapply good_aligned | done | done].
Qed.

Lemma store_pte va t v m' :
  table_at (mem k) pgdir (PDX va) t -> wr32 (mem k) (t + 4 * PTX va) v = Some m' ->
  vm_ok (set_mem m' k) pgdir l
  /\ entry m' pgdir va = (if present v then Some v else None)
  /\ (forall va', PGROUNDDOWN va' ≠ PGROUNDDOWN va -> entry m' pgdir va' = entry (mem k) pgdir va')
  /\ (forall p, p ≠ t -> m' !! p = mem k !! p).
Proof.
  intros Ht Hw. pose proof Hok as [Hfl Hfm (Hdg & Hdm & Hdl) Htab Hinj].
  destruct (Htab _ _ Ht) as (Htg & Htm & Htl & Htd).
  pose proof Htg as [Hal _]. pose proof Hdg as [Hdal _].
  pose proof (PTX_range va) as Hx. pose proof (page_of_word t (PTX va) Hal Hx) as Hpg.
  assert (Hdir : forall i, 0 <= i < 1024 -> rd32 m' (pgdir + 4 * i) = rd32 (mem k) (pgdir + 4 * i)).
  { intros i Hi. unfold rd32. rewrite page_of_word by done.
    rewrite (wr32_page _ _ _ _ pgdir Hw) by (rewrite Hpg; congruence). done. }
  assert (Htab' : forall i u, table_at m' pgdir i u <-> table_at (mem k) pgdir i u).
  { intros i u. unfold table_at. split; intros [Hi (w & Hr & ?)]; (split; [done|]); exists w;
      [rewrite Hdir in Hr by done | rewrite Hdir by done]; done. }
  split; [split|split_and!]; simpl.
  - eapply store_free_list; [done|]. by rewrite Hpg.
  - eapply Forall_impl; [exact Hfm|]. intros p. by apply (wr32_dom _ _ _ _ _ Hw).
  - split_and!; [done | by eapply wr32_dom | done].
  - intros i u Hu%Htab'. destruct (Htab _ _ Hu) as (? & ? & ? & ?). split_and!; try done.
    by eapply wr32_dom.
  - intros i j u Hi%Htab' Hj%Htab'. eauto.
  - destruct Ht as [_ (w & Hr & Hp & ->)]. unfold entry. rewrite Hdir by apply PDX_range.
    rewrite Hr. simpl. rewrite Hp, (rd32_wr32_same _ _ _ _ Hw). done.
  - intros va' Hne. unfold entry. rewrite Hdir by apply PDX_range.
    destruct (rd32 (mem k) (pgdir + 4 * PDX va')) as [w'|] eqn:E; simpl; [|done].
    destruct (present w') eqn:Hp'; [|done].
    assert (Ht' : table_at (mem k) pgdir (PDX va') (P2V (PTE_ADDR w')))
      by (split; [apply PDX_range|]; eauto).
    destruct (Htab _ _ Ht') as ([Hal' _] & _).
    rewrite (rd32_wr32_other _ _ _ _ _ Hw); [done| | |].
    + unfold PGSIZE in *. mlia.
    + unfold PGSIZE in *. mlia.
    + intros Heq. apply Hne. symmetry. pose proof (PTX_range va').
      assert (t = P2V (PTE_ADDR w') /\ PTX va = PTX va') as [Htt Hpt]
        by (unfold PGSIZE in *; mlia).
      apply same_page; [|done]. rewrite <- Htt in Ht'. by eapply Hinj.
  - intros p Hp. apply (wr32_page _ _ _ _ _ Hw). congruence.
Qed.
End Store.

Lemma wp_load a v (Q : Z -> kmem -> Prop) k : rd32 (mem k) a = Some v -> Q v k -> wp (load a) Q k.
Proof. intros H HQ. unfold wp, load. by rewrite H. Qed.

Lemma wp_store a v m' (Q : unit -> kmem -> Prop) k :
  wr32 (mem k) a v = Some m' -> Q tt (set_mem m' k) -> wp (store a v) Q k.
Proof. intros H HQ. unfold store. wp_steps. rewrite H. by wp_steps. Qed.

Lemma wp_memset_page v c (Q : unit -> kmem -> Prop) k :
  is_Some (mem k !! v) -> Q tt (set_mem (<[v := mkPage (u8 c) ∅]> (mem k)) k) ->
  wp (memset_page v c) Q k.
Proof. intros [p Hp] HQ. unfold memset_page, fill_page. wp_steps. rewrite Hp. by wp_steps. Qed.

Lemma wp_kalloc k p l (Q : Z -> kmem -> Prop) :
  free_list k (p :: l) ->
  (forall n, free_list (mkKmem (mem k) n (kend k)) l -> Q p (mkKmem (mem k) n (kend k))) ->
  wp kalloc Q k.
Proof.
  intros [[Hr (n & Hn & Hch)] Hg Hnd] HQ. apply Forall_cons in Hg as [(_ & _ & Hp & _) Hg].
  apply NoDup_cons in Hnd as [_ Hnd]. unfold kalloc. wp_steps. rewrite Hr.
  rewrite (proj2 (Z.eqb_neq p 0)) by lia. simpl. wp_steps.
  eapply wp_load; [done|]. wp_steps. apply HQ. by split.
Qed.

(** The directory entry [walkpgdir] makes for a new table. *)
Definition new_pde (t : Z) : Z := Z.lor (Z.lor (Z.lor (V2P t) PTE_P) PTE_W) PTE_U.

Lemma new_pde_spec kend_ t :
  good_page kend_ t -> present (new_pde t) = true /\ P2V (PTE_ADDR (new_pde t)) = t.
Proof.
  intros (Hal & _ & Hr & Hp). unfold new_pde, PTE_P, PTE_W, PTE_U.
  rewrite <- !Z.lor_assoc. change (Z.lor 1 (Z.lor 2 4)) with 7.
  assert (Hv : V2P t = t - KERNBASE /\ V2P t mod 4096 = 0 /\ 0 <= V2P t < 234881024)
    by (unfold V2P, u32, KERNBASE, PHYSTOP, PGSIZE in *; mlia).
  destruct Hv as (Hv & Hm & Hb). rewrite lor_flags by (done || lia).
  rewrite present_flags, PTE_ADDR_eq by done. split; [done|].
  unfold P2V, u32, KERNBASE in *. mlia.
Qed.

Section NewTable.
Context (k : kmem) (pgdir va t : Z) (l : list Z) (m2 : gmap Z page).
Hypothesis Hok : vm_ok k pgdir (t :: l).
Hypothesis Hnone : exists v, rd32 (mem k) (pgdir + 4 * PDX va) = Some v /\ present v = false.
Let m1 := <[t := mkPage (u8 0) ∅]> (mem k).
Hypothesis Hw : wr32 m1 (pgdir + 4 * PDX va) (new_pde t) = Some m2.

Lemma new_table_facts : good_page (kend k) t /\ ~ (t ∈ l) /\ t ≠ pgdir /\ pgdir mod PGSIZE = 0.
Proof.
  destruct Hok as [[_ Hg Hnd] _ (Hdg & _ & Hdl) _ _]. apply Forall_cons in Hg as [Hg _].
  apply NoDup_cons in Hnd as [Hnd _]. apply not_elem_of_cons in Hdl as [Hne _].
  split_and!; try done. apply Hdg.
Qed.

Lemma new_table_word p i :
  p mod PGSIZE = 0 -> 0 <= i < 1024 -> p ≠ t -> (p ≠ pgdir \/ i ≠ PDX va) ->
  rd32 m2 (p + 4 * i) = rd32 (mem k) (p + 4 * i).
Proof.
  intros Hp Hi Hpt Hne. destruct new_table_facts as (_ & _ & Htd & Hdal).
  rewrite (rd32_wr32_other _ _ _ _ _ Hw).
  - unfold rd32, m1. by rewrite page_of_word, lookup_insert_ne by done.
  - unfold PGSIZE in *. pose proof (PDX_range va). mlia.
  - unfold PGSIZE in *. mlia.
  - pose proof (PDX_range va). unfold PGSIZE in *. mlia.
Qed.

Lemma new_table_zero i : 0 <= i < 1024 -> rd32 m2 (t + 4 * i) = Some 0.
Proof.
  intros Hi. destruct new_table_facts as ([Hal _] & _ & Htd & Hdal).
  unfold rd32. rewrite page_of_word by done.
  rewrite (wr32_page _ _ _ _ t Hw) by (rewrite page_of_word; done || apply PDX_range).
  unfold m1. rewrite lookup_insert_eq. simpl. by unfold page_word.
Qed.

Lemma new_table_pde : rd32 m2 (pgdir + 4 * PDX va) = Some (new_pde t).
Proof. by eapply rd32_wr32_same. Qed.

Lemma new_table_at i u :
  table_at m2 pgdir i u <-> (i = PDX va /\ u = t) \/ (i ≠ PDX va /\ table_at (mem k) pgdir i u).
Proof.
  destruct new_table_facts as (Hg & _ & Htd & Hdal). destruct (new_pde_spec _ _ Hg) as [Hp Ht].
  unfold table_at. split.
  - intros [Hi (v & Hr & Hpv & ->)]. destruct (decide (i = PDX va)) as [->|Hne].
    + rewrite new_table_pde in Hr. injection Hr as <-. by left.
    + rewrite new_table_word in Hr by auto. right. split; [done|]. split; [done|]. eauto.
  - intros [[-> ->]|[Hne [Hi (v & Hr & Hpv & ->)]]].
    + split; [apply PDX_range|]. exists (new_pde t). rewrite new_table_pde. by rewrite Ht.
    + split; [done|]. exists v. by rewrite new_table_word by auto.
Qed.

Lemma new_table_ok n : free_list (mkKmem (mem k) n (kend k)) l ->
  vm_ok (mkKmem m2 n (kend k)) pgdir l.
Proof.
  intros [Hch Hgl Hndl]. destruct new_table_facts as (Hg & Htl & Htd & Hdal).
  destruct Hok as [_ Hfm (Hdg & Hdm & Hdl) Htab Hinj].
  apply Forall_cons in Hfm as [Htm Hfm]. apply not_elem_of_cons in Hdl as [_ Hdl].
  assert (Hdom : forall p, is_Some (mem k !! p) -> is_Some (m2 !! p)).
  { intros p Hp. eapply wr32_dom; [exact Hw|]. unfold m1.
    destruct (decide (p = t)) as [->|]; [rewrite lookup_insert_eq; eauto|]. by rewrite lookup_insert_ne. }
  split; simpl.
  - split; simpl; try done. unfold wr32 in Hw. unfold m1 in Hw.
    rewrite page_of_word in Hw by (done || apply PDX_range).
    destruct (_ !! pgdir); simpl in Hw; [|done]. injection Hw as <-.
    apply chain_insert; [by eapply good_aligned | done |].
    apply chain_insert; [by eapply good_aligned | done | done].
  - eapply Forall_impl; [exact Hfm|]. auto.
  - auto.
  - intros i u [[-> ->]|[Hne Hu]]%new_table_at; [by auto|].
    destruct (Htab _ _ Hu) as (? & ? & Hul & ?). apply not_elem_of_cons in Hul as [_ ?]. auto.
  - intros i j u [[-> Hu]|[Hi Hui]]%new_table_at [[-> Hu']|[Hj Huj]]%new_table_at; try done.
    + subst u. destruct (Htab _ _ Huj) as (_ & _ & Hul & _). set_solver.
    + subst u. destruct (Htab _ _ Hui) as (_ & _ & Hul & _). set_solver.
    + eauto.
Qed.

(** A new, empty table adds no mapping. *)
Lemma new_table_entry va' : entry m2 pgdir va' = entry (mem k) pgdir va'.
Proof.
  destruct new_table_facts as (Hg & _ & Htd & Hdal). destruct (new_pde_spec _ _ Hg) as [Hp Ht].
  unfold entry. destruct (decide (PDX va' = PDX va)) as [E|E].
  - rewrite E, new_table_pde. simpl. rewrite Hp, Ht, new_table_zero by apply PTX_range. simpl.
    destruct Hnone as (v & -> & Hv). simpl. by rewrite Hv.
  - rewrite new_table_word; [|done|apply PDX_range|done|by right].
    destruct (rd32 (mem k) (pgdir + 4 * PDX va')) as [v|] eqn:Er; simpl; [|done].
    destruct (present v) eqn:Hv; [|done].
    assert (Hta : table_at (mem k) pgdir (PDX va') (P2V (PTE_ADDR v)))
      by (split; [apply PDX_range|]; eauto).
    destruct (vo_tab _ _ _ Hok _ _ Hta) as ([Hal _] & _ & Hnl & Hnd).
    apply not_elem_of_cons in Hnl as [Hnt _].
    rewrite new_table_word; [done|done|apply PTX_range|done|by left].
Qed.
End NewTable.

(** ** The operations *)

(** What an operation may change: free pages it takes, and table pages. *)
Record vm_step (k k' : kmem) (pgdir : Z) (l l' : list Z) : Prop := {
  vs_ok : vm_ok k' pgdir l';
  vs_kend : kend k' = kend k;
  vs_taken : exists u, l = u ++ l';
  vs_tabs : forall i t, table_at (mem k') pgdir i t -> table_at (mem k) pgdir i t \/ t ∈ l;
  vs_pages : forall p, p ∉ l -> p ≠ pgdir -> (forall i, ~ table_at (mem k) pgdir i p) ->
               mem k' !! p = mem k !! p }.

Lemma walkpgdir_alloc k pgdir l va :
  vm_ok k pgdir l -> (l ≠ [] \/ exists t, table_at (mem k) pgdir (PDX va) t) ->
  wp (walkpgdir pgdir va true) (fun r k' => exists t l', r = Some (t + 4 * PTX va)
     /\ table_at (mem k') pgdir (PDX va) t /\ vm_step k k' pgdir l l'
     /\ (l' = l \/ l = t :: l')
     /\ forall va', entry (mem k') pgdir va' = entry (mem k) pgdir va') k.
Proof.
  intros Hok Hroom. pose proof Hok as [Hfl Hfm (Hdg & Hdm & Hdl) Htab _].
  pose proof Hdg as [Hdal _]. pose proof (PDX_range va) as Hx.
  destruct (rd32_is_Some (mem k) (pgdir + 4 * PDX va)) as [v Hv].
  { by rewrite page_of_word. }
  unfold walkpgdir. wp_steps. eapply wp_load; [done|].
  destruct (present v) eqn:Hp.
  - wp_steps. exists (P2V (PTE_ADDR v)), l.
    split_and!; [done | split; [done|eauto] | | by left | done].
    split; [done | done | by exists [] | by left | done].
  - destruct l as [|t l]; [destruct Hroom as [|(t & _ & w & Hw & Hpw & _)]; [done|congruence]|].
    cbn [negb]. wp_steps. eapply wp_kalloc; [done|]. intros n Hfl'.
    apply Forall_cons in Hfm as [Htm Hfm]. pose proof (fl_good _ _ Hfl) as Hg.
    apply Forall_cons in Hg as [Hg _]. pose proof Hg as (_ & _ & Ht0 & _).
    rewrite (proj2 (Z.eqb_neq t 0)) by lia. wp_steps. apply wp_memset_page; [done|]. wp_steps. simpl.
    assert (Hnt : t ≠ pgdir) by set_solver.
    destruct (wr32_is_Some (<[t := mkPage (u8 0) ∅]> (mem k)) (pgdir + 4 * PDX va) (new_pde t))
      as [m2 Hm2]. { by rewrite page_of_word, lookup_insert_ne. }
    eapply wp_store; [exact Hm2|]. wp_steps. exists t, l.
    split_and!; try done.
    + apply (new_table_at k pgdir va t l m2 Hok Hm2). by left.
    + split; simpl; [exact (new_table_ok k pgdir va t l m2 Hok (ex_intro _ v (conj Hv Hp)) Hm2 n Hfl') | done | by exists [t] | |].
      * intros i u [[-> ->]|[_ Hu]]%(new_table_at k pgdir va t l m2 Hok Hm2); [right; by left|by left].
      * intros p Hpl Hpd Hpt. apply not_elem_of_cons in Hpl as [Hpt' _].
        rewrite (wr32_page _ _ _ _ p Hm2) by (rewrite page_of_word; done).
        by rewrite lookup_insert_ne.
    + by right.
    + intros va'. apply (new_table_entry k pgdir va t l m2 Hok); eauto.
Qed.

Lemma vm_step_refl k pgdir l : vm_ok k pgdir l -> vm_step k k pgdir l l.
Proof. intros H. split; [done | done | by exists [] | by left | done]. Qed.

Lemma vm_step_trans k1 k2 k3 pgdir l1 l2 l3 :
  vm_step k1 k2 pgdir l1 l2 -> vm_step k2 k3 pgdir l2 l3 -> vm_step k1 k3 pgdir l1 l3.
Proof.
  intros [Hok1 Hk1 [u1 ->] Ht1 Hp1] [Hok2 Hk2 [u2 ->] Ht2 Hp2]. split; [done | congruence | | |].
  - exists (u1 ++ u2). by rewrite app_assoc.
  - intros i t [Ht|Ht]%Ht2; [by apply Ht1|]. right. apply elem_of_app. by right.
  - intros p Hpl Hpd Hpt. rewrite Hp2, Hp1; try done.
    + intros Hin. apply Hpl, elem_of_app. by right.
    + intros i [Ht|Ht]%Ht1; [by eapply Hpt | done].
Qed.

Lemma mappages_one pgdir va pa perm :
  0 <= va < 2 ^ 32 -> va mod PGSIZE = 0 ->
  mappages pgdir va PGSIZE pa perm = mappages_loop 1 pgdir va pa perm.
Proof.
  intros Hr Ha. change (2 ^ 32) with 4294967296 in Hr. unfold mappages, PGSIZE in *.
  assert (Hd : PGROUNDDOWN va = va) by (rewrite PGROUNDDOWN_eq; unfold u32; mlia).
  assert (Hl : PGROUNDDOWN (va + 4096 - 1) = va) by (rewrite PGROUNDDOWN_eq; unfold u32; mlia).
  by rewrite Hd, Hl, Z.sub_diag.
Qed.

Lemma mappages_wp k pgdir l va pa perm :
  vm_ok k pgdir l -> l ≠ [] -> 0 <= va < 2 ^ 32 -> va mod PGSIZE = 0 ->
  0 <= pa -> pa mod PGSIZE = 0 -> 0 <= perm < PGSIZE -> entry (mem k) pgdir va = None ->
  wp (mappages pgdir va PGSIZE pa perm) (fun r k' => r = 0 /\ exists l', vm_step k k' pgdir l l'
    /\ (l' = l \/ exists t, l = t :: l')
    /\ entry (mem k') pgdir va = Some (Z.lor (Z.lor pa perm) PTE_P)
    /\ forall va', PGROUNDDOWN va' ≠ va -> entry (mem k') pgdir va' = entry (mem k) pgdir va') k.
Proof.
  intros Hok Hl Hva Hal Hpa Hpal Hperm Hnone. rewrite mappages_one by done. cbn [mappages_loop].
  wp_step. eapply wp_mono; [apply (walkpgdir_alloc k pgdir l va Hok); by left|].
  cbn beta. intros r k1 (t & l' & -> & Ht & Hstep & Hll & Hent).
  pose proof (vs_ok _ _ _ _ _ Hstep) as Hok1.
  destruct (vo_tab _ _ _ Hok1 _ _ Ht) as ([Htal _] & Htm & _ & _).
  pose proof (page_of_word t (PTX va) Htal (PTX_range va)) as Hpg.
  destruct (rd32_is_Some (mem k1) (t + 4 * PTX va)) as [w Hw]; [by rewrite Hpg|].
  assert (Hnp : present w = false).
  { pose proof (Hent va) as He. rewrite Hnone in He. unfold entry in He.
    destruct Ht as [_ (v & Hv & Hp & ->)]. rewrite Hv in He. simpl in He. rewrite Hp, Hw in He.
    simpl in He. by destruct (present w). }
  wp_step. eapply wp_load; [done|]. rewrite Hnp. wp_step.
  destruct (wr32_is_Some (mem k1) (t + 4 * PTX va) (Z.lor (Z.lor pa perm) PTE_P)) as [m' Hm'];
    [by rewrite Hpg|]. eapply wp_store; [exact Hm'|].
  destruct (store_pte k1 pgdir l' Hok1 va t _ m' Ht Hm') as (Hok2 & He2 & Ho2 & Hp2).
  wp_step. split; [done|]. exists l'.
  assert (Hpf : present (Z.lor (Z.lor pa perm) PTE_P) = true).
  { unfold PGSIZE in *. rewrite <- Z.lor_assoc.
    unfold present. apply negb_true_iff, Z.eqb_neq. unfold PTE_P.
    rewrite Z.lor_assoc, Z.land_lor_distr_l. change (Z.land 1 1) with 1.
    intros E%Z.lor_eq_0_iff. destruct E. done. }
  assert (Hdn : PGROUNDDOWN va = va).
  { change (2 ^ 32) with 4294967296 in Hva. rewrite PGROUNDDOWN_eq. unfold u32, PGSIZE in *. mlia. }
  split_and!.
  - eapply vm_step_trans; [exact Hstep|]. split; simpl; [done | done | by exists [] | |].
    + intros i u Hu. left. destruct Hu as [Hi (v & Hv & Hp & ->)]. split; [done|]. exists v.
      split; [|done]. rewrite <- Hv. unfold rd32.
      destruct (vo_dir _ _ _ Hok1) as ([Hd _] & _ & _). rewrite page_of_word by done.
      rewrite Hp2; [done|]. destruct (vo_tab _ _ _ Hok1 _ _ Ht) as (_ & _ & _ & ?). done.
    + intros p Hpl Hpd Hpt. apply Hp2. intros ->. by eapply Hpt.
  - destruct Hll as [->| ->]; [by left | right; eauto].
  - simpl. by rewrite He2, Hpf.
  - intros va' Hne. simpl. rewrite Ho2 by (by rewrite Hdn). apply Hent.
Qed.

(** [mappages] of one page adds exactly that mapping.  On well-formed tables
    with no mapping at [va] and a free page in case a table is missing, it
    returns 0; afterwards the hardware finds [pa | perm | PTE_P] at [va], every
    other page of the address space is mapped as before, and the tables are
    well formed. *)
Theorem mappages_page k pgdir l va pa perm :
  vm_ok k pgdir l -> l ≠ [] -> 0 <= va < 2 ^ 32 -> va mod PGSIZE = 0 ->
  0 <= pa -> pa mod PGSIZE = 0 -> 0 <= perm < PGSIZE -> entry (mem k) pgdir va = None ->
  exists k' l', mappages pgdir va PGSIZE pa perm k = Ok 0 k' /\ vm_step k k' pgdir l l'
    /\ entry (mem k') pgdir va = Some (Z.lor (Z.lor pa perm) PTE_P)
    /\ forall va', PGROUNDDOWN va' ≠ va -> entry (mem k') pgdir va' = entry (mem k) pgdir va'.
Proof.
  intros H1 H2 H3 H4 H5 H6 H7 H8. pose proof (mappages_wp k pgdir l va pa perm H1 H2 H3 H4 H5 H6 H7 H8) as Hwp.
  apply wp_Ok in Hwp as (r & k' & Hrun & -> & l' & ? & _ & ? & ?). eauto 10.
Qed.

(** Taking a page off the free list and clearing it. *)
Section TakePage.
Context (k : kmem) (pgdir p n c : Z) (l : list Z).
Hypothesis Hok : vm_ok k pgdir (p :: l).
Hypothesis Hfl : free_list (mkKmem (mem k) n (kend k)) l.
Let k1 := mkKmem (<[p := mkPage (u8 c) ∅]> (mem k)) n (kend k).

Lemma take_page_facts :
  good_page (kend k) p /\ ~ (p ∈ l) /\ p ≠ pgdir /\ (forall i, ~ table_at (mem k) pgdir i p).
Proof.
  destruct Hok as [[_ Hg Hnd] _ (_ & _ & Hdl) Htab _]. apply Forall_cons in Hg as [Hg _].
  apply NoDup_cons in Hnd as [Hnd _]. apply not_elem_of_cons in Hdl as [Hne _].
  split_and!; try done. intros i Ht. destruct (Htab _ _ Ht) as (_ & _ & Hn & _). apply Hn. by left.
Qed.

Lemma take_page_word q i :
  q mod PGSIZE = 0 -> 0 <= i < 1024 -> q ≠ p -> rd32 (mem k1) (q + 4 * i) = rd32 (mem k) (q + 4 * i).
Proof.
  intros Hq Hi Hne. unfold rd32, k1. simpl. by rewrite page_of_word, lookup_insert_ne by done.
Qed.

Lemma take_page_table i t : table_at (mem k1) pgdir i t <-> table_at (mem k) pgdir i t.
Proof.
  destruct take_page_facts as (_ & _ & Hpd & _). pose proof (vo_dir _ _ _ Hok) as ([Hda _] & _ & _).
  unfold table_at. split; intros [Hi (v & Hv & ?)]; (split; [done|]); exists v.
  - by rewrite take_page_word in Hv.
  - by rewrite take_page_word.
Qed.

Lemma take_page_entry va : entry (mem k1) pgdir va = entry (mem k) pgdir va.
Proof.
  destruct take_page_facts as (_ & _ & Hpd & Hpt). pose proof (vo_dir _ _ _ Hok) as ([Hda _] & _ & _).
  unfold entry. rewrite take_page_word by (done || apply PDX_range).
  destruct (rd32 (mem k) (pgdir + 4 * PDX va)) as [v|] eqn:Hv; simpl; [|done].
  destruct (present v) eqn:Hp; [|done].
  assert (Ht : table_at (mem k) pgdir (PDX va) (P2V (PTE_ADDR v)))
    by (split; [apply PDX_range|]; eauto).
  destruct (vo_tab _ _ _ Hok _ _ Ht) as ([Hta _] & _). rewrite take_page_word; [done|done|apply PTX_range|].
  intros Heq. apply (Hpt (PDX va)). by rewrite <- Heq.
Qed.

Lemma take_page_step : vm_step k k1 pgdir (p :: l) l.
Proof.
  destruct take_page_facts as (Hg & Hpl & Hpd & Hpt).
  destruct Hok as [_ Hfm (Hdg & Hdm & Hdl) Htab Hinj]. apply Forall_cons in Hfm as [Hpm Hfm].
  apply not_elem_of_cons in Hdl as [_ Hdl].
  assert (Hdom : forall q, is_Some (mem k !! q) -> is_Some (mem k1 !! q)).
  { intros q Hq. unfold k1. simpl. destruct (decide (q = p)) as [->|];
      [rewrite lookup_insert_eq; eauto | by rewrite lookup_insert_ne]. }
  split; [split|done|by exists [p]| |].
  - destruct Hfl as [Hch Hgl Hnd]. split; simpl; try done.
    apply chain_insert; [by eapply good_aligned | done | done].
  - eapply Forall_impl; [exact Hfm|]. auto.
  - auto.
  - intros i t Ht%take_page_table. destruct (Htab _ _ Ht) as (? & ? & Hn & ?).
    split_and!; auto. intros Hin. apply Hn. by right.
  - intros i j t Hi%take_page_table Hj%take_page_table. eauto.
  - intros i t Ht%take_page_table. by left.
  - intros q Hq Hqd Hqt. apply not_elem_of_cons in Hq as [Hq _]. unfold k1. simpl.
    by rewrite lookup_insert_ne.
Qed.
End TakePage.

(** The entry of a fresh user page. *)
Definition user_pte (p : Z) : Z := Z.lor (Z.lor (V2P p) (Z.lor PTE_W PTE_U)) PTE_P.

Definition zero_page : page := mkPage 0 ∅.

(** What [allocuvm] has done after mapping the pages [ps] from address [a]. *)
Record grown (k k' : kmem) (pgdir a : Z) (l l' ps : list Z) : Prop := {
  gr_step : vm_step k k' pgdir l l';
  gr_nodup : NoDup ps;
  gr_page : forall p, p ∈ ps -> p ∈ l /\ ~ (p ∈ l') /\ mem k' !! p = Some zero_page
              /\ forall i, ~ table_at (mem k') pgdir i p;
  gr_entry : forall i p, ps !! i = Some p ->
               entry (mem k') pgdir (a + 4096 * Z.of_nat i) = Some (user_pte p);
  gr_other : forall va, ~ (a <= PGROUNDDOWN va < a + 4096 * Z.of_nat (length ps)) ->
               entry (mem k') pgdir va = entry (mem k) pgdir va }.

Lemma V2P_good kend_ p : good_page kend_ p -> 0 <= V2P p /\ V2P p mod PGSIZE = 0.
Proof. intros (Hal & _ & Hr & Hp). unfold V2P, u32, KERNBASE, PHYSTOP, PGSIZE in *. mlia. Qed.

Lemma PGROUNDDOWN_id a : 0 <= a < 2 ^ 32 -> a mod PGSIZE = 0 -> PGROUNDDOWN a = a.
Proof.
  intros Hr Ha. change (2 ^ 32) with 4294967296 in Hr. rewrite PGROUNDDOWN_eq.
  unfold u32, PGSIZE in *. mlia.
Qed.

Section AllocLoop.
Context (pgdir oldsz newsz : Z).

(** One page more: the state after the page [p] was taken and mapped at [a]. *)
Lemma grown_cons k k1 k2 k' a l l1 l' p ps :
  vm_step k k1 pgdir l l1 -> NoDup l -> p ∈ l -> p ∉ l1 -> p ≠ pgdir ->
  mem k1 !! p = Some zero_page -> (forall i, ~ table_at (mem k1) pgdir i p) ->
  k2 = k1 -> 0 <= a -> a mod PGSIZE = 0 -> a + 4096 * Z.of_nat (S (length ps)) < 2 ^ 32 ->
  entry (mem k1) pgdir a = Some (user_pte p) ->
  (forall va, PGROUNDDOWN va ≠ a -> entry (mem k1) pgdir va = entry (mem k) pgdir va) ->
  grown k2 k' pgdir (a + 4096) l1 l' ps ->
  grown k k' pgdir a l l' (p :: ps).
Proof.
  intros Hs Hnd Hpl Hpl1 Hpd Hz Hpt -> Ha Hal Hmax He Ho [Hs' Hnd' Hpg Hen Hot].
  assert (Hdn : PGROUNDDOWN a = a) by (apply PGROUNDDOWN_id; [lia|done]).
  destruct (vs_taken _ _ _ _ _ Hs) as [u Hu]. destruct (vs_taken _ _ _ _ _ Hs') as [u' Hu'].
  assert (Hsub : forall q, q ∈ l1 -> q ∈ l) by (intros q Hq; rewrite Hu; apply elem_of_app; by right).
  assert (Hpk : mem k' !! p = mem k1 !! p).
  { apply (vs_pages _ _ _ _ _ Hs'); try done. }
  split.
  - by eapply vm_step_trans.
  - apply NoDup_cons. split; [|done]. intros Hin. by destruct (Hpg _ Hin).
  - intros q [->|Hq]%elem_of_cons.
    + split_and!; [done | | by rewrite Hpk |].
      * intros Hq. apply Hpl1. rewrite Hu'. apply elem_of_app. by right.
      * intros i [Ht|Ht]%(vs_tabs _ _ _ _ _ Hs'); [by eapply Hpt | done].
    + destruct (Hpg q Hq) as (? & ? & ? & ?). split_and!; auto.
  - intros [|i] q Hq; simpl in Hq.
    + injection Hq as ->. rewrite Z.mul_0_r, Z.add_0_r, Hot; [done|]. rewrite Hdn. lia.
    + replace (a + 4096 * Z.of_nat (S i)) with (a + 4096 + 4096 * Z.of_nat i) by lia. by apply Hen.
  - intros va Hva. cbn [length] in Hva. rewrite Hot by lia. apply Ho. intros E. rewrite E in Hva. lia.
Qed.

Lemma allocuvm_loop_spec n k l a :
  vm_ok k pgdir l -> (2 * n <= length l)%nat -> 0 <= a -> a mod PGSIZE = 0 ->
  a + 4096 * Z.of_nat n < 2 ^ 32 ->
  (forall i, (i < n)%nat -> entry (mem k) pgdir (a + 4096 * Z.of_nat i) = None) ->
  wp (allocuvm_loop n pgdir a oldsz newsz) (fun ok k' => ok = true /\ exists l' ps,
     length ps = n /\ grown k k' pgdir a l l' ps) k.
Proof.
  revert k l a. induction n as [|n IH]; intros k l a Hok Hlen Ha Hal Hmax Hnone; cbn [allocuvm_loop].
  { wp_steps. split; [done|]. exists l, []. split; [done|]. split.
    - by apply vm_step_refl.
    - apply NoDup_nil_2.
    - by intros p ?%elem_of_nil.
    - done.
    - done. }
  destruct l as [|p l]; simpl in Hlen; [lia|].
  pose proof (vo_free _ _ _ Hok) as Hfl. wp_step. eapply wp_kalloc; [exact Hfl|]. intros m Hfl'.
  pose proof (take_page_facts k pgdir p l Hok) as (Hg & Hpl & Hpd & Hpt).
  pose proof Hg as (_ & _ & Hp0 & _). rewrite (proj2 (Z.eqb_neq p 0)) by lia.
  wp_step. apply wp_memset_page.
  { pose proof (vo_mem _ _ _ Hok) as Hm. by apply Forall_cons in Hm as [Hm _]. }
  pose proof (take_page_step k pgdir p m 0 l Hok Hfl') as Hst.
  pose proof (take_page_entry k pgdir p m 0 l Hok) as Hent0.
  pose proof (take_page_table k pgdir p m 0 l Hok) as Htab0.
  set (k1 := mkKmem (<[p := mkPage (u8 0) ∅]> (mem k)) m (kend k)) in *.
  pose proof (vs_ok _ _ _ _ _ Hst) as Hok1. destruct (V2P_good _ _ Hg) as [Hv0 Hva].
  wp_step. eapply wp_mono.
  { apply (mappages_wp k1 pgdir l a (V2P p) (Z.lor PTE_W PTE_U) Hok1); try done.
    - destruct l; simpl in Hlen; [lia|done].
    - lia.
    - rewrite Hent0. specialize (Hnone 0%nat ltac:(lia)). by rewrite Z.mul_0_r, Z.add_0_r in Hnone. }
  cbn beta. intros r k2 (-> & l2 & Hst2 & Hl2 & He2 & Ho2). simpl.
  assert (Hnt1 : forall i, ~ table_at (mem k1) pgdir i p)
    by (intros i Ht%Htab0; by eapply Hpt).
  assert (Hz2 : mem k2 !! p = Some zero_page).
  { rewrite (vs_pages _ _ _ _ _ Hst2 p Hpl Hpd Hnt1). unfold k1. simpl. by rewrite lookup_insert_eq. }
  assert (Hsub : forall q, q ∈ l2 -> q ∈ l).
  { destruct Hl2 as [->|[t ->]]; [done|]. intros q Hq. by right. }
  assert (Hnt2 : forall i, ~ table_at (mem k2) pgdir i p).
  { intros i [Ht|Ht]%(vs_tabs _ _ _ _ _ Hst2); [by eapply Hnt1 | done]. }
  replace (u32 (a + PGSIZE)) with (a + 4096)
    by (change (2 ^ 32) with 4294967296 in Hmax; unfold u32, PGSIZE in *; mlia).
  eapply wp_mono.
  { apply (IH k2 l2 (a + 4096)).
    - apply Hst2.
    - destruct Hl2 as [->|[t ->]]; simpl in Hlen; lia.
    - lia.
    - unfold PGSIZE in *. mlia.
    - lia.
    - intros i Hi. rewrite Ho2, Hent0.
      + replace (a + 4096 + 4096 * Z.of_nat i) with (a + 4096 * Z.of_nat (S i)) by lia.
        apply Hnone. lia.
      + rewrite PGROUNDDOWN_id; [lia | lia |]. unfold PGSIZE in *. mlia. }
  cbn beta. intros ok k' (-> & l' & ps & Hps & Hgr). split; [done|]. exists l', (p :: ps).
  split; [by simpl; rewrite Hps|].
  apply (grown_cons k k2 k2 k' a (p :: l) l2 l' p ps); try done.
  - by eapply vm_step_trans.
  - by apply (fl_nodup _ _ Hfl).
  - by left.
  - auto.
  - by rewrite Hps.
  - intros va Hne. rewrite Ho2 by done. apply Hent0.
Qed.
End AllocLoop.

(** C16: Growing a process maps exactly the new pages.  With well-formed tables,
    nothing mapped from PGROUNDUP(oldsz) up to newsz, and two free pages for
    every page to add (one for the page, one in case a page table is missing),
    [allocuvm] returns newsz; each new page is mapped, user and writable, to a
    page of its own that was free and now holds zeros and is not part of the
    page tables; every other page of the address space is mapped as before. *)
Theorem allocuvm_grows k pgdir l oldsz newsz :
  vm_ok k pgdir l -> 0 <= oldsz <= newsz -> newsz < KERNBASE ->
  (2 * pages_between (PGROUNDUP oldsz) newsz <= length l)%nat ->
  (forall va, PGROUNDUP oldsz <= va < newsz -> entry (mem k) pgdir va = None) ->
  exists k' l' ps, allocuvm pgdir oldsz newsz k = Ok newsz k'
    /\ length ps = pages_between (PGROUNDUP oldsz) newsz
    /\ grown k k' pgdir (PGROUNDUP oldsz) l l' ps.
Proof.
  intros Hok Hsz Hmax Hlen Hnone. set (a := PGROUNDUP oldsz) in *.
  assert (Ha : a = (oldsz + 4095) / 4096 * 4096).
  { unfold a, PGROUNDUP, PGSIZE. change (u32 (Z.lnot (4096 - 1))) with (u32 (Z.lnot 4095)).
    rewrite land_page. unfold u32, KERNBASE in *. mlia. }
  unfold KERNBASE in Hmax.
  assert (Hn : a + 4096 * Z.of_nat (pages_between a newsz) < 2 ^ 32).
  { unfold pages_between, PGSIZE. change (2 ^ 32) with 4294967296. mlia. }
  assert (Hwp : wp (allocuvm_loop (pages_between a newsz) pgdir a oldsz newsz) (fun ok k' =>
     ok = true /\ exists l' ps, length ps = pages_between a newsz /\ grown k k' pgdir a l l' ps) k).
  { apply allocuvm_loop_spec; try done.
    - rewrite Ha. mlia.
    - rewrite Ha. unfold PGSIZE. mlia.
    - intros i Hi. apply Hnone. unfold pages_between, PGSIZE in Hi. mlia. }
  apply wp_Ok in Hwp as (ok & k' & Hrun & -> & l' & ps & Hps & Hgr).
  exists k', l', ps. split; [|done]. unfold allocuvm.
  rewrite (proj2 (Z.leb_gt KERNBASE newsz)) by (unfold KERNBASE; lia).
  rewrite (proj2 (Z.ltb_ge newsz oldsz)) by lia. fold a. by rewrite (bind_Ok _ _ _ _ _ Hrun).
Qed.

(** A directory with no mapping and four free pages. *)
Definition demo_pages : list Z := [2152726528; 2152730624; 2152734720; 2152738816].
Definition demo_vm : kmem :=
  mkKmem (<[2152742912 := zero_page]>
    (<[2152726528 := mkPage 1 (<[0 := 2152730624]> ∅)]>
    (<[2152730624 := mkPage 1 (<[0 := 2152734720]> ∅)]>
    (<[2152734720 := mkPage 1 (<[0 := 2152738816]> ∅)]>
    (<[2152738816 := mkPage 1 (<[0 := 0]> ∅)]> ∅))))) 2152726528 2152726528.

Lemma demo_dir_zero i : 0 <= i < 1024 -> rd32 (mem demo_vm) (2152742912 + 4 * i) = Some 0.
Proof.
  intros Hi. unfold rd32. rewrite page_of_word by done. unfold demo_vm. simpl mem.
  by rewrite lookup_insert_eq.
Qed.

Lemma demo_vm_ok : vm_ok demo_vm 2152742912 demo_pages.
Proof.
  assert (Hnt : forall i t, ~ table_at (mem demo_vm) 2152742912 i t).
  { intros i t [Hi (v & Hv & Hp & _)]. rewrite demo_dir_zero in Hv by done. by injection Hv as <-. }
  split.
  - split.
    + repeat (split; [done|]; eexists; split; [by vm_compute|]). done.
    + repeat (apply Forall_cons; split; [repeat split; vm_compute; done|]). done.
    + apply (bool_decide_unpack _). by vm_compute.
  - repeat (apply Forall_cons; split; [eexists; by vm_compute|]). done.
  - split_and!; [repeat split; vm_compute; done | eexists; by vm_compute |].
    apply (bool_decide_unpack _). by vm_compute.
  - intros i t Ht. by apply Hnt in Ht.
  - intros i j t Ht. by apply Hnt in Ht.
Qed.

Lemma demo_entry va : entry (mem demo_vm) 2152742912 va = None.
Proof. unfold entry. rewrite demo_dir_zero by apply PDX_range. done. Qed.

Lemma allocuvm_grows_witness :
  exists k' l' ps, allocuvm 2152742912 0 5000 demo_vm = Ok 5000 k' /\ length ps = 2%nat
    /\ grown demo_vm k' 2152742912 0 demo_pages l' ps.
Proof.
  apply (allocuvm_grows demo_vm 2152742912 demo_pages 0 5000 demo_vm_ok).
  - lia.
  - unfold KERNBASE. lia.
  - vm_compute. lia.
  - intros va _. apply demo_entry.
Defined.

Lemma mappages_page_witness :
  exists k' l', mappages 2152742912 4096 PGSIZE 8192 6 demo_vm = Ok 0 k'
    /\ vm_step demo_vm k' 2152742912 demo_pages l'
    /\ entry (mem k') 2152742912 4096 = Some 8199.
Proof.
  destruct (mappages_page demo_vm 2152742912 demo_pages 4096 8192 6 demo_vm_ok)
    as (k' & l' & H1 & H2 & H3 & _);
    [done | lia | reflexivity | lia | reflexivity | unfold PGSIZE; lia | apply demo_entry |].
  exists k', l'. split; [exact H1 | split; [exact H2 | exact H3]].
Defined.
