(* ===== verification/Proc.v ===== *)
(** * proc.c: the process table

    The table part of proc.c: each function as it reads and writes
    [ptable.proc[]] under [ptable.lock].  A [struct proc*] is an index.  The
    functions that also touch memory, files and inodes ([fork], [exit], [wait],
    ...) are completed in Kern.v from these parts.  [pstep] interleaves the
    critical sections of all the processes, and what they write to the table outside
    them: the statements of [fork], one by one, and a process's own entry. *)

From S2P Require Import Prelude KMonad Params.

Inductive procstate := UNUSED | EMBRYO | SLEEPING | RUNNABLE | RUNNING | ZOMBIE.

#[export] Instance procstate_eq_dec : EqDecision procstate.
Proof. solve_decision. Defined.

(** Sleep channels: the address of a process, of [ticks], of a field of a pipe,
    of a lock, ... *)
Inductive chan := ChProc (i : nat) | ChAddr (a : Z).

#[export] Instance chan_eq_dec : EqDecision chan.
Proof. solve_decision. Defined.

(** The registers of the trap frame that the kernel reads or writes. *)
Record trapframe := mkTf { tf_eax : Z; tf_eip : Z; tf_esp : Z }.

Record proc := mkProc {
  p_sz : Z; p_pgdir : Z; p_kstack : Z; p_state : procstate; p_pid : Z; p_parent : option nat;
  p_tf : trapframe; p_chan : option chan; p_killed : bool;
  p_ofile : list (option nat); p_cwd : option nat; p_name : list Z; p_uid : Z
}.

Definition set_state (st : procstate) (p : proc) : proc :=
  mkProc (p_sz p) (p_pgdir p) (p_kstack p) st (p_pid p) (p_parent p) (p_tf p) (p_chan p)
    (p_killed p) (p_ofile p) (p_cwd p) (p_name p) (p_uid p).
Definition set_pid (n : Z) (p : proc) : proc :=
  mkProc (p_sz p) (p_pgdir p) (p_kstack p) (p_state p) n (p_parent p) (p_tf p) (p_chan p)
    (p_killed p) (p_ofile p) (p_cwd p) (p_name p) (p_uid p).
Definition set_parent (q : option nat) (p : proc) : proc :=
  mkProc (p_sz p) (p_pgdir p) (p_kstack p) (p_state p) (p_pid p) q (p_tf p) (p_chan p)
    (p_killed p) (p_ofile p) (p_cwd p) (p_name p) (p_uid p).
Definition set_chan (c : option chan) (p : proc) : proc :=
  mkProc (p_sz p) (p_pgdir p) (p_kstack p) (p_state p) (p_pid p) (p_parent p) (p_tf p) c
    (p_killed p) (p_ofile p) (p_cwd p) (p_name p) (p_uid p).
Definition set_killed (b : bool) (p : proc) : proc :=
  mkProc (p_sz p) (p_pgdir p) (p_kstack p) (p_state p) (p_pid p) (p_parent p) (p_tf p) (p_chan p)
    b (p_ofile p) (p_cwd p) (p_name p) (p_uid p).
Definition set_kstack (a : Z) (p : proc) : proc :=
  mkProc (p_sz p) (p_pgdir p) a (p_state p) (p_pid p) (p_parent p) (p_tf p) (p_chan p)
    (p_killed p) (p_ofile p) (p_cwd p) (p_name p) (p_uid p).
Definition set_vm (sz pgdir : Z) (p : proc) : proc :=
  mkProc sz pgdir (p_kstack p) (p_state p) (p_pid p) (p_parent p) (p_tf p) (p_chan p)
    (p_killed p) (p_ofile p) (p_cwd p) (p_name p) (p_uid p).
Definition set_tf (t : trapframe) (p : proc) : proc :=
  mkProc (p_sz p) (p_pgdir p) (p_kstack p) (p_state p) (p_pid p) (p_parent p) t (p_chan p)
    (p_killed p) (p_ofile p) (p_cwd p) (p_name p) (p_uid p).
Definition set_ofile (o : list (option nat)) (p : proc) : proc :=
  mkProc (p_sz p) (p_pgdir p) (p_kstack p) (p_state p) (p_pid p) (p_parent p) (p_tf p) (p_chan p)
    (p_killed p) o (p_cwd p) (p_name p) (p_uid p).
Definition set_cwd (c : option nat) (p : proc) : proc :=
  mkProc (p_sz p) (p_pgdir p) (p_kstack p) (p_state p) (p_pid p) (p_parent p) (p_tf p) (p_chan p)
    (p_killed p) (p_ofile p) c (p_name p) (p_uid p).
Definition set_name (n : list Z) (p : proc) : proc :=
  mkProc (p_sz p) (p_pgdir p) (p_kstack p) (p_state p) (p_pid p) (p_parent p) (p_tf p) (p_chan p)
    (p_killed p) (p_ofile p) (p_cwd p) n (p_uid p).
Definition set_uid (u : Z) (p : proc) : proc :=
  mkProc (p_sz p) (p_pgdir p) (p_kstack p) (p_state p) (p_pid p) (p_parent p) (p_tf p) (p_chan p)
    (p_killed p) (p_ofile p) (p_cwd p) (p_name p) u.

Record ptab := mkPtab { procs : list proc; nextpid : Z; initproc : nat }.

Definition P := M ptab.

Definition get_proc (i : nat) : P proc := fun s => from_opt (procs s !! i) s.
Definition upd_proc (i : nat) (f : proc -> proc) : P unit :=
  p <- get_proc i ;;
  modify (fun s => mkPtab (<[i := f p]> (procs s)) (nextpid s) (initproc s)).
Definition map_procs (f : nat -> proc -> proc) : P unit :=
  modify (fun s => mkPtab (imap f (procs s)) (nextpid s) (initproc s)).

(** The first entry that satisfies a test. *)
Fixpoint find_proc (f : proc -> bool) (l : list proc) (i : nat) : option nat :=
  match l with
  | [] => None
  | p :: l' => if f p then Some i else find_proc f l' (S i)
  end.

Definition is_unused (p : proc) : bool := bool_decide (p_state p = UNUSED).

(** The part of [allocproc] under the lock: a slot becomes EMBRYO with a pid. *)
Definition alloc_slot : P (option nat) :=
  s <- gets id ;;
  match find_proc is_unused (procs s) 0 with
  | None => ret None
  | Some i =>
      upd_proc i (fun p => set_pid (nextpid s) (set_state EMBRYO p)) ;;;
      modify (fun s => mkPtab (procs s) (i32 (nextpid s + 1)) (initproc s)) ;;;
      ret (Some i)
  end.

Definition wakeup1 (c : chan) : P unit :=
  map_procs (fun _ p =>
    if bool_decide (p_state p = SLEEPING) && bool_decide (p_chan p = Some c)
    then set_state RUNNABLE p else p).

Definition wakeup (c : chan) : P unit := wakeup1 c.

Definition kill (pid : Z) : P Z :=
  s <- gets id ;;
  match find_proc (fun p => p_pid p =? pid) (procs s) 0 with
  | None => ret (-1)
  | Some i =>
      upd_proc i (fun p =>
        let p := set_killed true p in
        if bool_decide (p_state p = SLEEPING) then set_state RUNNABLE p else p) ;;;
      ret 0
  end.

(** The part of [exit] under the lock, up to [sched]. *)
Definition exit_table (cur : nat) : P unit :=
  p <- get_proc cur ;;
  (match p_parent p with Some q => wakeup1 (ChProc q) | None => ret tt end) ;;;
  init <- gets initproc ;;
  n <- gets (fun s => length (procs s)) ;;
  for_each (seq 0 n) (fun i =>
    x <- get_proc i ;;
    when (bool_decide (p_parent x = Some cur)) (
      upd_proc i (set_parent (Some init)) ;;;
      when (bool_decide (p_state x = ZOMBIE)) (wakeup1 (ChProc init)))) ;;;
  upd_proc cur (set_state ZOMBIE).

(** The scan of [wait]: a zombie child, and whether there are children before
    it (or at all). *)
Fixpoint wait_scan (cur : nat) (l : list proc) (i : nat) (havekids : bool) : option nat * bool :=
  match l with
  | [] => (None, havekids)
  | p :: l' =>
      if negb (bool_decide (p_parent p = Some cur)) then wait_scan cur l' (S i) havekids
      else if bool_decide (p_state p = ZOMBIE) then (Some i, true)
      else wait_scan cur l' (S i) true
  end.

(** What [wait] does to the entry of the child it found. *)
Definition reap (p : proc) : proc :=
  set_state UNUSED (set_killed false
    (set_name (match p_name p with [] => [] | _ :: n => 0 :: n end)
      (set_parent None (set_pid 0 (set_kstack 0 p))))).

(** [sleep] up to [sched], and what [scheduler] and [yield] do to a state. *)
Definition sleep_on (cur : nat) (c : chan) : P unit :=
  upd_proc cur (fun p => set_state SLEEPING (set_chan (Some c) p)).
Definition sched_in (i : nat) : P unit := upd_proc i (set_state RUNNING).
Definition yield (cur : nat) : P unit := upd_proc cur (set_state RUNNABLE).
(** After [sched] returns in [sleep]. *)
Definition sleep_tidy (cur : nat) : P unit := upd_proc cur (set_chan None).

Definition change_user (cur : nat) (uid : Z) : P unit := upd_proc cur (set_uid uid).

(** ** Interleaving of the processes *)

(** The statements of [fork] after [allocproc] has found a slot and released the
    lock, up to the one that makes the child ready: the kernel stack, the page
    table, the way back when memory runs out, and the copies of the parent's fields. *)
Inductive fstage :=
| FStack | FPgdir | FNoKstack | FFree
| FUid | FSz | FParent | FTf | FEax | FFile (fd : nat) | FCwd | FName
| FRunnable.

#[export] Instance fstage_eq_dec : EqDecision fstage.
Proof. solve_decision. Defined.

(** The child's entry after one of them; [v] is the result of [kalloc] or [copyuvm]. *)
Definition fork_stmt (cur : nat) (p : proc) (v : Z) (st : fstage) (e : proc) : proc :=
  match st with
  | FStack => set_kstack v e
  | FPgdir => set_vm (p_sz e) v e
  | FNoKstack => set_kstack 0 e
  | FFree => set_state UNUSED e
  | FUid => set_uid (p_uid p) e
  | FSz => set_vm (p_sz p) (p_pgdir e) e
  | FParent => set_parent (Some cur) e
  | FTf => set_tf (p_tf p) e
  | FEax => set_tf (mkTf 0 (tf_eip (p_tf e)) (tf_esp (p_tf e))) e
  | FFile fd => match p_ofile p !! fd with Some (Some f) => set_ofile (<[fd := Some f]> (p_ofile e)) e | _ => e end
  | FCwd => set_cwd (p_cwd p) e
  | FName => set_name (p_name p) e
  | FRunnable => set_state RUNNABLE e
  end.

(** The statement after it; none after a failure has been undone and after the last. *)
Definition fork_next (st : fstage) (v : Z) : option fstage :=
  match st with
  | FStack => Some (if v =? 0 then FFree else FPgdir)
  | FPgdir => Some (if v =? 0 then FNoKstack else FUid)
  | FNoKstack => Some FFree
  | FFree => None
  | FUid => Some FSz
  | FSz => Some FParent
  | FParent => Some FTf
  | FTf => Some FEax
  | FEax => Some (FFile 0)
  | FFile fd => Some (if Z.of_nat fd + 1 <? NOFILE then FFile (S fd) else FCwd)
  | FCwd => Some FName
  | FName => Some FRunnable
  | FRunnable => None
  end.

(** What a process writes into its own entry without the lock: [exec], [growproc],
    the file calls, [change_user], a trap that sets [tf] or [killed], and the start of
    [exit]. *)
Record own_fields := mkOwn {
  o_sz : Z; o_pgdir : Z; o_tf : trapframe; o_killed : bool; o_ofile : list (option nat);
  o_cwd : option nat; o_name : list Z; o_uid : Z }.
Definition write_own (o : own_fields) (p : proc) : proc :=
  mkProc (o_sz o) (o_pgdir o) (p_kstack p) (p_state p) (p_pid p) (p_parent p) (o_tf o) (p_chan p)
    (p_killed p || o_killed o) (o_ofile o) (o_cwd o) (o_name o) (o_uid o).

(** The table, and for every process the slot it is filling in [fork] and the next
    statement there. *)
Record pstate := mkPstate { pt : ptab; forks : list (option (nat * fstage)) }.

Definition is_running (s : pstate) (cur : nat) (p : proc) : Prop := procs (pt s) !! cur = Some p /\ p_state p = RUNNING.

(** One critical section of some process, or one of its statements outside them.
    The statements of [fork] are separate steps; of them only the last is made under
    the lock. *)
Inductive pstep : pstate -> pstate -> Prop :=
| step_alloc s tb cur p j :
    is_running s cur p -> forks s !! cur = Some None -> alloc_slot (pt s) = Ok (Some j) tb ->
    pstep s (mkPstate tb (<[cur := Some (j, FStack)]> (forks s)))
| step_fork s tb cur p j st v :
    is_running s cur p -> forks s !! cur = Some (Some (j, st)) ->
    upd_proc j (fork_stmt cur p v st) (pt s) = Ok tt tb ->
    pstep s (mkPstate tb (<[cur := pair j <$> fork_next st v]> (forks s)))
| step_own s tb cur p o :
    is_running s cur p -> upd_proc cur (write_own o) (pt s) = Ok tt tb -> pstep s (mkPstate tb (forks s))
| step_exit s tb cur p :
    is_running s cur p -> cur ≠ initproc (pt s) -> forks s !! cur = Some None ->
    exit_table cur (pt s) = Ok tt tb -> pstep s (mkPstate tb (forks s))
| step_wait s tb cur p j :
    is_running s cur p -> (wait_scan cur (procs (pt s)) 0 false).1 = Some j ->
    upd_proc j reap (pt s) = Ok tt tb -> pstep s (mkPstate tb (forks s))
| step_sleep s tb cur p c :
    is_running s cur p -> sleep_on cur c (pt s) = Ok tt tb -> pstep s (mkPstate tb (forks s))
| step_wakeup s tb c : wakeup c (pt s) = Ok tt tb -> pstep s (mkPstate tb (forks s))
| step_kill s tb pid r : kill pid (pt s) = Ok r tb -> pstep s (mkPstate tb (forks s))
| step_sched s tb i p :
    procs (pt s) !! i = Some p -> p_state p = RUNNABLE -> sched_in i (pt s) = Ok tt tb ->
    pstep s (mkPstate tb (forks s))
| step_yield s tb cur p :
    is_running s cur p -> yield cur (pt s) = Ok tt tb -> pstep s (mkPstate tb (forks s))
| step_tidy s tb cur p :
    is_running s cur p -> sleep_tidy cur (pt s) = Ok tt tb -> pstep s (mkPstate tb (forks s)).

(** ** The invariant *)

Definition live (p : proc) : bool := negb (bool_decide (p_state p = UNUSED)).

(** A process that can run again. *)
Definition active (p : proc) : Prop :=
  p_state p ≠ UNUSED /\ p_state p ≠ EMBRYO /\ p_state p ≠ ZOMBIE.

(** The parent of a slot that [cur] is filling. *)
Definition fork_parent (cur : nat) (st : fstage) : option nat :=
  match st with FTf | FEax | FFile _ | FCwd | FName | FRunnable => Some cur | _ => None end.

Record pt_ok (s : pstate) : Prop := {
  pt_len : length (procs (pt s)) = Z.to_nat NPROC;
  (* init never ends *)
  pt_init : exists p, procs (pt s) !! initproc (pt s) = Some p /\ active p;
  (* every parent exists and has not exited *)
  pt_parent : forall i p q, procs (pt s) !! i = Some p -> p_parent p = Some q ->
                exists pq, procs (pt s) !! q = Some pq /\ active pq;
  (* free slots are nobody's child *)
  pt_unused : forall i p, procs (pt s) !! i = Some p -> p_state p = UNUSED -> p_parent p = None;
  (* every finished process except init can be waited for *)
  pt_child : forall i p, procs (pt s) !! i = Some p -> i ≠ initproc (pt s) -> live p = true ->
                p_state p ≠ EMBRYO -> is_Some (p_parent p);
  (* pids identify processes *)
  pt_pids : forall i j p q, procs (pt s) !! i = Some p -> procs (pt s) !! j = Some q ->
                live p = true -> live q = true -> p_pid p = p_pid q -> i = j;
  pt_pid_range : forall i p, procs (pt s) !! i = Some p -> live p = true -> 0 < p_pid p < nextpid (pt s);
  pt_next : 0 < nextpid (pt s);
  (* an unfinished slot is being filled by exactly one process, which has not exited *)
  pt_forks : length (forks s) = length (procs (pt s));
  pt_fork : forall c j st, forks s !! c = Some (Some (j, st)) ->
                (exists p, procs (pt s) !! c = Some p /\ active p)
                /\ exists e, procs (pt s) !! j = Some e /\ p_state e = EMBRYO /\ p_parent e = fork_parent c st;
  pt_filler : forall c c' j st st', forks s !! c = Some (Some (j, st)) -> forks s !! c' = Some (Some (j, st')) -> c = c';
  pt_embryo : forall j e, procs (pt s) !! j = Some e -> p_state e = EMBRYO ->
                exists c st, forks s !! c = Some (Some (j, st)) }.

Lemma live_true p : live p = true <-> p_state p ≠ UNUSED.
Proof. unfold live. rewrite negb_true_iff, bool_decide_eq_false. done. Qed.

(** Two versions of an entry that the invariant does not distinguish. *)
Record similar (p p' : proc) : Prop := {
  sm_pid : p_pid p' = p_pid p;
  sm_parent : p_parent p' = p_parent p;
  sm_unused : p_state p' = UNUSED <-> p_state p = UNUSED;
  sm_embryo : p_state p' = EMBRYO <-> p_state p = EMBRYO;
  sm_zombie : p_state p' = ZOMBIE <-> p_state p = ZOMBIE }.

Lemma similar_refl p : similar p p.
Proof. done. Qed.

Lemma similar_trans p q r : similar p q -> similar q r -> similar p r.
Proof. intros [? ? ? ? ?] [? ? ? ? ?]. split; try congruence; tauto. Qed.

Lemma similar_live p p' : similar p p' -> live p' = live p.
Proof. intros Hs. apply eq_true_iff_eq. rewrite !live_true, (sm_unused _ _ Hs). done. Qed.

Lemma similar_active p p' : similar p p' -> active p -> active p'.
Proof. intros [_ _ Hu He Hz]. unfold active. tauto. Qed.

(** Every entry is similar to what it was. *)
Definition tab_similar (tb tb' : ptab) : Prop :=
  nextpid tb' = nextpid tb /\ initproc tb' = initproc tb /\ length (procs tb') = length (procs tb)
  /\ forall i p', procs tb' !! i = Some p' -> exists p, procs tb !! i = Some p /\ similar p p'.

Lemma tab_similar_fwd tb tb' i p : tab_similar tb tb' -> procs tb !! i = Some p -> exists p', procs tb' !! i = Some p' /\ similar p p'.
Proof.
  intros (_ & _ & Hlen & Hsim) Hp. destruct (lookup_lt_is_Some_2 (procs tb') i) as [p' Hp']; [rewrite Hlen; by eapply lookup_lt_Some|].
  exists p'. split; [done|]. destruct (Hsim _ _ Hp') as (q & Hq & ?). congruence.
Qed.

Lemma pt_similar s tb : pt_ok s -> tab_similar (pt s) tb -> pt_ok (mkPstate tb (forks s)).
Proof.
  intros [Hl Hin Hpa Hun Hch Hpd Hpr Hnx Hfl Hfk Hfi Hem] Hs. pose proof (fun i p => tab_similar_fwd _ _ i p Hs) as Hfwd.
  destruct Hs as (Hn & Hi & Hlen & Hsim). split; cbn [pt forks]; rewrite ?Hn, ?Hi; try congruence.
  - destruct Hin as (p & Hp & Hac). destruct (Hfwd _ _ Hp) as (p' & Hp' & Hs). exists p'. eauto using similar_active.
  - intros i p' q Hp' Hq. destruct (Hsim _ _ Hp') as (p & Hp & Hs). rewrite (sm_parent _ _ Hs) in Hq.
    destruct (Hpa _ _ _ Hp Hq) as (pq & Hpq & Hac). destruct (Hfwd _ _ Hpq) as (pq' & ? & Hs').
    exists pq'. eauto using similar_active.
  - intros i p' Hp' Hst. destruct (Hsim _ _ Hp') as (p & Hp & Hs). rewrite (sm_parent _ _ Hs).
    apply (Hun _ _ Hp). by rewrite <- (sm_unused _ _ Hs).
  - intros i p' Hp' Hni Hlv Hne. destruct (Hsim _ _ Hp') as (p & Hp & Hs). rewrite (sm_parent _ _ Hs).
    apply (Hch _ _ Hp); [congruence | by rewrite <- (similar_live _ _ Hs) |].
    by rewrite <- (sm_embryo _ _ Hs).
  - intros i j p' q' Hp' Hq' Hlp Hlq Heq. destruct (Hsim _ _ Hp') as (p & Hp & Hs).
    destruct (Hsim _ _ Hq') as (q & Hq & Hs'). rewrite (similar_live _ _ Hs) in Hlp.
    rewrite (similar_live _ _ Hs') in Hlq. rewrite (sm_pid _ _ Hs), (sm_pid _ _ Hs') in Heq. eauto.
  - intros i p' Hp' Hlv. destruct (Hsim _ _ Hp') as (p & Hp & Hs). rewrite (sm_pid _ _ Hs).
    apply (Hpr _ _ Hp). by rewrite <- (similar_live _ _ Hs).
  - intros c j st Hc. destruct (Hfk _ _ _ Hc) as ((p & Hp & Hac) & e & He & Hee & Hep).
    destruct (Hfwd _ _ Hp) as (p' & Hp' & Hs), (Hfwd _ _ He) as (e' & He' & Hs'). split; [eauto using similar_active|].
    exists e'. split; [done|]. rewrite (sm_parent _ _ Hs'). split; [by apply (sm_embryo _ _ Hs')|done].
  - exact Hfi.
  - intros j e' He' Hee. destruct (Hsim _ _ He') as (e & He & Hs). apply (Hem j e He). by apply (sm_embryo _ _ Hs).
Qed.

Lemma upd_proc_Ok i f s s' :
  upd_proc i f s = Ok tt s' <->
  exists p, procs s !! i = Some p /\ s' = mkPtab (<[i := f p]> (procs s)) (nextpid s) (initproc s).
Proof.
  unfold upd_proc, get_proc, bind, modify. destruct (procs s !! i) as [p|] eqn:E; simpl.
  - split; [intros [= <-]; eauto | intros (q & [= <-] & ->); done].
  - split; [done | by intros (q & ? & _)].
Qed.

Lemma find_proc_Some f l i j :
  find_proc f l i = Some j -> exists k p, j = (i + k)%nat /\ l !! k = Some p /\ f p = true
    /\ forall m q, (m < k)%nat -> l !! m = Some q -> f q = false.
Proof.
  revert i. induction l as [|p l IH]; intros i; simpl; [done|]. destruct (f p) eqn:Hf.
  - intros [= <-]. exists 0%nat, p. split_and!; [lia | done | done | lia].
  - intros (k & q & -> & Hk & Hq & Hm)%IH. exists (S k), q. split_and!; [lia | done | done |].
    intros [|m] r Hlt Hr; simpl in Hr; [congruence|]. apply (Hm m); [lia|done].
Qed.

(** Updating one entry by a similar one. *)
Lemma upd_similar i f tb tb' :
  (forall p, procs tb !! i = Some p -> similar p (f p)) -> upd_proc i f tb = Ok tt tb' -> tab_similar tb tb'.
Proof.
  intros Hf (p & Hp & ->)%upd_proc_Ok. split_and!; try done; simpl; [by rewrite length_insert|].
  intros j q. destruct (decide (j = i)) as [->|Hne].
  - rewrite list_lookup_insert_eq by (by eapply lookup_lt_Some). intros [= <-]. eauto.
  - rewrite list_lookup_insert_ne by done. intros Hq. exists q. eauto using similar_refl.
Qed.

Lemma similar_state p st st' :
  p_state p = st -> st ≠ UNUSED -> st ≠ EMBRYO -> st ≠ ZOMBIE ->
  st' ≠ UNUSED -> st' ≠ EMBRYO -> st' ≠ ZOMBIE -> similar p (set_state st' p).
Proof. intros. split; simpl; try done; split; congruence. Qed.

Lemma wakeup1_Ok c s s' : wakeup1 c s = Ok tt s' -> tab_similar s s'.
Proof.
  intros [= <-]. unfold tab_similar. simpl. split_and!; try done; [by rewrite length_imap|]. intros i p'.
  rewrite list_lookup_imap. destruct (procs s !! i) as [p|]; simpl; [|done]. intros [= <-].
  exists p. split; [done|]. destruct (bool_decide (p_state p = SLEEPING)) eqn:E; simpl;
    [|apply similar_refl].
  apply bool_decide_eq_true in E. destruct (bool_decide _); [|apply similar_refl].
  by eapply similar_state.
Qed.

(** ** [exit] hands the children to init *)

Section Exit.
Context (s0 : ptab) (cur : nat).
Let init := initproc s0.

(** Entry [i] after the first [k] entries have been examined. *)
Record adopted (k i : nat) (x x' : proc) : Prop := {
  ad_pid : p_pid x' = p_pid x;
  ad_parent : p_parent x' = (if decide ((i < k)%nat /\ p_parent x = Some cur)
                             then Some init else p_parent x);
  ad_unused : p_state x' = UNUSED <-> p_state x = UNUSED;
  ad_embryo : p_state x' = EMBRYO <-> p_state x = EMBRYO;
  ad_zombie : p_state x' = ZOMBIE <-> p_state x = ZOMBIE }.

Definition exit_inv (k : nat) (s : ptab) : Prop :=
  nextpid s = nextpid s0 /\ initproc s = init /\ length (procs s) = length (procs s0)
  /\ forall i x', procs s !! i = Some x' -> exists x, procs s0 !! i = Some x /\ adopted k i x x'.

Lemma adopted_similar k i x x1 x2 : adopted k i x x1 -> similar x1 x2 -> adopted k i x x2.
Proof. intros [? ? ? ? ?] [? ? ? ? ?]. split; try congruence; tauto. Qed.

Lemma exit_inv_similar k s s' : exit_inv k s -> tab_similar s s' -> exit_inv k s'.
Proof.
  intros (Hn & Hi & Hl & Hx) (Hn' & Hi' & Hl' & Hs). split_and!; try congruence.
  intros i p' Hp'. destruct (Hs _ _ Hp') as (p & Hp & Hsim). destruct (Hx _ _ Hp) as (x & Hx0 & Ha).
  exists x. split; [done|]. by eapply adopted_similar.
Qed.

Lemma wp_wakeup1 c k s : exit_inv k s -> wp (wakeup1 c) (fun _ => exit_inv k) s.
Proof.
  intros Hinv. destruct (wakeup1 c s) as [[] s'|] eqn:E; [|done]. unfold wp. rewrite E.
  eapply exit_inv_similar; [done|by eapply wakeup1_Ok].
Qed.

(** Entry [k] examined: reparented, or not a child. *)
Lemma exit_inv_step k s x' :
  exit_inv k s -> procs s !! k = Some x' ->
  exit_inv (S k) (mkPtab (<[k := if bool_decide (p_parent x' = Some cur)
                                 then set_parent (Some init) x' else x']> (procs s))
                    (nextpid s) (initproc s)).
Proof.
  intros (Hn & Hi & Hl & Hx) Hk. split_and!; simpl; try done; [by rewrite length_insert|].
  intros i y. destruct (decide (i = k)) as [->|Hne].
  - rewrite list_lookup_insert_eq by (by eapply lookup_lt_Some). intros [= <-].
    destruct (Hx _ _ Hk) as (x & Hx0 & [Hp Hpar Hu He Hz]). exists x. split; [done|].
    rewrite decide_False in Hpar by lia.
    case_bool_decide as Hc; split; simpl; try done.
    + rewrite decide_True; [done|]. split; [lia|congruence].
    + rewrite decide_False; [done|]. intros [_ ?]. congruence.
  - rewrite list_lookup_insert_ne by done. intros Hy. destruct (Hx _ _ Hy) as (x & Hx0 & [Hp Hpar Hu He Hz]).
    exists x. split; [done|]. split; try done. rewrite Hpar.
    destruct (decide (_ /\ _)) as [[? ?]|Hno].
    + rewrite decide_True; [done|]. split; [lia|done].
    + rewrite decide_False; [done|]. intros [? ?]. apply Hno. split; [lia|done].
Qed.

Lemma wp_upd_proc i f p (Q : unit -> ptab -> Prop) s :
  procs s !! i = Some p -> Q tt (mkPtab (<[i := f p]> (procs s)) (nextpid s) (initproc s)) ->
  wp (upd_proc i f) Q s.
Proof.
  intros Hp HQ. unfold upd_proc, get_proc, wp, bind, modify. rewrite Hp. exact HQ.
Qed.

Lemma wp_get_proc i p (Q : proc -> ptab -> Prop) s :
  procs s !! i = Some p -> Q p s -> wp (get_proc i) Q s.
Proof. intros Hp HQ. unfold get_proc, wp. by rewrite Hp. Qed.

Lemma exit_table_spec p :
  procs s0 !! cur = Some p ->
  wp (exit_table cur) (fun _ s' => exists s1 x, exit_inv (length (procs s0)) s1
     /\ procs s1 !! cur = Some x
     /\ s' = mkPtab (<[cur := set_state ZOMBIE x]> (procs s1)) (nextpid s1) (initproc s1)) s0.
Proof.
  intros Hp. assert (H0 : exit_inv 0 s0).
  { split_and!; try done. intros i x Hx. exists x. split; [done|]. by split. }
  unfold exit_table. wp_step. eapply wp_get_proc; [done|]. wp_step.
  eapply (wp_mono _ (fun _ => exit_inv 0)).
  { destruct (p_parent p); [by apply wp_wakeup1 | by wp_step]. }
  intros [] s1 H1. wp_steps. eapply wp_mono.
  { apply (wp_for_seq _ _ (fun k => exit_inv k) _ H1). intros k s' Hk Hinv.
    pose proof Hinv as (_ & Hin & Hlen & _).
    destruct (lookup_lt_is_Some_2 (procs s') k) as [x Hx].
    { destruct H1 as (_ & _ & Hl1 & _). lia. }
    pose proof (exit_inv_step k s' x Hinv Hx) as Hst.
    wp_step. eapply wp_get_proc; [done|]. revert Hst.
    destruct (bool_decide (p_parent x = Some cur)); intros Hst; cbn [when].
    - wp_step. eapply wp_upd_proc; [done|].
      destruct H1 as (_ & -> & _). case_bool_decide; cbn [when]; [by apply wp_wakeup1 | by wp_step].
    - wp_step. rewrite list_insert_id in Hst by done.
      by destruct s'. }
  cbn beta. intros [] s2 H2. pose proof H2 as (_ & _ & Hl2 & _). pose proof H1 as (_ & _ & Hl1 & _).
  destruct (lookup_lt_is_Some_2 (procs s2) cur) as [x Hx].
  { rewrite Hl2. by eapply lookup_lt_Some. }
  eapply wp_upd_proc; [done|]. exists s2, x. rewrite Hl1 in H2. done.
Qed.
End Exit.

(** Replacing entry [j] by [e'], for the steps that change what the invariant
    sees of it. *)
Lemma insert_cases {A} (l : list A) j x i y :
  (j < length l)%nat -> <[j := x]> l !! i = Some y ->
  (i = j /\ y = x) \/ (i ≠ j /\ l !! i = Some y).
Proof.
  intros Hj. destruct (decide (i = j)) as [->|Hne].
  - rewrite list_lookup_insert_eq by done. intros [= <-]. by left.
  - rewrite list_lookup_insert_ne by done. by right.
Qed.

(** After the step the slot [j] is being filled as [o] says, the others as before. *)
Definition refill (j : nat) (o : option (nat * fstage)) (fk fk' : list (option (nat * fstage))) : Prop :=
  length fk' = length fk
  /\ forall c j' st, fk' !! c = Some (Some (j', st)) <-> (j' ≠ j /\ fk !! c = Some (Some (j', st))) \/ (j' = j /\ o = Some (c, st)).

Lemma refill_cur fk cur j x o : fk !! cur = Some x -> (forall c st, fk !! c = Some (Some (j, st)) -> c = cur) ->
  (forall j' st, x = Some (j', st) -> j' = j) -> refill j (pair cur <$> o) fk (<[cur := pair j <$> o]> fk).
Proof.
  intros Hx Hj Hxj. split; [by rewrite length_insert|]. intros c j' st. destruct (decide (c = cur)) as [->|Hne].
  - rewrite list_lookup_insert_eq by (by eapply lookup_lt_Some). rewrite Hx. split.
    + intros [= E]. destruct o as [st0|]; [|done]. injection E as <- <-. by right.
    + intros [[Hn [= ->]]|[-> E]]; [by destruct Hn; eapply Hxj|]. destruct o as [st0|]; [|done]. injection E as <-. done.
  - rewrite list_lookup_insert_ne by done. split.
    + intros E. left. split; [|done]. intros ->. apply Hne. by eapply Hj.
    + intros [[_ E]|[_ E]]; [done|]. destruct o; [|done]. injection E as -> _. done.
Qed.

Lemma refill_none fk j : (forall c st, fk !! c ≠ Some (Some (j, st))) -> refill j None fk fk.
Proof. intros Hj. split; [done|]. intros c j' st. split; [|naive_solver]. intros E. left. split; [|done]. intros ->. by eapply Hj. Qed.

Lemma inactive_not_init s j e : pt_ok s -> procs (pt s) !! j = Some e -> ~ active e -> j ≠ initproc (pt s).
Proof. intros Hok Hj Hna ->. destruct (pt_init _ Hok) as (p & Hp & Hac). congruence. Qed.

Section Replace.
Context (s : pstate) (j : nat) (e e' : proc) (n : Z) (o : option (nat * fstage)) (fk : list (option (nat * fstage))).
Hypothesis Hok : pt_ok s.
Hypothesis Hj : procs (pt s) !! j = Some e.
Hypothesis Hfk : refill j o (forks s) fk.
Let s' := mkPstate (mkPtab (<[j := e']> (procs (pt s))) n (initproc (pt s))) fk.

Lemma pt_replace :
  nextpid (pt s) <= n -> ~ active e ->
  (forall q, p_parent e' = Some q -> exists pq, procs (pt s) !! q = Some pq /\ active pq) ->
  (p_state e' = UNUSED -> p_parent e' = None) ->
  (live e' = true -> p_state e' ≠ EMBRYO -> is_Some (p_parent e')) ->
  (live e' = true -> 0 < p_pid e' < n /\ forall i p, procs (pt s) !! i = Some p -> i ≠ j ->
     live p = true -> p_pid p ≠ p_pid e') ->
  match o with
  | Some (c, st) => (exists p, procs (pt s) !! c = Some p /\ active p) /\ p_state e' = EMBRYO /\ p_parent e' = fork_parent c st
  | None => p_state e' ≠ EMBRYO
  end ->
  pt_ok s'.
Proof.
  intros Hn Hna Hpar Hun' Hch' Hpid' Ho. pose proof (inactive_not_init _ _ _ Hok Hj Hna) as Hji.
  destruct Hok as [Hl Hin Hpa Hun Hch Hpd Hpr Hnx Hfl Hf Hfi Hem], Hfk as [Hlen Hiff].
  assert (Hjl : (j < length (procs (pt s)))%nat) by (by eapply lookup_lt_Some).
  assert (Hkeep : forall q pq, procs (pt s) !! q = Some pq -> active pq ->
     exists pq', <[j := e']> (procs (pt s)) !! q = Some pq' /\ active pq').
  { intros q pq Hq Hac. exists pq. split; [|done]. rewrite list_lookup_insert_ne; [done|].
    intros <-. congruence. }
  split; unfold s'; cbn [pt forks procs nextpid initproc].
  - by rewrite length_insert.
  - destruct Hin as (p & Hp & Hac). eauto.
  - intros i p q [[-> ->]|[_ Hi]]%insert_cases Hq; try done.
    + destruct (Hpar _ Hq) as (pq & Hpq & Hac). eauto.
    + destruct (Hpa _ _ _ Hi Hq) as (pq & Hpq & Hac). eauto.
  - intros i p [[-> ->]|[_ Hi]]%insert_cases Hst; eauto.
  - intros i p [[-> ->]|[_ Hi]]%insert_cases Hni Hlv Hne; eauto.
  - intros i k p q [[-> ->]|[Hi' Hi]]%insert_cases [[-> ->]|[Hk' Hk]]%insert_cases Hlp Hlq Heq; try done.
    + destruct (Hpid' Hlp) as [_ Hd]. by destruct (Hd _ _ Hk Hk' Hlq).
    + destruct (Hpid' Hlq) as [_ Hd]. by destruct (Hd _ _ Hi Hi' Hlp).
    + eauto.
  - intros i p [[-> ->]|[_ Hi]]%insert_cases Hlv; try done; [by destruct (Hpid' Hlv)|].
    pose proof (Hpr _ _ Hi Hlv). lia.
  - lia.
  - by rewrite length_insert, Hlen.
  - intros c j' st [[Hne Hc]|[-> Hc]]%Hiff.
    + destruct (Hf _ _ _ Hc) as ((p & Hp & Hac) & x & Hx & Hxe). split; [eauto|]. exists x. by rewrite list_lookup_insert_ne.
    + subst o. destruct Ho as ((p & Hp & Hac) & Hee & Hep). split; [eauto|]. exists e'. by rewrite list_lookup_insert_eq.
  - intros c c' j' st st' [[Hne Hc]|[-> Hc]]%Hiff [[Hne' Hc']|[E Hc']]%Hiff; try done; [by eapply Hfi|]. congruence.
  - intros i x [[-> ->]|[Hne Hi]]%insert_cases Hxe; [| |done].
    + destruct o as [[c st]|]; [|done]. exists c, st. apply Hiff. by right.
    + destruct (Hem _ _ Hi Hxe) as (c & st & Hc). exists c, st. apply Hiff. by left.
Qed.
End Replace.

Lemma wait_scan_spec cur l i h j :
  (wait_scan cur l i h).1 = Some j -> exists k p, j = (i + k)%nat /\ l !! k = Some p
    /\ p_parent p = Some cur /\ p_state p = ZOMBIE.
Proof.
  revert i h. induction l as [|p l IH]; intros i h; simpl; [done|].
  case_bool_decide as Hp; simpl.
  - case_bool_decide as Hz.
    + intros [= <-]. exists 0%nat, p. split_and!; [lia | done..].
    + intros (k & q & -> & ? & ? & ?)%IH. exists (S k), q. split_and!; [lia | done..].
  - intros (k & q & -> & ? & ? & ?)%IH. exists (S k), q. split_and!; [lia | done..].
Qed.

(** Nobody fills a slot that is not EMBRYO. *)
Lemma not_filled s j e c st : pt_ok s -> procs (pt s) !! j = Some e -> p_state e ≠ EMBRYO -> forks s !! c ≠ Some (Some (j, st)).
Proof. intros Hok He Hne Hc. destruct (pt_fork _ Hok _ _ _ Hc) as (_ & x & Hx & Hxe & _). congruence. Qed.

Lemma alloc_slot_Ok s j s' : alloc_slot s = Ok (Some j) s' ->
  exists e, procs s !! j = Some e /\ p_state e = UNUSED
    /\ s' = mkPtab (<[j := set_pid (nextpid s) (set_state EMBRYO e)]> (procs s)) (i32 (nextpid s + 1)) (initproc s).
Proof.
  intros Hrun. unfold alloc_slot, bind, gets, id in Hrun.
  destruct (find_proc _ (procs s) 0) as [i|] eqn:Ef; [|done].
  destruct (find_proc_Some _ _ _ _ Ef) as (k & p & -> & Hk & Hu & _). simpl in *.
  apply (bool_decide_eq_true (p_state p = UNUSED)) in Hu.
  unfold upd_proc, get_proc, bind, modify in Hrun. rewrite Hk in Hrun. simpl in Hrun.
  injection Hrun as <- <-. eauto.
Qed.

Lemma running_active s cur p : is_running s cur p -> exists p, procs (pt s) !! cur = Some p /\ active p.
Proof. intros [Hp Hr]. exists p. split; [done|]. unfold active. by rewrite Hr. Qed.

Lemma pt_alloc s tb cur p j :
  pt_ok s -> nextpid (pt s) < 2147483647 -> is_running s cur p -> forks s !! cur = Some None -> alloc_slot (pt s) = Ok (Some j) tb ->
  pt_ok (mkPstate tb (<[cur := Some (j, FStack)]> (forks s))).
Proof.
  intros Hok Hmax Hp Hf (e & He & Hu & ->)%alloc_slot_Ok. pose proof (pt_next _ Hok) as Hn0. rewrite i32_id by (unfold is_i32; lia).
  pose proof (pt_unused _ Hok _ _ He Hu) as Hnp.
  apply (pt_replace s j e _ _ (Some (cur, FStack))); try done; simpl; rewrite ?Hnp; try (done || lia).
  - apply (refill_cur _ cur j None (Some FStack)); try done. intros c st Hc. destruct (not_filled s j e c st Hok He); [by rewrite Hu|done].
  - by intros (? & _).
  - intros _. split; [lia|]. intros i q Hi _ Hlv. pose proof (pt_pid_range _ Hok _ _ Hi Hlv). lia.
  - split; [by eapply running_active|done].
Qed.

(** A statement of [fork] keeps the slot EMBRYO, or is the last one. *)
Lemma fork_stmt_state cur p v st e : p_state e = EMBRYO -> p_parent e = fork_parent cur st ->
  let e' := fork_stmt cur p v st e in p_pid e' = p_pid e /\
  match fork_next st v with
  | Some st' => p_state e' = EMBRYO /\ p_parent e' = fork_parent cur st'
  | None => (p_state e' = UNUSED /\ p_parent e' = None) \/ (p_state e' = RUNNABLE /\ p_parent e' = Some cur)
  end.
Proof.
  intros He Hp e'.
  destruct st; subst e'; cbn [fork_stmt fork_next fork_parent] in Hp |- *;
    repeat match goal with |- context [if ?b then _ else _] => destruct b | |- context [match ?x with Some _ => _ | None => _ end] => destruct x as [[?|]|] end;
    cbn; auto.
Qed.

Lemma pt_forkstep s tb cur p j st v :
  pt_ok s -> is_running s cur p -> forks s !! cur = Some (Some (j, st)) -> upd_proc j (fork_stmt cur p v st) (pt s) = Ok tt tb ->
  pt_ok (mkPstate tb (<[cur := pair j <$> fork_next st v]> (forks s))).
Proof.
  intros Hok Hp Hf (e & He & ->)%upd_proc_Ok. destruct (pt_fork _ Hok _ _ _ Hf) as (Hac & e1 & He1 & Hee & Hep).
  assert (e1 = e) as -> by congruence. destruct (fork_stmt_state cur p v st e Hee Hep) as [Hpid Hst].
  assert (Hlive : live e = true) by (rewrite live_true; congruence). pose proof (pt_pid_range _ Hok _ _ He Hlive) as Hrg. pose proof (pt_unused _ Hok) as Hun.
  apply (pt_replace s j e _ _ (pair cur <$> fork_next st v)); try done.
  - apply (refill_cur _ cur j (Some (j, st))); [done| |by intros j' st' [= <- _]]. intros c st' Hc. by eapply (pt_filler _ Hok).
  - by intros (_ & ? & _).
  - intros q Hq. assert (q = cur) as ->; [|done]. destruct (fork_next st v) as [st'|].
    + destruct Hst as [_ E]. rewrite E in Hq. unfold fork_parent in Hq. destruct st'; congruence.
    + destruct Hst as [[_ E]|[_ E]]; congruence.
  - destruct (fork_next st v); [destruct Hst; congruence|]. destruct Hst as [[? E]|[? E]]; congruence.
  - intros Hl Hne. destruct (fork_next st v); [by destruct Hst|]. destruct Hst as [[E _]|[_ ->]]; [|done]. apply live_true in Hl. congruence.
  - rewrite Hpid. intros _. split; [done|]. intros i q Hi Hne Hlv Heq. apply Hne. by eapply (pt_pids _ Hok).
  - destruct (fork_next st v); cbn; [by split|]. destruct Hst as [[-> _]|[-> _]]; done.
Qed.

(** What [exit] leaves of an entry. *)
Record left_by_exit (cur init : nat) (i : nat) (y y' : proc) : Prop := {
  le_pid : p_pid y' = p_pid y;
  le_live : live y' = live y;
  le_parent : p_parent y' = (if decide (p_parent y = Some cur) then Some init else p_parent y);
  le_embryo : p_state y' = EMBRYO <-> p_state y = EMBRYO;
  le_active : i ≠ cur -> active y -> active y' }.

Lemma exit_result tb cur p tb' : procs tb !! cur = Some p -> p_state p = RUNNING -> exit_table cur tb = Ok tt tb' ->
  nextpid tb' = nextpid tb /\ initproc tb' = initproc tb /\ length (procs tb') = length (procs tb)
  /\ forall i y', procs tb' !! i = Some y' -> exists y, procs tb !! i = Some y /\ left_by_exit cur (initproc tb) i y y'.
Proof.
  intros Hp Hrun Hex. pose proof (exit_table_spec tb cur p Hp) as Hwp.
  unfold wp in Hwp. rewrite Hex in Hwp. destruct Hwp as (s1 & x & (Hn & Hi & Hl & Hx) & Hcx & ->).
  assert (Hcl : (cur < length (procs s1))%nat) by (by eapply lookup_lt_Some).
  split_and!; simpl; try done; [by rewrite length_insert|]. intros i y' [[-> ->]|[Hne Hy1]]%insert_cases; [| |done].
  - destruct (Hx _ _ Hcx) as (p' & Hp' & [Hpid Hpar Hu He Hz]). rewrite Hp in Hp'. injection Hp' as <-. exists p. split; [done|].
    split; simpl; try done.
    + unfold live. rewrite Hrun. done.
    + rewrite Hpar. rewrite Hl in Hcl. repeat destruct decide; tauto || done.
    + rewrite Hrun. done.
  - destruct (Hx _ _ Hy1) as (y & Hy & [Hpid Hpar Hu He Hz]). exists y. split; [done|]. split; try done.
    + apply eq_true_iff_eq. rewrite !live_true, Hu. done.
    + rewrite Hpar. apply lookup_lt_Some in Hy1. rewrite Hl in Hy1. repeat destruct decide; tauto || done.
    + unfold active. intros _. tauto.
Qed.

Lemma pt_exit s tb cur p :
  pt_ok s -> is_running s cur p -> cur ≠ initproc (pt s) -> forks s !! cur = Some None ->
  exit_table cur (pt s) = Ok tt tb -> pt_ok (mkPstate tb (forks s)).
Proof.
  intros Hok [Hp Hrun] Hni Hfc Hex. destruct (exit_result _ _ _ _ Hp Hrun Hex) as (Hn & Hi & Hl & Hback).
  destruct Hok as [Hlen Hin Hpa Hun Hch Hpd Hpr Hnx Hfl Hf Hfi Hem].
  assert (Hfwd : forall i y, procs (pt s) !! i = Some y -> exists y', procs tb !! i = Some y' /\ left_by_exit cur (initproc (pt s)) i y y').
  { intros i y Hy. destruct (lookup_lt_is_Some_2 (procs tb) i) as [y' Hy']; [rewrite Hl; by eapply lookup_lt_Some|].
    exists y'. split; [done|]. destruct (Hback _ _ Hy') as (y0 & ? & ?). congruence. }
  assert (Hact : forall i y, procs (pt s) !! i = Some y -> active y -> i ≠ cur -> exists y', procs tb !! i = Some y' /\ active y').
  { intros i y Hy Hac Hne. destruct (Hfwd _ _ Hy) as (y' & Hy' & E). exists y'. split; [done|]. by apply (le_active _ _ _ _ _ E). }
  split; cbn [pt forks]; rewrite ?Hn, ?Hi; try congruence.
  - destruct Hin as (q & Hq & Hac). eauto.
  - intros i y' q Hy' Hq. destruct (Hback _ _ Hy') as (y & Hy & [_ _ Hpar _ _]).
    rewrite Hpar in Hq. destruct (decide (p_parent y = Some cur)) as [Hc|Hc].
    + injection Hq as <-. destruct Hin as (z & Hz & Hac). eauto.
    + destruct (Hpa _ _ _ Hy Hq) as (pq & Hpq & Hac). apply (Hact _ _ Hpq Hac). congruence.
  - intros i y' Hy' Hst. destruct (Hback _ _ Hy') as (y & Hy & [_ Hlv Hpar _ _]). rewrite Hpar, (Hun _ _ Hy); [done|].
    destruct (decide (p_state y = UNUSED)) as [|Hnu]; [done|].
    apply live_true in Hnu. rewrite <- Hlv in Hnu. by apply live_true in Hnu.
  - intros i y' Hy' Hii Hlv Hne. destruct (Hback _ _ Hy') as (y & Hy & [_ Hlv' Hpar He _]).
    rewrite Hpar. destruct decide; [eauto|].
    apply (Hch _ _ Hy); [done | congruence |]. by rewrite <- He.
  - intros i k y' z' Hy' Hz' Hly Hlz Heq. destruct (Hback _ _ Hy') as (y & Hy & [Hpy Hlvy _ _ _]).
    destruct (Hback _ _ Hz') as (z & Hz & [Hpz Hlvz _ _ _]). eapply Hpd; eauto; congruence.
  - intros i y' Hy' Hlv. destruct (Hback _ _ Hy') as (y & Hy & [Hpy Hlvy _ _ _]).
    rewrite Hpy. apply (Hpr _ _ Hy). congruence.
  - intros c j st Hc. destruct (Hf _ _ _ Hc) as ((q & Hq & Hac) & e & He & Hee & Hep).
    assert (Hne : c ≠ cur) by congruence. split; [by eapply Hact|]. destruct (Hfwd _ _ He) as (e' & He' & [_ _ Hpar Hem' _]).
    exists e'. split; [done|]. split; [by apply Hem'|]. rewrite Hpar, decide_False; [done|]. rewrite Hep. destruct st; cbn; congruence.
  - exact Hfi.
  - intros j e' He' Hee. destruct (Hback _ _ He') as (e & He & [_ _ _ Hem' _]). apply (Hem j e He). by apply Hem'.
Qed.

Lemma pt_wait s tb cur j : pt_ok s -> (wait_scan cur (procs (pt s)) 0 false).1 = Some j -> upd_proc j reap (pt s) = Ok tt tb ->
  pt_ok (mkPstate tb (forks s)).
Proof.
  intros Hok Hw Hrun. destruct (wait_scan_spec _ _ _ _ _ Hw) as (k & q & -> & Hk & Hpar & Hz). simpl in *.
  apply upd_proc_Ok in Hrun as (e' & He' & ->). assert (e' = q) as -> by congruence.
  apply (pt_replace s k q _ _ None); try done.
  - apply refill_none. intros c st. apply (not_filled s k q c st Hok Hk). congruence.
  - by intros (_ & _ & ?).
Qed.

Lemma kill_similar pid tb r tb' : kill pid tb = Ok r tb' -> tab_similar tb tb'.
Proof.
  intros Hrun. unfold kill, bind, gets, id in Hrun. destruct (find_proc _ _ 0) as [i|].
  2:{ injection Hrun as _ <-. split_and!; try done. intros i p Hp. exists p. eauto using similar_refl. }
  destruct (upd_proc i _ tb) as [[] s1|] eqn:E; [|done]. injection Hrun as _ <-.
  eapply upd_similar; [|exact E]. intros q Hq. simpl. case_bool_decide as Hs; [|done].
  apply (similar_trans _ (set_killed true q)); [done|]. by eapply similar_state.
Qed.

Lemma pt_step s s' : pt_ok s -> nextpid (pt s) < 2147483647 -> pstep s s' -> pt_ok s'.
Proof.
  intros Hok Hmax Hstep. destruct Hstep as [s tb cur p j Hc Hf Hrun|s tb cur p j st v Hc Hf Hrun|s tb cur p o Hc Hrun|s tb cur p Hc Hni Hf Hrun
    |s tb cur p j Hc Hw Hrun|s tb cur p c [Hc Hr] Hrun|s tb c Hrun|s tb pid r Hrun|s tb i p Hi Hr Hrun|s tb cur p [Hc Hr] Hrun|s tb cur p Hc Hrun].
  - by eapply pt_alloc.
  - by eapply pt_forkstep.
  - apply pt_similar; [done|]. eapply upd_similar; [|exact Hrun]. done.
  - by eapply pt_exit.
  - by eapply pt_wait.
  - apply pt_similar; [done|]. eapply upd_similar; [|exact Hrun]. intros q Hq. assert (q = p) as -> by congruence.
    apply (similar_trans _ (set_chan (Some c) p)); [done|]. by eapply similar_state.
  - apply pt_similar; [done|]. by eapply wakeup1_Ok.
  - apply pt_similar; [done|]. by eapply kill_similar.
  - apply pt_similar; [done|]. eapply upd_similar; [|exact Hrun]. intros q Hq. assert (q = p) as -> by congruence. by eapply similar_state.
  - apply pt_similar; [done|]. eapply upd_similar; [|exact Hrun]. intros q Hq. assert (q = p) as -> by congruence. by eapply similar_state.
  - apply pt_similar; [done|]. eapply upd_similar; [|exact Hrun]. done.
Qed.

(** Executions during which fewer than 2^31 - 1 pids are handed out. *)
Definition pstep_bounded (s s' : pstate) : Prop := pstep s s' /\ nextpid (pt s) < 2147483647.

(** C17: The process table stays consistent under every interleaving of fork (every
    statement of it that writes the new entry is a step of its own, most of them
    outside the lock), exit, wait, sleep, wakeup, kill, yield, scheduling and the
    writes of a process to its own entry, as long as the 31-bit pid counter has not
    run out: init never ends; every entry that has a parent, also an unfinished one,
    has one that exists and has not exited (children of an exiting process pass to
    init); every process but init has a parent to wait for it; free slots are
    nobody's child; a slot that is EMBRYO is being filled by exactly one process,
    which has not exited and is its parent once that is set; and no two processes
    share a pid. *)
Theorem ptable_invariant s s' : pt_ok s -> rtc pstep_bounded s s' -> pt_ok s'.
Proof.
  intros Hok Hsteps. induction Hsteps as [s|s s1 s2 [Hst Hb] _ IH]; [done|].
  apply IH. by eapply pt_step.
Qed.

(** A table with init running and every other slot free. *)
Definition free_proc : proc :=
  mkProc 0 0 0 UNUSED 0 None (mkTf 0 0 0) None false (replicate 16 None) None (replicate 16 0) 0.
Definition init_proc : proc :=
  mkProc 4096 4096 4096 RUNNING 1 None (mkTf 0 0 4096) None false (replicate 16 None) (Some 0%nat)
    (replicate 16 0) ROOT_UID.
Definition demo_ptab : ptab := mkPtab (init_proc :: replicate 63 free_proc) 2 0.

Lemma demo_entries i p : procs demo_ptab !! i = Some p -> (i = 0%nat /\ p = init_proc) \/ p = free_proc.
Proof.
  destruct i as [|i]; [intros [= <-]; by left|].
  change (procs demo_ptab !! S i) with (replicate 63 free_proc !! i).
  intros [-> _]%lookup_replicate. by right.
Qed.

Definition no_forks : list (option (nat * fstage)) := replicate 64 None.

Lemma demo_pt_ok : pt_ok (mkPstate demo_ptab no_forks).
Proof.
  assert (Hno : forall c x, no_forks !! c = Some x -> x = None) by (intros c x [-> _]%lookup_replicate; done).
  split; cbn [pt forks].
  - done.
  - exists init_proc. done.
  - intros i p q [[-> ->]| ->]%demo_entries; done.
  - intros i p [[-> ->]| ->]%demo_entries; done.
  - intros i p [[-> ->]| ->]%demo_entries; done.
  - intros i j p q [[-> ->]| ->]%demo_entries [[-> ->]| ->]%demo_entries; done.
  - intros i p [[-> ->]| ->]%demo_entries; [simpl; lia|done].
  - simpl. lia.
  - done.
  - intros c j st ?%Hno. done.
  - intros c c' j st st' ?%Hno. done.
  - intros i p [[-> ->]| ->]%demo_entries; done.
Qed.

(** init forks, up to the statement that makes it the parent of the new entry, and
    then gives up the processor. *)
Definition demo_child : proc := set_parent (Some 0%nat) (set_vm 4096 8192 (set_uid ROOT_UID (set_kstack 12288 (set_pid 2 (set_state EMBRYO free_proc))))).
Definition demo_forked : pstate :=
  mkPstate (mkPtab (set_state RUNNABLE init_proc :: demo_child :: replicate 62 free_proc) 3 0) (Some (1%nat, FTf) :: replicate 63 None).

Lemma ptable_invariant_witness : pt_ok demo_forked.
Proof.
  apply (ptable_invariant (mkPstate demo_ptab no_forks) demo_forked demo_pt_ok).
  eapply rtc_l; [split; [eapply (step_alloc _ _ 0 init_proc 1); [split; reflexivity|reflexivity|reflexivity]|reflexivity]|].
  eapply rtc_l; [split; [eapply (step_fork _ _ 0 init_proc 1 FStack 12288); [split; reflexivity|reflexivity|reflexivity]|reflexivity]|].
  eapply rtc_l; [split; [eapply (step_fork _ _ 0 init_proc 1 FPgdir 8192); [split; reflexivity|reflexivity|reflexivity]|reflexivity]|].
  eapply rtc_l; [split; [eapply (step_fork _ _ 0 init_proc 1 FUid 0); [split; reflexivity|reflexivity|reflexivity]|reflexivity]|].
  eapply rtc_l; [split; [eapply (step_fork _ _ 0 init_proc 1 FSz 0); [split; reflexivity|reflexivity|reflexivity]|reflexivity]|].
  eapply rtc_l; [split; [eapply (step_fork _ _ 0 init_proc 1 FParent 0); [split; reflexivity|reflexivity|reflexivity]|reflexivity]|].
  eapply rtc_l; [split; [eapply (step_yield _ _ 0 init_proc); [split; reflexivity|reflexivity]|reflexivity]|]. apply rtc_refl.
Defined.

Lemma find_proc_ext f g l i :
  (forall p, p ∈ l -> f p = g p) -> find_proc f l i = find_proc g l i.
Proof.
  revert i. induction l as [|p l IH]; intros i Hfg; simpl; [done|].
  rewrite Hfg by (by left). destruct (g p); [done|]. apply IH. intros q Hq. apply Hfg. by right.
Qed.

Lemma find_proc_insert f l i j p :
  find_proc f l i = Some (i + j)%nat -> (j < length l)%nat -> f p = true ->
  find_proc f (<[j := p]> l) i = Some (i + j)%nat.
Proof.
  revert i j. induction l as [|q l IH]; intros i j Hf Hj Hp; simpl in *; [lia|].
  destruct j as [|j]; simpl; [by rewrite Hp, Nat.add_0_r|]. destruct (f q).
  - injection Hf as Hf. lia.
  - replace (i + S j)%nat with (S i + j)%nat in * by lia. apply IH; [done|lia|done].
Qed.

(** [kill(0)] condemns a process that does not exist yet.  Free slots have pid
    0, so the search of [kill] for pid 0 ends at a free slot: the call returns
    0, success, with the slot's [killed] flag set, and since [allocproc] does not
    clear the flag, the next process created starts out killed. *)
Theorem kill_zero_condemns s :
  (forall p, p ∈ procs s -> (p_state p = UNUSED <-> p_pid p = 0)) ->
  (exists p, p ∈ procs s /\ p_state p = UNUSED) ->
  exists s1 s2 i e, kill 0 s = Ok 0 s1 /\ alloc_slot s1 = Ok (Some i) s2
    /\ procs s2 !! i = Some e /\ p_state e = EMBRYO /\ p_killed e = true.
Proof.
  intros Hz (p0 & Hp0 & Hu0).
  assert (Hext : find_proc (fun p => p_pid p =? 0) (procs s) 0 = find_proc is_unused (procs s) 0).
  { apply find_proc_ext. intros p Hp. apply eq_true_iff_eq. unfold is_unused.
    rewrite Z.eqb_eq, bool_decide_eq_true. exact (iff_sym (Hz p Hp)). }
  assert (Hsome : exists i, find_proc is_unused (procs s) 0 = Some i).
  { clear Hext. generalize 0%nat. revert Hp0. generalize (procs s).
    induction l as [|q l IH]; intros Hin i; [by apply elem_of_nil in Hin|]. simpl.
    destruct (is_unused q) eqn:E; [eauto|]. apply elem_of_cons in Hin as [->|Hin]; [|by apply IH].
    unfold is_unused in E. by rewrite bool_decide_eq_true_2 in E. }
  destruct Hsome as [i Hi]. destruct (find_proc_Some _ _ _ _ Hi) as (k & p & -> & Hk & Hun & _).
  simpl in *. apply (bool_decide_eq_true (p_state p = UNUSED)) in Hun.
  set (p1 := set_killed true p). set (s1 := mkPtab (<[k := p1]> (procs s)) (nextpid s) (initproc s)).
  assert (Hlt : (k < length (procs s))%nat) by (by eapply lookup_lt_Some).
  set (e := set_pid (nextpid s) (set_state EMBRYO p1)).
  exists s1, (mkPtab (<[k := e]> (procs s1)) (i32 (nextpid s + 1)) (initproc s)), k, e.
  split_and!; try done.
  - unfold kill, bind, gets, id. rewrite Hext, Hi. unfold upd_proc, get_proc, bind. rewrite Hk. simpl.
    by rewrite Hun.
  - unfold alloc_slot, bind, gets, id. simpl.
    rewrite (find_proc_insert is_unused (procs s) 0 k p1 Hi Hlt) by (unfold is_unused; simpl; by rewrite Hun).
    unfold upd_proc, get_proc, bind, modify. simpl. rewrite list_lookup_insert_eq by done. done.
  - simpl. by rewrite list_lookup_insert_eq by (by rewrite length_insert).
Qed.

Lemma kill_zero_condemns_witness :
  exists s1 s2 i e, kill 0 demo_ptab = Ok 0 s1 /\ alloc_slot s1 = Ok (Some i) s2
    /\ procs s2 !! i = Some e /\ p_state e = EMBRYO /\ p_killed e = true.
Proof.
  apply (kill_zero_condemns demo_ptab).
  - intros p (i & Hi)%list_elem_of_lookup. by destruct (demo_entries i p Hi) as [[-> ->]| ->].
  - exists free_proc. split; [right; left | reflexivity].
Defined.
