(* ===== verification/Kern.v ===== *)
(** * The kernel: system call arguments and open files (syscall.c, file.c)

    The state of the whole kernel: the file system (Fs.v), kernel memory
    (Kalloc.v, Vm.v), the process table (Proc.v), the table of open files and
    the pipes.  A system call runs as the process [k_cur].  User memory is read
    and written through the page table of that process. *)

From S2P Require Import Prelude KMonad CString Params Kalloc Vm Proc Pipe Bio Users Store Fs.

(** [struct file]. *)
Inductive fdtype := FD_NONE | FD_PIPE | FD_INODE.

#[export] Instance fdtype_eq_dec : EqDecision fdtype.
Proof. solve_decision. Defined.

Record file := mkFile {
  fl_type : fdtype; fl_ref : Z; fl_readable : bool; fl_writable : bool;
  fl_pipe : Z; fl_ip : nat; fl_off : Z
}.

Definition set_fref (r : Z) (f : file) : file :=
  mkFile (fl_type f) r (fl_readable f) (fl_writable f) (fl_pipe f) (fl_ip f) (fl_off f).
Definition set_ftype (t : fdtype) (f : file) : file :=
  mkFile t (fl_ref f) (fl_readable f) (fl_writable f) (fl_pipe f) (fl_ip f) (fl_off f).
Definition set_foff (o : Z) (f : file) : file :=
  mkFile (fl_type f) (fl_ref f) (fl_readable f) (fl_writable f) (fl_pipe f) (fl_ip f) o.

Record kern (S : Type) := mkKern {
  k_fs : fs S; k_mem : kmem; k_pt : ptab; k_ftable : list file; k_pipes : gmap Z pipe;
  k_cur : nat; k_ticks : Z
}.
Arguments mkKern {S}.
Arguments k_fs {S}.
Arguments k_mem {S}.
Arguments k_pt {S}.
Arguments k_ftable {S}.
Arguments k_pipes {S}.
Arguments k_cur {S}.
Arguments k_ticks {S}.

Section Kern.
Context {S : Type} `{TxStore S}.
Context (devsw_read : Z -> option (nat -> Z -> M (fs S) (Z * list Z))).
Context (devsw_write : Z -> option (nat -> list Z -> Z -> M (fs S) Z)).
Local Abbreviation N := (M (kern S)).

Definition on_mem {A} (m : K A) : N A :=
  lift k_mem (fun t k => mkKern (k_fs k) t (k_pt k) (k_ftable k) (k_pipes k) (k_cur k) (k_ticks k)) m.
Definition on_pt {A} (m : P A) : N A :=
  lift k_pt (fun t k => mkKern (k_fs k) (k_mem k) t (k_ftable k) (k_pipes k) (k_cur k) (k_ticks k)) m.

(** [myproc()] *)
Definition myproc : N proc := fun k => from_opt (procs (k_pt k) !! k_cur k) k.
Definition upd_cur (f : proc -> proc) : N unit :=
  i <- gets k_cur ;; on_pt (upd_proc i f).

(** File-system code runs with the current process's pid, user and directory. *)
Definition set_cur (c : curproc) (f : fs S) : fs S :=
  mkFs (f_store f) (f_sb f) (f_icache f) (f_ut f) c.
Definition on_fs {A} (m : M (fs S) A) : N A :=
  p <- myproc ;;
  let c := mkCurproc (p_pid p) (p_uid p) (p_cwd p) in
  lift (fun k => set_cur c (k_fs k))
       (fun t k => mkKern t (k_mem k) (k_pt k) (k_ftable k) (k_pipes k) (k_cur k) (k_ticks k)) m.

(** ** User memory *)

(** The kernel address of user address [va]; an unmapped page is a fault. *)
Definition user_addr (m : gmap Z page) (pgdir va : Z) : option Z :=
  pte ← entry m pgdir va; Some (P2V (PTE_ADDR pte) + va mod PGSIZE).

Definition user_rd8 (va : Z) : N Z :=
  p <- myproc ;;
  m <- gets (fun k => mem (k_mem k)) ;;
  from_opt (a ← user_addr m (p_pgdir p) va; rd8 m a).

Definition user_wr8 (va c : Z) : N unit :=
  p <- myproc ;;
  m <- gets (fun k => mem (k_mem k)) ;;
  m' <- from_opt (a ← user_addr m (p_pgdir p) va; wr8 m a c) ;;
  on_mem (modify (set_mem m')).

Fixpoint user_read (va : Z) (n : nat) : N (list Z) :=
  match n with
  | O => ret []
  | Datatypes.S n' => c <- user_rd8 va ;; l <- user_read (va + 1) n' ;; ret (c :: l)
  end.

Fixpoint user_write (va : Z) (l : list Z) : N unit :=
  match l with
  | [] => ret tt
  | c :: l' => user_wr8 va c ;;; user_write (va + 1) l'
  end.

(** ** syscall.c *)

Definition fetchint (addr : Z) : N (option Z) :=
  p <- myproc ;;
  if (p_sz p <=? addr) || (p_sz p <? u32 (addr + 4)) then ret None
  else b <- user_read addr 4 ;; ret (Some (i32 (le_val b))).

(** [for(s = *pp; s < ep; s++) if( *s == 0) return s - *pp;]: the characters
    before the NUL. *)
Fixpoint scan_str (va : Z) (n : nat) : N (option (list Z)) :=
  match n with
  | O => ret None
  | Datatypes.S n' =>
      c <- user_rd8 va ;;
      if c =? 0 then ret (Some [])
      else
        r <- scan_str (va + 1) n' ;;
        ret (cons c <$> r)
  end.

(** The string at [addr] with its NUL; [None] for the result -1. *)
Definition fetchstr (addr : Z) : N (option (list Z)) :=
  p <- myproc ;;
  if p_sz p <=? addr then ret None
  else
    r <- scan_str addr (Z.to_nat (p_sz p - addr)) ;;
    ret ((fun s => s ++ [0]) <$> r).

Definition argint (n : Z) : N (option Z) :=
  p <- myproc ;; fetchint (u32 (tf_esp (p_tf p) + 4 + 4 * n)).

(** The pointer, when the [size] bytes at it lie in the process. *)
Definition argptr (n size : Z) : N (option Z) :=
  p <- myproc ;;
  r <- argint n ;;
  match r with
  | None => ret None
  | Some i =>
      if (size <? 0) || (p_sz p <=? u32 i) || (p_sz p <? u32 (u32 i + size)) then ret None
      else ret (Some (u32 i))
  end.

Definition argstr (n : Z) : N (option (list Z)) :=
  r <- argint n ;;
  match r with
  | None => ret None
  | Some addr => fetchstr (u32 addr)
  end.

(** ** file.c *)

Definition get_file (f : nat) : N file := fun k => from_opt (k_ftable k !! f) k.
Definition put_file (f : nat) (x : file) : N unit :=
  modify (fun k => mkKern (k_fs k) (k_mem k) (k_pt k) (<[f := x]> (k_ftable k)) (k_pipes k)
                     (k_cur k) (k_ticks k)).
Definition set_pipes (g : gmap Z pipe -> gmap Z pipe) : N unit :=
  modify (fun k => mkKern (k_fs k) (k_mem k) (k_pt k) (k_ftable k) (g (k_pipes k)) (k_cur k)
                     (k_ticks k)).

Fixpoint find_free (l : list file) (i : nat) : option nat :=
  match l with
  | [] => None
  | f :: l' => if fl_ref f =? 0 then Some i else find_free l' (Datatypes.S i)
  end.

Definition filealloc : N (option nat) :=
  t <- gets k_ftable ;;
  match find_free t 0 with
  | None => ret None
  | Some i => f <- get_file i ;; put_file i (set_fref 1 f) ;;; ret (Some i)
  end.

Definition filedup (f : nat) : N nat :=
  x <- get_file f ;;
  if fl_ref x <? 1 then panic "filedup"
  else put_file f (set_fref (fl_ref x + 1) x) ;;; ret f.

(** [pipeclose], with the wakeups and the release of the page. *)
Definition close_pipe (pp : Z) (writable : bool) : N unit :=
  ps <- gets k_pipes ;;
  p <- from_opt (ps !! pp) ;;
  let r := pipeclose writable p in
  on_pt (wakeup (ChAddr (if writable then pp else pp + 4))) ;;;
  if snd r then set_pipes (delete pp) ;;; on_mem (kfree pp)
  else set_pipes (insert pp (fst r)).

Definition fileclose (f : nat) : N unit :=
  x <- get_file f ;;
  if fl_ref x <? 1 then panic "fileclose"
  else if 0 <? fl_ref x - 1 then put_file f (set_fref (fl_ref x - 1) x)
  else
    put_file f (set_ftype FD_NONE (set_fref 0 x)) ;;;
    match fl_type x with
    | FD_PIPE => close_pipe (fl_pipe x) (fl_writable x)
    | FD_INODE =>
        on_fs begin_op ;;; on_fs (iput (fl_ip x)) ;;; on_fs end_op
    | FD_NONE => ret tt
    end.

Definition filestat (f : nat) : N (option stat) :=
  x <- get_file f ;;
  if bool_decide (fl_type x = FD_INODE) then
    on_fs (ilock (fl_ip x)) ;;;
    st <- on_fs (stati (fl_ip x) (replicate 16 0)) ;;
    on_fs (iunlock (fl_ip x)) ;;;
    ret (Some st)
  else ret None.

(** A pipe operation that has to sleep puts the caller to sleep on [c]. *)
Definition pipe_result (c : chan) (r : presult) : N Z :=
  match r with
  | PRet v => ret v
  | PSleep _ => cur <- gets k_cur ;; on_pt (sleep_on cur c) ;;; halt asleep_stop
  | PFault => halt fault_stop
  end.

Definition fileread (f : nat) (addr n : Z) : N Z :=
  x <- get_file f ;;
  if negb (fl_readable x) then ret (-1)
  else match fl_type x with
  | FD_PIPE =>
      p <- myproc ;;
      ps <- gets k_pipes ;;
      pp <- from_opt (ps !! fl_pipe x) ;;
      let '(pp', l, r) := piperead (p_killed p) n pp in
      set_pipes (insert (fl_pipe x) pp') ;;;
      v <- pipe_result (ChAddr (fl_pipe x)) r ;;
      user_write addr l ;;;
      when (0 <=? v) (on_pt (wakeup (ChAddr (fl_pipe x + 4)))) ;;;
      ret v
  | FD_INODE =>
      on_fs (ilock (fl_ip x)) ;;;
      r <- on_fs (readi devsw_read (fl_ip x) (fl_off x) n) ;;
      user_write addr (snd r) ;;;
      when (0 <? fst r) (
        y <- get_file f ;; put_file f (set_foff (u32 (fl_off y + fst r)) y)) ;;;
      on_fs (iunlock (fl_ip x)) ;;;
      ret (fst r)
  | FD_NONE => panic "fileread"
  end.

(** [((MAXOPBLOCKS-1-1-2) / 2) * 512] *)
Definition max_write : Z := (MAXOPBLOCKS - 1 - 1 - 2) / 2 * 512.

(** The loop of [filewrite] from byte [i]; every successful round writes at
    least one byte. *)
Fixpoint filewrite_loop (fuel : nat) (f : nat) (addr i n : Z) : N Z :=
  if i <? n then
    match fuel with
    | O => halt fuel_stop
    | Datatypes.S fuel' =>
        let n1 := Z.min (n - i) max_write in
        x <- get_file f ;;
        src <- user_read (addr + i) (Z.to_nat n1) ;;
        on_fs begin_op ;;;
        on_fs (ilock (fl_ip x)) ;;;
        r <- on_fs (writei devsw_write (fl_ip x) src (fl_off x) n1) ;;
        when (0 <? r) (
          y <- get_file f ;; put_file f (set_foff (u32 (fl_off y + r)) y)) ;;;
        on_fs (iunlock (fl_ip x)) ;;;
        on_fs end_op ;;;
        if r <? 0 then ret i
        else if negb (r =? n1) then panic "short filewrite"
        else filewrite_loop fuel' f addr (i + r) n
    end
  else ret i.

Definition filewrite (f : nat) (addr n : Z) : N Z :=
  x <- get_file f ;;
  if negb (fl_writable x) then ret (-1)
  else match fl_type x with
  | FD_PIPE =>
      p <- myproc ;;
      ps <- gets k_pipes ;;
      pp <- from_opt (ps !! fl_pipe x) ;;
      src <- user_read addr (Z.to_nat n) ;;
      let '(pp', r) := pipewrite (p_killed p) src n pp in
      set_pipes (insert (fl_pipe x) pp') ;;;
      when (match r with PRet v => v =? n | _ => true end) (on_pt (wakeup (ChAddr (fl_pipe x)))) ;;;
      pipe_result (ChAddr (fl_pipe x + 4)) r
  | FD_INODE =>
      i <- filewrite_loop (Z.to_nat n) f addr 0 n ;;
      ret (if i =? n then n else -1)
  | FD_NONE => panic "filewrite"
  end.

(** [pipealloc]: the read end and the write end. *)
Definition pipealloc : N (option (nat * nat)) :=
  f0 <- filealloc ;;
  match f0 with
  | None => ret None
  | Some f0 =>
      f1 <- filealloc ;;
      match f1 with
      | None => fileclose f0 ;;; ret None
      | Some f1 =>
          pp <- on_mem kalloc ;;
          if pp =? 0 then fileclose f0 ;;; fileclose f1 ;;; ret None
          else
            set_pipes (insert pp (pipe_init (replicate 512 0))) ;;;
            x0 <- get_file f0 ;;
            put_file f0 (mkFile FD_PIPE (fl_ref x0) true false pp (fl_ip x0) (fl_off x0)) ;;;
            x1 <- get_file f1 ;;
            put_file f1 (mkFile FD_PIPE (fl_ref x1) false true pp (fl_ip x1) (fl_off x1)) ;;;
            ret (Some (f0, f1))
      end
  end.
End Kern.
