(* ===== verification/Sysfile.v ===== *)
(** * sysfile.c: the file-system calls

    [create] and [isdirempty] over the file system, and every [sys_...] function
    of sysfile.c except [sys_exec] (Exec.v) over the kernel state.  A result of
    [-1] is an error. *)

From S2P Require Import Prelude KMonad CString Params Kalloc Vm Proc Pipe Bio Users Store Fs Kern.

Definition s_dot : list Z := [46; 0].
Definition s_dotdot : list Z := [46; 46; 0].
(** An uninitialised [char name[DIRSIZ]]. *)
Definition name_buf : list Z := replicate 14 0.

Section FsCalls.
Context {S : Type} `{TxStore S}.
Context (devsw_read : Z -> option (nat -> Z -> M (fs S) (Z * list Z))).
Context (devsw_write : Z -> option (nat -> list Z -> Z -> M (fs S) Z)).
Local Abbreviation F := (M (fs S)).

(** [for(off=2*sizeof(de); off<dp->size; off+=sizeof(de))] *)
Definition isdirempty (dp : nat) : F bool :=
  x <- get_inode dp ;;
  r <- for_until (drop 2 (dirent_offs (i_size x))) (fun off =>
    r <- readi devsw_read dp off sizeof_dirent ;;
    if negb (fst r =? sizeof_dirent) then panic "isdirempty: readi"
    else ret (if negb (de_inum (snd r) =? 0) then Some false else None)) ;;
  ret (default true r).

(** Returns the inode locked, or [None]. *)
Definition create (path : list Z) (type major minor : Z) : F (option nat) :=
  r <- nameiparent devsw_read path name_buf ;;
  match r with
  | None => ret None
  | Some (dp, name) =>
      ilock dp ;;;
      r <- dirlookup devsw_read dp name ;;
      match r with
      | Some (ip, _) =>
          iunlockput dp ;;;
          ilock ip ;;;
          x <- get_inode ip ;;
          if (type =? T_FILE) && (i_type x =? T_FILE) then
            cur <- gets f_cur ;;
            if negb (has_write_permission cur x) then ret None else ret (Some ip)
          else iunlockput ip ;;; ret None
      | None =>
          dx <- get_inode dp ;;
          cur <- gets f_cur ;;
          if negb (has_write_permission cur dx) then iunlockput dp ;;; ret None
          else
            ip <- ialloc (i_dev dx) type ;;
            ilock ip ;;;
            upd_d ip (d_set_dev (i16 major) (i16 minor)) ;;;
            upd_d ip (d_set_nlink 1) ;;;
            iupdate ip ;;;
            x <- get_inode ip ;;
            when (type =? T_DIR) (
              upd_d dp (fun d => d_set_nlink (i16 (d_nlink d + 1)) d) ;;;
              iupdate dp ;;;
              r <- dirlink devsw_read devsw_write ip s_dot (i_inum x) ;;
              if r <? 0 then panic "create dots"
              else
                r <- dirlink devsw_read devsw_write ip s_dotdot (i_inum dx) ;;
                if r <? 0 then panic "create dots" else ret tt) ;;;
            r <- dirlink devsw_read devsw_write dp name (i_inum x) ;;
            if r <? 0 then panic "create: dirlink"
            else iunlockput dp ;;; ret (Some ip)
      end
  end.

(** The body of [sys_link] after its arguments were fetched. *)
Definition link (old new : list Z) : F Z :=
  begin_op ;;;
  r <- namei devsw_read old ;;
  match r with
  | None => end_op ;;; ret (-1)
  | Some ip =>
      ilock ip ;;;
      x <- get_inode ip ;;
      if i_type x =? T_DIR then iunlockput ip ;;; end_op ;;; ret (-1)
      else
        upd_d ip (fun d => d_set_nlink (i16 (d_nlink d + 1)) d) ;;;
        iupdate ip ;;;
        iunlock ip ;;;
        r <- nameiparent devsw_read new name_buf ;;
        ok <- match r with
              | None => ret false
              | Some (dp, name) =>
                  ilock dp ;;;
                  dx <- get_inode dp ;;
                  x <- get_inode ip ;;
                  bad <- (if negb (i_dev dx =? i_dev x) then ret true
                          else r <- dirlink devsw_read devsw_write dp name (i_inum x) ;; ret (r <? 0)) ;;
                  iunlockput dp ;;;
                  ret (negb bad)
              end ;;
        if ok : bool then iput ip ;;; end_op ;;; ret 0
        else
          ilock ip ;;;
          upd_d ip (fun d => d_set_nlink (i16 (d_nlink d - 1)) d) ;;;
          iupdate ip ;;;
          iunlockput ip ;;;
          end_op ;;;
          ret (-1)
  end.

(** [namecmp(name, ".") == 0 || namecmp(name, "..") == 0] *)
Definition is_dots (name : list Z) : option bool :=
  a ← namecmp name s_dot;
  if a =? 0 then Some true else b ← namecmp name s_dotdot; Some (b =? 0).

Definition unlink (path : list Z) : F Z :=
  begin_op ;;;
  r <- nameiparent devsw_read path name_buf ;;
  match r with
  | None => end_op ;;; ret (-1)
  | Some (dp, name) =>
      let bad := iunlockput dp ;;; end_op ;;; ret (-1) in
      ilock dp ;;;
      dx <- get_inode dp ;;
      cur <- gets f_cur ;;
      if negb (has_write_permission cur dx) then bad
      else
        dots <- from_opt (is_dots name) ;;
        if dots : bool then bad
        else
          r <- dirlookup devsw_read dp name ;;
          match r with
          | None => bad
          | Some (ip, off) =>
              ilock ip ;;;
              x <- get_inode ip ;;
              if i_nlink x <? 1 then panic "unlink: nlink < 1"
              else
                empty <- (if i_type x =? T_DIR then isdirempty ip else ret true) ;;
                if negb empty then iunlockput ip ;;; bad
                else
                  w <- writei devsw_write dp (replicate 16 0) off sizeof_dirent ;;
                  if negb (w =? sizeof_dirent) then panic "unlink: writei"
                  else
                    when (i_type x =? T_DIR) (
                      upd_d dp (fun d => d_set_nlink (i16 (d_nlink d - 1)) d) ;;; iupdate dp) ;;;
                    iunlockput dp ;;;
                    upd_d ip (fun d => d_set_nlink (i16 (d_nlink d - 1)) d) ;;;
                    iupdate ip ;;;
                    iunlockput ip ;;;
                    end_op ;;;
                    ret 0
          end
  end.

Definition chmod (path : list Z) (mode : Z) : F Z :=
  begin_op ;;;
  r <- namei devsw_read path ;;
  match r with
  | None => end_op ;;; ret (-1)
  | Some ip =>
      ilock ip ;;;
      x <- get_inode ip ;;
      cur <- gets f_cur ;;
      if negb (has_own cur x) then iunlockput ip ;;; end_op ;;; ret (-1)
      else
        upd_d ip (d_set_perm (i8 (Z.land mode MODE_ALL))) ;;;
        iupdate ip ;;;
        iunlockput ip ;;;
        end_op ;;;
        ret 0
  end.

(** [MODE_RUSR | MODE_WUSR | MODE_ROTH] and the mode of directories. *)
Definition mode_file : Z := Z.lor (Z.lor MODE_RUSR MODE_WUSR) MODE_ROTH.
Definition mode_dir : Z :=
  Z.lor (Z.lor (Z.lor (Z.lor MODE_RUSR MODE_WUSR) MODE_XUSR) MODE_ROTH) MODE_XOTH.

(** [ip->perm = perm; ip->owner = owner; iupdate(ip)] *)
Definition own (ip : nat) (perm owner : Z) : F unit :=
  upd_d ip (d_set_perm perm) ;;; upd_d ip (d_set_owner owner) ;;; iupdate ip.

(** [sys_open] up to the allocation of a file: the inode, locked, or [None]
    after [end_op]. *)
Definition open_inode (path : list Z) (omode : Z) : F (option nat) :=
  begin_op ;;;
  cur <- gets f_cur ;;
  r <- (if negb (Z.land omode O_CREATE =? 0) then
          r <- create path T_FILE 0 0 ;;
          match r with
          | None => end_op ;;; ret None
          | Some ip => own ip mode_file (c_uid cur) ;;; ret (Some ip)
          end
        else
          r <- namei devsw_read path ;;
          match r with
          | None => end_op ;;; ret None
          | Some ip =>
              ilock ip ;;;
              x <- get_inode ip ;;
              if (i_type x =? T_DIR) && negb (omode =? O_RDONLY)
              then iunlockput ip ;;; end_op ;;; ret None
              else ret (Some ip)
          end) ;;
  match r with
  | None => ret None
  | Some ip =>
      x <- get_inode ip ;;
      if ((omode =? O_RDONLY) || (omode =? O_RDWR)) && negb (has_read_permission cur x)
      then iunlockput ip ;;; end_op ;;; ret None
      else if ((omode =? O_WRONLY) || (omode =? O_RDWR)) && negb (has_write_permission cur x)
      then iunlockput ip ;;; end_op ;;; ret None
      else ret (Some ip)
  end.

(** [sys_mkdir], [sys_mknod] and [sys_chdir] after [begin_op] and their arguments. *)
Definition mkdir (path : option (list Z)) : F Z :=
  r <- (match path with None => ret None | Some path => create path T_DIR 0 0 end) ;;
  match r with
  | None => end_op ;;; ret (-1)
  | Some ip =>
      cur <- gets f_cur ;;
      own ip mode_dir (c_uid cur) ;;;
      iunlockput ip ;;;
      end_op ;;;
      ret 0
  end.

Definition mknod (args : option (list Z * Z * Z)) : F Z :=
  r <- (match args with
        | None => ret None
        | Some (path, major, minor) => create path T_DEV (i16 major) (i16 minor)
        end) ;;
  match r with
  | None => end_op ;;; ret (-1)
  | Some ip => iunlockput ip ;;; end_op ;;; ret 0
  end.

(** The new current directory; the old one is released. *)
Definition chdir (path : option (list Z)) : F (option nat) :=
  r <- (match path with None => ret None | Some path => namei devsw_read path end) ;;
  match r with
  | None => end_op ;;; ret None
  | Some ip =>
      ilock ip ;;;
      x <- get_inode ip ;;
      cur <- gets f_cur ;;
      if negb (i_type x =? T_DIR) then iunlockput ip ;;; end_op ;;; ret None
      else if negb (has_execute_permission cur x) then iunlockput ip ;;; end_op ;;; ret None
      else
        iunlock ip ;;;
        d <- from_opt (c_cwd cur) ;;
        iput d ;;;
        end_op ;;;
        ret (Some ip)
  end.
End FsCalls.

Section Calls.
Context {S : Type} `{TxStore S}.
Context (devsw_read : Z -> option (nat -> Z -> M (fs S) (Z * list Z))).
Context (devsw_write : Z -> option (nat -> list Z -> Z -> M (fs S) Z)).
Local Abbreviation N := (M (kern S)).

(** The descriptor and the file. *)
Definition argfd (n : Z) : N (option (Z * nat)) :=
  r <- argint n ;;
  match r with
  | None => ret None
  | Some fd =>
      p <- myproc ;;
      if (fd <? 0) || (NOFILE <=? fd) then ret None
      else
        o <- from_opt (zget (p_ofile p) fd) ;;
        ret ((fun f => (fd, f)) <$> o)
  end.

Fixpoint free_fd (l : list (option nat)) (i : nat) : option nat :=
  match l with
  | [] => None
  | None :: _ => Some i
  | Some _ :: l' => free_fd l' (Datatypes.S i)
  end.

Definition fdalloc (f : nat) : N (option Z) :=
  p <- myproc ;;
  match free_fd (p_ofile p) 0 with
  | None => ret None
  | Some fd =>
      upd_cur (fun p => set_ofile (<[fd := Some f]> (p_ofile p)) p) ;;; ret (Some (Z.of_nat fd))
  end.

(** [myproc()->ofile[fd] = 0] *)
Definition clear_fd (fd : Z) : N unit :=
  upd_cur (fun p => set_ofile (<[Z.to_nat fd := None]> (p_ofile p)) p).

Definition sys_dup : N Z :=
  r <- argfd 0 ;;
  match r with
  | None => ret (-1)
  | Some (_, f) =>
      fd <- fdalloc f ;;
      match fd with
      | None => ret (-1)
      | Some fd => _ <- filedup f ;; ret fd
      end
  end.

(** [argfd(0, 0, &f) < 0 || argint(2, &n) < 0 || argptr(1, &p, n) < 0] *)
Definition rw_args : N (option (nat * Z * Z)) :=
  r <- argfd 0 ;;
  match r with
  | None => ret None
  | Some (_, f) =>
      n <- argint 2 ;;
      match n with
      | None => ret None
      | Some n =>
          p <- argptr 1 n ;;
          match p with None => ret None | Some p => ret (Some (f, p, n)) end
      end
  end.

Definition sys_read : N Z :=
  r <- rw_args ;;
  match r with None => ret (-1) | Some (f, p, n) => fileread devsw_read f p n end.

Definition sys_write : N Z :=
  r <- rw_args ;;
  match r with None => ret (-1) | Some (f, p, n) => filewrite devsw_write f p n end.

Definition sys_close : N Z :=
  r <- argfd 0 ;;
  match r with
  | None => ret (-1)
  | Some (fd, f) => clear_fd fd ;;; fileclose f ;;; ret 0
  end.

(** [struct stat] in user memory: [perm] at 0, [type] at 1, [dev] at 4, [ino] at 8,
    [nlink] at 12, [size] at 16, [owner] at 20, [owner_name] at 24. *)
Definition sizeof_stat : Z := 40.
Definition stat_bytes (st : stat) : list (Z * list Z) :=
  [(0, [u8 (st_perm st)]); (1, [u8 (st_type st)]); (4, le_bytes 4 (u32 (st_dev st)));
   (8, le_bytes 4 (u32 (st_ino st))); (12, le_bytes 2 (u16 (st_nlink st)));
   (16, le_bytes 4 (u32 (st_size st))); (20, le_bytes 4 (u32 (st_owner st)));
   (24, st_owner_name st)].

Definition sys_fstat : N Z :=
  r <- argfd 0 ;;
  match r with
  | None => ret (-1)
  | Some (_, f) =>
      p <- argptr 1 sizeof_stat ;;
      match p with
      | None => ret (-1)
      | Some p =>
          st <- filestat f ;;
          match st with
          | None => ret (-1)
          | Some st => for_each (stat_bytes st) (fun x => user_write (p + fst x) (snd x)) ;;; ret 0
          end
      end
  end.

Definition sys_link : N Z :=
  o <- argstr 0 ;;
  match o with
  | None => ret (-1)
  | Some old =>
      n <- argstr 1 ;;
      match n with
      | None => ret (-1)
      | Some new => on_fs (link devsw_read devsw_write old new)
      end
  end.

Definition sys_unlink : N Z :=
  p <- argstr 0 ;;
  match p with
  | None => ret (-1)
  | Some path => on_fs (unlink devsw_read devsw_write path)
  end.

Definition sys_chmod : N Z :=
  p <- argstr 0 ;;
  match p with
  | None => ret (-1)
  | Some path =>
      m <- argint 1 ;;
      match m with None => ret (-1) | Some mode => on_fs (chmod devsw_read path mode) end
  end.

Definition sys_open : N Z :=
  p <- argstr 0 ;;
  match p with
  | None => ret (-1)
  | Some path =>
      m <- argint 1 ;;
      match m with
      | None => ret (-1)
      | Some omode =>
          r <- on_fs (open_inode devsw_read devsw_write path omode) ;;
          match r with
          | None => ret (-1)
          | Some ip =>
              let fail := on_fs (iunlockput ip) ;;; on_fs end_op ;;; ret (-1) in
              f <- filealloc ;;
              match f with
              | None => fail
              | Some f =>
                  fd <- fdalloc f ;;
                  match fd with
                  | None => fileclose f ;;; fail
                  | Some fd =>
                      on_fs (iunlock ip) ;;;
                      on_fs end_op ;;;
                      x <- get_file f ;;
                      put_file f (mkFile FD_INODE (fl_ref x)
                        (Z.land omode O_WRONLY =? 0)
                        (negb (Z.land omode O_WRONLY =? 0) || negb (Z.land omode O_RDWR =? 0))
                        (fl_pipe x) ip 0) ;;;
                      ret fd
                  end
              end
          end
      end
  end.

Definition sys_mkdir : N Z :=
  on_fs begin_op ;;;
  p <- argstr 0 ;; on_fs (mkdir devsw_read devsw_write p).

Definition sys_mknod : N Z :=
  on_fs begin_op ;;;
  p <- argstr 0 ;;
  args <- match p with
          | None => ret None
          | Some path =>
              a <- argint 1 ;;
              match a with
              | None => ret None
              | Some major =>
                  b <- argint 2 ;;
                  ret ((fun minor => (path, major, minor)) <$> b)
              end
          end ;;
  on_fs (mknod devsw_read devsw_write args).

Definition sys_chdir : N Z :=
  on_fs begin_op ;;;
  p <- argstr 0 ;;
  r <- on_fs (chdir devsw_read p) ;;
  match r with
  | None => ret (-1)
  | Some ip => upd_cur (set_cwd (Some ip)) ;;; ret 0
  end.

Definition sys_pipe : N Z :=
  fd <- argptr 0 8 ;;
  match fd with
  | None => ret (-1)
  | Some fd =>
      r <- pipealloc ;;
      match r with
      | None => ret (-1)
      | Some (rf, wf) =>
          fd0 <- fdalloc rf ;;
          match fd0 with
          | None => fileclose rf ;;; fileclose wf ;;; ret (-1)
          | Some fd0 =>
              fd1 <- fdalloc wf ;;
              match fd1 with
              | None => clear_fd fd0 ;;; fileclose rf ;;; fileclose wf ;;; ret (-1)
              | Some fd1 =>
                  user_write fd (le_bytes 4 (u32 fd0)) ;;;
                  user_write (fd + 4) (le_bytes 4 (u32 fd1)) ;;;
                  ret 0
              end
          end
      end
  end.
End Calls.
