(* ===== verification/Passwd.v ===== *)
(** * usermanage.c and sysuser.c: accounts and logging in

    The functions of usermanage.c that keep the user table in /passwd, and the
    system calls of sysuser.c. *)

From S2P Require Import Prelude KMonad CString Params Kalloc Vm Proc Pipe Bio Users Store Fs Kern Sysfile.

(** [struct User] and the table as they lie in memory. *)
Definition user_bytes (u : User) : list Z := u_username u ++ u_passwd u ++ le_bytes 4 (u_uid u).
Definition utable_bytes (t : list User) : list Z := mjoin (user_bytes <$> t).

Definition sizeof_User : nat := 36.
Definition read_user (b : list Z) : User :=
  mkUser (slice 0 16 b) (slice 16 16 b) (get_le 4 32 b).
Definition read_utable (b : list Z) : list User :=
  (fun i => read_user (slice (i * sizeof_User) sizeof_User b)) <$> seq 0 (Z.to_nat NUSER).

Definition sizeof_utable : Z := NUSER * Z.of_nat sizeof_User.

(** The string literals. *)
Definition s_passwd : list Z := [47; 112; 97; 115; 115; 119; 100; 0].
Definition s_root : list Z := [114; 111; 111; 116; 0].
Definition s_0000 : list Z := [48; 48; 48; 48; 0].

Section Passwd.
Context {S : Type} `{TxStore S}.
Context (devsw_read : Z -> option (nat -> Z -> M (fs S) (Z * list Z))).
Context (devsw_write : Z -> option (nat -> list Z -> Z -> M (fs S) Z)).
Local Abbreviation F := (M (fs S)).
Local Abbreviation N := (M (kern S)).

Definition write_usertable (ip : nat) : F unit :=
  u <- gets f_ut ;;
  w <- writei devsw_write ip (le_bytes 4 (next_uid u)) 0 4 ;;
  if negb (w =? 4) then panic "failed to write user table!"
  else
    w <- writei devsw_write ip (utable_bytes (utable u)) 4 sizeof_utable ;;
    if negb (w =? sizeof_utable) then panic "failed to write user table!" else ret tt.

Definition export_usertable : F unit :=
  begin_op ;;;
  u <- gets f_ut ;;
  match utable_ip u with
  | None => panic "ilock"
  | Some ip =>
      ilock ip ;;;
      write_usertable ip ;;;
      iunlock ip ;;;
      end_op
  end.

(** The loop over the slots from 1, then slot 0 becomes root's. *)
Definition init_table : M utab unit :=
  modify (set_next_uid (ROOT_UID + 1)) ;;;
  for_each (seq 1 (Z.to_nat NUSER - 1)) clear_slot ;;;
  t <- gets utable ;;
  e <- from_opt (t !! 0%nat) ;;
  n <- from_opt (strncpy (u_username e) s_root (Z.to_nat USERNAME_MAXLEN)) ;;
  p <- from_opt (strncpy (u_passwd e) s_0000 (Z.to_nat USER_PW_MAXLEN)) ;;
  modify (set_utable (<[0%nat := mkUser n p ROOT_UID]> t)).

Definition create_usertable : F nat :=
  on_ut init_table ;;;
  r <- create devsw_read devsw_write s_passwd T_FILE 0 0 ;;
  match r with
  | None => panic "failed to create user table!"
  | Some ip =>
      own ip (Z.lor MODE_RUSR MODE_WUSR) ROOT_UID ;;;
      write_usertable ip ;;;
      ret ip
  end.

Definition init_usertable : F Z :=
  u <- gets f_ut ;;
  if utable_initialized u then ret (-1)
  else
    begin_op ;;;
    r <- namei devsw_read s_passwd ;;
    ip <- match r with
          | None => create_usertable
          | Some ip =>
              ilock ip ;;;
              a <- readi devsw_read ip 0 4 ;;
              on_ut (modify (set_next_uid (if fst a =? 4 then get_le 4 0 (snd a) else next_uid u))) ;;;
              if negb (fst a =? 4) then panic "failed to initialize user table!"
              else
                b <- readi devsw_read ip 4 sizeof_utable ;;
                if negb (fst b =? sizeof_utable) then panic "failed to initialize user table!"
                else on_ut (modify (set_utable (read_utable (snd b)))) ;;; ret ip
          end ;;
    iunlock ip ;;;
    end_op ;;;
    on_ut (modify (fun u => mkUtab (utable u) (next_uid u) true (Some ip) initsleeplock)) ;;;
    ret 0.

(** [add_user] from the point where it holds the lock of the table. *)
Definition add_locked (username passwd : list Z) : F Z :=
  u <- gets f_ut ;;
  r <- from_opt (find_slot (utable u) username 0 None) ;;
  match r with
  | inl _ => on_ut unlock_utable ;;; ret 0
  | inr None => on_ut unlock_utable ;;; ret 0
  | inr (Some i) =>
      on_ut (fill_slot i username passwd) ;;;
      export_usertable ;;;
      on_ut unlock_utable ;;;
      u <- gets f_ut ;;
      e <- from_opt (utable u !! i) ;;
      ret (u_uid e)
  end.

Definition add_user (username passwd : list Z) : F Z :=
  vu <- from_opt (is_valid_username username) ;;
  vp <- (if vu : bool then from_opt (is_valid_passwd passwd) else ret false) ;;
  if negb vu || negb vp then ret 0
  else
    cur <- gets f_cur ;;
    on_ut (lock_utable (c_pid cur)) ;;;
    add_locked username passwd.

Definition delete_user (username : list Z) : F Z :=
  vu <- from_opt (is_valid_username username) ;;
  if negb vu then ret (-1)
  else
    c <- from_opt (strncmp s_root username (Z.to_nat USERNAME_MAXLEN)) ;;
    if c =? 0 then ret (-1)
    else
      cur <- gets f_cur ;;
      on_ut (lock_utable (c_pid cur)) ;;;
      u <- gets f_ut ;;
      r <- from_opt (find_user_with_username (utable u) username 0) ;;
      match r with
      | None => on_ut unlock_utable ;;; ret (-1)
      | Some i =>
          on_ut (clear_slot i) ;;;
          export_usertable ;;;
          on_ut unlock_utable ;;;
          ret 0
      end.

(** ** sysuser.c *)

(** [path[0] = '/'; strncpy(&path[1], username, USERNAME_MAXLEN);] on an
    uninitialised buffer. *)
Definition home_path (username : list Z) : option (list Z) :=
  s ← strncpy (replicate 16 0) username (Z.to_nat USERNAME_MAXLEN); Some (SLASH :: s).

Definition create_home_directory (username : list Z) (uid : Z) : F unit :=
  path <- from_opt (home_path username) ;;
  begin_op ;;;
  r <- create devsw_read devsw_write path T_DIR 0 0 ;;
  match r with
  | None => end_op
  | Some ip => own ip mode_dir uid ;;; iunlockput ip ;;; end_op
  end.

(** The new current directory, if it changes; the old one is released. *)
Definition set_cwd_as_home_directory (username : list Z) : F (option nat) :=
  c <- from_opt (strncmp s_root username (Z.to_nat USERNAME_MAXLEN)) ;;
  path <- (if negb (c =? 0) then from_opt (home_path username) else ret (SLASH :: replicate 16 0)) ;;
  begin_op ;;;
  r <- namei devsw_read path ;;
  match r with
  | None => end_op ;;; ret None
  | Some ip =>
      ilock ip ;;;
      x <- get_inode ip ;;
      if negb (i_type x =? T_DIR) then iunlockput ip ;;; end_op ;;; ret None
      else
        cur <- gets f_cur ;;
        iunlock ip ;;;
        d <- from_opt (c_cwd cur) ;;
        iput d ;;;
        end_op ;;;
        ret (Some ip)
  end.

(** [argstr(0, &username) < 0 || argstr(1, &passwd) < 0] *)
Definition two_strings : N (option (list Z * list Z)) :=
  a <- argstr 0 ;;
  match a with
  | None => ret None
  | Some x => b <- argstr 1 ;; ret ((fun y => (x, y)) <$> b)
  end.

Definition sys_login : N Z :=
  r <- two_strings ;;
  match r with
  | None => ret (-1)
  | Some (username, passwd) =>
      p <- myproc ;;
      uid <- on_fs (on_ut (getuid (p_pid p) username passwd)) ;;
      if uid =? 0 then ret (-1)
      else
        d <- on_fs (set_cwd_as_home_directory username) ;;
        (match d with None => ret tt | Some ip => upd_cur (set_cwd (Some ip)) end) ;;;
        i <- gets k_cur ;;
        on_pt (change_user i uid) ;;;
        ret 0
  end.

Definition sys_addUser : N Z :=
  p <- myproc ;;
  if negb (p_uid p =? ROOT_UID) then ret (-1)
  else
    r <- two_strings ;;
    match r with
    | None => ret (-1)
    | Some (username, passwd) =>
        uid <- on_fs (add_user username passwd) ;;
        if uid =? 0 then ret (-1)
        else on_fs (create_home_directory username uid) ;;; ret 0
    end.

Definition sys_deleteUser : N Z :=
  p <- myproc ;;
  if negb (p_uid p =? ROOT_UID) then ret (-1)
  else
    r <- argstr 0 ;;
    match r with
    | None => ret (-1)
    | Some username => on_fs (delete_user username)
    end.
End Passwd.
