(* ===== verification/Exec.v ===== *)
(** * exec.c, proc.c and sysproc.c over the whole kernel; the system-call table

    Program loading, and the functions of proc.c that involve memory, files and
    inodes.  A call that has to sleep (or does not return) ends the run. *)

From S2P Require Import Prelude KMonad CString Params Kalloc Vm Proc Pipe Bio Users Store Fs Kern Sysfile Passwd.

(** [struct elfhdr] and [struct proghdr], from their bytes. *)
Definition ELF_MAGIC : Z := 1179403647.
Definition ELF_PROG_LOAD : Z := 1.
Definition sizeof_elfhdr : Z := 52.
Definition sizeof_proghdr : Z := 32.
Definition elf_magic (b : list Z) : Z := get_le 4 0 b.
Definition elf_entry (b : list Z) : Z := get_le 4 24 b.
Definition elf_phoff (b : list Z) : Z := get_le 4 28 b.
Definition elf_phnum (b : list Z) : Z := get_le 2 44 b.
Definition ph_type (b : list Z) : Z := get_le 4 0 b.
Definition ph_off (b : list Z) : Z := get_le 4 4 b.
Definition ph_vaddr (b : list Z) : Z := get_le 4 8 b.
Definition ph_filesz (b : list Z) : Z := get_le 4 16 b.
Definition ph_memsz (b : list Z) : Z := get_le 4 20 b.

(** [for(last=s=path; *s; s++) if( *s == '/') last = s+1;] *)
Fixpoint last_elem (s last : list Z) : option (list Z) :=
  match s with
  | [] => None
  | c :: s' => if c =? 0 then Some last else last_elem s' (if c =? SLASH then s' else last)
  end.

Section Exec.
Context {S : Type} `{TxStore S}.
Context (devsw_read : Z -> option (nat -> Z -> M (fs S) (Z * list Z))).
Context (devsw_write : Z -> option (nat -> list Z -> Z -> M (fs S) Z)).
(** The linker symbol [data] (see [kmap]). *)
Context (data : Z).
Local Abbreviation N := (M (kern S)).

(** vm.c: [switchuvm] of the current process: its checks.  The task-state segment
    and the page-table register it then loads are not part of the state; user
    memory is always accessed through the current process's [pgdir]. *)
Definition switchuvm : N unit :=
  p <- myproc ;;
  if p_kstack p =? 0 then panic "switchuvm: no kstack"
  else if p_pgdir p =? 0 then panic "switchuvm: no pgdir"
  else ret tt.

(** vm.c: [loaduvm]; the pages of the segment, with [false] for the result -1. *)
Fixpoint loaduvm_loop (n : nat) (pgdir addr : Z) (ip : nat) (offset sz i : Z) : N bool :=
  match n with
  | O => ret true
  | Datatypes.S n' =>
      p <- on_mem (walkpgdir pgdir (u32 (addr + i)) false) ;;
      match p with
      | None => panic "loaduvm: address should exist"
      | Some pte =>
          v <- on_mem (load pte) ;;
          let n1 := Z.min (sz - i) PGSIZE in
          r <- on_fs (readi devsw_read ip (u32 (offset + i)) n1) ;;
          on_mem (store_bytes (P2V (PTE_ADDR v)) (snd r)) ;;;
          if negb (fst r =? n1) then ret false
          else loaduvm_loop n' pgdir addr ip offset sz (i + PGSIZE)
      end
  end.

Definition loaduvm (pgdir addr : Z) (ip : nat) (offset sz : Z) : N bool :=
  if negb (addr mod PGSIZE =? 0) then panic "loaduvm: addr must be page aligned"
  else loaduvm_loop (pages_between 0 sz) pgdir addr ip offset sz 0.

(** The loop over the program headers: the size of the image, or [None]. *)
Fixpoint load_segments (n : nat) (pgdir : Z) (ip : nat) (off sz : Z) : N (option Z) :=
  match n with
  | O => ret (Some sz)
  | Datatypes.S n' =>
      r <- on_fs (readi devsw_read ip (u32 off) sizeof_proghdr) ;;
      if negb (fst r =? sizeof_proghdr) then ret None
      else
        let ph := snd r in
        if negb (ph_type ph =? ELF_PROG_LOAD)
        then load_segments n' pgdir ip (i32 (off + sizeof_proghdr)) sz
        else if ph_memsz ph <? ph_filesz ph then ret None
        else if u32 (ph_vaddr ph + ph_memsz ph) <? ph_vaddr ph then ret None
        else
          sz <- on_mem (allocuvm pgdir sz (u32 (ph_vaddr ph + ph_memsz ph))) ;;
          if sz =? 0 then ret None
          else if negb (ph_vaddr ph mod PGSIZE =? 0) then ret None
          else
            ok <- loaduvm pgdir (ph_vaddr ph) ip (ph_off ph) (ph_filesz ph) ;;
            if negb ok then ret None
            else load_segments n' pgdir ip (i32 (off + sizeof_proghdr)) sz
  end.

(** The loop that pushes the argument strings: the stack pointer and the
    addresses of the strings. *)
Fixpoint push_args (argv : list (list Z)) (argc : Z) (pgdir sp : Z) (ptrs : list Z)
    : N (option (Z * list Z)) :=
  match argv with
  | [] => ret (Some (sp, ptrs))
  | s :: argv' =>
      if MAXARG <=? argc then ret None
      else
        len <- from_opt (strlen s) ;;
        let sp := Z.land (u32 (sp - (len + 1))) (u32 (Z.lnot 3)) in
        r <- on_mem (copyout pgdir sp (take (Z.to_nat (len + 1)) s)) ;;
        if r <? 0 then ret None
        else push_args argv' (argc + 1) pgdir sp (ptrs ++ [sp])
  end.

(** [ustack]: fake return address, argc, argv, the pointers and a null. *)
Definition ustack (sp : Z) (ptrs : list Z) : list Z :=
  let argc := zlen ptrs in
  mjoin (le_bytes 4 <$> [4294967295; argc; u32 (sp - (argc + 1) * 4)] ++ ptrs ++ [0]).

(** The part of [exec] after the image is loaded: the new size and stack
    pointer. *)
Definition exec_stack (pgdir sz : Z) (argv : list (list Z)) : N (option (Z * Z)) :=
  let sz := PGROUNDUP sz in
  sz <- on_mem (allocuvm pgdir sz (u32 (sz + 2 * PGSIZE))) ;;
  if sz =? 0 then ret None
  else
    on_mem (clearpteu pgdir (u32 (sz - 2 * PGSIZE))) ;;;
    r <- push_args argv 0 pgdir sz [] ;;
    match r with
    | None => ret None
    | Some (sp, ptrs) =>
        let sp' := u32 (sp - (3 + zlen ptrs + 1) * 4) in
        r <- on_mem (copyout pgdir sp' (ustack sp ptrs)) ;;
        if r <? 0 then ret None else ret (Some (sz, sp'))
    end.

Definition exec (path : list Z) (argv : list (list Z)) : N Z :=
  on_fs begin_op ;;;
  r <- on_fs (namei devsw_read path) ;;
  match r with
  | None => on_fs end_op ;;; ret (-1)
  | Some ip =>
      let bad_ip := on_fs (iunlockput ip) ;;; on_fs end_op ;;; ret (-1) in
      on_fs (ilock ip) ;;;
      x <- on_fs (get_inode ip) ;;
      cur <- on_fs (gets f_cur) ;;
      if negb (has_execute_permission cur x) then bad_ip
      else
        r <- on_fs (readi devsw_read ip 0 sizeof_elfhdr) ;;
        let elf := snd r in
        if negb (fst r =? sizeof_elfhdr) then bad_ip
        else if negb (elf_magic elf =? ELF_MAGIC) then bad_ip
        else
          pgdir <- on_mem (setupkvm data) ;;
          if pgdir =? 0 then bad_ip
          else
            sz <- load_segments (Z.to_nat (elf_phnum elf)) pgdir ip (i32 (elf_phoff elf)) 0 ;;
            match sz with
            | None => on_mem (freevm pgdir) ;;; bad_ip
            | Some sz =>
                on_fs (iunlockput ip) ;;;
                on_fs end_op ;;;
                r <- exec_stack pgdir sz argv ;;
                match r with
                | None => on_mem (freevm pgdir) ;;; ret (-1)
                | Some (sz, sp) =>
                    last <- from_opt (last_elem path path) ;;
                    p <- myproc ;;
                    name <- from_opt (safestrcpy (p_name p) last 16) ;;
                    upd_cur (fun p => set_name name (set_vm sz pgdir (set_tf
                      (mkTf (tf_eax (p_tf p)) (elf_entry elf) sp) p))) ;;;
                    switchuvm ;;;
                    on_mem (freevm (p_pgdir p)) ;;;
                    ret 0
                end
            end
  end.

(** sysfile.c: the loop of [sys_exec] that fetches [argv]. *)
Fixpoint fetch_args (fuel : nat) (uargv i : Z) : N (option (list (list Z))) :=
  match fuel with
  | O => ret None
  | Datatypes.S fuel' =>
      a <- fetchint (u32 (uargv + 4 * i)) ;;
      match a with
      | None => ret None
      | Some a =>
          if u32 a =? 0 then ret (Some [])
          else
            s <- fetchstr (u32 a) ;;
            match s with
            | None => ret None
            | Some s => r <- fetch_args fuel' uargv (i + 1) ;; ret (cons s <$> r)
            end
      end
  end.

Definition sys_exec : N Z :=
  p <- argstr 0 ;;
  match p with
  | None => ret (-1)
  | Some path =>
      u <- argint 1 ;;
      match u with
      | None => ret (-1)
      | Some uargv =>
          a <- fetch_args (Z.to_nat MAXARG) (u32 uargv) 0 ;;
          match a with None => ret (-1) | Some argv => exec path argv end
      end
  end.

(** ** proc.c *)

(** [allocproc]: the slot, with a kernel stack. *)
Definition allocproc : N (option nat) :=
  r <- on_pt alloc_slot ;;
  match r with
  | None => ret None
  | Some i =>
      ks <- on_mem kalloc ;;
      if ks =? 0 then on_pt (upd_proc i (fun p => set_state UNUSED (set_kstack 0 p))) ;;; ret None
      else
        on_pt (upd_proc i (set_kstack ks)) ;;; ret (Some i)
  end.

(** [userinit], with the image of initcode.S that the build links in; [k_cur] is
    the new process while its directory is looked up. *)
Definition s_initcode : list Z := [105; 110; 105; 116; 99; 111; 100; 101; 0].
Definition userinit (initcode : list Z) : N unit :=
  r <- allocproc ;;
  match r with
  | None => halt fault_stop
  | Some i =>
      on_pt (modify (fun s => mkPtab (procs s) (nextpid s) i)) ;;;
      d <- on_mem (setupkvm data) ;;
      if d =? 0 then panic "userinit: out of memory?"
      else
        on_mem (inituvm d initcode) ;;;
        p <- on_pt (get_proc i) ;;
        name <- from_opt (safestrcpy (p_name p) s_initcode 16) ;;
        on_pt (upd_proc i (fun p => set_name name (set_uid ROOT_UID
          (set_tf (mkTf 0 0 PGSIZE) (set_vm PGSIZE d p))))) ;;;
        modify (fun k => mkKern (k_fs k) (k_mem k) (k_pt k) (k_ftable k) (k_pipes k) i (k_ticks k)) ;;;
        c <- on_fs (namei devsw_read [SLASH; 0]) ;;
        on_pt (upd_proc i (fun p => set_state RUNNABLE (set_cwd c p)))
  end.

Definition growproc (n : Z) : N Z :=
  let grown sz := upd_cur (fun p => set_vm sz (p_pgdir p) p) ;;; switchuvm ;;; ret 0 in
  p <- myproc ;;
  let sz := p_sz p in
  if 0 <? n then
    sz <- on_mem (allocuvm (p_pgdir p) sz (u32 (sz + n))) ;;
    if sz =? 0 then ret (-1) else grown sz
  else if n <? 0 then
    sz <- on_mem (deallocuvm (p_pgdir p) sz (u32 (sz + n))) ;;
    if sz =? 0 then ret (-1) else grown sz
  else grown sz.

(** One round of the loop that duplicates the open files into entry [i]. *)
Definition dup_file (ofile : list (option nat)) (i fd : nat) : N unit :=
  o <- from_opt (ofile !! fd) ;;
  match o with
  | None => ret tt
  | Some f =>
      f <- filedup f ;;
      on_pt (upd_proc i (fun np => set_ofile (<[fd := Some f]> (p_ofile np)) np))
  end.

Definition fork : N Z :=
  cur <- gets k_cur ;;
  r <- allocproc ;;
  match r with
  | None => ret (-1)
  | Some i =>
      p <- myproc ;;
      d <- on_mem (copyuvm data (p_pgdir p) (p_sz p)) ;;
      if d =? 0 then
        np <- on_pt (get_proc i) ;;
        on_mem (kfree (p_kstack np)) ;;;
        on_pt (upd_proc i (fun np =>
          set_state UNUSED (set_kstack 0 (set_vm (p_sz np) 0 np)))) ;;;
        ret (-1)
      else
        on_pt (upd_proc i (fun np => set_tf (mkTf 0 (tf_eip (p_tf p)) (tf_esp (p_tf p)))
          (set_parent (Some cur) (set_vm (p_sz p) d (set_uid (p_uid p) np))))) ;;;
        for_each (seq 0 (Z.to_nat NOFILE)) (dup_file (p_ofile p) i) ;;;
        d <- from_opt (p_cwd p) ;;
        c <- on_fs (idup d) ;;
        on_pt (upd_proc i (set_cwd (Some c))) ;;;
        np <- on_pt (get_proc i) ;;
        name <- from_opt (safestrcpy (p_name np) (p_name p) 16) ;;
        on_pt (upd_proc i (set_name name)) ;;;
        on_pt (upd_proc i (set_state RUNNABLE)) ;;;
        ret (p_pid np)
  end.

(** [exit] ends with the switch to the scheduler and does not return. *)
Definition exit {A} : N A :=
  cur <- gets k_cur ;;
  init <- gets (fun k => initproc (k_pt k)) ;;
  if bool_decide (cur = init) then panic "init exiting"
  else
    for_each (seq 0 (Z.to_nat NOFILE)) (fun fd =>
      p <- myproc ;;
      o <- from_opt (p_ofile p !! fd) ;;
      match o with
      | None => ret tt
      | Some f =>
          fileclose f ;;;
          upd_cur (fun p => set_ofile (<[fd := None]> (p_ofile p)) p)
      end) ;;;
    p <- myproc ;;
    on_fs begin_op ;;;
    d <- from_opt (p_cwd p) ;;
    on_fs (iput d) ;;;
    on_fs end_op ;;;
    upd_cur (set_cwd None) ;;;
    on_pt (exit_table cur) ;;;
    halt exited_stop.

(** One scan of [wait]; when it finds no exited child it returns -1 or sleeps. *)
Definition wait : N Z :=
  cur <- gets k_cur ;;
  p <- myproc ;;
  l <- gets (fun k => procs (k_pt k)) ;;
  match wait_scan cur l 0 false with
  | (Some i, _) =>
      c <- on_pt (get_proc i) ;;
      on_mem (kfree (p_kstack c)) ;;;
      on_mem (freevm (p_pgdir c)) ;;;
      on_pt (upd_proc i reap) ;;;
      ret (p_pid c)
  | (None, havekids) =>
      if negb havekids || p_killed p then ret (-1)
      else on_pt (sleep_on cur (ChProc cur)) ;;; halt asleep_stop
  end.

(** ** sysproc.c *)

Definition sys_fork : N Z := fork.
Definition sys_exit : N Z := exit.
Definition sys_wait : N Z := wait.

Definition sys_kill : N Z :=
  r <- argint 0 ;;
  match r with None => ret (-1) | Some pid => on_pt (kill pid) end.

Definition sys_getpid : N Z := p <- myproc ;; ret (p_pid p).

Definition sys_sbrk : N Z :=
  r <- argint 0 ;;
  match r with
  | None => ret (-1)
  | Some n =>
      p <- myproc ;;
      g <- growproc n ;;
      if g <? 0 then ret (-1) else ret (i32 (p_sz p))
  end.

(** The address of [ticks], the channel of [sys_sleep]. *)
Definition ticks_chan : chan := ChAddr 0.

(** [while(ticks - ticks0 < n)]: unsigned; when the time has not come the call
    sleeps (unless the process was killed), to be resumed with the same
    [ticks0]. *)
Definition sleep_until (ticks0 n : Z) : N Z :=
  t <- gets k_ticks ;;
  p <- myproc ;;
  if u32 (t - ticks0) <? u32 n then
    if p_killed p then ret (-1)
    else
      cur <- gets k_cur ;;
      on_pt (sleep_on cur ticks_chan) ;;; halt asleep_stop
  else ret 0.

Definition sys_sleep : N Z :=
  r <- argint 0 ;;
  match r with
  | None => ret (-1)
  | Some n => t0 <- gets k_ticks ;; sleep_until t0 n
  end.

Definition sys_uptime : N Z := t <- gets k_ticks ;; ret (i32 t).

(** ** syscall.c: the table and the dispatcher *)

Definition syscalls (num : Z) : option (N Z) :=
  match num with
  | 1 => Some sys_fork
  | 2 => Some sys_exit
  | 3 => Some sys_wait
  | 4 => Some sys_pipe
  | 5 => Some (sys_read devsw_read)
  | 6 => Some sys_kill
  | 7 => Some sys_exec
  | 8 => Some sys_fstat
  | 9 => Some (sys_chdir devsw_read)
  | 10 => Some sys_dup
  | 11 => Some sys_getpid
  | 12 => Some sys_sbrk
  | 13 => Some sys_sleep
  | 14 => Some sys_uptime
  | 15 => Some (sys_open devsw_read devsw_write)
  | 16 => Some (sys_write devsw_write)
  | 17 => Some (sys_mknod devsw_read devsw_write)
  | 18 => Some (sys_unlink devsw_read devsw_write)
  | 19 => Some (sys_link devsw_read devsw_write)
  | 20 => Some (sys_mkdir devsw_read devsw_write)
  | 21 => Some sys_close
  | 22 => Some (sys_login devsw_read)
  | 23 => Some (sys_addUser devsw_read devsw_write)
  | 24 => Some (sys_deleteUser devsw_write)
  | 25 => Some (sys_chmod devsw_read)
  | _ => None
  end.

Definition syscall : N unit :=
  p <- myproc ;;
  match syscalls (i32 (tf_eax (p_tf p))) with
  | Some f =>
      r <- f ;;
      upd_cur (fun p => set_tf (mkTf (u32 r) (tf_eip (p_tf p)) (tf_esp (p_tf p))) p)
  | None => upd_cur (fun p => set_tf (mkTf 4294967295 (tf_eip (p_tf p)) (tf_esp (p_tf p))) p)
  end.

(** ** trap.c: the parts about the running process *)

(** A system-call trap with the registers [tf]. *)
Definition trap_syscall (tf : trapframe) : N unit :=
  p <- myproc ;;
  when (p_killed p) exit ;;;
  upd_cur (set_tf tf) ;;;
  syscall ;;;
  p <- myproc ;;
  when (p_killed p) exit.

(** [if(myproc() && myproc()->killed && (tf->cs&3) == DPL_USER) exit();], with
    [user] for the test of the privilege level. *)
Definition exit_if_killed (user : bool) : N unit :=
  p <- myproc ;; when (p_killed p && user) exit.
End Exec.
