(* ===== verification/UserMem.v ===== *)
(** * Bytes in the memory of a process

    The kernel reads and writes user memory through the page tables of the current
    process.  A buffer is writable when its pages are mapped and are none of the
    tables; what is stored in it is read back, and no other byte of memory changes. *)

From S2P Require Import Prelude KMonad CString Params Kalloc Vm VmSpec Proc Fs Kern.

(** ** The bytes of a word *)

Definition put_byte (w i c : Z) : Z := Z.lor (Z.land w (u32 (Z.lnot (Z.shiftl 255 (8 * i))))) (Z.shiftl (u8 c) (8 * i)).

Lemma u8_testbit x n : 0 <= n -> Z.testbit (u8 x) n = Z.testbit x n && (n <? 8).
Proof.
  intros Hn. unfold u8. change 256 with (2 ^ 8). destruct (Z.ltb_spec n 8); [rewrite Z.mod_pow2_bits_low by lia; by rewrite andb_true_r|].
  rewrite Z.mod_pow2_bits_high by lia. by rewrite andb_false_r.
Qed.

Lemma testbit_255 n : Z.testbit 255 n = (0 <=? n) && (n <? 8).
Proof. change 255 with (Z.ones 8). by apply Z.testbit_ones. Qed.

Lemma testbit_keep n s : 0 <= n < 32 -> 0 <= s -> Z.testbit (u32 (Z.lnot (Z.shiftl 255 s))) n = negb ((0 <=? n - s) && (n - s <? 8)).
Proof.
  intros Hn Hs. unfold u32. change 4294967296 with (2 ^ 32). rewrite Z.mod_pow2_bits_low by lia. rewrite Z.lnot_spec, Z.shiftl_spec by lia. by rewrite testbit_255.
Qed.

Lemma get_put_byte w i j c : 0 <= i < 4 -> 0 <= j < 4 -> u8 (Z.shiftr (put_byte w i c) (8 * j)) = if i =? j then u8 c else u8 (Z.shiftr w (8 * j)).
Proof.
  intros Hi Hj. apply Z.bits_inj'. intros n Hn. rewrite u8_testbit by done. destruct (Z.ltb_spec n 8) as [Hlt|Hge]; [|rewrite andb_false_r].
  - rewrite andb_true_r, Z.shiftr_spec by done. unfold put_byte. rewrite Z.lor_spec, Z.land_spec, testbit_keep, Z.shiftl_spec by lia.
    destruct (Z.eqb_spec i j) as [->|Hne].
    + replace (n + 8 * j - 8 * j) with n by lia. rewrite (proj2 (Z.leb_le 0 n)), (proj2 (Z.ltb_lt n 8)) by lia. cbn. by rewrite andb_false_r.
    + rewrite (u8_testbit (Z.shiftr w (8 * j))), Z.shiftr_spec by done. rewrite (proj2 (Z.ltb_lt n 8)), andb_true_r by lia.
      assert (E : (0 <=? n + 8 * j - 8 * i) && (n + 8 * j - 8 * i <? 8) = false) by (destruct (Z.leb_spec 0 (n + 8 * j - 8 * i)), (Z.ltb_spec (n + 8 * j - 8 * i) 8); try done; lia).
      rewrite E. cbn [negb]. rewrite andb_true_r. destruct (Z.leb_spec 0 (n + 8 * j - 8 * i)) as [H0|H0]; [|rewrite (Z.testbit_neg_r (u8 c)) by lia; by rewrite orb_false_r].
      rewrite (u8_testbit c) by done. cbn [andb] in E. by rewrite E, andb_false_r, orb_false_r.
  - destruct (i =? j); rewrite u8_testbit by done; by rewrite (proj2 (Z.ltb_ge n 8)), andb_false_r by lia.
Qed.

(** ** Bytes of memory *)

Lemma wr8_word m m' a c : wr8 m a c = Some m' -> exists w, rd32 m (a - a mod 4) = Some w /\ wr32 m (a - a mod 4) (put_byte w (a mod 4) c) = Some m'.
Proof. unfold wr8. destruct (rd32 m (a - a mod 4)) as [w|]; [|done]. intros E. by exists w. Qed.

Lemma rd8_wr8_same m m' a c : wr8 m a c = Some m' -> rd8 m' a = Some (u8 c).
Proof.
  intros (w & Hw & Hs)%wr8_word. unfold rd8. rewrite (rd32_wr32_same _ _ _ _ Hs). cbn.
  pose proof (Z.mod_pos_bound a 4 eq_refl). rewrite get_put_byte, Z.eqb_refl by done. done.
Qed.

Lemma rd8_wr8_other m m' a a' c : wr8 m a c = Some m' -> a ≠ a' -> rd8 m' a' = rd8 m a'.
Proof.
  intros (w & Hw & Hs)%wr8_word Hne. unfold rd8. pose proof (Z.mod_pos_bound a 4 eq_refl). pose proof (Z.mod_pos_bound a' 4 eq_refl).
  destruct (decide (a - a mod 4 = a' - a' mod 4)) as [E|E].
  - rewrite <- E, Hw, (rd32_wr32_same _ _ _ _ Hs). cbn. rewrite get_put_byte by done. rewrite (proj2 (Z.eqb_neq (a mod 4) (a' mod 4))) by lia. done.
  - rewrite (rd32_wr32_other _ _ _ _ _ Hs); [done|mlia|mlia|done].
Qed.

Lemma page_of_byte a : page_of (a - a mod 4) = page_of a.
Proof. unfold page_of, PGSIZE. mlia. Qed.

Lemma wr8_rd32 m m' a c b : wr8 m a c = Some m' -> page_of b ≠ page_of a -> rd32 m' b = rd32 m b.
Proof. intros (w & _ & Hs)%wr8_word Hb. unfold rd32. by rewrite (wr32_page _ _ _ _ _ Hs) by (by rewrite page_of_byte). Qed.

Lemma wr8_is_Some m a c : is_Some (m !! page_of a) -> is_Some (wr8 m a c).
Proof.
  intros Hp. rewrite <- page_of_byte in Hp. unfold wr8. destruct (rd32_is_Some m (a - a mod 4) Hp) as [w ->]. cbn. by apply wr32_is_Some.
Qed.

Lemma wr8_dom m m' a c p : wr8 m a c = Some m' -> is_Some (m !! p) -> is_Some (m' !! p).
Proof. intros (w & _ & Hs)%wr8_word. by apply (wr32_dom _ _ _ _ _ Hs). Qed.

(** ** The memory of the current process *)

Definition user_byte {S} (k : kern S) (va : Z) : option Z :=
  p ← procs (k_pt k) !! k_cur k; a ← user_addr (mem (k_mem k)) (p_pgdir p) va; rd8 (mem (k_mem k)) a.

(** The bytes [l] are at [va] in the memory of the current process. *)
Definition user_bytes {S} (k : kern S) (va : Z) (l : list Z) : Prop := forall j c, l !! j = Some c -> user_byte k (va + Z.of_nat j) = Some c.

Lemma user_read_ok {S} (k : kern S) l : forall va, user_bytes k va l -> user_read va (length l) k = Ok l k.
Proof.
  induction l as [|c l IH]; intros va Hl; [done|]. cbn [length user_read]. pose proof (Hl 0%nat c eq_refl) as Hc. rewrite Z.add_0_r in Hc. unfold user_byte in Hc.
  assert (E : user_rd8 va k = Ok c k).
  { unfold user_rd8, bind, myproc, gets. destruct (procs (k_pt k) !! k_cur k) as [p|]; [|done]. cbn in Hc |- *. by rewrite Hc. }
  rewrite (bind_Ok _ _ _ _ _ E), (bind_Ok _ _ _ _ _ (IH (va + 1) ltac:(intros j d Hj; rewrite <- (Hl (Datatypes.S j) d Hj); f_equal; lia))). done.
Qed.

Lemma user_bytes_slice {S} (k : kern S) va l i n : user_bytes k va l -> (i + n <= length l)%nat -> user_bytes k (va + Z.of_nat i) (slice i n l) /\ length (slice i n l) = n.
Proof.
  intros Hl Hin. unfold slice. split; [|rewrite length_take, length_drop; lia]. intros j c Hj. apply lookup_take_Some in Hj as [Hj _]. rewrite lookup_drop in Hj.
  rewrite <- (Hl (i + j)%nat c Hj). f_equal. lia.
Qed.

Lemma user_read_slice {S} (k : kern S) va l i n : user_bytes k va l -> (i + n <= length l)%nat -> user_read (va + Z.of_nat i) n k = Ok (slice i n l) k.
Proof. intros Hl Hin. destruct (user_bytes_slice k va l i n Hl Hin) as [Hs Hn]. rewrite <- Hn at 1. by apply user_read_ok. Qed.

(** ** Buffers *)

(** The pages through which the hardware finds [va]. *)
Definition walks (m : gmap Z page) (pgdir va pg : Z) : Prop :=
  pg = page_of (pgdir + 4 * PDX va) \/ exists v, rd32 m (pgdir + 4 * PDX va) = Some v /\ pg = page_of (P2V (PTE_ADDR v) + 4 * PTX va).

(** The [n] bytes at [va] are mapped, each to a byte of its own, in pages that hold
    no table on the way to them. *)
Record user_buffer (m : gmap Z page) (pgdir va : Z) (n : nat) : Prop := {
  ub_map : forall j, (j < n)%nat -> exists a, user_addr m pgdir (va + Z.of_nat j) = Some a /\ is_Some (m !! page_of a);
  ub_tables : forall i j a, (i < n)%nat -> (j < n)%nat -> user_addr m pgdir (va + Z.of_nat i) = Some a -> ~ walks m pgdir (va + Z.of_nat j) (page_of a);
  ub_inj : forall i j a, (i < n)%nat -> (j < n)%nat -> user_addr m pgdir (va + Z.of_nat i) = Some a -> user_addr m pgdir (va + Z.of_nat j) = Some a -> i = j }.

Lemma user_addr_wr8 m m' a c pgdir va : wr8 m a c = Some m' -> ~ walks m pgdir va (page_of a) -> user_addr m' pgdir va = user_addr m pgdir va /\ forall pg, walks m' pgdir va pg <-> walks m pgdir va pg.
Proof.
  intros Hw Hn. unfold user_addr, entry, walks in *. rewrite (wr8_rd32 _ _ _ _ (pgdir + 4 * PDX va) Hw) by (intros E; apply Hn; by left).
  split; [|done]. destruct (rd32 m (pgdir + 4 * PDX va)) as [v|]; [|done]. cbn. destruct (present v); [|done].
  rewrite (wr8_rd32 _ _ _ _ _ Hw); [done|]. intros E. apply Hn. right. by exists v.
Qed.

Lemma user_buffer_tail m pgdir va n : user_buffer m pgdir va (Datatypes.S n) -> user_buffer m pgdir (va + 1) n.
Proof.
  intros [B1 B2 B3]. assert (E : forall j, va + 1 + Z.of_nat j = va + Z.of_nat (Datatypes.S j)) by lia. split; intros *; rewrite ?E; intros.
  - apply B1. lia.
  - apply (B2 (Datatypes.S i)); [lia|lia|done].
  - enough (Datatypes.S i = Datatypes.S j) by lia. eapply B3; [lia|lia|done|done].
Qed.

(** A store to the buffer leaves it a buffer. *)
Lemma user_buffer_wr8 m m' pgdir va n i a c : user_buffer m pgdir va n -> (i < n)%nat -> user_addr m pgdir (va + Z.of_nat i) = Some a -> wr8 m a c = Some m' ->
  user_buffer m' pgdir va n /\ forall j, (j < n)%nat -> user_addr m' pgdir (va + Z.of_nat j) = user_addr m pgdir (va + Z.of_nat j).
Proof.
  intros [B1 B2 B3] Hi Ha Hw. assert (E : forall j, (j < n)%nat -> user_addr m' pgdir (va + Z.of_nat j) = user_addr m pgdir (va + Z.of_nat j) /\ forall pg, walks m' pgdir (va + Z.of_nat j) pg <-> walks m pgdir (va + Z.of_nat j) pg).
  { intros j Hj. apply (user_addr_wr8 _ _ _ _ _ _ Hw). by apply (B2 i j). }
  split; [|intros j Hj; by apply E]. split.
  - intros j Hj. rewrite (proj1 (E j Hj)). destruct (B1 j Hj) as (b & Hb & Hp). exists b. split; [done|]. by apply (wr8_dom _ _ _ _ _ Hw).
  - intros j j' b Hj Hj'. rewrite (proj1 (E j Hj)), (proj2 (E j' Hj')). by apply B2.
  - intros j j' b Hj Hj'. rewrite (proj1 (E j Hj)), (proj1 (E j' Hj')). by apply B3.
Qed.

Definition with_mem {S} (m : gmap Z page) (k : kern S) : kern S :=
  mkKern (k_fs k) (set_mem m (k_mem k)) (k_pt k) (k_ftable k) (k_pipes k) (k_cur k) (k_ticks k).

(** [b] is not a byte of the buffer. *)
Definition outside (m : gmap Z page) (pgdir va : Z) (n : nat) (b : Z) : Prop := forall j, (j < n)%nat -> user_addr m pgdir (va + Z.of_nat j) ≠ Some b.

(** The memory [m'] is [m] with the bytes [l] in the buffer at [va]. *)
Record stored (m : gmap Z page) (pgdir va : Z) (l : list Z) (m' : gmap Z page) : Prop := {
  sd_bytes : forall j c, l !! j = Some c -> (a ← user_addr m' pgdir (va + Z.of_nat j); rd8 m' a) = Some (u8 c);
  sd_other : forall b, outside m pgdir va (length l) b -> rd8 m' b = rd8 m b;
  sd_maps : forall va', (forall j a, (j < length l)%nat -> user_addr m pgdir (va + Z.of_nat j) = Some a -> ~ walks m pgdir va' (page_of a)) -> user_addr m' pgdir va' = user_addr m pgdir va' }.

Lemma user_wr8_ok {S} (k : kern S) p va a c m1 : procs (k_pt k) !! k_cur k = Some p -> user_addr (mem (k_mem k)) (p_pgdir p) va = Some a -> wr8 (mem (k_mem k)) a c = Some m1 ->
  user_wr8 va c k = Ok tt (with_mem m1 k).
Proof. intros Hp Ha Hw. unfold user_wr8, bind, myproc, gets. rewrite Hp. cbn. rewrite Ha. cbn. by rewrite Hw. Qed.

Lemma stored_nil m pgdir va : stored m pgdir va [] m.
Proof. by split. Qed.

Lemma stored_cons m pgdir va a c l m1 m' : user_buffer m pgdir va (Datatypes.S (length l)) -> user_addr m pgdir va = Some a -> wr8 m a c = Some m1 ->
  stored m1 pgdir (va + 1) l m' -> stored m pgdir va (c :: l) m'.
Proof.
  intros Hb Ha Hw [D1 D2 D3]. set (n := length l) in *. assert (Hn : forall j, va + 1 + Z.of_nat j = va + Z.of_nat (Datatypes.S j)) by lia.
  assert (H0 : va + Z.of_nat 0 = va) by lia. assert (Ha' := Ha). rewrite <- H0 in Ha'.
  destruct (user_buffer_wr8 m m1 pgdir va _ 0 a c Hb ltac:(lia) Ha' Hw) as [Hb1 Hm1].
  assert (Hm : forall va', (forall j b, (j < Datatypes.S n)%nat -> user_addr m pgdir (va + Z.of_nat j) = Some b -> ~ walks m pgdir va' (page_of b)) -> user_addr m' pgdir va' = user_addr m pgdir va').
  { intros va' Hva. destruct (user_addr_wr8 m m1 a c pgdir va' Hw (Hva 0%nat a ltac:(lia) Ha')) as [E1 E2]. rewrite <- E1. apply D3.
    intros j b Hj. rewrite Hn, Hm1, E2 by lia. apply (Hva (Datatypes.S j)). lia. }
  split.
  - intros [|j] d Hj; [|rewrite <- Hn; by apply D1]. injection Hj as <-. rewrite (Hm (va + Z.of_nat 0)), Ha'.
    + cbn. rewrite D2; [by apply (rd8_wr8_same m)|]. intros j Hj E. rewrite Hn, Hm1 in E by (fold n in Hj; lia).
      pose proof (ub_inj _ _ _ _ Hb 0 (Datatypes.S j) a ltac:(lia) ltac:(fold n in Hj; lia) Ha' E). done.
    + intros j b Hj Hjb. apply (ub_tables _ _ _ _ Hb j 0); [done|lia|done].
  - intros b Hout. cbn [length] in Hout. fold n in Hout. rewrite D2; [apply (rd8_wr8_other _ _ _ _ _ Hw); intros ->; by apply (Hout 0%nat); [lia|]|].
    intros j Hj. rewrite Hn, Hm1 by (fold n in Hj; lia). apply Hout. fold n in Hj. lia.
  - exact Hm.
Qed.

(** Copying to a buffer stores the bytes and changes nothing else. *)
Lemma user_write_ok {S} p l : forall (k : kern S) va, procs (k_pt k) !! k_cur k = Some p -> user_buffer (mem (k_mem k)) (p_pgdir p) va (length l) ->
  exists m', user_write va l k = Ok tt (with_mem m' k) /\ stored (mem (k_mem k)) (p_pgdir p) va l m'.
Proof.
  induction l as [|c l IH]; intros k va Hp Hb.
  - exists (mem (k_mem k)). split; [by destruct k as [? [] ? ? ? ? ?]|apply stored_nil].
  - cbn [length] in Hb. assert (H0 : va + Z.of_nat 0 = va) by lia. destruct (ub_map _ _ _ _ Hb 0 ltac:(lia)) as (a & Ha & Hpg).
    destruct (wr8_is_Some _ a c Hpg) as [m1 Hw]. destruct (user_buffer_wr8 _ _ _ _ _ 0 a c Hb ltac:(lia) Ha Hw) as [Hb1 _]. rewrite H0 in Ha.
    destruct (IH (with_mem m1 k) (va + 1) Hp (user_buffer_tail _ _ _ _ Hb1)) as (m' & Hrun & Hst). exists m'. split; [|by eapply stored_cons].
    cbn [user_write]. rewrite (bind_Ok _ _ _ _ _ (user_wr8_ok k p va a c m1 Hp Ha Hw)). exact Hrun.
Qed.

(** What was stored is there. *)
Lemma stored_user {S} (k : kern S) p va l m m' : procs (k_pt k) !! k_cur k = Some p -> mem (k_mem k) = m' -> stored m (p_pgdir p) va l m' -> Forall is_byte l -> user_bytes k va l.
Proof.
  intros Hp Hm [D1 _ _] Hby j c Hj. unfold user_byte. rewrite Hp, Hm. cbn. rewrite (D1 j c Hj), u8_id; [done|]. rewrite Forall_lookup in Hby. by eapply Hby.
Qed.
