(* ===== verification/FsSpec.v ===== *)
(** * Blocks: the allocator of fs.c against the storage interface

    Rules for the block operations of fs.c derived from the laws of [TxStore],
    the bitmap as a set of allocated blocks, and what [bzero], [balloc] and
    [bfree] do. *)

From S2P Require Import Prelude KMonad CString Params Bio BioSpec Log LogSpec Crash LogOps Users Store Fs.

(** ** Bits of the bitmap *)

Lemma testbit_mask k j : 0 <= k -> 0 <= j -> Z.testbit (Z.shiftl 1 k) j = bool_decide (j = k).
Proof.
  intros Hk Hj. rewrite Z.shiftl_spec by done. case_bool_decide as E.
  - subst. by rewrite Z.sub_diag.
  - destruct (decide (j < k)); [by rewrite Z.testbit_neg_r by lia|].
    replace (j - k) with (Z.succ (j - k - 1)) by lia.
    change 1 with (2 * 0 + 1). rewrite Z.testbit_odd_succ by lia. apply Z.testbit_0_l.
Qed.

Lemma land_mask_bit v k : 0 <= k -> negb (Z.land v (Z.shiftl 1 k) =? 0) = Z.testbit v k.
Proof.
  intros Hk. destruct (Z.testbit v k) eqn:E.
  - apply negb_true_iff, Z.eqb_neq. intros H0.
    assert (Hb : Z.testbit (Z.land v (Z.shiftl 1 k)) k = true)
      by (rewrite Z.land_spec, testbit_mask, E by lia; by rewrite bool_decide_true).
    by rewrite H0, Z.testbit_0_l in Hb.
  - apply negb_false_iff, Z.eqb_eq, Z.bits_inj_0. intros j.
    destruct (decide (0 <= j)); [|by rewrite Z.testbit_neg_r by lia].
    rewrite Z.land_spec, testbit_mask by lia. case_bool_decide; [subst; by rewrite E|].
    by rewrite andb_false_r.
Qed.

Lemma testbit_u8 v j : 0 <= j < 8 -> Z.testbit (u8 v) j = Z.testbit v j.
Proof. intros. unfold u8. change 256 with (2 ^ 8). by rewrite Z.mod_pow2_bits_low by lia. Qed.

Definition bit_ok (d : list Z) (bi : Z) : Prop := 0 <= bi < 8 * zlen d.

Lemma bit_set_testbit d bi :
  bit_set d bi = Z.testbit (d !!! Z.to_nat (bi / 8)) (bi mod 8).
Proof. unfold bit_set, bit_mask. apply land_mask_bit. mlia. Qed.

(** An update of the byte of [bi] that changes only that bit. *)
Lemma bit_set_update d bi bj v w :
  bit_ok d bi -> 0 <= bj ->
  (forall j, 0 <= j < 8 -> Z.testbit v j = if bool_decide (j = bi mod 8) then w
     else Z.testbit (d !!! Z.to_nat (bi / 8)) j) ->
  bit_set (<[Z.to_nat (bi / 8) := u8 v]> d) bj = if bool_decide (bj = bi) then w else bit_set d bj.
Proof.
  unfold bit_ok, zlen. intros Hi Hj Hv. rewrite !bit_set_testbit.
  assert (Hm : 0 <= bj mod 8 < 8) by mlia.
  destruct (decide (bj / 8 = bi / 8)) as [E|E].
  - rewrite E, list_lookup_total_insert_eq by mlia. rewrite testbit_u8, Hv by done.
    destruct (decide (bj = bi)) as [->|Hne]; [by rewrite !bool_decide_true|].
    rewrite !bool_decide_false; [done|done|mlia].
  - rewrite list_lookup_total_insert_ne by mlia. rewrite bool_decide_false; [done|]. by intros ->.
Qed.

Lemma bit_set_mark d bi bj : bit_ok d bi -> 0 <= bj ->
  bit_set (mark_bit bi d) bj = if bool_decide (bj = bi) then true else bit_set d bj.
Proof.
  intros Hi Hj. apply bit_set_update; [done..|]. intros j Hr. unfold bit_mask.
  rewrite Z.lor_spec, testbit_mask by mlia. case_bool_decide; [apply orb_true_r|apply orb_false_r].
Qed.

Lemma bit_set_clear d bi bj : bit_ok d bi -> 0 <= bj ->
  bit_set (clear_bit bi d) bj = if bool_decide (bj = bi) then false else bit_set d bj.
Proof.
  intros Hi Hj. apply bit_set_update; [done..|]. intros j Hr. unfold bit_mask.
  rewrite Z.land_spec, Z.lnot_spec, testbit_mask by mlia.
  case_bool_decide; [apply andb_false_r|apply andb_true_r].
Qed.

Lemma wf_block_byte d i v : wf_block d -> wf_block (<[i := u8 v]> d).
Proof.
  intros [Hl Hb]. split; [by rewrite length_insert|]. apply Forall_insert; [done|].
  apply u8_range.
Qed.

Lemma wf_block_mark d bi : wf_block d -> wf_block (mark_bit bi d).
Proof. apply wf_block_byte. Qed.
Lemma wf_block_clear d bi : wf_block d -> wf_block (clear_bit bi d).
Proof. apply wf_block_byte. Qed.
#[export] Hint Resolve wf_block_byte wf_block_mark wf_block_clear : arr.

(** The first element of an interval that satisfies a test. *)
Lemma find_seqZ_Some (P : Z -> bool) lo n x :
  List.find P (seqZ lo n) = Some x <->
  lo <= x < lo + n /\ P x = true /\ forall y, lo <= y < x -> P y = false.
Proof.
  destruct (decide (0 <= n)) as [Hn|Hn];
    [|rewrite seqZ_nil by lia; split; [done|intros (? & _); lia]].
  revert lo x. pattern n. apply natlike_ind; [| |done].
  { intros lo x. split; [done|]. intros (? & _). lia. }
  clear n Hn. intros n Hn IH lo x. rewrite seqZ_cons by lia. simpl. rewrite Z.pred_succ.
  destruct (P lo) eqn:E.
  - split.
    + intros [= <-]. split_and!; [lia..|done|]. intros y ?. lia.
    + intros (Hx & Hp & Hall). destruct (decide (x = lo)) as [->|]; [done|].
      rewrite Hall in E by lia. done.
  - rewrite IH. split; intros (Hx & Hp & Hall); split_and!; try done; try lia.
    + intros y ?. destruct (decide (y = lo)) as [->|]; [done|]. apply Hall. lia.
    + destruct (decide (x = lo)) as [->|]; [congruence|lia].
    + intros y ?. apply Hall. lia.
Qed.

(** Logging two more blocks. *)
Lemma size_one_le (b : Z) (L : gset Z) : (size ({[b]} ∪ L) <= Datatypes.S (size L))%nat.
Proof.
  rewrite size_union_alt, size_singleton.
  pose proof (subseteq_size (L ∖ {[b]}) L ltac:(set_solver)). lia.
Qed.
Lemma size_two_le (b1 b2 : Z) (L : gset Z) : (size ({[b1]} ∪ ({[b2]} ∪ L)) <= size L + 2)%nat.
Proof. pose proof (size_one_le b1 ({[b2]} ∪ L)). pose proof (size_one_le b2 L). lia. Qed.

(** ** Rules for the storage operations *)

Section Rules.
Context {S : Type} `{TxStore S}.

Definition put_store (t : S) (s : fs S) : fs S :=
  mkFs t (f_sb s) (f_icache s) (f_ut s) (f_cur s).

(** Inside a transaction, with every change logged: contents [V], buffers [H],
    logged blocks [L]. *)
Record tx := mkTx { t_open : Z; t_home : Z -> bool }.

Definition holds (s : fs S) (c : tx) (V : Z -> list Z) (B : gmap nat Z) (L : gset Z) : Prop :=
  tx_rep (f_store s) (mkA V B ∅ L (t_open c) (t_home c)).

(** Blocks the transaction may still log, and buffers it may still take. *)
Definition room (B : gmap nat Z) (L : gset Z) (n : nat) : Prop :=
  (size L + n < log_capacity /\ size B <= 1)%nat.

Lemma holds_wf s c V B L b : holds s c V B L -> wf_block (V b).
Proof. intros Hh. exact (tx_wf_ok _ _ b Hh). Qed.

Lemma room_buf B L n : room B L n -> (size B + size L < Z.to_nat NBUF)%nat.
Proof. unfold room. change log_capacity with 29%nat. change (Z.to_nat NBUF) with 30%nat. lia. Qed.

Definition not_held (B : gmap nat Z) (b : Z) : Prop := forall i, B !! i ≠ Some b.

Lemma wp_bread s c V B L b n (Q : nat -> fs S -> Prop) :
  holds s c V B L -> t_home c b = true -> not_held B b -> room B L n ->
  (forall i t, B !! i = None -> holds (put_store t s) c V (<[i := b]> B) L -> Q i (put_store t s)) ->
  wp (bread ROOTDEV b) Q s.
Proof.
  intros Hh Hb Hn Hr HQ. apply wp_lift.
  eapply wp_mono; [apply (tx_bread_ok _ _ b Hh); simpl; eauto using room_buf|].
  intros i t [Hi Ht]. by apply HQ.
Qed.

Lemma wp_read_data s c V B L i b (Q : list Z -> fs S -> Prop) :
  holds s c V B L -> B !! i = Some b -> Q (V b) s -> wp (read_data i) Q s.
Proof.
  intros Hh Hi HQ. apply wp_lift. eapply wp_mono; [by apply (tx_read_data_ok _ _ i b Hh)|].
  intros d t [-> ->]. by destruct s.
Qed.

(** A change of a held block, followed by [log_write]. *)
Lemma wp_write_log s c V B L i b d (Q : unit -> fs S -> Prop) :
  holds s c V B L -> B !! i = Some b -> wf_block d -> 0 < t_open c ->
  (size L < log_capacity)%nat ->
  (forall t, holds (put_store t s) c (upd V b d) B ({[b]} ∪ L) -> Q tt (put_store t s)) ->
  wp (write_data i d ;;; log_write i) Q s.
Proof.
  intros Hh Hi Hd Ho Hl HQ. apply wp_bind, wp_lift.
  eapply wp_mono; [by apply (tx_write_data_ok _ _ i b d Hh)|]. intros [] t Ht. apply wp_lift.
  eapply wp_mono; [by apply (tx_log_write_ok _ _ i b Ht)|]. intros [] t' Ht'. apply HQ.
  unfold holds. unfold with_logged, with_mod, with_view in Ht'. simpl in *.
  by replace (({[b]} ∪ ∅) ∖ {[b]}) with (∅ : gset Z) in Ht' by set_solver.
Qed.

Lemma wp_brelse s c V B L i b (Q : unit -> fs S -> Prop) :
  holds s c V B L -> B !! i = Some b ->
  (forall t, holds (put_store t s) c V (delete i B) L -> Q tt (put_store t s)) ->
  wp (brelse i) Q s.
Proof.
  intros Hh Hi HQ. apply wp_lift. eapply wp_mono; [apply (tx_brelse_ok _ _ i b Hh); [done|set_solver]|].
  intros [] t Ht. by apply HQ.
Qed.
End Rules.

(** ** The allocator *)

(** Layout facts about a disk made by mkfs: one bitmap block, which is marked in
    use like every block before the data area, and which is not the log's. *)
Record layout_ok (sb : superblock) (c : tx) : Prop := {
  ly_size : 0 <= sb_size sb <= BPB;
  ly_home : forall b, sb_bmapstart sb < b < sb_size sb -> t_home c b = true;
  ly_bmap : t_home c (sb_bmapstart sb) = true;
  ly_bmap_in : 0 <= sb_bmapstart sb < sb_size sb;
  ly_inodes : forall i, 0 <= i < sb_ninodes sb ->
    t_home c (IBLOCK i sb) = true /\ 0 < IBLOCK i sb < sb_bmapstart sb }.

(** Block [b] is marked in use. *)
Definition allocated (sb : superblock) (V : Z -> list Z) (b : Z) : bool :=
  bit_set (V (sb_bmapstart sb)) b.

(** Everything up to the bitmap block is in use. *)
Definition meta_used (sb : superblock) (V : Z -> list Z) : Prop :=
  forall b, 0 <= b <= sb_bmapstart sb -> allocated sb V b = true.

Section Alloc.
Context {S : Type} `{TxStore S}.
Context (c : tx) (sb : superblock).
Hypothesis Hly : layout_ok sb c.
Hypothesis Hopen : 0 < t_open c.

Lemma BBLOCK_one b : 0 <= b < sb_size sb -> BBLOCK b sb = sb_bmapstart sb.
Proof using Hly. intros Hb. pose proof (ly_size _ _ Hly). unfold BBLOCK. rewrite Z.div_small; lia. Qed.

Lemma bitmap_starts_one : bitmap_starts (sb_size sb) = [0].
Proof using Hly.
  pose proof (ly_size _ _ Hly). pose proof (ly_bmap_in _ _ Hly). unfold bitmap_starts.
  replace ((sb_size sb + BPB - 1) / BPB) with 1; [done|].
  apply Z.div_unique with (sb_size sb - 1); unfold BPB, BSIZE in *; lia.
Qed.

Lemma bzero_spec s V B L b (Q : unit -> fs S -> Prop) :
  holds s c V B L -> t_home c b = true -> not_held B b -> room B L 1 ->
  (forall t, holds (put_store t s) c (upd V b zero_block) B ({[b]} ∪ L) -> Q tt (put_store t s)) ->
  wp (bzero ROOTDEV b) Q s.
Proof using Hopen.
  intros Hh Hb Hn Hr HQ. unfold bzero. apply wp_bind. eapply wp_bread; [done..|].
  intros i t Hi Ht. apply wp_assoc, wp_bind.
  eapply wp_write_log; [exact Ht|apply lookup_insert_eq|auto with arr|done|unfold room in Hr; lia|].
  intros t' Ht'. eapply wp_brelse; [exact Ht'|apply lookup_insert_eq|].
  intros t2 Ht2. rewrite delete_insert_id in Ht2 by done. exact (HQ t2 Ht2).
Qed.

(** The lowest free block, if there is one. *)
Definition first_free (V : Z -> list Z) (b : Z) : Prop :=
  0 <= b < sb_size sb /\ allocated sb V b = false
  /\ forall b', 0 <= b' < b -> allocated sb V b' = true.

(** The contents after [balloc] returned [b]. *)
Definition balloc_view (V : Z -> list Z) (b : Z) : Z -> list Z :=
  upd (upd V (sb_bmapstart sb) (mark_bit b (V (sb_bmapstart sb)))) b zero_block.

Lemma first_free_data V b : meta_used sb V -> first_free V b -> sb_bmapstart sb < b < sb_size sb.
Proof using.
  intros Hm (Hb & Hf & _). split; [|lia]. destruct (decide (b <= sb_bmapstart sb)); [|lia].
  rewrite Hm in Hf by lia. done.
Qed.

Lemma balloc_wp s V B L b (Q : Z -> fs S -> Prop) :
  f_sb s = sb -> holds s c V B L -> meta_used sb V -> first_free V b ->
  not_held B b -> not_held B (sb_bmapstart sb) -> room B L 2 ->
  (forall t, holds (put_store t s) c (balloc_view V b) B ({[b]} ∪ ({[sb_bmapstart sb]} ∪ L)) ->
     Q b (put_store t s)) ->
  wp (balloc ROOTDEV) Q s.
Proof using Hly Hopen.
  intros Hsb Hh Hm Hff Hnb Hnm Hr HQ. pose proof (first_free_data V b Hm Hff) as Hdb.
  destruct Hff as (Hb & Hf & Hlow). pose proof (ly_size _ _ Hly). pose proof (ly_bmap_in _ _ Hly).
  unfold balloc. apply wp_bind, wp_gets. rewrite Hsb, bitmap_starts_one.
  apply wp_bind. cbn [for_until]. apply wp_bind. rewrite BBLOCK_one by lia. apply wp_bind.
  eapply wp_bread; [done|apply (ly_bmap _ _ Hly)|done..|]. intros i t Hi Ht. apply wp_bind.
  eapply wp_read_data; [exact Ht|apply lookup_insert_eq|].
  assert (Hfind : free_bit (V (sb_bmapstart sb)) (sb_size sb - 0) = Some b).
  { apply find_seqZ_Some. unfold allocated in *. rewrite Hf. split_and!; [lia..|done|].
    intros y Hy. by rewrite Hlow by lia. }
  rewrite Hfind. apply wp_assoc, wp_bind.
  eapply wp_write_log; [exact Ht|apply lookup_insert_eq| |done|unfold room in Hr; lia|].
  { apply wf_block_mark. by eapply holds_wf. }
  intros t1 Ht1. apply wp_bind. eapply wp_brelse; [exact Ht1|apply lookup_insert_eq|].
  intros t2 Ht2. rewrite delete_insert_id in Ht2 by done. apply wp_bind.
  eapply bzero_spec; [exact Ht2|apply (ly_home _ _ Hly); lia|done| |].
  { unfold room in *. pose proof (size_one_le (sb_bmapstart sb) L). lia. }
  intros t3 Ht3. by apply wp_ret, wp_ret, wp_ret, HQ.
Qed.

Lemma bfree_wp s V B L b (Q : unit -> fs S -> Prop) :
  f_sb s = sb -> holds s c V B L -> 0 <= b < sb_size sb -> allocated sb V b = true ->
  not_held B (sb_bmapstart sb) -> room B L 1 ->
  (forall t, holds (put_store t s) c
     (upd V (sb_bmapstart sb) (clear_bit b (V (sb_bmapstart sb)))) B ({[sb_bmapstart sb]} ∪ L) ->
     Q tt (put_store t s)) ->
  wp (bfree ROOTDEV b) Q s.
Proof using Hly Hopen.
  intros Hsb Hh Hb Ha Hnm Hr HQ. pose proof (ly_size _ _ Hly). unfold bfree.
  apply wp_bind, wp_gets. rewrite Hsb, BBLOCK_one by done. apply wp_bind.
  eapply wp_bread; [done|apply (ly_bmap _ _ Hly)|done..|]. intros i t Hi Ht. apply wp_bind.
  eapply wp_read_data; [exact Ht|apply lookup_insert_eq|]. rewrite Z.mod_small by lia.
  unfold allocated in Ha. rewrite Ha. cbn [negb]. apply wp_assoc, wp_bind.
  eapply wp_write_log; [exact Ht|apply lookup_insert_eq| |done|unfold room in Hr; lia|].
  { apply wf_block_clear. by eapply holds_wf. }
  intros t1 Ht1. eapply wp_brelse; [exact Ht1|apply lookup_insert_eq|].
  intros t2 Ht2. rewrite delete_insert_id in Ht2 by done. exact (HQ t2 Ht2).
Qed.

Lemma allocated_upd_mark s V B L b b' :
  holds s c V B L -> 0 <= b < sb_size sb -> 0 <= b' ->
  bit_set (mark_bit b (V (sb_bmapstart sb))) b' = bool_decide (b' = b) || allocated sb V b'.
Proof using Hly.
  intros Hh Hb Hb'. destruct (holds_wf _ _ _ _ _ (sb_bmapstart sb) Hh) as [Hl _].
  pose proof (ly_size _ _ Hly). rewrite bit_set_mark; [|unfold bit_ok, zlen, BPB, BSIZE in *; lia|done].
  by case_bool_decide.
Qed.

Lemma balloc_view_other V b b' : b' ≠ b -> b' ≠ sb_bmapstart sb -> balloc_view V b b' = V b'.
Proof using. intros. unfold balloc_view. by rewrite !upd_ne. Qed.

Lemma balloc_view_allocated s V B L b b' :
  holds s c V B L -> meta_used sb V -> first_free V b -> 0 <= b' ->
  allocated sb (balloc_view V b) b' = bool_decide (b' = b) || allocated sb V b'.
Proof using Hly.
  intros Hh Hm Hff Hb'. pose proof (first_free_data V b Hm Hff). unfold allocated at 1, balloc_view.
  rewrite upd_ne by lia. rewrite upd_eq. eapply allocated_upd_mark; [done|apply Hff|done].
Qed.

(** Some block is free exactly when there is a first free block. *)
Lemma first_free_exists V b :
  0 <= b < sb_size sb -> allocated sb V b = false -> exists b0, first_free V b0.
Proof using.
  intros Hb Ha. destruct (List.find (fun x => negb (allocated sb V x)) (seqZ 0 (sb_size sb))) as [x|] eqn:E.
  - apply find_seqZ_Some in E as (Hx & Hn & Hlow). exists x. split_and!; [lia..| |].
    + by apply negb_true_iff.
    + intros y Hy. apply negb_false_iff, Hlow. lia.
  - assert (Hin : In b (seqZ 0 (sb_size sb))) by (apply list_elem_of_In, elem_of_seqZ; lia).
    pose proof (List.find_none _ _ E b Hin) as Hn. simpl in Hn. by rewrite Ha in Hn.
Qed.
End Alloc.

(** ** A file system for examples

    The layout mkfs makes for 1000 blocks: log at 2, inodes at 32, bitmap at 58,
    data from 59.  The root directory (inode 1) holds the file "f" (inode 2) of
    user 5, readable and writable only by its owner, and the empty file "g"
    (inode 3) of user 5, which others may write. *)
Definition demo_fsb : superblock := mkSuperblock 1000 941 200 30 2 32 58.
Definition demo_bitmap : list Z := replicate 7 255 ++ [31] ++ replicate 504 0.
Definition demo_dirent (inum : Z) (name : list Z) : list Z :=
  le_bytes 2 inum ++ name ++ replicate (14 - length name) 0.
Definition demo_root : dinode := mkDinode 63 T_DIR 0 0 1 64 (59 :: replicate 11 0) ROOT_UID.
Definition demo_file : dinode := mkDinode (Z.lor MODE_RUSR MODE_WUSR) T_FILE 0 0 1 5 (60 :: replicate 11 0) 5.
Definition demo_shared : dinode :=
  mkDinode (Z.lor (Z.lor MODE_RUSR MODE_WUSR) MODE_WOTH) T_FILE 0 0 1 0 (replicate 12 0) 5.
Definition demo_inodes : list Z :=
  write_dinode 192 demo_shared (write_dinode 128 demo_file (write_dinode 64 demo_root zero_block)).
Definition demo_dir : list Z :=
  demo_dirent 1 [46] ++ demo_dirent 1 [46; 46] ++ demo_dirent 2 [102] ++ demo_dirent 3 [103]
  ++ replicate 448 0.
Definition demo_data : list Z := [104; 101; 108; 108; 111] ++ replicate 507 0.
Definition demo_fdisk : gmap Z (list Z) :=
  {[32 := demo_inodes; 58 := demo_bitmap; 59 := demo_dir; 60 := demo_data]}.

(** One system call is inside its transaction. *)
Definition demo_tstore : store :=
  mkStore (binit demo_fdisk 1000 1) (mkLog 2 30 1 0 1 0 (replicate (Z.to_nat LOGSIZE) 0)).
Definition demo_tx : tx := mkTx 1 (home_block (s_log demo_tstore) 1000).
Definition demo_inode : inode := mkInode 0 0 0 initsleeplock false (mkDinode 0 0 0 0 0 0 (replicate 12 0) 0).
Definition demo_fs (uid : Z) : fs store :=
  mkFs demo_tstore demo_fsb (replicate 50 demo_inode) demo_utab (mkCurproc 7 uid None).

Lemma wf_blockb d : (length d =? 512)%nat && forallb (fun x => (0 <=? x) && (x <? 256)) d = true -> wf_block d.
Proof.
  intros [Hl Hb]%andb_prop. split; [by apply Nat.eqb_eq|]. apply Forall_forall. intros x Hx.
  apply list_elem_of_In in Hx. rewrite forallb_forall in Hb. specialize (Hb x Hx).
  unfold is_byte. apply andb_prop in Hb as [?%Z.leb_le ?%Z.ltb_lt]. lia.
Qed.

Lemma demo_holds uid : holds (demo_fs uid) demo_tx (dread demo_fdisk) ∅ ∅.
Proof.
  apply log_rep_empty; simpl; try (done || lia).
  apply binit_rep. unfold demo_fdisk.
  repeat (apply map_Forall_insert_2; [by apply wf_blockb; vm_compute|]).
  apply map_Forall_empty.
Qed.

Lemma demo_layout : layout_ok demo_fsb demo_tx.
Proof.
  split; simpl; unfold BPB, BSIZE, IBLOCK, IPB; simpl; try lia.
  - intros b Hb. apply home_block_true. simpl. lia.
  - apply home_block_true. simpl. lia.
  - intros i Hi. split; [apply home_block_true; simpl|]; unfold BSIZE, sizeof_dinode; mlia.
Qed.

Lemma demo_meta : meta_used demo_fsb (dread demo_fdisk).
Proof.
  intros b Hb. simpl in Hb. apply (Forall_forall (fun b => allocated demo_fsb (dread demo_fdisk) b = true) (seqZ 0 59)).
  - apply (bool_decide_unpack _). by vm_compute.
  - apply elem_of_seqZ. lia.
Qed.

(** C20: [balloc] returns the lowest free block: it becomes the only change to the
    set of allocated blocks, its contents are zero and no other block but the
    bitmap changes; freeing it again with [bfree] restores the set. *)
Theorem balloc_bfree {S} `{TxStore S} (s : fs S) c V B L free :
  layout_ok (f_sb s) c -> 0 < t_open c -> holds s c V B L -> meta_used (f_sb s) V ->
  0 <= free < sb_size (f_sb s) -> allocated (f_sb s) V free = false ->
  not_held B (sb_bmapstart (f_sb s)) ->
  (forall b, allocated (f_sb s) V b = false -> not_held B b) -> room B L 3 ->
  exists b s1 V1 L1 s2 V2 L2,
    balloc ROOTDEV s = Ok b s1 /\ holds s1 c V1 B L1 /\ first_free (f_sb s) V b
    /\ V1 b = zero_block
    /\ (forall b', 0 <= b' -> allocated (f_sb s) V1 b' = bool_decide (b' = b) || allocated (f_sb s) V b')
    /\ (forall b', b' ≠ b -> b' ≠ sb_bmapstart (f_sb s) -> V1 b' = V b')
    /\ bfree ROOTDEV b s1 = Ok tt s2 /\ holds s2 c V2 B L2
    /\ (forall b', 0 <= b' -> allocated (f_sb s) V2 b' = allocated (f_sb s) V b').
Proof.
  intros Hly Ho Hh Hm Hfr Hfa Hnm Hnb Hr.
  destruct (first_free_exists _ _ _ Hfr Hfa) as [b Hff]. pose proof Hff as (Hb & Hf & _).
  pose proof (first_free_data _ _ _ Hm Hff) as Hdb.
  pose proof (fun b' => balloc_view_allocated c _ Hly s V B L b b' Hh Hm Hff) as Hal.
  assert (Hrun : wp (balloc ROOTDEV) (fun r s1 => r = b /\ f_sb s1 = f_sb s
      /\ holds s1 c (balloc_view (f_sb s) V b) B ({[b]} ∪ ({[sb_bmapstart (f_sb s)]} ∪ L))) s).
  { eapply balloc_wp; eauto. unfold room in *. lia. }
  apply wp_Ok in Hrun as (r & s1 & Hrun & -> & Hsb & Hh1).
  assert (Hrun2 : wp (bfree ROOTDEV b) (fun _ s2 => exists L2, holds s2 c
      (upd (balloc_view (f_sb s) V b) (sb_bmapstart (f_sb s))
        (clear_bit b (balloc_view (f_sb s) V b (sb_bmapstart (f_sb s))))) B L2) s1).
  { eapply (bfree_wp c (f_sb s)); eauto.
    - rewrite Hal by lia. by rewrite bool_decide_true.
    - unfold room in *. pose proof (size_two_le b (sb_bmapstart (f_sb s)) L). lia. }
  apply wp_Ok in Hrun2 as ([] & s2 & Hrun2 & L2 & Hh2).
  eexists b, s1, (balloc_view (f_sb s) V b), _, s2, _, L2. split_and!; try eassumption.
  - unfold balloc_view. by rewrite upd_eq.
  - apply balloc_view_other.
  - intros b' Hb'. unfold allocated at 1. rewrite upd_eq.
    destruct (holds_wf _ _ _ _ _ (sb_bmapstart (f_sb s)) Hh1) as [Hl _].
    pose proof (ly_size _ _ Hly). rewrite bit_set_clear; [|unfold bit_ok, zlen, BPB, BSIZE in *; lia|done].
    pose proof (Hal b' Hb') as E. unfold allocated in E at 1. case_bool_decide; [by subst|].
    rewrite E. done.
Qed.

Lemma balloc_bfree_witness :
  exists b s1 s2, balloc ROOTDEV (demo_fs 5) = Ok b s1 /\ bfree ROOTDEV b s1 = Ok tt s2.
Proof.
  destruct (balloc_bfree (demo_fs 5) demo_tx (dread demo_fdisk) ∅ ∅ 61)
    as (b & s1 & V1 & L1 & s2 & V2 & L2 & H1 & _ & _ & _ & _ & _ & H2 & _).
  - exact demo_layout.
  - done.
  - exact (demo_holds 5).
  - exact demo_meta.
  - simpl. lia.
  - by vm_compute.
  - intros i. by rewrite lookup_empty.
  - intros b _ i. by rewrite lookup_empty.
  - unfold room. rewrite !size_empty. vm_compute. lia.
  - exists b, s1, s2. split; [exact H1|exact H2].
Defined.
