(* ===== verification/FileSpec.v ===== *)
(** * Inode contents: [bmap], [readi] and [writei] of fs.c

    The bytes of a file as a list, the invariant that ties an inode to its blocks,
    and what mapping, reading and writing do to it. *)

From S2P Require Import Prelude KMonad CString Params Bio BioSpec Log LogSpec Crash LogOps Users Store Fs FsSpec.

(** The indirect block, and the block of file block [bn] (0 when there is none). *)
Definition ind_addr (d : dinode) : Z := d_addrs d !!! Z.to_nat NDIRECT.
Definition faddr (V : Z -> list Z) (d : dinode) (bn : Z) : Z :=
  if bn <? NDIRECT then d_addrs d !!! Z.to_nat bn
  else if ind_addr d =? 0 then 0 else ind_get (V (ind_addr d)) (bn - NDIRECT).

(** A block of the data area that is marked in use. *)
Definition data_block (sb : superblock) (V : Z -> list Z) (b : Z) : Prop :=
  sb_bmapstart sb < b < sb_size sb /\ allocated sb V b = true.

(** The blocks of an inode are distinct allocated data blocks, and there are no
    holes below its size. *)
Record file_ok (sb : superblock) (V : Z -> list Z) (d : dinode) : Prop := {
  fo_len : length (d_addrs d) = NADDRS;
  fo_data : forall bn, 0 <= bn < MAXFILE -> faddr V d bn ≠ 0 -> data_block sb V (faddr V d bn);
  fo_ind : ind_addr d ≠ 0 -> data_block sb V (ind_addr d);
  fo_inj : forall bn bn', 0 <= bn < MAXFILE -> 0 <= bn' < MAXFILE ->
    faddr V d bn ≠ 0 -> faddr V d bn = faddr V d bn' -> bn = bn';
  fo_sep : forall bn, 0 <= bn < MAXFILE -> faddr V d bn ≠ 0 -> faddr V d bn ≠ ind_addr d;
  fo_size : 0 <= d_size d <= MAXFILE * BSIZE;
  fo_full : forall bn, 0 <= bn -> bn * BSIZE < d_size d -> faddr V d bn ≠ 0 }.

(** ** How the invariant survives allocation *)

Section Grow.
Context (sb : superblock) (V V' : Z -> list Z) (d d' : dinode).
Hypothesis Hok : file_ok sb V d.
Hypothesis Hlen : length (d_addrs d') = NADDRS.
Hypothesis Hsize : d_size d' = d_size d.
Hypothesis Hmono : forall b, 0 <= b -> allocated sb V b = true -> allocated sb V' b = true.
Hypothesis Hbm : 0 <= sb_bmapstart sb.

Lemma data_block_mono b : data_block sb V b -> data_block sb V' b.
Proof using Hmono Hbm. clear Hlen Hsize. intros [Hr Ha]. split; [done|]. apply Hmono; [lia|done]. Qed.

(** A file block gets a fresh block. *)
Lemma file_ok_data bn b :
  0 <= bn < MAXFILE -> faddr V d bn = 0 -> ind_addr d' = ind_addr d ->
  data_block sb V' b -> allocated sb V b = false ->
  (forall k, 0 <= k < MAXFILE -> faddr V' d' k = if bool_decide (k = bn) then b else faddr V d k) ->
  file_ok sb V' d'.
Proof using Hok Hlen Hsize Hmono Hbm.
  intros Hbn H0 Hind Hb Hfresh Hf. destruct Hok as [_ Hdata Hi Hinj Hsep Hsz Hfull].
  assert (Hne : forall k, 0 <= k < MAXFILE -> faddr V d k ≠ 0 -> faddr V d k ≠ b).
  { intros k Hk Hk0 E. destruct (Hdata k Hk Hk0) as [_ Ha]. rewrite E in Ha. congruence. }
  split; [done|..]; rewrite ?Hind, ?Hsize; try done.
  - intros k Hk. rewrite Hf by done. case_bool_decide; [done|]. intros. apply data_block_mono. auto.
  - intros Hn. by apply data_block_mono, Hi.
  - intros k k' Hk Hk'. rewrite !Hf by done. repeat case_bool_decide; subst; try done.
    + intros Hb0 E. exfalso. apply (Hne k'); [done| |done]. congruence.
    + intros Hk0 E. exfalso. by apply (Hne k).
    + auto.
  - intros k Hk. rewrite Hf by done. case_bool_decide; [|auto]. intros Hb0 E.
    destruct (Hi ltac:(congruence)) as [_ Ha]. congruence.
  - intros k Hk Hlt. destruct (decide (k < MAXFILE)); [|unfold BSIZE in *; lia].
    rewrite Hf by lia. case_bool_decide; [|auto]. intros ->. destruct Hb. lia.
Qed.

(** The inode gets a fresh indirect block. *)
Lemma file_ok_ind b :
  ind_addr d = 0 -> ind_addr d' = b -> data_block sb V' b -> allocated sb V b = false ->
  (forall k, 0 <= k < MAXFILE -> faddr V' d' k = faddr V d k) ->
  file_ok sb V' d'.
Proof using Hok Hlen Hsize Hmono Hbm.
  intros H0 Hind Hb Hfresh Hf. destruct Hok as [_ Hdata Hi Hinj Hsep Hsz Hfull].
  split; [done|..]; rewrite ?Hind, ?Hsize; try done.
  - intros k Hk. rewrite Hf by done. intros. apply data_block_mono. auto.
  - intros k k' Hk Hk'. rewrite !Hf by done. auto.
  - intros k Hk. rewrite Hf by done. intros Hk0 E. destruct (Hdata k Hk Hk0) as [_ Ha].
    rewrite E in Ha. congruence.
  - intros k Hk Hlt. destruct (decide (k < MAXFILE)); [|unfold BSIZE in *; lia].
    rewrite Hf by lia. auto.
Qed.
End Grow.

(** Entries of an indirect block. *)
Lemma ind_get_set d j k v :
  length d = 512%nat -> 0 <= j < NINDIRECT -> 0 <= k -> is_u32 v ->
  ind_get (ind_set d j v) k = if bool_decide (k = j) then v else ind_get d k.
Proof.
  intros Hl Hj Hk Hv. unfold ind_get, ind_set, NINDIRECT, BSIZE in *. change (512 / 4) with 128 in Hj.
  case_bool_decide as E.
  - subst. apply get_set_le_same; [lia|done].
  - apply get_set_le_other; lia.
Qed.

Lemma ind_get_zero k : ind_get zero_block k = 0.
Proof.
  unfold ind_get, get_le, slice, zero_block. rewrite drop_replicate, take_replicate.
  generalize (4 `min` (512 - 4 * Z.to_nat k))%nat. induction n as [|n IH]; simpl; [done|]. by rewrite IH.
Qed.

(** ** Free blocks *)

Definition free_blocks (sb : superblock) (V : Z -> list Z) : gset Z :=
  filter (fun b => allocated sb V b = false) (list_to_set (seqZ 0 (sb_size sb))).

Lemma elem_of_free_blocks sb V b :
  b ∈ free_blocks sb V <-> 0 <= b < sb_size sb /\ allocated sb V b = false.
Proof. unfold free_blocks. rewrite elem_of_filter, elem_of_list_to_set, elem_of_seqZ. naive_solver lia. Qed.

Lemma free_first sb V : (0 < size (free_blocks sb V))%nat -> exists b, first_free sb V b.
Proof.
  intros Hs. destruct (set_choose_L (free_blocks sb V)) as [b Hb].
  { intros E. rewrite E, size_empty in Hs. lia. }
  apply elem_of_free_blocks in Hb as [Hr Ha]. by eapply first_free_exists.
Qed.

(** Marking one block leaves one free block fewer. *)
Lemma free_blocks_mark sb V V' b :
  (forall b', 0 <= b' -> allocated sb V' b' = bool_decide (b' = b) || allocated sb V b') ->
  (size (free_blocks sb V) <= size (free_blocks sb V') + 1)%nat.
Proof.
  intros Ha. assert (Hsub : free_blocks sb V ⊆ {[b]} ∪ free_blocks sb V').
  { intros b'. rewrite elem_of_union, elem_of_singleton, !elem_of_free_blocks. intros [Hr Hf].
    rewrite Ha by lia. destruct (decide (b' = b)) as [|Hne]; [by left|right].
    by rewrite bool_decide_false. }
  pose proof (subseteq_size _ _ Hsub). pose proof (size_one_le b (free_blocks sb V')). lia.
Qed.

(** ** What [bmap] achieves *)

Section Mapped.
Context (sb : superblock).

(** The indirect block, as a set. *)
Definition ind_blocks (d : dinode) : gset Z := if decide (ind_addr d = 0) then ∅ else {[ind_addr d]}.

Lemma ind_blocks_in d : ind_addr d ≠ 0 -> ind_blocks d = {[ind_addr d]}.
Proof. intros. unfold ind_blocks. by rewrite decide_False. Qed.

(** File block [bn] is now at [b]: the other blocks of the file are where they were,
    a new block is zero, and no allocated block changed but the bitmap and the
    file's own indirect block.  At most three blocks were logged. *)
Record mapped (V : Z -> list Z) (d : dinode) (L : gset Z) (V' : Z -> list Z) (d' : dinode)
    (L' : gset Z) (bn b : Z) : Prop := {
  mp_ok : file_ok sb V' d';
  mp_addr : forall k, 0 <= k < MAXFILE ->
    faddr V' d' k = if bool_decide (k = bn) then b else faddr V d k;
  mp_nz : b ≠ 0;
  mp_old : faddr V d bn ≠ 0 -> b = faddr V d bn;
  mp_new : faddr V d bn = 0 -> V' b = zero_block /\ allocated sb V b = false;
  mp_d : exists a, d' = d_set_addrs a d;
  mp_frame : forall b', 0 <= b' -> allocated sb V b' = true -> b' ≠ sb_bmapstart sb ->
    b' ≠ ind_addr d -> V' b' = V b';
  mp_mono : forall b', 0 <= b' -> allocated sb V b' = true -> allocated sb V' b' = true;
  mp_free : (size (free_blocks sb V) <= size (free_blocks sb V') + 2)%nat;
  mp_log : L ⊆ L' /\ L' ⊆ {[b]} ∪ ({[sb_bmapstart sb]} ∪ (ind_blocks d' ∪ L));
  mp_ind : ind_addr d ≠ 0 -> ind_addr d' = ind_addr d;
  mp_sep : ind_addr d = 0 -> ind_addr d' = 0 \/ allocated sb V (ind_addr d') = false;
  mp_same : faddr V d bn ≠ 0 -> d' = d }.

Lemma mapped_refl V d L bn :
  file_ok sb V d -> faddr V d bn ≠ 0 -> mapped V d L V d L bn (faddr V d bn).
Proof.
  intros Hok Hn. split; try done; try lia.
  - intros k _. by case_bool_decide; subst.
  - exists (d_addrs d). by destruct d.
  - set_solver.
Qed.

(** The facts about a fresh block that every case uses. *)
Record fresh (V : Z -> list Z) (b : Z) : Prop := {
  fr_data : data_block sb (balloc_view sb V b) b;
  fr_free : allocated sb V b = false;
  fr_mono : forall b', 0 <= b' -> allocated sb V b' = true -> allocated sb (balloc_view sb V b) b' = true;
  fr_frame : forall b', allocated sb V b' = true -> b' ≠ sb_bmapstart sb -> balloc_view sb V b b' = V b';
  fr_zero : balloc_view sb V b b = zero_block;
  fr_count : (size (free_blocks sb V) <= size (free_blocks sb (balloc_view sb V b)) + 1)%nat }.

Lemma file_alloc V d : file_ok sb V d -> ind_addr d ≠ 0 ->
  allocated sb V (ind_addr d) = true /\ sb_bmapstart sb < ind_addr d < sb_size sb.
Proof. intros Hok Hn. by destruct (fo_ind _ _ _ Hok Hn). Qed.

Lemma mapped_direct V d L bn b :
  0 <= sb_bmapstart sb -> file_ok sb V d -> 0 <= bn < NDIRECT -> faddr V d bn = 0 -> fresh V b ->
  mapped V d L (balloc_view sb V b) (d_set_addrs (<[Z.to_nat bn := b]> (d_addrs d)) d)
    ({[b]} ∪ ({[sb_bmapstart sb]} ∪ L)) bn b.
Proof.
  intros Hbm Hok Hbn H0 [Hd Hf Hmono Hfr Hz Hc]. pose proof (fo_len _ _ _ Hok) as Hl. set (d' := d_set_addrs _ _).
  assert (Hi : ind_addr d' = ind_addr d).
  { unfold ind_addr, d', NDIRECT in *. simpl. apply list_lookup_total_insert_ne. lia. }
  assert (Ha : forall k, 0 <= k < MAXFILE ->
     faddr (balloc_view sb V b) d' k = if bool_decide (k = bn) then b else faddr V d k).
  { intros k Hk. unfold faddr. rewrite Hi. unfold d'. simpl.
    destruct (k <? NDIRECT) eqn:Ek; bool_cases.
    - case_bool_decide; [subst; apply list_lookup_total_insert_eq; unfold NADDRS, NDIRECT in *; lia|].
      apply list_lookup_total_insert_ne. lia.
    - rewrite bool_decide_false by lia. destruct (ind_addr d =? 0) eqn:E0; [done|bool_cases].
      destruct (file_alloc V d Hok E0). rewrite Hfr; [done|done|lia]. }
  split; try done.
  - eapply (file_ok_data sb V (balloc_view sb V b) d d' Hok); try done; try lia.
    + unfold d'. simpl. by rewrite length_insert.
    + change MAXFILE with 139. unfold NDIRECT in *. lia.
  - destruct Hd. lia.
  - by eexists.
  - intros b' ? ? ? _. by apply Hfr.
  - lia.
  - set_solver.
  - rewrite Hi. by left.
Qed.

(** The indirect block exists, and the blocks of the file are where they were. *)
Record indirect (V : Z -> list Z) (d : dinode) (L : gset Z) (V' : Z -> list Z) (d' : dinode)
    (L' : gset Z) : Prop := {
  in_ok : file_ok sb V' d';
  in_addr : forall k, 0 <= k < MAXFILE -> faddr V' d' k = faddr V d k;
  in_nz : ind_addr d' ≠ 0;
  in_d : exists a, d' = d_set_addrs a d;
  in_frame : forall b', allocated sb V b' = true -> b' ≠ sb_bmapstart sb -> V' b' = V b';
  in_mono : forall b', 0 <= b' -> allocated sb V b' = true -> allocated sb V' b' = true;
  in_free : (size (free_blocks sb V) <= size (free_blocks sb V') + 1)%nat;
  in_log : L ⊆ L' /\ L' ⊆ L ∪ {[sb_bmapstart sb; ind_addr d']};
  in_ind : ind_addr d ≠ 0 -> ind_addr d' = ind_addr d;
  in_sep : ind_addr d = 0 -> allocated sb V (ind_addr d') ≠ true;
  in_same : ind_addr d ≠ 0 -> d' = d }.

Lemma indirect_refl V d L : file_ok sb V d -> ind_addr d ≠ 0 -> indirect V d L V d L.
Proof. intros Hok Hn. split; try done; try lia; [by exists (d_addrs d); destruct d|set_solver]. Qed.

Lemma indirect_new V d L b :
  0 <= sb_bmapstart sb -> file_ok sb V d -> ind_addr d = 0 -> fresh V b ->
  indirect V d L (balloc_view sb V b) (d_set_addrs (<[Z.to_nat NDIRECT := b]> (d_addrs d)) d)
    ({[b]} ∪ ({[sb_bmapstart sb]} ∪ L)).
Proof.
  intros Hbm Hok H0 [Hd Hf Hmono Hfr Hz Hc]. pose proof (fo_len _ _ _ Hok) as Hl. set (d' := d_set_addrs _ _).
  assert (Hb0 : b ≠ 0) by (destruct Hd; lia).
  assert (Hi : ind_addr d' = b).
  { unfold ind_addr, d'. simpl. apply list_lookup_total_insert_eq. unfold NADDRS, NDIRECT in *. lia. }
  assert (Ha : forall k, 0 <= k < MAXFILE -> faddr (balloc_view sb V b) d' k = faddr V d k).
  { intros k Hk. unfold faddr. rewrite Hi, H0. unfold d'. simpl.
    destruct (k <? NDIRECT) eqn:Ek; bool_cases.
    - apply list_lookup_total_insert_ne. unfold NDIRECT in *. lia.
    - rewrite (proj2 (Z.eqb_neq b 0)) by done. rewrite Hz. apply ind_get_zero. }
  split; try done; rewrite ?Hi; try done.
  - eapply (file_ok_ind sb V (balloc_view sb V b) d d' Hok); try done.
    unfold d'. simpl. by rewrite length_insert.
  - by eexists.
  - set_solver.
  - congruence.
Qed.

(** A fresh block for entry [bn] of the indirect block. *)
Lemma mapped_entry V d L bn b :
  0 <= sb_bmapstart sb -> sb_size sb <= BPB -> length (V (ind_addr d)) = 512%nat -> file_ok sb V d ->
  NDIRECT <= bn < MAXFILE -> ind_addr d ≠ 0 -> faddr V d bn = 0 -> fresh V b ->
  mapped V d L
    (upd (balloc_view sb V b) (ind_addr d) (ind_set (V (ind_addr d)) (bn - NDIRECT) b)) d
    ({[ind_addr d]} ∪ ({[b]} ∪ ({[sb_bmapstart sb]} ∪ L))) bn b.
Proof.
  intros Hbm Hsz Hl Hok Hbn Hn H0 [Hd Hf Hmono Hfr Hz Hc]. destruct (file_alloc V d Hok Hn) as [Hia Hir].
  assert (Hbi : b ≠ ind_addr d) by congruence. set (V' := upd _ _ _).
  assert (Hal : forall b', allocated sb V' b' = allocated sb (balloc_view sb V b) b').
  { intros b'. unfold allocated, V'. rewrite upd_ne; [done|lia]. }
  assert (Ha : forall k, 0 <= k < MAXFILE ->
     faddr V' d k = if bool_decide (k = bn) then b else faddr V d k).
  { intros k Hk. unfold faddr, V'. destruct (k <? NDIRECT) eqn:Ek; bool_cases.
    - rewrite bool_decide_false; [done|lia].
    - rewrite (proj2 (Z.eqb_neq _ 0)) by done. rewrite upd_eq, ind_get_set; [|done| | |].
      + repeat case_bool_decide; done || lia.
      + change MAXFILE with 139 in *. change NINDIRECT with 128. unfold NDIRECT in *. lia.
      + lia.
      + destruct Hd. unfold is_u32, BPB, BSIZE in *. lia. }
  split; try done.
  - eapply (file_ok_data sb V V' d d Hok); try done; try lia.
    + apply (fo_len _ _ _ Hok).
    + intros b' Hb' E. rewrite Hal. auto.
    + unfold NDIRECT in *. lia.
    + unfold data_block. rewrite Hal. done.
  - destruct Hd. lia.
  - intros _. split; [|done]. unfold V'. by rewrite upd_ne.
  - exists (d_addrs d). by destruct d.
  - intros b' Hb' Ea Hne Hni. unfold V'. rewrite upd_ne by done. auto.
  - intros b' Hb' Ea. rewrite Hal. auto.
  - replace (free_blocks sb V') with (free_blocks sb (balloc_view sb V b)); [lia|].
    apply set_eq. intros b'. rewrite !elem_of_free_blocks, Hal. done.
  - rewrite ind_blocks_in by done. set_solver.
Qed.

(** A block beyond the direct ones needs the indirect block. *)
Lemma addr_ind V d bn : NDIRECT <= bn -> faddr V d bn ≠ 0 -> ind_addr d ≠ 0.
Proof.
  intros Hbn. unfold faddr. rewrite (proj2 (Z.ltb_ge bn NDIRECT)) by done.
  destruct (ind_addr d =? 0) eqn:E; bool_cases; done.
Qed.

Lemma entry_count V d bn b :
  sb_bmapstart sb ≠ ind_addr d -> fresh V b ->
  (size (free_blocks sb V) <= size (free_blocks sb
    (upd (balloc_view sb V b) (ind_addr d) (ind_set (V (ind_addr d)) bn b))) + 1)%nat.
Proof.
  intros Hne Hfr. pose proof (fr_count _ _ Hfr). unfold free_blocks, allocated in *. by rewrite upd_ne.
Qed.

(** The two phases together. *)
Lemma indirect_mapped V d L V1 d1 L1 V2 d2 L2 bn b :
  0 <= sb_bmapstart sb -> NDIRECT <= bn < MAXFILE -> indirect V d L V1 d1 L1 ->
  mapped V1 d1 L1 V2 d2 L2 bn b -> (size (free_blocks sb V1) <= size (free_blocks sb V2) + 1)%nat ->
  mapped V d L V2 d2 L2 bn b.
Proof.
  intros Hbm Hbn' HI HM Hfr. assert (Hbn : 0 <= bn < MAXFILE) by (unfold NDIRECT in *; lia).
  destruct HI, HM.
  assert (Hsub : forall b', 0 <= b' -> allocated sb V1 b' = false -> allocated sb V b' = false).
  { intros b' Hb' E. destruct (allocated sb V b') eqn:E1; [|done]. rewrite in_mono0 in E by done. done. }
  split; try done.
  - intros k Hk. rewrite mp_addr0, in_addr0 by done. done.
  - rewrite <- in_addr0 by done. done.
  - rewrite <- in_addr0 by done. intros E. destruct (mp_new0 E) as [? Hb]. split; [done|].
    apply Hsub; [|done]. pose proof (mp_addr0 bn Hbn) as Eb. rewrite bool_decide_true in Eb by done.
    destruct (fo_data _ _ _ mp_ok0 bn Hbn) as [? _]; [congruence|].
    rewrite Eb in *. lia.
  - destruct in_d0 as [a ->], mp_d0 as [a' ->]. by exists a'.
  - intros b' Hb' Ea Hne Hni. destruct (decide (b' = ind_addr d1)) as [->|Hn1].
    + exfalso. destruct (decide (ind_addr d = 0)) as [E0|E0]; [|by rewrite in_ind0 in Hni].
      by apply (in_sep0 E0).
    + rewrite mp_frame0; auto.
  - intros b' Hb' Ea. auto.
  - lia.
  - destruct in_log0 as [A1 A2], mp_log0 as [B1 B2]. rewrite (mp_ind0 in_nz0) in *.
    rewrite ind_blocks_in in B2 |- * by (by rewrite (mp_ind0 in_nz0)).
    rewrite (mp_ind0 in_nz0) in *. clear -A1 A2 B1 B2. set_solver.
  - intros Hn. rewrite mp_ind0, in_ind0; done.
  - intros E0. right. rewrite mp_ind0 by done. by apply not_true_iff_false, in_sep0.
  - intros Hn. rewrite mp_same0 by (by rewrite in_addr0). apply in_same0, (addr_ind V d bn); [lia|done].
Qed.
End Mapped.

(** ** The running state *)

Section File.
Context {S : Type} `{TxStore S}.
Context (c : tx) (sb : superblock).
Hypothesis Hly : layout_ok sb c.
Hypothesis Hopen : 0 < t_open c.
(** The cache entry [ip] (with everything but its disk part in [x]), and the parts
    of the state that file operations do not change. *)
Context (ic : list inode) (ut : utab) (cu : curproc) (ip : nat) (x : inode).
Hypothesis Hip : (ip < length ic)%nat.
Hypothesis Hdev : i_dev x = ROOTDEV.

Record file_st (s : fs S) (d : dinode) V B L : Prop := {
  fs_sb : f_sb s = sb;
  fs_ic : f_icache s = <[ip := set_d d x]> ic;
  fs_ut : f_ut s = ut;
  fs_cu : f_cur s = cu;
  fs_holds : holds s c V B L }.

Lemma file_st_store s t d V B L V' B' L' :
  file_st s d V B L -> holds (put_store t s) c V' B' L' -> file_st (put_store t s) d V' B' L'.
Proof. intros [? ? ? ? _] Hh. by split. Qed.

Lemma get_inode_st s d V B L (Q : inode -> fs S -> Prop) :
  file_st s d V B L -> Q (set_d d x) s -> wp (get_inode ip) Q s.
Proof using Hip.
  intros Hst HQ. unfold wp, get_inode. rewrite (fs_ic _ _ _ _ _ Hst), list_lookup_insert_eq by done. done.
Qed.

Lemma put_inode_st s d d' V B L (Q : unit -> fs S -> Prop) :
  file_st s d V B L -> (forall s', file_st s' d' V B L -> Q tt s') ->
  wp (put_inode ip (set_d d' x)) Q s.
Proof.
  intros [? Hic ? ? Hh] HQ. apply wp_modify, HQ. split; simpl; try done.
  by rewrite Hic, list_insert_insert_eq.
Qed.

Lemma get_addr_st s d V B L i (Q : Z -> fs S -> Prop) :
  file_st s d V B L -> length (d_addrs d) = NADDRS -> 0 <= i <= NDIRECT ->
  Q (d_addrs d !!! Z.to_nat i) s -> wp (get_addr ip i) Q s.
Proof using Hip.
  intros Hst Hl Hi HQ. apply wp_bind. eapply get_inode_st; [done|]. cbn.
  eapply wp_from_opt; [|done]. unfold i_addrs. simpl. unfold NADDRS, NDIRECT in *.
  rewrite <- (Z2Nat.id i) at 1 by lia. rewrite zget_nat. apply list_lookup_lookup_total_lt.
  rewrite Hl. lia.
Qed.

Lemma set_addr_st s d V B L i v (Q : unit -> fs S -> Prop) :
  file_st s d V B L -> length (d_addrs d) = NADDRS -> 0 <= i <= NDIRECT ->
  (forall s', file_st s' (d_set_addrs (<[Z.to_nat i := v]> (d_addrs d)) d) V B L -> Q tt s') ->
  wp (set_addr ip i v) Q s.
Proof using Hip.
  intros Hst Hl Hi HQ. apply wp_bind. eapply get_inode_st; [done|]. apply wp_bind.
  eapply wp_from_opt.
  { unfold i_addrs. simpl. rewrite <- (Z2Nat.id i) at 1 by lia. apply zset_nat.
    unfold NADDRS, NDIRECT in *. lia. }
  by eapply put_inode_st.
Qed.

(** Buffers that are held are of allocated blocks other than the bitmap. *)
Definition held_ok V (B : gmap nat Z) : Prop :=
  forall i b, B !! i = Some b -> allocated sb V b = true /\ b ≠ sb_bmapstart sb.

Lemma balloc_st s d V B L (Q : Z -> fs S -> Prop) :
  file_st s d V B L -> meta_used sb V -> (0 < size (free_blocks sb V))%nat -> held_ok V B ->
  room B L 2 ->
  (forall s' b, first_free sb V b ->
     file_st s' d (balloc_view sb V b) B ({[b]} ∪ ({[sb_bmapstart sb]} ∪ L)) -> Q b s') ->
  wp (balloc (i_dev x)) Q s.
Proof using Hly Hopen Hdev.
  intros Hst Hm Hfree Hheld Hr HQ. destruct (free_first _ _ Hfree) as [b Hff].
  rewrite Hdev. eapply (balloc_wp c sb Hly Hopen); [apply Hst|apply Hst|done|exact Hff| | |done|].
  - intros i E. apply Hheld in E as [Ha _]. destruct Hff as (_ & Hf & _). congruence.
  - intros i E. by apply Hheld in E as [_ ?].
  - intros t Ht. apply (HQ _ b Hff). by eapply file_st_store.
Qed.

Lemma first_free_fresh s d V B L b :
  file_st s d V B L -> meta_used sb V -> first_free sb V b -> fresh sb V b.
Proof using Hly Hip.
  intros Hst Hm Hff. pose proof (first_free_data _ _ _ Hm Hff) as Hr. pose proof Hff as (_ & Hf & _).
  pose proof (ly_bmap_in _ _ Hly).
  pose proof (fun b' => balloc_view_allocated c sb Hly s V B L b b' (fs_holds _ _ _ _ _ Hst) Hm Hff) as Ha.
  split; try done.
  - split; [done|]. rewrite Ha by lia. by rewrite bool_decide_true.
  - intros b' Hb' E. by rewrite Ha, E, orb_true_r.
  - intros b' Hb' Hne. apply balloc_view_other; [|done]. congruence.
  - unfold balloc_view. apply upd_eq.
  - by apply (free_blocks_mark _ _ _ b).
Qed.

(** ** [bmap] *)

(** Reading and changing the block of a held buffer. *)
Lemma bread_st s d V B L b n (Q : nat -> fs S -> Prop) :
  file_st s d V B L -> t_home c b = true -> not_held B b -> room B L n ->
  (forall s' i, B !! i = None -> file_st s' d V (<[i := b]> B) L -> Q i s') ->
  wp (bread (i_dev x) b) Q s.
Proof using Hdev.
  intros Hst Hb Hn Hr HQ. rewrite Hdev. eapply wp_bread; [apply Hst|done..|].
  intros i t Hi Ht. apply HQ; [done|]. by eapply file_st_store.
Qed.

Lemma brelse_st s d V B L i b (Q : unit -> fs S -> Prop) :
  file_st s d V (<[i := b]> B) L -> B !! i = None ->
  (forall s', file_st s' d V B L -> Q tt s') -> wp (brelse i) Q s.
Proof using.
  intros Hst Hi HQ. eapply wp_brelse; [apply Hst|apply lookup_insert_eq|].
  intros t Ht. rewrite delete_insert_id in Ht by done. apply HQ. by eapply file_st_store.
Qed.

Lemma read_data_st s d V B L i b (Q : list Z -> fs S -> Prop) :
  file_st s d V B L -> B !! i = Some b -> Q (V b) s -> wp (read_data i) Q s.
Proof using. intros Hst. by eapply wp_read_data, Hst. Qed.

Lemma write_log_st s d V B L i b bytes (Q : unit -> fs S -> Prop) :
  file_st s d V B L -> B !! i = Some b -> wf_block bytes -> (size L < log_capacity)%nat ->
  (forall s', file_st s' d (upd V b bytes) B ({[b]} ∪ L) -> Q tt s') ->
  wp (write_data i bytes ;;; log_write i) Q s.
Proof using Hopen.
  intros Hst Hi Hw Hl HQ. eapply wp_write_log; [apply Hst|done..|].
  intros t Ht. apply HQ. by eapply file_st_store.
Qed.

Lemma data_home V b : data_block sb V b -> t_home c b = true.
Proof using Hly. intros [Hr _]. by apply (ly_home _ _ Hly). Qed.

Lemma not_held_empty b : not_held ∅ b.
Proof using. intros i. by rewrite lookup_empty. Qed.

(** [bmap] makes sure of the indirect block first. *)
Lemma bmap_indirect s d V L (Q : Z -> fs S -> Prop) :
  file_st s d V ∅ L -> file_ok sb V d -> meta_used sb V ->
  (0 < size (free_blocks sb V))%nat -> room ∅ L 2 ->
  (forall s' V' d' L', file_st s' d' V' ∅ L' -> indirect sb V d L V' d' L' -> Q (ind_addr d') s') ->
  wp (addr <- get_addr ip NDIRECT ;;
      if addr =? 0 then
        addr <- balloc (i_dev x) ;; set_addr ip NDIRECT addr ;;; ret addr
      else ret addr) Q s.
Proof using Hly Hopen Hip Hdev.
  intros Hst Hok Hm Hfree Hr HQ. pose proof (ly_bmap_in _ _ Hly).
  pose proof (fo_len _ _ _ Hok) as Hl. apply wp_bind.
  eapply get_addr_st; [done|done|unfold NDIRECT; lia|]. fold (ind_addr d).
  destruct (ind_addr d =? 0) eqn:E0; bool_cases.
  - apply wp_bind. eapply balloc_st; [done|done|done| |done|].
    { intros i b. by rewrite lookup_empty. }
    intros s1 b Hff Hst1. pose proof (first_free_fresh s d V ∅ L b Hst Hm Hff) as Hfr.
    apply wp_bind. eapply set_addr_st; [done|done|unfold NDIRECT; lia|]. intros s2 Hst2. apply wp_ret.
    pose proof (indirect_new sb V d L b ltac:(lia) Hok E0 Hfr) as HI.
    assert (Ei : ind_addr (d_set_addrs (<[Z.to_nat NDIRECT := b]> (d_addrs d)) d) = b).
    { unfold ind_addr. simpl. apply list_lookup_total_insert_eq. rewrite Hl. unfold NADDRS, NDIRECT. lia. }
    rewrite <- Ei at 1. by eapply HQ.
  - apply wp_ret. eapply HQ; [done|]. by apply indirect_refl.
Qed.

(** The entry of the indirect block, allocated if there is none. *)
Lemma bmap_entry s d V L bn (Q : Z -> fs S -> Prop) :
  file_st s d V ∅ L -> file_ok sb V d -> meta_used sb V -> ind_addr d ≠ 0 ->
  NDIRECT <= bn < MAXFILE -> (0 < size (free_blocks sb V))%nat -> room ∅ L 3 ->
  (forall s' V' L' b, file_st s' d V' ∅ L' -> mapped sb V d L V' d L' bn b ->
     (size (free_blocks sb V) <= size (free_blocks sb V') + 1)%nat -> Q b s') ->
  wp (bp <- bread (i_dev x) (ind_addr d) ;;
      dat <- read_data bp ;;
      addr <- (if ind_get dat (bn - NDIRECT) =? 0 then
                 addr <- balloc (i_dev x) ;;
                 dat <- read_data bp ;;
                 write_data bp (ind_set dat (bn - NDIRECT) addr) ;;;
                 log_write bp ;;;
                 ret addr
               else ret (ind_get dat (bn - NDIRECT))) ;;
      brelse bp ;;;
      ret addr) Q s.
Proof using Hly Hopen Hip Hdev.
  intros Hst Hok Hm Hn Hbn Hfree Hr HQ. pose proof (ly_bmap_in _ _ Hly). pose proof (ly_size _ _ Hly).
  pose proof (fo_ind _ _ _ Hok Hn) as Hdi. destruct Hdi as [Hir Hia]. set (ind := ind_addr d) in *.
  assert (Hw : length (V ind) = 512%nat) by (eapply holds_wf, Hst).
  assert (Ef : ind_get (V ind) (bn - NDIRECT) = faddr V d bn).
  { unfold faddr. fold ind. rewrite (proj2 (Z.ltb_ge bn NDIRECT)) by lia.
    by rewrite (proj2 (Z.eqb_neq ind 0)). }
  apply wp_bind. eapply bread_st; [done|by apply (ly_home _ _ Hly)|apply not_held_empty|done|].
  intros s1 i Hi Hst1. apply wp_bind. eapply read_data_st; [done|apply lookup_insert_eq|].
  rewrite Ef. apply wp_bind. destruct (faddr V d bn =? 0) eqn:E0; bool_cases.
  - apply wp_bind. eapply balloc_st; [done|done|done| | |].
    { intros j b Hj. rewrite insert_empty in Hj. apply lookup_singleton_Some in Hj as [_ <-].
      split; [done|lia]. }
    { destruct Hr as [Hr _]. split; [lia|]. by rewrite insert_empty, map_size_singleton. }
    intros s2 b Hff Hst2. pose proof (first_free_fresh s d V ∅ L b Hst Hm Hff) as Hfr.
    apply wp_bind. eapply read_data_st; [done|apply lookup_insert_eq|].
    rewrite (fr_frame _ _ _ Hfr) by (done || lia). apply wp_assoc, wp_bind.
    eapply write_log_st; [done|apply lookup_insert_eq| | |].
    { apply wf_block_set_le; [|eapply holds_wf, Hst]. change MAXFILE with 139 in *. unfold NDIRECT in *. lia. }
    { pose proof (size_two_le b (sb_bmapstart sb) L). destruct Hr. lia. }
    intros s3 Hst3. apply wp_ret, wp_bind. eapply brelse_st; [done|done|]. intros s4 Hst4. apply wp_ret.
    assert (HM := mapped_entry sb V d L bn b ltac:(lia) ltac:(lia) Hw Hok Hbn Hn E0 Hfr).
    eapply HQ; [done|exact HM|]. apply entry_count; [lia|done].
  - apply wp_ret, wp_bind. eapply brelse_st; [done|done|]. intros s2 Hst2. apply wp_ret.
    eapply HQ; [done|by apply mapped_refl|lia].
Qed.

Lemma bmap_wp s d V L bn (Q : Z -> fs S -> Prop) :
  file_st s d V ∅ L -> file_ok sb V d -> meta_used sb V -> 0 <= bn < MAXFILE ->
  (1 < size (free_blocks sb V))%nat -> room ∅ L 5 ->
  (forall s' V' d' L' b, file_st s' d' V' ∅ L' -> mapped sb V d L V' d' L' bn b -> Q b s') ->
  wp (bmap ip bn) Q s.
Proof using Hly Hopen Hip Hdev.
  intros Hst Hok Hm Hbn Hfree Hr HQ. pose proof (ly_bmap_in _ _ Hly).
  pose proof (fo_len _ _ _ Hok) as Hl. unfold bmap. apply wp_bind. eapply get_inode_st; [done|].
  change (i_dev (set_d d x)) with (i_dev x). destruct (bn <? NDIRECT) eqn:Ed; bool_cases.
  - apply wp_bind. eapply get_addr_st; [done|done|lia|].
    assert (Ef : d_addrs d !!! Z.to_nat bn = faddr V d bn)
      by (unfold faddr; by rewrite (proj2 (Z.ltb_lt bn NDIRECT))).
    rewrite Ef. destruct (faddr V d bn =? 0) eqn:E0; bool_cases.
    + apply wp_bind. eapply balloc_st; [done|done|lia| | |].
      { intros i b. by rewrite lookup_empty. }
      { destruct Hr. split; [lia|done]. }
      intros s1 b Hff Hst1. pose proof (first_free_fresh s d V ∅ L b Hst Hm Hff) as Hfr.
      apply wp_bind. eapply set_addr_st; [done|done|lia|]. intros s2 Hst2. apply wp_ret.
      eapply HQ; [done|]. apply mapped_direct; [lia|done|lia|done..].
    + apply wp_ret. eapply HQ; [done|]. by apply mapped_refl.
  - rewrite (proj2 (Z.ltb_lt (bn - NDIRECT) NINDIRECT)) by (unfold MAXFILE in *; lia).
    apply wp_assoc, wp_bind. eapply bmap_indirect; [done|done|done|lia| |].
    { destruct Hr. split; [lia|done]. }
    intros s1 V1 d1 L1 Hst1 HI. destruct (in_log _ _ _ _ _ _ _ HI) as [_ HL1].
    eapply bmap_entry; [done|apply HI| |apply HI|lia| | |].
    { intros b Hb. apply (in_mono _ _ _ _ _ _ _ HI); [lia|by apply Hm]. }
    { pose proof (in_free _ _ _ _ _ _ _ HI). lia. }
    { destruct Hr as [Hr _]. pose proof (subseteq_size _ _ HL1) as Hs.
      pose proof (size_two_le (sb_bmapstart sb) (ind_addr d1) L).
      replace (L ∪ {[sb_bmapstart sb; ind_addr d1]})
        with ({[sb_bmapstart sb]} ∪ ({[ind_addr d1]} ∪ L)) in Hs by set_solver. split; [lia|].
      by rewrite map_size_empty; lia. }
    intros s2 V2 L2 b Hst2 HM Hc. eapply HQ; [done|].
    eapply indirect_mapped; [lia|lia|done|done|lia].
Qed.
End File.
