(* ===== verification/Dinode.v ===== *)
(** * The disk inode: [ilock] and [iupdate] read back what they write

    The layout of [struct dinode] in an inode block. *)

From S2P Require Import Prelude KMonad CString Params Bio Users Store Fs.

(** Every field in the range of its C type. *)
Record dinode_ok (d : dinode) : Prop := {
  do_perm : is_i8 (d_perm d);
  do_type : is_i8 (d_type d);
  do_major : is_i16 (d_major d);
  do_minor : is_i16 (d_minor d);
  do_nlink : is_i16 (d_nlink d);
  do_size : is_u32 (d_size d);
  do_addrs : length (d_addrs d) = NADDRS /\ Forall is_u32 (d_addrs d);
  do_owner : is_u32 (d_owner d) }.

Lemma length_put_addrs a : forall o b,
  (o + 4 * length a <= length b)%nat -> length (put_addrs o a b) = length b.
Proof.
  induction a as [|v a IH]; intros o b Hl; simpl in *; [done|].
  rewrite IH; rewrite length_set_le; lia.
Qed.

Lemma get_put_addrs_out a : forall o b m j,
  (o + 4 * length a <= length b)%nat -> (j + m <= o \/ o + 4 * length a <= j)%nat ->
  get_le m j (put_addrs o a b) = get_le m j b.
Proof.
  induction a as [|v a IH]; intros o b m j Hl Hj; simpl in *; [done|].
  rewrite IH; [|rewrite length_set_le; lia|lia]. apply get_set_le_other; lia.
Qed.

Lemma get_put_addrs_in a : forall o b k v,
  (o + 4 * length a <= length b)%nat -> a !! k = Some v ->
  get_le 4 (o + 4 * k) (put_addrs o a b) = u32 v.
Proof.
  induction a as [|w a IH]; intros o b k v Hl Hk; [done|]. simpl in Hl. destruct k as [|k]; simpl in *.
  - injection Hk as ->. replace (o + 0)%nat with o by lia.
    rewrite get_put_addrs_out; [|rewrite length_set_le; lia|lia].
    apply get_set_le_same; [lia|apply u32_range].
  - replace (o + Datatypes.S (k + Datatypes.S (k + Datatypes.S (k + Datatypes.S (k + 0)))))%nat
      with (o + 4 + 4 * k)%nat by lia.
    apply IH; [rewrite length_set_le; lia|done].
Qed.

(** Side conditions on the length of a block after updates. *)
Ltac set_le_len := repeat (rewrite length_set_le; [|set_le_len]); lia.

(** The length of an inode block does not change. *)
Lemma length_write_dinode o d b :
  length (d_addrs d) = NADDRS -> (o + 64 <= length b)%nat -> length (write_dinode o d b) = length b.
Proof.
  intros Hl Ho. change NADDRS with 12%nat in Hl. unfold write_dinode.
  rewrite length_put_addrs by set_le_len. set_le_len.
Qed.

(** Field [n] bytes at [j] away from the update at [k]. *)
Ltac get_other := rewrite get_set_le_other by (set_le_len || lia).
Ltac get_same := rewrite get_set_le_same; [|set_le_len|first [apply u32_range|apply u16_range|apply u8_range]].

Lemma read_write_dinode o d b :
  dinode_ok d -> (o + 64 <= length b)%nat -> read_dinode o (write_dinode o d b) = d.
Proof.
  intros [Hp Ht Hma Hmi Hn Hs [Hl Ha] Ho] Hb. change NADDRS with 12%nat in Hl.
  assert (Hout : forall m j x, (o + 12 + 4 * length (d_addrs d) <= length x)%nat ->
     (j + m <= o + 12 \/ o + 60 <= j)%nat ->
     get_le m j (put_addrs (o + 12) (d_addrs d) x) = get_le m j x).
  { intros. apply get_put_addrs_out; lia. }
  unfold read_dinode, write_dinode. rewrite !Hout by (set_le_len || lia).
  assert (Haddr : ((fun k => get_le 4 (o + 12 + 4 * k) (put_addrs (o + 12) (d_addrs d)
     (set_le 4 (o + 60) (u32 (d_owner d)) (set_le 1 o (u8 (d_perm d)) (set_le 4 (o + 8) (u32 (d_size d))
     (set_le 2 (o + 6) (u16 (d_nlink d)) (set_le 2 (o + 4) (u16 (d_minor d)) (set_le 2 (o + 2) (u16 (d_major d))
     (set_le 1 (o + 1) (u8 (d_type d)) b))))))))) <$> seq 0 NADDRS) = d_addrs d).
  { apply list_eq. intros k. rewrite list_lookup_fmap. change NADDRS with 12%nat.
    destruct (decide (k < 12)%nat) as [Hk|Hk].
    - rewrite lookup_seq_lt by done. destruct (lookup_lt_is_Some_2 (d_addrs d) k) as [v Hv]; [lia|].
      rewrite Hv. refine (f_equal Some _). rewrite (get_put_addrs_in _ _ _ _ v) by (set_le_len || done).
      apply u32_id. by eapply Forall_lookup_1.
    - rewrite lookup_seq_ge, lookup_ge_None_2 by lia. done. }
  rewrite Haddr. destruct d as [perm type major minor nlink size addrs owner]. cbn in *. f_equal.
  all: repeat get_other; get_same; rewrite ?i8_u8, ?i16_u16;
    first [by apply i8_id|by apply i16_id|by apply u32_id].
Qed.

(** Other inodes of the block are as they were. *)
Lemma read_write_dinode_other o o' d b :
  length (d_addrs d) = NADDRS -> (o + 64 <= length b)%nat -> (o' + 64 <= o \/ o + 64 <= o')%nat ->
  read_dinode o' (write_dinode o d b) = read_dinode o' b.
Proof.
  intros Hl Hb Ho. change NADDRS with 12%nat in Hl.
  assert (Hw : forall m j, (o' <= j)%nat -> (j + m <= o' + 64)%nat ->
     get_le m j (write_dinode o d b) = get_le m j b).
  { intros m j H1 H2. unfold write_dinode. rewrite get_put_addrs_out by (set_le_len || lia).
    repeat get_other. done. }
  unfold read_dinode. rewrite !Hw by lia. f_equal.
  apply list_fmap_ext. intros i k Hk. apply lookup_seq in Hk. change NADDRS with 12%nat in Hk.
  apply Hw; lia.
Qed.

Lemma dinode_off_bound inum : 0 <= inum -> (dinode_off inum + 64 <= 512)%nat.
Proof. intros. unfold dinode_off, IPB, sizeof_dinode, BSIZE. change (512 / 64) with 8. mlia. Qed.

(** Two inodes of one block do not overlap. *)
Lemma dinode_off_apart i j : 0 <= i -> 0 <= j -> i ≠ j -> i / IPB = j / IPB ->
  (dinode_off i + 64 <= dinode_off j \/ dinode_off j + 64 <= dinode_off i)%nat.
Proof. unfold dinode_off, IPB, sizeof_dinode, BSIZE. change (512 / 64) with 8. intros. mlia. Qed.

Lemma length_block_write d b inum :
  wf_block b -> length (d_addrs d) = NADDRS -> 0 <= inum ->
  wf_block (write_dinode (dinode_off inum) d b).
Proof.
  intros Hw Hl Hi. pose proof (dinode_off_bound inum Hi). change NADDRS with 12%nat in Hl.
  unfold write_dinode.
  assert (Hput : forall a o x, (o + 4 * length a <= 512)%nat -> wf_block x -> wf_block (put_addrs o a x)).
  { induction a as [|v a IH]; intros o x Ho Hx; simpl in *; [done|]. apply IH; [lia|].
    apply wf_block_set_le; [lia|done]. }
  apply Hput; [lia|]. repeat (apply wf_block_set_le; [lia|]). done.
Qed.
