(* ===== verification/Content.v ===== *)
(** * Reading and writing file contents

    The contents of a file as a function from positions to bytes; [readi] returns
    that range of bytes, [writei] replaces it, both across block boundaries and
    through the indirect block. *)

From S2P Require Import Prelude KMonad CString Params Bio BioSpec Log LogSpec Crash LogOps Users Store Fs FsSpec FileSpec.

(** Byte [p] of the file. *)
Definition fbyte (V : Z -> list Z) (d : dinode) (p : Z) : Z :=
  V (faddr V d (p / BSIZE)) !!! Z.to_nat (p mod BSIZE).

(** The contents. *)
Definition file_bytes (V : Z -> list Z) (d : dinode) : list Z := fbyte V d <$> seqZ 0 (d_size d).

Definition MAXBYTES : Z := MAXFILE * BSIZE.

Lemma pos_block p : 0 <= p < MAXBYTES -> 0 <= p / BSIZE < MAXFILE /\ 0 <= p mod BSIZE < BSIZE.
Proof. unfold MAXBYTES, BSIZE. change MAXFILE with 139. mlia. Qed.

(** ** What a write achieves *)

Section Wrote.
Context (sb : superblock).
Hypothesis Hbm : 0 <= sb_bmapstart sb.

Record wrote (V : Z -> list Z) (d : dinode) (V' : Z -> list Z) (d' : dinode) (off : Z)
    (bytes : list Z) : Prop := {
  wr_ok : file_ok sb V' d';
  wr_d : exists a, d' = d_set_addrs a d;
  wr_keep : forall k, 0 <= k < MAXFILE -> faddr V d k ≠ 0 -> faddr V' d' k = faddr V d k;
  wr_fresh : forall k, 0 <= k < MAXFILE -> faddr V d k = 0 -> faddr V' d' k ≠ 0 ->
    allocated sb V (faddr V' d' k) = false;
  wr_has : forall p, off <= p < off + zlen bytes -> faddr V' d' (p / BSIZE) ≠ 0;
  wr_in : forall p, off <= p < off + zlen bytes -> fbyte V' d' p = bytes !!! Z.to_nat (p - off);
  wr_out : forall p, 0 <= p < MAXBYTES -> ~ (off <= p < off + zlen bytes) ->
    faddr V d (p / BSIZE) ≠ 0 -> fbyte V' d' p = fbyte V d p;
  wr_frame : forall b, 0 < b -> allocated sb V b = true -> b ≠ sb_bmapstart sb -> b ≠ ind_addr d ->
    (forall k, 0 <= k < MAXFILE -> faddr V d k ≠ b) -> V' b = V b;
  wr_mono : forall b, 0 <= b -> allocated sb V b = true -> allocated sb V' b = true;
  wr_ind : ind_addr d ≠ 0 -> ind_addr d' = ind_addr d;
  wr_sep : ind_addr d = 0 -> ind_addr d' = 0 \/ allocated sb V (ind_addr d') = false;
  wr_same : (forall p, off <= p < off + zlen bytes -> faddr V d (p / BSIZE) ≠ 0) -> d' = d }.

Lemma wrote_nil V d off : file_ok sb V d -> wrote V d V d off [].
Proof using.
  clear Hbm. intros Hok. split; unfold zlen; simpl; try done; try (intros; lia).
  exists (d_addrs d). by destruct d.
Qed.

Lemma alloc_anti V V1 b :
  (forall b, 0 <= b -> allocated sb V b = true -> allocated sb V1 b = true) ->
  0 <= b -> allocated sb V1 b = false -> allocated sb V b = false.
Proof using. clear Hbm. intros Hm Hb E. destruct (allocated sb V b) eqn:E1; [|done]. rewrite Hm in E; done. Qed.

(** A block of the file is not block 0. *)
Lemma faddr_pos V d k : file_ok sb V d -> 0 <= k < MAXFILE -> faddr V d k ≠ 0 -> 0 <= faddr V d k.
Proof using Hbm. intros Hok Hk Hn. destruct (fo_data _ _ _ Hok k Hk Hn). lia. Qed.
Lemma ind_pos V d : file_ok sb V d -> ind_addr d ≠ 0 -> 0 <= ind_addr d.
Proof using Hbm. intros Hok Hn. destruct (fo_ind _ _ _ Hok Hn). lia. Qed.

(** Blocks of others are not touched by two writes in a row. *)
Lemma wrote_apart V d V1 d1 off b1 b :
  wrote V d V1 d1 off b1 -> allocated sb V b = true -> b ≠ ind_addr d -> 0 < b ->
  (forall k, 0 <= k < MAXFILE -> faddr V d k ≠ b) ->
  b ≠ ind_addr d1 /\ forall k, 0 <= k < MAXFILE -> faddr V1 d1 k ≠ b.
Proof using.
  clear Hbm. intros W Ha Hi Hb Hf. split.
  - destruct (decide (ind_addr d = 0)) as [E0|E0].
    + destruct (wr_sep _ _ _ _ _ _ W E0); [lia|congruence].
    + by rewrite (wr_ind _ _ _ _ _ _ W E0).
  - intros k Hk E. destruct (decide (faddr V d k = 0)) as [E0|E0].
    + pose proof (wr_fresh _ _ _ _ _ _ W k Hk E0) as Hfr. rewrite E in Hfr. rewrite Hfr in Ha; [done|lia].
    + rewrite (wr_keep _ _ _ _ _ _ W k Hk E0) in E. by apply (Hf k).
Qed.

Lemma wrote_trans V d V1 d1 V2 d2 off b1 b2 :
  0 <= off -> off + zlen b1 + zlen b2 <= MAXBYTES ->
  wrote V d V1 d1 off b1 -> wrote V1 d1 V2 d2 (off + zlen b1) b2 -> wrote V d V2 d2 off (b1 ++ b2).
Proof using Hbm.
  intros Hoff Hmax W1 W2.
  assert (Hz : zlen (b1 ++ b2) = zlen b1 + zlen b2) by (unfold zlen; rewrite length_app; lia).
  pose proof (zlen_nonneg b1) as Hz1. pose proof (zlen_nonneg b2) as Hz2.
  assert (Hhas1 : forall p, off <= p < off + zlen b1 -> faddr V2 d2 (p / BSIZE) = faddr V1 d1 (p / BSIZE)
            /\ faddr V1 d1 (p / BSIZE) ≠ 0).
  { intros p Hp. pose proof (wr_has _ _ _ _ _ _ W1 p Hp). split; [|done].
    apply (wr_keep _ _ _ _ _ _ W2); [|done]. apply pos_block. lia. }
  split; rewrite ?Hz.
  - apply W2.
  - destruct (wr_d _ _ _ _ _ _ W1) as [a ->], (wr_d _ _ _ _ _ _ W2) as [a' ->]. by exists a'.
  - intros k Hk Hn. rewrite (wr_keep _ _ _ _ _ _ W2); rewrite ?(wr_keep _ _ _ _ _ _ W1); done.
  - intros k Hk H0 Hn. destruct (decide (faddr V1 d1 k = 0)) as [E|E].
    + eapply alloc_anti; [apply W1| |by apply (wr_fresh _ _ _ _ _ _ W2)].
      apply (faddr_pos V2 d2); [apply W2|done..].
    + rewrite (wr_keep _ _ _ _ _ _ W2) by done. by apply (wr_fresh _ _ _ _ _ _ W1).
  - intros p Hp. destruct (decide (p < off + zlen b1)).
    + destruct (Hhas1 p) as [-> ?]; [lia|done].
    + apply (wr_has _ _ _ _ _ _ W2). lia.
  - intros p Hp. destruct (decide (p < off + zlen b1)) as [Hlt|Hge].
    + rewrite (wr_out _ _ _ _ _ _ W2); [|lia|lia|apply Hhas1; lia].
      rewrite (wr_in _ _ _ _ _ _ W1) by lia. rewrite lookup_total_app_l; [done|]. unfold zlen in *. lia.
    + rewrite (wr_in _ _ _ _ _ _ W2) by lia. rewrite lookup_total_app_r by (unfold zlen in *; lia).
      f_equal. unfold zlen in *. lia.
  - intros p Hp Hn Hf. destruct (pos_block p Hp).
    rewrite (wr_out _ _ _ _ _ _ W2), (wr_out _ _ _ _ _ _ W1); try done; try lia.
    by rewrite (wr_keep _ _ _ _ _ _ W1).
  - intros b Hb Ha Hne Hi Hf. destruct (wrote_apart _ _ _ _ _ _ b W1 Ha Hi Hb Hf) as [Hi1 Hf1].
    rewrite (wr_frame _ _ _ _ _ _ W2); try done; [by apply (wr_frame _ _ _ _ _ _ W1)|].
    apply (wr_mono _ _ _ _ _ _ W1); [lia|done].
  - intros b Hb Ha. by apply (wr_mono _ _ _ _ _ _ W2), (wr_mono _ _ _ _ _ _ W1).
  - intros Hn. rewrite (wr_ind _ _ _ _ _ _ W2); rewrite (wr_ind _ _ _ _ _ _ W1); done.
  - intros H0. destruct (decide (ind_addr d1 = 0)) as [E1|E1].
    + destruct (wr_sep _ _ _ _ _ _ W2 E1) as [E|E]; [by left|].
      destruct (decide (ind_addr d2 = 0)); [by left|right].
      eapply alloc_anti; [apply W1| |done]. apply (ind_pos V2 d2); [apply W2|done].
    + rewrite (wr_ind _ _ _ _ _ _ W2 E1). destruct (wr_sep _ _ _ _ _ _ W1 H0); [done|by right].
  - intros Hall. assert (E1 : d1 = d) by (apply W1; intros p Hp; apply Hall; lia). subst d1.
    apply W2. intros p Hp. destruct (pos_block p ltac:(lia)).
    rewrite (wr_keep _ _ _ _ _ _ W1) by (done || (apply Hall; lia)). apply Hall. lia.
Qed.

(** Writing part of the block that [bmap] returned. *)
Section Block.
Context (V : Z -> list Z) (d : dinode) (L : gset Z) (V1 : Z -> list Z) (d1 : dinode) (L1 : gset Z).
Context (off b : Z) (bytes : list Z).
Hypothesis Hok : file_ok sb V d.
Hypothesis HM : mapped sb V d L V1 d1 L1 (off / BSIZE) b.
Hypothesis Hoff : 0 <= off /\ 0 < zlen bytes /\ off + zlen bytes <= MAXBYTES.
Hypothesis Hfit : off mod BSIZE + zlen bytes <= BSIZE.
Hypothesis Hlen : length (V1 b) = 512%nat.

Let V2 := upd V1 b (splice (Z.to_nat (off mod BSIZE)) bytes (V1 b)).

Lemma block_range : 0 <= off / BSIZE < MAXFILE.
Proof. apply pos_block. lia. Qed.

Lemma block_addr : faddr V1 d1 (off / BSIZE) = b.
Proof. rewrite (mp_addr _ _ _ _ _ _ _ _ _ HM) by apply block_range. by rewrite bool_decide_true. Qed.

Lemma block_data : sb_bmapstart sb < b /\ b ≠ ind_addr d1.
Proof.
  pose proof (mp_ok _ _ _ _ _ _ _ _ _ HM) as Hok1. pose proof (mp_nz _ _ _ _ _ _ _ _ _ HM) as Hb.
  pose proof (fo_data _ _ _ Hok1 _ block_range) as Hd. pose proof (fo_sep _ _ _ Hok1 _ block_range) as Hs.
  rewrite block_addr in Hd, Hs. destruct (Hd Hb) as [? _]. split; [lia|auto].
Qed.

Lemma block_faddr k : faddr V2 d1 k = faddr V1 d1 k.
Proof. destruct block_data. unfold faddr, V2. by rewrite upd_ne. Qed.

Lemma block_alloc k : allocated sb V2 k = allocated sb V1 k.
Proof. destruct block_data. unfold allocated, V2. rewrite upd_ne; [done|lia]. Qed.

Lemma block_ok : file_ok sb V2 d1.
Proof.
  destruct (mp_ok _ _ _ _ _ _ _ _ _ HM) as [H1 H2 H3 H4 H5 H6 H7].
  split; unfold data_block in *; try done; intros; rewrite ?block_faddr, ?block_alloc in *; auto.
Qed.

(** Blocks the file had keep their place and, but for [b], their contents. *)
Lemma block_keep k : 0 <= k < MAXFILE -> faddr V d k ≠ 0 ->
  faddr V1 d1 k = faddr V d k /\ V1 (faddr V d k) = V (faddr V d k).
Proof.
  intros Hk Hn. split.
  - rewrite (mp_addr _ _ _ _ _ _ _ _ _ HM) by done. case_bool_decide; [|done]. subst k.
    by apply (mp_old _ _ _ _ _ _ _ _ _ HM).
  - destruct (fo_data _ _ _ Hok k Hk Hn). apply (mp_frame _ _ _ _ _ _ _ _ _ HM); [lia|done|lia|].
    by apply (fo_sep _ _ _ Hok).
Qed.

Lemma block_bytes p : p / BSIZE = off / BSIZE ->
  fbyte V2 d1 p = splice (Z.to_nat (off mod BSIZE)) bytes (V1 b) !!! Z.to_nat (p mod BSIZE).
Proof. intros E. unfold fbyte. rewrite block_faddr, E, block_addr. unfold V2. by rewrite upd_eq. Qed.

Lemma block_other p : 0 <= p < MAXBYTES -> p / BSIZE ≠ off / BSIZE -> faddr V d (p / BSIZE) ≠ 0 ->
  fbyte V2 d1 p = fbyte V d p.
Proof.
  intros Hp Hne Hn. destruct (pos_block p Hp) as [Hk _]. destruct (block_keep _ Hk Hn) as [E1 E2].
  unfold fbyte. rewrite block_faddr, E1. unfold V2. rewrite upd_ne; [by rewrite E2|].
  rewrite <- E1, <- block_addr. intros E. apply Hne.
  apply (fo_inj _ _ _ (mp_ok _ _ _ _ _ _ _ _ _ HM)); [done|apply block_range|by rewrite E1|done].
Qed.

Lemma in_block p : off <= p < off + zlen bytes ->
  p / BSIZE = off / BSIZE /\ p mod BSIZE = off mod BSIZE + (p - off).
Proof. unfold BSIZE in *. intros. split; mlia. Qed.

Lemma wrote_block : wrote V d V2 d1 off bytes.
Proof.
  pose proof block_range as Hr. pose proof HM as HM'.
  destruct HM' as [Mok Maddr Mnz Mold Mnew Md Mframe Mmono Mfree Mlog Mind Msep Msame].
  split; rewrite ?block_faddr; try done.
  - apply block_ok.
  - intros k Hk Hn. rewrite block_faddr. by apply block_keep.
  - intros k Hk H0. rewrite block_faddr, Maddr by done. case_bool_decide; [|done]. subst k.
    intros _. by apply Mnew.
  - intros p Hp. destruct (in_block p Hp) as [-> _]. by rewrite block_faddr, block_addr.
  - intros p Hp. destruct (in_block p Hp) as [E1 E2]. rewrite block_bytes, E2 by done.
    assert (Hlk : splice (Z.to_nat (off mod BSIZE)) bytes (V1 b) !! Z.to_nat (off mod BSIZE + (p - off))
              = bytes !! Z.to_nat (p - off)).
    { pose proof (pos_block off ltac:(lia)). rewrite lookup_splice_in by (unfold zlen, BSIZE in *; lia).
      f_equal. unfold zlen, BSIZE in *. lia. }
    by rewrite !list_lookup_total_alt, Hlk.
  - intros p Hp Hout Hn. destruct (decide (p / BSIZE = off / BSIZE)) as [E|E]; [|by apply block_other].
    rewrite block_bytes by done. destruct (pos_block p Hp) as [Hk Hm]. destruct (block_keep _ Hk Hn) as [E1 E2].
    rewrite E, block_addr in E1. unfold fbyte. rewrite E, <- E1 in E2 |- *. rewrite <- E2.
    rewrite !list_lookup_total_alt. f_equal. pose proof (pos_block off ltac:(lia)).
    apply lookup_splice_out; unfold zlen, BSIZE in *; mlia.
  - intros k Hk Ha Hne Hi Hf. unfold V2. rewrite upd_ne; [apply Mframe; (lia || done)|].
    intros ->. destruct (decide (faddr V d (off / BSIZE) = 0)) as [E0|E0].
    + destruct (Mnew E0). congruence.
    + apply (Hf (off / BSIZE)); [done|]. by rewrite (Mold E0).
  - intros k Hk Ha. rewrite block_alloc. auto.
  - intros Hall. apply Msame, Hall. lia.
Qed.
End Block.
End Wrote.

Lemma take_split {A} (m n : nat) (l : list A) :
  (m <= n)%nat -> take n l = take m l ++ take (n - m) (drop m l).
Proof. intros Hm. rewrite <- (take_drop m (take n l)), take_take, Nat.min_l by done. f_equal. by rewrite skipn_firstn_comm. Qed.

(** The steps of a loop body as one command before the rest of the loop. *)
Lemma wp_group {S A1 A2 A3 A4 A5 A6 B} (m1 : M S A1) (m2 : A1 -> M S A2) (m3 : A2 -> M S A3)
    (m4 : A2 -> A3 -> M S A4) (m5 : A2 -> M S A5) (m6 : A2 -> M S A6) (k : M S B) Q s :
  wp ((a <- m1 ;; p <- m2 a ;; d <- m3 p ;; m4 p d ;;; m5 p ;;; m6 p) ;;; k) Q s ->
  wp (a <- m1 ;; p <- m2 a ;; d <- m3 p ;; m4 p d ;;; m5 p ;;; m6 p ;;; k) Q s.
Proof.
  unfold wp, bind. destruct (m1 s) as [a s1|]; [|done]. destruct (m2 a s1) as [p s2|]; [|done].
  destruct (m3 p s2) as [d s3|]; [|done]. destruct (m4 p d s3) as [e s4|]; [|done].
  by destruct (m5 p s4).
Qed.

(** ** Blocks logged *)

(** The blocks a write logs besides the data: the bitmap and the indirect block,
    the latter counted before it exists. *)
Definition cost (sb : superblock) (d : dinode) (L : gset Z) : nat :=
  size ({[sb_bmapstart sb]} ∪ (ind_blocks d ∪ L)) + (if decide (ind_addr d = 0) then 1 else 0).

Lemma cost_size sb d L : (size L <= cost sb d L <= size L + 2)%nat.
Proof.
  unfold cost, ind_blocks. pose proof (subseteq_size L ({[sb_bmapstart sb]} ∪ L) ltac:(set_solver)).
  case_decide.
  - rewrite union_empty_l_L. pose proof (size_one_le (sb_bmapstart sb) L). lia.
  - pose proof (size_two_le (sb_bmapstart sb) (ind_addr d) L).
    pose proof (subseteq_size L ({[sb_bmapstart sb]} ∪ ({[ind_addr d]} ∪ L)) ltac:(set_solver)). lia.
Qed.

Lemma cost_step sb V d L V1 d1 L1 bn b :
  mapped sb V d L V1 d1 L1 bn b -> (cost sb d1 ({[b]} ∪ L1) <= cost sb d L + 1)%nat.
Proof.
  intros HM. destruct (mp_log _ _ _ _ _ _ _ _ _ HM) as [_ Hsub]. set (X := {[sb_bmapstart sb]} ∪ L).
  unfold cost. destruct (decide (ind_addr d = 0)) as [E|E].
  - assert (Hs : {[sb_bmapstart sb]} ∪ (ind_blocks d1 ∪ ({[b]} ∪ L1)) ⊆ {[b]} ∪ (ind_blocks d1 ∪ X))
      by (clear -Hsub; set_solver).
    pose proof (subseteq_size _ _ Hs) as Hle. pose proof (size_one_le b (ind_blocks d1 ∪ X)).
    replace ({[sb_bmapstart sb]} ∪ (ind_blocks d ∪ L)) with X
      by (unfold ind_blocks; rewrite decide_True by done; set_solver).
    unfold ind_blocks in *. destruct (decide (ind_addr d1 = 0)).
    + rewrite !union_empty_l_L in *. lia.
    + pose proof (size_one_le (ind_addr d1) X). lia.
  - pose proof (mp_ind _ _ _ _ _ _ _ _ _ HM E) as Ei. rewrite Ei, (decide_False _ _ E).
    assert (Eb : ind_blocks d1 = ind_blocks d) by (unfold ind_blocks; by rewrite Ei). rewrite Eb in *.
    assert (Hs : {[sb_bmapstart sb]} ∪ (ind_blocks d ∪ ({[b]} ∪ L1))
              ⊆ {[b]} ∪ ({[sb_bmapstart sb]} ∪ (ind_blocks d ∪ L))) by (clear -Hsub; set_solver).
    pose proof (subseteq_size _ _ Hs).
    pose proof (size_one_le b ({[sb_bmapstart sb]} ∪ (ind_blocks d ∪ L))). lia.
Qed.

(** ** The loops *)

Lemma meta_mono sb V V' :
  (forall b, 0 <= b -> allocated sb V b = true -> allocated sb V' b = true) ->
  meta_used sb V -> meta_used sb V'.
Proof. intros Hmono Hm b Hb. apply Hmono; [lia|by apply Hm]. Qed.

Section Loops.
Context {S : Type} `{TxStore S}.
Context (c : tx) (sb : superblock).
Hypothesis Hly : layout_ok sb c.
Hypothesis Hopen : 0 < t_open c.
Context (ic : list inode) (ut : utab) (cu : curproc) (ip : nat) (x : inode).
Hypothesis Hip : (ip < length ic)%nat.
Hypothesis Hdev : i_dev x = ROOTDEV.
Local Abbreviation st := (file_st c sb ic ut cu ip x).

Lemma wf_splice o bytes b : wf_block b -> Forall is_byte bytes -> (o + length bytes <= 512)%nat ->
  wf_block (splice o bytes b).
Proof using. clear. intros [Hl Hb] Hy Ho. split; [rewrite length_splice; lia|by apply Forall_splice]. Qed.

(** One round of [writei]: map the block, change part of it, log it. *)
Lemma write_block_wp s d V L off bytes (Q : unit -> fs S -> Prop) :
  st s d V ∅ L -> file_ok sb V d -> meta_used sb V ->
  0 <= off -> 0 < zlen bytes -> off + zlen bytes <= MAXBYTES ->
  off mod BSIZE + zlen bytes <= BSIZE -> Forall is_byte bytes ->
  (1 < size (free_blocks sb V))%nat -> (cost sb d L + 6 < log_capacity)%nat ->
  (forall s' V' d' L', st s' d' V' ∅ L' -> wrote sb V d V' d' off bytes ->
     (cost sb d' L' <= cost sb d L + 1)%nat ->
     (size (free_blocks sb V) <= size (free_blocks sb V') + 2)%nat -> Q tt s') ->
  wp (b <- bmap ip (off / BSIZE) ;;
      bp <- bread (i_dev x) b ;;
      dat <- read_data bp ;;
      write_data bp (splice (Z.to_nat (off mod BSIZE)) bytes dat) ;;;
      log_write bp ;;;
      brelse bp) Q s.
Proof.
  intros Hst Hok Hm Hoff Hz Hmax Hfit Hby Hfree Hcost HQ. pose proof (ly_bmap_in _ _ Hly).
  pose proof (cost_size sb d L). destruct (pos_block off ltac:(lia)) as [Hbn Hmod].
  apply wp_bind. eapply (bmap_wp c sb Hly Hopen ic ut cu ip x Hip Hdev); [done|done|done|done|lia| |].
  { split; [lia|]. rewrite map_size_empty. lia. }
  intros s1 V1 d1 L1 b Hst1 HM. pose proof (cost_step _ _ _ _ _ _ _ _ _ HM) as Hc.
  pose proof (subseteq_size L1 ({[b]} ∪ L1) ltac:(set_solver)). pose proof (cost_size sb d1 ({[b]} ∪ L1)).
  pose proof (mp_addr _ _ _ _ _ _ _ _ _ HM _ Hbn) as Eb. rewrite bool_decide_true in Eb by done.
  assert (Hd : data_block sb V1 b).
  { rewrite <- Eb. apply (mp_ok _ _ _ _ _ _ _ _ _ HM); [done|]. rewrite Eb. apply HM. }
  assert (Hw : wf_block (V1 b)) by (eapply holds_wf, Hst1).
  apply wp_bind. eapply (bread_st c sb ic ut cu ip x Hdev _ _ _ _ _ _ 0);
    [done|by eapply data_home|apply not_held_empty|split; [lia|rewrite map_size_empty; lia]|].
  intros s2 i Hi Hst2. apply wp_bind. eapply read_data_st; [done|apply lookup_insert_eq|].
  apply wp_assoc, wp_bind. eapply write_log_st; [done|done|apply lookup_insert_eq| |lia|].
  { apply wf_splice; [done|done|]. unfold zlen, BSIZE in *. lia. }
  intros s3 Hst3. eapply brelse_st; [done|done|]. intros s4 Hst4. eapply HQ; [done| |lia|].
  - eapply wrote_block; [lia|done|done|lia|done|apply Hw].
  - pose proof (mp_free _ _ _ _ _ _ _ _ _ HM).
    unfold free_blocks, allocated. rewrite upd_ne; [done|]. destruct Hd. lia.
Qed.

(** The loop of [writei] with at most [k] blocks to go. *)
Lemma writei_loop_wp k : forall fuel s d V L src tot off n (Q : Z -> fs S -> Prop),
  st s d V ∅ L -> file_ok sb V d -> meta_used sb V ->
  0 <= tot <= n -> 0 <= off -> off + (n - tot) <= MAXBYTES -> n - tot <= Z.of_nat fuel ->
  n - tot <= zlen src -> Forall is_byte src ->
  (tot < n -> off mod BSIZE + (n - tot) <= BSIZE * Z.of_nat k) ->
  (2 * k <= size (free_blocks sb V))%nat -> (cost sb d L + k + 6 <= log_capacity)%nat ->
  (forall s' V' d' L', st s' d' V' ∅ L' -> wrote sb V d V' d' off (take (Z.to_nat (n - tot)) src) ->
     (cost sb d' L' <= cost sb d L + k)%nat ->
     (size (free_blocks sb V) <= size (free_blocks sb V') + 2 * k)%nat -> Q (off + (n - tot)) s') ->
  wp (writei_loop fuel ip src tot off n) Q s.
Proof.
  induction k as [|k IH]; intros fuel s d V L src tot off n Q Hst Hok Hm Htot Hoff Hmax Hfu Hsrc Hby Hk Hfree Hcost HQ.
  all: pose proof (ly_bmap_in _ _ Hly) as Hbm.
  all: assert (Hend : n <= tot -> Q off s) by (intros Hle;
         assert (E0 : n - tot = 0) by lia; rewrite E0 in HQ; rewrite <- (Z.add_0_r off);
         eapply HQ; [exact Hst|by apply wrote_nil|lia|lia]).
  all: destruct fuel as [|fuel]; cbn [writei_loop]; destruct (tot <? n) eqn:Et; bool_cases; try lia.
  all: try (apply wp_ret; by apply Hend).
  { specialize (Hk Et). pose proof (Z.mod_pos_bound off BSIZE). unfold BSIZE in *. lia. }
  specialize (Hk Et). set (m := chunk tot off n).
  assert (Hmm : 0 < m /\ m <= n - tot /\ off mod BSIZE + m <= BSIZE
     /\ (m < n - tot -> (off + m) mod BSIZE = 0 /\ n - (tot + m) <= BSIZE * Z.of_nat k)).
  { unfold m, chunk, BSIZE in *. mlia. }
  clearbody m. destruct Hmm as (Hm0 & Hmn & Hmf & Hnext).
  assert (Hzl : zlen (take (Z.to_nat m) src) = m) by (unfold zlen in *; rewrite length_take; lia).
  apply wp_bind. eapply get_inode_st; [done|done|]. change (i_dev (set_d d x)) with (i_dev x).
  rewrite (proj2 (Z.ltb_ge (zlen src) m)) by lia. apply wp_group, wp_bind.
  eapply (write_block_wp s d V L off (take (Z.to_nat m) src)); rewrite ?Hzl; try done; try lia.
  { by apply Forall_take. }
  intros s1 V1 d1 L1 Hst1 HW Hc1 Hf1. eapply (IH fuel s1 d1 V1 L1 (drop (Z.to_nat m) src)
    (tot + m) (off + m) n Q); try done; try lia.
  - apply HW.
  - eapply meta_mono; [apply HW|done].
  - unfold zlen in *. rewrite length_drop. lia.
  - by apply Forall_drop.
  - intros s2 V2 d2 L2 Hst2 HW2 Hc2 Hf2. replace (off + m + (n - (tot + m))) with (off + (n - tot)) by lia.
    eapply HQ; [done| |lia|lia].
    rewrite (take_split (Z.to_nat m) (Z.to_nat (n - tot))) by lia.
    replace (Z.to_nat (n - tot) - Z.to_nat m)%nat with (Z.to_nat (n - (tot + m))) by lia.
    eapply wrote_trans; [lia|lia| |exact HW|by rewrite Hzl].
    rewrite Hzl. unfold zlen. rewrite length_take. lia.
Qed.
End Loops.

(** ** The blocks of a file *)

Lemma file_bytes_size sb V d : file_ok sb V d -> zlen (file_bytes V d) = d_size d.
Proof. intros Hok. unfold file_bytes, zlen. rewrite length_fmap, length_seqZ. pose proof (fo_size _ _ _ Hok). lia. Qed.

(** A block of the file. *)
Definition owns (V : Z -> list Z) (d : dinode) (b : Z) : Prop :=
  b ≠ 0 /\ (b = ind_addr d \/ exists k, 0 <= k < MAXFILE /\ faddr V d k = b).

Lemma owns_data sb V d b : file_ok sb V d -> owns V d b -> data_block sb V b.
Proof.
  intros Hok [Hb [->|(k & Hk & E)]]; [by apply (fo_ind _ _ _ Hok)|]. rewrite <- E in *. by apply (fo_data _ _ _ Hok).
Qed.

(** A file whose blocks do not change. *)
Section Frame.
Context (sb : superblock) (V V' : Z -> list Z) (d : dinode).
Hypothesis Hok : file_ok sb V d.
Hypothesis Hsame : forall b, owns V d b -> V' b = V b.
Hypothesis Hmono : forall b, data_block sb V b -> allocated sb V' b = true.

Lemma frame_faddr k : faddr V' d k = faddr V d k.
Proof using Hsame.
  clear Hok Hmono. unfold faddr. case_match; [done|]. destruct (Z.eqb_spec (ind_addr d) 0) as [|E]; [done|].
  rewrite Hsame; [done|]. split; [done|by left].
Qed.

Lemma frame_ok : file_ok sb V' d.
Proof using Hok Hsame Hmono.
  destruct Hok as [H1 H2 H3 H4 H5 H6 H7].
  split; try done; intros; rewrite ?frame_faddr in *; auto; (split; [apply H2 || apply H3; done|apply Hmono; auto]).
Qed.

Lemma frame_bytes : file_bytes V' d = file_bytes V d.
Proof using Hok Hsame.
  unfold file_bytes. apply list_fmap_ext. intros k p Hp. apply lookup_seqZ in Hp as [-> Hp].
  unfold fbyte. rewrite frame_faddr. rewrite Hsame; [done|].
  pose proof (fo_size _ _ _ Hok) as Hs. assert (Hn : faddr V d ((0 + Z.of_nat k) / BSIZE) ≠ 0).
  { apply (fo_full _ _ _ Hok); unfold BSIZE; mlia. }
  split; [done|right]. exists ((0 + Z.of_nat k) / BSIZE). split; [|done]. apply pos_block. unfold MAXBYTES. lia.
Qed.

Lemma frame_owns b : owns V' d b -> owns V d b.
Proof using Hsame.
  clear Hok Hmono. intros [Hb [->|(k & Hk & E)]]; (split; [done|]); [by left|right]. exists k. by rewrite <- frame_faddr.
Qed.
End Frame.

(** A block that the grown file owns was its own or was free. *)
Lemma wrote_owns sb V d V1 d1 off p b : file_ok sb V d -> wrote sb V d V1 d1 off p -> owns V1 d1 b ->
  owns V d b \/ allocated sb V b = false.
Proof.
  intros Hok W [Hb [->|(k & Hk & E)]].
  - destruct (decide (ind_addr d = 0)) as [E0|E0].
    + destruct (wr_sep _ _ _ _ _ _ _ W E0); [done|by right].
    + left. rewrite (wr_ind _ _ _ _ _ _ _ W E0). split; [done|by left].
  - destruct (decide (faddr V d k = 0)) as [E0|E0].
    + right. rewrite <- E. apply (wr_fresh _ _ _ _ _ _ _ W); [done|done|by rewrite E].
    + left. rewrite (wr_keep _ _ _ _ _ _ _ W) in E by done. split; [done|right]. by exists k.
Qed.
