(* ===== verification/ReadWrite.v ===== *)
(** * [readi] and [writei]: files as byte strings

    Writing replaces a range of the contents (and extends them at the end), the
    disk inode follows, nothing that belongs to another file changes, and the
    transaction grows by a known number of blocks; reading returns the range. *)

From S2P Require Import Prelude KMonad CString Params Kalloc Vm Proc Pipe Bio Users Store Fs Kern BioSpec Log LogSpec Crash LogOps Users Store Fs FsSpec FileSpec Dinode Content.

(** Contents as a list from contents as a function. *)
Lemma bytes_splice (f f' : Z -> Z) off bytes sz :
  0 <= off <= sz ->
  (forall p, off <= p < off + zlen bytes -> f' p = bytes !!! Z.to_nat (p - off)) ->
  (forall p, 0 <= p < sz -> ~ (off <= p < off + zlen bytes) -> f' p = f p) ->
  f' <$> seqZ 0 (Z.max sz (off + zlen bytes)) = splice (Z.to_nat off) bytes (f <$> seqZ 0 sz).
Proof.
  intros Hoff Hin Hout. pose proof (zlen_nonneg bytes). unfold zlen in *.
  assert (Hl : length (f <$> seqZ 0 sz) = Z.to_nat sz) by (rewrite length_fmap, length_seqZ; lia).
  assert (Hlook : forall n k, (k < Z.to_nat n)%nat -> seqZ 0 n !! k = Some (Z.of_nat k)).
  { intros n k Hk. rewrite lookup_seqZ_lt by lia. done. }
  apply list_eq. intros k. unfold splice. rewrite list_lookup_fmap.
  destruct (decide (k < Z.to_nat off)%nat) as [H1|H1].
  { rewrite lookup_app_l by (rewrite length_take; lia). rewrite lookup_take_lt by done.
    rewrite list_lookup_fmap, !Hlook by lia. simpl. f_equal. apply Hout; lia. }
  rewrite lookup_app_r by (rewrite length_take; lia). rewrite length_take, Hl, Nat.min_l by lia.
  destruct (decide (k < Z.to_nat off + length bytes)%nat) as [H2|H2].
  { rewrite lookup_app_l by lia. rewrite Hlook by lia. simpl. rewrite Hin by lia.
    replace (Z.to_nat (Z.of_nat k - off)) with (k - Z.to_nat off)%nat by lia.
    symmetry. apply list_lookup_lookup_total_lt. lia. }
  rewrite lookup_app_r by lia. rewrite lookup_drop.
  replace (Z.to_nat off + length bytes + (k - Z.to_nat off - length bytes))%nat with k by lia.
  rewrite list_lookup_fmap. destruct (decide (k < Z.to_nat sz)%nat).
  - rewrite !Hlook by lia. simpl. f_equal. apply Hout; lia.
  - rewrite !lookup_seqZ_ge by lia. done.
Qed.

(** The addresses of an inode fit in 32 bits. *)
Lemma file_addrs_u32 sb V d : 0 <= sb_bmapstart sb -> sb_size sb <= BPB -> file_ok sb V d ->
  Forall is_u32 (d_addrs d).
Proof.
  intros Hbm Hsz Hok. pose proof (fo_len _ _ _ Hok) as Hl. change NADDRS with 12%nat in Hl.
  assert (Hr : forall b, b = 0 \/ data_block sb V b -> is_u32 b).
  { intros b [->|[Hb _]]; unfold is_u32, BPB, BSIZE in *; lia. }
  apply Forall_lookup_2. intros k v Hk. apply Hr. pose proof (lookup_lt_Some _ _ _ Hk).
  apply list_lookup_total_correct in Hk. destruct (decide (v = 0)) as [|Hv]; [by left|right].
  destruct (decide (k = 11)%nat) as [->|Hne].
  - assert (E : ind_addr d = v) by done. rewrite <- E. apply (fo_ind _ _ _ Hok). by rewrite E.
  - assert (E : faddr V d (Z.of_nat k) = v).
    { unfold faddr, NDIRECT. rewrite (proj2 (Z.ltb_lt _ _)) by lia. by rewrite Nat2Z.id. }
    rewrite <- E. apply (fo_data _ _ _ Hok); [change MAXFILE with 139; lia|]. by rewrite E.
Qed.

(** Storing the inode changes a block that is none of the file's. *)
Section Meta.
Context (sb : superblock) (V : Z -> list Z) (d : dinode) (ib : Z) (y : list Z).
Hypothesis Hib : 0 <= ib < sb_bmapstart sb.
Hypothesis Hok : file_ok sb V d.

Lemma meta_allocated b : allocated sb (upd V ib y) b = allocated sb V b.
Proof. unfold allocated. rewrite upd_ne; [done|lia]. Qed.

Lemma meta_faddr k : faddr (upd V ib y) d k = faddr V d k.
Proof.
  unfold faddr. case_match; [done|]. destruct (ind_addr d =? 0) eqn:E; [done|bool_cases].
  destruct (fo_ind _ _ _ Hok E). rewrite upd_ne; [done|lia].
Qed.

Lemma meta_fbyte p : 0 <= p < MAXBYTES -> faddr V d (p / BSIZE) ≠ 0 ->
  fbyte (upd V ib y) d p = fbyte V d p.
Proof.
  intros Hp Hn. unfold fbyte. rewrite meta_faddr. destruct (pos_block p Hp) as [Hk _].
  destruct (fo_data _ _ _ Hok _ Hk Hn). rewrite upd_ne; [done|lia].
Qed.

(** The inode with a new size that its blocks cover. *)
Lemma meta_ok sz : 0 <= sz <= MAXBYTES ->
  (forall k, 0 <= k -> k * BSIZE < sz -> faddr V d k ≠ 0) ->
  file_ok sb (upd V ib y) (d_set_size sz d).
Proof.
  intros Hsz Hfull. assert (Hf : forall k, faddr (upd V ib y) (d_set_size sz d) k = faddr V d k).
  { intros k. rewrite <- meta_faddr. done. }
  destruct Hok as [H1 H2 H3 H4 H5 H6 H7].
  split; try done; unfold data_block in *; change (ind_addr (d_set_size sz d)) with (ind_addr d);
    intros; rewrite ?Hf, ?meta_allocated in *; auto.
Qed.
End Meta.

Section Ops.
Context {S : Type} `{TxStore S}.
Context (c : tx) (sb : superblock).
Hypothesis Hly : layout_ok sb c.
Hypothesis Hopen : 0 < t_open c.
Context (ic : list inode) (ut : utab) (cu : curproc) (ip : nat) (x : inode).
Hypothesis Hip : (ip < length ic)%nat.
Hypothesis Hdev : i_dev x = ROOTDEV.
Hypothesis Hinum : 0 <= i_inum x < sb_ninodes sb.
Local Abbreviation st := (file_st c sb ic ut cu ip x).
Let ib := IBLOCK (i_inum x) sb.

(** The disk inode of the file is its cached copy. *)
Definition coherent (V : Z -> list Z) (d : dinode) : Prop :=
  read_dinode (dinode_off (i_inum x)) (V ib) = d.

Lemma ib_range : 0 < ib < sb_bmapstart sb /\ t_home c ib = true.
Proof. destruct (ly_inodes _ _ Hly _ Hinum). done. Qed.

Lemma iupdate_wp s d V L (Q : unit -> fs S -> Prop) :
  st s d V ∅ L -> length (d_addrs d) = NADDRS -> room ∅ L 1 ->
  (forall s', st s' d (upd V ib (write_dinode (dinode_off (i_inum x)) d (V ib))) ∅ ({[ib]} ∪ L) -> Q tt s') ->
  wp (iupdate ip) Q s.
Proof.
  intros Hst Hl Hr HQ. destruct ib_range as [Hib Hhome]. unfold iupdate. apply wp_bind.
  eapply get_inode_st; [done|done|]. apply wp_bind, wp_gets. rewrite (fs_sb _ _ _ _ _ _ _ _ _ _ _ _ Hst).
  change (i_dev (set_d d x)) with (i_dev x). change (i_inum (set_d d x)) with (i_inum x). fold ib.
  apply wp_bind. eapply bread_st; [done|done|done|apply not_held_empty|done|]. intros s1 i Hi Hst1.
  apply wp_bind. eapply read_data_st; [done|apply lookup_insert_eq|]. apply wp_assoc, wp_bind.
  eapply write_log_st; [done|done|apply lookup_insert_eq| |destruct Hr; lia|].
  { apply length_block_write; [eapply holds_wf, Hst|done|lia]. }
  intros s2 Hst2. eapply brelse_st; [done|done|]. intros s3 Hst3. by apply HQ.
Qed.

(** What [writei] of [bytes] at [off] achieves. *)
Record written (V : Z -> list Z) (d : dinode) (V' : Z -> list Z) (d' : dinode) (off : Z)
    (bytes : list Z) : Prop := {
  wn_ok : file_ok sb V' d';
  wn_meta : meta_used sb V';
  wn_inode : dinode_ok d' /\ coherent V' d';
  wn_bytes : file_bytes V' d' = splice (Z.to_nat off) bytes (file_bytes V d);
  wn_size : d' = d_set_size (Z.max (d_size d) (off + zlen bytes)) (d_set_addrs (d_addrs d') d);
  wn_frame : forall b, 0 < b -> allocated sb V b = true -> b ≠ sb_bmapstart sb -> b ≠ ib ->
    b ≠ ind_addr d -> (forall k, 0 <= k < MAXFILE -> faddr V d k ≠ b) -> V' b = V b;
  wn_others : forall j, 0 <= j -> j ≠ i_inum x -> IBLOCK j sb = ib ->
    read_dinode (dinode_off j) (V' ib) = read_dinode (dinode_off j) (V ib);
  wn_mono : forall b, 0 <= b -> allocated sb V b = true -> allocated sb V' b = true;
  wn_fresh : forall b, owns V' d' b -> owns V d b \/ allocated sb V b = false }.

(** The inode block is not one of the blocks a write changes. *)
Lemma wrote_ib V d V1 d1 off bytes :
  file_ok sb V d -> meta_used sb V -> wrote sb V d V1 d1 off bytes -> V1 ib = V ib.
Proof.
  intros Hok Hm HW. destruct ib_range as [Hib _].
  apply (wr_frame _ _ _ _ _ _ _ HW); [lia|apply Hm; lia|lia| |].
  - intros E. destruct (decide (ind_addr d = 0)); [lia|]. destruct (fo_ind _ _ _ Hok ltac:(done)). lia.
  - intros k Hk E. destruct (decide (faddr V d k = 0)); [lia|].
    destruct (fo_data _ _ _ Hok k Hk ltac:(done)). lia.
Qed.

(** The contents after the loop, for either final inode. *)
Lemma wrote_bytes V d V1 d1 off bytes sz :
  file_ok sb V d -> wrote sb V d V1 d1 off bytes -> 0 <= off <= d_size d ->
  sz = Z.max (d_size d) (off + zlen bytes) -> sz <= MAXBYTES ->
  fbyte V1 d1 <$> seqZ 0 sz = splice (Z.to_nat off) bytes (file_bytes V d).
Proof.
  clear. intros Hok HW Hoff -> Hsz. apply bytes_splice; [lia|apply HW|].
  intros p Hp Hn. apply (wr_out _ _ _ _ _ _ _ HW); [lia|done|].
  apply (fo_full _ _ _ Hok); unfold BSIZE; mlia.
Qed.

(** Every block below the new size exists. *)
Lemma wrote_full V d V1 d1 off bytes k :
  file_ok sb V d -> wrote sb V d V1 d1 off bytes -> 0 <= off <= d_size d ->
  off + zlen bytes <= MAXBYTES -> 0 <= k ->
  k * BSIZE < Z.max (d_size d) (off + zlen bytes) -> faddr V1 d1 k ≠ 0.
Proof.
  clear. intros Hok HW Hoff Hmax Hk Hlt. pose proof (fo_size _ _ _ Hok) as Hs.
  destruct (decide (k * BSIZE < d_size d)) as [H1|H1].
  - pose proof (fo_full _ _ _ Hok k Hk H1). rewrite (wr_keep _ _ _ _ _ _ _ HW); [done| |done].
    unfold BSIZE in *. lia.
  - replace k with (k * BSIZE / BSIZE) by (unfold BSIZE; mlia). apply (wr_has _ _ _ _ _ _ _ HW). lia.
Qed.

(** The write did not grow the file: the inode is as it was. *)
Lemma written_inside V d V1 d1 off bytes :
  file_ok sb V d -> meta_used sb V -> dinode_ok d -> coherent V d -> wrote sb V d V1 d1 off bytes ->
  0 <= off -> off + zlen bytes <= d_size d -> written V d V1 d1 off bytes.
Proof.
  intros Hok Hm Hd Hc HW Hoff Hin. pose proof (zlen_nonneg bytes) as Hz.
  assert (E : d1 = d).
  { apply (wr_same _ _ _ _ _ _ _ HW). intros p Hp. apply (fo_full _ _ _ Hok); unfold BSIZE; mlia. }
  subst d1. pose proof (wrote_ib _ _ _ _ _ _ Hok Hm HW) as Eib. pose proof (fo_size _ _ _ Hok).
  split; try (by apply HW).
  - eapply (meta_mono sb); [apply HW|done].
  - split; [done|]. unfold coherent. by rewrite Eib.
  - eapply wrote_bytes; [done|done|lia|lia|]. unfold MAXBYTES. lia.
  - destruct d. simpl in *. unfold d_set_size, d_set_addrs. simpl. by rewrite Z.max_l by lia.
  - intros b Hb Ha H1 H2 H3 H4. by apply (wr_frame _ _ _ _ _ _ _ HW).
  - intros j _ _ _. by rewrite Eib.
  - intros b. by eapply wrote_owns.
Qed.

(** It grew the file: the size changed and [iupdate] stored the inode. *)
Lemma written_grown V d V1 d1 off bytes :
  file_ok sb V d -> meta_used sb V -> dinode_ok d -> wrote sb V d V1 d1 off bytes ->
  wf_block (V1 ib) -> 0 <= off <= d_size d -> d_size d < off + zlen bytes <= MAXBYTES ->
  let d2 := d_set_size (off + zlen bytes) d1 in
  written V d (upd V1 ib (write_dinode (dinode_off (i_inum x)) d2 (V1 ib))) d2 off bytes.
Proof.
  intros Hok Hm Hd HW Hwf Hoff Hgrow d2. destruct ib_range as [Hib _]. pose proof (ly_size _ _ Hly).
  pose proof (ly_bmap_in _ _ Hly). pose proof (wrote_ib _ _ _ _ _ _ Hok Hm HW) as Eib.
  pose proof (wr_ok _ _ _ _ _ _ _ HW) as Hok1. destruct (wr_d _ _ _ _ _ _ _ HW) as [a Ea].
  pose proof (dinode_off_bound (i_inum x) ltac:(lia)) as Hob.
  assert (Hl1 : length (d_addrs d2) = NADDRS) by apply (fo_len _ _ _ Hok1).
  assert (Hd2 : dinode_ok d2).
  { pose proof (file_addrs_u32 sb V1 d1 ltac:(lia) ltac:(lia) Hok1) as Hau. unfold d2. subst d1.
    destruct Hd. split; simpl; try done. unfold is_u32, MAXBYTES, BSIZE in *. change MAXFILE with 139 in *. lia. }
  assert (Hfull : forall k, 0 <= k -> k * BSIZE < off + zlen bytes -> faddr V1 d1 k ≠ 0).
  { intros k Hk Hlt. apply (wrote_full V d V1 d1 off bytes); try done; lia. }
  split.
  - apply meta_ok; [lia|done|lia|done].
  - intros b Hb. rewrite meta_allocated by lia. apply (wr_mono _ _ _ _ _ _ _ HW); [lia|by apply Hm].
  - split; [done|]. unfold coherent. rewrite upd_eq. apply read_write_dinode; [done|]. destruct Hwf. lia.
  - unfold file_bytes at 1. simpl. rewrite <- (wrote_bytes V d V1 d1 off bytes (off + zlen bytes)); [|done|done|lia|lia|lia].
    apply list_fmap_ext. intros k p Hp. apply lookup_seqZ in Hp as [-> Hp].
    rewrite <- (meta_fbyte sb V1 d1 ib (write_dinode (dinode_off (i_inum x)) d2 (V1 ib))); [done|lia|done|lia|].
    apply Hfull; unfold BSIZE; mlia.
  - unfold d2. subst d1. by rewrite Z.max_r by lia.
  - intros b Hb Ha ? ? ? ?. rewrite upd_ne by done. by apply (wr_frame _ _ _ _ _ _ _ HW).
  - intros j Hj Hne Ej. rewrite upd_eq, <- Eib. apply read_write_dinode_other; [done|destruct Hwf; lia|].
    apply dinode_off_apart; [lia|lia|done|]. unfold ib, IBLOCK in Ej. lia.
  - intros b Hb Ha. rewrite meta_allocated by lia. by apply (wr_mono _ _ _ _ _ _ _ HW).
  - intros b Hb. apply (wrote_owns _ _ _ _ _ _ _ _ Hok HW). eapply (frame_owns V1); [|exact Hb].
    intros b' Hb'. destruct (owns_data _ _ _ _ Hok1 Hb') as [? _]. apply upd_ne. lia.
Qed.

Context (devsw_read : Z -> option (nat -> Z -> M (fs S) (Z * list Z))).
Context (devsw_write : Z -> option (nat -> list Z -> Z -> M (fs S) Z)).

Lemma writei_wp s d V L src off n k :
  st s d V ∅ L -> file_ok sb V d -> meta_used sb V -> dinode_ok d -> coherent V d ->
  d_type d ≠ T_DEV -> 0 <= off <= d_size d -> 0 <= n <= zlen src -> off + n <= MAXBYTES ->
  Forall is_byte src -> off mod BSIZE + n <= BSIZE * Z.of_nat k ->
  (2 * k <= size (free_blocks sb V))%nat -> (size L + k + 8 <= log_capacity)%nat ->
  wp (writei devsw_write ip src off n) (fun r s' => r = n /\ exists V' d' L', st s' d' V' ∅ L'
     /\ written V d V' d' off (take (Z.to_nat n) src) /\ (size L' <= size L + k + 3)%nat
     /\ (size (free_blocks sb V) <= size (free_blocks sb V') + 2 * k)%nat) s.
Proof.
  intros Hst Hok Hm Hd Hc Ht Hoff Hn Hmax Hby Hk Hfree Hlog. pose proof (cost_size sb d L).
  assert (Hzl : zlen (take (Z.to_nat n) src) = n) by (unfold zlen in *; rewrite length_take; lia).
  unfold writei. apply wp_bind. eapply get_inode_st; [done|done|].
  change (i_type (set_d d x)) with (d_type d). change (i_size (set_d d x)) with (d_size d).
  rewrite (proj2 (Z.eqb_neq _ _)) by done. rewrite (proj2 (Z.ltb_ge (d_size d) off)) by lia.
  assert (Hu : u32 (off + n) = off + n).
  { apply u32_id. unfold is_u32, MAXBYTES, BSIZE in *. change MAXFILE with 139 in *. lia. }
  rewrite Hu, (proj2 (Z.ltb_ge (off + n) off)), (proj2 (Z.ltb_ge (MAXFILE * BSIZE) _)) by (unfold MAXBYTES in *; lia).
  cbn [orb]. apply wp_bind.
  eapply (writei_loop_wp c sb Hly Hopen ic ut cu ip x Hip Hdev k); try done; try lia.
  rewrite Z.sub_0_r. intros s1 V1 d1 L1 Hst1 HW Hc1 Hf1. pose proof (cost_size sb d1 L1).
  apply wp_bind. eapply get_inode_st; [done|done|]. change (i_size (set_d d1 x)) with (d_size d1).
  assert (Es : d_size d1 = d_size d) by (by destruct (wr_d _ _ _ _ _ _ _ HW) as [a ->]). rewrite Es.
  apply wp_bind. destruct ((0 <? n) && (d_size d <? off + n)) eqn:Eg.
  - apply andb_prop in Eg as [_ Eg]. bool_cases. unfold when. apply wp_bind. unfold upd_d, upd_inode.
    apply wp_bind. eapply get_inode_st; [done|done|]. change (i_d (set_d d1 x)) with d1.
    change (set_d (d_set_size (off + n) d1) (set_d d1 x)) with (set_d (d_set_size (off + n) d1) x).
    eapply put_inode_st; [done|]. intros s2 Hst2.
    eapply iupdate_wp; [done|apply (wr_ok _ _ _ _ _ _ _ HW)|split; [lia|rewrite map_size_empty; lia]|].
    intros s3 Hst3. apply wp_ret. split; [done|]. eexists _, _, _. split; [exact Hst3|]. split_and!.
    + assert (Hwf : wf_block (V1 ib)) by (eapply holds_wf, Hst1).
      pose proof (written_grown V d V1 d1 off _ Hok Hm Hd HW Hwf Hoff) as HG.
      rewrite Hzl in HG. apply HG. lia.
    + pose proof (size_one_le ib L1). lia.
    + unfold free_blocks, allocated. rewrite upd_ne; [done|]. destruct ib_range. lia.
  - apply wp_ret, wp_ret. split; [done|]. exists V1, d1, L1. split; [done|]. split; [|split; lia].
    apply written_inside; try done; [lia|]. rewrite Hzl. apply andb_false_iff in Eg. destruct Eg; bool_cases; lia.
Qed.

(** ** [readi] *)

(** [bmap] of a block that exists changes nothing. *)
Lemma bmap_present s d V L bn (Q : Z -> fs S -> Prop) :
  st s d V ∅ L -> file_ok sb V d -> 0 <= bn < MAXFILE -> faddr V d bn ≠ 0 -> room ∅ L 0 ->
  (forall s', st s' d V ∅ L -> Q (faddr V d bn) s') -> wp (bmap ip bn) Q s.
Proof.
  intros Hst Hok Hbn Hn Hr HQ. pose proof (fo_len _ _ _ Hok) as Hl. unfold bmap. apply wp_bind.
  eapply get_inode_st; [done|done|]. change (i_dev (set_d d x)) with (i_dev x).
  destruct (bn <? NDIRECT) eqn:Ed; bool_cases.
  - apply wp_bind. eapply get_addr_st; [done|done|done|lia|].
    assert (Ef : d_addrs d !!! Z.to_nat bn = faddr V d bn)
      by (unfold faddr; by rewrite (proj2 (Z.ltb_lt bn NDIRECT))).
    rewrite Ef, (proj2 (Z.eqb_neq _ 0)) by done. by apply wp_ret, HQ.
  - rewrite (proj2 (Z.ltb_lt (bn - NDIRECT) NINDIRECT)) by (unfold MAXFILE in *; lia).
    pose proof (addr_ind V d bn Ed Hn) as Hi. destruct (fo_ind _ _ _ Hok Hi) as [Hir _].
    apply wp_bind. eapply get_addr_st; [done|done|done|unfold NDIRECT; lia|]. fold (ind_addr d).
    rewrite (proj2 (Z.eqb_neq _ 0)) by done. apply wp_bind, wp_ret, wp_bind.
    eapply bread_st; [done|done|by apply (ly_home _ _ Hly)|apply not_held_empty|done|].
    intros s1 i Hi1 Hst1. apply wp_bind. eapply read_data_st; [done|apply lookup_insert_eq|].
    assert (Ef : ind_get (V (ind_addr d)) (bn - NDIRECT) = faddr V d bn).
    { unfold faddr. rewrite (proj2 (Z.ltb_ge bn NDIRECT)) by lia. by rewrite (proj2 (Z.eqb_neq _ 0)). }
    rewrite Ef, (proj2 (Z.eqb_neq _ 0)) by done. apply wp_bind, wp_ret, wp_bind.
    eapply brelse_st; [done|done|]. intros s2 Hst2. by apply wp_ret, HQ.
Qed.

(** Part of a block is a range of the file. *)
Lemma slice_fbyte V d off m :
  length (V (faddr V d (off / BSIZE))) = 512%nat -> 0 <= off -> 0 <= m ->
  off mod BSIZE + m <= BSIZE ->
  slice (Z.to_nat (off mod BSIZE)) (Z.to_nat m) (V (faddr V d (off / BSIZE))) = fbyte V d <$> seqZ off m.
Proof.
  clear. intros Hl Hoff Hm Hfit. pose proof (Z.mod_pos_bound off BSIZE eq_refl).
  apply list_eq. intros k. rewrite list_lookup_fmap. unfold BSIZE in *.
  destruct (decide (k < Z.to_nat m)%nat) as [Hk|Hk].
  - rewrite lookup_slice, lookup_seqZ_lt by lia. simpl. unfold fbyte.
    assert (E : (off + Z.of_nat k) / BSIZE = off / 512 /\ (off + Z.of_nat k) mod BSIZE = off mod 512 + Z.of_nat k)
      by (unfold BSIZE; split; mlia).
    destruct E as [-> ->]. rewrite Z2Nat.inj_add, Nat2Z.id by lia. apply list_lookup_lookup_total_lt. lia.
  - rewrite lookup_seqZ_ge by lia. apply lookup_ge_None_2. unfold slice. rewrite length_take, length_drop. lia.
Qed.

Lemma readi_loop_wp fuel : forall s d V L tot off n acc (Q : list Z -> fs S -> Prop),
  st s d V ∅ L -> file_ok sb V d -> 0 <= tot <= n -> 0 <= off -> off + (n - tot) <= d_size d ->
  n - tot <= Z.of_nat fuel -> room ∅ L 0 ->
  (forall s', st s' d V ∅ L -> Q (acc ++ (fbyte V d <$> seqZ off (n - tot))) s') ->
  wp (readi_loop fuel ip tot off n acc) Q s.
Proof.
  induction fuel as [|fuel IH]; intros s d V L tot off n acc Q Hst Hok Htot Hoff Hin Hfu Hr HQ.
  all: cbn [readi_loop]; destruct (tot <? n) eqn:Et; bool_cases; try lia.
  all: try (apply wp_ret; rewrite <- (app_nil_r acc); rewrite seqZ_nil in HQ by lia; by apply HQ).
  pose proof (fo_size _ _ _ Hok) as Hsz. fold MAXBYTES in Hsz.
  destruct (pos_block off ltac:(lia)) as [Hbn Hmod]. set (m := chunk tot off n).
  assert (Hmm : 0 < m /\ m <= n - tot /\ off mod BSIZE + m <= BSIZE) by (unfold m, chunk, BSIZE in *; mlia).
  clearbody m. destruct Hmm as (Hm0 & Hmn & Hmf).
  assert (Hf : faddr V d (off / BSIZE) ≠ 0) by (apply (fo_full _ _ _ Hok); unfold BSIZE; mlia).
  destruct (fo_data _ _ _ Hok _ Hbn Hf) as [Hdr Hda].
  assert (Hw : length (V (faddr V d (off / BSIZE))) = 512%nat) by (eapply holds_wf, Hst).
  apply wp_bind. eapply get_inode_st; [done|done|]. change (i_dev (set_d d x)) with (i_dev x).
  apply wp_bind. eapply bmap_present; [done|done|done|done|done|]. intros s1 Hst1.
  apply wp_bind. eapply bread_st; [done|done|by apply (ly_home _ _ Hly)|apply not_held_empty|done|].
  intros s2 i Hi Hst2. apply wp_bind. eapply read_data_st; [done|apply lookup_insert_eq|].
  apply wp_bind. eapply brelse_st; [done|done|]. intros s3 Hst3.
  eapply IH; [done|done|lia|lia|lia|lia|done|]. intros s4 Hst4.
  rewrite slice_fbyte by (done || lia). rewrite <- app_assoc, <- fmap_app.
  replace (seqZ off m ++ seqZ (off + m) (n - (tot + m))) with (seqZ off (n - tot)); [by apply HQ|].
  rewrite <- seqZ_app by lia. f_equal. lia.
Qed.

(** The bytes at [off], as many as there are. *)
Lemma readi_wp s d V L off n :
  st s d V ∅ L -> file_ok sb V d -> d_type d ≠ T_DEV -> 0 <= off <= d_size d -> 0 <= n ->
  is_u32 (off + n) -> room ∅ L 0 ->
  wp (readi devsw_read ip off n) (fun r s' => st s' d V ∅ L /\
     r = (Z.min n (d_size d - off), slice (Z.to_nat off) (Z.to_nat n) (file_bytes V d))) s.
Proof.
  intros Hst Hok Ht Hoff Hn Hu Hr. unfold readi. apply wp_bind. eapply get_inode_st; [done|done|].
  change (i_type (set_d d x)) with (d_type d). change (i_size (set_d d x)) with (d_size d).
  rewrite (proj2 (Z.eqb_neq _ _)) by done. rewrite (proj2 (Z.ltb_ge (d_size d) off)) by lia.
  rewrite u32_id, (proj2 (Z.ltb_ge (off + n) off)) by (done || lia). cbn [orb].
  replace (if d_size d <? off + n then d_size d - off else n) with (Z.min n (d_size d - off))
    by (destruct (d_size d <? off + n) eqn:E; bool_cases; lia).
  set (k := Z.min n (d_size d - off)). apply wp_bind.
  eapply readi_loop_wp; [done|done|lia|lia|lia|lia|done|]. intros s1 Hst1. apply wp_ret. split; [done|].
  f_equal. rewrite Z.sub_0_r. simpl. unfold file_bytes, slice. rewrite <- fmap_drop, <- fmap_take. f_equal.
  apply list_eq. intros j. destruct (decide (j < Z.to_nat n)%nat).
  - rewrite lookup_take_lt, lookup_drop by done. destruct (decide (j < Z.to_nat k)%nat).
    + rewrite !lookup_seqZ_lt by lia. f_equal. lia.
    + rewrite !lookup_seqZ_ge by lia. done.
  - rewrite lookup_take_ge, lookup_seqZ_ge by lia. done.
Qed.
End Ops.

(** ** The theorems *)

(** Inside a transaction, [ip] is a locked and valid inode of the disk whose
    blocks and disk copy are in order. *)
Record open_file {S} `{TxStore S} (s : fs S) (c : tx) (V : Z -> list Z) (L : gset Z) (ip : nat)
    (x : inode) : Prop := {
  of_layout : layout_ok (f_sb s) c;
  of_open : 0 < t_open c;
  of_holds : holds s c V ∅ L;
  of_meta : meta_used (f_sb s) V;
  of_cached : f_icache s !! ip = Some x;
  of_dev : i_dev x = ROOTDEV;
  of_inum : 0 <= i_inum x < sb_ninodes (f_sb s);
  of_file : file_ok (f_sb s) V (i_d x);
  of_inode : dinode_ok (i_d x) /\ coherent (f_sb s) x V (i_d x);
  of_type : i_type x ≠ T_DEV }.

Lemma open_file_st {S} `{TxStore S} (s : fs S) c V L ip x :
  open_file s c V L ip x ->
  file_st c (f_sb s) (f_icache s) (f_ut s) (f_cur s) ip x s (i_d x) V ∅ L /\ (ip < length (f_icache s))%nat.
Proof.
  intros Ho. split; [|eapply lookup_lt_Some, Ho]. split; try done; [|apply Ho].
  symmetry. apply list_insert_id. rewrite (of_cached _ _ _ _ _ _ Ho). by destruct x.
Qed.

(** C8: [writei] replaces the bytes from [off] on, extending the file at its end:
    the contents become the old ones with [src] spliced in, the inode stays well
    formed and equal to its disk copy, every allocated block that is not this
    file's (and every other inode of the same block) keeps its contents, and the
    transaction grows by at most [k + 3] blocks when the range touches [k]. *)
Theorem writei_correct {S} `{TxStore S} (s : fs S) c V L ip x devsw_write src off n k :
  open_file s c V L ip x -> 0 <= off <= i_size x -> 0 <= n <= zlen src -> off + n <= MAXBYTES ->
  Forall is_byte src -> off mod BSIZE + n <= BSIZE * Z.of_nat k ->
  (2 * k <= size (free_blocks (f_sb s) V))%nat -> (size L + k + 8 <= log_capacity)%nat ->
  exists s' V' d' L', writei devsw_write ip src off n s = Ok n s' /\ holds s' c V' ∅ L'
    /\ f_icache s' = <[ip := set_d d' x]> (f_icache s)
    /\ written (f_sb s) x V (i_d x) V' d' off (take (Z.to_nat n) src)
    /\ (size L' <= size L + k + 3)%nat.
Proof.
  intros Ho Hoff Hn Hmax Hby Hk Hfree Hlog. destruct (open_file_st _ _ _ _ _ _ Ho) as [Hst Hip].
  destruct Ho as [Hly Hop _ Hm _ Hdev Hin Hok [Hd Hc] Ht].
  pose proof (writei_wp c (f_sb s) Hly Hop _ _ _ ip x Hip Hdev Hin devsw_write s (i_d x) V L src off n k
    Hst Hok Hm Hd Hc Ht Hoff Hn Hmax Hby Hk Hfree Hlog) as Hwp.
  apply wp_Ok in Hwp as (r & s' & Hrun & -> & V' & d' & L' & Hst' & HW & Hsz & _).
  exists s', V', d', L'. split_and!; [done|apply Hst'|apply Hst'|done|done].
Qed.

(** [readi] returns the bytes of the file from [off], up to [n] of them, and
    changes neither the file nor the disk. *)
Theorem readi_correct {S} `{TxStore S} (s : fs S) c V L ip x devsw_read off n :
  open_file s c V L ip x -> 0 <= off <= i_size x -> 0 <= n -> is_u32 (off + n) -> room ∅ L 0 ->
  exists s', readi devsw_read ip off n s
      = Ok (Z.min n (i_size x - off), slice (Z.to_nat off) (Z.to_nat n) (file_bytes V (i_d x))) s'
    /\ holds s' c V ∅ L /\ f_icache s' = f_icache s.
Proof.
  intros Ho Hoff Hn Hu Hr. destruct (open_file_st _ _ _ _ _ _ Ho) as [Hst Hip].
  pose proof (fs_ic _ _ _ _ _ _ _ _ _ _ _ _ Hst) as Eic.
  destruct Ho as [Hly Hop _ Hm _ Hdev Hin Hok _ Ht].
  pose proof (readi_wp c (f_sb s) Hly _ _ _ ip x Hip Hdev Hin devsw_read (fun _ => None) s (i_d x) V L off n
    Hst Hok Ht Hoff Hn Hu Hr) as Hwp.
  apply wp_Ok in Hwp as (r & s' & Hrun & Hst' & ->). exists s'. split_and!; [done|apply Hst'|].
  by rewrite (fs_ic _ _ _ _ _ _ _ _ _ _ _ _ Hst'), <- Eic.
Qed.

(** The reservation of [begin_op] covers a chunk of [filewrite]: writing at
    most the chunk size of file.c in an empty transaction logs no more than
    MAXOPBLOCKS blocks, wherever in the file the chunk starts. *)
Theorem write_chunk_reserved {S} `{TxStore S} (s : fs S) c V ip x devsw_write src off n :
  open_file s c V ∅ ip x -> 0 <= off <= i_size x -> 0 <= n <= max_write -> n <= zlen src ->
  off + n <= MAXBYTES -> Forall is_byte src -> (8 <= size (free_blocks (f_sb s) V))%nat ->
  exists s' V' L', writei devsw_write ip src off n s = Ok n s' /\ holds s' c V' ∅ L'
    /\ Z.of_nat (size L') <= MAXOPBLOCKS.
Proof.
  intros Ho Hoff Hn Hsrc Hmax Hby Hfree. destruct (open_file_st _ _ _ _ _ _ Ho) as [Hst Hip].
  destruct Ho as [Hly Hop _ Hm _ Hdev Hin Hok [Hd Hc] Ht]. change max_write with 1536 in Hn.
  pose proof (Z.mod_pos_bound off BSIZE eq_refl) as Hmod. unfold BSIZE in Hmod at 2.
  assert (Hwp := writei_wp c (f_sb s) Hly Hop _ _ _ ip x Hip Hdev Hin devsw_write s (i_d x) V ∅ src off n 4
    Hst Hok Hm Hd Hc Ht Hoff ltac:(lia) Hmax Hby ltac:(unfold BSIZE in *; lia) ltac:(lia)
    ltac:(rewrite size_empty; vm_compute; lia)).
  apply wp_Ok in Hwp as (r & s' & Hrun & -> & V' & d' & L' & Hst' & _ & Hsz & _).
  exists s', V', L'. split_and!; [done|apply Hst'|]. rewrite size_empty in Hsz. unfold MAXOPBLOCKS. lia.
Qed.

(** ** The example file *)

(** File "f" in the cache, locked by process 7. *)
Definition demo_entry : inode := mkInode ROOTDEV 2 1 (mkSleeplock 1 7) true demo_file.
Definition demo_open : fs store :=
  mkFs demo_tstore demo_fsb (demo_entry :: replicate 49 demo_inode) demo_utab (mkCurproc 7 5 None).

Lemma demo_faddr V k : 0 <= k < MAXFILE -> faddr V demo_file k = if bool_decide (k = 0) then 60 else 0.
Proof.
  intros Hk. unfold faddr. change (ind_addr demo_file) with 0. cbn [Z.eqb].
  destruct (k <? NDIRECT) eqn:E; bool_cases; [|by rewrite bool_decide_false by (unfold NDIRECT in *; lia)].
  unfold NDIRECT in E. case_bool_decide; [by subst|].
  replace (Z.to_nat k) with (Datatypes.S (Z.to_nat (k - 1))) by lia. cbn [d_addrs demo_file].
  change ((60 :: replicate 11 0) !!! Datatypes.S (Z.to_nat (k - 1))) with (replicate 11 0 !!! Z.to_nat (k - 1)).
  apply lookup_total_replicate_2. lia.
Qed.

Lemma demo_file_ok : file_ok demo_fsb (dread demo_fdisk) demo_file.
Proof.
  assert (Hb : data_block demo_fsb (dread demo_fdisk) 60) by (split; [simpl; lia|by vm_compute]).
  split; try done.
  - intros bn Hbn. rewrite demo_faddr by done. by case_bool_decide.
  - intros bn bn' Hbn Hbn'. rewrite !demo_faddr by done. repeat case_bool_decide; subst; done.
  - intros bn Hbn Hlt. simpl in Hlt. unfold BSIZE in Hlt.
    rewrite demo_faddr by (change MAXFILE with 139; lia). by rewrite bool_decide_true by lia.
Qed.

Lemma demo_open_file : open_file demo_open demo_tx (dread demo_fdisk) ∅ 0%nat demo_entry.
Proof.
  split; try done.
  - exact demo_layout.
  - exact (demo_holds 5).
  - exact demo_meta.
  - exact demo_file_ok.
  - split; [|by vm_compute]. split; try done. split; [done|].
    apply Forall_cons_2; [done|by apply Forall_replicate].
Qed.

Lemma demo_free : (16 <= size (free_blocks demo_fsb (dread demo_fdisk)))%nat.
Proof.
  assert (Hs : list_to_set (seqZ 61 16) ⊆ free_blocks demo_fsb (dread demo_fdisk)).
  { intros b Hb. apply elem_of_list_to_set in Hb. apply elem_of_free_blocks.
    assert (Hr : 61 <= b < 77) by (apply elem_of_seqZ in Hb; lia). split; [simpl; lia|].
    revert b Hb Hr. assert (Hall : Forall (fun b => allocated demo_fsb (dread demo_fdisk) b = false) (seqZ 61 16))
      by (apply (bool_decide_unpack _); by vm_compute).
    intros b Hb _. rewrite Forall_forall in Hall. by apply Hall. }
  apply subseteq_size in Hs. rewrite size_list_to_set in Hs by apply NoDup_seqZ. by rewrite length_seqZ in Hs.
Qed.

Lemma writei_correct_witness : exists s' V' d',
  writei (fun _ => None) 0 [33; 33] 5 2 demo_open = Ok 2 s' /\ file_bytes V' d' = [104; 101; 108; 108; 111; 33; 33].
Proof.
  destruct (writei_correct demo_open demo_tx (dread demo_fdisk) ∅ 0%nat demo_entry (fun _ => None) [33; 33] 5 2 1
    demo_open_file) as (s' & V' & d' & L' & Hrun & _ & _ & HW & _).
  - vm_compute. split; congruence.
  - vm_compute. split; congruence.
  - vm_compute. congruence.
  - repeat constructor; done.
  - vm_compute. congruence.
  - pose proof demo_free. simpl. lia.
  - rewrite size_empty. vm_compute. lia.
  - exists s', V', d'. split; [exact Hrun|]. rewrite (wn_bytes _ _ _ _ _ _ _ _ HW). by vm_compute.
Defined.

Lemma readi_correct_witness : exists s',
  readi (fun _ => None) 0 1 10 demo_open = Ok (4, [101; 108; 108; 111]) s'.
Proof.
  destruct (readi_correct demo_open demo_tx (dread demo_fdisk) ∅ 0%nat demo_entry (fun _ => None) 1 10
    demo_open_file) as (s' & Hrun & _).
  - vm_compute. split; congruence.
  - lia.
  - unfold is_u32. lia.
  - split; [rewrite size_empty; vm_compute; lia|rewrite map_size_empty; lia].
  - exists s'. rewrite Hrun. reflexivity.
Defined.

Lemma write_chunk_reserved_witness : exists s' L',
  writei (fun _ => None) 0 (replicate 1536 65) 5 1536 demo_open = Ok 1536 s' /\ Z.of_nat (size (L' : gset Z)) <= MAXOPBLOCKS.
Proof.
  destruct (write_chunk_reserved demo_open demo_tx (dread demo_fdisk) 0%nat demo_entry (fun _ => None)
    (replicate 1536 65) 5 1536 demo_open_file) as (s' & V' & L' & Hrun & _ & HL).
  - vm_compute. split; congruence.
  - vm_compute. split; congruence.
  - unfold zlen. rewrite length_replicate. lia.
  - vm_compute. congruence.
  - by apply Forall_replicate.
  - pose proof demo_free. simpl. lia.
  - exists s', L'. split; [exact Hrun|exact HL].
Defined.
