(* ===== verification/Paths.v ===== *)
(** * Path names: [skipelem] against splitting at slashes

    The components of a path, and that the walk of [namex] visits exactly those,
    each cut to DIRSIZ bytes. *)

From S2P Require Import Prelude KMonad CString Params Bio Users Store Fs.

(** The components of a path: its maximal runs without a slash. *)
Fixpoint elems (l : list Z) : list (list Z) :=
  match l with
  | [] => []
  | c :: l' =>
      if c =? SLASH then elems l'
      else match l' with
           | [] => [[c]]
           | c' :: _ =>
               if c' =? SLASH then [c] :: elems l'
               else match elems l' with [] => [[c]] | e :: r => (c :: e) :: r end
           end
  end.

(** The names [namex] looks up, by repeated [skipelem]. *)
Fixpoint walk (fuel : nat) (path name : list Z) : option (list (list Z)) :=
  r ← skipelem path name;
  match r with
  | None => Some []
  | Some (path', name') =>
      match fuel with
      | O => None
      | S fuel' => l ← walk fuel' path' name'; Some (cstrn (Z.to_nat DIRSIZ) name' :: l)
      end
  end.

Definition nonzero (l : list Z) : Prop := Forall (fun c => c ≠ 0) l.

Lemma skip_slashes_spec l rest : nonzero l ->
  exists l1, skip_slashes (string_bytes l rest) = Some (string_bytes l1 rest) /\ nonzero l1
    /\ (length l1 <= length l)%nat /\ elems l1 = elems l /\ head l1 ≠ Some SLASH.
Proof.
  unfold string_bytes. induction 1 as [|c l Hc Hl IH].
  { exists []. split_and!; try done. by apply Forall_nil. }
  simpl. destruct (c =? SLASH) eqn:E.
  - destruct IH as (l1 & -> & ? & ? & ? & ?). exists l1. split_and!; try done. lia.
  - exists (c :: l). bool_cases. split_and!; try done; [by constructor| |].
    + cbn [elems]. by rewrite (proj2 (Z.eqb_neq c SLASH)).
    + simpl. congruence.
Qed.

Lemma take_elem_spec l rest : nonzero l ->
  exists e l2, take_elem (string_bytes l rest) = Some (e, string_bytes l2 rest) /\ l = e ++ l2
    /\ Forall (fun c => c ≠ SLASH) e /\ (l2 = [] \/ head l2 = Some SLASH).
Proof.
  unfold string_bytes. induction 1 as [|c l Hc Hl IH]; simpl; [exists [], []; split_and!; auto|].
  rewrite (proj2 (Z.eqb_neq c 0)), andb_true_r by done. destruct (c =? SLASH) eqn:E; bool_cases; simpl.
  - exists [], (c :: l). split_and!; auto. right. by rewrite E.
  - destruct IH as (e & l2 & -> & -> & ? & ?). exists (c :: e), l2. split_and!; auto.
Qed.

Lemma elems_cons c l : c ≠ SLASH ->
  elems (c :: l) = match l with
                   | [] => [[c]]
                   | c' :: _ => if c' =? SLASH then [c] :: elems l
                                else match elems l with [] => [[c]] | e :: r => (c :: e) :: r end
                   end.
Proof. intros Hc. cbn [elems]. by rewrite (proj2 (Z.eqb_neq c SLASH)). Qed.

Lemma elems_app e l2 : e ≠ [] -> Forall (fun c => c ≠ SLASH) e -> l2 = [] \/ head l2 = Some SLASH ->
  elems (e ++ l2) = e :: elems l2.
Proof.
  intros Hne He Hl2. induction He as [|c e Hc He IH]; [done|].
  rewrite <- app_comm_cons, elems_cons by done. destruct e as [|c' e].
  - cbn [app]. destruct l2 as [|c2 l2]; [done|]. destruct Hl2 as [?|[= ->]]; done.
  - rewrite IH by done. cbn [app]. rewrite (proj2 (Z.eqb_neq c' SLASH)); [done|by inversion He].
Qed.

(** The buffer holds the component, cut to DIRSIZ bytes. *)
Lemma name_buffer e name : nonzero e -> length name = 14%nat ->
  let name' := if DIRSIZ <=? zlen e then splice 0 (take (Z.to_nat DIRSIZ) e) name
               else splice 0 (e ++ [0]) name in
  length name' = 14%nat /\ cstrn 14 name' = take 14 e.
Proof.
  intros He Hn. unfold DIRSIZ, zlen. change (Z.to_nat 14) with 14%nat.
  assert (Hc : forall l x n, nonzero l -> (n <= length l)%nat \/ head x = Some 0 -> cstrn n (l ++ x) = take n l).
  { induction l as [|c l IH]; intros x n Hl Hx.
    - destruct n as [|n]; [done|]. destruct Hx as [Hx|Hx]; [simpl in Hx; lia|]. destruct x; [done|].
      injection Hx as ->. done.
    - inversion_clear Hl. destruct n as [|n]; [done|]. simpl. rewrite (proj2 (Z.eqb_neq c 0)) by done.
      f_equal. apply IH; [done|]. simpl in Hx. destruct Hx; [left; lia|by right]. }
  destruct (14 <=? Z.of_nat (length e)) eqn:E; bool_cases; cbv zeta.
  - split; [rewrite length_splice; rewrite ?length_take; lia|]. unfold splice. rewrite take_0, app_nil_l.
    rewrite Hc; [by rewrite take_take| |left; rewrite length_take; lia]. by apply Forall_take.
  - split; [rewrite length_splice; rewrite ?length_app; simpl; lia|]. unfold splice. rewrite take_0, app_nil_l.
    rewrite <- app_assoc. apply Hc; [done|by right].
Qed.

(** One step of the walk. *)
Lemma skipelem_step l rest name : nonzero l -> length name = 14%nat ->
  match elems l with
  | [] => skipelem (string_bytes l rest) name = Some None
  | e :: es => exists l' name', skipelem (string_bytes l rest) name = Some (Some (string_bytes l' rest, name'))
      /\ nonzero l' /\ (length l' < length l)%nat /\ elems l' = es /\ head l' ≠ Some SLASH
      /\ length name' = 14%nat /\ cstrn 14 name' = take 14 e
  end.
Proof.
  intros Hl Hn. destruct (skip_slashes_spec l rest Hl) as (l1 & E1 & Hl1 & Hle & Eel & Hhd).
  unfold skipelem. rewrite E1, <- Eel. cbn [mbind option_bind]. destruct l1 as [|c l1]; [done|].
  change (string_bytes (c :: l1) rest) with (c :: string_bytes l1 rest). cbn [mbind option_bind].
  inversion Hl1 as [|? ? Hc Hl1']; subst. rewrite (proj2 (Z.eqb_neq c 0)) by done.
  change (c :: string_bytes l1 rest) with (string_bytes (c :: l1) rest).
  destruct (take_elem_spec (c :: l1) rest Hl1) as (e & l2 & -> & El & Hes & Hl2). cbn [mbind option_bind fst snd].
  assert (Hne : e ≠ []).
  { intros ->. simpl in El. destruct Hl2 as [->|H2]; [done|]. rewrite <- El in H2. done. }
  assert (Hz : nonzero e /\ nonzero l2) by (apply Forall_app; by rewrite <- El).
  destruct Hz as [Hze Hz2]. destruct (name_buffer e name Hze Hn) as [Hlen Hcs].
  destruct (skip_slashes_spec l2 rest Hz2) as (l3 & -> & Hz3 & Hle3 & Eel3 & Hhd3). cbn [mbind option_bind].
  rewrite El, elems_app by done. exists l3. eexists. split; [reflexivity|]. split_and!; try done.
  apply (f_equal length) in El. rewrite length_app in El. destruct e; [done|]. simpl in *. lia.
Qed.

Lemma elems_nil l : head l ≠ Some SLASH -> elems l = [] -> l = [].
Proof.
  destruct l as [|c l]; [done|]. intros Hh. rewrite elems_cons by (intros ->; by apply Hh).
  destruct l as [|c' l]; [done|]. case_if; [done|]. by destruct (elems (c' :: l)).
Qed.

Lemma walk_spec fuel : forall l rest name, nonzero l -> length name = 14%nat -> (length l <= fuel)%nat ->
  walk fuel (string_bytes l rest) name = Some (take 14 <$> elems l).
Proof.
  induction fuel as [|fuel IH]; intros l rest name Hl Hn Hf.
  all: pose proof (skipelem_step l rest name Hl Hn) as Hs; cbn [walk].
  all: destruct (elems l) as [|e es]; [by rewrite Hs|].
  all: destruct Hs as (l' & name' & -> & Hl' & Hlt & <- & _ & Hn' & Hc); try lia.
  cbn [mbind option_bind]. rewrite (IH l' rest name' Hl' Hn') by lia. cbn [mbind option_bind]. by rewrite fmap_cons, <- Hc.
Qed.

(** Repeated [skipelem] visits exactly the components of the path, in order
    and each cut to DIRSIZ bytes, and stops at the end of the string within as
    many steps as the path is long. *)
Theorem skipelem_walk l rest name :
  nonzero l -> length name = Z.to_nat DIRSIZ ->
  walk (length (string_bytes l rest)) (string_bytes l rest) name
    = Some (take (Z.to_nat DIRSIZ) <$> elems l).
Proof.
  intros Hl Hn. apply walk_spec; [done|done|]. unfold string_bytes. rewrite length_app. lia.
Qed.

(** ["//a/bb/"] is [a] then [bb]. *)
Lemma skipelem_walk_witness :
  walk 8 (string_bytes [47; 47; 97; 47; 98; 98; 47] []) (replicate 14 9) = Some [[97]; [98; 98]].
Proof.
  apply (skipelem_walk [47; 47; 97; 47; 98; 98; 47] [] (replicate 14 9)).
  - repeat constructor; done.
  - reflexivity.
Defined.
