(* ===== verification/ICache.v ===== *)
(** * The inode cache: [iget], [idup], [ilock], [iunlock] and [iput]

    How the cache stands to the disk and to the references its users hold: every
    entry in use is one inode of the disk, a valid one is its copy, no inode is in
    two entries, and the reference counts are those of the start plus the
    references taken since. *)

From S2P Require Import Prelude KMonad CString Params Bio BioSpec Log LogSpec Crash LogOps Users Store Fs FsSpec.

(** The inode [i] on the disk. *)
Definition disk_inode (sb : superblock) (V : Z -> list Z) (i : Z) : dinode :=
  read_dinode (dinode_off i) (V (IBLOCK i sb)).

Definition live (sb : superblock) (V : Z -> list Z) (i : Z) : Prop :=
  0 <= i < sb_ninodes sb /\ d_type (disk_inode sb V i) ≠ 0.

(** Entry [j] of the cache; [lk] are the entries that the running process has locked. *)
Record slot_ok (sb : superblock) (V : Z -> list Z) (lk : gset nat) (j : nat) (x : inode) : Prop := {
  so_ref : 0 <= i_ref x;
  so_lock : j ∉ lk -> sl_locked (i_lock x) = 0;
  so_use : 0 < i_ref x -> i_dev x = ROOTDEV /\ live sb V (i_inum x);
  so_valid : 0 < i_ref x -> i_valid x = true -> i_d x = disk_inode sb V (i_inum x) }.

(** The cache [ic'] reached from [ic] when [f j] more references to entry [j] are
    held. *)
Record cache (sb : superblock) (V : Z -> list Z) (lk : gset nat) (f : nat -> Z) (ic ic' : list inode) : Prop := {
  ca_len : length ic' = length ic;
  ca_pos : forall j, 0 <= f j;
  ca_slot : forall j x, ic' !! j = Some x -> slot_ok sb V lk j x;
  ca_inj : forall j j' x x', ic' !! j = Some x -> ic' !! j' = Some x' -> 0 < i_ref x -> 0 < i_ref x' ->
    i_inum x = i_inum x' -> j = j';
  ca_ref : forall j x x', ic !! j = Some x -> ic' !! j = Some x' ->
    i_ref x' = i_ref x + f j /\ 0 <= i_ref x /\ (0 < i_ref x -> i_inum x' = i_inum x) }.

Definition one_ref (k j : nat) : Z := if decide (j = k) then 1 else 0.
Definition more (k : nat) (f : nat -> Z) (j : nat) : Z := f j + one_ref k j.
Definition less (k : nat) (f : nat -> Z) (j : nat) : Z := f j - one_ref k j.

Lemma elsewhere_unlocked (k j : nat) (lk : gset nat) : j ≠ k -> j ∉ lk ∖ {[k]} -> j ∉ lk.
Proof. set_solver. Qed.

Lemma now_unlocked (k : nat) (lk : gset nat) : k ∉ lk ∖ {[k]}.
Proof. set_solver. Qed.

Lemma lock_one (k : nat) : {[k]} ∪ ∅ = ({[k]} : gset nat).
Proof. set_solver. Qed.

Lemma unlock_one (k : nat) : {[k]} ∖ {[k]} = (∅ : gset nat).
Proof. set_solver. Qed.

Lemma unlock_pair (k k2 : nat) : k2 ≠ k -> ({[k2]} ∪ {[k]}) ∖ {[k]} = ({[k2]} : gset nat).
Proof. set_solver. Qed.

Lemma not_in_one (k k2 : nat) : k ≠ k2 -> k2 ∉ ({[k]} : gset nat).
Proof. set_solver. Qed.

Section Cache.
Context (sb : superblock) (V : Z -> list Z).
Local Abbreviation cache := (cache sb V).

Lemma cache_ext lk f g ic ic' : (forall j, f j = g j) -> cache lk f ic ic' -> cache lk g ic ic'.
Proof using.
  intros E [H1 H2 H3 H4 H5]. split; try done; intros; rewrite <- ?E; auto.
Qed.

(** One entry changes. *)
Lemma cache_set lk lk' f f' ic ic1 k x x' :
  cache lk f ic ic1 -> ic1 !! k = Some x -> slot_ok sb V lk' k x' ->
  (forall j, j ≠ k -> j ∉ lk' -> j ∉ lk) -> (forall j, j ≠ k -> f' j = f j) -> 0 <= f' k ->
  i_ref x' - f' k = i_ref x - f k -> (0 < i_ref x -> i_inum x' = i_inum x) ->
  (i_ref x = 0 -> 0 < i_ref x' -> forall j y, j ≠ k -> ic1 !! j = Some y -> 0 < i_ref y -> i_inum y ≠ i_inum x') ->
  cache lk' f' ic (<[k := x']> ic1).
Proof using.
  intros [C1 C2 C3 C4 C5] Hk Hx' Hlk Hf Hf0 Hr Hi Hnew. pose proof (lookup_lt_Some _ _ _ Hk) as Hkl.
  assert (Hget : forall j y, <[k := x']> ic1 !! j = Some y -> (j = k /\ y = x') \/ (j ≠ k /\ ic1 !! j = Some y)).
  { intros j y. destruct (decide (j = k)) as [->|Hne]; [rewrite list_lookup_insert_eq by done|rewrite list_lookup_insert_ne by done].
    - intros [= <-]. by left.
    - by right. }
  pose proof (so_ref _ _ _ _ _ (C3 _ _ Hk)) as Hx0.
  assert (Hcross : forall j y, j ≠ k -> ic1 !! j = Some y -> 0 < i_ref y -> 0 < i_ref x' -> i_inum y ≠ i_inum x').
  { intros j y Hne Hy H1 H2 E. destruct (decide (0 < i_ref x)) as [H3|H3].
    - apply Hne. apply (C4 j k y x Hy Hk); [done|done|]. by rewrite E, Hi.
    - apply (Hnew ltac:(lia) H2 j y Hne Hy H1 E). }
  split.
  - by rewrite length_insert.
  - intros j. destruct (decide (j = k)) as [->|Hne]; [done|]. by rewrite Hf.
  - intros j y [[-> ->]|[Hne Hy]]%Hget; [done|]. destruct (C3 _ _ Hy) as [S1 S2 S3 S4]. split; auto.
  - intros j j' y y' [[-> ->]|[Hn Hy]]%Hget [[-> ->]|[Hn' Hy']]%Hget Hr1 Hr2 E; [done| | |eauto].
    + exfalso. by apply (Hcross j' y').
    + exfalso. by apply (Hcross j y).
  - intros j y y' Hy [[-> ->]|[Hne Hy']]%Hget.
    + destruct (C5 _ _ _ Hy Hk) as (R1 & R2 & R3). split; [lia|]. split; [done|]. intros H0. rewrite Hi; [auto|]. specialize (C2 k). lia.
    + rewrite Hf by done. eauto.
Qed.

(** The searches of [iget]. *)
Lemma icache_find_spec dev i l : forall n, match icache_find dev i l n with
  | Some k => exists x, (n <= k)%nat /\ l !! (k - n)%nat = Some x /\ 0 < i_ref x /\ i_dev x = dev /\ i_inum x = i
  | None => forall j x, l !! j = Some x -> ~ (0 < i_ref x /\ i_dev x = dev /\ i_inum x = i)
  end.
Proof using.
  induction l as [|x l IH]; intros n; cbn [icache_find]; [by intros j x Hx|].
  destruct ((0 <? i_ref x) && (i_dev x =? dev) && (i_inum x =? i)) eqn:E.
  - bool_cases. exists x. rewrite Nat.sub_diag. split_and!; done || lia.
  - specialize (IH (Datatypes.S n)). destruct (icache_find dev i l (Datatypes.S n)) as [k|].
    + destruct IH as (y & Hk & Hy & Hrest). exists y. split; [lia|]. split; [|done].
      replace (k - n)%nat with (Datatypes.S (k - Datatypes.S n)) by lia. done.
    + intros [|j] y Hy; [injection Hy as <-|by eapply IH]. intros (H1 & H2 & H3).
      rewrite (proj2 (Z.ltb_lt _ _) H1), (proj2 (Z.eqb_eq _ _) H2), (proj2 (Z.eqb_eq _ _) H3) in E. done.
Qed.

Lemma icache_empty_spec l : forall n, match icache_empty l n with
  | Some k => exists x, (n <= k)%nat /\ l !! (k - n)%nat = Some x /\ i_ref x = 0
  | None => forall j x, l !! j = Some x -> i_ref x ≠ 0
  end.
Proof using.
  induction l as [|x l IH]; intros n; cbn [icache_empty]; [by intros j x Hx|].
  destruct (Z.eqb_spec (i_ref x) 0) as [E|E].
  - exists x. rewrite Nat.sub_diag. split_and!; done || lia.
  - specialize (IH (Datatypes.S n)). destruct (icache_empty l (Datatypes.S n)) as [k|].
    + destruct IH as (y & Hk & Hy & Hrest). exists y. split; [lia|]. split; [|done].
      replace (k - n)%nat with (Datatypes.S (k - Datatypes.S n)) by lia. done.
    + intros [|j] y Hy; [by injection Hy as <-|by eapply IH].
Qed.
End Cache.

(** The contents of the disk matter to the cache only in the inodes in use. *)
Lemma disk_inode_view sb V V' i : V' (IBLOCK i sb) = V (IBLOCK i sb) -> disk_inode sb V' i = disk_inode sb V i.
Proof. unfold disk_inode. by intros ->. Qed.

Lemma cache_view sb V V' lk f ic ic' : (forall i, live sb V i -> disk_inode sb V' i = disk_inode sb V i) ->
  cache sb V lk f ic ic' -> cache sb V' lk f ic ic'.
Proof.
  intros HV [C1 C2 C3 C4 C5]. split; try done. intros j x Hx. destruct (C3 _ _ Hx) as [S1 S2 S3 S4]. split; [done|done| |].
  - intros Hr. destruct (S3 Hr) as (Hd & Hl). split; [done|]. split; [apply Hl|]. by rewrite HV; [apply Hl|].
  - intros Hr Hv. destruct (S3 Hr) as (Hd & Hl). rewrite HV by done. auto.
Qed.

Lemma cache_view_all sb V V' lk f ic ic' : (forall i, 0 <= i < sb_ninodes sb -> disk_inode sb V' i = disk_inode sb V i) ->
  cache sb V lk f ic ic' -> cache sb V' lk f ic ic'.
Proof. intros HV. apply cache_view. intros i [Hi _]. by apply HV. Qed.

(** The state reached is a new start. *)
Definition no_ref (j : nat) : Z := 0.

Lemma cache_self sb V lk f ic ic' : cache sb V lk f ic ic' -> cache sb V lk no_ref ic' ic'.
Proof.
  intros [C1 C2 C3 C4 C5]. split; try done. intros j x x' Hx Hx'. rewrite Hx in Hx'. injection Hx' as <-.
  split; [unfold no_ref; lia|]. split; [|done]. apply (so_ref _ _ _ _ _ (C3 _ _ Hx)).
Qed.

Section Ops.
Context {S : Type} `{TxStore S}.
Context (c : tx) (sb : superblock) (V : Z -> list Z) (L : gset Z).
Hypothesis Hly : layout_ok sb c.
Hypothesis Hroom : room ∅ L 0.
Local Abbreviation cache := (cache sb V).

Definition put_ic (ic : list inode) (s : fs S) : fs S := mkFs (f_store s) (f_sb s) ic (f_ut s) (f_cur s).

Lemma wp_get_inode s k x (Q : inode -> fs S -> Prop) : f_icache s !! k = Some x -> Q x s -> wp (get_inode k) Q s.
Proof using. intros E HQ. unfold wp, get_inode. by rewrite E. Qed.

Lemma wp_put_inode s k x (Q : unit -> fs S -> Prop) : Q tt (put_ic (<[k := x]> (f_icache s)) s) -> wp (put_inode k x) Q s.
Proof using. done. Qed.

Lemma wp_upd_inode s k g x (Q : unit -> fs S -> Prop) : f_icache s !! k = Some x ->
  Q tt (put_ic (<[k := g x]> (f_icache s)) s) -> wp (upd_inode k g) Q s.
Proof using. intros E HQ. unfold upd_inode. apply wp_bind. by eapply wp_get_inode. Qed.

(** One more reference to entry [k]. *)
Lemma cache_more lk f ic ic1 k x : cache lk f ic ic1 -> ic1 !! k = Some x -> 0 < i_ref x ->
  cache lk (more k f) ic (<[k := set_ref (i_ref x + 1) x]> ic1).
Proof using.
  intros HC Hk Hr. destruct (ca_slot _ _ _ _ _ _ HC _ _ Hk) as [S1 S2 S3 S4]. pose proof (ca_pos _ _ _ _ _ _ HC k).
  unfold more, one_ref. eapply cache_set; [done|done| |done|..]; rewrite ?decide_True by done; cbn; try (done || lia).
  - split; cbn; auto; try lia.
  - intros j Hj. by rewrite decide_False, Z.add_0_r.
Qed.

Lemma iget_wp s lk f ic i (Q : nat -> fs S -> Prop) :
  cache lk f ic (f_icache s) -> live sb V i -> (exists j x, f_icache s !! j = Some x /\ i_ref x = 0) ->
  (forall k x ic2, cache lk (more k f) ic ic2 -> ic2 !! k = Some x -> i_inum x = i -> 0 < i_ref x ->
     (forall j y, f_icache s !! j = Some y -> 0 < i_ref y -> exists r, ic2 !! j = Some (set_ref r y) /\ i_ref y <= r) -> Q k (put_ic ic2 s)) ->
  wp (iget ROOTDEV i) Q s.
Proof using.
  intros HC Hi (je & xe & Hje & Hxe) HQ. unfold iget. apply wp_bind, wp_gets. set (ic1 := f_icache s) in *.
  pose proof (icache_find_spec ROOTDEV i ic1 0) as Hf. destruct (icache_find ROOTDEV i ic1 0) as [k|].
  - destruct Hf as (x & _ & Hx & Hr & Hd & Hin). rewrite Nat.sub_0_r in Hx. apply wp_bind. eapply wp_upd_inode; [exact Hx|]. apply wp_ret.
    pose proof (lookup_lt_Some _ _ _ Hx). eapply HQ; [by apply cache_more|by apply list_lookup_insert_eq|done|cbn; lia|].
    intros j y Hy Hy0. destruct (decide (j = k)) as [->|Hne].
    + exists (i_ref x + 1). rewrite list_lookup_insert_eq by done. assert (y = x) as -> by congruence. split; [done|lia].
    + exists (i_ref y). rewrite list_lookup_insert_ne by done. split; [|lia]. etrans; [exact Hy|by destruct y].
  - pose proof (icache_empty_spec ic1 0) as He. destruct (icache_empty ic1 0) as [k|]; [|exfalso; by eapply He].
    destruct He as (x & _ & Hx & Hr). rewrite Nat.sub_0_r in Hx. apply wp_bind. eapply wp_upd_inode; [exact Hx|]. apply wp_ret.
    pose proof (lookup_lt_Some _ _ _ Hx). destruct (ca_slot _ _ _ _ _ _ HC _ _ Hx) as [S1 S2 S3 S4]. pose proof (ca_pos _ _ _ _ _ _ HC k).
    eapply HQ; [|by apply list_lookup_insert_eq|done|cbn; lia|].
    + unfold more, one_ref. eapply cache_set; [done|done| |done|..]; rewrite ?decide_True by done; cbn; try lia.
      * split; cbn; auto; try lia.
      * intros j Hj. by rewrite decide_False, Z.add_0_r.
      * intros _ _ j y Hj Hy Hy0 E. apply (Hf _ _ Hy). split; [done|]. split; [|done]. by apply (so_use _ _ _ _ _ (ca_slot _ _ _ _ _ _ HC _ _ Hy)).
    + intros j y Hy Hy0. destruct (decide (j = k)) as [->|Hne]; [assert (y = x) by congruence; subst; lia|].
      exists (i_ref y). rewrite list_lookup_insert_ne by done. split; [|lia]. etrans; [exact Hy|by destruct y].
Qed.

Lemma idup_wp s lk f ic k x (Q : nat -> fs S -> Prop) :
  cache lk f ic (f_icache s) -> f_icache s !! k = Some x -> 0 < i_ref x ->
  (forall ic2 x', cache lk (more k f) ic ic2 -> ic2 !! k = Some x' -> i_inum x' = i_inum x -> 0 < i_ref x' -> Q k (put_ic ic2 s)) ->
  wp (idup k) Q s.
Proof using.
  intros HC Hx Hr HQ. unfold idup. apply wp_bind. eapply wp_upd_inode; [exact Hx|]. apply wp_ret. pose proof (lookup_lt_Some _ _ _ Hx).
  eapply HQ; [by apply cache_more|by apply list_lookup_insert_eq|done|cbn; lia].
Qed.

(** The entry as [ilock] leaves it. *)
Definition locked_inode (pid i r : Z) : inode := mkInode ROOTDEV i r (mkSleeplock 1 pid) true (disk_inode sb V i).

Lemma ilock_wp s lk f ic k x (Q : unit -> fs S -> Prop) :
  cache lk f ic (f_icache s) -> k ∉ lk -> f_icache s !! k = Some x -> 0 < i_ref x -> f_sb s = sb -> holds s c V ∅ L ->
  (forall t ic2, cache ({[k]} ∪ lk) f ic ic2 -> ic2 !! k = Some (locked_inode (c_pid (f_cur s)) (i_inum x) (i_ref x)) ->
     (forall j, j ≠ k -> ic2 !! j = f_icache s !! j) ->
     holds (put_store t (put_ic ic2 s)) c V ∅ L -> Q tt (put_store t (put_ic ic2 s))) ->
  wp (ilock k) Q s.
Proof using Hly Hroom.
  intros HC Hnk Hk Hr Hsb Hh HQ. destruct (ca_slot _ _ _ _ _ _ HC _ _ Hk) as [S1 S2 S3 S4]. destruct (S3 Hr) as [Hdev [Hi Ht]].
  pose proof (lookup_lt_Some _ _ _ Hk) as Hkl. specialize (S2 Hnk). set (pid := c_pid (f_cur s)). set (y := locked_inode pid (i_inum x) (i_ref x)).
  assert (Hend : forall t s', s' = put_store t (put_ic (<[k := y]> (f_icache s)) s) -> holds s' c V ∅ L -> Q tt s').
  { intros t s' -> Hs'. eapply HQ; [|by apply list_lookup_insert_eq|intros j Hj; by apply list_lookup_insert_ne|done].
    eapply cache_set; [done|done| |set_solver|done|apply (ca_pos _ _ _ _ _ _ HC)|done|done|cbn; lia]. split; cbn; [done|intros Hj; exfalso; set_solver|done|done]. }
  unfold ilock. apply wp_bind. eapply wp_get_inode; [done|]. rewrite (proj2 (Z.ltb_ge _ _)) by lia. apply wp_bind.
  unfold acquire_inode. apply wp_bind. eapply wp_get_inode; [done|]. apply wp_bind, wp_gets. unfold acquiresleep. rewrite S2. cbn [Z.eqb negb].
  set (x1 := set_ilock (mkSleeplock 1 (c_pid (f_cur s))) x). apply wp_put_inode. apply wp_bind. eapply wp_get_inode; [by apply list_lookup_insert_eq|].
  destruct (i_valid x1) eqn:Ev; [|rename Ev into Ev0].
  { apply wp_ret. apply (Hend (f_store s)); [|done]. change (i_valid x = true) in Ev. unfold y, locked_inode, x1. rewrite <- (S4 Hr Ev).
    destruct x, s. cbn in *. subst. done. }
  apply wp_bind, wp_gets. destruct (ly_inodes _ _ Hly _ Hi) as [Hhome Hib]. change (i_dev x1) with (i_dev x). rewrite Hdev.
  change (f_sb (put_ic (<[k := x1]> (f_icache s)) s)) with (f_sb s). rewrite Hsb. change (i_inum x1) with (i_inum x).
  apply wp_bind. eapply (wp_bread _ c V ∅ L); [exact Hh|done|intros j; by rewrite lookup_empty|exact Hroom|]. intros b t Hb Hh1.
  apply wp_bind. eapply wp_read_data; [exact Hh1|apply lookup_insert_eq|]. fold (disk_inode sb V (i_inum x)).
  apply wp_bind. eapply wp_upd_inode; [by apply list_lookup_insert_eq|]. apply wp_bind. cbn [put_ic put_store f_icache f_store f_sb f_ut f_cur].
  eapply wp_brelse; [exact Hh1|apply lookup_insert_eq|]. intros t2 Hh2. rewrite delete_insert_id in Hh2 by done.
  apply wp_bind. eapply wp_upd_inode; [apply list_lookup_insert_eq; by rewrite length_insert|].
  apply wp_bind. cbn [put_ic put_store f_icache f_store f_sb f_ut f_cur] in *. rewrite !list_insert_insert_eq.
  eapply wp_get_inode; [by apply list_lookup_insert_eq|]. change (i_type _) with (d_type (disk_inode sb V (i_inum x))).
  rewrite (proj2 (Z.eqb_neq _ _) Ht). apply wp_ret. apply (Hend t2); [|done].
  unfold y, locked_inode, x1. rewrite <- Hdev. done.
Qed.

Lemma iunlock_wp s lk f ic k x (Q : unit -> fs S -> Prop) :
  cache lk f ic (f_icache s) -> f_icache s !! k = Some x -> 0 < i_ref x -> i_lock x = mkSleeplock 1 (c_pid (f_cur s)) ->
  (forall ic2, cache (lk ∖ {[k]}) f ic ic2 -> ic2 = <[k := set_ilock initsleeplock x]> (f_icache s) -> Q tt (put_ic ic2 s)) ->
  wp (iunlock k) Q s.
Proof using.
  intros HC Hk Hr Hl HQ. destruct (ca_slot _ _ _ _ _ _ HC _ _ Hk) as [S1 S2 S3 S4]. pose proof (lookup_lt_Some _ _ _ Hk).
  unfold iunlock. apply wp_bind. eapply wp_get_inode; [done|]. apply wp_bind, wp_gets. rewrite Hl. unfold holdingsleep.
  cbn [sl_locked sl_pid]. rewrite Z.eqb_refl, (proj2 (Z.ltb_ge _ _)) by lia. cbn. eapply wp_upd_inode; [exact Hk|].
  eapply HQ; [|done]. eapply cache_set; [done|done| |intros j; apply elsewhere_unlocked|done|apply (ca_pos _ _ _ _ _ _ HC)|done|done|cbn; lia].
  split; cbn; auto.
Qed.

(** [iput] of a reference that is not the last one to an unlinked inode. *)
Lemma iput_wp s lk f ic k x (Q : unit -> fs S -> Prop) :
  cache lk f ic (f_icache s) -> k ∉ lk -> f_icache s !! k = Some x -> 0 < i_ref x -> 1 <= f k ->
  (i_ref x = 1 -> d_nlink (disk_inode sb V (i_inum x)) ≠ 0) ->
  (forall ic2, cache lk (less k f) ic ic2 ->
     ic2 = <[k := set_ref (i_ref x - 1) (set_ilock initsleeplock x)]> (f_icache s) -> Q tt (put_ic ic2 s)) ->
  wp (iput k) Q s.
Proof using.
  intros HC Hnk Hk Hr Hf Hn HQ. destruct (ca_slot _ _ _ _ _ _ HC _ _ Hk) as [S1 S2 S3 S4]. pose proof (lookup_lt_Some _ _ _ Hk).
  specialize (S2 Hnk). unfold iput. apply wp_bind. unfold acquire_inode. apply wp_bind. eapply wp_get_inode; [done|]. apply wp_bind, wp_gets.
  unfold acquiresleep. rewrite S2. cbn [Z.eqb negb]. apply wp_put_inode. apply wp_bind. eapply wp_get_inode; [by apply list_lookup_insert_eq|].
  cbn [i_valid i_nlink i_ref set_ilock]. rewrite <- andb_assoc.
  assert (E : i_valid x && ((i_nlink (set_ilock (mkSleeplock 1 (c_pid (f_cur s))) x) =? 0) && (i_ref x =? 1)) = false).
  { destruct (i_valid x) eqn:Ev; [|done]. cbn [andb]. destruct (Z.eqb_spec (i_ref x) 1) as [E1|]; [|apply andb_false_r].
    rewrite andb_true_r. apply Z.eqb_neq. unfold i_nlink. cbn. rewrite (S4 Hr eq_refl). auto. }
  rewrite E. apply wp_bind, wp_ret. apply wp_bind. eapply wp_upd_inode; [by apply list_lookup_insert_eq|].
  eapply wp_upd_inode; [apply list_lookup_insert_eq; by cbn; rewrite length_insert|]. cbn [put_ic f_icache f_store f_sb f_ut f_cur].
  rewrite !list_insert_insert_eq. apply HQ; [|done]. unfold less, one_ref.
  eapply cache_set; [done|done| |done|..]; rewrite ?decide_True by done; cbn; try (done || lia).
  - split; cbn; try done || lia; intros; [apply S3|apply S4]; done || lia.
  - intros j Hj. by rewrite decide_False, Z.sub_0_r.
Qed.
End Ops.
