(* ===== verification/Dirs.v ===== *)
(** * Directories: [dirlookup] and [dirlink]

    A directory is a file of 16-byte entries.  Looking a name up finds the first
    entry in use with that name; linking a name stores it in the first free entry,
    after which it is found and every other name is found as before. *)

From S2P Require Import Prelude KMonad CString Params Bio BioSpec Log LogSpec Crash LogOps Users Store Fs FsSpec FileSpec Dinode Content ReadWrite ICache.

(** ** The entries of a directory *)

Definition dirent_at (bytes : list Z) (i : nat) : list Z := slice (16 * i) 16 bytes.
Definition dirents (bytes : list Z) : list (list Z) := dirent_at bytes <$> seq 0 (length bytes / 16).

(** [de] is in use and has the name [nm]. *)
Definition is_entry (nm de : list Z) : Prop := de_inum de ≠ 0 /\ cstrn 14 (de_name de) = nm.

#[global] Instance is_entry_dec nm de : Decision (is_entry nm de).
Proof. unfold is_entry. apply _. Defined.

(** The index of the first entry with the name, and the entry. *)
Definition dir_find (nm bytes : list Z) : option (nat * list Z) := list_find (is_entry nm) (dirents bytes).

Lemma dirent_offs_eq size : 0 <= size -> size mod 16 = 0 ->
  dirent_offs size = (fun i : nat => Z.of_nat i * 16) <$> seq 0 (Z.to_nat size / 16).
Proof.
  intros H0 Hm. unfold dirent_offs, sizeof_dirent. replace ((size + 16 - 1) / 16) with (Z.of_nat (Z.to_nat size / 16)).
  - apply list_eq. intros k. rewrite !list_lookup_fmap. destruct (decide (k < Z.to_nat size / 16)%nat) as [Hk|Hk].
    + rewrite lookup_seqZ_lt, lookup_seq_lt by lia. done.
    + rewrite lookup_seqZ_ge, lookup_seq_ge by lia. done.
  - rewrite Nat2Z.inj_div, Z2Nat.id by done. change (Z.of_nat 16) with 16. mlia.
Qed.

Lemma length_dirent_at bytes i : (16 * i + 16 <= length bytes)%nat -> length (dirent_at bytes i) = 16%nat.
Proof. intros Hl. unfold dirent_at, slice. rewrite length_take, length_drop. lia. Qed.

Section Lookup.
Context {S : Type} `{TxStore S}.
Context (c : tx) (V : Z -> list Z) (L : gset Z) (k : nat) (x : inode).
Hypothesis Hroom : room ∅ L 0.
Context (devsw_read : Z -> option (nat -> Z -> M (fs S) (Z * list Z))).
Context (devsw_write : Z -> option (nat -> list Z -> Z -> M (fs S) Z)).

(** The entry [k] of the cache is the directory [x]. *)
Record dir_st (s : fs S) : Prop := {
  ds_layout : layout_ok (f_sb s) c;
  ds_holds : holds s c V ∅ L;
  ds_cached : f_icache s !! k = Some x;
  ds_dev : i_dev x = ROOTDEV;
  ds_inum : 0 <= i_inum x < sb_ninodes (f_sb s);
  ds_file : file_ok (f_sb s) V (i_d x);
  ds_type : i_type x = T_DIR;
  ds_size : i_size x mod 16 = 0 }.

Let bytes := file_bytes V (i_d x).

Lemma dir_length s : dir_st s -> length bytes = Z.to_nat (i_size x) /\ 0 <= i_size x /\ (16 * (length bytes / 16) = length bytes)%nat.
Proof using.
  intros Hs. pose proof (fo_size _ _ _ (ds_file _ Hs)) as Hz. pose proof (ds_size _ Hs) as Hm. unfold i_size in *.
  assert (E : length bytes = Z.to_nat (d_size (i_d x))) by (unfold bytes, file_bytes; by rewrite length_fmap, length_seqZ).
  split; [done|]. split; [lia|]. rewrite E. pose proof (Nat.div_mod_eq (Z.to_nat (d_size (i_d x))) 16) as D.
  assert (Hq : Z.of_nat (Z.to_nat (d_size (i_d x)) mod 16) = 0) by (rewrite Nat2Z.inj_mod, Z2Nat.id by lia; done). lia.
Qed.

Lemma dir_st_store s t : dir_st s -> holds (put_store t s) c V ∅ L -> dir_st (put_store t s).
Proof using. intros [? ? ? ? ? ? ? ?] Hh. by split. Qed.

(** An entry is read. *)
Lemma readi_entry s i (Q : Z * list Z -> fs S -> Prop) : dir_st s -> (16 * i + 16 <= length bytes)%nat ->
  (forall t, dir_st (put_store t s) -> Q (16, dirent_at bytes i) (put_store t s)) ->
  wp (readi devsw_read k (Z.of_nat i * 16) 16) Q s.
Proof using Hroom devsw_write.
  intros Hs Hi HQ. destruct (dir_length s Hs) as (Hl & H0 & _). pose proof Hs as [H1 H2 H3 H4 H5 H6 H7 H8].
  pose proof (fo_size _ _ _ H6) as Hmx. fold (i_size x) in Hmx. change MAXFILE with 139 in Hmx. unfold BSIZE in Hmx.
  assert (Hst : file_st c (f_sb s) (f_icache s) (f_ut s) (f_cur s) k x s (i_d x) V ∅ L).
  { split; try done. symmetry. apply list_insert_id. rewrite H3. by destruct x. }
  eapply wp_mono; [apply (readi_wp c (f_sb s) H1 _ _ _ k x (lookup_lt_Some _ _ _ H3) H4 H5 devsw_read devsw_write s (i_d x) V L _ 16 Hst H6)|].
  - unfold i_type in H7. by rewrite H7.
  - fold (i_size x). lia.
  - lia.
  - unfold is_u32. lia.
  - exact Hroom.
  - intros r s' [[E1 E2 E3 E4 E5] ->].
    assert (Es : s' = put_store (f_store s') s).
    { destruct s'. unfold put_store. cbn in *. subst. f_equal. apply list_insert_id. rewrite H3. by destruct x. }
    rewrite Es. fold (i_size x). replace (Z.min 16 (i_size x - Z.of_nat i * 16)) with 16 by lia.
    replace (slice (Z.to_nat (Z.of_nat i * 16)) (Z.to_nat 16) (file_bytes V (i_d x))) with (dirent_at bytes i)
      by (unfold dirent_at; fold bytes; f_equal; lia).
    apply HQ. apply dir_st_store; [done|]. by rewrite <- Es.
Qed.

(** The body of the loop of [dirlookup]. *)
Definition look_entry (name : list Z) (off : Z) : M (fs S) (option (nat * Z)) :=
  r <- readi devsw_read k off sizeof_dirent ;;
  if negb (fst r =? sizeof_dirent) then panic "dirlookup read"
  else
    let de := snd r in
    if de_inum de =? 0 then ret None
    else
      c <- from_opt (namecmp name (de_name de)) ;;
      if c =? 0 then ip <- iget (i_dev x) (de_inum de) ;; ret (Some (ip, off)) else ret None.

Lemma scan_wp name n : forall s i (Q : option (nat * Z) -> fs S -> Prop),
  dir_st s -> readable 14 name = true -> (i + n = length bytes / 16)%nat ->
  match list_find (is_entry (cstrn 14 name)) (dirent_at bytes <$> seq i n) with
  | None => forall t, dir_st (put_store t s) -> Q None (put_store t s)
  | Some (j, de) => forall t, dir_st (put_store t s) ->
      wp (iget ROOTDEV (de_inum de)) (fun ip s' => Q (Some (ip, Z.of_nat (i + j) * 16)) s') (put_store t s)
  end ->
  wp (for_until ((fun i : nat => Z.of_nat i * 16) <$> seq i n) (look_entry name)) Q s.
Proof using Hroom devsw_write.
  induction n as [|n IH]; intros s i Q Hs Hn Hi HQ; cbn [seq fmap list_fmap for_until] in *.
  { cbn in HQ. apply wp_ret. replace s with (put_store (f_store s) s) by (by destruct s). apply HQ. by destruct s. }
  destruct (dir_length s Hs) as (_ & _ & Hl). apply wp_bind. unfold look_entry at 1. apply wp_bind. change sizeof_dirent with 16. eapply readi_entry; [done|lia|]. intros t Ht.
  set (de := dirent_at bytes i) in *. cbn [fst snd]. change (negb (16 =? 16)) with false. cbv iota zeta.
  assert (Hde : length de = 16%nat) by (apply length_dirent_at; lia).
  assert (Hnext : ~ is_entry (cstrn 14 name) de -> wp (ret (S := fs S) (A := option (nat * Z)) None) (fun r s' =>
     wp (match r with Some v => ret (Some v) | None => for_until ((fun i : nat => Z.of_nat i * 16) <$> seq (Datatypes.S i) n) (look_entry name) end) Q s') (put_store t s)).
  { intros Hne. apply wp_ret. apply IH; [done|done|lia|]. cbn [list_find] in HQ. rewrite decide_False in HQ by done.
    destruct (list_find (is_entry (cstrn 14 name)) (dirent_at bytes <$> seq (Datatypes.S i) n)) as [[j de']|]; cbn in HQ |- *.
    - intros t' Ht'. specialize (HQ t' Ht'). by rewrite Nat.add_succ_r in HQ.
    - intros t' Ht'. exact (HQ t' Ht'). }
  destruct (Z.eqb_spec (de_inum de) 0) as [E0|E0]; [apply Hnext; by intros [? _]|].
  destruct (strncmp_total name (de_name de) 14 Hn) as [r Hr].
  { apply readable_length. unfold de_name, slice. rewrite length_take, length_drop. lia. }
  apply wp_bind. eapply wp_from_opt; [exact Hr|]. pose proof (strncmp_zero _ _ _ _ Hr) as Hz.
  destruct (Z.eqb_spec r 0) as [Er|Er]; [|apply Hnext; intros [_ ?]; naive_solver].
  cbn [list_find] in HQ. rewrite decide_True in HQ by (split; [done|naive_solver]). rewrite (ds_dev _ Hs).
  apply wp_bind. eapply wp_mono; [apply (HQ t Ht)|]. intros ip s' Hq. apply wp_ret, wp_ret. by rewrite Nat.add_0_r in Hq.
Qed.

(** [dirlookup] finds the first entry with the name and takes a reference to its
    inode. *)
Lemma dirlookup_wp s name (Q : option (nat * Z) -> fs S -> Prop) :
  dir_st s -> readable 14 name = true ->
  match dir_find (cstrn 14 name) bytes with
  | None => forall t, dir_st (put_store t s) -> Q None (put_store t s)
  | Some (j, de) => forall t, dir_st (put_store t s) ->
      wp (iget ROOTDEV (de_inum de)) (fun ip s' => Q (Some (ip, Z.of_nat j * 16)) s') (put_store t s)
  end -> wp (dirlookup devsw_read k name) Q s.
Proof using Hroom devsw_write.
  intros Hs Hn HQ. destruct (dir_length s Hs) as (Hl & H0 & _). unfold dirlookup. apply wp_bind.
  eapply wp_get_inode; [apply Hs|]. rewrite (ds_type _ Hs). change (negb (T_DIR =? T_DIR)) with false. cbv iota.
  rewrite dirent_offs_eq by (done || exact (ds_size _ Hs)). rewrite <- Hl. by apply scan_wp.
Qed.
End Lookup.

(** ** Linking a name *)

Lemma dirents_app a b m : length a = (16 * m)%nat -> dirents (a ++ b) = dirents a ++ dirents b.
Proof.
  intros Ha. unfold dirents. rewrite length_app, Ha. replace ((16 * m + length b) / 16)%nat with (m + length b / 16)%nat
    by (rewrite (Nat.add_comm (16 * m)), (Nat.mul_comm 16), Nat.div_add by done; lia).
  replace (16 * m / 16)%nat with m by (by rewrite (Nat.mul_comm 16), Nat.div_mul). rewrite seq_app, fmap_app. f_equal.
  - apply list_fmap_ext. intros i j Hj. apply lookup_seq in Hj as [-> Hj]. unfold dirent_at, slice.
    rewrite drop_app_le by lia. rewrite take_app_le; [done|]. rewrite length_drop. lia.
  - replace (seq (0 + m) (length b / 16)) with (Nat.add m <$> seq 0 (length b / 16)) by (rewrite fmap_add_seq; f_equal; lia).
    rewrite <- list_fmap_compose. apply list_fmap_ext. intros i j _. unfold dirent_at, slice, compose.
    rewrite drop_app_ge by lia. do 2 f_equal. lia.
Qed.

Lemma dirents_one e : length e = 16%nat -> dirents e = [e].
Proof. intros He. unfold dirents. rewrite He. change (dirent_at e <$> seq 0 (16 / 16)) with [take 16 (drop 0 e)]. by rewrite drop_0, take_ge by lia. Qed.

Lemma length_dirents b : length (dirents b) = (length b / 16)%nat.
Proof. unfold dirents. by rewrite length_fmap, length_seq. Qed.

(** Replacing entry [i], or adding one at the end. *)
Lemma dirents_splice bytes e i n : length bytes = (16 * n)%nat -> length e = 16%nat -> (i <= n)%nat ->
  exists old, dirents bytes = take i (dirents bytes) ++ old ++ drop (S i) (dirents bytes)
    /\ (old = [] /\ i = n \/ exists de, old = [de] /\ dirents bytes !! i = Some de)
    /\ dirents (splice (16 * i) e bytes) = take i (dirents bytes) ++ [e] ++ drop (S i) (dirents bytes).
Proof.
  intros Hb He Hi. set (A := take (16 * i) bytes). assert (HA : length A = (16 * i)%nat) by (unfold A; rewrite length_take; lia).
  assert (HdA : length (dirents A) = i) by (rewrite length_dirents, HA, (Nat.mul_comm 16); by apply Nat.div_mul).
  destruct (decide (i = n)) as [->|Hne].
  - exists []. assert (A = bytes) as EA by (unfold A; by rewrite take_ge by lia). rewrite EA in HdA.
    rewrite take_ge, (drop_ge (dirents bytes)) by lia. split; [by rewrite !app_nil_r|]. split; [by left|].
    unfold splice. rewrite drop_ge by lia. fold A. rewrite EA, app_nil_r, (dirents_app _ _ n Hb), (dirents_one e He). done.
  - set (M := dirent_at bytes i). set (B := drop (16 * i + 16) bytes). assert (HM : length M = 16%nat) by (apply length_dirent_at; lia).
    assert (E : bytes = A ++ M ++ B). { unfold A, M, B, dirent_at, slice. rewrite <- drop_drop, take_drop, take_drop. done. }
    assert (ED : dirents bytes = dirents A ++ [M] ++ dirents B) by (rewrite E, (dirents_app _ _ i HA), (dirents_app M B 1 HM), (dirents_one M HM); done).
    exists [M]. rewrite ED. rewrite take_app_length' by done.
    replace (drop (S i) (dirents A ++ [M] ++ dirents B)) with (dirents B)
      by (rewrite drop_app_ge by lia; rewrite HdA; replace (S i - i)%nat with 1%nat by lia; done).
    split; [done|]. split.
    + right. exists M. split; [done|]. rewrite lookup_app_r by lia. by rewrite HdA, Nat.sub_diag.
    + unfold splice. fold A. rewrite He. fold B. rewrite (dirents_app _ _ i HA), (dirents_app e B 1 He), (dirents_one e He). done.
Qed.

Lemma find_replaced {A} (P : A -> Prop) `{forall x, Decision (P x)} (l l1 l2 old : list A) (e : A) i :
  length l1 = i -> l = l1 ++ old ++ l2 -> (old = [] /\ l2 = [] \/ exists de, old = [de] /\ ~ P de) -> ~ P e ->
  list_find P (l1 ++ [e] ++ l2) = list_find P l.
Proof.
  intros Hl -> Hold He. destruct (list_find P l1) as [[j y]|] eqn:E1.
  { by rewrite !(list_find_app_l _ _ _ _ _ E1). }
  rewrite (list_find_app_r P l1 ([e] ++ l2)), (list_find_app_r P l1 (old ++ l2)) by done. f_equal. cbn. rewrite decide_False by done.
  destruct Hold as [[-> ->]|(de & -> & Hd)]; [done|]. cbn. by rewrite decide_False.
Qed.

(** The first free entry, or the one behind the last. *)
Definition free_slot (bytes : list Z) : nat :=
  match list_find (fun de => de_inum de = 0) (dirents bytes) with Some (i, _) => i | None => (length bytes / 16)%nat end.

Lemma free_slot_le bytes : (free_slot bytes <= length bytes / 16)%nat
  /\ forall de, dirents bytes !! free_slot bytes = Some de -> de_inum de = 0.
Proof.
  unfold free_slot. destruct (list_find _ _) as [[j de]|] eqn:E.
  - apply list_find_Some in E as (Hj & H0 & _). apply lookup_lt_Some in Hj as Hl. rewrite length_dirents in Hl.
    split; [lia|]. intros de' Hde. congruence.
  - split; [lia|]. intros de Hde. apply lookup_lt_Some in Hde. rewrite length_dirents in Hde. lia.
Qed.

(** The entry that [dirlink] stores. *)
Definition new_entry (inum : Z) (name : list Z) : list Z :=
  mk_dirent inum (cstrn 14 name ++ replicate (14 - length (cstrn 14 name)) 0).

Lemma new_entry_ok inum name : 0 < inum < 65536 -> length (new_entry inum name) = 16%nat
  /\ de_inum (new_entry inum name) = inum /\ cstrn 14 (de_name (new_entry inum name)) = cstrn 14 name.
Proof.
  intros Hi. pose proof (cstrn_length 14 name) as Hl. unfold new_entry, mk_dirent. split_and!.
  - rewrite !length_app, length_le_bytes, length_replicate. lia.
  - unfold de_inum, get_le, slice. rewrite drop_0, take_app_length' by (by rewrite length_le_bytes). rewrite le_val_bytes; unfold u16; [mlia|]. change (256 ^ Z.of_nat 2) with 65536. mlia.
  - unfold de_name, slice. rewrite drop_app_length' by (by rewrite length_le_bytes). rewrite take_ge by (rewrite !length_app, length_replicate; lia).
    rewrite <- (app_nil_r (replicate _ 0)). apply cstrn_app_zero; [apply cstrn_nonzero|done].
Qed.

Lemma new_entry_bytes inum name : Forall is_byte (cstrn 14 name) -> Forall is_byte (new_entry inum name).
Proof.
  intros Hn. unfold new_entry, mk_dirent. rewrite !Forall_app. split; [apply le_bytes_byte|].
  split; [done|]. by apply Forall_replicate.
Qed.

(** After the entry is stored, its name is found there and the others as before. *)
Lemma dir_find_linked bytes inum name n : length bytes = (16 * n)%nat -> 0 < inum < 65536 -> dir_find (cstrn 14 name) bytes = None ->
  let bytes' := splice (16 * free_slot bytes) (new_entry inum name) bytes in
  dir_find (cstrn 14 name) bytes' = Some (free_slot bytes, new_entry inum name)
  /\ forall nm, nm ≠ cstrn 14 name -> dir_find nm bytes' = dir_find nm bytes.
Proof.
  intros Hb Hi Hnone bytes'. destruct (new_entry_ok inum name Hi) as (E1 & E2 & E3). set (e := new_entry inum name) in *. set (i := free_slot bytes) in *.
  assert (Hn : (length bytes / 16 = n)%nat) by (rewrite Hb, (Nat.mul_comm 16); by apply Nat.div_mul).
  destruct (free_slot_le bytes) as [Hin Hfree]. fold i in Hin, Hfree. rewrite Hn in Hin. destruct (dirents_splice bytes e i n Hb E1 Hin) as (old & D1 & D2 & D3). fold bytes' in D3.
  assert (Hli : length (take i (dirents bytes)) = i) by (rewrite length_take, length_dirents; lia). unfold dir_find in *. rewrite D3. split.
  - rewrite list_find_app_r.
    + cbn [list_find app]. rewrite decide_True by (split; [rewrite E2; lia|done]). cbn [fmap option_fmap option_map prod_map fst snd]. rewrite Hli. done.
    + apply list_find_None. apply Forall_take. by apply list_find_None in Hnone.
  - intros nm Hnm. apply (find_replaced _ (dirents bytes) _ _ old _ i Hli D1).
    + destruct D2 as [[-> ->]|(de & -> & Hde)]; [left; split; [done|]; apply drop_ge; rewrite length_dirents; lia|].
      right. exists de. split; [done|]. intros [H0 _]. by apply H0, Hfree.
    + intros [_ E]. by rewrite E3 in E.
Qed.

(** The offset of the first free entry, and an entry to write the name into. *)
Lemma find_empty_wp {S} `{TxStore S} c V L k x (Hroom : room ∅ L 0) devsw_read n :
  forall (s : fs S) i de0 (Q : Z * list Z -> fs S -> Prop), let bytes := file_bytes V (i_d x) in
  dir_st c V L k x s -> length de0 = 16%nat -> (i + n = length bytes / 16)%nat ->
  (forall t de, dir_st c V L k x (put_store t s) -> length de = 16%nat ->
     Q (Z.of_nat (match list_find (fun de => de_inum de = 0) (dirent_at bytes <$> seq i n) with
                  | Some (j, _) => i + j | None => i + n end) * 16, de) (put_store t s)) ->
  wp (find_empty devsw_read k ((fun i : nat => Z.of_nat i * 16) <$> seq i n) (Z.of_nat i * 16) de0) Q s.
Proof.
  induction n as [|n IH]; intros s i de0 Q bytes Hs Hd Hi HQ; cbn [seq fmap list_fmap find_empty].
  { apply wp_ret. replace s with (put_store (f_store s) s) by (by destruct s). cbn in HQ. rewrite Nat.add_0_r in HQ.
    apply HQ; [by destruct s|done]. }
  destruct (dir_length c V L k x s Hs) as (_ & _ & Hl). fold bytes in Hl. apply wp_bind. change sizeof_dirent with 16.
  eapply (readi_entry c V L k x Hroom devsw_read (fun _ => None)); [done|fold bytes; lia|]. intros t Ht. fold bytes.
  set (de := dirent_at bytes i) in *. assert (Hde : length de = 16%nat) by (apply length_dirent_at; lia).
  cbn [fst snd]. change (negb (16 =? 16)) with false. cbv iota. destruct (Z.eqb_spec (de_inum de) 0) as [E0|E0].
  - apply wp_ret. cbn [seq fmap list_fmap list_find] in HQ. rewrite decide_True in HQ by done. rewrite Nat.add_0_r in HQ. by apply HQ.
  - replace (Z.of_nat i * 16 + 16) with (Z.of_nat (Datatypes.S i) * 16) by lia. apply IH; [done|done|fold bytes; lia|]. intros t' de' Ht' Hde'. fold bytes.
    specialize (HQ t' de' Ht' Hde'). cbn [seq fmap list_fmap list_find] in HQ. rewrite decide_False in HQ by done.
    destruct (list_find (fun de => de_inum de = 0) (dirent_at bytes <$> seq (Datatypes.S i) n)) as [[j y]|]; cbn in HQ |- *;
      rewrite Nat.add_succ_r in HQ; exact HQ.
Qed.

(** Writing an entry of the directory. *)
Lemma writei_entry {S} `{TxStore S} c V L k x (s : fs S) devsw_write i e :
  open_file s c V L k x -> i_size x mod 16 = 0 -> i_size x + 16 <= MAXBYTES -> 16 * Z.of_nat i <= i_size x ->
  length e = 16%nat -> Forall is_byte e -> (2 <= size (free_blocks (f_sb s) V))%nat -> (size L + 9 <= log_capacity)%nat ->
  wp (writei devsw_write k e (Z.of_nat i * 16) sizeof_dirent) (fun r s' => r = 16 /\ exists V' d' L', holds s' c V' ∅ L'
    /\ (f_icache s' = <[k := set_d d' x]> (f_icache s) /\ f_sb s' = f_sb s /\ f_ut s' = f_ut s /\ f_cur s' = f_cur s)
    /\ written (f_sb s) x V (i_d x) V' d' (16 * Z.of_nat i) e /\ (size L' <= size L + 4)%nat
    /\ (size (free_blocks (f_sb s) V) <= size (free_blocks (f_sb s) V') + 2)%nat) s.
Proof.
  intros Ho Hm Hmax Hi He Hby Hfree Hlog. destruct (open_file_st _ _ _ _ _ _ Ho) as [Hst Hip].
  destruct Ho as [Hly Hop _ Hme _ Hdev Hin Hok [Hd Hc] Ht]. rewrite Z.mul_comm. change sizeof_dirent with 16. unfold i_size in *.
  eapply wp_mono; [apply (writei_wp c (f_sb s) Hly Hop (f_icache s) (f_ut s) (f_cur s) k x Hip Hdev Hin devsw_write s (i_d x) V L e (16 * Z.of_nat i) 16 1); try done|].
  - lia.
  - unfold zlen. lia.
  - lia.
  - unfold BSIZE. mlia.
  - lia.
  - intros r s' (-> & V' & d' & L' & [E1 E2 E3 E4 Hh'] & HW & Hsz & Hfr). split; [done|]. exists V', d', L'.
    rewrite take_ge in HW by (change (Z.to_nat 16) with 16%nat; lia). split_and!; try done; lia.
Qed.

(** [dirlink] of a new name, with the rest of the state. *)
Lemma dirlink_spec {S} `{TxStore S} (s : fs S) c V L k x devsw_read devsw_write name inum :
  let bytes := file_bytes V (i_d x) in
  open_file s c V L k x -> i_type x = T_DIR -> i_size x mod 16 = 0 -> i_size x + 16 <= MAXBYTES ->
  0 < inum < 65536 -> readable 14 name = true -> Forall is_byte (cstrn 14 name) -> dir_find (cstrn 14 name) bytes = None ->
  (2 <= size (free_blocks (f_sb s) V))%nat -> (size L + 9 <= log_capacity)%nat ->
  wp (dirlink devsw_read devsw_write k name inum) (fun r s' => r = 0 /\ exists V' d' L', holds s' c V' ∅ L'
    /\ (f_icache s' = <[k := set_d d' x]> (f_icache s) /\ f_sb s' = f_sb s /\ f_ut s' = f_ut s /\ f_cur s' = f_cur s)
    /\ (size L' <= size L + 4)%nat /\ (size (free_blocks (f_sb s) V) <= size (free_blocks (f_sb s) V') + 2)%nat
    /\ written (f_sb s) x V (i_d x) V' d' (16 * Z.of_nat (free_slot bytes)) (new_entry inum name)
    /\ file_bytes V' d' = splice (16 * free_slot bytes) (new_entry inum name) bytes
    /\ dir_find (cstrn 14 name) (file_bytes V' d') = Some (free_slot bytes, new_entry inum name)
    /\ forall nm, nm ≠ cstrn 14 name -> dir_find nm (file_bytes V' d') = dir_find nm bytes) s.
Proof.
  intros bytes Ho Ht Hm Hmax Hi Hn Hby Hnone Hfree Hlog. pose proof Ho as [Hly Hop Hh Hme Hca Hdev Hin Hok Hd Hty].
  assert (Hroom : room ∅ L 0) by (split; [lia|rewrite map_size_empty; lia]).
  assert (Hds : dir_st c V L k x s) by (by split). destruct (dir_length c V L k x s Hds) as (Hlen & H0 & Hl16). fold bytes in Hlen, Hl16.
  destruct (new_entry_ok inum name Hi) as (E1 & E2 & E3). set (e := new_entry inum name) in *. set (i := free_slot bytes) in *.
  unfold dirlink. apply wp_bind. eapply (dirlookup_wp c V L k x Hroom devsw_read devsw_write); [done|done|]. fold bytes. rewrite Hnone.
  intros t Ht1. apply wp_bind. eapply wp_get_inode; [apply (ds_cached _ _ _ _ _ _ Ht1)|]. apply wp_bind.
  rewrite dirent_offs_eq by done. rewrite <- Hlen. change 0 with (Z.of_nat 0 * 16) at 1.
  eapply (find_empty_wp c V L k x Hroom); [exact Ht1|done|done|]. intros t2 de Ht2 Hde. fold bytes. cbn [fst snd].
  assert (Hdn : length (de_name de) = 14%nat) by (unfold de_name, slice; rewrite length_take, length_drop; lia).
  apply wp_bind. eapply wp_from_opt; [apply strncpy_spec; [rewrite Hdn; done|done]|]. change (Z.to_nat DIRSIZ) with 14%nat.
  rewrite (drop_ge (de_name de)), app_nil_r by lia. fold (new_entry inum name). fold e.
  match goal with |- context [Z.of_nat ?m * 16] => replace m with i by (unfold i, free_slot, dirents; by destruct (list_find _ _) as [[]|]) end.
  apply wp_bind. eapply wp_mono; [apply (writei_entry c V L k x); cbn [f_sb f_icache put_store]; try done|].
  { destruct Ht2. by split. }
  { pose proof (proj1 (free_slot_le bytes)). fold i in H1. lia. }
  { by apply new_entry_bytes. }
  intros r s' (-> & V' & d' & L' & Hh' & (G1 & G2 & G3 & G4) & HW & Hsz & Hfr). apply wp_ret. split; [done|]. exists V', d', L'.
  destruct (dir_find_linked bytes inum name _ (eq_sym Hl16) Hi Hnone) as [F1 F2]. fold i e in F1, F2.
  assert (EB : file_bytes V' d' = splice (16 * i) e bytes) by (rewrite (wn_bytes _ _ _ _ _ _ _ _ HW); fold bytes; f_equal; lia).
  rewrite EB. split_and!; done.
Qed.

(** [dirlink] of a name the directory does not have stores it in the first free
    entry (which may be a new one at the end), so that a lookup of the name finds
    it with its inode, a lookup of any other name finds what it found before, and
    nothing else on the disk changes. *)
Theorem dirlink_correct {S} `{TxStore S} (s : fs S) c V L k x devsw_read devsw_write name inum :
  let bytes := file_bytes V (i_d x) in
  open_file s c V L k x -> i_type x = T_DIR -> i_size x mod 16 = 0 -> i_size x + 16 <= MAXBYTES ->
  0 < inum < 65536 -> readable 14 name = true -> Forall is_byte name -> dir_find (cstrn 14 name) bytes = None ->
  (2 <= size (free_blocks (f_sb s) V))%nat -> (size L + 9 <= log_capacity)%nat ->
  exists s' V' d' L', dirlink devsw_read devsw_write k name inum s = Ok 0 s'
    /\ holds s' c V' ∅ L' /\ f_icache s' = <[k := set_d d' x]> (f_icache s) /\ (size L' <= size L + 4)%nat
    /\ written (f_sb s) x V (i_d x) V' d' (16 * Z.of_nat (free_slot bytes)) (new_entry inum name)
    /\ dir_find (cstrn 14 name) (file_bytes V' d') = Some (free_slot bytes, new_entry inum name)
    /\ forall nm, nm ≠ cstrn 14 name -> dir_find nm (file_bytes V' d') = dir_find nm bytes.
Proof.
  intros bytes Ho Ht Hm Hmax Hi Hn Hby Hnone Hfree Hlog.
  pose proof (dirlink_spec s c V L k x devsw_read devsw_write name inum Ho Ht Hm Hmax Hi Hn (cstrn_bytes 14 name Hby) Hnone Hfree Hlog) as Hwp.
  apply wp_Ok in Hwp as (r & s' & Hrun & -> & V' & d' & L' & Hh' & (Hic & _) & Hsz & _ & HW & _ & F1 & F2). exists s', V', d', L'. split_and!; done.
Qed.
