(* ===== verification/Names.v ===== *)
(** * Path names: [namex], [namei] and [nameiparent]

    The walk of [namex] through the inode cache, the inode locks and the directory
    blocks returns the inode that the path names on the disk, with one reference to
    it, and leaves every other reference as it was. *)

From S2P Require Import Prelude KMonad CString Params Bio BioSpec Log LogSpec Crash LogOps Users Store Fs FsSpec FileSpec Dinode Content ReadWrite Paths ICache Dirs.

(** The permission to search a directory. *)
Definition may_search (cur : curproc) (d : dinode) : bool :=
  has_execute_permission cur (mkInode 0 0 0 initsleeplock true d).

(** What a path means: the inode reached from inode [i] by the components [es], or
    by all but the last one for [nameiparent]. *)
Fixpoint resolve (sb : superblock) (V : Z -> list Z) (cur : curproc) (parent : bool) (i : Z) (es : list (list Z)) : option Z :=
  match es with
  | [] => if parent then None else Some i
  | e :: es' =>
      let d := disk_inode sb V i in
      if negb (d_type d =? T_DIR) then None
      else if negb (may_search cur d) then None
      else if parent && bool_decide (es' = []) then Some i
      else match dir_find (take 14 e) (file_bytes V d) with
           | Some (_, de) => resolve sb V cur parent (de_inum de) es'
           | None => None
           end
  end.

(** Directories are files of whole entries, which name inodes in use with a link. *)
Definition tree_ok (sb : superblock) (V : Z -> list Z) : Prop :=
  forall i, 0 <= i < sb_ninodes sb -> d_type (disk_inode sb V i) = T_DIR ->
    file_ok sb V (disk_inode sb V i) /\ d_size (disk_inode sb V i) mod 16 = 0
    /\ forall de, de ∈ dirents (file_bytes V (disk_inode sb V i)) -> de_inum de ≠ 0 ->
         live sb V (de_inum de) /\ d_nlink (disk_inode sb V (de_inum de)) ≠ 0.

Lemma less_more k f j : less k (more k f) j = f j.
Proof. unfold less, more. lia. Qed.

Section Walk.
Context {S : Type} `{TxStore S}.
Context (c : tx) (sb : superblock) (V : Z -> list Z) (L : gset Z) (ic : list inode) (ut : utab) (cur : curproc).
Hypothesis Hly : layout_ok sb c.
Hypothesis Hroom : room ∅ L 0.
Hypothesis Htree : tree_ok sb V.
Context (devsw_read : Z -> option (nat -> Z -> M (fs S) (Z * list Z))).

(** The state between calls: [f] counts the references taken, the entries [lk] are locked. *)
Record walk_st (s : fs S) (lk : gset nat) (f : nat -> Z) : Prop := {
  wk_sb : f_sb s = sb;
  wk_ut : f_ut s = ut;
  wk_cur : f_cur s = cur;
  wk_holds : holds s c V ∅ L;
  wk_cache : cache sb V lk f ic (f_icache s) }.

(** A reference to entry [k], which is inode [i]; if it is the only one the inode
    has a link. *)
Record at_inode (s : fs S) (k : nat) (i : Z) (x : inode) : Prop := {
  at_slot : f_icache s !! k = Some x;
  at_inum : i_inum x = i;
  at_ref : 0 < i_ref x;
  at_link : d_nlink (disk_inode sb V i) ≠ 0 \/ exists y, ic !! k = Some y /\ 0 < i_ref y }.

(** The locked directory as the theorems on directories want it. *)
Lemma walk_dir s k i r : walk_st s {[k]} (more k no_ref) -> live sb V i ->
  f_icache s !! k = Some (locked_inode sb V (c_pid cur) i r) -> d_type (disk_inode sb V i) = T_DIR ->
  dir_st c V L k (locked_inode sb V (c_pid cur) i r) s.
Proof using Hly Htree.
  intros Hs [Hi _] Hk Ht. destruct (Htree i Hi Ht) as (T1 & T2 & _). pose proof (wk_sb _ _ _ Hs) as Es. split; rewrite ?Es; try done. apply Hs.
Qed.

(** [iunlockput] of the reference gives it back. *)
Lemma iunlockput_wp s lk f k i r (Q : unit -> fs S -> Prop) :
  walk_st s lk f -> f_icache s !! k = Some (locked_inode sb V (c_pid cur) i r) -> 0 < r -> 1 <= f k ->
  (d_nlink (disk_inode sb V i) ≠ 0 \/ exists y, ic !! k = Some y /\ 0 < i_ref y) ->
  (forall ic2, walk_st (put_ic ic2 s) (lk ∖ {[k]}) (less k f) ->
     ic2 = <[k := set_ref (r - 1) (set_ilock initsleeplock (locked_inode sb V (c_pid cur) i r))]> (f_icache s) -> Q tt (put_ic ic2 s)) ->
  wp (iunlockput k) Q s.
Proof using.
  intros [W1 Wu W2 W3 W4] Hk Hr Hf Hlink HQ. unfold iunlockput. apply wp_bind.
  eapply (iunlock_wp sb V); [exact W4|exact Hk|done|by rewrite W2|]. intros ic2 HC2 E2.
  pose proof (lookup_lt_Some _ _ _ Hk) as Hkl. assert (Hk2 : ic2 !! k = Some (set_ilock initsleeplock (locked_inode sb V (c_pid cur) i r))) by (rewrite E2; by apply list_lookup_insert_eq).
  eapply (iput_wp sb V); [exact HC2|apply now_unlocked|exact Hk2|done|done| |].
  - cbn. intros E1. destruct Hlink as [?|(y & Hy & Hy0)]; [done|].
    destruct (ca_ref _ _ _ _ _ _ HC2 _ _ _ Hy Hk2) as (E & _). cbn in E. lia.
  - intros ic3 HC3 E3. apply HQ; [by split|]. rewrite E3. cbn [f_icache put_ic]. rewrite E2. apply list_insert_insert_eq.
Qed.

(** What [namex] returns. *)
Definition namex_post (parent : bool) (es : list (list Z)) (res : option Z) (r : option (nat * list Z)) (s' : fs S) : Prop :=
  match res with
  | None => r = None /\ walk_st s' ∅ no_ref
  | Some i => exists k name x, r = Some (k, name) /\ walk_st s' ∅ (more k no_ref) /\ at_inode s' k i x
      /\ (parent = true -> exists e, last es = Some e /\ cstrn 14 name = take 14 e /\ length name = 14%nat)
  end.

Lemma walk_ext s lk f g : (forall j, f j = g j) -> walk_st s lk f -> walk_st s lk g.
Proof using. intros E [? ? ? ? ?]. split; try done. by eapply cache_ext. Qed.

(** The path is used up. *)
Lemma end_wp (parent : bool) s k i x name : walk_st s ∅ (more k no_ref) -> at_inode s k i x ->
  wp (if parent then iput k ;;; ret None else ret (Some (k, name))) (namex_post parent [] (if parent then None else Some i)) s.
Proof using.
  intros Hs Hat. pose proof Hs as [W1 Wu W2 W3 W4]. destruct Hat as [A1 A2 A3 A4]. destruct parent.
  - apply wp_bind. eapply (iput_wp sb V); [exact W4|apply not_elem_of_empty|exact A1|done| | |].
    + unfold more, no_ref, one_ref. rewrite decide_True by done. lia.
    + intros E1. rewrite A2. destruct A4 as [?|(y & Hy & Hy0)]; [done|]. destruct (ca_ref _ _ _ _ _ _ W4 _ _ _ Hy A1) as (E & _).
      unfold more, no_ref, one_ref in E. rewrite decide_True in E by done. lia.
    + intros ic2 HC2 _. apply wp_ret. split; [done|]. eapply walk_ext; [apply less_more|]. by split.
  - apply wp_ret. exists k, name, x. done.
Qed.

Lemma at_live s k i x f : walk_st s ∅ f -> at_inode s k i x -> live sb V i.
Proof using.
  intros Hs [A1 <- A3 _]. apply (so_use _ _ _ _ _ (ca_slot _ _ _ _ _ _ (wk_cache _ _ _ Hs) _ _ A1) A3).
Qed.

Lemma more_one k : 1 <= more k no_ref k.
Proof using. unfold more, no_ref, one_ref. rewrite decide_True by done. lia. Qed.

(** The search fails at a locked directory. *)
Lemma fail_wp parent es s k i r : walk_st s {[k]} (more k no_ref) -> f_icache s !! k = Some (locked_inode sb V (c_pid cur) i r) ->
  0 < r -> (d_nlink (disk_inode sb V i) ≠ 0 \/ exists y, ic !! k = Some y /\ 0 < i_ref y) ->
  wp (iunlockput k ;;; ret None) (namex_post parent es None) s.
Proof using.
  intros Hs Hk Hr Hlink. apply wp_bind. eapply iunlockput_wp; [done|done|done|apply more_one|done|].
  intros ic2 Hs2 _. rewrite unlock_one in Hs2. apply wp_ret. split; [done|]. by eapply walk_ext; [apply less_more|].
Qed.

Lemma at_end_elems l rest es : nonzero l -> head l ≠ Some SLASH -> elems l = es ->
  at_end (string_bytes l rest) = Some (bool_decide (es = [])).
Proof using.
  intros Hl Hh He. destruct l as [|ch l].
  - subst es. done.
  - inversion Hl. cbn. rewrite (proj2 (Z.eqb_neq _ _)) by done. rewrite bool_decide_false; [done|]. intros ->. by apply elems_nil in He.
Qed.

(** The next inode is still referenced after the directory is given back. *)
Lemma at_after s k k2 i i2 r y ic4 :
  walk_st s {[k]} (more k2 (more k no_ref)) -> f_icache s !! k = Some (locked_inode sb V (c_pid cur) i r) -> at_inode s k2 i2 y ->
  walk_st (put_ic ic4 s) ∅ (less k (more k2 (more k no_ref))) ->
  ic4 = <[k := set_ref (r - 1) (set_ilock initsleeplock (locked_inode sb V (c_pid cur) i r))]> (f_icache s) ->
  exists y', walk_st (put_ic ic4 s) ∅ (more k2 no_ref) /\ at_inode (put_ic ic4 s) k2 i2 y'.
Proof using.
  intros Hs Hk [B1 B2 B3 B4] Hs4 E4. pose proof (lookup_lt_Some _ _ _ Hk) as Hkl.
  assert (Hs5 : walk_st (put_ic ic4 s) ∅ (more k2 no_ref)) by (eapply walk_ext; [|exact Hs4]; intros j; unfold less, more; lia).
  assert (Hpos : forall z, ic4 !! k2 = Some z -> 0 < i_ref z).
  { intros z Hz. pose proof (wk_cache _ _ _ Hs5) as HC. cbn in HC. destruct (lookup_lt_is_Some_2 ic k2) as [w Hw].
    - rewrite <- (ca_len _ _ _ _ _ _ HC). by eapply lookup_lt_Some.
    - destruct (ca_ref _ _ _ _ _ _ HC _ _ _ Hw Hz) as (E & ? & _). pose proof (more_one k2). lia. }
  destruct (decide (k2 = k)) as [->|Hne].
  - assert (Hz : ic4 !! k = Some (set_ref (r - 1) (set_ilock initsleeplock (locked_inode sb V (c_pid cur) i r)))) by (rewrite E4; by apply list_lookup_insert_eq).
    rewrite Hk in B1. injection B1 as <-. eexists. split; [done|]. split; [exact Hz|exact B2|by apply Hpos|exact B4].
  - assert (Hz : ic4 !! k2 = Some y) by (rewrite E4; by rewrite list_lookup_insert_ne by done).
    eexists. split; [done|]. by split; [exact Hz|..].
Qed.

Lemma post_cons (parent : bool) e es res r s' : (parent && bool_decide (es = [])) = false ->
  namex_post parent es res r s' -> namex_post parent (e :: es) res r s'.
Proof using.
  intros Ep Hp. destruct res as [i|]; [|done]. destruct Hp as (k & name & x & H1 & H2 & H3 & H4). exists k, name, x. split_and!; try done.
  intros Epar. destruct (H4 Epar) as (e' & He' & Hn'). exists e'. split; [|done]. destruct es; [by rewrite Epar in Ep|done].
Qed.

(** Two free entries of the cache. *)
Context (j1 j2 : nat) (x1 x2 : inode).
Hypothesis Hj : j1 ≠ j2 /\ ic !! j1 = Some x1 /\ ic !! j2 = Some x2 /\ i_ref x1 = 0 /\ i_ref x2 = 0.

Lemma free_entry s lk k : walk_st s lk (more k no_ref) -> exists j x, f_icache s !! j = Some x /\ i_ref x = 0.
Proof using Hj.
  intros Hs. destruct Hj as (Hne & E1 & E2 & R1 & R2). pose proof (wk_cache _ _ _ Hs) as HC.
  assert (Hgo : forall j y, ic !! j = Some y -> i_ref y = 0 -> j ≠ k -> exists j x, f_icache s !! j = Some x /\ i_ref x = 0).
  { intros j y Hy H0 Hjk. destruct (lookup_lt_is_Some_2 (f_icache s) j) as [y' Hy'].
    - rewrite (ca_len _ _ _ _ _ _ HC). by eapply lookup_lt_Some.
    - exists j, y'. split; [done|]. destruct (ca_ref _ _ _ _ _ _ HC _ _ _ Hy Hy') as [E _]. rewrite E. unfold more, no_ref, one_ref.
      rewrite decide_False by done. lia. }
  destruct (decide (j1 = k)) as [->|H1]; [by apply (Hgo j2 x2)|by apply (Hgo j1 x1)].
Qed.

(** The lookup of one component gives the next inode. *)
Lemma step_wp s k i r nm (Q : option (nat * Z) -> fs S -> Prop) : let d := disk_inode sb V i in
  walk_st s {[k]} (more k no_ref) -> f_icache s !! k = Some (locked_inode sb V (c_pid cur) i r) -> live sb V i ->
  0 < r -> d_type d = T_DIR -> length nm = 14%nat ->
  match dir_find (cstrn 14 nm) (file_bytes V d) with
  | None => forall t, walk_st (put_store t s) {[k]} (more k no_ref) -> Q None (put_store t s)
  | Some (_, de) => forall s' k2 r2 off y, walk_st s' {[k]} (more k2 (more k no_ref)) ->
      f_icache s' !! k = Some (locked_inode sb V (c_pid cur) i r2) -> r <= r2 ->
      at_inode s' k2 (de_inum de) y -> Q (Some (k2, off)) s'
  end -> wp (dirlookup devsw_read k nm) Q s.
Proof using Hly Hroom Htree Hj.
  intros d Hs Hk Hi Hr Ht Hnm HQ. pose proof (walk_dir _ _ _ _ Hs Hi Hk Ht) as Hd.
  eapply (dirlookup_wp c V L k _ Hroom devsw_read (fun _ => None)); [exact Hd|apply readable_length; lia|]. cbn [i_d locked_inode]. fold d.
  destruct (dir_find (cstrn 14 nm) (file_bytes V d)) as [[j de]|] eqn:Ef.
  - intros t Ht2. assert (Hs2 : walk_st (put_store t s) {[k]} (more k no_ref)) by (destruct Hs; destruct Ht2; by split).
    apply list_find_Some in Ef as (Hj' & [E0 _] & _). destruct (Htree i (proj1 Hi) Ht) as (_ & _ & Hde). fold d in Hde.
    destruct (Hde de (list_elem_of_lookup_2 _ _ _ Hj') E0) as [Hlive Hlink].
    eapply (iget_wp sb V); [apply Hs2|done|by apply (free_entry _ _ k Hs2)|]. intros k2 y ic2 HC2 Hk2 Hin Hr2 Hkeep.
    destruct (Hkeep k _ Hk Hr) as (r2 & Hk' & Hle).
    eapply (HQ _ k2 r2 _ y); [|exact Hk'|exact Hle|].
    + destruct Hs2. by split.
    + split; [done|done|done|by left].
  - intros t Ht2. apply HQ. destruct Hs, Ht2. by split.
Qed.

Lemma namex_loop_wp parent fuel : forall s k i x l rest name,
  walk_st s ∅ (more k no_ref) -> at_inode s k i x -> nonzero l -> length name = 14%nat -> (length l <= fuel)%nat ->
  wp (namex_loop devsw_read fuel k (string_bytes l rest) parent name)
     (namex_post parent (elems l) (resolve sb V cur parent i (elems l))) s.
Proof using Hly Hroom Htree Hj.
  induction fuel as [|fuel IH]; intros s k i x l rest name Hs Hat Hl Hn Hfu.
  all: pose proof (skipelem_step l rest name Hl Hn) as Hstep.
  all: destruct (elems l) as [|e es] eqn:Ees; cbn [namex_loop resolve].
  all: try (apply wp_bind; eapply wp_from_opt; [exact Hstep|]; by apply (end_wp _ _ _ _ x)).
  all: destruct Hstep as (l' & name' & Hsk & Hl' & Hlt & Ees' & Hhd & Hn' & Hc); try lia.
  apply wp_bind. eapply wp_from_opt; [exact Hsk|]. pose proof (at_live _ _ _ _ _ Hs Hat) as Hlive. pose proof Hat as [A1 A2 A3 A4].
  apply wp_bind. eapply (ilock_wp c sb V L Hly Hroom); [apply Hs|apply not_elem_of_empty|exact A1|exact A3|apply Hs|apply Hs|]. rewrite A2, (wk_cur _ _ _ Hs).
  intros t ic2 HC2 Hk2 _ Hh2. rewrite lock_one in HC2. set (s2 := put_store t (put_ic ic2 s)) in *. set (d := disk_inode sb V i) in *. set (r := i_ref x) in *.
  assert (Hs2 : walk_st s2 {[k]} (more k no_ref)) by (destruct Hs; by split).
  apply wp_bind. eapply wp_get_inode; [exact Hk2|]. apply wp_bind, wp_gets. rewrite (wk_cur _ _ _ Hs2).
  change (i_type (locked_inode sb V (c_pid cur) i r)) with (d_type d).
  change (has_execute_permission cur (locked_inode sb V (c_pid cur) i r)) with (may_search cur d).
  destruct (Z.eqb_spec (d_type d) T_DIR) as [Et|Et]; cbn [negb]; [|by eapply fail_wp].
  destruct (may_search cur d); cbn [negb]; [|by eapply fail_wp].
  apply wp_bind. eapply wp_from_opt; [by eapply at_end_elems|]. destruct (parent && bool_decide (es = [])) eqn:Ep.
  - apply andb_prop in Ep as [-> Ee]. apply bool_decide_eq_true in Ee as ->. apply wp_bind.
    eapply (iunlock_wp sb V); [apply Hs2|exact Hk2|done|by rewrite (wk_cur _ _ _ Hs2)|]. intros ic3 HC3 E3. rewrite unlock_one in HC3. apply wp_ret.
    assert (Hk3 : ic3 !! k = Some (set_ilock initsleeplock (locked_inode sb V (c_pid cur) i r)))
      by (rewrite E3; apply list_lookup_insert_eq; by eapply lookup_lt_Some).
    eexists k, name', _. split; [done|]. split; [destruct Hs2; by split|]. split; [split; [exact Hk3|done|done|done]|]. intros _. by exists e.
  - apply wp_bind. rewrite <- Hc. eapply step_wp; [exact Hs2|exact Hk2|done|done|done|done|]. fold d.
    destruct (dir_find (cstrn 14 name') (file_bytes V d)) as [[j de]|].
    + intros s3 k2 r2 off y Hs3 Hk3 Hr2 Hat2. apply wp_bind. eapply iunlockput_wp; [exact Hs3|exact Hk3|lia| |exact A4|].
      { unfold more at 1. pose proof (more_one k). unfold one_ref. case_decide; lia. }
      intros ic4 Hs4 E4. rewrite unlock_one in Hs4. destruct (at_after _ _ _ _ _ _ _ _ Hs3 Hk3 Hat2 Hs4 E4) as (y' & Hs5 & Hat5).
      rewrite <- Ees' in Ep |- *. eapply wp_mono; [apply (IH _ k2 (de_inum de) y'); [done..|lia]|]. intros res s5. by apply post_cons.
    + intros t3 Hs3. eapply fail_wp; [exact Hs3|exact Hk2|done|exact A4].
Qed.
End Walk.

(** ** The theorem *)

(** A process in a file-system call: the cache holds what others refer to, none of
    it locked, and two entries are free. *)
Record names_ready {S} `{TxStore S} (s : fs S) (c : tx) (V : Z -> list Z) (L : gset Z) : Prop := {
  nr_layout : layout_ok (f_sb s) c;
  nr_room : room ∅ L 0;
  nr_holds : holds s c V ∅ L;
  nr_tree : tree_ok (f_sb s) V;
  nr_root : live (f_sb s) V ROOTINO /\ d_nlink (disk_inode (f_sb s) V ROOTINO) ≠ 0;
  nr_cache : cache (f_sb s) V ∅ no_ref (f_icache s) (f_icache s);
  nr_free : exists j1 j2 x1 x2, j1 ≠ j2 /\ f_icache s !! j1 = Some x1 /\ f_icache s !! j2 = Some x2 /\ i_ref x1 = 0 /\ i_ref x2 = 0 }.

(** The inode a path starts at: the root, or the working directory. *)
Definition start_at {S} (s : fs S) (l : list Z) (i : Z) : Prop :=
  if bool_decide (head l = Some SLASH) then i = ROOTINO
  else exists k x, c_cwd (f_cur s) = Some k /\ f_icache s !! k = Some x /\ 0 < i_ref x /\ i_inum x = i.

Lemma namex_spec {S} `{TxStore S} (s : fs S) c V L devsw_read (parent : bool) l rest name i :
  names_ready s c V L -> start_at s l i -> nonzero l -> length name = Z.to_nat DIRSIZ ->
  exists r s', namex devsw_read (string_bytes l rest) parent name s = Ok r s'
    /\ namex_post c (f_sb s) V L (f_icache s) (f_ut s) (f_cur s) parent (elems l) (resolve (f_sb s) V (f_cur s) parent i (elems l)) r s'.
Proof.
  intros [N1 N2 N3 N4 [N5 N5'] N6 (j1 & j2 & x1 & x2 & Hj)] Hst Hl Hn. apply wp_Ok. unfold namex.
  assert (Hloop : forall s1 k x, walk_st c (f_sb s) V L (f_icache s) (f_ut s) (f_cur s) s1 ∅ (more k no_ref) ->
    at_inode (f_sb s) V (f_icache s) s1 k i x ->
    wp (namex_loop devsw_read (length (string_bytes l rest)) k (string_bytes l rest) parent name)
       (namex_post c (f_sb s) V L (f_icache s) (f_ut s) (f_cur s) parent (elems l) (resolve (f_sb s) V (f_cur s) parent i (elems l))) s1).
  { intros s1 k x Hs1 Hat. eapply (namex_loop_wp c (f_sb s) V L _ _ _ N1 N2 N4 devsw_read j1 j2 x1 x2 Hj); [done|done|done|done|].
    unfold string_bytes. rewrite length_app. lia. }
  assert (Hhd : head (string_bytes l rest) = Some (match l with [] => 0 | ch :: _ => ch end)) by (by destruct l).
  apply wp_bind. eapply wp_from_opt; [exact Hhd|]. apply wp_bind, wp_gets, wp_bind. unfold start_at in Hst.
  replace (match l with [] => 0 | ch :: _ => ch end =? SLASH) with (bool_decide (head l = Some SLASH)).
  2: { destruct l as [|ch l']; [done|]. cbn. destruct (Z.eqb_spec ch SLASH) as [->|]; [by rewrite bool_decide_true|]. rewrite bool_decide_false; congruence. }
  destruct (bool_decide (head l = Some SLASH)).
  - subst i. eapply (iget_wp (f_sb s) V); [exact N6|done| |].
    { destruct Hj as (_ & E1 & _ & R1 & _). by exists j1, x1. }
    intros k x ic2 HC Hk Hin Hr _. apply (Hloop _ k x); [by split|]. split; [done|done|done|by left].
  - destruct Hst as (k & x & Hcwd & Hk & Hr & Hin). apply wp_bind. eapply wp_from_opt; [exact Hcwd|].
    eapply (idup_wp (f_sb s) V); [exact N6|exact Hk|done|]. intros ic2 x' HC Hk' Hin' Hr'. apply (Hloop _ k x'); [by split|].
    split; [done|congruence|done|]. right. by exists x.
Qed.

(** C10: [namex] follows the path on the disk: it returns, with one new reference, the
    inode that the components name (all of them, or for [nameiparent] all but the
    last, whose name it leaves in the buffer), or null when a component is missing,
    is not a directory or may not be searched; the disk, the transaction, and every
    other reference and lock are as before. *)
Theorem namex_resolves {S} `{TxStore S} (s : fs S) c V L devsw_read (parent : bool) l rest name i :
  names_ready s c V L -> start_at s l i -> nonzero l -> length name = Z.to_nat DIRSIZ ->
  exists r s', namex devsw_read (string_bytes l rest) parent name s = Ok r s'
    /\ namex_post c (f_sb s) V L (f_icache s) (f_ut s) (f_cur s) parent (elems l) (resolve (f_sb s) V (f_cur s) parent i (elems l)) r s'.
Proof. apply namex_spec. Qed.

(** ** The example file system *)

Lemma demo_root_inode : disk_inode demo_fsb (dread demo_fdisk) ROOTINO = demo_root.
Proof. vm_compute. reflexivity. Qed.

Lemma demo_dirs : forallb (fun i => negb (d_type (disk_inode demo_fsb (dread demo_fdisk) i) =? T_DIR) || (i =? ROOTINO)) (seqZ 0 200) = true.
Proof. vm_compute. reflexivity. Qed.

Lemma demo_root_entries : forallb (fun de => (de_inum de =? 0) || ((0 <? de_inum de) && (de_inum de <? 200)
    && negb (d_type (disk_inode demo_fsb (dread demo_fdisk) (de_inum de)) =? 0)
    && negb (d_nlink (disk_inode demo_fsb (dread demo_fdisk) (de_inum de)) =? 0)))
  (dirents (file_bytes (dread demo_fdisk) demo_root)) = true.
Proof. vm_compute. reflexivity. Qed.

Lemma demo_root_faddr V k : 0 <= k < MAXFILE -> faddr V demo_root k = if bool_decide (k = 0) then 59 else 0.
Proof.
  intros Hk. unfold faddr. change (ind_addr demo_root) with 0. cbn [Z.eqb].
  destruct (k <? NDIRECT) eqn:E; bool_cases; [|by rewrite bool_decide_false by (unfold NDIRECT in *; lia)].
  unfold NDIRECT in E. case_bool_decide; [by subst|].
  replace (Z.to_nat k) with (Datatypes.S (Z.to_nat (k - 1))) by lia. cbn [d_addrs demo_root].
  change ((59 :: replicate 11 0) !!! Datatypes.S (Z.to_nat (k - 1))) with (replicate 11 0 !!! Z.to_nat (k - 1)).
  apply lookup_total_replicate_2. lia.
Qed.

Lemma demo_root_ok : file_ok demo_fsb (dread demo_fdisk) demo_root.
Proof.
  assert (Hb : data_block demo_fsb (dread demo_fdisk) 59) by (split; [simpl; lia|by vm_compute]).
  split; try done.
  - intros bn Hbn. rewrite demo_root_faddr by done. by case_bool_decide.
  - intros bn bn' Hbn Hbn'. rewrite !demo_root_faddr by done. repeat case_bool_decide; subst; done.
  - intros bn Hbn Hlt. simpl in Hlt. unfold BSIZE in Hlt.
    rewrite demo_root_faddr by (change MAXFILE with 139; lia). by rewrite bool_decide_true by lia.
Qed.

Lemma demo_tree : tree_ok demo_fsb (dread demo_fdisk).
Proof.
  intros i Hi Ht. pose proof (forallb_seqZ _ 200 i demo_dirs Hi) as E. cbn beta in E. rewrite Ht in E. change (negb (T_DIR =? T_DIR)) with false in E.
  apply Z.eqb_eq in E as ->. rewrite demo_root_inode. split; [exact demo_root_ok|]. split; [done|]. intros de Hde H0.
  pose proof demo_root_entries as He. rewrite forallb_forall in He. specialize (He de ltac:(by apply list_elem_of_In)). cbn beta in He.
  apply orb_prop in He as [He|He]; [by apply Z.eqb_eq in He|]. bool_cases. split; [|done]. split; [cbn; lia|done].
Qed.

Lemma demo_names : names_ready (demo_fs 5) demo_tx (dread demo_fdisk) ∅.
Proof.
  split.
  - exact demo_layout.
  - split; [rewrite size_empty; vm_compute; lia|rewrite map_size_empty; lia].
  - exact (demo_holds 5).
  - exact demo_tree.
  - split; [split; [done|by vm_compute]|by vm_compute].
  - assert (He : forall j x, replicate 50 demo_inode !! j = Some x -> x = demo_inode) by (intros j x Hx; by apply lookup_replicate in Hx as [-> _]).
    split; try done.
    + intros j x ->%He. by split.
    + intros j j' x x' ->%He. done.
    + intros j x x' ->%He ->%He. done.
  - by exists 0%nat, 1%nat, demo_inode, demo_inode.
Qed.

(** ["/f"] is inode 2. *)
Lemma namex_resolves_witness : exists k name s',
  namex (fun _ => None) (string_bytes [47; 102] []) false (replicate 14 0) (demo_fs 5) = Ok (Some (k, name)) s'
  /\ exists x, f_icache s' !! k = Some x /\ i_inum x = 2.
Proof.
  destruct (namex_resolves (demo_fs 5) demo_tx (dread demo_fdisk) ∅ (fun _ => None) false [47; 102] [] (replicate 14 0) ROOTINO demo_names)
    as (r & s' & Hrun & Hpost).
  - done.
  - repeat constructor; done.
  - done.
  - assert (E : resolve demo_fsb (dread demo_fdisk) (mkCurproc 7 5 None) false ROOTINO (elems [47; 102]) = Some 2) by (vm_compute; reflexivity).
    change (f_sb (demo_fs 5)) with demo_fsb in Hpost. change (f_cur (demo_fs 5)) with (mkCurproc 7 5 None) in Hpost. rewrite E in Hpost.
    destruct Hpost as (k & name & x & -> & _ & Hat & _). exists k, name, s'. split; [exact Hrun|]. exists x. split; [apply Hat|apply Hat].
Defined.

(** The root directory, locked by process 7. *)
Definition demo_root_entry : inode := mkInode ROOTDEV 1 1 (mkSleeplock 1 7) true demo_root.
Definition demo_root_open : fs store :=
  mkFs demo_tstore demo_fsb (demo_root_entry :: replicate 49 demo_inode) demo_utab (mkCurproc 7 5 None).

Lemma demo_root_open_file : open_file demo_root_open demo_tx (dread demo_fdisk) ∅ 0%nat demo_root_entry.
Proof.
  split; try done.
  - exact demo_layout.
  - exact (demo_holds 5).
  - exact demo_meta.
  - exact demo_root_ok.
  - split; [|by vm_compute]. split; try done. split; [done|].
    apply Forall_cons_2; [done|by apply Forall_replicate].
Qed.

(** The name "h" is linked to inode 3. *)
Lemma dirlink_correct_witness : exists s' V' d',
  dirlink (fun _ => None) (fun _ => None) 0 (string_bytes [104] []) 3 demo_root_open = Ok 0 s'
  /\ dir_find [104] (file_bytes V' d') = Some (4%nat, new_entry 3 [104])
  /\ dir_find [102] (file_bytes V' d') = Some (2%nat, demo_dirent 2 [102]).
Proof.
  destruct (dirlink_correct demo_root_open demo_tx (dread demo_fdisk) ∅ 0%nat demo_root_entry (fun _ => None) (fun _ => None)
    (string_bytes [104] []) 3 demo_root_open_file) as (s' & V' & d' & L' & Hrun & _ & _ & _ & _ & F1 & F2).
  - done.
  - done.
  - by vm_compute.
  - done.
  - done.
  - repeat constructor; done.
  - by vm_compute.
  - pose proof demo_free. simpl. lia.
  - rewrite size_empty. vm_compute. lia.
  - exists s', V', d'. split; [exact Hrun|]. split; [exact F1|]. rewrite (F2 [102]); [by vm_compute|done].
Defined.
