(* ===== verification/Tree.v ===== *)
(** * The disk as a whole: inodes, blocks and directories in order

    Every inode in use is a file on blocks of its own, and every directory names
    inodes in use.  One lemma says how a change of one inode keeps this; the
    operations of fs.c that change an inode are instances of it. *)

From S2P Require Import Prelude KMonad CString Params Bio BioSpec Log LogSpec Crash LogOps Users Store Fs FsSpec FileSpec Dinode Content ReadWrite Paths ICache Dirs Names.

(** Blocks belong to one inode at most. *)
Record blocks_ok (sb : superblock) (V : Z -> list Z) : Prop := {
  bl_meta : meta_used sb V;
  bl_file : forall i, live sb V i -> file_ok sb V (disk_inode sb V i);
  bl_sep : forall i j b, live sb V i -> live sb V j -> i ≠ j -> owns V (disk_inode sb V i) b -> ~ owns V (disk_inode sb V j) b }.

Record disk_ok (sb : superblock) (V : Z -> list Z) : Prop := {
  dk_blocks : blocks_ok sb V;
  dk_tree : tree_ok sb V }.

(** ** One inode changes *)

(** The block is one of inode [a]. *)
Definition block_of (sb : superblock) (V : Z -> list Z) (a b : Z) : Prop := live sb V a /\ owns V (disk_inode sb V a) b.

(** From [V] to [V'] inode [a] changes, on its own blocks and on free ones. *)
Record inode_step (sb : superblock) (V : Z -> list Z) (a : Z) (V' : Z -> list Z) : Prop := {
  is_other : forall j, 0 <= j < sb_ninodes sb -> j ≠ a -> disk_inode sb V' j = disk_inode sb V j;
  is_frame : forall b, data_block sb V b -> ~ block_of sb V a b -> V' b = V b;
  is_mono : forall b, 0 <= b -> allocated sb V b = true -> allocated sb V' b = true;
  is_own : forall b, owns V' (disk_inode sb V' a) b -> block_of sb V a b \/ allocated sb V b = false;
  is_ok : file_ok sb V' (disk_inode sb V' a) }.

Section Step.
Context (sb : superblock) (V V' : Z -> list Z) (a : Z).
Hypothesis Hbm : 0 <= sb_bmapstart sb.
Hypothesis Hok : blocks_ok sb V.
Hypothesis Hst : inode_step sb V a V'.

Lemma step_mono b : data_block sb V b -> allocated sb V' b = true.
Proof using Hbm Hst. intros [Hr Ha]. apply (is_mono _ _ _ _ Hst); [lia|done]. Qed.

(** The blocks of another file are as they were. *)
Lemma step_same j b : live sb V j -> j ≠ a -> owns V (disk_inode sb V j) b -> V' b = V b.
Proof using Hok Hst.
  intros Hj Hne Hb. apply (is_frame _ _ _ _ Hst); [by eapply owns_data; [apply (bl_file _ _ Hok)|]|].
  intros [Ha Hb']. exact (bl_sep _ _ Hok j a b Hj Ha Hne Hb Hb').
Qed.

(** Another file keeps its inode and its contents. *)
Lemma step_other j : live sb V j -> j ≠ a -> disk_inode sb V' j = disk_inode sb V j
  /\ file_ok sb V' (disk_inode sb V j) /\ file_bytes V' (disk_inode sb V j) = file_bytes V (disk_inode sb V j)
  /\ forall b, owns V' (disk_inode sb V j) b -> owns V (disk_inode sb V j) b.
Proof using Hbm Hok Hst.
  intros Hj Hne. pose proof (fun b => step_same j b Hj Hne) as Hs. pose proof (bl_file _ _ Hok j Hj) as Hf.
  split_and!; [apply (is_other _ _ _ _ Hst); [apply Hj|done]|apply (frame_ok sb V); [done|done|apply step_mono]|by apply (frame_bytes sb V)|].
  intros b. by apply frame_owns.
Qed.

Lemma step_live j : live sb V' j -> j ≠ a -> live sb V j.
Proof using Hst. intros [Hj Ht] Hne. split; [done|]. by rewrite <- (is_other _ _ _ _ Hst). Qed.

Lemma step_live' j : live sb V j -> j ≠ a -> live sb V' j.
Proof using Hst. intros [Hj Ht] Hne. split; [done|]. by rewrite (is_other _ _ _ _ Hst). Qed.

Lemma blocks_step : blocks_ok sb V'.
Proof using Hbm Hok Hst.
  assert (Hback : forall j b, live sb V' j -> j ≠ a -> owns V' (disk_inode sb V' j) b -> owns V (disk_inode sb V j) b /\ allocated sb V b = true /\ live sb V j).
  { intros j b Hj Hne Hb. pose proof (step_live j Hj Hne) as Hj0. destruct (step_other j Hj0 Hne) as (E & _ & _ & Ho).
    rewrite E in Hb. apply Ho in Hb. split; [done|]. split; [|done]. by eapply owns_data; [apply (bl_file _ _ Hok)|]. }
  split.
  - intros b Hb. apply (is_mono _ _ _ _ Hst); [lia|]. by apply (bl_meta _ _ Hok).
  - intros j Hj. destruct (decide (j = a)) as [->|Hne]; [apply (is_ok _ _ _ _ Hst)|].
    destruct (step_other j (step_live j Hj Hne) Hne) as (-> & ? & _). done.
  - intros i j b Hi Hj Hne Hbi Hbj. destruct (decide (i = a)) as [->|Ni]; [|destruct (decide (j = a)) as [->|Nj]].
    + destruct (Hback j b Hj ltac:(done) Hbj) as (B1 & B2 & B3). destruct (is_own _ _ _ _ Hst b Hbi) as [[Ha Hb]|Hb]; [|congruence].
      by apply (bl_sep _ _ Hok a j b).
    + destruct (Hback i b Hi Ni Hbi) as (B1 & B2 & B3). destruct (is_own _ _ _ _ Hst b Hbj) as [[Ha Hb]|Hb]; [|congruence].
      by apply (bl_sep _ _ Hok i a b).
    + destruct (Hback i b Hi Ni Hbi) as (B1 & _ & B3), (Hback j b Hj Nj Hbj) as (C1 & _ & C3). by apply (bl_sep _ _ Hok i j b).
Qed.

(** The directories stay in order when the links of [a] do and its new entries
    name linked inodes. *)
Lemma tree_step : tree_ok sb V ->
  (live sb V a -> d_type (disk_inode sb V' a) ≠ 0 /\ (d_nlink (disk_inode sb V a) ≠ 0 -> d_nlink (disk_inode sb V' a) ≠ 0)) ->
  (d_type (disk_inode sb V' a) = T_DIR -> d_size (disk_inode sb V' a) mod 16 = 0 /\
     forall de, de ∈ dirents (file_bytes V' (disk_inode sb V' a)) -> de_inum de ≠ 0 ->
       live sb V a /\ d_type (disk_inode sb V a) = T_DIR /\ de ∈ dirents (file_bytes V (disk_inode sb V a))
       \/ live sb V' (de_inum de) /\ d_nlink (disk_inode sb V' (de_inum de)) ≠ 0) ->
  tree_ok sb V'.
Proof using Hbm Hok Hst.
  intros Htree Ha Hdir.
  assert (Hkeep : forall i, live sb V i -> d_nlink (disk_inode sb V i) ≠ 0 -> live sb V' i /\ d_nlink (disk_inode sb V' i) ≠ 0).
  { intros i Hi Hn. destruct (decide (i = a)) as [->|Hne].
    - destruct (Ha Hi) as [A1 A2]. split; [split; [apply Hi|done]|auto].
    - split; [by apply step_live'|]. by rewrite (is_other _ _ _ _ Hst i (proj1 Hi) Hne). }
  intros i Hi Ht. destruct (decide (i = a)) as [->|Hne].
  - destruct (Hdir Ht) as [Hm Hde]. split; [apply (is_ok _ _ _ _ Hst)|]. split; [done|]. intros de Hin H0.
    destruct (Hde de Hin H0) as [(L1 & L2 & L3)|?]; [|done]. destruct (Htree a Hi L2) as (_ & _ & Hold). destruct (Hold de L3 H0). by apply Hkeep.
  - assert (Hj : live sb V i) by (split; [done|]; rewrite <- (is_other _ _ _ _ Hst i Hi Hne), Ht; done).
    destruct (step_other i Hj Hne) as (E & F1 & F2 & _). rewrite E in Ht |- *. destruct (Htree i Hi Ht) as (_ & T2 & T3).
    split; [done|]. split; [done|]. intros de Hin H0. rewrite F2 in Hin. destruct (T3 de Hin H0). by apply Hkeep.
Qed.
End Step.

(** ** Storing an inode *)

Lemma i8_range x : is_i8 (i8 x).
Proof. unfold is_i8, i8. mlia. Qed.

Lemma i16_range x : is_i16 (i16 x).
Proof. unfold is_i16, i16. mlia. Qed.

Lemma read_dinode_ok o b : wf_block b -> (o + 64 <= 512)%nat -> dinode_ok (read_dinode o b).
Proof.
  intros [Hl Hb] Ho. assert (Hr : forall m j, (j + m <= 512)%nat -> 0 <= get_le m j b < 256 ^ Z.of_nat m) by (intros; apply get_le_range; [lia|done]).
  unfold read_dinode. split; cbn; try apply i8_range; try apply i16_range.
  - apply (Hr 4%nat). lia.
  - split; [by rewrite length_fmap, length_seq|]. apply Forall_fmap, Forall_forall. intros k Hk%elem_of_seq. change NADDRS with 12%nat in Hk. apply (Hr 4%nat). lia.
  - apply (Hr 4%nat). lia.
Qed.

Lemma disk_inode_ok sb V i : wf_block (V (IBLOCK i sb)) -> 0 <= i -> dinode_ok (disk_inode sb V i).
Proof. intros Hw Hi. apply read_dinode_ok; [done|by apply dinode_off_bound]. Qed.

(** The disk after [iupdate] of inode [a]. *)
Definition put_dinode (sb : superblock) (a : Z) (d : dinode) (V : Z -> list Z) : Z -> list Z :=
  upd V (IBLOCK a sb) (write_dinode (dinode_off a) d (V (IBLOCK a sb))).

Lemma put_dinode_same sb a d V : wf_block (V (IBLOCK a sb)) -> 0 <= a -> dinode_ok d -> disk_inode sb (put_dinode sb a d V) a = d.
Proof.
  intros [Hl _] Ha Hd. unfold disk_inode, put_dinode. rewrite upd_eq. apply read_write_dinode; [done|].
  pose proof (dinode_off_bound a Ha). lia.
Qed.

Lemma put_dinode_other sb a d V j : wf_block (V (IBLOCK a sb)) -> 0 <= a -> length (d_addrs d) = NADDRS -> 0 <= j -> j ≠ a ->
  disk_inode sb (put_dinode sb a d V) j = disk_inode sb V j.
Proof.
  intros [Hl _] Ha Hd Hj Hne. unfold disk_inode, put_dinode. destruct (decide (IBLOCK j sb = IBLOCK a sb)) as [E|E]; [|by rewrite upd_ne].
  rewrite E, upd_eq. apply read_write_dinode_other; [done|pose proof (dinode_off_bound a Ha); lia|].
  apply dinode_off_apart; [done|done|done|]. unfold IBLOCK in E. lia.
Qed.

(** The disk after [ialloc] took inode [a]. *)
Definition new_inode (type : Z) : dinode := mkDinode 0 type 0 0 0 0 (replicate NADDRS 0) 0.
Definition alloc_block (type a : Z) (b : list Z) : list Z := set_le 1 (dinode_off a + 1) (u8 type) (splice (dinode_off a) (replicate 64 0) b).
Definition alloc_dinode (sb : superblock) (type a : Z) (V : Z -> list Z) : Z -> list Z := upd V (IBLOCK a sb) (alloc_block type a (V (IBLOCK a sb))).

Lemma zero_bytes n o l k : (k + n <= length l)%nat -> (o <= k)%nat -> (k + n <= o + 64)%nat -> (o + 64 <= length l)%nat -> get_le n k (splice o (replicate 64 0) l) = 0.
Proof.
  intros H1 H2 H3 H4. unfold get_le. assert (E : slice k n (splice o (replicate 64 0) l) = replicate n 0).
  { apply list_eq. intros j. destruct (decide (j < n)%nat) as [Hj|Hj].
    - rewrite lookup_slice by done. rewrite lookup_splice_in by (rewrite length_replicate; lia). rewrite !lookup_replicate_2 by lia. done.
    - rewrite lookup_ge_None_2, lookup_ge_None_2; [done|rewrite length_replicate; lia|]. unfold slice. rewrite length_take. lia. }
  rewrite E. clear. induction n as [|n IH]; [done|]. cbn [replicate le_val]. lia.
Qed.

Lemma wf_alloc_block type a b : wf_block b -> 0 <= a -> wf_block (alloc_block type a b).
Proof.
  intros [Hl Hb] Ha. pose proof (dinode_off_bound a Ha) as Ho. apply wf_block_set_le; [lia|].
  split; [rewrite length_splice; [done|rewrite length_replicate; lia]|]. apply Forall_splice; [done|]. by apply Forall_replicate.
Qed.

Lemma alloc_dinode_same sb type a V : wf_block (V (IBLOCK a sb)) -> 0 <= a -> is_i8 type -> disk_inode sb (alloc_dinode sb type a V) a = new_inode type.
Proof.
  intros [Hl _] Ha Ht. pose proof (dinode_off_bound a Ha) as Ho. unfold disk_inode, alloc_dinode. rewrite upd_eq. unfold alloc_block. set (o := dinode_off a) in *. set (b := V (IBLOCK a sb)) in *.
  assert (Hs : length (splice o (replicate 64 0) b) = 512%nat) by (rewrite length_splice; [done|rewrite length_replicate; lia]).
  assert (Hz : forall n k, (o <= k)%nat -> (k + n <= o + 64)%nat -> (k + n <= o + 1 \/ o + 2 <= k)%nat -> get_le n k (set_le 1 (o + 1) (u8 type) (splice o (replicate 64 0) b)) = 0).
  { intros n k H1 H2 H3. rewrite get_set_le_other by lia. apply zero_bytes; lia. }
  unfold read_dinode, new_inode. f_equal; rewrite ?Hz by lia; try done.
  - rewrite get_set_le_same; [|lia|apply u8_range]. rewrite i8_u8. by apply i8_id.
  - change NADDRS with 12%nat. apply list_eq. intros k. rewrite list_lookup_fmap. destruct (decide (k < 12)%nat) as [Hk|Hk].
    + rewrite lookup_seq_lt, lookup_replicate_2 by done. cbn [fmap option_fmap option_map]. rewrite Hz by lia. done.
    + rewrite lookup_seq_ge by lia. symmetry. apply lookup_ge_None_2. rewrite length_replicate. lia.
Qed.

Lemma alloc_dinode_other sb type a V j : wf_block (V (IBLOCK a sb)) -> 0 <= a -> 0 <= j -> j ≠ a -> disk_inode sb (alloc_dinode sb type a V) j = disk_inode sb V j.
Proof.
  intros [Hl _] Ha Hj Hne. unfold disk_inode, alloc_dinode. destruct (decide (IBLOCK j sb = IBLOCK a sb)) as [E|E]; [|by rewrite upd_ne].
  rewrite E, upd_eq. pose proof (dinode_off_bound a Ha) as Ho. pose proof (dinode_off_bound j Hj) as Ho'.
  assert (Hap : (dinode_off j + 64 <= dinode_off a \/ dinode_off a + 64 <= dinode_off j)%nat) by (apply dinode_off_apart; [done|done|done|unfold IBLOCK in E; lia]).
  unfold alloc_block. set (o := dinode_off a) in *. set (o' := dinode_off j) in *. set (b := V (IBLOCK a sb)) in *.
  assert (Hw : forall m k, (o' <= k)%nat -> (k + m <= o' + 64)%nat -> get_le m k (set_le 1 (o + 1) (u8 type) (splice o (replicate 64 0) b)) = get_le m k b).
  { intros m k H1 H2. rewrite get_set_le_other by (rewrite ?length_splice; rewrite ?length_replicate; lia).
    unfold get_le. f_equal. apply slice_splice_disjoint; rewrite length_replicate; lia. }
  unfold read_dinode. rewrite !Hw by lia. f_equal. apply list_fmap_ext. intros i k Hk. apply lookup_seq in Hk. change NADDRS with 12%nat in Hk. apply Hw; lia.
Qed.

Section Changes.
Context (sb : superblock) (c : tx) (V : Z -> list Z).
Hypothesis Hly : layout_ok sb c.
Hypothesis Hwf : forall b, wf_block (V b).
Hypothesis Hok : blocks_ok sb V.

(** A change of the block of inode [a] alone. *)
Lemma inode_block_step a y : let V' := upd V (IBLOCK a sb) y in 0 <= a < sb_ninodes sb ->
  (forall j, 0 <= j -> j ≠ a -> disk_inode sb V' j = disk_inode sb V j) ->
  (forall k, faddr V (disk_inode sb V' a) k = 0) /\ ind_addr (disk_inode sb V' a) = 0 /\ d_size (disk_inode sb V' a) = 0 /\ length (d_addrs (disk_inode sb V' a)) = NADDRS
  \/ live sb V a /\ d_addrs (disk_inode sb V' a) = d_addrs (disk_inode sb V a) /\ d_size (disk_inode sb V' a) = d_size (disk_inode sb V a) ->
  inode_step sb V a V'.
Proof using Hly Hok.
  intros V' Ha Hoth Hcase. destruct (ly_inodes _ _ Hly a Ha) as [_ Hib]. set (d' := disk_inode sb V' a) in *.
  assert (Hdata : forall b, sb_bmapstart sb <= b -> V' b = V b) by (intros b Hb; apply upd_ne; lia).
  assert (Hall : forall b, allocated sb V' b = allocated sb V b) by (intros b; unfold allocated; by rewrite Hdata by lia).
  split; [intros j Hj Hne; apply Hoth; [lia|done]|intros b [Hb _] _; apply Hdata; lia|intros b _; by rewrite Hall| |]; destruct Hcase as [(Hf & Hi & Hz & Hl)|(Hlive & Ea & Es)].
  - assert (Hf' : forall k, faddr V' d' k = 0) by (intros k; rewrite <- (Hf k); unfold faddr; by rewrite Hi).
    fold d'. intros b [Hb [->|(k & Hk & <-)]]; [done|]. by rewrite Hf' in Hb.
  - pose proof (bl_file _ _ Hok a Hlive) as Hfa. fold d'. intros b Hb. left. split; [done|].
    assert (Ho : owns V' (disk_inode sb V a) b).
    { destruct Hb as [Hb [->|(k & Hk & E)]]; (split; [done|]); [left; unfold ind_addr; by rewrite Ea|]. right. exists k. split; [done|]. rewrite <- E. unfold faddr, ind_addr. by rewrite Ea. }
    eapply frame_owns; [|exact Ho]. intros b' Hb'. destruct (owns_data _ _ _ _ Hfa Hb') as [? _]. apply Hdata. lia.
  - assert (Hf' : forall k, faddr V' d' k = 0) by (intros k; rewrite <- (Hf k); unfold faddr; by rewrite Hi). fold d'.
    split; rewrite ?Hi, ?Hz; try done; intros; rewrite ?Hf' in *; try done. unfold BSIZE in *. lia.
  - pose proof (bl_file _ _ Hok a Hlive) as Hfa. fold d'.
    assert (Hfa' : file_ok sb V' (disk_inode sb V a)).
    { apply (frame_ok sb V); [done| |].
      - intros b Hb. destruct (owns_data _ _ _ _ Hfa Hb) as [? _]. apply Hdata. lia.
      - intros b [_ Hb]. by rewrite Hall. }
    assert (Ef : forall k, faddr V' d' k = faddr V' (disk_inode sb V a) k) by (intros k; unfold faddr, ind_addr; by rewrite Ea).
    assert (Ei : ind_addr d' = ind_addr (disk_inode sb V a)) by (unfold ind_addr; by rewrite Ea).
    destruct Hfa' as [F1 F2 F3 F4 F5 F6 F7]. split; rewrite ?Ea, ?Es, ?Ei; try done; intros; rewrite ?Ef in *; auto.
Qed.

(** Storing an inode whose blocks and size have not changed. *)
Lemma put_dinode_step a d : live sb V a -> dinode_ok d -> d_addrs d = d_addrs (disk_inode sb V a) -> d_size d = d_size (disk_inode sb V a) ->
  inode_step sb V a (put_dinode sb a d V) /\ disk_inode sb (put_dinode sb a d V) a = d.
Proof using Hly Hwf Hok.
  intros Hlive Hd Ea Es. pose proof (proj1 Hlive) as Ha. assert (E : disk_inode sb (put_dinode sb a d V) a = d) by (apply put_dinode_same; [done|lia|done]).
  split; [|done]. apply inode_block_step; [done| |].
  - intros j Hj Hne. apply put_dinode_other; [done|lia|apply (do_addrs _ Hd)|done|done].
  - right. change (upd V _ _) with (put_dinode sb a d V). by rewrite E.
Qed.

(** Taking a free inode. *)
Lemma alloc_dinode_step type a : 0 <= a < sb_ninodes sb -> is_i8 type ->
  inode_step sb V a (alloc_dinode sb type a V) /\ disk_inode sb (alloc_dinode sb type a V) a = new_inode type.
Proof using Hly Hwf Hok.
  intros Ha Ht. assert (E : disk_inode sb (alloc_dinode sb type a V) a = new_inode type) by (apply alloc_dinode_same; [done|lia|done]).
  split; [|done]. apply inode_block_step; [done| |].
  - intros j Hj Hne. apply alloc_dinode_other; [done|lia|done|done].
  - left. change (upd V _ _) with (alloc_dinode sb type a V). rewrite E. split_and!; try done. intros k. unfold faddr. cbn [ind_addr].
    change (ind_addr (new_inode type)) with 0. destruct (k <? NDIRECT) eqn:Ek; [|done]. bool_cases. unfold NDIRECT in Ek. cbn [d_addrs new_inode]. change NADDRS with 12%nat.
    destruct (decide (0 <= k)); [apply lookup_total_replicate_2; lia|]. replace (Z.to_nat k) with 0%nat by lia. done.
Qed.

(** A write to a file. *)
Lemma written_step x a V' d' off bytes : i_inum x = a -> live sb V a -> written sb x V (disk_inode sb V a) V' d' off bytes ->
  inode_step sb V a V' /\ disk_inode sb V' a = d'.
Proof using Hly Hok.
  intros <- Hlive HW. set (a := i_inum x) in *. pose proof (proj1 Hlive) as Ha. destruct (ly_inodes _ _ Hly a Ha) as [_ Hib].
  pose proof (bl_file _ _ Hok a Hlive) as Hfa. pose proof (ly_bmap_in _ _ Hly) as Hbm.
  assert (E : disk_inode sb V' a = d') by apply (proj2 (wn_inode _ _ _ _ _ _ _ _ HW)). split; [|done].
  assert (Hnot : forall b, ~ owns V (disk_inode sb V a) b -> 0 < b -> b ≠ ind_addr (disk_inode sb V a) /\ forall k, 0 <= k < MAXFILE -> faddr V (disk_inode sb V a) k ≠ b).
  { intros b Hb Hp. split.
    - intros ->. apply Hb. split; [lia|by left].
    - intros k Hk <-. apply Hb. split; [lia|]. right. by exists k. }
  split.
  - intros j Hj Hne. destruct (decide (IBLOCK j sb = IBLOCK a sb)) as [Ej|Ej].
    + unfold disk_inode. rewrite Ej. apply (wn_others _ _ _ _ _ _ _ _ HW); [lia|done|done].
    + apply disk_inode_view. destruct (ly_inodes _ _ Hly j Hj) as [_ Hjb].
      assert (Hno : ~ owns V (disk_inode sb V a) (IBLOCK j sb)) by (intros Ho; destruct (owns_data _ _ _ _ Hfa Ho); lia).
      destruct (Hnot _ Hno ltac:(lia)). apply (wn_frame _ _ _ _ _ _ _ _ HW); [lia|apply (bl_meta _ _ Hok); lia|lia|done|done|done].
  - intros b [Hb Hal] Hno. destruct (Hnot b) as [N1 N2]; [intros Ho; by apply Hno|lia|]. apply (wn_frame _ _ _ _ _ _ _ _ HW); [lia|done|lia|fold a; lia|done|done].
  - apply (wn_mono _ _ _ _ _ _ _ _ HW).
  - rewrite E. intros b Hb. destruct (wn_fresh _ _ _ _ _ _ _ _ HW b Hb); [left; by split|by right].
  - rewrite E. apply (wn_ok _ _ _ _ _ _ _ _ HW).
Qed.
End Changes.

(** The entry of the changed inode follows; the others were not about it. *)
Lemma cache_step sb V V' a lk f ic ic1 k x : inode_step sb V a V' -> live sb V' a -> cache sb V lk f ic ic1 -> ic1 !! k = Some x -> i_inum x = a -> 0 < i_ref x ->
  cache sb V' lk f ic (<[k := set_d (disk_inode sb V' a) x]> ic1).
Proof.
  intros Hst Ha HC Hk Hi Hr. pose proof HC as [C1 C2 C3 C4 C5]. pose proof (lookup_lt_Some _ _ _ Hk) as Hkl.
  assert (Hget : forall j y, <[k := set_d (disk_inode sb V' a) x]> ic1 !! j = Some y -> exists y0, ic1 !! j = Some y0 /\ i_ref y = i_ref y0 /\ i_inum y = i_inum y0
    /\ i_lock y = i_lock y0 /\ i_dev y = i_dev y0 /\ (j = k /\ y = set_d (disk_inode sb V' a) x \/ j ≠ k /\ y = y0)).
  { intros j y Hy. destruct (decide (j = k)) as [->|Hne].
    - rewrite list_lookup_insert_eq in Hy by done. injection Hy as <-. exists x. split_and!; try done. by left.
    - rewrite list_lookup_insert_ne in Hy by done. exists y. split_and!; try done. by right. }
  split; [by rewrite length_insert|done| | |].
  - intros j y Hy. destruct (Hget j y Hy) as (y0 & Hy0 & E1 & E2 & E3 & E4 & Hc). destruct (C3 _ _ Hy0) as [S1 S2 S3 S4]. rewrite <- E1 in *.
    split; [done|by rewrite E3| |].
    + intros H0. destruct (S3 H0) as [S5 S6]. rewrite E4, E2. split; [done|]. destruct Hc as [[-> ->]|[Hne ->]].
      * rewrite Hk in Hy0. injection Hy0 as <-. by rewrite Hi.
      * destruct (decide (i_inum y0 = a)) as [->|Hna]; [done|]. split; [apply S6|]. rewrite (is_other _ _ _ _ Hst); [apply S6|apply S6|done].
    + intros H0 Hv. destruct Hc as [[-> ->]|[Hne ->]]; [cbn; by rewrite Hi|]. rewrite (S4 H0 Hv).
      symmetry. apply (is_other _ _ _ _ Hst); [apply (S3 H0)|]. intros E. apply Hne. apply (C4 j k y0 x); try done. by rewrite E, Hi.
  - intros j j' y y' Hy Hy'. destruct (Hget j y Hy) as (y0 & Hy0 & E1 & E2 & _), (Hget j' y' Hy') as (y0' & Hy0' & E1' & E2' & _).
    rewrite E1, E1', E2, E2'. by apply C4.
  - intros j y y' Hy Hy'. destruct (Hget j y' Hy') as (y0 & Hy0 & E1 & E2 & _). rewrite E1, E2. by apply C5.
Qed.

(** ** A name is added *)

(** A name [nm] for inode [i] is added to directory [dp]: other names are found as
    before, inodes and contents other than those of [dp] and the new [i] stay. *)
Record named (sb : superblock) (V : Z -> list Z) (dp : Z) (nm : list Z) (i : Z) (V' : Z -> list Z) : Prop := {
  na_parent : let d := disk_inode sb V dp in let d' := disk_inode sb V' dp in
    d_type d' = d_type d /\ d_perm d' = d_perm d /\ d_owner d' = d_owner d;
  na_found : exists j de, dir_find nm (file_bytes V' (disk_inode sb V' dp)) = Some (j, de) /\ de_inum de = i;
  na_others : forall nm', nm' ≠ nm -> dir_find nm' (file_bytes V' (disk_inode sb V' dp)) = dir_find nm' (file_bytes V (disk_inode sb V dp));
  na_kept : forall j, live sb V j -> j ≠ dp -> disk_inode sb V' j = disk_inode sb V j
    /\ file_bytes V' (disk_inode sb V j) = file_bytes V (disk_inode sb V j) }.

Section Named.
Context (sb : superblock) (V V' : Z -> list Z) (dp i : Z) (nm : list Z) (cur : curproc).
Hypothesis Htree : tree_ok sb V.
Hypothesis Hna : named sb V dp nm i V'.
Hypothesis Hnew : dir_find nm (file_bytes V (disk_inode sb V dp)) = None.

(** The parts of an inode that a walk looks at. *)
Lemma named_inode j : live sb V j -> d_type (disk_inode sb V' j) = d_type (disk_inode sb V j)
  /\ may_search cur (disk_inode sb V' j) = may_search cur (disk_inode sb V j).
Proof using Hna.
  intros Hj. destruct (decide (j = dp)) as [->|Hne]; [|by destruct (na_kept _ _ _ _ _ _ Hna j Hj Hne) as [-> _]].
  destruct (na_parent _ _ _ _ _ _ Hna) as (E1 & E2 & E3). split; [done|]. unfold may_search, has_execute_permission, has_own, perm_bit, i_type, i_perm, i_owner.
  cbn [i_d]. by rewrite E1, E2, E3.
Qed.

Lemma named_find j e x : live sb V j -> dir_find e (file_bytes V (disk_inode sb V j)) = Some x -> dir_find e (file_bytes V' (disk_inode sb V' j)) = Some x.
Proof using Hna Hnew.
  intros Hj Hf. destruct (decide (j = dp)) as [->|Hne].
  - rewrite (na_others _ _ _ _ _ _ Hna); [done|]. intros ->. by rewrite Hnew in Hf.
  - destruct (na_kept _ _ _ _ _ _ Hna j Hj Hne) as [-> ->]. done.
Qed.

Lemma find_live j e n de : live sb V j -> d_type (disk_inode sb V j) = T_DIR -> dir_find e (file_bytes V (disk_inode sb V j)) = Some (n, de) -> live sb V (de_inum de).
Proof using Htree.
  intros [Hj _] Ht Hf. destruct (Htree j Hj Ht) as (_ & _ & Hde). apply list_find_Some in Hf as (Hn & [H0 _] & _).
  by apply (Hde de (list_elem_of_lookup_2 _ _ _ Hn) H0).
Qed.

(** Every path that led somewhere still leads there. *)
Lemma resolve_kept par es : forall j r, live sb V j -> resolve sb V cur par j es = Some r -> resolve sb V' cur par j es = Some r.
Proof using Htree Hna Hnew.
  induction es as [|e es IH]; intros j r Hj; cbn [resolve]; [done|]. destruct (named_inode j Hj) as [-> ->].
  destruct (Z.eqb_spec (d_type (disk_inode sb V j)) T_DIR) as [Ht|]; cbn [negb]; [|done]. destruct (may_search _ _); cbn [negb]; [|done].
  destruct (par && bool_decide (es = [])); [done|]. destruct (dir_find (take 14 e) (file_bytes V (disk_inode sb V j))) as [[n de]|] eqn:Ef; [|done].
  rewrite (named_find j _ _ Hj Ef). apply IH. by eapply find_live.
Qed.

(** The new path leads to the new inode. *)
Lemma resolve_new es e : forall j, live sb V j -> resolve sb V cur true j es = Some dp -> last es = Some e -> take 14 e = nm ->
  resolve sb V' cur false j es = Some i.
Proof using Htree Hna Hnew.
  induction es as [|e1 es IH]; intros j Hj; cbn [resolve]; [done|]. destruct (named_inode j Hj) as [-> ->].
  destruct (Z.eqb_spec (d_type (disk_inode sb V j)) T_DIR) as [Ht|]; cbn [negb]; [|done]. destruct (may_search _ _); cbn [negb]; [|done]. cbn [andb].
  case_bool_decide as Ee.
  - subst es. intros [= ->] [= ->] En. rewrite En. destruct (na_found _ _ _ _ _ _ Hna) as (n & de & -> & <-). done.
  - destruct (dir_find (take 14 e1) (file_bytes V (disk_inode sb V j))) as [[n de]|] eqn:Ef; [|done]. rewrite (named_find j _ _ Hj Ef).
    intros Hr Hl En. apply IH; [by eapply find_live|done| |done]. by destruct es.
Qed.
End Named.

Lemma resolve_parent sb V cur es : tree_ok sb V -> forall j dp, live sb V j -> resolve sb V cur true j es = Some dp ->
  live sb V dp /\ d_type (disk_inode sb V dp) = T_DIR.
Proof.
  intros Htree. induction es as [|e es IH]; intros j dp Hj; cbn [resolve]; [done|].
  destruct (Z.eqb_spec (d_type (disk_inode sb V j)) T_DIR) as [Ht|]; cbn [negb]; [|done]. destruct (may_search _ _); cbn [negb]; [|done]. cbn [andb].
  case_bool_decide; [by intros [= <-]|]. destruct (dir_find _ _) as [[n de]|] eqn:Ef; [|done]. apply IH. by eapply (find_live sb V).
Qed.

(** ** What a change leaves alone *)

(** Every inode in use outside [A] keeps its fields and its contents. *)
Definition kept_but (sb : superblock) (A : Z -> Prop) (V V' : Z -> list Z) : Prop := forall j, live sb V j -> ~ A j ->
  live sb V' j /\ disk_inode sb V' j = disk_inode sb V j /\ file_bytes V' (disk_inode sb V j) = file_bytes V (disk_inode sb V j).

Lemma kept_step sb V V' a (A : Z -> Prop) : 0 <= sb_bmapstart sb -> blocks_ok sb V -> inode_step sb V a V' -> A a -> kept_but sb A V V'.
Proof.
  intros Hbm Hok Hst Ha j Hj Hn. assert (Hne : j ≠ a) by (by intros ->). destruct (step_other sb V V' a Hbm Hok Hst j Hj Hne) as (E1 & _ & E2 & _).
  split; [by apply (step_live' sb V V' a)|done].
Qed.

Lemma kept_but_trans sb A V V1 V2 : kept_but sb A V V1 -> kept_but sb A V1 V2 -> kept_but sb A V V2.
Proof.
  intros H1 H2 j Hj Hn. destruct (H1 j Hj Hn) as (L1 & E1 & F1). destruct (H2 j L1 Hn) as (L2 & E2 & F2). split; [done|].
  rewrite E1 in E2, F2. split; [done|]. by rewrite F2.
Qed.

Lemma kept_weaken sb (A B : Z -> Prop) V V' : (forall j, A j -> B j) -> kept_but sb A V V' -> kept_but sb B V V'.
Proof. intros Hs Hk j Hj Hn. apply Hk; [done|]. intros Ha. apply Hn. by apply Hs. Qed.

(** ** Small files *)

Section Small.
Context (sb : superblock) (V : Z -> list Z) (d : dinode).
Hypothesis Hbm : 0 <= sb_bmapstart sb.

Lemma one_block_faddr b k : d_addrs d = b :: replicate 11 0 -> 0 <= k < MAXFILE -> faddr V d k = if bool_decide (k = 0) then b else 0.
Proof using.
  intros Ha Hk. unfold faddr, ind_addr. rewrite Ha. change ((b :: replicate 11 0) !!! Z.to_nat NDIRECT) with 0. cbn [Z.eqb].
  destruct (k <? NDIRECT) eqn:E; bool_cases; [|by rewrite bool_decide_false by (unfold NDIRECT in *; lia)].
  unfold NDIRECT in E. case_bool_decide; [by subst|]. replace (Z.to_nat k) with (S (Z.to_nat (k - 1))) by lia.
  change ((b :: replicate 11 0) !!! S (Z.to_nat (k - 1))) with (replicate 11 0 !!! Z.to_nat (k - 1)). apply lookup_total_replicate_2. lia.
Qed.

Lemma one_block_owns b b' : d_addrs d = b :: replicate 11 0 -> owns V d b' -> b' = b.
Proof using.
  intros Ha [H0 [E|(k & Hk & E)]].
  - unfold ind_addr in E. rewrite Ha in E. by rewrite E in H0.
  - rewrite (one_block_faddr b k Ha Hk) in E. case_bool_decide; by subst.
Qed.

Lemma one_block_file b : d_addrs d = b :: replicate 11 0 -> data_block sb V b -> 0 <= d_size d <= 512 -> file_ok sb V d.
Proof using Hbm.
  intros Ha Hb Hs. assert (Hind : ind_addr d = 0) by (unfold ind_addr; by rewrite Ha). pose proof (fun k => one_block_faddr b k Ha) as Hf.
  assert (Hb0 : b ≠ 0) by (destruct Hb; lia). split; rewrite ?Hind; try done.
  - by rewrite Ha.
  - intros bn Hbn. rewrite Hf by done. by case_bool_decide.
  - intros bn bn' Hbn Hbn'. rewrite !Hf by done. repeat case_bool_decide; subst; done.
  - change (MAXFILE * BSIZE) with 71168. lia.
  - intros bn Hbn Hlt. unfold BSIZE in Hlt. rewrite Hf by (change MAXFILE with 139; lia). by rewrite bool_decide_true by lia.
Qed.

Lemma no_block_faddr k : d_addrs d = replicate 12 0 -> 0 <= k < MAXFILE -> faddr V d k = 0.
Proof using. intros Ha Hk. rewrite (one_block_faddr 0 k Ha Hk). by case_bool_decide. Qed.

Lemma no_block_owns b : d_addrs d = replicate 12 0 -> ~ owns V d b.
Proof using. intros Ha Ho. pose proof (one_block_owns 0 b Ha Ho) as ->. by destruct Ho. Qed.

Lemma no_block_file : d_addrs d = replicate 12 0 -> d_size d = 0 -> file_ok sb V d.
Proof using.
  intros Ha Hs. assert (Hind : ind_addr d = 0) by (unfold ind_addr; by rewrite Ha). pose proof (fun k => no_block_faddr k Ha) as Hf.
  split; rewrite ?Hind, ?Hs; try done; try (intros; rewrite ?Hf in * by done; done).
  - by rewrite Ha.
  - intros bn Hbn Hlt. unfold BSIZE in Hlt. lia.
Qed.
End Small.

(** ** Blocks outside the log *)

Section View.
Context (sb : superblock) (V V' : Z -> list Z).
Hypothesis Hbm : 0 <= sb_bmapstart sb.
Hypothesis Hino : forall j, 0 <= j < sb_ninodes sb -> V' (IBLOCK j sb) = V (IBLOCK j sb).
Hypothesis Hdata : forall b, sb_bmapstart sb <= b < sb_size sb -> V' b = V b.
Hypothesis Hbmap : sb_bmapstart sb < sb_size sb.

Lemma view_inode j : 0 <= j < sb_ninodes sb -> disk_inode sb V' j = disk_inode sb V j.
Proof using Hino. intros Hj. apply disk_inode_view. by apply Hino. Qed.

Lemma view_allocated b : allocated sb V' b = allocated sb V b.
Proof using Hbm Hdata Hbmap. unfold allocated. by rewrite Hdata by lia. Qed.

Lemma view_live j : live sb V' j <-> live sb V j.
Proof using Hino. split; intros [Hj Ht]; (split; [done|]); [by rewrite <- view_inode|by rewrite view_inode]. Qed.

Lemma view_same d b : file_ok sb V d -> owns V d b -> V' b = V b.
Proof using Hdata. intros Hok Ho. destruct (owns_data _ _ _ _ Hok Ho) as [? _]. apply Hdata. lia. Qed.

Lemma view_file d : file_ok sb V d -> file_ok sb V' d /\ file_bytes V' d = file_bytes V d /\ forall b, owns V' d b -> owns V d b.
Proof using Hbm Hdata Hbmap.
  intros Hok. pose proof (fun b => view_same d b Hok) as Hs. split_and!; [|by apply (frame_bytes sb V)|intros b; by apply frame_owns].
  apply (frame_ok sb V); [done|done|]. intros b [_ Ha]. by rewrite view_allocated.
Qed.

Lemma view_disk : disk_ok sb V -> disk_ok sb V'.
Proof using Hbm Hino Hdata Hbmap.
  intros [[B1 B2 B3] Ht]. split; [split|].
  - intros b Hb. rewrite view_allocated. by apply B1.
  - intros i Hi%view_live. rewrite view_inode by apply Hi. by apply view_file, B2.
  - intros i j b Hi%view_live Hj%view_live Hne. rewrite !view_inode by (apply Hi || apply Hj). intros Hbi Hbj.
    apply (B3 i j b Hi Hj Hne); by apply view_file; [apply B2|].
  - intros i Hi Hd. rewrite view_inode in Hd |- * by done. destruct (Ht i Hi Hd) as (T1 & T2 & T3). destruct (view_file _ T1) as (F1 & F2 & _).
    split; [done|]. split; [done|]. rewrite F2. intros de Hde H0. destruct (T3 de Hde H0) as [L1 L2]. rewrite view_live, view_inode by apply L1. done.
Qed.

Lemma view_named dp nm i V2 : disk_ok sb V -> live sb V dp -> named sb V' dp nm i V2 -> named sb V dp nm i V2.
Proof using Hbm Hino Hdata Hbmap.
  intros [[_ Hf _] _] Hdp [P1 P2 P3 P4]. assert (Hv : forall j, live sb V j -> disk_inode sb V' j = disk_inode sb V j /\ file_bytes V' (disk_inode sb V j) = file_bytes V (disk_inode sb V j))
    by (intros j Hj; split; [apply view_inode, Hj|apply view_file, Hf, Hj]).
  destruct (Hv dp Hdp) as [E1 E2]. rewrite E1 in P1, P3. rewrite E2 in P3. split; try done. intros j Hj Hne.
  destruct (Hv j Hj) as [F1 F2], (P4 j (proj2 (view_live j) Hj) Hne) as [G1 G2]. rewrite F1 in G1, G2. split; [done|]. by rewrite G2.
Qed.

Lemma view_free n : (n <= size (free_blocks sb V))%nat -> (n <= size (free_blocks sb V'))%nat.
Proof using Hbm Hdata Hbmap.
  intros Hn. etrans; [exact Hn|]. apply subseteq_size. intros b. rewrite !elem_of_free_blocks, view_allocated. done.
Qed.
End View.

(** After [end_op] the blocks outside the log are as before. *)
Lemma commit_views sb c (V V' : Z -> list Z) : layout_ok sb c -> (forall b, t_home c b = true -> V' b = V b) ->
  0 <= sb_bmapstart sb /\ (forall j, 0 <= j < sb_ninodes sb -> V' (IBLOCK j sb) = V (IBLOCK j sb))
  /\ (forall b, sb_bmapstart sb <= b < sb_size sb -> V' b = V b) /\ sb_bmapstart sb < sb_size sb.
Proof.
  intros Hly Hh. pose proof (ly_bmap_in _ _ Hly) as Hb. split_and!; [lia| | |lia].
  - intros j Hj. apply Hh. by destruct (ly_inodes _ _ Hly j Hj).
  - intros b Hr. apply Hh. destruct (decide (b = sb_bmapstart sb)) as [->|]; [apply (ly_bmap _ _ Hly)|apply (ly_home _ _ Hly); lia].
Qed.

(** A change of the view outside the files keeps every file. *)
Lemma view_kept sb c (V V' : Z -> list Z) : layout_ok sb c -> (forall b, t_home c b = true -> V' b = V b) -> disk_ok sb V -> disk_ok sb V' /\ kept_but sb (fun _ => False) V V'
  /\ (forall i, live sb V i -> live sb V' i /\ disk_inode sb V' i = disk_inode sb V i /\ file_bytes V' (disk_inode sb V i) = file_bytes V (disk_inode sb V i))
  /\ forall n, (n <= size (free_blocks sb V))%nat -> (n <= size (free_blocks sb V'))%nat.
Proof.
  intros Hly Hh Hdk. destruct (commit_views sb c V V' Hly Hh) as (H1 & H2 & H3 & H4).
  assert (Hl : forall i, live sb V i -> live sb V' i /\ disk_inode sb V' i = disk_inode sb V i /\ file_bytes V' (disk_inode sb V i) = file_bytes V (disk_inode sb V i)).
  { intros i Hi. split; [by apply (view_live sb V V' H2)|]. split; [apply (view_inode sb V V' H2), Hi|]. by apply (view_file sb V V' H1 H3 H4), (bl_file _ _ (dk_blocks _ _ Hdk)). }
  split_and!; [by apply (view_disk sb V V')| |exact Hl|intros n; by apply (view_free sb V V')]. intros j Hj _. by apply Hl.
Qed.

(** ** Transactions with nobody else in one *)

Section Tx.
Context {S : Type} `{TxStore S}.
Context (home : Z -> bool).

Lemma wp_begin_op s V (Q : unit -> fs S -> Prop) :
  holds s (mkTx 0 home) V ∅ ∅ -> (forall t, holds (put_store t s) (mkTx 1 home) V ∅ ∅ -> Q tt (put_store t s)) -> wp begin_op Q s.
Proof.
  intros Hh HQ. unfold begin_op. apply wp_lift. eapply wp_mono; [apply (tx_begin_op_ok _ _ Hh)|].
  - cbn. rewrite size_empty. vm_compute. discriminate.
  - intros [] t Ht. by apply HQ.
Qed.

Lemma wp_end_op s V L (Q : unit -> fs S -> Prop) :
  holds s (mkTx 1 home) V ∅ L ->
  (forall t V', holds (put_store t s) (mkTx 0 home) V' ∅ ∅ -> (forall b, home b = true -> V' b = V b) -> Q tt (put_store t s)) -> wp end_op Q s.
Proof.
  intros Hh HQ. unfold end_op. apply wp_lift. eapply wp_mono; [by apply (tx_end_last_ok _ _ Hh)|].
  intros [] t (V' & Ht & HV). by apply (HQ t V').
Qed.
End Tx.
