(* ===== verification/Create.v ===== *)
(** * Making files and directories: [ialloc] and [create]

    [create] takes a free inode, stores it with one link, gives a new directory its
    two entries, and enters the name in the parent directory.  The tree of names
    gains that name and keeps every other. *)

From S2P Require Import Prelude KMonad CString Params Bio BioSpec Log LogSpec Crash LogOps Users Store Fs Kalloc Vm Proc Pipe Kern Sysfile FsSpec FileSpec Dinode Content ReadWrite Paths ICache Dirs Names Tree.

(** The inode that [ialloc] takes: the lowest free one from 1 on. *)
Definition first_inode (sb : superblock) (V : Z -> list Z) (i : Z) : Prop :=
  1 <= i < sb_ninodes sb /\ d_type (disk_inode sb V i) = 0 /\ forall j, 1 <= j < i -> d_type (disk_inode sb V j) ≠ 0.

Section Create.
Context {S : Type} `{TxStore S}.
Context (c : tx) (sb : superblock) (ic : list inode) (ut : utab) (cur : curproc).
Hypothesis Hly : layout_ok sb c.
Hypothesis Hopen : 0 < t_open c.
Context (devsw_read : Z -> option (nat -> Z -> M (fs S) (Z * list Z))).
Context (devsw_write : Z -> option (nat -> list Z -> Z -> M (fs S) Z)).
Local Abbreviation wst V L := (walk_st c sb V L ic ut cur).

Lemma walk_store V L s lk f t : wst V L s lk f -> holds (put_store t s) c V ∅ L -> wst V L (put_store t s) lk f.
Proof using. intros [? ? ? ? ?] Hh. by split. Qed.

Lemma walk_wf V L s lk f b : wst V L s lk f -> wf_block (V b).
Proof using. intros Hs. eapply holds_wf, Hs. Qed.

(** ** [ialloc] *)

(** One round of its loop. *)
Definition ialloc_try (type inum : Z) : M (fs S) (option nat) :=
  bp <- bread ROOTDEV (IBLOCK inum sb) ;;
  d <- read_data bp ;;
  let o := dinode_off inum in
  if d_type (read_dinode o d) =? 0 then
    write_data bp (set_le 1 (o + 1) (u8 type) (splice o (replicate 64 0) d)) ;;;
    log_write bp ;;;
    brelse bp ;;;
    ip <- iget ROOTDEV inum ;;
    ret (Some ip)
  else brelse bp ;;; ret None.

Lemma ialloc_skip V L s lk f type j (Q : option nat -> fs S -> Prop) : wst V L s lk f -> room ∅ L 1 -> 0 <= j < sb_ninodes sb ->
  d_type (disk_inode sb V j) ≠ 0 -> (forall t, wst V L (put_store t s) lk f -> Q None (put_store t s)) -> wp (ialloc_try type j) Q s.
Proof using Hly.
  intros Hs Hr Hj Ht HQ. destruct (ly_inodes _ _ Hly j Hj) as [Hhome _]. unfold ialloc_try. apply wp_bind.
  eapply (wp_bread _ c V ∅ L); [apply Hs|exact Hhome|intros i; by rewrite lookup_empty|exact Hr|]. intros i t Hi Hh1.
  apply wp_bind. eapply wp_read_data; [exact Hh1|apply lookup_insert_eq|]. fold (disk_inode sb V j). rewrite (proj2 (Z.eqb_neq _ _) Ht). apply wp_bind.
  eapply wp_brelse; [exact Hh1|apply lookup_insert_eq|]. intros t2 Hh2. rewrite delete_insert_id in Hh2 by done. apply wp_ret. apply HQ. by apply (walk_store V L s).
Qed.

(** A free inode is taken and cached in an entry that was free. *)
Lemma ialloc_take V L s lk f type i (Q : option nat -> fs S -> Prop) : wst V L s lk f -> room ∅ L 1 -> 0 <= i < sb_ninodes sb ->
  d_type (disk_inode sb V i) = 0 -> is_i8 type -> type ≠ 0 -> (exists j x, f_icache s !! j = Some x /\ i_ref x = 0) ->
  (forall s' k x, wst (alloc_dinode sb type i V) ({[IBLOCK i sb]} ∪ L) s' lk (more k f) -> f_icache s' !! k = Some x -> i_inum x = i -> 0 < i_ref x ->
     (forall j y, f_icache s !! j = Some y -> 0 < i_ref y -> j ≠ k /\ f_icache s' !! j = Some y) -> Q (Some k) s') ->
  wp (ialloc_try type i) Q s.
Proof using Hly Hopen.
  intros Hs Hr Hi Ht Hty Hty0 Hfree HQ. destruct (ly_inodes _ _ Hly i Hi) as [Hhome _]. unfold ialloc_try. apply wp_bind.
  eapply (wp_bread _ c V ∅ L); [apply Hs|exact Hhome|intros j; by rewrite lookup_empty|exact Hr|]. intros b t Hb Hh1.
  apply wp_bind. eapply wp_read_data; [exact Hh1|apply lookup_insert_eq|]. fold (disk_inode sb V i). rewrite Ht. change (0 =? 0) with true. cbv iota zeta.
  apply wp_assoc, wp_bind. eapply wp_write_log; [exact Hh1|apply lookup_insert_eq|apply (wf_alloc_block type i); [by eapply walk_wf|lia]|done|destruct Hr; lia|].
  intros t2 Hh2. apply wp_bind. eapply wp_brelse; [exact Hh2|apply lookup_insert_eq|]. intros t3 Hh3. rewrite delete_insert_id in Hh3 by done.
  fold (alloc_block type i (V (IBLOCK i sb))) in Hh3. fold (alloc_dinode sb type i V) in Hh3. set (V1 := alloc_dinode sb type i V) in *.
  assert (E1 : disk_inode sb V1 i = new_inode type) by (apply alloc_dinode_same; [by eapply walk_wf|lia|done]).
  assert (Hot : forall j, 0 <= j -> j ≠ i -> disk_inode sb V1 j = disk_inode sb V j) by (intros j Hj Hne; apply alloc_dinode_other; [by eapply walk_wf|lia|done|done]).
  assert (Hli : forall j, live sb V j -> j ≠ i) by (intros j [_ Hj] ->; by rewrite Ht in Hj).
  pose proof Hs as [W1 W2 W3 W4 W5]. apply wp_bind.
  eapply (iget_wp sb V1 _ lk f ic i); cbn [put_store f_icache].
  - eapply cache_view; [|exact W5]. intros j Hj. apply Hot; [apply Hj|by apply Hli].
  - split; [done|]. by rewrite E1.
  - done.
  - intros k x ic2 HC2 Hk Hin Hr2 Hkeep. apply wp_ret. eapply HQ; [by split|exact Hk|done|done|]. intros j y Hy Hy0.
    destruct (Hkeep j y Hy Hy0) as (r & Hj & Hle). destruct (so_use _ _ _ _ _ (ca_slot _ _ _ _ _ _ W5 _ _ Hy) Hy0) as [_ Hl].
    assert (Hne : j ≠ k). { intros ->. assert (Ex : x = set_ref r y) by congruence. apply (Hli _ Hl). by rewrite <- Hin, Ex. }
    split; [done|]. cbn [f_icache put_ic put_store]. rewrite Hj. f_equal. destruct (lookup_lt_is_Some_2 ic j) as [z Hz].
    { rewrite <- (ca_len _ _ _ _ _ _ HC2). by eapply lookup_lt_Some. }
    destruct (ca_ref _ _ _ _ _ _ HC2 _ _ _ Hz Hj) as (R1 & _), (ca_ref _ _ _ _ _ _ W5 _ _ _ Hz Hy) as (R2 & _).
    unfold more, one_ref in R1. rewrite decide_False in R1 by done. cbn [i_ref set_ref] in R1. replace r with (i_ref y) by lia. by destruct y.
Qed.

Lemma ialloc_wp V L s lk f type i (Q : nat -> fs S -> Prop) : wst V L s lk f -> room ∅ L 1 -> first_inode sb V i ->
  is_i8 type -> type ≠ 0 -> (exists j x, f_icache s !! j = Some x /\ i_ref x = 0) ->
  (forall s' k x, wst (alloc_dinode sb type i V) ({[IBLOCK i sb]} ∪ L) s' lk (more k f) -> f_icache s' !! k = Some x -> i_inum x = i -> 0 < i_ref x ->
     (forall j y, f_icache s !! j = Some y -> 0 < i_ref y -> j ≠ k /\ f_icache s' !! j = Some y) -> Q k s') ->
  wp (ialloc ROOTDEV type) Q s.
Proof using Hly Hopen.
  intros Hs Hr (Hi & Ht & Hlow) Hty Hty0 Hfree HQ. unfold ialloc. apply wp_bind, wp_gets. rewrite (wk_sb _ _ _ _ _ _ _ _ _ _ Hs). apply wp_bind.
  match goal with |- wp (for_until _ ?b) _ _ => change b with (ialloc_try type) end.
  assert (Hgo : forall n s a, wst V L s lk f -> 1 <= a -> a + Z.of_nat n = i -> (exists j x, f_icache s !! j = Some x /\ i_ref x = 0) ->
    (forall s' k x, wst (alloc_dinode sb type i V) ({[IBLOCK i sb]} ∪ L) s' lk (more k f) -> f_icache s' !! k = Some x -> i_inum x = i -> 0 < i_ref x ->
      (forall j y, f_icache s !! j = Some y -> 0 < i_ref y -> j ≠ k /\ f_icache s' !! j = Some y) -> Q k s') ->
    wp (for_until (seqZ a (sb_ninodes sb - a)) (ialloc_try type)) (fun r s' => wp (match r with Some ip => ret ip | None => panic "ialloc: no inodes" end) Q s') s).
  { clear s Hs Hfree HQ. induction n as [|n IH]; intros s a Hs Ha Hn Hfree HQ; rewrite seqZ_cons by lia; cbn [for_until]; apply wp_bind.
    - replace a with i by lia. eapply ialloc_take; [exact Hs|exact Hr|lia|done|done|done|done|]. intros s' k x H1 H2 H3 H4 H5. apply wp_ret, wp_ret. by eapply HQ.
    - eapply ialloc_skip; [exact Hs|exact Hr|lia|apply Hlow; lia|]. intros t Ht2. replace (Z.pred (sb_ninodes sb - a)) with (sb_ninodes sb - Z.succ a) by lia.
      apply IH; [done|lia|lia|done|done]. }
  apply (Hgo (Z.to_nat (i - 1)) s 1); try done; lia.
Qed.

(** ** Changes of a locked inode *)

Local Abbreviation lki V i r := (locked_inode sb V (c_pid cur) i r).

Lemma set_locked V V' i r : set_d (disk_inode sb V' i) (lki V i r) = lki V' i r.
Proof using. done. Qed.

(** [iupdate] after the fields of the entry, but neither size nor blocks, changed. *)
Lemma iupdate_walk V L s lk f k i r d (Q : unit -> fs S -> Prop) : wst V L s lk f -> disk_ok sb V -> f_icache s !! k = Some (lki V i r) -> 0 < r -> live sb V i ->
  dinode_ok d -> d_addrs d = d_addrs (disk_inode sb V i) -> d_size d = d_size (disk_inode sb V i) -> d_type d = d_type (disk_inode sb V i) ->
  (d_nlink (disk_inode sb V i) ≠ 0 -> d_nlink d ≠ 0) -> room ∅ L 1 ->
  (forall s' V', wst V' ({[IBLOCK i sb]} ∪ L) s' lk f -> disk_ok sb V' -> inode_step sb V i V' -> disk_inode sb V' i = d -> live sb V' i ->
     (forall b, sb_bmapstart sb <= b -> V' b = V b) -> f_icache s' = <[k := lki V' i r]> (f_icache s) -> Q tt s') ->
  wp (iupdate k) Q (put_ic (<[k := set_d d (lki V i r)]> (f_icache s)) s).
Proof using Hly Hopen.
  intros Hs [Hb Htr] Hk Hr Hi Hd Ea Es Et Hl Hroom HQ. pose proof Hs as [W1 W2 W3 W4 W5]. pose proof (lookup_lt_Some _ _ _ Hk) as Hkl.
  pose proof (fun b => walk_wf _ _ _ _ _ b Hs) as Hwf. destruct (put_dinode_step sb c V Hly Hwf Hb i d Hi Hd Ea Es) as [Hst Ed].
  eapply (iupdate_wp c sb Hly Hopen (f_icache s) ut cur k (lki V i r) Hkl eq_refl (proj1 Hi) _ d V L); [by split|apply (do_addrs _ Hd)|exact Hroom|].
  intros s' [E1 E2 E3 E4 Hh]. cbn [i_inum locked_inode] in Hh. fold (put_dinode sb i d V) in Hh. set (V' := put_dinode sb i d V) in *.
  assert (Hi' : live sb V' i) by (split; [apply Hi|rewrite Ed, Et; apply Hi]). pose proof (ly_bmap_in _ _ Hly) as Hbm. destruct (ly_inodes _ _ Hly i (proj1 Hi)) as [_ Hib].
  assert (Edata : forall b, sb_bmapstart sb <= b -> V' b = V b) by (intros b Hb'; apply upd_ne; lia).
  assert (Ebytes : file_bytes V' d = file_bytes V (disk_inode sb V i)).
  { rewrite <- (frame_bytes sb V V' (disk_inode sb V i)); [|by apply Hb|].
    - unfold file_bytes. rewrite Es. apply list_fmap_ext. intros p q _. unfold fbyte, faddr, ind_addr. by rewrite Ea.
    - intros b Ho. destruct (owns_data _ _ _ _ (bl_file _ _ Hb i Hi) Ho). apply Edata. lia. }
  assert (Eic : f_icache s' = <[k := lki V' i r]> (f_icache s)) by (rewrite E2; unfold lki; by rewrite <- Ed).
  apply (HQ s' V'); try done.
  - split; try done. rewrite Eic, <- (set_locked V V'). by apply (cache_step sb V V' i).
  - split; [by apply (blocks_step sb V V' i); [lia|..]|]. apply (tree_step sb V V' i); [lia|done|done|done| |].
    + intros _. rewrite Ed, Et. split; [apply Hi|done].
    + rewrite Ed, Et, Es, Ebytes. intros Hdir. destruct (Htr i (proj1 Hi) Hdir) as (_ & Hm & _). split; [done|]. intros de Hde _. by left.
Qed.

(** A locked inode as the theorems on files want it. *)
Lemma locked_open V L s lk f k i r : wst V L s lk f -> disk_ok sb V -> f_icache s !! k = Some (lki V i r) -> live sb V i ->
  d_type (disk_inode sb V i) ≠ T_DEV -> open_file s c V L k (lki V i r).
Proof using Hly Hopen.
  intros Hs [Hb _] Hk Hi Ht. pose proof Hs as [W1 W2 W3 W4 W5]. split; rewrite ?W1; try done; try apply Hb; try apply Hi; try done.
  split; [apply disk_inode_ok; [by eapply walk_wf|apply Hi]|done].
Qed.

Lemma elem_splice bytes e n i de : length bytes = (16 * n)%nat -> length e = 16%nat -> (i <= n)%nat ->
  de ∈ dirents (splice (16 * i) e bytes) -> de = e \/ de ∈ dirents bytes.
Proof using.
  intros Hb He Hi Hde. destruct (dirents_splice bytes e i n Hb He Hi) as (old & D1 & _ & D3). rewrite D3 in Hde.
  apply elem_of_app in Hde as [Hde|[->%list_elem_of_singleton|Hde]%elem_of_app]; [right|by left|right].
  - rewrite D1. apply elem_of_app. by left.
  - rewrite D1. apply elem_of_app. right. apply elem_of_app. by right.
Qed.

(** What entering a name did to the directory [a]. *)
Record entered (V : Z -> list Z) (a : Z) (V' : Z -> list Z) (name : list Z) (inum : Z) : Prop := {
  en_step : inode_step sb V a V';
  en_bytes : let b := file_bytes V (disk_inode sb V a) in file_bytes V' (disk_inode sb V' a) = splice (16 * free_slot b) (new_entry inum name) b;
  en_dinode : exists sz ad, disk_inode sb V' a = d_set_size sz (d_set_addrs ad (disk_inode sb V a)) /\ sz <= d_size (disk_inode sb V a) + 16;
  en_found : exists j, dir_find (cstrn 14 name) (file_bytes V' (disk_inode sb V' a)) = Some (j, new_entry inum name);
  en_others : forall nm, nm ≠ cstrn 14 name -> dir_find nm (file_bytes V' (disk_inode sb V' a)) = dir_find nm (file_bytes V (disk_inode sb V a)) }.

Lemma dirlink_walk V L s lk f k a r name inum (Q : Z -> fs S -> Prop) : wst V L s lk f -> disk_ok sb V -> f_icache s !! k = Some (lki V a r) -> 0 < r -> live sb V a ->
  d_type (disk_inode sb V a) = T_DIR -> d_size (disk_inode sb V a) + 16 <= MAXBYTES -> 0 < inum < 65536 -> live sb V inum -> d_nlink (disk_inode sb V inum) ≠ 0 ->
  readable 14 name = true -> Forall is_byte (cstrn 14 name) -> dir_find (cstrn 14 name) (file_bytes V (disk_inode sb V a)) = None ->
  (2 <= size (free_blocks sb V))%nat -> (size L + 9 <= log_capacity)%nat ->
  (forall s' V' L', wst V' L' s' lk f -> disk_ok sb V' -> entered V a V' name inum -> live sb V' a -> f_icache s' = <[k := lki V' a r]> (f_icache s) ->
     (size L' <= size L + 4)%nat -> (size (free_blocks sb V) <= size (free_blocks sb V') + 2)%nat -> Q 0 s') ->
  wp (dirlink devsw_read devsw_write k name inum) Q s.
Proof using Hly Hopen.
  intros Hs Hdk Hk Hr Ha Ht Hmax Hin Hli Hln Hrd Hby Hnone Hfree Hlog HQ. pose proof Hdk as [Hb Htr]. pose proof Hs as [W1 W2 W3 W4 W5].
  destruct (Htr a (proj1 Ha) Ht) as (Hfa & Hm & Hents). pose proof (ly_bmap_in _ _ Hly) as Hbm.
  assert (Hof : open_file s c V L k (lki V a r)) by (eapply locked_open; [exact Hs|done|done|done|by rewrite Ht]).
  eapply wp_mono; [apply (dirlink_spec s c V L k (lki V a r)); rewrite ?W1; try done|]. cbn [i_d locked_inode].
  set (d := disk_inode sb V a) in *. set (bytes := file_bytes V d) in *. rewrite W1.
  intros res s' (-> & V' & d' & L' & Hh & (G1 & G2 & G3 & G4) & Hsz & Hfr & HW & EB & F1 & F2).
  destruct (written_step sb c V Hly Hb (lki V a r) a V' d' _ _ eq_refl Ha HW) as [Hst Ed].
  assert (Ew : d' = d_set_size (d_size d') (d_set_addrs (d_addrs d') d)) by (pose proof (wn_size _ _ _ _ _ _ _ _ HW) as E; rewrite E; done).
  assert (Esz : d_size d' = Z.max (d_size d) (16 * Z.of_nat (free_slot bytes) + 16)).
  { pose proof (f_equal d_size (wn_size _ _ _ _ _ _ _ _ HW)) as E. cbn [d_size d_set_size d_set_addrs] in E. unfold zlen in E.
    by rewrite (proj1 (new_entry_ok inum name Hin)) in E. }
  assert (Hlb : length bytes = Z.to_nat (d_size d)) by (unfold bytes, file_bytes; by rewrite length_fmap, length_seqZ).
  pose proof (fo_size _ _ _ Hfa) as Hsize. pose proof (proj1 (free_slot_le bytes)) as Hslot.
  assert (Hl16 : length bytes = (16 * (length bytes / 16))%nat).
  { pose proof (Nat.div_mod_eq (length bytes) 16). assert (Hq : Z.of_nat (length bytes mod 16) = 0) by (rewrite Nat2Z.inj_mod, Hlb, Z2Nat.id by lia; done). lia. }
  assert (Hmod : d_size d' mod 16 = 0) by (rewrite Esz; mlia).
  assert (Hfields : d_type d' = d_type d /\ d_nlink d' = d_nlink d) by (rewrite Ew; done). destruct Hfields as [Ety Enl].
  assert (Ha' : live sb V' a) by (split; [apply Ha|rewrite Ed, Ety; apply Ha]).
  apply (HQ s' V' L'); try done.
  - split; try congruence. rewrite G1. rewrite <- Ed. by apply (cache_step sb V V' a).
  - split; [by apply (blocks_step sb V V' a); [lia|..]|]. apply (tree_step sb V V' a); [lia|done|done|done| |]; rewrite Ed.
    + intros _. rewrite Ety, Enl. split; [apply Ha|done].
    + intros _. split; [done|]. intros de Hde H0. rewrite EB in Hde.
      destruct (elem_splice bytes _ _ _ de Hl16 (proj1 (new_entry_ok inum name Hin)) Hslot Hde) as [->|Hold]; [right|by left].
      rewrite (proj1 (proj2 (new_entry_ok inum name Hin))). destruct (decide (inum = a)) as [->|Hne].
      * rewrite Ed, Enl. done.
      * split; [by apply (step_live' sb V V' a)|]. rewrite (is_other _ _ _ _ Hst); [done|apply Hli|done].
  - split; rewrite ?Ed; fold d bytes; try done; [|by eexists].
    exists (d_size d'), (d_addrs d'). split; [done|]. rewrite Esz. lia.
  - rewrite G1. f_equal. unfold lki. by rewrite <- Ed.
Qed.

(** Writing to a file that is not a directory. *)
Lemma writei_walk V L s lk f k a r src off n kk (Q : Z -> fs S -> Prop) : wst V L s lk f -> disk_ok sb V -> f_icache s !! k = Some (lki V a r) -> 0 < r -> live sb V a ->
  d_type (disk_inode sb V a) = T_FILE -> 0 <= off <= d_size (disk_inode sb V a) -> 0 <= n <= zlen src -> off + n <= MAXBYTES -> Forall is_byte src ->
  off mod BSIZE + n <= BSIZE * Z.of_nat kk -> (2 * kk <= size (free_blocks sb V))%nat -> (size L + kk + 8 <= log_capacity)%nat ->
  (forall s' V' L', wst V' L' s' lk f -> disk_ok sb V' -> inode_step sb V a V' -> live sb V' a -> f_icache s' = <[k := lki V' a r]> (f_icache s) ->
     (exists ad, disk_inode sb V' a = d_set_size (Z.max (d_size (disk_inode sb V a)) (off + n)) (d_set_addrs ad (disk_inode sb V a))) ->
     file_bytes V' (disk_inode sb V' a) = splice (Z.to_nat off) (take (Z.to_nat n) src) (file_bytes V (disk_inode sb V a)) ->
     (size L' <= size L + kk + 3)%nat -> (size (free_blocks sb V) <= size (free_blocks sb V') + 2 * kk)%nat -> Q n s') ->
  wp (writei devsw_write k src off n) Q s.
Proof using Hly Hopen.
  intros Hs Hdk Hk Hr Ha Ht Hoff Hn Hmax Hby Hkk Hfree Hlog HQ. pose proof Hdk as [Hb Htr]. pose proof Hs as [W1 W2 W3 W4 W5]. pose proof (ly_bmap_in _ _ Hly) as Hbm.
  assert (Hof : open_file s c V L k (lki V a r)) by (eapply locked_open; [exact Hs|done|done|done|by rewrite Ht]).
  destruct (open_file_st _ _ _ _ _ _ Hof) as [Hst Hip]. destruct Hof as [Oly Oop _ Om _ Odev Oin Ook [Od Oc] Ot]. rewrite W1 in *. cbn [i_d locked_inode] in *.
  set (d := disk_inode sb V a) in *. eapply wp_mono; [eapply (writei_wp c sb Hly Hopen (f_icache s) (f_ut s) (f_cur s) k (lki V a r) Hip Odev Oin devsw_write s d V L src off n kk); try assumption|].
  intros res s' (-> & V' & d' & L' & [E1 E2 E3 E4 Hh] & HW & Hsz & Hfr).
  destruct (written_step sb c V Hly Hb (lki V a r) a V' d' _ _ eq_refl Ha HW) as [Hstep Ed].
  assert (Hz : zlen (take (Z.to_nat n) src) = n) by (unfold zlen in *; rewrite length_take; lia).
  pose proof (wn_size _ _ _ _ _ _ _ _ HW) as Ew. rewrite Hz in Ew.
  assert (Hfields : d_type d' = d_type d /\ d_nlink d' = d_nlink d) by (rewrite Ew; done). destruct Hfields as [Ety Enl].
  assert (Ha' : live sb V' a) by (split; [apply Ha|rewrite Ed, Ety; apply Ha]).
  apply (HQ s' V' L'); try assumption.
  - split; try congruence. rewrite E2, <- Ed. by apply (cache_step sb V V' a).
  - split; [by apply (blocks_step sb V V' a); [lia|..]|]. apply (tree_step sb V V' a); [lia|done|done|done| |]; rewrite Ed, Ety.
    + intros _. rewrite Enl. split; [apply Ha|done].
    + rewrite Ht. done.
  - rewrite E2. f_equal. unfold lki. by rewrite <- Ed.
  - exists (d_addrs d'). by rewrite Ed.
  - rewrite Ed. apply (wn_bytes _ _ _ _ _ _ _ _ HW).
Qed.

(** ** A new inode *)

(** The inode that [create] stores, with no contents yet. *)
Definition made_dinode (type major minor : Z) : dinode := mkDinode 0 type (i16 major) (i16 minor) 1 0 (replicate NADDRS 0) 0.

Lemma empty_bytes V d : d_size d = 0 -> file_bytes V d = [].
Proof using. intros E. unfold file_bytes. by rewrite E. Qed.

Lemma wp_upd_d s k g x (Q : unit -> fs S -> Prop) : f_icache s !! k = Some x ->
  Q tt (put_ic (<[k := set_d (g (i_d x)) x]> (f_icache s)) s) -> wp (upd_d k g) Q s.
Proof using. intros E HQ. unfold upd_d. by eapply wp_upd_inode. Qed.

Lemma made_dinode_ok type major minor : is_i8 type -> dinode_ok (made_dinode type major minor).
Proof using. intros Ht. split; try done; try apply i16_range. split; [done|]. by apply Forall_replicate. Qed.

(** [ialloc] as seen by the tree. *)
Lemma alloc_disk V type i : layout_ok sb c -> (forall b, wf_block (V b)) -> disk_ok sb V -> first_inode sb V i -> is_i8 type -> type ≠ 0 ->
  let V1 := alloc_dinode sb type i V in inode_step sb V i V1 /\ disk_inode sb V1 i = new_inode type /\ disk_ok sb V1 /\ live sb V1 i /\ forall b, sb_bmapstart sb <= b -> V1 b = V b.
Proof using.
  intros Hl Hwf [Hb Htr] (Hi & Hfree & _) Ht Ht0 V1. pose proof (ly_bmap_in _ _ Hl) as Hbm.
  destruct (alloc_dinode_step sb c V Hl Hwf Hb type i ltac:(lia) Ht) as [Hst Ed]. fold V1 in Hst, Ed.
  destruct (ly_inodes _ _ Hl i ltac:(lia)) as [_ Hib]. split; [done|]. split; [done|]. split; [|split].
  - split; [by apply (blocks_step sb V V1 i); [lia|..]|]. apply (tree_step sb V V1 i); [lia|done|done|done| |].
    + intros [_ Hn]. by rewrite Hfree in Hn.
    + rewrite Ed. intros _. split; [done|]. rewrite empty_bytes by done. intros de Hde. by apply elem_of_nil in Hde.
  - split; [lia|]. by rewrite Ed.
  - intros b Hb'. apply upd_ne. lia.
Qed.

Lemma fresh_wp {B} V L s f k dp r type major minor i (K : nat -> M (fs S) B) (Q : B -> fs S -> Prop) :
  wst V L s {[k]} f -> disk_ok sb V -> f_icache s !! k = Some (lki V dp r) -> 0 < r -> live sb V dp -> first_inode sb V i ->
  is_i8 type -> type ≠ 0 -> (exists j x, f_icache s !! j = Some x /\ i_ref x = 0) -> (size L + 4 <= log_capacity)%nat ->
  (forall s' V' L' k2 r2, wst V' L' s' ({[k2]} ∪ {[k]}) (more k2 f) -> disk_ok sb V' -> k2 ≠ k ->
     f_icache s' !! k2 = Some (lki V' i r2) -> 0 < r2 -> f_icache s' !! k = Some (lki V' dp r) ->
     live sb V' i -> disk_inode sb V' i = made_dinode type major minor -> kept_but sb (fun j => j = i) V V' ->
     (forall b, sb_bmapstart sb <= b -> V' b = V b) -> (size L' <= size L + 2)%nat -> wp (K k2) Q s') ->
  wp (ip <- ialloc ROOTDEV type ;; ilock ip ;;; upd_d ip (d_set_dev (i16 major) (i16 minor)) ;;; upd_d ip (d_set_nlink 1) ;;; iupdate ip ;;; K ip) Q s.
Proof using Hly Hopen.
  intros Hs Hdk Hk Hr Hdp Hfi Ht Ht0 Hfree Hlog HQ. pose proof (fun b => walk_wf _ _ _ _ _ b Hs) as Hwf. pose proof (ly_bmap_in _ _ Hly) as Hbm.
  destruct (alloc_disk V type i Hly Hwf Hdk Hfi Ht Ht0) as (Hst1 & Ed1 & Hdk1 & Hi1 & Edat1). set (V1 := alloc_dinode sb type i V) in *.
  assert (Hroom : forall n M, (size M + n < log_capacity)%nat -> room ∅ M n) by (intros n M Hn; split; [done|rewrite map_size_empty; lia]).
  apply wp_bind. eapply ialloc_wp; [exact Hs|apply Hroom; lia|exact Hfi|done|done|done|]. fold V1. intros s1 k2 x Hs1 Hk2 Hin Hrx Hkeep.
  set (L1 := {[IBLOCK i sb]} ∪ L) in *. pose proof (size_one_le (IBLOCK i sb) L) as HL1. fold L1 in HL1.
  destruct (Hkeep k _ Hk Hr) as [Hne Hk1]. pose proof Hs1 as [W1 W2 W3 W4 W5].
  assert (Hdi : dp ≠ i) by (intros ->; destruct Hfi as (_ & E & _), Hdp as [_ Hn]; by rewrite E in Hn).
  assert (Edp : disk_inode sb V1 dp = disk_inode sb V dp) by (apply (is_other _ _ _ _ Hst1); [apply Hdp|done]).
  apply wp_bind. eapply (ilock_wp c sb V1 L1 Hly (Hroom 0%nat L1 ltac:(lia))); [exact W5|apply not_in_one; exact Hne|exact Hk2|exact Hrx|exact W1|exact W4|].
  rewrite Hin, W3. intros t ic2 HC2 Hk2' Hoth2 Hh2. set (s2 := put_store t (put_ic ic2 s1)) in *. set (r2 := i_ref x) in *.
  assert (Hs2 : wst V1 L1 s2 ({[k2]} ∪ {[k]}) (more k2 f)) by (by split).
  pose proof (lookup_lt_Some _ _ _ Hk2') as Hkl.
  apply wp_bind. eapply wp_upd_d; [exact Hk2'|]. apply wp_bind. eapply wp_upd_d; [by apply list_lookup_insert_eq|]. cbn [put_ic f_icache f_store f_sb f_ut f_cur]. rewrite list_insert_insert_eq.
  set (d := made_dinode type major minor).
  match goal with |- wp _ _ ?st => replace st with (put_ic (<[k2 := set_d d (lki V1 i r2)]> (f_icache s2)) s2) end.
  2: { unfold put_ic. cbn [f_store f_sb f_ut f_cur f_icache]. f_equal. f_equal. cbn [i_d set_d locked_inode]. rewrite Ed1. done. }
  apply wp_bind. eapply (iupdate_walk V1 L1 s2 _ _ k2 i r2 d); [exact Hs2|done|exact Hk2'|done|done|by apply made_dinode_ok|by rewrite Ed1..|done|apply Hroom; lia|].
  intros s3 V3 Hs3 Hdk3 Hst3 Ed3 Hi3 Edat3 Eic3. pose proof (size_one_le (IBLOCK i sb) L1) as HL3.
  assert (Edp3 : disk_inode sb V3 dp = disk_inode sb V dp) by (rewrite (is_other _ _ _ _ Hst3); [done|apply Hdp|done]).
  eapply (HQ s3 V3 _ k2 r2); [exact Hs3|done|done| |done| |done|done| | |lia].
  - rewrite Eic3. by apply list_lookup_insert_eq.
  - rewrite Eic3, list_lookup_insert_ne by done. cbn [f_icache s2 put_store put_ic]. rewrite Hoth2 by done. rewrite Hk1. unfold lki. by rewrite Edp3.
  - eapply kept_but_trans; [by eapply (kept_step sb V V1 i); [lia|apply Hdk|..]|by eapply (kept_step sb V1 V3 i); [lia|apply Hdk1|..]].
  - intros b Hb'. rewrite Edat3 by done. by apply Edat1.
Qed.

(** ** The entries of a new directory *)

Definition dots_bytes (i dp : Z) : list Z := new_entry i s_dot ++ new_entry dp s_dotdot.

Lemma free_slot_nil : free_slot [] = 0%nat.
Proof using. done. Qed.

Lemma free_slot_one e : length e = 16%nat -> de_inum e ≠ 0 -> free_slot e = 1%nat.
Proof using. intros He H0. unfold free_slot. rewrite dirents_one by done. cbn [list_find]. rewrite decide_False by done. by rewrite He. Qed.

Lemma dir_find_one nm e : length e = 16%nat -> cstrn 14 (de_name e) ≠ nm -> dir_find nm e = None.
Proof using. intros He Hn. unfold dir_find. rewrite dirents_one by done. cbn [list_find]. rewrite decide_False; [done|]. by intros [_ ?]. Qed.

Lemma live_le V i : live sb V i -> 0 <= i < sb_ninodes sb.
Proof using. by intros [? _]. Qed.

(** The state between two changes of the tree: entry [k] is the locked directory
    [dp], entry [k2] the locked new inode [i]. *)
Record making V (L : gset Z) (lk : gset nat) (f : nat -> Z) (s : fs S) (k : nat) (dp r : Z) (k2 : nat) (i r2 : Z) : Prop := {
  mk_walk : wst V L s lk f;
  mk_disk : disk_ok sb V;
  mk_ne : k2 ≠ k /\ i ≠ dp;
  mk_dir : f_icache s !! k = Some (lki V dp r) /\ 0 < r /\ live sb V dp /\ d_type (disk_inode sb V dp) = T_DIR;
  mk_new : f_icache s !! k2 = Some (lki V i r2) /\ 0 < r2 /\ live sb V i }.

(** A change of one of the two, with the entry following it. *)
Lemma making_step V L lk f s k dp r k2 i r2 s' V' L' : making V L lk f s k dp r k2 i r2 -> wst V' L' s' lk f -> disk_ok sb V' ->
  (inode_step sb V i V' /\ live sb V' i /\ f_icache s' = <[k2 := lki V' i r2]> (f_icache s)
   \/ inode_step sb V dp V' /\ d_type (disk_inode sb V' dp) = T_DIR /\ f_icache s' = <[k := lki V' dp r]> (f_icache s)) ->
  making V' L' lk f s' k dp r k2 i r2.
Proof using.
  intros [M1 M2 [M3 M3'] (M4 & M5 & M6 & M7) (M8 & M9 & M10)] Hw Hd [(Hst & Hl & Ei)|(Hst & Ht & Ei)].
  - assert (E : disk_inode sb V' dp = disk_inode sb V dp) by (apply (is_other _ _ _ _ Hst); [apply M6|done]).
    split; rewrite ?Ei; [exact Hw|exact Hd|by split|split_and!; [|exact M5| |by rewrite E]|split_and!; [|exact M9|exact Hl]].
    + rewrite list_lookup_insert_ne by done. rewrite M4. unfold lki. by rewrite E.
    + by apply (step_live' sb V V' i).
    + apply list_lookup_insert_eq. by eapply lookup_lt_Some.
  - assert (E : disk_inode sb V' i = disk_inode sb V i) by (apply (is_other _ _ _ _ Hst); [apply M10|done]).
    split; rewrite ?Ei; [exact Hw|exact Hd|by split|split_and!; [|exact M5| |exact Ht]|split_and!; [|exact M9|]].
    + apply list_lookup_insert_eq. by eapply lookup_lt_Some.
    + split; [apply M6|]. by rewrite Ht.
    + rewrite list_lookup_insert_ne by done. rewrite M8. unfold lki. by rewrite E.
    + by apply (step_live' sb V V' dp).
Qed.

(** [dirlink] of a name into the new directory. *)
Lemma dots_link V L lk f s k dp r k2 i r2 name inum (Q : Z -> fs S -> Prop) : making V L lk f s k dp r k2 i r2 ->
  d_type (disk_inode sb V i) = T_DIR -> d_size (disk_inode sb V i) + 16 <= MAXBYTES -> 0 < inum < 65536 -> live sb V inum -> d_nlink (disk_inode sb V inum) ≠ 0 ->
  readable 14 name = true -> Forall is_byte (cstrn 14 name) -> dir_find (cstrn 14 name) (file_bytes V (disk_inode sb V i)) = None ->
  (2 <= size (free_blocks sb V))%nat -> (size L + 9 <= log_capacity)%nat ->
  (forall s' V' L', making V' L' lk f s' k dp r k2 i r2 -> entered V i V' name inum -> (size L' <= size L + 4)%nat ->
     (size (free_blocks sb V) <= size (free_blocks sb V') + 2)%nat -> Q 0 s') ->
  wp (dirlink devsw_read devsw_write k2 name inum) Q s.
Proof using Hly Hopen.
  intros HM Ht Hmax Hin Hli Hln Hrd Hby Hnone Hfree Hlog HQ. pose proof HM as [M1 M2 _ _ (M8 & M9 & M10)].
  eapply (dirlink_walk V L s lk f k2 i r2); try done. intros s' V' L' Hs' Hdk' Hen Hl' Eic Hsz Hfr. apply (HQ s' V' L'); try done.
  eapply making_step; [exact HM|done|done|]. left. split; [apply (en_step _ _ _ _ _ Hen)|done].
Qed.

Definition dots (dp ip : nat) (i dpi : Z) : M (fs S) unit :=
  upd_d dp (fun d => d_set_nlink (i16 (d_nlink d + 1)) d) ;;;
  iupdate dp ;;;
  r <- dirlink devsw_read devsw_write ip s_dot i ;;
  if r <? 0 then panic "create dots"
  else
    r <- dirlink devsw_read devsw_write ip s_dotdot dpi ;;
    if r <? 0 then panic "create dots" else ret tt.

Lemma dots_wp V L lk f s k dp r k2 i r2 major minor (Q : unit -> fs S -> Prop) : making V L lk f s k dp r k2 i r2 ->
  disk_inode sb V i = made_dinode T_DIR major minor -> 0 < d_nlink (disk_inode sb V dp) < 32767 -> sb_ninodes sb <= 65536 -> 0 < i -> 0 < dp ->
  (4 <= size (free_blocks sb V))%nat -> (size L + 14 <= log_capacity)%nat ->
  (forall s' V' L', making V' L' lk f s' k dp r k2 i r2 ->
     disk_inode sb V' dp = d_set_nlink (d_nlink (disk_inode sb V dp) + 1) (disk_inode sb V dp) -> file_bytes V' (disk_inode sb V' dp) = file_bytes V (disk_inode sb V dp) ->
     (exists sz ad, disk_inode sb V' i = d_set_size sz (d_set_addrs ad (made_dinode T_DIR major minor))) -> file_bytes V' (disk_inode sb V' i) = dots_bytes i dp ->
     kept_but sb (fun j => j = dp \/ j = i) V V' -> (size L' <= size L + 9)%nat -> (size (free_blocks sb V) <= size (free_blocks sb V') + 4)%nat -> Q tt s') ->
  wp (dots k k2 i dp) Q s.
Proof using Hly Hopen.
  intros HM Ei Hnl Hmax Hi0 Hdp0 Hfree Hlog HQ. pose proof HM as [M1 M2 [M3 M3'] (M4 & M5 & M6 & M7) (M8 & M9 & M10)]. pose proof (ly_bmap_in _ _ Hly) as Hbm.
  set (dd := disk_inode sb V dp) in *. set (n := d_nlink dd) in *. unfold dots.
  assert (Hdd : dinode_ok dd) by (apply disk_inode_ok; [by eapply walk_wf|apply M6]).
  apply wp_bind. eapply wp_upd_d; [exact M4|]. cbn [i_d locked_inode]. fold dd n. rewrite i16_id by (unfold is_i16; lia).
  apply wp_bind. eapply (iupdate_walk V L s lk f k dp r); [exact M1|done|exact M4|done|done| | | | | | |]; fold dd; try done.
  { destruct Hdd. split; try done. unfold is_i16. cbn [d_nlink d_set_nlink]. lia. }
  { cbn [d_nlink d_set_nlink]. lia. }
  { split; [lia|rewrite map_size_empty; lia]. }
  intros s1 V1 Hs1 Hdk1 Hst1 Ed1 Hl1 Edat1 Eic1. set (L1 := {[IBLOCK dp sb]} ∪ L) in *. pose proof (size_one_le (IBLOCK dp sb) L) as HL1. fold L1 in HL1.
  assert (HM1 : making V1 L1 lk f s1 k dp r k2 i r2) by (eapply making_step; [exact HM|done|done|right; split; [done|]; by rewrite Ed1]).
  assert (Ei1 : disk_inode sb V1 i = made_dinode T_DIR major minor) by (rewrite (is_other _ _ _ _ Hst1); [done|apply M10|done]).
  assert (Efr1 : free_blocks sb V1 = free_blocks sb V) by (unfold free_blocks, allocated; by rewrite Edat1 by lia).
  assert (Ebd1 : file_bytes V1 (disk_inode sb V1 dp) = file_bytes V dd).
  { rewrite Ed1. rewrite <- (frame_bytes sb V V1 dd); [done|by apply (bl_file _ _ (dk_blocks _ _ M2))|].
    intros b Ho. destruct (owns_data _ _ _ _ (bl_file _ _ (dk_blocks _ _ M2) dp M6) Ho). apply Edat1. lia. }
  apply wp_bind. eapply (dots_link V1 L1 lk f s1 k dp r k2 i r2 s_dot i); [exact HM1| | | |apply HM1| | | | | | |].
  { by rewrite Ei1. } { by rewrite Ei1. } { pose proof (live_le _ _ M10). lia. } { by rewrite Ei1. } { done. } { by repeat constructor. }
  { by rewrite Ei1, empty_bytes. } { rewrite Efr1. lia. } { lia. }
  intros s2 V2 L2 HM2 [St2 Eb2 (sz2 & ad2 & Ed2 & Hsz2) _ _] HL2 Hfr2. cbv zeta in Eb2. rewrite Ei1, (empty_bytes V1 (made_dinode T_DIR major minor) eq_refl), free_slot_nil in Eb2. rewrite Ei1 in Ed2, Hsz2. cbn [d_size made_dinode] in Hsz2.
  change (splice (16 * 0) (new_entry i s_dot) []) with (new_entry i s_dot ++ []) in Eb2. rewrite app_nil_r in Eb2. change (0 <? 0) with false. cbv iota.
  destruct (new_entry_ok i s_dot ltac:(pose proof (live_le _ _ M10); lia)) as (N1 & N2 & N3).
  assert (Edp2 : disk_inode sb V2 dp = d_set_nlink (n + 1) dd) by (rewrite (is_other _ _ _ _ St2); [done|apply M6|done]).
  assert (Ebd2 : file_bytes V2 (disk_inode sb V2 dp) = file_bytes V dd).
  { destruct (step_other sb V1 V2 i ltac:(lia) (dk_blocks _ _ Hdk1) St2 dp Hl1 ltac:(done)) as (E1 & _ & E2 & _). by rewrite E1, E2. }
  apply wp_bind. eapply (dots_link V2 L2 lk f s2 k dp r k2 i r2 s_dotdot dp); [exact HM2| | | |apply HM2| | | | | | |].
  { by rewrite Ed2. } { rewrite Ed2. cbn [d_size d_set_size]. change MAXBYTES with 71168. lia. } { pose proof (live_le _ _ M6). lia. } { rewrite Edp2. cbn [d_nlink d_set_nlink]. lia. } { done. } { by repeat constructor. }
  { rewrite Eb2. apply dir_find_one; [done|]. by rewrite N3. } { rewrite Efr1 in Hfr2. lia. } { lia. }
  intros s3 V3 L3 HM3 [St3 Eb3 (sz3 & ad3 & Ed3 & _) _ _] HL3 Hfr3. change (0 <? 0) with false. cbv iota. apply wp_ret.
  cbv zeta in Eb3. rewrite Eb2, (free_slot_one _ N1) in Eb3 by (rewrite N2; lia).
  assert (Esp : splice (16 * 1) (new_entry dp s_dotdot) (new_entry i s_dot) = dots_bytes i dp).
  { unfold splice, dots_bytes. rewrite take_ge, drop_ge by lia. by rewrite app_nil_r. }
  rewrite Esp in Eb3. pose proof (mk_disk _ _ _ _ _ _ _ _ _ _ _ HM2) as Hdk2. pose proof (mk_dir _ _ _ _ _ _ _ _ _ _ _ HM2) as (_ & _ & Hl2 & _).
  destruct (step_other sb V2 V3 i ltac:(lia) (dk_blocks _ _ Hdk2) St3 dp Hl2 ltac:(done)) as (E1 & _ & E2 & _).
  apply (HQ s3 V3 L3); [exact HM3| | | |exact Eb3| | |].
  - by rewrite E1.
  - by rewrite E1, E2.
  - rewrite Ed2 in Ed3. by exists sz3, ad3.
  - eapply kept_but_trans; [eapply (kept_step sb V V1 dp); [lia|apply M2|done|by left]|].
    eapply kept_but_trans; [eapply (kept_step sb V1 V2 i); [lia|apply Hdk1|done|by right]|eapply (kept_step sb V2 V3 i); [lia|apply Hdk2|done|by right]].
  - lia.
  - rewrite Efr1 in Hfr2. lia.
Qed.

(** ** The name *)

(** What [create] of [nm] in directory [dp] does to the disk: [i] was free and is
    the new file or directory. *)
Record created (V : Z -> list Z) (dp : Z) (nm : list Z) (type major minor i : Z) (V' : Z -> list Z) : Prop := {
  cr_disk : disk_ok sb V';
  cr_named : named sb V dp nm i V';
  cr_free : first_inode sb V i;
  cr_live : live sb V' i;
  cr_inode : exists sz ad, disk_inode sb V' i = d_set_size sz (d_set_addrs ad (made_dinode type major minor));
  cr_bytes : file_bytes V' (disk_inode sb V' i) = if type =? T_DIR then dots_bytes i dp else [];
  cr_links : d_nlink (disk_inode sb V' dp) = d_nlink (disk_inode sb V dp) + (if type =? T_DIR then 1 else 0) }.

(** The body of [create] after the name was not found in a writable directory. *)
Definition make (dp : nat) (name : list Z) (dpi type major minor : Z) : M (fs S) (option nat) :=
  ip <- ialloc ROOTDEV type ;;
  ilock ip ;;;
  upd_d ip (d_set_dev (i16 major) (i16 minor)) ;;;
  upd_d ip (d_set_nlink 1) ;;;
  iupdate ip ;;;
  x <- get_inode ip ;;
  when (type =? T_DIR) (dots dp ip (i_inum x) dpi) ;;;
  r <- dirlink devsw_read devsw_write dp name (i_inum x) ;;
  if r <? 0 then panic "create: dirlink"
  else iunlockput dp ;;; ret (Some ip).

(** After the new inode is complete: [V0] is the disk at the start. *)
Lemma link_wp V0 V L lk f s k dp r k2 i r2 name type major minor (Q : option nat -> fs S -> Prop) : making V L lk f s k dp r k2 i r2 -> disk_ok sb V0 -> live sb V0 dp -> first_inode sb V0 i ->
  lk = {[k2]} ∪ {[k]} -> 1 <= f k -> 0 < i < 65536 -> d_nlink (disk_inode sb V i) = 1 -> d_nlink (disk_inode sb V dp) ≠ 0 \/ (exists y, ic !! k = Some y /\ 0 < i_ref y) ->
  d_size (disk_inode sb V dp) + 16 <= MAXBYTES -> readable 14 name = true -> Forall is_byte (cstrn 14 name) -> dir_find (cstrn 14 name) (file_bytes V0 (disk_inode sb V0 dp)) = None ->
  (2 <= size (free_blocks sb V))%nat -> (size L + 9 <= log_capacity)%nat ->
  kept_but sb (fun j => j = dp \/ j = i) V0 V -> (exists sz ad, disk_inode sb V i = d_set_size sz (d_set_addrs ad (made_dinode type major minor))) ->
  file_bytes V (disk_inode sb V i) = (if type =? T_DIR then dots_bytes i dp else []) ->
  disk_inode sb V dp = d_set_nlink (d_nlink (disk_inode sb V0 dp) + (if type =? T_DIR then 1 else 0)) (disk_inode sb V0 dp) -> file_bytes V (disk_inode sb V dp) = file_bytes V0 (disk_inode sb V0 dp) ->
  (forall s' V' L', wst V' L' s' {[k2]} (less k f) -> created V0 dp (cstrn 14 name) type major minor i V' -> f_icache s' !! k2 = Some (lki V' i r2) -> 0 < r2 ->
     (size L' <= size L + 4)%nat -> (size (free_blocks sb V) <= size (free_blocks sb V') + 2)%nat -> Q (Some k2) s') ->
  wp (r <- dirlink devsw_read devsw_write k name i ;; if r <? 0 then panic "create: dirlink" else iunlockput k ;;; ret (Some k2)) Q s.
Proof using Hly Hopen.
  intros HM Hdk0 Hdp0 Hfi -> Hf Hi Hnl Hlink Hmax Hrd Hby Hnone Hfree Hlog Hkept (sz & ad & Ed) Ebytes Edp Ebdp HQ. pose proof (ly_bmap_in _ _ Hly) as Hbm.
  pose proof HM as [M1 M2 [M3 M3'] (M4 & M5 & M6 & M7) (M8 & M9 & M10)].
  apply wp_bind. eapply (dirlink_walk V L s _ f k dp r name i); try done; [by rewrite Hnl|by rewrite Ebdp|].
  intros s1 V1 L1 Hs1 Hdk1 [St Eb (sz1 & ad1 & Ed1 & _) (jj & Hfd) Hoth] Hl1 Eic1 HL1 Hfr1. change (0 <? 0) with false. cbv iota.
  destruct (step_other sb V V1 dp ltac:(lia) (dk_blocks _ _ M2) St i M10 ltac:(done)) as (Ei1 & _ & Eb1 & _).
  assert (HM1 : making V1 L1 ({[k2]} ∪ {[k]}) f s1 k dp r k2 i r2) by (eapply making_step; [exact HM|done|done|right; split; [done|]; by rewrite Ed1]).
  destruct HM1 as [_ _ _ (N4 & N5 & N6 & N7) (N8 & N9 & N10)].
  apply wp_bind. eapply (iunlockput_wp c sb V1 L1 ic ut cur s1 _ f k dp r); [exact Hs1|exact N4|done|done| |].
  { destruct Hlink as [Hn|Hy]; [left; by rewrite Ed1|by right]. }
  intros ic2 Hs2 Eic2. apply wp_ret. rewrite (unlock_pair k k2 M3) in Hs2.
  apply (HQ _ V1 L1); [exact Hs2| |rewrite Eic2; cbn [f_icache put_ic]; by rewrite list_lookup_insert_ne|done|lia|lia].
  destruct (new_entry_ok i name Hi) as (_ & E2 & _). split; [exact Hdk1| |exact Hfi|exact N10| | |].
  - split.
    + rewrite Ed1, Edp. done.
    + exists jj, (new_entry i name). done.
    + intros nm' Hne. rewrite Hoth by done. by rewrite Ebdp.
    + intros j Hj Hne. assert (Hji : j ≠ i) by (intros ->; destruct Hfi as (_ & E & _), Hj as [_ Hn]; by rewrite E in Hn).
      destruct (Hkept j Hj ltac:(by intros [|])) as (K1 & K2 & K3). destruct (step_other sb V V1 dp ltac:(lia) (dk_blocks _ _ M2) St j K1 Hne) as (E1 & _ & E3 & _).
      rewrite K2 in E1, E3. rewrite E1, E3. done.
  - rewrite Ei1. by exists sz, ad.
  - rewrite Ei1, Eb1. done.
  - rewrite Ed1, Edp. done.
Qed.

Lemma make_wp V L s f k dp r name type major minor i (Q : option nat -> fs S -> Prop) : wst V L s {[k]} f -> disk_ok sb V -> f_icache s !! k = Some (lki V dp r) -> 0 < r -> 1 <= f k ->
  d_nlink (disk_inode sb V dp) ≠ 0 \/ (exists y, ic !! k = Some y /\ 0 < i_ref y) -> live sb V dp -> d_type (disk_inode sb V dp) = T_DIR -> d_size (disk_inode sb V dp) + 16 <= MAXBYTES ->
  readable 14 name = true -> Forall is_byte (cstrn 14 name) -> dir_find (cstrn 14 name) (file_bytes V (disk_inode sb V dp)) = None ->
  first_inode sb V i -> sb_ninodes sb <= 65536 -> is_i8 type -> type ≠ 0 -> (type = T_DIR -> 0 < d_nlink (disk_inode sb V dp) < 32767 /\ 0 < dp) ->
  (6 <= size (free_blocks sb V))%nat -> (size L + 20 <= log_capacity)%nat -> (exists j x, f_icache s !! j = Some x /\ i_ref x = 0) ->
  (forall s' V' L' k2 r2, wst V' L' s' {[k2]} (less k (more k2 f)) -> created V dp (cstrn 14 name) type major minor i V' -> f_icache s' !! k2 = Some (lki V' i r2) -> 0 < r2 ->
     (size L' <= size L + 15)%nat -> (size (free_blocks sb V) <= size (free_blocks sb V') + 6)%nat -> Q (Some k2) s') ->
  wp (make k name dp type major minor) Q s.
Proof using Hly Hopen.
  intros Hs Hdk Hk Hr Hf Hlink Hdp Ht Hmax Hrd Hby Hnone Hfi Hn Hty Hty0 Hdir Hfree Hlog Hent HQ. pose proof (ly_bmap_in _ _ Hly) as Hbm.
  assert (Hdi : i ≠ dp) by (intros ->; destruct Hfi as (_ & E & _), Hdp as [_ Hx]; by rewrite E in Hx).
  assert (Hi : 0 < i < 65536) by (destruct Hfi as (? & _); lia).
  unfold make. eapply (fresh_wp V L s f k dp r); try done; [lia|]. intros s1 V1 L1 k2 r2 Hs1 Hdk1 Hne Hk2 Hr2 Hk1 Hi1 Ed1 Hkept1 Edat1 HL1.
  destruct (Hkept1 dp Hdp ltac:(done)) as (Ldp & Edp & Ebdp).
  assert (HM : making V1 L1 ({[k2]} ∪ {[k]}) (more k2 f) s1 k dp r k2 i r2) by (split; try done; split_and!; try done; by rewrite Edp).
  assert (Hkept : kept_but sb (fun j => j = dp \/ j = i) V V1) by (eapply kept_weaken; [|exact Hkept1]; by right).
  assert (Efr : free_blocks sb V1 = free_blocks sb V) by (unfold free_blocks, allocated; by rewrite Edat1 by lia).
  assert (Hfk : 1 <= more k2 f k) by (unfold more, one_ref; rewrite decide_False by done; lia).
  assert (Ei : i_inum (lki V1 i r2) = i) by done.
  apply wp_bind. eapply wp_get_inode; [exact Hk2|]. rewrite Ei. apply wp_bind. destruct (Z.eqb_spec type T_DIR) as [->|Hnd]; cbn [when].
  - destruct (Hdir eq_refl) as [Hnl Hdp0]. eapply (dots_wp V1 L1 _ _ s1 k dp r k2 i r2 major minor); [exact HM|done|by rewrite Edp|done|lia|done|rewrite Efr; lia|lia|].
    intros s2 V2 L2 HM2 Edp2 Ebd2 (sz & ad & Ed2) Eb2 Hkept2 HL2 Hfr2. rewrite Edp in Edp2, Ebd2.
    eapply (link_wp V V2 L2 _ _ s2 k dp r k2 i r2 name T_DIR major minor); [exact HM2|done|done|done|done|done|done|by rewrite Ed2| | |done|done|done|rewrite Efr in Hfr2; lia|lia| |by eexists _, _|done|done|by rewrite Ebd2|].
    + left. rewrite Edp2. cbn [d_nlink d_set_nlink]. lia.
    + by rewrite Edp2.
    + eapply kept_but_trans; [exact Hkept|done].
    + intros s3 V3 L3 Hs3 Hcr Hk3 Hr3 HL3 Hfr3. rewrite Efr in *. eapply HQ; [exact Hs3|done|done|done|lia|lia].
  - apply wp_ret. assert (Eif : (type =? T_DIR) = false) by (by apply Z.eqb_neq).
    eapply (link_wp V V1 L1 _ _ s1 k dp r k2 i r2 name type major minor); rewrite ?Eif; [exact HM|done|done|done|done|done|done|by rewrite Ed1| | |done|done|done|rewrite Efr; lia|lia|done| | | | |].
    + destruct Hlink; [left|by right]. by rewrite Edp.
    + by rewrite Edp.
    + exists 0, (replicate NADDRS 0). by rewrite Ed1.
    + by rewrite Ed1, empty_bytes.
    + rewrite Edp, Z.add_0_r. by destruct (disk_inode sb V dp).
    + by rewrite Edp, Ebdp.
    + intros s3 V3 L3 Hs3 Hcr Hk3 Hr3 HL3 Hfr3. rewrite Efr in *. eapply HQ; [exact Hs3|done|done|done|lia|lia].
Qed.
End Create.

(** ** The theorem *)

Definition may_write (cur : curproc) (d : dinode) : bool := has_write_permission cur (mkInode 0 0 0 initsleeplock true d).

(** A process in a transaction of its own, on a disk in order. *)
Record create_ready {S} `{TxStore S} (s : fs S) (c : tx) (V : Z -> list Z) (L : gset Z) : Prop := {
  ce_names : names_ready s c V L;
  ce_disk : disk_ok (f_sb s) V;
  ce_open : 0 < t_open c;
  ce_inodes : sb_ninodes (f_sb s) <= 65536;
  ce_free : (6 <= size (free_blocks (f_sb s) V))%nat;
  ce_log : (size L + 20 <= log_capacity)%nat }.

(** The directory has room for an entry and, for a directory, another link. *)
Definition dir_room (type dp : Z) (d : dinode) : Prop := d_size d + 16 <= MAXBYTES /\ (type = T_DIR -> 0 < d_nlink d < 32767 /\ 0 < dp).

Section Post.
Context {S : Type} `{TxStore S}.
Context (c : tx) (sb : superblock) (V : Z -> list Z) (L : gset Z) (ic : list inode) (ut : utab) (cur : curproc).

(** The inode of the path exists as [j] and is returned locked, if it may be written. *)
Definition create_old (type j : Z) (r : option nat) (s' : fs S) : Prop :=
  if (type =? T_FILE) && (d_type (disk_inode sb V j) =? T_FILE) then
    exists k q, r = (if may_write cur (disk_inode sb V j) then Some k else None) /\ walk_st c sb V L ic ut cur s' {[k]} (more k no_ref)
      /\ f_icache s' !! k = Some (locked_inode sb V (c_pid cur) j q)
  else r = None /\ walk_st c sb V L ic ut cur s' ∅ no_ref.

(** It is made. *)
Definition create_new (i0 : Z) (es : list (list Z)) (nm : list Z) (dp type major minor : Z) (r : option nat) (s' : fs S) : Prop :=
  exists k q V' L' i, r = Some k /\ created sb V dp nm type major minor i V' /\ walk_st c sb V' L' ic ut cur s' {[k]} (more k no_ref)
    /\ f_icache s' !! k = Some (locked_inode sb V' (c_pid cur) i q)
    /\ (size L' <= size L + 15)%nat /\ (size (free_blocks sb V) <= size (free_blocks sb V') + 6)%nat
    /\ resolve sb V' cur false i0 es = Some i
    /\ forall par j es' res, live sb V j -> resolve sb V cur par j es' = Some res -> resolve sb V' cur par j es' = Some res.

Definition create_post (i0 : Z) (es : list (list Z)) (type major minor : Z) (r : option nat) (s' : fs S) : Prop :=
  match resolve sb V cur true i0 es with
  | None => r = None /\ walk_st c sb V L ic ut cur s' ∅ no_ref
  | Some dp => exists e, last es = Some e /\
      match dir_find (take 14 e) (file_bytes V (disk_inode sb V dp)) with
      | Some (_, de) => create_old type (de_inum de) r s'
      | None => if may_write cur (disk_inode sb V dp) then create_new i0 es (take 14 e) dp type major minor r s'
                else r = None /\ walk_st c sb V L ic ut cur s' ∅ no_ref
      end
  end.
End Post.

Lemma elems_bytes P l : Forall P l -> Forall (Forall P) (elems l).
Proof.
  induction 1 as [|ch l Hc Hl IH]; [constructor|]. cbn [elems]. destruct (ch =? SLASH); [done|]. destruct l as [|c' l']; [by repeat constructor|].
  destruct (c' =? SLASH); [by repeat constructor|]. destruct (elems (c' :: l')) as [|e r]; [by repeat constructor|]. inversion IH. by repeat constructor.
Qed.

Section Old.
Context {S : Type} `{TxStore S}.
Context (s : fs S) (c : tx) (V : Z -> list Z) (L : gset Z).
Hypothesis Hnames : names_ready s c V L.
Context (devsw_read : Z -> option (nat -> Z -> M (fs S) (Z * list Z))).
Context (devsw_write : Z -> option (nat -> list Z -> Z -> M (fs S) Z)).
Local Abbreviation sb := (f_sb s).
Local Abbreviation cur := (f_cur s).
Local Abbreviation wst V L := (walk_st c (f_sb s) V L (f_icache s) (f_ut s) (f_cur s)).

Lemma start_live l i0 : start_at s l i0 -> live sb V i0.
Proof using Hnames.
  destruct Hnames as [N1 N2 N3 N4 N5 N6 N7]. unfold start_at. case_bool_decide; [intros ->; apply N5|].
  intros (k & x & _ & Hk & Hr & <-). apply (so_use _ _ _ _ _ (ca_slot _ _ _ _ _ _ N6 _ _ Hk) Hr).
Qed.

(** The name is in the directory. *)
Lemma create_old_wp s1 k dp r k2 j x type : wst V L s1 {[k]} (more k2 (more k no_ref)) -> f_icache s1 !! k = Some (locked_inode sb V (c_pid cur) dp r) -> 0 < r ->
  (d_nlink (disk_inode sb V dp) ≠ 0 \/ exists y, f_icache s !! k = Some y /\ 0 < i_ref y) -> at_inode sb V (f_icache s) s1 k2 j x ->
  wp (iunlockput k ;;; ilock k2 ;;; x <- get_inode k2 ;;
      if (type =? T_FILE) && (i_type x =? T_FILE) then
        cur <- gets f_cur ;; if negb (has_write_permission cur x) then ret None else ret (Some k2)
      else iunlockput k2 ;;; ret None) (create_old c sb V L (f_icache s) (f_ut s) cur type j) s1.
Proof using Hnames.
  intros Hs Hk Hr Hlink Hat. destruct Hnames as [N1 N2 N3 N4 N5 N6 N7].
  apply wp_bind. eapply (iunlockput_wp c sb V L); [exact Hs|exact Hk|done| |exact Hlink|].
  { unfold more at 1. pose proof (more_one k). unfold one_ref. case_decide; lia. }
  intros ic4 Hs4 E4. rewrite unlock_one in Hs4. destruct (at_after _ _ _ _ _ _ _ _ _ _ _ _ _ _ _ Hs Hk Hat Hs4 E4) as (y & Hs5 & [A1 A2 A3 A4]).
  set (s5 := put_ic ic4 s1) in *. pose proof Hs5 as [W1 W2 W3 W4 W5].
  apply wp_bind. eapply (ilock_wp c sb V L N1 N2); [exact W5|apply not_elem_of_empty|exact A1|exact A3|exact W1|exact W4|].
  rewrite A2, W3. intros t ic6 HC6 Hk6 _ Hh6. rewrite lock_one in HC6. set (s6 := put_store t (put_ic ic6 s5)) in *. set (q := i_ref y) in *.
  assert (Hs6 : wst V L s6 {[k2]} (more k2 no_ref)) by (by split). apply wp_bind. eapply wp_get_inode; [exact Hk6|].
  change (i_type (locked_inode sb V (c_pid cur) j q)) with (d_type (disk_inode sb V j)). unfold create_old.
  destruct ((type =? T_FILE) && (d_type (disk_inode sb V j) =? T_FILE)).
  - apply wp_bind, wp_gets. rewrite (wk_cur _ _ _ _ _ _ _ _ _ _ Hs6).
    change (has_write_permission cur (locked_inode sb V (c_pid cur) j q)) with (may_write cur (disk_inode sb V j)).
    destruct (may_write cur (disk_inode sb V j)); cbn [negb]; apply wp_ret; by exists k2, q.
  - apply wp_bind. eapply (iunlockput_wp c sb V L); [exact Hs6|exact Hk6|done|apply more_one|exact A4|].
    intros ic7 Hs7 _. rewrite unlock_one in Hs7. apply wp_ret. split; [done|]. by eapply walk_ext; [apply less_more|].
Qed.

(** [create] of a path whose name is in its directory. *)
Lemma create_found_wp l rest type major minor i0 dp e n de : start_at s l i0 -> nonzero l ->
  resolve sb V cur true i0 (elems l) = Some dp -> last (elems l) = Some e -> dir_find (take 14 e) (file_bytes V (disk_inode sb V dp)) = Some (n, de) ->
  wp (create devsw_read devsw_write (string_bytes l rest) type major minor) (create_old c sb V L (f_icache s) (f_ut s) cur type (de_inum de)) s.
Proof using Hnames.
  intros Hst Hl Er He Ef. pose proof (start_live l i0 Hst) as Hlive0.
  destruct (namex_spec s c V L devsw_read true l rest name_buf i0 Hnames Hst Hl eq_refl) as (r & s1 & Hrun & Hpost).
  unfold create, nameiparent. apply wp_bind. apply wp_Ok. exists r, s1. split; [exact Hrun|]. unfold namex_post in *. rewrite Er in Hpost.
  destruct Hpost as (k & name & x & -> & Hs1 & Hat & Hnm). destruct (Hnm eq_refl) as (e' & He' & Ename & Hnl). rewrite He in He'. injection He' as <-.
  destruct Hnames as [N1 N2 N3 N4 N5 N6 (j1 & j2 & x1 & x2 & Hj)]. destruct (resolve_parent sb V cur (elems l) N4 i0 dp Hlive0 Er) as [Hldp Hdir].
  pose proof Hat as [A1 A2 A3 A4]. pose proof Hs1 as [W1 W2 W3 W4 W5].
  apply wp_bind. eapply (ilock_wp c sb V L N1 N2); [exact W5|apply not_elem_of_empty|exact A1|exact A3|exact W1|exact W4|].
  rewrite A2, W3. intros t ic2 HC2 Hk2 _ Hh2. rewrite lock_one in HC2. set (s2 := put_store t (put_ic ic2 s1)) in *. set (q := i_ref x) in *.
  assert (Hs2 : wst V L s2 {[k]} (more k no_ref)) by (by split). apply wp_bind.
  eapply (step_wp c sb V L (f_icache s) (f_ut s) cur N1 N2 N4 devsw_read j1 j2 x1 x2 Hj s2 k dp q name); [exact Hs2|exact Hk2|done|done|done|done|]. rewrite Ename, Ef.
  intros s3 k2 r2 off y Hs3 Hk3 Hle Hat3. eapply (create_old_wp s3 k dp r2 k2 (de_inum de) y type); [exact Hs3|exact Hk3|lia|exact A4|exact Hat3].
Qed.
End Old.

Section Spec.
Context {S : Type} `{TxStore S}.
Context (s : fs S) (c : tx) (V : Z -> list Z) (L : gset Z).
Hypothesis Hready : create_ready s c V L.
Context (devsw_read : Z -> option (nat -> Z -> M (fs S) (Z * list Z))).
Context (devsw_write : Z -> option (nat -> list Z -> Z -> M (fs S) Z)).
Local Abbreviation sb := (f_sb s).
Local Abbreviation cur := (f_cur s).
Local Abbreviation wst V L := (walk_st c (f_sb s) V L (f_icache s) (f_ut s) (f_cur s)).

Lemma create_wp l rest type major minor i0 : start_at s l i0 -> nonzero l -> Forall is_byte l -> is_i8 type -> type ≠ 0 ->
  (exists i, first_inode sb V i) -> (forall dp, resolve sb V cur true i0 (elems l) = Some dp -> dir_room type dp (disk_inode sb V dp)) ->
  wp (create devsw_read devsw_write (string_bytes l rest) type major minor) (create_post c sb V L (f_icache s) (f_ut s) cur i0 (elems l) type major minor) s.
Proof using Hready.
  intros Hst Hl Hby Hty Hty0 [i Hi] Hroom. pose proof (start_live s c V L (ce_names _ _ _ _ Hready) l i0 Hst) as Hlive0. pose proof Hready as [Hnr Hdk Hop Hnin Hfree Hlog].
  destruct (namex_spec s c V L devsw_read true l rest name_buf i0 Hnr Hst Hl eq_refl) as (r & s1 & Hrun & Hpost).
  unfold create, nameiparent. apply wp_bind. apply wp_Ok. exists r, s1. split; [exact Hrun|]. unfold create_post, namex_post in *.
  destruct (resolve sb V cur true i0 (elems l)) as [dp|] eqn:Er; [|destruct Hpost as [-> Hw]; by apply wp_ret].
  destruct Hpost as (k & name & x & -> & Hs1 & Hat & Hnm). destruct (Hnm eq_refl) as (e & He & Ename & Hnl).
  destruct (resolve_parent sb V cur (elems l) (dk_tree _ _ Hdk) i0 dp Hlive0 Er) as [Hldp Hdir]. destruct (Hroom dp eq_refl) as [Hsz Hlinks].
  destruct Hnr as [N1 N2 N3 N4 N5 N6 (j1 & j2 & x1 & x2 & Hj)]. pose proof Hat as [A1 A2 A3 A4]. pose proof Hs1 as [W1 W2 W3 W4 W5].
  apply wp_bind. eapply (ilock_wp c sb V L N1 N2); [exact W5|apply not_elem_of_empty|exact A1|exact A3|exact W1|exact W4|].
  rewrite A2, W3. intros t ic2 HC2 Hk2 _ Hh2. rewrite lock_one in HC2. set (s2 := put_store t (put_ic ic2 s1)) in *. set (q := i_ref x) in *.
  assert (Hs2 : wst V L s2 {[k]} (more k no_ref)) by (by split). apply wp_bind.
  eapply (step_wp c sb V L (f_icache s) (f_ut s) cur N1 N2 N4 devsw_read j1 j2 x1 x2 Hj s2 k dp q name); [exact Hs2|exact Hk2|done|done|done|done|]. rewrite Ename.
  destruct (dir_find (take 14 e) (file_bytes V (disk_inode sb V dp))) as [[n de]|] eqn:Ef.
  - intros s3 k2 r2 off y Hs3 Hk3 Hle Hat3. eapply wp_mono; [eapply (create_old_wp s c V L (ce_names _ _ _ _ Hready) s3 k dp r2 k2 (de_inum de) y type); [exact Hs3|exact Hk3|lia|exact A4|exact Hat3]|].
    intros res s4 Ho. exists e. by rewrite Ef.
  - intros t3 Hs3. apply wp_bind. eapply wp_get_inode; [exact Hk2|]. apply wp_bind, wp_gets. rewrite (wk_cur _ _ _ _ _ _ _ _ _ _ Hs3).
    change (has_write_permission cur (locked_inode sb V (c_pid cur) dp q)) with (may_write cur (disk_inode sb V dp)).
    destruct (may_write cur (disk_inode sb V dp)) eqn:Em; cbn [negb].
    + change (wp (make devsw_read devsw_write k name dp type major minor) (fun r s' => exists e, last (elems l) = Some e /\
        match dir_find (take 14 e) (file_bytes V (disk_inode sb V dp)) with
        | Some (_, de) => create_old c sb V L (f_icache s) (f_ut s) cur type (de_inum de) r s'
        | None => create_new c sb V L (f_icache s) (f_ut s) cur i0 (elems l) (take 14 e) dp type major minor r s' end) (put_store t3 s2)).
      eapply (make_wp c sb (f_icache s) (f_ut s) cur N1 Hop devsw_read devsw_write V L (put_store t3 s2) (more k no_ref) k dp q name type major minor i);
        [exact Hs3|done|exact Hk2|done|apply more_one|exact A4|done|done|done|apply readable_length; lia| |by rewrite Ename|done|done|done|done|done|done|done| |].
      { rewrite Ename. apply Forall_take. pose proof (elems_bytes _ _ Hby) as Hall. rewrite Forall_forall in Hall. apply Hall. by apply last_Some_elem_of. }
      { by apply (free_entry c sb V L (f_icache s) (f_ut s) cur j1 j2 x1 x2 Hj _ _ k Hs3). }
      intros s4 V4 L4 k4 q4 Hs4 Hcr Hk4 Hq4 HL4 Hfr4. exists e. split; [done|]. rewrite Ef, Ename in *. exists k4, q4, V4, L4, i. split_and!; try done.
      * eapply walk_ext; [|exact Hs4]. intros j. unfold less, more. lia.
      * apply (resolve_new sb V V4 dp i (take 14 e) cur (dk_tree _ _ Hdk) (cr_named _ _ _ _ _ _ _ _ _ Hcr) Ef (elems l) e); try done.
      * intros par j es' res Hlj. by apply (resolve_kept sb V V4 dp i (take 14 e) cur (dk_tree _ _ Hdk) (cr_named _ _ _ _ _ _ _ _ _ Hcr) Ef).
    + apply wp_bind. eapply (iunlockput_wp c sb V L); [exact Hs3|exact Hk2|done|apply more_one|exact A4|].
      intros ic7 Hs7 _. rewrite unlock_one in Hs7. apply wp_ret. exists e. rewrite Ef. split; [done|]. split; [done|]. by eapply walk_ext; [apply less_more|].
Qed.
End Spec.

(** C14: [create] returns, and what it returns depends on the path: null when a
    directory of it is missing or may not be searched; the file that has the name
    already, if a file is asked for (null, but locked, when it may not be written),
    and null for any other inode that has the name;
    else, in a directory that may be written, a new inode with the name, which was
    free, has one link and is empty or holds the entries of a new directory.  The
    disk stays in order, every path that led somewhere leads there still, and every
    other inode keeps its fields and contents. *)
Theorem create_correct {S} `{TxStore S} (s : fs S) c V L devsw_read devsw_write l rest type major minor i0 : create_ready s c V L ->
  start_at s l i0 -> nonzero l -> Forall is_byte l -> is_i8 type -> type ≠ 0 -> (exists i, first_inode (f_sb s) V i) ->
  (forall dp, resolve (f_sb s) V (f_cur s) true i0 (elems l) = Some dp -> dir_room type dp (disk_inode (f_sb s) V dp)) ->
  exists r s', create devsw_read devsw_write (string_bytes l rest) type major minor s = Ok r s'
    /\ create_post c (f_sb s) V L (f_icache s) (f_ut s) (f_cur s) i0 (elems l) type major minor r s'.
Proof. intros Hr Hst Hl Hby Hty Hty0 Hi Hroom. apply wp_Ok. by apply create_wp. Qed.

(** ** The example file system *)

Lemma demo_in_use : forallb (fun i => (d_type (disk_inode demo_fsb (dread demo_fdisk) i) =? 0) || (i =? 1) || (i =? 2) || (i =? 3)) (seqZ 0 200) = true.
Proof. vm_compute. reflexivity. Qed.

Lemma demo_live i : live demo_fsb (dread demo_fdisk) i ->
  (i = 1 /\ disk_inode demo_fsb (dread demo_fdisk) i = demo_root) \/ (i = 2 /\ disk_inode demo_fsb (dread demo_fdisk) i = demo_file)
  \/ (i = 3 /\ disk_inode demo_fsb (dread demo_fdisk) i = demo_shared).
Proof.
  intros [Hi Ht]. pose proof (forallb_seqZ _ 200 i demo_in_use Hi) as E. cbn beta in E. rewrite (proj2 (Z.eqb_neq _ _) Ht) in E.
  destruct (Z.eqb_spec i 1) as [->|]; [left; split; [reflexivity|vm_compute; reflexivity]|].
  destruct (Z.eqb_spec i 2) as [->|]; [right; left; split; [reflexivity|vm_compute; reflexivity]|].
  destruct (Z.eqb_spec i 3) as [->|]; [right; right; split; [reflexivity|vm_compute; reflexivity]|discriminate E].
Qed.

Lemma demo_blocks : blocks_ok demo_fsb (dread demo_fdisk).
Proof.
  split; [exact demo_meta| |].
  - intros i Hi. destruct (demo_live i Hi) as [[_ ->]|[[_ ->]|[_ ->]]]; [exact demo_root_ok|exact demo_file_ok|by apply no_block_file].
  - intros i j b Hi Hj Hne. destruct (demo_live i Hi) as [[-> ->]|[[-> ->]|[-> ->]]], (demo_live j Hj) as [[-> ->]|[[-> ->]|[-> ->]]]; try done; intros Hb Hb'.
    all: try by eapply no_block_owns; [|exact Hb].
    all: try by eapply no_block_owns; [|exact Hb'].
    all: pose proof (one_block_owns (dread demo_fdisk) demo_root 59 b eq_refl) as H1; pose proof (one_block_owns (dread demo_fdisk) demo_file 60 b eq_refl) as H2; specialize (H1 ltac:(done)); specialize (H2 ltac:(done)); lia.
Qed.

Lemma demo_ready : create_ready (demo_fs 5) demo_tx (dread demo_fdisk) ∅.
Proof.
  split; [exact demo_names|split; [exact demo_blocks|exact demo_tree]|done|done|pose proof demo_free; simpl; lia|rewrite size_empty; vm_compute; lia].
Qed.

Lemma demo_first : first_inode demo_fsb (dread demo_fdisk) 4.
Proof.
  split; [cbn; lia|]. split; [vm_compute; reflexivity|]. intros j Hj.
  assert (E : j = 1 \/ j = 2 \/ j = 3) by lia. destruct E as [->|[->| ->]]; vm_compute; discriminate.
Qed.

(** "/d" becomes a directory, inode 4. *)
Lemma create_correct_witness : exists k s' V', create (fun _ => None) (fun _ => None) (string_bytes [47; 100] []) T_DIR 0 0 (demo_fs 5) = Ok (Some k) s'
  /\ resolve demo_fsb V' (mkCurproc 7 5 None) false ROOTINO [[100]] = Some 4 /\ file_bytes V' (disk_inode demo_fsb V' 4) = dots_bytes 4 1
  /\ resolve demo_fsb V' (mkCurproc 7 5 None) false ROOTINO [[102]] = Some 2.
Proof.
  assert (Er : resolve demo_fsb (dread demo_fdisk) (mkCurproc 7 5 None) true ROOTINO (elems [47; 100]) = Some 1) by (vm_compute; reflexivity).
  destruct (create_correct (demo_fs 5) demo_tx (dread demo_fdisk) ∅ (fun _ => None) (fun _ => None) [47; 100] [] T_DIR 0 0 ROOTINO demo_ready) as (r & s' & Hrun & Hpost).
  - reflexivity.
  - repeat constructor; discriminate.
  - repeat constructor; vm_compute; congruence.
  - unfold is_i8, T_DIR. lia.
  - discriminate.
  - exists 4. exact demo_first.
  - intros dp E. change (f_sb (demo_fs 5)) with demo_fsb in *. change (f_cur (demo_fs 5)) with (mkCurproc 7 5 None) in E. rewrite Er in E. injection E as <-.
    pose proof demo_root_inode as E1. change ROOTINO with 1 in E1. rewrite E1. split; [vm_compute; congruence|]. intros _. vm_compute. split; [split; reflexivity|reflexivity].
  - unfold create_post in Hpost. change (f_sb (demo_fs 5)) with demo_fsb in Hpost. change (f_cur (demo_fs 5)) with (mkCurproc 7 5 None) in Hpost. rewrite Er in Hpost.
    destruct Hpost as (e & He & Hpost). injection He as <-.
    assert (Ef : dir_find (take 14 [100]) (file_bytes (dread demo_fdisk) (disk_inode demo_fsb (dread demo_fdisk) 1)) = None) by (vm_compute; reflexivity). rewrite Ef in Hpost.
    assert (Em : may_write (mkCurproc 7 5 None) (disk_inode demo_fsb (dread demo_fdisk) 1) = true) by (vm_compute; reflexivity). rewrite Em in Hpost.
    destruct Hpost as (k & q & V' & L' & i & -> & Hcr & _ & _ & _ & _ & Hres & Hkept). exists k, s', V'.
    assert (Ei : i = 4).
    { destruct (cr_free _ _ _ _ _ _ _ _ _ Hcr) as (H1 & H2 & H3), demo_first as (G1 & G2 & G3).
      destruct (Z.lt_trichotomy i 4) as [Hlt|[E|Hgt]]; [|exact E|]; exfalso; [apply (G3 i); [lia|exact H2]|apply (H3 4); [lia|exact G2]]. }
    subst i. split; [exact Hrun|]. split; [exact Hres|]. split; [exact (cr_bytes _ _ _ _ _ _ _ _ _ Hcr)|].
    apply Hkept; [split; [vm_compute; split; congruence|vm_compute; discriminate]|vm_compute; reflexivity].
Defined.
