(* ===== verification/Access.v ===== *)
(** * Who may do what: permissions, accounts and the locks around them

    [sys_open]'s checks, the account calls, user pointers, the user table in
    /passwd, and the findings on [create] and [sys_open]. *)

From S2P Require Import Prelude KMonad CString Params Kalloc Vm Proc Pipe Bio Users Store Fs Kern Sysfile Passwd Exec BioSpec Log LogSpec Crash LogOps Users Store Fs FsSpec FileSpec Dinode Content ReadWrite Paths ICache Dirs Names Tree Create.

(** ** The table in the file *)

Lemma slice_app_l {A} (a b : list A) n : length a = n -> slice 0 n (a ++ b) = a.
Proof. intros <-. unfold slice. by rewrite drop_0, take_app_length. Qed.

Lemma slice_app_r {A} (a b : list A) k n : slice (length a + k) n (a ++ b) = slice k n b.
Proof. unfold slice. rewrite drop_app_ge by lia. by replace (length a + k - length a)%nat with k by lia. Qed.

Lemma length_user_bytes u : user_wf u -> length (user_bytes u) = sizeof_User.
Proof.
  intros [Hn Hp _ _ _]. unfold user_bytes. rewrite !length_app, length_le_bytes, Hn, Hp. done.
Qed.

Lemma read_user_bytes u : user_wf u -> read_user (user_bytes u) = u.
Proof.
  intros [Hn Hp _ _ Hu]. change NAMELEN with 16%nat in *. unfold read_user, user_bytes, get_le.
  assert (E1 : slice 16 16 (u_username u ++ u_passwd u ++ le_bytes 4 (u_uid u)) = u_passwd u).
  { rewrite <- Hn at 1. rewrite <- (Nat.add_0_r (length (u_username u))), slice_app_r. by apply slice_app_l. }
  assert (E2 : slice 32 4 (u_username u ++ u_passwd u ++ le_bytes 4 (u_uid u)) = le_bytes 4 (u_uid u)).
  { replace 32%nat with (length (u_username u) + (length (u_passwd u) + 0))%nat by lia.
    rewrite !slice_app_r. unfold slice. rewrite drop_0. apply take_ge. by rewrite length_le_bytes. }
  rewrite slice_app_l, E1, E2, le_val_bytes by done. by destruct u.
Qed.

Lemma utable_bytes_cons u t : utable_bytes (u :: t) = user_bytes u ++ utable_bytes t.
Proof. done. Qed.

Lemma slice_utable t : Forall user_wf t -> forall i u, t !! i = Some u ->
  slice (i * sizeof_User) sizeof_User (utable_bytes t) = user_bytes u.
Proof.
  induction 1 as [|v t Hv _ IH]; intros i u Hi; [done|].
  pose proof (length_user_bytes v Hv) as Hl. rewrite utable_bytes_cons.
  destruct i as [|i]; [injection Hi as ->; by apply slice_app_l|].
  replace (Datatypes.S i * sizeof_User)%nat with (length (user_bytes v) + i * sizeof_User)%nat by lia.
  rewrite slice_app_r. by apply IH.
Qed.

Lemma read_utable_bytes t :
  length t = Z.to_nat NUSER -> Forall user_wf t ->
  zlen (utable_bytes t) = sizeof_utable /\ read_utable (utable_bytes t) = t.
Proof.
  intros Hl Hwf. split.
  - assert (Hg : forall l, Forall user_wf l -> length (utable_bytes l) = (length l * sizeof_User)%nat).
    { induction 1 as [|u l Hu _ IH]; [done|].
      rewrite utable_bytes_cons, length_app, IH, length_user_bytes by done. simpl. lia. }
    unfold zlen. rewrite Hg, Hl by done. done.
  - apply list_eq. intros i. unfold read_utable. rewrite list_lookup_fmap.
    destruct (t !! i) as [u|] eqn:Ei.
    + pose proof (lookup_lt_Some _ _ _ Ei). rewrite lookup_seq_lt by lia. refine (f_equal Some _).
      rewrite Nat.add_0_l, (slice_utable t Hwf i u Ei). apply read_user_bytes. by eapply Forall_lookup_1.
    + apply lookup_ge_None_1 in Ei. by rewrite lookup_seq_ge by lia.
Qed.

(** What [export_usertable] writes, [init_usertable] reads back: decoding the
    bytes of a well-formed table gives the table. *)
Theorem utable_roundtrip t :
  length t = Z.to_nat NUSER -> Forall user_wf t ->
  zlen (utable_bytes t) = sizeof_utable /\ read_utable (utable_bytes t) = t.
Proof. apply read_utable_bytes. Qed.

Lemma utable_roundtrip_witness : read_utable (utable_bytes (utable demo_utab)) = utable demo_utab.
Proof.
  apply (utable_roundtrip (utable demo_utab)).
  - by vm_compute.
  - repeat constructor; done.
Defined.

(** ** User pointers *)

(** C26: A pointer that [argptr] accepts addresses [size] bytes inside the process:
    the sum does not wrap around. *)
Theorem argptr_safe {S} (k k' : kern S) n size p v :
  procs (k_pt k) !! k_cur k = Some p -> 0 <= p_sz p <= KERNBASE -> is_i32 size ->
  argptr n size k = Ok (Some v) k' -> 0 <= size /\ 0 <= v /\ v < p_sz p /\ v + size <= p_sz p.
Proof.
  intros Hp Hsz Hsize Hrun. unfold argptr in Hrun. apply bind_inv in Hrun as (q & k1 & Hq & Hrun).
  unfold myproc in Hq. rewrite Hp in Hq. injection Hq as -> ->.
  apply bind_inv in Hrun as ([i|] & k2 & _ & Hrun); [|done].
  pose proof (u32_range i) as Hr. unfold is_u32, KERNBASE, is_i32 in *.
  destruct (size <? 0) eqn:E1; [done|]. destruct (p_sz q <=? u32 i) eqn:E2; [done|].
  destruct (p_sz q <? u32 (u32 i + size)) eqn:E3; [done|]. injection Hrun as <- _. bool_cases.
  rewrite u32_id in E3 by (unfold is_u32; lia). lia.
Qed.

(** A process of user [uid] with one page of memory, whose first argument word is
    the pointer 16. *)
Definition demo_mem : gmap Z page :=
  {[P2V 4194304 := mkPage 0 {[0 := 4198407]}; P2V 4198400 := mkPage 0 {[0 := 4202503]};
    P2V 4202496 := mkPage 0 {[1 := 16]}]}.
Definition demo_proc (uid : Z) : proc :=
  mkProc 4096 (P2V 4194304) 4096 RUNNING 7 (Some 0%nat) (mkTf 0 0 0) None false (replicate 16 None)
    (Some 0%nat) (replicate 16 0) uid.
Definition demo_kern (uid : Z) : kern store :=
  mkKern (demo_fs uid) (mkKmem demo_mem 0 0)
    (mkPtab (init_proc :: demo_proc uid :: replicate 62 free_proc) 8 0) [] ∅ 1 0.

Lemma argptr_safe_witness : argptr 0 100 (demo_kern 5) = Ok (Some 16) (demo_kern 5) /\ 16 + 100 <= 4096.
Proof.
  assert (Hrun : argptr 0 100 (demo_kern 5) = Ok (Some 16) (demo_kern 5)) by (vm_compute; reflexivity).
  split; [exact Hrun|].
  apply (argptr_safe (demo_kern 5) (demo_kern 5) 0 100 (demo_proc 5) 16 eq_refl).
  - unfold KERNBASE. simpl. lia.
  - unfold is_i32. lia.
  - exact Hrun.
Defined.

(** ** Opening files *)

(** What [open_inode] has checked of the inode it returns. *)
Lemma open_inode_checks {S} `{TxStore S} devsw_read devsw_write path omode (s s' : fs S) ip :
  open_inode devsw_read devsw_write path omode s = Ok (Some ip) s' ->
  exists x, f_icache s' !! ip = Some x
    /\ (omode = O_RDONLY \/ omode = O_RDWR -> has_read_permission (f_cur s) x = true)
    /\ (omode = O_WRONLY \/ omode = O_RDWR -> has_write_permission (f_cur s) x = true)
    /\ (Z.land omode O_CREATE = 0 -> i_type x = T_DIR -> omode = O_RDONLY).
Proof.
  intros Hrun. unfold open_inode in Hrun. apply bind_inv in Hrun as (u & s1 & Hb & Hrun).
  assert (Ecur : f_cur s1 = f_cur s).
  { unfold begin_op, on_store, lift in Hb. destruct (tx_begin_op (f_store s)); [|done]. by injection Hb as _ <-. }
  apply bind_inv in Hrun as (cur & s2 & Hc & Hrun). injection Hc as <- <-.
  apply bind_inv in Hrun as ([ip1|] & s3 & Hr & Hrun); [|done].
  apply bind_inv in Hrun as (x & s4 & Hx & Hrun). rewrite Ecur in Hrun.
  unfold get_inode in Hx. destruct (f_icache s3 !! ip1) as [x'|] eqn:Ex; [|done]. injection Hx as <- <-.
  destruct (((omode =? O_RDONLY) || (omode =? O_RDWR)) && negb (has_read_permission (f_cur s) x')) eqn:E1.
  { repeat (apply bind_inv in Hrun as (? & ? & _ & Hrun)). done. }
  destruct (((omode =? O_WRONLY) || (omode =? O_RDWR)) && negb (has_write_permission (f_cur s) x')) eqn:E2.
  { repeat (apply bind_inv in Hrun as (? & ? & _ & Hrun)). done. }
  injection Hrun as <- <-. exists x'. split; [done|]. split_and!.
  - intros [-> | ->]; by destruct (has_read_permission (f_cur s) x').
  - intros [-> | ->]; by destruct (has_write_permission (f_cur s) x').
  - intros H0 Ht. rewrite H0 in Hr. cbn [Z.eqb negb] in Hr.
    apply bind_inv in Hr as ([nip|] & s5 & _ & Hr); [|by apply bind_inv in Hr as (? & ? & _ & ?)].
    apply bind_inv in Hr as (? & s6 & _ & Hr). apply bind_inv in Hr as (y & s7 & Hy & Hr).
    unfold get_inode in Hy. destruct (f_icache s6 !! nip) as [y'|] eqn:Ey; [|done]. injection Hy as <- <-.
    destruct ((i_type y' =? T_DIR) && negb (omode =? O_RDONLY)) eqn:E3.
    { repeat (apply bind_inv in Hr as (? & ? & _ & Hr)). done. }
    injection Hr as <- <-. rewrite Ey in Ex. injection Ex as ->. rewrite Ht in E3. simpl in E3.
    apply negb_false_iff in E3. by apply Z.eqb_eq.
Qed.

Lemma on_fs_inv {S} `{TxStore S} {A} (m : M (fs S) A) (k k' : kern S) a : on_fs m k = Ok a k' ->
  exists p t, procs (k_pt k) !! k_cur k = Some p /\ m (set_cur (mkCurproc (p_pid p) (p_uid p) (p_cwd p)) (k_fs k)) = Ok a t
    /\ k' = mkKern t (k_mem k) (k_pt k) (k_ftable k) (k_pipes k) (k_cur k) (k_ticks k).
Proof.
  intros (p & k1 & Hp & Hm)%bind_inv. unfold myproc in Hp. destruct (procs (k_pt k) !! k_cur k) as [q|] eqn:Eq; [|done]. injection Hp as <- <-.
  unfold lift in Hm. destruct (m _) as [b t|] eqn:Em; [|done]. injection Hm as <- <-. by exists q, t.
Qed.

Lemma iunlock_inv {S} `{TxStore S} ip (s s' : fs S) : iunlock ip s = Ok tt s' ->
  exists x l, f_icache s !! ip = Some x /\ f_icache s' = <[ip := set_ilock l x]> (f_icache s).
Proof.
  intros (x & s1 & Hx & Hr)%bind_inv. unfold get_inode in Hx. destruct (f_icache s !! ip) as [y|] eqn:Ey; [|done]. injection Hx as <- <-.
  apply bind_inv in Hr as (cu & s2 & Hc & Hr). injection Hc as <- <-. destruct (_ || _); [done|].
  unfold release_inode, upd_inode in Hr. apply bind_inv in Hr as (z & s3 & Hz & Hr). unfold get_inode in Hz. rewrite Ey in Hz. injection Hz as <- <-.
  injection Hr as <-. by exists y, (releasesleep (i_lock y)).
Qed.

Lemma end_op_inv {S} `{TxStore S} (s s' : fs S) : end_op s = Ok tt s' -> f_icache s' = f_icache s.
Proof. unfold end_op, on_store, lift. destruct (tx_end_op (f_store s)); [|done]. intros [= _ <-]. done. Qed.

(** The end of [sys_open]: the inode is unlocked and otherwise unchanged. *)
Lemma open_closes {S} `{TxStore S} ip x (k1 k2 k3 : kern S) : on_fs (iunlock ip) k1 = Ok tt k2 -> on_fs end_op k2 = Ok tt k3 -> f_icache (k_fs k1) !! ip = Some x ->
  (exists l, f_icache (k_fs k3) !! ip = Some (set_ilock l x)) /\ k_pt k3 = k_pt k1 /\ k_ftable k3 = k_ftable k1 /\ k_cur k3 = k_cur k1.
Proof.
  intros (p1 & t1 & _ & H1 & ->)%on_fs_inv (p2 & t2 & _ & H2 & ->)%on_fs_inv Hx. destruct (iunlock_inv _ _ _ H1) as (y & l & Hy & E1). apply end_op_inv in H2. cbn in *.
  split; [|done]. exists l. rewrite H2, E1. rewrite Hx in Hy. injection Hy as <-. apply list_lookup_insert_eq. by eapply lookup_lt_Some.
Qed.

Lemma free_fd_lt l : forall i n, free_fd l i = Some n -> (i <= n < i + length l)%nat.
Proof.
  induction l as [|[f|] l IH]; intros i n; cbn [free_fd length]; [done| |intros [= <-]; lia]. intros Hn. apply IH in Hn. lia.
Qed.

(** C21: [sys_open] with exactly one of the modes O_RDONLY, O_WRONLY and O_RDWR gives a
    descriptor for an open file that can be read only if the user has read permission
    for its inode, and written only with write permission; a directory cannot be
    written through it.  (Other values of the mode skip the tests, see the findings.) *)
Theorem open_permission {S} `{TxStore S} devsw_read devsw_write (k k' : kern S) p path omode fd :
  procs (k_pt k) !! k_cur k = Some p -> argstr 0 k = Ok (Some path) k -> argint 1 k = Ok (Some omode) k ->
  omode = O_RDONLY \/ omode = O_WRONLY \/ omode = O_RDWR ->
  sys_open devsw_read devsw_write k = Ok fd k' -> 0 <= fd ->
  exists q f fe x, procs (k_pt k') !! k_cur k' = Some q /\ p_ofile q !! Z.to_nat fd = Some (Some f) /\ k_ftable k' !! f = Some fe
    /\ fl_type fe = FD_INODE /\ f_icache (k_fs k') !! fl_ip fe = Some x
    /\ (fl_readable fe = true -> has_read_permission (mkCurproc (p_pid p) (p_uid p) (p_cwd p)) x = true)
    /\ (fl_writable fe = true -> has_write_permission (mkCurproc (p_pid p) (p_uid p) (p_cwd p)) x = true)
    /\ (i_type x = T_DIR -> fl_writable fe = false).
Proof.
  intros Hp Hs Hi Hom Hrun Hfd. unfold sys_open in Hrun. rewrite (bind_Ok _ _ _ _ _ Hs), (bind_Ok _ _ _ _ _ Hi) in Hrun.
  apply bind_inv in Hrun as (r & k1 & Ho & Hrun). apply on_fs_inv in Ho as (p1 & t1 & Hp1 & Ho & ->). rewrite Hp in Hp1. injection Hp1 as <-.
  destruct r as [ip|]; [|injection Hrun as <- _; lia]. destruct (open_inode_checks _ _ _ _ _ _ _ Ho) as (x & Hx & Hr & Hw & Hd). cbn [set_cur f_cur] in Hr, Hw.
  assert (Hfail : forall (m : M (kern S) unit) ka kb, (m ;;; on_fs (iunlockput ip) ;;; on_fs end_op ;;; ret (-1)) ka = Ok fd kb -> False).
  { intros m ka kb Hf. repeat (apply bind_inv in Hf as (? & ? & _ & Hf)). injection Hf as <- _. lia. }
  apply bind_inv in Hrun as (f & k2 & Hf & Hrun). unfold filealloc in Hf. rewrite (bind_Ok (gets k_ftable) _ _ _ _ eq_refl) in Hf. cbn [k_ftable] in Hf.
  destruct (find_free (k_ftable k) 0) as [j|]; [|injection Hf as <- <-; exfalso; apply (Hfail (ret tt) _ _ Hrun)].
  apply bind_inv in Hf as (fe0 & k2' & Hg & Hf). unfold get_file in Hg. cbn [k_ftable] in Hg. destruct (k_ftable k !! j) as [fe0'|] eqn:Ej; [|done]. injection Hg as <- <-.
  injection Hf as <- <-. pose proof (lookup_lt_Some _ _ _ Ej) as Hjl.
  apply bind_inv in Hrun as (r & k3 & Ha & Hrun). unfold fdalloc in Ha. apply bind_inv in Ha as (p2 & k3' & Hp2 & Ha). unfold myproc in Hp2. cbn [k_pt k_cur] in Hp2. rewrite Hp in Hp2. injection Hp2 as <- <-.
  destruct (free_fd (p_ofile p) 0) as [n|] eqn:En; [|injection Ha as <- <-; exfalso; apply (Hfail _ _ _ Hrun)].
  apply bind_inv in Ha as ([] & k3' & Hu & Ha). injection Ha as <- <-. unfold upd_cur in Hu. rewrite (bind_Ok (gets k_cur) _ _ _ _ eq_refl) in Hu. unfold on_pt, lift, upd_proc, get_proc, bind in Hu.
  cbn [k_pt k_cur] in Hu. rewrite Hp in Hu. cbn in Hu. injection Hu as <-.
  apply bind_inv in Hrun as ([] & k4 & H4 & Hrun). apply bind_inv in Hrun as ([] & k5 & H5 & Hrun). apply bind_inv in Hrun as (fe1 & k6 & Hg & Hrun).
  destruct (open_closes ip x _ _ _ H4 H5 Hx) as ((l & Hx5) & E1 & E2 & E3). cbn [k_pt k_ftable k_cur] in E1, E2, E3.
  unfold get_file in Hg. rewrite E2, list_lookup_insert_eq in Hg by done. injection Hg as <- <-. injection Hrun as <- <-. cbn [k_fs k_pt k_ftable k_cur fl_ref].
  rewrite E1, E2, E3. eexists _, j, _, (set_ilock l x). cbn [procs]. rewrite !list_lookup_insert_eq by (rewrite ?length_insert; (done || by eapply lookup_lt_Some)).
  split; [reflexivity|]. split; [rewrite Nat2Z.id; apply list_lookup_insert_eq; apply free_fd_lt in En; lia|]. split; [reflexivity|]. cbn [fl_type fl_ip fl_readable fl_writable].
  split; [done|]. split; [done|]. destruct Hom as [->|[->| ->]]; split_and!; try done; try (intros _; apply Hr; auto); try (intros _; apply Hw; auto); intros Ht; by specialize (Hd eq_refl Ht).
Qed.

Definition demo_path (c : Z) : list Z := [SLASH; c; 0].

(** The owner calls open("/f", O_RDWR). *)
Definition demo_open : kern store :=
  let words := {[1 := 16; 2 := O_RDWR; 4 := SLASH + 102 * 256]} in
  mkKern (demo_fs 5) (mkKmem (<[P2V 4202496 := mkPage 0 words]> demo_mem) 0 0)
    (mkPtab (init_proc :: demo_proc 5 :: replicate 62 free_proc) 8 0)
    (replicate 100 (mkFile FD_NONE 0 false false 0 0 0)) ∅ 1 0.

Lemma open_permission_witness : exists fd k' q f fe, sys_open (fun _ => None) (fun _ => None) demo_open = Ok fd k' /\ 0 <= fd
  /\ procs (k_pt k') !! k_cur k' = Some q /\ p_ofile q !! Z.to_nat fd = Some (Some f) /\ k_ftable k' !! f = Some fe.
Proof.
  destruct (sys_open (fun _ => None) (fun _ => None) demo_open) as [fd k'|] eqn:E;
    apply (f_equal (fun o => match o with Ok fd _ => 0 <=? fd | _ => false end)) in E as Hfd.
  - assert (H0 : (0 <=? fd) = true) by (rewrite <- Hfd; vm_compute; reflexivity). apply Z.leb_le in H0.
    destruct (open_permission (fun _ => None) (fun _ => None) demo_open k' (demo_proc 5) (demo_path 102) O_RDWR fd)
      as (q & f & fe & x & H1 & H2 & H3 & _); [reflexivity|vm_compute; reflexivity|vm_compute; reflexivity|auto|exact E|exact H0|].
    exists fd, k', q, f, fe. exact (conj eq_refl (conj H0 (conj H1 (conj H2 H3)))).
  - vm_compute in Hfd. discriminate Hfd.
Defined.

(** ** The findings on [create] and [sys_open] *)

Definition as_proc {S} (pid uid : Z) (s : fs S) : fs S :=
  mkFs (f_store s) (f_sb s) (f_icache s) (f_ut s) (mkCurproc pid uid None).

(** [m] puts its caller to sleep, in a state with [Q]. *)
Definition sleeps {S A} (m : M S A) (Q : S -> Prop) (s : S) : Prop := exists s', m s = Halt asleep_stop s' /\ Q s'.

Lemma sleeps_at {S A B} (m : M S A) (k : A -> M S B) Q s : sleeps m Q s -> sleeps (x <- m ;; k x) Q s.
Proof. intros (s' & E & HQ). exists s'. unfold bind. by rewrite E. Qed.

Lemma sleeps_after {S A B} (m : M S A) (k : A -> M S B) Q s : wp m (fun a s1 => sleeps (k a) Q s1) s -> sleeps (x <- m ;; k x) Q s.
Proof. intros (a & s1 & E & s' & Hk & HQ)%wp_Ok. exists s'. unfold bind. by rewrite E. Qed.

Lemma sleeps_lift {S T A} (get : S -> T) put (m : M T A) Q s : sleeps m (fun t => Q (put t s)) (get s) -> sleeps (lift get put m) Q s.
Proof. intros (t & E & HQ). exists (put t s). unfold lift. by rewrite E. Qed.

(** An inode that is locked puts every process that locks it to sleep. *)
Lemma ilock_sleeps {S} `{TxStore S} ip x (Q : fs S -> Prop) s : f_icache s !! ip = Some x -> 0 < i_ref x -> sl_locked (i_lock x) ≠ 0 -> Q s -> sleeps (ilock ip) Q s.
Proof.
  intros Hx Hr Hl HQ. exists s. split; [|done]. unfold ilock. erewrite bind_Ok; [|unfold get_inode; by rewrite Hx].
  rewrite (proj2 (Z.ltb_ge (i_ref x) 1)) by lia. unfold acquire_inode, bind, get_inode. rewrite Hx. cbn. unfold acquiresleep. by rewrite (proj2 (Z.eqb_neq _ _) Hl).
Qed.

(** C27: Opening with O_CREATE a file that exists and that the caller may not write
    fails and leaves the inode locked by the caller, with a reference to it:
    [create] returns without [iunlockput].  From then on every [ilock] of the
    inode sleeps, whoever calls it. *)
Theorem create_leaks_lock {S} `{TxStore S} devsw_read devsw_write home (s : fs S) V l rest omode i0 dp e n de :
  names_ready s (mkTx 0 home) V ∅ -> start_at s l i0 -> nonzero l -> Z.land omode O_CREATE ≠ 0 ->
  resolve (f_sb s) V (f_cur s) true i0 (elems l) = Some dp -> last (elems l) = Some e ->
  dir_find (take 14 e) (file_bytes V (disk_inode (f_sb s) V dp)) = Some (n, de) ->
  d_type (disk_inode (f_sb s) V (de_inum de)) = T_FILE -> may_write (f_cur s) (disk_inode (f_sb s) V (de_inum de)) = false ->
  exists s' ip x0 x, open_inode devsw_read devsw_write (string_bytes l rest) omode s = Ok None s'
    /\ f_icache s !! ip = Some x0 /\ f_icache s' !! ip = Some x /\ i_inum x = de_inum de /\ 0 <= i_ref x0 /\ i_ref x = i_ref x0 + 1 /\ i_lock x = mkSleeplock 1 (c_pid (f_cur s))
    /\ forall pid uid, sleeps (ilock ip) (fun s2 => s2 = as_proc pid uid s') (as_proc pid uid s').
Proof.
  intros Hn Hst Hl Hom Er He Ef Ht Hw. cut (wp (open_inode devsw_read devsw_write (string_bytes l rest) omode)
    (fun r s' => r = None /\ exists ip x0, f_icache s !! ip = Some x0 /\ 0 <= i_ref x0 /\ f_icache s' !! ip = Some (locked_inode (f_sb s) V (c_pid (f_cur s)) (de_inum de) (i_ref x0 + 1))) s).
  { intros (r & s' & Hrun & -> & ip & x0 & H0 & Hr & Hip)%wp_Ok. exists s', ip, x0. eexists. split_and!; [exact Hrun|exact H0|exact Hip|done..|].
    intros pid uid. eapply ilock_sleeps; [exact Hip|cbn; lia|done|done]. }
  unfold open_inode. apply wp_bind. eapply wp_begin_op; [apply Hn|]. intros t Hh. apply wp_bind, wp_gets. rewrite (proj2 (Z.eqb_neq _ _) Hom). cbn [negb].
  assert (Hn1 : names_ready (put_store t s) (mkTx 1 home) V ∅) by (destruct Hn as [[L1 L2 L3 L4 L5] N2 N3 N4 N5 N6 N7]; by split; [split|..]).
  apply wp_bind, wp_bind. eapply wp_mono; [eapply (create_found_wp (put_store t s)); [exact Hn1|exact Hst|exact Hl|exact Er|exact He|exact Ef]|].
  intros r s1 Ho. unfold create_old in Ho. cbn [put_store f_sb f_cur] in Ho. rewrite Ht, Hw in Ho. destruct Ho as (k & q & -> & Hs1 & Hk). apply wp_bind.
  eapply wp_end_op; [apply Hs1|]. intros t2 V2 _ _. apply wp_ret, wp_ret. split; [done|]. 
  pose proof (wk_cache _ _ _ _ _ _ _ _ _ _ Hs1) as [C1 _ _ _ C5]. cbn [put_store f_icache] in *.
  destruct (lookup_lt_is_Some_2 (f_icache s) k) as [x0 H0]; [rewrite <- C1; by eapply lookup_lt_Some|]. destruct (C5 k x0 _ H0 Hk) as (E & E0 & _). exists k, x0.
  split; [exact H0|]. split; [done|]. cbn [i_ref locked_inode] in E. rewrite E in Hk. unfold more, one_ref, no_ref in Hk. rewrite decide_True in Hk by done. exact Hk.
Qed.

(** The file system of the examples between system calls, and user 6 there. *)
Definition calm_store : store := mkStore (binit demo_fdisk 1000 1) (mkLog 2 30 0 0 1 0 (replicate (Z.to_nat LOGSIZE) 0)).
Definition calm_home : Z -> bool := home_block (s_log calm_store) 1000.
Definition calm_fs : fs store := mkFs calm_store demo_fsb (replicate 50 demo_inode) demo_utab (mkCurproc 7 6 None).

Lemma calm_holds ic u c : holds (mkFs calm_store demo_fsb ic u c) (mkTx 0 calm_home) (dread demo_fdisk) ∅ ∅.
Proof.
  apply log_rep_empty; simpl; try (done || lia). apply binit_rep. unfold demo_fdisk.
  repeat (apply map_Forall_insert_2; [by apply wf_blockb; vm_compute|]). apply map_Forall_empty.
Qed.

Lemma calm_names : names_ready calm_fs (mkTx 0 calm_home) (dread demo_fdisk) ∅.
Proof.
  destruct demo_names as [[L1 L2 L3 L4 L5] N2 _ N4 N5 N6 N7]. split; [by split|exact N2|apply calm_holds|exact N4|exact N5|exact N6|exact N7].
Qed.

(** User 6 opens "/f" of user 5 with O_CREATE. *)
Lemma create_leaks_lock_witness : exists s', open_inode (fun _ => None) (fun _ => None) (string_bytes [SLASH; 102] []) (Z.lor O_CREATE O_WRONLY) calm_fs = Ok None s'
  /\ exists ip x, f_icache s' !! ip = Some x /\ i_inum x = 2 /\ i_lock x = mkSleeplock 1 7.
Proof.
  assert (Ef : exists n de, dir_find (take 14 [102]) (file_bytes (dread demo_fdisk) (disk_inode demo_fsb (dread demo_fdisk) ROOTINO)) = Some (n, de) /\ de_inum de = 2)
    by (eexists _, _; split; [vm_compute; reflexivity|vm_compute; reflexivity]). destruct Ef as (n & de & Ef & Ei).
  destruct (create_leaks_lock (fun _ => None) (fun _ => None) calm_home calm_fs (dread demo_fdisk) [SLASH; 102] [] (Z.lor O_CREATE O_WRONLY) ROOTINO ROOTINO [102] n de calm_names)
    as (s' & ip & x0 & x & Hrun & _ & Hx & Hi & _ & _ & Hl & _).
  - reflexivity.
  - repeat constructor; discriminate.
  - vm_compute. discriminate.
  - vm_compute. reflexivity.
  - reflexivity.
  - exact Ef.
  - rewrite Ei. vm_compute. reflexivity.
  - rewrite Ei. vm_compute. reflexivity.
  - exists s'. split; [exact Hrun|]. exists ip, x. rewrite Ei in Hi. exact (conj Hx (conj Hi Hl)).
Defined.

(** The call succeeded and the inode now belongs to [uid], with the mode of a new
    file. *)
Definition takes_over (uid : Z) (o : outcome (fs store) (option nat)) : bool :=
  match o with
  | Ok (Some ip) s' =>
      match f_icache s' !! ip with
      | Some x => (i_inum x =? 3) && (i_owner x =? uid) && (i_perm x =? mode_file)
      | None => false
      end
  | _ => false
  end.

(** Opening an existing file with O_CREATE makes the caller its owner and
    resets its mode: user 6, who may only write "g" of user 5, owns it after. *)
Theorem open_create_takes_over :
  d_owner demo_shared = 5 /\
  takes_over 6 (open_inode (fun _ => None) (fun _ => None) (demo_path 103) (Z.lor O_CREATE O_WRONLY)
    (demo_fs 6)) = true.
Proof. split; [reflexivity|]. vm_compute. reflexivity. Qed.

(** ** Account calls and exit *)

(** Only root may change accounts: for any other user [addUser] and
    [deleteUser] return -1 before they read an argument or touch any state. *)
Theorem accounts_need_root {S} `{TxStore S} devsw_read devsw_write (k : kern S) p :
  procs (k_pt k) !! k_cur k = Some p -> p_uid p ≠ ROOT_UID ->
  sys_addUser devsw_read devsw_write k = Ok (-1) k /\ sys_deleteUser devsw_write k = Ok (-1) k.
Proof.
  intros Hp Hu. unfold sys_addUser, sys_deleteUser, bind, myproc. rewrite Hp. simpl.
  by rewrite (proj2 (Z.eqb_neq _ _)).
Qed.

Lemma accounts_need_root_witness :
  sys_deleteUser (fun _ => None) (demo_kern 5) = Ok (-1) (demo_kern 5).
Proof.
  apply (accounts_need_root (fun _ => None) (fun _ => None) (demo_kern 5) (demo_proc 5)).
  - reflexivity.
  - unfold ROOT_UID. simpl. lia.
Defined.

(** [exit] does not return. *)
Lemma exit_halts {S} `{TxStore S} (k : kern S) : exists e k', exit (A := unit) k = Halt e k'.
Proof.
  destruct (exit (A := unit) k) as [a k'|e k'] eqn:E; [exfalso|eauto]. unfold exit in E.
  apply bind_inv in E as (cur & k1 & _ & E). apply bind_inv in E as (init & k2 & _ & E).
  case_bool_decide; [done|]. repeat (apply bind_inv in E as (? & ? & _ & E)). done.
Qed.

Lemma exit_init {S} `{TxStore S} (k k' : kern S) e : k_cur k = initproc (k_pt k) -> exit (A := unit) k = Halt e k' -> e = panic_stop "init exiting".
Proof. intros Hc. unfold exit, bind, gets. rewrite bool_decide_true by done. by intros [= <-]. Qed.

(** A killed process does not get to make its system call: the trap ends as
    [exit] does, which never returns to the process. *)
Theorem killed_makes_no_call {S} `{TxStore S} devsw_read devsw_write data tf (k : kern S) p :
  procs (k_pt k) !! k_cur k = Some p -> p_killed p = true ->
  exists e k', exit (A := unit) k = Halt e k' /\ trap_syscall devsw_read devsw_write data tf k = Halt e k'.
Proof.
  intros Hp Hk. destruct (exit_halts k) as (e & k' & E). exists e, k'. split; [done|].
  unfold trap_syscall, bind, myproc. rewrite Hp. simpl. rewrite Hk. simpl. by rewrite E.
Qed.

Definition demo_killed : kern store :=
  mkKern (demo_fs 5) (mkKmem demo_mem 0 0)
    (mkPtab (init_proc :: set_killed true (demo_proc 5) :: replicate 62 free_proc) 8 0) [] ∅ 1 0.

Lemma killed_makes_no_call_witness : exists e k',
  trap_syscall (fun _ => None) (fun _ => None) 0 (mkTf 1 0 0) demo_killed = Halt e k'.
Proof.
  destruct (killed_makes_no_call (fun _ => None) (fun _ => None) 0 (mkTf 1 0 0) demo_killed
    (set_killed true (demo_proc 5)) eq_refl eq_refl) as (e & k' & _ & Hrun).
  exists e, k'. exact Hrun.
Defined.
