(* ===== verification/Accounts.v ===== *)
(** * Accounts on the disk: /passwd and the user table agree

    [add_user] and [delete_user] change the table in memory and write it to
    /passwd in one transaction; [init_usertable] reads it at the next start.  The
    invariant is that the file holds the bytes of the table. *)

From S2P Require Import Prelude KMonad CString Params Bio BioSpec Log LogSpec Crash LogOps Users Store Fs Kalloc Vm Proc Pipe Kern Sysfile Passwd FsSpec FileSpec Dinode Content ReadWrite Paths ICache Dirs Names Tree Access.

(** ** Writing inside the first block of a file *)

Section Inside.
Context {S : Type} `{TxStore S}.
Context (c : tx) (sb : superblock).
Hypothesis Hly : layout_ok sb c.
Hypothesis Hopen : 0 < t_open c.
Context (ic : list inode) (ut : utab) (cu : curproc) (ip : nat) (x : inode).
Hypothesis Hip : (ip < length ic)%nat.
Hypothesis Hdev : i_dev x = ROOTDEV.
Context (devsw_write : Z -> option (nat -> list Z -> Z -> M (fs S) Z)).
Context (V : Z -> list Z) (d : dinode).
Hypothesis Hok : file_ok sb V d.
Hypothesis Htype : d_type d ≠ T_DEV.
Local Abbreviation st := (file_st c sb ic ut cu ip x).

(** The file after [src] is written at [off]. *)
Definition inside (off : Z) (src : list Z) : Z -> list Z :=
  let b := faddr V d 0 in upd V b (splice (Z.to_nat off) src (V b)).

Lemma write_inside_wp s L src off n (Q : Z -> fs S -> Prop) : st s d V ∅ L -> room ∅ L 1 -> n = zlen src -> 0 < n -> 0 <= off -> off + n <= d_size d -> off + n <= BSIZE ->
  Forall is_byte src -> (forall s', st s' d (inside off src) ∅ ({[faddr V d 0]} ∪ L) -> Q n s') ->
  wp (writei devsw_write ip src off n) Q s.
Proof.
  intros Hst Hr -> Hn Hoff Hsz Hb Hby HQ. unfold BSIZE in Hb. pose proof (fo_size _ _ _ Hok) as Hmax. set (n := zlen src) in *.
  assert (Hd0 : off / BSIZE = 0) by (unfold BSIZE; apply Z.div_small; lia). assert (Hm0 : off mod BSIZE = off) by (unfold BSIZE; apply Z.mod_small; lia).
  assert (Hf0 : faddr V d 0 ≠ 0) by (apply (fo_full _ _ _ Hok); lia).
  assert (Hdat : data_block sb V (faddr V d 0)) by (apply (fo_data _ _ _ Hok); [done|done]).
  unfold writei. apply wp_bind. eapply (get_inode_st c sb ic ut cu ip x Hip); [exact Hst|].
  change (i_type (set_d d x)) with (d_type d). change (i_size (set_d d x)) with (d_size d).
  rewrite (proj2 (Z.eqb_neq _ _)) by done. rewrite (proj2 (Z.ltb_ge (d_size d) off)) by lia.
  rewrite u32_id, (proj2 (Z.ltb_ge (off + n) off)), (proj2 (Z.ltb_ge (MAXFILE * BSIZE) _)) by (unfold is_u32; lia). cbn [orb].
  apply wp_bind. destruct (Z.to_nat n) as [|fuel] eqn:Ef; [lia|]. cbn [writei_loop]. rewrite (proj2 (Z.ltb_lt 0 n)) by lia.
  apply wp_bind. eapply (get_inode_st c sb ic ut cu ip x Hip); [exact Hst|]. rewrite Hd0, Hm0.
  assert (Hch : chunk 0 off n = n) by (unfold chunk; rewrite Hm0; unfold BSIZE; lia). rewrite Hch.
  apply wp_bind. eapply (bmap_present c sb Hly ic ut cu ip x Hip Hdev); [exact Hst|done|done|done|destruct Hr; split; [lia|done]|]. intros s1 Hst1.
  change (i_dev (set_d d x)) with (i_dev x).
  apply wp_bind. eapply (bread_st c sb ic ut cu ip x Hdev); [exact Hst1|by eapply data_home|apply not_held_empty|exact Hr|]. intros s2 i Hi Hst2.
  apply wp_bind. eapply (read_data_st c sb ic ut cu ip x); [exact Hst2|apply lookup_insert_eq|].
  rewrite (proj2 (Z.ltb_ge (zlen src) n)) by lia. rewrite take_ge by (unfold n, zlen; lia).
  apply wp_assoc, wp_bind. eapply (write_log_st c sb Hopen ic ut cu ip x); [exact Hst2|apply lookup_insert_eq| |destruct Hr; lia|].
  { apply wf_splice; [eapply holds_wf, Hst2|done|]. unfold n, zlen in *. lia. }
  intros s3 Hst3. apply wp_bind. eapply (brelse_st c sb ic ut cu ip x); [exact Hst3|done|]. intros s4 Hst4.
  destruct fuel; cbn [writei_loop]; rewrite (proj2 (Z.ltb_ge (0 + n) n)) by lia; apply wp_ret.
  all: apply wp_bind; eapply (get_inode_st c sb ic ut cu ip x Hip); [exact Hst4|]; change (i_size (set_d d x)) with (d_size d).
  all: rewrite (proj2 (Z.ltb_ge (d_size d) (off + n))), andb_false_r by lia; cbn [when]; apply wp_bind, wp_ret, wp_ret; by apply HQ.
Qed.
End Inside.

(** ** What depends on which blocks *)

Lemma faddr_view V V' d k : (ind_addr d ≠ 0 -> V' (ind_addr d) = V (ind_addr d)) -> faddr V' d k = faddr V d k.
Proof. intros HV. unfold faddr. destruct (k <? NDIRECT); [done|]. destruct (ind_addr d =? 0) eqn:E; [done|]. bool_cases. by rewrite HV. Qed.

Lemma file_ok_view sb V V' d : file_ok sb V d -> V' (sb_bmapstart sb) = V (sb_bmapstart sb) -> (ind_addr d ≠ 0 -> V' (ind_addr d) = V (ind_addr d)) -> file_ok sb V' d.
Proof.
  intros [F1 F2 F3 F4 F5 F6 F7] Hb Hi. pose proof (fun k => faddr_view V V' d k Hi) as Ha.
  assert (Hal : forall b, allocated sb V' b = allocated sb V b) by (intros b; unfold allocated; by rewrite Hb).
  split; try done.
  - intros bn Hbn. rewrite Ha. intros Hn. destruct (F2 bn Hbn Hn). split; [done|]. by rewrite Hal.
  - intros Hn. destruct (F3 Hn). split; [done|]. by rewrite Hal.
  - intros bn bn' H1 H2. rewrite !Ha. by apply F4.
  - intros bn Hbn. rewrite Ha. by apply F5.
  - intros bn H1 H2. rewrite Ha. by apply F7.
Qed.

(** A file of at most one block is the beginning of that block. *)
Lemma file_bytes_one sb V d : file_ok sb V d -> d_size d <= BSIZE -> length (V (faddr V d 0)) = 512%nat ->
  file_bytes V d = take (Z.to_nat (d_size d)) (V (faddr V d 0)).
Proof.
  intros Hok Hs Hl. unfold file_bytes. pose proof (fo_size _ _ _ Hok) as Hsz. symmetry.
  pose proof (slice_fbyte V d 0 (d_size d)) as Hsl. change (0 / BSIZE) with 0 in Hsl. change (0 mod BSIZE) with 0 in Hsl.
  rewrite <- Hsl by (done || lia). unfold slice. by rewrite drop_0.
Qed.

(** A file depends only on blocks outside the log. *)
Lemma file_home sb home V V' d : layout_ok sb (mkTx 1 home) -> (forall b, home b = true -> V' b = V b) -> file_ok sb V d ->
  file_ok sb V' d /\ file_bytes V' d = file_bytes V d.
Proof.
  intros Hly HV Hok. pose proof (fo_size _ _ _ Hok) as Hsz. assert (Hind : ind_addr d ≠ 0 -> V' (ind_addr d) = V (ind_addr d)).
  { intros Hn. apply HV. destruct (fo_ind _ _ _ Hok Hn) as [Hr _]. by apply (ly_home _ _ Hly). }
  split; [eapply file_ok_view; [done|apply HV, (ly_bmap _ _ Hly)|done]|].
  unfold file_bytes. apply list_fmap_ext. intros k p Hp. apply lookup_seqZ in Hp. unfold fbyte. rewrite (faddr_view V V' d _ Hind).
  destruct (pos_block p ltac:(unfold MAXBYTES; lia)) as [Hbn _].
  assert (Hf : faddr V d (p / BSIZE) ≠ 0) by (apply (fo_full _ _ _ Hok); unfold BSIZE; mlia).
  destruct (fo_data _ _ _ Hok _ Hbn Hf) as [Hr _]. by rewrite HV by (by apply (ly_home _ _ Hly)).
Qed.

(** ** The file *)

Definition passwd_size : Z := 4 + sizeof_utable.
Definition passwd_bytes (u : utab) : list Z := le_bytes 4 (next_uid u) ++ utable_bytes (utable u).

(** Outside a transaction: entry [ip] of the inode cache is inode [i] of the disk,
    a file of the size of the table. *)
Record passwd_file {S} `{TxStore S} (home : Z -> bool) (s : fs S) (V : Z -> list Z) (ip : nat) (i : Z) : Prop := {
  pf_layout : layout_ok (f_sb s) (mkTx 1 home);
  pf_holds : holds s (mkTx 0 home) V ∅ ∅;
  pf_cache : cache (f_sb s) V ∅ no_ref (f_icache s) (f_icache s);
  pf_ip : exists x, f_icache s !! ip = Some x /\ 0 < i_ref x /\ i_inum x = i;
  pf_file : file_ok (f_sb s) V (disk_inode (f_sb s) V i);
  pf_type : d_type (disk_inode (f_sb s) V i) = T_FILE;
  pf_size : d_size (disk_inode (f_sb s) V i) = passwd_size }.

(** The table can be written and read back. *)
Definition storable (u : utab) : Prop := length (utable u) = Z.to_nat NUSER /\ Forall user_wf (utable u) /\ is_u32 (next_uid u).

Lemma ut_ok_storable u : ut_ok u -> next_uid u < 4294967296 -> storable u.
Proof. intros Hu Hn. split; [apply Hu|]. split; [apply Hu|]. pose proof (ut_next_range _ Hu). unfold is_u32, ROOT_UID in *. lia. Qed.

Lemma user_bytes_range u : user_wf u -> Forall is_byte (user_bytes u).
Proof. intros [Hn Hp Hbn Hbp Hu]. unfold user_bytes. rewrite !Forall_app. split_and!; [done|done|apply le_bytes_byte]. Qed.

Lemma utable_bytes_range t : Forall user_wf t -> Forall is_byte (utable_bytes t).
Proof. induction 1 as [|u t Hu _ IH]; [done|]. rewrite utable_bytes_cons, Forall_app. split; [by apply user_bytes_range|done]. Qed.

Lemma two_splices {A} (a b l : list A) : (length a + length b <= length l)%nat ->
  take (length a + length b) (splice (length a) b (splice 0 a l)) = a ++ b.
Proof.
  intros Hl. change (splice 0 a l) with (a ++ drop (length a) l). unfold splice. rewrite take_app_length, app_assoc, <- length_app. apply take_app_length.
Qed.

Section Exporting.
Context {S : Type} `{TxStore S}.
Context (devsw_read : Z -> option (nat -> Z -> M (fs S) (Z * list Z))).
Context (devsw_write : Z -> option (nat -> list Z -> Z -> M (fs S) Z)).
Context (home : Z -> bool).

(** Both writes of the table, into a locked file. *)
Lemma write_usertable_wp s sb ic ut cu ip x d V L (Q : unit -> fs S -> Prop) : layout_ok sb (mkTx 1 home) -> (ip < length ic)%nat -> i_dev x = ROOTDEV ->
  file_st (mkTx 1 home) sb ic ut cu ip x s d V ∅ L -> room ∅ L 2 -> file_ok sb V d -> d_type d ≠ T_DEV -> d_size d = passwd_size -> storable ut ->
  (forall s' V' L', file_st (mkTx 1 home) sb ic ut cu ip x s' d V' ∅ L' -> file_bytes V' d = passwd_bytes ut ->
     (forall b, b ≠ faddr V d 0 -> V' b = V b) -> Q tt s') ->
  wp (write_usertable devsw_write ip) Q s.
Proof.
  intros Hly Hip Hdev Hst Hr Hok Ht Hsz (Hlen & Hwf & Hnx) HQ. destruct (read_utable_bytes (utable ut) Hlen Hwf) as [Hzl _].
  change passwd_size with 364 in Hsz. change sizeof_utable with 360 in *. set (b := faddr V d 0).
  assert (Hf0 : b ≠ 0) by (apply (fo_full _ _ _ Hok); lia). assert (Hdb : data_block sb V b) by (by apply (fo_data _ _ _ Hok)).
  assert (Hwb : length (V b) = 512%nat) by (eapply holds_wf, Hst).
  set (nb := le_bytes 4 (next_uid ut)). set (V1 := inside V d 0 nb).
  assert (Hframe : forall b', b' ≠ b -> V1 b' = V b') by (intros b' Hb'; unfold V1, inside; by rewrite upd_ne).
  assert (Hb1 : sb_bmapstart sb ≠ b) by (destruct Hdb; lia). assert (Hind : ind_addr d ≠ 0 -> ind_addr d ≠ b) by (intros _ E; by apply (fo_sep _ _ _ Hok 0)).
  assert (Hok1 : file_ok sb V1 d) by (eapply file_ok_view; [done|by apply Hframe|intros Hi; by apply Hframe, Hind]).
  assert (Ef1 : faddr V1 d 0 = b) by (apply faddr_view; intros Hi; by apply Hframe, Hind).
  unfold write_usertable. change sizeof_utable with 360. apply wp_bind, wp_gets. rewrite (fs_ut _ _ _ _ _ _ _ _ _ _ _ _ Hst).
  apply wp_bind. eapply (write_inside_wp (mkTx 1 home) sb Hly ltac:(done) ic ut cu ip x Hip Hdev devsw_write V d Hok Ht);
    [exact Hst|destruct Hr; split; [lia|done]|done|done|done|lia|done|apply le_bytes_byte|]. intros s1 Hst1. fold nb in Hst1. fold V1 b in Hst1.
  change (negb (4 =? 4)) with false. cbv iota. apply wp_bind.
  eapply (write_inside_wp (mkTx 1 home) sb Hly ltac:(done) ic ut cu ip x Hip Hdev devsw_write V1 d Hok1 Ht);
    [exact Hst1| |done|done|done|lia|done|by apply utable_bytes_range|].
  { destruct Hr as [Hr1 Hr2]. split; [|done]. pose proof (size_one_le b L). lia. }
  intros s2 Hst2. change (negb (360 =? 360)) with false. cbv iota. apply wp_ret. eapply HQ; [exact Hst2| |].
  - set (V2 := inside V1 d 4 (utable_bytes (utable ut))) in *.
    assert (Hfr2 : forall b', b' ≠ b -> V2 b' = V1 b') by (intros b' Hb'; unfold V2, inside; rewrite Ef1; by rewrite upd_ne).
    assert (Hok2 : file_ok sb V2 d) by (eapply file_ok_view; [exact Hok1|by apply Hfr2|intros Hi; by apply Hfr2, Hind]).
    assert (Ef2 : faddr V2 d 0 = b) by (rewrite (faddr_view V1 V2); [done|intros Hi; by apply Hfr2, Hind]).
    rewrite (file_bytes_one sb V2 d Hok2), Hsz, Ef2; [|unfold BSIZE; lia|rewrite Ef2; eapply holds_wf, Hst2].
    unfold V2, inside. rewrite Ef1, upd_eq. unfold V1, inside. fold b. rewrite upd_eq.
    assert (Hnl : length nb = 4%nat) by (by apply length_le_bytes). unfold zlen in Hzl.
    pose proof (two_splices nb (utable_bytes (utable ut)) (V b)) as Htwo. rewrite Hnl in Htwo.
    replace (Z.to_nat 364) with (4 + length (utable_bytes (utable ut)))%nat by lia. apply Htwo. lia.
  - intros b' Hb'. unfold inside at 1. rewrite Ef1, upd_ne by done. by apply Hframe.
Qed.

(** How the state after an export stands to the one before: the same accounts in
    memory, and no block of the disk changed but the one of the file. *)
Record exported (s : fs S) (V : Z -> list Z) (i : Z) (s' : fs S) (V' : Z -> list Z) : Prop := {
  ex_sb : f_sb s' = f_sb s;
  ex_ut : f_ut s' = f_ut s;
  ex_cur : f_cur s' = f_cur s;
  ex_inodes : forall j, 0 <= j < sb_ninodes (f_sb s) -> disk_inode (f_sb s) V' j = disk_inode (f_sb s) V j;
  ex_frame : forall b, home b = true -> b ≠ faddr V (disk_inode (f_sb s) V i) 0 -> V' b = V b;
  ex_bytes : file_bytes V' (disk_inode (f_sb s) V i) = passwd_bytes (f_ut s) }.

Lemma export_usertable_wp s V ip i (Q : unit -> fs S -> Prop) : passwd_file home s V ip i -> utable_ip (f_ut s) = Some ip -> storable (f_ut s) ->
  (forall s' V', passwd_file home s' V' ip i -> exported s V i s' V' -> Q tt s') ->
  wp (export_usertable devsw_write) Q s.
Proof.
  intros [Hly Hh Hca (x & Hx & Hr & Hi) Hok Hty Hsz] Hut Hsto HQ. set (sb := f_sb s) in *. set (d := disk_inode sb V i) in *.
  assert (Hty' : d_type d ≠ T_DEV) by (rewrite Hty; done). pose proof (lookup_lt_Some _ _ _ Hx) as Hipl.
  destruct (ca_slot _ _ _ _ _ _ Hca _ _ Hx) as [_ _ Huse _]. destruct (Huse Hr) as [_ [Hin _]]. rewrite Hi in Hin.
  assert (Hf0 : faddr V d 0 ≠ 0) by (apply (fo_full _ _ _ Hok); [done|rewrite Hsz; done]).
  assert (Hdb : data_block sb V (faddr V d 0)) by (by apply (fo_data _ _ _ Hok)). destruct Hdb as [Hdr _].
  assert (Hroom : room ∅ ∅ 2) by (split; [rewrite size_empty; vm_compute; lia|rewrite map_size_empty; lia]).
  unfold export_usertable. apply wp_bind. eapply wp_begin_op; [exact Hh|]. intros t1 Hh1. apply wp_bind, wp_gets. cbn [put_store f_ut]. rewrite Hut.
  apply wp_bind. eapply (ilock_wp (mkTx 1 home) sb V ∅ Hly ltac:(destruct Hroom; split; [lia|done]) _ ∅ no_ref (f_icache s) ip x); [exact Hca|apply not_elem_of_empty|exact Hx|exact Hr|done|exact Hh1|].
  intros t2 ic2 Hca2 Hk2 Hoth2 Hh2. rewrite lock_one in Hca2. rewrite Hi in Hk2. set (lx := locked_inode _ _ _ i _) in Hk2. pose proof (lookup_lt_Some _ _ _ Hk2) as Hip2.
  assert (Hset : <[ip := set_d d lx]> ic2 = ic2) by (by apply list_insert_id).
  apply wp_bind. eapply (write_usertable_wp _ sb ic2 (f_ut s) (f_cur s) ip lx d V ∅ _ Hly Hip2 eq_refl);
    [by split; try done|exact Hroom|done|done|done|done|]. intros s3 V3 L3 [E1 E2 E3 E4 Hh3] Hby Hfr. rewrite Hset in E2.
  assert (Hno : forall j, 0 <= j < sb_ninodes sb -> disk_inode sb V3 j = disk_inode sb V j).
  { intros j Hj. apply disk_inode_view, Hfr. destruct (ly_inodes _ _ Hly j Hj). lia. }
  apply wp_bind. eapply (iunlock_wp sb V3 s3 {[ip]} no_ref (f_icache s) ip lx); [rewrite E2; by eapply cache_view_all|by rewrite E2|done|by rewrite E4|].
  intros ic4 Hca4 E4'. rewrite unlock_one in Hca4. eapply wp_end_op; [exact Hh3|]. intros t5 V5 Hh5 Hhome.
  assert (Hno5 : forall j, 0 <= j < sb_ninodes sb -> disk_inode sb V5 j = disk_inode sb V3 j).
  { intros j Hj. apply disk_inode_view, Hhome. by destruct (ly_inodes _ _ Hly j Hj). }
  assert (Hd5 : disk_inode sb V5 i = d) by (by rewrite Hno5, Hno).
  assert (Hbm : V5 (sb_bmapstart sb) = V (sb_bmapstart sb)) by (rewrite Hhome by apply (ly_bmap _ _ Hly); apply Hfr; lia).
  assert (Hind : ind_addr d ≠ 0 -> V5 (ind_addr d) = V (ind_addr d)).
  { intros Hn. destruct (fo_ind _ _ _ Hok Hn) as [Hr1 _]. rewrite Hhome by (by apply Hly). apply Hfr. intros E. by destruct (fo_sep _ _ _ Hok 0 ltac:(done) Hf0). }
  apply (HQ _ V5).
  - split; cbn [f_sb put_store put_ic f_icache]; rewrite ?E1, ?Hd5; try assumption.
    + eapply cache_view_all; [exact Hno5|]. by eapply cache_self.
    + exists (set_ilock initsleeplock lx). split; [|done]. rewrite E4', E2. by apply list_lookup_insert_eq.
    + by eapply file_ok_view.
  - split; cbn [f_sb f_ut f_cur put_store put_ic]; try assumption.
    + intros j Hj. by rewrite Hno5, Hno.
    + intros b Hb Hne. rewrite Hhome by done. by apply Hfr.
    + rewrite <- Hby. fold sb d. unfold file_bytes. apply list_fmap_ext. intros k p Hp. apply lookup_seqZ in Hp. unfold fbyte.
      assert (Ea : forall q, faddr V5 d q = faddr V d q) by (intros q; by apply faddr_view).
      assert (Ea3 : forall q, faddr V3 d q = faddr V d q).
      { intros q. apply faddr_view. intros Hn. apply Hfr. intros E. by destruct (fo_sep _ _ _ Hok 0 ltac:(done) Hf0). }
      rewrite Ea, Ea3. change passwd_size with 364 in Hsz. assert (Hp0 : p / BSIZE = 0) by (unfold BSIZE; apply Z.div_small; lia).
      rewrite Hp0, Hhome; [done|]. by apply (ly_home _ _ Hly).
Qed.

(** ** The invariant of the accounts *)

Record accounts_ok (s : fs S) (V : Z -> list Z) (ip : nat) (i : Z) : Prop := {
  ac_file : passwd_file home s V ip i;
  ac_bytes : file_bytes V (disk_inode (f_sb s) V i) = passwd_bytes (f_ut s);
  ac_ut : ut_ok (f_ut s);
  ac_free : free_ut (f_ut s);
  ac_ip : utable_ip (f_ut s) = Some ip;
  ac_next : next_uid (f_ut s) < 4294967296 }.

(** Blocks that are not the file's, and the inodes, stay as they are. *)
Definition disk_kept (s : fs S) (V : Z -> list Z) (i : Z) (s' : fs S) (V' : Z -> list Z) : Prop :=
  f_sb s' = f_sb s
  /\ (forall j, 0 <= j < sb_ninodes (f_sb s) -> disk_inode (f_sb s) V' j = disk_inode (f_sb s) V j)
  /\ forall b, home b = true -> b ≠ faddr V (disk_inode (f_sb s) V i) 0 -> V' b = V b.

Definition with_ut (u : utab) (s : fs S) : fs S := mkFs (f_store s) (f_sb s) (f_icache s) u (f_cur s).

Lemma passwd_file_ut s V ip i u : passwd_file home s V ip i -> passwd_file home (with_ut u s) V ip i.
Proof. intros [? ? ? ? ? ? ?]. by split. Qed.

(** The table [u'] is in memory, locked by the caller; it is exported and unlocked. *)
Lemma export_unlock_wp s V ip i l u' (Q : unit -> fs S -> Prop) : accounts_ok s V ip i -> ut_ok u' -> free_ut u' -> next_uid u' < 4294967296 -> utable_ip u' = Some ip ->
  (forall s' V', accounts_ok s' V' ip i -> f_ut s' = u' -> f_cur s' = f_cur s -> disk_kept s V i s' V' -> Q tt s') ->
  wp (export_usertable devsw_write ;;; on_ut unlock_utable) Q (with_ut (set_ut_lock l u') s).
Proof.
  intros [Hf Hby Hu Hfr Hip Hnx] Hu' Hfr' Hnx' Hip' HQ. apply wp_bind.
  eapply (export_usertable_wp _ V ip i); [by apply passwd_file_ut|done| |].
  { destruct (ut_ok_storable u' Hu' Hnx') as (? & ? & ?). by split_and!. }
  intros s' V' Hf' [E1 E2 E3 E4 E5 E6]. cbn [with_ut f_sb f_ut f_cur] in *. apply wp_lift. rewrite E2. apply wp_unlock_utable.
  rewrite (relock u' l Hfr'). apply (HQ _ V'); cbn [f_ut f_cur]; try done.
  split; cbn [f_sb f_ut f_icache]; try done; [by apply (passwd_file_ut s' V' ip i u')|].
  rewrite E1, E4; [exact E6|]. destruct (pf_ip _ _ _ _ _ Hf) as (x & Hx & Hr & <-).
  by destruct (so_use _ _ _ _ _ (ca_slot _ _ _ _ _ _ (pf_cache _ _ _ _ _ Hf) _ _ Hx) Hr) as [_ [? _]].
Qed.

(** The calls that are carried out. *)
Definition can_add (u : utab) (username passwd : list Z) : Prop :=
  valid_len username = true /\ valid_len passwd = true
  /\ (forall v, v ∈ utable u -> used v = true -> name_of v ≠ cstr username) /\ exists v, v ∈ utable u /\ used v = false.

Lemma wp_on_ut {A} (m : M utab A) (Q : A -> fs S -> Prop) s : wp m (fun a u => Q a (with_ut u s)) (f_ut s) -> wp (on_ut m) Q s.
Proof. apply wp_lift. Qed.

Lemma unlocked s V ip i l : accounts_ok s V ip i -> with_ut (set_ut_lock (mkSleeplock 0 0) (set_ut_lock l (f_ut s))) s = s.
Proof. intros Ha. rewrite (relock _ l (ac_free _ _ _ _ Ha)). by destruct s. Qed.

Lemma ut_ok_lock u l : ut_ok u -> ut_ok (set_ut_lock l u).
Proof. intros [? ? ? ? ? ? ?]. by split. Qed.

Lemma relocked u l : utable_lock u = l -> set_ut_lock l (set_ut_lock (mkSleeplock 0 0) u) = u.
Proof. destruct u. by intros <-. Qed.

Lemma add_user_wp s V ip i username passwd : accounts_ok s V ip i -> terminated username = true -> terminated passwd = true ->
  Forall is_byte username -> Forall is_byte passwd -> next_uid (f_ut s) + 1 < 4294967296 ->
  wp (add_user devsw_write username passwd) (fun r s' =>
    (can_add (f_ut s) username passwd -> r = next_uid (f_ut s) /\ exists V', accounts_ok s' V' ip i /\ disk_kept s V i s' V'
       /\ next_uid (f_ut s') = r + 1 /\ forall n p uid, account (utable (f_ut s')) n p uid <->
            (n = cstr username /\ p = cstr passwd /\ uid = r) \/ account (utable (f_ut s)) n p uid)
    /\ (~ can_add (f_ut s) username passwd -> r = 0 /\ s' = s)) s.
Proof.
  intros Ha Hn Hp Hbn Hbp Hmax. unfold add_user, add_locked. rewrite is_valid_username_spec, is_valid_passwd_spec by done. apply wp_bind, wp_ret.
  unfold can_add. destruct (valid_len username) eqn:Hvn; [|apply wp_bind, wp_ret, wp_ret; split; [by intros (? & _)|done]].
  apply wp_bind, wp_ret. destruct (valid_len passwd) eqn:Hvp; [|apply wp_ret; split; [by intros (_ & ? & _)|done]].
  cbn [negb orb]. apply wp_bind, wp_gets, wp_bind, wp_on_ut, wp_lock_utable; [apply Ha|]. set (l := mkSleeplock 1 (c_pid (f_cur s))).
  apply wp_bind, wp_gets. cbn [with_ut f_ut set_ut_lock utable].
  destruct (find_slot_spec username (readable_terminated _ _ Hn) (utable (f_ut s)) 0 None (ut_wf _ (ac_ut _ _ _ _ Ha))) as (r & Hr & Hsp).
  rewrite (valid_cstrn username) in Hsp by done. apply wp_bind. eapply wp_from_opt; [exact Hr|]. destruct r as [[]|e].
  { apply wp_bind, wp_on_ut, wp_unlock_utable, wp_ret. destruct Hsp as (v & Hv & Hu & Hnm). split; [intros (_ & _ & Hno & _); by destruct (Hno v Hv Hu)|].
    intros _. split; [done|]. exact (unlocked s V ip i l Ha). }
  destruct Hsp as [Hno [[-> Hall]|(k & v & -> & Hk & Hv0)]].
  { apply wp_bind, wp_on_ut, wp_unlock_utable, wp_ret. split; [intros (_ & _ & _ & v & Hv & Hu); by rewrite Hall in Hu|].
    intros _. split; [done|]. exact (unlocked s V ip i l Ha). }
  cbn [Nat.add]. apply wp_bind, wp_on_ut. eapply wp_mono.
  { apply (fill_slot_spec (set_ut_lock l (f_ut s)) k v username passwd); try done; try by apply readable_terminated.
    - by apply ut_ok_lock, Ha.
    - by rewrite (valid_cstrn username). }
  rewrite (valid_cstrn username), (valid_cstrn passwd) by done. cbn [next_uid utable set_ut_lock]. intros [] u1 (Hu1 & Hnx1 & (n1 & p1 & Et1) & El1 & Ei1 & Hacc).
  rewrite <- (relocked u1 l El1). apply wp_assoc, wp_bind.
  eapply (export_unlock_wp s V ip i l (set_ut_lock (mkSleeplock 0 0) u1)); [done|by apply ut_ok_lock|done|cbn; lia|cbn; rewrite Ei1; apply Ha|].
  intros s' V' Ha' Eu Ec Hk'. apply wp_bind, wp_gets. rewrite Eu. cbn [set_ut_lock utable]. rewrite Et1.
  rewrite list_lookup_insert_eq by (by eapply lookup_lt_Some). apply wp_bind, wp_ret, wp_ret. split.
  - intros _. split; [done|]. exists V'. rewrite Eu. cbn [set_ut_lock utable next_uid]. split; [done|]. split; [done|]. split; [exact Hnx1|exact Hacc].
  - intros Hc. destruct Hc. split_and!; try done. exists v. split; [by eapply list_elem_of_lookup_2|]. unfold used. by rewrite Hv0.
Qed.

(** The account is removed: it exists and is not the administrator's. *)
Definition can_delete (u : utab) (username : list Z) : Prop :=
  valid_len username = true /\ cstr username ≠ str_root /\ exists v, v ∈ utable u /\ used v = true /\ name_of v = cstr username.

Lemma not_root_uid u v : ut_ok u -> v ∈ utable u -> used v = true -> name_of v ≠ str_root -> u_uid v ≠ ROOT_UID.
Proof.
  intros Hok (j & Hj)%list_elem_of_lookup Hu Hn E. destruct (ut_root _ Hok) as (a & (k & Hk)%list_elem_of_lookup & Ha & Han).
  assert (j = k) as -> by (eapply (ut_uids _ Hok); eauto; congruence). congruence.
Qed.

Lemma delete_user_wp s V ip i username : accounts_ok s V ip i -> terminated username = true ->
  wp (delete_user devsw_write username) (fun r s' =>
    (can_delete (f_ut s) username -> r = 0 /\ exists V', accounts_ok s' V' ip i /\ disk_kept s V i s' V'
       /\ next_uid (f_ut s') = next_uid (f_ut s) /\ forall n p uid, account (utable (f_ut s')) n p uid <-> n ≠ cstr username /\ account (utable (f_ut s)) n p uid)
    /\ (~ can_delete (f_ut s) username -> r = -1 /\ s' = s)) s.
Proof.
  intros Ha Hn. unfold delete_user. rewrite is_valid_username_spec by done. apply wp_bind, wp_ret. unfold can_delete.
  destruct (valid_len username) eqn:Hvn; [|apply wp_ret; split; [by intros (? & _)|done]]. cbn [negb].
  destruct (strncmp_total s_root username NAMELEN) as [c Hc]; [done|by apply readable_terminated|].
  pose proof (strncmp_zero _ _ _ _ Hc) as Hz. rewrite (valid_cstrn username) in Hz by done. change (cstrn NAMELEN s_root) with str_root in Hz.
  apply wp_bind. eapply wp_from_opt; [exact Hc|]. destruct (Z.eqb_spec c 0) as [Ec|Ec].
  { apply wp_ret. split; [|done]. intros (_ & Hr & _). destruct Hr. symmetry. by apply Hz. }
  apply wp_bind, wp_gets, wp_bind, wp_on_ut, wp_lock_utable; [apply Ha|]. set (l := mkSleeplock 1 (c_pid (f_cur s))).
  apply wp_bind, wp_gets. cbn [with_ut f_ut set_ut_lock utable].
  destruct (find_user_spec (utable (f_ut s)) username (ut_wf _ (ac_ut _ _ _ _ Ha)) (readable_terminated _ _ Hn) 0) as (r & Hr & Hsp).
  rewrite (valid_cstrn username) in Hsp by done. apply wp_bind. eapply wp_from_opt; [exact Hr|]. destruct r as [k|].
  2:{ apply wp_bind, wp_on_ut, wp_unlock_utable, wp_ret. split; [intros (_ & _ & v & Hv & Hu & Hnm); by destruct (Hsp v Hv Hu)|].
      intros _. split; [done|]. exact (unlocked s V ip i l Ha). }
  destruct Hsp as (k' & v & -> & Hk & Hu & Hnm). cbn [Nat.add]. pose proof (list_elem_of_lookup_2 _ _ _ Hk) as Hin.
  assert (Hnr : name_of v ≠ str_root) by (rewrite Hnm; intros E; by apply Ec, Hz).
  apply wp_bind, wp_on_ut. eapply wp_mono.
  { apply (clear_slot_spec (set_ut_lock l (f_ut s)) k' v); try done; [by apply ut_ok_lock, Ha|]. by eapply not_root_uid; [apply Ha|..]. }
  cbn [next_uid utable set_ut_lock]. intros [] u1 (Hu1 & Hnx1 & El1 & Ei1 & Hacc).
  rewrite <- (relocked u1 l El1). apply wp_assoc, wp_bind.
  eapply (export_unlock_wp s V ip i l (set_ut_lock (mkSleeplock 0 0) u1)); [done|by apply ut_ok_lock|done|cbn; rewrite Hnx1; apply Ha|cbn; rewrite Ei1; apply Ha|].
  intros s' V' Ha' Eu Ec' Hk'. apply wp_ret. split.
  - intros _. split; [done|]. exists V'. rewrite Eu. cbn [set_ut_lock utable next_uid]. split; [done|]. split; [done|]. split; [exact Hnx1|by rewrite <- Hnm].
  - intros Hc'. destruct Hc'. split_and!; [done|by rewrite <- Hnm|]. by exists v.
Qed.

(** ** Starting again *)

Definition passwd_path : list Z := take 7 s_passwd.

(** The state in which the first process calls [init_usertable]: a file system in
    order, an inode cache with room, and /passwd, which is inode [i]. *)
Record starting (s : fs S) (V : Z -> list Z) (i : Z) : Prop := {
  bo_new : utable_initialized (f_ut s) = false;
  bo_layout : layout_ok (f_sb s) (mkTx 1 home);
  bo_holds : holds s (mkTx 0 home) V ∅ ∅;
  bo_tree : tree_ok (f_sb s) V;
  bo_root : live (f_sb s) V ROOTINO /\ d_nlink (disk_inode (f_sb s) V ROOTINO) ≠ 0;
  bo_cache : cache (f_sb s) V ∅ no_ref (f_icache s) (f_icache s);
  bo_room : exists j1 j2 x1 x2, j1 ≠ j2 /\ f_icache s !! j1 = Some x1 /\ f_icache s !! j2 = Some x2 /\ i_ref x1 = 0 /\ i_ref x2 = 0;
  bo_name : resolve (f_sb s) V (f_cur s) false ROOTINO (elems passwd_path) = Some i }.

Lemma passwd_bytes_read u : storable u -> zlen (passwd_bytes u) = passwd_size
  /\ get_le 4 0 (slice 0 4 (passwd_bytes u)) = next_uid u /\ read_utable (slice 4 (Z.to_nat sizeof_utable) (passwd_bytes u)) = utable u.
Proof.
  intros (Hl & Hwf & Hn). destruct (read_utable_bytes (utable u) Hl Hwf) as [Hz Hrd]. unfold passwd_bytes. set (nb := le_bytes 4 (next_uid u)).
  assert (Hnl : length nb = 4%nat) by apply length_le_bytes. assert (Hsl : slice 0 4 (nb ++ utable_bytes (utable u)) = nb) by (by apply slice_app_l).
  split_and!.
  - unfold zlen in *. rewrite length_app, Hnl. unfold passwd_size. lia.
  - rewrite Hsl. unfold get_le, slice. rewrite drop_0, take_ge by lia. by apply le_val_bytes.
  - replace (slice 4 (Z.to_nat sizeof_utable) (nb ++ utable_bytes (utable u))) with (utable_bytes (utable u)); [done|].
    rewrite <- Hnl at 1. rewrite <- (Nat.add_0_r (length nb)), slice_app_r. unfold slice. rewrite drop_0, take_ge; [done|]. unfold zlen in Hz. lia.
Qed.

(** The part of [init_usertable] after the name is found, on the entry [k]. *)
Definition load_usertable (ip : nat) (old : Z) : M (fs S) nat :=
  ilock ip ;;;
  a <- readi devsw_read ip 0 4 ;;
  on_ut (modify (set_next_uid (if fst a =? 4 then get_le 4 0 (snd a) else old))) ;;;
  if negb (fst a =? 4) then panic "failed to initialize user table!"
  else
    b <- readi devsw_read ip 4 sizeof_utable ;;
    if negb (fst b =? sizeof_utable) then panic "failed to initialize user table!"
    else on_ut (modify (set_utable (read_utable (snd b)))) ;;; ret ip.

Lemma load_usertable_wp s sb V f ic i u k x old (Q : nat -> fs S -> Prop) : layout_ok sb (mkTx 1 home) -> f_sb s = sb -> holds s (mkTx 1 home) V ∅ ∅ ->
  cache sb V ∅ f ic (f_icache s) -> f_icache s !! k = Some x -> 0 < i_ref x -> i_inum x = i ->
  file_ok sb V (disk_inode sb V i) -> d_type (disk_inode sb V i) = T_FILE -> file_bytes V (disk_inode sb V i) = passwd_bytes u -> storable u ->
  (forall s' ic2, f_sb s' = sb -> f_cur s' = f_cur s -> holds s' (mkTx 1 home) V ∅ ∅ -> f_icache s' = ic2 -> cache sb V {[k]} f ic ic2 ->
     ic2 !! k = Some (locked_inode sb V (c_pid (f_cur s)) i (i_ref x)) -> f_ut s' = set_utable (utable u) (set_next_uid (next_uid u) (f_ut s)) -> Q k s') ->
  wp (load_usertable k old) Q s.
Proof.
  intros Hly Hsb Hh Hca Hx Hr Hi Hok Hty Hby Hsto HQ. destruct (passwd_bytes_read u Hsto) as (Hz & Hrn & Hrt). set (d := disk_inode sb V i) in *.
  assert (Hsz : d_size d = 364).
  { change 364 with passwd_size. rewrite <- Hz, <- Hby. unfold file_bytes, zlen. rewrite length_fmap, length_seqZ. pose proof (fo_size _ _ _ Hok). lia. }
  assert (Hroom : room ∅ ∅ 0) by (split; [rewrite size_empty; vm_compute; lia|rewrite map_size_empty; lia]).
  destruct (so_use _ _ _ _ _ (ca_slot _ _ _ _ _ _ Hca _ _ Hx) Hr) as [_ [Hin _]].
  unfold load_usertable. apply wp_bind. eapply (ilock_wp (mkTx 1 home) sb V ∅ Hly Hroom); [exact Hca|apply not_elem_of_empty|exact Hx|done|done|exact Hh|].
  intros t2 ic2 Hca2 Hk2 _ Hh2. rewrite lock_one in Hca2. rewrite Hi in Hk2, Hin. set (lx := locked_inode _ _ _ i _) in Hk2. pose proof (lookup_lt_Some _ _ _ Hk2) as Hkl.
  assert (Hset : <[k := set_d d lx]> ic2 = ic2) by (by apply list_insert_id). assert (Hty' : d_type d ≠ T_DEV) by (by rewrite Hty).
  apply wp_bind. eapply wp_mono.
  { apply (readi_wp (mkTx 1 home) sb Hly ic2 (f_ut s) (f_cur s) k lx Hkl eq_refl Hin devsw_read devsw_write _ d V ∅ 0 4); try done; lia. }
  intros a s3 [[E1 E2 E3 E4 Hh3] ->]. rewrite Hset in E2. rewrite Hsz. change (4 `min` (364 - 0)) with 4. cbn [fst snd]. change (4 =? 4) with true. cbn [negb]. cbv iota.
  change (Z.to_nat 0) with 0%nat. change (Z.to_nat 4) with 4%nat. rewrite Hby, Hrn. apply wp_bind, wp_on_ut. eapply wp_modify. rewrite E3.
  apply wp_bind. eapply wp_mono.
  { apply (readi_wp (mkTx 1 home) sb Hly ic2 (set_next_uid (next_uid u) (f_ut s)) (f_cur s) k lx Hkl eq_refl Hin devsw_read devsw_write _ d V ∅ 4 sizeof_utable); try done.
    - by split; cbn [with_ut f_sb f_icache f_ut f_cur]; rewrite ?Hset.
    - lia. }
  intros b s4 [[G1 G2 G3 G4 Hh4] ->]. rewrite Hset in G2. rewrite Hsz. change (sizeof_utable `min` (364 - 4)) with sizeof_utable. cbn [fst snd].
  rewrite Z.eqb_refl. cbn [negb]. change (Z.to_nat 4) with 4%nat. rewrite Hby, Hrt. apply wp_bind, wp_on_ut. eapply wp_modify. apply wp_ret.
  apply (HQ _ ic2); cbn [with_ut f_sb f_icache f_ut f_cur]; try done. by rewrite G3.
Qed.

Lemma init_usertable_wp s V i u : starting s V i -> file_ok (f_sb s) V (disk_inode (f_sb s) V i) -> d_type (disk_inode (f_sb s) V i) = T_FILE ->
  file_bytes V (disk_inode (f_sb s) V i) = passwd_bytes u -> storable u ->
  wp (init_usertable devsw_read devsw_write) (fun r s' => r = 0 /\ exists ip V',
    f_ut s' = mkUtab (utable u) (next_uid u) true (Some ip) initsleeplock /\ passwd_file home s' V' ip i
    /\ file_bytes V' (disk_inode (f_sb s') V' i) = passwd_bytes u /\ f_sb s' = f_sb s /\ forall b, home b = true -> V' b = V b) s.
Proof.
  intros [B1 B2 B3 B4 B5 B6 B7 B8] B9 B10 B11 Hsto. set (sb := f_sb s) in *. set (d := disk_inode sb V i) in *.
  assert (Hroom : room ∅ ∅ 0) by (split; [rewrite size_empty; vm_compute; lia|rewrite map_size_empty; lia]).
  unfold init_usertable. apply wp_bind, wp_gets. rewrite B1. apply wp_bind. eapply wp_begin_op; [exact B3|]. intros t1 Hh1.
  set (s1 := put_store t1 s) in *.
  destruct (namex_spec s1 (mkTx 1 home) V ∅ devsw_read false passwd_path [] (replicate 14 0) ROOTINO) as (r & s2 & Hrun & Hpost); [by split|done|by repeat constructor|done|].
  change (resolve _ _ _ _ _ _) with (resolve sb V (f_cur s) false ROOTINO (elems passwd_path)) in Hpost. rewrite B8 in Hpost.
  destruct Hpost as (k & nm & x & -> & [W1 W2 W3 W4 W5] & [A1 A2 A3 A4] & _).
  apply wp_bind. unfold namei. apply wp_bind. apply wp_Ok. eexists _, s2. split; [exact Hrun|]. apply wp_ret. cbn [fmap option_fmap option_map fst].
  apply wp_bind. eapply (load_usertable_wp s2 sb V _ _ i u k x (next_uid (f_ut s)) _ B2 W1 W4 W5 A1 A3 A2 B9 B10 B11 Hsto).
  intros s3 ic2 E1 E2 Hh3 Eic Hca3 Hk3 Eut. apply wp_bind.
  eapply (iunlock_wp sb V s3 _ _ (f_icache s) k); [by rewrite Eic|by rewrite Eic|done|by rewrite E2|]. intros ic4 Hca4 Eic4. rewrite unlock_one in Hca4.
  apply wp_bind. eapply wp_end_op; [exact Hh3|]. intros t5 V5 Hh5 Hhome. apply wp_bind, wp_on_ut. eapply wp_modify. apply wp_ret. split; [done|].
  destruct (file_home sb home V V5 d B2 Hhome B9) as [Hok5 Hby5].
  assert (Hno5 : forall j, 0 <= j < sb_ninodes sb -> disk_inode sb V5 j = disk_inode sb V j).
  { intros j Hj. apply disk_inode_view, Hhome. by destruct (ly_inodes _ _ B2 j Hj). }
  assert (Hd5 : disk_inode sb V5 i = d).
  { apply Hno5. destruct (so_use _ _ _ _ _ (ca_slot _ _ _ _ _ _ W5 _ _ A1) A3) as [_ [Hin _]]. by rewrite A2 in Hin. }
  exists k, V5. cbn [with_ut put_store put_ic f_sb f_ut f_icache]. rewrite Eut, E1, W2. split; [done|]. rewrite Hd5. split; [|split_and!; [by rewrite Hby5|done|done]].
  split; cbn [with_ut put_store put_ic f_sb f_ut f_icache]; rewrite ?E1, ?Hd5; try assumption.
  - eapply cache_view_all; [exact Hno5|]. by eapply cache_self.
  - exists (set_ilock initsleeplock (locked_inode sb V (c_pid (f_cur s2)) i (i_ref x))). split; [|done]. rewrite Eic4, Eic.
    apply list_lookup_insert_eq. by eapply lookup_lt_Some.
  - destruct (passwd_bytes_read u Hsto) as (Hz & _). rewrite <- Hz, <- B11. unfold file_bytes, zlen. rewrite length_fmap, length_seqZ.
    pose proof (fo_size _ _ _ B9). unfold d, sb in *. lia.
Qed.
End Exporting.

(** ** The theorems *)

(** A call that changes the accounts, and the strings it may be given. *)
Inductive acc_call := AddUser (username passwd : list Z) | DeleteUser (username : list Z).

Definition run_call {S} `{TxStore S} devsw_write (a : acc_call) : M (fs S) Z :=
  match a with
  | AddUser username passwd => add_user devsw_write username passwd
  | DeleteUser username => delete_user devsw_write username
  end.

Definition c_string (l : list Z) : Prop := terminated l = true /\ Forall is_byte l.

Definition call_ok (a : acc_call) (u : utab) : Prop :=
  match a with
  | AddUser username passwd => c_string username /\ c_string passwd /\ next_uid u + 1 < 4294967296
  | DeleteUser username => c_string username
  end.

(** What a call returns, and the accounts after it. *)
Definition call_result (a : acc_call) (u : utab) (r : Z) (u' : utab) : Prop :=
  match a with
  | AddUser username passwd =>
      (can_add u username passwd /\ r = next_uid u /\ next_uid u' = r + 1 /\ forall n p uid, account (utable u') n p uid <->
         (n = cstr username /\ p = cstr passwd /\ uid = r) \/ account (utable u) n p uid)
      \/ (~ can_add u username passwd /\ r = 0 /\ u' = u)
  | DeleteUser username =>
      (can_delete u username /\ r = 0 /\ next_uid u' = next_uid u /\ forall n p uid, account (utable u') n p uid <->
         n ≠ cstr username /\ account (utable u) n p uid)
      \/ (~ can_delete u username /\ r = -1 /\ u' = u)
  end.

Lemma can_add_dec u username passwd : {can_add u username passwd} + {~ can_add u username passwd}.
Proof.
  unfold can_add. destruct (valid_len username); [|right; by intros (? & _)]. destruct (valid_len passwd); [|right; by intros (_ & ? & _)].
  destruct (decide (Forall (fun v => used v = true -> name_of v ≠ cstr username) (utable u))) as [H1|H1].
  2:{ right. intros (_ & _ & H & _). apply H1, Forall_forall. auto. }
  destruct (decide (Exists (fun v => used v = false) (utable u))) as [H2|H2].
  - left. apply Exists_exists in H2 as (v & Hv & Hu). rewrite Forall_forall in H1. split_and!; eauto.
  - right. intros (_ & _ & _ & v & Hv & Hu). apply H2, Exists_exists. eauto.
Qed.

Lemma can_delete_dec u username : {can_delete u username} + {~ can_delete u username}.
Proof.
  unfold can_delete. destruct (valid_len username); [|right; by intros (? & _)].
  destruct (decide (cstr username = str_root)); [right; by intros (_ & ? & _)|].
  destruct (decide (Exists (fun v => used v = true /\ name_of v = cstr username) (utable u))) as [H2|H2].
  - left. apply Exists_exists in H2 as (v & Hv & Hu & Hn). split_and!; eauto.
  - right. intros (_ & _ & v & Hv & Hu & Hn). apply H2, Exists_exists. eauto.
Qed.

Lemma run_call_ok {S} `{TxStore S} devsw_write home (s : fs S) V ip i a : accounts_ok home s V ip i -> call_ok a (f_ut s) ->
  exists r s' V', run_call devsw_write a s = Ok r s' /\ accounts_ok home s' V' ip i
    /\ call_result a (f_ut s) r (f_ut s') /\ disk_kept home s V i s' V'.
Proof.
  intros Ha Hc. destruct a as [username passwd|username]; cbn [call_ok run_call call_result] in *.
  - destruct Hc as ([Hn Hbn] & [Hp Hbp] & Hmax).
    pose proof (add_user_wp devsw_write home s V ip i username passwd Ha Hn Hp Hbn Hbp Hmax) as Hw. apply wp_Ok in Hw as (r & s' & Hrun & Hyes & Hno).
    destruct (can_add_dec (f_ut s) username passwd) as [Hcan|Hcan].
    + destruct (Hyes Hcan) as (-> & V' & Ha' & Hk & Hnx & Hacc). exists (next_uid (f_ut s)), s', V'. split_and!; try done. by left.
    + destruct (Hno Hcan) as (-> & ->). exists 0, s, V. split_and!; try done. by right.
  - destruct Hc as [Hn _]. pose proof (delete_user_wp devsw_write home s V ip i username Ha Hn) as Hw. apply wp_Ok in Hw as (r & s' & Hrun & Hyes & Hno).
    destruct (can_delete_dec (f_ut s) username) as [Hcan|Hcan].
    + destruct (Hyes Hcan) as (-> & V' & Ha' & Hk & Hnx & Hacc). exists 0, s', V'. split_and!; try done. by left.
    + destruct (Hno Hcan) as (-> & ->). exists (-1), s, V. split_and!; try done. by right.
Qed.

(** C12: [add_user] and [delete_user] return for every pair of strings, and what they
    do to the accounts is what they promise: a new account gets the next user id
    when the name is new, both strings have an acceptable length and a slot is
    free; an account is removed when it exists and is not the administrator's; else
    the call fails and changes nothing.  The file /passwd then holds the table, and
    no other block or inode of the disk has changed. *)
Theorem account_calls_saved {S} `{TxStore S} devsw_write home (s : fs S) V ip i a : accounts_ok home s V ip i -> call_ok a (f_ut s) ->
  exists r s' V', run_call devsw_write a s = Ok r s' /\ accounts_ok home s' V' ip i
    /\ call_result a (f_ut s) r (f_ut s') /\ disk_kept home s V i s' V'.
Proof. apply run_call_ok. Qed.

(** One call after another. *)
Definition acc_step {S} `{TxStore S} devsw_write (s s' : fs S) : Prop :=
  exists a r, call_ok a (f_ut s) /\ run_call devsw_write a s = Ok r s'.

Lemma acc_steps_ok {S} `{TxStore S} devsw_write home (s s' : fs S) V ip i : accounts_ok home s V ip i -> rtc (acc_step devsw_write) s s' ->
  exists V', accounts_ok home s' V' ip i.
Proof.
  intros Ha Hs. revert V Ha. induction Hs as [s|s s1 s2 (a & r & Hc & Hrun) _ IH]; intros V Ha; [eauto|].
  destruct (run_call_ok devsw_write home s V ip i a Ha Hc) as (r' & s1' & V1 & Hrun' & Ha1 & _). rewrite Hrun in Hrun'. injection Hrun' as <- <-. by eapply IH.
Qed.

(** C11: Accounts survive a restart.  After any sequence of account calls, a system
    that starts from the blocks they left on the disk reads back the same table and
    the same next user id, and can go on with further calls. *)
Theorem accounts_survive {S} `{TxStore S} devsw_write home (s s' : fs S) V ip i : accounts_ok home s V ip i -> rtc (acc_step devsw_write) s s' ->
  (exists V', accounts_ok home s' V' ip i)
  /\ forall V', accounts_ok home s' V' ip i ->
       forall devsw_read2 devsw_write2 (s2 : fs S) V2, starting home s2 V2 i -> f_sb s2 = f_sb s' -> (forall b, home b = true -> V2 b = V' b) ->
       exists s3 V3 k, init_usertable devsw_read2 devsw_write2 s2 = Ok 0 s3 /\ accounts_ok home s3 V3 k i
         /\ utable (f_ut s3) = utable (f_ut s') /\ next_uid (f_ut s3) = next_uid (f_ut s').
Proof.
  intros Ha Hs. split; [by eapply acc_steps_ok|]. intros V' Ha' devr devw s2 V2 Hst Hsb HV. destruct Ha' as [[P1 P2 P3 (x & Hx & Hr & Hi) P5 P6 P7] Hby Hu Hfr Hip Hnx].
  destruct (file_home (f_sb s') home V' V2 _ P1 HV P5) as [Hok2 Hby2].
  assert (Hd : disk_inode (f_sb s') V2 i = disk_inode (f_sb s') V' i).
  { apply disk_inode_view, HV. destruct (so_use _ _ _ _ _ (ca_slot _ _ _ _ _ _ P3 _ _ Hx) Hr) as [_ [Hin _]]. rewrite Hi in Hin.
    by destruct (ly_inodes _ _ P1 i Hin). }
  pose proof (init_usertable_wp devr devw home s2 V2 i (f_ut s') Hst) as Hw. rewrite Hsb, Hd in Hw.
  specialize (Hw Hok2 P6 ltac:(by rewrite Hby2) (ut_ok_storable _ Hu Hnx)).
  apply wp_Ok in Hw as (r & s3 & Hrun & -> & k & V3 & Eu & Hpf & Hby3 & _ & _). exists s3, V3, k. rewrite Eu. split; [exact Hrun|]. split; [|done].
  split; rewrite ?Eu; try assumption; [|reflexivity..]. destruct Hu as [U1 U2 U3 U4 U5 U6 U7]. by split.
Qed.

(** ** An example *)

(** The file system of the examples with "passwd" (inode 2) for its file "f". *)
Definition pw_inode : dinode := mkDinode (Z.lor MODE_RUSR MODE_WUSR) T_FILE 0 0 1 passwd_size (60 :: replicate 11 0) ROOT_UID.
Definition pw_inodes : list Z := write_dinode 192 demo_shared (write_dinode 128 pw_inode (write_dinode 64 demo_root zero_block)).
Definition pw_dir : list Z :=
  demo_dirent 1 [46] ++ demo_dirent 1 [46; 46] ++ demo_dirent 2 [112; 97; 115; 115; 119; 100] ++ demo_dirent 3 [103] ++ replicate 448 0.
Definition pw_data : list Z := passwd_bytes demo_utab ++ replicate 148 0.
Definition pw_disk : gmap Z (list Z) := {[32 := pw_inodes; 58 := demo_bitmap; 59 := pw_dir; 60 := pw_data]}.
Definition pw_store : Log.store := mkStore (binit pw_disk 1000 1) (mkLog 2 30 0 0 1 0 (replicate (Z.to_nat LOGSIZE) 0)).
Definition pw_home : Z -> bool := home_block (s_log pw_store) 1000.
Definition pw_entry : inode := mkInode ROOTDEV 2 1 initsleeplock true pw_inode.
Definition pw_fs : fs Log.store :=
  mkFs pw_store demo_fsb (replicate 3 demo_inode ++ pw_entry :: replicate 46 demo_inode) demo_utab (mkCurproc 7 ROOT_UID None).
Definition pw_boot : fs Log.store := mkFs pw_store demo_fsb (replicate 50 demo_inode) (mkUtab [] 0 false None initsleeplock) (mkCurproc 1 ROOT_UID None).

Lemma pw_holds ic u c : holds (mkFs pw_store demo_fsb ic u c) (mkTx 0 pw_home) (dread pw_disk) ∅ ∅.
Proof.
  apply log_rep_empty; simpl; try (done || lia). apply binit_rep. unfold pw_disk.
  repeat (apply map_Forall_insert_2; [by apply wf_blockb; vm_compute|]). apply map_Forall_empty.
Qed.

Lemma pw_layout : layout_ok demo_fsb (mkTx 1 pw_home).
Proof. destruct demo_layout as [L1 L2 L3 L4 L5]. by split. Qed.

Lemma pw_file_inode : disk_inode demo_fsb (dread pw_disk) 2 = pw_inode.
Proof. vm_compute. reflexivity. Qed.

Lemma pw_file_ok : file_ok demo_fsb (dread pw_disk) pw_inode.
Proof. apply (one_block_file demo_fsb _ _ ltac:(simpl; lia) 60); [done|split; [simpl; lia|by vm_compute]|vm_compute; split; discriminate]. Qed.

Lemma pw_bytes : file_bytes (dread pw_disk) pw_inode = passwd_bytes demo_utab.
Proof. vm_compute. reflexivity. Qed.

Lemma pw_ut_ok : ut_ok demo_utab.
Proof. apply two_users_ok; [reflexivity|lia]. Qed.

Lemma pw_slot j x : f_icache pw_fs !! j = Some x -> x = demo_inode \/ (j = 3%nat /\ x = pw_entry).
Proof.
  cbn [f_icache pw_fs]. intros Hx. apply lookup_app_Some in Hx as [Hx|[Hj Hx]]; [apply lookup_replicate in Hx as [-> _]; by left|].
  rewrite length_replicate in Hj, Hx. destruct (j - 3)%nat as [|k] eqn:E; [injection Hx as <-; right; split; [lia|done]|].
  change (replicate 46 demo_inode !! k = Some x) in Hx. apply lookup_replicate in Hx as [-> _]. by left.
Qed.

Lemma pw_cache : cache demo_fsb (dread pw_disk) ∅ no_ref (f_icache pw_fs) (f_icache pw_fs).
Proof.
  split; [reflexivity|intros j; reflexivity|..].
  - intros j x [->|[-> ->]]%pw_slot; [by split|]. split; [intros; discriminate|reflexivity|..].
    + intros _. split; [reflexivity|]. split; [split; [discriminate|reflexivity]|]. cbn [i_inum pw_entry]. rewrite pw_file_inode. discriminate.
    + intros _ _. cbn [i_inum pw_entry]. by rewrite pw_file_inode.
  - intros j j' x x' [->|[-> ->]]%pw_slot [->|[-> ->]]%pw_slot; intros; done.
  - intros j x x' Hx Hx'. rewrite Hx in Hx'. injection Hx' as <-. apply pw_slot in Hx as [->|[_ ->]]; split_and!; done.
Qed.

Lemma pw_accounts : accounts_ok pw_home pw_fs (dread pw_disk) 3 2.
Proof.
  assert (Ei : disk_inode (f_sb pw_fs) (dread pw_disk) 2 = pw_inode) by exact pw_file_inode.
  split; [|rewrite Ei; exact pw_bytes|exact pw_ut_ok|reflexivity..].
  split; [exact pw_layout|apply pw_holds|exact pw_cache| |rewrite Ei; exact pw_file_ok|by rewrite Ei..].
  exists pw_entry. split; [reflexivity|]. split; reflexivity.
Qed.

(** The account "bob" is added. *)
Definition s_bob : list Z := [98; 111; 98; 0].
Definition s_pass : list Z := [112; 119; 50; 0].

Lemma bob_can_add : can_add demo_utab s_bob s_pass.
Proof.
  split_and!; [vm_compute; reflexivity..| |].
  - assert (Hall : Forall (fun v => used v = true -> name_of v ≠ cstr s_bob) (utable demo_utab)) by (apply (bool_decide_unpack _); vm_compute; exact I).
    intros v Hv. rewrite Forall_forall in Hall. by apply Hall.
  - exists empty_user. split; [|reflexivity]. apply list_elem_of_lookup. exists 2%nat. reflexivity.
Qed.

Lemma bob_call_ok : call_ok (AddUser s_bob s_pass) demo_utab.
Proof. split_and!; [|..|vm_compute; reflexivity]; (split; [vm_compute; reflexivity|repeat constructor; vm_compute; congruence]). Qed.

Lemma account_calls_saved_witness : exists r s' V', run_call (fun _ => None) (AddUser s_bob s_pass) pw_fs = Ok r s' /\ accounts_ok pw_home s' V' 3 2
  /\ account (utable (f_ut s')) [98; 111; 98] [112; 119; 50] 3.
Proof.
  destruct (account_calls_saved (fun _ => None) pw_home pw_fs (dread pw_disk) 3 2 (AddUser s_bob s_pass) pw_accounts) as (r & s' & V' & Hrun & Ha & Hres & _).
  - exact bob_call_ok.
  - exists r, s', V'. split; [exact Hrun|]. split; [exact Ha|]. destruct Hres as [(_ & -> & _ & Hacc)|[Hno _]].
    + apply Hacc. left. vm_compute. split_and!; reflexivity.
    + exfalso. exact (Hno bob_can_add).
Defined.

Lemma pw_dirs : forallb (fun i => negb (d_type (disk_inode demo_fsb (dread pw_disk) i) =? T_DIR) || (i =? ROOTINO)) (seqZ 0 200) = true.
Proof. vm_compute. reflexivity. Qed.

Lemma pw_entries : forallb (fun de => (de_inum de =? 0) || ((0 <? de_inum de) && (de_inum de <? 200)
    && negb (d_type (disk_inode demo_fsb (dread pw_disk) (de_inum de)) =? 0) && negb (d_nlink (disk_inode demo_fsb (dread pw_disk) (de_inum de)) =? 0)))
  (dirents (file_bytes (dread pw_disk) demo_root)) = true.
Proof. vm_compute. reflexivity. Qed.

Lemma pw_root_inode : disk_inode demo_fsb (dread pw_disk) ROOTINO = demo_root.
Proof. vm_compute. reflexivity. Qed.

Lemma pw_tree : tree_ok demo_fsb (dread pw_disk).
Proof.
  intros i Hi Ht. pose proof (forallb_seqZ _ 200 i pw_dirs Hi) as E. cbn beta in E. rewrite Ht in E. change (negb (T_DIR =? T_DIR)) with false in E.
  apply Z.eqb_eq in E as ->. rewrite pw_root_inode. split; [apply (one_block_file demo_fsb _ _ ltac:(simpl; lia) 59); [done|split; [simpl; lia|by vm_compute]|simpl; lia]|].
  split; [done|]. intros de Hde H0. pose proof pw_entries as Hent. rewrite forallb_forall in Hent.
  specialize (Hent de ltac:(by apply list_elem_of_In)). cbn beta in Hent.
  apply orb_prop in Hent as [He|He]; [by apply Z.eqb_eq in He|]. bool_cases. split; [|done]. split; [cbn; lia|done].
Qed.

Lemma pw_starting : starting pw_home pw_boot (dread pw_disk) 2.
Proof.
  split.
  - reflexivity.
  - exact pw_layout.
  - apply pw_holds.
  - exact pw_tree.
  - split; [split; [done|by vm_compute]|by vm_compute].
  - assert (He : forall j x, replicate 50 demo_inode !! j = Some x -> x = demo_inode) by (intros j x Hx; by apply lookup_replicate in Hx as [-> _]).
    split; try done.
    + intros j x ->%He. by split.
    + intros j j' x x' ->%He. done.
    + intros j x x' ->%He ->%He. done.
  - by exists 0%nat, 1%nat, demo_inode, demo_inode.
  - vm_compute. reflexivity.
Qed.

Lemma accounts_survive_witness : exists s3, init_usertable (fun _ => None) (fun _ => None) pw_boot = Ok 0 s3 /\ utable (f_ut s3) = utable demo_utab.
Proof.
  destruct (accounts_survive (fun _ => None) pw_home pw_fs pw_fs (dread pw_disk) 3 2 pw_accounts (rtc_refl _ _)) as [_ H].
  destruct (H (dread pw_disk) pw_accounts (fun _ => None) (fun _ => None) pw_boot (dread pw_disk) pw_starting eq_refl (fun _ _ => eq_refl)) as (s3 & V3 & k & Hrun & _ & Hu & _).
  exists s3. split; [exact Hrun|exact Hu].
Defined.
