(* ===== verification/FileIO.v ===== *)
(** * Writing to an open file: [filewrite]

    The loop of [filewrite] cuts a write into transactions.  Together they replace
    a range of the file by the bytes in the user's memory, and move the offset of the
    open file; nothing else changes. *)

From S2P Require Import Prelude KMonad CString Params Bio BioSpec Log LogSpec Crash LogOps Users Store Fs Kalloc Vm VmSpec Proc Pipe Kern UserMem FsSpec FileSpec Dinode Content ReadWrite Paths ICache Dirs Names Tree Create Access.

Section FileIO.
Context {S : Type} `{TxStore S}.
Context (devsw_write : Z -> option (nat -> list Z -> Z -> M (fs S) Z)) (home : Z -> bool).
Local Abbreviation c := (mkTx 1 home).

Definition with_fs (t : fs S) (k : kern S) : kern S := mkKern t (k_mem k) (k_pt k) (k_ftable k) (k_pipes k) (k_cur k) (k_ticks k).
Definition with_file (f : nat) (x : file) (k : kern S) : kern S := mkKern (k_fs k) (k_mem k) (k_pt k) (<[f := x]> (k_ftable k)) (k_pipes k) (k_cur k) (k_ticks k).
Definition cur_of (p : proc) : curproc := mkCurproc (p_pid p) (p_uid p) (p_cwd p).

Lemma wp_on_fs {A} (m : M (fs S) A) (Q : A -> kern S -> Prop) k p : procs (k_pt k) !! k_cur k = Some p ->
  wp m (fun a t => Q a (with_fs t k)) (set_cur (cur_of p) (k_fs k)) -> wp (on_fs m) Q k.
Proof using. intros Hp Hm. unfold on_fs. apply wp_bind. unfold wp, myproc. rewrite Hp. cbn. by apply wp_lift. Qed.

Lemma set_cur_same (s : fs S) cu : f_cur s = cu -> set_cur cu s = s.
Proof using. intros <-. by destruct s. Qed.

(** The same once the file system knows the process. *)
Lemma wp_on_fs_in {A} (m : M (fs S) A) (Q : A -> kern S -> Prop) k p : procs (k_pt k) !! k_cur k = Some p -> f_cur (k_fs k) = cur_of p ->
  wp m (fun a t => Q a (with_fs t k)) (k_fs k) -> wp (on_fs m) Q k.
Proof using. intros Hp Hc Hm. eapply wp_on_fs; [exact Hp|]. by rewrite (set_cur_same _ _ Hc). Qed.

Lemma wp_get_file f x (Q : file -> kern S -> Prop) k : k_ftable k !! f = Some x -> Q x k -> wp (get_file f) Q k.
Proof using. intros Hf HQ. unfold wp, get_file. by rewrite Hf. Qed.

(** Between system calls: no transaction, no lock, the disk in order. *)
Record idle (k : kern S) (V : Z -> list Z) : Prop := {
  id_layout : layout_ok (f_sb (k_fs k)) c;
  id_holds : holds (k_fs k) (mkTx 0 home) V ∅ ∅;
  id_disk : disk_ok (f_sb (k_fs k)) V;
  id_cache : cache (f_sb (k_fs k)) V ∅ no_ref (f_icache (k_fs k)) (f_icache (k_fs k)) }.

(** Entry [f] of the file table is inode [a], a file, at a position in it. *)
Record opened (k : kern S) (V : Z -> list Z) (f : nat) (fe : file) (a : Z) : Prop := {
  op_file : k_ftable k !! f = Some fe;
  op_type : fl_type fe = FD_INODE;
  op_inode : exists x, f_icache (k_fs k) !! fl_ip fe = Some x /\ 0 < i_ref x /\ i_inum x = a;
  op_regular : d_type (disk_inode (f_sb (k_fs k)) V a) = T_FILE;
  op_off : 0 <= fl_off fe <= d_size (disk_inode (f_sb (k_fs k)) V a) }.

(** [bytes] were written at the position of the open file. *)
Record wrote_file (k : kern S) (V : Z -> list Z) (f : nat) (fe : file) (a : Z) (bytes : list Z) (k' : kern S) (V' : Z -> list Z) : Prop := {
  wf_kern : k' = with_file f (set_foff (fl_off fe + zlen bytes) fe) (with_fs (k_fs k') k);
  wf_fs : f_sb (k_fs k') = f_sb (k_fs k) /\ f_ut (k_fs k') = f_ut (k_fs k);
  wf_idle : idle k' V';
  wf_cache : exists x, f_icache (k_fs k') !! fl_ip fe = Some x /\ 0 < i_ref x /\ i_inum x = a;
  wf_kept : kept_but (f_sb (k_fs k)) (fun j => j = a) V V';
  wf_live : live (f_sb (k_fs k)) V' a;
  wf_inode : let d := disk_inode (f_sb (k_fs k)) V a in
    exists ad, disk_inode (f_sb (k_fs k)) V' a = d_set_size (Z.max (d_size d) (fl_off fe + zlen bytes)) (d_set_addrs ad d);
  wf_bytes : file_bytes V' (disk_inode (f_sb (k_fs k)) V' a) = splice (Z.to_nat (fl_off fe)) bytes (file_bytes V (disk_inode (f_sb (k_fs k)) V a)) }.

Lemma wrote_opened k V f fe a bytes k' V' : opened k V f fe a -> wrote_file k V f fe a bytes k' V' -> opened k' V' f (set_foff (fl_off fe + zlen bytes) fe) a.
Proof using.
  intros [O1 O2 O3 O4 O5] [W1 [W2 _] W3 W4 W5 W6 (ad & W7) W8]. split; cbn [set_foff fl_type fl_ip fl_off]; rewrite ?W2, ?W7; try done.
  - rewrite W1. cbn. apply list_lookup_insert_eq. by eapply lookup_lt_Some.
  - cbn. pose proof (zlen_nonneg bytes). lia.
Qed.

Lemma splice_app {A} (l b1 b2 : list A) o : (o <= length l)%nat -> splice (o + length b1) b2 (splice o b1 l) = splice o (b1 ++ b2) l.
Proof using.
  intros Ho. unfold splice at 2. assert (E : length (take o l ++ b1) = (o + length b1)%nat) by (rewrite length_app, length_take; lia).
  rewrite (app_assoc (take o l)). unfold splice. rewrite <- E, take_app_length, drop_app_add, drop_drop, E, length_app, <- !app_assoc. do 4 f_equal. lia.
Qed.

Lemma wrote_file_trans k V f fe a b1 k1 V1 b2 k2 V2 : opened k V f fe a -> zlen (file_bytes V (disk_inode (f_sb (k_fs k)) V a)) = d_size (disk_inode (f_sb (k_fs k)) V a) ->
  wrote_file k V f fe a b1 k1 V1 -> wrote_file k1 V1 f (set_foff (fl_off fe + zlen b1) fe) a b2 k2 V2 -> wrote_file k V f fe a (b1 ++ b2) k2 V2.
Proof using.
  intros [_ _ _ _ Hoff] Hz [A1 [A2 A2'] A3 A4 A5 A6 (ad1 & A7) A8] [B1 [B2 B2'] B3 B4 B5 B6 (ad2 & B7) B8]. rewrite A2 in *. cbn [set_foff fl_off fl_ip] in *.
  assert (Hl : zlen (b1 ++ b2) = zlen b1 + zlen b2) by (unfold zlen; rewrite length_app; lia). pose proof (zlen_nonneg b1). pose proof (zlen_nonneg b2).
  split; try done; rewrite ?Hl.
  - etrans; [exact B1|]. rewrite A1. unfold with_file, with_fs. cbn. rewrite list_insert_insert_eq. unfold set_foff. cbn. by rewrite Z.add_assoc.
  - by rewrite B2, B2'.
  - by eapply kept_but_trans.
  - exists ad2. rewrite B7, A7. cbn. unfold d_set_size, d_set_addrs; cbn; f_equal; lia.
  - rewrite B8, A8. rewrite <- splice_app by (unfold zlen in Hz; lia). f_equal. unfold zlen. lia.
Qed.

Lemma wrote_nothing k V f fe a : idle k V -> opened k V f fe a -> live (f_sb (k_fs k)) V a -> wrote_file k V f fe a [] k V.
Proof using.
  intros Hi [O1 O2 O3 O4 O5] Hl. assert (Ef : set_foff (fl_off fe + zlen (@nil Z)) fe = fe) by (unfold set_foff; destruct fe; cbn; f_equal; unfold zlen; cbn; lia).
  split; try done.
  - rewrite Ef. unfold with_file, with_fs. cbn. rewrite list_insert_id by done. by destruct k.
  - exists (d_addrs (disk_inode (f_sb (k_fs k)) V a)). unfold zlen. cbn [length]. rewrite Z.max_l by lia. by destruct (disk_inode _ V a).
  - by rewrite splice_nil.
Qed.

(** One round of the loop: a transaction. *)
Definition chunk (f : nat) (x : file) (src : list Z) (n1 : Z) : M (kern S) Z :=
  on_fs begin_op ;;;
  on_fs (ilock (fl_ip x)) ;;;
  r <- on_fs (writei devsw_write (fl_ip x) src (fl_off x) n1) ;;
  when (0 <? r) (y <- get_file f ;; put_file f (set_foff (u32 (fl_off y + r)) y)) ;;;
  on_fs (iunlock (fl_ip x)) ;;;
  on_fs end_op ;;;
  ret r.

Lemma chunk_wp k V f fe a p src (Q : Z -> kern S -> Prop) : idle k V -> opened k V f fe a -> procs (k_pt k) !! k_cur k = Some p ->
  0 < zlen src <= 1536 -> fl_off fe + zlen src <= MAXBYTES -> Forall is_byte src -> (8 <= size (free_blocks (f_sb (k_fs k)) V))%nat ->
  (forall k' V', wrote_file k V f fe a src k' V' -> (size (free_blocks (f_sb (k_fs k)) V) <= size (free_blocks (f_sb (k_fs k)) V') + 8)%nat -> Q (zlen src) k') ->
  wp (chunk f fe src (zlen src)) Q k.
Proof using.
  intros [I1 I2 I3 I4] [O1 O2 (x & Hx & Hr & Hi) O4 O5] Hp Hn Hmax Hby Hfree HQ. set (sb := f_sb (k_fs k)) in *. pose proof (lookup_lt_Some _ _ _ O1) as Hfl.
  destruct (ca_slot _ _ _ _ _ _ I4 _ _ Hx) as [_ _ Huse _]. destruct (Huse Hr) as [_ Hlive]. rewrite Hi in Hlive. set (d := disk_inode sb V a) in *.
  assert (Hroom : room ∅ ∅ 0) by (split; [rewrite size_empty; vm_compute; lia|rewrite map_size_empty; lia]). set (cu := cur_of p).
  unfold chunk. apply wp_bind. eapply wp_on_fs; [exact Hp|]. eapply wp_begin_op; [exact I2|]. intros t1 Hh1. apply wp_bind. eapply wp_on_fs_in; [exact Hp|done|]. cbn [with_fs k_fs]. set (s1 := put_store t1 (set_cur _ _)) in *.
  eapply (ilock_wp c sb V ∅ I1 Hroom s1 ∅ no_ref (f_icache (k_fs k)) (fl_ip fe) x); [exact I4|apply not_elem_of_empty|exact Hx|exact Hr|done|exact Hh1|].
  intros t2 ic2 Hca2 Hk2 _ Hh2. rewrite lock_one in Hca2. rewrite Hi in Hk2. set (s2 := put_store t2 (put_ic ic2 s1)) in *.
  assert (Hw2 : walk_st c sb V ∅ (f_icache (k_fs k)) (f_ut (k_fs k)) cu s2 {[fl_ip fe]} no_ref) by (by split).
  apply wp_bind. eapply wp_on_fs_in; [exact Hp|done|]. cbn [with_fs k_fs]. pose proof (Z.mod_pos_bound (fl_off fe) BSIZE eq_refl) as Hmod. unfold BSIZE in Hmod at 2.
  eapply (writei_walk c sb (f_icache (k_fs k)) (f_ut (k_fs k)) cu I1 ltac:(done) devsw_write V ∅ s2 {[fl_ip fe]} no_ref (fl_ip fe) a (i_ref x) src (fl_off fe) (zlen src) 4);
    [exact Hw2|exact I3|exact Hk2|exact Hr|exact Hlive|exact O4|exact O5|lia|exact Hmax|exact Hby|unfold BSIZE in *; lia|lia|rewrite size_empty; vm_compute; lia|].
  intros s3 V3 L3 Hs3 Hdk3 Hst3 Hl3 Eic3 (ad3 & Ed3) Eb3 HL3 Hf3. pose proof Hs3 as [X1 X2 X3 X4 X5]. fold d in Ed3, Eb3. unfold zlen in Eb3 at 1. rewrite Nat2Z.id, firstn_all in Eb3.
  assert (Hk3 : f_icache s3 !! fl_ip fe = Some (locked_inode sb V3 (c_pid cu) a (i_ref x))) by (rewrite Eic3; apply list_lookup_insert_eq; by eapply lookup_lt_Some).
  rewrite (proj2 (Z.ltb_lt 0 (zlen src))) by lia. cbn [when]. apply wp_bind. apply wp_bind. eapply wp_get_file; [exact O1|]. unfold put_file. apply wp_modify.
  assert (Eu : u32 (fl_off fe + zlen src) = fl_off fe + zlen src) by (apply u32_id; unfold is_u32, MAXBYTES, BSIZE in *; change MAXFILE with 139 in *; lia). rewrite Eu.
  apply wp_bind. eapply wp_on_fs_in; [exact Hp|by rewrite ?X3|]. cbn [with_fs k_fs].
  eapply (iunlock_wp sb V3 s3 {[fl_ip fe]} no_ref (f_icache (k_fs k)) (fl_ip fe)); [exact X5|exact Hk3|exact Hr|by rewrite X3|]. intros ic4 Hca4 Eic4. rewrite unlock_one in Hca4.
  apply wp_bind. eapply wp_on_fs_in; [exact Hp|by rewrite ?X3|]. cbn [with_fs k_fs]. eapply wp_end_op; [exact X4|]. intros t5 V5 Hh5 Hhome. apply wp_ret.
  assert (Hdk5 := view_kept sb c V3 V5 I1 Hhome Hdk3). destruct Hdk5 as (Hdk5 & Hk5 & Hv5 & Hf5). destruct (Hv5 a Hl3) as (Hl5 & Ed5 & Eb5).
  apply (HQ _ V5); [|etrans; [exact Hf3|]; apply Nat.add_le_mono_r, Hf5; lia]. pose proof (ly_bmap_in _ _ I1) as Hbm. destruct (commit_views sb c V3 V5 I1 Hhome) as (_ & Hino & _ & _).
  split; cbn [with_fs with_file k_fs put_store put_ic f_sb f_ut f_icache]; rewrite ?X1, ?X2; fold sb; try assumption.
  - done.
  - done.
  - split; cbn [with_fs with_file k_fs put_store put_ic f_sb f_icache]; rewrite ?X1; try assumption. eapply cache_view_all; [exact (view_inode sb V3 V5 Hino)|]. by eapply cache_self.
  - exists (set_ilock initsleeplock (locked_inode sb V3 (c_pid cu) a (i_ref x))). split; [|done]. rewrite Eic4. apply list_lookup_insert_eq. by eapply lookup_lt_Some.
  - eapply kept_but_trans; [eapply (kept_step sb V V3 a); [lia|apply I3|exact Hst3|done]|]. eapply kept_weaken; [|exact Hk5]. done.
  - exists ad3. by rewrite Ed5.
  - by rewrite Ed5, Eb5.
Qed.
Lemma wp_chunk {A} f x src n1 (K : Z -> M (kern S) A) Q k : wp (chunk f x src n1) (fun r => wp (K r) Q) k ->
  wp (on_fs begin_op ;;;
    on_fs (ilock (fl_ip x)) ;;;
    r <- on_fs (writei devsw_write (fl_ip x) src (fl_off x) n1) ;;
    when (0 <? r) (y <- get_file f ;; put_file f (set_foff (u32 (fl_off y + r)) y)) ;;;
    on_fs (iunlock (fl_ip x)) ;;;
    on_fs end_op ;;;
    K r) Q k.
Proof using.
  unfold chunk, wp, bind. destruct (on_fs begin_op k) as [? k1|]; [|done]. destruct (on_fs (ilock _) k1) as [? k2|]; [|done].
  destruct (on_fs (writei _ _ _ _ _) k2) as [r k3|]; [|done]. destruct (when _ _ k3) as [? k4|]; [|done].
  destruct (on_fs (iunlock _) k4) as [? k5|]; [|done]. by destruct (on_fs end_op k5).
Qed.

(** How many blocks writing [n] bytes may take: eight for each transaction. *)
Definition write_blocks (n : nat) : nat := 8 * ((n + 1535) / 1536).

Lemma write_blocks_step n : (0 < n)%nat -> write_blocks n = (8 + write_blocks (n - Nat.min n 1536))%nat.
Proof using.
  intros Hn. unfold write_blocks. destruct (Nat.le_gt_cases n 1536) as [Hle|Hgt].
  - rewrite Nat.min_l, Nat.sub_diag by done. replace ((n + 1535) / 1536)%nat with 1%nat; [done|]. apply (Nat.div_unique _ _ _ (n - 1)); lia.
  - rewrite Nat.min_r by lia. replace (n + 1535)%nat with ((n - 1536 + 1535) + 1 * 1536)%nat by lia. rewrite Nat.div_add by lia. lia.
Qed.

Lemma user_bytes_wrote k V f fe a bytes k' V' addr l : wrote_file k V f fe a bytes k' V' -> user_bytes k addr l -> user_bytes k' addr l.
Proof using. intros Hw Hu. rewrite (wf_kern _ _ _ _ _ _ _ _ Hw). exact Hu. Qed.

Lemma idle_live k V f fe a : idle k V -> opened k V f fe a -> live (f_sb (k_fs k)) V a.
Proof using. intros [_ _ _ I4] [_ _ (x & Hx & Hr & <-) _ _]. destruct (ca_slot _ _ _ _ _ _ I4 _ _ Hx) as [_ _ Huse _]. by apply Huse. Qed.

Lemma filewrite_loop_wp f a p addr l (Q : Z -> kern S -> Prop) : Forall is_byte l -> forall fuel k V fe i,
  idle k V -> opened k V f fe a -> procs (k_pt k) !! k_cur k = Some p -> user_bytes k addr l -> (i <= length l)%nat -> (length l - i <= fuel)%nat ->
  fl_off fe + Z.of_nat (length l - i) <= MAXBYTES -> (write_blocks (length l - i) <= size (free_blocks (f_sb (k_fs k)) V))%nat ->
  (forall k' V', wrote_file k V f fe a (drop i l) k' V' -> Q (zlen l) k') ->
  wp (filewrite_loop devsw_write fuel f addr (Z.of_nat i) (zlen l)) Q k.
Proof using.
  intros Hby. induction fuel as [|fuel IH]; intros k V fe i Hid Ho Hp Hu Hi Hfu Hmax Hfree HQ; pose proof (idle_live _ _ _ _ _ Hid Ho) as Hlive; destruct (decide (i = length l)) as [->|Hne].
  1,3: cbn [filewrite_loop]; unfold zlen; rewrite Z.ltb_irrefl; apply wp_ret; apply (HQ k V); rewrite drop_all; by apply wrote_nothing.
  { lia. }
  cbn [filewrite_loop]. rewrite (proj2 (Z.ltb_lt (Z.of_nat i) (zlen l))) by (unfold zlen; lia). set (m := Nat.min (length l - i) 1536).
  assert (Em : Z.min (zlen l - Z.of_nat i) max_write = Z.of_nat m) by (change max_write with 1536; unfold zlen, m; lia). rewrite Em, Nat2Z.id.
  destruct (user_bytes_slice k addr l i m Hu ltac:(lia)) as [_ Hlen]. set (b := slice i m l) in *. assert (Ezb : Z.of_nat m = zlen b) by (unfold zlen; lia).
  apply wp_bind. eapply wp_get_file; [apply Ho|]. apply wp_bind. unfold wp at 1. rewrite (user_read_slice k addr l i m Hu) by lia. fold b. rewrite Ezb.
  rewrite write_blocks_step in Hfree by lia. fold m in Hfree.
  apply wp_chunk. apply (chunk_wp k V f fe a p); [done|done|done|lia|lia|by apply Forall_take, Forall_drop|lia|]. intros k1 V1 Hw Hf1. cbn beta.
  pose proof (zlen_nonneg b). rewrite (proj2 (Z.ltb_ge (zlen b) 0)), Z.eqb_refl by lia. cbn [negb]. replace (Z.of_nat i + zlen b) with (Z.of_nat (i + m)) by lia.
  pose proof (wf_fs _ _ _ _ _ _ _ _ Hw) as [Esb _]. pose proof (wf_kern _ _ _ _ _ _ _ _ Hw) as Ek.
  apply (IH k1 V1 (set_foff (fl_off fe + zlen b) fe)); [apply Hw|by eapply wrote_opened|by rewrite Ek|by eapply user_bytes_wrote|lia|lia|cbn; lia| |].
  - rewrite Esb. replace (length l - (i + m))%nat with (length l - i - m)%nat by lia. lia.
  - intros k2 V2 Hw2. apply (HQ k2 V2). replace (drop i l) with (b ++ drop (i + m) l) by (unfold b, slice; rewrite <- (take_drop m (drop i l)) at 2; by rewrite drop_drop).
    eapply wrote_file_trans; [done| |done|done]. apply file_bytes_size with (sb := f_sb (k_fs k)). by apply (bl_file _ _ (dk_blocks _ _ (id_disk _ _ Hid))).
Qed.
Lemma filewrite_run k V f fe a p addr bytes : idle k V -> opened k V f fe a -> fl_writable fe = true -> procs (k_pt k) !! k_cur k = Some p ->
  user_bytes k addr bytes -> Forall is_byte bytes -> fl_off fe + zlen bytes <= MAXBYTES -> (write_blocks (length bytes) <= size (free_blocks (f_sb (k_fs k)) V))%nat ->
  exists k' V', filewrite devsw_write f addr (zlen bytes) k = Ok (zlen bytes) k' /\ wrote_file k V f fe a bytes k' V'.
Proof using.
  intros Hid Ho Hw Hp Hu Hby Hmax Hfree.
  assert (Hwp : wp (filewrite devsw_write f addr (zlen bytes)) (fun r k' => r = zlen bytes /\ exists V', wrote_file k V f fe a bytes k' V') k).
  { unfold filewrite. apply wp_bind. eapply wp_get_file; [apply Ho|]. rewrite Hw, (op_type _ _ _ _ _ Ho). cbn [negb]. apply wp_bind. change 0 with (Z.of_nat 0).
    unfold zlen at 1. rewrite Nat2Z.id. eapply (filewrite_loop_wp f a p addr bytes); try done; [lia|lia|unfold zlen in Hmax; lia|by rewrite Nat.sub_0_r|].
    intros k' V' Hwr. apply wp_ret. rewrite Z.eqb_refl. eauto. }
  destruct (proj1 (wp_Ok _ _ _) Hwp) as (r & k' & Hrun & -> & V' & Hwr). by exists k', V'.
Qed.

(** Another open file of the inode stays open. *)
Lemma wrote_other k V f fe g ge a bytes k' V' : idle k V -> opened k V f fe a -> opened k V g ge a -> f ≠ g -> wrote_file k V f fe a bytes k' V' -> opened k' V' g ge a.
Proof using.
  intros [_ _ _ I4] [O1 O2 (x & Hx & Hr & Hi) O4 O5] [G1 G2 (y & Hy & Hry & Hiy) G4 G5] Hfg [W1 [W2 _] W3 W4 W5 W6 (ad & W7) W8].
  assert (E : fl_ip ge = fl_ip fe) by (eapply (ca_inj _ _ _ _ _ _ I4); [exact Hy|exact Hx|done|done|congruence]).
  split; rewrite ?W2, ?W7, ?E; try done; [rewrite W1; cbn; by rewrite list_lookup_insert_ne by done|unfold d_set_size; cbn [d_size]; lia].
Qed.

Lemma slice_splice_at (l b : list Z) o : (o <= length l)%nat -> slice o (length b) (splice o b l) = b.
Proof using.
  intros Ho. unfold slice, splice. assert (E : length (take o l) = o) by (rewrite length_take; lia).
  rewrite <- E at 1. rewrite drop_app_length. apply take_app_length.
Qed.

(** The bytes written are in the file where they were written. *)
Lemma wrote_slice k V f fe a bytes k' V' : idle k V -> opened k V f fe a -> wrote_file k V f fe a bytes k' V' ->
  slice (Z.to_nat (fl_off fe)) (Z.to_nat (zlen bytes)) (file_bytes V' (disk_inode (f_sb (k_fs k)) V' a)) = bytes.
Proof using.
  intros Hid Ho Hw. rewrite (wf_bytes _ _ _ _ _ _ _ _ Hw). unfold zlen. rewrite Nat2Z.id. apply slice_splice_at.
  pose proof (file_bytes_size _ _ _ (bl_file _ _ (dk_blocks _ _ (id_disk _ _ Hid)) a (idle_live _ _ _ _ _ Hid Ho))) as Hz. pose proof (op_off _ _ _ _ _ Ho). unfold zlen in Hz. lia.
Qed.

(** ** Reading *)

Context (devsw_read : Z -> option (nat -> Z -> M (fs S) (Z * list Z))).

(** [bytes] were read at the position of the open file to [addr]; the disk is as before. *)
Record read_file (k : kern S) (V : Z -> list Z) (f : nat) (fe : file) (a : Z) (p : proc) (addr : Z) (bytes : list Z) (k' : kern S) : Prop := {
  rf_kern : exists m, k' = with_file f (set_foff (fl_off fe + zlen bytes) fe) (with_mem m (with_fs (k_fs k') k)) /\ stored (mem (k_mem k)) (p_pgdir p) addr bytes m;
  rf_fs : f_sb (k_fs k') = f_sb (k_fs k) /\ f_ut (k_fs k') = f_ut (k_fs k);
  rf_idle : idle k' V;
  rf_cache : exists x, f_icache (k_fs k') !! fl_ip fe = Some x /\ 0 < i_ref x /\ i_inum x = a }.

Lemma idle_layout k V : idle k V -> layout_ok (f_sb (k_fs k)) (mkTx 0 home).
Proof using. intros [[L1 L2 L3 L4 L5] _ _ _]. by split. Qed.

Lemma set_foff_same fe : set_foff (fl_off fe) fe = fe.
Proof using. by destruct fe. Qed.

(** The offset moves by what was read, which may be nothing. *)
Lemma move_offset k f fe r (Q : unit -> kern S -> Prop) : k_ftable k !! f = Some fe -> 0 <= r -> 0 <= fl_off fe -> fl_off fe + r <= MAXBYTES ->
  Q tt (with_file f (set_foff (fl_off fe + r) fe) k) -> wp (when (0 <? r) (y <- get_file f ;; put_file f (set_foff (u32 (fl_off y + r)) y))) Q k.
Proof using.
  intros Hf Hr Hoff Hmax HQ. assert (Eu : u32 (fl_off fe + r) = fl_off fe + r) by (apply u32_id; unfold is_u32, MAXBYTES, BSIZE in *; change MAXFILE with 139 in *; lia).
  destruct (Z.ltb_spec 0 r) as [Hlt|Hge]; cbn [when].
  - apply wp_bind. eapply wp_get_file; [exact Hf|]. unfold put_file. apply wp_modify. rewrite Eu. exact HQ.
  - apply wp_ret. assert (E : with_file f (set_foff (fl_off fe + r) fe) k = k); [|by rewrite E in HQ].
    replace (fl_off fe + r) with (fl_off fe) by lia. rewrite set_foff_same. unfold with_file. rewrite list_insert_id by done. by destruct k.
Qed.

Lemma fileread_wp k V f fe a p addr n (Q : Z -> kern S -> Prop) :
  let bytes := slice (Z.to_nat (fl_off fe)) (Z.to_nat n) (file_bytes V (disk_inode (f_sb (k_fs k)) V a)) in
  idle k V -> opened k V f fe a -> fl_readable fe = true -> procs (k_pt k) !! k_cur k = Some p -> 0 <= n -> is_u32 (fl_off fe + n) ->
  user_buffer (mem (k_mem k)) (p_pgdir p) addr (length bytes) -> (forall k', read_file k V f fe a p addr bytes k' -> Q (zlen bytes) k') ->
  wp (fileread devsw_read f addr n) Q k.
Proof using devsw_write.
  intros bytes Hid Ho Hrd Hp Hn Hu Hbuf HQ. pose proof (idle_layout k V Hid) as Hly. pose proof (idle_live _ _ _ _ _ Hid Ho) as Hlive.
  destruct Hid as [I1 I2 I3 I4], Ho as [O1 O2 (x & Hx & Hr & Hi) O4 O5]. set (sb := f_sb (k_fs k)) in *. set (d := disk_inode sb V a) in *. set (cu := cur_of p).
  assert (Hroom : room ∅ ∅ 0) by (split; [rewrite size_empty; vm_compute; lia|rewrite map_size_empty; lia]). pose proof (bl_file _ _ (dk_blocks _ _ I3) a Hlive) as Hok.
  assert (Hzb : zlen bytes = Z.min n (d_size d - fl_off fe)).
  { pose proof (file_bytes_size _ _ _ Hok) as Hz. fold d in Hz. unfold bytes, slice, zlen in *. rewrite length_take, length_drop. fold d. lia. }
  pose proof (fo_size _ _ _ Hok) as Hsz. fold d in Hsz.
  unfold fileread. apply wp_bind. eapply wp_get_file; [exact O1|]. rewrite Hrd, O2. cbn [negb]. apply wp_bind. eapply wp_on_fs; [exact Hp|]. set (s0 := set_cur (cur_of p) (k_fs k)).
  eapply (ilock_wp (mkTx 0 home) sb V ∅ Hly Hroom s0 ∅ no_ref (f_icache (k_fs k)) (fl_ip fe) x); [exact I4|apply not_elem_of_empty|exact Hx|exact Hr|done|exact I2|].
  intros t2 ic2 Hca2 Hk2 _ Hh2. rewrite lock_one in Hca2. rewrite Hi in Hk2. set (s2 := put_store t2 (put_ic ic2 s0)) in *. set (lx := locked_inode _ _ _ a _) in Hk2.
  pose proof (lookup_lt_Some _ _ _ Hk2) as Hkl. assert (Hset : <[fl_ip fe := set_d d lx]> ic2 = ic2) by (by apply list_insert_id).
  apply wp_bind. eapply wp_on_fs_in; [exact Hp|done|]. cbn [with_fs k_fs]. eapply wp_mono.
  { apply (readi_wp (mkTx 0 home) sb Hly ic2 (f_ut (k_fs k)) cu (fl_ip fe) lx Hkl eq_refl (proj1 Hlive) devsw_read devsw_write s2 d V ∅ (fl_off fe) n); try done; first [by rewrite O4|by split; rewrite ?Hset]. }
  intros r s3 [[E1 E2 E3 E4 Hh3] ->]. rewrite Hset in E2. cbn [fst snd]. fold d. change (slice _ _ (file_bytes V d)) with bytes. rewrite <- Hzb.
  apply wp_bind. destruct (user_write_ok p bytes (with_fs s3 (with_fs s2 k)) addr Hp Hbuf) as (m & Hwr & Hst). unfold wp at 1. rewrite Hwr. clear Hwr.
  apply wp_bind. eapply move_offset; [exact O1|apply zlen_nonneg|apply O5|change MAXBYTES with (MAXFILE * BSIZE); lia|].
  apply wp_bind. eapply wp_on_fs_in; [exact Hp|done|]. cbn [with_fs with_mem with_file k_fs].
  eapply (iunlock_wp sb V s3 {[fl_ip fe]} no_ref (f_icache (k_fs k)) (fl_ip fe) lx); [by rewrite E2|by rewrite E2|exact Hr|by rewrite E4|]. intros ic4 Hca4 Eic4. rewrite unlock_one in Hca4.
  apply wp_ret. apply HQ. split; cbn [with_fs with_mem with_file k_fs put_ic f_sb f_ut f_icache]; rewrite ?E1, ?E3; try done.
  - exists m. split; [done|exact Hst].
  - split; cbn [with_fs with_mem with_file k_fs put_ic f_sb f_icache]; rewrite ?E1; try assumption. by eapply cache_self.
  - exists (set_ilock initsleeplock lx). split; [|done]. rewrite Eic4, E2. by apply list_lookup_insert_eq.
Qed.
End FileIO.

(** C9: Writing to an open file returns the number of bytes, for every length that
    fits in a file and in the free blocks, however many transactions it takes: the
    bytes in the process's memory replace those of the file from the offset on, the
    size grows where they pass the end, the offset moves behind them, no other inode
    changes, and the disk is in order with no transaction or lock left open. *)
Theorem filewrite_correct {S} `{TxStore S} devsw_write home (k : kern S) V f fe a p addr bytes :
  idle home k V -> opened k V f fe a -> fl_writable fe = true -> procs (k_pt k) !! k_cur k = Some p ->
  user_bytes k addr bytes -> Forall is_byte bytes -> fl_off fe + zlen bytes <= MAXBYTES ->
  (write_blocks (length bytes) <= size (free_blocks (f_sb (k_fs k)) V))%nat ->
  exists k' V', filewrite devsw_write f addr (zlen bytes) k = Ok (zlen bytes) k' /\ wrote_file home k V f fe a bytes k' V'
    /\ opened k' V' f (set_foff (fl_off fe + zlen bytes) fe) a.
Proof.
  intros Hid Ho Hw Hp Hu Hby Hmax Hfree. destruct (filewrite_run devsw_write home k V f fe a p addr bytes) as (k' & V' & Hrun & Hwr); try assumption.
  exists k', V'. split; [exact Hrun|]. split; [exact Hwr|]. by eapply wrote_opened.
Qed.

(** C19: What is written to a file is read back through another open file of the same
    inode at the same position, into any buffer of the process: both calls return
    the number of bytes, the buffer then holds them, every byte of memory outside it
    and every other inode is as before, and the disk is in order. *)
Theorem file_round_trip {S} `{TxStore S} devsw_read devsw_write home (k : kern S) V f fe g ge a p src dst bytes :
  idle home k V -> opened k V f fe a -> opened k V g ge a -> f ≠ g -> fl_writable fe = true -> fl_readable ge = true -> fl_off ge = fl_off fe ->
  procs (k_pt k) !! k_cur k = Some p -> user_bytes k src bytes -> Forall is_byte bytes -> fl_off fe + zlen bytes <= MAXBYTES ->
  (write_blocks (length bytes) <= size (free_blocks (f_sb (k_fs k)) V))%nat -> user_buffer (mem (k_mem k)) (p_pgdir p) dst (length bytes) ->
  exists k1 k2 V', filewrite devsw_write f src (zlen bytes) k = Ok (zlen bytes) k1 /\ fileread devsw_read g dst (zlen bytes) k1 = Ok (zlen bytes) k2
    /\ user_bytes k2 dst bytes
    /\ (forall b, outside (mem (k_mem k)) (p_pgdir p) dst (length bytes) b -> rd8 (mem (k_mem k2)) b = rd8 (mem (k_mem k)) b)
    /\ idle home k2 V' /\ kept_but (f_sb (k_fs k)) (fun j => j = a) V V'.
Proof.
  intros Hid Hof Hog Hfg Hw Hr Eoff Hp Hu Hby Hmax Hfree Hbuf.
  destruct (filewrite_run devsw_write home k V f fe a p src bytes) as (k1 & V1 & Hrun & Hwr); try assumption.
  pose proof (wrote_other _ _ _ _ _ _ _ _ _ _ _ Hid Hof Hog Hfg Hwr) as Hog1. pose proof (wrote_slice _ _ _ _ _ _ _ _ _ Hid Hof Hwr) as Es.
  pose proof (wf_kern _ _ _ _ _ _ _ _ _ Hwr) as Ek. pose proof (wf_fs _ _ _ _ _ _ _ _ _ Hwr) as [Esb _]. pose proof (op_off _ _ _ _ _ Hof) as Hoff.
  assert (Em : mem (k_mem k1) = mem (k_mem k)) by (by rewrite Ek). assert (Hp1 : procs (k_pt k1) !! k_cur k1 = Some p) by (by rewrite Ek).
  assert (Hwp : wp (fileread devsw_read g dst (zlen bytes)) (fun r k2 => r = zlen bytes /\ read_file home k1 V1 g ge a p dst bytes k2) k1).
  { eapply (fileread_wp devsw_write home devsw_read k1 V1 g ge a p dst (zlen bytes)); rewrite ?Esb, ?Eoff, ?Es; try done; [apply Hwr|apply zlen_nonneg| |by rewrite Em].
    pose proof (zlen_nonneg bytes). unfold is_u32, MAXBYTES, BSIZE in *. change MAXFILE with 139 in *. lia. }
  destruct (proj1 (wp_Ok _ _ _) Hwp) as (r & k2 & Hrun2 & -> & [(m & Ek2 & Hst) _ Hid2 _]). rewrite Em in Hst. exists k1, k2, V1. split_and!; [exact Hrun|exact Hrun2|..|exact Hid2|apply Hwr].
  - eapply (stored_user k2 p dst bytes _ m); [by rewrite Ek2|by rewrite Ek2|exact Hst|done].
  - rewrite Ek2. cbn. apply Hst.
Qed.

(** ** An example *)

(** File "f" of the examples is open twice, for writing and for reading, at its end. *)
Definition io_entry : inode := mkInode ROOTDEV 2 2 initsleeplock true demo_file.
Definition io_fs : fs Log.store := mkFs calm_store demo_fsb (io_entry :: replicate 49 demo_inode) demo_utab (mkCurproc 7 5 None).
Definition io_file : file := mkFile FD_INODE 1 false true 0 0 5.
Definition io_reader : file := mkFile FD_INODE 1 true false 0 0 5.
Definition io_kern : kern Log.store :=
  mkKern io_fs (mkKmem demo_mem 0 0) (mkPtab (init_proc :: demo_proc 5 :: replicate 62 free_proc) 8 0) [io_file; io_reader] ∅ 1 0.

Lemma io_slot j x : f_icache io_fs !! j = Some x -> x = demo_inode \/ (j = 0%nat /\ x = io_entry).
Proof.
  cbn [f_icache io_fs]. destruct j as [|j]; [intros [= <-]; by right|]. intros Hx. change (replicate 49 demo_inode !! j = Some x) in Hx.
  apply lookup_replicate in Hx as [-> _]. by left.
Qed.

Lemma io_file_inode : disk_inode demo_fsb (dread demo_fdisk) 2 = demo_file.
Proof. vm_compute. reflexivity. Qed.

Lemma io_cache : cache demo_fsb (dread demo_fdisk) ∅ no_ref (f_icache io_fs) (f_icache io_fs).
Proof.
  split; [reflexivity|intros j; reflexivity|..].
  - intros j x [->|[-> ->]]%io_slot; [by split|]. split; [intros; discriminate|reflexivity|..].
    + intros _. split; [reflexivity|]. split; [split; [discriminate|reflexivity]|]. cbn [i_inum io_entry]. rewrite io_file_inode. discriminate.
    + intros _ _. cbn [i_inum io_entry]. by rewrite io_file_inode.
  - intros j j' x x' [->|[-> ->]]%io_slot [->|[-> ->]]%io_slot; intros; done.
  - intros j x x' Hx Hx'. rewrite Hx in Hx'. injection Hx' as <-. apply io_slot in Hx as [->|[_ ->]]; split_and!; done.
Qed.

Lemma io_idle : idle calm_home io_kern (dread demo_fdisk).
Proof.
  split; [destruct demo_layout as [L1 L2 L3 L4 L5]; by split|apply calm_holds|split; [exact demo_blocks|exact demo_tree]|exact io_cache].
Qed.

(** The bytes of the first page from address 4 on, more than one transaction takes. *)
Definition io_bytes : list Z := [16; 0; 0; 0] ++ replicate 1596 0.

Lemma io_user : user_bytes io_kern 4 io_bytes.
Proof.
  assert (E : forallb (fun j => bool_decide (user_byte io_kern (4 + Z.of_nat j) = io_bytes !! j)) (seq 0 1600) = true) by (vm_compute; reflexivity).
  intros j c Hj. rewrite forallb_forall in E. pose proof (lookup_lt_Some _ _ _ Hj) as Hlt. change (length io_bytes) with 1600%nat in Hlt.
  specialize (E j ltac:(apply in_seq; lia)). cbn beta in E. apply bool_decide_eq_true in E. by rewrite E.
Qed.

Lemma io_bytes_ok : Forall is_byte io_bytes.
Proof. apply Forall_app. split; [repeat constructor; vm_compute; congruence|apply Forall_replicate; vm_compute; split; congruence]. Qed.

Lemma io_opened f fe : k_ftable io_kern !! f = Some fe -> opened io_kern (dread demo_fdisk) f fe 2.
Proof.
  intros Hf. assert (Hfe : fl_type fe = FD_INODE /\ fl_ip fe = 0%nat /\ fl_off fe = 5) by (destruct f as [|[|f]]; [by injection Hf as <-..|done]).
  destruct Hfe as (E1 & E2 & E3). split; rewrite ?E1, ?E2, ?E3; [done|done|exists io_entry; split_and!; reflexivity|vm_compute; reflexivity|vm_compute; split; discriminate].
Qed.

Lemma filewrite_correct_witness : exists k' V', filewrite (fun _ => None) 0 4 1600 io_kern = Ok 1600 k'
  /\ file_bytes V' (disk_inode demo_fsb V' 2) = [104; 101; 108; 108; 111] ++ io_bytes /\ fl_off <$> (k_ftable k' !! 0%nat) = Some 1605.
Proof.
  destruct (filewrite_correct (fun _ => None) calm_home io_kern (dread demo_fdisk) 0 io_file 2 (demo_proc 5) 4 io_bytes io_idle) as (k' & V' & Hrun & Hw & Ho).
  - exact (io_opened 0 io_file eq_refl).
  - reflexivity.
  - reflexivity.
  - exact io_user.
  - exact io_bytes_ok.
  - vm_compute. discriminate.
  - exact demo_free.
  - exists k', V'. split; [exact Hrun|]. split; [exact (wf_bytes _ _ _ _ _ _ _ _ _ Hw)|]. by rewrite (op_file _ _ _ _ _ Ho).
Defined.

(** The page at address 0 is mapped. *)
Lemma io_addr va : 0 <= va < 4096 -> user_addr demo_mem (P2V 4194304) va = Some (P2V 4202496 + va) /\ forall pg, walks demo_mem (P2V 4194304) va pg -> pg = P2V 4194304 \/ pg = P2V 4198400.
Proof.
  intros Hva. assert (E1 : PDX va = 0) by (rewrite PDX_div, u32_id by (unfold is_u32; lia); mlia). assert (E2 : PTX va = 0) by (rewrite PTX_div, u32_id by (unfold is_u32; lia); mlia).
  assert (R1 : rd32 demo_mem (P2V 4194304 + 4 * 0) = Some 4198407) by (vm_compute; reflexivity).
  assert (R2 : rd32 demo_mem (P2V (PTE_ADDR 4198407) + 4 * 0) = Some 4202503) by (vm_compute; reflexivity).
  assert (R3 : P2V (PTE_ADDR 4202503) = P2V 4202496) by (vm_compute; reflexivity).
  unfold user_addr, entry, walks. rewrite E1, E2, Z.mod_small, R1 by (unfold PGSIZE; lia). split.
  - change (present 4198407) with true. rewrite <- R3. cbv beta iota delta [mbind option_bind]. rewrite R2. change (present 4202503) with true. reflexivity.
  - intros pg [->|(v & [= <-] & ->)]; [left|right]; vm_compute; reflexivity.
Qed.

Lemma io_page va : 0 <= va < 4096 -> page_of (P2V 4202496 + va) = P2V 4202496.
Proof. intros Hva. assert (E : P2V 4202496 = 525314 * 4096) by (vm_compute; reflexivity). rewrite E. unfold page_of, PGSIZE. mlia. Qed.

Lemma io_buffer : user_buffer demo_mem (P2V 4194304) 2048 1600.
Proof.
  split; intros *.
  - intros Hj. rewrite (proj1 (io_addr (2048 + Z.of_nat j) ltac:(lia))). eexists. split; [reflexivity|].
    rewrite io_page by lia. eexists. vm_compute. reflexivity.
  - intros Hi Hj. rewrite (proj1 (io_addr (2048 + Z.of_nat i) ltac:(lia))). intros [= <-] Hw. apply (proj2 (io_addr (2048 + Z.of_nat j) ltac:(lia))) in Hw.
    rewrite io_page in Hw by lia. destruct Hw as [Hw|Hw]; vm_compute in Hw; discriminate Hw.
  - intros Hi Hj. rewrite (proj1 (io_addr (2048 + Z.of_nat i) ltac:(lia))), (proj1 (io_addr (2048 + Z.of_nat j) ltac:(lia))). intros [= <-] [= E]. lia.
Qed.

Lemma file_round_trip_witness : exists k1 k2, filewrite (fun _ => None) 0 4 1600 io_kern = Ok 1600 k1 /\ fileread (fun _ => None) 1 2048 1600 k1 = Ok 1600 k2 /\ user_bytes k2 2048 io_bytes.
Proof.
  destruct (file_round_trip (fun _ => None) (fun _ => None) calm_home io_kern (dread demo_fdisk) 0 io_file 1 io_reader 2 (demo_proc 5) 4 2048 io_bytes io_idle) as (k1 & k2 & V' & H1 & H2 & H3 & _).
  - exact (io_opened 0 io_file eq_refl).
  - exact (io_opened 1 io_reader eq_refl).
  - discriminate.
  - reflexivity.
  - reflexivity.
  - reflexivity.
  - reflexivity.
  - exact io_user.
  - exact io_bytes_ok.
  - vm_compute. discriminate.
  - exact demo_free.
  - exact io_buffer.
  - exists k1, k2. split; [exact H1|]. split; [exact H2|exact H3].
Defined.
