(* ===== verification/LockOrder.v ===== *)
(** * Two locks taken in both orders: [fstat] and [addUser]

    [filestat] locks an inode and then, in [stati], the user table; [add_user] locks
    the table and then, in [export_usertable], the inode of /passwd.  The two can
    wait for each other for ever. *)

From S2P Require Import Prelude KMonad CString Params Bio BioSpec Log LogSpec Crash LogOps Users Store Fs Kalloc Vm Proc Pipe Kern Sysfile Passwd FsSpec FileSpec Dinode Content ReadWrite Paths ICache Dirs Names Tree Create Access Accounts FileIO.

Section LockOrder.
Context {S : Type} `{TxStore S}.
Context (devsw_write : Z -> option (nat -> list Z -> Z -> M (fs S) Z)) (home : Z -> bool).

(** Process [a] runs. *)
Definition run_as (a : nat) (k : kern S) : kern S := mkKern (k_fs k) (k_mem k) (k_pt k) (k_ftable k) (k_pipes k) a (k_ticks k).

Lemma sleeps_on_fs {A} (m : M (fs S) A) (Q : kern S -> Prop) k p : procs (k_pt k) !! k_cur k = Some p ->
  sleeps m (fun t => Q (with_fs t k)) (set_cur (cur_of p) (k_fs k)) -> sleeps (on_fs m) Q k.
Proof using.
  intros Hp Hm. unfold on_fs. apply sleeps_after. unfold wp, myproc. rewrite Hp. cbn. by apply sleeps_lift.
Qed.

Lemma lock_utable_sleeps pid l (Q : utab -> Prop) u : utable_lock u = l -> sl_locked l ≠ 0 -> Q u -> sleeps (lock_utable pid) Q u.
Proof using. intros <- Hl HQ. exists u. split; [|done]. unfold lock_utable, bind, gets, id, acquiresleep. by rewrite (proj2 (Z.eqb_neq _ _) Hl). Qed.

(** [filestat] of an unlocked inode while somebody has the table: it sleeps with the
    inode locked. *)
Lemma filestat_sleeps (k : kern S) V f fe x p l (Q : kern S -> Prop) : layout_ok (f_sb (k_fs k)) (mkTx 1 home) -> holds (k_fs k) (mkTx 0 home) V ∅ ∅ ->
  cache (f_sb (k_fs k)) V ∅ no_ref (f_icache (k_fs k)) (f_icache (k_fs k)) -> f_icache (k_fs k) !! fl_ip fe = Some x -> 0 < i_ref x ->
  procs (k_pt k) !! k_cur k = Some p -> k_ftable k !! f = Some fe -> fl_type fe = FD_INODE -> utable_lock (f_ut (k_fs k)) = l -> sl_locked l ≠ 0 ->
  (forall t ic2, ic2 !! fl_ip fe = Some (locked_inode (f_sb (k_fs k)) V (p_pid p) (i_inum x) (i_ref x)) ->
     holds (put_store t (put_ic ic2 (k_fs k))) (mkTx 0 home) V ∅ ∅ -> Q (with_fs (put_store t (put_ic ic2 (set_cur (cur_of p) (k_fs k)))) k)) ->
  sleeps (filestat f) Q k.
Proof using.
  intros Hly Hh Hca Hx Hr Hp Hf Ht Hl Hl0 HQ. unfold filestat. apply sleeps_after. eapply wp_get_file; [exact Hf|]. rewrite bool_decide_true by done.
  assert (Hly0 : layout_ok (f_sb (k_fs k)) (mkTx 0 home)) by (destruct Hly; by split).
  apply sleeps_after. eapply wp_on_fs; [exact Hp|]. eapply (ilock_wp (mkTx 0 home) (f_sb (k_fs k)) V ∅ Hly0 ltac:(split; [rewrite size_empty; vm_compute; lia|rewrite map_size_empty; lia]));
    [exact Hca|apply not_elem_of_empty|exact Hx|exact Hr|done|exact Hh|].
  intros t ic2 _ Hk2 _ Hh2. apply sleeps_at. eapply sleeps_on_fs; [exact Hp|]. unfold stati. apply sleeps_after. eapply wp_get_inode; [exact Hk2|].
  apply sleeps_after, wp_gets. apply sleeps_at. apply sleeps_lift. unfold get_username_with_uid. apply sleeps_at. eapply lock_utable_sleeps; [exact Hl|done|].
  exact (HQ t ic2 Hk2 Hh2).
Qed.

(** The rest of [add_user] while somebody has the inode of /passwd: it sleeps with the
    table locked and the account in it. *)
Lemma add_locked_sleeps (s : fs S) V ip x l username passwd (Q : fs S -> Prop) : ut_ok (f_ut s) -> can_add (f_ut s) username passwd ->
  c_string username -> c_string passwd -> next_uid (f_ut s) + 1 < 4294967296 -> utable_lock (f_ut s) = l -> utable_ip (f_ut s) = Some ip ->
  holds s (mkTx 0 home) V ∅ ∅ -> f_icache s !! ip = Some x -> 0 < i_ref x -> sl_locked (i_lock x) ≠ 0 ->
  (forall t u1, utable_lock u1 = l -> Q (put_store t (with_ut u1 s))) ->
  sleeps (add_locked devsw_write username passwd) Q s.
Proof using.
  intros Hok (Hvn & Hvp & Hnew & v0 & Hv0 & Hu0) [Hn Hbn] [Hp Hbp] Hmax Hl Hip Hh Hx Hr Hxl HQ. unfold add_locked. apply sleeps_after, wp_gets.
  destruct (find_slot_spec username (readable_terminated _ _ Hn) (utable (f_ut s)) 0 None (ut_wf _ Hok)) as (r & Hfs & Hsp).
  rewrite (valid_cstrn username) in Hsp by done. apply sleeps_after. eapply wp_from_opt; [exact Hfs|]. destruct r as [[]|e].
  { destruct Hsp as (v & Hv & Hu & Hnm). by destruct (Hnew v Hv Hu). }
  destruct Hsp as [_ [[_ Hall]|(j & v & -> & Hj & Hj0)]]; [by rewrite (Hall _ Hv0) in Hu0|].
  cbn [Nat.add]. apply sleeps_after, wp_on_ut. eapply wp_mono.
  { apply (fill_slot_spec (f_ut s) j v username passwd); try done; try by apply readable_terminated. by rewrite (valid_cstrn username). }
  intros [] u1 (_ & _ & _ & El & Ei & _). apply sleeps_at. unfold export_usertable. apply sleeps_after.
  eapply wp_begin_op; [exact Hh|]. intros t _. apply sleeps_after, wp_gets. cbn [put_store with_ut f_ut]. rewrite Ei, Hip.
  apply sleeps_at. eapply ilock_sleeps; [exact Hx|done|done|]. apply HQ. by rewrite El.
Qed.

(** Up to the lock of the table, which is free, [add_user] changes nothing. *)
Lemma add_user_locks (s : fs S) username passwd : valid_len username = true -> valid_len passwd = true -> c_string username -> c_string passwd -> free_ut (f_ut s) ->
  add_user devsw_write username passwd s = add_locked devsw_write username passwd (with_ut (set_ut_lock (mkSleeplock 1 (c_pid (f_cur s))) (f_ut s)) s).
Proof using.
  intros Hvn Hvp [Hn _] [Hp _] Hfr. unfold add_user. rewrite is_valid_username_spec, is_valid_passwd_spec, Hvn, Hvp by done.
  rewrite !(bind_Ok (from_opt (Some true)) _ _ _ _ eq_refl). cbn [negb orb].
  rewrite (bind_Ok (gets f_cur) _ _ _ _ eq_refl). unfold bind at 1. unfold on_ut, lift, lock_utable, bind, gets, id, acquiresleep. by rewrite Hfr.
Qed.
End LockOrder.

(** C28: [fstat] on /passwd and [addUser] can wait for each other for ever.  Process
    [a] enters [add_user] and locks the table; process [b] calls [filestat] on an
    open /passwd, locks the inode, and sleeps on the table; then [a] goes on, and
    sleeps on the inode.  Each holds what the other waits for, and a process that
    tries its lock again sleeps again. *)
Theorem fstat_adduser_deadlock {S} `{TxStore S} devsw_write home (k : kern S) V ip i a pa b pb f fe username passwd :
  accounts_ok home (k_fs k) V ip i -> call_ok (AddUser username passwd) (f_ut (k_fs k)) -> can_add (f_ut (k_fs k)) username passwd ->
  procs (k_pt k) !! a = Some pa -> procs (k_pt k) !! b = Some pb -> k_ftable k !! f = Some fe -> fl_type fe = FD_INODE -> fl_ip fe = ip ->
  exists k1 k2 k3, on_fs (add_user devsw_write username passwd) (run_as a k) = on_fs (add_locked devsw_write username passwd) k1
    /\ k_cur k1 = a /\ utable_lock (f_ut (k_fs k1)) = mkSleeplock 1 (p_pid pa)
    /\ filestat f (run_as b k1) = Halt asleep_stop k2
    /\ on_fs (add_locked devsw_write username passwd) (run_as a k2) = Halt asleep_stop k3
    /\ utable_lock (f_ut (k_fs k3)) = mkSleeplock 1 (p_pid pa)
    /\ (exists x, f_icache (k_fs k3) !! ip = Some x /\ i_lock x = mkSleeplock 1 (p_pid pb))
    /\ halted_with asleep_stop (on_fs (on_ut (lock_utable (p_pid pb))) (run_as b k3)) = true
    /\ halted_with asleep_stop (on_fs (ilock ip) (run_as a k3)) = true.
Proof.
  intros [[P1 P2 P3 (x & Hx & Hr & Hi) _ _ _] _ Hut Hfr Hip _] (Hn & Hp & Hmax) Hcan Ha Hb Hf Hft <-. pose proof Hcan as (Hvn & Hvp & _).
  set (l := mkSleeplock 1 (p_pid pa)). set (s1 := with_ut (set_ut_lock l (f_ut (k_fs k))) (set_cur (cur_of pa) (k_fs k))).
  set (k1 := with_fs s1 (run_as a k)). exists k1.
  destruct (filestat_sleeps home (run_as b k1) V f fe x pb l (fun k2 => exists t ic2, ic2 !! fl_ip fe = Some (locked_inode (f_sb (k_fs k)) V (p_pid pb) (i_inum x) (i_ref x))
    /\ holds (put_store t (put_ic ic2 s1)) (mkTx 0 home) V ∅ ∅ /\ k2 = with_fs (put_store t (put_ic ic2 (set_cur (cur_of pb) s1))) (run_as b k1))) as (k2 & E2 & t & ic2 & Hk2 & Hh2 & ->); try done.
  { intros t ic2 Hk2 Hh2. by exists t, ic2. }
  set (k2 := with_fs _ (run_as b k1)) in *. exists k2.
  destruct (sleeps_on_fs (add_locked devsw_write username passwd) (fun k3 => exists t3 u1, utable_lock u1 = l /\
    k3 = with_fs (put_store t3 (with_ut u1 (set_cur (cur_of pa) (k_fs k2)))) (run_as a k2)) (run_as a k2) pa Ha) as (k3 & E3 & t3 & u1 & El & ->).
  { eapply (add_locked_sleeps devsw_write home _ V (fl_ip fe) _ l); try done.
    - by apply ut_ok_lock.
    - intros t3 u1 El. by exists t3, u1. }
  eexists. split; [|split; [done|split; [done|split; [exact E2|split; [exact E3|split; [exact El|split; [by eexists|]]]]]]].
  - unfold on_fs, bind, myproc, lift. cbn [run_as k_pt k_cur k_fs k1 with_fs]. rewrite Ha. cbn. rewrite add_user_locks by done. reflexivity.
  - cbn [halted_with]. split.
    + destruct (sleeps_on_fs (on_ut (lock_utable (p_pid pb))) (fun _ => True) (run_as b (with_fs (put_store t3 (with_ut u1 (set_cur (cur_of pa) (k_fs k2)))) (run_as a k2))) pb Hb) as (? & E & _); [|by rewrite E].
      apply sleeps_lift. eapply lock_utable_sleeps; [exact El|done|done].
    + destruct (sleeps_on_fs (ilock (fl_ip fe)) (fun _ => True) (run_as a (with_fs (put_store t3 (with_ut u1 (set_cur (cur_of pa) (k_fs k2)))) (run_as a k2))) pa Ha) as (? & E & _); [|by rewrite E].
      eapply ilock_sleeps; [exact Hk2|done|done|done].
Qed.

(** Root adds "bob" in process 7 while process 8 calls fstat on an open /passwd. *)
Definition pw_kern : kern Log.store :=
  let p := demo_proc ROOT_UID in
  let q := mkProc (p_sz p) (p_pgdir p) (p_kstack p) RUNNABLE 8 (p_parent p) (p_tf p) None false (p_ofile p) (p_cwd p) (p_name p) 5 in
  mkKern pw_fs (mkKmem demo_mem 0 0) (mkPtab (init_proc :: p :: q :: replicate 61 free_proc) 9 0) [mkFile FD_INODE 1 true false 0 3 0] ∅ 1 0.

Lemma fstat_adduser_deadlock_witness : exists k1 k2, k_cur k1 = 1%nat /\ filestat 0 (run_as 2 k1) = Halt asleep_stop k2
  /\ exists k3, on_fs (add_locked (fun _ => None) s_bob s_pass) (run_as 1 k2) = Halt asleep_stop k3.
Proof.
  destruct (fstat_adduser_deadlock (fun _ => None) pw_home pw_kern (dread pw_disk) 3 2 1 _ 2 _ 0 _ s_bob s_pass pw_accounts bob_call_ok bob_can_add
    eq_refl eq_refl eq_refl eq_refl eq_refl) as (k1 & k2 & k3 & _ & H1 & _ & H2 & H3 & _).
  exists k1, k2. split; [exact H1|]. split; [exact H2|]. exists k3. exact H3.
Defined.
