(* ===== verification/Ulib.v ===== *)
(** * The user library: ulib.c and printf.c

    The string routines, number conversion in both directions, and [printf]. *)

From S2P Require Import Prelude CString.

(** The bytes of a message. *)
Definition bytes_of (s : string) : list Z := (fun a => Z.of_N (Ascii.N_of_ascii a)) <$> String.list_ascii_of_string s.

(** [strcpy(s, t)]: the destination after the copy; [None] past either end. *)
Fixpoint strcpy (s t : list Z) : option (list Z) :=
  match s, t with
  | _ :: s', c :: t' => if c =? 0 then Some (0 :: s') else r ← strcpy s' t'; Some (c :: r)
  | _, _ => None
  end.

(** Bytes are unsigned here, so the result is the difference of [uchar]s. *)
Fixpoint strcmp (p q : list Z) : option Z :=
  match p, q with
  | a :: p', b :: q' => if negb (a =? 0) && (a =? b) then strcmp p' q' else Some (a - b)
  | _, _ => None
  end.

(** The index of the character; [Some None] is the null pointer. *)
Fixpoint strchr (s : list Z) (c : Z) : option (option nat) :=
  match s with
  | [] => None
  | x :: s' => if x =? 0 then Some None
               else if x =? c then Some (Some O)
               else match strchr s' c with Some (Some i) => Some (Some (S i)) | r => r end
  end.

(** [gets(buf, max)] on the bytes that the reads return ([i] are already stored);
    the list ends where [read] returns less than 1. *)
Fixpoint gets_loop (room : nat) (input : list Z) : list Z :=
  match room, input with
  | S room', c :: input' => if (c =? 10) || (c =? 13) then [c] else c :: gets_loop room' input'
  | _, _ => []
  end.
Definition gets (max : Z) (buf input : list Z) : option (list Z) :=
  let l := gets_loop (Z.to_nat (max - 1)) input in
  if zlen buf <? zlen l + 1 then None else Some (splice 0 (l ++ [0]) buf).

(** [int] arithmetic wraps around at 32 bits. *)
Fixpoint atoi_from (n : Z) (s : list Z) : option Z :=
  match s with
  | [] => None
  | c :: s' => if (48 <=? c) && (c <=? 57) then atoi_from (i32 (n * 10 + c - 48)) s' else Some n
  end.
Definition atoi (s : list Z) : option Z := atoi_from 0 s.

(** ["0123456789ABCDEF"] *)
Definition digit (d : Z) : Z := if d <? 10 then 48 + d else 55 + d.

(** The [do ... while] of [printint]: the digits, lowest first; [room] bytes of
    [buf] are left, and a store beyond them is out of bounds. *)
Fixpoint digits (room : nat) (x base : Z) : option (list Z) :=
  match room with
  | O => None
  | S room' =>
      if x / base =? 0 then Some [digit (x mod base)]
      else r ← digits room' (x / base) base; Some (digit (x mod base) :: r)
  end.

(** What [printint] writes. *)
Definition printint (xx base : Z) (sgn : bool) : option (list Z) :=
  let neg := sgn && (xx <? 0) in
  let x := if neg then u32 (- xx) else u32 xx in
  buf ← digits 16 x base;
  if neg then (if 16 <=? zlen buf then None else Some (rev (buf ++ [45]))) else Some (rev buf).

Section Printf.
(** The string in the program's memory at an address, without its NUL. *)
Context (string_at : Z -> option (list Z)).

(** [printf(fd, fmt, ...)]: what is written; [ap] are the argument words and
    [state] is true after a percent sign. *)
Fixpoint printf (fmt : list Z) (state : bool) (ap : list Z) : option (list Z) :=
  match fmt with
  | [] => None
  | c :: fmt' =>
      if c =? 0 then Some []
      else if negb state then
        if c =? 37 then printf fmt' true ap
        else r ← printf fmt' false ap; Some (c :: r)
      else if (c =? 100) || (c =? 120) || (c =? 112) then
        a ← head ap;
        o ← (if c =? 100 then printint (i32 a) 10 true else printint (i32 a) 16 false);
        r ← printf fmt' false (tail ap);
        Some (o ++ r)
      else if c =? 115 then
        a ← head ap;
        s ← (if a =? 0 then Some [40; 110; 117; 108; 108; 41] else string_at a);
        r ← printf fmt' false (tail ap);
        Some (s ++ r)
      else if c =? 99 then
        a ← head ap;
        r ← printf fmt' false (tail ap);
        Some (u8 a :: r)
      else if c =? 37 then r ← printf fmt' false ap; Some (37 :: r)
      else r ← printf fmt' false ap; Some (37 :: c :: r)
  end.

(** The cases of [printf]. *)
Lemma printf_char c fmt ap r : c ≠ 0 -> c ≠ 37 -> printf fmt false ap = Some r -> printf (c :: fmt) false ap = Some (c :: r).
Proof. intros H0 H37 E. cbn [printf]. by rewrite (proj2 (Z.eqb_neq c 0)), (proj2 (Z.eqb_neq c 37)), E by done. Qed.

Lemma printf_dec fmt a ap d r : printint (i32 a) 10 true = Some d -> printf fmt false ap = Some r ->
  printf (37 :: 100 :: fmt) false (a :: ap) = Some (d ++ r).
Proof. intros Ed E. cbn [printf Z.eqb Pos.eqb negb orb head tail mbind option_bind]. by rewrite Ed, E. Qed.

Lemma printf_str fmt a ap s r : a ≠ 0 -> string_at a = Some s -> printf fmt false ap = Some r ->
  printf (37 :: 115 :: fmt) false (a :: ap) = Some (s ++ r).
Proof.
  intros Ha Es E. cbn [printf Z.eqb Pos.eqb negb orb head tail mbind option_bind]. rewrite (proj2 (Z.eqb_neq a 0)) by done.
  by rewrite Es, E.
Qed.
End Printf.

(** [printf] on a format that is known. *)
Ltac run_printf := repeat first
  [ reflexivity
  | eapply printf_dec; [eassumption|]
  | eapply printf_str; [discriminate|reflexivity|]
  | eapply printf_char; [discriminate|discriminate|] ].

(** ** Numbers *)

(** The value of decimal digits, highest first. *)
Fixpoint dec_val (n : Z) (l : list Z) : Z :=
  match l with [] => n | c :: l' => dec_val (n * 10 + (c - 48)) l' end.

Lemma i32_step n c : i32 (i32 n * 10 + c - 48) = i32 (n * 10 + (c - 48)).
Proof. unfold i32. mlia. Qed.

Lemma atoi_dec l c rest : forall n, Forall (fun d => 48 <= d <= 57) l -> ~ (48 <= c <= 57) ->
  atoi_from (i32 n) (l ++ c :: rest) = Some (i32 (dec_val n l)).
Proof.
  induction l as [|d l IH]; intros n Hl Hc; cbn.
  - destruct ((48 <=? c) && (c <=? 57)) eqn:E; [|done]. bool_cases. lia.
  - inversion Hl; subst. rewrite (proj2 (Z.leb_le 48 d)), (proj2 (Z.leb_le d 57)) by lia. cbn.
    rewrite i32_step. by apply IH.
Qed.

Lemma dec_val_app a b n : dec_val n (a ++ b) = dec_val (dec_val n a) b.
Proof. revert n. induction a as [|c a IH]; intros n; cbn; [done|]. apply IH. Qed.

(** [k] digits are enough below [10^k]. *)
Lemma digits_spec k : forall x, 0 <= x < 10 ^ Z.of_nat k -> (0 < k)%nat ->
  forall room, (k <= room)%nat ->
  exists l, digits room x 10 = Some l /\ (length l <= k)%nat /\ Forall (fun d => 48 <= d <= 57) l
    /\ dec_val 0 (rev l) = x.
Proof.
  induction k as [|k IH]; intros x Hx Hk room Hr; [lia|]. destruct room as [|room]; [lia|]. cbn [digits].
  assert (Hd : digit (x mod 10) = 48 + x mod 10 /\ 48 <= 48 + x mod 10 <= 57).
  { unfold digit. rewrite (proj2 (Z.ltb_lt (x mod 10) 10)) by mlia. split; [done|mlia]. }
  destruct Hd as [-> Hd]. destruct (x / 10 =? 0) eqn:E; bool_cases.
  - exists [48 + x mod 10]. split_and!; [done|cbn; lia|by apply Forall_singleton|]. cbn. mlia.
  - rewrite Nat2Z.inj_succ, Z.pow_succ_r in Hx by lia.
    destruct k as [|k]; [cbn in Hx; exfalso; mlia|].
    destruct (IH (x / 10)) with (room := room) as (l & -> & Hl & Hf & Hv); [mlia|lia|lia|].
    exists (48 + x mod 10 :: l). split_and!; [done|cbn; lia|by constructor|].
    cbn [rev]. rewrite dec_val_app, Hv. cbn. mlia.
Qed.

Lemma is_i32_i32 z : is_i32 (i32 z).
Proof. unfold is_i32, i32. mlia. Qed.
Lemma i32_add a b : i32 (i32 a + b) = i32 (a + b).
Proof. unfold i32. mlia. Qed.

Lemma printint_some xx : is_i32 xx -> exists l, printint xx 10 true = Some l.
Proof.
  intros Hx. unfold is_i32 in Hx. unfold printint. cbn [andb].
  destruct (digits_spec 10 (Z.abs xx) ltac:(cbn; lia) ltac:(lia) 16 ltac:(lia)) as (l & Hd & Hl & _).
  destruct (xx <? 0) eqn:E; bool_cases; rewrite u32_id by (unfold is_u32; lia).
  - rewrite <- Z.abs_neq by lia. rewrite Hd. cbn. rewrite (proj2 (Z.leb_gt 16 (zlen l))) by (unfold zlen; lia). eauto.
  - rewrite <- (Z.abs_eq xx), Hd by lia. cbn. eauto.
Qed.

(** [printint] writes every [int] in decimal without overrunning its 16-byte
    buffer, a minus sign first for the negative ones, and [atoi] reads the digits
    back (the most negative value included, as the wrapped magnitude). *)
Theorem printint_atoi xx rest : is_i32 xx ->
  exists l, printint xx 10 true = Some (if xx <? 0 then 45 :: l else l) /\ (length l <= 10)%nat
    /\ atoi (l ++ 0 :: rest) = Some (i32 (Z.abs xx)).
Proof.
  intros Hx. unfold is_i32 in Hx.
  destruct (digits_spec 10 (Z.abs xx) ltac:(cbn; lia) ltac:(lia) 16 ltac:(lia)) as (l & Hd & Hl & Hf & Hv).
  exists (rev l). assert (Hat : atoi (rev l ++ 0 :: rest) = Some (i32 (Z.abs xx))).
  { unfold atoi. change 0 with (i32 0) at 1. rewrite atoi_dec; [by rewrite Hv|by apply Forall_rev|lia]. }
  split_and!; [|by rewrite length_rev|done]. unfold printint. cbn [andb].
  destruct (xx <? 0) eqn:E; bool_cases.
  - rewrite u32_id by (unfold is_u32; lia). rewrite Z.abs_neq in Hd by lia. rewrite Hd. cbn [mbind option_bind].
    rewrite (proj2 (Z.leb_gt 16 (zlen l))) by (unfold zlen; lia). by rewrite rev_app_distr.
  - rewrite u32_id by (unfold is_u32; lia). rewrite Z.abs_eq in Hd by lia. rewrite Hd. done.
Qed.

Lemma printint_atoi_witness : exists l, printint (-2147483648) 10 true = Some (45 :: l)
  /\ atoi (l ++ [0]) = Some (-2147483648).
Proof.
  destruct (printint_atoi (-2147483648) []) as (l & H1 & _ & H2).
  - unfold is_i32. lia.
  - exists l. split; [exact H1|exact H2].
Defined.
