(* ===== verification/Grep.v ===== *)
(** * grep.c: the matcher and the line loop

    The recursive matcher of grep.c and the meaning of its patterns, and the loop
    that collects lines from the results of [read]. *)

From S2P Require Import Prelude CString Ulib.

(** Strings are byte lists with their NUL; [None] is a read past the end. *)

(** [matchstar(c, re, text)], with [mh] for [matchhere(re, .)]. *)
Fixpoint matchstar (mh : list Z -> option bool) (c : Z) (text : list Z) : option bool :=
  b ← mh text;
  if b : bool then Some true
  else match text with
       | [] => None
       | t :: text' =>
           if negb (t =? 0) && ((t =? c) || (c =? 46)) then matchstar mh c text' else Some false
       end.

Fixpoint matchhere (re text : list Z) : option bool :=
  match re with
  | [] => None
  | r0 :: re1 =>
      if r0 =? 0 then Some true
      else match re1 with
      | [] => None
      | r1 :: re2 =>
          if r1 =? 42 then matchstar (matchhere re2) r0 text
          else match text with
          | [] => None
          | t :: text' =>
              if (r0 =? 36) && (r1 =? 0) then Some (t =? 0)
              else if negb (t =? 0) && ((r0 =? 46) || (r0 =? t)) then matchhere re1 text'
              else Some false
          end
      end
  end.

(** The [do ... while] of [match]. *)
Fixpoint search (re text : list Z) : option bool :=
  b ← matchhere re text;
  if b : bool then Some true
  else match text with
       | [] => None
       | t :: text' => if negb (t =? 0) then search re text' else Some false
       end.

Definition match_re (re text : list Z) : option bool :=
  match re with
  | [] => None
  | r0 :: re1 => if r0 =? 94 then matchhere re1 text else search re text
  end.

(** The inner loop of [grep] on the string at [p]: what it writes, and the rest. *)
Fixpoint grep_lines (fuel : nat) (pattern p : list Z) : option (list Z * list Z) :=
  q ← strchr p 10;
  match q, fuel with
  | None, _ => Some ([], p)
  | Some _, O => None
  | Some q, S fuel' =>
      b ← match_re pattern (take q p ++ [0]);
      r ← grep_lines fuel' pattern (drop (S q) p);
      Some ((if b : bool then take q p ++ [10] else []) ++ fst r, snd r)
  end.

(** The outer loop, over the results of [read]; [acc] is [buf[0..m-1]].  A read
    never returns more than the room left in the buffer. *)
Fixpoint grep (pattern acc : list Z) (reads : list (list Z)) : option (list Z) :=
  match reads with
  | [] => Some []
  | chunk :: reads' =>
      if 1023 - zlen acc <? zlen chunk then None
      else if zlen chunk =? 0 then Some []
      else
        let data := acc ++ chunk in
        r ← grep_lines (length data) pattern (data ++ [0]);
        let rest := length (snd r) in
        let acc' := if (rest =? length data + 1)%nat then [] else drop (length data + 1 - rest) data in
        o ← grep pattern acc' reads';
        Some (fst r ++ o)
  end.

(** ** The meaning of a pattern *)

Definition fits (c x : Z) : Prop := c = 46 \/ c = x.

(** The pattern [p] matches a prefix of [t]. *)
Inductive here : list Z -> list Z -> Prop :=
| here_nil t : here [] t
| here_star c p t1 t2 : Forall (fits c) t1 -> here p t2 -> here (c :: 42 :: p) (t1 ++ t2)
| here_end : here [36] []
| here_chr c p x t : head p ≠ Some 42 -> ~ (c = 36 /\ p = []) -> fits c x -> here p t ->
    here (c :: p) (x :: t).

Definition matches (p t : list Z) : Prop :=
  match p with
  | 94 :: p' => here p' t
  | _ => exists t1 t2, t = t1 ++ t2 /\ here p t2
  end.

Definition clean (l : list Z) : Prop := Forall (fun c => c ≠ 0) l.

Lemma fits_dec c x : ((x =? c) || (c =? 46)) = true <-> fits c x.
Proof. unfold fits. rewrite orb_true_iff, !Z.eqb_eq. split; intros [?|?]; auto. Qed.

Lemma matchstar_spec mh c p r : (forall t, clean t -> exists b, mh (string_bytes t r) = Some b
     /\ (b = true <-> here p t)) ->
  forall t, clean t -> exists b, matchstar mh c (string_bytes t r) = Some b
     /\ (b = true <-> exists t1 t2, t = t1 ++ t2 /\ Forall (fits c) t1 /\ here p t2).
Proof.
  intros Hmh. unfold string_bytes in *. induction t as [|x t IH]; intros Ht; destruct (Hmh _ Ht) as (b & Eb & Hb).
  - cbn. cbn in Eb. rewrite Eb. cbn. exists b. split; [by destruct b|]. rewrite Hb. split.
    + intros Hh. exists [], []. auto.
    + intros (t1 & t2 & E & _ & Hh). symmetry in E. by apply app_nil in E as [-> ->].
  - pose proof (Forall_inv Ht) as Hx. pose proof (Forall_inv_tail Ht) as Ht'. cbn [app] in Eb.
    cbn [app matchstar]. rewrite Eb. cbn [mbind option_bind]. destruct b.
    { exists true. split; [done|]. split; [|done]. intros _. exists [], (x :: t). split_and!; auto. by apply Hb. }
    assert (Hno : ~ here p (x :: t)) by (intros Hh; by apply Hb in Hh).
    rewrite (proj2 (Z.eqb_neq x 0)) by done. cbn [negb andb].
    destruct ((x =? c) || (c =? 46)) eqn:Ef.
    + destruct (IH Ht') as (b & -> & Hb'). exists b. split; [done|]. rewrite Hb'. apply fits_dec in Ef. split.
      * intros (t1 & t2 & -> & H1 & H2). exists (x :: t1), t2. auto.
      * intros ([|y t1] & t2 & E & H1 & H2); [cbn in E; subst; done|]. injection E as -> ->.
        exists t1, t2. by inversion H1.
    + exists false. split; [done|]. split; [done|].
      intros ([|y t1] & t2 & E & H1 & H2); [cbn in E; subst; done|]. injection E as -> ->.
      apply Forall_inv, fits_dec in H1. congruence.
Qed.

(** A literal step, for a pattern that is neither a star nor a final dollar. *)
Lemma here_step c p x t : head p ≠ Some 42 -> ~ (c = 36 /\ p = []) ->
  here (c :: p) (x :: t) <-> fits c x /\ here p t.
Proof.
  intros Hs Hd. split.
  - inversion 1; subst; [|done]. cbn in Hs. done.
  - intros [Hf Hh]. by apply here_chr.
Qed.

Lemma here_step_nil c p : head p ≠ Some 42 -> ~ (c = 36 /\ p = []) -> ~ here (c :: p) [].
Proof. intros Hs Hd. inversion 1; subst; [cbn in Hs; done|]. by apply Hd. Qed.

Lemma here_star_iff c p t : here (c :: 42 :: p) t <-> exists t1 t2, t = t1 ++ t2 /\ Forall (fits c) t1 /\ here p t2.
Proof.
  split.
  - inversion 1; subst; [eauto|]. cbn in *. done.
  - intros (t1 & t2 & -> & H1 & H2). by apply here_star.
Qed.

Lemma matchhere_spec n : forall p rp t rt, (length p <= n)%nat -> clean p -> clean t ->
  exists b, matchhere (string_bytes p rp) (string_bytes t rt) = Some b /\ (b = true <-> here p t).
Proof.
  unfold string_bytes. induction n as [|n IH]; intros p rp t rt Hn Hp Ht.
  all: destruct p as [|c p]; [exists true; split; [done|]; split; [intros _; apply here_nil|done]|].
  { cbn in Hn. lia. }
  cbn in Hn. pose proof (Forall_inv Hp) as Hc. pose proof (Forall_inv_tail Hp) as Hp'.
  cbn [app]. cbn [matchhere]. rewrite (proj2 (Z.eqb_neq c 0)) by done.
  assert (Hlit : head p ≠ Some 42 -> ~ (c = 36 /\ p = []) -> exists b,
     (match t ++ 0 :: rt with
      | [] => None
      | x :: text' => if negb (x =? 0) && ((c =? 46) || (c =? x)) then matchhere (p ++ 0 :: rp) text' else Some false
      end) = Some b /\ (b = true <-> here (c :: p) t)).
  { intros Hs Hd. destruct t as [|x t]; cbn.
    - exists false. split; [done|]. split; [done|]. intros Hh. by apply here_step_nil in Hh.
    - pose proof (Forall_inv Ht) as Hx. rewrite (proj2 (Z.eqb_neq x 0)) by done. cbn.
      pose proof (here_step c p x t Hs Hd) as Hi. rewrite orb_comm, (Z.eqb_sym c x).
      destruct ((x =? c) || (c =? 46)) eqn:Ef.
      + destruct (IH p rp t rt) as (b & -> & Hb); [lia|done|by inversion Ht|]. exists b. split; [done|].
        apply fits_dec in Ef. tauto.
      + exists false. split; [done|]. split; [done|]. intros [Hf _]%Hi. apply fits_dec in Hf. congruence. }
  destruct p as [|c1 p]; cbn [app].
  - change (0 =? 42) with false. change (0 =? 0) with true. cbv iota. rewrite andb_true_r.
    destruct (c =? 36) eqn:Ed; bool_cases.
    + subst c. destruct t as [|x t]; cbn.
      * exists true. split; [done|]. split; [intros _; apply here_end|done].
      * exists (x =? 0). split; [done|]. inversion Ht; subst. rewrite (proj2 (Z.eqb_neq x 0)) by done.
        split; [done|]. inversion 1; subst. exfalso. naive_solver.
    + apply Hlit; [done|]. intros [? _]. done.
  - pose proof (Forall_inv Hp') as Hc1. destruct (c1 =? 42) eqn:E1; bool_cases.
    + subst c1. setoid_rewrite here_star_iff. apply (matchstar_spec _ c p rt); [|done].
      intros t' Ht'. apply (IH p rp t' rt); [cbn in Hn; lia|by inversion Hp'|done].
    + rewrite (proj2 (Z.eqb_neq c1 0)), andb_false_r by done. apply Hlit; [cbn; congruence|]. by intros [_ ?].
Qed.

Lemma search_spec p rp rt : clean p -> forall t, clean t ->
  exists b, search (string_bytes p rp) (string_bytes t rt) = Some b
    /\ (b = true <-> exists t1 t2, t = t1 ++ t2 /\ here p t2).
Proof.
  intros Hp. induction t as [|x t IH]; intros Ht;
    destruct (matchhere_spec (length p) p rp _ rt (le_n _) Hp Ht) as (b & Eb & Hb); unfold string_bytes in *.
  - cbn [app] in *. cbn [search]. rewrite Eb. cbn. exists b. split; [by destruct b|]. rewrite Hb. split.
    + intros Hh. by exists [], [].
    + intros (t1 & t2 & E & Hh). symmetry in E. by apply app_nil in E as [-> ->].
  - cbn [app] in *. cbn [search]. rewrite Eb. cbn [mbind option_bind]. destruct b.
    { exists true. split; [done|]. split; [|done]. intros _. exists [], (x :: t). split; [done|]. by apply Hb. }
    inversion Ht; subst. rewrite (proj2 (Z.eqb_neq x 0)) by done. destruct (IH ltac:(done)) as (b & -> & Hb').
    exists b. split; [done|]. rewrite Hb'. split.
    + intros (t1 & t2 & -> & Hh). by exists (x :: t1), t2.
    + intros ([|y t1] & t2 & E & Hh); [cbn in E; subst t2; by apply Hb in Hh|]. injection E as -> ->. by exists t1, t2.
Qed.

Lemma match_spec p t rp rt : clean p -> clean t ->
  exists b, match_re (string_bytes p rp) (string_bytes t rt) = Some b /\ (b = true <-> matches p t).
Proof.
  intros Hp Ht. pose proof (search_spec p rp rt Hp t Ht) as Hs.
  destruct p as [|c p]; [exact Hs|]. inversion Hp; subst.
  unfold match_re, string_bytes. cbn [app]. destruct (c =? 94) eqn:E; bool_cases.
  - subst c. apply (matchhere_spec (length p) p rp t rt); done.
  - assert (Em : matches (c :: p) t <-> exists t1 t2, t = t1 ++ t2 /\ here (c :: p) t2).
    { unfold matches. repeat (case_match; try done). }
    setoid_rewrite Em. exact Hs.
Qed.

(** The matcher of grep returns for every pattern and text, and says yes
    exactly when the pattern matches: characters, [.], [*], a leading [^] and a
    final [$]. *)
Theorem match_correct p t rp rt : clean p -> clean t ->
  exists b, match_re (string_bytes p rp) (string_bytes t rt) = Some b /\ (b = true <-> matches p t).
Proof. apply match_spec. Qed.

(** ["a.*c$"] in ["xabbc"]. *)
Lemma match_correct_witness :
  exists b, match_re (string_bytes [97; 46; 42; 99; 36] []) (string_bytes [120; 97; 98; 98; 99] []) = Some b.
Proof.
  destruct (match_correct [97; 46; 42; 99; 36] [120; 97; 98; 98; 99] [] []) as (b & Hb & _).
  - repeat constructor; done.
  - repeat constructor; done.
  - exists b. exact Hb.
Defined.

(** A line that arrives in two reads is lost: with the pattern ["ab"] the input
    ["ab\n"] is printed when it is read at once and not when the first read
    returns only ["a"], because [grep] empties its buffer after a read without a
    newline. *)
Theorem grep_loses_split_line :
  grep [97; 98; 0] [] [[97; 98; 10]] = Some [97; 98; 10] /\ grep [97; 98; 0] [] [[97]; [98; 10]] = Some [].
Proof. by vm_compute. Qed.

(** ** Whole lines *)

Definition plain_line (l : list Z) : Prop := Forall (fun c => c ≠ 0 /\ c ≠ 10) l.
(** Lines, each with its newline. *)
Definition text (ls : list (list Z)) : list Z := flat_map (fun l => l ++ [10]) ls.
(** The matcher says yes. *)
Definition keeps (pattern l : list Z) : bool := bool_decide (match_re pattern (l ++ [0]) = Some true).

(** [selects P l k]: [k] is the elements of [l] with [P], in order. *)
Inductive selects {A} (P : A -> Prop) : list A -> list A -> Prop :=
| selects_nil : selects P [] []
| selects_keep x l k : P x -> selects P l k -> selects P (x :: l) (x :: k)
| selects_drop x l k : ~ P x -> selects P l k -> selects P (x :: l) k.

Lemma selects_app {A} (P : A -> Prop) l1 k1 l2 k2 : selects P l1 k1 -> selects P l2 k2 -> selects P (l1 ++ l2) (k1 ++ k2).
Proof. induction 1; intros H2; cbn; [done|constructor; auto..]. Qed.

Lemma selects_unique {A} (P : A -> Prop) l k1 k2 : selects P l k1 -> selects P l k2 -> k1 = k2.
Proof. intros H1. revert k2. induction H1; inversion 1; subst; try done; f_equal; auto. Qed.

Lemma text_app a b : text (a ++ b) = text a ++ text b.
Proof. apply flat_map_app. Qed.

Lemma text_length ls : (length ls <= length (text ls))%nat.
Proof. induction ls as [|l ls IH]; cbn; [lia|]. change (flat_map _ ls) with (text ls). rewrite !length_app. cbn. lia. Qed.

Lemma strchr_line l c rest : plain_line l -> c ≠ 0 -> strchr (l ++ c :: rest) 10 =
  if c =? 10 then Some (Some (length l)) else match strchr rest 10 with Some (Some i) => Some (Some (length l + S i)%nat) | r => r end.
Proof.
  intros Hl Hc. induction Hl as [|x l [H0 H10] Hl IH]; cbn.
  - rewrite (proj2 (Z.eqb_neq c 0)) by done. by destruct (c =? 10).
  - rewrite (proj2 (Z.eqb_neq x 0)), (proj2 (Z.eqb_neq x 10)) by done. rewrite IH. destruct (c =? 10); [done|].
    by destruct (strchr rest 10) as [[i|]|].
Qed.

Lemma strchr_none l : plain_line l -> strchr (l ++ [0]) 10 = Some None.
Proof.
  induction 1 as [|x l [H0 H10] Hl IH]; cbn; [done|].
  rewrite (proj2 (Z.eqb_neq x 0)), (proj2 (Z.eqb_neq x 10)) by done. by rewrite IH.
Qed.

Lemma plain_clean l : plain_line l -> clean l.
Proof. intros Hl. eapply Forall_impl; [exact Hl|]. intros c Hc. apply Hc. Qed.

Section Lines.
Context (pattern : list Z) (Hpattern : clean pattern).

(** Whole lines are printed or skipped, and the unfinished one is left. *)
Lemma grep_lines_text ls part : Forall plain_line ls -> plain_line part -> forall fuel, (length ls <= fuel)%nat ->
  grep_lines fuel (pattern ++ [0]) (text ls ++ part ++ [0]) = Some (text (List.filter (keeps (pattern ++ [0])) ls), part ++ [0]).
Proof.
  intros Hls Hpart. induction Hls as [|l ls Hl Hls IH]; intros fuel Hf; cbn [text flat_map app List.filter].
  - destruct fuel; cbn [grep_lines]; by rewrite strchr_none.
  - destruct fuel as [|fuel]; [cbn in Hf; lia|]. change (flat_map _ ls) with (text ls). rewrite <- !app_assoc. cbn [app grep_lines].
    rewrite strchr_line by done. cbn [Z.eqb Pos.eqb mbind option_bind]. rewrite take_app_length.
    replace (drop (S (length l)) (l ++ 10 :: text ls ++ part ++ [0])) with (text ls ++ part ++ [0])
      by (by rewrite drop_app_ge, Nat.sub_succ_l, Nat.sub_diag by lia).
    destruct (match_spec pattern l [] [] Hpattern (plain_clean _ Hl)) as (b & Eb & _). unfold string_bytes in Eb. rewrite Eb.
    cbn [mbind option_bind]. rewrite IH by (cbn in Hf; lia). cbn [fst snd mbind option_bind]. unfold keeps at 2. rewrite Eb.
    destruct b; [rewrite bool_decide_true by done|rewrite bool_decide_false by done]; cbn [text flat_map]; done.
Qed.

(** The lines printed are those the pattern matches. *)
Lemma keeps_selects ls : Forall plain_line ls -> selects (matches pattern) ls (List.filter (keeps (pattern ++ [0])) ls).
Proof.
  induction 1 as [|l ls Hl Hls IH]; cbn [List.filter]; [constructor|].
  destruct (match_spec pattern l [] [] Hpattern (plain_clean _ Hl)) as (b & Eb & Hb). unfold string_bytes in Eb. unfold keeps at 1. rewrite Eb. destruct b.
  - rewrite bool_decide_true by done. constructor; [by apply Hb|done].
  - rewrite bool_decide_false by done. constructor; [|done]. intros Hm. by apply Hb in Hm.
Qed.

(** A prefix of lines is lines and a part of the next one. *)
Lemma text_prefix ls : Forall plain_line ls -> forall data rest, data ++ rest = text ls ->
  exists ls1 part ls2, ls = ls1 ++ ls2 /\ data = text ls1 ++ part /\ plain_line part /\ part ++ rest = text ls2.
Proof.
  induction 1 as [|l ls Hl Hls IH]; intros data rest E; cbn in E.
  - apply app_nil in E as [-> ->]. exists [], [], []. repeat split; constructor.
  - change (flat_map _ ls) with (text ls) in E. destruct (decide (length data <= length l)%nat) as [Hle|Hgt].
    + exists [], data, (l :: ls). split; [done|]. split; [done|]. split; [|exact E].
      rewrite <- app_assoc in E. assert (take (length data) (data ++ rest) = take (length data) l) as Et
        by (by rewrite E, take_app_le by lia).
      rewrite take_app_length in Et. rewrite Et. by apply Forall_take.
    + assert (exists d, data = l ++ 10 :: d) as (d & ->).
      { exists (drop (S (length l)) data). rewrite <- (take_drop (S (length l)) data) at 1.
        replace (take (S (length l)) data) with (l ++ [10]); [by rewrite <- app_assoc|].
        rewrite <- (take_app_le data rest), E by lia. rewrite take_app_le by (rewrite length_app; cbn; lia).
        rewrite take_ge; [done|rewrite length_app; cbn; lia]. }
      rewrite <- !app_assoc in E. cbn in E. apply app_inv_head in E. injection E as E.
      destruct (IH _ _ E) as (ls1 & part & ls2 & -> & -> & Hp & Er). exists (l :: ls1), part, ls2.
      split; [done|]. split; [|done]. cbn. by rewrite <- !app_assoc.
Qed.

(** When every read brings the end of a line, nothing is lost. *)
Lemma grep_prints reads : forall acc ls o, Forall plain_line ls -> Forall (fun r => 10 ∈ r) reads -> plain_line acc ->
  acc ++ concat reads = text ls -> grep (pattern ++ [0]) acc (reads ++ [[]]) = Some o ->
  o = text (List.filter (keeps (pattern ++ [0])) ls).
Proof.
  induction reads as [|r reads IH]; intros acc ls o Hls Hr Hacc E Hg.
  - cbn in E. rewrite app_nil_r in E. cbn [app grep] in Hg. destruct (_ <? _); [done|].
    injection Hg as <-. destruct ls as [|l ls]; [done|]. subst acc. cbn in Hacc. exfalso.
    apply Forall_app in Hacc as [Hacc _]. apply Forall_app in Hacc as [_ Hacc]. apply Forall_inv in Hacc. by destruct Hacc.
  - inversion Hr as [|r' reads' H10 Hr']; subst. cbn [concat] in E. rewrite app_assoc in E.
    destruct (text_prefix ls Hls _ _ E) as (ls1 & part & ls2 & -> & Ed & Hp & Er). apply Forall_app in Hls as [Hls1 Hls2].
    cbn [app grep] in Hg. destruct (_ <? _); [done|]. destruct (zlen r =? 0) eqn:Ez; bool_cases.
    { destruct r; [by apply not_elem_of_nil in H10|unfold zlen in *; cbn in *; lia]. }
    assert (Hd : (length ls1 <= length (acc ++ r))%nat).
    { rewrite Ed, length_app. pose proof (text_length ls1). lia. }
    rewrite Ed, <- app_assoc, grep_lines_text in Hg by (rewrite <- ?Ed; done). cbn [mbind option_bind fst snd] in Hg.
    replace (length (part ++ [0%Z]) =? length (text ls1 ++ part) + 1)%nat with false in Hg.
    2:{ symmetry. apply Nat.eqb_neq. rewrite !length_app. cbn [length]. destruct ls1 as [|l ls1]; [|cbn; rewrite !length_app; cbn; lia].
        cbn in Ed. subst part. apply Forall_app in Hp as [_ Hp]. rewrite Forall_forall in Hp. by destruct (Hp _ H10). }
    replace (drop _ (text ls1 ++ part)) with part in Hg by (rewrite drop_app_length' by (rewrite !length_app; cbn; lia); done).
    destruct (grep _ part _) as [o'|] eqn:Eg; [|done]. injection Hg as <-.
    by rewrite (IH part ls2 o' Hls2 Hr' Hp Er Eg), List.filter_app, text_app.
Qed.
End Lines.

(** ** Arbitrary data *)

Lemma strchr_total d : exists q, strchr (d ++ [0]) 10 = Some q /\
  match q with Some i => (i < length d)%nat /\ clean (take i d) | None => True end.
Proof.
  induction d as [|x d IH]; cbn; [by exists None|]. destruct (x =? 0) eqn:E0; [by exists None|]. bool_cases.
  destruct (x =? 10); [exists (Some 0%nat); split; [done|]; split; [lia|constructor]|].
  destruct IH as ([i|] & -> & Hi); [|by exists None]. destruct Hi as [Hi Hc]. exists (Some (S i)). split; [done|]. split; [lia|]. by constructor.
Qed.

(** The inner loop ends for every data, with part of it left. *)
Lemma grep_lines_total pattern : clean pattern -> forall fuel d, (length d <= fuel)%nat ->
  exists out d', grep_lines fuel (pattern ++ [0]) (d ++ [0]) = Some (out, d' ++ [0]) /\ (length d' <= length d)%nat.
Proof.
  intros Hp. induction fuel as [|fuel IH]; intros d Hd; cbn [grep_lines].
  - destruct d; [|cbn in Hd; lia]. by exists [], [].
  - destruct (strchr_total d) as (q & -> & Hq). destruct q as [q|]; [|by exists [], d]. destruct Hq as [Hq Hc].
    cbn [mbind option_bind]. rewrite take_app_le by lia. destruct (match_spec pattern (take q d) [] [] Hp Hc) as (b & Eb & _).
    unfold string_bytes in Eb. rewrite Eb. cbn [mbind option_bind]. rewrite drop_app_le by lia.
    destruct (IH (drop (S q) d)) as (out & d' & -> & Hl); [rewrite length_drop; lia|]. cbn. eexists _, d'. split; [done|].
    rewrite length_drop in Hl. lia.
Qed.
