(* ===== verification/Spinlock.v ===== *)
(** * spinlock.c: locks and interrupts

    Spin locks shared by several processors, with the interrupt flag and the
    counters that [pushcli] and [popcli] keep on each.  The debugging fields
    [name] and [pcs] are left out.  An [acquire] that would spin ends the run. *)

From S2P Require Import Prelude KMonad.

Record spinlock := mkSpinlock { lk_locked : bool; lk_cpu : option nat }.

(** [iflag] is FL_IF in the processor's eflags. *)
Record cpu := mkCpu { ncli : Z; intena : bool; iflag : bool }.

Record machine := mkMachine { cpus : list cpu; locks : list spinlock }.

Definition initlock : spinlock := mkSpinlock false None.

Definition get_cpu (c : nat) : M machine cpu := fun m => from_opt (cpus m !! c) m.
Definition put_cpu (c : nat) (x : cpu) : M machine unit :=
  modify (fun m => mkMachine (<[c := x]> (cpus m)) (locks m)).
Definition get_lock (l : nat) : M machine spinlock := fun m => from_opt (locks m !! l) m.
Definition put_lock (l : nat) (x : spinlock) : M machine unit :=
  modify (fun m => mkMachine (cpus m) (<[l := x]> (locks m))).

Definition pushcli (c : nat) : M machine unit :=
  x <- get_cpu c ;;
  put_cpu c (mkCpu (ncli x + 1) (if ncli x =? 0 then iflag x else intena x) false).

Definition popcli (c : nat) : M machine unit :=
  x <- get_cpu c ;;
  if iflag x then panic "popcli - interruptible"
  else
    let n := ncli x - 1 in
    if n <? 0 then panic "popcli"
    else put_cpu c (mkCpu n (intena x) ((n =? 0) && intena x)).

Definition holding (c l : nat) : M machine bool :=
  pushcli c ;;;
  k <- get_lock l ;;
  let r := lk_locked k && bool_decide (lk_cpu k = Some c) in
  popcli c ;;;
  ret r.

Definition acquire (c l : nat) : M machine unit :=
  pushcli c ;;;
  h <- holding c l ;;
  if h : bool then panic "acquire"
  else
    k <- get_lock l ;;
    if lk_locked k then halt asleep_stop
    else put_lock l (mkSpinlock true (Some c)).

Definition release (c l : nat) : M machine unit :=
  h <- holding c l ;;
  if negb h then panic "release"
  else put_lock l (mkSpinlock false None) ;;; popcli c.

(** A processor takes or gives back a lock. *)
Inductive lstep : machine -> machine -> Prop :=
| step_acquire m m' c l : acquire c l m = Ok tt m' -> lstep m m'
| step_release m m' c l : release c l m = Ok tt m' -> lstep m m'.

(** ** Invariant *)

Definition owned (c : nat) (k : spinlock) : bool := lk_locked k && bool_decide (lk_cpu k = Some c).
Definition held (ls : list spinlock) (c : nat) : nat := length (filter (fun k => owned c k = true) ls).

(** A processor that holds locks has interrupts off and remembers how they were;
    one that holds none has them as at the start. *)
Definition cpu_ok (boot : nat -> bool) (ls : list spinlock) (c : nat) (x : cpu) : Prop :=
  ncli x = Z.of_nat (held ls c)
  /\ if decide (held ls c = 0%nat) then iflag x = boot c else iflag x = false /\ intena x = boot c.

Record locks_ok (boot : nat -> bool) (m : machine) : Prop := {
  lo_cpus : forall c x, cpus m !! c = Some x -> cpu_ok boot (locks m) c x;
  lo_owner : forall l k, locks m !! l = Some k -> (lk_locked k = true <-> is_Some (lk_cpu k)) }.

Lemma held_insert ls l k k' c : ls !! l = Some k ->
  (held (<[l := k']> ls) c + (if owned c k then 1 else 0) = held ls c + (if owned c k' then 1 else 0))%nat.
Proof.
  unfold held. revert l. induction ls as [|y ls IH]; intros [|l] Hl; try done.
  - injection Hl as ->. change (<[0%nat := k']> (k :: ls)) with (k' :: ls). rewrite !filter_cons.
    destruct (owned c k) eqn:E1, (owned c k') eqn:E2; repeat case_decide; try congruence;
      rewrite ?length_cons; lia.
  - change (<[S l := k']> (y :: ls)) with (y :: <[l := k']> ls). specialize (IH l Hl). rewrite !filter_cons.
    repeat case_decide; try congruence; rewrite ?length_cons; lia.
Qed.

Lemma held_pos ls l k c : ls !! l = Some k -> owned c k = true -> (0 < held ls c)%nat.
Proof.
  intros Hl Ho. unfold held. assert (Hin : k ∈ filter (fun k => owned c k = true) ls)
    by (apply list_elem_of_filter; split; [done|by eapply list_elem_of_lookup_2]).
  destruct (filter _ ls); [by apply elem_of_nil in Hin|cbn; lia].
Qed.

(** With interrupts already pushed off, [holding] looks without changing. *)
Lemma holding_off c l m x k :
  cpus m !! c = Some x -> locks m !! l = Some k -> 0 < ncli x -> iflag x = false ->
  holding c l m = Ok (owned c k) m.
Proof.
  intros Hx Hk Hn Hi. pose proof (lookup_lt_Some _ _ _ Hx). destruct m as [cs ls]; cbn in *.
  unfold holding, pushcli, popcli, bind, get_cpu, get_lock, put_cpu, modify, ret. cbn. rewrite Hx. cbn.
  rewrite Hk. cbn. rewrite list_lookup_insert_eq by done. cbn.
  rewrite (proj2 (Z.eqb_neq (ncli x) 0)) by lia. rewrite (proj2 (Z.ltb_ge (ncli x + 1 - 1) 0)) by lia. cbn.
  rewrite (proj2 (Z.eqb_neq (ncli x + 1 - 1) 0)) by lia. cbn. rewrite list_insert_insert_eq.
  replace (mkCpu (ncli x + 1 - 1) (intena x) false) with x by (destruct x; cbn in *; f_equal; lia || done).
  by rewrite list_insert_id.
Qed.

Lemma holding_value c l m r m' : holding c l m = Ok r m' ->
  exists k, locks m !! l = Some k /\ r = owned c k.
Proof.
  intros Hr. unfold holding in Hr. apply bind_inv in Hr as (u & m1 & Hp & Hr).
  assert (El : locks m1 = locks m).
  { unfold pushcli in Hp. apply bind_inv in Hp as (x & m2 & Hx & Hp). unfold get_cpu in Hx.
    destruct (cpus m !! c); [|done]. injection Hx as <- <-. by injection Hp as _ <-. }
  apply bind_inv in Hr as (k & m2 & Hk & Hr). unfold get_lock in Hk. rewrite El in Hk.
  destruct (locks m !! l) as [k'|]; [|done]. injection Hk as <- <-.
  apply bind_inv in Hr as (v & m3 & _ & Hr). injection Hr as <- _. by exists k'.
Qed.

Lemma owned_other c c' k : lk_locked k = true -> lk_cpu k = Some c -> c' ≠ c -> owned c' k = false.
Proof. intros Hl Hc Hne. unfold owned. rewrite Hl, Hc, bool_decide_false; [done|congruence]. Qed.

(** What [acquire] and [release] do to a machine. *)
Lemma acquire_runs c l m x k : cpus m !! c = Some x -> locks m !! l = Some k -> 0 <= ncli x -> owned c k = false ->
  acquire c l m =
    (let m1 := <[c := mkCpu (ncli x + 1) (if ncli x =? 0 then iflag x else intena x) false]> (cpus m) in
     if lk_locked k then Halt asleep_stop (mkMachine m1 (locks m)) else Ok tt (mkMachine m1 (<[l := mkSpinlock true (Some c)]> (locks m)))).
Proof.
  intros Hx Hk Hn Ho. pose proof (lookup_lt_Some _ _ _ Hx). unfold acquire.
  set (x' := mkCpu _ _ false). rewrite (bind_Ok _ _ m tt (mkMachine (<[c := x']> (cpus m)) (locks m)))
    by (unfold pushcli, bind, get_cpu; by rewrite Hx).
  rewrite (bind_Ok _ _ _ (owned c k) (mkMachine (<[c := x']> (cpus m)) (locks m)))
    by (apply (holding_off c l _ x'); [by apply list_lookup_insert_eq|exact Hk|cbn; lia|done]).
  rewrite Ho. unfold bind, get_lock. cbn. rewrite Hk. cbn. by destruct (lk_locked k).
Qed.

Lemma release_runs c l m x k : cpus m !! c = Some x -> locks m !! l = Some k -> 0 < ncli x -> iflag x = false -> owned c k = true ->
  release c l m = Ok tt (mkMachine (<[c := mkCpu (ncli x - 1) (intena x) ((ncli x - 1 =? 0) && intena x)]> (cpus m))
                                   (<[l := mkSpinlock false None]> (locks m))).
Proof.
  intros Hx Hk Hn Hi Ho. unfold release. rewrite (bind_Ok _ _ m (owned c k) m) by (by eapply holding_off). rewrite Ho. cbn [negb].
  unfold popcli, bind, put_lock, modify, get_cpu. cbn [locks cpus]. rewrite Hx. cbn. rewrite Hi.
  by rewrite (proj2 (Z.ltb_ge (ncli x - 1) 0)) by lia.
Qed.

Lemma acquire_ok boot c l m m' : locks_ok boot m -> acquire c l m = Ok tt m' -> locks_ok boot m'.
Proof.
  intros [Hcpu Hown] Hr. unfold acquire in Hr. apply bind_inv in Hr as (u & m1 & Hp & Hr).
  unfold pushcli in Hp. apply bind_inv in Hp as (x & m2 & Hx & Hp). unfold get_cpu in Hx.
  destruct (cpus m !! c) as [x'|] eqn:Ex; [|done]. injection Hx as -> <-. injection Hp as _ <-.
  pose proof (lookup_lt_Some _ _ _ Ex) as Hlt. destruct (Hcpu c x Ex) as [Hn Hi].
  set (x1 := mkCpu _ _ _) in Hr.
  apply bind_inv in Hr as (h & m3 & Hh & Hr). destruct (holding_value _ _ _ _ _ Hh) as (k & Hk & ->). cbn in Hk.
  erewrite holding_off in Hh; [|cbn; by apply list_lookup_insert_eq|exact Hk|cbn; lia|done].
  injection Hh as <-. destruct (owned c k) eqn:Eo; [done|].
  apply bind_inv in Hr as (k' & m4 & Hk' & Hr). unfold get_lock in Hk'. cbn in Hk'. rewrite Hk in Hk'.
  injection Hk' as <- <-. destruct (lk_locked k) eqn:El; [done|]. injection Hr as <-.
  assert (Ho : forall c', owned c' k = false) by (intros; unfold owned; by rewrite El).
  assert (Hc : owned c (mkSpinlock true (Some c)) = true) by (unfold owned; cbn; by rewrite bool_decide_true).
  split; cbn.
  - intros c' y Hy. pose proof (held_insert _ _ _ (mkSpinlock true (Some c)) c' Hk) as Hh'. rewrite Ho in Hh'.
    destruct (decide (c' = c)) as [->|Hne].
    + rewrite list_lookup_insert_eq in Hy by done. injection Hy as <-. rewrite Hc in Hh'. split; [cbn; lia|].
      rewrite decide_False by lia. split; [done|]. cbn. destruct (decide (held (locks m) c = 0%nat)) as [E|E].
      * by rewrite (proj2 (Z.eqb_eq (ncli x) 0)) by lia.
      * rewrite (proj2 (Z.eqb_neq (ncli x) 0)) by lia. apply Hi.
    + rewrite list_lookup_insert_ne in Hy by done. rewrite (owned_other c c' (mkSpinlock true (Some c))) in Hh' by done.
      unfold cpu_ok. replace (held (<[l := mkSpinlock true (Some c)]> (locks m)) c') with (held (locks m) c') by lia.
      by apply Hcpu.
  - intros l' k' Hk'. destruct (decide (l' = l)) as [->|Hne].
    + rewrite list_lookup_insert_eq in Hk' by (by eapply lookup_lt_Some). injection Hk' as <-. cbn. split; eauto.
    + rewrite list_lookup_insert_ne in Hk' by done. eauto.
Qed.

Lemma release_ok boot c l m m' : locks_ok boot m -> release c l m = Ok tt m' -> locks_ok boot m'.
Proof.
  intros [Hcpu Hown] Hr. unfold release in Hr. apply bind_inv in Hr as (h & m1 & Hh & Hr).
  destruct (holding_value _ _ _ _ _ Hh) as (k & Hk & ->). destruct (owned c k) eqn:Eo; [|done]. cbn [negb] in Hr.
  pose proof (held_pos _ _ _ _ Hk Eo) as Hpos.
  assert (Ex : exists x, cpus m !! c = Some x).
  { unfold holding, pushcli, bind, get_cpu in Hh. destruct (cpus m !! c); [eauto|done]. }
  destruct Ex as [x Ex]. pose proof (lookup_lt_Some _ _ _ Ex) as Hlt. destruct (Hcpu c x Ex) as [Hn Hi].
  rewrite decide_False in Hi by lia. destruct Hi as [Hi He].
  erewrite holding_off in Hh; [|done|done|lia|done]. injection Hh as _ <-.
  apply bind_inv in Hr as (u & m2 & Hp & Hr). injection Hp as _ <-. unfold popcli in Hr.
  apply bind_inv in Hr as (y & m3 & Hy & Hr). unfold get_cpu in Hy. cbn in Hy. rewrite Ex in Hy.
  injection Hy as <- <-. rewrite Hi in Hr. destruct (ncli x - 1 <? 0) eqn:En; [done|]. injection Hr as <-.
  assert (Hf : forall c', owned c' (mkSpinlock false None) = false) by done.
  split; cbn.
  - intros c' y Hy. pose proof (held_insert _ _ _ (mkSpinlock false None) c' Hk) as Hh'. rewrite Hf in Hh'.
    destruct (decide (c' = c)) as [->|Hne].
    + rewrite list_lookup_insert_eq in Hy by done. injection Hy as <-. rewrite Eo in Hh'. split; [cbn; lia|]. cbn.
      case_decide.
      * by rewrite (proj2 (Z.eqb_eq (ncli x - 1) 0)) by lia.
      * by rewrite (proj2 (Z.eqb_neq (ncli x - 1) 0)) by lia.
    + rewrite list_lookup_insert_ne in Hy by done. unfold owned in Eo. apply andb_prop in Eo as [El Ec].
      apply bool_decide_eq_true in Ec. rewrite (owned_other c c' k) in Hh' by done.
      unfold cpu_ok. replace (held (<[l := mkSpinlock false None]> (locks m)) c') with (held (locks m) c') by lia.
      by apply Hcpu.
  - intros l' k' Hk'. destruct (decide (l' = l)) as [->|Hne].
    + rewrite list_lookup_insert_eq in Hk' by (by eapply lookup_lt_Some). injection Hk' as <-. cbn.
      split; [done|]. by intros [? ?].
    + rewrite list_lookup_insert_ne in Hk' by done. eauto.
Qed.

(** However processors take and give back locks, in any interleaving and
    nesting: interrupts are off on a processor while it holds a lock, the nesting
    count is the number of locks it holds, and when it has released the last one
    its interrupts are again as they were at the start. *)
Theorem spinlock_interrupts boot m m' : locks_ok boot m -> rtc lstep m m' -> locks_ok boot m'.
Proof.
  intros Hok Hs. induction Hs as [|m m1 m2 [? ? c l Hr|? ? c l Hr] _ IH]; [done|..]; apply IH.
  - by eapply acquire_ok.
  - by eapply release_ok.
Qed.

(** Two processors, interrupts on; the first takes lock 1 inside lock 0. *)
Definition demo_machine : machine :=
  mkMachine (replicate 2 (mkCpu 0 false true)) (replicate 2 initlock).
Definition demo_machine1 : machine :=
  mkMachine [mkCpu 2 true false; mkCpu 0 false true] [mkSpinlock true (Some 0%nat); mkSpinlock true (Some 0%nat)].

Lemma spinlock_interrupts_witness : locks_ok (fun _ => true) demo_machine1.
Proof.
  apply (spinlock_interrupts (fun _ => true) demo_machine demo_machine1).
  - split; cbn.
    + intros [|[|c]] x Hx; try done; injection Hx as <-; split; done.
    + intros [|[|l]] k Hk; try done; injection Hk as <-; cbn; split; [done|by intros [? ?]|done|by intros [? ?]].
  - eapply rtc_l; [apply (step_acquire _ _ 0%nat 0%nat); vm_compute; reflexivity|].
    eapply rtc_l; [apply (step_acquire _ _ 0%nat 1%nat); vm_compute; reflexivity|]. apply rtc_refl.
Defined.
