(* ===== verification/Sched.v ===== *)
(** * proc.c: switching between processes on several processors

    The code that hands a processor from one process to another: [scheduler],
    [sched], [yield], [sleep], [wakeup], [fork], [exit], [wait] and [forkret], run by
    any number of processors at once, one statement (or one operation on the table,
    under its lock) at a time.  The statements of [fork] that fill the new entry
    outside the lock are steps of their own.  The locks and the interrupt flags are
    those of spinlock.c, the entries of the table those of proc.c; [kmem.lock] is
    taken inside [ptable.lock], as [wait] does when it frees a child.  [swtch] moves a processor between
    its scheduler and the kernel thread of a process: a thread is where it is in
    the code, with the one local variable of [sched] that outlives the switch. *)

From S2P Require Import Prelude KMonad Params Proc Spinlock.

Open Scope nat_scope.

(** Lock 0 is [ptable.lock] and lock 1 [kmem.lock]; the others are those that the rest
    of the kernel takes, one at a time, and gives to [sleep]. *)
Definition ptable_lock : nat := 0.
Definition kmem_lock : nat := 1.

(** Where the kernel thread of a process is.  [lk] is the lock given to [sleep],
    [None] for [ptable.lock]. *)
Inductive pc :=
| Run                                      (* no lock held *)
| InLock (l : nat)                         (* holds [l] *)
| Table (o : option nat)                   (* holds [ptable.lock], and the lock it had *)
| TableK                                   (* in [wait]: holds [ptable.lock] and [kmem.lock] *)
| SleepA (ch : chan) (l : nat)             (* in [sleep]: has acquired [ptable.lock] *)
| SleepB (ch : chan) (lk : option nat)     (* has released [lk] *)
| SleepC (ch : chan) (lk : option nat)     (* is SLEEPING, calls [sched] *)
| SleepD (ch : chan) (lk : option nat)     (* [sched] returns *)
| SleepE (l : nat)                         (* releases [ptable.lock] *)
| SleepF (l : nat)                         (* acquires [lk] again *)
| YieldC | YieldD                          (* in [yield]: calls [sched]; it returns *)
| ExitA | ExitB                            (* in [exit]: acquires [ptable.lock]; has it *)
| ExitC | ExitD                            (* calls [sched]; it returns *)
| Forkret.                                 (* a new process *)

#[export] Instance pc_eq_dec : EqDecision pc.
Proof. solve_decision. Defined.

(** [t_intena] is the variable of [sched]; [t_fork] is the slot that the thread is
    filling in [fork], with the statement it is at; [t_flag] records the interrupt flag
    the thread has when it holds no lock, and is no part of the program. *)
Record thread := mkThread { t_pc : pc; t_intena : bool; t_flag : bool; t_fork : option (nat * fstage) }.

(** What a processor runs: its scheduler, at the top of the loop, with interrupts
    enabled, or looking at an entry; an interrupt handler on the scheduler's stack,
    with a lock of its own, or with [ptable.lock] in [wakeup]; or a process
    ([c->proc]). *)
Inductive phase := CIdle | CTop | CScan (i : nat) | CHand (l : nat) | CIntr (o : option nat) | CIn (i : nat).

#[export] Instance phase_eq_dec : EqDecision phase.
Proof. solve_decision. Defined.

Record sys := mkSys { tab : ptab; threads : list thread; phases : list phase; mach : machine }.

Definition on_tab {A} : P A -> M sys A := lift tab (fun t s => mkSys t (threads s) (phases s) (mach s)).
Definition on_mach {A} : M machine A -> M sys A := lift mach (fun m s => mkSys (tab s) (threads s) (phases s) m).

Definition get_thread (i : nat) : M sys thread := fun s => from_opt (threads s !! i) s.
Definition upd_thread (i : nat) (f : thread -> thread) : M sys unit :=
  t <- get_thread i ;;
  modify (fun s => mkSys (tab s) (<[i := f t]> (threads s)) (phases s) (mach s)).
Definition goto (i : nat) (l : pc) : M sys unit := upd_thread i (fun t => mkThread l (t_intena t) (t_flag t) (t_fork t)).
Definition set_fork (i : nat) (x : option (nat * fstage)) : M sys unit :=
  upd_thread i (fun t => mkThread (t_pc t) (t_intena t) (t_flag t) x).
Definition set_phase (c : nat) (ph : phase) : M sys unit :=
  modify (fun s => mkSys (tab s) (threads s) (<[c := ph]> (phases s)) (mach s)).
Definition get_phase (c : nat) : M sys phase := fun s => from_opt (phases s !! c) s.

Definition acq (c l : nat) : M sys unit := on_mach (acquire c l).
Definition rel (c l : nat) : M sys unit := on_mach (release c l).

(** [sti], and setting [intena]. *)
Definition set_iflag (c : nat) (b : bool) : M sys unit :=
  x <- on_mach (get_cpu c) ;;
  on_mach (put_cpu c (mkCpu (ncli x) (intena x) b)).
Definition set_intena (c : nat) (b : bool) : M sys unit :=
  x <- on_mach (get_cpu c) ;;
  on_mach (put_cpu c (mkCpu (ncli x) b (iflag x))).

(** An action that does not fit where the processor is; like an [acquire] that
    spins, it is not a step. *)
Definition blocked {A} : M sys A := halt asleep_stop.

Section Code.
(** The local APIC identifiers of the processors, in the order of [cpus]. *)
Context (apicids : list Z).

Fixpoint find_apic (id : Z) (l : list Z) (i : nat) : option nat :=
  match l with
  | [] => None
  | a :: l' => if (a =? id)%Z then Some i else find_apic id l' (S i)
  end.

(** [mycpu] as the processor [c] runs it. *)
Definition mycpu (c : nat) : M sys nat :=
  x <- on_mach (get_cpu c) ;;
  if iflag x then panic "mycpu called with interrupts enabled"
  else
    apicid <- from_opt (apicids !! c) ;;
    match find_apic apicid apicids 0 with
    | Some i => ret i
    | None => panic "unknown apicid"
    end.

Definition myproc (c : nat) : M sys nat :=
  on_mach (pushcli c) ;;;
  k <- mycpu c ;;
  ph <- get_phase k ;;
  on_mach (popcli c) ;;;
  match ph with CIn i => ret i | _ => halt fault_stop end.

(** [sched], up to the switch to the scheduler of the processor, which goes on
    with the entry after that of the process it had chosen.  [back] is the place
    where [sched] will return. *)
Definition sched (c : nat) (back : pc) : M sys unit :=
  i <- myproc c ;;
  h <- on_mach (holding c ptable_lock) ;;
  if negb h then panic "sched ptable.lock"
  else
    k <- mycpu c ;;
    x <- on_mach (get_cpu k) ;;
    if negb (ncli x =? 1)%Z then panic "sched locks"
    else
      p <- on_tab (get_proc i) ;;
      if bool_decide (p_state p = RUNNING) then panic "sched running"
      else
        x <- on_mach (get_cpu c) ;;
        if iflag x then panic "sched interruptible"
        else
          k <- mycpu c ;;
          x <- on_mach (get_cpu k) ;;
          upd_thread i (fun t => mkThread back (intena x) (t_flag t) (t_fork t)) ;;;
          set_phase c (CScan (S i)).

(** The scheduler switches to the process of entry [i].  A thread that was in
    [sched] goes on there and restores [intena]; a new one starts in [forkret]. *)
Definition switch_to (c i : nat) : M sys unit :=
  set_phase c (CIn i) ;;;
  on_tab (sched_in i) ;;;
  t <- get_thread i ;;
  match t_pc t with
  | Forkret =>
      x <- on_mach (get_cpu c) ;;
      upd_thread i (fun t => mkThread Forkret (t_intena t) (intena x) (t_fork t))
  | _ =>
      k <- mycpu c ;;
      set_intena k (t_intena t)
  end.

(** [scheduler]: the top of the loop, and one turn of the loop over the table. *)
Definition scheduler_top (c : nat) : M sys unit :=
  set_iflag c true ;;;
  set_phase c CTop.

Definition scheduler_scan (c i : nat) : M sys unit :=
  n <- gets (fun s => length (procs (tab s))) ;;
  if i <? n then
    p <- on_tab (get_proc i) ;;
    if negb (bool_decide (p_state p = RUNNABLE)) then set_phase c (CScan (S i))
    else switch_to c i
  else
    rel c ptable_lock ;;;
    set_phase c CIdle.

(** What a thread or a handler does next, where the code leaves a choice. *)
Inductive action :=
| AStep                                      (* the next statement *)
| AFlag (b : bool)                           (* a trap or a return from one *)
| ALock (l : nat) | AUnlock
| ATable | AUntable                          (* acquire and release [ptable.lock] *)
| ASleep (ch : chan) | AYield | AExit
| AWakeup (ch : chan) | AKill (pid : Z)
| AAlloc                                     (* [allocproc] takes a slot *)
| AFork (v : Z)                              (* the next statement of [fork]; [v] is what [kalloc] or [copyuvm] returns *)
| AOwn (o : own_fields)                      (* a write to the process's own entry *)
| AWait.

(** The actions that acquire a lock: the lock, and the place after it.  [n] is the
    number of locks. *)
Definition lock_stmt (n : nat) (q : pc) (a : action) : option (nat * pc) :=
  match q, a with
  | Run, ALock l => if (0 <? l) && (l <? n) then Some (l, InLock l) else None
  | Run, ATable => Some (ptable_lock, Table None)
  | InLock l, ATable => if l =? kmem_lock then None else Some (ptable_lock, Table (Some l))
  | InLock l, ASleep ch => if l =? kmem_lock then None else Some (ptable_lock, SleepA ch l)
  | Table None, ALock l => if l =? kmem_lock then Some (l, TableK) else None
  | SleepF l, AStep => Some (l, InLock l)
  | ExitA, AStep => Some (ptable_lock, ExitB)
  | _, _ => None
  end.
Definition phase_lock (n : nat) (ph : phase) (a : action) : option (nat * phase) :=
  match ph, a with
  | CTop, AStep => Some (ptable_lock, CScan 0)
  | CTop, ALock l => if (kmem_lock <? l) && (l <? n) then Some (l, CHand l) else None
  | CTop, ATable => Some (ptable_lock, CIntr None)
  | CHand l, ATable => Some (ptable_lock, CIntr (Some l))
  | _, _ => None
  end.

(** The next statement of [fork] by process [i], which writes slot [j].  A kernel
    stack comes with a context that starts in [forkret]. *)
Definition fork_step (i j : nat) (st : fstage) (v : Z) : M sys unit :=
  p <- on_tab (get_proc i) ;;
  on_tab (upd_proc j (fork_stmt i p v st)) ;;;
  when (bool_decide (st = FStack) && negb (v =? 0)%Z) (goto j Forkret) ;;;
  set_fork i (pair j <$> fork_next st v).

(** [allocproc], up to the release of the lock. *)
Definition take_slot (i : nat) : M sys unit :=
  j <- on_tab alloc_slot ;;
  match j with Some j => set_fork i (Some (j, FStack)) | None => ret tt end.

(** [wait], when it finds a child that has exited. *)
Definition reap_child (i : nat) : M sys unit :=
  ps <- gets (fun s => procs (tab s)) ;;
  match (wait_scan i ps 0 false).1 with
  | Some j => on_tab (upd_proc j reap)
  | None => blocked
  end.

(** The steps of the thread of process [i] on processor [c] that acquire no lock.  The
    files are closed before [AExit]; the test for init, which comes before that, cannot
    change meanwhile.  [wait] frees the memory of the child, under [kmem.lock] too,
    before [AWait]. *)
Definition plain_step (c i : nat) (t : thread) (a : action) : M sys unit :=
  match t_pc t, a, t_fork t with
  | Run, AFlag b, _ => set_iflag c b ;;; upd_thread i (fun t => mkThread Run (t_intena t) b (t_fork t))
  | Run, AOwn o, _ => on_tab (upd_proc i (write_own o))
  | Run, AFork v, Some (j, st) => if bool_decide (st = FRunnable) then blocked else fork_step i j st v
  | Run, AExit, None =>
      init <- gets (fun s => initproc (tab s)) ;;
      if decide (i = init) then panic "init exiting" else goto i ExitA
  | InLock l, AUnlock, _ => rel c l ;;; goto i Run
  | SleepA ch l, AStep, _ => rel c l ;;; goto i (SleepB ch (Some l))
  | SleepB ch lk, AStep, _ => on_tab (sleep_on i ch) ;;; goto i (SleepC ch lk)
  | SleepC ch lk, AStep, _ => sched c (SleepD ch lk)
  | SleepD ch lk, AStep, _ =>
      on_tab (sleep_tidy i) ;;;
      goto i (match lk with Some l => SleepE l | None => Table None end)
  | SleepE l, AStep, _ => rel c ptable_lock ;;; goto i (SleepF l)
  | YieldC, AStep, _ => sched c YieldD
  | YieldD, AStep, _ => rel c ptable_lock ;;; goto i Run
  | ExitB, AStep, _ => on_tab (exit_table i) ;;; goto i ExitC
  | ExitC, AStep, _ => sched c ExitD
  | ExitD, AStep, _ => panic "zombie exit"
  | Forkret, AStep, _ => rel c ptable_lock ;;; goto i Run
  | TableK, AUnlock, _ => rel c kmem_lock ;;; goto i (Table None)
  | Table o, AUntable, _ => rel c ptable_lock ;;; goto i (match o with Some l => InLock l | None => Run end)
  | Table _, AWakeup ch, _ => on_tab (wakeup ch)
  | Table _, AKill pid, _ => _ <- on_tab (kill pid) ;; ret tt
  | Table None, ASleep ch, _ => goto i (SleepB ch None)
  | Table None, AYield, _ => on_tab (yield i) ;;; goto i YieldC
  | Table None, AAlloc, None => take_slot i
  | Table None, AFork v, Some (j, FRunnable) => fork_step i j FRunnable v
  | Table None, AWait, None => reap_child i
  | _, _, _ => blocked
  end.

(** One step of the thread of process [i] on processor [c]. *)
Definition thread_step (c i : nat) (t : thread) (a : action) : M sys unit :=
  n <- gets (fun s => length (locks (mach s))) ;;
  match lock_stmt n (t_pc t) a with
  | Some (l, q) => acq c l ;;; goto i q
  | None => plain_step c i t a
  end.

(** One step of processor [c] on its scheduler's stack. *)
Definition sched_step (c : nat) (ph : phase) (a : action) : M sys unit :=
  n <- gets (fun s => length (locks (mach s))) ;;
  match phase_lock n ph a with
  | Some (l, ph') => acq c l ;;; set_phase c ph'
  | None =>
      match ph, a with
      | CIdle, AStep => scheduler_top c
      | CScan i, AStep => scheduler_scan c i
      | CHand l, AUnlock => rel c l ;;; set_phase c CTop
      | CIntr _, AWakeup ch => on_tab (wakeup ch)
      | CIntr o, AUntable => rel c ptable_lock ;;; set_phase c (match o with Some l => CHand l | None => CTop end)
      | _, _ => blocked
      end
  end.

(** One step of processor [c]. *)
Definition exec (c : nat) (a : action) : M sys unit :=
  ph <- get_phase c ;;
  match ph with
  | CIn i => t <- get_thread i ;; thread_step c i t a
  | _ => sched_step c ph a
  end.

(** Some processor takes a step; fewer than 2^31 - 1 pids have been handed out. *)
Definition sstep (s s' : sys) : Prop :=
  (nextpid (tab s) < 2147483647)%Z /\ exists c a, (c < length (phases s)) /\ exec c a s = Ok tt s'.
End Code.

(** What the processes do to the table: the state of Proc.v. *)
Definition ptable (s : sys) : pstate := mkPstate (tab s) (t_fork <$> threads s).
