(* ===== verification/SchedSpec.v ===== *)
(** * proc.c, specified: the switch between processes is safe

    For any number of processors that run the code of Sched.v in any interleaving:
    who holds which lock, which process runs where, and what every entry of the
    process table says, are tied together by one invariant.  From it follow the
    absence of the panics of [acquire], [release], [mycpu] and [sched], that no
    process runs on two processors, that a wakeup reaches every sleeper, that the
    run does to the table what an interleaving of the steps of Proc.v does, and that the
    processors never wait for locks in a circle. *)

From S2P Require Import Prelude KMonad Params Proc Spinlock Sched.

Open Scope nat_scope.

(** [waits m Q s]: [m] returns with [Q], or spins; it does not panic or fault. *)
Definition waits {S A} (m : M S A) (Q : A -> S -> Prop) (s : S) : Prop :=
  match m s with Ok a s' => Q a s' | Halt e _ => e = asleep_stop end.

Lemma waits_bind {S A B} (m : M S A) (k : A -> M S B) Q s : waits m (fun a => waits (k a) Q) s -> waits (bind m k) Q s.
Proof. unfold waits, bind. by destruct (m s). Qed.

Lemma waits_Ok {S A} (m : M S A) Q s a s' : m s = Ok a s' -> Q a s' -> waits m Q s.
Proof. unfold waits. by intros ->. Qed.

Lemma waits_lift {S T A} (get : S -> T) (put : T -> S -> S) (m : M T A) (Q : A -> S -> Prop) s :
  waits m (fun a t => Q a (put t s)) (get s) -> waits (lift get put m) Q s.
Proof. unfold waits, lift. by destruct (m (get s)). Qed.

Lemma waits_mono {S A} (m : M S A) (Q R : A -> S -> Prop) s : waits m Q s -> (forall a s', Q a s' -> R a s') -> waits m R s.
Proof. unfold waits. destruct (m s); auto. Qed.

(** ** Who holds the locks *)

(** Processor [c] holds the locks [H c], each once; [F c] is its interrupt flag
    when it holds none. *)
Record mlocks (m : machine) (H : nat -> list nat) (F : nat -> bool) : Prop := {
  ml_ok : locks_ok F m;
  ml_owner : forall l k c, locks m !! l = Some k -> owned c k = true <-> l ∈ H c;
  ml_count : forall c, held (locks m) c = length (H c);
  ml_range : forall c l, l ∈ H c -> l < length (locks m) }.

Definition at_cpu {A} (f : nat -> A) (c : nat) (v : A) : nat -> A := fun c' => if decide (c' = c) then v else f c'.

Lemma at_cpu_eq {A} (f : nat -> A) c v : at_cpu f c v c = v.
Proof. unfold at_cpu. by rewrite decide_True. Qed.
Lemma at_cpu_ne {A} (f : nat -> A) c v c' : c' ≠ c -> at_cpu f c v c' = f c'.
Proof. intros. unfold at_cpu. by rewrite decide_False. Qed.

Lemma mlocks_ext m H F H' F' : (forall c, H' c = H c) -> (forall c, F' c = F c) -> mlocks m H F -> mlocks m H' F'.
Proof.
  intros HH HF [[Hc Ho] H2 H3 H4]. split.
  - split; [|exact Ho]. intros c x Hx. unfold cpu_ok. rewrite HF. by apply Hc.
  - intros. rewrite HH. by apply H2.
  - intros. rewrite HH. by apply H3.
  - intros c l. rewrite HH. by apply H4.
Qed.

(** Two processors never hold the same lock. *)
Lemma mlocks_excl m H F l c1 c2 : mlocks m H F -> l ∈ H c1 -> l ∈ H c2 -> c1 = c2.
Proof.
  intros [_ Ho _ Hr] H1 H2. destruct (lookup_lt_is_Some_2 (locks m) l) as [k Hk]; [by eapply Hr|].
  apply (Ho l k c1 Hk) in H1. apply (Ho l k c2 Hk) in H2. unfold owned in *.
  apply andb_prop in H1 as [_ H1%bool_decide_eq_true], H2 as [_ H2%bool_decide_eq_true]. congruence.
Qed.

Definition same_size (m m' : machine) : Prop := length (cpus m') = length (cpus m) /\ length (locks m') = length (locks m).

Lemma mlocks_acquire m H F c l hl : mlocks m H F -> c < length (cpus m) -> l < length (locks m) -> l ∉ H c -> hl ≡ₚ l :: H c ->
  waits (acquire c l) (fun _ m' => mlocks m' (at_cpu H c hl) F /\ same_size m m') m.
Proof.
  intros Hm Hc Hl Hn Hp. pose proof Hm as [Hok Ho Hct Hr].
  destruct (lookup_lt_is_Some_2 _ _ Hc) as [x Hx]. destruct (lookup_lt_is_Some_2 _ _ Hl) as [k Hk].
  assert (Hk0 : owned c k = false) by (apply not_true_is_false; by rewrite (Ho l k c Hk)).
  destruct (lo_cpus _ _ Hok c x Hx) as [Hcli _].
  pose proof (acquire_runs c l m x k Hx Hk ltac:(lia) Hk0) as Hrun. cbn zeta in Hrun.
  destruct (lk_locked k) eqn:El; [by unfold waits; rewrite Hrun|].
  eapply waits_Ok; [exact Hrun|]. split; [|split; cbn; by rewrite length_insert].
  assert (Hno : forall c', owned c' k = false) by (intros; unfold owned; by rewrite El).
  assert (Hnew : forall c', owned c' (mkSpinlock true (Some c)) = true <-> c' = c).
  { intros c'. unfold owned. cbn. rewrite bool_decide_eq_true. split; congruence. }
  split; [by eapply acquire_ok| | |]; cbn [locks].
  - intros l' k' c' [[-> ->]|[Hne Hk']]%insert_cases; [| |done].
    + rewrite Hnew. destruct (decide (c' = c)) as [->|Hc'].
      * rewrite at_cpu_eq, Hp. split; [left|done].
      * rewrite at_cpu_ne, <- (Ho l k c' Hk), Hno by done. done.
    + rewrite (Ho _ _ c' Hk'). destruct (decide (c' = c)) as [->|Hc']; [|by rewrite at_cpu_ne].
      rewrite at_cpu_eq, Hp, elem_of_cons. naive_solver.
  - intros c'. pose proof (held_insert _ _ _ (mkSpinlock true (Some c)) c' Hk) as Hh. rewrite Hno, Hct in Hh.
    destruct (decide (c' = c)) as [->|Hc'].
    + rewrite at_cpu_eq, Hp. rewrite (proj2 (Hnew c)) in Hh by done. cbn. lia.
    + rewrite at_cpu_ne by done. destruct (owned c' (mkSpinlock true (Some c))) eqn:E; [by apply Hnew in E|lia].
  - intros c' l' Hin. rewrite length_insert. destruct (decide (c' = c)) as [->|Hc'].
    + rewrite at_cpu_eq, Hp, elem_of_cons in Hin. destruct Hin as [->|Hin]; eauto.
    + rewrite at_cpu_ne in Hin by done. eauto.
Qed.

Lemma mlocks_release m H F c l hl : mlocks m H F -> c < length (cpus m) -> NoDup (H c) -> H c ≡ₚ l :: hl ->
  exists m', release c l m = Ok tt m' /\ mlocks m' (at_cpu H c hl) F /\ same_size m m'.
Proof.
  intros Hm Hc Hnd Hp. pose proof Hm as [Hok Ho Hct Hr].
  assert (Hin : l ∈ H c) by (rewrite Hp; left). pose proof (Hr _ _ Hin) as Hl.
  destruct (lookup_lt_is_Some_2 _ _ Hc) as [x Hx]. destruct (lookup_lt_is_Some_2 _ _ Hl) as [k Hk].
  assert (Hk0 : owned c k = true) by (by apply (Ho l k c Hk)). destruct (lo_cpus _ _ Hok c x Hx) as [Hcli Hif].
  assert (Hlen : length (H c) = S (length hl)) by (by rewrite Hp).
  rewrite Hct, Hlen in Hif, Hcli. cbn in Hif. destruct Hif as [Hif _].
  pose proof (release_runs c l m x k Hx Hk ltac:(lia) Hif Hk0) as Hrun.
  eexists. split; [exact Hrun|]. split; [|split; cbn; by rewrite length_insert].
  rewrite Hp in Hnd. apply NoDup_cons in Hnd as [Hnl _].
  assert (Hoth : forall c', c' ≠ c -> owned c' k = false).
  { intros c' Hne. apply not_true_is_false. rewrite (Ho l k c' Hk). intros Hin'. apply Hne. by eapply mlocks_excl. }
  split; [by eapply release_ok| | |]; cbn [locks].
  - intros l' k' c' [[-> ->]|[Hne Hk']]%insert_cases; [| |done].
    + split; [done|]. destruct (decide (c' = c)) as [->|Hc']; [by rewrite at_cpu_eq|].
      rewrite at_cpu_ne, <- (Ho l k c' Hk), Hoth by done. done.
    + rewrite (Ho _ _ c' Hk'). destruct (decide (c' = c)) as [->|Hc']; [|by rewrite at_cpu_ne].
      rewrite at_cpu_eq, Hp, elem_of_cons. naive_solver.
  - intros c'. pose proof (held_insert _ _ _ (mkSpinlock false None) c' Hk) as Hh. rewrite Hct in Hh. cbn in Hh.
    destruct (decide (c' = c)) as [->|Hc'].
    + rewrite at_cpu_eq. rewrite Hk0, Hp in Hh. cbn in Hh. lia.
    + rewrite at_cpu_ne by done. rewrite Hoth in Hh by done. lia.
  - intros c' l' Hi. rewrite length_insert. destruct (decide (c' = c)) as [->|Hc'].
    + rewrite at_cpu_eq in Hi. apply (Hr c). rewrite Hp. by right.
    + rewrite at_cpu_ne in Hi by done. eauto.
Qed.

(** Changing the interrupt flag of a processor without locks, or the saved flag
    of one that holds some. *)
Lemma mlocks_cpu m H F c x x' b : mlocks m H F -> cpus m !! c = Some x -> ncli x' = ncli x ->
  (if decide (H c = []) then iflag x' = b else iflag x' = false /\ intena x' = b) ->
  mlocks (mkMachine (<[c := x']> (cpus m)) (locks m)) H (at_cpu F c b).
Proof.
  intros [[Hcpu Hown] Ho Hct Hr] Hx Hn Hb. split; [|done..]. split; [|done]. cbn.
  intros c' y [[-> ->]|[Hne Hy]]%insert_cases; [| |by eapply lookup_lt_Some].
  - destruct (Hcpu c x Hx) as [Hcli _]. split; [congruence|]. rewrite at_cpu_eq, Hct.
    destruct (H c); cbn in Hb |- *; exact Hb.
  - unfold cpu_ok. rewrite at_cpu_ne by done. by apply Hcpu.
Qed.

(** ** The invariant *)

(** The locks held at a place of the code. *)
Definition pc_held (l : pc) : list nat :=
  match l with
  | Run | SleepF _ | ExitA => []
  | InLock l => [l]
  | Table (Some l) | SleepA _ l => [ptable_lock; l]
  | TableK => [kmem_lock; ptable_lock]
  | _ => [ptable_lock]
  end.

Definition held_at (ts : list thread) (ph : phase) : list nat :=
  match ph with
  | CIdle | CTop => []
  | CScan _ | CIntr None => [ptable_lock]
  | CHand l => [l]
  | CIntr (Some l) => [ptable_lock; l]
  | CIn i => match ts !! i with Some t => pc_held (t_pc t) | None => [] end
  end.

Definition held_by (s : sys) (c : nat) : list nat :=
  match phases s !! c with Some ph => held_at (threads s) ph | None => [] end.

(** The other lock that a thread holds or will take again. *)
Definition pc_lock (l : pc) : option nat :=
  match l with
  | InLock l | SleepA _ l | SleepE l | SleepF l => Some l
  | Table o | SleepB _ o | SleepC _ o | SleepD _ o => o
  | _ => None
  end.
Definition pc_ok (n : nat) (l : pc) : Prop :=
  match l, pc_lock l with
  | InLock _, Some k => ptable_lock < k < n
  | _, Some k => kmem_lock < k < n
  | _, None => True
  end.
Definition phase_ok (n : nat) (ph : phase) : Prop :=
  match ph with CHand l | CIntr (Some l) => kmem_lock < l < n | _ => True end.

(** In [exit], before the state is changed: the process is not in [fork]. *)
Definition exiting (l : pc) : bool := match l with ExitA | ExitB => true | _ => false end.

(** The slot has got its kernel stack, and its thread will start in [forkret]. *)
Definition started (st : fstage) : bool := match st with FStack | FNoKstack | FFree => false | _ => true end.

(** The state of a process that is on a processor, *)
Definition pc_state (l : pc) : procstate :=
  match l with SleepC _ _ => SLEEPING | YieldC => RUNNABLE | ExitC => ZOMBIE | _ => RUNNING end.
Definition thread_on (p : proc) (t : thread) : Prop :=
  p_state p = pc_state (t_pc t) /\ (forall ch lk, t_pc t = SleepC ch lk -> p_chan p = Some ch) /\ t_pc t ≠ ExitD
  /\ (exiting (t_pc t) = true -> t_fork t = None).

(** and of one that is not: its thread is where [sched] will return, or has not
    started. *)
Definition thread_off (p : proc) (t : thread) : Prop :=
  match p_state p with
  | UNUSED | EMBRYO => t_pc t = Forkret \/ t_pc t = ExitD
  | SLEEPING => exists ch lk, t_pc t = SleepD ch lk /\ p_chan p = Some ch
  | RUNNABLE => t_pc t = YieldD \/ t_pc t = Forkret \/ exists ch lk, t_pc t = SleepD ch lk
  | RUNNING => False
  | ZOMBIE => t_pc t = ExitD
  end /\ (t_pc t ≠ Forkret -> p_state p ≠ UNUSED -> p_state p ≠ EMBRYO -> t_intena t = t_flag t).

Definition off_cpu (s : sys) (i : nat) : Prop := forall c, phases s !! c ≠ Some (CIn i).

Record agree (s : sys) : Prop := {
  ag_len : length (threads s) = length (procs (tab s));
  ag_one : forall c1 c2 i, phases s !! c1 = Some (CIn i) -> phases s !! c2 = Some (CIn i) -> c1 = c2;
  ag_valid : forall c i, phases s !! c = Some (CIn i) -> i < length (threads s);
  ag_pc : forall i t, threads s !! i = Some t -> pc_ok (length (locks (mach s))) (t_pc t);
  ag_on : forall c i p t, phases s !! c = Some (CIn i) -> procs (tab s) !! i = Some p -> threads s !! i = Some t -> thread_on p t;
  ag_off : forall i p t, off_cpu s i -> procs (tab s) !! i = Some p -> threads s !! i = Some t -> thread_off p t;
  ag_fork : forall i t j st, threads s !! i = Some t -> t_fork t = Some (j, st) -> started st = true ->
    exists tj, threads s !! j = Some tj /\ t_pc tj = Forkret }.

Record inv (apicids : list Z) (F : nat -> bool) (s : sys) : Prop := {
  iv_agree : agree s;
  iv_cpus : length (phases s) = length (cpus (mach s));
  iv_ids : length apicids = length (cpus (mach s));
  iv_lock0 : kmem_lock < length (locks (mach s));
  iv_phase : forall c ph, phases s !! c = Some ph -> phase_ok (length (locks (mach s))) ph;
  iv_exit : forall c i t, phases s !! c = Some (CIn i) -> threads s !! i = Some t -> exiting (t_pc t) = true -> i ≠ initproc (tab s);
  iv_locks : mlocks (mach s) (held_by s) F;
  iv_flag : forall c i t, phases s !! c = Some (CIn i) -> threads s !! i = Some t -> F c = t_flag t }.

(** The order in which locks nest: the others, [ptable.lock], [kmem.lock]. *)
Definition rank (l : nat) : nat := if l =? ptable_lock then 1 else if l =? kmem_lock then 2 else 0.

Lemma rank_other l : kmem_lock < l -> rank l = 0.
Proof. unfold rank, ptable_lock, kmem_lock. intros Hl. by rewrite !(proj2 (Nat.eqb_neq _ _)) by lia. Qed.

Lemma pc_held_nodup n l : pc_ok n l -> NoDup (pc_held l).
Proof.
  unfold pc_ok, kmem_lock. destruct l as [|l|[l|]| |ch l|ch lk|ch lk|ch lk|l|l| | | | | | |]; cbn; intros Hl; try apply NoDup_singleton; try by constructor.
  all: apply NoDup_cons; split; [|apply NoDup_singleton]; rewrite list_elem_of_singleton; unfold kmem_lock, ptable_lock; lia.
Qed.

Lemma held_phase_nodup n ts ph : phase_ok n ph -> (forall i, ph ≠ CIn i) -> NoDup (held_at ts ph).
Proof.
  unfold phase_ok, kmem_lock. intros Hl Hn. destruct ph as [| |i|l|[l|]|i]; cbn; try apply NoDup_singleton; try by constructor.
  - apply NoDup_cons; split; [|apply NoDup_singleton]; rewrite list_elem_of_singleton; unfold ptable_lock; lia.
  - by destruct (Hn i).
Qed.

(** What acquiring a lock does to a place of the code: the lock comes after those
    held in the order. *)
Record nests (held held' : list nat) (l n : nat) : Prop := {
  ne_rank : forall k, k ∈ held -> rank k < rank l;
  ne_in : l < n;
  ne_held : held' ≡ₚ l :: held }.

Lemma nests_one n l : l < n -> nests [] [l] l n.
Proof. intros Hl. split; [|done..]. by intros k ?%elem_of_nil. Qed.

Lemma nests_table n l : kmem_lock < n -> kmem_lock < l -> nests [l] [ptable_lock; l] ptable_lock n.
Proof.
  intros Hn Hl. split; [|unfold ptable_lock; lia|done]. intros k ->%list_elem_of_singleton. rewrite (rank_other l Hl). cbn. lia.
Qed.

Lemma lock_stmt_nests n q a l q' : kmem_lock < n -> pc_ok n q -> lock_stmt n q a = Some (l, q') ->
  nests (pc_held q) (pc_held q') l n /\ pc_state q = RUNNING /\ pc_state q' = RUNNING /\ q' ≠ ExitD /\ pc_ok n q' /\ (exiting q' = true -> exiting q = true).
Proof.
  intros Hn Hok Hs. assert (H0 : ptable_lock < n) by (unfold ptable_lock; lia).
  destruct q as [|k|[k|]| |ch k|ch lk|ch lk|ch lk|k|k| | | | | | |]; destruct a as [|b|m| | | |ch'| | |ch'|pid| |v|o| ]; try discriminate Hs; cbn [lock_stmt] in Hs;
    repeat match type of Hs with context [if ?b then _ else _] => destruct b eqn:?; try discriminate Hs end;
    injection Hs as <- <-; unfold pc_ok in *; cbn in Hok |- *;
    repeat match goal with H : (_ && _)%bool = true |- _ => apply andb_prop in H as [?%Nat.ltb_lt ?%Nat.ltb_lt] | H : (_ =? _) = false |- _ => apply Nat.eqb_neq in H | H : (_ =? _) = true |- _ => apply Nat.eqb_eq in H; subst end.
  all: split_and!; try done; try (by apply nests_one); try (apply nests_table; [done|]); unfold kmem_lock, ptable_lock in *; try lia.
  - split; [|done|done]. intros k ->%list_elem_of_singleton. cbn. lia.
  - apply nests_one. lia.
Qed.

Lemma phase_lock_nests n ts ph a l ph' : kmem_lock < n -> phase_ok n ph -> phase_lock n ph a = Some (l, ph') ->
  nests (held_at ts ph) (held_at ts ph') l n /\ phase_ok n ph' /\ (forall i, ph ≠ CIn i) /\ (forall i, ph' ≠ CIn i).
Proof.
  intros Hn Hok Hs. assert (H0 : ptable_lock < n) by (unfold ptable_lock; lia).
  destruct ph as [| |i|k|[k|]|i]; destruct a as [|b|m| | | |ch'| | |ch'|pid| |v|o| ]; try discriminate Hs; cbn [phase_lock] in Hs;
    repeat match type of Hs with context [if ?b then _ else _] => destruct b eqn:E; [|discriminate Hs] end;
    injection Hs as <- <-; cbn in Hok |- *; try (apply andb_prop in E as [?%Nat.ltb_lt ?%Nat.ltb_lt]).
  all: split_and!; try done; try (by apply nests_one); try (by apply nests_table; [|lia]); lia.
Qed.

Lemma thread_exists s i p : agree s -> procs (tab s) !! i = Some p -> exists t, threads s !! i = Some t.
Proof. intros Ha Hp. apply lookup_lt_is_Some_2. rewrite (ag_len _ Ha). by eapply lookup_lt_Some. Qed.

Lemma proc_exists s i t : agree s -> threads s !! i = Some t -> exists p, procs (tab s) !! i = Some p.
Proof. intros Ha Hp. apply lookup_lt_is_Some_2. rewrite <- (ag_len _ Ha). by eapply lookup_lt_Some. Qed.

(** Processor [c] and entry [i] change; the process of the entry is on no other
    processor. *)
Definition mine (s : sys) (c i : nat) : Prop :=
  phases s !! c = Some (CIn i) \/ ((forall j, phases s !! c ≠ Some (CIn j)) /\ c < length (phases s) /\ off_cpu s i).

(** Nobody is filling the slot [i] in [fork]. *)
Definition unfilled (s : sys) (i : nat) : Prop := forall k t st, threads s !! k = Some t -> t_fork t ≠ Some (i, st).

(** A slot that thread [t'] is filling has a thread that will start in [forkret]. *)
Definition fork_ready (s : sys) (t' : thread) : Prop := forall j st, t_fork t' = Some (j, st) -> started st = true ->
  exists tj, threads s !! j = Some tj /\ t_pc tj = Forkret.

Lemma agree_entry s c i p' t' ph' tab' m' : agree s -> mine s c i -> unfilled s i -> fork_ready s t' -> (forall st, t_fork t' ≠ Some (i, st)) ->
  procs tab' = <[i := p']> (procs (tab s)) -> (forall j, ph' = CIn j -> j = i) -> i < length (threads s) ->
  (ph' = CIn i -> thread_on p' t') -> (ph' ≠ CIn i -> thread_off p' t') ->
  length (locks m') = length (locks (mach s)) -> pc_ok (length (locks m')) (t_pc t') ->
  agree (mkSys tab' (<[i := t']> (threads s)) (<[c := ph']> (phases s)) m').
Proof.
  intros Ha Hmine Hunf Hfr Hself Hp Hph Hi Hon Hoff Hm Hpc.
  assert (Hc : c < length (phases s)) by (destruct Hmine as [H|(_ & H & _)]; [by eapply lookup_lt_Some|done]).
  assert (Hi' : i < length (procs (tab s))) by (rewrite <- (ag_len _ Ha); done).
  assert (Hother : forall c' j, c' ≠ c -> phases s !! c' = Some (CIn j) -> j ≠ i).
  { intros c' j Hne Hj ->. destruct Hmine as [Hx|(_ & _ & Hx)]; [|by apply (Hx c')]. apply Hne. by eapply (ag_one _ Ha). }
  split; cbn [threads phases tab mach]; rewrite ?Hp.
  - by rewrite !length_insert, (ag_len _ Ha).
  - intros c1 c2 j [[-> E1]|[N1 H1]]%insert_cases [[-> E2]|[N2 H2]]%insert_cases; try done.
    + symmetry in E1. apply Hph in E1 as ->. by destruct (Hother _ _ N2 H2).
    + symmetry in E2. apply Hph in E2 as ->. by destruct (Hother _ _ N1 H1).
    + by eapply (ag_one _ Ha).
  - intros c' j. rewrite length_insert. intros [[-> E]|[N H]]%insert_cases; [| |done].
    + symmetry in E. by apply Hph in E as ->.
    + by eapply (ag_valid _ Ha).
  - intros j t [[-> ->]|[N H]]%insert_cases; [done| |done]. rewrite Hm. by eapply (ag_pc _ Ha).
  - intros c' j q t [[-> E]|[N H]]%insert_cases; [| |done].
    + symmetry in E. pose proof (Hph _ E) as ->. rewrite !list_lookup_insert_eq by done. intros [= <-] [= <-]. by apply Hon.
    + pose proof (Hother _ _ N H) as Nj. rewrite !list_lookup_insert_ne by done. by eapply (ag_on _ Ha).
  - intros j q t Hj. destruct (decide (j = i)) as [->|Nj].
    + rewrite !list_lookup_insert_eq by done. intros [= <-] [= <-]. apply Hoff. intros ->. apply (Hj c). cbn.
      by rewrite list_lookup_insert_eq.
    + rewrite !list_lookup_insert_ne by done. apply (ag_off _ Ha). intros c' E. destruct (decide (c' = c)) as [->|Nc].
      * destruct Hmine as [Hx|(Hx & _)]; [congruence|by apply (Hx j)].
      * apply (Hj c'). cbn. by rewrite list_lookup_insert_ne.
  - intros k t j st Hk Hf Hst. assert (j ≠ i /\ exists tj, threads s !! j = Some tj /\ t_pc tj = Forkret) as (Nj & tj & Hj & Ej).
    { apply insert_cases in Hk as [[-> ->]|[N H]]; [| |done].
      - split; [|by eapply Hfr]. intros ->. by eapply Hself.
      - split; [|by eapply (ag_fork _ Ha)]. intros ->. by eapply Hunf. }
    exists tj. by rewrite list_lookup_insert_ne.
Qed.

Lemma held_by_entry s c i t' ph' tab' m' c' : agree s -> mine s c i ->
  held_by (mkSys tab' (<[i := t']> (threads s)) (<[c := ph']> (phases s)) m') c'
    = at_cpu (held_by s) c (held_at (<[i := t']> (threads s)) ph') c'.
Proof.
  intros Ha Hmine. unfold held_by, at_cpu. cbn [phases threads]. case_decide as Hc.
  - subst. rewrite list_lookup_insert_eq; [done|]. destruct Hmine as [H|(_ & H & _)]; [by eapply lookup_lt_Some|done].
  - rewrite list_lookup_insert_ne by done. destruct (phases s !! c') as [[| |j|j|[j|]|j]|] eqn:E; try done. cbn.
    rewrite list_lookup_insert_ne; [done|]. intros <-. destruct Hmine as [Hx|(_ & _ & Hx)]; [|by apply (Hx c')].
    apply Hc. by eapply (ag_one _ Ha).
Qed.

Lemma running_on p l a b f : pc_state l = RUNNING -> l ≠ ExitD -> p_state p = RUNNING -> (exiting l = true -> f = None) -> thread_on p (mkThread l a b f).
Proof. intros Hl Hx Hp Hf. split_and!; cbn; [congruence| |done|done]. intros ch lk ->. done. Qed.

Section Proofs.
Context (ids : list Z).
Hypothesis Hids : NoDup ids.

Lemma inv_entry F F' s c i p' t' ph' tab' m' : inv ids F s -> mine s c i -> unfilled s i -> fork_ready s t' -> (forall st, t_fork t' ≠ Some (i, st)) ->
  procs tab' = <[i := p']> (procs (tab s)) -> (forall j, ph' = CIn j -> j = i) -> i < length (threads s) ->
  (ph' = CIn i -> thread_on p' t' /\ F' c = t_flag t') -> (ph' ≠ CIn i -> thread_off p' t') -> phase_ok (length (locks (mach s))) ph' ->
  initproc tab' = initproc (tab s) -> (ph' = CIn i -> exiting (t_pc t') = true -> i ≠ initproc (tab s)) ->
  same_size (mach s) m' -> pc_ok (length (locks m')) (t_pc t') -> (forall c', c' ≠ c -> F' c' = F c') ->
  mlocks m' (at_cpu (held_by s) c (held_at (<[i := t']> (threads s)) ph')) F' ->
  inv ids F' (mkSys tab' (<[i := t']> (threads s)) (<[c := ph']> (phases s)) m').
Proof.
  intros [Ha Hc Hid Hl0 Hpo Hex Hml Hfl] Hmine Hunf Hfr Hself Hp Hph Hi Hon Hoff Hpo' Hin Hex' [Hs1 Hs2] Hpc HF Hml'.
  assert (Hcl : c < length (phases s)) by (destruct Hmine as [H|(_ & H & _)]; [by eapply lookup_lt_Some|done]). split; cbn [tab phases mach threads].
  - eapply agree_entry; eauto. intros E. by apply Hon.
  - by rewrite length_insert, Hs1.
  - by rewrite Hs1.
  - by rewrite Hs2.
  - rewrite Hs2. intros c' ph [[-> ->]|[N H]]%insert_cases; [done|by eapply Hpo|done].
  - rewrite Hin. intros c' j t [[-> E]|[N H]]%insert_cases Ht; [| |done].
    + symmetry in E. pose proof (Hph _ E) as ->. rewrite list_lookup_insert_eq in Ht by done. injection Ht as <-. by apply Hex'.
    + rewrite list_lookup_insert_ne in Ht by (intros <-; destruct Hmine as [Hx|(_ & _ & Hx)]; [apply N; by eapply (ag_one _ Ha)|by apply (Hx c')]). by eapply Hex.
  - eapply mlocks_ext; [|done|exact Hml']. intros c'. by apply held_by_entry.
  - intros c' j t [[-> E]|[N H]]%insert_cases Ht; [| |done].
    + symmetry in E. pose proof (Hph _ E) as ->. rewrite list_lookup_insert_eq in Ht by done. injection Ht as <-. by apply Hon.
    + rewrite HF by done. assert (j ≠ i) as Nj.
      { intros ->. destruct Hmine as [Hx|(_ & _ & Hx)]; [|by apply (Hx c')]. apply N. by eapply (ag_one _ Ha). }
      rewrite list_lookup_insert_ne in Ht by done. by eapply Hfl.
Qed.

Lemma find_apic_nth l c a i : NoDup l -> l !! c = Some a -> find_apic a l i = Some (i + c).
Proof.
  revert c i. induction l as [|b l IH]; intros [|c] i Hnd Hl; try done; cbn.
  - injection Hl as ->. rewrite Z.eqb_refl. f_equal. lia.
  - apply NoDup_cons in Hnd as [Hb Hnd]. destruct (Z.eqb_spec b a) as [->|_].
    + destruct Hb. by eapply list_elem_of_lookup_2.
    + rewrite (IH c (S i)) by done. f_equal. lia.
Qed.

Lemma mycpu_runs s c x : cpus (mach s) !! c = Some x -> iflag x = false -> c < length ids -> mycpu ids c s = Ok c s.
Proof.
  intros Hx Hi Hc. destruct (lookup_lt_is_Some_2 _ _ Hc) as [a Ea]. destruct s as [tb ts phs m]. cbn in Hx.
  unfold mycpu, bind, on_mach, lift, get_cpu. cbn. rewrite Hx. cbn. rewrite Hi, Ea. cbn. by rewrite (find_apic_nth ids c a 0 Hids Ea).
Qed.

(** A processor that holds locks. *)
Lemma held_cpu F s c : inv ids F s -> c < length (phases s) -> held_by s c ≠ [] ->
  exists x, cpus (mach s) !! c = Some x /\ iflag x = false /\ intena x = F c /\ ncli x = Z.of_nat (length (held_by s c)).
Proof.
  intros Hinv Hc Hne. rewrite (iv_cpus _ _ _ Hinv) in Hc. destruct (lookup_lt_is_Some_2 _ _ Hc) as [x Hx]. exists x.
  destruct (iv_locks _ _ _ Hinv) as [Hok _ Hct _]. destruct (lo_cpus _ _ Hok c x Hx) as [Hn Hi]. rewrite Hct in Hn, Hi.
  rewrite decide_False in Hi by (by destruct (held_by s c)). tauto.
Qed.

(** [pushcli] and [popcli] around a look at the processor's process. *)
Lemma myproc_runs s c i x : cpus (mach s) !! c = Some x -> iflag x = false -> (0 < ncli x)%Z -> c < length ids ->
  phases s !! c = Some (CIn i) -> myproc ids c s = Ok i s.
Proof.
  intros Hx Hi Hn Hc Hph. destruct s as [tb ts phs [cs ls]]. cbn in Hx, Hph. pose proof (lookup_lt_Some _ _ _ Hx) as Hlt.
  unfold myproc. set (m1 := mkMachine (<[c := mkCpu (ncli x + 1) (intena x) false]> cs) ls).
  rewrite (bind_Ok _ _ _ tt (mkSys tb ts phs m1)).
  2:{ unfold on_mach, lift, pushcli, bind, get_cpu. cbn. rewrite Hx. cbn. by rewrite (proj2 (Z.eqb_neq (ncli x) 0)) by lia. }
  rewrite (bind_Ok _ _ _ c (mkSys tb ts phs m1)) by (by eapply mycpu_runs; [apply list_lookup_insert_eq| |]).
  rewrite (bind_Ok _ _ _ (CIn i) (mkSys tb ts phs m1)) by (unfold get_phase; cbn; by rewrite Hph).
  rewrite (bind_Ok _ _ _ tt (mkSys tb ts phs (mkMachine cs ls))); [done|].
  unfold on_mach, lift, popcli, bind, get_cpu. cbn. rewrite list_lookup_insert_eq by done. cbn.
  rewrite (proj2 (Z.ltb_ge (ncli x + 1 - 1) 0)), (proj2 (Z.eqb_neq (ncli x + 1 - 1) 0)) by lia. cbn. rewrite list_insert_insert_eq.
  replace (mkCpu (ncli x + 1 - 1) (intena x) false) with x by (destruct x; cbn in *; f_equal; lia || done).
  by rewrite list_insert_id.
Qed.

Lemma sched_runs F s c i t p back : inv ids F s -> phases s !! c = Some (CIn i) -> threads s !! i = Some t -> procs (tab s) !! i = Some p ->
  held_by s c = [ptable_lock] -> p_state p ≠ RUNNING ->
  sched ids c back s = Ok tt (mkSys (tab s) (<[i := mkThread back (F c) (t_flag t) (t_fork t)]> (threads s)) (<[c := CScan (S i)]> (phases s)) (mach s)).
Proof.
  intros Hinv Hph Ht Hp Hh Hst. pose proof (lookup_lt_Some _ _ _ Hph) as Hc.
  destruct (held_cpu F s c Hinv Hc) as (x & Hx & Hi & Hen & Hn); [by rewrite Hh|]. rewrite Hh in Hn. cbn in Hn.
  assert (Hcid : c < length ids) by (rewrite (iv_ids _ _ _ Hinv), <- (iv_cpus _ _ _ Hinv); done).
  assert (Hget : on_mach (get_cpu c) s = Ok x s) by (unfold on_mach, lift, get_cpu; rewrite Hx; by destruct s).
  assert (Hmy : mycpu ids c s = Ok c s) by (by eapply mycpu_runs).
  destruct (lookup_lt_is_Some_2 (locks (mach s)) 0) as [k Hk]; [pose proof (iv_lock0 _ _ _ Hinv); unfold kmem_lock in *; lia|].
  assert (Ho : owned c k = true) by (apply (ml_owner _ _ _ (iv_locks _ _ _ Hinv) 0 k c Hk); rewrite Hh; left).
  unfold sched. rewrite (bind_Ok _ _ s i s) by (by eapply myproc_runs; try done; lia).
  rewrite (bind_Ok _ _ s true s).
  2:{ unfold on_mach, lift. erewrite holding_off by (done || lia). rewrite Ho. by destruct s. }
  cbn [negb]. rewrite (bind_Ok _ _ s c s Hmy), (bind_Ok _ _ s x s Hget), Hn. change (negb (Z.of_nat 1 =? 1)%Z) with false. cbv iota.
  rewrite (bind_Ok _ _ s p s) by (unfold on_tab, lift, get_proc; rewrite Hp; by destruct s).
  rewrite bool_decide_false by done. rewrite (bind_Ok _ _ s x s Hget), Hi.
  rewrite (bind_Ok _ _ s c s Hmy), (bind_Ok _ _ s x s Hget), Hen.
  unfold upd_thread, get_thread, bind, modify, set_phase. rewrite Ht. done.
Qed.

(** What a step has to establish: the invariant, and that the table changes as a step
    of Proc.v changes it, or not at all. *)
Definition post (s s' : sys) : Prop :=
  (exists F', inv ids F' s') /\ (ptable s' = ptable s \/ pstep (ptable s) (ptable s')).

(** A change of the table alone is a step of Proc.v. *)
Definition tab_step (s : sys) (tb : ptab) : Prop := pstep (ptable s) (mkPstate tb (forks (ptable s))).

Lemma same_forks s i t t' : threads s !! i = Some t -> t_fork t' = t_fork t -> t_fork <$> <[i := t']> (threads s) = t_fork <$> threads s.
Proof. intros Ht E. rewrite list_fmap_insert, E. apply list_insert_id. by rewrite list_lookup_fmap, Ht. Qed.

(** ** Steps of the thread of process [i] on processor [c] *)
Section Thread.
Context (F : nat -> bool) (s : sys) (c i : nat) (t : thread) (p : proc).
Hypothesis Hinv : inv ids F s.
Hypothesis Hph : phases s !! c = Some (CIn i).
Hypothesis Ht : threads s !! i = Some t.
Hypothesis Hp : procs (tab s) !! i = Some p.
Hypothesis Hunf : unfilled s i.

Lemma thread_held : held_by s c = pc_held (t_pc t).
Proof. unfold held_by. rewrite Hph. cbn. by rewrite Ht. Qed.

Lemma thread_state : thread_on p t.
Proof. by eapply (ag_on _ (iv_agree _ _ _ Hinv)). Qed.

Lemma cpu_in : c < length (cpus (mach s)).
Proof. rewrite <- (iv_cpus _ _ _ Hinv). by eapply lookup_lt_Some. Qed.

Lemma thread_pc_ok : pc_ok (length (locks (mach s))) (t_pc t).
Proof. by eapply (ag_pc _ (iv_agree _ _ _ Hinv)). Qed.

Lemma thread_fork_ready l a b : fork_ready s (mkThread l a b (t_fork t)).
Proof. intros j st. cbn. by eapply (ag_fork _ (iv_agree _ _ _ Hinv)). Qed.

Lemma thread_fork_other l a b st : t_fork (mkThread l a b (t_fork t)) ≠ Some (i, st).
Proof. cbn. by eapply Hunf. Qed.

(** The thread moves to [l'], with new locks and a new entry. *)
Lemma thread_moves l' p' tab' m' : procs tab' = <[i := p']> (procs (tab s)) ->
  thread_on p' (mkThread l' (t_intena t) (t_flag t) (t_fork t)) -> same_size (mach s) m' -> pc_ok (length (locks (mach s))) l' ->
  initproc tab' = initproc (tab s) -> (exiting l' = true -> i ≠ initproc (tab s)) -> mlocks m' (at_cpu (held_by s) c (pc_held l')) F ->
  waits (goto i l') (fun _ s' => inv ids F s' /\ ptable s' = mkPstate tab' (forks (ptable s))) (mkSys tab' (threads s) (phases s) m').
Proof.
  intros Hpr Hon Hsz Hpc Hin Hex Hml. pose proof (lookup_lt_Some _ _ _ Ht) as Hi.
  eapply waits_Ok; [unfold goto, upd_thread, get_thread, bind; cbn; rewrite Ht; reflexivity|]. cbn. split; [|unfold ptable; cbn; f_equal; by apply (same_forks s i t)].
  rewrite <- (list_insert_id (phases s) c (CIn i)) by done.
  eapply (inv_entry F); [done|by left|done|apply thread_fork_ready|apply thread_fork_other|exact Hpr|congruence|done| | |done|done|by intros _|done| |done|].
  - intros _. split; [done|]. cbn. by eapply (iv_flag _ _ _ Hinv).
  - done.
  - cbn. by destruct Hsz as [_ ->].
  - cbn. by rewrite list_lookup_insert_eq.
Qed.

Lemma still : procs (tab s) = <[i := p]> (procs (tab s)).
Proof. by rewrite list_insert_id. Qed.

Lemma thread_acquire l' lk : nests (pc_held (t_pc t)) (pc_held l') lk (length (locks (mach s))) ->
  pc_state (t_pc t) = RUNNING -> pc_state l' = RUNNING -> l' ≠ ExitD -> pc_ok (length (locks (mach s))) l' -> (exiting l' = true -> exiting (t_pc t) = true) ->
  waits (acq c lk ;;; goto i l') (fun _ => post s) s.
Proof.
  intros [Hr Hl Hpm] Hst Hst' Hex Hpc Hxt. destruct thread_state as (E & _ & _ & Ef). apply waits_bind, waits_lift. eapply waits_mono.
  { apply (mlocks_acquire (mach s) (held_by s) F c lk (pc_held l')); [apply (iv_locks _ _ _ Hinv)|apply cpu_in|done|rewrite thread_held|by rewrite thread_held].
    intros Hin%Hr. lia. }
  intros _ m' [Hml Hsz]. eapply waits_mono.
  { apply (thread_moves l' p (tab s) m'); [apply still| |done|done|done|intros Hx; eapply (iv_exit _ _ _ Hinv); eauto|done]. apply running_on; try done; [congruence|auto]. }
  intros _ s' [Hi Et]. split; [eauto|by left].
Qed.

Lemma thread_release l' lk : pc_held (t_pc t) ≡ₚ lk :: pc_held l' ->
  pc_state (t_pc t) = RUNNING -> pc_state l' = RUNNING -> l' ≠ ExitD -> pc_ok (length (locks (mach s))) l' -> exiting l' = false ->
  waits (rel c lk ;;; goto i l') (fun _ => post s) s.
Proof.
  intros Hpm Hst Hst' Hex Hpc Hxt. apply waits_bind, waits_lift.
  destruct (mlocks_release (mach s) (held_by s) F c lk (pc_held l')) as (m' & Hr & Hml & Hsz);
    [apply (iv_locks _ _ _ Hinv)|apply cpu_in|rewrite thread_held; eapply pc_held_nodup, thread_pc_ok|by rewrite thread_held|].
  eapply waits_Ok; [exact Hr|]. eapply waits_mono.
  { apply (thread_moves l' p (tab s) m'); [apply still| |done|done|done|congruence|done].
    apply running_on; try done; [|congruence]. destruct thread_state as (E & _). congruence. }
  intros _ s' [Hi Et]. split; [eauto|by left].
Qed.

Lemma same_locks l' : pc_held l' = pc_held (t_pc t) -> mlocks (mach s) (at_cpu (held_by s) c (pc_held l')) F.
Proof.
  intros E. eapply mlocks_ext; [|done|apply (iv_locks _ _ _ Hinv)]. intros c'. unfold at_cpu.
  case_decide as Hc; [subst c'|done]. by rewrite thread_held.
Qed.

Lemma thread_goto l' : pc_held l' = pc_held (t_pc t) -> pc_state (t_pc t) = RUNNING -> pc_state l' = RUNNING -> l' ≠ ExitD ->
  pc_ok (length (locks (mach s))) l' -> (exiting l' = true -> t_fork t = None /\ i ≠ initproc (tab s)) -> waits (goto i l') (fun _ => post s) s.
Proof.
  intros Hh Hst Hst' Hex Hpc Hxt. assert (Es : s = mkSys (tab s) (threads s) (phases s) (mach s)) by (by destruct s).
  refine (eq_ind_r (fun z => waits _ _ z) _ Es). eapply waits_mono.
  { apply (thread_moves l' p (tab s) (mach s)); [apply still| |done|done|done|apply Hxt|by apply same_locks].
    apply running_on; try done; [|apply Hxt]. destruct thread_state as (E & _). congruence. }
  intros _ s' [Hi Et]. split; [eauto|by left].
Qed.

(** The thread changes its own entry. *)
Lemma thread_own f l' : (forall tb', upd_proc i f (tab s) = Ok tt tb' -> tab_step s tb') ->
  pc_held l' = pc_held (t_pc t) -> thread_on (f p) (mkThread l' (t_intena t) (t_flag t) (t_fork t)) -> pc_ok (length (locks (mach s))) l' -> exiting l' = false ->
  waits (on_tab (upd_proc i f) ;;; goto i l') (fun _ => post s) s.
Proof.
  intros Hst Hh Hon Hpc Hxt. apply waits_bind, waits_lift. set (tb' := mkPtab (<[i := f p]> (procs (tab s))) (nextpid (tab s)) (initproc (tab s))).
  assert (Hu : upd_proc i f (tab s) = Ok tt tb') by (apply upd_proc_Ok; eauto).
  eapply waits_Ok; [exact Hu|]. pose proof (Hst _ Hu) as Hs. eapply waits_mono.
  { apply (thread_moves l' (f p) tb' (mach s)); [done..|congruence|by apply same_locks]. }
  intros _ s' [Hi Et]. split; [eauto|right; by rewrite Et].
Qed.

(** It changes fields of its entry that the invariant does not mention. *)
Lemma thread_writes f : (forall tb', upd_proc i f (tab s) = Ok tt tb' -> tab_step s tb') -> p_state (f p) = p_state p -> p_chan (f p) = p_chan p ->
  waits (on_tab (upd_proc i f)) (fun _ => post s) s.
Proof.
  intros Hst Es Ec. pose proof (lookup_lt_Some _ _ _ Ht) as Hi. apply waits_lift.
  set (tb' := mkPtab (<[i := f p]> (procs (tab s))) (nextpid (tab s)) (initproc (tab s))).
  assert (Hu : upd_proc i f (tab s) = Ok tt tb') by (apply upd_proc_Ok; eauto).
  eapply waits_Ok; [exact Hu|]. split; [|right; by apply Hst]. exists F. cbn.
  rewrite <- (list_insert_id (phases s) c (CIn i)), <- (list_insert_id (threads s) i t) by done.
  eapply (inv_entry F); try done.
  - by left.
  - intros j st. by eapply (ag_fork _ (iv_agree _ _ _ Hinv)).
  - intros st. by eapply Hunf.
  - congruence.
  - intros _. split; [|by eapply (iv_flag _ _ _ Hinv)]. pose proof thread_state as H. unfold thread_on in *. by rewrite Es, Ec.
  - intros _. by eapply (iv_exit _ _ _ Hinv).
  - apply thread_pc_ok.
  - cbn. rewrite list_lookup_insert_eq by done. by apply same_locks.
Qed.

(** The thread leaves the processor in [sched]. *)
Lemma thread_sched back : pc_held (t_pc t) = [ptable_lock] -> p_state p ≠ RUNNING ->
  thread_off p (mkThread back (t_flag t) (t_flag t) (t_fork t)) -> pc_ok (length (locks (mach s))) back ->
  waits (sched ids c back) (fun _ => post s) s.
Proof.
  intros Hh Hst Hoff Hpc. pose proof (lookup_lt_Some _ _ _ Ht) as Hi.
  eapply waits_Ok; [eapply (sched_runs F s c i t p); try done; by rewrite thread_held|].
  split; [|left; unfold ptable; cbn; f_equal; by apply (same_forks s i t)]. exists F.
  rewrite (iv_flag _ _ _ Hinv c i t) by done.
  eapply (inv_entry F); [done|by left|done|apply thread_fork_ready|apply thread_fork_other|apply still|done|done|done| |done|done|done|done|done|done|].
  - done.
  - cbn. eapply mlocks_ext; [|done|apply (iv_locks _ _ _ Hinv)]. intros c'. unfold at_cpu.
    case_decide as Hc; [subst c'|done]. by rewrite thread_held.
Qed.
End Thread.

(** ** Changes of the table by the holder of its lock *)

(** An entry may be woken; what else may change of it does not matter here. *)
Definition woken (p p' : proc) : Prop :=
  (p_state p' = p_state p /\ p_chan p' = p_chan p) \/ (p_state p = SLEEPING /\ p_state p' = RUNNABLE).
Definition tab_woken (tb tb' : ptab) : Prop :=
  length (procs tb') = length (procs tb) /\ initproc tb' = initproc tb
  /\ forall i p', procs tb' !! i = Some p' -> exists p, procs tb !! i = Some p /\ woken p p'.

Lemma woken_refl p : woken p p.
Proof. by left. Qed.

Lemma tab_woken_refl tb : tab_woken tb tb.
Proof. split_and!; try done. eauto using woken_refl. Qed.

Lemma tab_woken_trans tb1 tb2 tb3 : tab_woken tb1 tb2 -> tab_woken tb2 tb3 -> tab_woken tb1 tb3.
Proof.
  intros (L1 & I1 & H1) (L2 & I2 & H2). split_and!; [congruence..|]. intros i p3 E3. destruct (H2 _ _ E3) as (p2 & E2 & W2).
  destruct (H1 _ _ E2) as (p1 & E1 & W1). exists p1. split; [done|]. unfold woken in *. intuition congruence.
Qed.

Lemma upd_woken i f tb tb' : upd_proc i f tb = Ok tt tb' -> (forall p, procs tb !! i = Some p -> woken p (f p)) -> tab_woken tb tb'.
Proof.
  intros (p & Hp & ->)%upd_proc_Ok Hf. split_and!; cbn; [by rewrite length_insert|done|].
  intros j q [[-> ->]|[N H]]%insert_cases; [| |by eapply lookup_lt_Some]; eauto using woken_refl.
Qed.

Lemma wakeup_woken ch tb tb' : wakeup ch tb = Ok tt tb' -> tab_woken tb tb'.
Proof.
  intros [= <-]. split_and!; cbn; [by rewrite length_imap|done|]. intros i p' Hp'. rewrite list_lookup_imap in Hp'.
  destruct (procs tb !! i) as [p|]; [|done]. injection Hp' as <-. exists p. split; [done|].
  case_bool_decide as E1; cbn; [|apply woken_refl]. case_bool_decide; cbn; [by right|apply woken_refl].
Qed.

Lemma kill_woken pid tb r tb' : kill pid tb = Ok r tb' -> tab_woken tb tb'.
Proof.
  unfold kill, bind, gets, id. intros Hr. destruct (find_proc _ _ 0) as [i|]; [|injection Hr as _ <-; apply tab_woken_refl].
  destruct (upd_proc i _ tb) as [[] tb1|] eqn:E; [|done]. injection Hr as _ <-. eapply upd_woken; [exact E|].
  intros p _. cbn. case_bool_decide; cbn; [by right|by left].
Qed.

Lemma exit_woken cur p tb : procs tb !! cur = Some p ->
  wp (exit_table cur) (fun _ tb' => exists tb1 x, tab_woken tb tb1 /\ procs tb1 !! cur = Some x
     /\ procs tb' = <[cur := set_state ZOMBIE x]> (procs tb1) /\ initproc tb' = initproc tb) tb.
Proof.
  intros Hp. unfold exit_table. apply wp_bind. eapply wp_get_proc; [done|]. apply wp_bind.
  assert (Hw : forall ch tb1, tab_woken tb tb1 -> wp (wakeup1 ch) (fun _ => tab_woken tb) tb1).
  { intros ch tb1 H1. eapply tab_woken_trans; [exact H1|]. by eapply (wakeup_woken ch). }
  eapply (wp_mono _ (fun _ => tab_woken tb)).
  { destruct (p_parent p); [apply Hw, tab_woken_refl|apply wp_ret, tab_woken_refl]. }
  intros [] tb1 H1. apply wp_bind, wp_gets, wp_bind, wp_gets, wp_bind. eapply wp_mono.
  { apply (wp_for_seq _ _ (fun _ => tab_woken tb) _ H1). intros k tb2 Hk H2.
    destruct (lookup_lt_is_Some_2 (procs tb2) k) as [x Hx]; [destruct H1 as [? _], H2 as [? _]; lia|].
    apply wp_bind. eapply wp_get_proc; [done|]. case_bool_decide; cbn [when]; [|by apply wp_ret].
    apply wp_bind. eapply wp_upd_proc; [done|].
    assert (H3 : tab_woken tb (mkPtab (<[k := set_parent (Some (initproc tb1)) x]> (procs tb2)) (nextpid tb2) (initproc tb2))).
    { eapply tab_woken_trans; [exact H2|]. eapply (upd_woken k (set_parent (Some (initproc tb1)))); [apply upd_proc_Ok; eauto|]. by left. }
    case_bool_decide; cbn [when]; [by apply Hw|by apply wp_ret]. }
  cbn beta. intros [] tb2 H2. destruct (lookup_lt_is_Some_2 (procs tb2) cur) as [x Hx].
  { destruct H2 as [-> _]. by eapply lookup_lt_Some. }
  eapply wp_upd_proc; [done|]. exists tb2, x. split_and!; try done. apply H2.
Qed.

Lemma thread_off_woken p p' t : thread_off p t -> woken p p' -> thread_off p' t.
Proof.
  unfold thread_off. intros [H1 H2] [[Es Ec]|[Es Es']].
  - by rewrite Es, Ec.
  - rewrite Es in H1, H2. rewrite Es'. destruct H1 as (ch & lk & E & _). split; [eauto|]. intros Hf _ _. by apply H2.
Qed.

Lemma thread_on_woken p p' t : thread_on p t -> (forall ch lk, t_pc t ≠ SleepC ch lk) -> woken p p' -> thread_on p' t.
Proof.
  intros (H1 & H2 & H3 & H4) Hn [[Es Ec]|[Es Es']].
  - split_and!; [congruence| |done|done]. by intros ch lk ?%Hn.
  - exfalso. rewrite Es in H1. destruct (t_pc t); try done. by eapply Hn.
Qed.

(** Only one processor is at a place where [ptable.lock] is held. *)
Lemma only_holder F s c c' j t : inv ids F s -> ptable_lock ∈ held_by s c -> phases s !! c' = Some (CIn j) -> threads s !! j = Some t ->
  ptable_lock ∈ pc_held (t_pc t) -> c' = c.
Proof.
  intros Hinv Hc Hph Ht Hin. eapply (mlocks_excl _ _ _ ptable_lock _ _ (iv_locks _ _ _ Hinv)); [|done].
  unfold held_by. rewrite Hph. cbn. by rewrite Ht.
Qed.

(** A processor [c] that holds the lock, and whose own thread is not in [sched],
    changes the table. *)
Definition table_holder (s : sys) (c : nat) : Prop :=
  ptable_lock ∈ held_by s c /\ (forall i t, phases s !! c = Some (CIn i) -> threads s !! i = Some t -> pc_state (t_pc t) = RUNNING).

Lemma inv_woken F s c tb' : inv ids F s -> table_holder s c -> tab_woken (tab s) tb' ->
  inv ids F (mkSys tb' (threads s) (phases s) (mach s)).
Proof.
  intros Hinv [Hc Hrun] (Hlen & Hinit & Hw). pose proof Hinv as [[A1 A2 A3 A4 A5 A6 A7] ? ? ? ? Hiv ? ?]. split; try done; [|cbn; by rewrite Hinit].
  split; cbn [tab threads phases mach]; try done.
  - congruence.
  - intros c' i p' t Hph Hp' Ht. destruct (Hw _ _ Hp') as (p & Hp & Hww). eapply thread_on_woken; [by eapply A5| |done].
    intros ch lk E. assert (c' = c) as -> by (eapply only_holder; try done; rewrite E; left).
    specialize (Hrun i t Hph Ht). by rewrite E in Hrun.
  - intros i p' t Hoff Hp' Ht. destruct (Hw _ _ Hp') as (p & Hp & Hww). eapply thread_off_woken; [|done]. by eapply A6.
Qed.

(** The entry and the thread of a process that is on no processor change. *)
Lemma inv_slot F s j p' t t' tb' : inv ids F s -> off_cpu s j -> threads s !! j = Some t -> t_fork t' = t_fork t -> (t_pc t = Forkret -> t_pc t' = Forkret) ->
  procs tb' = <[j := p']> (procs (tab s)) -> initproc tb' = initproc (tab s) -> thread_off p' t' -> pc_ok (length (locks (mach s))) (t_pc t') ->
  inv ids F (mkSys tb' (<[j := t']> (threads s)) (phases s) (mach s)).
Proof.
  intros [[A1 A2 A3 A4 A5 A6 A7] Hc Hid Hl0 Hpo Hex Hml Hfl] Hoff Ht Ef Er Hp Hin Hto Hpc. pose proof (lookup_lt_Some _ _ _ Ht) as Hj.
  assert (Hnj : forall c i, phases s !! c = Some (CIn i) -> i ≠ j) by (intros c i Hph ->; by apply (Hoff c)).
  assert (Hj' : j < length (procs (tab s))) by congruence.
  split; cbn [tab threads phases mach]; try done.
  - split; cbn [tab threads phases mach]; rewrite ?Hp, ?length_insert; try done.
    + intros i x [[-> ->]|[N H]]%insert_cases; [done|by eapply A4|done].
    + intros c i p x Hph. rewrite !list_lookup_insert_ne by (apply not_eq_sym; by eapply Hnj). by eapply A5.
    + intros i p x Ho. destruct (decide (i = j)) as [->|N].
      * rewrite !list_lookup_insert_eq by done. by intros [= <-] [= <-].
      * rewrite !list_lookup_insert_ne by done. by apply A6.
    + intros i x k st Hi Hx Hst. assert (exists tk, threads s !! k = Some tk /\ t_pc tk = Forkret) as (tk & Hk & Ek).
      { apply insert_cases in Hi as [[-> ->]|[N H]]; [rewrite Ef in Hx| |done]; by eapply A7. }
      destruct (decide (k = j)) as [->|N]; [|exists tk; by rewrite list_lookup_insert_ne]. exists t'. rewrite list_lookup_insert_eq by done.
      split; [done|]. apply Er. congruence.
  - rewrite Hin. intros c i x Hph. rewrite list_lookup_insert_ne by (apply not_eq_sym; by eapply Hnj). by eapply Hex.
  - eapply mlocks_ext; [|done|exact Hml]. intros c. unfold held_by. cbn.
    destruct (phases s !! c) as [[| |i|i|[i|]|i]|] eqn:E; try done. cbn. by rewrite list_lookup_insert_ne by (apply not_eq_sym; by eapply Hnj).
  - intros c i x Hph. rewrite list_lookup_insert_ne by (apply not_eq_sym; by eapply Hnj). by eapply Hfl.
Qed.

(** The scheduler of processor [c] moves on. *)
Lemma inv_phase F F' s c ph' m' : inv ids F s -> c < length (phases s) ->
  (forall i, phases s !! c ≠ Some (CIn i)) -> (forall i, ph' ≠ CIn i) -> phase_ok (length (locks (mach s))) ph' ->
  same_size (mach s) m' -> (forall c', c' ≠ c -> F' c' = F c') -> mlocks m' (at_cpu (held_by s) c (held_at (threads s) ph')) F' ->
  inv ids F' (mkSys (tab s) (threads s) (<[c := ph']> (phases s)) m').
Proof.
  intros [[A1 A2 A3 A4 A5 A6 A7] Hc Hid Hl0 Hpo Hex Hml Hfl] Hcl Hno Hno' Hpo' [Hs1 Hs2] HF Hml'.
  assert (Hin : forall c' i, <[c := ph']> (phases s) !! c' = Some (CIn i) <-> phases s !! c' = Some (CIn i)).
  { intros c' i. destruct (decide (c' = c)) as [->|N]; [|by rewrite list_lookup_insert_ne].
    rewrite list_lookup_insert_eq by done. split; [intros [= E]; by destruct (Hno' i)|intros E; by destruct (Hno i)]. }
  split; cbn [tab threads phases mach]; rewrite ?Hs1, ?Hs2, ?length_insert; try done.
  - split; cbn [tab threads phases mach]; rewrite ?Hs2; try done.
    + intros c1 c2 i. rewrite !Hin. apply A2.
    + intros c' i. rewrite Hin. apply A3.
    + intros c' i p t. rewrite Hin. apply A5.
    + intros i p t Ho. apply A6. intros c' E. apply (Ho c'). cbn. by apply Hin.
  - intros c' ph [[-> ->]|[N H]]%insert_cases; [done|by eapply Hpo|done].
  - intros c' i t. rewrite Hin. apply Hex.
  - eapply mlocks_ext; [|done|exact Hml']. intros c'. unfold held_by, at_cpu. cbn. case_decide as E; [subst|].
    + by rewrite list_lookup_insert_eq.
    + by rewrite list_lookup_insert_ne.
  - intros c' i t. rewrite Hin. intros Hph Ht. rewrite HF; [by eapply Hfl|]. intros ->. by apply (Hno i).
Qed.

(** The thread of a process takes or leaves a slot in [fork]. *)
Lemma inv_set_fork F s i t x : inv ids F s -> threads s !! i = Some t -> (exiting (t_pc t) = true -> x = None) ->
  (forall j st, x = Some (j, st) -> started st = true -> exists tj, threads s !! j = Some tj /\ t_pc tj = Forkret) ->
  inv ids F (mkSys (tab s) (<[i := mkThread (t_pc t) (t_intena t) (t_flag t) x]> (threads s)) (phases s) (mach s)).
Proof.
  intros [[A1 A2 A3 A4 A5 A6 A7] Hc Hid Hl0 Hpo Hex Hml Hfl] Ht Hx Hr. pose proof (lookup_lt_Some _ _ _ Ht) as Hi. set (t' := mkThread _ _ _ x).
  assert (Hback : forall k y, <[i := t']> (threads s) !! k = Some y -> exists y0, threads s !! k = Some y0 /\ t_pc y = t_pc y0 /\ t_intena y = t_intena y0 /\ t_flag y = t_flag y0
    /\ (k = i /\ y = t' \/ y = y0)).
  { intros k y [[-> ->]|[N H]]%insert_cases; [| |done]; [exists t|exists y]; split_and!; auto. }
  assert (Hfwd : forall k y0, threads s !! k = Some y0 -> exists y, <[i := t']> (threads s) !! k = Some y /\ t_pc y = t_pc y0).
  { intros k y0 Hk. destruct (decide (k = i)) as [->|N]; [|exists y0; by rewrite list_lookup_insert_ne]. exists t'. rewrite list_lookup_insert_eq by done. split; [done|]. cbn. congruence. }
  split; cbn [tab threads phases mach]; try done.
  - split; cbn [tab threads phases mach]; rewrite ?length_insert; try done.
    + intros k y Hk. destruct (Hback _ _ Hk) as (y0 & H0 & -> & _). by eapply A4.
    + intros c k p y Hph Hp Hk. destruct (Hback _ _ Hk) as (y0 & H0 & Epc & _ & _ & Hy). destruct (A5 _ _ _ _ Hph Hp H0) as (T1 & T2 & T3 & T4).
      split_and!; [by rewrite Epc|by rewrite Epc|by rewrite Epc|]. destruct Hy as [[-> ->]| ->]; [done|exact T4].
    + intros k p y Ho Hp Hk. destruct (Hback _ _ Hk) as (y0 & H0 & Epc & Ei & Ef & _). pose proof (A6 _ _ _ Ho Hp H0) as Hoff. unfold thread_off in *. by rewrite Epc, Ei, Ef.
    + intros k y j st Hk Hf Hst. destruct (Hback _ _ Hk) as (y0 & H0 & _ & _ & _ & Hy).
      assert (exists tj, threads s !! j = Some tj /\ t_pc tj = Forkret) as (tj & Hj & Ej) by (destruct Hy as [[-> ->]| ->]; [by eapply Hr|by eapply A7]).
      destruct (Hfwd _ _ Hj) as (tj' & Hj' & Ej'). exists tj'. split; [done|]. congruence.
  - intros c k y Hph Hk. destruct (Hback _ _ Hk) as (y0 & H0 & -> & _). by eapply Hex.
  - eapply mlocks_ext; [|done|exact Hml]. intros c. unfold held_by. cbn. destruct (phases s !! c) as [[| |k|k|[k|]|k]|] eqn:E; try done. cbn.
    destruct (threads s !! k) as [y0|] eqn:Ek; [by destruct (Hfwd _ _ Ek) as (y & -> & ->)|]. rewrite list_lookup_insert_ne; [by rewrite Ek|]. intros <-. congruence.
  - intros c k y Hph Hk. destruct (Hback _ _ Hk) as (y0 & H0 & _ & _ & -> & _). by eapply Hfl.
Qed.

(** ** Every step keeps the invariant *)

Lemma tab_woken_step F s c tb' : inv ids F s -> table_holder s c -> tab_step s tb' -> tab_woken (tab s) tb' ->
  post s (mkSys tb' (threads s) (phases s) (mach s)).
Proof.
  intros Hinv Hh Hst Hw. split; [|by right]. exists F. by eapply inv_woken.
Qed.

Lemma wakeup_step F s c ch : inv ids F s -> table_holder s c -> waits (on_tab (wakeup ch)) (fun _ => post s) s.
Proof.
  intros Hinv Hh. apply waits_lift. eapply waits_Ok; [reflexivity|]. eapply tab_woken_step; try done.
  - by eapply step_wakeup.
  - by eapply wakeup_woken.
Qed.

(** A process that is not running, ready or sleeping is on no processor, unless it
    is about to leave it in [exit]. *)
Lemma idle_off F s j e : inv ids F s -> procs (tab s) !! j = Some e -> p_state e = UNUSED \/ p_state e = EMBRYO -> off_cpu s j.
Proof.
  intros Hinv He Hs c Hph. destruct (thread_exists s j e (iv_agree _ _ _ Hinv) He) as [t Ht].
  destruct (ag_on _ (iv_agree _ _ _ Hinv) _ _ _ _ Hph He Ht) as (E & _). destruct (t_pc t); cbn in E; destruct Hs; congruence.
Qed.

Lemma zombie_off F s c j e : inv ids F s -> table_holder s c -> procs (tab s) !! j = Some e -> p_state e = ZOMBIE -> off_cpu s j.
Proof.
  intros Hinv [Hh Hr] He Hs c' Hph. destruct (thread_exists s j e (iv_agree _ _ _ Hinv) He) as [t Ht].
  destruct (ag_on _ (iv_agree _ _ _ Hinv) _ _ _ _ Hph He Ht) as (E & _).
  assert (c' = c) as ->. { eapply only_holder; try done. destruct (t_pc t); cbn in E; try congruence. left. }
  rewrite (Hr _ _ Hph Ht) in E. congruence.
Qed.

Lemma waits_get i p (Q : proc -> sys -> Prop) s : procs (tab s) !! i = Some p -> Q p s -> waits (on_tab (get_proc i)) Q s.
Proof. intros Hp HQ. unfold waits, on_tab, lift, get_proc. rewrite Hp. by destruct s. Qed.

(** A slot that is not EMBRYO is not being filled. *)
Lemma state_unfilled s i p : pt_ok (ptable s) -> procs (tab s) !! i = Some p -> p_state p ≠ EMBRYO -> unfilled s i.
Proof.
  intros Hpt Hp Hne k t st Hk Hf. apply (not_filled (ptable s) i p k st Hpt Hp Hne). cbn. by rewrite list_lookup_fmap, Hk; cbn; rewrite Hf.
Qed.

Section Step.
Context (F : nat -> bool) (s : sys) (c : nat).
Hypothesis Hinv : inv ids F s.
Hypothesis Hpt : pt_ok (ptable s).

(** The steps of the thread of process [i], which is RUNNING. *)
Section Own.
Context (i : nat) (t : thread) (p : proc).
Hypothesis Hph : phases s !! c = Some (CIn i).
Hypothesis Ht : threads s !! i = Some t.
Hypothesis Hp : procs (tab s) !! i = Some p.
Hypothesis Hst : p_state p = RUNNING.

Lemma own_runs : is_running (ptable s) i p.
Proof. by split. Qed.

Lemma own_forks : forks (ptable s) !! i = Some (t_fork t).
Proof. cbn. by rewrite list_lookup_fmap, Ht. Qed.

Lemma own_unfilled : unfilled s i.
Proof. eapply state_unfilled; [done..|]. by rewrite Hst. Qed.

Lemma own_holder : ptable_lock ∈ pc_held (t_pc t) -> pc_state (t_pc t) = RUNNING -> table_holder s c.
Proof.
  intros Hin Hs. split; [by rewrite (thread_held s c i t)|]. intros i' t' E1 E2. rewrite Hph in E1. injection E1 as <-. rewrite Ht in E2. by injection E2 as <-.
Qed.

Lemma kill_step pid : table_holder s c -> waits (_ <- on_tab (kill pid) ;; ret tt) (fun _ => post s) s.
Proof.
  intros Hh. apply waits_bind, waits_lift. destruct (kill pid (tab s)) as [r tb'|e tb'] eqn:Ek.
  - eapply waits_Ok; [done|]. eapply waits_Ok; [reflexivity|]. eapply tab_woken_step; try done; [by eapply step_kill|by eapply kill_woken].
  - exfalso. unfold kill, bind, gets, id in Ek. destruct (find_proc _ _ 0) as [k|] eqn:Ef; [|done].
    destruct (find_proc_Some _ _ _ _ Ef) as (k' & q & -> & Hq & _). unfold upd_proc, get_proc, bind in Ek. cbn in Ek. by rewrite Hq in Ek.
Qed.

Lemma alloc_step : t_fork t = None -> exiting (t_pc t) = false -> waits (take_slot i) (fun _ => post s) s.
Proof.
  intros Hnf Hne. unfold take_slot. apply waits_bind, waits_lift. destruct (alloc_slot (tab s)) as [[j|] tb'|e tb'] eqn:Ea.
  - eapply waits_Ok; [exact Ea|]. pose proof (step_alloc (ptable s) tb' i p j own_runs ltac:(rewrite own_forks; by f_equal) Ea) as Hstep.
    apply alloc_slot_Ok in Ea as (e & He & Hu & ->). destruct (thread_exists s j e (iv_agree _ _ _ Hinv) He) as [tj Htj].
    pose proof (idle_off F s j e Hinv He (or_introl Hu)) as Hoff. destruct (ag_off _ (iv_agree _ _ _ Hinv) _ _ _ Hoff He Htj) as [Hpc _]. rewrite Hu in Hpc.
    eapply waits_Ok; [unfold set_fork, upd_thread, get_thread, bind; cbn; rewrite Ht; reflexivity|]. cbn.
    split; [|right; unfold ptable; cbn; by rewrite list_fmap_insert]. exists F.
    pose proof (inv_slot F s j _ tj tj (mkPtab (<[j := set_pid (nextpid (tab s)) (set_state EMBRYO e)]> (procs (tab s))) (i32 (nextpid (tab s) + 1)) (initproc (tab s)))
      Hinv Hoff Htj eq_refl (fun E => E) eq_refl eq_refl) as H1. rewrite (list_insert_id (threads s) j tj Htj) in H1.
    refine (inv_set_fork F _ i t (Some (j, FStack)) (H1 _ _) Ht _ _); [split; [exact Hpc|by cbn]|by eapply (ag_pc _ (iv_agree _ _ _ Hinv))|by rewrite Hne|by intros ? ? [= <- <-]].
  - eapply waits_Ok; [exact Ea|]. eapply waits_Ok; [reflexivity|]. assert (tb' = tab s) as ->.
    { unfold alloc_slot, bind, gets, id in Ea. destruct (find_proc _ _ 0) as [k|]; [|by injection Ea as <-]. by destruct (upd_proc _ _ _). }
    split; [exists F|left]; by destruct s.
  - exfalso. unfold alloc_slot, bind, gets, id in Ea. destruct (find_proc _ _ 0) as [k|] eqn:Ef; [|done].
    destruct (find_proc_Some _ _ _ _ Ef) as (k' & q & -> & Hq & _). unfold upd_proc, get_proc, bind in Ea. cbn in Ea. by rewrite Hq in Ea.
Qed.

(** The thread of the slot after a statement of [fork]. *)
Definition slot_thread (st : fstage) (v : Z) (tj : thread) : thread :=
  if bool_decide (st = FStack) && negb (v =? 0)%Z then mkThread Forkret (t_intena tj) (t_flag tj) (t_fork tj) else tj.

Lemma fork_step_runs j st v e tj : procs (tab s) !! j = Some e -> threads s !! j = Some tj -> i ≠ j ->
  fork_step i j st v s = Ok tt (mkSys (mkPtab (<[j := fork_stmt i p v st e]> (procs (tab s))) (nextpid (tab s)) (initproc (tab s)))
    (<[i := mkThread (t_pc t) (t_intena t) (t_flag t) (pair j <$> fork_next st v)]> (<[j := slot_thread st v tj]> (threads s))) (phases s) (mach s)).
Proof.
  intros He Htj Hij. unfold fork_step. rewrite (bind_Ok _ _ s p s) by (unfold on_tab, lift, get_proc; rewrite Hp; by destruct s).
  set (tb' := mkPtab _ _ _). rewrite (bind_Ok _ _ s tt (mkSys tb' (threads s) (phases s) (mach s)))
    by (unfold on_tab, lift; rewrite (proj2 (upd_proc_Ok j (fork_stmt i p v st) (tab s) tb')); [done|eauto]).
  unfold slot_thread. destruct (bool_decide (st = FStack) && negb (v =? 0)%Z); cbn [when].
  - rewrite (bind_Ok _ _ _ tt (mkSys tb' (<[j := mkThread Forkret (t_intena tj) (t_flag tj) (t_fork tj)]> (threads s)) (phases s) (mach s)))
      by (unfold goto, upd_thread, get_thread, bind; cbn; by rewrite Htj).
    unfold set_fork, upd_thread, get_thread, bind. cbn. by rewrite list_lookup_insert_ne, Ht.
  - rewrite (list_insert_id (threads s) j tj Htj). rewrite (bind_Ok _ _ _ tt (mkSys tb' (threads s) (phases s) (mach s))) by done.
    unfold set_fork, upd_thread, get_thread, bind. cbn. by rewrite Ht.
Qed.

Lemma started_next st v st' : fork_next st v = Some st' -> started st' = true -> (bool_decide (st = FStack) && negb (v =? 0)%Z) = true \/ started st = true.
Proof. destruct st; cbn; try (by right); intros [= <-]; destruct (v =? 0)%Z; cbn; auto. Qed.

Lemma fork_step_ok j st v : t_fork t = Some (j, st) -> exiting (t_pc t) = false -> waits (fork_step i j st v) (fun _ => post s) s.
Proof.
  intros Hf Hne. destruct (pt_fork _ Hpt i j st) as (_ & e & He & Hee & Hep); [by rewrite own_forks, Hf|]. cbn in He.
  destruct (thread_exists s j e (iv_agree _ _ _ Hinv) He) as [tj Htj]. pose proof (idle_off F s j e Hinv He (or_intror Hee)) as Hoff.
  assert (Hij : i ≠ j) by (intros ->; by apply (Hoff c)).
  eapply waits_Ok; [by apply (fork_step_runs j st v e tj)|].
  set (tb' := mkPtab (<[j := fork_stmt i p v st e]> (procs (tab s))) (nextpid (tab s)) (initproc (tab s))).
  assert (Ef : t_fork (slot_thread st v tj) = t_fork tj) by (unfold slot_thread; by case_match).
  split.
  2:{ right. unfold ptable. cbn. rewrite list_fmap_insert, (same_forks s j tj _ Htj Ef). cbn.
      apply (step_fork (ptable s) tb' i p j st v own_runs); [by rewrite own_forks, Hf|]. apply upd_proc_Ok. eauto. }
  exists F. pose proof (ag_fork _ (iv_agree _ _ _ Hinv) i t j st Ht Hf) as Hstarted.
  destruct (ag_off _ (iv_agree _ _ _ Hinv) _ _ _ Hoff He Htj) as [Hpc _]. rewrite Hee in Hpc.
  assert (Hj1 : inv ids F (mkSys tb' (<[j := slot_thread st v tj]> (threads s)) (phases s) (mach s))).
  { eapply (inv_slot F s j _ tj); [done..| |done|done| |].
    - unfold slot_thread. by case_match.
    - destruct (fork_stmt_state i p v st e Hee Hep) as [_ Hs]. unfold slot_thread.
      destruct (fork_next st v) as [st'|] eqn:En.
      + destruct Hs as [Es _]. split; rewrite Es; [|done]. case_match; [by left|done].
      + assert (Est : st = FFree \/ st = FRunnable) by (destruct st; try discriminate En; auto). destruct Est as [-> | ->]; cbn; [by split|].
        destruct (Hstarted eq_refl) as (tj' & E1 & E2). rewrite Htj in E1. injection E1 as <-. split; [by right; left|]. intros Hn. by destruct Hn.
    - unfold slot_thread. case_match; [done|]. by eapply (ag_pc _ (iv_agree _ _ _ Hinv)). }
  apply (inv_set_fork F (mkSys tb' (<[j := slot_thread st v tj]> (threads s)) (phases s) (mach s)) i t); [exact Hj1|change (<[j := slot_thread st v tj]> (threads s) !! i = Some t); by rewrite list_lookup_insert_ne by done|by rewrite Hne|].
  intros j' st' E Hs'. destruct (fork_next st v) as [st0|] eqn:En; [|done]. injection E as <- <-. exists (slot_thread st v tj).
  split; [apply (list_lookup_insert_eq (threads s) j); by eapply lookup_lt_Some|]. unfold slot_thread. destruct (started_next _ _ _ En Hs') as [-> | Hs]; [done|].
  destruct (Hstarted Hs) as (tj' & E1 & E2). rewrite Htj in E1. injection E1 as <-. by case_match.
Qed.

Lemma wait_step : table_holder s c -> waits (reap_child i) (fun _ => post s) s.
Proof.
  intros Hh. unfold reap_child. apply waits_bind. eapply waits_Ok; [reflexivity|].
  destruct (wait_scan i (procs (tab s)) 0 false).1 as [j|] eqn:Ew; [|done].
  pose proof (fun tb' => step_wait (ptable s) tb' i p j own_runs Ew) as Hstep.
  destruct (wait_scan_spec _ _ _ _ _ Ew) as (j' & e & -> & He & Hpar & Hz). cbn in *.
  destruct (thread_exists s j' e (iv_agree _ _ _ Hinv) He) as [tj Htj]. pose proof (zombie_off F s c j' e Hinv Hh He Hz) as Hoff.
  destruct (ag_off _ (iv_agree _ _ _ Hinv) _ _ _ Hoff He Htj) as [Hpc _]. rewrite Hz in Hpc. apply waits_lift.
  set (tb' := mkPtab (<[j' := reap e]> (procs (tab s))) (nextpid (tab s)) (initproc (tab s))).
  assert (Hu : upd_proc j' reap (tab s) = Ok tt tb') by (apply upd_proc_Ok; eauto).
  eapply waits_Ok; [exact Hu|]. split; [|right; by apply Hstep]. exists F. rewrite <- (list_insert_id (threads s) j' tj Htj).
  eapply inv_slot; [done..|split; [by right|done]|by eapply (ag_pc _ (iv_agree _ _ _ Hinv))].
Qed.

Lemma exit_step : t_pc t = ExitB -> waits (on_tab (exit_table i) ;;; goto i ExitC) (fun _ => post s) s.
Proof.
  intros Hpc. pose proof (ag_on _ (iv_agree _ _ _ Hinv) _ _ _ _ Hph Hp Ht) as (_ & _ & _ & Hnf). rewrite Hpc in Hnf. specialize (Hnf eq_refl).
  pose proof (iv_exit _ _ _ Hinv _ _ _ Hph Ht ltac:(by rewrite Hpc)) as Hni.
  pose proof (exit_woken i p (tab s) Hp) as Hw. apply wp_Ok in Hw as ([] & tb' & He & tb1 & x & Hw & Hx & Hpr & Hin).
  apply waits_bind, waits_lift. eapply waits_Ok; [exact He|].
  assert (Hh : table_holder s c) by (apply own_holder; rewrite Hpc; [left|done]).
  pose proof (inv_woken F s c tb1 Hinv Hh Hw) as Hinv1. eapply waits_mono.
  { apply (thread_moves F (mkSys tb1 (threads s) (phases s) (mach s)) c i t Hinv1 Hph Ht own_unfilled ExitC (set_state ZOMBIE x) tb' (mach s)); try done.
    - cbn. rewrite Hin. symmetry. apply Hw.
    - apply (same_locks F (mkSys tb1 (threads s) (phases s) (mach s)) c i t); try done. by rewrite Hpc. }
  intros _ s' [Hi Et]. split; [eauto|]. right. rewrite Et. apply (step_exit (ptable s) tb' i p own_runs Hni); [by rewrite own_forks, Hnf|done].
Qed.

Lemma flag_step b : t_pc t = Run -> waits (set_iflag c b ;;; upd_thread i (fun t => mkThread Run (t_intena t) b (t_fork t))) (fun _ => post s) s.
Proof.
  intros Hpc. pose proof (cpu_in F s c i Hinv Hph) as Hc. destruct (lookup_lt_is_Some_2 _ _ Hc) as [x Hx].
  pose proof (thread_held s c i t Hph Ht) as Hh. rewrite Hpc in Hh. cbn in Hh.
  set (m' := mkMachine (<[c := mkCpu (ncli x) (intena x) b]> (cpus (mach s))) (locks (mach s))).
  apply waits_bind. apply (waits_Ok _ _ _ tt (mkSys (tab s) (threads s) (phases s) m')).
  { unfold set_iflag, bind, on_mach, lift, get_cpu. by rewrite Hx. }
  eapply waits_Ok; [unfold upd_thread, get_thread, bind; cbn; rewrite Ht; reflexivity|]. cbn.
  split; [|left; unfold ptable; cbn; f_equal; by apply (same_forks s i t)]. exists (at_cpu F c b).
  rewrite <- (list_insert_id (phases s) c (CIn i)) by done. apply (inv_entry F _ s c i p); try done.
  - by left.
  - apply own_unfilled.
  - by eapply thread_fork_ready.
  - intros st. exact (own_unfilled i t st Ht).
  - by rewrite list_insert_id.
  - congruence.
  - by eapply lookup_lt_Some.
  - intros _. split; [|by rewrite at_cpu_eq]. by apply running_on.
  - split; [cbn; by rewrite length_insert|done].
  - intros c' N. by rewrite at_cpu_ne.
  - cbn. rewrite list_lookup_insert_eq by (by eapply lookup_lt_Some). cbn.
    eapply mlocks_ext; [|done|].
    2:{ eapply mlocks_cpu; [apply (iv_locks _ _ _ Hinv)|done|done|]. by rewrite Hh. }
    intros c'. unfold at_cpu. case_decide; [by subst|done].
Qed.
End Own.
(** A step that acquires no lock. *)
Lemma plain_step_ok i t p a : phases s !! c = Some (CIn i) -> threads s !! i = Some t -> procs (tab s) !! i = Some p ->
  a ≠ AExit \/ i ≠ initproc (tab s) -> waits (plain_step ids c i t a) (fun _ => post s) s.
Proof.
  intros Hph Ht Hp Hni. pose proof (iv_agree _ _ _ Hinv) as Ha. pose proof (ag_on _ Ha _ _ _ _ Hph Hp Ht) as (Hst & Hch & Hnx & _).
  pose proof (ag_pc _ Ha _ _ Ht) as Hok.
  assert (Hunf : unfilled s i) by (eapply state_unfilled; [done..|]; rewrite Hst; by destruct (t_pc t)).
  pose proof (fun l' lk => thread_release F s c i t p Hinv Hph Ht Hp Hunf l' lk) as Hrel.
  pose proof (fun l' => thread_goto F s c i t p Hinv Hph Ht Hp Hunf l') as Hgo.
  pose proof (fun f l' => thread_own F s c i t p Hinv Hph Ht Hp Hunf f l') as Hown.
  pose proof (fun b => thread_sched F s c i t p Hinv Hph Ht Hp Hunf b) as Hsch.
  pose proof (own_holder i t Hph Ht) as Hh. unfold pc_ok, plain_step in *.
  destruct (t_pc t) as [|l|[l|]| |ch l|ch lk|ch lk|ch lk|l|l| | | | | | |] eqn:Epc; cbn in Hst, Hok;
    destruct a as [|b|k| | | |ch'| | |ch'|pid| |v|o| ]; try done.
  - by eapply flag_step.
  - destruct (t_fork t) as [[j st]|] eqn:Ef; [done|]. apply waits_bind. eapply waits_Ok; [reflexivity|]. destruct Hni as [Hni|Hni]; [done|].
    rewrite decide_False by done. by apply Hgo.
  - destruct (t_fork t) as [[j st]|] eqn:Ef; [|done]. case_bool_decide; [done|]. eapply (fork_step_ok i t p); try done. by rewrite Epc.
  - eapply (thread_writes F s c i t p); try done. intros tb' Hu. by apply (step_own (ptable s) tb' i p o).
  - by apply Hrel.
  - apply Hrel; try done. cbn. unfold kmem_lock, ptable_lock in *. lia.
  - apply (wakeup_step F s c); [done|]. apply Hh; [left|done].
  - eapply kill_step. apply Hh; [left|done].
  - by apply Hrel.
  - by apply Hgo.
  - apply Hown; try done. intros tb' Hu. by apply (step_yield (ptable s) tb' i p).
  - apply (wakeup_step F s c); [done|]. apply Hh; [left|done].
  - eapply kill_step. apply Hh; [left|done].
  - destruct (t_fork t) as [[j st]|] eqn:Ef; [done|]. eapply (alloc_step i t p); try done. by rewrite Epc.
  - destruct (t_fork t) as [[j st]|] eqn:Ef; [|done]. destruct st; try done. eapply (fork_step_ok i t p); try done. by rewrite Epc.
  - destruct (t_fork t) as [[j st]|] eqn:Ef; [done|]. eapply (wait_step i p); try done. apply Hh; [left|done].
  - by apply Hrel.
  - apply Hrel; try done. cbn. apply Permutation_swap.
  - apply Hown; try done.
    + intros tb' Hu. by apply (step_sleep (ptable s) tb' i p ch).
    + split_and!; try done. cbn. by intros ch' lk' [= -> _].
  - apply Hsch; try done; [congruence|]. split; [rewrite Hst; cbn; eauto|done].
  - destruct lk as [l|]; (apply Hown; try done; by intros tb' Hu; apply (step_tidy (ptable s) tb' i p)).
  - by apply Hrel.
  - apply Hsch; try done; [congruence|]. split; [rewrite Hst; cbn; eauto|done].
  - by apply Hrel.
  - by eapply exit_step.
  - apply Hsch; try done; [congruence|]. split; [rewrite Hst; cbn; eauto|done].
  - by apply Hrel.
Qed.

Lemma thread_step_ok i t p a : phases s !! c = Some (CIn i) -> threads s !! i = Some t -> procs (tab s) !! i = Some p ->
  a ≠ AExit \/ i ≠ initproc (tab s) -> waits (thread_step ids c i t a) (fun _ => post s) s.
Proof.
  intros Hph Ht Hp Hni. unfold thread_step. apply waits_bind. eapply waits_Ok; [reflexivity|].
  destruct (lock_stmt _ (t_pc t) a) as [[l q]|] eqn:El; [|by eapply plain_step_ok].
  pose proof (iv_agree _ _ _ Hinv) as Ha. pose proof (ag_on _ Ha _ _ _ _ Hph Hp Ht) as (Hst & _).
  destruct (lock_stmt_nests _ _ _ _ _ (iv_lock0 _ _ _ Hinv) (ag_pc _ Ha _ _ Ht) El) as (Hn & Hs & Hs' & Hx & Hok & Hex).
  eapply (thread_acquire F s c i t p); try done. eapply state_unfilled; [done..|]. by rewrite Hst, Hs.
Qed.

(** The scheduler. *)
Lemma scheduler_top_step : phases s !! c = Some CIdle -> waits (scheduler_top c) (fun _ => post s) s.
Proof.
  intros Hph. pose proof (lookup_lt_Some _ _ _ Hph) as Hc. rewrite (iv_cpus _ _ _ Hinv) in Hc. destruct (lookup_lt_is_Some_2 _ _ Hc) as [x Hx].
  assert (Hh : held_by s c = []) by (unfold held_by; by rewrite Hph).
  set (m1 := mkMachine (<[c := mkCpu (ncli x) (intena x) true]> (cpus (mach s))) (locks (mach s))).
  apply waits_bind. apply (waits_Ok _ _ _ tt (mkSys (tab s) (threads s) (phases s) m1)).
  { unfold set_iflag, bind, on_mach, lift, get_cpu. by rewrite Hx. }
  eapply waits_Ok; [reflexivity|]. split; [|by left]. exists (at_cpu F c true). apply (inv_phase F _ s c); try done.
  - by eapply lookup_lt_Some.
  - intros i E. congruence.
  - split; [cbn; by rewrite length_insert|done].
  - intros c' N. by rewrite at_cpu_ne.
  - eapply mlocks_ext; [|done|]. 2:{ eapply mlocks_cpu; [apply (iv_locks _ _ _ Hinv)|done|done|]. by rewrite Hh. }
    intros c'. unfold at_cpu. case_decide; [subst; by rewrite Hh|done].
Qed.

(** Releasing a lock on the scheduler's stack. *)
Lemma scheduler_release ph ph' l : phases s !! c = Some ph -> held_at (threads s) ph ≡ₚ l :: held_at (threads s) ph' -> (forall i, ph ≠ CIn i) -> (forall i, ph' ≠ CIn i) ->
  phase_ok (length (locks (mach s))) ph' -> waits (rel c l ;;; set_phase c ph') (fun _ => post s) s.
Proof.
  intros Hph Hh Hno Hno' Hpo. pose proof (lookup_lt_Some _ _ _ Hph) as Hc. assert (Hhb : held_by s c = held_at (threads s) ph) by (unfold held_by; by rewrite Hph).
  destruct (mlocks_release (mach s) (held_by s) F c l (held_at (threads s) ph')) as (m' & Hr & Hml & Hsz);
    [apply (iv_locks _ _ _ Hinv)|by rewrite <- (iv_cpus _ _ _ Hinv)|rewrite Hhb; eapply held_phase_nodup; [by eapply (iv_phase _ _ _ Hinv)|done]|by rewrite Hhb|].
  apply waits_bind, waits_lift. eapply waits_Ok; [exact Hr|]. eapply waits_Ok; [reflexivity|]. split; [|by left]. exists F. cbn.
  apply (inv_phase F); try done. intros i E. rewrite Hph in E. injection E as ->. by eapply Hno.
Qed.

(** Acquiring one. *)
Lemma scheduler_acquire ph ph' l a : phases s !! c = Some ph -> phase_lock (length (locks (mach s))) ph a = Some (l, ph') ->
  waits (acq c l ;;; set_phase c ph') (fun _ => post s) s.
Proof.
  intros Hph Hl. pose proof (lookup_lt_Some _ _ _ Hph) as Hc. assert (Hhb : held_by s c = held_at (threads s) ph) by (unfold held_by; by rewrite Hph).
  destruct (phase_lock_nests _ (threads s) _ _ _ _ (iv_lock0 _ _ _ Hinv) (iv_phase _ _ _ Hinv _ _ Hph) Hl) as ([Hrk Hin Hp] & Hpo & Hno & Hno').
  apply waits_bind, waits_lift. eapply waits_mono.
  { apply (mlocks_acquire (mach s) (held_by s) F c l (held_at (threads s) ph')); [apply (iv_locks _ _ _ Hinv)|by rewrite <- (iv_cpus _ _ _ Hinv)|done|rewrite Hhb; intros E%Hrk; lia|by rewrite Hhb]. }
  intros _ m' [Hml Hsz]. eapply waits_Ok; [reflexivity|]. split; [|by left]. exists F. cbn. apply (inv_phase F); try done.
  intros i E. rewrite Hph in E. injection E as ->. by eapply Hno.
Qed.

Section Switch.
Context (i : nat) (p : proc) (t : thread).
Hypothesis Hph : phases s !! c = Some (CScan i).
Hypothesis Hp : procs (tab s) !! i = Some p.
Hypothesis Hst : p_state p = RUNNABLE.
Hypothesis Ht : threads s !! i = Some t.

Lemma scan_held : held_by s c = [ptable_lock].
Proof. unfold held_by. by rewrite Hph. Qed.

(** A ready process found by the scheduler is on no processor. *)
Lemma ready_off : off_cpu s i.
Proof.
  intros c' E. destruct (ag_on _ (iv_agree _ _ _ Hinv) _ _ _ _ E Hp Ht) as (Es & _). rewrite Hst in Es.
  assert (c' = c) as ->; [|congruence]. eapply (only_holder F s); try done; [rewrite scan_held; left|].
  destruct (t_pc t); cbn in Es; try congruence. left.
Qed.

Lemma ready_thread : (t_pc t = YieldD \/ t_pc t = Forkret \/ exists ch lk, t_pc t = SleepD ch lk) /\ (t_pc t ≠ Forkret -> t_intena t = t_flag t).
Proof. destruct (ag_off _ (iv_agree _ _ _ Hinv) _ _ _ ready_off Hp Ht) as [H1 H2]. rewrite Hst in H1, H2. split; [done|]. intros Hn. by apply H2. Qed.

Lemma ready_held : pc_held (t_pc t) = [ptable_lock].
Proof. destruct ready_thread as [[->|[->|(ch & lk & ->)]] _]; done. Qed.

(** The state after the switch, whatever happens to the saved interrupt flag. *)
Lemma switch_entry F' t' m' : mlocks m' (held_by s) F' -> t_pc t' = t_pc t -> t_fork t' = t_fork t -> same_size (mach s) m' ->
  (forall c', c' ≠ c -> F' c' = F c') -> F' c = t_flag t' ->
  post s (mkSys (mkPtab (<[i := set_state RUNNING p]> (procs (tab s))) (nextpid (tab s)) (initproc (tab s)))
                (<[i := t']> (threads s)) (<[c := CIn i]> (phases s)) m').
Proof.
  intros Hml Hpc Hfk Hsz HF HFc. assert (Hil : i < length (threads s)) by (by eapply lookup_lt_Some).
  assert (Hunf : unfilled s i) by (eapply state_unfilled; [done..|]; by rewrite Hst). destruct ready_thread as [Hrt _].
  split; [|right; unfold ptable; cbn; rewrite (same_forks s i t _ Ht Hfk); apply (step_sched (ptable s) _ i p); [done..|apply upd_proc_Ok; eauto]].
  exists F'. apply (inv_entry F _ s c i (set_state RUNNING p)); try done.
  - right. split_and!; [intros j E; congruence|by eapply lookup_lt_Some|apply ready_off].
  - intros j st. rewrite Hfk. by eapply (ag_fork _ (iv_agree _ _ _ Hinv)).
  - intros st. rewrite Hfk. by eapply Hunf.
  - by intros j [= ->].
  - intros _. split; [|done]. destruct t' as [l' a b x]. cbn in Hpc. subst l'.
    apply running_on; [..|done|]; destruct Hrt as [->|[->|(ch & lk & ->)]]; done.
  - intros _. rewrite Hpc. destruct Hrt as [->|[->|(ch & lk & ->)]]; done.
  - rewrite Hpc. destruct Hsz as [_ ->]. by eapply (ag_pc _ (iv_agree _ _ _ Hinv)).
  - cbn. rewrite list_lookup_insert_eq by done. rewrite Hpc, ready_held.
    eapply mlocks_ext; [|done|exact Hml]. intros c'. unfold at_cpu. case_decide; [subst; by rewrite scan_held|done].
Qed.

Lemma switch_to_step : waits (switch_to ids c i) (fun _ => post s) s.
Proof.
  pose proof (lookup_lt_Some _ _ _ Hph) as Hc. destruct (held_cpu F s c Hinv Hc) as (x & Hx & Hi & Hen & Hn); [by rewrite scan_held|].
  assert (Hcid : c < length ids) by (by rewrite (iv_ids _ _ _ Hinv), <- (iv_cpus _ _ _ Hinv)).
  assert (Hxc : c < length (cpus (mach s))) by (by eapply lookup_lt_Some).
  set (tb' := mkPtab (<[i := set_state RUNNING p]> (procs (tab s))) (nextpid (tab s)) (initproc (tab s))).
  assert (Hu : sched_in i (tab s) = Ok tt tb') by (apply upd_proc_Ok; eauto).
  set (s1 := mkSys tb' (threads s) (<[c := CIn i]> (phases s)) (mach s)).
  unfold switch_to. apply waits_bind. eapply waits_Ok; [reflexivity|]. apply waits_bind, waits_lift. eapply waits_Ok; [exact Hu|].
  change (mkSys _ _ _ _) with s1. apply waits_bind. eapply waits_Ok; [unfold get_thread; cbn; by rewrite Ht|].
  assert (Hget : on_mach (get_cpu c) s1 = Ok x s1) by (unfold on_mach, lift, get_cpu; cbn; by rewrite Hx).
  destruct (decide (t_pc t = Forkret)) as [Ef|Nf].
  - rewrite Ef. apply waits_bind. eapply waits_Ok; [exact Hget|].
    eapply waits_Ok; [unfold upd_thread, get_thread, bind; cbn; rewrite Ht; reflexivity|]. cbn.
    apply (switch_entry F); try done; [apply (iv_locks _ _ _ Hinv)].
  - assert (Hk : waits (k <- mycpu ids c ;; set_intena k (t_intena t)) (fun _ => post s) s1).
    { apply waits_bind. eapply waits_Ok; [by apply (mycpu_runs s1 c x)|]. unfold set_intena. apply waits_bind.
      eapply waits_Ok; [exact Hget|]. eapply waits_Ok; [reflexivity|]. cbn. rewrite <- (list_insert_id (threads s) i t) by done.
      apply (switch_entry (at_cpu F c (t_intena t))); try done.
      - eapply mlocks_cpu; [apply (iv_locks _ _ _ Hinv)|done|done|]. by rewrite scan_held.
      - split; [cbn; by rewrite length_insert|done].
      - intros c' N. by rewrite at_cpu_ne.
      - rewrite at_cpu_eq. by apply ready_thread. }
    destruct (t_pc t); try done.
Qed.
End Switch.

Lemma scheduler_scan_step i : phases s !! c = Some (CScan i) -> waits (scheduler_scan ids c i) (fun _ => post s) s.
Proof.
  intros Hph. unfold scheduler_scan. apply waits_bind. eapply waits_Ok; [reflexivity|]. destruct (i <? _) eqn:Ei.
  - apply Nat.ltb_lt in Ei. destruct (lookup_lt_is_Some_2 _ _ Ei) as [p Hp]. apply waits_bind, (waits_get i p); [done|].
    destruct (thread_exists s i p (iv_agree _ _ _ Hinv) Hp) as [t Ht]. case_bool_decide as Hst; cbn [negb]; [by eapply switch_to_step|].
    eapply waits_Ok; [reflexivity|]. split; [|by left]. exists F. apply (inv_phase F); try done.
    + by eapply lookup_lt_Some.
    + intros j E. congruence.
    + eapply mlocks_ext; [|done|apply (iv_locks _ _ _ Hinv)]. intros c'. unfold at_cpu, held_by. case_decide; [subst; by rewrite Hph|done].
  - eapply scheduler_release; [exact Hph|done..].
Qed.

(** Every step of every processor keeps the invariant, and none panics but the exit of
    init. *)
Lemma exec_step a : c < length (phases s) -> a ≠ AExit \/ phases s !! c ≠ Some (CIn (initproc (tab s))) -> waits (exec ids c a) (fun _ => post s) s.
Proof.
  intros Hc Hni. destruct (lookup_lt_is_Some_2 _ _ Hc) as [ph Hph]. unfold exec. apply waits_bind.
  eapply waits_Ok; [unfold get_phase; by rewrite Hph|]. assert (Hsch : (forall i, ph ≠ CIn i) -> waits (sched_step ids c ph a) (fun _ => post s) s).
  { intros Hno. unfold sched_step. apply waits_bind. eapply waits_Ok; [reflexivity|]. pose proof (iv_phase _ _ _ Hinv _ _ Hph) as Hpo.
    destruct (phase_lock _ ph a) as [[l ph']|] eqn:El; [by eapply scheduler_acquire|].
    destruct ph as [| |i|l|o|i]; [..|by destruct (Hno i)]; destruct a; try done.
    - by apply scheduler_top_step.
    - by apply scheduler_scan_step.
    - by eapply scheduler_release.
    - destruct o as [l|]; by eapply scheduler_release.
    - apply (wakeup_step F s c); [done|]. split; [unfold held_by; rewrite Hph; destruct o; left|]. intros j t E. congruence. }
  destruct ph as [| |i|l|o|i]; try (by apply Hsch).
  pose proof (iv_agree _ _ _ Hinv) as Ha. destruct (lookup_lt_is_Some_2 (threads s) i) as [t Ht]; [by eapply (ag_valid _ Ha)|].
  destruct (proc_exists s i t Ha Ht) as [p Hp]. apply waits_bind. eapply waits_Ok; [unfold get_thread; by rewrite Ht|].
  eapply thread_step_ok; try done. destruct Hni as [|Hni]; [by left|right]. intros ->. congruence.
Qed.
End Step.
End Proofs.

(** ** The whole machine *)

(** After start-up every processor enters its scheduler; the processes of the table
    have not run. *)
Definition booted (ids : list Z) (n : nat) (tb : ptab) : sys :=
  mkSys tb ((fun _ => mkThread Forkret false false None) <$> procs tb) ((fun _ => CIdle) <$> ids)
    (mkMachine ((fun _ => mkCpu 0 false false) <$> ids) (replicate (2 + n) initlock)).

Definition fresh_tab (tb : ptab) : Prop :=
  pt_ok (mkPstate tb (replicate (length (procs tb)) None)) /\ forall i p, procs tb !! i = Some p -> p_state p = UNUSED \/ p_state p = RUNNABLE.

Definition sys_ok (ids : list Z) (s : sys) : Prop := (exists F, inv ids F s) /\ pt_ok (ptable s).

Lemma booted_ptable ids n tb : ptable (booted ids n tb) = mkPstate tb (replicate (length (procs tb)) None).
Proof. unfold ptable. cbn. f_equal. rewrite <- list_fmap_compose. induction (procs tb) as [|p l IH]; [done|]. cbn. by f_equal. Qed.

Lemma booted_ok ids n tb : fresh_tab tb -> sys_ok ids (booted ids n tb).
Proof.
  intros [Hpt Hst]. split; [|by rewrite booted_ptable]. exists (fun _ => false).
  assert (Hph : forall c ph, phases (booted ids n tb) !! c = Some ph -> ph = CIdle).
  { intros c ph E. cbn in E. rewrite list_lookup_fmap in E. destruct (ids !! c); [|done]. by injection E as <-. }
  assert (Hin : forall c i, phases (booted ids n tb) !! c ≠ Some (CIn i)) by (by intros c i ?%Hph).
  assert (Hth : forall i t, threads (booted ids n tb) !! i = Some t -> t = mkThread Forkret false false None).
  { intros i t E. cbn in E. rewrite list_lookup_fmap in E. destruct (procs tb !! i); [|done]. by injection E as <-. }
  assert (Hnone : forall c k, held (replicate k initlock) c = 0) by (intros c k; induction k as [|k IH]; [done|]; by cbn).
  assert (Hby : forall c, held_by (booted ids n tb) c = []).
  { intros c. unfold held_by. cbn. rewrite list_lookup_fmap. by destruct (ids !! c). }
  split; try by (cbn; rewrite ?length_fmap, ?length_replicate).
  - split.
    + cbn. by rewrite length_fmap.
    + intros c1 c2 i E. by apply Hin in E.
    + intros c i E. by apply Hin in E.
    + by intros i t ->%Hth.
    + intros c i p t E. by apply Hin in E.
    + intros i p t _ Hp ->%Hth. split; [|done]. cbn. cbn in Hp. destruct (Hst i p Hp) as [-> | ->]; [by left|by right; left].
    + by intros i t j st ->%Hth.
  - cbn. unfold kmem_lock. rewrite length_replicate. lia.
  - by intros c ph ->%Hph.
  - intros c i t E. by apply Hin in E.
  - split.
    + split; cbn -[replicate].
      * intros c x E. rewrite list_lookup_fmap in E. destruct (ids !! c); [|done]. injection E as <-. unfold cpu_ok. rewrite Hnone. done.
      * intros l k [-> _]%lookup_replicate. cbn. split; [done|]. by intros [? ?].
    + cbn -[replicate]. intros l k c [-> _]%lookup_replicate. rewrite Hby. split; [done|]. by intros ?%elem_of_nil.
    + intros c. rewrite Hby. apply Hnone.
    + intros c l. rewrite Hby. by intros ?%elem_of_nil.
  - intros c i t E. by apply Hin in E.
Qed.

(** The one step that panics: init calls [exit]. *)
Lemma init_exit ids s c : phases s !! c = Some (CIn (initproc (tab s))) ->
  match exec ids c AExit s with Ok _ _ => False | Halt e _ => e = asleep_stop \/ e = panic_stop "init exiting" \/ e = fault_stop /\ threads s !! initproc (tab s) = None end.
Proof.
  intros Hph. unfold exec. rewrite (bind_Ok _ _ s (CIn (initproc (tab s))) s) by (unfold get_phase; by rewrite Hph).
  destruct (threads s !! initproc (tab s)) as [t|] eqn:Ht; unfold bind at 1, get_thread; rewrite Ht; cbn -[thread_step]; [|auto].
  unfold thread_step, bind at 1, gets. assert (El : forall n, lock_stmt n (t_pc t) AExit = None) by (intros n; destruct (t_pc t) as [| |[?|]| | | | | | | | | | | | | |]; done).
  rewrite El. unfold plain_step. destruct (t_pc t) as [| |[?|]| | | | | | | | | | | | | |], (t_fork t) as [[? []]|]; cbn; auto.
  unfold bind, gets. rewrite decide_True by done. by right; left.
Qed.

Lemma exec_sys_ok ids s c a s' : NoDup ids -> sys_ok ids s -> (nextpid (tab s) < 2147483647)%Z -> c < length (phases s) ->
  exec ids c a s = Ok tt s' -> sys_ok ids s' /\ (ptable s' = ptable s \/ pstep (ptable s) (ptable s')).
Proof.
  intros Hnd [[F Hinv] Hpt] Hnp Hc He. assert (Hni : a ≠ AExit \/ phases s !! c ≠ Some (CIn (initproc (tab s)))).
  { destruct (decide (phases s !! c = Some (CIn (initproc (tab s))))) as [E|]; [left|by right]. intros ->. pose proof (init_exit ids s c E) as H. by rewrite He in H. }
  pose proof (exec_step ids Hnd F s c Hinv Hpt a Hc Hni) as Hw. unfold waits in Hw. rewrite He in Hw. destruct Hw as [HF Hst].
  split; [|done]. split; [done|]. destruct Hst as [->|Hst]; [done|by eapply pt_step].
Qed.

Lemma runs_ok ids s s' : NoDup ids -> sys_ok ids s -> rtc (sstep ids) s s' -> sys_ok ids s' /\ rtc pstep_bounded (ptable s) (ptable s').
Proof.
  intros Hnd Hok Hs. induction Hs as [s|s s1 s2 (Hnp & c & a & Hc & He) _ IH]; [split; [done|constructor]|].
  destruct (exec_sys_ok ids s c a s1 Hnd Hok Hnp Hc He) as [Hok1 Hst].
  destruct (IH Hok1) as [Hok2 Hr]. split; [done|]. destruct Hst as [Et|Hst]; [by rewrite <- Et|].
  eapply rtc_l; [|exact Hr]. by split.
Qed.

(** Where a process is in [sleep] on [ch], from the moment it has given up its lock
    until [sched] returns. *)
Definition in_sleep (ch : chan) (l : pc) : bool :=
  match l with SleepB ch' _ | SleepC ch' _ | SleepD ch' _ => bool_decide (ch' = ch) | _ => false end.

Lemma on_or_off s i : (exists c, phases s !! c = Some (CIn i)) \/ off_cpu s i.
Proof.
  destruct (decide (CIn i ∈ phases s)) as [Hin|Hn]; [left; by apply list_elem_of_lookup|right].
  intros c E. apply Hn. by eapply list_elem_of_lookup_2.
Qed.

Lemma decide_rel_exit a : {a = AExit} + {a ≠ AExit}.
Proof. destruct a; (by left) || by right. Qed.

(** C2: In every run of the machine from start-up, with any number of processors and
    any interleaving of their steps: no step panics or faults, save that init may not
    exit, so every call of [sched] is made with interrupts off, the process table
    locked, no other lock held and the state changed, and no lock is taken twice or
    released by another processor; at most one processor holds the table's lock; a
    process is on at most one processor, and on one when its state is RUNNING; a zombie
    that the holder of the lock finds has left its processor, so its stack may be freed;
    and a process that holds no lock has the interrupt flag it had before it slept
    or yielded, on whatever processor it now is. *)
Theorem switch_safe ids n tb s : NoDup ids -> fresh_tab tb -> rtc (sstep ids) (booted ids n tb) s ->
  (forall c a e s', c < length (phases s) -> exec ids c a s = Halt e s' -> e = asleep_stop
      \/ e = panic_stop "init exiting" /\ a = AExit /\ phases s !! c = Some (CIn (initproc (tab s))))
  /\ (forall c1 c2, ptable_lock ∈ held_by s c1 -> ptable_lock ∈ held_by s c2 -> c1 = c2)
  /\ (forall c1 c2 i, phases s !! c1 = Some (CIn i) -> phases s !! c2 = Some (CIn i) -> c1 = c2)
  /\ (forall i p, procs (tab s) !! i = Some p -> p_state p = RUNNING -> exists c, phases s !! c = Some (CIn i))
  /\ (forall c i o t j p, phases s !! c = Some (CIn i) -> threads s !! i = Some t -> t_pc t = Table o ->
        procs (tab s) !! j = Some p -> p_state p = ZOMBIE -> off_cpu s j)
  /\ (forall c i t x, phases s !! c = Some (CIn i) -> threads s !! i = Some t -> t_pc t = Run -> cpus (mach s) !! c = Some x -> iflag x = t_flag t).
Proof.
  intros Hnd Htb Hr. destruct (runs_ok ids _ _ Hnd (booted_ok ids n tb Htb) Hr) as [[[F Hinv] Hpt] _].
  pose proof (iv_agree _ _ _ Hinv) as Ha. split_and!.
  - intros c a e s' Hc He. destruct (decide (phases s !! c = Some (CIn (initproc (tab s))))) as [E|E]; [destruct (decide_rel_exit a) as [->|Hna]|].
    + pose proof (init_exit ids s c E) as Hw. rewrite He in Hw. destruct Hw as [->|[->|[_ Hw]]]; [by left|by right|].
      apply lookup_ge_None in Hw. pose proof (ag_valid _ Ha _ _ E). lia.
    + left. pose proof (exec_step ids Hnd F s c Hinv Hpt a Hc (or_introl Hna)) as Hw. unfold waits in Hw. by rewrite He in Hw.
    + left. pose proof (exec_step ids Hnd F s c Hinv Hpt a Hc (or_intror E)) as Hw. unfold waits in Hw. by rewrite He in Hw.
  - intros c1 c2. apply (mlocks_excl _ _ _ _ _ _ (iv_locks _ _ _ Hinv)).
  - apply (ag_one _ Ha).
  - intros i p Hp Hst. destruct (on_or_off s i) as [|Hoff]; [done|]. destruct (thread_exists s i p Ha Hp) as [t Ht].
    destruct (ag_off _ Ha _ _ _ Hoff Hp Ht) as [H1 _]. by rewrite Hst in H1.
  - intros c i o t j p Hph Ht Hpc Hp Hz. eapply (zombie_off ids F s c); try done. eapply own_holder; [done..| |]; rewrite Hpc; [destruct o; left|done].
  - intros c i t x Hph Ht Hpc Hx. rewrite <- (iv_flag _ _ _ Hinv c i t) by done. destruct (iv_locks _ _ _ Hinv) as [Hok _ Hct _].
    destruct (lo_cpus _ _ Hok c x Hx) as [_ Hi]. rewrite Hct, (thread_held s c i t), Hpc in Hi by done. exact Hi.
Qed.

(** C4: What the processors do to the process table, in any run from start-up, is an
    interleaving of the steps of Proc.v: each step leaves the table alone, or is a
    critical section or one of the statements outside them, with the statements of
    [fork] in their order. *)
Theorem switch_refines ids n tb s : NoDup ids -> fresh_tab tb -> rtc (sstep ids) (booted ids n tb) s ->
  rtc pstep_bounded (mkPstate tb (replicate (length (procs tb)) None)) (ptable s).
Proof.
  intros Hnd Htb Hr. destruct (runs_ok ids _ _ Hnd (booted_ok ids n tb Htb) Hr) as [_ H]. by rewrite booted_ptable in H.
Qed.

(** A [wakeup] changes the table alone, under its lock. *)
Lemma wakeup_exec ids s s' c ch : exec ids c (AWakeup ch) s = Ok tt s' ->
  s' = mkSys (default (tab s) (match wakeup ch (tab s) with Ok _ tb' => Some tb' | _ => None end)) (threads s) (phases s) (mach s)
  /\ ptable_lock ∈ held_by s c /\ forall i t, phases s !! c = Some (CIn i) -> threads s !! i = Some t -> in_sleep ch (t_pc t) = false.
Proof.
  intros He. unfold exec, bind, get_phase in He. unfold held_by. destruct (phases s !! c) as [[| |i|l|o|i]|] eqn:Eph; try done.
  - injection He as <-. split; [done|]. split; [destruct o; left|done].
  - unfold get_thread in He. cbn -[thread_step] in He. destruct (threads s !! i) as [t|] eqn:Et; [|done]. cbn in He |- *. rewrite Et.
    unfold thread_step, bind at 1, gets, plain_step in He.
    destruct (t_pc t) as [| |o| | | | | | | | | | | | | |] eqn:Epc; try done; [destruct o; cbn in He; injection He as <-; (split; [done|]; split; [left|])|..];
      try (by cbn in He; destruct (t_fork t) as [[? []]|]); intros i' t' [= <-]; rewrite Et; intros [= <-]; by rewrite Epc.
Qed.

(** C3: No wakeup is lost.  When a processor, in any run from start-up, wakes the
    processes that sleep on [ch], every process that has given up its lock in
    [sleep] on [ch] and has not gone on is ready to run afterwards; none is between
    giving up the lock and going to sleep. *)
Theorem wakeup_reaches ids n tb s s' c ch : NoDup ids -> fresh_tab tb -> rtc (sstep ids) (booted ids n tb) s ->
  exec ids c (AWakeup ch) s = Ok tt s' -> forall i t p, threads s' !! i = Some t -> procs (tab s') !! i = Some p ->
  p_state p ≠ UNUSED -> in_sleep ch (t_pc t) = true -> p_state p = RUNNABLE.
Proof.
  intros Hnd Htb Hr He. destruct (runs_ok ids _ _ Hnd (booted_ok ids n tb Htb) Hr) as [[[F Hinv] Hpt] _]. clear Hr.
  pose proof (iv_agree _ _ _ Hinv) as Ha. destruct (wakeup_exec ids s s' c ch He) as (-> & Hh & Hme). intros i t p Ht Hp Hu Hin. cbn in Ht, Hp.
  rewrite list_lookup_imap in Hp. destruct (procs (tab s) !! i) as [q|] eqn:Eq; [|done]. cbn in Hp. injection Hp as <-.
  destruct (on_or_off s i) as [[c' Hph]|Hoff].
  - exfalso. assert (c' = c) as -> by (eapply (only_holder ids F s); try done; destruct (t_pc t); try done; left). by rewrite (Hme i t) in Hin.
  - destruct (ag_off _ Ha _ _ _ Hoff Eq Ht) as [H1 _]. destruct (p_state q) eqn:Es; cbn in Hu |- *; rewrite ?Es in Hu |- *; try done.
    + by destruct H1 as [H1|H1]; rewrite H1 in Hin.
    + destruct H1 as (ch' & lk & Epc & Ech). rewrite Epc in Hin. cbn in Hin. apply bool_decide_eq_true in Hin as ->. rewrite Ech, !bool_decide_true; done.
    + by rewrite H1 in Hin.
Qed.

(** ** The processors do not deadlock *)

(** Code that does not wait for a lock. *)
Definition nospin {S A} (m : M S A) : Prop := forall s s', m s ≠ Halt asleep_stop s'.

Lemma nospin_bind {S A B} (m : M S A) (k : A -> M S B) : nospin m -> (forall a, nospin (k a)) -> nospin (bind m k).
Proof. intros Hm Hk s s'. unfold bind. destruct (m s) as [a s1|e s1] eqn:E; [apply Hk|]. intros [= -> ->]. by apply (Hm s s'). Qed.

Lemma nospin_lift {S T A} (get : S -> T) put (m : M T A) : nospin m -> nospin (lift get put m).
Proof. intros Hm s s'. unfold lift. destruct (m (get s)) as [a t|e t] eqn:E; [done|]. intros [= -> _]. by apply (Hm _ t E). Qed.

Lemma nospin_ret {S A} (a : A) : nospin (ret (S := S) a).
Proof. done. Qed.
Lemma nospin_gets {S A} (f : S -> A) : nospin (gets f).
Proof. done. Qed.
Lemma nospin_modify {S} (f : S -> S) : nospin (modify f).
Proof. done. Qed.
Lemma nospin_panic {S A} msg : nospin (panic (S := S) (A := A) msg).
Proof. done. Qed.
Lemma nospin_fault {S A} : nospin (halt (S := S) (A := A) fault_stop).
Proof. done. Qed.
Lemma nospin_from_opt {S A} (f : S -> option A) : nospin (fun s => from_opt (f s) s).
Proof. intros s s'. cbn. by destruct (f s). Qed.
Lemma nospin_opt {S A} (o : option A) : nospin (S := S) (from_opt o).
Proof. by destruct o. Qed.

Create HintDb nospin.

Ltac nospin := repeat first
  [ progress intros
  | apply nospin_bind | apply nospin_lift | apply nospin_panic | apply nospin_ret | apply nospin_gets | apply nospin_modify
  | apply nospin_fault | apply nospin_from_opt | apply nospin_opt
  | match goal with |- nospin (if ?b then _ else _) => destruct b | |- nospin (match ?x with _ => _ end) => destruct x end ].

Lemma nospin_release c l : nospin (release c l).
Proof. unfold release, holding, popcli, pushcli, put_lock, put_cpu. nospin. Qed.

Lemma nospin_rel c l : nospin (rel c l).
Proof. apply nospin_lift, nospin_release. Qed.

Lemma nospin_goto i l : nospin (goto i l).
Proof. unfold goto, upd_thread. nospin. Qed.

Lemma nospin_upd i f : nospin (on_tab (upd_proc i f)).
Proof. unfold on_tab, upd_proc, get_proc. nospin. Qed.

Lemma nospin_mycpu ids c : nospin (mycpu ids c).
Proof. unfold mycpu, on_mach, get_cpu. nospin. Qed.

Lemma nospin_sched ids c back : nospin (sched ids c back).
Proof.
  unfold sched. repeat first [apply nospin_mycpu | progress nospin | progress unfold myproc, holding, pushcli, popcli, put_cpu, upd_thread, set_phase].
Qed.

Lemma nospin_switch ids c i : nospin (switch_to ids c i).
Proof.
  unfold switch_to. repeat first [apply nospin_mycpu | apply nospin_upd | progress nospin | progress unfold set_phase, set_intena, put_cpu, upd_thread].
Qed.

Lemma nospin_scan ids c i : nospin (scheduler_scan ids c i).
Proof. unfold scheduler_scan. repeat first [apply nospin_switch | apply nospin_rel | progress nospin | progress unfold set_phase]. Qed.

Lemma nospin_for_each {S A} (l : list A) (f : A -> M S unit) : (forall x, nospin (f x)) -> nospin (for_each l f).
Proof. intros Hf. induction l as [|x l IH]; cbn [for_each]; [apply nospin_ret|by apply nospin_bind]. Qed.

Lemma nospin_exit i : nospin (on_tab (exit_table i)).
Proof.
  unfold on_tab, exit_table, get_proc, wakeup1, map_procs. repeat first [apply nospin_for_each | progress nospin | progress unfold upd_proc, get_proc, when].
Qed.

#[export] Hint Resolve nospin_exit nospin_bind nospin_rel nospin_goto nospin_upd nospin_sched nospin_scan nospin_panic : nospin.

Lemma waits_runs {S} (m : M S unit) Q s : waits m Q s -> (forall s', m s ≠ Halt asleep_stop s') -> exists s', m s = Ok tt s'.
Proof. unfold waits. intros Hw Hn. destruct (m s) as [[] s'|e s'] eqn:E; [eauto|]. subst e. by destruct (Hn s'). Qed.

(** The lock that processor [c] has to acquire for [a]. *)
Definition wants (s : sys) (c : nat) (a : action) : option nat :=
  let n := length (locks (mach s)) in
  match phases s !! c with
  | Some (CIn i) => t ← threads s !! i; fst <$> lock_stmt n (t_pc t) a
  | Some ph => fst <$> phase_lock n ph a
  | None => None
  end.

(** [a] is a next action of processor [c]: it acquires a lock, for which it may have
    to spin, or it can be carried out. *)
Definition next_action (ids : list Z) (s : sys) (c : nat) (a : action) : Prop := is_Some (wants s c a) \/ exists s', exec ids c a s = Ok tt s'.

(** When [w c] is what each processor [c] is about to do: [c] spins on a lock that [d]
    holds. *)
Definition waits_for (s : sys) (w : nat -> action) (c d : nat) : Prop :=
  exists l k, wants s c (w c) = Some l /\ locks (mach s) !! l = Some k /\ owned d k = true.

Section Progress.
Context (ids : list Z) (F : nat -> bool) (s : sys).
Hypothesis Hids : NoDup ids.
Hypothesis Hinv : inv ids F s.
Hypothesis Hpt : pt_ok (ptable s).

Lemma step_of c a : c < length (phases s) -> a ≠ AExit -> (forall s', exec ids c a s ≠ Halt asleep_stop s') -> exists s', exec ids c a s = Ok tt s'.
Proof. intros Hc Ha Hn. by apply (waits_runs _ _ _ (exec_step ids Hids F s c Hinv Hpt a Hc (or_introl Ha)) Hn). Qed.

(** An action that wants a lock acquires it first, and it comes after the locks that
    the processor holds. *)
Lemma wants_exec c a l : wants s c a = Some l ->
  c < length (phases s) /\ a ≠ AExit /\ l < length (locks (mach s)) /\ (forall k, k ∈ held_by s c -> rank k < rank l)
  /\ exists k : M sys unit, nospin k /\ exec ids c a s = (acq c l ;;; k) s.
Proof.
  unfold wants. destruct (phases s !! c) as [ph|] eqn:Hph; [|done]. pose proof (lookup_lt_Some _ _ _ Hph) as Hc. intros Hw. split; [done|].
  assert (Hhb : held_by s c = held_at (threads s) ph) by (unfold held_by; by rewrite Hph). rewrite Hhb.
  assert (Hex : exec ids c a s = match ph with CIn i => (t <- get_thread i ;; thread_step ids c i t a) s | _ => sched_step ids c ph a s end).
  { unfold exec. rewrite (bind_Ok _ _ s ph s) by (unfold get_phase; by rewrite Hph). by destruct ph. }
  rewrite Hex. assert (Hsch : (fst <$> phase_lock (length (locks (mach s))) ph a = Some l) -> a ≠ AExit /\ l < length (locks (mach s)) /\ (forall k, k ∈ held_at (threads s) ph -> rank k < rank l)
    /\ exists k : M sys unit, nospin k /\ sched_step ids c ph a s = (acq c l ;;; k) s).
  { destruct (phase_lock _ ph a) as [[l' ph']|] eqn:El; [|done]. intros [= <-].
    destruct (phase_lock_nests _ (threads s) _ _ _ _ (iv_lock0 _ _ _ Hinv) (iv_phase _ _ _ Hinv _ _ Hph) El) as ([Hrk Hin _] & _).
    split_and!; [by intros ->; destruct ph|done|done|]. exists (set_phase c ph'). split; [apply nospin_modify|]. unfold sched_step, bind at 1, gets. by rewrite El. }
  destruct ph as [| |i|m|o|i]; try (by apply Hsch). clear Hsch Hex.
  destruct (threads s !! i) as [t|] eqn:Ht; [|done]. cbn in Hw |- *. rewrite Ht. destruct (lock_stmt _ (t_pc t) a) as [[l' q]|] eqn:El; [|done]. injection Hw as <-.
  destruct (lock_stmt_nests _ _ _ _ _ (iv_lock0 _ _ _ Hinv) (ag_pc _ (iv_agree _ _ _ Hinv) _ _ Ht) El) as ([Hrk Hin _] & _).
  split_and!; [by intros ->; destruct (t_pc t) as [| |[?|]| | | | | | | | | | | | | |]|done|done|]. exists (goto i q). split; [apply nospin_goto|].
  rewrite (bind_Ok _ _ s t s) by (unfold get_thread; by rewrite Ht). unfold thread_step, bind at 1, gets. by rewrite El.
Qed.

(** A lock that nobody holds is taken at once. *)
Lemma acquire_untaken m H F' c l : mlocks m H F' -> c < length (cpus m) -> l < length (locks m) -> (forall c', l ∉ H c') ->
  forall m', acquire c l m ≠ Halt asleep_stop m'.
Proof.
  intros Hm Hc Hl Hn m'. pose proof Hm as [Hok Ho Hct Hr].
  destruct (lookup_lt_is_Some_2 _ _ Hc) as [x Hx]. destruct (lookup_lt_is_Some_2 _ _ Hl) as [k Hk].
  assert (Hk0 : forall c', owned c' k = false) by (intros c'; apply not_true_is_false; by rewrite (Ho l k c' Hk)).
  destruct (lo_cpus _ _ Hok c x Hx) as [Hcli _]. rewrite (acquire_runs c l m x k Hx Hk ltac:(lia) (Hk0 c)). cbn zeta.
  destruct (lk_locked k) eqn:El; [|done]. pose proof (proj1 (lo_owner _ _ Hok l k Hk) El) as [c' Ec].
  specialize (Hk0 c'). unfold owned in Hk0. by rewrite El, Ec, bool_decide_true in Hk0.
Qed.

Lemma acq_free c l (k : M sys unit) : c < length (phases s) -> l < length (locks (mach s)) -> (forall c', l ∉ held_by s c') -> nospin k ->
  forall s', (acq c l ;;; k) s ≠ Halt asleep_stop s'.
Proof.
  intros Hc Hl Hn Hk s'. unfold bind, acq, on_mach, lift. rewrite (iv_cpus _ _ _ Hinv) in Hc.
  pose proof (acquire_untaken (mach s) (held_by s) F c l (iv_locks _ _ _ Hinv) Hc Hl Hn) as Ha.
  destruct (acquire c l (mach s)) as [[] m'|e m']; [apply Hk|]. intros [= -> _]. by apply (Ha m').
Qed.

(** A processor that spins does so on a lock that another one holds. *)
Lemma wants_or_steps c a l : wants s c a = Some l ->
  (exists s', exec ids c a s = Ok tt s') \/ exists d k, d < length (phases s) /\ l ∈ held_by s d /\ locks (mach s) !! l = Some k /\ owned d k = true.
Proof.
  intros Hw. destruct (wants_exec c a l Hw) as (Hc & Hna & Hl & _ & k & Hk & He).
  destruct (decide (Exists (fun d => l ∈ held_by s d) (seq 0 (length (phases s))))) as [Hex|Hno].
  - right. apply Exists_exists in Hex as (d & Hd & Hin). apply elem_of_seq in Hd. destruct (lookup_lt_is_Some_2 _ _ Hl) as [x Hx].
    exists d, x. split_and!; [lia|done|done|]. by apply (ml_owner _ _ _ (iv_locks _ _ _ Hinv) l x d Hx).
  - left. apply step_of; [done..|]. intros s'. rewrite He. apply acq_free; try done. intros d Hin. apply Hno, Exists_exists. exists d. split; [|done].
    apply elem_of_seq. split; [lia|]. unfold held_by in Hin. destruct (phases s !! d) eqn:E; [by eapply lookup_lt_Some|by apply elem_of_nil in Hin].
Qed.

(** The chain of processors that wait for each other goes up in the order of the
    locks, and so ends. *)
Lemma chain_ends w : (forall c, c < length (phases s) -> next_action ids s c (w c)) -> forall m c l, wants s c (w c) = Some l -> 2 < rank l + m ->
  exists d s', rtc (waits_for s w) c d /\ exec ids d (w d) s = Ok tt s'.
Proof.
  intros Hw m. induction m as [|m IH]; intros c l Hl Hm.
  { exfalso. unfold rank in Hm. repeat case_match; lia. }
  destruct (wants_or_steps c (w c) l Hl) as [[s' He]|(d & k & Hd & Hin & Hk & Ho)]; [exists c, s'; split; [constructor|done]|].
  assert (Hcd : waits_for s w c d) by (by exists l, k).
  destruct (Hw d Hd) as [[l' Hl']|[s' He]]; [|exists d, s'; split; [by apply rtc_once|done]].
  destruct (wants_exec d (w d) l' Hl') as (_ & _ & _ & Hrk & _). specialize (Hrk l Hin).
  destruct (IH d l' Hl' ltac:(lia)) as (e & s' & Hr & He). exists e, s'. split; [|done]. by eapply rtc_l.
Qed.

(** Every place of the code has a next statement. *)
Definition free_action (l : pc) : action :=
  match l with Run => ATable | Table _ => AUntable | InLock _ | TableK => AUnlock | _ => AStep end.
Definition free_move (ph : phase) : action := match ph with CHand _ => AUnlock | CIntr _ => AUntable | _ => AStep end.

Lemma nospin_sched_move c ph : (forall i, ph ≠ CIn i) -> phase_lock (length (locks (mach s))) ph (free_move ph) = None -> forall s', sched_step ids c ph (free_move ph) s ≠ Halt asleep_stop s'.
Proof.
  intros Hno Hl s'. unfold sched_step, bind at 1, gets. rewrite Hl. revert s'. assert (Hset : forall ph', nospin (set_phase c ph')) by (intros; apply nospin_modify).
  destruct ph as [| |i|l|o|i]; cbn [free_move]; try done; try (by destruct (Hno i)); intros s'.
  - unfold scheduler_top, set_iflag, put_cpu, on_mach, get_cpu. refine (_ : (_ : M sys unit) _ ≠ _). apply nospin_bind; [nospin|auto].
  - apply nospin_scan.
  - apply nospin_bind; auto with nospin.
  - apply nospin_bind; auto with nospin.
Qed.

Lemma has_next c : c < length (phases s) -> exists a, (forall b, a ≠ AFlag b) /\ next_action ids s c a.
Proof.
  intros Hc. destruct (lookup_lt_is_Some_2 _ _ Hc) as [ph Hph].
  assert (Hsch : (forall i, ph ≠ CIn i) -> next_action ids s c (free_move ph)).
  { intros Hno. destruct (phase_lock (length (locks (mach s))) ph (free_move ph)) as [[l ph']|] eqn:El.
    - left. unfold wants. rewrite Hph. destruct ph; rewrite ?El; eauto. by destruct (Hno i).
    - right. apply step_of; [done|by destruct ph|]. intros s'. unfold exec. rewrite (bind_Ok _ _ s ph s) by (unfold get_phase; by rewrite Hph).
      pose proof (nospin_sched_move c ph Hno El s') as H. destruct ph; try done. by destruct (Hno i). }
  destruct ph as [| |i|l|o|i]; try (eexists; split; [|by apply Hsch]; done).
  destruct (lookup_lt_is_Some_2 (threads s) i) as [t Ht]; [by eapply (ag_valid _ (iv_agree _ _ _ Hinv))|].
  destruct (proc_exists s i t (iv_agree _ _ _ Hinv) Ht) as [p Hp]. destruct (ag_on _ (iv_agree _ _ _ Hinv) _ _ _ _ Hph Hp Ht) as (_ & _ & Hnx & _).
  exists (free_action (t_pc t)). split; [by destruct (t_pc t)|].
  destruct (lock_stmt (length (locks (mach s))) (t_pc t) (free_action (t_pc t))) as [[l q]|] eqn:El.
  - left. unfold wants. rewrite Hph, Ht. cbn. rewrite El. eauto.
  - right. apply step_of; [done|by destruct (t_pc t)|]. intros s'. unfold exec. rewrite (bind_Ok _ _ s (CIn i) s) by (unfold get_phase; by rewrite Hph).
    rewrite (bind_Ok _ _ s t s) by (unfold get_thread; by rewrite Ht). unfold thread_step, bind at 1, gets. rewrite El. clear Hsch Hnx Hp.
    assert (Hn : t_pc t ≠ Run -> t_pc t ≠ ExitA -> (forall l, t_pc t ≠ SleepF l) -> nospin (plain_step ids c i t (free_action (t_pc t)))).
    { unfold plain_step. intros H1 H2 H3. destruct (t_pc t) as [|l|[l|]| |ch l|ch lk|ch lk|ch lk|l|l| | | | | | |]; try done; try (by destruct (H3 l)); cbn [free_action];
        unfold sleep_on, sleep_tidy; auto with nospin. }
    apply Hn; [intros E|intros E|intros l E]; rewrite E in El; discriminate El.
Qed.
End Progress.

(** C5: The processors never deadlock.  In every run from start-up each processor has a
    next statement; and whatever statement each of them is about to execute (it is not
    ours to choose, and one that acquires a lock spins while another processor holds
    it), the processors that [c] waits for, directly or through others, lead to one
    whose statement can be carried out: nobody is in a circle of waiting. *)
Theorem never_deadlocks ids n tb s : NoDup ids -> fresh_tab tb -> rtc (sstep ids) (booted ids n tb) s ->
  (forall c, c < length (phases s) -> exists a, (forall b, a ≠ AFlag b) /\ next_action ids s c a)
  /\ forall w, (forall c, c < length (phases s) -> next_action ids s c (w c)) ->
       forall c, c < length (phases s) -> exists d s', rtc (waits_for s w) c d /\ exec ids d (w d) s = Ok tt s'.
Proof.
  intros Hnd Htb Hr. destruct (runs_ok ids _ _ Hnd (booted_ok ids n tb Htb) Hr) as [[[F Hinv] Hpt] _]. split; [intros c; by eapply has_next|].
  intros w Hw c Hc. destruct (Hw c Hc) as [[l Hl]|[s' He]]; [by eapply (chain_ends ids F s Hnd Hinv Hpt w Hw 3 c l); [|lia]|].
  exists c, s'. split; [constructor|done].
Qed.

(** ** A run on two processors *)

(** The steps of a list of processors and actions. *)
Fixpoint run_actions (ids : list Z) (l : list (nat * action)) (s : sys) : option sys :=
  match l with
  | [] => Some s
  | (c, a) :: l' =>
      if (c <? length (phases s)) && (nextpid (tab s) <? 2147483647)%Z then
        match exec ids c a s with Ok _ s' => run_actions ids l' s' | Halt _ _ => None end
      else None
  end.

Lemma run_actions_rtc ids l s s' : run_actions ids l s = Some s' -> rtc (sstep ids) s s'.
Proof.
  revert s. induction l as [|[c a] l IH]; intros s Hr; cbn [run_actions] in Hr; [injection Hr as ->; constructor|].
  destruct ((c <? length (phases s)) && (nextpid (tab s) <? 2147483647)%Z) eqn:E; [|done].
  apply andb_prop in E as [E1%Nat.ltb_lt E2%Z.ltb_lt].
  destruct (exec ids c a s) as [[] s1|] eqn:Ee; [|done]. eapply rtc_l; [|by apply IH]. split; [done|]. eauto.
Qed.

(** init is ready.  It runs on the second processor and sleeps there under lock 2
    while the first one scans the table. *)
Definition demo_ids : list Z := [0; 4]%Z.
Definition demo_tab : ptab := mkPtab (set_state RUNNABLE init_proc :: replicate 63 free_proc) 2 0.
Definition demo_actions : list (nat * action) :=
  [(1, AStep); (1, AStep); (1, AStep); (1, AStep); (0, AStep); (0, AStep); (1, ALock 2); (0, AStep)]
  ++ replicate 63 (0, AStep) ++ [(0, AStep); (1, ASleep (ChAddr 5)); (1, AStep); (1, AStep); (1, AStep)] ++ replicate 64 (1, AStep)
  ++ [(0, AStep); (0, ATable)].
Definition demo_sys : sys := default (booted demo_ids 2 demo_tab) (run_actions demo_ids demo_actions (booted demo_ids 2 demo_tab)).

Lemma demo_tab_fresh : fresh_tab demo_tab.
Proof.
  split.
  - apply (pt_similar (mkPstate demo_ptab no_forks)); [apply demo_pt_ok|]. split_and!; try reflexivity.
    intros [|i] p'; cbn [procs demo_tab demo_ptab pt]; [|intros E; exists p'; done]. intros [= <-]. exists init_proc. done.
  - intros [|i] p; [intros [= <-]; by right|]. cbn. intros [-> _]%(lookup_replicate 63). by left.
Qed.

Lemma demo_nodup : NoDup demo_ids.
Proof. apply NoDup_cons. split; [by intros [[=]|[]%elem_of_nil]%elem_of_cons|apply NoDup_singleton]. Qed.

Lemma demo_reach : rtc (sstep demo_ids) (booted demo_ids 2 demo_tab) demo_sys.
Proof. apply (run_actions_rtc demo_ids demo_actions). vm_compute. reflexivity. Qed.

Definition demo_running : sys := default (booted demo_ids 2 demo_tab) (run_actions demo_ids (take 7 demo_actions) (booted demo_ids 2 demo_tab)).

Lemma demo_running_reach : rtc (sstep demo_ids) (booted demo_ids 2 demo_tab) demo_running.
Proof. apply (run_actions_rtc demo_ids (take 7 demo_actions)). vm_compute. reflexivity. Qed.

Lemma switch_safe_witness : exists c, phases demo_running !! c = Some (CIn 0).
Proof.
  destruct (switch_safe demo_ids 2 demo_tab demo_running demo_nodup demo_tab_fresh demo_running_reach) as (_ & _ & _ & H & _).
  apply (H 0 init_proc); vm_compute; reflexivity.
Defined.

(** init forks on the first processor; the child gets a stack and a page table before
    the timer takes the processor away. *)
Definition demo_fork : list (nat * action) :=
  [(0, AStep); (0, AStep); (0, AStep); (0, AStep); (0, ATable); (0, AAlloc); (0, AUntable); (0, AFork 12288); (0, AFork 8192); (0, ATable); (0, AYield); (0, AStep)].
Definition demo_forking : sys := default (booted demo_ids 2 demo_tab) (run_actions demo_ids demo_fork (booted demo_ids 2 demo_tab)).

Lemma switch_refines_witness : rtc pstep_bounded (mkPstate demo_tab (replicate 64 None)) (ptable demo_forking) /\ forks (ptable demo_forking) !! 0 = Some (Some (1, FUid)).
Proof.
  split; [|vm_compute; reflexivity]. apply (switch_refines demo_ids 2 demo_tab demo_forking demo_nodup demo_tab_fresh).
  apply (run_actions_rtc demo_ids demo_fork). vm_compute. reflexivity.
Defined.

Definition demo_woken : sys := match exec demo_ids 0 (AWakeup (ChAddr 5)) demo_sys with Ok _ s => s | Halt _ s => s end.

Lemma wakeup_reaches_witness : p_state (nth 0 (procs (tab demo_woken)) free_proc) = RUNNABLE.
Proof.
  apply (wakeup_reaches demo_ids 2 demo_tab demo_sys demo_woken 0 (ChAddr 5) demo_nodup demo_tab_fresh demo_reach) with
    (i := 0) (t := mkThread (SleepD (ChAddr 5) (Some 2)) true true None); vm_compute; try reflexivity; discriminate.
Defined.

(** The second processor is about to call [sleep] under lock 2 and spins on the lock of the
    table, which the first one, looking at the table, holds. *)
Definition demo_about (c : nat) : action := match c with 1 => ASleep (ChAddr 5) | _ => AStep end.

Lemma never_deadlocks_witness : waits_for demo_running demo_about 1 0 /\
  exists d s', rtc (waits_for demo_running demo_about) 1 d /\ exec demo_ids d (demo_about d) demo_running = Ok tt s'.
Proof.
  split; [exists 0, (mkSpinlock true (Some 0)); vm_compute; split_and!; reflexivity|].
  destruct (never_deadlocks demo_ids 2 demo_tab demo_running demo_nodup demo_tab_fresh demo_running_reach) as [_ H]. apply (H demo_about); [|vm_compute; lia].
  intros [|[|c]] Hc; [right; eexists; vm_compute; reflexivity|left; exists 0; vm_compute; reflexivity|exfalso; vm_compute in Hc; lia].
Defined.
