(* ===== verification/Sys.v ===== *)
(** * User programs as interaction trees over the system calls

    A program is an interaction tree whose events are its system calls.  What the
    calls do is given by [step], the user's view of the kernel: descriptors are
    entries of a table of open files, a read of a file on disk returns all it asks
    for that is left, a read of a pipe or device returns some non-empty part of it
    (so every way the kernel may cut the input is covered), the
    lowest free descriptor is used, a write to an open file succeeds, every other
    call may fail, and calls are recorded with their answers.
    [ends Q t w] says that every run of [t] from [w] ends, without a fault, in a
    state that satisfies [Q]; a forked child runs until it exits or becomes
    another program, and then its parent goes on with its own descriptors.  A
    program that was started may read and write the open files it was given. *)

From ITree Require Import ITree.
From S2P Require Import Prelude CString Params Ulib Fs.

(** An argument of [printf] or of a call that is only recorded. *)
Inductive arg := AInt (z : Z) | AStr (s : list Z).

(** The system calls of user.h; [SysCall] are those whose effect no program
    observes.  [SysFault] is an access outside the program's objects. *)
Variant sysE : Type -> Type :=
| SysRead (fd n : Z) : sysE (Z * list Z)
| SysWrite (fd : Z) (b : list Z) : sysE Z
| SysOpen (path : list Z) (mode : Z) : sysE Z
| SysClose (fd : Z) : sysE Z
| SysDup (fd : Z) : sysE Z
| SysPipe : sysE (option (Z * Z))
| SysFork : sysE Z
| SysWait : sysE Z
| SysExec (path : list Z) (argv : list (list Z)) : sysE Z
| SysExit : sysE Empty_set
| SysFstat (fd : Z) : sysE (option stat)
| SysChdir (path : list Z) : sysE Z
| SysCall (name : string) (args : list arg) : sysE Z
| SysFault : sysE Empty_set.

Definition prog := itree sysE.

Declare Scope prog_scope.
Delimit Scope prog_scope with prog.
Bind Scope prog_scope with prog.

Notation "x <- c ;; k" := (ITree.bind c (fun x => k)) (at level 100, c at next level, right associativity) : prog_scope.
Notation "'let*' p := c 'in' k" := (ITree.bind c (fun p => k))
  (at level 100, p strict pattern, c at level 200, right associativity) : prog_scope.
Notation "c ;;; k" := (ITree.bind c (fun _ => k)) (at level 100, right associativity) : prog_scope.
Local Open Scope prog_scope.

Definition sys {A} (e : sysE A) : prog A := ITree.trigger e.
Definition exit {A} : prog A := Vis SysExit (fun x : Empty_set => match x with end).
Definition fault {A} : prog A := Vis SysFault (fun x : Empty_set => match x with end).
Definition of_option {A} (o : option A) : prog A := match o with Some a => Ret a | None => fault end.

Definition cstring (s : string) : list Z := bytes_of s ++ [0].

(** [putc]: one [write] for each character. *)
Fixpoint print (fd : Z) (l : list Z) : prog unit :=
  match l with [] => Ret tt | c :: l' => sys (SysWrite fd [c]) ;;; print fd l' end.

(** [printf]: a string argument is passed by its position. *)
Definition arg_word (i : nat) (a : arg) : Z := match a with AInt z => u32 z | AStr _ => Z.of_nat i + 1 end.
Definition arg_string (args : list arg) (a : Z) : option (list Z) :=
  match args !! Z.to_nat (a - 1) with Some (AStr s) => Some s | _ => None end.
Definition format (fmt : list Z) (args : list arg) : option (list Z) :=
  printf (arg_string args) (fmt ++ [0]) false (imap arg_word args).
Definition uprintf (fd : Z) (fmt : list Z) (args : list arg) : prog unit :=
  out <- of_option (format fmt args) ;; print fd out.

(** [gets]: the bytes stored before the NUL; [room] is [max - 1]. *)
Fixpoint gets_bytes (room : nat) : prog (list Z) :=
  match room with
  | O => Ret []
  | S room' =>
      let* (cc, c) := sys (SysRead 0 1) in
      if cc <? 1 then Ret []
      else match c with
           | [] => Ret []
           | ch :: _ => if (ch =? 10) || (ch =? 13) then Ret [ch] else l <- gets_bytes room' ;; Ret (ch :: l)
           end
  end.

(** ** The user's view of the kernel *)

(** A file on disk or a device opened by its name, or an end of a pipe. *)
Inductive okind := OPath (path : list Z) (mode : Z) (dev : bool) | OPipe (id : nat) (writer : bool).

(** An open file: what is left to read, and what was written. *)
Record ofile := mkOfile { of_kind : okind; of_rest : list Z; of_out : list Z }.

(** What is recorded, with the answers of the kernel: a file was opened, with what
    there is to read in it and whether it is a device; a process became a program, with its descriptors and
    directory; another call. *)
Inductive act :=
| AOpen (path : list Z) (mode : Z) (c : option (bool * list Z))
| ASpawn (path : list Z) (argv : list (list Z)) (fds : gmap Z nat) (cwd : list (list Z))
| ACall (name : string) (args : list arg) (r : Z).

(** The descriptors of the running process, the directories it has changed to, the
    open files of all processes, and the record. *)
Record world := mkWorld { w_fds : gmap Z nat; w_cwd : list (list Z); w_open : list ofile; w_acts : list act }.

Definition with_fds (m : gmap Z nat) (w : world) : world := mkWorld m (w_cwd w) (w_open w) (w_acts w).
(** [w'] seen by the process of [w]. *)
Definition back_in (w w' : world) : world := mkWorld (w_fds w) (w_cwd w) (w_open w') (w_acts w').
Definition with_open (l : list ofile) (w : world) : world := mkWorld (w_fds w) (w_cwd w) l (w_acts w).
Definition chdir_to (path : list Z) (w : world) : world := mkWorld (w_fds w) (w_cwd w ++ [path]) (w_open w) (w_acts w).
Definition upd_file (o : nat) (g : ofile -> ofile) (w : world) : world := mkWorld (w_fds w) (w_cwd w) (alter g o (w_open w)) (w_acts w).
Definition act_on (a : act) (w : world) : world := mkWorld (w_fds w) (w_cwd w) (w_open w) (w_acts w ++ [a]).

Definition fd_file (w : world) (fd : Z) : option (nat * ofile) :=
  o ← w_fds w !! fd; f ← w_open w !! o; Some (o, f).

Definition free_fd (m : gmap Z nat) : option Z := List.find (fun fd => bool_decide (m !! fd = None)) (seqZ 0 NOFILE).

(** A new open file in descriptor [fd]. *)
Definition new_fd (fd : Z) (f : ofile) (w : world) : world :=
  mkWorld (<[fd := length (w_open w)]> (w_fds w)) (w_cwd w) (w_open w ++ [f]) (w_acts w).

Definition take_out (n : nat) (f : ofile) : ofile := mkOfile (of_kind f) (drop n (of_rest f)) (of_out f).
Definition put_out (b : list Z) (f : ofile) : ofile := mkOfile (of_kind f) (of_rest f) (of_out f ++ b).

(** The file opened in [fd]; [c] is what there is to read. *)
Definition opened (path : list Z) (mode : Z) (dev : bool) (c : list Z) (fd : Z) (w : world) : world :=
  act_on (AOpen path mode (Some (dev, c))) (new_fd fd (mkOfile (OPath path mode dev) c []) w).
Definition not_opened (path : list Z) (mode : Z) (w : world) : world := act_on (AOpen path mode None) w.

(** A pipe with its two ends in [r] and [wr]. *)
Definition piped (r wr : Z) (w : world) : world :=
  let id := length (w_open w) in
  new_fd wr (mkOfile (OPipe id true) [] []) (new_fd r (mkOfile (OPipe id false) [] []) w).

Definition on_disk (k : okind) : bool := match k with OPath _ _ dev => negb dev | _ => false end.

(** What the kernel promises of [struct stat]: the name is a string, and the owner
    an [uint]. *)
Definition stat_ok (st : stat) : bool := (zlen (st_owner_name st) =? 16) && terminated (st_owner_name st) && (0 <=? st_owner st) && (st_owner st <? 2 ^ 32).

Definition step {A} (e : sysE A) (w : world) : A -> world -> Prop :=
  match e in sysE A return A -> world -> Prop with
  | SysRead fd n => fun x w' =>
      match fd_file w fd with
      | None => x = (-1, []) /\ w' = w
      | Some (o, f) =>
          ((n <= 0 \/ of_rest f = []) /\ x = (0, []) /\ w' = w)
          \/ exists m, (0 < m)%nat /\ (m <= length (of_rest f))%nat /\ Z.of_nat m <= n
               /\ (on_disk (of_kind f) = true -> Z.of_nat m = Z.min n (zlen (of_rest f)))
               /\ x = (Z.of_nat m, take m (of_rest f)) /\ w' = upd_file o (take_out m) w
      end
  | SysWrite fd b => fun x w' =>
      match fd_file w fd with
      | None => x = -1 /\ w' = w
      | Some (o, f) => x = zlen b /\ w' = upd_file o (put_out b) w
      end
  | SysOpen path mode => fun x w' =>
      x = -1 /\ w' = not_opened path mode w
      \/ exists dev c, free_fd (w_fds w) = Some x /\ w' = opened path mode dev c x w
  | SysClose fd => fun x w' =>
      match w_fds w !! fd with None => x = -1 /\ w' = w | Some _ => x = 0 /\ w' = with_fds (delete fd (w_fds w)) w end
  | SysDup fd => fun x w' =>
      match o ← w_fds w !! fd; fd' ← free_fd (w_fds w); Some (o, fd') with
      | None => x = -1 /\ w' = w
      | Some (o, fd') => x = fd' /\ w' = with_fds (<[fd' := o]> (w_fds w)) w
      end
  | SysPipe => fun x w' =>
      x = None /\ w' = w
      \/ exists r wr, free_fd (w_fds w) = Some r /\ free_fd (<[r := length (w_open w)]> (w_fds w)) = Some wr
           /\ x = Some (r, wr) /\ w' = piped r wr w
  | SysWait => fun x w' => w' = w
  | SysFstat fd => fun x w' => w' = w /\ match x with Some st => stat_ok st = true | None => True end
  | SysChdir path => fun x w' => x = -1 /\ w' = w \/ x = 0 /\ w' = chdir_to path w
  | SysCall name args => fun x w' => w' = act_on (ACall name args x) w
  | SysExec _ _ | SysFork | SysExit | SysFault => fun x w' => False
  end.

(** The calls that [step] describes. *)
Definition plain {A} (e : sysE A) : bool :=
  match e with SysFork | SysExit | SysFault | SysExec _ _ => false | _ => true end.

(** What a program may do to the open files: use up some of the input, and write. *)
Definition used (l l' : list ofile) : Prop :=
  forall i f, l !! i = Some f -> exists f' a b, l' !! i = Some f' /\ of_kind f' = of_kind f
    /\ of_rest f = a ++ of_rest f' /\ of_out f' = of_out f ++ b.

(** The process is now running a program. *)
Definition spawned (path : list Z) (argv : list (list Z)) (l : list ofile) (w : world) : world :=
  act_on (ASpawn path argv (w_fds w) (w_cwd w)) (with_open l w).

(** [exec] and [fork] may fail. *)
Inductive ends {R : Type} (Q : option R -> world -> Prop) : prog R -> world -> Prop :=
| ends_ret t w r : observe t = RetF r -> Q (Some r) w -> ends Q t w
| ends_tau t t' w : observe t = TauF t' -> ends Q t' w -> ends Q t w
| ends_call t w A (e : sysE A) k : observe t = VisF e k -> plain e = true ->
    (forall x w', step e w x w' -> ends Q (k x) w') -> ends Q t w
| ends_exit t w k : observe t = VisF SysExit k -> Q None w -> ends Q t w
| ends_exec t w path argv k : observe t = VisF (SysExec path argv) k ->
    (forall l, used (w_open w) l -> Q None (spawned path argv l w)) -> ends Q (k (-1)) w -> ends Q t w
| ends_fork t w k (P : world -> Prop) : observe t = VisF SysFork k ->
    ends Q (k (-1)) w -> ends (fun r w' => r = None /\ P w') (k 0) w ->
    (forall w' pid, P w' -> 0 < pid -> ends Q (k pid) (back_in w w')) -> ends Q t w.

(** Every call that [step] describes has an outcome. *)
Lemma step_total {A} (e : sysE A) w : plain e = true -> exists x w', step e w x w'.
Proof.
  destruct e; cbn; intros Hp; try done.
  - destruct (fd_file w fd) as [[o f]|]; [|eauto]. destruct (of_rest f) as [|c r] eqn:Er; [eexists _, _; left; eauto|].
    destruct (decide (n <= 0)); [eexists _, _; left; eauto|]. eexists _, _. right.
    exists (Z.to_nat (Z.min n (zlen (c :: r)))). unfold zlen. cbn [length]. split; [lia|]. split; [lia|]. split; [lia|]. split; [lia|]. done.
  - destruct (fd_file w fd) as [[o f]|]; eauto.
  - eauto.
  - destruct (w_fds w !! fd); eauto.
  - destruct (_ ≫= _) as [[o fd']|]; eauto.
  - eauto.
  - by exists 0, w.
  - by exists None, w.
  - eauto.
  - by exists 0, (act_on (ACall name args 0) w).
Qed.

Lemma ends_mono {R} (Q Q' : option R -> world -> Prop) t w : (forall r w, Q r w -> Q' r w) -> ends Q t w -> ends Q' t w.
Proof.
  intros HQ H. revert Q' HQ. induction H; intros Q' HQ.
  - eapply ends_ret; eauto.
  - eapply ends_tau; eauto.
  - eapply ends_call; eauto.
  - eapply ends_exit; eauto.
  - eapply ends_exec; eauto.
  - eapply ends_fork; eauto.
Qed.

(** How the first event of a sequence is found. *)
Lemma observe_seq {R B} (t : prog R) (k : R -> prog B) :
  observe (ITree.bind t k) = match observe t with
                             | RetF r => observe (k r)
                             | TauF t' => TauF (ITree.bind t' k)
                             | VisF e h => VisF e (fun x => ITree.bind (h x) k)
                             end.
Proof.
  change (observe (ITree.bind t k)) with (observe (match observe t with
    | RetF r => k r | TauF t' => Tau (ITree.bind t' k) | VisF e h => Vis e (fun x => ITree.bind (h x) k) end)).
  by destruct (observe t).
Qed.

Lemma ends_observe {R} (t t' : prog R) Q w : observe t' = observe t -> ends Q t w -> ends Q t' w.
Proof.
  intros Eo H. destruct H as [t w r Ho|t t1 w Ho|t w A e h Ho|t w h Ho|t w path argv h Ho|t w h P' Ho]; rewrite <- Eo in Ho.
  - by eapply ends_ret.
  - by eapply ends_tau.
  - by eapply ends_call.
  - by eapply ends_exit.
  - by eapply ends_exec.
  - by eapply ends_fork.
Qed.

(** Sequencing; a program that exits does not go on. *)
Lemma ends_bind {R B} (t : prog R) (k : R -> prog B) Q w :
  ends (fun r w' => match r with Some a => ends Q (k a) w' | None => Q None w' end) t w -> ends Q (ITree.bind t k) w.
Proof.
  intros H. remember (fun r w' => match r with Some a => ends Q (k a) w' | None => Q None w' end) as P eqn:EP.
  assert (HP : forall r w', P r w' -> match r with Some a => ends Q (k a) w' | None => Q None w' end) by (subst P; done). clear EP.
  revert Q HP. induction H as [P t w r Ho HQ|P t t' w Ho _ IH|P t w A e h Ho Hp _ IH|P t w h Ho HQ|P t w path argv h Ho HQ _ IH|P t w h P' Ho _ IHf _ IHc _ IH];
    intros Q HP; pose proof (observe_seq t k) as Eo; rewrite Ho in Eo.
  - eapply ends_observe; [exact Eo|]. exact (HP _ _ HQ).
  - eapply ends_tau; [exact Eo|]. by apply IH.
  - eapply ends_call; [exact Eo|done|]. intros x w' Hs. by apply IH.
  - eapply ends_exit; [exact Eo|]. by apply (HP None).
  - eapply ends_exec; [exact Eo|by intros l Hl; apply (HP None), HQ|by apply IH].
  - eapply (ends_fork _ _ _ _ P'); [exact Eo|by apply IHf| |].
    + apply IHc. intros [a|] w' [Hr Hw]; done.
    + intros w' pid Hw Hpid. by apply IH.
Qed.

(** ** Rules for the calls *)

Lemma ends_Ret {R} (r : R) Q w : Q (Some r) w -> ends Q (Ret r) w.
Proof. by eapply ends_ret. Qed.

Lemma ends_Exit {R} (Q : option R -> world -> Prop) w : Q None w -> ends Q exit w.
Proof. by eapply ends_exit. Qed.

Lemma ends_sys {A} (e : sysE A) Q w : plain e = true -> (forall x w', step e w x w' -> Q (Some x) w') -> ends Q (sys e) w.
Proof. intros Hp HQ. eapply ends_call; [reflexivity|done|]. intros x w' Hs. apply ends_Ret. auto. Qed.

(** A loop: [I] holds at the start of every round with less [measure]. *)
Lemma ends_iter {J R} (body : J -> prog (J + R)) (I : J -> world -> nat -> Prop) Q :
  (forall j w n, I j w n -> ends (fun r w' => match r with
     | Some (inl j') => exists m, (m < n)%nat /\ I j' w' m
     | Some (inr r) => Q (Some r) w'
     | None => Q None w' end) (body j) w) ->
  forall n j w, I j w n -> ends Q (ITree.iter body j) w.
Proof.
  intros Hb n. induction (lt_wf n) as [n _ IH]. intros j w Hj.
  eapply (ends_observe (ITree.bind (body j) (fun lr => match lr with inl l => Tau (ITree.iter body l) | inr r => Ret r end))); [reflexivity|].
  apply ends_bind. eapply ends_mono; [|by apply Hb]. intros [[j'|r]|] w'; cbn; [|by intros; apply ends_Ret|done].
  intros (m & Hm & Hj'). eapply ends_tau; [reflexivity|]. by apply (IH m).
Qed.

(** ** Open files *)

Lemma fd_file_upd o g w fd : fd_file (upd_file o g w) fd = (fun x => (x.1, if decide (x.1 = o) then g x.2 else x.2)) <$> fd_file w fd.
Proof.
  unfold fd_file, upd_file. cbn [w_fds w_open]. destruct (w_fds w !! fd) as [o'|]; [|done]. cbn [mbind option_bind].
  destruct (decide (o' = o)) as [->|Hne].
  - rewrite list_lookup_alter_eq. destruct (w_open w !! o); cbn; [|done]. by rewrite decide_True.
  - rewrite list_lookup_alter_ne by done. destruct (w_open w !! o'); cbn; [|done]. by rewrite decide_False.
Qed.

Lemma lookup_alter_if {A} (g : A -> A) o (l : list A) i :
  alter g o l !! i = (fun x => if decide (i = o) then g x else x) <$> l !! i.
Proof.
  destruct (decide (i = o)) as [->|Hne]; [apply list_lookup_alter_eq|]. rewrite list_lookup_alter_ne by done. by destruct (l !! i).
Qed.

(** Two ways of changing the open files agree when they do on each. *)
Lemma world_eq w w' : w_fds w = w_fds w' -> w_cwd w = w_cwd w' -> w_acts w = w_acts w' -> (forall i, w_open w !! i = w_open w' !! i) -> w = w'.
Proof. destruct w, w'. cbn. intros -> -> -> H. f_equal. by apply list_eq. Qed.

Ltac by_files := apply world_eq; [done|done|done|]; intros i; cbn [w_open upd_file]; rewrite ?lookup_alter_if;
  match goal with |- context [?l !! i] => destruct (l !! i); cbn; [|done] end; repeat case_decide; try done; f_equal; auto.

Lemma upd_file_upd o g h w : upd_file o g (upd_file o h w) = upd_file o (fun f => g (h f)) w.
Proof. by_files. Qed.

Lemma upd_file_ext o g h w : (forall f, g f = h f) -> upd_file o g w = upd_file o h w.
Proof. intros Hg. by_files. Qed.

Lemma upd_file_comm o o' g h w : (forall f, g (h f) = h (g f)) -> upd_file o g (upd_file o' h w) = upd_file o' h (upd_file o g w).
Proof. intros Hc. by_files. Qed.

Lemma upd_file_id o g w : (forall f, g f = f) -> upd_file o g w = w.
Proof. intros Hg. by_files. Qed.

Lemma put_out_app a b f : put_out b (put_out a f) = put_out (a ++ b) f.
Proof. unfold put_out. cbn. by rewrite app_assoc. Qed.

Lemma take_out_add m n f : take_out n (take_out m f) = take_out (m + n) f.
Proof. unfold take_out. cbn. by rewrite drop_drop. Qed.

(** What [w] has written to open file [o] grows by [b]. *)
Definition emit (o : nat) (b : list Z) (w : world) : world := upd_file o (put_out b) w.
(** [n] bytes of open file [o] are used up. *)
Definition drain (o : nat) (n : nat) (w : world) : world := upd_file o (take_out n) w.

Lemma emit_emit o a b w : emit o b (emit o a w) = emit o (a ++ b) w.
Proof. unfold emit. rewrite upd_file_upd. apply upd_file_ext. intros f. apply put_out_app. Qed.
Lemma emit_nil o w : emit o [] w = w.
Proof. apply upd_file_id. intros [k r b]. unfold put_out. cbn. by rewrite app_nil_r. Qed.
Lemma drain_drain o m n w : drain o n (drain o m w) = drain o (m + n) w.
Proof. unfold drain. rewrite upd_file_upd. apply upd_file_ext. intros f. apply take_out_add. Qed.
Lemma drain_0 o w : drain o 0 w = w.
Proof. apply upd_file_id. by intros [k r b]. Qed.
Lemma drain_emit o o' n b w : drain o n (emit o' b w) = emit o' b (drain o n w).
Proof. by apply upd_file_comm. Qed.

(** The open file behind a descriptor stays; its contents follow. *)
Lemma fd_file_emit o b w fd o' f : fd_file w fd = Some (o', f) -> exists f', fd_file (emit o b w) fd = Some (o', f') /\ of_rest f' = of_rest f
  /\ of_kind f' = of_kind f.
Proof. intros E. unfold emit. rewrite fd_file_upd, E. cbn. eexists. split; [done|]. by case_decide. Qed.
Lemma fd_file_drain o n w fd o' f : fd_file w fd = Some (o', f) -> exists f', fd_file (drain o n w) fd = Some (o', f')
  /\ of_rest f' = (if decide (o' = o) then drop n (of_rest f) else of_rest f) /\ of_kind f' = of_kind f.
Proof. intros E. unfold drain. rewrite fd_file_upd, E. cbn. eexists. split; [done|]. by case_decide. Qed.

Lemma ends_write fd b Q w o f : fd_file w fd = Some (o, f) -> Q (Some (zlen b)) (emit o b w) -> ends Q (sys (SysWrite fd b)) w.
Proof. intros Ef HQ. apply ends_sys; [done|]. cbn. rewrite Ef. by intros x w' [-> ->]. Qed.

Lemma ends_print fd l : forall Q w o f, fd_file w fd = Some (o, f) -> Q (Some tt) (emit o l w) -> ends Q (print fd l) w.
Proof.
  induction l as [|c l IH]; intros Q w o f Ef HQ; cbn [print].
  - apply ends_Ret. by rewrite emit_nil in HQ.
  - apply ends_bind. eapply ends_write; [done|]. destruct (fd_file_emit o [c] w fd o f Ef) as (f' & Ef' & _).
    eapply IH; [done|]. by rewrite emit_emit.
Qed.

Lemma ends_printf fd fmt args out Q w o f : fd_file w fd = Some (o, f) -> format fmt args = Some out ->
  Q (Some tt) (emit o out w) -> ends Q (uprintf fd fmt args) w.
Proof. intros Ef Eo HQ. unfold uprintf. rewrite Eo. apply ends_bind. apply ends_Ret. by eapply ends_print. Qed.

(** A format and arguments of the kinds it asks for. *)
Fixpoint wants (fmt : list Z) (state : bool) (args : list arg) : bool :=
  match fmt with
  | [] => false
  | c :: fmt' =>
      if c =? 0 then true
      else if negb state then wants fmt' (c =? 37) args
      else if c =? 100 then match args with AInt _ :: args' => wants fmt' false args' | _ => false end
      else if c =? 115 then match args with AStr _ :: args' => wants fmt' false args' | _ => false end
      else negb ((c =? 120) || (c =? 112) || (c =? 99)) && wants fmt' false args
  end.

Lemma printf_total fmt : forall pre args state, wants fmt state args = true ->
  exists out, printf (arg_string (pre ++ args)) fmt state (imap (fun i => arg_word (length pre + i)) args) = Some out.
Proof.
  induction fmt as [|c fmt IH]; intros pre args state Hw; [done|]. cbn [printf wants] in *. destruct (c =? 0); [eauto|].
  assert (Hnext : forall a args', args = a :: args' -> wants fmt false args' = true ->
    exists out, printf (arg_string (pre ++ a :: args')) fmt false (imap (fun i => arg_word (length pre + S i)) args') = Some out).
  { intros a args' -> Hw'. destruct (IH (pre ++ [a]) args' false Hw') as (out & Eo). exists out. rewrite <- Eo, <- app_assoc.
    f_equal. apply imap_ext. intros i x _. rewrite length_app. cbn. f_equal. lia. }
  destruct state; cbn [negb] in *.
  2:{ destruct (IH pre args (c =? 37) Hw) as (out & Eo). destruct (c =? 37); rewrite Eo; cbn; eauto. }
  destruct (c =? 100) eqn:E100; cbn [orb].
  { destruct args as [|[z|z] args']; try done. cbn [imap head tail mbind option_bind arg_word].
    destruct (printint_some (i32 (u32 z)) (is_i32_i32 _)) as (d & ->). destruct (Hnext _ _ eq_refl Hw) as (out & Eo).
    cbn [mbind option_bind]. unfold compose. rewrite Eo. cbn. eauto. }
  destruct (c =? 115) eqn:E115.
  { apply Z.eqb_eq in E115. subst c. cbn [Z.eqb Pos.eqb orb]. destruct args as [|[z|z] args']; try done. cbn [imap head tail mbind option_bind arg_word].
    rewrite (proj2 (Z.eqb_neq _ 0)) by lia. 
    assert (arg_string (pre ++ AStr z :: args') (Z.of_nat (length pre + 0) + 1) = Some z) as ->
      by (unfold arg_string; by rewrite list_lookup_middle by lia).
    destruct (Hnext _ _ eq_refl Hw) as (out & Eo). cbn [mbind option_bind]. unfold compose. rewrite Eo. cbn. eauto. }
  apply andb_true_iff in Hw as [Hc Hw]. rewrite negb_true_iff, !orb_false_iff in Hc. destruct Hc as [[-> ->] ->]. cbn [orb].
  destruct (IH pre args false Hw) as (out & ->). destruct (c =? 37); cbn; eauto.
Qed.

Lemma format_some fmt args : wants (fmt ++ [0]) false args = true -> exists out, format fmt args = Some out.
Proof. apply (printf_total (fmt ++ [0]) []). Qed.

(** The message is printed, whatever it says. *)
Lemma ends_message fd fmt args Q w o f : fd_file w fd = Some (o, f) -> wants (fmt ++ [0]) false args = true ->
  (forall out, Q (Some tt) (emit o out w)) -> ends Q (uprintf fd fmt args) w.
Proof. intros Ef Hw HQ. destruct (format_some fmt args Hw) as (out & Eo). by eapply ends_printf. Qed.

(** A read of an open file. *)
Lemma ends_read fd n Q w o f : fd_file w fd = Some (o, f) -> 0 < n ->
  (of_rest f = [] -> Q (Some (0, [])) w) ->
  (forall m, (0 < m)%nat -> (m <= length (of_rest f))%nat -> Z.of_nat m <= n ->
    (on_disk (of_kind f) = true -> Z.of_nat m = Z.min n (zlen (of_rest f))) -> Q (Some (Z.of_nat m, take m (of_rest f))) (drain o m w)) ->
  ends Q (sys (SysRead fd n)) w.
Proof.
  intros Ef Hn H0 H1. apply ends_sys; [done|]. cbn. rewrite Ef. intros x w' [([?|Hr] & -> & ->)|(m & Hm0 & Hm & Hmn & Hd & -> & ->)]; [lia|auto|].
  by apply H1.
Qed.

(** [gets] returns the line that its specification on lists gives. *)
Lemma ends_gets room : forall Q w o f, fd_file w 0 = Some (o, f) ->
  Q (Some (gets_loop room (of_rest f))) (drain o (length (gets_loop room (of_rest f))) w) -> ends Q (gets_bytes room) w.
Proof.
  induction room as [|room IH]; intros Q w o f Ef HQ; cbn [gets_bytes]; [apply ends_Ret; by rewrite drain_0 in HQ|].
  apply ends_bind. eapply ends_read; [exact Ef|lia| |].
  - intros Er. rewrite Er in HQ. cbn in HQ. rewrite drain_0 in HQ. by apply ends_Ret.
  - intros m Hm Hle Hm1 _. assert (m = 1%nat) as -> by lia. change (Z.of_nat 1 <? 1) with false. cbv iota.
    destruct (of_rest f) as [|c rest] eqn:Er; [cbn in Hle; lia|]. cbn [take]. cbn [gets_loop] in HQ.
    destruct ((c =? 10) || (c =? 13)); [by apply ends_Ret|].
    destruct (fd_file_drain o 1 w 0 o f Ef) as (f' & Ef' & Er' & _). rewrite decide_True, Er in Er' by done. cbn in Er'. rewrite drop_0 in Er'.
    apply ends_bind. eapply IH; [exact Ef'|]. rewrite Er'. apply ends_Ret. by rewrite drain_drain.
Qed.
