(* ===== verification/Progs.v ===== *)
(** * Small user programs: cat, wc, echo, kill, ln, mkdir, rm, zombie, grep

    [main] of each program takes its arguments, the program's name first. *)

From ITree Require Import ITree.
From S2P Require Import Prelude CString Params Ulib Fs Sys Grep.
Local Open Scope prog_scope.

Definition newline : list Z := [10].
Definition msg (s : string) : list Z := bytes_of s ++ newline.

(** ** cat.c *)

Definition cat (fd : Z) : prog unit :=
  n <- ITree.iter (fun _ : unit =>
    let* (n, b) := sys (SysRead fd 512) in
    if 0 <? n then
      r <- sys (SysWrite 1 b) ;;
      if negb (r =? n) then uprintf 1 (msg "cat: write error") [] ;;; exit else Ret (inl tt)
    else Ret (inr n)) tt ;;
  if n <? 0 then uprintf 1 (msg "cat: read error") [] ;;; exit else Ret tt.

(** [for(i = 1; i < argc; i++)] over files that are opened, used and closed. *)
Fixpoint each_file (open_msg : list Z) (body : Z -> list Z -> prog unit) (args : list (list Z)) : prog unit :=
  match args with
  | [] => Ret tt
  | a :: args' =>
      fd <- sys (SysOpen a 0) ;;
      if fd <? 0 then uprintf 1 open_msg [AStr a] ;;; exit
      else body fd a ;;; sys (SysClose fd) ;;; each_file open_msg body args'
  end.

Definition cat_main (argv : list (list Z)) : prog unit :=
  if (length argv <=? 1)%nat then cat 0 ;;; exit
  else each_file (msg "cat: cannot open %s") (fun fd _ => cat fd) (tail argv) ;;; exit.

(** ** wc.c *)

Definition wc_space : list Z := [32; 13; 9; 10; 11; 0].

(** [l], [w], [c] and [inword]. *)
Record counts := mkCounts { wc_l : Z; wc_w : Z; wc_c : Z; wc_in : bool }.

Definition wc_byte (x : counts) (ch : Z) : counts :=
  let c := i32 (wc_c x + 1) in
  let l := if ch =? 10 then i32 (wc_l x + 1) else wc_l x in
  match strchr wc_space ch with
  | Some (Some _) => mkCounts l (wc_w x) c false
  | _ => if wc_in x then mkCounts l (wc_w x) c true else mkCounts l (i32 (wc_w x + 1)) c true
  end.

Definition wc (fd : Z) (name : list Z) : prog unit :=
  let* (n, x) := ITree.iter (fun x : counts =>
    let* (n, b) := sys (SysRead fd 512) in
    if 0 <? n then Ret (inl (foldl wc_byte x b)) else Ret (inr (n, x))) (mkCounts 0 0 0 false) in
  if n <? 0 then uprintf 1 (msg "wc: read error") [] ;;; exit
  else uprintf 1 (msg "%d %d %d %s") [AInt (wc_l x); AInt (wc_w x); AInt (wc_c x); AStr name].

Definition wc_main (argv : list (list Z)) : prog unit :=
  if (length argv <=? 1)%nat then wc 0 [] ;;; exit
  else each_file (msg "wc: cannot open %s") wc (tail argv) ;;; exit.

(** ** echo.c, kill.c, ln.c, mkdir.c, rm.c, zombie.c *)

Fixpoint echo_args (args : list (list Z)) : prog unit :=
  match args with
  | [] => Ret tt
  | a :: args' =>
      uprintf 1 (bytes_of "%s%s") [AStr a; AStr (match args' with [] => [10] | _ => [32] end)] ;;; echo_args args'
  end.

Definition echo_main (argv : list (list Z)) : prog unit := echo_args (tail argv) ;;; exit.

Fixpoint kill_args (args : list (list Z)) : prog unit :=
  match args with
  | [] => Ret tt
  | a :: args' => pid <- of_option (atoi (a ++ [0])) ;; sys (SysCall "kill" [AInt pid]) ;;; kill_args args'
  end.

Definition kill_main (argv : list (list Z)) : prog unit :=
  if (length argv <? 2)%nat then uprintf 2 (msg "usage: kill pid...") [] ;;; exit
  else kill_args (tail argv) ;;; exit.

Definition ln_main (argv : list (list Z)) : prog unit :=
  match argv with
  | [_; old; new] =>
      r <- sys (SysCall "link" [AStr old; AStr new]) ;;
      (if r <? 0 then uprintf 2 (msg "link %s %s: failed") [AStr old; AStr new] else Ret tt) ;;; exit
  | _ => uprintf 2 (msg "Usage: ln old new") [] ;;; exit
  end.

(** The loop of mkdir.c and rm.c, which stops at the first failure. *)
Fixpoint until_failure (call : string) (fail_msg : list Z) (args : list (list Z)) : prog unit :=
  match args with
  | [] => Ret tt
  | a :: args' =>
      r <- sys (SysCall call [AStr a]) ;;
      if r <? 0 then uprintf 2 fail_msg [AStr a] else until_failure call fail_msg args'
  end.

Definition mkdir_main (argv : list (list Z)) : prog unit :=
  if (length argv <? 2)%nat then uprintf 2 (msg "Usage: mkdir files...") [] ;;; exit
  else until_failure "mkdir" (msg "mkdir: %s failed to create") (tail argv) ;;; exit.

Definition rm_main (argv : list (list Z)) : prog unit :=
  if (length argv <? 2)%nat then uprintf 2 (msg "Usage: rm files...") [] ;;; exit
  else until_failure "unlink" (msg "rm: %s failed to delete") (tail argv) ;;; exit.

Definition zombie_main : prog unit :=
  pid <- sys SysFork ;;
  (if 0 <? pid then sys (SysCall "sleep" [AInt 5]) ;;; Ret tt else Ret tt) ;;; exit.

(** ** grep.c *)

(** The inner loop, with its writes; [p] is the string left. *)
Fixpoint grep_writes (fuel : nat) (pattern p : list Z) : prog (list Z) :=
  q <- of_option (strchr p 10) ;;
  match q, fuel with
  | None, _ => Ret p
  | Some _, O => fault
  | Some q, S fuel' =>
      b <- of_option (match_re pattern (take q p ++ [0])) ;;
      (if b : bool then sys (SysWrite 1 (take q p ++ [10])) ;;; Ret tt else Ret tt) ;;;
      grep_writes fuel' pattern (drop (S q) p)
  end.

(** [acc] is [buf[0..m-1]]; the buffer has 1024 bytes. *)
Definition grep_fd (pattern : list Z) (fd : Z) : prog unit :=
  ITree.iter (fun acc : list Z =>
    let* (n, chunk) := sys (SysRead fd (1024 - zlen acc - 1)) in
    if 0 <? n then
      let data := acc ++ chunk in
      p <- grep_writes (length data) pattern (data ++ [0]) ;;
      let rest := length p in
      Ret (inl (if (rest =? length data + 1)%nat then [] else drop (length data + 1 - rest) data))
    else Ret (inr tt)) [].

Definition grep_main (argv : list (list Z)) : prog unit :=
  match argv with
  | _ :: pattern :: files =>
      match files with
      | [] => grep_fd (pattern ++ [0]) 0 ;;; exit
      | _ => each_file (msg "grep: cannot open %s") (fun fd _ => grep_fd (pattern ++ [0]) fd) files ;;; exit
      end
  | _ => uprintf 2 (msg "usage: grep pattern [file ...]") [] ;;; exit
  end.
