(* ===== verification/ProgsSpec.v ===== *)
(** * What the small programs do

    Every run of cat, wc and grep ends, whatever the kernel answers, with exactly
    the output and the calls that the contents of its files ask for. *)

From ITree Require Import ITree.
From S2P Require Import Prelude CString Params Ulib Fs Sys Grep Progs.

(** ** Files that are opened, used and closed *)

(** From [w] to [w'] open file [o] got [b], and nothing else changed among the
    files of [w]; [acts] were done. *)
Definition ran (o : nat) (b : list Z) (acts : list act) (w w' : world) : Prop :=
  w_fds w' = w_fds w /\ w_cwd w' = w_cwd w /\ w_acts w' = w_acts w ++ acts
  /\ forall i f, w_open w !! i = Some f -> w_open w' !! i = Some (if decide (i = o) then put_out b f else f).

Lemma ran_refl o w : ran o [] [] w w.
Proof.
  split; [done|]. split; [done|]. split; [by rewrite app_nil_r|]. intros i [k r b] Hi. case_decide; [|done].
  unfold put_out. cbn. by rewrite app_nil_r.
Qed.

Lemma ran_trans o a b acts acts' w w1 w2 : ran o a acts w w1 -> ran o b acts' w1 w2 -> ran o (a ++ b) (acts ++ acts') w w2.
Proof.
  intros (F1 & C1 & A1 & G1) (F2 & C2 & A2 & G2). split; [by rewrite F2|]. split; [by rewrite C2|].
  split; [by rewrite A2, A1, app_assoc|]. intros i f Hi. rewrite (G2 _ _ (G1 _ _ Hi)). case_decide; [|done]. by rewrite put_out_app.
Qed.

Lemma ran_emit o b w : ran o b [] w (emit o b w).
Proof.
  split; [done|]. split; [done|]. split; [by rewrite app_nil_r|]. intros i f Hi. unfold emit, upd_file. cbn [w_open].
  rewrite lookup_alter_if, Hi. done.
Qed.

Lemma ran_act o a w : ran o [] [a] w (act_on a w).
Proof. split; [done|]. split; [done|]. split; [done|]. apply (proj2 (proj2 (proj2 (ran_refl o w)))). Qed.

(** The files a program says things about: the calls it makes and its output,
    where [out k c a b] is what it may say of file [a] of kind [k] with contents [c]. *)
Inductive served (out : okind -> list Z -> list Z -> list Z -> Prop) (err : list Z -> list Z) : list (list Z) -> list act -> list Z -> Prop :=
| served_nil : served out err [] [] []
| served_file a dev c b args acts o : out (OPath a 0 dev) c a b -> served out err args acts o ->
    served out err (a :: args) (AOpen a 0 (Some (dev, c)) :: acts) (b ++ o)
| served_fail a args : served out err (a :: args) [AOpen a 0 None] (err a).

(** [body] uses up part of its descriptor and says [out] of it. *)
Definition serves (body : Z -> list Z -> prog unit) (out : okind -> list Z -> list Z -> list Z -> Prop) : Prop :=
  forall fd a w o f o1 f1, fd_file w fd = Some (o, f) -> fd_file w 1 = Some (o1, f1) ->
  ends (fun r w' => r = Some tt /\ exists n b, out (of_kind f) (of_rest f) a b /\ w' = emit o1 b (drain o n w)) (body fd a) w.

Lemma free_fd_free m fd : free_fd m = Some fd -> m !! fd = None.
Proof. intros H. apply List.find_some in H as [_ H]. by apply bool_decide_eq_true in H. Qed.
Lemma free_fd_bound m fd : free_fd m = Some fd -> 0 <= fd < NOFILE.
Proof. intros H. apply List.find_some in H as [H _]. apply list_elem_of_In in H. by apply elem_of_seqZ in H. Qed.

Lemma fd_file_old fd fd' f w o f1 : w_fds w !! fd' = None -> fd_file w fd = Some (o, f1) -> fd_file (new_fd fd' f w) fd = Some (o, f1).
Proof.
  intros Hn. unfold fd_file, new_fd. cbn [w_fds w_open]. destruct (decide (fd = fd')) as [->|]; [by rewrite Hn|].
  rewrite lookup_insert_ne by done. destruct (w_fds w !! fd) as [o'|]; [|done]. cbn [mbind option_bind].
  destruct (w_open w !! o') as [f2|] eqn:E; [|done]. cbn. intros [= <- <-]. by rewrite (lookup_app_l_Some _ _ _ _ E).
Qed.
Lemma fd_file_new fd f w : fd_file (new_fd fd f w) fd = Some (length (w_open w), f).
Proof. unfold fd_file, new_fd. cbn [w_fds w_open]. rewrite lookup_insert_eq. cbn. by rewrite list_lookup_middle. Qed.

(** A file that was opened, written about and closed again. *)
Lemma ran_opened a m dev c fd o b n w : w_fds w !! fd = None ->
  ran o b [AOpen a m (Some (dev, c))] w (with_fds (delete fd (w_fds (emit o b (drain (length (w_open w)) n (opened a m dev c fd w)))))
    (emit o b (drain (length (w_open w)) n (opened a m dev c fd w)))).
Proof.
  intros Hfd. split; [cbn [with_fds w_fds]; cbn; by apply delete_insert_id|]. split; [done|]. split; [done|]. intros i f Hi.
  cbn [with_fds w_open emit drain upd_file opened act_on new_fd]. rewrite !lookup_alter_if, (lookup_app_l_Some _ _ _ _ Hi). cbn.
  rewrite (decide_False (P := i = length (w_open w))); [done|]. apply lookup_lt_Some in Hi. lia.
Qed.

Lemma each_file_serves fmt err body out args o1 : serves body out -> (forall a, format fmt [AStr a] = Some (err a)) ->
  forall w f1, fd_file w 1 = Some (o1, f1) ->
  ends (fun r w' => exists acts b, served out err args acts b /\ ran o1 b acts w w') (each_file fmt body args) w.
Proof.
  intros Hb Hfmt. induction args as [|a args IH]; intros w f1 E1; cbn [each_file].
  { apply ends_Ret. exists [], []. split; [constructor|apply ran_refl]. }
  apply ends_bind. apply ends_sys; [done|]. intros x w' [[-> ->]|(dev & c & Hx & ->)].
  - change (-1 <? 0) with true. cbv iota. apply ends_bind. eapply ends_printf; [exact E1|apply Hfmt|]. apply ends_Exit.
    exists [AOpen a 0 None], (err a). split; [constructor|].
    apply (ran_trans _ [] _ [_] []) with (w1 := not_opened a 0 w); [apply ran_act|apply ran_emit].
  - pose proof (free_fd_free _ _ Hx) as Hfree. rewrite (proj2 (Z.ltb_ge x 0)) by (apply free_fd_bound in Hx; lia).
    apply ends_bind. eapply ends_mono; [|apply (Hb x a _ (length (w_open w)) (mkOfile (OPath a 0 dev) c []) o1 f1)].
    2:{ apply fd_file_new. } 2:{ by apply fd_file_old. }
    intros r w1 (-> & n & b & Ho & ->). apply ends_bind. apply ends_sys; [done|]. intros y w2 Hs.
    assert (w2 = with_fds (delete x (w_fds (emit o1 b (drain (length (w_open w)) n (opened a 0 dev c x w)))))
      (emit o1 b (drain (length (w_open w)) n (opened a 0 dev c x w)))) as ->.
    { cbn in Hs. rewrite lookup_insert_eq in Hs. by destruct Hs. }
    pose proof (ran_opened a 0 dev c x o1 b n w Hfree) as Hran. revert Hran. generalize (with_fds (delete x (w_fds (emit o1 b (drain (length (w_open w)) n (opened a 0 dev c x w)))))
      (emit o1 b (drain (length (w_open w)) n (opened a 0 dev c x w)))). intros w2 Hran.
    assert (exists f2, fd_file w2 1 = Some (o1, f2)) as (f2 & E2).
    { destruct Hran as (Ef & _ & _ & G). unfold fd_file in *. rewrite Ef. destruct (w_fds w !! 1) as [o|]; [|done]. cbn in *.
      destruct (w_open w !! o) as [f|] eqn:Eo; [|done]. injection E1 as <- <-. rewrite (G _ _ Eo). cbn. eauto. }
    eapply ends_mono; [|exact (IH w2 f2 E2)]. intros r w3 (acts & b' & Hs' & Hr).
    exists (AOpen a 0 (Some (dev, c)) :: acts), (b ++ b'). split; [by constructor|]. by eapply (ran_trans _ _ _ [_]).
Qed.

(** ** cat *)

(** The part of [f] that is left after [n] bytes have been copied. *)
Lemma copy_state o o1 n b w fd f f1 : fd_file w fd = Some (o, f) -> fd_file w 1 = Some (o1, f1) ->
  exists f' f1', fd_file (emit o1 b (drain o n w)) fd = Some (o, f') /\ of_rest f' = drop n (of_rest f) /\ of_kind f' = of_kind f
    /\ fd_file (emit o1 b (drain o n w)) 1 = Some (o1, f1').
Proof.
  intros Ef E1. destruct (fd_file_drain o n w fd o f Ef) as (f' & Ef' & Er & Ek). rewrite decide_True in Er by done.
  destruct (fd_file_drain o n w 1 o1 f1 E1) as (f1' & E1' & _).
  destruct (fd_file_emit o1 b _ fd o f' Ef') as (f2 & Ef2 & Er2 & Ek2). destruct (fd_file_emit o1 b _ 1 o1 f1' E1') as (f3 & E3 & _).
  exists f2, f3. split; [done|]. split; [by rewrite Er2|]. split; [by rewrite Ek2|done].
Qed.

(** A program that reads its input piece by piece: [I j n b] says that [j] is its
    state after [n] bytes, with [b] written. *)
Lemma copy_loop {J R} (body : J -> prog (J + R)) (I : J -> nat -> list Z -> Prop) (Q : R -> nat -> list Z -> Prop) fd w o f o1 f1 :
  fd_file w fd = Some (o, f) -> fd_file w 1 = Some (o1, f1) ->
  (forall j n b w', I j n b -> w' = emit o1 b (drain o n w) -> (n <= length (of_rest f))%nat ->
     ends (fun r w'' => match r with
       | Some (inl j') => exists m b', (0 < m)%nat /\ (n + m <= length (of_rest f))%nat /\ I j' (n + m)%nat (b ++ b') /\ w'' = emit o1 b' (drain o m w')
       | Some (inr r) => Q r n b /\ w'' = w'
       | None => False end) (body j) w') ->
  forall j, I j 0%nat [] -> ends (fun r w' => exists x n b, r = Some x /\ Q x n b /\ w' = emit o1 b (drain o n w)) (ITree.iter body j) w.
Proof.
  intros Ef E1 Hb j Hj.
  apply (ends_iter body (fun j w' k => exists n b, I j n b /\ (n <= length (of_rest f))%nat /\ k = (length (of_rest f) - n)%nat
    /\ w' = emit o1 b (drain o n w)) _) with (n := length (of_rest f)).
  2:{ exists 0%nat, []. split; [done|]. split; [lia|]. split; [lia|]. by rewrite drain_0, emit_nil. }
  intros j1 w1 k (n & b & HI & Hn & -> & ->). eapply ends_mono; [|by apply (Hb j1 n b)].
  intros [[j'|r]|] w2; cbn; [|by intros [HQ ->]; eauto 10|done].
  intros (m & b' & Hm & Hle & HI' & ->). exists (length (of_rest f) - (n + m))%nat. split; [lia|].
  exists (n + m)%nat, (b ++ b'). split; [done|]. split; [done|]. split; [done|].
  by rewrite drain_emit, emit_emit, drain_drain.
Qed.

(** A read by such a program. *)
Lemma ends_piece fd n k b Q w w' o f o1 f1 : fd_file w fd = Some (o, f) -> fd_file w 1 = Some (o1, f1) ->
  w' = emit o1 b (drain o n w) -> 0 < k -> (n <= length (of_rest f))%nat ->
  (n = length (of_rest f) -> Q (Some (0, [])) w') ->
  (forall m, (0 < m)%nat -> (n + m <= length (of_rest f))%nat -> Z.of_nat m <= k ->
     (on_disk (of_kind f) = true -> Z.of_nat m = Z.min k (zlen (of_rest f) - Z.of_nat n)) ->
     Q (Some (Z.of_nat m, take m (drop n (of_rest f)))) (drain o m w')) ->
  ends Q (sys (SysRead fd k)) w'.
Proof.
  intros Ef E1 -> Hk Hn H0 H1. destruct (copy_state o o1 n b w fd f f1 Ef E1) as (f' & f1' & Ef' & Er & Ek & _).
  eapply ends_read; [exact Ef'|done| |]; rewrite Er, ?Ek.
  - intros Hd. apply H0. assert (length (drop n (of_rest f)) = 0%nat) as Hl by by rewrite Hd. rewrite length_drop in Hl. lia.
  - unfold zlen. rewrite length_drop. intros m Hm Hle Hmk Hd. apply H1; [lia|lia|lia|]. intros Hk'. specialize (Hd Hk'). unfold zlen. lia.
Qed.

Lemma positive_len m : (0 < m)%nat -> (0 <? Z.of_nat m) = true.
Proof. intros. apply Z.ltb_lt. lia. Qed.

(** What is copied of [f]. *)
Lemma cat_copies fd w o f o1 f1 : fd_file w fd = Some (o, f) -> fd_file w 1 = Some (o1, f1) ->
  ends (fun r w' => r = Some tt /\ w' = emit o1 (of_rest f) (drain o (length (of_rest f)) w)) (cat fd) w.
Proof.
  intros Ef E1. unfold cat. apply ends_bind.
  eapply ends_mono; [|apply (copy_loop _ (fun _ n b => b = take n (of_rest f)) (fun x n b => x = 0 /\ n = length (of_rest f) /\ b = of_rest f) fd w o f o1 f1); try done].
  - intros r w' (x & n & b & -> & (-> & -> & ->) & ->). by apply ends_Ret.
  - intros [] n b w' -> Ew' Hn. apply ends_bind. eapply ends_piece; [exact Ef|exact E1|exact Ew'|lia|done| |].
    + intros ->. apply ends_Ret. split; [|done]. by rewrite firstn_all.
    + intros m Hm Hle Hmk Hdisk. rewrite positive_len by done. apply ends_bind. subst w'.
      rewrite drain_emit, drain_drain. destruct (copy_state o o1 (n + m) (take n (of_rest f)) w fd f f1 Ef E1) as (_ & f1' & _ & _ & _ & E1').
      eapply ends_write; [exact E1'|]. assert (Hz : zlen (take m (drop n (of_rest f))) = Z.of_nat m).
      { unfold zlen. rewrite length_take, length_drop. lia. }
      rewrite Hz, Z.eqb_refl. apply ends_Ret. exists m, (take m (drop n (of_rest f))). split; [done|]. split; [done|].
      split; [by rewrite take_take_drop|]. by rewrite drain_emit, drain_drain.
Qed.

(** ** wc *)

Definition space (c : Z) : bool := existsb (Z.eqb c) [32; 13; 9; 10; 11].

(** The pieces between white space, and the words among them. *)
Fixpoint fields (l : list Z) : list (list Z) :=
  match l with
  | [] => [[]]
  | c :: l' => if space c then [] :: fields l'
               else match fields l' with f :: fs => (c :: f) :: fs | [] => [[c]] end
  end.
Definition words (l : list Z) : Z := zlen (List.filter (fun f => match f with [] => false | _ => true end) (fields l)).
Definition lines (l : list Z) : Z := zlen (List.filter (Z.eqb 10) l).

Definition starts_word (l : list Z) : Z := match l with c :: _ => if space c then 0 else 1 | [] => 0 end.

Lemma fields_head l : exists f fs, fields l = f :: fs /\ (f = [] <-> starts_word l = 0).
Proof.
  destruct l as [|c l]; cbn [fields starts_word]; [by exists [], []|]. destruct (space c); [by exists [], (fields l)|].
  destruct (fields l) as [|f fs]; [by exists [c], []|by exists (c :: f), fs].
Qed.

Lemma words_cons c l : words (c :: l) = words l + if space c then 0 else 1 - starts_word l.
Proof.
  unfold words. cbn [fields]. destruct (space c); cbn [List.filter]; [lia|].
  destruct (fields_head l) as (f & fs & -> & Hf). cbn [List.filter]. destruct f as [|x f].
  - rewrite (proj1 Hf) by done. unfold zlen. cbn [length]. lia.
  - assert (starts_word l = 1) as ->; [|unfold zlen; cbn [length]; lia]. destruct l as [|y l]; cbn [starts_word] in *; [by destruct Hf as [_ Hf]; specialize (Hf eq_refl)|].
    destruct (space y); [|done]. by destruct Hf as [_ Hf]; specialize (Hf eq_refl).
Qed.

Lemma wc_space_space ch : (match strchr wc_space ch with Some (Some _) => true | _ => false end) = space ch.
Proof.
  unfold wc_space, space. cbn [strchr existsb]. rewrite (Z.eqb_sym ch 32), (Z.eqb_sym ch 13), (Z.eqb_sym ch 9), (Z.eqb_sym ch 10), (Z.eqb_sym ch 11).
  destruct (32 =? ch), (13 =? ch), (9 =? ch), (10 =? ch), (11 =? ch); done.
Qed.

Definition good_counts (x : counts) : Prop := is_i32 (wc_l x) /\ is_i32 (wc_w x) /\ is_i32 (wc_c x).

Lemma wc_byte_eq x ch : wc_byte x ch =
  mkCounts (if ch =? 10 then i32 (wc_l x + 1) else wc_l x) (if negb (space ch) && negb (wc_in x) then i32 (wc_w x + 1) else wc_w x)
    (i32 (wc_c x + 1)) (negb (space ch)).
Proof.
  unfold wc_byte. rewrite <- wc_space_space. destruct (strchr wc_space ch) as [[?|]|]; cbn; try done; by destruct (wc_in x).
Qed.

Lemma wc_byte_good x ch : good_counts x -> good_counts (wc_byte x ch).
Proof. intros (H1 & H2 & H3). rewrite wc_byte_eq. unfold good_counts. cbn. split_and!; try case_match; auto using is_i32_i32. Qed.

Lemma wc_fold l : forall x, good_counts x ->
  wc_l (foldl wc_byte x l) = i32 (wc_l x + lines l) /\ wc_c (foldl wc_byte x l) = i32 (wc_c x + zlen l)
  /\ wc_w (foldl wc_byte x l) = i32 (wc_w x + words l - if wc_in x then starts_word l else 0).
Proof.
  induction l as [|c l IH]; intros x Hx; cbn [foldl].
  - destruct Hx as (H1 & H2 & H3). unfold lines, words, zlen. cbn. rewrite !Z.add_0_r. split; [by rewrite i32_id|].
    split; [by rewrite i32_id|]. destruct (wc_in x); by rewrite ?Z.sub_0_r, i32_id.
  - destruct (IH (wc_byte x c) (wc_byte_good x c Hx)) as (-> & -> & ->). rewrite wc_byte_eq. cbn [wc_l wc_w wc_c wc_in].
    split; [|split].
    + unfold lines. cbn [List.filter]. rewrite (Z.eqb_sym 10 c). destruct (c =? 10); [|done]. rewrite i32_add. f_equal. unfold zlen. cbn [length]. lia.
    + rewrite i32_add. f_equal. unfold zlen. cbn [length]. lia.
    + rewrite words_cons. cbn [starts_word]. destruct (space c); cbn [negb andb]; [by destruct (wc_in x); f_equal; lia|].
      destruct (wc_in x); cbn [negb]; [f_equal; lia|]. rewrite <- Z.add_sub_assoc, i32_add. f_equal. lia.
Qed.

(** The line for file [a] with contents [c]. *)
Definition wc_line (c a b : list Z) : Prop :=
  exists dl dw dc, printint (i32 (lines c)) 10 true = Some dl /\ printint (i32 (words c)) 10 true = Some dw
    /\ printint (i32 (zlen c)) 10 true = Some dc /\ b = dl ++ [32] ++ dw ++ [32] ++ dc ++ [32] ++ a ++ [10].

Lemma wc_format l w c a dl dw dc : printint (i32 (u32 l)) 10 true = Some dl -> printint (i32 (u32 w)) 10 true = Some dw -> printint (i32 (u32 c)) 10 true = Some dc ->
  format (msg "%d %d %d %s") [AInt l; AInt w; AInt c; AStr a] = Some (dl ++ [32] ++ dw ++ [32] ++ dc ++ [32] ++ a ++ [10]).
Proof.
  intros H1 H2 H3. unfold format.
  change (msg "%d %d %d %s" ++ [0]) with [37; 100; 32; 37; 100; 32; 37; 100; 32; 37; 115; 10; 0]. cbn [imap arg_word]. run_printf.
Qed.

Lemma wc_says fd name w o f o1 f1 : fd_file w fd = Some (o, f) -> fd_file w 1 = Some (o1, f1) ->
  ends (fun r w' => r = Some tt /\ exists b, wc_line (of_rest f) name b /\ w' = emit o1 b (drain o (length (of_rest f)) w)) (wc fd name) w.
Proof.
  intros Ef E1. unfold wc. apply ends_bind. set (x0 := mkCounts 0 0 0 false).
  eapply ends_mono; [|apply (copy_loop _ (fun x n b => b = [] /\ x = foldl wc_byte x0 (take n (of_rest f)))
    (fun x n b => b = [] /\ n = length (of_rest f) /\ x = (0, foldl wc_byte x0 (of_rest f))) fd w o f o1 f1); try done].
  - intros r w' (x & n & b & -> & (-> & -> & ->) & ->). rewrite emit_nil. change (0 <? 0) with false. cbv iota.
    destruct (wc_fold (of_rest f) x0) as (-> & -> & ->); [by repeat split|]. cbn [wc_l wc_w wc_c wc_in x0]. rewrite Z.sub_0_r, !Z.add_0_l.
    assert (Hp : forall z, exists l, printint (i32 (u32 (i32 z))) 10 true = Some l /\ printint (i32 z) 10 true = Some l).
    { intros z. replace (i32 (u32 (i32 z))) with (i32 z) by (unfold i32, u32; mlia). destruct (printint_some (i32 z) (is_i32_i32 z)) as (l & ->). eauto. }
    destruct (Hp (lines (of_rest f))) as (dl & E1' & E1''), (Hp (words (of_rest f))) as (dw & E2 & E2'), (Hp (zlen (of_rest f))) as (dc & E3 & E3').
    destruct (fd_file_drain o (length (of_rest f)) w 1 o1 f1 E1) as (f1' & Ef1 & _).
    eapply ends_printf; [exact Ef1|by apply wc_format|]. split; [done|]. eexists. split; [|done]. by exists dl, dw, dc.
  - intros x n b w' (-> & ->) Ew' Hn. apply ends_bind. eapply ends_piece; [exact Ef|exact E1|exact Ew'|lia|done| |].
    + intros ->. apply ends_Ret. rewrite firstn_all. done.
    + intros m Hm Hle Hmk Hdisk. rewrite positive_len by done. apply ends_Ret. exists m, []. split; [done|]. split; [done|].
      split; [|by rewrite emit_nil]. split; [done|]. by rewrite <- foldl_app, take_take_drop.
Qed.

(** ** grep *)

Lemma grep_writes_emits fuel pattern : forall p out rest w o1 f1, fd_file w 1 = Some (o1, f1) ->
  grep_lines fuel pattern p = Some (out, rest) ->
  ends (fun r w' => r = Some rest /\ w' = emit o1 out w) (grep_writes fuel pattern p) w.
Proof.
  induction fuel as [|fuel IH]; intros p out rest w o1 f1 E1; cbn [grep_lines grep_writes];
    (destruct (strchr p 10) as [[q|]|]; cbn [mbind option_bind of_option]; [| |done]);
    try (intros [= <- <-]; apply ends_bind, ends_Ret, ends_Ret; by rewrite emit_nil).
  destruct (match_re pattern (take q p ++ [0])) as [b|] eqn:Em; cbn [mbind option_bind of_option]; [|done].
  destruct (grep_lines fuel pattern (drop (S q) p)) as [[out' rest']|] eqn:Eg; cbn [mbind option_bind fst snd]; [|done].
  intros [= <- <-]. apply ends_bind, ends_Ret. cbv beta iota. rewrite Em. apply ends_bind, ends_Ret, ends_bind. destruct b.
  - apply ends_bind. eapply ends_write; [exact E1|]. apply ends_Ret. destruct (fd_file_emit o1 (take q p ++ [10]) w 1 o1 f1 E1) as (f2 & E2 & _).
    eapply ends_mono; [|exact (IH _ _ _ _ _ _ E2 Eg)]. intros r w' [-> ->]. by rewrite emit_emit.
  - apply ends_Ret. exact (IH _ _ _ _ _ _ E1 Eg).
Qed.

(** Every read so far brought the end of a line; [acc] is the line begun. *)
Definition line_reads (ls : list (list Z)) (c acc : list Z) (n : nat) (reads : list (list Z)) : Prop :=
  Forall (fun r => 10 ∈ r) reads /\ plain_line acc /\ exists ls1 ls2, ls = ls1 ++ ls2 /\ take n c = text ls1 ++ acc.

(** A file on disk whose lines fit the buffer. *)
Definition fitting (k : okind) (c : list Z) (ls : list (list Z)) : Prop :=
  on_disk k = true /\ c = text ls /\ Forall plain_line ls /\ Forall (fun l => (length l <= 1022)%nat) ls.

(** [acc] is what the buffer holds after [n] bytes, with [b] written. *)
Definition grep_at (pattern : list Z) (k : okind) (c acc : list Z) (n : nat) (b : list Z) : Prop :=
  (length acc <= 1022)%nat /\ exists reads, concat reads = take n c
    /\ (forall tl o, grep (pattern ++ [0]) acc tl = Some o -> grep (pattern ++ [0]) [] (reads ++ tl) = Some (b ++ o))
    /\ forall ls, fitting k c ls -> line_reads ls c acc n reads.

(** What grep may say of contents [c], depending on how the reads cut it. *)
Definition grep_says (pattern : list Z) (k : okind) (c b : list Z) : Prop :=
  exists reads, concat reads = c /\ grep (pattern ++ [0]) [] (reads ++ [[]]) = Some b
    /\ forall ls, fitting k c ls -> Forall (fun r => 10 ∈ r) reads.

(** A read of a file with lines that fit brings the end of the line begun. *)
Lemma disk_read_newline k c ls acc n m reads : fitting k c ls -> line_reads ls c acc n reads -> (0 < m)%nat ->
  Z.of_nat m = Z.min (1024 - zlen acc - 1) (zlen c - Z.of_nat n) -> 10 ∈ take m (drop n c).
Proof.
  intros (Hk & -> & Hp & Hs) (_ & Hacc & ls1 & ls2 & -> & Et) Hm Em.
  assert (Hr : acc ++ drop n (text (ls1 ++ ls2)) = text ls2).
  { apply (app_inv_head (text ls1)). rewrite app_assoc, <- Et, take_drop. apply text_app. }
  destruct ls2 as [|l ls2].
  { apply app_nil in Hr as [-> Hr]. apply (f_equal length) in Hr. rewrite length_drop in Hr. unfold zlen in Em. cbn in Hr. lia. }
  change (text (l :: ls2)) with ((l ++ [10]) ++ text ls2) in Hr. rewrite <- app_assoc in Hr. cbn [app] in Hr.
  apply Forall_app in Hs as [_ Hs]. apply Forall_inv in Hs.
  assert (Hal : (length acc <= length l)%nat).
  { destruct (decide (length acc <= length l)%nat); [done|]. exfalso.
    assert (E10 : acc !! length l = Some 10). { rewrite <- (lookup_app_l acc (drop n (text (ls1 ++ l :: ls2)))), Hr by lia. by rewrite list_lookup_middle. }
    apply (Forall_lookup_1 _ _ _ _ Hacc) in E10. by destruct E10. }
  assert (E10 : drop n (text (ls1 ++ l :: ls2)) !! (length l - length acc)%nat = Some 10).
  { rewrite <- (lookup_app_r acc) by lia. rewrite Hr. by rewrite list_lookup_middle. }
  apply (list_elem_of_lookup_2 _ (length l - length acc)%nat). rewrite lookup_take_lt; [done|].
  apply lookup_lt_Some in E10. rewrite length_drop in E10. unfold zlen in Em. lia.
Qed.

(** After such a read the unfinished line is kept. *)
Lemma line_reads_next pattern k c ls acc n m reads out d' : clean pattern -> fitting k c ls -> line_reads ls c acc n reads ->
  let chunk := take m (drop n c) in let data := acc ++ chunk in
  10 ∈ chunk -> grep_lines (length data) (pattern ++ [0]) (data ++ [0]) = Some (out, d' ++ [0]) ->
  line_reads ls c (if (length (d' ++ [0%Z]) =? length data + 1)%nat then [] else drop (length data + 1 - length (d' ++ [0%Z])) data)
    (n + m) (reads ++ [chunk]).
Proof.
  intros Hpat (Hk & -> & Hp & Hs) (Hr & Hacc & ls1 & ls2 & -> & Et) chunk data H10 Eg.
  assert (Hd : data ++ drop m (drop n (text (ls1 ++ ls2))) = text ls2).
  { apply (app_inv_head (text ls1)). unfold data. rewrite <- app_assoc. unfold chunk. rewrite take_drop, app_assoc, <- Et, take_drop. apply text_app. }
  apply Forall_app in Hp as [_ Hp2]. destruct (text_prefix ls2 Hp2 _ _ Hd) as (la & part & lb & -> & Ed & Hpart & _).
  apply Forall_app in Hp2 as [Hpa _].
  assert (Hne : la ≠ []).
  { intros ->. cbn in Ed. rewrite <- Ed in Hpart. apply Forall_app in Hpart as [_ Hc]. rewrite Forall_forall in Hc. by destruct (Hc _ H10). }
  assert (Hla : (length la <= length data)%nat) by (rewrite Ed, length_app; pose proof (text_length la); lia).
  rewrite Ed in Eg at 2. rewrite <- app_assoc, grep_lines_text in Eg by done. injection Eg as _ <-%app_inv_tail.
  split; [apply Forall_app; by split; [|apply Forall_singleton]|].
  replace (length (part ++ [0%Z]) =? length data + 1)%nat with false.
  2:{ symmetry. apply Nat.eqb_neq. rewrite Ed, !length_app. cbn [length]. destruct la as [|l la]; [done|]. pose proof (text_length (l :: la)). cbn [length] in *. lia. }
  replace (drop _ data) with part by (rewrite Ed, drop_app_length' by (rewrite !length_app; cbn; lia); done).
  split; [done|]. exists (ls1 ++ la), lb. split; [by rewrite app_assoc|]. rewrite <- take_take_drop, Et, <- app_assoc.
  fold chunk. fold data. by rewrite Ed, text_app, app_assoc.
Qed.

Lemma grep_at_next pattern k c acc n b m out d' : clean pattern -> grep_at pattern k c acc n b -> (0 < m)%nat -> (n + m <= length c)%nat ->
  Z.of_nat m <= 1024 - zlen acc - 1 -> (on_disk k = true -> Z.of_nat m = Z.min (1024 - zlen acc - 1) (zlen c - Z.of_nat n)) ->
  let data := acc ++ take m (drop n c) in
  grep_lines (length data) (pattern ++ [0]) (data ++ [0]) = Some (out, d' ++ [0]) -> (length d' <= length data)%nat ->
  grep_at pattern k c (if (length (d' ++ [0%Z]) =? length data + 1)%nat then [] else drop (length data + 1 - length (d' ++ [0%Z])) data) (n + m) (b ++ out).
Proof.
  intros Hp (Ha & reads & Er & Hg & Hls) Hm Hn Hroom Hdisk data Eg Hd'.
  assert (Hz : length (take m (drop n c)) = m) by (rewrite length_take, length_drop; lia).
  assert (Hl : (length data = length acc + m)%nat) by (unfold data; rewrite length_app, Hz; lia). split.
  - unfold zlen in Hroom. destruct (Nat.eqb_spec (length (d' ++ [0%Z])) (length data + 1)) as [_|Hne]; [cbn; lia|]. rewrite length_app in Hne. cbn in Hne.
    rewrite length_drop, length_app. cbn. lia.
  - exists (reads ++ [take m (drop n c)]). split.
    { rewrite concat_app, Er. cbn. by rewrite app_nil_r, take_take_drop. }
    split.
    + intros tl o Ho. rewrite <- app_assoc. cbn [app]. rewrite <- app_assoc. apply Hg. cbn [grep]. unfold zlen in *. rewrite Hz.
      rewrite (proj2 (Z.ltb_ge _ _)), (proj2 (Z.eqb_neq _ _)) by lia. fold data. rewrite Eg. cbn [mbind option_bind fst snd]. by rewrite Ho.
    + intros ls Hf. specialize (Hls ls Hf). eapply line_reads_next; [done|done|done| |done].
      eapply disk_read_newline; [done|done|done|]. apply Hdisk. by destruct Hf.
Qed.

Lemma grep_fd_says pattern fd w o f o1 f1 : clean pattern -> fd_file w fd = Some (o, f) -> fd_file w 1 = Some (o1, f1) ->
  ends (fun r w' => r = Some tt /\ exists b, grep_says pattern (of_kind f) (of_rest f) b /\ w' = emit o1 b (drain o (length (of_rest f)) w))
    (grep_fd (pattern ++ [0]) fd) w.
Proof.
  intros Hp Ef E1. unfold grep_fd.
  eapply ends_mono; [|apply (copy_loop _ (grep_at pattern (of_kind f) (of_rest f))
    (fun _ n b => n = length (of_rest f) /\ grep_says pattern (of_kind f) (of_rest f) b) fd w o f o1 f1); [done|done| |]].
  - intros r w' ([] & n & b & -> & (-> & Hs) & ->). eauto.
  - intros acc n b w' HI Ew' Hn. pose proof HI as (Ha & reads & Er & Hg & Hls). apply ends_bind.
    assert (Hr : 0 < 1024 - zlen acc - 1) by (unfold zlen; lia).
    eapply ends_piece; [exact Ef|exact E1|exact Ew'|exact Hr|done| |].
    + intros ->. apply ends_Ret. split; [|done]. split; [done|]. exists reads. rewrite firstn_all in Er. split; [done|]. split.
      * rewrite <- (app_nil_r b). apply Hg. cbn. change (zlen []) with 0. by rewrite (proj2 (Z.ltb_ge _ _)) by lia.
      * intros ls Hf. by destruct (Hls ls Hf).
    + intros m Hm Hle Hmk Hdisk. rewrite positive_len by done. set (data := acc ++ take m (drop n (of_rest f))).
      destruct (grep_lines_total pattern Hp (length data) data (le_n _)) as (out & d' & Eg & Hd').
      destruct (copy_state o o1 (n + m) b w fd f f1 Ef E1) as (_ & f1' & _ & _ & _ & E1').
      apply ends_bind. subst w'. rewrite drain_emit, drain_drain. eapply ends_mono; [|exact (grep_writes_emits _ _ _ _ _ _ _ _ E1' Eg)].
      intros r w' [-> ->]. apply ends_Ret. exists m, out. split; [done|]. split; [done|]. split; [by apply grep_at_next|].
      by rewrite drain_emit, drain_drain.
  - split; [cbn; lia|]. exists []. split; [done|]. split; [by intros tl o' Ho|]. intros ls _.
    split; [constructor|]. split; [constructor|]. by exists [], ls.
Qed.

(** ** The programs *)

Lemma ends_then_exit {R} (t : prog R) (Q : world -> Prop) w : ends (fun _ w' => Q w') t w ->
  ends (fun (r : option unit) w' => r = None /\ Q w') (ITree.bind t (fun _ => exit)) w.
Proof. intros H. apply ends_bind. eapply ends_mono; [|exact H]. intros [a|] w' HQ; [by apply ends_Exit|done]. Qed.

(** [err] for a file that cannot be opened. *)
Definition cannot_open (who : string) (a : list Z) : list Z := bytes_of who ++ bytes_of ": cannot open " ++ a ++ [10].

(** Every run of cat ends.  Without arguments it copies what is left of its
    standard input to its standard output.  With arguments it opens the files one
    after the other and writes the whole contents of each, whatever pieces the
    kernel returns them in, up to the first that cannot be opened, for which it
    says so.  No descriptor stays open, and no other open file changes. *)
Theorem cat_main_copies argv w o0 f0 o1 f1 : fd_file w 0 = Some (o0, f0) -> fd_file w 1 = Some (o1, f1) ->
  ends (fun r w' => r = None /\ match tail argv with
    | [] => w' = emit o1 (of_rest f0) (drain o0 (length (of_rest f0)) w)
    | args => exists acts b, served (fun _ c _ b => b = c) (cannot_open "cat") args acts b /\ ran o1 b acts w w'
    end) (cat_main argv) w.
Proof.
  intros E0 E1. unfold cat_main. destruct argv as [|a0 [|a1 args]]; cbn [length Nat.leb tail].
  1,2: apply ends_then_exit; eapply ends_mono; [|exact (cat_copies 0 w o0 f0 o1 f1 E0 E1)]; by intros r w' [_ ->].
  apply ends_then_exit. eapply each_file_serves; [| |exact E1]; [|done].
  intros fd a w1 o f o2 f2 Ef E2. eapply ends_mono; [|exact (cat_copies fd w1 o f o2 f2 Ef E2)]. intros r w' [-> ->]. eauto.
Qed.

(** Every run of wc ends.  For each of its files, in order, it writes the number
    of lines, words and characters, where words are the maximal runs of
    characters without white space, however the reads cut the file; the counters
    are 32-bit integers and wrap around. *)
Theorem wc_main_counts argv w o0 f0 o1 f1 : fd_file w 0 = Some (o0, f0) -> fd_file w 1 = Some (o1, f1) ->
  ends (fun r w' => r = None /\ match tail argv with
    | [] => exists b, wc_line (of_rest f0) [] b /\ w' = emit o1 b (drain o0 (length (of_rest f0)) w)
    | args => exists acts b, served (fun _ => wc_line) (cannot_open "wc") args acts b /\ ran o1 b acts w w'
    end) (wc_main argv) w.
Proof.
  intros E0 E1. unfold wc_main. destruct argv as [|a0 [|a1 args]]; cbn [length Nat.leb tail].
  1,2: apply ends_then_exit; eapply ends_mono; [|exact (wc_says 0 [] w o0 f0 o1 f1 E0 E1)]; by intros r w' [_ Hb].
  apply ends_then_exit. eapply each_file_serves; [| |exact E1]; [|done].
  intros fd a w1 o f o2 f2 Ef E2. eapply ends_mono; [|exact (wc_says fd a w1 o f o2 f2 Ef E2)]. intros r w' (-> & b & Hb & ->). eauto.
Qed.

(** What grep shows of the contents [c] of a file on disk whose lines fit its
    buffer: the lines that the pattern matches, in order. *)
Definition grep_shows (pattern : list Z) (k : okind) (c b : list Z) : Prop :=
  forall ls, fitting k c ls -> exists shown, selects (matches pattern) ls shown /\ b = text shown.

Lemma grep_says_shows pattern k c b : clean pattern -> grep_says pattern k c b -> grep_shows pattern k c b.
Proof.
  intros Hp (reads & Ec & Eb & Hf) ls Hfit. pose proof (Hf ls Hfit) as Hr. destruct Hfit as (_ & El & Hls & _).
  exists (List.filter (keeps (pattern ++ [0])) ls). split; [by apply keeps_selects|].
  apply (grep_prints pattern Hp reads [] ls b); [done|done|constructor|by rewrite <- El|done].
Qed.

(** C25: Every run of grep with a pattern ends, for every contents and every way the
    kernel cuts them into reads.  For a file on disk whose lines have at most 1022
    characters it has written exactly the lines that the pattern matches (by the
    meaning of patterns, not by the matcher of the program), in order. *)
Theorem grep_main_shows prog_name pattern files w o0 f0 o1 f1 : clean pattern ->
  fd_file w 0 = Some (o0, f0) -> fd_file w 1 = Some (o1, f1) ->
  ends (fun r w' => r = None /\ match files with
    | [] => exists b, grep_shows pattern (of_kind f0) (of_rest f0) b /\ w' = emit o1 b (drain o0 (length (of_rest f0)) w)
    | _ => exists acts b, served (fun k c _ b => grep_shows pattern k c b) (cannot_open "grep") files acts b /\ ran o1 b acts w w'
    end) (grep_main (prog_name :: pattern :: files)) w.
Proof.
  intros Hp E0 E1. unfold grep_main. destruct files as [|a args]; apply ends_then_exit.
  - eapply ends_mono; [|exact (grep_fd_says pattern 0 w o0 f0 o1 f1 Hp E0 E1)]. intros r w' (_ & b & Hb & ->). exists b. split; [by apply grep_says_shows|done].
  - eapply each_file_serves; [| |exact E1]; [|done].
    intros fd a1 w1 o f o2 f2 Ef E2. eapply ends_mono; [|exact (grep_fd_says pattern fd w1 o f o2 f2 Hp Ef E2)].
    intros r w' (-> & b & Hb & ->). split; [done|]. exists (length (of_rest f)), b. split; [by apply grep_says_shows|done].
Qed.

(** A process with the console in descriptors 0, 1 and 2. *)
Definition console_world (input : list Z) : world :=
  mkWorld (<[0 := 0%nat]> (<[1 := 0%nat]> (<[2 := 0%nat]> ∅))) [] [mkOfile (OPath (bytes_of "console") O_RDWR true) input []] [].

Lemma cat_main_copies_witness : ends (fun r w' => r = None /\ w' = emit 0 [104; 105; 10] (drain 0 3 (console_world [104; 105; 10])))
  (cat_main [bytes_of "cat"]) (console_world [104; 105; 10]).
Proof. exact (cat_main_copies [bytes_of "cat"] (console_world [104; 105; 10]) 0 (mkOfile (OPath (bytes_of "console") O_RDWR true) [104; 105; 10] []) 0 (mkOfile (OPath (bytes_of "console") O_RDWR true) [104; 105; 10] []) eq_refl eq_refl). Defined.

Lemma wc_main_counts_witness : ends (fun r w' => r = None /\ exists b, wc_line [104; 105; 10] [] b /\ w' = emit 0 b (drain 0 3 (console_world [104; 105; 10])))
  (wc_main [bytes_of "wc"]) (console_world [104; 105; 10]).
Proof. exact (wc_main_counts [bytes_of "wc"] (console_world [104; 105; 10]) 0 (mkOfile (OPath (bytes_of "console") O_RDWR true) [104; 105; 10] []) 0 (mkOfile (OPath (bytes_of "console") O_RDWR true) [104; 105; 10] []) eq_refl eq_refl). Defined.

(** A process whose standard input is a file on disk. *)
Definition file_world (input : list Z) : world :=
  mkWorld (<[0 := 0%nat]> (<[1 := 1%nat]> (<[2 := 1%nat]> ∅))) []
    [mkOfile (OPath (bytes_of "f") O_RDONLY false) input []; mkOfile (OPath (bytes_of "console") O_RDWR true) [] []] [].

Lemma here_literal c t : c ≠ 36 -> c ≠ 46 -> here [c] t -> c ∈ t.
Proof. intros H1 H2. inversion 1 as [| | |c' p x t' _ _ Hf _]; subst; try done. destruct Hf as [Hf|Hf]; [done|subst; left]. Qed.

(** "grep h" of the lines "hi" and "no" writes "hi". *)
Lemma grep_main_shows_witness : ends (fun r w' => r = None /\ w' = emit 1 [104; 105; 10] (drain 0 6 (file_world [104; 105; 10; 110; 111; 10])))
  (grep_main [bytes_of "grep"; [104]]) (file_world [104; 105; 10; 110; 111; 10]).
Proof.
  eapply ends_mono; [|apply (grep_main_shows (bytes_of "grep") [104] [] (file_world [104; 105; 10; 110; 111; 10])
    0 (mkOfile (OPath (bytes_of "f") O_RDONLY false) [104; 105; 10; 110; 111; 10] []) 1 (mkOfile (OPath (bytes_of "console") O_RDWR true) [] []))].
  - intros r w' (-> & b & Hb & ->). split; [reflexivity|]. destruct (Hb [[104; 105]; [110; 111]]) as (shown & Hs & ->).
    + split; [reflexivity|]. split; [reflexivity|]. split; repeat constructor; discriminate.
    + assert (Hw : selects (matches [104]) [[104; 105]; [110; 111]] [[104; 105]]).
      { constructor; [exists [], [104; 105]; split; [reflexivity|apply here_chr; [discriminate|intros [? _]; discriminate|by right|apply here_nil]]|].
        constructor; [|constructor]. intros (t1 & t2 & E & Hh). apply here_literal in Hh; [|discriminate..].
        assert (Hin : 104 ∈ [110; 111]) by (rewrite E; apply elem_of_app; by right). by repeat (apply elem_of_cons in Hin as [Hin|Hin]); [..|apply elem_of_nil in Hin]. }
      by rewrite (selects_unique _ _ _ _ Hs Hw).
  - repeat constructor; discriminate.
  - reflexivity.
  - reflexivity.
Defined.

(** ** rm and mkdir *)

(** The calls made, up to the first that fails, and what is said of it. *)
Inductive tried (call : string) (err : list Z -> list Z) : list (list Z) -> list act -> list Z -> Prop :=
| tried_nil : tried call err [] [] []
| tried_ok a r args acts o : 0 <= r -> tried call err args acts o -> tried call err (a :: args) (ACall call [AStr a] r :: acts) o
| tried_fail a r args : r < 0 -> tried call err (a :: args) [ACall call [AStr a] r] (err a).

Lemma until_failure_tries call fmt err args o2 : (forall a, format fmt [AStr a] = Some (err a)) -> forall w f2, fd_file w 2 = Some (o2, f2) ->
  ends (fun r w' => exists acts b, tried call err args acts b /\ ran o2 b acts w w') (until_failure call fmt args) w.
Proof.
  intros Hfmt. induction args as [|a args IH]; intros w f2 E2; cbn [until_failure].
  { apply ends_Ret. exists [], []. split; [constructor|apply ran_refl]. }
  apply ends_bind, ends_sys; [done|]. intros r w' ->. pose proof (ran_act o2 (ACall call [AStr a] r) w) as Hr.
  destruct (r <? 0) eqn:E; bool_cases.
  - eapply ends_printf; [exact E2|apply Hfmt|]. exists [ACall call [AStr a] r], (err a). split; [by constructor|].
    apply (ran_trans _ [] _ [_] []) with (w1 := act_on (ACall call [AStr a] r) w); [done|apply ran_emit].
  - eapply ends_mono; [|exact (IH (act_on (ACall call [AStr a] r) w) f2 E2)]. intros r' w2 (acts & b & Ht & Hran).
    exists (ACall call [AStr a] r :: acts), b. split; [by constructor|]. by apply (ran_trans _ [] _ [_] _ _ _ _ Hr Hran).
Qed.

(** rm deletes and mkdir creates their arguments in order, stop at the first
    failure and name it on standard error; nothing else is called or written. *)
Theorem rm_mkdir_try name a args w o2 f2 : fd_file w 2 = Some (o2, f2) ->
  ends (fun r w' => r = None /\ exists acts b, tried "unlink" (fun x => bytes_of "rm: " ++ x ++ msg " failed to delete") (a :: args) acts b
    /\ ran o2 b acts w w') (rm_main (name :: a :: args)) w
  /\ ends (fun r w' => r = None /\ exists acts b, tried "mkdir" (fun x => bytes_of "mkdir: " ++ x ++ msg " failed to create") (a :: args) acts b
    /\ ran o2 b acts w w') (mkdir_main (name :: a :: args)) w.
Proof. intros E2. split; apply ends_then_exit; apply until_failure_tries with (f2 := f2); [intros x; reflexivity|done|intros x; reflexivity|done]. Qed.

Lemma rm_mkdir_try_witness : ends (fun r w' => r = None /\ exists acts b,
    tried "unlink" (fun x => bytes_of "rm: " ++ x ++ msg " failed to delete") [bytes_of "a"] acts b /\ ran 0 b acts (console_world []) w')
  (rm_main [bytes_of "rm"; bytes_of "a"]) (console_world []).
Proof. exact (proj1 (rm_mkdir_try (bytes_of "rm") (bytes_of "a") [] (console_world []) 0 (mkOfile (OPath (bytes_of "console") O_RDWR true) [] []) eq_refl)). Defined.
