(* ===== verification/Ls.v ===== *)
(** * ls.c

    The three formatting routines with their static buffers, the listing of a
    file or directory, and [stat] of ulib.c.  Strings are byte lists with their
    NUL where they are pointers into objects, and [None] is an access outside the
    object. *)

From ITree Require Import ITree.
From S2P Require Import Prelude CString Params Ulib Fs Sys Progs ProgsSpec.
Local Open Scope prog_scope.

(** [memmove] from another object and [memset], to offset [off] of [buf]. *)
Definition store (buf : list Z) (off : Z) (src : list Z) : option (list Z) :=
  if (0 <=? off) && (off + zlen src <=? zlen buf) then Some (splice (Z.to_nat off) src buf) else None.
Definition fill (buf : list Z) (off c n : Z) : option (list Z) :=
  if 0 <=? n then store buf off (replicate (Z.to_nat n) c) else None.

(** The static buffers of [fmtname], [fmtpermission] and [fmtusername]. *)
Record ls_bufs := mkBufs { b_name : list Z; b_perm : list Z; b_user : list Z }.
Definition ls_bufs0 : ls_bufs := mkBufs (replicate 15 0) (replicate 7 0) (replicate 16 0).

(** The loop [for(p = path+strlen(path); p >= path && *p != '/'; p--)] and [p++]. *)
Fixpoint after_slash (path : list Z) (k : nat) : nat :=
  if bool_decide (path !! k = Some 47) then S k
  else match k with O => O | S k' => after_slash path k' end.

(** The result and the buffer after the call. *)
Definition fmtname (buf path : list Z) : option (list Z * list Z) :=
  n ← strlen path;
  let p := drop (after_slash path (Z.to_nat n)) path in
  l ← strlen p;
  if DIRSIZ <=? l then s ← string_at p; Some (s, buf)
  else
    buf ← store buf 0 (take (Z.to_nat l) p);
    buf ← fill buf l 32 (DIRSIZ - l);
    s ← string_at buf;
    Some (s, buf).

Definition fmtpermission (buf : list Z) (perm : Z) : option (list Z * list Z) :=
  buf ← strcpy buf (cstring "rwxrwx");
  let buf := foldl (fun b i => if Z.land perm (Z.shiftl 1 (5 - Z.of_nat i)) =? 0 then <[i := 45]> b else b) buf (seq 0 6) in
  s ← string_at buf;
  Some (s, buf).

(** The [do ... while] over the digits; [room] is [i + 1], and the result has the
    final [i]. *)
Fixpoint user_digits (room : nat) (buf : list Z) (uid : Z) : option (list Z * Z) :=
  match room with
  | O => None
  | S i =>
      let buf := <[i := uid mod 10 + 48]> buf in
      if 0 <? uid / 10 then user_digits i buf (uid / 10) else Some (buf, Z.of_nat i - 1)
  end.

Definition fmtusername (buf owner_name : list Z) (uid : Z) : option (list Z * list Z) :=
  c0 ← head owner_name;
  if negb (c0 =? 0) then
    l ← strlen owner_name;
    buf ← store buf 0 (take (Z.to_nat l) owner_name);
    buf ← fill buf l 32 (15 - l);
    s ← string_at buf;
    Some (s, buf)
  else
    '(buf, i) ← user_digits 15 (<[15%nat := 0]> buf) uid;
    buf ← store buf 0 (slice (Z.to_nat (i + 1)) (Z.to_nat (14 - i)) buf);
    buf ← fill buf (14 - i) 32 (i + 1);
    s ← string_at buf;
    Some (s, buf).

(** The three strings of a line. *)
Definition fmt_line (b : ls_bufs) (st : stat) (path : list Z) : option (list Z * list Z * list Z * ls_bufs) :=
  '(p, pb) ← fmtpermission (b_perm b) (st_perm st);
  '(u, ub) ← fmtusername (b_user b) (st_owner_name st) (st_owner st);
  '(n, nb) ← fmtname (b_name b) path;
  Some (p, u, n, mkBufs nb pb ub).

(** [stat(n, st)] of ulib.c; [None] for a negative result. *)
Definition ustat (path : list Z) : prog (option stat) :=
  fd <- sys (SysOpen path O_RDONLY) ;;
  if fd <? 0 then Ret None
  else r <- sys (SysFstat fd) ;; sys (SysClose fd) ;;; Ret r.

(** [buf] after [strcpy(buf, path)], the slash, [de.name] and the NUL. *)
Definition full_name (path name : list Z) : option (list Z) :=
  let b := path ++ 47 :: name ++ [0] in if 512 <? zlen b then None else Some b.

(** One round of the loop over a directory, for an entry of 16 bytes. *)
Definition ls_entry (path : list Z) (b : ls_bufs) (de : list Z) : prog ls_bufs :=
  if get_le 2 0 de =? 0 then Ret b
  else
    buf <- of_option (full_name path (slice 2 14 de)) ;;
    st <- ustat (cstr buf) ;;
    match st with
    | None => uprintf 1 (msg "ls: cannot stat %s") [AStr (cstr buf)] ;;; Ret b
    | Some st =>
        let* (p, u, n, b) := of_option (fmt_line b st buf) in
        uprintf 1 (msg "%s%s  %s  %s %d %d %d") [AStr (if st_type st =? T_DIR then [100] else [45]); AStr p; AStr u; AStr n;
          AInt (st_type st); AInt (st_ino st); AInt (st_size st)] ;;;
        Ret b
    end.

(** The case of [ls] for a directory in descriptor [fd]. *)
Definition ls_dir (path : list Z) (fd : Z) (b : ls_bufs) : prog ls_bufs :=
  ITree.iter (fun b : ls_bufs =>
    let* (r, de) := sys (SysRead fd 16) in
    if r =? 16 then b' <- ls_entry path b de ;; Ret (inl b') else Ret (inr b)) b.

(** [path] is the argument without its NUL. *)
Definition ls (b : ls_bufs) (path : list Z) : prog ls_bufs :=
  fd <- sys (SysOpen path 0) ;;
  if fd <? 0 then uprintf 2 (msg "ls: cannot open %s") [AStr path] ;;; Ret b
  else
    r <- sys (SysFstat fd) ;;
    match r with
    | None => uprintf 2 (msg "ls: cannot stat %s") [AStr path] ;;; sys (SysClose fd) ;;; Ret b
    | Some st =>
        b <- (if st_type st =? T_FILE then
                let* (p, u, n, b) := of_option (fmt_line b st (path ++ [0])) in
                uprintf 1 (msg "-%s  %s  %s %d %d %d") [AStr p; AStr u; AStr n;
                  AInt (st_type st); AInt (st_ino st); AInt (st_size st)] ;;;
                Ret b
              else if st_type st =? T_DIR then
                if 512 <? zlen path + 1 + DIRSIZ + 1 then uprintf 1 (msg "ls: path too long") [] ;;; Ret b
                else ls_dir path fd b
              else Ret b) ;;
        sys (SysClose fd) ;;; Ret b
    end.

Fixpoint ls_args (b : ls_bufs) (args : list (list Z)) : prog unit :=
  match args with
  | [] => Ret tt
  | a :: args' => b <- ls b a ;; ls_args b args'
  end.

Definition ls_main (argv : list (list Z)) : prog unit :=
  if (length argv <? 2)%nat then ls ls_bufs0 (bytes_of ".") ;;; exit
  else ls_args ls_bufs0 (tail argv) ;;; exit.

(** ** The fields of a line *)

Definition clean_str (l : list Z) : Prop := Forall (fun c => c ≠ 0) l.
Definition pad (n : nat) (l : list Z) : list Z := l ++ replicate (n - length l) 32.

Lemma clean_pad n l : clean_str l -> clean_str (pad n l).
Proof. intros Hl. apply Forall_app. split; [done|]. by apply Forall_replicate. Qed.

Lemma strlen_bytes l rest : clean_str l -> strlen (l ++ 0 :: rest) = Some (zlen l).
Proof.
  intros Hl. change (l ++ 0 :: rest) with (string_bytes l rest). rewrite strlen_spec by apply terminated_string_bytes.
  by rewrite cstr_string_bytes.
Qed.

(** The end of a buffer of [n + 1] bytes is its NUL. *)
Definition nul_ended (n : nat) (buf : list Z) : Prop := length buf = S n /\ buf !! n = Some 0.

Lemma pad_nul_ended n l : (length l <= n)%nat -> nul_ended n (pad n l ++ [0]).
Proof.
  intros Hl. assert (Hp : length (pad n l) = n) by (unfold pad; rewrite length_app, length_replicate; lia).
  split; [rewrite length_app; cbn; lia|]. rewrite lookup_app_r by lia. by rewrite Hp, Nat.sub_diag.
Qed.

(** A name copied to a buffer and filled up with blanks. *)
Lemma store_fill n buf s : nul_ended n buf -> (length s <= n)%nat ->
  exists b, store buf 0 s = Some b /\ fill b (zlen s) 32 (Z.of_nat n - zlen s) = Some (pad n s ++ [0]).
Proof.
  intros [Hl H0] Hs. unfold store at 1. change (0 <=? 0) with true. cbn [andb]. rewrite (proj2 (Z.leb_le _ _)) by (unfold zlen; lia).
  eexists. split; [reflexivity|]. unfold fill, zlen. rewrite (proj2 (Z.leb_le 0 _)) by lia. unfold store.
  rewrite (proj2 (Z.leb_le 0 _)) by lia. unfold zlen. rewrite length_splice by lia.
  rewrite length_replicate, Z2Nat.id by lia. rewrite (proj2 (Z.leb_le _ _)) by lia. cbn [andb]. f_equal.
  unfold splice. change (Z.to_nat 0) with 0%nat. change (take 0 buf ++ s ++ drop (0 + length s) buf) with (s ++ drop (length s) buf). rewrite !Nat2Z.id, take_app_length, length_replicate. unfold pad. rewrite <- app_assoc. f_equal.
  replace (Z.to_nat (Z.of_nat n - Z.of_nat (length s))) with (n - length s)%nat by lia. f_equal.
  rewrite drop_app_ge by lia. replace (length s + (n - length s) - length s)%nat with (n - length s)%nat by lia.
  rewrite drop_drop. replace (length s + (n - length s))%nat with n by lia.
  rewrite (drop_S buf 0 n) by done. f_equal. apply drop_ge. lia.
Qed.

Lemma string_at_pad n s : clean_str s -> string_at (pad n s ++ [0]) = Some (pad n s).
Proof. intros Hs. by apply string_at_bytes, clean_pad. Qed.

(** The last component of a path. *)
Definition is_base (path base : list Z) : Prop :=
  (47 ∉ base) /\ exists dir, path = dir ++ base /\ (dir = [] \/ last dir = Some 47).

Lemma after_slash_spec path k : (after_slash path k <= S k)%nat /\ (forall j, (after_slash path k <= j <= k)%nat -> path !! j ≠ Some 47)
  /\ (after_slash path k = O \/ path !! (after_slash path k - 1)%nat = Some 47).
Proof.
  induction k as [|k IH]; cbn [after_slash]; case_bool_decide as Hs.
  - split; [lia|]. split; [lia|]. by right.
  - split; [lia|]. split; [|by left]. intros j Hj. by replace j with 0%nat by lia.
  - split; [lia|]. split; [lia|]. right. by rewrite Nat.sub_succ, Nat.sub_0_r.
  - destruct IH as (H1 & H2 & H3). split; [lia|]. split; [|done]. intros j Hj. destruct (decide (j = S k)) as [->|]; [done|]. apply H2. lia.
Qed.

Lemma after_slash_base s rest : is_base s (drop (after_slash (s ++ 0 :: rest) (length s)) s)
  /\ (after_slash (s ++ 0%Z :: rest) (length s) <= length s)%nat.
Proof.
  destruct (after_slash_spec (s ++ 0 :: rest) (length s)) as (H1 & H2 & H3). set (a := after_slash _ _) in *.
  assert (Ha : (a <= length s)%nat).
  { destruct H3 as [->|H3]; [lia|]. destruct (decide (a = S (length s))) as [E|]; [|lia]. rewrite E in H3. cbn in H3. rewrite Nat.sub_0_r in H3.
    rewrite list_lookup_middle in H3 by done. done. }
  split; [|done]. split.
  - intros (j & Hj)%list_elem_of_lookup. rewrite lookup_drop in Hj. apply (H2 (a + j)%nat).
    + apply lookup_lt_Some in Hj. lia.
    + rewrite lookup_app_l; [done|]. by eapply lookup_lt_Some.
  - exists (take a s). split; [by rewrite take_drop|]. destruct H3 as [->|H3]; [by left|].
    destruct a as [|a]; [by left|]. right. rewrite last_lookup, length_take, Nat.min_l by lia. cbn in *. rewrite Nat.sub_0_r in H3.
    rewrite lookup_take_lt by lia. rewrite lookup_app_l in H3 by lia. done.
Qed.

Lemma fmtname_spec buf s rest : nul_ended 14 buf -> clean_str s ->
  exists base buf', is_base s base /\ fmtname buf (s ++ 0 :: rest) = Some (pad 14 base, buf') /\ nul_ended 14 buf'.
Proof.
  intros Hb Hs. destruct (after_slash_base s rest) as [Hbase Ha]. unfold fmtname. rewrite strlen_bytes by done. cbn [mbind option_bind].
  replace (Z.to_nat (zlen s)) with (length s) by (unfold zlen; lia). cbv zeta. set (a := after_slash (s ++ 0 :: rest) (length s)) in *. set (base := drop a s) in *.
  assert (Hc : clean_str base) by by apply Forall_drop.
  assert (Ed : drop a (s ++ 0 :: rest) = base ++ 0 :: rest) by by rewrite drop_app_le.
  rewrite Ed, strlen_bytes by done. cbn [mbind option_bind].
  destruct (DIRSIZ <=? zlen base) eqn:El; bool_cases; unfold DIRSIZ in *.
  - exists base, buf. rewrite string_at_bytes by done. cbn. unfold pad. unfold zlen in El.
    replace (14 - length base)%nat with 0%nat by lia. by rewrite app_nil_r.
  - assert (Hl : (length base <= 14)%nat) by (unfold zlen in El; lia).
    exists base, (pad 14 base ++ [0]). split; [done|]. split; [|by apply pad_nul_ended].
    replace (Z.to_nat (zlen base)) with (length base) by (unfold zlen; lia). rewrite take_app_length. destruct (store_fill 14 buf base Hb Hl) as (b & -> & Ef).
    cbn [mbind option_bind]. change (Z.of_nat 14) with 14 in Ef. rewrite Ef. cbn [mbind option_bind]. by rewrite string_at_pad.
Qed.

(** The letters of a permission. *)
Definition perm_string (perm : Z) : list Z :=
  imap (fun i c => if Z.testbit perm (5 - Z.of_nat i) then c else 45) (bytes_of "rwxrwx").

Lemma land_bit perm k : 0 <= k -> (Z.land perm (Z.shiftl 1 k) =? 0) = negb (Z.testbit perm k).
Proof.
  intros Hk. apply eq_true_iff_eq. rewrite Z.eqb_eq, negb_true_iff. split.
  - intros E. apply (f_equal (fun x => Z.testbit x k)) in E. rewrite Z.land_spec, Z.bits_0, Z.shiftl_spec, Z.sub_diag in E by lia.
    by rewrite andb_true_r in E.
  - intros E. apply Z.bits_inj'. intros j Hj. rewrite Z.land_spec, Z.shiftl_spec, Z.bits_0 by lia.
    destruct (decide (j = k)) as [->|]; [by rewrite E|]. destruct (decide (j < k)); [by rewrite (Z.testbit_neg_r 1), andb_false_r by lia|].
    rewrite (Z.bits_above_log2 1); [apply andb_false_r|lia|cbn; lia].
Qed.

Lemma fmtpermission_spec buf perm : length buf = 7%nat -> exists buf', fmtpermission buf perm = Some (perm_string perm, buf') /\ length buf' = 7%nat.
Proof.
  intros Hl. do 7 (destruct buf as [|? buf]; [done|]). destruct buf; [|done].
  exists (perm_string perm ++ [0]). split; [|done]. unfold fmtpermission. cbn -[Z.land Z.shiftl Z.testbit string_at Z.sub Z.of_nat].
  rewrite !land_bit by lia. unfold perm_string. cbn -[Z.testbit string_at Z.sub Z.of_nat].
  destruct (Z.testbit perm (5 - Z.of_nat 0)), (Z.testbit perm (5 - Z.of_nat 1)), (Z.testbit perm (5 - Z.of_nat 2)), (Z.testbit perm (5 - Z.of_nat 3)),
    (Z.testbit perm (5 - Z.of_nat 4)), (Z.testbit perm (5 - Z.of_nat 5)); reflexivity.
Qed.

(** The name of an owner without one is its number in decimal. *)
Definition is_decimal (uid : Z) (l : list Z) : Prop :=
  Forall (fun d => 48 <= d <= 57) l /\ dec_val 0 l = uid /\ (length l <= 10)%nat.

Lemma user_digits_spec k : forall uid, 0 <= uid < 10 ^ Z.of_nat k -> (0 < k)%nat -> forall room buf, (k <= room)%nat -> (room < length buf)%nat ->
  exists ds, user_digits room buf uid = Some (take (room - length ds) buf ++ ds ++ drop room buf, Z.of_nat room - zlen ds - 1)
    /\ Forall (fun d => 48 <= d <= 57) ds /\ dec_val 0 ds = uid /\ (0 < length ds <= k)%nat.
Proof.
  induction k as [|k IH]; intros uid Hu Hk room buf Hr Hb; [lia|]. destruct room as [|room]; [lia|]. cbn [user_digits].
  assert (Hd : 48 <= uid mod 10 + 48 <= 57) by mlia. set (d := uid mod 10 + 48) in *.
  assert (Ei : <[room := d]> buf = take room buf ++ d :: drop (S room) buf) by (apply insert_take_drop; lia).
  destruct (0 <? uid / 10) eqn:E; bool_cases.
  - rewrite Nat2Z.inj_succ, Z.pow_succ_r in Hu by lia. destruct k as [|k]; [cbn in Hu; exfalso; mlia|].
    destruct (IH (uid / 10) ltac:(mlia) ltac:(lia) room (<[room := d]> buf) ltac:(lia) ltac:(rewrite length_insert; lia)) as (ds & -> & Hf & Hv & Hl).
    exists (ds ++ [d]). split; [|split; [|split]].
    + f_equal. f_equal; [|unfold zlen; rewrite length_app; cbn; lia]. rewrite Ei, length_app. cbn [length].
      rewrite take_app_le by (rewrite length_take; lia). rewrite take_take, Nat.min_l by lia.
      replace (S room - (length ds + 1))%nat with (room - length ds)%nat by lia. rewrite <- app_assoc. f_equal. f_equal.
      by rewrite drop_app_length' by (rewrite length_take; lia).
    + apply Forall_app. by split; [|apply Forall_singleton].
    + rewrite dec_val_app, Hv. unfold d. cbn. mlia.
    + rewrite length_app. cbn. lia.
  - exists [d]. split; [|split; [by apply Forall_singleton|split; [unfold d; cbn; mlia|cbn; lia]]].
    rewrite Ei. cbn [length app]. rewrite Nat.sub_succ, Nat.sub_0_r. f_equal. f_equal. unfold zlen. cbn [length]. lia.
Qed.

Lemma terminated_split s : terminated s = true -> exists l rest, s = l ++ 0 :: rest /\ clean_str l.
Proof.
  induction s as [|c s IH]; [done|]. rewrite terminated_cons. destruct (c =? 0) eqn:E; bool_cases.
  - intros _. subst c. exists [], s. split; [done|constructor].
  - cbn. intros (l & rest & -> & Hl)%IH. exists (c :: l), rest. split; [done|]. by constructor.
Qed.

Lemma fmtusername_spec buf name rest uid : nul_ended 15 buf -> clean_str name -> (length name <= 15)%nat -> is_u32 uid ->
  exists l buf', fmtusername buf (name ++ 0 :: rest) uid = Some (pad 15 l, buf') /\ nul_ended 15 buf'
    /\ match name with [] => is_decimal uid l | _ => l = name end.
Proof.
  intros Hb Hn Hl Hu. destruct name as [|c name].
  - destruct (user_digits_spec 10 uid ltac:(unfold is_u32 in Hu; cbn; lia) ltac:(lia) 15 (<[15%nat := 0]> buf) ltac:(lia)
      ltac:(rewrite length_insert; destruct Hb; lia)) as (ds & Ed & Hf & Hv & Hlen).
    exists ds, (pad 15 ds ++ [0]). split; [|split; [apply pad_nul_ended; lia|split; [done|split; [done|lia]]]].
    assert (Hc : clean_str ds) by (eapply Forall_impl; [exact Hf|]; intros d Hd; cbn in Hd; lia).
    unfold fmtusername. cbn [app head mbind option_bind]. rewrite Z.eqb_refl. cbn [negb]. rewrite Ed. cbn [mbind option_bind].
    change (Z.of_nat 15) with 15. replace (Z.to_nat (15 - zlen ds - 1 + 1)) with (15 - length ds)%nat by (unfold zlen; lia).
    replace (Z.to_nat (14 - (15 - zlen ds - 1))) with (length ds) by (unfold zlen; lia).
    replace (14 - (15 - zlen ds - 1)) with (zlen ds) by lia. replace (15 - zlen ds - 1 + 1) with (15 - zlen ds) by lia.
    destruct Hb as [Hb Hb0]. set (b1 := take (15 - length ds) (<[15%nat:=0]> buf)).
    assert (Hb1 : length b1 = (15 - length ds)%nat) by (unfold b1; rewrite length_take, length_insert; lia).
    unfold slice. rewrite drop_app_length' by lia. rewrite take_app_length.
    destruct (store_fill 15 (b1 ++ ds ++ drop 15 (<[15%nat:=0]> buf)) ds) as (b2 & -> & Ef); [|lia|].
    { split; [rewrite !length_app, length_drop, length_insert; lia|]. rewrite lookup_app_r, lookup_app_r by lia.
      rewrite lookup_drop. rewrite Hb1. replace (15 + _)%nat with 15%nat by lia. apply list_lookup_insert_eq. lia. }
    cbn [mbind option_bind]. change (Z.of_nat 15) with 15 in Ef. rewrite Ef. cbn [mbind option_bind]. by rewrite string_at_pad.
  - exists (c :: name), (pad 15 (c :: name) ++ [0]). split; [|split; [by apply pad_nul_ended|done]].
    unfold fmtusername. change (head ((c :: name) ++ 0 :: rest)) with (Some c). cbn [mbind option_bind].
    rewrite (proj2 (Z.eqb_neq c 0)) by by inversion Hn. cbn [negb]. rewrite strlen_bytes by done. cbn [mbind option_bind].
    replace (Z.to_nat (zlen (c :: name))) with (length (c :: name)) by (unfold zlen; lia). rewrite take_app_length.
    destruct (store_fill 15 buf (c :: name) Hb Hl) as (b & -> & Ef). cbn [mbind option_bind]. change (Z.of_nat 15) with 15 in Ef. rewrite Ef.
    cbn [mbind option_bind]. by rewrite string_at_pad.
Qed.

Definition bufs_ok (b : ls_bufs) : Prop := nul_ended 14 (b_name b) /\ length (b_perm b) = 7%nat /\ nul_ended 15 (b_user b).

(** The columns of ls are right and its static buffers are never overrun, for
    every answer of [fstat] and every path: the letters of the permission bits,
    the owner's name (its number in decimal when there is none) filled up to 15
    characters, and the last component of the path filled up to 14. *)
Lemma fmt_line_spec b st path rest : bufs_ok b -> stat_ok st = true -> Forall (fun c => c ≠ 0) path ->
  exists user base b', fmt_line b st (path ++ 0 :: rest) = Some (perm_string (st_perm st), pad 15 user, pad 14 base, b') /\ bufs_ok b'
    /\ is_base path base /\ match cstr (st_owner_name st) with [] => is_decimal (st_owner st) user | name => user = name end.
Proof.
  intros (Hn & Hp & Hu) Hst Hc. unfold stat_ok in Hst.
  rewrite !andb_true_iff, Z.eqb_eq, Z.leb_le, Z.ltb_lt in Hst. destruct Hst as [[[Hlen Ht] Hu0] Hu1].
  destruct (terminated_split (st_owner_name st)) as (name & r & En & Hname); [done|].
  assert (Hl : (length name <= 15)%nat).
  { unfold zlen in Hlen. rewrite En, length_app in Hlen. cbn in Hlen. lia. }
  destruct (fmtpermission_spec (b_perm b) (st_perm st) Hp) as (pb & Ep & Hpb).
  destruct (fmtusername_spec (b_user b) name r (st_owner st) Hu Hname Hl) as (l & ub & Eu & Hub & Hm); [unfold is_u32; lia|].
  destruct (fmtname_spec (b_name b) path rest Hn Hc) as (base & nb & Hbase & Eb & Hnb).
  exists l, base, (mkBufs nb pb ub). split; [|split; [done|split; [done|]]].
  - unfold fmt_line. rewrite Ep. cbn [mbind option_bind]. rewrite En, Eu. cbn [mbind option_bind]. by rewrite Eb.
  - rewrite En. change (name ++ 0 :: r) with (string_bytes name r). rewrite cstr_string_bytes by done. by destruct name.
Qed.

(** ** Every run of ls ends *)

(** The descriptors are the same, and nothing was read from the open files. *)
Definition kept (w w' : world) : Prop :=
  w_fds w' = w_fds w /\ w_cwd w' = w_cwd w
  /\ forall i f, w_open w !! i = Some f -> exists f', w_open w' !! i = Some f' /\ of_kind f' = of_kind f /\ of_rest f' = of_rest f.

Lemma kept_refl w : kept w w.
Proof. split; [done|]. split; [done|]. eauto. Qed.
Lemma kept_trans w1 w2 w3 : kept w1 w2 -> kept w2 w3 -> kept w1 w3.
Proof.
  intros (F1 & C1 & H1) (F2 & C2 & H2). split; [congruence|]. split; [congruence|]. intros i f Hi.
  destruct (H1 _ _ Hi) as (f1 & E1 & K1 & R1), (H2 _ _ E1) as (f2 & E2 & K2 & R2). exists f2. split; [done|]. split; congruence.
Qed.
Lemma kept_emit o b w : kept w (emit o b w).
Proof.
  split; [done|]. split; [done|]. intros i f Hi. unfold emit, upd_file. cbn [w_open]. rewrite lookup_alter_if, Hi. cbn.
  eexists. split; [done|]. by case_decide.
Qed.
Lemma kept_act a w : kept w (act_on a w).
Proof. split; [done|]. split; [done|]. eauto. Qed.

Lemma kept_drain o n m w w1 : kept (drain o n w) w1 -> kept (drain o (n + m) w) (drain o m w1).
Proof.
  intros (F & C & O). split; [done|]. split; [done|]. rewrite <- drain_drain. unfold drain at 1 3, upd_file. cbn [w_open].
  intros i f. rewrite !lookup_alter_if. destruct (w_open (drain o n w) !! i) as [f0|] eqn:E; [|done]. cbn. intros [= <-].
  destruct (O _ _ E) as (f1 & -> & Hk & Hr). cbn. eexists. split; [done|]. case_decide; [|done]. unfold take_out. cbn. by rewrite Hr.
Qed.

Lemma kept_fd w w' fd o f : kept w w' -> fd_file w fd = Some (o, f) ->
  exists f', fd_file w' fd = Some (o, f') /\ of_kind f' = of_kind f /\ of_rest f' = of_rest f.
Proof.
  intros (F & _ & H) E. unfold fd_file in *. rewrite F. destruct (w_fds w !! fd) as [o'|]; [|done]. cbn in *.
  destruct (w_open w !! o') as [f1|] eqn:Eo; [|done]. injection E as <- <-. destruct (H _ _ Eo) as (f' & -> & Hf). eauto.
Qed.

(** A file that is opened is new; when it is closed all is as before. *)
Lemma kept_closed path mode dev c fd w w' : w_fds w !! fd = None -> w_fds w' = w_fds (opened path mode dev c fd w) ->
  w_cwd w' = w_cwd w -> (forall i f, w_open w !! i = Some f -> exists f', w_open w' !! i = Some f' /\ of_kind f' = of_kind f /\ of_rest f' = of_rest f) ->
  kept w (with_fds (delete fd (w_fds w')) w').
Proof. intros Hfd Ef Hc Ho. split; [cbn; rewrite Ef; cbn; by apply delete_insert_id|]. split; [done|]. done. Qed.

Lemma opened_old path mode dev c fd w i f : w_open w !! i = Some f -> w_open (opened path mode dev c fd w) !! i = Some f.
Proof. intros Hi. cbn. by apply lookup_app_l_Some. Qed.

Lemma ends_open path mode Q w : Q (Some (-1)) (not_opened path mode w) ->
  (forall fd dev c, 0 <= fd -> w_fds w !! fd = None -> Q (Some fd) (opened path mode dev c fd w)) -> ends Q (sys (SysOpen path mode)) w.
Proof.
  intros H0 H1. apply ends_sys; [done|]. intros x w' [[-> ->]|(dev & c & Hx & ->)]; [done|].
  apply H1; [apply free_fd_bound in Hx; lia|by apply free_fd_free].
Qed.

Lemma ends_close fd o Q w : w_fds w !! fd = Some o -> Q (Some 0) (with_fds (delete fd (w_fds w)) w) -> ends Q (sys (SysClose fd)) w.
Proof. intros Ef HQ. apply ends_sys; [done|]. cbn. rewrite Ef. by intros x w' [-> ->]. Qed.

Lemma ends_fstat fd Q w : (forall st, match st with Some s => stat_ok s = true | None => True end -> Q (Some st) w) -> ends Q (sys (SysFstat fd)) w.
Proof. intros HQ. apply ends_sys; [done|]. cbn. intros st w' [-> Hst]. by apply HQ. Qed.

Lemma ustat_ends path w : ends (fun r w' => exists st, r = Some st /\ kept w w' /\ match st with Some s => stat_ok s = true | None => True end) (ustat path) w.
Proof.
  unfold ustat. apply ends_bind, ends_open; [change (-1 <? 0) with true; apply ends_Ret; exists None; split; [done|]; split; [apply kept_act|done]|].
  intros fd dev c Hfd Hfree. rewrite (proj2 (Z.ltb_ge fd 0)) by done. apply ends_bind, ends_fstat. intros st Hst.
  apply ends_bind. eapply ends_close; [apply lookup_insert_eq|]. apply ends_Ret. exists st. split; [done|]. split; [|done].
  eapply kept_closed; [done|reflexivity|done|]. intros i f Hi. rewrite (opened_old _ _ _ _ _ _ _ _ Hi). eauto.
Qed.

(** Descriptors 1 and 2 are open. *)
Definition std (w : world) : Prop := (exists x, fd_file w 1 = Some x) /\ exists x, fd_file w 2 = Some x.
Lemma std_kept w w' : std w -> kept w w' -> std w'.
Proof.
  intros [[[o f] H1] [[o' f'] H2]] Hk. destruct (kept_fd _ _ _ _ _ Hk H1) as (? & ? & _), (kept_fd _ _ _ _ _ Hk H2) as (? & ? & _).
  split; eauto.
Qed.

Lemma std_drain o n w : std w -> std (drain o n w).
Proof.
  intros [[[o1 f1] H1] [[o2 f2] H2]].
  destruct (fd_file_drain o n w _ _ _ H1) as (? & ? & _), (fd_file_drain o n w _ _ _ H2) as (? & ? & _). split; eauto.
Qed.

Lemma ends_say (fd : Z) fmt args Q w : std w -> fd = 1 \/ fd = 2 -> wants (fmt ++ [0]) false args = true ->
  (forall w', kept w w' -> Q (Some tt) w') -> ends Q (uprintf fd fmt args) w.
Proof.
  intros [[[o f] H1] [[o' f'] H2]] [->| ->] Hw HQ; (eapply ends_message; [eassumption|done|]); intros out; apply HQ, kept_emit.
Qed.

Lemma fmt_line_prog b st buf : bufs_ok b -> stat_ok st = true -> terminated buf = true ->
  exists p u n b', fmt_line b st buf = Some (p, u, n, b') /\ bufs_ok b'.
Proof.
  intros Hb Hst (l & rest & -> & Hl)%terminated_split. destruct (fmt_line_spec b st l rest Hb Hst Hl) as (u & n & b' & E & Hb' & _). eauto 10.
Qed.

Lemma ls_entry_ends path b de w : std w -> bufs_ok b -> zlen path + 16 <= 512 ->
  ends (fun r w' => exists b', r = Some b' /\ bufs_ok b' /\ kept w w') (ls_entry path b de) w.
Proof.
  intros Hw Hb Hp. unfold ls_entry. destruct (get_le 2 0 de =? 0); [apply ends_Ret; eauto using kept_refl|].
  assert (Ef : full_name path (slice 2 14 de) = Some (path ++ 47 :: slice 2 14 de ++ [0])).
  { unfold full_name. cbv zeta. rewrite (proj2 (Z.ltb_ge _ _)); [done|]. unfold zlen, slice in *. rewrite length_app. cbn [length]. rewrite length_app, length_take. cbn [length]. lia. }
  rewrite Ef. cbn [of_option]. set (buf := path ++ 47 :: slice 2 14 de ++ [0]).
  assert (Ht : terminated buf = true).
  { unfold terminated, buf. apply existsb_exists. exists 0. split; [|done]. apply in_app_iff. right. right. apply in_app_iff. right. by left. }
  apply ends_bind, ends_Ret, ends_bind. eapply ends_mono; [|apply ustat_ends]. intros r w1 (st & -> & Hk & Hst). destruct st as [st|].
  - destruct (fmt_line_prog b st buf Hb Hst Ht) as (p & u & n & b' & -> & Hb'). apply ends_bind, ends_Ret, ends_bind.
    apply ends_say; [by eapply std_kept|by left|reflexivity|]. intros w2 Hk2. apply ends_Ret. exists b'. eauto using kept_trans.
  - apply ends_bind, ends_say; [by eapply std_kept|by left|reflexivity|]. intros w2 Hk2. apply ends_Ret. exists b. eauto using kept_trans.
Qed.

Lemma ls_dir_ends path fd b w o f : std w -> bufs_ok b -> zlen path + 16 <= 512 -> fd_file w fd = Some (o, f) ->
  ends (fun r w' => exists b', r = Some b' /\ bufs_ok b' /\ exists n, kept (drain o n w) w') (ls_dir path fd b) w.
Proof.
  intros Hw Hb Hp Ef. unfold ls_dir.
  apply (ends_iter _ (fun b w1 m => bufs_ok b /\ exists n f1, kept (drain o n w) w1 /\ fd_file w1 fd = Some (o, f1) /\ m = length (of_rest f1)) _) with (n := length (of_rest f)).
  2:{ split; [done|]. exists 0%nat, f. rewrite drain_0. auto using kept_refl. }
  clear b Hb. intros b w1 m (Hb & n & f1 & Hk & Ef1 & ->). apply ends_bind. eapply ends_read; [exact Ef1|lia| |].
  - intros _. apply ends_Ret. eauto.
  - intros j Hj Hle Hj16 _. destruct (Z.of_nat j =? 16).
    2:{ apply ends_Ret. exists b. split; [done|]. split; [done|]. exists (n + j)%nat. by apply kept_drain. }
    assert (Hk' : kept (drain o (n + j) w) (drain o j w1)) by by apply kept_drain.
    apply ends_bind. eapply ends_mono; [|apply ls_entry_ends; [|done|done]].
    2:{ eapply std_kept; [|exact Hk']. by apply std_drain. }
    intros r w2 (b' & -> & Hb' & Hk2). apply ends_Ret. destruct (fd_file_drain o j w1 fd o f1 Ef1) as (f2 & Ef2 & Er & _).
    rewrite decide_True in Er by done. destruct (kept_fd _ _ _ _ _ Hk2 Ef2) as (f3 & Ef3 & _ & Er3).
    exists (length (of_rest f3)). split; [rewrite Er3, Er, length_drop; lia|]. split; [done|]. exists (n + j)%nat, f3. eauto using kept_trans.
Qed.

Lemma ls_ends b path w : std w -> bufs_ok b -> Forall (fun c => c ≠ 0) path ->
  ends (fun r w' => exists b', r = Some b' /\ bufs_ok b' /\ kept w w') (ls b path) w.
Proof.
  intros Hw Hb Hp. unfold ls. apply ends_bind, ends_open.
  { change (-1 <? 0) with true. pose proof (kept_act (AOpen path 0 None) w) as Hk0.
    apply ends_bind, ends_say; [exact (std_kept _ _ Hw Hk0)|by right|reflexivity|].
    intros w' Hk. apply ends_Ret. exists b. split; [done|]. split; [done|]. exact (kept_trans _ _ _ Hk0 Hk). }
  intros fd dev c Hfd Hfree. rewrite (proj2 (Z.ltb_ge fd 0)) by done. set (w1 := opened path 0 dev c fd w).
  assert (Ef1 : fd_file w1 fd = Some (length (w_open w), mkOfile (OPath path 0 dev) c [])) by apply fd_file_new.
  assert (Hw1 : std w1) by (destruct Hw as [[[o f] H1] [[o' f'] H2]]; split; eexists; by apply fd_file_old).
  assert (Hclose : forall w2 n, kept (drain (length (w_open w)) n w1) w2 -> kept w (with_fds (delete fd (w_fds w2)) w2) /\ is_Some (w_fds w2 !! fd)).
  { intros w2 n (F & C & O). split; [|rewrite F; cbn; rewrite lookup_insert_eq; eauto]. apply (kept_closed path 0 dev c fd); [done|exact F|exact C|].
    intros i f Hi. apply O. cbn [drain upd_file w_open]. rewrite lookup_alter_if. unfold w1. rewrite (opened_old _ _ _ _ _ _ _ _ Hi). cbn.
    rewrite decide_False; [done|]. apply lookup_lt_Some in Hi. lia. }
  apply ends_bind, ends_fstat. intros [st|] Hst.
  2:{ apply ends_bind, ends_say; [done|by right|reflexivity|]. intros w2 Hk. apply ends_bind. rewrite <- (drain_0 (length (w_open w)) w1) in Hk.
      destruct (Hclose w2 _ Hk) as [Hk2 [x Hx]]. eapply ends_close; [exact Hx|]. apply ends_Ret. eauto. }
  apply ends_bind. eapply (ends_mono (fun r w' => exists b', r = Some b' /\ bufs_ok b' /\ exists n, kept (drain (length (w_open w)) n w1) w')).
  { intros r w2 (b' & -> & Hb' & n & Hk). apply ends_bind. destruct (Hclose w2 _ Hk) as [Hk2 [x Hx]]. eapply ends_close; [exact Hx|]. apply ends_Ret. eauto. }
  assert (Hsame : forall b' w', bufs_ok b' -> kept w1 w' -> exists b2, Some b' = Some b2 /\ bufs_ok b2 /\ exists n, kept (drain (length (w_open w)) n w1) w').
  { intros b' w' Hb' Hk. exists b'. split; [done|]. split; [done|]. exists 0%nat. by rewrite drain_0. }
  destruct (st_type st =? T_FILE).
  { destruct (fmt_line_prog b st (path ++ [0]) Hb Hst) as (p & u & n & b' & -> & Hb').
    { unfold terminated. rewrite existsb_app. apply orb_true_r. }
    apply ends_bind, ends_Ret, ends_bind, ends_say; [done|by left|reflexivity|]. intros w2 Hk. apply ends_Ret. auto. }
  destruct (st_type st =? T_DIR); [|by apply ends_Ret, Hsame, kept_refl].
  destruct (512 <? zlen path + 1 + DIRSIZ + 1) eqn:El.
  - apply ends_bind, ends_say; [done|by left|reflexivity|]. intros w2 Hk. apply ends_Ret. auto.
  - apply Z.ltb_ge in El. unfold DIRSIZ in El. apply (ls_dir_ends path fd b w1 _ _ Hw1 Hb ltac:(lia) Ef1).
Qed.

Lemma ls_args_ends args : forall b w, std w -> bufs_ok b -> Forall (Forall (fun c => c ≠ 0)) args ->
  ends (fun r w' => kept w w') (ls_args b args) w.
Proof.
  induction args as [|a args IH]; intros b w Hw Hb Ha; cbn [ls_args]; [apply ends_Ret, kept_refl|]. inversion Ha; subst.
  apply ends_bind. eapply ends_mono; [|by apply ls_ends]. intros r w1 (b' & -> & Hb' & Hk).
  eapply ends_mono; [|apply IH; [by eapply std_kept|done|done]]. intros r w2 Hk2. by eapply kept_trans.
Qed.

(** C24: Every run of ls ends by [exit], whatever the directories hold and the kernel
    answers: no buffer is overrun (the path buffer and the three static ones), the
    loop over a directory ends, and every descriptor it opened is closed. *)
Theorem ls_main_safe argv w : std w -> Forall (Forall (fun c => c ≠ 0)) argv ->
  ends (fun r w' => r = None /\ kept w w') (ls_main argv) w.
Proof.
  intros Hw Ha. assert (H0 : bufs_ok ls_bufs0) by done. unfold ls_main. destruct (length argv <? 2)%nat; apply ends_then_exit.
  - eapply ends_mono; [|apply ls_ends; [done|done|]]; [by intros r w' (b & _ & _ & Hk)|]. by repeat constructor.
  - apply ls_args_ends; [done|done|]. by destruct Ha.
Qed.

Lemma ls_main_safe_witness : ends (fun r w' => r = None /\ kept (console_world []) w') (ls_main [bytes_of "ls"; bytes_of "/"]) (console_world []).
Proof.
  apply (ls_main_safe [bytes_of "ls"; bytes_of "/"] (console_world [])).
  - split; eexists; reflexivity.
  - repeat constructor; discriminate.
Defined.
