(* ===== verification/Sh.v ===== *)
(** * The shell's parser: sh.c

    [parsecmd] turns the line in [buf] into command nodes on the heap.  Pointers
    into the line are offsets, a node is its index in the list of nodes the parser
    has allocated and [None] is the null pointer; memory for a node is always
    found (the allocator itself is in Umalloc.v).  The arguments of a command are
    filled in after redirections may already point to its node, so the nodes are
    a store, and [nulterminate] writes its NULs into the line.  The shell's
    [panic] prints its message and leaves with [exit]. *)

From S2P Require Import Prelude CString Params Ulib KMonad.

Definition MAXARGS : nat := 10.

(** [struct execcmd], [redircmd], [pipecmd], [listcmd], [backcmd]. *)
Inductive cnode :=
| EXEC (argv eargv : list (option nat))
| REDIR (cmd : option nat) (file efile : nat) (mode fd : Z)
| PIPE (left right : option nat)
| LIST (left right : option nat)
| BACK (cmd : option nat).

(** The line, the nodes, and what was printed on descriptor 2. *)
Record sh := mkSh { sh_buf : list Z; sh_heap : list cnode; sh_err : list Z }.

Definition H := M sh.

(** [" \t\r\n\v"] and ["<|>&;()"]. *)
Definition whitespace : list Z := [32; 9; 13; 10; 11; 0].
Definition symbols : list Z := [60; 124; 62; 38; 59; 40; 41; 0].

(** [strchr(set, c)] as a condition. *)
Definition member (set : list Z) (c : Z) : bool :=
  match strchr set c with Some (Some _) => true | _ => false end.

Definition char_at (s : nat) : H Z := b <- gets sh_buf ;; from_opt (b !! s).

Definition print_err (l : list Z) : H unit :=
  modify (fun x => mkSh (sh_buf x) (sh_heap x) (sh_err x ++ l)).

Definition shpanic {A} (s : string) : H A :=
  print_err (bytes_of s ++ [10]) ;;; halt exited_stop.

(** ** Constructors *)

Definition new_node (n : cnode) : H (option nat) :=
  h <- gets sh_heap ;;
  modify (fun x => mkSh (sh_buf x) (sh_heap x ++ [n]) (sh_err x)) ;;;
  ret (Some (length h)).

Definition execcmd : H (option nat) := new_node (EXEC (replicate MAXARGS None) (replicate MAXARGS None)).
Definition redircmd (subcmd : option nat) (file efile : nat) (mode fd : Z) : H (option nat) :=
  new_node (REDIR subcmd file efile mode fd).
Definition pipecmd (left right : option nat) : H (option nat) := new_node (PIPE left right).
Definition listcmd (left right : option nat) : H (option nat) := new_node (LIST left right).
Definition backcmd (subcmd : option nat) : H (option nat) := new_node (BACK subcmd).

(** ** Tokens *)

(** [while(s < es && test( *s)) s++;] over the [n = es - s] characters left. *)
Fixpoint advance (test : Z -> bool) (n s : nat) : H nat :=
  match n with
  | O => ret s
  | S n' => c <- char_at s ;; if test c then advance test n' (S s) else ret s
  end.

(** The token, its bounds [q] and [eq], and the position after it. *)
Definition gettoken (ps es : nat) : H (Z * nat * nat * nat) :=
  s <- advance (member whitespace) (es - ps) ps ;;
  let q := s in
  c <- char_at s ;;
  let* (r, s) :=
    (if c =? 0 then ret (c, s)
     else if (c =? 124) || (c =? 40) || (c =? 41) || (c =? 59) || (c =? 38) || (c =? 60)
     then ret (c, S s)
     else if c =? 62 then
       c' <- char_at (S s) ;; if c' =? 62 then ret (43, S (S s)) else ret (c, S s)
     else
       s <- advance (fun c => negb (member whitespace c) && negb (member symbols c)) (es - s) s ;;
       ret (97, s)) in
  let eq := s in
  s <- advance (member whitespace) (es - s) s ;;
  ret (r, q, eq, s).

(** Whether the next character is one of [toks], and its position. *)
Definition peek (ps es : nat) (toks : list Z) : H (bool * nat) :=
  s <- advance (member whitespace) (es - ps) ps ;;
  c <- char_at s ;;
  ret (negb (c =? 0) && member toks c, s).

(** ** The parser

    [fuel] bounds the depth of the calls and the rounds of the loops; every round
    takes a token and every nested call either takes one or goes from a rule to
    the next one down, so [parse_fuel] is enough
    ([parsecmd_grammar]). *)

Fixpoint parseredirs (fuel : nat) (cmd : option nat) (ps es : nat) : H (option nat * nat) :=
  match fuel with
  | O => halt fuel_stop
  | S fuel' =>
      let* (b, ps) := peek ps es [60; 62; 0] in
      if b : bool then
        let* (tok, _, _, ps) := gettoken ps es in
        let* (t, q, eq, ps) := gettoken ps es in
        if negb (t =? 97) then shpanic "missing file for redirection"
        else
          cmd <- (if tok =? 60 then redircmd cmd q eq O_RDONLY 0
                  else if tok =? 62 then redircmd cmd q eq (Z.lor O_WRONLY O_CREATE) 1
                  else if tok =? 43 then redircmd cmd q eq (Z.lor O_WRONLY O_CREATE) 1
                  else ret cmd) ;;
          parseredirs fuel' cmd ps es
      else ret (cmd, ps)
  end.

(** [cmd->argv[argc] = q; cmd->eargv[argc] = eq;] *)
Definition set_arg (cmd : option nat) (argc : nat) (q eq : option nat) : H unit :=
  c <- from_opt cmd ;;
  h <- gets sh_heap ;;
  n <- from_opt (h !! c) ;;
  match n with
  | EXEC argv eargv =>
      if (argc <? MAXARGS)%nat then
        modify (fun x => mkSh (sh_buf x) (<[c := EXEC (<[argc := q]> argv) (<[argc := eq]> eargv)]> h)
                           (sh_err x))
      else halt fault_stop
  | _ => halt fault_stop
  end.

(** The loop of [parseexec] over the arguments: [cmd] is the command, [ret_]
    the command with its redirections. *)
Fixpoint parseargs (fuel : nat) (cmd ret_ : option nat) (argc ps es : nat) : H (option nat * nat * nat) :=
  match fuel with
  | O => halt fuel_stop
  | S fuel' =>
      let* (b, ps) := peek ps es [124; 41; 38; 59; 0] in
      if b : bool then ret (ret_, argc, ps)
      else
        let* (tok, q, eq, ps) := gettoken ps es in
        if tok =? 0 then ret (ret_, argc, ps)
        else if negb (tok =? 97) then shpanic "syntax"
        else
          set_arg cmd argc (Some q) (Some eq) ;;;
          let argc := S argc in
          if (MAXARGS <=? argc)%nat then shpanic "too many args"
          else
            let* (ret_, ps) := parseredirs fuel' ret_ ps es in
            parseargs fuel' cmd ret_ argc ps es
  end.

(** The loop of [parseline] over the ampersands. *)
Fixpoint parsebacks (fuel : nat) (cmd : option nat) (ps es : nat) : H (option nat * nat) :=
  match fuel with
  | O => halt fuel_stop
  | S fuel' =>
      let* (b, ps) := peek ps es [38; 0] in
      if b : bool then
        let* (_, _, _, ps) := gettoken ps es in
        cmd <- backcmd cmd ;;
        parsebacks fuel' cmd ps es
      else ret (cmd, ps)
  end.

Fixpoint parseline (fuel : nat) (ps es : nat) : H (option nat * nat) :=
  match fuel with
  | O => halt fuel_stop
  | S fuel' =>
      let* (cmd, ps) := parsepipe fuel' ps es in
      let* (cmd, ps) := parsebacks fuel' cmd ps es in
      let* (b, ps) := peek ps es [59; 0] in
      if b : bool then
        let* (_, _, _, ps) := gettoken ps es in
        let* (r, ps) := parseline fuel' ps es in
        cmd <- listcmd cmd r ;;
        ret (cmd, ps)
      else ret (cmd, ps)
  end
with parsepipe (fuel : nat) (ps es : nat) : H (option nat * nat) :=
  match fuel with
  | O => halt fuel_stop
  | S fuel' =>
      let* (cmd, ps) := parseexec fuel' ps es in
      let* (b, ps) := peek ps es [124; 0] in
      if b : bool then
        let* (_, _, _, ps) := gettoken ps es in
        let* (r, ps) := parsepipe fuel' ps es in
        cmd <- pipecmd cmd r ;;
        ret (cmd, ps)
      else ret (cmd, ps)
  end
with parseblock (fuel : nat) (ps es : nat) : H (option nat * nat) :=
  match fuel with
  | O => halt fuel_stop
  | S fuel' =>
      let* (b, ps) := peek ps es [40; 0] in
      if negb b then shpanic "parseblock"
      else
        let* (_, _, _, ps) := gettoken ps es in
        let* (cmd, ps) := parseline fuel' ps es in
        let* (b, ps) := peek ps es [41; 0] in
        if negb b then shpanic "syntax - missing )"
        else
          let* (_, _, _, ps) := gettoken ps es in
          parseredirs fuel' cmd ps es
  end
with parseexec (fuel : nat) (ps es : nat) : H (option nat * nat) :=
  match fuel with
  | O => halt fuel_stop
  | S fuel' =>
      let* (b, ps) := peek ps es [40; 0] in
      if b : bool then parseblock fuel' ps es
      else
        cmd <- execcmd ;;
        let* (ret_, ps) := parseredirs fuel' cmd ps es in
        let* (ret_, argc, ps) := parseargs fuel' cmd ret_ 0 ps es in
        set_arg cmd argc None None ;;;
        ret (ret_, ps)
  end.

(** [*p = 0] in the line. *)
Definition put_nul (p : nat) : H unit :=
  b <- gets sh_buf ;;
  b' <- from_opt (zset b (Z.of_nat p) 0) ;;
  modify (fun x => mkSh b' (sh_heap x) (sh_err x)).

(** [for(i=0; ecmd->argv[i]; i++) *ecmd->eargv[i] = 0;] *)
Fixpoint put_nuls (argv eargv : list (option nat)) : H unit :=
  match argv with
  | [] => halt fault_stop
  | None :: _ => ret tt
  | Some _ :: argv' =>
      e <- from_opt (head eargv) ;;
      p <- from_opt e ;;
      put_nul p ;;;
      put_nuls argv' (tail eargv)
  end.

(** [fuel] bounds the depth of the tree. *)
Fixpoint nulterminate (fuel : nat) (cmd : option nat) : H unit :=
  match fuel with
  | O => halt fuel_stop
  | S fuel' =>
      match cmd with
      | None => ret tt
      | Some c =>
          h <- gets sh_heap ;;
          n <- from_opt (h !! c) ;;
          match n with
          | EXEC argv eargv => put_nuls argv eargv
          | REDIR cmd _ efile _ _ => nulterminate fuel' cmd ;;; put_nul efile
          | PIPE l r => nulterminate fuel' l ;;; nulterminate fuel' r
          | LIST l r => nulterminate fuel' l ;;; nulterminate fuel' r
          | BACK cmd => nulterminate fuel' cmd
          end
      end
  end.

Definition parse_fuel (es : nat) : nat := 4 * es + 5.

Definition parsecmd : H (option nat) :=
  b <- gets sh_buf ;;
  n <- from_opt (strlen b) ;;
  let es := Z.to_nat n in
  let* (cmd, s) := parseline (parse_fuel es) 0 es in
  let* (_, s) := peek s es [0] in
  if negb (s =? es)%nat then
    b <- gets sh_buf ;;
    print_err (bytes_of "leftovers: " ++ cstr (drop s b) ++ [10]) ;;;
    shpanic "syntax"
  else
    h <- gets sh_heap ;;
    nulterminate (S (length h)) cmd ;;;
    ret cmd.
