(* ===== verification/ShSpec.v ===== *)
(** * The shell's parser accepts its grammar

    A line is a sequence of tokens ([tokens]); the command language is a grammar
    on tokens ([g_line], [g_pipe], [g_exec]) that says which command a line
    stands for.  [parsecmd] always stops, and it returns a command exactly for
    the lines of the grammar: the one the grammar gives, whose argument strings
    are the words of the line. *)

From S2P Require Import Prelude CString Params Ulib KMonad Sh.

(** ** Reference lexer *)

(** Characters of a word: neither white space, nor a symbol, nor NUL. *)
Definition wordch (c : Z) : bool :=
  negb (c =? 0) && negb (member whitespace c) && negb (member symbols c).

(** The length of the longest prefix that satisfies [p]. *)
Fixpoint span_len (p : Z -> bool) (t : list Z) : nat :=
  match t with
  | c :: t' => if p c then S (span_len p t') else O
  | [] => O
  end.

Inductive token := Sym (c : Z) | Word (w : list Z).

(** The first token of a text without leading white space: its kind (as the
    parser numbers them, 97 for a word and 0 at the end) and length. *)
Definition lex (t : list Z) : Z * nat :=
  match t with
  | [] => (0, O)
  | c :: t' =>
      if (c =? 124) || (c =? 40) || (c =? 41) || (c =? 59) || (c =? 38) || (c =? 60) then (c, 1%nat)
      else if c =? 62 then
        match t' with c' :: _ => if c' =? 62 then (43, 2%nat) else (c, 1%nat) | [] => (c, 1%nat) end
      else (97, span_len wordch t)
  end.

Definition skip (t : list Z) : list Z := drop (span_len (member whitespace) t) t.

Fixpoint tokenize (n : nat) (t : list Z) : list token :=
  match n with
  | O => []
  | S n' =>
      let t1 := skip t in
      let '(k, len) := lex t1 in
      if k =? 0 then []
      else (if k =? 97 then Word (take len t1) else Sym k) :: tokenize n' (drop len t1)
  end.

Definition tokens (t : list Z) : list token := tokenize (S (length t)) t.

(** ** Grammar *)

(** Commands, with their strings. *)
Inductive tree :=
| TExec (argv : list (list Z))
| TRedir (t : tree) (file : list Z) (mode fd : Z)
| TPipe (l r : tree)
| TList (l r : tree)
| TBack (t : tree).

(** A redirection: its symbol and file. *)
Definition redir := (Z * list Z)%type.

Definition redir_ok (r : redir) : Prop := r.1 = 60 \/ r.1 = 62 \/ r.1 = 43.

(** The mode and the descriptor of a redirection. *)
Definition rmode (c : Z) : Z := if c =? 60 then O_RDONLY else Z.lor O_WRONLY O_CREATE.
Definition rfd (c : Z) : Z := if c =? 60 then 0 else 1.

Definition redirect (t : tree) (r : redir) : tree := TRedir t r.2 (rmode r.1) (rfd r.1).

Definition redir_tokens (rs : list redir) : list token := rs ≫= fun r => [Sym r.1; Word r.2].

(** Words and redirections of a simple command, in any order. *)
Definition item_tokens (its : list (list Z + redir)) : list token :=
  its ≫= fun i => match i with inl w => [Word w] | inr r => [Sym r.1; Word r.2] end.
Definition item_words (its : list (list Z + redir)) : list (list Z) :=
  its ≫= fun i => match i with inl w => [w] | inr _ => [] end.
Definition item_redirs (its : list (list Z + redir)) : list redir :=
  its ≫= fun i => match i with inl _ => [] | inr r => [r] end.

Definition backs (n : nat) (t : tree) : tree := Nat.iter n TBack t.
Definition amps (n : nat) : list token := replicate n (Sym 38).

Inductive g_line : list token -> tree -> Prop :=
| gl_last ts t n : g_pipe ts t -> g_line (ts ++ amps n) (backs n t)
| gl_seq ts t n ts' t' : g_pipe ts t -> g_line ts' t' ->
    g_line (ts ++ amps n ++ Sym 59 :: ts') (TList (backs n t) t')
with g_pipe : list token -> tree -> Prop :=
| gp_last ts t : g_exec ts t -> g_pipe ts t
| gp_pipe ts t ts' t' : g_exec ts t -> g_pipe ts' t' -> g_pipe (ts ++ Sym 124 :: ts') (TPipe t t')
with g_exec : list token -> tree -> Prop :=
| ge_simple its : Forall redir_ok (item_redirs its) -> (length (item_words its) < MAXARGS)%nat ->
    g_exec (item_tokens its) (foldl redirect (TExec (item_words its)) (item_redirs its))
| ge_block ts t rs : g_line ts t -> Forall redir_ok rs ->
    g_exec (Sym 40 :: ts ++ Sym 41 :: redir_tokens rs) (foldl redirect t rs).

Scheme g_line_ind' := Induction for g_line Sort Prop
  with g_pipe_ind' := Induction for g_pipe Sort Prop
  with g_exec_ind' := Induction for g_exec Sort Prop.
Combined Scheme grammar_ind from g_line_ind', g_pipe_ind', g_exec_ind'.

(** The command at node [p], with argument strings read from the line [b]; a node
    is allocated after the nodes it points to. *)
Inductive command (h : list cnode) (b : list Z) : nat -> tree -> Prop :=
| c_exec p argv eargv qs n ws : h !! p = Some (EXEC argv eargv) ->
    argv = (Some <$> qs) ++ replicate (S n) None ->
    Forall2 (fun q w => string_at (drop q b) = Some w) qs ws -> command h b p (TExec ws)
| c_redir p c file efile mode fd t w : h !! p = Some (REDIR (Some c) file efile mode fd) -> (c < p)%nat ->
    command h b c t -> string_at (drop file b) = Some w -> command h b p (TRedir t w mode fd)
| c_pipe p l r tl tr : h !! p = Some (PIPE (Some l) (Some r)) -> (l < p)%nat -> (r < p)%nat ->
    command h b l tl -> command h b r tr -> command h b p (TPipe tl tr)
| c_list p l r tl tr : h !! p = Some (LIST (Some l) (Some r)) -> (l < p)%nat -> (r < p)%nat ->
    command h b l tl -> command h b r tr -> command h b p (TList tl tr)
| c_back p c t : h !! p = Some (BACK (Some c)) -> (c < p)%nat -> command h b c t -> command h b p (TBack t).

(** ** Lexing *)

Lemma member_cons x s c : x ≠ 0 -> member (x :: s) c = (x =? c) || member s c.
Proof.
  intros Hx. unfold member. cbn [strchr]. rewrite (proj2 (Z.eqb_neq x 0)) by done.
  destruct (x =? c); [done|]. cbn [orb]. by destruct (strchr s c) as [[]|].
Qed.

Lemma member_nul s c : member (0 :: s) c = false.
Proof. done. Qed.

(** Evaluate [member] on a literal set. *)
Ltac member_simpl :=
  unfold whitespace, symbols in *;
  repeat first [rewrite member_nul | rewrite member_cons by done];
  repeat match goal with
  | H : context [member (0 :: ?s) ?c] |- _ => rewrite (member_nul s c) in H
  | H : context [member (?x :: ?s) ?c] |- _ => rewrite (member_cons x s c) in H by done
  end;
  rewrite ?orb_false_r in *.

Lemma span_len_le p t : (span_len p t <= length t)%nat.
Proof. induction t as [|c t IH]; cbn; [lia|]. case_if; lia. Qed.

Lemma span_len_ext p q t : Forall (fun c => p c = q c) t -> span_len p t = span_len q t.
Proof. induction 1 as [|c t E _ IH]; cbn; [done|]. by rewrite E, IH. Qed.

Lemma span_take p t : Forall (fun c => p c = true) (take (span_len p t) t).
Proof. induction t as [|c t IH]; cbn; [done|]. case_if; cbn; auto. Qed.

Lemma span_stop p t c : t !! span_len p t = Some c -> p c = false.
Proof. induction t as [|x t IH]; cbn; [done|]. case_if; cbn; [auto|]. congruence. Qed.

Lemma skip_head t c t' : skip t = c :: t' -> member whitespace c = false.
Proof.
  unfold skip. intros E. apply (span_stop _ t). rewrite <- (Nat.add_0_r (span_len _ _)), <- lookup_drop.
  by rewrite E.
Qed.

Lemma length_skip t : (length (skip t) <= length t)%nat.
Proof. unfold skip. rewrite length_drop. lia. Qed.

Lemma skip_idem t : member whitespace (default 0 (head t)) = false -> skip t = t.
Proof. unfold skip. destruct t as [|c t]; cbn; [done|]. by intros ->. Qed.

Lemma skip_skip t : skip (skip t) = skip t.
Proof.
  destruct (skip t) as [|c t'] eqn:E; [done|]. apply skip_idem. cbn. by eapply skip_head.
Qed.

(** Tokens other than the end take characters. *)
Lemma lex_len t : (forall c t', t = c :: t' -> c ≠ 0 /\ member whitespace c = false) ->
  match t with [] => lex t = (0, O) | _ => (lex t).1 ≠ 0 /\ (0 < (lex t).2 <= length t)%nat end.
Proof.
  destruct t as [|c t]; [done|]. intros Hc. destruct (Hc c t eq_refl) as [H0 Hw]. unfold lex.
  destruct ((c =? 124) || _ || _ || _ || _ || _) eqn:E1; [cbn; split; [done|lia]|].
  destruct (c =? 62) eqn:E2; bool_cases.
  { subst. destruct t as [|c' t]; cbn; [split; [done|lia]|]. destruct (c' =? 62); cbn; split; (done || lia). }
  cbn [fst snd]. split; [done|]. pose proof (span_len_le wordch (c :: t)).
  split; [|done]. cbn. replace (wordch c) with true; [lia|]. symmetry. unfold wordch. rewrite Hw.
  member_simpl. rewrite (proj2 (Z.eqb_neq c 0)) by done. cbn [negb andb]. bool_cases.
  repeat match goal with |- context [?a =? c] => rewrite (proj2 (Z.eqb_neq a c)) by congruence end. done.
Qed.

Definition no_nul (t : list Z) : Prop := Forall (fun c => c ≠ 0) t.

Lemma no_nul_skip t : no_nul t -> no_nul (skip t).
Proof. apply Forall_drop. Qed.

Lemma lex_skip t : no_nul t ->
  match skip t with [] => lex (skip t) = (0, O)
  | _ => (lex (skip t)).1 ≠ 0 /\ (0 < (lex (skip t)).2 <= length (skip t))%nat end.
Proof.
  intros Ht. apply lex_len. intros c t' E. split; [|by eapply skip_head].
  apply no_nul_skip in Ht. rewrite E in Ht. by inversion Ht.
Qed.

Lemma tokenize_fuel n : forall m t, no_nul t -> (length t < n)%nat -> (length t < m)%nat ->
  tokenize n t = tokenize m t.
Proof.
  induction n as [|n IH]; intros m t Ht Hn Hm; [lia|]. destruct m as [|m]; [lia|]. cbn [tokenize].
  pose proof (lex_skip t Ht) as Hl. pose proof (length_skip t). destruct (lex (skip t)) as [k len].
  destruct (skip t) as [|c t'] eqn:E; [by simplify_eq|]. rewrite <- E in *. cbn [fst snd] in Hl.
  destruct (k =? 0); [done|]. f_equal. apply IH; [by apply Forall_drop, no_nul_skip| |];
    rewrite length_drop; lia.
Qed.

(** The first token of a text. *)
Definition token_of (k : Z) (w : list Z) : token := if k =? 97 then Word w else Sym k.

Lemma tokens_eq t : no_nul t ->
  tokens t = let '(k, len) := lex (skip t) in
             if k =? 0 then []
             else token_of k (take len (skip t)) :: tokens (drop len (skip t)).
Proof.
  intros Ht. unfold tokens at 1. cbn [tokenize]. pose proof (lex_skip t Ht) as Hl.
  pose proof (length_skip t). destruct (lex (skip t)) as [k len] eqn:El.
  destruct (skip t) as [|c t'] eqn:E; [by simplify_eq|]. rewrite <- E in *. cbn [fst snd] in Hl.
  destruct (k =? 0); [done|]. f_equal. apply tokenize_fuel; [by apply Forall_drop, no_nul_skip| |];
    rewrite length_drop; lia.
Qed.

Lemma tokens_skip t : no_nul t -> tokens (skip t) = tokens t.
Proof.
  intros Ht. rewrite (tokens_eq (skip t)), (tokens_eq t) by auto using no_nul_skip. by rewrite skip_skip.
Qed.

Lemma tokens_nil t : no_nul t -> tokens t = [] <-> skip t = [].
Proof.
  intros Ht. rewrite tokens_eq by done. pose proof (lex_skip t Ht) as Hl.
  destruct (lex (skip t)) as [k len]. destruct (skip t) as [|c t'] eqn:E.
  - simplify_eq. done.
  - cbn [fst snd] in Hl. destruct Hl as [Hk _]. apply Z.eqb_neq in Hk. rewrite Hk. done.
Qed.

Lemma tokens_length t : no_nul t -> (length (tokens t) <= length t)%nat.
Proof.
  remember (length t) as n eqn:En. revert t En. induction (lt_wf n) as [n _ IH]. intros t -> Ht.
  rewrite tokens_eq by done. pose proof (lex_skip t Ht) as Hl. pose proof (length_skip t) as Hs.
  destruct (lex (skip t)) as [k len]. destruct (skip t) as [|c t'] eqn:E; [simplify_eq; cbn; lia|].
  rewrite <- E in *. cbn [fst snd] in Hl. destruct (k =? 0); cbn [length]; [lia|].
  pose proof (IH (length (drop len (skip t))) ltac:(rewrite length_drop; lia) _ eq_refl
    ltac:(by apply Forall_drop, no_nul_skip)) as H1. rewrite length_drop in H1. lia.
Qed.

(** ** The tokens of a line in the buffer *)

Section Line.
(** The line is [T]; whatever follows its NUL does not matter. *)
Context (T J : list Z) (HT : no_nul T).

Abbreviation b := (T ++ 0 :: J).
Abbreviation es := (length T).

(** The tokens from position [s] on. *)
Definition tk (s : nat) : list token := tokens (drop s T).

(** The word [w] occupies the positions from [q] to [e]. *)
Definition word_at (q e : nat) (w : list Z) : Prop :=
  e = (q + length w)%nat /\ slice q (length w) T = w /\ (e <= es)%nat /\ w ≠ []
  /\ Forall (fun c => wordch c = true) w /\ wordch (default 0 (T !! e)) = false.

Lemma no_nul_drop s : no_nul (drop s T).
Proof using HT. by apply Forall_drop. Qed.

Lemma char_at_text st s : sh_buf st = b -> (s <= es)%nat ->
  char_at s st = Ok (default 0 (T !! s)) st.
Proof.
  intros Hb Hs. unfold char_at, bind, gets. rewrite Hb.
  destruct (decide (s = es)) as [->|Hne].
  - rewrite lookup_app_r, Nat.sub_diag by done. cbn. by rewrite (proj2 (lookup_ge_None T es)).
  - rewrite lookup_app_l by lia. destruct (lookup_lt_is_Some_2 T s ltac:(lia)) as [c ->]. done.
Qed.

Lemma advance_text p st : sh_buf st = b -> forall n s, (s + n = es)%nat ->
  advance p n s st = Ok (s + span_len p (drop s T))%nat st.
Proof.
  intros Hb. induction n as [|n IH]; intros s Hs; cbn [advance].
  - rewrite drop_ge by lia. cbn. unfold ret. f_equal. lia.
  - rewrite (bind_Ok _ _ _ _ _ (char_at_text st s Hb ltac:(lia))).
    destruct (lookup_lt_is_Some_2 T s ltac:(lia)) as [c Hc].
    rewrite (drop_S T c s) by done. rewrite Hc. change (default 0 (Some c)) with c. cbn [span_len].
    destruct (p c); unfold ret; [|f_equal; lia]. rewrite IH by lia. f_equal. lia.
Qed.

Lemma drop_skip s : drop (s + span_len (member whitespace) (drop s T)) T = skip (drop s T).
Proof. unfold skip. by rewrite drop_drop. Qed.

Definition skip_pos (s : nat) : nat := (s + span_len (member whitespace) (drop s T))%nat.

Lemma skip_pos_le s : (s <= es)%nat -> (s <= skip_pos s <= es)%nat.
Proof.
  intros Hs. unfold skip_pos. pose proof (span_len_le (member whitespace) (drop s T)) as H.
  rewrite length_drop in H. lia.
Qed.

Lemma tk_skip_pos s : tk (skip_pos s) = tk s.
Proof using HT. unfold tk, skip_pos. rewrite drop_skip. apply tokens_skip, no_nul_drop. Qed.

Lemma advance_skip st s : sh_buf st = b -> (s <= es)%nat ->
  advance (member whitespace) (es - s) s st = Ok (skip_pos s) st.
Proof. intros Hb Hs. rewrite advance_text by (done || lia). done. Qed.

Lemma bind_skip {A} (k : nat -> H A) st s : sh_buf st = b -> (s <= es)%nat ->
  bind (advance (member whitespace) (es - s) s) k st = k (skip_pos s) st.
Proof. intros. by rewrite (bind_Ok _ _ _ _ _ (advance_skip st s ltac:(done) ltac:(done))). Qed.

Lemma bind_char {A} (k : Z -> H A) st s : sh_buf st = b -> (s <= es)%nat ->
  bind (char_at s) k st = k (default 0 (T !! s)) st.
Proof. intros. by rewrite (bind_Ok _ _ _ _ _ (char_at_text st s ltac:(done) ltac:(done))). Qed.

Lemma head_skip s : (s <= es)%nat -> T !! skip_pos s = head (skip (drop s T)).
Proof.
  intros Hs. unfold skip_pos. rewrite <- drop_skip. rewrite <- (Nat.add_0_r (_ + _)) at 1.
  rewrite <- lookup_drop. by destruct (drop _ T).
Qed.

Lemma lex_pos s : (s <= es)%nat -> (skip_pos s + (lex (skip (drop s T))).2 <= es)%nat.
Proof using HT.
  intros Hs. pose proof (lex_skip _ (no_nul_drop s)) as Hl. pose proof (skip_pos_le s Hs) as Hp.
  assert (length (skip (drop s T)) = (es - skip_pos s)%nat) as Hlen
    by (unfold skip_pos; by rewrite <- drop_skip, length_drop).
  destruct (skip (drop s T)); [rewrite Hl; cbn; lia|lia].
Qed.

Lemma gettoken_text st s : sh_buf st = b -> (s <= es)%nat ->
  gettoken s es st =
    let '(k, len) := lex (skip (drop s T)) in
    Ok (k, skip_pos s, (skip_pos s + len)%nat, skip_pos (skip_pos s + len)) st.
Proof using HT.
  intros Hb Hs. pose proof (skip_pos_le s Hs) as Hp. pose proof (lex_pos s Hs) as Hl.
  unfold gettoken. rewrite bind_skip by done. cbv zeta.
  rewrite bind_char by (done || lia).
  pose proof (drop_skip s) as Hd. change (s + span_len (member whitespace) (drop s T))%nat with (skip_pos s) in Hd.
  rewrite head_skip by done. destruct (skip (drop s T)) as [|c t] eqn:E.
  { cbn [lex snd] in *. change (default 0 (head [])) with 0. cbn [Z.eqb].
    rewrite (bind_Ok _ _ _ _ _ eq_refl), bind_skip by (done || lia).
    by rewrite Nat.add_0_r. }
  change (default 0 (head (c :: t))) with c.
  assert (Hc : c ≠ 0). { pose proof (no_nul_skip _ (no_nul_drop s)) as H. rewrite E in H. by inversion H. }
  rewrite (proj2 (Z.eqb_neq c 0)) by done. unfold lex in *.
  destruct ((c =? 124) || _ || _ || _ || _ || _) eqn:E1.
  { cbn [fst snd] in *. rewrite (bind_Ok _ _ _ _ _ eq_refl).
    rewrite bind_skip by (done || lia). by rewrite Nat.add_1_r. }
  destruct (c =? 62) eqn:E2; bool_cases.
  - assert (Hq : (skip_pos s < es)%nat) by (destruct t as [|c' t]; [|destruct (c' =? 62)]; cbn in Hl; lia).
    assert (Hn : T !! S (skip_pos s) = head t).
    { rewrite <- (Nat.add_1_r (skip_pos s)), <- lookup_drop, Hd. cbn. by destruct t. }
    unfold bind at 1. rewrite bind_char, Hn by (done || lia).
    destruct t as [|c' t]; cbn [head snd] in *.
    + change (default 0 None) with 0. cbn [Z.eqb ret].
      unfold ret at 1. rewrite bind_skip by (done || lia). by rewrite Nat.add_1_r.
    + change (default 0 (Some c')) with c'. destruct (c' =? 62); unfold ret at 1; cbn [snd] in *;
        rewrite bind_skip by (done || lia); unfold ret; repeat f_equal; lia.
  - unfold bind at 1. rewrite (bind_Ok _ _ _ _ _ (advance_text _ st Hb (es - skip_pos s) (skip_pos s) ltac:(lia))).
    rewrite Hd, (span_len_ext _ wordch).
    + unfold ret at 1. cbn [snd] in *. by rewrite bind_skip by (done || lia).
    + rewrite <- E. eapply Forall_impl; [by apply no_nul_skip, no_nul_drop|]. intros x Hx. unfold wordch.
      by rewrite (proj2 (Z.eqb_neq x 0)).
Qed.

(** ** The interface of the lexer to the parser *)

(** Whether the first token starts with a character of [set]. *)
Definition starts (set : list Z) (ts : list token) : bool :=
  match ts with Sym c :: _ => member set (if c =? 43 then 62 else c) | _ => false end.

Definition symbol_set (set : list Z) : Prop := forall c, member set c = true -> member symbols c = true.

Lemma peek_text st s set : sh_buf st = b -> (s <= es)%nat -> symbol_set set ->
  peek s es set st = Ok (starts set (tk s), skip_pos s) st.
Proof using HT.
  intros Hb Hs Hset. pose proof (skip_pos_le s Hs) as Hp. unfold peek.
  rewrite bind_skip by done.
  rewrite bind_char, head_skip by (done || lia).
  unfold ret. do 2 f_equal. unfold tk. rewrite tokens_eq by apply no_nul_drop.
  destruct (skip (drop s T)) as [|c t] eqn:E; [done|]. change (default 0 (head (c :: t))) with c.
  assert (Hc : c ≠ 0). { pose proof (no_nul_skip _ (no_nul_drop s)) as H. rewrite E in H. by inversion H. }
  rewrite (proj2 (Z.eqb_neq c 0)) by done. cbn [negb andb]. unfold lex.
  destruct ((c =? 124) || _ || _ || _ || _ || _) eqn:E1.
  { rewrite (proj2 (Z.eqb_neq c 0)) by done. unfold token_of, starts.
    rewrite !orb_true_iff, !Z.eqb_eq in E1. destruct (c =? 97) eqn:E3; [bool_cases; lia|].
    by destruct (c =? 43) eqn:E4; [bool_cases; lia|]. }
  destruct (c =? 62) eqn:E2; bool_cases.
  { subst. destruct t as [|c' t]; [done|]. by destruct (c' =? 62). }
  cbn [Z.eqb token_of starts]. apply not_true_iff_false. intros Hm. apply Hset in Hm. member_simpl.
  rewrite !orb_true_iff, !Z.eqb_eq in Hm. lia.
Qed.

(** The next token, as [gettoken] delivers it. *)
Lemma gettoken_end st s : sh_buf st = b -> (s <= es)%nat -> tk s = [] ->
  gettoken s es st = Ok (0, es, es, es) st.
Proof using HT.
  intros Hb Hs Ht. rewrite gettoken_text by done. apply (tokens_nil _ (no_nul_drop s)) in Ht. rewrite Ht.
  cbn [lex]. assert (skip_pos s = es) as ->.
  { pose proof (skip_pos_le s Hs). apply (f_equal length) in Ht. unfold skip_pos in *.
    rewrite <- drop_skip, length_drop in Ht. cbn in Ht. lia. }
  rewrite Nat.add_0_r. unfold skip_pos. rewrite drop_ge by done. cbn. by rewrite Nat.add_0_r.
Qed.

Lemma gettoken_tok st s x ts : sh_buf st = b -> (s <= es)%nat -> tk s = x :: ts ->
  exists q e s', gettoken s es st = Ok (match x with Sym c => c | Word _ => 97 end, q, e, s') st
    /\ tk s' = ts /\ (s < s' <= es)%nat
    /\ match x with Sym c => c ≠ 0 /\ c ≠ 97 | Word w => word_at q e w end.
Proof using HT.
  intros Hb Hs Ht. rewrite gettoken_text by done. unfold tk in Ht. rewrite tokens_eq in Ht by apply no_nul_drop.
  pose proof (lex_pos s Hs) as Hl. pose proof (lex_skip _ (no_nul_drop s)) as Hk.
  pose proof (skip_pos_le s Hs) as Hp.
  destruct (lex (skip (drop s T))) as [k len] eqn:El.
  destruct (k =? 0) eqn:E0; [done|]. injection Ht as Hx Hts. cbn [fst snd] in *.
  assert (Hlen : (0 < len)%nat) by (destruct (skip (drop s T)); [simplify_eq; done|lia]).
  pose proof (skip_pos_le (skip_pos s + len) Hl).
  exists (skip_pos s), (skip_pos s + len)%nat, (skip_pos (skip_pos s + len)).
  assert (Hd : drop (skip_pos s + len) T = drop len (skip (drop s T))) by (by rewrite <- drop_skip, drop_drop).
  unfold token_of in Hx. split_and!; [| |lia|lia|].
  - destruct (k =? 97) eqn:E; subst x; [bool_cases; by subst|done].
  - rewrite tk_skip_pos. unfold tk. by rewrite Hd.
  - bool_cases. destruct (k =? 97) eqn:E; subst x; bool_cases; [|done]. subst k.
    pose proof (f_equal length (drop_skip s)) as Hlen'. rewrite length_drop in Hlen'. fold (skip_pos s) in Hlen'.
    assert (Hw : len = span_len wordch (skip (drop s T))).
    { unfold lex in El. destruct (skip (drop s T)) as [|c t]; [done|].
      destruct ((c =? 124) || _ || _ || _ || _ || _) eqn:E1.
      { by simplify_eq. }
      destruct (c =? 62) eqn:E2; [|by simplify_eq]. destruct t as [|c' t]; [|destruct (c' =? 62)]; simplify_eq; done. }
    assert (length (take len (skip (drop s T))) = len) as Htl by (rewrite length_take; lia).
    unfold word_at. rewrite Htl. split_and!; [done| |done| | |].
    + unfold slice, skip_pos. by rewrite drop_skip.
    + intros Hn. by rewrite Hn in Htl; cbn in Htl; lia.
    + rewrite Hw. apply span_take.
    + destruct (T !! _) as [c|] eqn:Ec; [|done]. cbn. rewrite <- lookup_drop in Ec. unfold skip_pos in Ec.
      rewrite drop_skip, Hw in Ec. by eapply span_stop.
Qed.

End Line.
