(* ===== verification/ShParse.v ===== *)
(** * The shell's parser: simulation by a parser on tokens

    [p_line] is the recursive descent of sh.c on tokens, without positions, nodes
    or messages.  The parser of sh.c simulates it: it returns the nodes of the
    same command, or prints a message and exits where [p_line] has no result.
    The grammar describes what [p_line] accepts, and [nulterminate] turns the
    words into strings. *)

From S2P Require Import Prelude CString Params Ulib KMonad Sh ShSpec.

(** ** The parser on tokens *)

Definition is_redir (c : Z) : bool := (c =? 60) || (c =? 62) || (c =? 43).
Definition is_stop (c : Z) : bool := (c =? 124) || (c =? 41) || (c =? 38) || (c =? 59).

Fixpoint p_redirs (ts : list token) : option (list redir * list token) :=
  match ts with
  | Sym c :: ts' =>
      if is_redir c then
        match ts' with
        | Word w :: ts'' => r ← p_redirs ts''; Some ((c, w) :: r.1, r.2)
        | _ => None
        end
      else Some ([], ts)
  | _ => Some ([], ts)
  end.

Fixpoint p_items (argc : nat) (ts : list token) : option (list (list Z + redir) * list token) :=
  match ts with
  | [] => Some ([], [])
  | Word w :: ts' =>
      if (MAXARGS <=? S argc)%nat then None
      else r ← p_items (S argc) ts'; Some (inl w :: r.1, r.2)
  | Sym c :: ts' =>
      if is_redir c then
        match ts' with
        | Word w :: ts'' => r ← p_items argc ts''; Some (inr (c, w) :: r.1, r.2)
        | _ => None
        end
      else if is_stop c then Some ([], ts) else None
  end.

Fixpoint p_backs (t : tree) (ts : list token) : tree * list token :=
  match ts with
  | Sym c :: ts' => if c =? 38 then p_backs (TBack t) ts' else (t, ts)
  | _ => (t, ts)
  end.

(** The rest after the symbol [c], if that comes next. *)
Definition eat (c : Z) (ts : list token) : option (list token) :=
  match ts with Sym c' :: ts' => if c' =? c then Some ts' else None | _ => None end.

Fixpoint p_line (n : nat) (ts : list token) : option (tree * list token) :=
  match n with
  | O => None
  | S n' =>
      r ← p_pipe n' ts;
      let '(t, ts) := p_backs r.1 r.2 in
      match eat 59 ts with
      | Some ts' => r' ← p_line n' ts'; Some (TList t r'.1, r'.2)
      | None => Some (t, ts)
      end
  end
with p_pipe (n : nat) (ts : list token) : option (tree * list token) :=
  match n with
  | O => None
  | S n' =>
      r ← p_exec n' ts;
      match eat 124 r.2 with
      | Some ts' => r' ← p_pipe n' ts'; Some (TPipe r.1 r'.1, r'.2)
      | None => Some r
      end
  end
with p_block (n : nat) (ts : list token) : option (tree * list token) :=
  match n with
  | O => None
  | S n' =>
      ts1 ← eat 40 ts;
      r ← p_line n' ts1;
      ts2 ← eat 41 r.2;
      rs ← p_redirs ts2;
      Some (foldl redirect r.1 rs.1, rs.2)
  end
with p_exec (n : nat) (ts : list token) : option (tree * list token) :=
  match n with
  | O => None
  | S n' =>
      match eat 40 ts with
      | Some _ => p_block n' ts
      | None =>
          r ← p_items 0 ts;
          Some (foldl redirect (TExec (item_words r.1)) (item_redirs r.1), r.2)
      end
  end.

(** ** Nodes that stand for a command *)

Section Parse.
Context (T J : list Z) (HT : no_nul T).

Abbreviation b := (T ++ 0 :: J).
Abbreviation es := (length T).
Abbreviation tk := (tk T).
Abbreviation word_at := (word_at T).

(** The argument vectors with the bounds [sp] of the words. *)
Definition args (sp : list (nat * nat)) (argv eargv : list (option nat)) : Prop :=
  (length sp < MAXARGS)%nat
  /\ argv = (Some <$> sp.*1) ++ replicate (MAXARGS - length sp) None
  /\ eargv = (Some <$> sp.*2) ++ replicate (MAXARGS - length sp) None.

Definition words_at (sp : list (nat * nat)) (ws : list (list Z)) : Prop :=
  Forall2 (fun s w => word_at s.1 s.2 w) sp ws.

(** The nodes of a command; [W q e w] says that the word [w] is at [q] .. [e]. *)
Inductive repr_with (W : nat -> nat -> list Z -> Prop) (h : list cnode) : nat -> tree -> Prop :=
| r_exec p argv eargv sp ws : h !! p = Some (EXEC argv eargv) -> args sp argv eargv ->
    Forall2 (fun s w => W s.1 s.2 w) sp ws -> repr_with W h p (TExec ws)
| r_redir p c q e mode fd t w : h !! p = Some (REDIR (Some c) q e mode fd) -> (c < p)%nat ->
    repr_with W h c t -> W q e w -> repr_with W h p (TRedir t w mode fd)
| r_pipe p l r tl tr : h !! p = Some (PIPE (Some l) (Some r)) -> (l < p)%nat -> (r < p)%nat ->
    repr_with W h l tl -> repr_with W h r tr -> repr_with W h p (TPipe tl tr)
| r_list p l r tl tr : h !! p = Some (LIST (Some l) (Some r)) -> (l < p)%nat -> (r < p)%nat ->
    repr_with W h l tl -> repr_with W h r tr -> repr_with W h p (TList tl tr)
| r_back p c t : h !! p = Some (BACK (Some c)) -> (c < p)%nat -> repr_with W h c t -> repr_with W h p (TBack t).

Abbreviation repr := (repr_with word_at).

Lemma repr_mono (W W' : nat -> nat -> list Z -> Prop) h p t :
  (forall q e w, W q e w -> W' q e w) -> repr_with W h p t -> repr_with W' h p t.
Proof. intros Hm. induction 1; econstructor; eauto. eapply Forall2_impl; [eassumption|]. intros. by apply Hm. Qed.

(** Redirections [rs] lead from node [p] down to node [c]. *)
Fixpoint redir_chain (h : list cnode) (c p : nat) (rs : list redir) : Prop :=
  match rs with
  | [] => p = c
  | r :: rs' => exists c1 q e, h !! c1 = Some (REDIR (Some c) q e (rmode r.1) (rfd r.1))
      /\ (c < c1)%nat /\ word_at q e r.2 /\ redir_chain h c1 p rs'
  end.

Lemma repr_app h h' p t : repr h p t -> repr (h ++ h') p t.
Proof. induction 1; econstructor; eauto using lookup_app_l_Some. Qed.

Lemma chain_app_heap h h' c p rs : redir_chain h c p rs -> redir_chain (h ++ h') c p rs.
Proof.
  revert c. induction rs as [|r rs IH]; intros c; cbn; [done|].
  intros (c1 & q & e & H1 & H2 & H3 & H4). exists c1, q, e. split_and!; eauto using lookup_app_l_Some.
Qed.

Lemma chain_update h c p rs x argv eargv n : h !! x = Some (EXEC argv eargv) ->
  redir_chain h c p rs -> redir_chain (<[x := n]> h) c p rs.
Proof.
  intros Hx. revert c. induction rs as [|r rs IH]; intros c; cbn; [done|].
  intros (c1 & q & e & H1 & H2 & H3 & H4). exists c1, q, e. split_and!; auto.
  rewrite list_lookup_insert_ne; [done|]. intros ->. congruence.
Qed.

Lemma chain_app h c p p' rs rs' :
  redir_chain h c p rs -> redir_chain h p p' rs' -> redir_chain h c p' (rs ++ rs').
Proof.
  revert c. induction rs as [|r rs IH]; intros c; cbn; [by intros ->|].
  intros (c1 & q & e & H1 & H2 & H3 & H4) H. exists c1, q, e. split_and!; eauto.
Qed.

Lemma chain_repr h c p rs : forall t, redir_chain h c p rs -> repr h c t -> repr h p (foldl redirect t rs).
Proof.
  revert c. induction rs as [|r rs IH]; intros c t; cbn; [by intros ->|].
  intros (c1 & q & e & H1 & H2 & H3 & H4) H. apply (IH c1); [done|]. by econstructor.
Qed.

Lemma chain_lt h c p rs : redir_chain h c p rs -> (c < length h)%nat -> (p < length h)%nat.
Proof.
  revert c. induction rs as [|r rs IH]; intros c; cbn; [by intros ->|].
  intros (c1 & q & e & H1 & _ & _ & H4) _. apply (IH c1); [done|]. by eapply lookup_lt_Some.
Qed.

Lemma repr_lt h p t : repr h p t -> (p < length h)%nat.
Proof. destruct 1; by eapply lookup_lt_Some. Qed.

(** ** Simulation *)

(** The shell has printed a message and left. *)
Definition exits {A} (o : outcome sh A) : Prop := exists st', o = Halt exited_stop st' /\ sh_err st' ≠ [].

Lemma exits_panic {A} s st : exits (shpanic (A := A) s st).
Proof. eexists. split; [done|]. cbn. by destruct (sh_err st), (bytes_of s). Qed.

(** The state after the parser has allocated the nodes [h']. *)
Definition grown (st : sh) (h' : list cnode) : sh := mkSh b (sh_heap st ++ h') (sh_err st).

Lemma bind_peek {A} (k : bool * nat -> H A) st s set : sh_buf st = b -> (s <= es)%nat -> symbol_set set ->
  bind (peek s es set) k st = k (starts set (tk s), skip_pos T s) st.
Proof using HT. intros. by rewrite (bind_Ok _ _ _ _ _ (peek_text T J HT st s set ltac:(done) ltac:(done) ltac:(done))). Qed.

Lemma exits_bind {A B} (m : H A) (k : A -> H B) st : exits (m st) -> exits (bind m k st).
Proof. intros (st' & E & Hn). exists st'. unfold bind. by rewrite E. Qed.

Lemma set_redir : symbol_set [60; 62; 0].
Proof. intros c. member_simpl. rewrite !orb_true_iff. tauto. Qed.
Lemma set_stop : symbol_set [124; 41; 38; 59; 0].
Proof. intros c. member_simpl. rewrite !orb_true_iff. tauto. Qed.
Lemma set_one x : member symbols x = true -> symbol_set [x; 0].
Proof.
  intros Hx c. destruct (decide (x = 0)) as [->|]; [done|]. rewrite member_cons by done.
  rewrite member_nul, orb_false_r, Z.eqb_eq. by intros <-.
Qed.
Lemma set_none : symbol_set [0].
Proof. done. Qed.

Lemma starts_redir ts : starts [60; 62; 0] ts = match ts with Sym c :: _ => is_redir c | _ => false end.
Proof.
  destruct ts as [|[c|w] ts]; [done| |done]. unfold starts, is_redir. member_simpl.
  destruct (c =? 43) eqn:E; bool_cases.
  - by subst.
  - rewrite (Z.eqb_sym 60), (Z.eqb_sym 62). by rewrite orb_false_r.
Qed.

Lemma starts_stop ts : starts [124; 41; 38; 59; 0] ts = match ts with Sym c :: _ => is_stop c | _ => false end.
Proof.
  destruct ts as [|[c|w] ts]; [done| |done]. unfold starts, is_stop. member_simpl.
  destruct (c =? 43) eqn:E; bool_cases; [by subst|].
  by rewrite (Z.eqb_sym 124), (Z.eqb_sym 41), (Z.eqb_sym 38), (Z.eqb_sym 59), !orb_assoc.
Qed.

Lemma starts_one x ts : member symbols x = true -> x ≠ 62 ->
  starts [x; 0] ts = match eat x ts with Some _ => true | None => false end.
Proof.
  intros Hx H62. assert (x ≠ 0 /\ x ≠ 43) as [H0 H43].
  { split; intros ->; member_simpl; rewrite ?orb_true_iff, ?Z.eqb_eq in Hx; lia. }
  destruct ts as [|[c|w] ts]; [done| |done]. unfold starts, eat. rewrite member_cons by done. rewrite member_nul, orb_false_r.
  destruct (c =? 43) eqn:E; bool_cases.
  - subst. rewrite (proj2 (Z.eqb_neq x 62)), (proj2 (Z.eqb_neq 43 x)) by lia. done.
  - rewrite (Z.eqb_sym x). by destruct (c =? x).
Qed.

(** What the redirections of the tokens at [s] give, from node [c]. *)
Lemma parseredirs_sim n : forall s st c, sh_buf st = b -> (s <= es)%nat -> (c < length (sh_heap st))%nat ->
  (length (tk s) < n)%nat ->
  match p_redirs (tk s) with
  | Some (rs, ts') => exists p s' h', parseredirs n (Some c) s es st = Ok (Some p, s') (grown st h')
      /\ redir_chain (sh_heap st ++ h') c p rs /\ tk s' = ts' /\ (s' <= es)%nat
  | None => exits (parseredirs n (Some c) s es st)
  end.
Proof using HT.
  induction n as [|n IH]; intros s st c Hb Hs Hc Hn; [lia|]. cbn [parseredirs].
  pose proof (skip_pos_le T s Hs) as Hsp.
  rewrite bind_peek by auto using set_redir. rewrite starts_redir.
  assert (Hstop : exists p s' h', ret (Some c, skip_pos T s) st = Ok (Some p, s') (grown st h')
      /\ redir_chain (sh_heap st ++ h') c p [] /\ tk s' = tk s /\ (s' <= es)%nat).
  { exists c, (skip_pos T s), []. unfold grown. rewrite app_nil_r, <- Hb. destruct st. split_and!; try done; [|lia].
    by apply tk_skip_pos. }
  destruct (tk s) as [|[x|w] ts] eqn:E; cbn [p_redirs]; [done| |done].
  destruct (is_redir x) eqn:Er; [|done].
  assert (E' := E). rewrite <- (tk_skip_pos T HT) in E'.
  destruct (gettoken_tok T J HT st (skip_pos T s) _ _ Hb ltac:(lia) E') as (q0 & e0 & s1 & Hg & H1 & H2 & _).
  rewrite (bind_Ok _ _ _ _ _ Hg). destruct ts as [|[y|w] ts].
  - rewrite (bind_Ok _ _ _ _ _ (gettoken_end T J HT st s1 Hb ltac:(lia) H1)). apply exits_panic.
  - destruct (gettoken_tok T J HT st s1 _ _ Hb ltac:(lia) H1) as (q & e & s2 & Hg2 & H3 & H4 & H5).
    rewrite (bind_Ok _ _ _ _ _ Hg2). rewrite (proj2 (Z.eqb_neq y 97)) by tauto. apply exits_panic.
  - destruct (gettoken_tok T J HT st s1 _ _ Hb ltac:(lia) H1) as (q & e & s2 & Hg2 & H3 & H4 & H5).
    rewrite (bind_Ok _ _ _ _ _ Hg2). change (negb (97 =? 97)) with false. cbv beta iota.
    set (st1 := grown st [REDIR (Some c) q e (rmode x) (rfd x)]).
    rewrite (bind_Ok _ _ _ (Some (length (sh_heap st))) st1).
    2:{ subst st1. unfold rmode, rfd, is_redir, grown in *. rewrite <- Hb.
        destruct (x =? 60); [done|]. destruct (x =? 62); [done|]. by destruct (x =? 43). }
    specialize (IH s2 st1 (length (sh_heap st)) eq_refl ltac:(lia)).
    rewrite H3 in IH. cbn [length] in Hn. subst st1. cbn in IH. rewrite length_app in IH.
    specialize (IH ltac:(cbn; lia) ltac:(lia)). destruct (p_redirs ts) as [[rs ts']|]; [|done]. cbn.
    destruct IH as (p & s' & h' & E1 & E2 & E3 & E4). exists p, s', (REDIR (Some c) q e (rmode x) (rfd x) :: h').
    rewrite E1. unfold grown. cbn. rewrite <- app_assoc in *. split_and!; try done. cbn.
    exists (length (sh_heap st)), q, e. rewrite lookup_app_r, Nat.sub_diag by done. done.
Qed.

(** Reading the redirections first does not change what the items are. *)
Lemma p_items_redirs k ts :
  p_items k ts = r ← p_redirs ts; r' ← p_items k r.2; Some ((inr <$> r.1) ++ r'.1, r'.2).
Proof.
  remember (length ts) as n eqn:En. revert ts En. induction (lt_wf n) as [n _ IH]. intros ts ->.
  assert (Hnil : forall ts, p_items k ts = r ← Some ([], ts); r' ← p_items k r.2; Some ((inr <$> r.1) ++ r'.1, r'.2)).
  { intros l. cbn. by destruct (p_items k l) as [[]|]. }
  destruct ts as [|[c|w] ts]; [apply Hnil| |apply Hnil]. cbn [p_redirs].
  destruct (is_redir c) eqn:E; [|apply Hnil]. cbn [p_items]. rewrite E.
  destruct ts as [|[y|w] ts]; try done. rewrite (IH (length ts)) by (cbn; lia || done).
  destruct (p_redirs ts) as [[rs ts']|]; [|done]. cbn. by destruct (p_items k ts') as [[]|].
Qed.

Lemma p_redirs_rest ts rs ts' : p_redirs ts = Some (rs, ts') ->
  match ts' with Sym c :: _ => is_redir c | _ => false end = false /\ (length ts' <= length ts)%nat.
Proof.
  revert rs. remember (length ts) as n eqn:En. revert ts En. induction (lt_wf n) as [n _ IH].
  intros ts -> rs. destruct ts as [|[c|w] ts]; cbn [p_redirs]; [intros; by simplify_eq| |intros; by simplify_eq].
  destruct (is_redir c) eqn:E; [|intros; by simplify_eq]. destruct ts as [|[y|w] ts]; try done.
  destruct (p_redirs ts) as [[rs1 ts1]|] eqn:E1; [|done]. cbn. intros. simplify_eq.
  destruct (IH (length ts) ltac:(cbn; lia) ts eq_refl _ E1). split; [done|lia].
Qed.

Lemma args_snoc sp argv eargv q e : args sp argv eargv -> (S (length sp) < MAXARGS)%nat ->
  args (sp ++ [(q, e)]) (<[length sp := Some q]> argv) (<[length sp := Some e]> eargv).
Proof.
  intros (Hl & -> & ->) Hn. unfold args. rewrite !fmap_app, length_app. cbn [length fmap list_fmap fst snd].
  replace (MAXARGS - length sp)%nat with (S (MAXARGS - (length sp + 1))) by lia. cbn [replicate].
  split; [lia|]. rewrite <- !app_assoc. split.
  - rewrite <- (length_fmap fst sp) at 1. rewrite <- (length_fmap Some sp.*1) at 1.
    by rewrite insert_app_r_alt, Nat.sub_diag by done.
  - rewrite <- (length_fmap snd sp) at 1. rewrite <- (length_fmap Some sp.*2) at 1.
    by rewrite insert_app_r_alt, Nat.sub_diag by done.
Qed.

Lemma args_lookup sp argv eargv : args sp argv eargv ->
  argv !! length sp = Some None /\ eargv !! length sp = Some None.
Proof.
  intros (Hl & -> & ->). split; rewrite lookup_app_r, !length_fmap, Nat.sub_diag by (by rewrite !length_fmap);
    apply lookup_replicate; split; (done || lia).
Qed.

Lemma set_arg_eq st e argv eargv argc q x : sh_heap st !! e = Some (EXEC argv eargv) -> (argc < MAXARGS)%nat ->
  set_arg (Some e) argc q x st
  = Ok tt (mkSh (sh_buf st) (<[e := EXEC (<[argc := q]> argv) (<[argc := x]> eargv)]> (sh_heap st)) (sh_err st)).
Proof.
  intros He Hn. unfold set_arg.
  rewrite (bind_Ok (from_opt (Some e)) _ st e st eq_refl), (bind_Ok (gets sh_heap) _ st _ st eq_refl).
  rewrite (bind_Ok (from_opt (sh_heap st !! e)) _ st (EXEC argv eargv) st) by (by rewrite He).
  by rewrite (proj2 (Nat.ltb_lt argc MAXARGS)).
Qed.

Lemma parseargs_sim n : forall s st e r sp argv eargv, sh_buf st = b -> (s <= es)%nat ->
  sh_heap st !! e = Some (EXEC argv eargv) -> args sp argv eargv -> (r < length (sh_heap st))%nat ->
  (length (tk s) < n)%nat -> match tk s with Sym c :: _ => is_redir c | _ => false end = false ->
  match p_items (length sp) (tk s) with
  | Some (its, ts') => exists p s' sp' argv' eargv' h',
      parseargs n (Some e) (Some r) (length sp) s es st
      = Ok (Some p, (length sp + length sp')%nat, s')
           (mkSh b (<[e := EXEC argv' eargv']> (sh_heap st) ++ h') (sh_err st))
      /\ args (sp ++ sp') argv' eargv' /\ words_at sp' (item_words its)
      /\ redir_chain (<[e := EXEC argv' eargv']> (sh_heap st) ++ h') r p (item_redirs its)
      /\ tk s' = ts' /\ (s' <= es)%nat
  | None => exits (parseargs n (Some e) (Some r) (length sp) s es st)
  end.
Proof using HT.
  induction n as [|n IH]; intros s st e r sp argv eargv Hb Hs He Ha Hr Hn Hd; [lia|]. cbn [parseargs].
  pose proof (skip_pos_le T s Hs) as Hsp. rewrite bind_peek by auto using set_stop. rewrite starts_stop.
  assert (Hstop : forall s', tk s' = tk s -> (s' <= es)%nat -> exists p s1 sp' argv' eargv' h',
      ret (Some r, length sp, s') st = Ok (Some p, (length sp + length sp')%nat, s1)
           (mkSh b (<[e := EXEC argv' eargv']> (sh_heap st) ++ h') (sh_err st))
      /\ args (sp ++ sp') argv' eargv' /\ words_at sp' (item_words [])
      /\ redir_chain (<[e := EXEC argv' eargv']> (sh_heap st) ++ h') r p (item_redirs [])
      /\ tk s1 = tk s /\ (s1 <= es)%nat).
  { intros s' H1 H2. exists r, s', [], argv, eargv, []. rewrite list_insert_id, !app_nil_r, <- Hb by done.
    destruct st. cbn. rewrite Nat.add_0_r. split_and!; try done. constructor. }
  assert (Hts := tk_skip_pos T HT s). destruct (tk s) as [|[x|w] ts] eqn:E; cbn [p_items].
  - rewrite (bind_Ok _ _ _ _ _ (gettoken_end T J HT st (skip_pos T s) Hb ltac:(lia) Hts)).
    apply (Hstop es); [|done]. unfold ShSpec.tk. by rewrite drop_ge.
  - rewrite Hd. destruct (is_stop x) eqn:Ex; [apply Hstop; [done|lia]|].
    destruct (gettoken_tok T J HT st (skip_pos T s) _ _ Hb ltac:(lia) Hts) as (q & e1 & s1 & Hg & _ & _ & H0 & H97).
    rewrite (bind_Ok _ _ _ _ _ Hg), (proj2 (Z.eqb_neq x 0)), (proj2 (Z.eqb_neq x 97)) by done. apply exits_panic.
  - destruct (gettoken_tok T J HT st (skip_pos T s) _ _ Hb ltac:(lia) Hts) as (q & e1 & s1 & Hg & H1 & H2 & Hw).
    rewrite (bind_Ok _ _ _ _ _ Hg). change (97 =? 0) with false. change (negb (97 =? 97)) with false. cbv beta iota.
    pose proof (proj1 Ha) as Hl.
    rewrite (bind_Ok _ _ _ _ _ (set_arg_eq st e argv eargv (length sp) _ _ He Hl)). cbv zeta.
    destruct (MAXARGS <=? S (length sp))%nat eqn:Em; [apply exits_panic|]. apply Nat.leb_gt in Em.
    pose proof (args_snoc sp argv eargv q e1 Ha Em) as Ha1.
    set (argv1 := <[length sp := Some q]> argv) in *. set (eargv1 := <[length sp := Some e1]> eargv) in *.
    set (st1 := mkSh (sh_buf st) (<[e := EXEC argv1 eargv1]> (sh_heap st)) (sh_err st)).
    pose proof (parseredirs_sim n s1 st1 r Hb ltac:(lia) ltac:(cbn; by rewrite length_insert)) as Hp.
    rewrite p_items_redirs. rewrite H1 in Hp. cbn [length] in Hn. specialize (Hp ltac:(lia)).
    destruct (p_redirs ts) as [[rs ts1]|] eqn:Ep; [|by apply exits_bind].
    destruct Hp as (r1 & s2 & h1 & E1 & E2 & E3 & E4). rewrite (bind_Ok _ _ _ _ _ E1).
    destruct (p_redirs_rest _ _ _ Ep) as [Hnr Hlen]. cbn [mbind option_bind fst snd].
    assert (Hlt : (e < length (sh_heap st))%nat) by (by eapply lookup_lt_Some).
    specialize (IH s2 (grown st1 h1) e r1 (sp ++ [(q, e1)]) argv1 eargv1 eq_refl E4).
    cbn [grown sh_heap st1] in IH. specialize (IH ltac:(rewrite lookup_app_l by (by rewrite length_insert);
      by rewrite list_lookup_insert_eq) Ha1).
    specialize (IH ltac:(eapply chain_lt; [exact E2|]; cbn; rewrite length_app, length_insert; lia)).
    rewrite E3, length_app, Nat.add_1_r in IH. specialize (IH ltac:(lia) Hnr).
    destruct (p_items (S (length sp)) ts1) as [[its ts']|]; [|done]. cbn [mbind option_bind fst snd].
    destruct IH as (p & s' & sp' & argv' & eargv' & h' & F1 & F2 & F3 & F4 & F5 & F6).
    rewrite insert_app_l, list_insert_insert_eq, <- app_assoc in F1, F4 by (by rewrite length_insert).
    exists p, s', ((q, e1) :: sp'), argv', eargv', (h1 ++ h'). rewrite F1. cbn [length].
    split_and!; [do 3 f_equal; lia|by rewrite <- app_assoc in F2| | |done|done].
    { assert (item_words (inl w :: (inr <$> rs) ++ its) = w :: item_words its) as ->; [|by constructor].
      unfold item_words. cbn. rewrite bind_app. f_equal. clear. by induction rs. }
    assert (item_redirs (inl w :: (inr <$> rs) ++ its) = rs ++ item_redirs its) as ->.
    { unfold item_redirs. cbn. rewrite bind_app. f_equal. clear. induction rs; cbn; congruence. }
    eapply chain_app; [|exact F4]. rewrite app_assoc. apply chain_app_heap.
    subst st1. cbn [sh_heap] in E2.
    apply (chain_update _ _ _ _ e argv1 eargv1 (EXEC argv' eargv')) in E2.
    + by rewrite insert_app_l, list_insert_insert_eq in E2 by (by rewrite length_insert).
    + rewrite lookup_app_l by (by rewrite length_insert). by rewrite list_lookup_insert_eq.
Qed.

(** ** The grammar describes what is accepted *)

Lemma is_redir_ok c w : is_redir c = true <-> redir_ok (c, w).
Proof. unfold is_redir, redir_ok. cbn. rewrite !orb_true_iff, !Z.eqb_eq. tauto. Qed.

Lemma p_redirs_sound ts rs ts' : p_redirs ts = Some (rs, ts') ->
  ts = redir_tokens rs ++ ts' /\ Forall redir_ok rs.
Proof.
  revert rs. remember (length ts) as n eqn:En. revert ts En. induction (lt_wf n) as [n _ IH].
  intros ts -> rs. destruct ts as [|[c|w] ts]; cbn [p_redirs]; [intros; by simplify_eq| |intros; by simplify_eq].
  destruct (is_redir c) eqn:E; [|intros; by simplify_eq]. destruct ts as [|[y|w] ts]; try done.
  destruct (p_redirs ts) as [[rs1 ts1]|] eqn:E1; [|done]. cbn. intros. simplify_eq.
  destruct (IH (length ts) ltac:(cbn; lia) ts eq_refl _ E1) as [-> H]. split; [done|].
  constructor; [by apply is_redir_ok|done].
Qed.

Lemma p_items_sound ts its ts' : forall k, p_items k ts = Some (its, ts') -> (k < MAXARGS)%nat ->
  ts = item_tokens its ++ ts' /\ Forall redir_ok (item_redirs its) /\ (k + length (item_words its) < MAXARGS)%nat.
Proof.
  revert its. remember (length ts) as n eqn:En. revert ts En. induction (lt_wf n) as [n _ IH].
  intros ts -> its k Hp Hk. destruct ts as [|[c|w] ts]; cbn [p_items] in Hp.
  - simplify_eq. cbn [item_words mbind list_bind length]. rewrite Nat.add_0_r. auto.
  - destruct (is_redir c) eqn:E.
    + destruct ts as [|[y|w] ts]; try done. destruct (p_items k ts) as [[its1 ts1]|] eqn:E1; [|done].
      cbn in Hp. simplify_eq. destruct (IH (length ts) ltac:(cbn; lia) ts eq_refl _ _ E1 Hk) as (-> & H & H').
      split_and!; [done| |done]. constructor; [by apply is_redir_ok|done].
    + destruct (is_stop c); [|done]. simplify_eq. cbn [item_words mbind list_bind length].
      rewrite Nat.add_0_r. auto.
  - destruct (MAXARGS <=? S k)%nat eqn:E; [done|]. apply Nat.leb_gt in E.
    destruct (p_items (S k) ts) as [[its1 ts1]|] eqn:E1; [|done]. cbn in Hp. simplify_eq.
    destruct (IH (length ts) ltac:(cbn; lia) ts eq_refl _ _ E1 E) as (-> & H & H').
    split_and!; [done|done|]. unfold item_words in *. cbn. lia.
Qed.

Lemma p_backs_sound ts : forall t t' ts', p_backs t ts = (t', ts') ->
  exists n, ts = amps n ++ ts' /\ t' = backs n t.
Proof.
  induction ts as [|[c|w] ts IH]; intros t t' ts'; cbn [p_backs].
  - intros [= <- <-]. by exists O.
  - destruct (c =? 38) eqn:E; bool_cases; [|intros [= <- <-]; by exists O].
    intros H. destruct (IH _ _ _ H) as (n & -> & ->). exists (S n). subst. split; [done|].
    unfold backs. by rewrite Nat.iter_succ_r.
  - intros [= <- <-]. by exists O.
Qed.

Lemma eat_Some c ts ts' : eat c ts = Some ts' <-> ts = Sym c :: ts'.
Proof.
  destruct ts as [|[x|w] ts]; cbn; [done| |done]. destruct (x =? c) eqn:E; bool_cases.
  - subst. split; intros; by simplify_eq.
  - split; intros; simplify_eq; done.
Qed.

(** What the parser on tokens returns is derived by the grammar. *)
Lemma p_sound n : (forall ts t ts', p_line n ts = Some (t, ts') -> exists pre, ts = pre ++ ts' /\ g_line pre t)
  /\ (forall ts t ts', p_pipe n ts = Some (t, ts') -> exists pre, ts = pre ++ ts' /\ g_pipe pre t)
  /\ (forall ts t ts', p_block n ts = Some (t, ts') -> exists pre, ts = pre ++ ts' /\ g_exec pre t)
  /\ (forall ts t ts', p_exec n ts = Some (t, ts') -> exists pre, ts = pre ++ ts' /\ g_exec pre t).
Proof.
  induction n as [|n (IHl & IHp & IHb & IHe)]; [done|]. split_and!; intros ts t ts' Hp; cbn in Hp.
  - destruct (p_pipe n ts) as [[t1 ts1]|] eqn:E1; [|done]. cbn in Hp.
    destruct (IHp _ _ _ E1) as (pre & -> & Hg). destruct (p_backs t1 ts1) as [t2 ts2] eqn:E2.
    destruct (p_backs_sound _ _ _ _ E2) as (k & -> & ->). destruct (eat 59 ts2) as [ts3|] eqn:E3.
    + apply eat_Some in E3 as ->. destruct (p_line n ts3) as [[t4 ts4]|] eqn:E4; [|done]. cbn in Hp.
      destruct (IHl _ _ _ E4) as (pre' & -> & Hg'). simplify_eq.
      exists (pre ++ amps k ++ Sym 59 :: pre'). split; [by rewrite <- !app_assoc|by constructor].
    + simplify_eq. exists (pre ++ amps k). split; [by rewrite <- app_assoc|by constructor].
  - destruct (p_exec n ts) as [[t1 ts1]|] eqn:E1; [|done]. cbn in Hp.
    destruct (IHe _ _ _ E1) as (pre & -> & Hg). destruct (eat 124 ts1) as [ts2|] eqn:E2.
    + apply eat_Some in E2 as ->. destruct (p_pipe n ts2) as [[t3 ts3]|] eqn:E3; [|done]. cbn in Hp.
      destruct (IHp _ _ _ E3) as (pre' & -> & Hg'). simplify_eq.
      exists (pre ++ Sym 124 :: pre'). split; [by rewrite <- app_assoc|by constructor].
    + simplify_eq. exists pre. split; [done|by constructor].
  - destruct (eat 40 ts) as [ts1|] eqn:E1; [|done]. apply eat_Some in E1 as ->. cbn in Hp.
    destruct (p_line n ts1) as [[t2 ts2]|] eqn:E2; [|done]. cbn in Hp.
    destruct (IHl _ _ _ E2) as (pre & -> & Hg). destruct (eat 41 ts2) as [ts3|] eqn:E3; [|done].
    apply eat_Some in E3 as ->. cbn in Hp. destruct (p_redirs ts3) as [[rs ts4]|] eqn:E4; [|done]. cbn in Hp.
    destruct (p_redirs_sound _ _ _ E4) as [-> Hr]. simplify_eq.
    exists (Sym 40 :: pre ++ Sym 41 :: redir_tokens rs). split; [by cbn; rewrite <- app_assoc|by constructor].
  - destruct (eat 40 ts) as [ts1|] eqn:E1; [by apply IHb|].
    destruct (p_items 0 ts) as [[its ts1]|] eqn:E2; [|done]. cbn in Hp. simplify_eq.
    destruct (p_items_sound _ _ _ _ E2 ltac:(unfold MAXARGS; lia)) as (-> & Hr & Hl).
    exists (item_tokens its). split; [done|]. by constructor.
Qed.

(** What may follow a simple command, a pipeline and a line. *)
Definition after (p : Z -> bool) (ts : list token) : Prop :=
  match ts with [] => True | Sym c :: _ => p c = true | Word _ :: _ => False end.

Definition ends_pipe (c : Z) : bool := (c =? 41) || (c =? 38) || (c =? 59).
Definition ends_line (c : Z) : bool := c =? 41.

Lemma after_mono (p q : Z -> bool) ts : (forall c, p c = true -> q c = true) -> after p ts -> after q ts.
Proof. destruct ts as [|[c|w] ts]; cbn; auto. Qed.

Lemma p_redirs_complete rs rest : Forall redir_ok rs -> after is_stop rest ->
  p_redirs (redir_tokens rs ++ rest) = Some (rs, rest).
Proof.
  intros Hr Ha. induction Hr as [|[c w] rs Hc _ IH].
  - cbn. destruct rest as [|[c|w] rest]; [done| |done]. cbn in *. destruct (is_redir c) eqn:E; [|done].
    unfold is_redir, is_stop in *. rewrite !orb_true_iff, !Z.eqb_eq in *. lia.
  - cbn [redir_tokens mbind list_bind app fst snd p_redirs]. rewrite (proj2 (is_redir_ok c w) Hc).
    fold (redir_tokens rs). by rewrite IH.
Qed.

Lemma p_items_complete its rest : after is_stop rest -> Forall redir_ok (item_redirs its) ->
  forall k, (k + length (item_words its) < MAXARGS)%nat -> p_items k (item_tokens its ++ rest) = Some (its, rest).
Proof.
  intros Ha. induction its as [|[w|[c w]] its IH]; intros Hr k Hk.
  - cbn. destruct rest as [|[c|w] rest]; [done| |done]. cbn in *. rewrite Ha.
    destruct (is_redir c) eqn:E; [|done]. unfold is_redir, is_stop in *. rewrite !orb_true_iff, !Z.eqb_eq in *. lia.
  - cbn [item_tokens mbind list_bind app p_items]. fold (item_tokens its).
    unfold item_words in Hk. cbn in Hk. fold (item_words its) in Hk.
    rewrite (proj2 (Nat.leb_gt _ _)) by lia. by rewrite IH by (done || lia).
  - inversion Hr as [|? ? Hc Hr']; subst. cbn [item_tokens mbind list_bind app fst snd p_items].
    rewrite (proj2 (is_redir_ok c w) Hc). fold (item_tokens its). by rewrite IH.
Qed.

Lemma p_backs_complete k t rest : eat 38 rest = None -> p_backs t (amps k ++ rest) = (backs k t, rest).
Proof.
  intros Hr. revert t. induction k as [|k IH]; intros t; cbn.
  - destruct rest as [|[c|w] rest]; [done| |done]. cbn in *. by destruct (c =? 38).
  - rewrite IH. unfold backs. by rewrite <- Nat.iter_succ_r.
Qed.

Lemma eat_after c p ts : p c = false -> after p ts -> eat c ts = None.
Proof.
  intros Hc. destruct ts as [|[x|w] ts]; cbn; [done| |done]. intros Hx.
  destruct (x =? c) eqn:E; bool_cases; [congruence|done].
Qed.

Lemma eat_items its rest : Forall redir_ok (item_redirs its) -> after is_stop rest ->
  eat 40 (item_tokens its ++ rest) = None.
Proof.
  intros Hr Ha. destruct its as [|[w|[c w]] its]; [by apply (eat_after 40 is_stop)|done|].
  inversion Hr as [|? ? Hc _]; subst. cbn. unfold redir_ok in Hc. cbn in Hc.
  destruct (c =? 40) eqn:E; bool_cases; [lia|done].
Qed.

(** What the grammar derives is what the parser on tokens returns. *)
Lemma p_complete :
  (forall ts t, g_line ts t -> forall n rest, after ends_line rest -> (4 * length (ts ++ rest) + 4 <= n)%nat ->
     p_line n (ts ++ rest) = Some (t, rest))
  /\ (forall ts t, g_pipe ts t -> forall n rest, after ends_pipe rest -> (4 * length (ts ++ rest) + 3 <= n)%nat ->
     p_pipe n (ts ++ rest) = Some (t, rest))
  /\ (forall ts t, g_exec ts t -> forall n rest, after is_stop rest -> (4 * length (ts ++ rest) + 2 <= n)%nat ->
     p_exec n (ts ++ rest) = Some (t, rest)).
Proof.
  assert (Hlp : forall c, ends_line c = true -> ends_pipe c = true).
  { unfold ends_line, ends_pipe. intros c. rewrite !orb_true_iff. tauto. }
  assert (Hpe : forall c, ends_pipe c = true -> is_stop c = true).
  { unfold ends_pipe, is_stop. intros c. rewrite !orb_true_iff. tauto. }
  apply grammar_ind.
  - intros ts t k _ IH n rest Ha Hn. destruct n as [|n]; [lia|]. cbn [p_line]. rewrite <- app_assoc in *.
    rewrite IH; [|destruct k; [by eapply after_mono|done]|lia]. cbn.
    rewrite p_backs_complete by (by apply (eat_after 38 ends_line)). by rewrite (eat_after 59 ends_line).
  - intros ts t k ts' t' _ IH _ IH' n rest Ha Hn. destruct n as [|n]; [lia|]. cbn [p_line].
    rewrite <- !app_assoc in *. cbn [app] in *. rewrite IH; [|by destruct k|lia]. cbn.
    rewrite p_backs_complete by done. cbn. rewrite IH'; [done|done|].
    rewrite !length_app in Hn. cbn in Hn. rewrite length_app in Hn. rewrite length_app. lia.
  - intros ts t _ IH n rest Ha Hn. destruct n as [|n]; [lia|]. cbn [p_pipe].
    rewrite IH; [|by eapply after_mono|lia]. cbn. by rewrite (eat_after 124 ends_pipe).
  - intros ts t ts' t' _ IH _ IH' n rest Ha Hn. destruct n as [|n]; [lia|]. cbn [p_pipe].
    rewrite <- app_assoc in *. cbn [app] in *. rewrite IH; [|done|lia]. cbn. rewrite IH'; [done|done|].
    rewrite length_app in Hn. cbn in Hn. lia.
  - intros its Hr Hl n rest Ha Hn. destruct n as [|n]; [lia|]. cbn [p_exec].
    rewrite eat_items by done. by rewrite p_items_complete.
  - intros ts t rs _ IH Hr n rest Ha Hn. destruct n as [|[|n]]; [lia|lia|]. cbn [p_exec p_block app].
    cbn in Hn. rewrite <- app_assoc in *. cbn [eat app]. change (40 =? 40) with true. cbn.
    rewrite IH; [|done|cbn in *; lia]. cbn. by rewrite p_redirs_complete.
Qed.

(** ** The simulation of the rules *)

Lemma parsebacks_sim n : forall s st c t, sh_buf st = b -> (s <= es)%nat -> repr (sh_heap st) c t ->
  (length (tk s) < n)%nat ->
  exists p s' h', parsebacks n (Some c) s es st = Ok (Some p, s') (grown st h')
    /\ repr (sh_heap st ++ h') p (p_backs t (tk s)).1 /\ tk s' = (p_backs t (tk s)).2 /\ (s' <= es)%nat.
Proof using HT.
  induction n as [|n IH]; intros s st c t Hb Hs Hc Hn; [lia|]. cbn [parsebacks].
  pose proof (skip_pos_le T s Hs) as Hsp. rewrite bind_peek by auto using set_one.
  rewrite starts_one by done. assert (Hts := tk_skip_pos T HT s).
  destruct (eat 38 (tk s)) as [ts|] eqn:E.
  - apply eat_Some in E. rewrite E in *. cbn [p_backs]. change (38 =? 38) with true. cbv iota.
    destruct (gettoken_tok T J HT st (skip_pos T s) _ _ Hb ltac:(lia) Hts) as (q & e & s1 & Hg & H1 & H2 & _).
    rewrite (bind_Ok _ _ _ _ _ Hg). set (st1 := grown st [BACK (Some c)]).
    rewrite (bind_Ok _ _ st (Some (length (sh_heap st))) st1) by (subst st1; unfold grown; by rewrite <- Hb).
    destruct (IH s1 st1 (length (sh_heap st)) (TBack t)) as (p & s' & h' & E1 & E2 & E3 & E4);
      [done|lia| |rewrite H1; cbn in Hn; lia|].
    { subst st1. cbn. apply (r_back _ _ _ c); [by rewrite lookup_app_r, Nat.sub_diag|by eapply repr_lt|by apply repr_app]. }
    exists p, s', (BACK (Some c) :: h'). rewrite E1. subst st1. unfold grown. cbn in *.
    rewrite <- app_assoc in *. rewrite H1 in *. done.
  - exists c, (skip_pos T s), []. unfold grown. rewrite app_nil_r, <- Hb. destruct st.
    assert (p_backs t (tk s) = (t, tk s)) as ->.
    { destruct (tk s) as [|[x|w] ts]; [done| |done]. cbn in *. by destruct (x =? 38). }
    split_and!; [done|done|done|lia].
Qed.

Definition sim (o : outcome sh (option nat * nat)) (st : sh) (r : option (tree * list token)) : Prop :=
  match r with
  | Some (t, ts') => exists p s' h', o = Ok (Some p, s') (grown st h')
      /\ repr (sh_heap st ++ h') p t /\ tk s' = ts' /\ (s' <= es)%nat
  | None => exits o
  end.

Lemma grown_grown st h1 h2 : grown (grown st h1) h2 = grown st (h1 ++ h2).
Proof. unfold grown. cbn. by rewrite <- app_assoc. Qed.

Lemma new_node_eq st nd : sh_buf st = b -> new_node nd st = Ok (Some (length (sh_heap st))) (grown st [nd]).
Proof. intros Hb. unfold grown. by rewrite <- Hb. Qed.

(** Two commands parsed one after the other are joined in a node. *)
Lemma join_sim st h1 h2 l r tl tr nd (mk : tree -> tree -> tree) s' :
  repr (sh_heap st ++ h1) l tl -> repr (sh_heap st ++ h1 ++ h2) r tr ->
  (forall h p, h !! p = Some nd -> (l < p)%nat -> (r < p)%nat -> repr h l tl -> repr h r tr -> repr h p (mk tl tr)) ->
  (s' <= es)%nat ->
  sim (bind (new_node nd) (fun c => ret (c, s')) (grown st (h1 ++ h2))) st (Some (mk tl tr, tk s')).
Proof.
  intros Hl Hr Hmk Hs. exists (length (sh_heap st ++ h1 ++ h2)), s', (h1 ++ h2 ++ [nd]).
  rewrite (bind_Ok _ _ _ _ _ (new_node_eq (grown st (h1 ++ h2)) nd eq_refl)), grown_grown.
  assert (Hl' : repr (sh_heap st ++ h1 ++ h2) l tl) by (rewrite app_assoc; by apply repr_app).
  rewrite <- !app_assoc. split_and!; [done| |done|done].
  replace (sh_heap st ++ h1 ++ h2 ++ [nd]) with ((sh_heap st ++ h1 ++ h2) ++ [nd]) by (by rewrite <- !app_assoc).
  apply Hmk; [by rewrite lookup_app_r, Nat.sub_diag|by eapply repr_lt|by eapply repr_lt| |]; by apply repr_app.
Qed.

Lemma sim_exits {A} (m : H A) (k : A -> H (option nat * nat)) st st0 : exits (m st) -> sim (bind m k st) st0 None.
Proof. apply exits_bind. Qed.

(** After the command [l] up to [s1], the symbol [x] and another command parsed by
    [R] follow, or nothing. *)
Lemma tail_sim (x : Z) (mkn : option nat -> option nat -> cnode) (mk : tree -> tree -> tree)
    (R : nat -> H (option nat * nat)) (pr : list token -> option (tree * list token)) st h1 l tl s1 :
  member symbols x = true -> x ≠ 62 -> (s1 <= es)%nat -> repr (sh_heap st ++ h1) l tl ->
  (forall s, (s <= es)%nat -> (length (tk s) < length (tk s1))%nat ->
     sim (R s (grown st h1)) (grown st h1) (pr (tk s))) ->
  (forall h p r tr, h !! p = Some (mkn (Some l) (Some r)) -> (l < p)%nat -> (r < p)%nat ->
     repr h l tl -> repr h r tr -> repr h p (mk tl tr)) ->
  sim (bind (peek s1 es [x; 0]) (fun '(c, ps) =>
         if c : bool then
           let* (_, _, _, ps) := gettoken ps es in
           let* (r, ps) := R ps in
           cmd <- new_node (mkn (Some l) r) ;; ret (cmd, ps)
         else ret (Some l, ps)) (grown st h1)) st
      (match eat x (tk s1) with
       | Some ts' => r' ← pr ts'; Some (mk tl r'.1, r'.2)
       | None => Some (tl, tk s1)
       end).
Proof using HT.
  intros Hx H62 Hs Hl HR Hmk. pose proof (skip_pos_le T s1 Hs) as Hsp.
  rewrite bind_peek by auto using set_one. rewrite starts_one by done. assert (Hts := tk_skip_pos T HT s1).
  destruct (eat x (tk s1)) as [ts|] eqn:E.
  - apply eat_Some in E. rewrite E in *.
    destruct (gettoken_tok T J HT (grown st h1) (skip_pos T s1) _ _ eq_refl ltac:(lia) Hts)
      as (q & e & s2 & Hg & H1 & H2 & _).
    rewrite (bind_Ok _ _ _ _ _ Hg). specialize (HR s2 ltac:(lia) ltac:(rewrite H1; cbn; lia)). rewrite H1 in HR.
    destruct (pr ts) as [[tr ts']|]; [|by apply sim_exits].
    destruct HR as (r & s3 & h2 & E1 & E2 & E3 & E4). rewrite (bind_Ok _ _ _ _ _ E1), grown_grown. cbn in E2.
    cbn [mbind option_bind fst snd]. subst ts'. rewrite <- app_assoc in E2.
    apply (join_sim st h1 h2 l r); [done|done|by eauto|done].
  - exists l, (skip_pos T s1), h1. split_and!; [done|done|done|lia].
Qed.

Lemma sim_grown o st h r : sim o (grown st h) r ->
  match r with
  | Some (t, ts') => exists p s' h', o = Ok (Some p, s') (grown st (h ++ h'))
      /\ repr (sh_heap st ++ h ++ h') p t /\ tk s' = ts' /\ (s' <= es)%nat
  | None => exits o
  end.
Proof.
  destruct r as [[t ts]|]; [|done]. intros (p & s' & h' & E1 & E2 & E3 & E4). exists p, s', h'.
  cbn in E2. rewrite grown_grown in E1. by rewrite <- app_assoc in E2.
Qed.

Lemma item_words_redirs rs its : item_words ((inr <$> rs) ++ its) = item_words its.
Proof. unfold item_words. rewrite bind_app. by induction rs. Qed.

Lemma item_redirs_app rs its : item_redirs ((inr <$> rs) ++ its) = rs ++ item_redirs its.
Proof. unfold item_redirs. rewrite bind_app. f_equal. induction rs; cbn; congruence. Qed.

Lemma args_start : args [] (replicate MAXARGS None) (replicate MAXARGS None).
Proof. split; [unfold MAXARGS; cbn; lia|done]. Qed.

(** A simple command: the part of [parseexec] without parentheses. *)
Lemma simple_sim n s st : sh_buf st = b -> (s <= es)%nat -> (length (tk s) < n)%nat ->
  sim (bind execcmd (fun cmd =>
         let* (ret_, ps) := parseredirs n cmd s es in
         let* (ret_, argc, ps) := parseargs n cmd ret_ 0 ps es in
         set_arg cmd argc None None ;;; ret (ret_, ps)) st) st
      (r ← p_items 0 (tk s); Some (foldl redirect (TExec (item_words r.1)) (item_redirs r.1), r.2)).
Proof using HT.
  intros Hb Hs Hn. rewrite p_items_redirs. set (E0 := EXEC (replicate MAXARGS None) (replicate MAXARGS None)).
  set (e := length (sh_heap st)).
  rewrite (bind_Ok _ _ _ _ _ (new_node_eq st E0 Hb)). fold e.
  pose proof (parseredirs_sim n s (grown st [E0]) e eq_refl Hs) as Hp. cbn [grown sh_heap] in Hp.
  specialize (Hp ltac:(rewrite length_app; cbn; lia) Hn).
  destruct (p_redirs (tk s)) as [[rs ts1]|] eqn:Er; [|by apply sim_exits].
  destruct Hp as (r1 & s1 & h1 & E1 & R1 & T1 & L1). rewrite (bind_Ok _ _ _ _ _ E1), grown_grown.
  destruct (p_redirs_rest _ _ _ Er) as [Hnr Hlen]. cbn [mbind option_bind fst snd].
  pose proof (parseargs_sim n s1 (grown st ([E0] ++ h1)) e r1 [] (replicate MAXARGS None) (replicate MAXARGS None) eq_refl L1) as Ha.
  cbn [grown sh_heap app length] in Ha. rewrite <- app_assoc in R1. cbn [app] in R1.
  specialize (Ha ltac:(by rewrite lookup_app_r, Nat.sub_diag) args_start
    ltac:(eapply chain_lt; [exact R1|rewrite length_app; cbn; lia]) ltac:(rewrite T1; lia) ltac:(by rewrite T1)).
  rewrite T1 in Ha. destruct (p_items 0 ts1) as [[its ts']|]; [|by apply sim_exits].
  destruct Ha as (p & s' & sp' & argv & eargv & h' & E2 & A2 & W2 & C2 & T2 & L2). cbn [app] in *.
  rewrite (bind_Ok _ _ _ _ _ E2). clear E1 E2. cbn [app] in *.
  assert (Hh : forall n', <[e := n']> (sh_heap st ++ E0 :: h1) = sh_heap st ++ n' :: h1).
  { intros n'. unfold e. by rewrite insert_app_r_alt, Nat.sub_diag. }
  rewrite Hh in *. cbn [Nat.add].
  assert (Hlk : ((sh_heap st ++ EXEC argv eargv :: h1) ++ h') !! e = Some (EXEC argv eargv)).
  { unfold e. rewrite lookup_app_l by (rewrite length_app; cbn; lia). by rewrite lookup_app_r, Nat.sub_diag. }
  rewrite (bind_Ok _ _ _ _ _ (set_arg_eq (mkSh b _ _) e argv eargv _ None None Hlk (proj1 A2))).
  destruct (args_lookup _ _ _ A2) as [Hv He]. cbn [sh_buf sh_heap sh_err].
  rewrite (list_insert_id argv), (list_insert_id eargv) by done. rewrite (list_insert_id _ e _ Hlk).
  exists p, s', (EXEC argv eargv :: h1 ++ h'). rewrite <- app_assoc in *. cbn [app] in *.
  split_and!; [done| |done|done]. cbn [fst snd].
  rewrite item_words_redirs, item_redirs_app.
  apply (chain_repr _ e).
  - eapply chain_app; [|exact C2].
    apply (chain_update _ _ _ _ e (replicate MAXARGS None) (replicate MAXARGS None) (EXEC argv eargv)) in R1; [|by rewrite lookup_app_r, Nat.sub_diag].
    rewrite Hh in R1. replace (EXEC argv eargv :: h1 ++ h') with ((EXEC argv eargv :: h1) ++ h') by done.
    rewrite app_assoc. by apply chain_app_heap.
  - eapply r_exec; [by rewrite lookup_app_r, Nat.sub_diag|exact A2|exact W2].
Qed.

(** The parser of sh.c simulates the parser on tokens. *)
Lemma parse_sim n : forall s st, sh_buf st = b -> (s <= es)%nat ->
  ((4 * length (tk s) + 4 <= n)%nat -> sim (parseline n s es st) st (p_line n (tk s)))
  /\ ((4 * length (tk s) + 3 <= n)%nat -> sim (parsepipe n s es st) st (p_pipe n (tk s)))
  /\ ((4 * length (tk s) + 1 <= n)%nat -> sim (parseblock n s es st) st (p_block n (tk s)))
  /\ ((4 * length (tk s) + 2 <= n)%nat -> sim (parseexec n s es st) st (p_exec n (tk s))).
Proof using HT.
  induction n as [|n IH]; intros s st Hb Hs; [split_and!; lia|].
  pose proof (skip_pos_le T s Hs) as Hsp. assert (Hts := tk_skip_pos T HT s).
  destruct (IH s st Hb Hs) as (_ & IHp & IHb & IHe). split_and!; intros Hn.
  - specialize (IHp ltac:(lia)). cbn [parseline p_line].
    pose proof (proj1 (proj2 (p_sound n)) (tk s)) as Hlen.
    destruct (p_pipe n (tk s)) as [[t1 ts1]|]; [|by apply sim_exits].
    destruct IHp as (p1 & s1 & h1 & E1 & R1 & T1 & L1). rewrite (bind_Ok _ _ _ _ _ E1). cbn [mbind option_bind fst snd].
    destruct (Hlen _ _ eq_refl) as (pre & Hpre & _).
    assert (Hl1 : (length ts1 <= length (tk s))%nat) by (rewrite Hpre, length_app; lia).
    destruct (parsebacks_sim n s1 (grown st h1) p1 t1 eq_refl L1 R1 ltac:(rewrite T1; lia))
      as (p2 & s2 & h2 & E2 & R2 & T2 & L2). rewrite (bind_Ok _ _ _ _ _ E2), grown_grown. cbn [grown sh_heap] in R2.
    rewrite T1 in *. destruct (p_backs t1 ts1) as [t2 ts2] eqn:Eb. cbn [fst snd] in *.
    destruct (p_backs_sound _ _ _ _ Eb) as (k & Hk & _).
    assert (Hl2 : (length ts2 <= length ts1)%nat) by (rewrite Hk, length_app; lia).
    rewrite <- T2 in *. rewrite <- app_assoc in R2.
    apply (tail_sim 59 LIST TList (fun ps => parseline n ps es) (p_line n)); try done.
    + intros s3 L3 Hd. apply IH; [done|done|lia].
    + intros. by eapply r_list.
  - specialize (IHe ltac:(lia)). cbn [parsepipe p_pipe].
    pose proof (proj2 (proj2 (proj2 (p_sound n))) (tk s)) as Hlen.
    destruct (p_exec n (tk s)) as [[t1 ts1]|]; [|by apply sim_exits].
    destruct IHe as (p1 & s1 & h1 & E1 & R1 & T1 & L1). rewrite (bind_Ok _ _ _ _ _ E1). cbn [mbind option_bind fst snd].
    destruct (Hlen _ _ eq_refl) as (pre & Hpre & _).
    assert (Hl1 : (length ts1 <= length (tk s))%nat) by (rewrite Hpre, length_app; lia).
    rewrite <- T1 in *.
    apply (tail_sim 124 PIPE TPipe (fun ps => parsepipe n ps es) (p_pipe n)); try done.
    + intros s3 L3 Hd. apply IH; [done|done|lia].
    + intros. by eapply r_pipe.
  - cbn [parseblock p_block]. rewrite bind_peek by auto using set_one. rewrite starts_one by done.
    destruct (eat 40 (tk s)) as [ts|] eqn:E; [|apply exits_panic]. apply eat_Some in E. rewrite E in *. cbn [negb].
    destruct (gettoken_tok T J HT st (skip_pos T s) _ _ Hb ltac:(lia) Hts) as (q & e & s1 & Hg & H1 & H2 & _).
    rewrite (bind_Ok _ _ _ _ _ Hg). cbn [mbind option_bind]. cbn [length] in Hn.
    destruct (IH s1 st Hb ltac:(lia)) as (IHl & _). rewrite H1 in IHl. specialize (IHl ltac:(lia)).
    pose proof (proj1 (p_sound n) ts) as Hlen.
    destruct (p_line n ts) as [[t2 ts2]|]; [|by apply sim_exits].
    destruct IHl as (p2 & s2 & h2 & E2 & R2 & T2 & L2). rewrite (bind_Ok _ _ _ _ _ E2). cbn [mbind option_bind fst snd].
    destruct (Hlen _ _ eq_refl) as (pre & Hpre & _).
    assert (Hl2 : (length ts2 <= length ts)%nat) by (rewrite Hpre, length_app; lia).
    rewrite bind_peek by auto using set_one. rewrite starts_one by done. rewrite T2.
    destruct (eat 41 ts2) as [ts3|] eqn:E3; [|apply exits_panic]. apply eat_Some in E3. subst ts2. cbn [negb mbind option_bind].
    assert (Hts2 := tk_skip_pos T HT s2). rewrite E3 in Hts2. pose proof (skip_pos_le T s2 L2).
    destruct (gettoken_tok T J HT (grown st h2) (skip_pos T s2) _ _ eq_refl ltac:(lia) Hts2)
      as (q' & e' & s4 & Hg4 & H4 & L4 & _). rewrite (bind_Ok _ _ _ _ _ Hg4).
    rewrite E3 in Hl2. cbn in Hl2.
    pose proof (parseredirs_sim n s4 (grown st h2) p2 eq_refl ltac:(lia) ltac:(by eapply repr_lt)) as Hr.
    rewrite H4 in Hr. specialize (Hr ltac:(lia)). destruct (p_redirs ts3) as [[rs ts5]|]; [|done].
    destruct Hr as (p5 & s5 & h5 & E5 & R5 & T5 & L5). cbn [grown sh_heap] in R5. exists p5, s5, (h2 ++ h5).
    rewrite E5, grown_grown. rewrite <- app_assoc in R5. split_and!; [done| |done|done].
    eapply chain_repr; [exact R5|]. rewrite app_assoc. by apply repr_app.
  - cbn [parseexec p_exec]. rewrite bind_peek by auto using set_one. rewrite starts_one by done.
    destruct (eat 40 (tk s)) as [ts|] eqn:E.
    { rewrite <- Hts. apply IH; [done|lia|rewrite Hts; lia]. }
    rewrite <- Hts. apply simple_sim; [done|lia|rewrite Hts; lia].
Qed.

(** ** Terminating the words *)

(** [y] is [x] with some characters outside words replaced by NUL. *)
Definition zeroed (x y : list Z) : Prop :=
  forall i, y !! i = x !! i \/ (y !! i = Some 0 /\ exists c, x !! i = Some c /\ wordch c = false).

Lemma zeroed_refl x : zeroed x x.
Proof. by left. Qed.

Lemma zeroed_trans x y z : zeroed x y -> zeroed y z -> zeroed x z.
Proof.
  intros H1 H2 i. destruct (H2 i) as [E2|(E2 & c & Hc & Hw)], (H1 i) as [E1|(E1 & c' & Hc' & Hw')].
  - left. congruence.
  - right. split; [congruence|eauto].
  - right. split; [done|]. exists c. split; [congruence|done].
  - right. eauto.
Qed.

Lemma zeroed_nul x y i : zeroed x y -> x !! i = Some 0 -> y !! i = Some 0.
Proof. intros H Hi. destruct (H i) as [->|[-> _]]; done. Qed.

(** The word and its NUL in the buffer [y]. *)
Definition ended (y : list Z) (q e : nat) (w : list Z) : Prop := word_at q e w /\ y !! e = Some 0.

Lemma ended_mono x y q e w : zeroed x y -> ended x q e w -> ended y q e w.
Proof. intros H [Hw Hx]. split; [done|]. by eapply zeroed_nul. Qed.

Lemma lookup_text i : (i <= es)%nat -> b !! i = Some (default 0 (T !! i)).
Proof.
  intros Hi. destruct (decide (i = es)) as [->|].
  - rewrite lookup_app_r, Nat.sub_diag by done. by rewrite (proj2 (lookup_ge_None T es)).
  - rewrite lookup_app_l by lia. by destruct (lookup_lt_is_Some_2 T i ltac:(lia)) as [c ->].
Qed.

(** Storing the NUL of a word. *)
Lemma put_nul_eq st q e w : zeroed b (sh_buf st) -> word_at q e w ->
  exists y, put_nul e st = Ok tt (mkSh y (sh_heap st) (sh_err st))
    /\ zeroed (sh_buf st) y /\ ended y q e w.
Proof.
  intros Hz Hw. pose proof Hw as (_ & _ & He & _ & _ & Hn). exists (<[e := 0]> (sh_buf st)).
  pose proof (lookup_text e He) as Hb.
  assert (Hlt : (e < length (sh_buf st))%nat).
  { destruct (Hz e) as [E|[E _]]; eapply lookup_lt_Some; [by rewrite E|done]. }
  split_and!.
  - unfold put_nul. rewrite (bind_Ok (gets sh_buf) _ st _ st eq_refl).
    rewrite zset_nat by done. done.
  - intros i. destruct (decide (i = e)) as [->|Hne]; [|left; by apply list_lookup_insert_ne].
    right. rewrite list_lookup_insert_eq by done. split; [done|].
    destruct (Hz e) as [E|[E _]]; [|by exists 0]. exists (default 0 (T !! e)). by rewrite E, Hb.
  - split; [done|]. by apply list_lookup_insert_eq.
Qed.

Lemma put_nuls_eq sp ws : words_at sp ws -> forall n st, zeroed b (sh_buf st) ->
  exists y, put_nuls ((Some <$> sp.*1) ++ replicate (S n) None) ((Some <$> sp.*2) ++ replicate (S n) None) st
            = Ok tt (mkSh y (sh_heap st) (sh_err st))
    /\ zeroed (sh_buf st) y /\ Forall2 (fun s w => ended y s.1 s.2 w) sp ws.
Proof.
  induction 1 as [|[q e] w sp ws Hw _ IH]; intros n st Hz.
  - exists (sh_buf st). destruct st. split_and!; [done|apply zeroed_refl|constructor].
  - destruct (put_nul_eq st q e w Hz Hw) as (y1 & E1 & Z1 & N1).
    destruct (IH n (mkSh y1 (sh_heap st) (sh_err st))) as (y & E2 & Z2 & N2); [by eapply zeroed_trans|].
    exists y. cbn [fmap list_fmap fst snd app put_nuls head tail].
    rewrite (bind_Ok (from_opt (Some (Some e))) _ st _ st eq_refl), (bind_Ok (from_opt (Some e)) _ st _ st eq_refl).
    rewrite (bind_Ok _ _ _ _ _ E1). split_and!; [exact E2|by eapply zeroed_trans|].
    constructor; [by eapply ended_mono|done].
Qed.

Lemma nulterminate_eq h p t : repr h p t -> forall n st, (p < n)%nat -> sh_heap st = h -> zeroed b (sh_buf st) ->
  exists y, nulterminate n (Some p) st = Ok tt (mkSh y h (sh_err st))
    /\ zeroed (sh_buf st) y /\ repr_with (ended y) h p t.
Proof.
  induction 1 as [p argv eargv sp ws Hp (Hl & -> & ->) Hw|p c q e mode fd t w Hp Hc Hr IH Hw
                 |p l r tl tr Hp Hl Hr _ IHl _ IHr|p l r tl tr Hp Hl Hr _ IHl _ IHr|p c t Hp Hc _ IH];
    intros n st Hn Hh Hz; (destruct n as [|n]; [lia|]); cbn [nulterminate];
    rewrite (bind_Ok (gets sh_heap) _ st _ st eq_refl), Hh, Hp, (bind_Ok (from_opt (Some _)) _ st _ st eq_refl).
  - destruct (MAXARGS - length sp)%nat as [|k] eqn:Ek; [lia|].
    destruct (put_nuls_eq sp ws Hw k st Hz) as (y & E & Z1 & N1).
    exists y. rewrite E, Hh. split_and!; [done|done|]. eapply r_exec; [done| |done].
    split_and!; [done| |]; by rewrite Ek.
  - destruct (IH n st ltac:(lia) Hh Hz) as (y1 & E1 & Z1 & N1). rewrite (bind_Ok _ _ _ _ _ E1).
    destruct (put_nul_eq (mkSh y1 h (sh_err st)) q e w) as (y & E2 & Z2 & N2); [by eapply zeroed_trans|done|].
    exists y. split_and!; [exact E2|by eapply zeroed_trans|].
    eapply r_redir; [done|done| |done]. eapply repr_mono; [|exact N1]. intros. by eapply ended_mono.
  - destruct (IHl n st ltac:(lia) Hh Hz) as (y1 & E1 & Z1 & N1). rewrite (bind_Ok _ _ _ _ _ E1).
    destruct (IHr n (mkSh y1 h (sh_err st))) as (y & E2 & Z2 & N2); [lia|done|by eapply zeroed_trans|].
    exists y. split_and!; [exact E2|by eapply zeroed_trans|].
    eapply r_pipe; [done|done|done| |done]. eapply repr_mono; [|exact N1]. intros. by eapply ended_mono.
  - destruct (IHl n st ltac:(lia) Hh Hz) as (y1 & E1 & Z1 & N1). rewrite (bind_Ok _ _ _ _ _ E1).
    destruct (IHr n (mkSh y1 h (sh_err st))) as (y & E2 & Z2 & N2); [lia|done|by eapply zeroed_trans|].
    exists y. split_and!; [exact E2|by eapply zeroed_trans|].
    eapply r_list; [done|done|done| |done]. eapply repr_mono; [|exact N1]. intros. by eapply ended_mono.
  - destruct (IH n st ltac:(lia) Hh Hz) as (y1 & E1 & Z1 & N1). exists y1. split_and!; [done|done|by eapply r_back].
Qed.

Lemma ended_string y q e w : zeroed b y -> ended y q e w -> string_at (drop q y) = Some w.
Proof using HT.
  intros Hz [(He & Hs & Hl & Hne & Hw & _) Hy].
  assert (Ht : take (length w) (drop q y) = w).
  { apply list_eq. intros i. destruct (decide (i < length w)%nat) as [Hi|Hi].
    - rewrite lookup_take_lt, lookup_drop by done. rewrite <- Hs, lookup_slice by done.
      destruct (lookup_lt_is_Some_2 w i Hi) as [c Hc].
      assert (HTi : T !! (q + i)%nat = Some c) by (rewrite <- Hs, lookup_slice in Hc; done).
      destruct (Hz (q + i)%nat) as [->|(_ & c' & Hc' & Hf)]; [by rewrite lookup_app_l by (eapply lookup_lt_Some; done)|].
      exfalso. rewrite lookup_app_l, HTi in Hc' by (eapply lookup_lt_Some; done). simplify_eq.
      eapply Forall_lookup_1 in Hw; [|exact Hc]. cbn in Hw. congruence.
    - rewrite (lookup_ge_None_2 w) by lia. apply lookup_ge_None_2. rewrite length_take. lia. }
  rewrite <- (take_drop (length w) (drop q y)), Ht, drop_drop, <- He, (drop_S y 0 e) by done.
  apply string_at_bytes. eapply Forall_impl; [exact Hw|]. intros c Hc ->. done.
Qed.

Lemma repr_command h y p t : zeroed b y -> repr_with (ended y) h p t -> command h y p t.
Proof using HT.
  intros Hz. induction 1 as [p argv eargv sp ws Hp (Hl & -> & ->) Hw| | | |]; try by econstructor.
  - destruct (MAXARGS - length sp)%nat as [|k] eqn:Ek; [lia|].
    eapply (c_exec _ _ _ _ _ sp.*1 k); [done|done|]. apply Forall2_fmap_l.
    eapply Forall2_impl; [exact Hw|]. intros s w Hs. exact (ended_string y _ _ w Hz Hs).
  - econstructor; [done|done|done|by eapply ended_string].
Qed.

End Parse.

(** ** The theorem *)

Lemma g_line_unique ts t t' : g_line ts t -> g_line ts t' -> t = t'.
Proof.
  intros H1 H2. pose proof (proj1 p_complete ts t H1 (4 * length (ts ++ []) + 4)%nat [] I ltac:(lia)) as E1.
  pose proof (proj1 p_complete ts t' H2 (4 * length (ts ++ []) + 4)%nat [] I ltac:(lia)) as E2. congruence.
Qed.

Lemma strlen_text T J : no_nul T -> strlen (T ++ 0 :: J) = Some (zlen T).
Proof.
  induction 1 as [|c T Hc _ IH]; [done|]. cbn [app strlen].
  rewrite (proj2 (Z.eqb_neq c 0)), IH by done. cbn. unfold zlen. cbn. f_equal. lia.
Qed.

(** What [parsecmd] does with a line the parser on tokens accepts, and with
    another one. *)
Lemma parsecmd_tokens T J : no_nul T ->
  match p_line (parse_fuel (length T)) (tokens T) with
  | Some (t, []) => exists p st', parsecmd (mkSh (T ++ 0 :: J) [] []) = Ok (Some p) st'
      /\ command (sh_heap st') (sh_buf st') p t /\ sh_err st' = []
  | _ => exits (parsecmd (mkSh (T ++ 0 :: J) [] []))
  end.
Proof.
  intros HT. set (st := mkSh (T ++ 0 :: J) [] []). unfold parsecmd.
  rewrite (bind_Ok (gets sh_buf) _ st _ st eq_refl). cbn [sh_buf st]. rewrite strlen_text by done.
  rewrite (bind_Ok (from_opt (Some (zlen T))) _ st _ st eq_refl). cbv zeta. unfold zlen. rewrite Nat2Z.id.
  pose proof (tokens_length T HT) as Hlen.
  assert (Htk : tk T 0 = tokens T) by (unfold tk; by rewrite drop_0).
  destruct (parse_sim T J HT (parse_fuel (length T)) 0 st eq_refl ltac:(lia)) as (Hs & _).
  rewrite Htk in Hs. specialize (Hs ltac:(unfold parse_fuel; lia)).
  destruct (p_line _ (tokens T)) as [[t ts]|]; [|by apply exits_bind].
  destruct Hs as (p & s & h & E1 & R1 & T1 & L1). rewrite (bind_Ok _ _ _ _ _ E1).
  rewrite (bind_peek T J HT) by (done || apply set_none). pose proof (skip_pos_le T s L1) as Hsp.
  assert (Hend : skip_pos T s = length T <-> ts = []).
  { rewrite <- T1. unfold tk. rewrite (tokens_nil _ (no_nul_drop T HT s)).
    unfold skip_pos in *. rewrite <- (drop_skip T s). split; intros E.
    - rewrite E. by apply drop_ge.
    - apply (f_equal length) in E. rewrite length_drop in E. cbn in E. lia. }
  destruct (skip_pos T s =? length T)%nat eqn:E.
  - apply Nat.eqb_eq, Hend in E as ->. cbn [negb].
    rewrite (bind_Ok (gets sh_heap) _ _ _ _ eq_refl).
    destruct (nulterminate_eq T J _ p t R1 (S (length (sh_heap (grown T J st h)))) (grown T J st h))
      as (y & E2 & Z2 & N2); [apply repr_lt in R1; cbn in *; lia|done|apply zeroed_refl|].
    rewrite (bind_Ok _ _ _ _ _ E2). exists p. eexists. split_and!; [done| |done]. cbn.
    by eapply (repr_command T J HT).
  - apply Nat.eqb_neq in E. destruct ts; [by destruct E; apply Hend|]. cbn [negb].
    rewrite (bind_Ok (gets sh_buf) _ _ _ _ eq_refl), (bind_Ok (print_err _) _ _ _ _ eq_refl). apply exits_panic.
Qed.

Lemma parsecmd_meaning T J : no_nul T ->
  (exists t p st', g_line (tokens T) t /\ (forall t', g_line (tokens T) t' -> t' = t)
     /\ parsecmd (mkSh (T ++ 0 :: J) [] []) = Ok (Some p) st'
     /\ command (sh_heap st') (sh_buf st') p t /\ sh_err st' = [])
  \/ ((forall t, ~ g_line (tokens T) t)
     /\ exists st', parsecmd (mkSh (T ++ 0 :: J) [] []) = Halt exited_stop st' /\ sh_err st' ≠ []).
Proof.
  intros HT. pose proof (parsecmd_tokens T J HT) as H. pose proof (tokens_length T HT) as Hlen.
  assert (Hc : forall t, g_line (tokens T) t -> p_line (parse_fuel (length T)) (tokens T) = Some (t, [])).
  { intros t Hg. pose proof (proj1 p_complete _ _ Hg (parse_fuel (length T)) [] I) as E.
    rewrite app_nil_r in E. apply E. unfold parse_fuel. lia. }
  destruct (p_line _ (tokens T)) as [[t ts]|] eqn:E.
  - pose proof (proj1 (p_sound _) _ _ _ E) as (pre & Hpre & Hg). destruct ts as [|x ts].
    + left. destruct H as (p & st' & H1 & H2 & H3). rewrite app_nil_r in Hpre. subst pre.
      exists t, p, st'. split_and!; try done. intros t' Hg'. by eapply g_line_unique.
    + right. split; [|done]. intros t' Hg'. apply Hc in Hg'. congruence.
  - right. split; [|done]. intros t' Hg'. apply Hc in Hg'. congruence.
Qed.

(** C31: The shell's parser is its grammar: on any line it stops, and either the
    tokens of the line form one command of the grammar, no other one, and
    [parsecmd] returns nodes for that command whose argument and file strings are
    the words of the line; or the grammar has no command for the line, and the
    shell prints a message and exits. *)
Theorem parsecmd_grammar T J : no_nul T ->
  (exists t p st', g_line (tokens T) t /\ (forall t', g_line (tokens T) t' -> t' = t)
     /\ parsecmd (mkSh (T ++ 0 :: J) [] []) = Ok (Some p) st'
     /\ command (sh_heap st') (sh_buf st') p t /\ sh_err st' = [])
  \/ ((forall t, ~ g_line (tokens T) t)
     /\ exists st', parsecmd (mkSh (T ++ 0 :: J) [] []) = Halt exited_stop st' /\ sh_err st' ≠ []).
Proof. apply parsecmd_meaning. Qed.

(** [ls >a|(b&)] and a newline. *)
Definition demo_line : list Z := [108; 115; 32; 62; 97; 124; 40; 98; 38; 41; 10].

Lemma parsecmd_grammar_witness : exists t p st', g_line (tokens demo_line) t
  /\ parsecmd (mkSh (demo_line ++ [0]) [] []) = Ok (Some p) st'
  /\ command (sh_heap st') (sh_buf st') p t.
Proof.
  destruct (parsecmd_grammar demo_line []) as [(t & p & st' & H1 & _ & H2 & H3 & _)|[_ (st' & H & _)]].
  - unfold no_nul, demo_line. repeat constructor; lia.
  - exists t, p, st'. split; [exact H1|split; [exact H2|exact H3]].
  - exfalso. vm_compute in H. discriminate H.
Defined.
