(* ===== verification/ShRun.v ===== *)
(** * The shell's interpreter: sh.c

    [runcmd], [getcmd] and [main] as programs over the system calls.  The command
    is the node [cmd] of the heap [h] that the parser left, with its strings in
    the line [b]; [runcmd] never returns. *)

From ITree Require Import ITree.
From S2P Require Import Prelude CString Params Ulib KMonad Fs Sys Progs Sh.
Local Open Scope prog_scope.

Definition panic {A} (s : string) : prog A := uprintf 2 (bytes_of "%s" ++ [10]) [AStr (bytes_of s)] ;;; exit.

Definition fork1 : prog Z :=
  pid <- sys SysFork ;;
  if pid =? -1 then panic "fork" else Ret pid.

(** The strings of an argument vector that a null pointer ends. *)
Fixpoint argv_strings (b : list Z) (argv : list (option nat)) : option (list (list Z)) :=
  match argv with
  | [] => None
  | None :: _ => Some []
  | Some q :: argv' => s ← string_at (drop q b); l ← argv_strings b argv'; Some (s :: l)
  end.

(** [fuel] bounds the depth of the command. *)
Fixpoint runcmd (fuel : nat) (h : list cnode) (b : list Z) (cmd : option nat) : prog unit :=
  match fuel with
  | O => fault
  | S fuel' =>
      match cmd with
      | None => exit
      | Some c =>
          n <- of_option (h !! c) ;;
          match n with
          | EXEC argv _ =>
              args <- of_option (argv_strings b argv) ;;
              match args with
              | [] => exit
              | a :: _ => sys (SysExec a args) ;;; uprintf 2 (msg "exec %s failed") [AStr a] ;;; exit
              end
          | REDIR cmd file _ mode fd =>
              sys (SysClose fd) ;;;
              f <- of_option (string_at (drop file b)) ;;
              r <- sys (SysOpen f mode) ;;
              if r <? 0 then uprintf 2 (msg "open %s failed") [AStr f] ;;; exit
              else runcmd fuel' h b cmd ;;; exit
          | LIST l r =>
              pid <- fork1 ;;
              (if pid =? 0 then runcmd fuel' h b l else Ret tt) ;;;
              sys SysWait ;;;
              runcmd fuel' h b r ;;;
              exit
          | PIPE l r =>
              p <- sys SysPipe ;;
              match p with
              | None => panic "pipe"
              | Some (p0, p1) =>
                  pid <- fork1 ;;
                  (if pid =? 0 then
                     sys (SysClose 1) ;;; sys (SysDup p1) ;;; sys (SysClose p0) ;;; sys (SysClose p1) ;;;
                     runcmd fuel' h b l
                   else Ret tt) ;;;
                  pid <- fork1 ;;
                  (if pid =? 0 then
                     sys (SysClose 0) ;;; sys (SysDup p0) ;;; sys (SysClose p0) ;;; sys (SysClose p1) ;;;
                     runcmd fuel' h b r
                   else Ret tt) ;;;
                  sys (SysClose p0) ;;; sys (SysClose p1) ;;; sys SysWait ;;; sys SysWait ;;; exit
              end
          | BACK cmd =>
              pid <- fork1 ;;
              (if pid =? 0 then runcmd fuel' h b cmd else Ret tt) ;;;
              exit
          end
      end
  end.

(** [gets] into a buffer of [n] zeros. *)
Definition gets_zeroed (n : nat) : prog (list Z) :=
  l <- gets_bytes (n - 1) ;; Ret (l ++ replicate (n - length l) 0).

(** The buffer, or [None] at the end of the input. *)
Definition getcmd (nbuf : nat) : prog (option (list Z)) :=
  uprintf 2 (bytes_of "$ ") [] ;;;
  buf <- gets_zeroed nbuf ;;
  c <- of_option (head buf) ;;
  if c =? 0 then Ret None else Ret (Some buf).

Definition is_logout (buf : list Z) : option bool :=
  if bool_decide (take 6 buf = bytes_of "logout") then c ← buf !! 6%nat; Some (member whitespace c) else Some false.

(** [runcmd(parsecmd(buf))]; what the parser prints is printed. *)
Definition run_line (buf : list Z) : prog unit :=
  match parsecmd (mkSh buf [] []) with
  | Ok cmd st => print 2 (sh_err st) ;;; runcmd (S (length (sh_heap st))) (sh_heap st) (sh_buf st) cmd
  | Halt exited_stop st => print 2 (sh_err st) ;;; exit
  | Halt _ _ => fault
  end.

(** The loop that opens the console until three descriptors are open. *)
Definition open_console : prog unit :=
  ITree.iter (fun _ : unit =>
    fd <- sys (SysOpen (bytes_of "console") O_RDWR) ;;
    if 0 <=? fd then
      if 3 <=? fd then sys (SysClose fd) ;;; Ret (inr tt) else Ret (inl tt)
    else Ret (inr tt)) tt.

(** A command that [main] runs itself. *)
Definition is_cd (buf : list Z) : bool := bool_decide (take 3 buf = bytes_of "cd ").

Definition do_cd (buf : list Z) : prog unit :=
  n <- of_option (strlen buf) ;;
  buf <- of_option (zset buf (n - 1) 0) ;;
  dir <- of_option (string_at (drop 3 buf)) ;;
  r <- sys (SysChdir dir) ;;
  if r <? 0 then uprintf 2 (msg "cannot cd %s") [AStr dir] else Ret tt.

Definition sh_main : prog unit :=
  open_console ;;;
  ITree.iter (fun _ : unit =>
    buf <- getcmd 100 ;;
    match buf with
    | None => Ret (inr tt)
    | Some buf =>
        if is_cd buf then do_cd buf ;;; Ret (inl tt)
        else
          out <- of_option (is_logout buf) ;;
          if out : bool then Ret (inr tt)
          else
            pid <- fork1 ;;
            (if pid =? 0 then run_line buf else Ret tt) ;;;
            sys SysWait ;;;
            Ret (inl tt)
    end) tt ;;;
  exit.
