(* ===== verification/ShRunSpec.v ===== *)
(** * The shell runs the commands it parsed

    [runs t w w'] is the meaning of the command [t] for a process in state [w]:
    which programs are started, with which descriptors, and which messages are
    printed, for every way in which [exec], [open], [pipe] and [fork] may fail.
    Every run of the interpreter ends and is one that [runs] allows; [session]
    lifts this to the whole shell. *)

From ITree Require Import ITree.
From S2P Require Import Prelude CString Params Ulib KMonad Fs Sys Progs ProgsSpec Sh ShSpec ShParse ShRun.
Local Open Scope prog_scope.

(** ** The meaning of a command *)

(** [s] is printed on descriptor 2. *)
Definition says (w : world) (s : list Z) (w' : world) : Prop :=
  exists o f, fd_file w 2 = Some (o, f) /\ w' = emit o s w.

(** The two ends of a new pipe are open files [n] and [n + 1], in no descriptor. *)
Definition with_pipe (w : world) : world :=
  let n := length (w_open w) in
  with_open (w_open w ++ [mkOfile (OPipe n false) [] []; mkOfile (OPipe n true) [] []]) w.

(** [w] with open file [o] in descriptor [fd]. *)
Definition on_fd (fd : Z) (o : nat) (w : world) : world := with_fds (<[fd := o]> (w_fds w)) w.

Inductive runs : tree -> world -> world -> Prop :=
| run_empty w : runs (TExec []) w w
| run_exec a args w l : used (w_open w) l -> runs (TExec (a :: args)) w (spawned a (a :: args) l w)
| run_noexec a args w w' : says w (bytes_of "exec " ++ a ++ msg " failed") w' -> runs (TExec (a :: args)) w w'
| run_redir t file mode fd dev c w w' : runs t (opened file mode dev c fd w) w' -> runs (TRedir t file mode fd) w w'
| run_noopen t file mode fd w w' : says (not_opened file mode w) (bytes_of "open " ++ file ++ msg " failed") w' -> runs (TRedir t file mode fd) w w'
| run_list l r w w1 w2 : runs l w w1 -> runs r (back_in w w1) w2 -> runs (TList l r) w w2
| run_list_nofork l r w w' : says w (msg "fork") w' -> runs (TList l r) w w'
| run_pipe l r w w1 w2 : let n := length (w_open w) in
    runs l (on_fd 1 (S n) (with_pipe w)) w1 -> runs r (on_fd 0 n (back_in w w1)) w2 -> runs (TPipe l r) w w2
| run_nopipe l r w w' : says w (msg "pipe") w' -> runs (TPipe l r) w w'
| run_pipe_nofork l r w w' : says (with_pipe w) (msg "fork") w' -> runs (TPipe l r) w w'
| run_pipe_nofork2 l r w w1 w2 : runs l (on_fd 1 (S (length (w_open w))) (with_pipe w)) w1 -> says (back_in w w1) (msg "fork") w2 -> runs (TPipe l r) w w2
| run_back t w w1 : runs t w w1 -> runs (TBack t) w w1
| run_back_nofork t w w' : says w (msg "fork") w' -> runs (TBack t) w w'.

(** ** Open files only grow *)

Lemma used_refl l : used l l.
Proof. intros i f Hi. exists f, [], []. by rewrite app_nil_r. Qed.

Lemma used_trans l1 l2 l3 : used l1 l2 -> used l2 l3 -> used l1 l3.
Proof.
  intros H1 H2 i f Hi. destruct (H1 i f Hi) as (f1 & a1 & b1 & E1 & K1 & R1 & O1), (H2 i f1 E1) as (f2 & a2 & b2 & E2 & K2 & R2 & O2).
  exists f2, (a1 ++ a2), (b1 ++ b2). split; [done|]. split; [congruence|]. split; [by rewrite R1, R2, app_assoc|by rewrite O2, O1, app_assoc].
Qed.

Lemma used_longer l l' : used l (l ++ l').
Proof. intros i f Hi. exists f, [], []. split; [by apply lookup_app_l_Some|]. by rewrite app_nil_r. Qed.

Lemma used_emit o b w : used (w_open w) (w_open (emit o b w)).
Proof.
  intros i f Hi. cbn [emit upd_file w_open]. rewrite lookup_alter_if, Hi. cbn. case_decide; [exists (put_out b f), [], b|exists f, [], []]; cbn; [done|].
  by rewrite app_nil_r.
Qed.

Lemma used_drain o n w : used (w_open w) (w_open (drain o n w)).
Proof.
  intros i f Hi. cbn [drain upd_file w_open]. rewrite lookup_alter_if, Hi. cbn. case_decide; [exists (take_out n f), (take n (of_rest f)), []|exists f, [], []]; cbn;
    rewrite ?app_nil_r, ?take_drop; done.
Qed.

Lemma says_used w s w' : says w s w' -> used (w_open w) (w_open w').
Proof. intros (o & f & _ & ->). apply used_emit. Qed.

Lemma runs_used t w w' : runs t w w' -> used (w_open w) (w_open w').
Proof.
  assert (Hp : forall w, used (w_open w) (w_open (with_pipe w))) by (intros; apply used_longer).
  induction 1 as [w|a args w l Hl|a args w w' Hs|t file mode fd dev c w w' _ IH|t file mode fd w w' Hs|l r w w1 w2 _ IH1 _ IH2|l r w w' Hs
    |l r w w1 w2 n _ IH1 _ IH2|l r w w' Hs|l r w w' Hs|l r w w1 w2 _ IH1 Hs|t w w1 _ IH|t w w' Hs];
    try apply says_used in Hs; try done.
  - apply used_refl.
  - eapply used_trans; [|exact IH]. apply used_longer.
  - eapply used_trans; [exact IH1|exact IH2].
  - eapply used_trans; [apply Hp|]. eapply used_trans; [exact IH1|exact IH2].
  - eapply used_trans; [apply Hp|exact Hs].
  - eapply used_trans; [apply Hp|]. eapply used_trans; [exact IH1|exact Hs].
Qed.

(** Descriptors 0, 1 and 2 are open. *)
Definition stds (w : world) : Prop := forall fd, 0 <= fd <= 2 -> is_Some (fd_file w fd).

Lemma fd_file_some w fd : is_Some (fd_file w fd) <-> exists o, w_fds w !! fd = Some o /\ is_Some (w_open w !! o).
Proof.
  unfold fd_file. destruct (w_fds w !! fd) as [o|]; cbn; [|split; [by intros []|by intros (o & ? & _)]].
  destruct (w_open w !! o) as [f|] eqn:E; cbn; split; [eauto 10|eauto|by intros []|].
  intros (o' & [= <-] & [f Hf]). congruence.
Qed.

Lemma used_some l l' o : used l l' -> is_Some (l !! o) -> is_Some (l' !! o).
Proof. intros H [f Hf]. destruct (H o f Hf) as (f' & _ & _ & E & _). eauto. Qed.

(** The descriptors stay open when only some of them are given other files. *)
Lemma stds_change w w' : stds w -> used (w_open w) (w_open w') ->
  (forall fd, 0 <= fd <= 2 -> w_fds w' !! fd = w_fds w !! fd \/ exists o, w_fds w' !! fd = Some o /\ is_Some (w_open w' !! o)) -> stds w'.
Proof.
  intros Hw Hu Hf fd Hfd. apply fd_file_some. destruct (Hf fd Hfd) as [E|(o & E & Ho)]; [|eauto].
  apply Hw, fd_file_some in Hfd as (o & Eo & Ho). exists o. rewrite E. split; [done|]. by eapply used_some.
Qed.

Lemma stds_same w w' : stds w -> used (w_open w) (w_open w') -> w_fds w' = w_fds w -> stds w'.
Proof. intros Hw Hu E. eapply stds_change; [done|done|]. intros fd _. left. by rewrite E. Qed.

(** ** Descriptors *)

Lemma free_fd_0 m : free_fd (delete 0 m) = Some 0.
Proof.
  unfold free_fd. change (seqZ 0 NOFILE) with (0 :: seqZ 1 15). cbn [List.find].
  by rewrite bool_decide_true by apply lookup_delete_eq.
Qed.
Lemma free_fd_1 m : is_Some (m !! 0) -> free_fd (delete 1 m) = Some 1.
Proof.
  intros [o Ho]. unfold free_fd. change (seqZ 0 NOFILE) with (0 :: 1 :: seqZ 2 14). cbn [List.find].
  rewrite bool_decide_false by (rewrite lookup_delete_ne by done; congruence). by rewrite bool_decide_true by apply lookup_delete_eq.
Qed.

Lemma stds_fds w fd : stds w -> 0 <= fd <= 2 -> is_Some (w_fds w !! fd).
Proof. intros Hw Hfd. apply Hw, fd_file_some in Hfd as (o & -> & _). eauto. Qed.

Lemma ends_closed fd Q w : Q (Some 0) (with_fds (delete fd (w_fds w)) w) -> is_Some (w_fds w !! fd) -> ends Q (sys (SysClose fd)) w.
Proof. intros HQ [o Ho]. apply ends_sys; [done|]. cbn. rewrite Ho. by intros x w' [-> ->]. Qed.

Lemma ends_dup fd fd' o Q w : w_fds w !! fd = Some o -> free_fd (w_fds w) = Some fd' -> Q (Some fd') (on_fd fd' o w) -> ends Q (sys (SysDup fd)) w.
Proof. intros Ho Hf HQ. apply ends_sys; [done|]. cbn. rewrite Ho, Hf. by intros x w' [-> ->]. Qed.

Lemma ends_wait Q w : (forall x, Q (Some x) w) -> ends Q (sys SysWait) w.
Proof. intros HQ. apply ends_sys; [done|]. by intros x w' ->. Qed.

(** [open] after [close(fd)], when no descriptor below is free, uses [fd]. *)
Lemma redirect_opened fd w path mode dev c x : stds w -> fd = 0 \/ fd = 1 -> free_fd (w_fds (with_fds (delete fd (w_fds w)) w)) = Some x ->
  x = fd /\ opened path mode dev c x (with_fds (delete fd (w_fds w)) w) = opened path mode dev c fd w.
Proof.
  intros Hw Hfd Hx. assert (x = fd) as ->.
  { destruct Hfd as [->| ->]; cbn in Hx; [rewrite free_fd_0 in Hx|rewrite free_fd_1 in Hx by (apply stds_fds; [done|lia])]; congruence. }
  split; [done|]. unfold opened, new_fd, act_on, with_fds. cbn. by rewrite insert_delete_eq.
Qed.

Lemma stds_opened path mode dev c fd w : stds w -> stds (opened path mode dev c fd w).
Proof.
  intros Hw. eapply stds_change; [done|apply used_longer|]. intros fd' Hfd'. cbn. destruct (decide (fd' = fd)) as [->|]; [right|left; by rewrite lookup_insert_ne].
  rewrite lookup_insert_eq. eexists. split; [done|]. rewrite list_lookup_middle by done. eauto.
Qed.

(** What is printed on descriptor 2. *)
Lemma ends_says fmt args s (Q : option unit -> world -> Prop) w : stds w -> format fmt args = Some s -> (forall w', says w s w' -> Q (Some tt) w') -> ends Q (uprintf 2 fmt args) w.
Proof. intros Hw Ef HQ. destruct (Hw 2) as [[o f] E2]; [lia|]. eapply ends_printf; [exact E2|exact Ef|]. apply HQ. by exists o, f. Qed.

Lemma ends_panic {A} s (Q : option A -> world -> Prop) w : stds w -> (forall w', says w (msg s) w' -> Q None w') -> ends Q (panic s) w.
Proof. intros Hw HQ. apply ends_bind. eapply ends_says; [done|done|]. intros w' Hs. by apply ends_Exit, HQ. Qed.

(** A child that satisfies [P] when it has ended. *)
Lemma ends_fork1 {R} (P : world -> Prop) (k : Z -> prog R) Q w : stds w ->
  (forall w', says w (msg "fork") w' -> Q None w') ->
  ends (fun r w' => r = None /\ P w') (k 0) w ->
  (forall w' pid, P w' -> 0 < pid -> ends Q (k pid) (back_in w w')) ->
  ends Q (ITree.bind fork1 k) w.
Proof.
  intros Hw Hp Hc Hk. unfold fork1.
  eapply (ends_fork Q _ w _ P); [rewrite !observe_seq; reflexivity| | |].
  - apply ends_bind, ends_bind, ends_Ret. change (-1 =? -1) with true. cbv iota. by apply ends_panic.
  - apply ends_bind, ends_bind, ends_Ret, ends_Ret. exact Hc.
  - intros w' pid HP Hpid. apply ends_bind, ends_bind, ends_Ret. rewrite (proj2 (Z.eqb_neq pid (-1))) by lia. by apply ends_Ret, Hk.
Qed.

Lemma ends_sysexec {R} a args (k : Z -> prog R) Q w : (forall l, used (w_open w) l -> Q None (spawned a args l w)) -> ends Q (k (-1)) w ->
  ends Q (ITree.bind (sys (SysExec a args)) k) w.
Proof. intros HQ Hk. eapply ends_exec; [rewrite observe_seq; reflexivity|done|]. by apply ends_bind, ends_Ret. Qed.

(** ** The interpreter *)

(** The same open files and calls; a process that ended has no descriptors. *)
Definition same_files (w1 w2 : world) : Prop := w_open w1 = w_open w2 /\ w_acts w1 = w_acts w2.
Definition done_as (t : tree) (w : world) (r : option unit) (w' : world) : Prop := r = None /\ exists w1, runs t w w1 /\ same_files w' w1.

Lemma back_in_same w w1 w2 : same_files w1 w2 -> back_in w w1 = back_in w w2.
Proof. intros [H1 H2]. unfold back_in. by rewrite H1, H2. Qed.

Lemma done_runs t w w' : runs t w w' -> done_as t w None w'.
Proof. intros H. split; [done|]. by exists w'. Qed.

(** Redirections are of descriptors 0 and 1. *)
Fixpoint good_tree (t : tree) : Prop :=
  match t with
  | TExec _ => True
  | TRedir t _ _ fd => (fd = 0 \/ fd = 1) /\ good_tree t
  | TPipe l r | TList l r => good_tree l /\ good_tree r
  | TBack t => good_tree t
  end.

Lemma good_redirects rs t : good_tree t -> good_tree (foldl redirect t rs).
Proof.
  revert t. induction rs as [|r rs IH]; intros t Ht; [done|]. apply IH. split; [|done]. unfold rfd. destruct (_ =? _); auto.
Qed.

Lemma grammar_good : (forall ts t, g_line ts t -> good_tree t) /\ (forall ts t, g_pipe ts t -> good_tree t) /\ (forall ts t, g_exec ts t -> good_tree t).
Proof.
  apply (grammar_ind (fun ts t _ => good_tree t) (fun ts t _ => good_tree t) (fun ts t _ => good_tree t)); cbn; intros; auto using good_redirects.
  - induction n; [done|]. by cbn.
  - split; [|done]. induction n; [done|]. by cbn.
  - by apply good_redirects.
Qed.

Lemma argv_strings_of b qs ws n : Forall2 (fun q w => string_at (drop q b) = Some w) qs ws ->
  argv_strings b ((Some <$> qs) ++ replicate (S n) None) = Some ws.
Proof. induction 1 as [|q w qs ws Hq _ IH]; cbn; [done|]. rewrite Hq. cbn. cbn in IH. by rewrite IH. Qed.

(** The descriptors of the children of a pipe. *)
Lemma piped_fds r wr w : w_fds (piped r wr w) = <[wr := S (length (w_open w))]> (<[r := length (w_open w)]> (w_fds w)).
Proof. unfold piped, new_fd. cbn. by rewrite length_app, Nat.add_1_r. Qed.

Lemma piped_open r wr w : with_fds (w_fds w) (piped r wr w) = with_pipe w.
Proof. unfold piped, with_pipe, with_fds, new_fd, with_open. cbn. by rewrite <- app_assoc. Qed.

Section Pipe.
Context (w : world) (p0 p1 : Z) (Hw : stds w) (Hp0 : free_fd (w_fds w) = Some p0)
  (Hp1 : free_fd (<[p0 := length (w_open w)]> (w_fds w)) = Some p1).

Lemma pipe_fds_new : w_fds w !! p0 = None /\ w_fds w !! p1 = None /\ p0 ≠ p1 /\ 2 < p0 /\ 2 < p1.
Proof.
  apply free_fd_free in Hp0 as H0. apply free_fd_free in Hp1 as H1. assert (p0 ≠ p1) by (intros ->; by rewrite lookup_insert_eq in H1).
  rewrite lookup_insert_ne in H1 by done. apply free_fd_bound in Hp0 as B0. apply free_fd_bound in Hp1 as B1.
  assert (forall fd, w_fds w !! fd = None -> ~ 0 <= fd <= 2) as Hs by (intros fd Hfd Hb; destruct (stds_fds w fd Hw Hb); congruence).
  specialize (Hs p0 H0) as S0. specialize (Hs p1 H1) as S1. split; [done|]. split; [done|]. split; [done|]. lia.
Qed.

(** [close(fd); dup(p); close(p[0]); close(p[1])] leaves the end [o] in [fd]. *)
Lemma pipe_end {R} fd o p (k : prog R) Q w1 : w_fds w1 = w_fds (piped p0 p1 w) -> fd = 0 /\ p = p0 /\ o = length (w_open w) \/ fd = 1 /\ p = p1 /\ o = S (length (w_open w)) ->
  ends Q k (with_fds (<[fd := o]> (w_fds w)) w1) ->
  ends Q (ITree.bind (sys (SysClose fd)) (fun _ => ITree.bind (sys (SysDup p)) (fun _ => ITree.bind (sys (SysClose p0)) (fun _ =>
    ITree.bind (sys (SysClose p1)) (fun _ => k))))) w1.
Proof.
  intros E1 Hfd Hk. rewrite piped_fds in E1. destruct pipe_fds_new as (N0 & N1 & Hne & B0 & B1).
  assert (Hb : 0 <= fd <= 2 /\ fd ≠ p0 /\ fd ≠ p1) by lia. destruct Hb as (Hb & D0 & D1).
  apply ends_bind, ends_closed.
  2:{ rewrite E1, !lookup_insert_ne by done. by apply stds_fds. }
  assert (Ep : delete fd (w_fds w1) !! p = Some o).
  { rewrite E1. destruct Hfd as [(-> & -> & ->)|(-> & -> & ->)]; rewrite lookup_delete_ne by lia; [rewrite lookup_insert_ne by done|]; by rewrite lookup_insert_eq. }
  assert (Ef : free_fd (delete fd (w_fds w1)) = Some fd).
  { destruct Hfd as [(-> & _)|(-> & _)]; [apply free_fd_0|]. apply free_fd_1. rewrite E1, !lookup_insert_ne by lia. apply stds_fds; [done|lia]. }
  apply ends_bind. eapply ends_dup; [exact Ep|exact Ef|]. apply ends_bind, ends_closed; cbn.
  2:{ rewrite E1, insert_delete_eq. rewrite lookup_insert_ne, lookup_insert_ne, lookup_insert_eq by done. eauto. }
  apply ends_bind, ends_closed; cbn.
  2:{ rewrite E1, insert_delete_eq. rewrite lookup_delete_ne, lookup_insert_ne, lookup_insert_eq by done. eauto. }
  replace (delete p1 _) with (<[fd := o]> (w_fds w)); [exact Hk|]. rewrite E1, insert_delete_eq.
  rewrite (insert_insert_ne _ fd p1), (insert_insert_ne _ fd p0) by done. rewrite (delete_insert_ne _ p0 p1) by done.
  rewrite (delete_insert_id (<[fd := o]> (w_fds w)) p0) by (by rewrite lookup_insert_ne by done).
  rewrite delete_insert_id; [done|]. by rewrite lookup_insert_ne by done.
Qed.
End Pipe.

(** Messages of processes with the same open files and descriptor 2. *)
Lemma says_same w wb s w' : says w s w' -> w_fds wb !! 2 = w_fds w !! 2 -> same_files w wb -> exists wb', says wb s wb' /\ same_files w' wb'.
Proof.
  intros (o & f & Ef & ->) E2 [Eo Ea]. exists (emit o s wb). split.
  - exists o, f. split; [|done]. unfold fd_file in *. by rewrite E2, <- Eo.
  - split; cbn; [by rewrite Eo|done].
Qed.

Lemma same_files_refl w : same_files w w.
Proof. done. Qed.
Lemma same_files_trans w1 w2 w3 : same_files w1 w2 -> same_files w2 w3 -> same_files w1 w3.
Proof. intros [H1 H2] [H3 H4]. split; congruence. Qed.

(** [close(p[0]); close(p[1]); wait(); wait(); exit();] *)
Lemma ends_tail (Q : option unit -> world -> Prop) p0 p1 w : (forall w', same_files w' w -> Q None w') ->
  ends Q (ITree.bind (sys (SysClose p0)) (fun _ => ITree.bind (sys (SysClose p1)) (fun _ => ITree.bind (sys SysWait) (fun _ => ITree.bind (sys SysWait) (fun _ => exit))))) w.
Proof.
  intros HQ. assert (Hc : forall p x w1 w2, step (SysClose p) w1 x w2 -> same_files w1 w -> same_files w2 w).
  { cbn. intros p x w1 w2 Hs H1. destruct (w_fds w1 !! p); destruct Hs as [_ ->]; done. }
  apply ends_bind, ends_sys; [done|]. intros x1 w1 H1. apply ends_bind, ends_sys; [done|]. intros x2 w2 H2.
  apply ends_bind, ends_wait. intros _. apply ends_bind, ends_wait. intros _. apply ends_Exit, HQ. eapply Hc, Hc; [done|done|apply same_files_refl].
Qed.

Section Run.
Context (h : list cnode) (b : list Z).

Lemma run_pipe_ends l r (tl tr : tree) fuel w : stds w ->
  (forall w, stds w -> ends (done_as tl w) (runcmd fuel h b l) w) ->
  (forall w, stds w -> ends (done_as tr w) (runcmd fuel h b r) w) ->
  forall p0 p1, free_fd (w_fds w) = Some p0 -> free_fd (<[p0 := length (w_open w)]> (w_fds w)) = Some p1 ->
  ends (done_as (TPipe tl tr) w)
    (pid <- fork1 ;;
     (if pid =? 0 then sys (SysClose 1) ;;; sys (SysDup p1) ;;; sys (SysClose p0) ;;; sys (SysClose p1) ;;; runcmd fuel h b l else Ret tt) ;;;
     pid <- fork1 ;;
     (if pid =? 0 then sys (SysClose 0) ;;; sys (SysDup p0) ;;; sys (SysClose p0) ;;; sys (SysClose p1) ;;; runcmd fuel h b r else Ret tt) ;;;
     sys (SysClose p0) ;;; sys (SysClose p1) ;;; sys SysWait ;;; sys SysWait ;;; exit) (piped p0 p1 w).
Proof.
  intros Hw Hl Hr p0 p1 F0 F1. pose proof (pipe_fds_new w p0 p1 Hw F0 F1) as (N0 & N1 & Hne & B0 & B1).
  set (wp := piped p0 p1 w). assert (Ep : with_fds (w_fds w) wp = with_pipe w) by apply piped_open.
  assert (Hsame : same_files wp (with_pipe w)) by (rewrite <- Ep; done).
  assert (Hu : used (w_open w) (w_open wp)) by (destruct Hsame as [-> _]; apply used_longer).
  assert (E2 : forall fd, 0 <= fd <= 2 -> w_fds wp !! fd = w_fds w !! fd) by (intros fd Hfd; unfold wp; rewrite piped_fds, !lookup_insert_ne by lia; done).
  assert (Hwp : stds wp) by (eapply stds_change; [exact Hw|done|]; intros fd Hfd; left; by apply E2).
  assert (Hon : forall fd o w1, stds w1 -> used (w_open wp) (w_open w1) -> (o <= S (length (w_open w)))%nat -> w_fds w1 = w_fds w -> stds (on_fd fd o w1)).
  { intros fd o w1 H1 Hu1 Ho Ef. eapply stds_change; [exact H1|apply used_refl|]. intros fd' _. cbn. destruct (decide (fd' = fd)) as [->|]; [right|left; by rewrite lookup_insert_ne].
    rewrite lookup_insert_eq. exists o. split; [done|]. eapply used_some; [exact Hu1|]. destruct Hsame as [-> _]. apply lookup_lt_is_Some_2. cbn. rewrite length_app. cbn. lia. }
  eapply (ends_fork1 (fun w' => exists w1, runs tl (on_fd 1 (S (length (w_open w))) (with_pipe w)) w1 /\ same_files w' w1)); [done| | |].
  - intros w' Hs. destruct (says_same _ (with_pipe w) _ _ Hs) as (w2 & Hs2 & H2); [symmetry; by apply E2|done|]. split; [done|]. exists w2. split; [by apply run_pipe_nofork|done].
  - apply ends_bind. eapply (pipe_end w p0 p1 Hw F0 F1 1); [done|by right|].
    replace (with_fds _ wp) with (on_fd 1 (S (length (w_open w))) (with_pipe w)) by (by rewrite <- Ep).
    eapply ends_mono; [|apply Hl, Hon; [|destruct Hsame as [-> _]; apply used_refl|lia|done]]; [by intros [a|] w' [? ?]|].
    rewrite <- Ep. eapply stds_change; [exact Hw|exact Hu|]. intros fd _. by left.
  - intros w' pid (w1 & Hr1 & H1) Hpid. rewrite (proj2 (Z.eqb_neq pid 0)) by lia. apply ends_bind, ends_Ret.
    assert (Hu1 : used (w_open wp) (w_open w1)) by (destruct Hsame as [-> _]; exact (runs_used _ _ _ Hr1)).
    assert (Hw1 : stds (back_in wp w')) by (eapply stds_same; [exact Hwp| |done]; cbn; destruct H1 as [-> _]; done).
    eapply (ends_fork1 (fun w' => exists w2, runs tr (on_fd 0 (length (w_open w)) (back_in w w1)) w2 /\ same_files w' w2)); [done| | |].
    + intros w2 Hs. destruct (says_same _ (back_in w w1) _ _ Hs) as (w3 & Hs3 & H3); [symmetry; by apply E2|done|]. split; [done|].
      exists w3. split; [by eapply run_pipe_nofork2|done].
    + apply ends_bind. eapply (pipe_end w p0 p1 Hw F0 F1 0); [done|by left|].
      replace (with_fds _ (back_in wp w')) with (on_fd 0 (length (w_open w)) (back_in w w1)) by (unfold on_fd, with_fds, back_in; cbn; by destruct H1 as [-> ->]).
      eapply ends_mono; [|apply Hr, Hon; [|exact Hu1|lia|done]]; [by intros [a|] w2 [? ?]|].
      eapply stds_same; [exact Hw| |done]. eapply used_trans; [exact Hu|exact Hu1].
    + intros w2 pid2 (w3 & Hr3 & H3) Hpid2. rewrite (proj2 (Z.eqb_neq pid2 0)) by lia. apply ends_bind, ends_Ret, ends_tail.
      intros w4 H4. split; [done|]. exists w3. split; [by eapply run_pipe|]. eapply same_files_trans; [exact H4|done].
Qed.

Lemma run_redir_ends c t file f mode fd fuel w : stds w -> fd = 0 \/ fd = 1 -> string_at (drop file b) = Some f ->
  (forall w, stds w -> ends (done_as t w) (runcmd fuel h b c) w) ->
  ends (done_as (TRedir t f mode fd) w)
    (sys (SysClose fd) ;;; f <- of_option (string_at (drop file b)) ;; r <- sys (SysOpen f mode) ;;
     if r <? 0 then uprintf 2 (msg "open %s failed") [AStr f] ;;; exit else runcmd fuel h b c ;;; exit) w.
Proof.
  intros Hw Hfd Ef Ht. apply ends_bind, ends_closed; [|apply stds_fds; [done|lia]]. rewrite Ef. apply ends_bind, ends_Ret.
  assert (E2 : delete fd (w_fds w) !! 2 = w_fds w !! 2) by (apply lookup_delete_ne; lia).
  apply ends_bind, ends_sys; [done|]. intros x w' [[-> ->]|(dev & cs & Hx & ->)].
  - change (-1 <? 0) with true. cbv iota. destruct (Hw 2 ltac:(lia)) as [[o f2] Ef2]. apply ends_bind. eapply ends_printf.
    + unfold fd_file in *. cbn. rewrite E2. exact Ef2.
    + reflexivity.
    + apply ends_Exit. split; [done|]. eexists. split; [apply run_noopen; exists o, f2; split; [exact Ef2|reflexivity]|done].
  - destruct (redirect_opened fd w f mode dev cs x Hw Hfd Hx) as [-> ->]. rewrite (proj2 (Z.ltb_ge fd 0)) by lia.
    apply ends_bind. eapply ends_mono; [|apply Ht, stds_opened, Hw]. intros [a|] w' [Hr (w1 & Hr1 & H1)]; [done|]. split; [done|].
    exists w1. split; [by eapply run_redir|done].
Qed.

(** A command run by a child. *)
Lemma run_child_ends c t fuel w (Q : option unit -> world -> Prop) (k : prog unit) : stds w ->
  (forall w, stds w -> ends (done_as t w) (runcmd fuel h b c) w) ->
  (forall w', says w (msg "fork") w' -> Q None w') ->
  (forall w1, runs t w w1 -> ends Q k (back_in w w1)) ->
  ends Q (pid <- fork1 ;; (if pid =? 0 then runcmd fuel h b c else Ret tt) ;;; k) w.
Proof.
  intros Hw Ht Hs Hk. eapply (ends_fork1 (fun w' => exists w1, runs t w w1 /\ same_files w' w1)); [done|done| |].
  - apply ends_bind. eapply ends_mono; [|by apply Ht]. by intros [a|] w' [? ?].
  - intros w' pid (w1 & H1 & Hs1) Hpid. rewrite (proj2 (Z.eqb_neq pid 0)) by lia. apply ends_bind, ends_Ret.
    rewrite (back_in_same _ _ _ Hs1). by apply Hk.
Qed.

(** Every run of the interpreter on the nodes of [t] ends as [runs] says. *)
Lemma runcmd_ends p t : command h b p t -> good_tree t -> forall fuel w, (p < fuel)%nat -> stds w ->
  ends (done_as t w) (runcmd fuel h b (Some p)) w.
Proof.
  induction 1 as [p argv eargv qs n ws Hp -> Hws|p c file efile mode fd t f Hp Hc _ IH Hf|p l r tl tr Hp Hl Hr _ IHl _ IHr|p l r tl tr Hp Hl Hr _ IHl _ IHr|p c t Hp Hc _ IH];
    intros Hg fuel w Hfuel Hw; (destruct fuel as [|fuel]; [lia|]); cbn [runcmd]; rewrite Hp; apply ends_bind, ends_Ret; cbn in Hg.
  - rewrite (argv_strings_of b qs ws n Hws). apply ends_bind, ends_Ret. destruct ws as [|a ws]; [by apply ends_Exit, done_runs, run_empty|].
    apply ends_sysexec; [intros l' Hl'; by apply done_runs, run_exec|]. apply ends_bind. eapply ends_says; [done|reflexivity|].
    intros w' Hs. apply ends_Exit, done_runs. by apply run_noexec.
  - apply run_redir_ends; [done|by apply Hg|done|]. intros w' Hw'. apply IH; [by apply Hg|lia|done].
  - apply ends_bind, ends_sys; [done|]. intros x w' [[-> ->]|(p0 & p1 & F0 & F1 & -> & ->)]; [by apply ends_panic; [|intros w' Hs; by apply done_runs, run_nopipe]|].
    apply run_pipe_ends; [done| | |done|done]; intros w' Hw'; [apply IHl|apply IHr]; (lia || by apply Hg || done).
  - eapply run_child_ends; [done|intros w' Hw'; apply IHl; [by apply Hg|lia|done]|intros w' Hs; by apply done_runs, run_list_nofork|].
    intros w1 H1. apply ends_bind, ends_wait. intros _. apply ends_bind.
    eapply ends_mono; [|apply IHr; [by apply Hg|lia|]]; [|eapply stds_same; [exact Hw|exact (runs_used _ _ _ H1)|done]].
    intros [a|] w' [Hn (w2 & H2 & Hs2)]; [done|]. split; [done|]. exists w2. split; [by eapply run_list|done].
  - eapply run_child_ends; [done|intros w' Hw'; apply IH; [done|lia|done]|intros w' Hs; by apply done_runs, run_back_nofork|].
    intros w1 H1. apply ends_Exit. split; [done|]. exists w1. split; [by apply run_back|done].
Qed.
End Run.

(** ** The shell *)

(** The text of a line of at most 99 characters, up to a NUL. *)
Definition text_of (input : list Z) : list Z := cstr (gets_loop 99 input).

(** The prompt is printed and the line with the text [T] is read. *)
Definition turn (w : world) (T : list Z) (w2 : world) : Prop :=
  exists w1 o f, says w (bytes_of "$ ") w1 /\ fd_file w1 0 = Some (o, f) /\ T = text_of (of_rest f)
    /\ w2 = drain o (length (gets_loop 99 (of_rest f))) w1.

Definition cd_line (T : list Z) : bool := bool_decide (take 3 T = bytes_of "cd ").
(** The directory: the last character of the line is taken to be its newline. *)
Definition cd_dir (T : list Z) : list Z := take (length T - 4) (drop 3 T).
Definition logout_line (T : list Z) : bool :=
  bool_decide (take 6 T = bytes_of "logout") && match T !! 6%nat with Some c => member whitespace c | None => false end.
Definition command_line (T : list Z) : Prop := T ≠ [] /\ cd_line T = false /\ logout_line T = false.

(** A session, from a prompt to the end of the shell. *)
Inductive session : world -> world -> Prop :=
| ses_eof w w1 : turn w [] w1 -> session w w1
| ses_logout w T w1 : turn w T w1 -> cd_line T = false -> logout_line T = true -> session w w1
| ses_cd w T w1 w2 : turn w T w1 -> cd_line T = true -> session (chdir_to (cd_dir T) w1) w2 -> session w w2
| ses_nocd w T w1 w2 w3 : turn w T w1 -> cd_line T = true -> says w1 (bytes_of "cannot cd " ++ cd_dir T ++ [10]) w2 -> session w2 w3 -> session w w3
| ses_run w T w1 t w2 w3 : turn w T w1 -> command_line T -> g_line (tokens T) t -> runs t w1 w2 -> session (back_in w1 w2) w3 -> session w w3
| ses_syntax w T w1 e w2 w3 : turn w T w1 -> command_line T -> (forall t, ~ g_line (tokens T) t) -> e ≠ [] -> says w1 e w2 ->
    session w2 w3 -> session w w3
| ses_nofork w T w1 w2 : turn w T w1 -> command_line T -> says w1 (msg "fork") w2 -> session w w2.

Lemma cstr_split l n : (length l < n)%nat -> exists J, l ++ replicate (n - length l) 0 = cstr l ++ 0 :: J /\ no_nul (cstr l).
Proof.
  unfold cstr. revert n. induction l as [|c l IH]; intros n Hn; cbn.
  - destruct n; [lia|]. exists (replicate n 0). split; [done|constructor].
  - destruct (c =? 0) eqn:E; bool_cases.
    + subst c. exists (l ++ replicate (n - S (length l)) 0). split; [done|constructor].
    + destruct n as [|n]; [cbn in Hn; lia|]. destruct (IH n) as (J & EJ & HJ); [cbn in Hn; lia|]. exists J. cbn. rewrite EJ. split; [done|]. by constructor.
Qed.

Lemma gets_loop_len room input : (length (gets_loop room input) <= room)%nat.
Proof. revert input. induction room as [|room IH]; intros [|c input]; cbn; try lia. destruct (_ || _); cbn; [lia|]. specialize (IH input). lia. Qed.

Lemma gets_loop_input room input : (length (gets_loop room input) <= length input)%nat.
Proof. revert input. induction room as [|room IH]; intros [|c input]; cbn; try lia. destruct (_ || _); cbn; [lia|]. specialize (IH input). lia. Qed.

Lemma getcmd_ends (Q : option (option (list Z)) -> world -> Prop) w : stds w ->
  (forall T w2, turn w T w2 -> match T with [] => Q (Some None) w2 | _ => forall J, no_nul T -> (length T <= 99)%nat -> length (T ++ 0 :: J) = 100%nat -> Q (Some (Some (T ++ 0 :: J))) w2 end) ->
  ends Q (getcmd 100) w.
Proof.
  intros Hw HQ. unfold getcmd. apply ends_bind. eapply ends_says; [done|reflexivity|]. intros w1 Hs.
  assert (Hw1 : stds w1) by (eapply stds_same; [exact Hw|by eapply says_used|]; by destruct Hs as (o & f & _ & ->)).
  destruct (Hw1 0) as [[o f] Ef]; [lia|]. apply ends_bind. unfold gets_zeroed. apply ends_bind. eapply ends_gets; [exact Ef|].
  change (100 - 1)%nat with 99%nat. pose proof (gets_loop_len 99 (of_rest f)) as Hlen. apply ends_Ret.
  assert (Ht : turn w (text_of (of_rest f)) (drain o (length (gets_loop 99 (of_rest f))) w1)) by (by exists w1, o, f).
  specialize (HQ _ _ Ht). destruct (cstr_split (gets_loop 99 (of_rest f)) 100) as (J & EJ & Hno); [lia|].
  assert (Hl : length (text_of (of_rest f) ++ 0%Z :: J) = 100%nat).
  { unfold text_of. rewrite <- EJ, length_app, length_replicate. lia. }
  rewrite EJ. fold (text_of (of_rest f)) in *. destruct (text_of (of_rest f)) as [|c T]; cbn [app head of_option]; apply ends_bind, ends_Ret.
  - by apply ends_Ret.
  - rewrite (proj2 (Z.eqb_neq c 0)) by by inversion Hno. apply ends_Ret. apply HQ; [done| |done]. cbn in Hl. rewrite length_app in Hl. cbn in *. lia.
Qed.

(** The first characters of the buffer are those of the text. *)
Lemma take_text n T J w : no_nul T -> no_nul w -> length w = n -> (take n (T ++ 0 :: J) = w <-> take n T = w).
Proof.
  intros HT Hw Hn. destruct (decide (n <= length T)%nat); [by rewrite take_app_le|]. split; intros E; exfalso.
  - assert (Hz : take n (T ++ 0 :: J) !! length T = Some 0) by (rewrite lookup_take_lt by lia; by rewrite list_lookup_middle).
    rewrite E in Hz. eapply Forall_lookup_1 in Hw; [|exact Hz]. done.
  - apply (f_equal length) in E. rewrite length_take in E. lia.
Qed.

Lemma is_cd_text T J : no_nul T -> is_cd (T ++ 0 :: J) = cd_line T.
Proof. intros HT. unfold is_cd, cd_line. apply bool_decide_ext. apply take_text; [done|by repeat constructor|done]. Qed.

Lemma is_logout_text T J : no_nul T -> is_logout (T ++ 0 :: J) = Some (logout_line T).
Proof.
  intros HT. unfold is_logout, logout_line. pose proof (take_text 6 T J (bytes_of "logout") HT ltac:(by repeat constructor) eq_refl) as Hiff.
  destruct (decide (take 6 T = bytes_of "logout")) as [E|E].
  - rewrite !bool_decide_true by (tauto || done). assert (Hl : (6 <= length T)%nat) by (apply (f_equal length) in E; rewrite length_take in E; change (length (bytes_of "logout")) with 6%nat in E; lia).
    cbn [andb]. destruct (T !! 6%nat) as [c|] eqn:E6; [by rewrite (lookup_app_l_Some _ _ _ _ E6)|].
    apply lookup_ge_None_1 in E6. assert (length T = 6%nat) as H6 by lia. rewrite <- H6 at 1. by rewrite list_lookup_middle.
  - by rewrite !bool_decide_false by tauto.
Qed.

(** [cd] in the shell itself. *)
Lemma do_cd_ends T J (Q : option unit -> world -> Prop) w : stds w -> no_nul T -> cd_line T = true ->
  Q (Some tt) (chdir_to (cd_dir T) w) -> (forall w', says w (bytes_of "cannot cd " ++ cd_dir T ++ [10]) w' -> Q (Some tt) w') ->
  ends Q (do_cd (T ++ 0 :: J)) w.
Proof.
  intros Hw HT Hcd H1 H2. apply bool_decide_eq_true in Hcd.
  assert (Hl : (3 <= length T)%nat) by (apply (f_equal length) in Hcd; rewrite length_take in Hcd; change (length (bytes_of "cd ")) with 3%nat in Hcd; lia).
  unfold do_cd. rewrite strlen_text by done. apply ends_bind, ends_Ret.
  assert (Ez : zset (T ++ 0 :: J) (zlen T - 1) 0 = Some (take (length T - 1) T ++ 0 :: 0 :: J)).
  { unfold zset, zlen. rewrite length_app. cbn [length]. rewrite (proj2 (Z.leb_le _ _)), (proj2 (Z.ltb_lt _ _)) by lia. cbn [andb]. f_equal.
    replace (Z.to_nat (Z.of_nat (length T) - 1)) with (length T - 1)%nat by lia. rewrite insert_app_l by lia. rewrite insert_take_drop by lia.
    rewrite (drop_ge T) by lia. by rewrite <- app_assoc. }
  rewrite Ez. apply ends_bind, ends_Ret.
  assert (Es : string_at (drop 3 (take (length T - 1) T ++ 0 :: 0 :: J)) = Some (cd_dir T)).
  { unfold cd_dir. destruct (decide (length T = 3%nat)) as [E3|]; [by rewrite E3, drop_app_ge by (rewrite length_take; lia); rewrite length_take, E3|].
    rewrite drop_app_le by (rewrite length_take; lia). rewrite string_at_bytes; [|by apply Forall_drop, Forall_take].
    f_equal. rewrite skipn_firstn_comm. f_equal. lia. }
  rewrite Es. apply ends_bind, ends_Ret, ends_bind, ends_sys; [done|]. intros x w' [[-> ->]|[-> ->]]; [|by apply ends_Ret].
  change (-1 <? 0) with true. cbv iota. eapply ends_says; [done|reflexivity|]. done.
Qed.

(** What the child does with a line that is a command. *)
Definition line_done (T : list Z) (w w1 : world) : Prop :=
  (exists t, g_line (tokens T) t /\ runs t w w1) \/ ((forall t, ~ g_line (tokens T) t) /\ exists e, e ≠ [] /\ says w e w1).

Lemma run_line_ends T J w : stds w -> no_nul T ->
  ends (fun r w' => r = None /\ exists w1, line_done T w w1 /\ same_files w' w1) (run_line (T ++ 0 :: J)) w.
Proof.
  intros Hw HT. unfold run_line. destruct (parsecmd_meaning T J HT) as [(t & p & st & Hg & _ & -> & Hc & He)|(Hno & st & -> & He)].
  - rewrite He. cbn [print]. apply ends_bind, ends_Ret. eapply ends_mono; [|eapply runcmd_ends; [exact Hc| | |exact Hw]].
    + intros r w' [-> (w1 & H1 & Hs)]. split; [done|]. exists w1. split; [|done]. left. eauto.
    + by eapply (proj1 grammar_good).
    + assert (is_Some (sh_heap st !! p)) as Hp by (inversion Hc; eauto). apply lookup_lt_is_Some_1 in Hp. lia.
  - destruct (Hw 2) as [[o f] E2]; [lia|]. apply ends_bind. eapply ends_print; [exact E2|]. apply ends_Exit. split; [done|].
    eexists. split; [|apply same_files_refl]. right. split; [done|]. exists (sh_err st). split; [done|]. by exists o, f.
Qed.

(** The open file of descriptor 0 and how much is left in it. *)
Definition input_left (w : world) (n : nat) : Prop := exists o f, fd_file w 0 = Some (o, f) /\ n = length (of_rest f).

Lemma input_left_used w w' n : input_left w n -> w_fds w' = w_fds w -> used (w_open w) (w_open w') -> exists m, (m <= n)%nat /\ input_left w' m.
Proof.
  intros (o & f & Ef & ->) E Hu. unfold input_left, fd_file in *. rewrite E. destruct (w_fds w !! 0) as [o'|]; [|done]. cbn in *.
  destruct (w_open w !! o') as [f'|] eqn:Eo; [|done]. cbn in Ef. injection Ef as <- <-. destruct (Hu _ _ Eo) as (f2 & a & b & E2 & _ & Er & _).
  exists (length (of_rest f2)). split; [rewrite Er, length_app; lia|]. exists o', f2. by rewrite E2.
Qed.

(** What a prompt leaves: the same descriptors and less input. *)
Lemma turn_state w T w2 n : stds w -> input_left w n -> turn w T w2 ->
  stds w2 /\ w_fds w2 = w_fds w /\ (T ≠ [] -> exists m, (m < n)%nat /\ input_left w2 m).
Proof.
  intros Hw Hn (w1 & o & f & (o2 & f2 & _ & ->) & Ef & -> & ->). split; [|split; [done|]].
  - eapply stds_same; [exact Hw| |done]. eapply used_trans; [apply used_emit|apply used_drain].
  - intros HT. destruct (input_left_used _ (emit o2 (bytes_of "$ ") w) _ Hn eq_refl (used_emit o2 (bytes_of "$ ") w)) as (m & Hm & o' & f' & Ef' & ->).
    rewrite Ef in Ef'. injection Ef' as <- <-. destruct (fd_file_drain o (length (gets_loop 99 (of_rest f))) _ 0 o f Ef) as (f3 & Ef3 & Er & _).
    rewrite decide_True in Er by done. exists (length (of_rest f3)). split; [|by exists o, f3].
    rewrite Er, length_drop. pose proof (gets_loop_input 99 (of_rest f)). unfold text_of in HT.
    destruct (gets_loop 99 (of_rest f)); [done|]. cbn [length] in *. lia.
Qed.

(** One command line of the loop. *)
Lemma main_command T J w (Q : option (unit + unit) -> world -> Prop) : stds w -> no_nul T ->
  (forall w', says w (msg "fork") w' -> Q None w') -> (forall w1, line_done T w w1 -> Q (Some (inl tt)) (back_in w w1)) ->
  ends Q (pid <- fork1 ;; (if pid =? 0 then run_line (T ++ 0 :: J) else Ret tt) ;;; sys SysWait ;;; Ret (inl tt)) w.
Proof.
  intros Hw HT Hs Hk. eapply (ends_fork1 (fun w' => exists w1, line_done T w w1 /\ same_files w' w1)); [done|done| |].
  - apply ends_bind. eapply ends_mono; [|by apply run_line_ends]. by intros [a|] w' [? ?].
  - intros w' pid (w1 & H1 & Hs1) Hpid. rewrite (proj2 (Z.eqb_neq pid 0)) by lia. apply ends_bind, ends_Ret, ends_bind, ends_wait. intros _.
    apply ends_Ret. rewrite (back_in_same _ _ _ Hs1). by apply Hk.
Qed.

(** The end of a session from [w], as the shell leaves it. *)
Definition ended_session (w w' : world) : Prop := exists w1, session w w1 /\ same_files w' w1.

Lemma main_round w n : stds w -> input_left w n ->
  ends (fun r w' => match r with
    | Some (inl _) => stds w' /\ (exists m, (m < n)%nat /\ input_left w' m) /\ forall w1, session w' w1 -> session w w1
    | _ => ended_session w w' end)
    (buf <- getcmd 100 ;;
     match buf with
     | None => Ret (inr tt)
     | Some buf =>
        if is_cd buf then do_cd buf ;;; Ret (inl tt)
        else out <- of_option (is_logout buf) ;;
          if out : bool then Ret (inr tt)
          else pid <- fork1 ;; (if pid =? 0 then run_line buf else Ret tt) ;;; sys SysWait ;;; Ret (inl tt)
     end) w.
Proof.
  intros Hw Hn. apply ends_bind, getcmd_ends; [done|]. intros T w2 Ht. destruct (turn_state w T w2 n Hw Hn Ht) as (Hw2 & Ef & Hm).
  destruct T as [|c T']; [apply ends_Ret; exists w2; split; [by apply ses_eof|done]|]. remember (c :: T') as T eqn:ET.
  assert (Hne : T ≠ []) by by subst. clear c T' ET. destruct (Hm Hne) as (m & Hmn & Hin). intros J Hno Hlen Hl.
  assert (Hnext : forall w', w_fds w' = w_fds w2 -> used (w_open w2) (w_open w') -> stds w' /\ exists m, (m < n)%nat /\ input_left w' m).
  { intros w' E Hu. split; [by eapply stds_same|]. destruct (input_left_used _ _ _ Hin E Hu) as (m' & Hm' & Hin'). exists m'. split; [lia|done]. }
  rewrite is_cd_text by done. destruct (cd_line T) eqn:Ecd.
  { apply ends_bind, do_cd_ends; [done|done|done| |].
    - apply ends_Ret. destruct (Hnext (chdir_to (cd_dir T) w2) eq_refl (used_refl _)). split; [done|]. split; [done|]. intros w1 H1. by eapply ses_cd.
    - intros w' Hs. pose proof (says_used _ _ _ Hs) as Hu. destruct (Hnext w') as [H1 H2]; [by destruct Hs as (? & ? & _ & ->)|done|].
      apply ends_Ret. split; [done|]. split; [done|]. intros w1 H. by eapply ses_nocd. }
  rewrite is_logout_text by done. apply ends_bind, ends_Ret. destruct (logout_line T) eqn:Elog.
  { apply ends_Ret. exists w2. split; [by eapply ses_logout|done]. }
  assert (Hcl : command_line T) by done.
  apply main_command; [done|done|intros w' Hs; exists w'; split; [by eapply ses_nofork|done]|]. intros w1 [(t & Hg & Hr)|(Hno' & e & He & Hs)].
  - destruct (Hnext (back_in w2 w1) eq_refl) as [H1 H2]; [exact (runs_used _ _ _ Hr)|]. split; [done|]. split; [done|]. intros w3 H3. by eapply ses_run.
  - destruct (Hnext (back_in w2 w1) eq_refl) as [H1 H2]; [exact (says_used _ _ _ Hs)|]. split; [done|]. split; [done|]. intros w3 H3.
    assert (Eb : back_in w2 w1 = w1) by (by destruct Hs as (o & f & _ & ->)). rewrite Eb in H3. exact (ses_syntax w T w2 e w1 w3 Ht Hcl Hno' He Hs H3).
Qed.

(** [main] first opens the console once more, and closes it again. *)
Definition console_open (w w' : world) : Prop :=
  w' = not_opened (bytes_of "console") O_RDWR w
  \/ exists fd dev c, 2 < fd /\ w' = with_fds (w_fds w) (opened (bytes_of "console") O_RDWR dev c fd w).

Lemma open_console_ends (Q : option unit -> world -> Prop) w : stds w -> (forall w', console_open w w' -> Q (Some tt) w') -> ends Q open_console w.
Proof.
  intros Hw HQ. unfold open_console. apply (ends_iter _ (fun _ w' n => w' = w) Q) with (n := 0%nat); [|done]. intros _ w1 n ->.
  apply ends_bind, ends_sys; [done|]. intros x w' [[-> ->]|(dev & c & Hx & ->)]; [apply ends_Ret, HQ; by left|].
  assert (Hx3 : 2 < x).
  { apply free_fd_bound in Hx as Hb. apply free_fd_free in Hx. destruct (decide (x <= 2)); [|lia]. destruct (stds_fds w x Hw) as [o Ho]; [lia|congruence]. }
  rewrite (proj2 (Z.leb_le 0 x)), (proj2 (Z.leb_le 3 x)) by lia. apply ends_bind, ends_closed; [|cbn; rewrite lookup_insert_eq; eauto].
  apply ends_Ret, HQ. right. exists x, dev, c. split; [done|]. cbn. by rewrite delete_insert_id by by apply free_fd_free.
Qed.

(** C13: Every run of the shell on finite input ends, and it is a session: it prints
    the prompt, reads a line and, until the end of the input or [logout], runs [cd]
    itself and in a child exactly the command that the grammar gives for the line
    (a message for a line that has none).  The programs of a command get the
    shell's descriptors except the ones redirected or connected to a pipe, whatever
    [exec], [open], [pipe] and [fork] answer, and the shell's own descriptors stay
    as they are. *)
Theorem sh_main_session w : stds w ->
  ends (fun r w' => r = None /\ exists w1 w2, console_open w w1 /\ session w1 w2 /\ same_files w' w2) sh_main w.
Proof.
  intros Hw. assert (exists n, input_left w n) as [n Hn] by (destruct (Hw 0) as [[o f] E0]; [lia|]; by exists (length (of_rest f)), o, f).
  unfold sh_main. apply ends_bind, open_console_ends; [done|]. intros w1 Hc.
  assert (Hu : used (w_open w) (w_open w1)) by (destruct Hc as [->|(fd & dev & c & _ & ->)]; [apply used_refl|apply used_longer]).
  assert (E1 : w_fds w1 = w_fds w) by (by destruct Hc as [->|(fd & dev & c & _ & ->)]).
  destruct (input_left_used _ _ _ Hn E1 Hu) as (n1 & _ & Hn1). apply ends_bind.
  apply (ends_iter _ (fun _ w' m => stds w' /\ input_left w' m /\ forall w2, session w' w2 -> session w1 w2)
    (fun r w' => match r with Some _ => ends _ exit w' | None => _ end)) with (n := n1); [|split; [by eapply stds_same|done]].
  intros _ w2 m (Hw2 & Hm & Hs2). eapply ends_mono; [|by apply main_round].
  intros [[[]|[]]|] w3; cbn.
  - intros (Hw3 & (m' & Hm' & Hin) & Hs3). exists m'. split; [done|]. split; [done|]. split; [done|]. auto.
  - intros (w4 & H4 & Hsame). apply ends_Exit. split; [done|]. exists w1, w4. auto.
  - intros (w4 & H4 & Hsame). split; [done|]. exists w1, w4. auto.
Qed.

Lemma sh_main_session_witness : ends (fun r w' => r = None /\ exists w1 w2, console_open (console_world (bytes_of "ls | wc")) w1 /\ session w1 w2 /\ same_files w' w2)
  sh_main (console_world (bytes_of "ls | wc")).
Proof.
  apply (sh_main_session (console_world (bytes_of "ls | wc"))). intros fd Hfd.
  assert (fd = 0 \/ fd = 1 \/ fd = 2) as [->|[->| ->]] by lia; eexists; reflexivity.
Defined.
