(* ===== verification/Login.v ===== *)
(** * init.c and login.c

    The two programs that never end.  [safe n P Q t w] says that the first [n] steps
    of [t] from [w] keep the invariant [P] of the calls made, whatever the kernel
    answers; a child is checked like its parent, and its parent goes on
    from any state in which the invariant holds. *)

From ITree Require Import ITree.
From S2P Require Import Prelude CString Params Ulib Fs Sys Progs ProgsSpec Sh ShSpec ShParse ShRun ShRunSpec.
Local Open Scope prog_scope.

(** ** login.c *)

(** [getuserid] and [getuserpw], which print different words. *)
Definition prompt_line (s : string) (nbuf : nat) : prog (bool * list Z) :=
  uprintf 2 (bytes_of s) [] ;;;
  buf <- gets_zeroed nbuf ;;
  c <- of_option (head buf) ;;
  Ret (negb (c =? 0), buf).
Definition getuserid (nbuf : nat) : prog (bool * list Z) := prompt_line "login: " nbuf.
Definition getuserpw (nbuf : nat) : prog (bool * list Z) := prompt_line "Password: " nbuf.

(** [buf[strlen(buf) - 1] = 0], and the string. *)
Definition chop (buf : list Z) : option (list Z) :=
  n ← strlen buf; buf ← zset buf (n - 1) 0; string_at buf.

Definition login_fork1 : prog Z :=
  pid <- sys SysFork ;;
  if pid =? -1 then uprintf 2 (bytes_of "login: fork sh failed") [] ;;; exit else Ret pid.

Definition login_main : prog unit :=
  open_console ;;;
  ITree.iter (fun _ : unit =>
    let* (ok, userid_buf) := getuserid 100 in
    let* (ok2, passwd_buf) := getuserpw 100 in
    if negb ok || negb ok2 then uprintf 2 (msg "Login incorrect") [] ;;; Ret (inl tt)
    else
      user <- of_option (chop userid_buf) ;;
      passwd <- of_option (chop passwd_buf) ;;
      pid <- login_fork1 ;;
      (if pid =? 0 then
         r <- sys (SysCall "login" [AStr user; AStr passwd]) ;;
         if negb (r =? 0) then uprintf 2 (newline ++ msg "Login incorrect") [] ;;; exit
         else sys (SysExec (bytes_of "/sh") [bytes_of "/sh"]) ;;; uprintf 2 (msg "exec sh failed") [] ;;; exit
       else Ret tt) ;;;
      sys SysWait ;;;
      Ret (inl tt)) tt.

(** ** init.c *)

(** [while((wpid=wait()) >= 0 && wpid != pid)] *)
Definition reap (pid : Z) : prog unit :=
  ITree.iter (fun _ : unit =>
    wpid <- sys SysWait ;;
    if (0 <=? wpid) && negb (wpid =? pid) then uprintf 1 (msg "zombie!") [] ;;; Ret (inl tt) else Ret (inr tt)) tt.

Definition init_main : prog unit :=
  r <- sys (SysOpen (bytes_of "console") O_RDWR) ;;
  (if r <? 0 then
     sys (SysCall "mknod" [AStr (bytes_of "console"); AInt 1; AInt 1]) ;;;
     sys (SysOpen (bytes_of "console") O_RDWR) ;;; Ret tt
   else Ret tt) ;;;
  sys (SysDup 0) ;;;
  sys (SysDup 0) ;;;
  ITree.iter (fun _ : unit =>
    uprintf 1 (msg "init: starting login") [] ;;;
    pid <- sys SysFork ;;
    if pid <? 0 then uprintf 1 (msg "init: fork failed") [] ;;; exit
    else
      (if pid =? 0 then
         sys (SysExec (bytes_of "login") [bytes_of "login"]) ;;; uprintf 1 (msg "init: exec login failed") [] ;;; exit
       else Ret tt) ;;;
      reap pid ;;;
      Ret (inl tt)) tt.

(** ** Safety of programs that do not end *)

Fixpoint safe {R} (n : nat) (P : list act -> Prop) (Q : R -> world -> Prop) (t : prog R) (w : world) : Prop :=
  P (w_acts w) /\ match n with
  | O => True
  | S n =>
      match observe t with
      | RetF r => Q r w
      | TauF t => safe n P Q t w
      | VisF e k =>
          match e in sysE A return (A -> prog R) -> Prop with
          | SysFault => fun k => False
          | SysExit => fun k => True
          | SysExec path argv => fun k => (forall l, used (w_open w) l -> P (w_acts (spawned path argv l w))) /\ safe n P Q (k (-1)) w
          | SysFork => fun k => safe n P Q (k (-1)) w /\ safe n P (fun _ _ => False) (k 0) w
              /\ forall w' pid, P (w_acts w') -> 0 < pid -> safe n P Q (k pid) (back_in w w')
          | e => fun k => forall x w', step e w x w' -> safe n P Q (k x) w'
          end k
      end
  end.

(** Only reads and writes were done. *)
Definition quiet (w w' : world) : Prop := w_acts w' = w_acts w /\ w_fds w' = w_fds w.

Section Safe.
Context (P : list act -> Prop).

Lemma safe_now {R} n Q (t : prog R) w : safe n P Q t w -> P (w_acts w).
Proof. destruct n; cbn; tauto. Qed.

Lemma safe_observe {R} n Q (t t' : prog R) w : observe t' = observe t -> safe n P Q t w -> safe n P Q t' w.
Proof. intros E. destruct n; cbn; [done|]. by rewrite E. Qed.

(** Sequencing; what follows has at most as many steps. *)
Lemma safe_bind {R B} n : forall (t : prog R) (k : R -> prog B) Q1 Q w, safe n P Q1 t w ->
  (forall a w' m, (m <= n)%nat -> P (w_acts w') -> Q1 a w' -> safe m P Q (k a) w') -> safe n P Q (ITree.bind t k) w.
Proof.
  induction n as [|n IH]; intros t k Q1 Q w H Hk; [cbn in *; tauto|].
  assert (Hk' : forall a w' m, (m <= n)%nat -> P (w_acts w') -> Q1 a w' -> safe m P Q (k a) w') by (intros; apply Hk; auto).
  pose proof (observe_seq t k) as Eo. destruct H as [HP H]. destruct (observe t) as [r|t'|A e h] eqn:Et.
  - eapply safe_observe; [exact Eo|]. by apply Hk.
  - split; [done|]. rewrite Eo. by eapply IH.
  - split; [done|]. rewrite Eo. destruct e; try (intros x w' Hs; eapply IH; [by apply H|done]); try done.
    + destruct H as (H1 & H2 & H3). split; [by eapply IH|]. split; [eapply IH; [exact H2|done]|]. intros w' pid Hw' Hpid. eapply IH; [by apply H3|done].
    + destruct H as (H1 & H2). split; [done|]. by eapply IH.
Qed.

Lemma safe_Ret {R} n Q (r : R) w : P (w_acts w) -> Q r w -> safe n P Q (Ret r) w.
Proof. destruct n; cbn; auto. Qed.
Lemma safe_Exit {R} n (Q : R -> world -> Prop) w : P (w_acts w) -> safe n P Q exit w.
Proof. destruct n; cbn; auto. Qed.

Lemma safe_mono {R} n : forall (t : prog R) (Q Q' : R -> world -> Prop) w, (forall r w, Q r w -> Q' r w) -> safe n P Q t w -> safe n P Q' t w.
Proof.
  induction n as [|n IH]; intros t Q Q' w HQ H; [done|]. destruct H as [HP H]. split; [done|]. destruct (observe t) as [r|t'|A e h].
  - auto.
  - by eapply IH.
  - destruct e; try (intros x w' Hs; by eapply IH, H); try done.
    + destruct H as (H1 & H2 & H3). split; [by eapply IH|]. split; [done|]. intros w' pid Hw' Hpid. by eapply IH, H3.
    + destruct H as (H1 & H2). split; [done|]. by eapply IH.
Qed.

(** Fewer steps. *)
Lemma safe_le {R} n : forall m (t : prog R) (Q : R -> world -> Prop) w, (m <= n)%nat -> safe n P Q t w -> safe m P Q t w.
Proof.
  induction n as [|n IH]; intros [|m] t Q w Hm H; [done|lia|exact (conj (proj1 H) I)|]. destruct H as [HP H]. split; [done|].
  assert (Hm' : (m <= n)%nat) by lia. destruct (observe t) as [r|t'|A e h]; [done|by apply IH|].
  destruct e; try (intros x w' Hs; by apply IH; [|apply H]); try done.
  - destruct H as (H1 & H2 & H3). split; [by apply IH|]. split; [by apply IH|]. intros w' pid Hw' Hpid. by apply IH, H3.
  - destruct H as (H1 & H2). split; [done|]. by apply IH.
Qed.

(** A call that [step] describes. *)
Lemma safe_sys {A} n (e : sysE A) (Q : A -> world -> Prop) w : plain e = true -> P (w_acts w) ->
  (forall x w', step e w x w' -> P (w_acts w') /\ Q x w') -> safe n P Q (sys e) w.
Proof.
  intros Hp HP HQ. destruct n; [done|]. split; [done|]. change (observe (sys e)) with (VisF e (fun x => Ret x) : itreeF sysE A (prog A)).
  destruct e; try done; intros x w' Hs; destruct (HQ x w' Hs); by apply safe_Ret.
Qed.

(** An endless loop. *)
Lemma safe_iter {J R} (body : J -> prog (J + R)) (I : J -> world -> Prop) (Q : R -> world -> Prop) :
  (forall n j w, P (w_acts w) -> I j w -> safe n P (fun r w' => match r with inl j' => I j' w' | inr r => Q r w' end) (body j) w) ->
  forall n j w, P (w_acts w) -> I j w -> safe n P Q (ITree.iter body j) w.
Proof.
  intros Hb n. induction (lt_wf n) as [n _ IH]. intros j w HP Hj.
  eapply (safe_observe _ _ (ITree.bind (body j) (fun lr => match lr with inl l => Tau (ITree.iter body l) | inr r => Ret r end))); [reflexivity|].
  eapply safe_bind; [by apply Hb|]. intros [j'|r] w' m Hm HP' HI; [|by apply safe_Ret].
  destruct m as [|m]; [done|]. split; [done|]. cbn. apply IH; [lia|done|done].
Qed.
End Safe.

Section Quiet.
Context (P : list act -> Prop).

Lemma calm_refl w : quiet w w.
Proof. done. Qed.
Lemma calm_trans w1 w2 w3 : quiet w1 w2 -> quiet w2 w3 -> quiet w1 w3.
Proof. intros [H1 H2] [H3 H4]. split; congruence. Qed.

Lemma step_quiet {A} (e : sysE A) w x w' : match e with SysRead _ _ | SysWrite _ _ | SysWait | SysFstat _ => true | _ => false end = true ->
  step e w x w' -> quiet w w'.
Proof.
  destruct e; try done; cbn; intros _.
  - destruct (fd_file w fd) as [[o f]|]; [intros [(_ & _ & ->)|(m & _ & _ & _ & _ & _ & ->)]|intros [_ ->]]; done.
  - destruct (fd_file w fd) as [[o f]|]; by intros [_ ->].
  - by intros ->.
  - by intros [-> _].
Qed.

Lemma safe_print n fd l : forall w, P (w_acts w) -> safe n P (fun _ w' => quiet w w') (print fd l) w.
Proof.
  induction l as [|c l IH]; intros w HP; cbn [print]; [by apply safe_Ret|]. apply (safe_bind P n _ _ (fun _ w' => quiet w w')).
  - apply safe_sys; [done|done|]. intros x w' Hs. apply step_quiet in Hs as Hq; [|done]. split; [by rewrite (proj1 Hq)|]. exact Hq.
  - intros x w1 m Hm HP1 Hq. eapply safe_mono; [|exact (safe_le P n m _ _ _ Hm (IH w1 HP1))]. intros r w2 Hq2. exact (calm_trans _ _ _ Hq Hq2).
Qed.

Lemma safe_say n fd fmt args w : P (w_acts w) -> wants (fmt ++ [0]) false args = true -> safe n P (fun _ w' => quiet w w') (uprintf fd fmt args) w.
Proof.
  intros HP Hw. destruct (format_some fmt args Hw) as (out & Eo). unfold uprintf. rewrite Eo.
  apply (safe_bind P n _ _ (fun a w' => a = out /\ w' = w)); [by apply safe_Ret|]. intros a w' m Hm _ [-> ->]. by apply safe_print.
Qed.

(** A message, and the rest. *)
Lemma safe_say_then {R} n fd fmt args (k : prog R) Q w : P (w_acts w) -> wants (fmt ++ [0]) false args = true ->
  (forall m w', (m <= n)%nat -> P (w_acts w') -> quiet w w' -> safe m P Q k w') -> safe n P Q (ITree.bind (uprintf fd fmt args) (fun _ => k)) w.
Proof. intros HP Hw Hk. eapply safe_bind; [by apply safe_say|]. intros a w' m Hm HP' Hq. by apply Hk. Qed.

Lemma safe_gets n room : forall w, P (w_acts w) -> safe n P (fun l w' => quiet w w' /\ (length l <= room)%nat) (gets_bytes room) w.
Proof.
  revert n. induction room as [|room IH]; intros n w HP; cbn [gets_bytes]; [apply safe_Ret; [done|]; by split|].
  apply (safe_bind P n _ _ (fun _ w' => quiet w w')).
  - apply safe_sys; [done|done|]. intros x w' Hs. apply step_quiet in Hs as Hq; [|done]. split; [by rewrite (proj1 Hq)|]. exact Hq.
  - intros [cc c] w1 m Hm HP1 Hq. assert (Hnil : safe m P (fun (l : list Z) w' => quiet w w' /\ (length l <= S room)%nat) (Ret []) w1) by (apply safe_Ret; [done|]; split; [done|cbn; lia]).
    destruct (cc <? 1); [done|]. destruct c as [|ch c]; [done|]. destruct ((ch =? 10) || (ch =? 13)); [apply safe_Ret; [done|]; split; [done|cbn; lia]|].
    eapply safe_bind; [by apply IH|]. intros l w2 m2 Hm2 HP2 [Hq2 Hl]. apply safe_Ret; [done|]. split; [exact (calm_trans _ _ _ Hq Hq2)|cbn; lia].
Qed.

(** A line was typed: the buffer holds a string, not empty when the flag says so. *)
Definition typed (x : bool * list Z) : Prop := exists T J, x.2 = T ++ 0 :: J /\ no_nul T /\ (x.1 = true -> T ≠ []).

Lemma safe_prompt n s w : P (w_acts w) -> wants (bytes_of s ++ [0]) false [] = true ->
  safe n P (fun x w' => quiet w w' /\ typed x) (prompt_line s 100) w.
Proof.
  intros HP Hs. unfold prompt_line. apply safe_say_then; [done|done|]. intros m w1 Hm HP1 Hq1. unfold gets_zeroed.
  eapply (safe_bind P m _ _ (fun buf w' => quiet w w' /\ exists T J, buf = T ++ 0 :: J /\ no_nul T)).
  - eapply safe_bind; [by apply safe_gets|]. intros l w2 m2 Hm2 HP2 [Hq2 Hl]. apply safe_Ret; [done|]. split; [exact (calm_trans _ _ _ Hq1 Hq2)|].
    destruct (cstr_split l 100) as (J & EJ & Hno); [lia|]. by exists (cstr l), J.
  - intros buf w2 m2 Hm2 HP2 (Hq2 & T & J & -> & HT).
    assert (exists c, head (T ++ 0 :: J) = Some c /\ (c ≠ 0 -> T ≠ [])) as (c & -> & Hc) by (destruct T as [|c T]; [by exists 0|by exists c]).
    eapply (safe_bind P m2 _ _ (fun a w' => a = c /\ w' = w2)); [by apply safe_Ret|]. intros a w3 m3 Hm3 HP3 [-> ->]. apply safe_Ret; [done|]. split; [done|].
    exists T, J. split; [done|]. split; [done|]. cbn. intros E. apply Hc. intros ->. done.
Qed.

Lemma chop_typed T J : no_nul T -> T ≠ [] -> exists u, chop (T ++ 0 :: J) = Some u.
Proof.
  intros HT Hne. assert (Hl : (0 < length T)%nat) by (destruct T; [done|cbn; lia]). unfold chop. rewrite strlen_text by done. cbn [mbind option_bind].
  unfold zset, zlen. rewrite length_app. cbn [length]. rewrite (proj2 (Z.leb_le _ _)), (proj2 (Z.ltb_lt _ _)) by lia. cbn [andb mbind option_bind].
  replace (Z.to_nat (Z.of_nat (length T) - 1)) with (length T - 1)%nat by lia. rewrite insert_app_l, insert_take_drop by lia.
  rewrite <- app_assoc. cbn [app]. rewrite string_at_bytes by by apply Forall_take. eauto.
Qed.

Lemma safe_open_console n w : (forall acts m c, P acts -> P (acts ++ [AOpen (bytes_of "console") m c])) -> P (w_acts w) ->
  safe n P (fun _ _ => True) open_console w.
Proof.
  intros Hop HP. apply (safe_iter P _ (fun _ _ => True)); [|done|done]. clear n w HP. intros n _ w HP _.
  eapply (safe_bind P n _ _ (fun _ _ => True)).
  - apply safe_sys; [done|done|]. intros x w' [[-> ->]|(dev & c & _ & ->)]; split; try done; by apply Hop.
  - intros fd w1 m Hm HP1 _. destruct (0 <=? fd); [|by apply safe_Ret]. destruct (3 <=? fd); [|by apply safe_Ret].
    eapply (safe_bind P m _ _ (fun _ _ => True)); [|intros; by apply safe_Ret]. apply safe_sys; [done|done|]. intros x w2. cbn.
    destruct (w_fds w1 !! fd); by intros [_ ->].
Qed.
End Quiet.

(** ** A shell runs only after a login *)

(** Every program that was started was started right after a [login] that
    succeeded. *)
Definition guarded (acts : list act) : Prop :=
  forall i path argv fds cwd, acts !! i = Some (ASpawn path argv fds cwd) ->
    exists j user passwd, i = S j /\ acts !! j = Some (ACall "login" [AStr user; AStr passwd] 0).

Lemma guarded_app acts a : guarded acts -> match a with ASpawn _ _ _ _ => False | _ => True end -> guarded (acts ++ [a]).
Proof.
  intros Hg Ha i path argv fds cwd Hi. apply lookup_app_Some in Hi as [Hi|[Hge Hi]].
  - destruct (Hg _ _ _ _ _ Hi) as (j & u & p & -> & Hj). exists j, u, p. split; [done|]. by apply lookup_app_l_Some.
  - apply list_lookup_singleton_Some in Hi as [_ ->]. done.
Qed.

Lemma guarded_spawn acts u p path argv fds cwd : guarded (acts ++ [ACall "login" [AStr u; AStr p] 0]) ->
  guarded ((acts ++ [ACall "login" [AStr u; AStr p] 0]) ++ [ASpawn path argv fds cwd]).
Proof.
  intros Hg i path' argv' fds' cwd' Hi. apply lookup_app_Some in Hi as [Hi|[Hge Hi]].
  - destruct (Hg _ _ _ _ _ Hi) as (j & u' & p' & -> & Hj). exists j, u', p'. split; [done|]. by apply lookup_app_l_Some.
  - apply list_lookup_singleton_Some in Hi as [Hi _]. rewrite length_app in *. cbn in *. exists (length acts), u, p. split; [lia|].
    rewrite <- app_assoc. by apply list_lookup_middle.
Qed.

Lemma login_child n user passwd w : guarded (w_acts w) ->
  safe n guarded (fun _ _ => False) (r <- sys (SysCall "login" [AStr user; AStr passwd]) ;;
    if negb (r =? 0) then uprintf 2 (newline ++ msg "Login incorrect") [] ;;; exit
    else sys (SysExec (bytes_of "/sh") [bytes_of "/sh"]) ;;; uprintf 2 (msg "exec sh failed") [] ;;; exit : prog unit) w.
Proof.
  intros HP. apply (safe_bind guarded n _ _ (fun r w' => w' = act_on (ACall "login" [AStr user; AStr passwd] r) w)).
  { apply safe_sys; [done|done|]. intros x w' ->. split; [|done]. by apply guarded_app. }
  intros r w1 m Hm HP1 ->. destruct (r =? 0) eqn:E; cbn [negb].
  - apply Z.eqb_eq in E. subst r. apply (safe_bind guarded m _ _ (fun _ w' => guarded (w_acts w'))).
    + destruct m as [|m]; [done|]. split; [done|]. split; [|by apply safe_Ret]. intros l _. cbn. by apply guarded_spawn.
    + intros _ w2 m2 Hm2 HP2 _. apply safe_say_then; [done|reflexivity|]. intros. by apply safe_Exit.
  - apply safe_say_then; [done|reflexivity|]. intros. by apply safe_Exit.
Qed.

(** A program that forks first. *)
Lemma safe_fork {R} P n (t : prog R) h Q w : observe t = VisF SysFork h -> P (w_acts w) ->
  (forall m, (m <= n)%nat -> safe m P Q (h (-1)) w) -> (forall m, (m <= n)%nat -> safe m P (fun _ _ => False) (h 0) w) ->
  (forall m w' pid, (m <= n)%nat -> P (w_acts w') -> 0 < pid -> safe m P Q (h pid) (back_in w w')) -> safe n P Q t w.
Proof.
  intros Eo HP H1 H2 H3. destruct n as [|n]; [done|]. split; [done|]. rewrite Eo. split; [apply H1; lia|]. split; [apply H2; lia|].
  intros w' pid HP' Hpid. by apply H3; [lia| |].
Qed.

Lemma safe_login_fork1 {R} n (k : Z -> prog R) Q w : guarded (w_acts w) -> (forall m, safe m guarded (fun _ _ => False) (k 0) w) ->
  (forall m w' pid, (m <= n)%nat -> guarded (w_acts w') -> 0 < pid -> safe m guarded Q (k pid) (back_in w w')) -> safe n guarded Q (ITree.bind login_fork1 k) w.
Proof.
  intros HP Hc Hk. unfold login_fork1. eapply safe_fork; [rewrite !observe_seq; reflexivity|done|..]; cbn beta.
  - intros m Hm. eapply (safe_observe _ _ _ (ITree.bind (uprintf 2 (bytes_of "login: fork sh failed") [] ;;; exit) k)); [by rewrite !observe_seq|].
    apply (safe_bind guarded m _ _ (fun _ _ => False)); [|done]. apply safe_say_then; [done|reflexivity|]. intros. by apply safe_Exit.
  - intros m Hm. eapply safe_observe; [|apply Hc]. by rewrite !observe_seq.
  - intros m w' pid Hm HP' Hpid. eapply safe_observe; [|apply (Hk m w' pid); done]. rewrite !observe_seq. cbn. by rewrite (proj2 (Z.eqb_neq pid (-1))) by lia.
Qed.

(** C23: In every run of login, however long, and whatever is typed and the kernel
    answers, no step is a fault and a shell is started only by a child whose call
    of [login] has just succeeded. *)
Theorem login_guards_shell n w : guarded (w_acts w) -> safe n guarded (fun _ _ => False) login_main w.
Proof.
  intros HP. unfold login_main. eapply safe_bind; [apply safe_open_console; [intros; by apply guarded_app|done]|]. clear HP w.
  intros _ w m Hm HP _. eapply (safe_iter guarded _ (fun _ _ => True) (fun _ _ => False)); [|done|done]. clear n m Hm w HP. intros n _ w HP _.
  eapply safe_bind; [by apply safe_prompt|]. intros [ok b1] w1 m1 Hm1 HP1 [_ Ht1].
  eapply safe_bind; [by apply safe_prompt|]. intros [ok2 b2] w2 m2 Hm2 HP2 [_ Ht2].
  destruct Ht1 as (T1 & J1 & E1 & HT1 & H1), Ht2 as (T2 & J2 & E2 & HT2 & H2). cbn in E1, E2, H1, H2. subst b1 b2.
  destruct ok, ok2; cbn [negb orb]; try (apply safe_say_then; [done|reflexivity|]; intros; by apply safe_Ret).
  destruct (chop_typed T1 J1 HT1) as (u & ->); [auto|]. destruct (chop_typed T2 J2 HT2) as (p & ->); [auto|]. cbn [of_option].
  apply (safe_bind guarded m2 _ _ (fun a w' => a = u /\ w' = w2)); [by apply safe_Ret|]. intros a w3 m3 Hm3 _ [-> ->].
  apply (safe_bind guarded m3 _ _ (fun a w' => a = p /\ w' = w2)); [by apply safe_Ret|]. intros a w3 m4 Hm4 _ [-> ->].
  apply safe_login_fork1; [done| |].
  - intros m. eapply safe_bind; [by apply login_child|]. done.
  - intros m w' pid Hm HP' Hpid. rewrite (proj2 (Z.eqb_neq pid 0)) by lia. apply (safe_bind guarded m _ _ (fun _ _ => True)); [by apply safe_Ret|].
    intros [] w4 m5 Hm5 HP4 _. apply (safe_bind guarded m5 _ _ (fun _ _ => True)); [|intros; by apply safe_Ret].
    apply safe_sys; [done|done|]. by intros x w5 ->.
Qed.

Lemma login_guards_shell_witness : safe 100 guarded (fun _ _ => False) login_main (console_world (bytes_of "root")).
Proof.
  apply (login_guards_shell 100 (console_world (bytes_of "root"))). intros i path argv fds cwd Hi. discriminate Hi.
Defined.

(** ** init starts login on the console *)

(** No descriptor, or the same open file in 0, 1 and 2. *)
Definition console_fds (m : gmap Z nat) : Prop := m = ∅ \/ exists o, m = <[2 := o]> (<[1 := o]> (<[0 := o]> ∅)).

Definition only_login (acts : list act) : Prop :=
  Forall (fun a => match a with
    | ASpawn path argv fds _ => path = bytes_of "login" /\ argv = [bytes_of "login"] /\ console_fds fds
    | _ => True end) acts.

Lemma only_login_app acts a : only_login acts -> match a with ASpawn _ _ _ _ => False | _ => True end -> only_login (acts ++ [a]).
Proof. intros H Ha. apply Forall_app. split; [done|]. apply Forall_singleton. by destruct a. Qed.

(** An open of the console in a process without descriptors. *)
Lemma safe_open0 n w : w_fds w = ∅ -> only_login (w_acts w) ->
  safe n only_login (fun r w' => r < 0 /\ w_fds w' = ∅ \/ r = 0 /\ exists o, w_fds w' = <[0 := o]> ∅) (sys (SysOpen (bytes_of "console") O_RDWR)) w.
Proof.
  intros Ef HP. apply safe_sys; [done|done|]. intros x w' [[-> ->]|(dev & c & Hx & ->)]; (split; [by apply only_login_app|]); [by left|].
  right. rewrite Ef in Hx. injection Hx as <-. split; [done|]. cbn. rewrite Ef. eauto.
Qed.

(** [dup(0)] with the descriptors below [fd] in use. *)
Lemma safe_dup0 n w fd o : only_login (w_acts w) -> w_fds w = ∅ \/ w_fds w !! 0 = Some o /\ free_fd (w_fds w) = Some fd ->
  safe n only_login (fun _ w' => w_fds w = ∅ /\ w_fds w' = ∅ \/ w_fds w !! 0 = Some o /\ w_fds w' = <[fd := o]> (w_fds w)) (sys (SysDup 0)) w.
Proof.
  intros HP Hf. apply safe_sys; [done|done|]. intros x w'. cbn. destruct Hf as [E|[E0 E]].
  - rewrite E. intros [_ ->]. split; [done|]. by left.
  - rewrite E0, E. cbn. intros [_ ->]. split; [done|]. by right.
Qed.

Lemma safe_reap n pid w : only_login (w_acts w) -> safe n only_login (fun _ w' => w_fds w' = w_fds w) (reap pid) w.
Proof.
  intros HP. apply (safe_iter only_login _ (fun _ w' => w_fds w' = w_fds w)); [|done|done]. clear n. intros n _ w1 HP1 E1.
  apply (safe_bind only_login n _ _ (fun _ w' => quiet w1 w')).
  - apply safe_sys; [done|done|]. by intros x w2 ->.
  - intros wpid w2 m Hm HP2 Hq. destruct (_ && _); [|apply safe_Ret; [done|]; by rewrite (proj2 Hq)].
    apply safe_say_then; [done|reflexivity|]. intros m2 w3 Hm2 HP3 Hq3. apply safe_Ret; [done|]. by rewrite (proj2 Hq3), (proj2 Hq).
Qed.

(** The child of init. *)
Lemma init_child n w : only_login (w_acts w) -> console_fds (w_fds w) ->
  safe n only_login (fun _ _ => False) (sys (SysExec (bytes_of "login") [bytes_of "login"]) ;;; uprintf 1 (msg "init: exec login failed") [] ;;; exit : prog unit) w.
Proof.
  intros HP Hc. apply (safe_bind only_login n _ _ (fun _ _ => True)).
  - destruct n as [|n]; [done|]. split; [done|]. split; [|by apply safe_Ret]. intros l _. cbn. apply Forall_app. split; [done|]. by apply Forall_singleton.
  - intros x w1 m Hm HP1 _. apply safe_say_then; [done|reflexivity|]. intros. by apply safe_Exit.
Qed.

(** In every run of init, however long, the only program that is started is
    login, and it is started with the console as standard input, output and error
    (or without descriptors when the console cannot be opened); no step is a
    fault and init never returns. *)
Theorem init_starts_login n w : w_fds w = ∅ -> only_login (w_acts w) -> safe n only_login (fun _ _ => False) init_main w.
Proof.
  intros Ef HP. unfold init_main. eapply safe_bind; [by apply safe_open0|]. intros r w1 m1 Hm1 HP1 Hr.
  apply (safe_bind only_login m1 _ _ (fun _ w' => w_fds w' = ∅ \/ exists o, w_fds w' = <[0 := o]> ∅)).
  { destruct (r <? 0) eqn:E; bool_cases.
    - destruct Hr as [[_ Ef1]|[-> _]]; [|lia]. apply (safe_bind only_login m1 _ _ (fun _ w' => w_fds w' = ∅)).
      + apply safe_sys; [done|done|]. intros x w' ->. split; [by apply only_login_app|done].
      + intros x w2 m2 Hm2 HP2 Ef2. eapply safe_bind; [by apply safe_open0|]. intros r2 w3 m3 Hm3 HP3 Hr3. apply safe_Ret; [done|].
        destruct Hr3 as [[_ ?]|[_ ?]]; auto.
    - apply safe_Ret; [done|]. destruct Hr as [[? _]|[_ ?]]; [lia|auto]. }
  intros _ w2 m2 Hm2 HP2 H2.
  assert (exists o, w_fds w2 = ∅ \/ w_fds w2 = <[0 := o]> ∅) as (o & H2') by (destruct H2 as [?|[o ?]]; [by exists 0%nat; left|by exists o; right]).
  eapply safe_bind; [apply (safe_dup0 _ _ 1 o); [done|]; destruct H2' as [?| ->]; [by left|by right]|]. intros x3 w3 m3 Hm3 HP3 H3.
  assert (H3' : w_fds w3 = ∅ \/ w_fds w3 = <[1 := o]> (<[0 := o]> ∅)).
  { destruct H3 as [[_ ?]|[E0 ->]]; [by left|right]. destruct H2' as [E|E]; rewrite E in *; [done|done]. }
  eapply safe_bind; [apply (safe_dup0 _ _ 2 o); [done|]; destruct H3' as [?| ->]; [by left|by right]|]. intros x4 w4 m4 Hm4 HP4 H4.
  assert (H4' : console_fds (w_fds w4)).
  { destruct H4 as [[_ ?]|[E0 ->]]; [by left|right]. exists o. destruct H3' as [E|E]; rewrite E in *; [done|done]. }
  eapply (safe_iter only_login _ (fun _ w' => console_fds (w_fds w'))); [|done|done]. clear. intros n _ w HP Hc.
  apply safe_say_then; [done|reflexivity|]. intros m w1 Hm HP1 Hq. rewrite <- (proj2 Hq) in Hc. clear w HP Hq.
  eapply safe_fork; [rewrite observe_seq; reflexivity|done|..]; cbn beta.
  - intros m1 Hm1. eapply safe_observe; [by rewrite observe_seq|]. cbn. apply safe_say_then; [done|reflexivity|]. intros. by apply safe_Exit.
  - intros m1 Hm1. eapply safe_observe; [by rewrite observe_seq|]. cbn. eapply safe_bind; [by apply init_child|]. done.
  - intros m1 w' pid Hm1 HP' Hpid. eapply (safe_observe _ _ _ (reap pid ;;; Ret (inl tt))).
    { rewrite observe_seq. cbn. rewrite (proj2 (Z.ltb_ge pid 0)), (proj2 (Z.eqb_neq pid 0)) by lia. by rewrite observe_seq. }
    eapply safe_bind; [by apply safe_reap|]. intros u w2 m2 Hm2 HP2 E2. apply safe_Ret; [done|]. by rewrite E2.
Qed.

Lemma init_starts_login_witness : safe 100 only_login (fun _ _ => False) init_main (mkWorld ∅ [] [] []).
Proof.
  apply (init_starts_login 100 (mkWorld ∅ [] [] [])).
  - reflexivity.
  - constructor.
Defined.
