(* ===== verification/UmallocSpec.v ===== *)
(** * malloc and free are correct

    The theorems on umalloc.c: [free] returns a block to the free list and joins it
    with its neighbours, [malloc] finds or makes room, and neither touches the
    blocks in use. *)

From Stdlib Require Import Sorted.
From S2P Require Import Prelude KMonad Umalloc.

(** ** Memory accesses *)

Lemma word_ok_in sz a : 0 <= a -> a + 4 <= sz -> word_ok sz a = true.
Proof.
  intros. unfold word_ok, page_end. rewrite (proj2 (Z.leb_le 0 a)), (proj2 (Z.leb_le _ _)) by mlia. done.
Qed.

Section Ops.
Context (st : um).

Lemma bind_rd {A} (k : Z -> U A) a v : 0 <= a -> a + 4 <= um_sz st -> um_mem st !! a = Some v ->
  bind (rd a) k st = k v st.
Proof. intros. unfold rd, bind, gets, id. by rewrite word_ok_in, H1. Qed.

Lemma bind_wr {A} (k : unit -> U A) a v : 0 <= a -> a + 4 <= um_sz st ->
  bind (wr a v) k st = k tt (mkUm (<[a := v]> (um_mem st)) (um_sz st) (um_freep st)).
Proof. intros. unfold wr, bind, gets, id, modify. by rewrite word_ok_in. Qed.
End Ops.

Section Spec.
Context (base : Z).

Abbreviation inv := (inv base).

(** A block that is neither free nor handed out. *)
Record detached (st : um) (F : list block) (A : gmap Z Z) (bp n : Z) : Prop := {
  d_range : base + 8 < bp /\ 1 <= n /\ bp mod 4 = 0 /\ bp + 8 * n <= um_sz st;
  d_size : um_mem st !! (bp + 4) = Some n;
  d_free : forall x, x ∈ F -> apart (bp, n) x;
  d_alloc : forall a k, A !! a = Some k -> apart (bp, n) (a, k) }.

(** ** The search of [free] *)

(** The loop goes on from [p] with next block [n]. *)
Definition goes_on (bp p n : Z) : Prop := ~ (p < bp < n) /\ ~ (n <= p /\ (p < bp \/ bp < n)).

Fixpoint all_go_on (bp : Z) (l : list block) (e : Z) : Prop :=
  match l with [] => True | x :: l' => goes_on bp x.1 (head_or l' e) /\ all_go_on bp l' e end.

Lemma find_walk st bp rest e f : forall l, seg (um_mem st) (l ++ rest) e ->
  (forall x, x ∈ l -> 0 <= x.1 /\ x.1 + 8 <= um_sz st) -> all_go_on bp l (head_or rest e) ->
  free_find (length l + f) bp (head_or (l ++ rest) e) st = free_find f bp (head_or rest e) st.
Proof.
  induction l as [|x l IH]; intros Hs Hv Hg; [done|]. cbn [app seg length Nat.add free_find head_or] in *.
  destruct Hs as (H1 & _ & Hs). destruct Hg as [[G1 G2] Hg]. destruct (Hv x ltac:(by left)).
  unfold get_ptr. rewrite (bind_rd st _ x.1 _ ltac:(lia) ltac:(lia) H1). rewrite head_or_app in *.
  destruct ((x.1 <? bp) && (bp <? head_or l (head_or rest e))) eqn:E1.
  { bool_cases. lia. }
  destruct ((head_or l (head_or rest e) <=? x.1) && _) eqn:E2.
  { bool_cases. exfalso. apply G2. split; [done|]. apply orb_true_iff in H3. rewrite !Z.ltb_lt in H3. done. }
  apply IH; [done| |done]. intros y Hy. apply Hv. by right.
Qed.

Lemma go_on_below bp l y : StronglySorted below l -> (forall x, x ∈ l -> x.1 < y) -> y < bp -> all_go_on bp l y.
Proof.
  intros Hs. induction Hs as [|x l Hs IH Hf]; intros Hl Hy; [done|]. rewrite Forall_forall in Hf. split.
  - destruct l as [|z l]; cbn.
    + pose proof (Hl x ltac:(by left)). unfold goes_on. lia.
    + pose proof (Hl z ltac:(right; by left)). destruct (Hf z ltac:(by left)). unfold goes_on. lia.
  - apply IH; [|done]. intros z Hz. apply Hl. by right.
Qed.

Lemma go_on_above bp l : StronglySorted below l -> (forall x, x ∈ l -> bp < x.1) -> base < bp -> all_go_on bp l base.
Proof.
  intros Hs. induction Hs as [|x l Hs IH Hf]; intros Hl Hb; [done|]. rewrite Forall_forall in Hf.
  pose proof (Hl x ltac:(by left)). split.
  - destruct l as [|z l]; cbn; unfold goes_on; [lia|]. destruct (Hf z ltac:(by left)). lia.
  - apply IH; [|done]. intros z Hz. apply Hl. by right.
Qed.

(** The list split at the place of a new block. *)
Lemma split_at bp l : StronglySorted below l -> (forall x, x ∈ l -> x.1 ≠ bp) ->
  exists l1 l2, l = l1 ++ l2 /\ (forall x, x ∈ l1 -> x.1 < bp) /\ (forall x, x ∈ l2 -> bp < x.1).
Proof.
  intros Hs Hn. induction Hs as [|x l Hs IH Hf]; [exists [], []; set_solver|]. rewrite Forall_forall in Hf.
  destruct (decide (x.1 < bp)) as [Hx|Hx].
  - destruct IH as (l1 & l2 & -> & H1 & H2); [intros; apply Hn; by right|]. exists (x :: l1), l2.
    split_and!; [done| |done]. intros y [->|Hy]%elem_of_cons; auto.
  - pose proof (Hn x ltac:(by left)). exists [], (x :: l). split_and!; [done|set_solver|].
    intros y [->|Hy]%elem_of_cons; [lia|]. destruct (Hf y Hy). lia.
Qed.

Lemma far st F A bp n x : inv st F A -> detached st F A bp n -> x ∈ (base, 0) :: F ->
  x.1 + 8 <= bp \/ bp + 8 <= x.1.
Proof.
  intros Hi Hd Hx. destruct (d_range _ _ _ _ _ Hd) as (D1 & D2 & _).
  apply elem_of_cons in Hx as [->|Hx]; cbn; [lia|].
  destruct (i_free _ _ _ _ Hi x Hx) as (? & ? & _). destruct (d_free _ _ _ _ _ Hd x Hx) as [H1|H1]; cbn in H1; lia.
Qed.

Lemma ring_valid st F A x : inv st F A -> x ∈ (base, 0) :: F -> 0 < x.1 /\ x.1 + 8 <= um_sz st.
Proof.
  intros Hi Hx. destruct (i_base _ _ _ _ Hi), (i_sz _ _ _ _ Hi). apply elem_of_cons in Hx as [->|Hx]; cbn; [lia|].
  destruct (i_free _ _ _ _ Hi x Hx) as (? & ? & _ & ?). lia.
Qed.

Lemma ring_length st F A : inv st F A -> (length ((base, 0%Z) :: F) <= headers (um_sz st))%nat.
Proof.
  intros Hi. destruct (i_base _ _ _ _ Hi), (i_sz _ _ _ _ Hi).
  pose proof (sorted_length (base + 8) (um_sz st) F) as H3. unfold zlen, headers in *. cbn [length].
  pose proof (i_sorted _ _ _ _ Hi) as Hs. inversion Hs as [|? ? Hs' _]; subst.
  specialize (H3 Hs'). pose proof (i_free _ _ _ _ Hi) as Hf.
  assert (8 * Z.of_nat (length F) <= um_sz st - (base + 8)).
  2:{ assert (Z.of_nat (length F) <= um_sz st / 8) by (apply Z.div_le_lower_bound; lia). lia. }
  apply H3; [|lia]. intros x Hx. destruct (Hf x Hx) as (? & ? & _ & ?). lia.
Qed.

Lemma find_stop st bp (p : block) l2 f : um_mem st !! p.1 = Some (head_or l2 base) -> 0 <= p.1 -> p.1 + 8 <= um_sz st ->
  base <= p.1 < bp -> (forall x, x ∈ l2 -> bp < x.1) -> free_find (S f) bp p.1 st = Ok p.1 st.
Proof.
  intros Hm H1 H2 H3 Hl. cbn [free_find]. unfold get_ptr.
  rewrite (bind_rd st _ p.1 _ ltac:(lia) ltac:(lia) Hm), (proj2 (Z.ltb_lt p.1 bp)) by lia. cbn [andb orb].
  destruct l2 as [|x l2]; cbn [head_or].
  - rewrite (proj2 (Z.ltb_ge bp base)), (proj2 (Z.leb_le base p.1)) by lia. done.
  - by rewrite (proj2 (Z.ltb_lt bp x.1)) by (apply Hl; by left).
Qed.

(** The place where a detached block belongs, and that [free] finds it. *)
Lemma free_find_eq st F A bp n : inv st F A -> detached st F A bp n ->
  exists l1 p l2, (base, 0) :: F = l1 ++ p :: l2 /\ p.1 < bp /\ (forall x, x ∈ l1 -> x.1 < bp)
    /\ (forall x, x ∈ l2 -> bp < x.1) /\ free_find (headers (um_sz st)) bp (um_freep st) st = Ok p.1 st.
Proof.
  intros Hi Hd. pose proof (i_sorted _ _ _ _ Hi) as Hs. pose proof (ring_length _ _ _ Hi) as Hlen.
  assert (Hv : forall x, x ∈ (base, 0) :: F -> 0 <= x.1 /\ x.1 + 8 <= um_sz st).
  { intros x Hx. destruct (ring_valid _ _ _ _ Hi Hx). lia. }
  pose proof (i_ring _ _ _ _ Hi) as Hr. destruct (d_range _ _ _ _ _ Hd) as (D1 & _).
  assert (Hb : forall x, x ∈ (base, 0) :: F -> base <= x.1).
  { intros x [->|Hx]%elem_of_cons; [done|]. destruct (i_free _ _ _ _ Hi x Hx). lia. }
  assert (Hfp : exists x, x ∈ (base, 0) :: F /\ x.1 = um_freep st).
  { pose proof (i_freep _ _ _ _ Hi) as Hf. change (base :: F.*1) with (((base, 0) :: F).*1) in Hf.
    apply list_elem_of_fmap in Hf as (x & -> & Hx). by exists x. }
  destruct (split_at bp _ Hs) as (k1 & l2 & Hk & K1 & K2).
  { intros x Hx Heq. destruct (far _ _ _ _ _ _ Hi Hd Hx); lia. }
  set (L := (base, 0) :: F) in *.
  destruct (exists_last (l := k1)) as (l1 & p & ->).
  { intros ->. cbn in Hk. subst l2. specialize (K2 (base, 0) ltac:(by left)). cbn in K2. lia. }
  rewrite <- app_assoc in Hk. cbn [app] in Hk. exists l1, p, l2.
  assert (Hp : p.1 < bp) by (apply K1; set_solver).
  assert (K1' : forall x, x ∈ l1 -> x.1 < bp) by (intros; apply K1; set_solver).
  split_and!; try done. rewrite Hk in Hs, Hr, Hv, Hb, Hlen.
  apply sorted_mid in Hs as (S1 & S2 & S3 & S4 & S5). pose proof Hr as Hr0. apply seg_app in Hr as (R1 & R2).
  cbn [seg head_or] in R1, R2. destruct R2 as (R2 & _ & R3).
  assert (Hstop : forall f, free_find (S f) bp p.1 st = Ok p.1 st).
  { intros f. destruct (Hv p ltac:(set_solver)).
    eapply find_stop; [exact R2|lia|lia|pose proof (Hb p ltac:(set_solver)); lia|done]. }
  assert (Hl1 : forall la lb f, l1 = la ++ lb -> free_find (length lb + S f) bp (head_or (lb ++ p :: l2) base) st = Ok p.1 st).
  { intros la lb f ->. apply sorted_app in S1 as (_ & Sb & _).
    rewrite find_walk; [apply Hstop| | |].
    - rewrite <- app_assoc in Hr0. by apply seg_app in Hr0 as [_ ?].
    - intros x Hx. apply Hv. set_solver.
    - cbn [head_or]. apply go_on_below; [done| |done]. intros x Hx. destruct (S3 x ltac:(set_solver)). lia. }
  destruct Hfp as (x & Hx & <-). rewrite Hk in Hx. rewrite length_app in Hlen. cbn [length] in Hlen.
  apply elem_of_app in Hx as [Hx|[->|Hx]%elem_of_cons].
  - apply list_elem_of_split in Hx as (la & lb & ->). rewrite length_app in Hlen. cbn [length] in Hlen.
    replace (headers (um_sz st)) with (length (x :: lb) + S (headers (um_sz st) - length (x :: lb) - 1))%nat by (cbn; lia).
    change x.1 with (head_or ((x :: lb) ++ p :: l2) base). by apply (Hl1 la).
  - destruct (headers (um_sz st)); [lia|]. apply Hstop.
  - apply list_elem_of_split in Hx as (la & lb & ->). rewrite length_app in Hlen. cbn [length] in Hlen.
    replace (headers (um_sz st)) with (length (x :: lb) + (length l1 + S (headers (um_sz st) - length (x :: lb) - length l1 - 1)))%nat
      by (cbn; lia).
    pose proof (find_walk st bp [] base (length l1 + S (headers (um_sz st) - length (x :: lb) - length l1 - 1)) (x :: lb)) as Hw.
    rewrite app_nil_r in Hw. cbn [head_or] in Hw. rewrite Hw.
    + pose proof (Hl1 [] l1 (headers (um_sz st) - length (x :: lb) - length l1 - 1)%nat eq_refl) as H.
      rewrite <- Hk in H. exact H.
    + by apply seg_app in R3 as [_ ?].
    + intros y Hy. apply Hv. set_solver.
    + apply go_on_above; [by apply sorted_app in S2 as (_ & ? & _)| |lia]. intros y Hy. apply K2. set_solver.
Qed.

(** ** Joining with the neighbours *)

Definition with_mem (m : gmap Z Z) (st : um) : um := mkUm m (um_sz st) (um_freep st).

Lemma hdr_small p n : 0 <= p + 8 * n < 4294967296 -> hdr p n = p + 8 * n.
Proof. intros. unfold hdr. by apply u32_id. Qed.

Lemma free_space_cons x l a : free_space (x :: l) a <-> x.1 <= a < x.1 + 8 * x.2 \/ free_space l a.
Proof.
  unfold free_space. split.
  - intros (y & [->|Hy]%elem_of_cons & H); [by left|right; eauto].
  - intros [H|(y & Hy & H)]; [exists x; split; [by left|done]|exists y; split; [by right|done]].
Qed.

Lemma free_space_app l1 l2 a : free_space (l1 ++ l2) a <-> free_space l1 a \/ free_space l2 a.
Proof. induction l1 as [|x l1 IH]; cbn [app]; [|rewrite !free_space_cons, IH; tauto]. 
  split; [by right|]. intros [(x & Hx & _)|H]; [set_solver|done].
Qed.

(** The first half of [free]: the block at [bp] takes the next one if they touch. *)
Lemma join_next st pa bp n l2 : um_sz st < 2147483648 -> um_mem st !! (bp + 4) = Some n -> 1 <= n -> base + 8 < bp ->
  0 < base -> 0 <= pa -> pa + 8 <= bp -> bp + 8 * n <= um_sz st ->
  um_mem st !! pa = Some (head_or l2 base) -> seg (um_mem st) l2 base -> StronglySorted below l2 ->
  (forall x, x ∈ l2 -> bp < x.1 /\ 1 <= x.2 /\ x.1 + 8 * x.2 <= um_sz st /\ apart (bp, n) x) ->
  exists k rest m1,
    (if hdr bp n =? head_or l2 base then
       nsize <- get_size (head_or l2 base) ;;
       set_size bp (u32 (n + nsize)) ;;;
       n <- get_ptr pa ;;
       nn <- get_ptr n ;;
       set_ptr bp nn
     else set_ptr bp (head_or l2 base)) st = Ok tt (with_mem m1 st)
    /\ m1 !! bp = Some (head_or rest base) /\ m1 !! (bp + 4) = Some k
    /\ (forall a, a ≠ bp -> a ≠ bp + 4 -> m1 !! a = um_mem st !! a)
    /\ (exists pre, l2 = pre ++ rest) /\ n <= k /\ bp + 8 * k <= um_sz st
    /\ (forall y, y ∈ rest -> bp + 8 * k < y.1)
    /\ (forall a, bp <= a < bp + 8 * k \/ free_space rest a <-> bp <= a < bp + 8 * n \/ free_space l2 a)
    /\ (forall b : block, 1 <= b.2 -> apart b (bp, n) -> (forall x, x ∈ l2 -> apart b x) -> apart b (bp, k)).
Proof.
  intros Hsz Hn Hn1 Hb Hb0 Hpa Hpb Hbn Hm Hs Hss Hl. rewrite hdr_small by lia.
  destruct (bp + 8 * n =? head_or l2 base) eqn:E; bool_cases.
  - destruct l2 as [|[q qn] rest]; cbn [head_or fst] in *; [lia|].
    destruct (Hl (q, qn) ltac:(by left)) as (L1 & L2 & L3 & L4). cbn in *. destruct Hs as (H1 & H2 & H3).
    inversion Hss as [|? ? Hss' Hf]; subst. rewrite Forall_forall in Hf.
    exists (n + qn), rest, (<[bp := head_or rest base]> (<[bp + 4 := n + qn]> (um_mem st))).
    unfold get_size, set_size, get_ptr, set_ptr. rewrite !u32_id by (unfold is_u32; lia).
    rewrite (bind_rd st _ (bp + 8 * n + 4) qn) by (done || lia).
    rewrite bind_wr by (cbn; lia). rewrite u32_id by (unfold is_u32; lia).
    rewrite (bind_rd _ _ pa (bp + 8 * n)); cbn [um_sz um_mem um_freep]; [|lia|lia|by rewrite lookup_insert_ne by lia].
    rewrite (bind_rd _ _ (bp + 8 * n) (head_or rest base)); cbn [um_sz um_mem um_freep];
      [|lia|lia|by rewrite lookup_insert_ne by lia].
    split_and!.
    + unfold wr, bind, gets, id, modify. cbn. by rewrite word_ok_in by lia.
    + by rewrite lookup_insert_eq.
    + rewrite lookup_insert_ne, lookup_insert_eq by lia. done.
    + intros a A1 A2. by rewrite !lookup_insert_ne.
    + by exists [(bp + 8 * n, qn)].
    + lia.
    + lia.
    + intros y Hy. destruct (Hf y Hy) as [_ Hy2]. cbn in Hy2. lia.
    + intros a. rewrite free_space_cons. cbn.
      assert (bp <= a < bp + 8 * (n + qn)
        <-> bp <= a < bp + 8 * n \/ bp + 8 * n <= a < bp + 8 * n + 8 * qn) by lia. tauto.
    + intros b' B1 B2 B3. specialize (B3 (bp + 8 * n, qn) ltac:(by left)). unfold apart in *. cbn in *. lia.
  - exists n, l2, (<[bp := head_or l2 base]> (um_mem st)). unfold set_ptr. split_and!; try done; try lia.
    + unfold wr, bind, gets, id, modify. by rewrite word_ok_in by lia.
    + by rewrite lookup_insert_eq.
    + by rewrite lookup_insert_ne by lia.
    + intros a A1 A2. by rewrite lookup_insert_ne.
    + by exists [].
    + intros y Hy. destruct l2 as [|x l2]; [set_solver|]. cbn [head_or] in E.
      destruct (Hl x ltac:(by left)) as (L1 & _ & _ & [L4|L4]); cbn in L4.
      * inversion Hss as [|? ? _ Hf]; subst. rewrite Forall_forall in Hf.
        apply elem_of_cons in Hy as [->|Hy]; [lia|]. destruct (Hf y Hy). lia.
      * destruct (Hl x ltac:(by left)) as (_ & L2 & _). lia.
Qed.

(** The blocks that [p] and the block at [bp] become. *)
Definition joined (p : block) (bp k : Z) : list block :=
  if p.1 + 8 * p.2 =? bp then [(p.1, p.2 + k)] else [p; (bp, k)].

Lemma join_prev st (p : block) bp k rest : um_sz st < 2147483648 ->
  0 <= p.1 -> 0 <= p.2 -> p.1 + 8 <= bp -> p.1 + 8 * p.2 <= bp -> 1 <= k -> bp + 8 * k <= um_sz st ->
  um_mem st !! (p.1 + 4) = Some p.2 -> um_mem st !! bp = Some (head_or rest base) -> um_mem st !! (bp + 4) = Some k ->
  (forall y, y ∈ rest -> bp + 8 <= y.1) -> seg (um_mem st) rest base ->
  exists m2,
    (if hdr p.1 p.2 =? bp then
       bsize <- get_size bp ;;
       set_size p.1 (u32 (p.2 + bsize)) ;;;
       bn <- get_ptr bp ;;
       set_ptr p.1 bn
     else set_ptr p.1 bp) st = Ok tt (with_mem m2 st)
    /\ seg m2 (joined p bp k ++ rest) base
    /\ (forall a, a ≠ p.1 -> a ≠ p.1 + 4 -> m2 !! a = um_mem st !! a).
Proof.
  intros Hsz Hp0 Hp2 Hpb Hpe Hk Hbk Hpm Hbm Hbs Hr Hs. rewrite hdr_small by lia. unfold joined.
  destruct (p.1 + 8 * p.2 =? bp) eqn:E; bool_cases.
  - exists (<[p.1 := head_or rest base]> (<[p.1 + 4 := p.2 + k]> (um_mem st))).
    unfold get_size, set_size, get_ptr, set_ptr. rewrite !(u32_id (_ + 4)) by (unfold is_u32; lia).
    rewrite (bind_rd st _ (bp + 4) k) by (done || lia). rewrite u32_id by (unfold is_u32; lia).
    rewrite bind_wr by lia.
    rewrite (bind_rd _ _ bp (head_or rest base)); cbn [um_sz um_mem um_freep]; [|lia|lia|by rewrite lookup_insert_ne by lia].
    split_and!.
    + unfold wr, bind, gets, id, modify. cbn. by rewrite word_ok_in by lia.
    + cbn [app seg]. split_and!; cbn [fst snd].
      * by rewrite lookup_insert_eq.
      * by rewrite lookup_insert_ne, lookup_insert_eq by lia.
      * eapply seg_ext; [|exact Hs]. intros y Hy. specialize (Hr y Hy). by rewrite !lookup_insert_ne by lia.
    + intros a A1 A2. by rewrite !lookup_insert_ne.
  - exists (<[p.1 := bp]> (um_mem st)). unfold set_ptr. split_and!.
    + unfold wr, bind, gets, id, modify. by rewrite word_ok_in by lia.
    + cbn [app seg head_or fst snd]. split_and!.
      * by rewrite lookup_insert_eq.
      * by rewrite lookup_insert_ne by lia.
      * by rewrite lookup_insert_ne by lia.
      * by rewrite lookup_insert_ne by lia.
      * eapply seg_ext; [|exact Hs]. intros y Hy. specialize (Hr y Hy). by rewrite !lookup_insert_ne by lia.
    + intros a A1 A2. by rewrite lookup_insert_ne.
Qed.

Lemma free_exec st F A bp n : inv st F A -> detached st F A bp n ->
  exists l1 p l2 k rest m2, (base, 0) :: F = l1 ++ p :: l2
    /\ free (bp + 8) st = Ok tt (mkUm m2 (um_sz st) p.1)
    /\ (exists pre, l2 = pre ++ rest) /\ n <= k /\ bp + 8 * k <= um_sz st
    /\ p.1 + 8 <= bp /\ 0 <= p.2 /\ p.1 + 8 * p.2 <= bp /\ (forall y, y ∈ rest -> bp + 8 * k < y.1)
    /\ seg m2 (l1 ++ joined p bp k ++ rest) base
    /\ (forall a, a ≠ bp -> a ≠ bp + 4 -> a ≠ p.1 -> a ≠ p.1 + 4 -> m2 !! a = um_mem st !! a)
    /\ (forall a, bp <= a < bp + 8 * k \/ free_space rest a <-> bp <= a < bp + 8 * n \/ free_space l2 a)
    /\ (forall b : block, 1 <= b.2 -> apart b (bp, n) -> (forall x, x ∈ l2 -> apart b x) -> apart b (bp, k)).
Proof.
  intros Hi Hd. destruct (free_find_eq _ _ _ _ _ Hi Hd) as (l1 & p & l2 & HL & Hp & K1 & K2 & Hf).
  destruct (d_range _ _ _ _ _ Hd) as (D1 & D2 & D3 & D4). destruct (i_base _ _ _ _ Hi), (i_sz _ _ _ _ Hi).
  pose proof (i_sorted _ _ _ _ Hi) as Hs. pose proof (i_ring _ _ _ _ Hi) as Hr. rewrite HL in Hs, Hr.
  apply sorted_mid in Hs as (S1 & S2 & S3 & S4 & S5). apply seg_app in Hr as (R1 & R2 & R3 & R4).
  cbn [head_or] in R1.
  assert (Hpl : p ∈ (base, 0) :: F) by (rewrite HL; set_solver).
  destruct (ring_valid _ _ _ _ Hi Hpl) as [V1 V2].
  assert (Hpb : p.1 + 8 <= bp) by (destruct (far _ _ _ _ _ _ Hi Hd Hpl); lia).
  assert (Hpn : 0 <= p.2 /\ p.1 + 8 * p.2 <= bp).
  { apply elem_of_cons in Hpl as [->|Hx]; [cbn in *; lia|]. destruct (i_free _ _ _ _ Hi p Hx) as (? & ? & _ & ?).
    destruct (d_free _ _ _ _ _ Hd p Hx) as [E|E]; cbn in E; lia. }
  assert (Hl2 : forall x, x ∈ l2 -> bp < x.1 /\ 1 <= x.2 /\ x.1 + 8 * x.2 <= um_sz st /\ apart (bp, n) x).
  { intros x Hx. assert (x ∈ (base, 0) :: F) as [->|Hx']%elem_of_cons by (rewrite HL; set_solver).
    - specialize (K2 _ Hx). cbn in K2. lia.
    - destruct (i_free _ _ _ _ Hi x Hx') as (? & ? & _ & ?). split_and!; [by apply K2|done|done|].
      by apply (d_free _ _ _ _ _ Hd). }
  destruct (join_next st p.1 bp n l2) as (k & rest & m1 & E1 & M1 & M2 & M3 & (pre & ->) & N1 & N2 & N3 & N4 & N5);
    try done; [lia|by apply (d_size _ _ _ _ _ Hd)|lia|].
  apply seg_app in R4 as [_ R4].
  destruct (join_prev (with_mem m1 st) p bp k rest) as (m2 & E2 & M4 & M5); cbn [with_mem um_mem um_sz]; try done; try lia.
  { rewrite M3 by lia. done. }
  { intros y Hy. specialize (N3 y Hy). lia. }
  { eapply seg_ext; [|exact R4]. intros y Hy. specialize (N3 y Hy). by rewrite !M3 by lia. }
  exists l1, p, (pre ++ rest), k, rest, m2. split_and!; try done; try lia.
  - unfold free. rewrite hdr_small by lia. replace (bp + 8 + 8 * -1) with bp by lia.
    rewrite (bind_Ok (gets um_freep) _ st _ st eq_refl), (bind_Ok (gets um_sz) _ st _ st eq_refl).
    rewrite (bind_Ok _ _ _ _ _ Hf). unfold get_ptr at 1. rewrite (bind_rd st _ p.1 _ ltac:(lia) ltac:(lia) R2).
    unfold get_size at 1. rewrite u32_id by (unfold is_u32; lia).
    rewrite (bind_rd st _ (bp + 4) n) by (lia || apply (d_size _ _ _ _ _ Hd)).
    rewrite (bind_Ok _ _ _ _ _ E1). unfold get_size at 1. rewrite u32_id by (unfold is_u32; lia).
    rewrite (bind_rd _ _ (p.1 + 4) p.2); cbn [with_mem um_sz um_mem]; [|lia|lia|rewrite M3 by lia; done].
    rewrite (bind_Ok _ _ _ _ _ E2). done.
  - by exists pre.
  - apply seg_app. split; [|done]. assert (head_or (joined p bp k ++ rest) base = p.1) as ->.
    { unfold joined. by destruct (p.1 + 8 * p.2 =? bp). }
    eapply seg_ext; [|exact R1]. intros y Hy. destruct (S3 y Hy) as [Y1 _].
    rewrite !M5, !M3 by lia. done.
  - intros a A1 A2 A3 A4. rewrite M5, M3 by done. done.
Qed.
Lemma free_space_joined (p : block) bp k a : 0 <= p.2 -> 1 <= k ->
  free_space (joined p bp k) a <-> p.1 <= a < p.1 + 8 * p.2 \/ bp <= a < bp + 8 * k.
Proof.
  intros Hp Hk. unfold joined. assert (Hnil : ~ free_space [] a) by (intros (x & Hx & _); set_solver).
  destruct (p.1 + 8 * p.2 =? bp) eqn:E; bool_cases; rewrite !free_space_cons; cbn [fst snd]; [|tauto].
  subst bp. assert (p.1 <= a < p.1 + 8 * (p.2 + k)
    <-> p.1 <= a < p.1 + 8 * p.2 \/ p.1 + 8 * p.2 <= a < p.1 + 8 * p.2 + 8 * k) by lia. tauto.
Qed.

(** Releasing a detached block. *)
Lemma free_eq st F A bp n : inv st F A -> detached st F A bp n ->
  exists st' F', free (bp + 8) st = Ok tt st' /\ inv st' F' A /\ um_sz st' = um_sz st
    /\ (forall a, free_space F' a <-> free_space F a \/ bp <= a < bp + 8 * n)
    /\ (length F' <= S (length F))%nat
    /\ (forall a, ~ free_space F a -> ~ (bp <= a < bp + 8 * n) -> a ≠ base -> a ≠ base + 4 ->
          um_mem st' !! a = um_mem st !! a).
Proof.
  intros Hi Hd. destruct (free_exec _ _ _ _ _ Hi Hd)
    as (l1 & p & l2 & k & rest & m2 & HL & E & (pre & ->) & N1 & N2 & P1 & P2 & P3 & N3 & Hseg & Hm & N4 & N5).
  destruct (d_range _ _ _ _ _ Hd) as (D1 & D2 & D3 & D4). destruct (i_base _ _ _ _ Hi), (i_sz _ _ _ _ Hi).
  pose proof (i_sorted _ _ _ _ Hi) as Hs. rewrite HL in Hs. apply sorted_mid in Hs as (S1 & S2 & S3 & S4 & S5).
  apply sorted_app in S2 as (_ & S2 & _).
  assert (Hpl : p ∈ (base, 0) :: F) by (rewrite HL; set_solver).
  (* the list still starts with [base] *)
  assert (HF : exists F', l1 ++ joined p bp k ++ rest = (base, 0) :: F'
      /\ forall x, x ∈ F' -> x ∈ F \/ x = (bp, k) \/ (x = (p.1, p.2 + k) /\ p ∈ F /\ p.1 + 8 * p.2 = bp)).
  { unfold joined. destruct l1 as [|y l1]; cbn [app] in HL; injection HL as HL0 HL1.
    - subst p. cbn [fst snd]. rewrite Z.mul_0_r, Z.add_0_r, (proj2 (Z.eqb_neq base bp)) by lia. cbn [app].
      exists ((bp, k) :: rest). split; [done|]. subst F. set_solver.
    - subst y. cbn [app]. eexists. split; [done|]. subst F. intros x. rewrite !elem_of_app.
      destruct (p.1 + 8 * p.2 =? bp) eqn:Ej; bool_cases; [|set_solver].
      rewrite list_elem_of_singleton. intros [Hx|[Hx|Hx]]; [set_solver| |set_solver]. right. right. set_solver. }
  destruct HF as (F' & HF & HF'). exists (mkUm m2 (um_sz st) p.1), F'.
  assert (Hold : forall x, x ∈ F -> base + 8 < x.1 /\ 1 <= x.2 /\ x.1 mod 4 = 0 /\ x.1 + 8 * x.2 <= um_sz st)
    by apply (i_free _ _ _ _ Hi).
  assert (Hnear : forall a k', A !! a = Some k' -> (a + 8 <= p.1 \/ p.1 + 8 <= a) /\ (a + 8 <= bp \/ bp + 8 <= a)).
  { intros a k' Ha. destruct (i_alloc _ _ _ _ Hi a k' Ha) as (A1 & A2 & _). split.
    - apply elem_of_cons in Hpl as [->|Hx]; [cbn; lia|]. destruct (Hold p Hx) as (? & ? & _).
      destruct (i_apart _ _ _ _ Hi a k' p Ha Hx) as [Q|Q]; cbn in Q; lia.
    - destruct (d_alloc _ _ _ _ _ Hd a k' Ha) as [Q|Q]; cbn in Q; lia. }
  assert (Hap : forall (b : block), 1 <= b.2 -> apart b (bp, n) -> (forall x, x ∈ F -> apart b x) -> b.1 > base + 8 ->
    forall x, x ∈ F' -> apart b x).
  { intros b B1 B2 B3 B4 x Hx. apply HF' in Hx as [Hx|[->|(-> & Hp & Hj)]]; [by apply B3| |].
    - apply N5; [done|done|]. intros y Hy. assert (y ∈ (base, 0) :: F) as [->|Hy']%elem_of_cons by (rewrite HL; set_solver);
        [right; cbn; lia|by apply B3].
    - assert (apart b (bp, k)) as HB.
      { apply N5; [done|done|]. intros y Hy. assert (y ∈ (base, 0) :: F) as [->|Hy']%elem_of_cons by (rewrite HL; set_solver);
          [right; cbn; lia|by apply B3]. }
      specialize (B3 p Hp). unfold apart in *. cbn in *. lia. }
  split_and!; [done| |done| | |].
  - split; cbn [um_mem um_sz um_freep]; try done.
    + by rewrite <- HF.
    + rewrite <- HF. unfold joined. destruct (p.1 + 8 * p.2 =? bp) eqn:Ej; bool_cases; cbn [app].
      * apply sorted_mid. split_and!; [done|done|done| |intros; apply S5; [done|set_solver]].
        intros y Hy. specialize (N3 y Hy). unfold below. cbn. lia.
      * apply sorted_mid. split_and!; [done| |done| |].
        -- constructor; [done|]. apply Forall_forall. intros y Hy. specialize (N3 y Hy). unfold below. cbn. lia.
        -- intros y [->|Hy]%elem_of_cons; [unfold below; cbn; lia|]. apply S4. set_solver.
        -- intros x y Hx [->|Hy]%elem_of_cons; [|apply S5; [done|set_solver]]. destruct (S3 x Hx). unfold below. cbn. lia.
    + intros x Hx. apply HF' in Hx as [Hx|[->|(-> & Hp & Hj)]]; [by apply Hold|cbn; split_and!; (done || lia)|].
      destruct (Hold p Hp) as (? & ? & ? & ?). cbn. split_and!; (done || lia).
    + change (base :: F'.*1) with (((base, 0) :: F').*1). rewrite <- HF. unfold joined.
      rewrite !fmap_app. destruct (p.1 + 8 * p.2 =? bp); cbn; set_solver.
    + intros a k' Ha. destruct (i_alloc _ _ _ _ Hi a k' Ha) as (A1 & A2 & A3 & A4 & A5).
      destruct (Hnear a k' Ha). split_and!; try done. rewrite Hm by lia. done.
    + intros a k' x Ha. destruct (i_alloc _ _ _ _ Hi a k' Ha) as (A1 & A2 & _). apply Hap; cbn; [done| | |lia].
      * destruct (d_alloc _ _ _ _ _ Hd a k' Ha); [by right|by left].
      * intros y Hy. by apply (i_apart _ _ _ _ Hi).
    + apply (i_disj _ _ _ _ Hi).
  - intros a. assert (Hb0 : forall l, free_space ((base, 0) :: l) a <-> free_space l a).
    { intros l. rewrite free_space_cons. cbn. split; [intros [?|?]; [lia|done]|by right]. }
    rewrite <- Hb0, <- HF, <- (Hb0 F), HL, !free_space_app, free_space_cons, free_space_joined by lia.
    specialize (N4 a). tauto.
  - apply (f_equal length) in HF, HL. rewrite !length_app in HF, HL. cbn [length] in HF, HL.
    rewrite length_app in HL. unfold joined in HF. destruct (p.1 + 8 * p.2 =? bp); cbn in HF; lia.
  - intros a Ha Hb B1 B2. cbn. apply Hm; [lia|lia| |].
    + intros ->. apply elem_of_cons in Hpl as [->|Hp]; [done|]. apply Ha. exists p. destruct (Hold p Hp). split; [done|lia].
    + intros ->. apply elem_of_cons in Hpl as [->|Hp]; [done|]. apply Ha. exists p. destruct (Hold p Hp). split; [done|lia].
Qed.
(** C33: [free] on a block that [malloc] handed out: the block becomes free space, the
    other blocks in use keep their contents, the invariant holds. *)
Theorem free_correct st F A bp n : inv st F A -> A !! bp = Some n ->
  exists st' F', free (bp + 8) st = Ok tt st' /\ inv st' F' (delete bp A) /\ um_sz st' = um_sz st
    /\ (forall a, free_space F' a <-> free_space F a \/ bp <= a < bp + 8 * n)
    /\ (forall b k a, delete bp A !! b = Some k -> b <= a < b + 8 * k -> um_mem st' !! a = um_mem st !! a).
Proof.
  intros Hi Hb. destruct (i_alloc _ _ _ _ Hi bp n Hb) as (A1 & A2 & A3 & A4 & A5).
  assert (Hsub : forall b k, delete bp A !! b = Some k -> A !! b = Some k /\ b ≠ bp).
  { intros b k Hk. apply lookup_delete_Some in Hk as [? ?]. done. }
  assert (Hi' : inv st F (delete bp A)).
  { destruct Hi as [I1 I2 I3 I4 I5 I6 I7 I8 I9]. split; try done; intros.
    - apply I7. by apply Hsub.
    - apply I8; [by apply Hsub|done].
    - apply I9; [by apply Hsub|by apply Hsub|done]. }
  assert (Hd : detached st F (delete bp A) bp n).
  { split; [done|done| |].
    - intros x Hx. by apply (i_apart _ _ _ _ Hi).
    - intros a k Ha. apply Hsub in Ha as [Ha Hne]. by apply (i_disj _ _ _ _ Hi). }
  destruct (free_eq _ _ _ _ _ Hi' Hd) as (st' & F' & E & I' & Hsz & Hsp & _ & Hfr).
  exists st', F'. split_and!; try done. intros b k a Hk Ha. apply Hsub in Hk as [Hk Hne].
  destruct (i_alloc _ _ _ _ Hi b k Hk) as (B1 & B2 & _). apply Hfr; [| |lia|lia].
  - intros (x & Hx & Hxa). destruct (i_apart _ _ _ _ Hi b k x Hk Hx) as [Q|Q]; cbn in Q; lia.
  - destruct (i_disj _ _ _ _ Hi b k bp n Hk Hb Hne) as [Q|Q]; cbn in Q; lia.
Qed.
End Spec.
