(* ===== verification/Malloc.v ===== *)
(** * malloc finds or makes room

    The search of [malloc] over the circular list, the split of a block, and
    [morecore]; on top of UmallocSpec.v. *)

From Stdlib Require Import Sorted.
From S2P Require Import Prelude KMonad Umalloc UmallocSpec.

Section Malloc.
Context (base : Z) (avail : Z -> Z -> bool).

Abbreviation inv := (inv base).
Abbreviation malloc_loop := (malloc_loop avail).

Lemma bind_freep {B} (k : unit -> U B) p st : bind (set_freep p) k st = k tt (mkUm (um_mem st) (um_sz st) p).
Proof. done. Qed.

(** ** Taking a block *)

(** What [malloc] promises when it returns the block at [r] from the free blocks
    [F]: a block of [nunits] units that was free and is now in use. *)
Record taken (st : um) (F : list block) (A : gmap Z Z) (nunits r : Z) (st' : um) (F' : list block) : Prop := {
  t_inv : inv st' F' (<[r - 8 := nunits]> A);
  t_new : A !! (r - 8) = None;
  t_space : forall a, free_space F' a <-> free_space F a /\ ~ (r - 8 <= a < r - 8 + 8 * nunits);
  t_was : forall a, r - 8 <= a < r - 8 + 8 * nunits -> free_space F a;
  t_sz : um_sz st' = um_sz st;
  t_frame : forall a, ~ free_space F a -> a ≠ base -> a ≠ base + 4 -> um_mem st' !! a = um_mem st !! a }.

Lemma ring_apart st F A x a n : inv st F A -> x ∈ (base, 0) :: F -> A !! a = Some n ->
  a + 8 <= x.1 \/ x.1 + 8 <= a.
Proof.
  intros Hi Hx Ha. destruct (i_alloc _ _ _ _ Hi a n Ha) as (A1 & A2 & _).
  apply elem_of_cons in Hx as [->|Hx]; [cbn; lia|]. destruct (i_free _ _ _ _ Hi x Hx) as (? & ? & _).
  destruct (i_apart _ _ _ _ Hi a n x Ha Hx) as [Q|Q]; cbn in Q; lia.
Qed.

(** Free space after a block [x] of the list is replaced by its first part. *)
Lemma space_mid l1 l2 (x : block) k a : 0 <= k <= x.2 ->
  (forall y, y ∈ l1 -> y.1 + 8 * y.2 <= x.1) -> (forall y, y ∈ l2 -> x.1 + 8 * x.2 <= y.1) ->
  free_space (l1 ++ (x.1, k) :: l2) a
  <-> free_space (l1 ++ x :: l2) a /\ ~ (x.1 + 8 * k <= a < x.1 + 8 * x.2).
Proof.
  intros Hk H1 H2. rewrite !free_space_app, !free_space_cons. cbn [fst snd].
  assert (free_space l1 a -> a < x.1) as F1 by (intros (y & Hy & Ha); specialize (H1 y Hy); lia).
  assert (free_space l2 a -> x.1 + 8 * x.2 <= a) as F2 by (intros (y & Hy & Ha); specialize (H2 y Hy); lia).
  split.
  - intros [Hl|[Hx|Hl]]; [specialize (F1 Hl)| |specialize (F2 Hl)]; split; try tauto; try lia.
  - intros [[Hl|[Hx|Hl]] Hn]; [by left| |by right; right]. right. left. lia.
Qed.

Lemma space_drop l1 l2 (x : block) a :
  free_space (l1 ++ (x.1, 0) :: l2) a <-> free_space (l1 ++ l2) a.
Proof. rewrite !free_space_app, free_space_cons. cbn. split; [intros [?|[?|?]]; [by left|lia|by right]|tauto]. Qed.

Section Take.
Context (st : um) (F : list block) (A : gmap Z Z) (Hi : inv st F A).
Context (la : list block) (pv x : block) (lb : list block) (HL : (base, 0) :: F = la ++ pv :: x :: lb).

Lemma take_facts : x ∈ F /\ (exists f1, F = f1 ++ x :: lb /\ (base, 0) :: f1 = la ++ [pv])
  /\ (forall y, y ∈ la ++ [pv] -> y.1 + 8 <= x.1 /\ y.1 + 8 * y.2 < x.1)
  /\ (forall y, y ∈ lb -> x.1 + 8 <= y.1 /\ x.1 + 8 * x.2 < y.1)
  /\ (forall y, y ∈ la -> y.1 + 8 <= pv.1) /\ (forall y, y ∈ lb -> pv.1 + 8 <= y.1).
Proof using Hi HL.
  clear avail.
  pose proof (i_sorted _ _ _ _ Hi) as Hs. rewrite HL in Hs. pose proof Hs as Hs'.
  apply sorted_mid in Hs as (_ & _ & S3 & S4 & S5).
  replace (la ++ pv :: x :: lb) with ((la ++ [pv]) ++ x :: lb) in Hs' by (by rewrite <- app_assoc).
  apply sorted_mid in Hs' as (_ & _ & S6 & S7 & _).
  assert (HF : exists f1, F = f1 ++ x :: lb /\ (base, 0) :: f1 = la ++ [pv]).
  { destruct la as [|y la']; injection HL as H1 H2.
    - exists []. split; [done|]. cbn. by f_equal.
    - exists (la' ++ [pv]). rewrite <- app_assoc. split; [done|]. cbn. by f_equal. }
  split_and!; [|exact HF|exact S6|exact S7| |].
  - destruct HF as (f1 & -> & _). set_solver.
  - intros y Hy. by apply (S3 y).
  - intros y Hy. by apply (S4 y); right.
Qed.
End Take.

Lemma take_exact st F A la pv x lb f nunits : inv st F A -> (base, 0) :: F = la ++ pv :: x :: lb -> x.2 = nunits ->
  exists st' F', malloc_loop (S f) nunits pv.1 x.1 st = Ok (x.1 + 8) st' /\ taken st F A nunits (x.1 + 8) st' F'.
Proof.
  intros Hi HL Hx. destruct (take_facts st F A Hi la pv x lb HL) as (HxF & (f1 & HF & Hf1) & T1 & T2 & T3 & T4).
  destruct (i_free _ _ _ _ Hi x HxF) as (X1 & X2 & X3 & X4). destruct (i_sz _ _ _ _ Hi) as [Hsz _].
  destruct (i_base _ _ _ _ Hi) as [B0 _].
  pose proof (i_ring _ _ _ _ Hi) as Hr. rewrite HL in Hr. apply seg_app in Hr as (R1 & R2 & R3 & R4 & R5 & R6).
  cbn [head_or] in *.
  assert (Hpv : pv ∈ (base, 0) :: F) by (rewrite HL; set_solver).
  destruct (ring_valid _ _ _ _ _ Hi Hpv) as [V1 V2]. destruct (T1 pv ltac:(set_solver)) as [T5 T6].
  set (m' := <[pv.1 := head_or lb base]> (um_mem st)).
  exists (mkUm m' (um_sz st) pv.1), (f1 ++ lb). split.
  { cbn [Umalloc.malloc_loop]. unfold get_size at 1, get_ptr, set_ptr. rewrite u32_id by (unfold is_u32; lia).
    rewrite (bind_rd st _ (x.1 + 4) x.2) by (done || lia). rewrite Hx, Z.leb_refl, Z.eqb_refl.
    rewrite (bind_rd st _ x.1 (head_or lb base)) by (done || lia). rewrite bind_wr by lia.
    rewrite bind_freep. cbn [um_mem um_sz].
    rewrite hdr_small by lia. done. }
  assert (Hsub : forall y, y ∈ f1 ++ lb -> y ∈ F) by (rewrite HF; set_solver).
  assert (Hnew : A !! x.1 = None).
  { destruct (A !! x.1) as [k|] eqn:E; [|done]. destruct (i_alloc _ _ _ _ Hi _ _ E) as (_ & ? & _).
    destruct (i_apart _ _ _ _ Hi _ _ x E HxF) as [Q|Q]; cbn in Q; lia. }
  replace (x.1 + 8 - 8) with x.1 in * by lia.
  assert (Hsp : forall a, free_space (f1 ++ lb) a <-> free_space F a /\ ~ (x.1 <= a < x.1 + 8 * x.2)).
  { intros a. rewrite <- (space_drop f1 lb x), HF. rewrite (space_mid f1 lb x 0 a); [|lia| |].
    - by rewrite Z.mul_0_r, Z.add_0_r.
    - intros y Hy. assert (y ∈ la ++ [pv]) as Hy' by (rewrite <- Hf1; set_solver). destruct (T1 y Hy'). lia.
    - intros y Hy. destruct (T2 y Hy). lia. }
  split; cbn [um_sz um_mem]; replace (x.1 + 8 - 8) with x.1 by lia; rewrite <- ?Hx; try done.
  - split; cbn [um_sz um_mem um_freep]; try apply Hi.
    + replace ((base, 0) :: f1 ++ lb) with ((la ++ [pv]) ++ lb) by (rewrite <- Hf1; done). rewrite <- app_assoc.
      apply seg_app. cbn [app head_or]. split.
      * eapply seg_ext; [|exact R1]. intros y Hy. specialize (T3 y Hy). subst m'. by rewrite !lookup_insert_ne by lia.
      * cbn [seg]. subst m'. split_and!; [by rewrite lookup_insert_eq|by rewrite lookup_insert_ne by lia|].
        eapply seg_ext; [|exact R6]. intros y Hy. specialize (T4 y Hy). by rewrite !lookup_insert_ne by lia.
    + pose proof (i_sorted _ _ _ _ Hi) as Hs. rewrite HF in Hs.
      change ((base, 0) :: f1 ++ x :: lb) with (((base, 0) :: f1) ++ x :: lb) in Hs.
      change ((base, 0) :: f1 ++ lb) with (((base, 0) :: f1) ++ lb).
      apply sorted_mid in Hs as (? & ? & _ & _ & ?). by apply sorted_app.
    + intros y Hy. apply (i_free _ _ _ _ Hi). by apply Hsub.
    + assert (pv.1 ∈ ((base, 0) :: f1).*1) as Hp by (rewrite Hf1, fmap_app; set_solver).
      cbn in Hp. rewrite fmap_app. set_solver.
    + intros a n. rewrite lookup_insert_Some. intros [[<- <-]|[Hne Ha]].
      * split_and!; try done. subst m'. by rewrite lookup_insert_ne by lia.
      * destruct (i_alloc _ _ _ _ Hi a n Ha) as (A1 & A2 & A3 & A4 & A5). split_and!; try done.
        destruct (ring_apart _ _ _ _ _ _ Hi Hpv Ha); subst m'; by rewrite lookup_insert_ne by lia.
    + intros a n y. rewrite lookup_insert_Some. intros [[<- <-]|[Hne Ha]] Hy.
      * rewrite elem_of_app in Hy. destruct Hy as [Hy|Hy].
        -- assert (y ∈ la ++ [pv]) as Hy' by (rewrite <- Hf1; set_solver). destruct (T1 y Hy'). right. cbn. lia.
        -- destruct (T2 y Hy). left. cbn. lia.
      * apply (i_apart _ _ _ _ Hi); [done|by apply Hsub].
    + intros a n a' n'. rewrite !lookup_insert_Some. intros [[<- <-]|[Hne Ha]] [[<- <-]|[Hne' Ha']] Hd; try done.
      * destruct (i_apart _ _ _ _ Hi a' n' x Ha' HxF); [by right|by left].
      * exact (i_apart _ _ _ _ Hi a n x Ha HxF).
      * by apply (i_disj _ _ _ _ Hi).
  - intros a Ha. exists x. by split.
  - intros a Ha A1 A2. subst m'. apply lookup_insert_ne. intros <-.
    apply elem_of_cons in Hpv as [Hp|Hp]; [rewrite Hp in A1; done|]. apply Ha. exists pv.
    destruct (i_free _ _ _ _ Hi pv Hp) as (_ & ? & _). split; [done|lia].
Qed.

Lemma take_part st F A la pv x lb f nunits : inv st F A -> (base, 0) :: F = la ++ pv :: x :: lb -> 1 <= nunits < x.2 ->
  exists st' F' r, malloc_loop (S f) nunits pv.1 x.1 st = Ok r st' /\ taken st F A nunits r st' F'.
Proof.
  intros Hi HL Hx. destruct (take_facts st F A Hi la pv x lb HL) as (HxF & (f1 & HF & Hf1) & T1 & T2 & _ & _).
  destruct (i_free _ _ _ _ Hi x HxF) as (X1 & X2 & X3 & X4). destruct (i_sz _ _ _ _ Hi) as [Hsz _].
  destruct (i_base _ _ _ _ Hi) as [B0 _].
  pose proof (i_ring _ _ _ _ Hi) as Hr. rewrite HF in Hr. change ((base, 0) :: f1 ++ x :: lb) with (((base, 0) :: f1) ++ x :: lb) in Hr.
  rewrite Hf1 in Hr. apply seg_app in Hr as (R1 & R4 & R5 & R6). cbn [head_or] in *.
  set (k := x.2 - nunits). set (q := x.1 + 8 * k).
  set (m' := <[q + 4 := nunits]> (<[x.1 + 4 := k]> (um_mem st))).
  exists (mkUm m' (um_sz st) pv.1), (f1 ++ (x.1, k) :: lb), (q + 8). split.
  { cbn [Umalloc.malloc_loop]. unfold get_size at 1, set_size. rewrite u32_id by (unfold is_u32; lia).
    rewrite (bind_rd st _ (x.1 + 4) x.2) by (done || lia).
    rewrite (proj2 (Z.leb_le nunits x.2)), (proj2 (Z.eqb_neq x.2 nunits)) by lia.
    fold k. rewrite (u32_id k) by (unfold is_u32; lia). rewrite bind_wr by lia. cbv zeta.
    rewrite (hdr_small x.1 k) by lia. fold q. rewrite u32_id by (unfold is_u32; lia).
    rewrite bind_wr by (cbn; lia). rewrite bind_freep, hdr_small by lia. unfold ret. f_equal. }
  assert (Hf1' : forall y, y ∈ f1 -> y.1 + 8 <= x.1 /\ y.1 + 8 * y.2 < x.1).
  { intros y Hy. apply T1. rewrite <- Hf1. set_solver. }
  assert (Hnew : A !! q = None).
  { destruct (A !! q) as [j|] eqn:E; [|done]. destruct (i_alloc _ _ _ _ Hi _ _ E) as (_ & ? & _).
    destruct (i_apart _ _ _ _ Hi _ _ x E HxF) as [Q|Q]; cbn in Q; lia. }
  assert (Hsp : forall a, free_space (f1 ++ (x.1, k) :: lb) a <-> free_space F a /\ ~ (q <= a < q + 8 * nunits)).
  { intros a. rewrite HF. rewrite (space_mid f1 lb x k a); [|lia| |].
    - replace (q + 8 * nunits) with (x.1 + 8 * x.2) by lia. done.
    - intros y Hy. destruct (Hf1' y Hy). lia.
    - intros y Hy. destruct (T2 y Hy). lia. }
  assert (Hfar : forall a n, A !! a = Some n -> a + 8 * n <= x.1 \/ x.1 + 8 * x.2 <= a).
  { intros a n Ha. destruct (i_apart _ _ _ _ Hi a n x Ha HxF) as [Q|Q]; cbn in Q; lia. }
  assert (Hsub : forall y, y ∈ f1 ++ (x.1, k) :: lb -> y ∈ F \/ y = (x.1, k)) by (rewrite HF; set_solver).
  split; cbn [um_sz um_mem]; replace (q + 8 - 8) with q by lia; try done.
  - split; cbn [um_sz um_mem um_freep]; try apply Hi.
    + change ((base, 0) :: f1 ++ (x.1, k) :: lb) with (((base, 0) :: f1) ++ (x.1, k) :: lb). rewrite Hf1.
      apply seg_app. cbn [head_or fst]. split.
      * eapply seg_ext; [|exact R1]. intros y Hy. destruct (T1 y Hy). subst m'. by rewrite !lookup_insert_ne by lia.
      * cbn [seg fst snd]. subst m'. split_and!.
        -- by rewrite !lookup_insert_ne by lia.
        -- by rewrite lookup_insert_ne, lookup_insert_eq by lia.
        -- eapply seg_ext; [|exact R6]. intros y Hy. destruct (T2 y Hy). by rewrite !lookup_insert_ne by lia.
    + pose proof (i_sorted _ _ _ _ Hi) as Hs. rewrite HF in Hs.
      change ((base, 0) :: f1 ++ x :: lb) with (((base, 0) :: f1) ++ x :: lb) in Hs.
      change ((base, 0) :: f1 ++ (x.1, k) :: lb) with (((base, 0) :: f1) ++ (x.1, k) :: lb).
      apply sorted_mid in Hs as (? & ? & ? & ? & ?). apply sorted_mid. split_and!; try done.
      intros y Hy. destruct (T2 y Hy). unfold below. cbn. lia.
    + intros y Hy. apply Hsub in Hy as [Hy| ->]; [by apply (i_free _ _ _ _ Hi)|]. cbn. split_and!; (done || lia).
    + assert (pv.1 ∈ ((base, 0) :: f1).*1) as Hp by (rewrite Hf1, fmap_app; set_solver).
      cbn in Hp. rewrite fmap_app. set_solver.
    + intros a n. rewrite lookup_insert_Some. intros [[<- <-]|[Hne Ha]].
      * split_and!; try lia; [subst q; mlia|]. subst m'. by rewrite lookup_insert_eq.
      * destruct (i_alloc _ _ _ _ Hi a n Ha) as (A1 & A2 & A3 & A4 & A5). split_and!; try done.
        destruct (Hfar _ _ Ha); subst m'; by rewrite !lookup_insert_ne by lia.
    + intros a n y. rewrite lookup_insert_Some. intros [[<- <-]|[Hne Ha]] Hy.
      * rewrite elem_of_app in Hy. destruct Hy as [Hy|[->|Hy]%elem_of_cons].
        -- destruct (Hf1' y Hy). right. cbn. lia.
        -- right. cbn. lia.
        -- destruct (T2 y Hy). left. cbn. lia.
      * apply Hsub in Hy as [Hy| ->]; [by apply (i_apart _ _ _ _ Hi)|]. unfold apart. cbn. destruct (Hfar _ _ Ha); lia.
    + intros a n a' n'. rewrite !lookup_insert_Some. intros [[<- <-]|[Hne Ha]] [[<- <-]|[Hne' Ha']] Hd; try done.
      * unfold apart. cbn. destruct (Hfar _ _ Ha'); lia.
      * unfold apart. cbn. destruct (Hfar _ _ Ha); lia.
      * by apply (i_disj _ _ _ _ Hi).
  - intros a Ha. exists x. split; [done|]. lia.
  - intros a Ha A1 A2. subst m'. rewrite !lookup_insert_ne; [done| |]; intros <-; apply Ha; exists x; (split; [done|lia]).
Qed.

(** ** The search *)

Lemma take_fit st F A la pv x lb f nunits : inv st F A -> (base, 0) :: F = la ++ pv :: x :: lb -> 1 <= nunits <= x.2 ->
  exists st' F' r, malloc_loop (S f) nunits pv.1 x.1 st = Ok r st' /\ taken st F A nunits r st' F'.
Proof.
  intros Hi HL Hx. destruct (decide (x.2 = nunits)) as [He|].
  - destruct (take_exact st F A la pv x lb f nunits Hi HL He) as (st' & F' & H). eauto.
  - eapply take_part; [done|done|lia].
Qed.

Lemma first_fit nunits (l : list block) :
  (exists us x ws, l = us ++ x :: ws /\ (forall y, y ∈ us -> y.2 < nunits) /\ nunits <= x.2)
  \/ (forall y, y ∈ l -> y.2 < nunits).
Proof.
  induction l as [|z l IH]; [right; set_solver|]. destruct (decide (nunits <= z.2)) as [Hz|Hz].
  - left. exists [], z, l. split_and!; [done|set_solver|done].
  - destruct IH as [(us & x & ws & -> & H1 & H2)|H].
    + left. exists (z :: us), x, ws. split_and!; [done| |done]. intros y [->|Hy]%elem_of_cons; [lia|auto].
    + right. intros y [->|Hy]%elem_of_cons; [lia|auto].
Qed.

(** The last block of [pv :: us]. *)
Fixpoint last_of (pv : block) (us : list block) : block := match us with [] => pv | x :: us' => last_of x us' end.

Lemma last_of_app pv us : exists la, pv :: us = la ++ [last_of pv us].
Proof.
  revert pv. induction us as [|x us IH]; intros pv; [by exists []|]. destruct (IH x) as [la E].
  exists (pv :: la). cbn. by rewrite E.
Qed.

Lemma malloc_walk st nunits rest e f : um_sz st < 2147483648 -> forall us pv, seg (um_mem st) (us ++ rest) e ->
  (forall x, x ∈ us -> 0 <= x.1 /\ x.1 + 8 <= um_sz st /\ x.2 < nunits /\ x.1 ≠ um_freep st) ->
  malloc_loop (length us + f) nunits pv.1 (head_or (us ++ rest) e) st
  = malloc_loop f nunits (last_of pv us).1 (head_or rest e) st.
Proof.
  intros Hsz. induction us as [|x us IH]; intros pv Hs Hv; [done|].
  cbn [app seg length Nat.add Umalloc.malloc_loop head_or last_of] in *. destruct Hs as (H1 & H2 & Hs).
  destruct (Hv x ltac:(by left)) as (V1 & V2 & V3 & V4).
  unfold get_size at 1, get_ptr. rewrite u32_id by (unfold is_u32; lia). rewrite (bind_rd st _ (x.1 + 4) x.2) by (done || lia).
  rewrite (proj2 (Z.leb_gt nunits x.2)) by lia. rewrite (bind_Ok (gets um_freep) _ st _ st eq_refl).
  rewrite (proj2 (Z.eqb_neq x.1 (um_freep st))) by done. rewrite (bind_Ok (ret (Some x.1)) _ st _ st eq_refl).
  rewrite (bind_rd st _ x.1 (head_or (us ++ rest) e)) by (done || lia).
  apply IH; [done|]. intros y Hy. apply Hv. by right.
Qed.

(** The list as seen from [freep]. *)
Lemma at_freep st F A : inv st F A -> exists l1 fp l2, (base, 0) :: F = l1 ++ fp :: l2 /\ fp.1 = um_freep st
  /\ um_mem st !! um_freep st = Some (head_or l2 base)
  /\ (forall x, x ∈ l1 ++ l2 -> x.1 ≠ um_freep st)
  /\ (forall x, x ∈ l1 ++ fp :: l2 -> 0 <= x.1 /\ x.1 + 8 <= um_sz st)
  /\ seg (um_mem st) l2 base /\ seg (um_mem st) (l1 ++ [fp]) (head_or l2 base).
Proof.
  intros Hi. pose proof (i_freep _ _ _ _ Hi) as Hf. change (base :: F.*1) with (((base, 0) :: F).*1) in Hf.
  apply list_elem_of_fmap in Hf as (fp & Hfp & Hin). pose proof Hin as Hin'.
  apply list_elem_of_split in Hin as (l1 & l2 & HL). exists l1, fp, l2.
  pose proof (i_ring _ _ _ _ Hi) as Hr. pose proof (i_sorted _ _ _ _ Hi) as Hs. rewrite HL in Hr, Hs.
  apply sorted_mid in Hs as (_ & _ & S3 & S4 & _). pose proof Hr as Hr'. apply seg_app in Hr as (R1 & R2 & R3 & R4).
  rewrite Hfp. split_and!; try done.
  - intros x [Hx|Hx]%elem_of_app; [destruct (S3 x Hx)|destruct (S4 x Hx)]; lia.
  - intros x Hx. rewrite <- HL in Hx. destruct (ring_valid _ _ _ _ _ Hi Hx). lia.
  - replace (l1 ++ fp :: l2) with ((l1 ++ [fp]) ++ l2) in Hr' by (by rewrite <- app_assoc).
    by apply seg_app in Hr' as [? _].
Qed.

(** From [freep] round the list, when some block is large enough. *)
Lemma loop_fit st F A nunits f : inv st F A -> 1 <= nunits -> (exists x, x ∈ F /\ nunits <= x.2) ->
  (length F + 1 <= f)%nat ->
  exists nx st' F' r, um_mem st !! um_freep st = Some nx
    /\ malloc_loop f nunits (um_freep st) nx st = Ok r st' /\ taken st F A nunits r st' F'.
Proof.
  intros Hi Hn Hex Hf. destruct (at_freep _ _ _ Hi) as (l1 & fp & l2 & HL & Hfp & Hm & Hne & Hv & R2 & R1).
  destruct (i_sz _ _ _ _ Hi) as [Hsz _]. exists (head_or l2 base).
  pose proof (f_equal length HL) as Hlen. rewrite length_app in Hlen. cbn in Hlen.
  destruct (first_fit nunits l2) as [(us & x & ws & -> & U1 & U2)|U].
  - rewrite length_app in Hlen. cbn in Hlen. destruct (last_of_app fp us) as [la Hla].
    replace f with (length us + S (f - length us - 1))%nat by lia.
    destruct (take_fit st F A (l1 ++ la) (last_of fp us) x ws (f - length us - 1) nunits Hi) as (st' & F' & r & E & Ht);
      [|lia|].
    { rewrite HL. rewrite <- !app_assoc. f_equal. change (fp :: us ++ x :: ws) with ((fp :: us) ++ x :: ws).
      rewrite Hla. by rewrite <- app_assoc. }
    exists st', F', r. split_and!; [done| |done].
    rewrite <- Hfp, <- E. apply (malloc_walk st nunits (x :: ws) base (S (f - length us - 1))); [lia|done|].
    intros y Hy. destruct (Hv y ltac:(set_solver)). split_and!; try done; [by apply U1|apply Hne; set_solver].
  - assert (Hl1 : exists l1', l1 = (base, 0) :: l1').
    { destruct l1 as [|y l1']; injection HL as H1 H2; [|by exists l1'; subst]. subst F.
      destruct Hex as (x & Hx & Hx'). specialize (U x Hx). lia. }
    destruct Hl1 as [l1' ->]. cbn [app length] in *. injection HL as HL.
    destruct (first_fit nunits (l1' ++ [fp])) as [(us & x & ws & Hus & U1 & U2)|U'].
    2:{ destruct Hex as (x & Hx & Hx'). rewrite HL in Hx. exfalso.
        assert (x ∈ l1' ++ [fp] \/ x ∈ l2) as [H|H] by set_solver; [specialize (U' x H)|specialize (U x H)]; lia. }
    pose proof (f_equal length Hus) as Hlu. rewrite !length_app in Hlu. cbn in Hlu.
    destruct (last_of_app (base, 0) us) as [la Hla].
    set (g := (f - length l2 - length us - 2)%nat).
    destruct (take_fit st F A la (last_of (base, 0) us) x (ws ++ l2) g nunits Hi) as (st' & F' & r & E & Ht); [|lia|].
    { rewrite HL. replace (l1' ++ fp :: l2) with ((l1' ++ [fp]) ++ l2) by (by rewrite <- app_assoc).
      rewrite Hus. change ((base, 0) :: (us ++ x :: ws) ++ l2) with (((base, 0) :: us ++ x :: ws) ++ l2).
      change ((base, 0) :: us ++ x :: ws) with (((base, 0) :: us) ++ x :: ws). rewrite Hla, <- !app_assoc. done. }
    exists st', F', r. split_and!; [done| |done].
    replace f with (length l2 + (length ((base, 0%Z) :: us) + S g))%nat by (cbn; lia).
    pose proof (malloc_walk st nunits [] base (length ((base, 0%Z) :: us) + S g) ltac:(lia) l2 fp) as W1.
    rewrite app_nil_r in W1. rewrite <- Hfp, W1.
    + cbn [head_or]. pose proof (malloc_walk st nunits (x :: ws) (head_or l2 base) (S g) ltac:(lia) ((base, 0) :: us) (last_of fp l2)) as W2.
      cbn [app head_or fst last_of] in W2. rewrite W2; [exact E| |].
      * cbn [app] in R1. rewrite Hus in R1. exact R1.
      * assert (Hsub : forall y, y ∈ us -> y ∈ l1').
        { intros y Hy. destruct (exists_last (l := x :: ws)) as (ws' & z & Hz); [done|].
          rewrite Hz, app_assoc in Hus. apply app_inj_tail in Hus as [-> _]. set_solver. }
        intros y [->|Hy]%elem_of_cons.
        -- destruct (Hv (base, 0) ltac:(by left)). split_and!; try done; [cbn; lia|]. apply (Hne (base, 0)). by left.
        -- destruct (Hv y ltac:(right; specialize (Hsub y Hy); set_solver)). split_and!; try done; [by apply U1|].
           apply Hne. right. specialize (Hsub y Hy). set_solver.
    + done.
    + intros y Hy. destruct (Hv y ltac:(set_solver)). split_and!; try done; [by apply U|]. apply Hne. set_solver.
Qed.

(** Round the whole list, when no block is large enough: [morecore]. *)
Lemma loop_nofit st F A nunits f : inv st F A -> 1 <= nunits -> (forall x, x ∈ F -> x.2 < nunits) ->
  exists nx, um_mem st !! um_freep st = Some nx
    /\ malloc_loop (length F + S f) nunits (um_freep st) nx st
       = (q <- (q <- morecore avail nunits ;; ret (if q =? 0 then None else Some q)) ;;
          match q with None => ret 0 | Some p => n <- get_ptr p ;; malloc_loop f nunits p n end) st.
Proof.
  intros Hi Hn Hno. destruct (at_freep _ _ _ Hi) as (l1 & fp & l2 & HL & Hfp & Hm & Hne & Hv & R2 & R1).
  destruct (i_sz _ _ _ _ Hi) as [Hsz _]. exists (head_or l2 base). split; [done|].
  assert (Hno' : forall x, x ∈ l1 ++ fp :: l2 -> x.2 < nunits).
  { intros x Hx. rewrite <- HL in Hx. apply elem_of_cons in Hx as [->|Hx]; [cbn; lia|by apply Hno]. }
  pose proof (f_equal length HL) as Hlen. rewrite length_app in Hlen. cbn in Hlen.
  replace (length F + S f)%nat with (length l2 + (length l1 + S f))%nat by lia.
  pose proof (malloc_walk st nunits [] base (length l1 + S f) ltac:(lia) l2 fp) as W1. rewrite app_nil_r in W1.
  rewrite <- Hfp at 1. rewrite W1; [|done|].
  2:{ intros y Hy. destruct (Hv y ltac:(set_solver)). split_and!; try done; [apply Hno'; set_solver|apply Hne; set_solver]. }
  cbn [head_or]. pose proof (malloc_walk st nunits [fp] (head_or l2 base) (S f) ltac:(lia) l1 (last_of fp l2) R1) as W2.
  assert (head_or (l1 ++ [fp]) (head_or l2 base) = base) as Hb.
  { destruct l1 as [|y l1]; injection HL as H1 _; cbn; by rewrite <- H1. }
  rewrite Hb in W2. rewrite W2.
  2:{ intros y Hy. destruct (Hv y ltac:(set_solver)). split_and!; try done; [apply Hno'; set_solver|apply Hne; set_solver]. }
  cbn [head_or Umalloc.malloc_loop]. apply seg_app in R1 as (_ & R3 & R4 & _).
  destruct (Hv fp ltac:(set_solver)) as [V1 V2]. unfold get_size at 1. rewrite u32_id by (unfold is_u32; lia).
  rewrite (bind_rd st _ (fp.1 + 4) fp.2) by (done || lia).
  rewrite (proj2 (Z.leb_gt nunits fp.2)) by (apply Hno'; set_solver).
  rewrite (bind_Ok (gets um_freep) _ st _ st eq_refl), Hfp, Z.eqb_refl. done.
Qed.
(** ** More memory *)

(** A range of free addresses lies in one block. *)
Lemma one_block F lo n : StronglySorted below F -> 1 <= n ->
  (forall a, lo <= a < lo + 8 * n -> free_space F a) -> exists x, x ∈ F /\ n <= x.2.
Proof.
  intros Hs Hn Hf. destruct (Hf lo ltac:(lia)) as (x & Hx & X1). exists x. split; [done|].
  destruct (decide (lo + 8 * n <= x.1 + 8 * x.2)); [lia|]. exfalso.
  destruct (Hf (x.1 + 8 * x.2) ltac:(lia)) as (y & Hy & Y1).
  apply list_elem_of_split in Hx as (l1 & l2 & ->). apply sorted_mid in Hs as (_ & _ & S3 & S4 & _).
  rewrite elem_of_app, elem_of_cons in Hy. destruct Hy as [Hy|[->|Hy]]; [|lia|].
  - destruct (S3 y Hy). lia.
  - destruct (S4 y Hy). lia.
Qed.

(** The units [morecore] asks for. *)
Definition core_units (nu : Z) : Z := if nu <? 4096 then 4096 else nu.

Lemma morecore_eq st F A nu : inv st F A -> 1 <= nu -> 8 * nu < 2147483648 ->
  let nu' := core_units nu in let sz' := um_sz st + 8 * nu' in
  (morecore avail nu st = Ok 0 st /\ (KERNBASE <= sz' \/ avail (um_sz st) sz' = false))
  \/ exists st' F', morecore avail nu st = Ok (um_freep st') st' /\ inv st' F' A /\ um_freep st' ≠ 0
       /\ (exists x, x ∈ F' /\ nu <= x.2) /\ (length F' <= S (length F))%nat /\ um_sz st' = sz'
       /\ (forall a, free_space F' a <-> free_space F a \/ um_sz st <= a < sz')
       /\ (forall a, ~ free_space F a -> ~ (um_sz st <= a < sz') -> a ≠ base -> a ≠ base + 4 ->
             um_mem st' !! a = um_mem st !! a).
Proof.
  intros Hi Hn Hn2 nu' sz'. destruct (i_sz _ _ _ _ Hi) as [Hsz Hmod]. destruct (i_base _ _ _ _ Hi) as [B1 B2].
  assert (Hnu : nu <= nu' /\ 4096 <= nu' /\ 8 * nu' < 2147483648).
  { subst nu'. unfold core_units. destruct (nu <? 4096) eqn:E; bool_cases; lia. }
  unfold morecore. fold (core_units nu). fold nu'.
  assert (i32 (u32 (nu' * 8)) = 8 * nu') as ->.
  { rewrite u32_id, i32_id by (unfold is_u32, is_i32; lia). lia. }
  assert (Hsb : sbrk avail (8 * nu') st
    = if KERNBASE <=? sz' then Ok (-1) st
      else if avail (um_sz st) sz' then Ok (um_sz st) (mkUm (um_mem st) sz' (um_freep st)) else Ok (-1) st).
  { unfold sbrk. rewrite (bind_Ok (gets um_sz) _ st _ st eq_refl).
    assert (u32 (um_sz st + 8 * nu') = sz') as -> by (apply u32_id; unfold is_u32; lia).
    rewrite (proj2 (Z.ltb_lt 0 (8 * nu'))), (proj2 (Z.ltb_ge sz' (um_sz st))) by lia.
    destruct (KERNBASE <=? sz'); [done|]. by destruct (avail (um_sz st) sz'). }
  destruct (KERNBASE <=? sz') eqn:E1; bool_cases; [left; rewrite (bind_Ok _ _ _ _ _ Hsb); by split; [|left]|].
  destruct (avail (um_sz st) sz') eqn:E2; [|left; rewrite (bind_Ok _ _ _ _ _ Hsb); by split; [|right]].
  right. rewrite (bind_Ok _ _ _ _ _ Hsb), (proj2 (Z.eqb_neq (um_sz st) (-1))) by lia.
  unfold KERNBASE in E1. unfold set_size. rewrite (u32_id (_ + 4)) by (unfold is_u32; lia).
  rewrite bind_wr by (cbn; lia). cbn [um_mem um_sz um_freep].
  set (st1 := mkUm (<[um_sz st + 4 := nu']> (um_mem st)) sz' (um_freep st)).
  assert (Hmem : forall a, a < um_sz st -> um_mem st1 !! a = um_mem st !! a).
  { intros a Ha. cbn. apply lookup_insert_ne. lia. }
  assert (Hi1 : inv st1 F A).
  { destruct Hi as [I1 I2 I3 I4 I5 I6 I7 I8 I9]. split; cbn [st1 um_sz um_freep]; try done.
    - split; [lia|]. subst sz'. mlia.
    - eapply seg_ext; [|exact I3]. intros x Hx.
      assert (x.1 + 8 <= um_sz st) by (apply elem_of_cons in Hx as [->|Hx]; [cbn; lia|destruct (I5 x Hx) as (? & ? & _ & ?); lia]).
      split; apply Hmem; lia.
    - intros x Hx. destruct (I5 x Hx) as (? & ? & ? & ?). split_and!; (done || lia).
    - intros a n Ha. destruct (I7 a n Ha) as (? & ? & ? & ? & ?). split_and!; try done; [lia|]. rewrite Hmem by lia. done. }
  assert (Hd : detached base st1 F A (um_sz st) nu').
  { split; cbn [st1 um_sz um_mem].
    - split_and!; lia.
    - by rewrite lookup_insert_eq.
    - intros x Hx. destruct (i_free _ _ _ _ Hi x Hx) as (_ & _ & _ & ?). right. cbn. lia.
    - intros a n Ha. destruct (i_alloc _ _ _ _ Hi a n Ha) as (_ & _ & _ & ? & _). right. cbn. lia. }
  destruct (free_eq _ _ _ _ _ _ Hi1 Hd) as (st' & F' & Ef & I' & Hsz' & Hsp & Hlen & Hfr).
  exists st', F'. rewrite hdr_small by lia. replace (um_sz st + 8 * 1) with (um_sz st + 8) by lia.
  rewrite (bind_Ok _ _ _ _ _ Ef). cbn [st1 um_sz] in *. split_and!; try done.
  - pose proof (i_freep _ _ _ _ I') as Hp. apply elem_of_cons in Hp as [->|Hp]; [lia|].
    apply list_elem_of_fmap in Hp as (x & -> & Hx). destruct (i_free _ _ _ _ I' x Hx). lia.
  - destruct (one_block F' (um_sz st) nu') as (x & Hx & Hx'); [|lia| |exists x; split; [done|lia]].
    + pose proof (i_sorted _ _ _ _ I') as Hs. by inversion Hs.
    + intros a Ha. apply Hsp. by right.
  - intros a A1 A2 A3 A4. rewrite Hfr by done. destruct (decide (a < um_sz st)); [by apply Hmem|].
    cbn. apply lookup_insert_ne. lia.
Qed.

(** ** malloc *)

(** Before the first call [freep] is null, and there are no blocks. *)
Definition fresh (st : um) : Prop :=
  um_freep st = 0 /\ 0 < base /\ base mod 4 = 0 /\ base + 8 < um_sz st < 2147483648 /\ um_sz st mod 4 = 0.

Lemma fresh_inv st : fresh st ->
  inv (mkUm (<[base + 4 := 0]> (<[base := base]> (um_mem st))) (um_sz st) base) [] ∅.
Proof.
  intros (H0 & H1 & H2 & H3 & H4). split; cbn [um_mem um_sz um_freep]; try done.
  - cbn. split_and!; [by rewrite lookup_insert_ne, lookup_insert_eq by lia|by rewrite lookup_insert_eq|done].
  - repeat constructor.
  - set_solver.
  - by left.
Qed.

(** The memory of the blocks in use is the same. *)
Definition kept (A : gmap Z Z) (st st' : um) : Prop :=
  forall b k a, A !! b = Some k -> b <= a < b + 8 * k -> um_mem st' !! a = um_mem st !! a.

Definition units (nbytes : Z) : Z := (nbytes + 7) / 8 + 1.

Lemma in_use_apart st F A b k a : inv st F A -> A !! b = Some k -> b <= a < b + 8 * k ->
  ~ free_space F a /\ a ≠ base /\ a ≠ base + 4 /\ a < um_sz st.
Proof.
  intros Hi Hb Ha. destruct (i_alloc _ _ _ _ Hi b k Hb) as (B1 & B2 & _ & B4 & _). split_and!; try lia.
  intros (x & Hx & Hxa). destruct (i_apart _ _ _ _ Hi b k x Hb Hx) as [Q|Q]; cbn in Q; lia.
Qed.

Lemma malloc_inv st F A nbytes : inv st F A -> 0 <= nbytes <= 2147483632 ->
  exists r st' F', malloc base avail nbytes st = Ok r st' /\ kept A st st'
    /\ ((r = 0 /\ inv st' F' A /\ (forall x, x ∈ F -> x.2 < units nbytes)
           /\ let sz' := um_sz st + 8 * core_units (units nbytes) in KERNBASE <= sz' \/ avail (um_sz st) sz' = false)
        \/ (r ≠ 0 /\ A !! (r - 8) = None /\ inv st' F' (<[r - 8 := units nbytes]> A))).
Proof.
  intros Hi Hn. unfold malloc. destruct (i_sz _ _ _ _ Hi) as [Hsz _]. destruct (i_base _ _ _ _ Hi) as [B1 _].
  assert (Hu : 1 <= units nbytes /\ 8 * units nbytes < 2147483648) by (unfold units; mlia).
  assert (u32 (u32 (nbytes + 8 - 1) / 8 + 1) = units nbytes) as ->.
  { unfold units. replace (nbytes + 8 - 1) with (nbytes + 7) by lia.
    rewrite (u32_id (nbytes + 7)) by (unfold is_u32; lia). apply u32_id. unfold is_u32. mlia. }
  assert (Hfp : um_freep st ≠ 0).
  { pose proof (i_freep _ _ _ _ Hi) as Hp. apply elem_of_cons in Hp as [->|Hp]; [lia|].
    apply list_elem_of_fmap in Hp as (x & -> & Hx). destruct (i_free _ _ _ _ Hi x Hx). lia. }
  pose proof (ring_length _ _ _ _ Hi) as Hlen. cbn [length] in Hlen.
  rewrite (bind_Ok (gets um_freep) _ st _ st eq_refl), (proj2 (Z.eqb_neq (um_freep st) 0)) by done.
  rewrite (bind_Ok (ret (um_freep st)) _ st _ st eq_refl).
  assert (Hget : forall nx {B} (k : Z -> U B), um_mem st !! um_freep st = Some nx -> bind (get_ptr (um_freep st)) k st = k nx st).
  { intros nx B k Hm. destruct (at_freep _ _ _ Hi) as (l1 & fp & l2 & _ & E & _ & _ & Hv & _).
    destruct (Hv fp ltac:(set_solver)). unfold get_ptr. rewrite (bind_rd st _ _ nx); [done|lia|lia|done]. }
  destruct (first_fit (units nbytes) F) as [(us & x & ws & HF & _ & Hx)|Hno].
  - destruct (loop_fit st F A (units nbytes) (2 * headers (um_sz st) + 2) Hi) as (nx & st' & F' & r & Hm & E & [T1 T2 T3 T4 T5 T6]);
      [lia|exists x; split; [rewrite HF; set_solver|done]|lia|].
    exists r, st', F'. rewrite (Hget nx) by done. rewrite (bind_Ok (gets um_sz) _ st _ st eq_refl). split_and!; [done| |].
    + intros b k a Hb Ha. destruct (in_use_apart _ _ _ _ _ _ Hi Hb Ha) as (? & ? & ? & _). by apply T6.
    + right. split_and!; try done. destruct (i_alloc _ _ _ _ T1 (r - 8) (units nbytes)); [by rewrite lookup_insert_eq|lia].
  - destruct (loop_nofit st F A (units nbytes) (2 * headers (um_sz st) + 2 - length F - 1) Hi) as (nx & Hm & E); [lia|done|].
    rewrite (Hget nx) by done. rewrite (bind_Ok (gets um_sz) _ st _ st eq_refl).
    replace (length F + S (2 * headers (um_sz st) + 2 - length F - 1))%nat with (2 * headers (um_sz st) + 2)%nat in E by lia.
    rewrite E. unfold bind at 1.
    destruct (morecore_eq st F A (units nbytes) Hi) as [[Em Hwhy]|(st1 & F1 & Em & I1 & Hnz & Hex & Hl1 & Hsz1 & Hsp & Hfr)];
      [lia|lia| |].
    + rewrite (bind_Ok _ _ _ _ _ Em). exists 0, st, F. split_and!; [done|by intros ?|]. by left.
    + rewrite (bind_Ok _ _ _ _ _ Em). rewrite (proj2 (Z.eqb_neq (um_freep st1) 0)) by done. unfold ret at 1.
      destruct (loop_fit st1 F1 A (units nbytes) (2 * headers (um_sz st) + 2 - length F - 1) I1)
        as (nx1 & st' & F' & r & Hm1 & E1 & [T1 T2 T3 T4 T5 T6]); [lia|done|lia|].
      destruct (at_freep _ _ _ I1) as (l1 & fp & l2 & _ & Efp & _ & _ & Hv & _).
      destruct (Hv fp ltac:(set_solver)). unfold get_ptr. rewrite (bind_rd st1 _ _ nx1) by (done || lia).
      exists r, st', F'. split_and!; [done| |].
      * intros b k a Hb Ha. destruct (in_use_apart _ _ _ _ _ _ Hi Hb Ha) as (? & ? & ? & ?).
        destruct (in_use_apart _ _ _ _ _ _ I1 Hb Ha) as (? & ? & ? & ?). rewrite T6, Hfr by (done || lia). done.
      * right. split_and!; try done. destruct (i_alloc _ _ _ _ T1 (r - 8) (units nbytes)); [by rewrite lookup_insert_eq|lia].
Qed.
Lemma malloc_fresh st nbytes : fresh st -> malloc base avail nbytes st
  = malloc base avail nbytes (mkUm (<[base + 4 := 0]> (<[base := base]> (um_mem st))) (um_sz st) base).
Proof.
  intros (H0 & H1 & H2 & H3 & H4). unfold malloc.
  rewrite !(bind_Ok (gets um_freep) _ _ _ _ eq_refl), H0, Z.eqb_refl. cbn [um_freep].
  rewrite (proj2 (Z.eqb_neq base 0)) by lia. unfold bind at 1, set_ptr, set_size.
  rewrite bind_freep. rewrite bind_wr by (cbn; lia). rewrite u32_id by (unfold is_u32; lia).
  rewrite bind_wr by (cbn; lia). done.
Qed.

(** C32: [malloc] on requests of at most 2147483632 bytes, which with the header fit
    an [int]: it returns; either null, and then no
    free block is large enough and the kernel gives no more memory, or a block of
    enough units for [nbytes] bytes after its header that overlaps no block in
    use.  The blocks in use keep their contents, and the invariant holds. *)
Theorem malloc_correct st F A nbytes : inv st F A \/ (fresh st /\ F = [] /\ A = ∅) -> 0 <= nbytes <= 2147483632 ->
  exists r st' F', malloc base avail nbytes st = Ok r st' /\ kept A st st'
    /\ ((r = 0 /\ inv st' F' A /\ (forall x, x ∈ F -> x.2 < units nbytes)
           /\ let sz' := um_sz st + 8 * core_units (units nbytes) in KERNBASE <= sz' \/ avail (um_sz st) sz' = false)
        \/ (r ≠ 0 /\ A !! (r - 8) = None /\ nbytes <= 8 * (units nbytes - 1)
           /\ inv st' F' (<[r - 8 := units nbytes]> A))).
Proof.
  intros Hs Hn. assert (nbytes <= 8 * (units nbytes - 1)) by (unfold units; mlia).
  destruct Hs as [Hi|(Hf & -> & ->)].
  - destruct (malloc_inv st F A nbytes Hi Hn) as (r & st' & F' & H1 & H2 & [H3|(H3 & H4 & H5)]);
      exists r, st', F'; split_and!; try done; [by left|by right].
  - rewrite malloc_fresh by done.
    destruct (malloc_inv _ _ _ nbytes (fresh_inv st Hf) Hn) as (r & st' & F' & H1 & _ & [H3|(H3 & H4 & H5)]);
      exists r, st', F'; (split_and!; [done|by intros ?|]); [by left|by right].
Qed.

(** Requests of the last seven sizes below 4 GB wrap around: they are served like a
    request for no bytes, with a block that is only a header. *)
Theorem malloc_wraps st nbytes : 4294967289 <= nbytes < 4294967296 ->
  malloc base avail nbytes st = malloc base avail 0 st.
Proof.
  intros Hn. unfold malloc.
  assert (u32 (nbytes + 8 - 1) / 8 = u32 (0 + 8 - 1) / 8) as ->; [|done]. unfold u32. mlia.
Qed.
End Malloc.

(** ** Witnesses *)

Definition demo_um : um := mkUm ∅ 12288 0.

Lemma demo_fresh : fresh 4096 demo_um.
Proof. repeat split; cbn; lia. Qed.

Lemma malloc_correct_witness : exists st' F', malloc 4096 (fun _ _ => true) 100 demo_um = Ok 44952 st'
  /\ Umalloc.inv 4096 st' F' (<[44944 := 14]> ∅).
Proof.
  destruct (malloc_correct 4096 (fun _ _ => true) demo_um [] ∅ 100) as (r & st' & F' & E & _ & H).
  - right. split; [exact demo_fresh|split; reflexivity].
  - lia.
  - exists st', F'. assert (r = 44952) as Hr by (vm_compute in E; congruence). subst r. split; [exact E|].
    destruct H as [(H & _)|(_ & _ & _ & H)]; [discriminate H|exact H].
Defined.

Lemma malloc_wraps_witness : exists st', malloc 4096 (fun _ _ => true) 4294967295 demo_um = Ok 45056 st'.
Proof. eexists. rewrite malloc_wraps; [vm_compute; reflexivity|lia]. Defined.

Lemma free_correct_witness : exists st1 st2 F2, malloc 4096 (fun _ _ => true) 100 demo_um = Ok 44952 st1
  /\ free 44952 st1 = Ok tt st2 /\ Umalloc.inv 4096 st2 F2 ∅.
Proof.
  destruct (malloc_inv 4096 (fun _ _ => true) _ [] ∅ 100 (fresh_inv 4096 demo_um demo_fresh)) as (r & st1 & F1 & E & _ & H); [lia|].
  rewrite <- malloc_fresh in E by exact demo_fresh.
  assert (r = 44952) as Hr by (vm_compute in E; congruence). subst r.
  destruct H as [(H & _)|(_ & _ & H)]; [discriminate H|].
  destruct (free_correct 4096 st1 F1 (<[44944 := 14]> ∅) 44944 14 H) as (st2 & F2 & E2 & I2 & _).
  - vm_compute. reflexivity.
  - exists st1, st2, F2. split; [exact E|split; [exact E2|]]. rewrite delete_insert_id in I2; [exact I2|reflexivity].
Defined.
