(* ===== verification/Console.v ===== *)
(** * The console: console.c, kbd.c, uart.c, and procdump of proc.c

    Output goes to the serial port and to the screen, whose memory and cursor
    registers are part of the state; input arrives one character at a time from
    an interrupt and is edited in a ring buffer until a line is complete.  The
    console lock is held while the code runs, except while a reader sleeps: a read
    runs until it returns or has to sleep, and is resumed from there. *)

From S2P Require Import Prelude KMonad.

Definition BACKSPACE : Z := 256.
Definition INPUT_BUF : Z := 128.
(** [C(x)] *)
Definition ctrl (x : Z) : Z := x - 64.

Record console := mkCons {
  panicked : bool; locking : bool;
  c_lock : bool;                        (* cons.lock is held by this processor *)
  in_buf : list Z; in_r : Z; in_w : Z; in_e : Z;
  wakeups : nat;                        (* calls of wakeup(&input.r) *)
  cur_hi : Z; cur_lo : Z;               (* registers 14 and 15 of the display *)
  crt : list Z;                         (* display memory, in cells *)
  uart : bool; serial : list Z;         (* bytes sent to COM1 *)
  ip_locked : bool                      (* the caller of read or write holds its inode *)
}.

Definition C := M console.

Definition set_lock (b : bool) (s : console) : console :=
  mkCons (panicked s) (locking s) b (in_buf s) (in_r s) (in_w s) (in_e s) (wakeups s) (cur_hi s) (cur_lo s)
    (crt s) (uart s) (serial s) (ip_locked s).
Definition set_panic (s : console) : console :=
  mkCons true (locking s) (c_lock s) (in_buf s) (in_r s) (in_w s) (in_e s) (wakeups s) (cur_hi s) (cur_lo s)
    (crt s) (uart s) (serial s) (ip_locked s).
Definition set_locking (b : bool) (s : console) : console :=
  mkCons (panicked s) b (c_lock s) (in_buf s) (in_r s) (in_w s) (in_e s) (wakeups s) (cur_hi s) (cur_lo s)
    (crt s) (uart s) (serial s) (ip_locked s).
Definition set_input (b : list Z) (r w e : Z) (s : console) : console :=
  mkCons (panicked s) (locking s) (c_lock s) b r w e (wakeups s) (cur_hi s) (cur_lo s)
    (crt s) (uart s) (serial s) (ip_locked s).
Definition set_screen (hi lo : Z) (c : list Z) (s : console) : console :=
  mkCons (panicked s) (locking s) (c_lock s) (in_buf s) (in_r s) (in_w s) (in_e s) (wakeups s) hi lo
    c (uart s) (serial s) (ip_locked s).
Definition add_serial (c : Z) (s : console) : console :=
  mkCons (panicked s) (locking s) (c_lock s) (in_buf s) (in_r s) (in_w s) (in_e s) (wakeups s) (cur_hi s) (cur_lo s)
    (crt s) (uart s) (serial s ++ [c]) (ip_locked s).
Definition add_wakeup (s : console) : console :=
  mkCons (panicked s) (locking s) (c_lock s) (in_buf s) (in_r s) (in_w s) (in_e s) (S (wakeups s)) (cur_hi s) (cur_lo s)
    (crt s) (uart s) (serial s) (ip_locked s).
Definition set_ip (b : bool) (s : console) : console :=
  mkCons (panicked s) (locking s) (c_lock s) (in_buf s) (in_r s) (in_w s) (in_e s) (wakeups s) (cur_hi s) (cur_lo s)
    (crt s) (uart s) (serial s) b.

(** [acquire(&cons.lock)] and [release(&cons.lock)]. *)
Definition acquire_cons : C unit :=
  s <- gets id ;; if c_lock s then panic "acquire" else modify (set_lock true).
Definition release_cons : C unit :=
  s <- gets id ;; if negb (c_lock s) then panic "release" else modify (set_lock false).

(** ** Output *)

(** uart.c: the wait for the transmitter does not change what is sent. *)
Definition uartputc (c : Z) : C unit :=
  u <- gets uart ;; if negb u then ret tt else modify (add_serial (u8 c)).

(** [memmove(crt, crt+80, sizeof(crt[0])*23*80)] and
    [memset(crt+pos, 0, sizeof(crt[0])*(24*80 - pos))]. *)
Definition scroll (pos : nat) (c : list Z) : list Z :=
  let c := splice 0 (slice 80 (23 * 80) c) c in
  splice pos (replicate (24 * 80 - pos) 0) c.

Definition cgaputc (c : Z) : C unit :=
  s <- gets id ;;
  let pos := Z.lor (Z.shiftl (cur_hi s) 8) (cur_lo s) in
  let* (m, pos) :=
    (if c =? 10 then ret (crt s, pos + (80 - pos mod 80))
     else if c =? BACKSPACE then ret (crt s, if 0 <? pos then pos - 1 else pos)
     else m <- from_opt (zset (crt s) pos (Z.lor (Z.land c 255) 1792)) ;; ret (m, pos + 1)) in
  if (pos <? 0) || (25 * 80 <? pos) then panic "pos under/overflow"
  else
    let '(m, pos) := if 24 <=? pos / 80 then (scroll (Z.to_nat (pos - 80)) m, pos - 80) else (m, pos) in
    m <- from_opt (zset m pos (Z.lor 32 1792)) ;;
    modify (set_screen (u8 (Z.shiftr pos 8)) (u8 pos) m).

(** A processor that finds [panicked] set spins for ever. *)
Definition consputc (c : Z) : C unit :=
  p <- gets panicked ;;
  if p : bool then halt fuel_stop
  else
    (if c =? BACKSPACE then uartputc 8 ;;; uartputc 32 ;;; uartputc 8 else uartputc c) ;;;
    cgaputc c.

(** ["0123456789abcdef"] *)
Definition digit (d : Z) : Z := if d <? 10 then 48 + d else 87 + d.

(** The digits, lowest first; [room] bytes of [buf] are left. *)
Fixpoint digits (room : nat) (x base : Z) : option (list Z) :=
  match room with
  | O => None
  | S room' =>
      if x / base =? 0 then Some [digit (x mod base)]
      else r ← digits room' (x / base) base; Some (digit (x mod base) :: r)
  end.

Definition printint (xx base : Z) (sgn : bool) : C unit :=
  let neg := sgn && (xx <? 0) in
  let x := if neg then u32 (- xx) else u32 xx in
  buf <- from_opt (digits 16 x base) ;;
  buf <- (if neg then if 16 <=? zlen buf then halt fault_stop else ret (buf ++ [45]) else ret buf) ;;
  for_each (rev buf) consputc.

Section Cprintf.
(** The string in memory at an address, without its NUL. *)
Context (string_at : Z -> option (list Z)).

(** The loop of [cprintf] over the bytes of the format, up to its NUL; [argp] are
    the argument words. *)
Fixpoint cprintf_loop (fmt argp : list Z) : C unit :=
  match fmt with
  | [] => halt fault_stop
  | c :: fmt1 =>
      if c =? 0 then ret tt
      else if negb (c =? 37) then consputc c ;;; cprintf_loop fmt1 argp
      else
        match fmt1 with
        | [] => halt fault_stop
        | c :: fmt2 =>
            if c =? 0 then ret tt
            else if c =? 100 then
              a <- from_opt (head argp) ;; printint (i32 a) 10 true ;;; cprintf_loop fmt2 (tail argp)
            else if (c =? 120) || (c =? 112) then
              a <- from_opt (head argp) ;; printint (i32 a) 16 false ;;; cprintf_loop fmt2 (tail argp)
            else if c =? 115 then
              a <- from_opt (head argp) ;;
              s <- (if a =? 0 then ret [40; 110; 117; 108; 108; 41] else from_opt (string_at a)) ;;
              for_each s consputc ;;;
              cprintf_loop fmt2 (tail argp)
            else if c =? 37 then consputc 37 ;;; cprintf_loop fmt2 argp
            else consputc 37 ;;; consputc c ;;; cprintf_loop fmt2 argp
        end
  end.

Definition cprintf (fmt : option (list Z)) (argp : list Z) : C unit :=
  l <- gets locking ;;
  when l acquire_cons ;;;
  match fmt with
  | None => panic "null fmt"
  | Some fmt => cprintf_loop fmt argp ;;; when l release_cons
  end.

(** [panic(s)]: [pcs] are the ten callers that [getcallerpcs] finds. *)
Definition console_panic {A} (lapicid : Z) (s : list Z) (pcs : list Z) : C A :=
  modify (set_locking false) ;;;
  (* "lapicid %d: panic: " *)
  cprintf (Some [108; 97; 112; 105; 99; 105; 100; 32; 37; 100; 58; 32; 112; 97; 110; 105; 99; 58; 32; 0]) [lapicid] ;;;
  cprintf (Some (s ++ [0])) [] ;;;
  cprintf (Some [10; 0]) [] ;;;
  for_each pcs (fun pc => cprintf (Some [32; 37; 112; 0]) [pc]) ;;;
  modify set_panic ;;;
  halt fuel_stop.

(** proc.c: [procdump].  A process is its state, pid, the address of its name and
    the callers of a sleeping one; [state_name] gives the address of a state's
    name, as the table in the code does. *)
Definition procdump (unused sleeping : Z) (state_name : Z -> Z) (procs : list (Z * Z * Z * list Z)) : C unit :=
  for_each procs (fun '(state, pid, name, pcs) =>
    if state =? unused then ret tt
    else
      (* "%d %s %s" *)
      cprintf (Some [37; 100; 32; 37; 115; 32; 37; 115; 0]) [pid; state_name state; name] ;;;
      when (state =? sleeping)
        (_ <- for_until pcs (fun pc =>
           if pc =? 0 then ret (Some tt) else cprintf (Some [32; 37; 112; 0]) [pc] ;;; ret None) ;; ret tt) ;;;
      cprintf (Some [10; 0]) []).
End Cprintf.

(** [uartinit]: [status] is the line-status register; the other registers set the
    line up and are not read back. *)
Definition uartinit (status : Z) : C unit :=
  if status =? 255 then ret tt
  else
    modify (fun s => mkCons (panicked s) (locking s) (c_lock s) (in_buf s) (in_r s) (in_w s) (in_e s) (wakeups s)
                       (cur_hi s) (cur_lo s) (crt s) true (serial s) (ip_locked s)) ;;;
    (* "xv6...\n" *)
    for_each [120; 118; 54; 46; 46; 46; 10] uartputc.

(** [uartgetc]: [status] and [data] are the line-status and data registers. *)
Definition uartgetc (status data : Z) : C Z :=
  u <- gets uart ;;
  if negb u then ret (-1)
  else if Z.land status 1 =? 0 then ret (-1)
  else ret data.

(** ** Input *)

(** [input.buf[i % INPUT_BUF]] *)
Definition input_get (i : Z) : C Z :=
  s <- gets id ;; from_opt (zget (in_buf s) (i mod INPUT_BUF)).

Definition set_e (e : Z) : C unit := modify (fun s => set_input (in_buf s) (in_r s) (in_w s) e s).
Definition set_r (r : Z) : C unit := modify (fun s => set_input (in_buf s) r (in_w s) (in_e s) s).

(** The loop of control-U; the line being edited has at most [INPUT_BUF]
    characters, so that [fuel] is enough ([console_line_discipline]). *)
Fixpoint kill_line (fuel : nat) : C unit :=
  match fuel with
  | O => halt fuel_stop
  | S fuel' =>
      s <- gets id ;;
      if in_e s =? in_w s then ret tt
      else
        c <- input_get (u32 (in_e s - 1)) ;;
        if c =? 10 then ret tt
        else set_e (u32 (in_e s - 1)) ;;; consputc BACKSPACE ;;; kill_line fuel'
  end.

(** One character of [consoleintr]'s loop; the result is whether it asks for a
    process listing. *)
Definition console_key (c : Z) : C bool :=
  if c =? ctrl 80 then ret true
  else if c =? ctrl 85 then kill_line (S (Z.to_nat INPUT_BUF)) ;;; ret false
  else if (c =? ctrl 72) || (c =? 127) then
    s <- gets id ;;
    when (negb (in_e s =? in_w s)) (set_e (u32 (in_e s - 1)) ;;; consputc BACKSPACE) ;;;
    ret false
  else
    s <- gets id ;;
    when (negb (c =? 0) && (u32 (in_e s - in_r s) <? INPUT_BUF))
      (let c := if c =? 13 then 10 else c in
       b <- from_opt (zset (in_buf s) (in_e s mod INPUT_BUF) (i8 c)) ;;
       modify (set_input b (in_r s) (in_w s) (u32 (in_e s + 1))) ;;;
       consputc c ;;;
       s <- gets id ;;
       when ((c =? 10) || (c =? ctrl 68) || (in_e s =? u32 (in_r s + INPUT_BUF)))
         (modify (set_input (in_buf s) (in_r s) (in_e s) (in_e s)) ;;;
          modify add_wakeup)) ;;;
    ret false.

Fixpoint console_keys (keys : list Z) (doprocdump : bool) : C bool :=
  match keys with
  | [] => ret doprocdump
  | c :: keys' => d <- console_key c ;; console_keys keys' (d || doprocdump)
  end.

(** [keys] are the characters [getc] delivers before it returns a negative
    number; [dump] is [procdump]. *)
Definition consoleintr (dump : C unit) (keys : list Z) : C unit :=
  acquire_cons ;;;
  d <- console_keys keys false ;;
  release_cons ;;;
  when d dump.

(** How a run of the loop of [consoleread] ended, with [n] bytes left. *)
Inductive read_end := Finished (n : Z) | Sleeping (n : Z) | Killed.

(** The loop from [n] bytes left of [target]: the bytes stored at [dst], and how
    it ended. *)
Fixpoint read_loop (killed : bool) (target : Z) (n : nat) : C (list Z * read_end) :=
  match n with
  | O => ret ([], Finished 0)
  | S n' =>
      s <- gets id ;;
      if in_r s =? in_w s then
        ret ([], if killed then Killed else Sleeping (Z.of_nat n))
      else
        c <- input_get (in_r s) ;;
        set_r (u32 (in_r s + 1)) ;;;
        if c =? ctrl 68 then
          when (Z.of_nat n <? target) (s <- gets id ;; set_r (u32 (in_r s - 1))) ;;;
          ret ([], Finished (Z.of_nat n))
        else if c =? 10 then ret ([u8 c], Finished (Z.of_nat n'))
        else
          let* (l, r) := read_loop killed target n' in
          ret (u8 c :: l, r)
  end.

Inductive cresult := CRet (r : Z) | CSleep (n : Z).

(** [consoleread] from the point where it takes the lock, at the start or after a
    sleep, with [n] of [target] bytes left.  A sleep gives the lock back. *)
Definition consoleread_from (killed : bool) (target n : Z) : C (list Z * cresult) :=
  acquire_cons ;;;
  let* (l, r) := read_loop killed target (Z.to_nat n) in
  release_cons ;;;
  match r with
  | Sleeping m => ret (l, CSleep m)
  | Killed => modify (set_ip true) ;;; ret (l, CRet (-1))
  | Finished m => modify (set_ip true) ;;; ret (l, CRet (i32 (target - (if n <? 0 then n else m))))
  end.

Definition consoleread (killed : bool) (n : Z) : C (list Z * cresult) :=
  modify (set_ip false) ;;;
  consoleread_from killed (u32 n) n.

(** [buf] is the memory at the buffer's address. *)
Definition consolewrite (buf : list Z) (n : Z) : C Z :=
  modify (set_ip false) ;;;
  acquire_cons ;;;
  for_each (seq 0 (Z.to_nat n)) (fun i => c <- from_opt (buf !! i) ;; consputc (u8 c)) ;;;
  release_cons ;;;
  modify (set_ip true) ;;;
  ret n.

(** The device switch and the interrupt controller are other components'. *)
Definition consoleinit : C unit :=
  modify (set_lock false) ;;; modify (set_locking true).

(** ** The keyboard: kbd.c and the tables of kbd.h *)

Definition SHIFT : Z := Z.shiftl 1 0.
Definition CTL : Z := Z.shiftl 1 1.
Definition ALT : Z := Z.shiftl 1 2.
Definition CAPSLOCK : Z := Z.shiftl 1 3.
Definition NUMLOCK : Z := Z.shiftl 1 4.
Definition SCROLLLOCK : Z := Z.shiftl 1 5.
Definition E0ESC : Z := Z.shiftl 1 6.
Definition KEY_HOME : Z := 224.
Definition KEY_END : Z := 225.
Definition KEY_UP : Z := 226.
Definition KEY_DN : Z := 227.
Definition KEY_LF : Z := 228.
Definition KEY_RT : Z := 229.
Definition KEY_PGUP : Z := 230.
Definition KEY_PGDN : Z := 231.
Definition KEY_INS : Z := 232.
Definition KEY_DEL : Z := 233.

(** An array of 256 bytes with its first elements and the ones given by index. *)
Definition table (l : list Z) (d : list (Z * Z)) : list Z :=
  foldl (fun t x => <[Z.to_nat x.1 := x.2]> t) (l ++ replicate (256 - length l) 0) d.

Definition shiftcode : list Z :=
  table [] [(29, CTL); (42, SHIFT); (54, SHIFT); (56, ALT); (157, CTL); (184, ALT)].
Definition togglecode : list Z := table [] [(58, CAPSLOCK); (69, NUMLOCK); (70, SCROLLLOCK)].

Definition normalmap : list Z := table [
   0; 27; 49; 50; 51; 52; 53; 54; 55; 56; 57; 48; 45; 61; 8; 9;
   113; 119; 101; 114; 116; 121; 117; 105; 111; 112; 91; 93; 10; 0; 97; 115;
   100; 102; 103; 104; 106; 107; 108; 59; 39; 96; 0; 92; 122; 120; 99; 118;
   98; 110; 109; 44; 46; 47; 0; 42; 0; 32; 0; 0; 0; 0; 0; 0;
   0; 0; 0; 0; 0; 0; 0; 55; 56; 57; 45; 52; 53; 54; 43; 49;
   50; 51; 48; 46; 0; 0; 0; 0]
  [(156, 10); (181, 47); (200, KEY_UP); (208, KEY_DN); (201, KEY_PGUP); (209, KEY_PGDN); (203, KEY_LF); (205, KEY_RT);
   (151, KEY_HOME); (207, KEY_END); (210, KEY_INS); (211, KEY_DEL)].

Definition shiftmap : list Z := table [
   0; 27; 33; 64; 35; 36; 37; 94; 38; 42; 40; 41; 95; 43; 8; 9;
   81; 87; 69; 82; 84; 89; 85; 73; 79; 80; 123; 125; 10; 0; 65; 83;
   68; 70; 71; 72; 74; 75; 76; 58; 34; 126; 0; 124; 90; 88; 67; 86;
   66; 78; 77; 60; 62; 63; 0; 42; 0; 32; 0; 0; 0; 0; 0; 0;
   0; 0; 0; 0; 0; 0; 0; 55; 56; 57; 45; 52; 53; 54; 43; 49;
   50; 51; 48; 46; 0; 0; 0; 0]
  [(156, 10); (181, 47); (200, KEY_UP); (208, KEY_DN); (201, KEY_PGUP); (209, KEY_PGDN); (203, KEY_LF); (205, KEY_RT);
   (151, KEY_HOME); (207, KEY_END); (210, KEY_INS); (211, KEY_DEL)].

Definition ctlmap : list Z := table [
   0; 0; 0; 0; 0; 0; 0; 0; 0; 0; 0; 0; 0; 0; 0; 0;
   17; 23; 5; 18; 20; 25; 21; 9; 15; 16; 0; 0; 13; 0; 1; 19;
   4; 6; 7; 8; 10; 11; 12; 0; 0; 0; 0; 28; 26; 24; 3; 22;
   2; 14; 13; 0; 0; 239; 0; 0]
  [(156, 13); (181, 239); (200, KEY_UP); (208, KEY_DN); (201, KEY_PGUP); (209, KEY_PGDN); (203, KEY_LF); (205, KEY_RT);
   (151, KEY_HOME); (207, KEY_END); (210, KEY_INS); (211, KEY_DEL)].

(** [charcode[i]] *)
Definition charcode (i : Z) : option (list Z) := zget [normalmap; shiftmap; ctlmap; ctlmap] i.

(** [kbdgetc]: the status and data registers are [st] and [data]; the result and
    the static variable [shift].  [None] is an access outside a table. *)
Definition kbdgetc (st data shift : Z) : option (Z * Z) :=
  if Z.land st 1 =? 0 then Some (-1, shift)
  else if data =? 224 then Some (0, Z.lor shift E0ESC)
  else if negb (Z.land data 128 =? 0) then
    let data := if negb (Z.land shift E0ESC =? 0) then data else Z.land data 127 in
    s ← zget shiftcode data;
    Some (0, Z.land shift (u32 (Z.lnot (Z.lor s E0ESC))))
  else
    let '(data, shift) :=
      if negb (Z.land shift E0ESC =? 0) then (Z.lor data 128, Z.land shift (u32 (Z.lnot E0ESC)))
      else (data, shift) in
    s ← zget shiftcode data;
    let shift := Z.lor shift s in
    t ← zget togglecode data;
    let shift := Z.lxor shift t in
    m ← charcode (Z.land shift (Z.lor CTL SHIFT));
    c ← zget m data;
    let c := if negb (Z.land shift CAPSLOCK =? 0) then
               if (97 <=? c) && (c <=? 122) then c + (65 - 97)
               else if (65 <=? c) && (c <=? 90) then c + (97 - 65)
               else c
             else c in
    Some (c, shift).

(** The results of [kbdgetc] over the scan codes the controller holds, until it
    has no more. *)
Fixpoint kbd_keys (codes : list Z) (shift : Z) : option (list Z * Z) :=
  match codes with
  | [] => '(_, shift) ← kbdgetc 0 0 shift; Some ([], shift)
  | data :: codes' =>
      '(c, shift) ← kbdgetc 1 data shift;
      '(l, shift) ← kbd_keys codes' shift;
      Some (c :: l, shift)
  end.

Definition kbdintr (dump : C unit) (codes : list Z) (shift : Z) : C Z :=
  let* (keys, shift) := from_opt (kbd_keys codes shift) in
  consoleintr dump keys ;;; ret shift.

(** The bytes of the serial port, until its status register says there are no
    more. *)
Fixpoint uart_keys (data : list Z) : C (list Z) :=
  match data with
  | [] => ret []
  | x :: data' => c <- uartgetc 1 x ;; if c <? 0 then ret [] else l <- uart_keys data' ;; ret (c :: l)
  end.

Definition uartintr (dump : C unit) (data : list Z) : C unit :=
  keys <- uart_keys data ;; consoleintr dump keys.
