(* ===== verification/ConsoleSpec.v ===== *)
(** * What the console promises

    The terminal: the screen is the text that was written, cut to whole rows.
    The line discipline: the ring buffer of console.c implements two queues of
    characters, the lines that can be read and the line that is being edited. *)

From S2P Require Import Prelude KMonad Console.

(** ** The terminal *)

Definition blank : Z := Z.lor 32 1792.

(** A cleared cell shows as a blank one. *)
Definition shows (cell : Z) : Z := if cell =? 0 then blank else cell.

(** What a character adds to the text. *)
Definition drawn (c : Z) (t : list Z) : list Z :=
  if c =? 10 then t ++ replicate (80 - length t `mod` 80) blank
  else if c =? BACKSPACE then take (length t - 1) t
  else t ++ [Z.lor (Z.land c 255) 1792].

(** And what the screen then shows: the last row is kept free by
    dropping the first one. *)
Definition term_put (c : Z) (t : list Z) : list Z :=
  let t' := drawn c t in
  if (1920 <=? length t')%nat then drop 80 t' else t'.

Definition cursor (s : console) : Z := Z.lor (Z.shiftl (cur_hi s) 8) (cur_lo s).

(** The screen shows the text [t], with the cursor after it and nothing behind. *)
Record screen (s : console) (t : list Z) : Prop := {
  sc_hi : is_byte (cur_hi s); sc_lo : is_byte (cur_lo s);
  sc_cursor : cursor s = Z.of_nat (length t);
  sc_len : (length t < 1920)%nat;
  sc_crt : length (crt s) = Z.to_nat 16384;
  sc_text : shows <$> take 1920 (crt s) = t ++ replicate (1920 - length t) blank }.

(** Everything but the screen and the serial port. *)
Definition same_input (s s' : console) : Prop :=
  panicked s' = panicked s /\ locking s' = locking s /\ c_lock s' = c_lock s /\ in_buf s' = in_buf s
  /\ in_r s' = in_r s /\ in_w s' = in_w s /\ in_e s' = in_e s /\ wakeups s' = wakeups s
  /\ uart s' = uart s /\ ip_locked s' = ip_locked s.

Lemma same_input_trans s1 s2 s3 : same_input s1 s2 -> same_input s2 s3 -> same_input s1 s3.
Proof. unfold same_input. intuition congruence. Qed.

Lemma lor_shift8 hi lo : is_byte lo -> Z.lor (Z.shiftl hi 8) lo = hi * 256 + lo.
Proof.
  intros Hl. rewrite Z.shiftl_mul_pow2 by lia. apply (lor_low hi lo 8); [lia|done].
Qed.

Lemma lor_attr_ne c : Z.lor (Z.land c 255) 1792 ≠ 0.
Proof. rewrite Z.lor_eq_0_iff. intros [_ ?]. lia. Qed.

(** The visible cells. *)
Definition cells (m : list Z) : list Z := shows <$> take 1920 m.
Definition padded (t : list Z) : list Z := t ++ replicate (1920 - length t) blank.

Section Screen.
Local Abbreviation big m := (1920 < length m)%nat.

Lemma cells_insert m i x : big m -> cells (<[i := x]> m) = <[i := shows x]> (cells m).
Proof.
  intros Hm. unfold cells. destruct (decide (i < 1920)%nat).
  - rewrite take_insert_lt by lia. by rewrite list_fmap_insert.
  - rewrite take_insert_ge by lia. rewrite list_insert_ge; [done|]. rewrite length_fmap, length_take. lia.
Qed.

Lemma length_cells m : big m -> length (cells m) = 1920%nat.
Proof. intros. unfold cells. rewrite length_fmap, length_take. lia. Qed.

Lemma lookup_cells m i : (i < 1920)%nat -> cells m !! i = shows <$> m !! i.
Proof. intros. unfold cells. by rewrite list_lookup_fmap, lookup_take_lt. Qed.

Lemma padded_put t x : (length t < 1920)%nat -> <[length t := x]> (padded t) = padded (t ++ [x]).
Proof.
  intros. unfold padded. rewrite insert_app_r_alt by lia. rewrite Nat.sub_diag, length_app, <- app_assoc. f_equal.
  cbn [length]. replace (1920 - length t)%nat with (S (1920 - (length t + 1))) by lia. done.
Qed.

Lemma padded_blanks t k : (length t + k <= 1920)%nat -> padded (t ++ replicate k blank) = padded t.
Proof.
  intros. unfold padded. rewrite length_app, length_replicate, <- app_assoc, <- replicate_add. do 2 f_equal. lia.
Qed.

Lemma padded_back t : (0 < length t)%nat -> (length t <= 1920)%nat ->
  <[(length t - 1)%nat := blank]> (padded t) = padded (take (length t - 1) t).
Proof.
  intros. destruct t as [|x u _] using rev_ind; [simpl in *; lia|].
  rewrite length_app in *. cbn [length] in *. replace (length u + 1 - 1)%nat with (length u) by lia.
  rewrite take_app_length. unfold padded. rewrite length_app, <- app_assoc, insert_app_r_alt by lia.
  rewrite Nat.sub_diag. cbn. f_equal. replace (1920 - length u)%nat with (S (1920 - (length u + 1))) by lia. done.
Qed.

(** The cursor cell is blank already. *)
Lemma padded_cursor t : (length t <= 1920)%nat -> <[length t := blank]> (padded t) = padded t.
Proof.
  intros. destruct (decide (length t = 1920%nat)) as [E|].
  - apply list_insert_ge. unfold padded. rewrite length_app, length_replicate. lia.
  - rewrite padded_put by lia. apply (padded_blanks t 1). lia.
Qed.

Lemma scroll_cells m t : big m -> length t = 1920%nat -> cells m = padded t ->
  big (scroll 1840 m) /\ length (scroll 1840 m) = length m /\ cells (scroll 1840 m) = padded (drop 80 t).
Proof.
  intros Hm Ht Hc. unfold scroll. change (23 * 80)%nat with 1840%nat. change (24 * 80 - 1840)%nat with 80%nat.
  assert (L1 : length (slice 80 1840 m) = 1840%nat) by (apply length_slice; lia).
  assert (L2 : length (splice 0 (slice 80 1840 m) m) = length m) by (apply length_splice; lia).
  assert (L3 : length (replicate 80 0) = 80%nat) by apply length_replicate.
  set (m2 := splice 0 _ m) in *. rewrite length_splice by lia. split_and!; [lia|done|].
  unfold padded in *. rewrite Ht, Nat.sub_diag, app_nil_r in Hc. rewrite length_drop, Ht.
  apply list_eq. intros i. destruct (decide (i < 1920)%nat); cycle 1.
  { rewrite !lookup_ge_None_2; [done| |].
    - rewrite length_app, length_drop, length_replicate. lia.
    - rewrite length_cells; [lia|]. rewrite length_splice; lia. }
  rewrite lookup_cells by done. destruct (decide (i < 1840)%nat).
  - rewrite lookup_splice_out by lia. unfold m2. rewrite lookup_splice_in by lia.
    rewrite Nat.sub_0_r, lookup_slice by lia. rewrite lookup_app_l by (rewrite length_drop; lia).
    rewrite lookup_drop, <- Hc, lookup_cells by lia. done.
  - rewrite lookup_splice_in by lia. rewrite lookup_app_r by (rewrite length_drop; lia).
    rewrite length_drop, Ht, !lookup_replicate_2 by lia. done.
Qed.

End Screen.

Lemma drawn_length c t : (length t < 1920)%nat -> (length (drawn c t) <= 1920)%nat.
Proof.
  intros H. unfold drawn. pose proof (Nat.div_mod (length t) 80 ltac:(lia)).
  pose proof (Nat.mod_upper_bound (length t) 80 ltac:(lia)). repeat case_if.
  - rewrite length_app, length_replicate. lia.
  - rewrite length_take. lia.
  - rewrite length_app. simpl. lia.
Qed.

(** The first part of [cgaputc] draws the character, up to the cursor's cell. *)
Lemma cga_draw s t c : screen s t ->
  let pos := Z.of_nat (length t) in
  exists m, (if c =? 10 then ret (crt s, pos + (80 - pos mod 80))
     else if c =? BACKSPACE then ret (crt s, if 0 <? pos then pos - 1 else pos)
     else m <- from_opt (zset (crt s) pos (Z.lor (Z.land c 255) 1792)) ;; ret (m, pos + 1)) s
     = Ok (m, Z.of_nat (length (drawn c t))) s
     /\ length m = length (crt s)
     /\ <[length (drawn c t) := blank]> (cells m) = padded (drawn c t).
Proof.
  intros [H1 H2 H3 H4 H5 H6] pos. unfold pos. fold (cells (crt s)) in H6. fold (padded t) in H6.
  pose proof (drawn_length c t H4) as HL.
  unfold drawn in *. destruct (c =? 10); [|destruct (c =? BACKSPACE)].
  - exists (crt s). rewrite length_app, length_replicate in *. split_and!; [|done|].
    + unfold ret. do 2 f_equal. rewrite Nat2Z.inj_add, Nat2Z.inj_sub, Nat2Z.inj_mod; [done|].
      pose proof (Nat.mod_upper_bound (length t) 80). lia.
    + rewrite H6, <- (padded_blanks t (80 - length t `mod` 80)) by lia.
      pose proof (padded_cursor (t ++ replicate (80 - length t `mod` 80) blank)) as E.
      rewrite length_app, length_replicate in E. apply E. lia.
  - exists (crt s). rewrite length_take. split_and!; [|done|].
    + unfold ret. do 2 f_equal. destruct (Z.ltb_spec 0 (Z.of_nat (length t))); lia.
    + rewrite H6. destruct t as [|x t']; [apply (padded_cursor []); simpl; lia|].
      rewrite Nat.min_l by lia. apply padded_back; simpl in *; lia.
  - exists (<[length t := Z.lor (Z.land c 255) 1792]> (crt s)). rewrite length_app in *. cbn [length] in *.
    rewrite zset_nat by lia. split_and!; [|by rewrite length_insert|].
    + cbn. do 2 f_equal. lia.
    + rewrite cells_insert by lia. rewrite H6. unfold shows.
      rewrite (proj2 (Z.eqb_neq _ _) (lor_attr_ne c)), padded_put by done.
      pose proof (padded_cursor (t ++ [Z.lor (Z.land c 255) 1792])) as E.
      rewrite length_app in E. apply E. simpl. lia.
Qed.

(** The last part stores the cursor. *)
Lemma cga_cursor s m d : length m = Z.to_nat 16384 -> (length d < 1920)%nat ->
  <[length d := blank]> (cells m) = padded d ->
  let pos := Z.of_nat (length d) in
  exists hi lo m', (m' <- from_opt (zset m pos blank) ;; modify (set_screen (u8 (Z.shiftr pos 8)) (u8 pos) m')) s
    = Ok tt (set_screen hi lo m' s) /\ screen (set_screen hi lo m' s) d.
Proof.
  intros Lm Ld Hc pos. unfold pos. rewrite zset_nat by lia. do 3 eexists. split; [done|].
  split; cbn; [apply u8_range|apply u8_range| |done|by rewrite length_insert|].
  - unfold cursor. cbn. rewrite lor_shift8 by apply u8_range. rewrite Z.shiftr_div_pow2 by lia.
    change (2 ^ 8) with 256. unfold u8. mlia.
  - fold (cells (<[length d := blank]> m)). rewrite cells_insert by lia. exact Hc.
Qed.

(** A character on the screen. *)
Lemma cgaputc_screen s t c : screen s t ->
  exists hi lo m, cgaputc c s = Ok tt (set_screen hi lo m s) /\ screen (set_screen hi lo m s) (term_put c t).
Proof.
  intros Hs. destruct (cga_draw s t c Hs) as (m & E & Lm & Cm). destruct Hs as [H1 H2 H3 H4 H5 H6].
  unfold cgaputc. rewrite (bind_Ok (gets id) _ s s s eq_refl). cbv zeta. unfold cursor in H3. rewrite H3.
  pose proof (drawn_length c t H4) as HL. rewrite (bind_Ok _ _ _ _ _ E). cbn beta iota.
  unfold term_put. set (d := drawn c t) in *.
  rewrite (proj2 (Z.ltb_ge _ 0)), (proj2 (Z.ltb_ge (25 * 80) _)) by lia. cbn [orb].
  destruct (Z.leb_spec 24 (Z.of_nat (length d) / 80)).
  - assert (L0 : length d = 1920%nat) by mlia. cbv zeta. rewrite (proj2 (Nat.leb_le _ _)) by lia.
    replace (Z.to_nat (Z.of_nat (length d) - 80)) with 1840%nat by lia.
    rewrite list_insert_ge in Cm by (rewrite length_cells; lia).
    destruct (scroll_cells m d ltac:(lia) L0 Cm) as (B1 & B2 & B3).
    assert (Ld : length (drop 80 d) = 1840%nat) by (rewrite length_drop; lia).
    replace (Z.of_nat (length d) - 80) with (Z.of_nat (length (drop 80 d))) by lia.
    apply cga_cursor; [lia|lia|]. rewrite B3. apply padded_cursor. lia.
  - assert (length d < 1920)%nat by mlia. cbv zeta. rewrite (proj2 (Nat.leb_gt _ _)) by lia.
    apply cga_cursor; [lia|lia|done].
Qed.

(** The bytes a character sends to the serial port. *)
Definition echoed (c : Z) : list Z := if c =? BACKSPACE then [8; 32; 8] else [u8 c].

Lemma uartputc_eq c s : uartputc c s = Ok tt (if uart s then add_serial (u8 c) s else s).
Proof. unfold uartputc, bind, gets. by destruct (uart s). Qed.

Lemma screen_serial s t c : screen s t -> screen (add_serial c s) t.
Proof. intros [H1 H2 H3 H4 H5 H6]. split; [exact H1|exact H2|exact H3|exact H4|exact H5|exact H6]. Qed.

Lemma consputc_screen s t c : screen s t -> panicked s = false ->
  exists s', consputc c s = Ok tt s' /\ screen s' (term_put c t) /\ same_input s s'
    /\ serial s' = serial s ++ (if uart s then echoed c else []).
Proof.
  intros Hs Hp. unfold consputc, echoed. rewrite (bind_Ok (gets panicked) _ s _ s eq_refl), Hp.
  assert (Hu : exists s1, (if c =? BACKSPACE then uartputc 8 ;;; uartputc 32 ;;; uartputc 8 else uartputc c) s = Ok tt s1
    /\ screen s1 t /\ same_input s s1 /\ serial s1 = serial s ++ (if uart s then if c =? BACKSPACE then [8; 32; 8] else [u8 c] else [])).
  { destruct (c =? BACKSPACE).
    - rewrite !(bind_Ok _ _ _ _ _ (uartputc_eq _ _)), uartputc_eq. eexists. split; [reflexivity|].
      destruct (uart s) eqn:U; cbn; rewrite ?U; cbn; rewrite ?U; cbn; rewrite <- ?app_assoc, ?app_nil_r;
        (split_and!; [auto using screen_serial|by repeat split|done]).
    - rewrite uartputc_eq. eexists. split; [reflexivity|].
      destruct (uart s) eqn:U; cbn; rewrite ?U, ?app_nil_r; (split_and!; [auto using screen_serial|by repeat split|done]). }
  destruct Hu as (s1 & E & S1 & I1 & O1). rewrite (bind_Ok _ _ _ _ _ E).
  destruct (cgaputc_screen s1 t c S1) as (hi & lo & m & E2 & S2). rewrite E2. eexists. split_and!; [done|done| |].
  - eapply same_input_trans; [exact I1|done].
  - cbn. exact O1.
Qed.

(** ** Printing *)

(** Code that only prints: it returns, and the screen shows some text. *)
Definition outputs (m : C unit) : Prop := forall s t, screen s t -> panicked s = false ->
  exists s' t', m s = Ok tt s' /\ screen s' t' /\ same_input s s'.
(** The same for code that takes the console lock. *)
Definition prints (m : C unit) : Prop := forall s t, screen s t -> panicked s = false -> c_lock s = false ->
  exists s' t', m s = Ok tt s' /\ screen s' t' /\ same_input s s'.

Lemma same_input_refl s : same_input s s.
Proof. by repeat split. Qed.

Lemma outputs_ret : outputs (ret tt).
Proof. intros s t Hs Hp. exists s, t. split_and!; [done|done|apply same_input_refl]. Qed.

Lemma outputs_seq m k : outputs m -> outputs k -> outputs (m ;;; k).
Proof.
  intros Hm Hk s t Hs Hp. destruct (Hm s t Hs Hp) as (s1 & t1 & E1 & S1 & I1).
  destruct (Hk s1 t1 S1) as (s2 & t2 & E2 & S2 & I2); [by destruct I1 as [-> _]|].
  exists s2, t2. rewrite (bind_Ok _ _ _ _ _ E1). split_and!; [done|done|by eapply same_input_trans].
Qed.

Lemma prints_seq m k : prints m -> prints k -> prints (m ;;; k).
Proof.
  intros Hm Hk s t Hs Hp Hl. destruct (Hm s t Hs Hp Hl) as (s1 & t1 & E1 & S1 & I1).
  destruct (Hk s1 t1 S1) as (s2 & t2 & E2 & S2 & I2); [by destruct I1 as [-> _]|by destruct I1 as (_ & _ & -> & _)|].
  exists s2, t2. rewrite (bind_Ok _ _ _ _ _ E1). split_and!; [done|done|by eapply same_input_trans].
Qed.

Lemma prints_ret : prints (ret tt).
Proof. intros s t Hs Hp _. by apply (outputs_ret s t). Qed.

Lemma outputs_consputc c : outputs (consputc c).
Proof. intros s t Hs Hp. destruct (consputc_screen s t c Hs Hp) as (s' & E & S1 & I1 & _). by exists s', (term_put c t). Qed.

Lemma outputs_each l : outputs (for_each l consputc).
Proof. induction l; cbn [for_each]; [apply outputs_ret|]. apply outputs_seq; [apply outputs_consputc|done]. Qed.

Lemma prints_each {A} (l : list A) (f : A -> C unit) : (forall x, x ∈ l -> prints (f x)) -> prints (for_each l f).
Proof.
  intros H. induction l as [|x l IH]; cbn [for_each]; [apply prints_ret|].
  apply prints_seq; [apply H; by left|]. apply IH. intros y Hy. apply H. by right.
Qed.

Lemma digits_some room x base : 1 < base -> 0 <= x < base ^ Z.of_nat room -> (0 < room)%nat ->
  exists l, digits room x base = Some l /\ (length l <= room)%nat.
Proof.
  intros Hb. revert x. induction room as [|room IH]; intros x Hx Hr; [lia|]. cbn [digits].
  destruct (Z.eqb_spec (x / base) 0); [eexists; split; [done|simpl; lia]|].
  rewrite Nat2Z.inj_succ, Z.pow_succ_r in Hx by lia. destruct room as [|room].
  { exfalso. apply n. apply Z.div_small. simpl in Hx. lia. }
  destruct (IH (x / base)) as (l & -> & Hl); [|lia|].
  - split; [apply Z.div_pos; lia|apply Z.div_lt_upper_bound; lia].
  - eexists. split; [done|]. simpl in *. lia.
Qed.

(** Ten digits and a sign fit the buffer. *)
Lemma outputs_printint xx base sgn : 10 <= base -> outputs (printint xx base sgn).
Proof.
  intros Hb. unfold printint. cbv zeta.
  set (x := if sgn && (xx <? 0) then u32 (- xx) else u32 xx).
  assert (Hx : 0 <= x < base ^ Z.of_nat 15).
  { assert (0 <= x < 4294967296) by (unfold x; destruct (sgn && _); apply u32_range).
    assert (10 ^ 15 <= base ^ 15) by (apply Z.pow_le_mono_l; lia). change (Z.of_nat 15) with 15. lia. }
  destruct (digits_some 15 x base ltac:(lia) Hx ltac:(lia)) as (l & El & Hl).
  assert (E16 : digits 16 x base = Some l).
  { assert (Hm : forall r y q, digits r y base = Some q -> digits (S r) y base = Some q); [|by apply Hm].
    clear. intros r. induction r as [|r IH]; [done|]. intros y q. cbn [digits]. case_if; [done|].
    destruct (digits r (y / base) base) as [q'|] eqn:E'; [|done]. specialize (IH _ _ E'). cbn [digits] in IH.
    rewrite IH. done. }
  rewrite E16. intros s t Hs Hp. destruct (sgn && (xx <? 0)); cbn [from_opt].
  - rewrite (bind_Ok (ret l) _ s l s eq_refl), (proj2 (Z.leb_gt 16 (zlen l))) by (unfold zlen; lia).
    by apply (outputs_each _ s t).
  - by apply (outputs_each _ s t).
Qed.

Section Printf.
Context (string_at : Z -> option (list Z)).

(** A format and its arguments that [cprintf] can print. *)
Fixpoint printable (fmt argp : list Z) : bool :=
  match fmt with
  | [] => false
  | c :: fmt1 =>
      if c =? 0 then true
      else if negb (c =? 37) then printable fmt1 argp
      else
        match fmt1 with
        | [] => false
        | c :: fmt2 =>
            if c =? 0 then true
            else if (c =? 100) || (c =? 120) || (c =? 112) then bool_decide (argp ≠ []) && printable fmt2 (tail argp)
            else if c =? 115 then
              match argp with
              | [] => false
              | a :: argp => ((a =? 0) || bool_decide (is_Some (string_at a))) && printable fmt2 argp
              end
            else printable fmt2 argp
        end
  end.

Lemma outputs_cprintf_loop n fmt argp : (length fmt <= n)%nat -> printable fmt argp = true ->
  outputs (cprintf_loop string_at fmt argp).
Proof.
  revert fmt argp. induction n as [|n IH]; intros fmt argp Hn Hp.
  { destruct fmt; [done|simpl in Hn; lia]. }
  destruct fmt as [|c fmt1]; [done|]. cbn [printable cprintf_loop] in *. cbn [length] in Hn.
  destruct (c =? 0); [apply outputs_ret|]. destruct (negb (c =? 37)).
  { apply outputs_seq; [apply outputs_consputc|]. apply IH; [lia|done]. }
  destruct fmt1 as [|d fmt2]; [done|]. cbn [length] in Hn. destruct (d =? 0); [apply outputs_ret|].
  destruct (d =? 100); [|destruct ((d =? 120) || (d =? 112)) eqn:D2; [|destruct (d =? 115)]].
  - cbn [orb] in Hp. destruct argp as [|a argp]; [done|]. apply andb_true_iff in Hp as [_ Hp].
    apply (outputs_seq (printint (i32 a) 10 true)); [apply outputs_printint; lia|]. apply IH; [lia|done].
  - cbn [orb] in Hp. destruct argp as [|a argp]; [rewrite D2 in Hp; done|]. rewrite D2 in Hp. apply andb_true_iff in Hp as [_ Hp].
    apply (outputs_seq (printint (i32 a) 16 false)); [apply outputs_printint; lia|]. apply IH; [lia|done].
  - cbn [orb] in Hp. rewrite D2 in Hp. destruct argp as [|a argp]; [done|]. apply andb_true_iff in Hp as [Ha Hp].
    assert (exists l, (if a =? 0 then ret [40; 110; 117; 108; 108; 41] else from_opt (string_at a)) = @ret console _ l) as [l El].
    { destruct (a =? 0); [by eexists|]. cbn in Ha. apply bool_decide_eq_true in Ha as [l ->]. by exists l. }
    intros s t Hs Hk. cbn [head from_opt]. rewrite (bind_Ok (ret a) _ s a s eq_refl), El, (bind_Ok (ret l) _ s l s eq_refl).
    apply (outputs_seq _ _ (outputs_each l) (IH fmt2 argp ltac:(lia) Hp) s t); done.
  - cbn [orb] in Hp. rewrite D2 in Hp. destruct (d =? 37).
    + apply outputs_seq; [apply outputs_consputc|]. apply IH; [lia|done].
    + apply outputs_seq; [apply outputs_consputc|]. apply outputs_seq; [apply outputs_consputc|]. apply IH; [lia|done].
Qed.

Lemma prints_cprintf fmt argp : printable fmt argp = true -> prints (cprintf string_at (Some fmt) argp).
Proof.
  intros Hp s t Hs Hk Hl. pose proof (outputs_cprintf_loop _ fmt argp (le_n _) Hp) as Ho. unfold cprintf.
  rewrite (bind_Ok (gets locking) _ s _ s eq_refl). destruct (locking s) eqn:L; cbn [when].
  - assert (E : acquire_cons s = Ok tt (set_lock true s)).
    { unfold acquire_cons, bind, gets, id. by rewrite Hl. }
    rewrite (bind_Ok _ _ _ _ _ E). destruct (Ho (set_lock true s) t) as (s1 & t1 & E1 & S1 & I1); [by destruct Hs; split|done|].
    rewrite (bind_Ok _ _ _ _ _ E1). exists (set_lock false s1), t1. destruct I1 as (I1 & I2 & I3 & I4). split_and!.
    + unfold release_cons, bind, gets, id. rewrite I3. done.
    + by destruct S1; split.
    + unfold same_input. cbn in *. rewrite Hl. tauto.
  - rewrite (bind_Ok (ret tt) _ s tt s eq_refl). destruct (Ho s t Hs Hk) as (s1 & t1 & E1 & S1 & I1).
    rewrite (bind_Ok _ _ _ _ _ E1). by exists s1, t1.
Qed.

(** [procdump] prints, when the names it is given are strings. *)
Lemma prints_procdump unused sleeping state_name procs :
  (forall x, is_Some (string_at (state_name x))) ->
  (forall state pid name pcs, (state, pid, name, pcs) ∈ procs -> is_Some (string_at name)) ->
  prints (procdump string_at unused sleeping state_name procs).
Proof.
  intros Hst Hnm. unfold procdump. apply prints_each. intros [[[state pid] name] pcs] Hx. apply Hnm in Hx.
  destruct (state =? unused); [apply prints_ret|]. apply prints_seq; [|apply prints_seq].
  - apply prints_cprintf. cbn. rewrite !(bool_decide_eq_true_2 (is_Some _)), !orb_true_r by done. done.
  - destruct (state =? sleeping); cbn [when]; [|apply prints_ret].
    assert (Hu : forall l s t, screen s t -> panicked s = false -> c_lock s = false ->
      exists s' t' r, for_until l (fun pc : Z => if pc =? 0 then ret (Some tt) else
        cprintf string_at (Some [32; 37; 112; 0]) [pc] ;;; ret None) s = Ok r s' /\ screen s' t' /\ same_input s s').
    { induction l as [|pc l IH]; intros s t Hs Hp Hl; cbn [for_until].
      - exists s, t, None. split_and!; [done|done|apply same_input_refl].
      - destruct (pc =? 0); [exists s, t, (Some tt); split_and!; [done|done|apply same_input_refl]|].
        destruct (prints_cprintf [32; 37; 112; 0] [pc] eq_refl s t Hs Hp Hl) as (s1 & t1 & E1 & S1 & I1).
        destruct (IH s1 t1 S1) as (s2 & t2 & r & E2 & S2 & I2); [by destruct I1 as [-> _]|by destruct I1 as (_ & _ & -> & _)|].
        exists s2, t2, r. rewrite <- bind_assoc. unfold bind at 1. rewrite E1. split_and!; [exact E2|done|by eapply same_input_trans]. }
    intros s t Hs Hp Hl. destruct (Hu pcs s t Hs Hp Hl) as (s' & t' & r & E & S1 & I1).
    exists s', t'. rewrite (bind_Ok _ _ _ _ _ E). done.
  - by apply prints_cprintf.
Qed.
End Printf.
