(* ===== verification/LineDisc.v ===== *)
(** * The console's line discipline

    An abstract console: a queue of characters that can be read, and the line that
    is being edited.  The ring buffer of console.c, with its three counters that
    wrap around, implements it over every sequence of interrupts, reads that
    start, sleep and resume, and writes. *)

From S2P Require Import Prelude KMonad Console ConsoleSpec.

(** ** The abstract console *)

(** Characters as bytes. *)
Record line := mkLine { ready : list Z; edit : list Z; woken : nat }.

(** The character is stored; a complete line, an end of file or a full buffer
    makes the line available and wakes the readers. *)
Definition line_add (c : Z) (L : line) : line :=
  let e := edit L ++ [c] in
  if (c =? 10) || (c =? 4) || (length (ready L) + length e =? 128)%nat
  then mkLine (ready L ++ e) [] (S (woken L))
  else mkLine (ready L) e (woken L).

Definition line_key (c : Z) (L : line) : line :=
  if c =? 16 then L
  else if c =? 21 then mkLine (ready L) [] (woken L)
  else if (c =? 8) || (c =? 127) then mkLine (ready L) (take (length (edit L) - 1) (edit L)) (woken L)
  else if (c =? 0) || (length (ready L) + length (edit L) =? 128)%nat then L
  else line_add (if c =? 13 then 10 else c) L.

(** A read takes the rest of a line, but no more than [n] bytes; an end of file
    ends it, and stays for the next read if this one has bytes to return. *)
Fixpoint take_line (killed : bool) (target : Z) (n : nat) (q : list Z) : list Z * read_end * list Z :=
  match n with
  | O => ([], Finished 0, q)
  | S n' =>
      match q with
      | [] => ([], if killed then Killed else Sleeping (Z.of_nat n), [])
      | c :: q' =>
          if c =? 4 then ([], Finished (Z.of_nat n), if Z.of_nat n <? target then q else q')
          else if c =? 10 then ([c], Finished (Z.of_nat n'), q')
          else let '(l, r, q'') := take_line killed target n' q' in (c :: l, r, q'')
      end
  end.

Definition line_read (killed : bool) (target n : Z) (L : line) : (list Z * cresult) * line :=
  let '(l, r, q) := take_line killed target (Z.to_nat n) (ready L) in
  ((l, match r with
       | Sleeping m => CSleep m
       | Killed => CRet (-1)
       | Finished m => CRet (target - m)
       end), mkLine q (edit L) (woken L)).

(** ** The simulation *)

Section Port.
(** Whether there is a serial port. *)
Context (port : bool).

Record sim (s : console) (L : line) : Prop := {
  sim_panicked : panicked s = false;
  sim_port : uart s = port;
  sim_len : length (in_buf s) = 128%nat;
  sim_r : is_u32 (in_r s);
  sim_w : in_w s = u32 (in_r s + zlen (ready L));
  sim_e : in_e s = u32 (in_r s + zlen (ready L) + zlen (edit L));
  sim_room : zlen (ready L) + zlen (edit L) <= 128;
  sim_full : zlen (edit L) = 0 \/ zlen (ready L) + zlen (edit L) < 128;
  sim_chars : forall k c, (ready L ++ edit L) !! k = Some c ->
    is_byte c /\ zget (in_buf s) ((in_r s + Z.of_nat k) mod 128) = Some (i8 c);
  sim_edit : Forall (fun c => c ≠ 10) (edit L);
  sim_woken : wakeups s = woken L }.

(** The simulation only looks at the input. *)
Lemma sim_same s s' L : same_input s s' -> sim s L -> sim s' L.
Proof.
  intros (I1 & I2 & I3 & I4 & I5 & I6 & I7 & I8 & I9 & I10) [].
  split; rewrite ?I1, ?I4, ?I5, ?I6, ?I7, ?I8, ?I9; done.
Qed.

Lemma i8_byte_inj c d : is_byte c -> is_byte d -> i8 c = i8 d -> c = d.
Proof. unfold is_byte, i8. mlia. Qed.

Lemma u8_i8 c : is_byte c -> u8 (i8 c) = c.
Proof. unfold is_byte, i8, u8. mlia. Qed.

Section Sim.
Context (s : console) (L : line) (HS : sim s L).

Lemma w_ne_e : (in_e s =? in_w s) = bool_decide (edit L = []).
Proof using HS.
  destruct HS. rewrite sim_w0, sim_e0. unfold zlen, u32, is_u32 in *. case_bool_decide as E.
  - rewrite E. apply Z.eqb_eq. f_equal. simpl. lia.
  - apply Z.eqb_neq. destruct (edit L); [done|]. simpl length in *. mlia.
Qed.

Lemma r_eq_w : (in_r s =? in_w s) = bool_decide (ready L = []).
Proof using HS.
  destruct HS. rewrite sim_w0. unfold zlen, u32, is_u32 in *. case_bool_decide as E.
  - rewrite E. apply Z.eqb_eq. simpl. mlia.
  - apply Z.eqb_neq. destruct (ready L); [done|]. simpl length in *. mlia.
Qed.

Lemma used_eq : u32 (in_e s - in_r s) = zlen (ready L) + zlen (edit L).
Proof using HS. destruct HS. rewrite sim_e0. unfold zlen, u32, is_u32 in *. mlia. Qed.

(** The last character of the line. *)
Lemma last_char e c : edit L = e ++ [c] -> input_get (u32 (in_e s - 1)) s = Ok (i8 c) s.
Proof using HS.
  intros E. destruct HS. destruct (sim_chars0 (length (ready L) + length e)%nat c) as [_ Hg].
  { rewrite E, lookup_app_r by lia. replace (_ + _ - _)%nat with (length e) by lia. by apply list_lookup_middle. }
  unfold input_get. rewrite (bind_Ok (gets id) _ s s s eq_refl). unfold INPUT_BUF.
  replace (u32 (in_e s - 1) mod 128) with ((in_r s + Z.of_nat (length (ready L) + length e)) mod 128); [by rewrite Hg|].
  rewrite sim_e0, E. unfold zlen. rewrite length_app. cbn [length]. unfold u32. mlia.
Qed.

(** The last character is taken off the line. *)
Lemma sim_back e c : edit L = e ++ [c] ->
  sim (set_input (in_buf s) (in_r s) (in_w s) (u32 (in_e s - 1)) s) (mkLine (ready L) e (woken L)).
Proof using HS.
  intros E. destruct HS. rewrite E in *. unfold zlen in *. rewrite length_app in *. cbn [length] in *. split; cbn; unfold zlen; try done; [|lia|lia| |].
  - rewrite sim_e0. unfold u32. mlia.
  - intros k d Hk. apply sim_chars0. rewrite app_assoc. by apply lookup_app_l_Some.
  - by apply Forall_app in sim_edit0 as [? _].
Qed.
End Sim.

(** The console, its screen included, is in a state of the abstract one. *)
Definition at_line (s : console) (L : line) : Prop := sim s L /\ exists t, screen s t.

Lemma screen_input b r w e s t : screen s t -> screen (set_input b r w e s) t.
Proof. intros [H1 H2 H3 H4 H5 H6]. split; [exact H1|exact H2|exact H3|exact H4|exact H5|exact H6]. Qed.

(** An echo changes nothing but the screen and the serial port. *)
Lemma echo_sim c s L : at_line s L -> exists s', consputc c s = Ok tt s' /\ at_line s' L /\ same_input s s'.
Proof.
  intros [HS [t Ht]]. destruct (consputc_screen s t c Ht (sim_panicked _ _ HS)) as (s' & E & S1 & I1 & _).
  exists s'. split_and!; [done| |done]. split; [by eapply sim_same|eauto].
Qed.

Lemma back_echo s L e c : at_line s L -> edit L = e ++ [c] ->
  exists s', (set_e (u32 (in_e s - 1)) ;;; consputc BACKSPACE) s = Ok tt s'
    /\ at_line s' (mkLine (ready L) e (woken L)) /\ c_lock s' = c_lock s.
Proof.
  intros [HS [t Ht]] E. pose proof (sim_back s L HS e c E) as HB.
  destruct (echo_sim BACKSPACE (set_input (in_buf s) (in_r s) (in_w s) (u32 (in_e s - 1)) s) (mkLine (ready L) e (woken L)))
    as (s' & E' & A' & I').
  { split; [done|]. exists t. by apply screen_input. }
  exists s'. split_and!; [exact E'|done|]. by destruct I' as (_ & _ & -> & _).
Qed.

(** Control-U erases the whole line being edited: it has no newline. *)
Lemma kill_line_sim fuel s L : at_line s L -> (length (edit L) < fuel)%nat ->
  exists s', kill_line fuel s = Ok tt s' /\ at_line s' (mkLine (ready L) [] (woken L)) /\ c_lock s' = c_lock s.
Proof.
  revert s L. induction fuel as [|fuel IH]; intros s L HA Hf; [lia|]. cbn [kill_line].
  rewrite (bind_Ok (gets id) _ s s s eq_refl), (w_ne_e s L (proj1 HA)).
  destruct (edit L) as [|c e _] eqn:E using rev_ind.
  - rewrite bool_decide_eq_true_2 by done. exists s. split_and!; [done| |done].
    destruct L; cbn in *; by subst.
  - rewrite bool_decide_eq_false_2 by (by destruct e).
    rewrite (bind_Ok _ _ _ _ _ (last_char s L (proj1 HA) e c E)).
    assert (Hc : c ≠ 10 /\ is_byte c).
    { destruct (proj1 HA). rewrite E in *. apply Forall_app in sim_edit0 as [_ Hc]. apply Forall_cons in Hc as [Hc _].
      split; [exact Hc|]. apply (sim_chars0 (length (ready L ++ e))). rewrite app_assoc. by apply list_lookup_middle. }
    rewrite (proj2 (Z.eqb_neq (i8 c) 10)).
    2: { intros E'. destruct Hc as [Hc Hb]. apply Hc. unfold i8, is_byte in *. mlia. }
    destruct (back_echo s L e c HA E) as (s1 & E1 & A1 & C1).
    rewrite bind_assoc, (bind_Ok _ _ _ _ _ E1).
    destruct (IH s1 (mkLine (ready L) e (woken L)) A1) as (s2 & E2 & A2 & C2).
    { rewrite length_app in Hf. cbn in *. lia. }
    exists s2. split; [exact E2|]. split; [exact A2|congruence].
Qed.

(** A character is stored behind the line. *)
Lemma sim_store s L c : sim s L -> is_byte c -> zlen (ready L) + zlen (edit L) < 128 ->
  exists b, zset (in_buf s) (in_e s mod INPUT_BUF) (i8 c) = Some b /\ length b = 128%nat
    /\ forall k d, (ready L ++ edit L ++ [c]) !! k = Some d ->
         is_byte d /\ zget b ((in_r s + Z.of_nat k) mod 128) = Some (i8 d).
Proof.
  intros [] Hc Hr. unfold INPUT_BUF.
  assert (Hi : 0 <= in_e s mod 128 < 128) by (apply Z.mod_pos_bound; lia).
  rewrite zset_ok by (unfold zlen; rewrite sim_len0; lia). eexists. split; [done|].
  rewrite length_insert. split; [done|]. intros k d Hk. rewrite app_assoc in Hk.
  assert (Hn : Z.of_nat (length (ready L ++ edit L)) = zlen (ready L) + zlen (edit L)).
  { unfold zlen. rewrite length_app. lia. }
  unfold zget. rewrite (proj2 (Z.leb_le 0 _)) by (apply Z.mod_pos_bound; lia).
  apply lookup_app_Some in Hk as [Hk|[Hk1 Hk2]].
  - apply lookup_lt_Some in Hk as Hlt. destruct (sim_chars0 k d Hk) as [Hb Hg]. split; [done|].
    rewrite list_lookup_insert_ne; [|rewrite sim_e0; unfold u32; mlia].
    by apply zget_Some in Hg as [_ Hg].
  - apply list_lookup_singleton_Some in Hk2 as [Hk2 <-]. split; [done|].
    replace ((in_r s + Z.of_nat k) mod 128) with (in_e s mod 128); [|rewrite sim_e0; unfold u32; mlia].
    apply list_lookup_insert_eq. lia.
Qed.

(** The new line, before and after it is made available. *)
Lemma sim_added s L c b : sim s L -> zlen (ready L) + zlen (edit L) < 128 -> length b = 128%nat ->
  (forall k d, (ready L ++ edit L ++ [c]) !! k = Some d ->
     is_byte d /\ zget b ((in_r s + Z.of_nat k) mod 128) = Some (i8 d)) ->
  c ≠ 10 -> zlen (ready L) + zlen (edit L) + 1 < 128 ->
  sim (set_input b (in_r s) (in_w s) (u32 (in_e s + 1)) s) (mkLine (ready L) (edit L ++ [c]) (woken L)).
Proof.
  intros [] Hr Hb Hc Hn Hf. unfold zlen in *. split; cbn; unfold zlen; rewrite ?length_app; cbn [length]; try done; [|lia|lia|].
  - rewrite sim_e0. unfold u32. mlia.
  - apply Forall_app. split; [done|]. by apply Forall_singleton.
Qed.

Lemma sim_committed s L c b s' : sim s L -> zlen (ready L) + zlen (edit L) < 128 -> length b = 128%nat ->
  (forall k d, (ready L ++ edit L ++ [c]) !! k = Some d ->
     is_byte d /\ zget b ((in_r s + Z.of_nat k) mod 128) = Some (i8 d)) ->
  same_input (set_input b (in_r s) (in_w s) (u32 (in_e s + 1)) s) s' ->
  sim (add_wakeup (set_input (in_buf s') (in_r s') (in_e s') (in_e s') s'))
    (mkLine (ready L ++ edit L ++ [c]) [] (S (woken L))).
Proof.
  intros [] Hr Hb Hc (I1 & I2 & I3 & I4 & I5 & I6 & I7 & I8 & I9 & _). cbn in *.
  assert (He : in_e s' = u32 (in_r s + zlen (ready L ++ edit L ++ [c]))).
  { rewrite I7, sim_e0. unfold zlen. rewrite !length_app. cbn [length]. unfold u32. mlia. }
  split; cbn; rewrite ?I1, ?I4, ?I5, ?I8, ?I9; try done; rewrite ?app_nil_r; try done; unfold zlen in *; rewrite ?length_app in *; cbn [length] in *.
  - rewrite He. f_equal. lia.
  - lia.
  - by left.
  - by f_equal.
Qed.

Lemma add_sim s L c : at_line s L -> is_byte c -> zlen (ready L) + zlen (edit L) < 128 ->
  exists s', (b <- from_opt (zset (in_buf s) (in_e s mod INPUT_BUF) (i8 c)) ;;
       modify (set_input b (in_r s) (in_w s) (u32 (in_e s + 1))) ;;;
       consputc c ;;;
       s <- gets id ;;
       when ((c =? 10) || (c =? ctrl 68) || (in_e s =? u32 (in_r s + INPUT_BUF)))
         (modify (set_input (in_buf s) (in_r s) (in_e s) (in_e s)) ;;;
          modify add_wakeup)) s = Ok tt s'
    /\ at_line s' (line_add c L) /\ c_lock s' = c_lock s.
Proof.
  intros [HS [t Ht]] Hc Hr. destruct (sim_store s L c HS Hc Hr) as (b & Eb & Lb & Hb). rewrite Eb. cbn [from_opt].
  rewrite (bind_Ok (ret b) _ s b s eq_refl). set (s1 := set_input b (in_r s) (in_w s) (u32 (in_e s + 1)) s).
  rewrite (bind_Ok (modify (set_input b (in_r s) (in_w s) (u32 (in_e s + 1)))) _ s tt s1 eq_refl).
  destruct (consputc_screen s1 t c (screen_input _ _ _ _ _ _ Ht)) as (s2 & E2 & S2 & I2 & _); [apply HS|].
  rewrite (bind_Ok _ _ _ _ _ E2), (bind_Ok (gets id) _ s2 s2 s2 eq_refl).
  pose proof I2 as (_ & _ & J3 & _ & J5 & _ & J7 & _). cbn in J3, J5, J7.
  assert (Hfull : (in_e s2 =? u32 (in_r s2 + INPUT_BUF)) = (length (ready L) + length (edit L ++ [c]) =? 128)%nat).
  { rewrite J5, J7, (sim_e _ _ HS), length_app. pose proof (sim_r _ _ HS). unfold is_u32, INPUT_BUF, zlen, u32 in *. cbn [length].
    destruct (Nat.eqb_spec (length (ready L) + (length (edit L) + 1)) 128); [apply Z.eqb_eq|apply Z.eqb_neq]; mlia. }
  unfold line_add. rewrite Hfull. change (ctrl 68) with 4. destruct (_ || _ || _) eqn:T; cbn [when].
  - eexists. split; [done|]. split; [|exact J3]. split; [by eapply sim_committed|]. exists (term_put c t).
    destruct S2 as [H1 H2 H3 H4 H5 H6]. split; [exact H1|exact H2|exact H3|exact H4|exact H5|exact H6].
  - exists s2. split; [done|]. split; [|exact J3]. split; [|eauto]. eapply sim_same; [exact I2|].
    apply orb_false_iff in T as [T1 T3]. apply orb_false_iff in T1 as [T1 T2]. apply Z.eqb_neq in T1. apply Nat.eqb_neq in T3.
    rewrite length_app in T3. cbn in T3. apply sim_added; try done. unfold zlen in *. lia.
Qed.

Lemma key_sim s L c : at_line s L -> is_byte c ->
  exists d s', console_key c s = Ok d s' /\ at_line s' (line_key c L) /\ c_lock s' = c_lock s.
Proof.
  intros HA Hc. pose proof (proj1 HA) as HS. unfold console_key, line_key.
  change (ctrl 80) with 16. change (ctrl 85) with 21. change (ctrl 72) with 8.
  destruct (c =? 16); [by exists true, s|]. destruct (c =? 21).
  { destruct (kill_line_sim (S (Z.to_nat INPUT_BUF)) s L HA) as (s' & E & A & Cl).
    - pose proof (sim_room _ _ HS). unfold zlen, INPUT_BUF in *. lia.
    - exists false, s'. rewrite (bind_Ok _ _ _ _ _ E). done. }
  destruct ((c =? 8) || (c =? 127)).
  { rewrite (bind_Ok (gets id) _ s s s eq_refl), (w_ne_e s L HS).
    destruct (edit L) as [|x e _] eqn:E using rev_ind.
    - rewrite bool_decide_eq_true_2 by done. exists false, s. split; [done|]. destruct L; cbn in *; by subst.
    - rewrite bool_decide_eq_false_2 by (by destruct e). destruct (back_echo s L e x HA E) as (s1 & E1 & A1 & C1).
      cbn [negb when]. exists false, s1. rewrite (bind_Ok _ _ _ _ _ E1).
      rewrite length_app, Nat.add_sub, take_app_length. done. }
  rewrite (bind_Ok (gets id) _ s s s eq_refl), (used_eq s L HS). unfold INPUT_BUF at 1.
  pose proof (sim_room _ _ HS) as Hroom. unfold zlen in Hroom.
  destruct (c =? 0); [by exists false, s|]. cbn [negb andb orb].
  destruct (Nat.eqb_spec (length (ready L) + length (edit L)) 128).
  - rewrite (proj2 (Z.ltb_ge _ _)) by (unfold zlen; lia). by exists false, s.
  - rewrite (proj2 (Z.ltb_lt _ _)) by (unfold zlen; lia). cbn [when].
    destruct (add_sim s L (if c =? 13 then 10 else c) HA) as (s' & E & A & Cl).
    + destruct (c =? 13); [unfold is_byte; lia|done].
    + unfold zlen. lia.
    + exists false, s'. cbv zeta. rewrite (bind_Ok _ _ _ _ _ E). done.
Qed.

(** The first character is taken. *)
Lemma sim_taken s c q e w : sim s (mkLine (c :: q) e w) ->
  sim (set_input (in_buf s) (u32 (in_r s + 1)) (in_w s) (in_e s) s) (mkLine q e w).
Proof.
  intros []. cbn in *. unfold zlen in *. cbn [length] in *. split; cbn; unfold zlen; try done; [apply u32_range|..].
  - rewrite sim_w0. unfold u32. mlia.
  - rewrite sim_e0. unfold u32. mlia.
  - lia.
  - lia.
  - intros k d Hk. destruct (sim_chars0 (S k) d Hk) as [Hb Hg]. split; [done|].
    rewrite <- Hg. f_equal. unfold u32. mlia.
Qed.

Lemma first_char s c q e w : sim s (mkLine (c :: q) e w) -> is_byte c /\ input_get (in_r s) s = Ok (i8 c) s.
Proof.
  intros []. destruct (sim_chars0 0%nat c eq_refl) as [Hb Hg]. split; [done|].
  unfold input_get. rewrite (bind_Ok (gets id) _ s s s eq_refl). rewrite Z.add_0_r in Hg. unfold INPUT_BUF. by rewrite Hg.
Qed.

Lemma i8_eqb c d : is_byte c -> 0 <= d < 128 -> (i8 c =? d) = (c =? d).
Proof.
  unfold is_byte, i8. intros. destruct (Z.eqb_spec c d); [apply Z.eqb_eq|apply Z.eqb_neq]; mlia.
Qed.

Lemma read_loop_sim killed target n s q e w : at_line s (mkLine q e w) ->
  let '(l, r, q') := take_line killed target n q in
  exists s', read_loop killed target n s = Ok (l, r) s' /\ at_line s' (mkLine q' e w) /\ c_lock s' = c_lock s.
Proof.
  revert s q. induction n as [|n IH]; intros s q HA; cbn [take_line read_loop]; [by exists s|].
  rewrite (bind_Ok (gets id) _ s s s eq_refl), (r_eq_w s _ (proj1 HA)). cbn [ready].
  destruct q as [|c q]; [by exists s|]. rewrite bool_decide_eq_false_2 by done.
  destruct HA as [HS [t Ht]]. destruct (first_char s c q e w HS) as [Hb Eg]. rewrite (bind_Ok _ _ _ _ _ Eg).
  set (s1 := set_input (in_buf s) (u32 (in_r s + 1)) (in_w s) (in_e s) s).
  rewrite (bind_Ok (set_r (u32 (in_r s + 1))) _ s tt s1 eq_refl). change (ctrl 68) with 4. rewrite !i8_eqb by (done || lia).
  assert (A1 : at_line s1 (mkLine q e w)) by (split; [by eapply sim_taken|exists t; by apply screen_input]).
  destruct (c =? 4).
  { destruct (Z.of_nat (S n) <? target); cbn [when].
    - rewrite (bind_Ok (bind _ _) _ s1 tt s); [exists s; split; [done|]; split; [split; [done|by exists t]|done]|].
      unfold bind, gets, set_r, modify, id. f_equal. subst s1. destruct s. cbn. unfold set_input. cbn. f_equal.
      pose proof (sim_r _ _ HS) as Hr. unfold is_u32, u32 in *. cbn in Hr. mlia.
    - exists s1. split; [done|]. split; [exact A1|done]. }
  rewrite u8_i8 by done. destruct (c =? 10); [exists s1; split; [done|]; split; [exact A1|done]|].
  specialize (IH s1 q A1). destruct (take_line killed target n q) as [[l r] q']. destruct IH as (s' & E & A & Cl).
  exists s'. rewrite (bind_Ok _ _ _ _ _ E). split; [done|]. split; [exact A|done].
Qed.

Lemma take_line_left killed target n q : let '(_, r, _) := take_line killed target n q in
  match r with Finished m | Sleeping m => 0 <= m <= Z.of_nat n | Killed => True end.
Proof.
  revert q. induction n as [|n IH]; intros q; cbn [take_line]; [lia|]. destruct q as [|c q]; [destruct killed; [done|lia]|].
  destruct (c =? 4); [lia|]. destruct (c =? 10); [lia|]. specialize (IH q).
  destruct (take_line killed target n q) as [[l r] q']. destruct r; lia.
Qed.

Lemma acquire_free s : c_lock s = false -> acquire_cons s = Ok tt (set_lock true s).
Proof. intros H. unfold acquire_cons, bind, gets, id. by rewrite H. Qed.

Lemma release_held s : c_lock s = true -> release_cons s = Ok tt (set_lock false s).
Proof. intros H. unfold release_cons, bind, gets, id. by rewrite H. Qed.

Lemma at_line_lock b s L : at_line s L -> at_line (set_lock b s) L.
Proof. intros [[] [t []]]. split; [by split|]. exists t. by split. Qed.

Lemma at_line_ip b s L : at_line s L -> at_line (set_ip b s) L.
Proof. intros [[] [t []]]. split; [by split|]. exists t. by split. Qed.

Lemma consoleread_from_sim killed target n s L : at_line s L -> c_lock s = false ->
  0 <= n <= target -> target < 2147483648 ->
  exists s', consoleread_from killed target n s = Ok (line_read killed target n L).1 s'
    /\ at_line s' (line_read killed target n L).2 /\ c_lock s' = false.
Proof.
  intros HA Hl Hn Ht. unfold consoleread_from, line_read. rewrite (bind_Ok _ _ _ _ _ (acquire_free s Hl)).
  destruct L as [q e w]. cbn [ready edit woken].
  pose proof (read_loop_sim killed target (Z.to_nat n) _ q e w (at_line_lock true s _ HA)) as H.
  pose proof (take_line_left killed target (Z.to_nat n) q) as Hm.
  destruct (take_line killed target (Z.to_nat n) q) as [[l r] q']. destruct H as (s1 & E1 & A1 & C1).
  rewrite (bind_Ok _ _ _ _ _ E1). rewrite (bind_Ok _ _ _ _ _ (release_held s1 C1)).
  pose proof (at_line_lock false _ _ A1) as A2. destruct r as [m|m|].
  - rewrite (proj2 (Z.ltb_ge n 0)) by lia. rewrite i32_id by (unfold is_i32; lia).
    eexists. split; [done|]. split; [by apply at_line_ip|done].
  - eexists. split; [done|]. split; [done|done].
  - eexists. split; [done|]. split; [by apply at_line_ip|done].
Qed.

Lemma keys_sim keys s L d : at_line s L -> Forall is_byte keys ->
  exists d' s', console_keys keys d s = Ok d' s' /\ at_line s' (foldl (fun L c => line_key c L) L keys) /\ c_lock s' = c_lock s.
Proof.
  revert s L d. induction keys as [|c keys IH]; intros s L d HA HK; cbn [console_keys foldl]; [by exists d, s|].
  apply Forall_cons in HK as [Hc HK]. destruct (key_sim s L c HA Hc) as (d1 & s1 & E1 & A1 & C1).
  rewrite (bind_Ok _ _ _ _ _ E1). destruct (IH s1 _ (d1 || d) A1 HK) as (d2 & s2 & E2 & A2 & C2).
  exists d2, s2. split; [done|]. split; [done|congruence].
Qed.

Lemma consoleintr_sim dump keys s L : at_line s L -> c_lock s = false -> Forall is_byte keys -> prints dump ->
  exists s', consoleintr dump keys s = Ok tt s' /\ at_line s' (foldl (fun L c => line_key c L) L keys) /\ c_lock s' = false.
Proof.
  intros HA Hl HK HD. unfold consoleintr. rewrite (bind_Ok _ _ _ _ _ (acquire_free s Hl)).
  destruct (keys_sim keys _ L false (at_line_lock true s L HA) HK) as (d & s1 & E1 & A1 & C1).
  rewrite (bind_Ok _ _ _ _ _ E1), (bind_Ok _ _ _ _ _ (release_held s1 C1)).
  apply (at_line_lock false) in A1 as A2. destruct d; cbn [when]; [|by eexists].
  destruct A2 as [S2 [t T2]]. destruct (HD _ t T2 (sim_panicked _ _ S2) eq_refl) as (s3 & t3 & E3 & T3 & I3).
  exists s3. split; [done|]. split; [split; [by eapply sim_same|by exists t3]|]. by destruct I3 as (_ & _ & -> & _).
Qed.

(** The characters of [buf] are written to the screen and the serial port. *)
Lemma write_each l m s t : screen s t -> panicked s = false ->
  exists s', for_each (seq (length m) (length l)) (fun i => c <- from_opt ((m ++ l) !! i) ;; consputc (u8 c)) s = Ok tt s'
    /\ screen s' (foldl (fun t c => term_put (u8 c) t) t l) /\ same_input s s'
    /\ serial s' = serial s ++ (if uart s then u8 <$> l else []).
Proof.
  revert m s t. induction l as [|c l IH]; intros m s t Ht Hp; cbn [length seq for_each foldl].
  { exists s. split_and!; [done|done|apply same_input_refl|]. cbn. destruct (uart s); by rewrite app_nil_r. }
  rewrite list_lookup_middle by done. cbn [from_opt].
  destruct (consputc_screen s t (u8 c) Ht Hp) as (s1 & E1 & T1 & I1 & O1).
  rewrite (bind_Ok (bind (ret c) _) _ s tt s1) by exact E1.
  destruct (IH (m ++ [c]) s1 (term_put (u8 c) t) T1) as (s2 & E2 & T2 & I2 & O2).
  - by destruct I1 as [-> _].
  - exists s2. rewrite length_app, <- app_assoc in E2. cbn [length app] in E2. rewrite Nat.add_1_r in E2.
    split_and!; [exact E2|done|by eapply same_input_trans|]. rewrite O2, O1.
    destruct I1 as (_ & _ & _ & _ & _ & _ & _ & _ & -> & _). unfold echoed.
    pose proof (u8_range c) as Hc. rewrite (proj2 (Z.eqb_neq (u8 c) BACKSPACE)) by (unfold BACKSPACE, is_byte in *; lia).
    destruct (uart s); [|by rewrite !app_nil_r]. rewrite (u8_id (u8 c)) by done. by rewrite <- app_assoc.
Qed.

Lemma consolewrite_sim buf s L t : at_line s L -> screen s t -> c_lock s = false ->
  exists s', consolewrite buf (zlen buf) s = Ok (zlen buf) s' /\ at_line s' L /\ c_lock s' = false
    /\ screen s' (foldl (fun t c => term_put (u8 c) t) t buf)
    /\ serial s' = serial s ++ (if uart s then u8 <$> buf else []).
Proof.
  intros HA Ht Hl. unfold consolewrite. rewrite (bind_Ok (modify (set_ip false)) _ s tt (set_ip false s) eq_refl).
  rewrite (bind_Ok _ _ _ _ _ (acquire_free (set_ip false s) Hl)). unfold zlen at 1. rewrite Nat2Z.id.
  assert (T1 : screen (set_lock true (set_ip false s)) t) by (by destruct Ht; split).
  destruct (write_each buf [] _ t T1 (sim_panicked _ _ (proj1 HA))) as (s1 & E1 & T2 & I1 & O1).
  cbn [app length] in E1. rewrite (bind_Ok _ _ _ _ _ E1).
  rewrite (bind_Ok _ _ _ _ _ (release_held s1 ltac:(by destruct I1 as (_ & _ & -> & _)))).
  eexists. split; [done|]. split; [|split; [done|split; [by destruct T2; split|exact O1]]].
  apply at_line_ip, at_line_lock. split; [|eauto]. eapply sim_same; [exact I1|].
  by apply (at_line_lock true (set_ip false s)), at_line_ip.
Qed.

(** ** The keyboard *)

Definition kbd_ok (data shift : Z) : bool :=
  match kbdgetc 1 data shift with
  | Some (c, shift') => (0 <=? c) && (c <? 256) && (0 <=? shift') && (shift' <? 128)
  | None => false
  end.

(** Over every scan code and shift state. *)
Lemma kbd_check : forallb (fun data => forallb (kbd_ok data) (seqZ 0 128)) (seqZ 0 256) = true.
Proof. vm_compute. reflexivity. Qed.

Lemma kbdgetc_byte data shift : is_byte data -> 0 <= shift < 128 ->
  exists c shift', kbdgetc 1 data shift = Some (c, shift') /\ is_byte c /\ 0 <= shift' < 128.
Proof.
  intros Hd Hs. pose proof (forallb_seqZ _ _ data kbd_check Hd) as H.
  apply (forallb_seqZ _ _ shift) in H; [|done]. unfold kbd_ok in H.
  destruct (kbdgetc 1 data shift) as [[c shift']|]; [|done]. exists c, shift'. unfold is_byte. bool_cases. split; [done|lia].
Qed.

Lemma kbd_keys_bytes codes shift : Forall is_byte codes -> 0 <= shift < 128 ->
  exists keys shift', kbd_keys codes shift = Some (keys, shift') /\ Forall is_byte keys /\ 0 <= shift' < 128.
Proof.
  intros Hc. revert shift. induction Hc as [|data codes Hd Hc IH]; intros shift Hs; [by exists [], shift|].
  destruct (kbdgetc_byte data shift Hd Hs) as (c & s1 & E1 & Hb & Hs1). destruct (IH s1 Hs1) as (keys & s2 & E2 & Hk & Hs2).
  exists (c :: keys), s2. cbn [kbd_keys]. rewrite E1. cbn. rewrite E2. cbn. split; [done|]. split; [by constructor|done].
Qed.

(** ** Every sequence of events *)

Section Run.
(** The strings in the kernel's memory, and [procdump]'s table of state names. *)
Context (string_at : Z -> option (list Z)) (unused sleeping : Z) (state_name : Z -> Z).
Hypothesis names : forall x, is_Some (string_at (state_name x)).

Local Abbreviation process := (Z * Z * Z * list Z)%type.

(** A keyboard or serial interrupt, with the process table it may print; a call of
    [consoleread] and its resumption after a sleep; a call of [consolewrite]. *)
Inductive event :=
| Kbd (codes : list Z) (procs : list process)
| Serial (data : list Z) (procs : list process)
| Read (killed : bool) (n : Z)
| Resume (killed : bool) (target n : Z)
| Write (buf : list Z).

Definition event_ok (ev : event) : Prop :=
  match ev with
  | Kbd l procs | Serial l procs => Forall is_byte l /\
      forall state pid name pcs, (state, pid, name, pcs) ∈ procs -> is_Some (string_at name)
  | Read _ n => 0 <= n < 2147483648
  | Resume _ target n => 0 <= n <= target /\ target < 2147483648
  | Write _ => True
  end.

(** What a process gets from its call. *)
Definition console_step (ev : event) (shift : Z) : C (list (list Z * cresult) * Z) :=
  match ev with
  | Kbd codes procs =>
      shift <- kbdintr (procdump string_at unused sleeping state_name procs) codes shift ;; ret ([], shift)
  | Serial data procs => uartintr (procdump string_at unused sleeping state_name procs) data ;;; ret ([], shift)
  | Read killed n => r <- consoleread killed n ;; ret ([r], shift)
  | Resume killed target n => r <- consoleread_from killed target n ;; ret ([r], shift)
  | Write buf => r <- consolewrite buf (zlen buf) ;; ret ([([], CRet r)], shift)
  end.

Fixpoint console_run (evs : list event) (shift : Z) : C (list (list Z * cresult)) :=
  match evs with
  | [] => ret []
  | ev :: evs' =>
      let* (l, shift) := console_step ev shift in
      l' <- console_run evs' shift ;;
      ret (l ++ l')
  end.

(** The same for the abstract console; the serial port only delivers when there is
    one. *)
Definition line_step (ev : event) (shift : Z) (L : line) : list (list Z * cresult) * Z * line :=
  match ev with
  | Kbd codes _ =>
      let '(keys, shift) := default ([], shift) (kbd_keys codes shift) in
      ([], shift, foldl (fun L c => line_key c L) L keys)
  | Serial data _ => ([], shift, if port then foldl (fun L c => line_key c L) L data else L)
  | Read killed n => let '(r, L') := line_read killed n n L in ([r], shift, L')
  | Resume killed target n => let '(r, L') := line_read killed target n L in ([r], shift, L')
  | Write buf => ([([], CRet (zlen buf))], shift, L)
  end.

Fixpoint line_run (evs : list event) (shift : Z) (L : line) : list (list Z * cresult) * line :=
  match evs with
  | [] => ([], L)
  | ev :: evs' =>
      let '(l, shift, L) := line_step ev shift L in
      let '(l', L) := line_run evs' shift L in
      (l ++ l', L)
  end.

Lemma uart_keys_eq data s L : sim s L -> Forall is_byte data ->
  uart_keys data s = Ok (if port then data else []) s.
Proof.
  intros HS. pose proof (sim_port _ _ HS) as HU. induction 1 as [|x data Hx Hd IH]; cbn [uart_keys]; [by destruct port|].
  assert (E : uartgetc 1 x s = Ok (if port then x else -1) s).
  { unfold uartgetc, bind, gets. rewrite HU. by destruct port. }
  rewrite (bind_Ok _ _ _ _ _ E). destruct port; [|done]. unfold is_byte in Hx.
  rewrite (proj2 (Z.ltb_ge x 0)) by lia. by rewrite (bind_Ok _ _ _ _ _ IH).
Qed.

Lemma step_sim ev shift s L : at_line s L -> c_lock s = false -> event_ok ev -> 0 <= shift < 128 ->
  let '(l, shift', L') := line_step ev shift L in
  exists s', console_step ev shift s = Ok (l, shift') s' /\ at_line s' L' /\ c_lock s' = false /\ 0 <= shift' < 128.
Proof.
  intros HA Hl Hev Hs. destruct ev as [codes procs|data procs|killed n|killed target n|buf]; cbn [line_step console_step event_ok] in *.
  - destruct Hev as [Hc Hn]. destruct (kbd_keys_bytes codes shift Hc Hs) as (keys & sh' & E & Hk & Hs'). rewrite E.
    cbn [default]. unfold kbdintr. rewrite E. cbn [from_opt].
    destruct (consoleintr_sim _ keys s L HA Hl Hk (prints_procdump string_at unused sleeping state_name procs names Hn))
      as (s' & E' & A' & C'). exists s'. split; [|done].
    rewrite <- (bind_assoc (ret (keys, sh'))), (bind_Ok (ret (keys, sh')) _ s _ s eq_refl). cbn beta iota.
    rewrite <- bind_assoc, (bind_Ok _ _ _ _ _ E'). done.
  - destruct Hev as [Hc Hn]. assert (Hk : Forall is_byte (if port then data else [])) by (by destruct port; [|constructor]).
    destruct (consoleintr_sim _ _ s L HA Hl Hk (prints_procdump string_at unused sleeping state_name procs names Hn))
      as (s' & E' & A' & C'). exists s'. split.
    + unfold uartintr. rewrite <- bind_assoc, (bind_Ok _ _ _ _ _ (uart_keys_eq data s L (proj1 HA) Hc)).
      rewrite (bind_Ok _ _ _ _ _ E'). done.
    + destruct port; done.
  - unfold consoleread. rewrite u32_id by (unfold is_u32; lia).
    rewrite <- bind_assoc, (bind_Ok (modify (set_ip false)) _ s tt (set_ip false s) eq_refl).
    destruct (consoleread_from_sim killed n n (set_ip false s) L (at_line_ip _ _ _ HA) Hl) as (s' & E' & A' & C'); [lia|lia|].
    rewrite (bind_Ok _ _ _ _ _ E'). destruct (line_read killed n n L) as [r L']. exists s'. by split.
  - destruct (consoleread_from_sim killed target n s L HA Hl) as (s' & E' & A' & C'); [lia|lia|].
    rewrite (bind_Ok _ _ _ _ _ E'). destruct (line_read killed target n L) as [r L']. exists s'. by split.
  - destruct (proj2 HA) as [t Ht]. destruct (consolewrite_sim buf s L t HA Ht Hl) as (s' & E' & A' & C' & _).
    exists s'. rewrite (bind_Ok _ _ _ _ _ E'). by split.
Qed.

(** C34: The console implements the abstract one.  From any state that stands for the
    queues of [L], every sequence of keyboard and serial interrupts, reads that
    start or resume, and writes runs without panic, fault or lock error, whatever
    the counters are and however often they wrap around; the processes get
    exactly the bytes and results of the abstract console, and the final state
    stands for its final queues. *)
Theorem console_line_discipline evs shift s L :
  at_line s L -> c_lock s = false -> Forall event_ok evs -> 0 <= shift < 128 ->
  let '(l, L') := line_run evs shift L in
  exists s', console_run evs shift s = Ok l s' /\ at_line s' L' /\ c_lock s' = false.
Proof using names.
  intros HA Hl Hev. revert shift s L HA Hl. induction Hev as [|ev evs He Hev IH]; intros shift s L HA Hl Hs.
  - by exists s.
  - cbn [line_run console_run]. pose proof (step_sim ev shift s L HA Hl He Hs) as H1.
    destruct (line_step ev shift L) as [[l1 sh1] L1]. destruct H1 as (s1 & E1 & A1 & C1 & S1).
    specialize (IH sh1 s1 L1 A1 C1 S1). destruct (line_run evs sh1 L1) as [l2 L2]. destruct IH as (s2 & E2 & A2 & C2).
    exists s2. rewrite (bind_Ok _ _ _ _ _ E1). cbn beta iota. rewrite (bind_Ok _ _ _ _ _ E2). done.
Qed.
End Run.

(** C35: [consolewrite] shows exactly the text it is given: the screen is the abstract
    terminal's, whatever scrolling it takes, the serial port gets the bytes, and
    the call returns their number. *)
Theorem consolewrite_shows buf s L t : at_line s L -> screen s t -> c_lock s = false ->
  exists s', consolewrite buf (zlen buf) s = Ok (zlen buf) s'
    /\ screen s' (foldl (fun t c => term_put (u8 c) t) t buf)
    /\ serial s' = serial s ++ (if uart s then u8 <$> buf else []).
Proof.
  intros HA Ht Hl. destruct (consolewrite_sim buf s L t HA Ht Hl) as (s' & E & _ & _ & T & O). by exists s'.
Qed.
End Port.

(** ** Witnesses *)

(** A booted console, with an empty screen and counters about to wrap around. *)
Definition demo_console : console :=
  mkCons false true false (replicate 128 0) 4294967295 4294967295 4294967295 0 0 0 (replicate (Z.to_nat 16384) 0) true [] false.

Lemma demo_screen : screen demo_console [].
Proof.
  split; [unfold is_byte; cbn; lia|unfold is_byte; cbn; lia|reflexivity|cbn; lia|apply length_replicate|vm_compute; reflexivity].
Qed.

Lemma demo_at_line : at_line true demo_console (mkLine [] [] 0).
Proof.
  split; [|exists []; exact demo_screen].
  split; [reflexivity|reflexivity|reflexivity|unfold is_u32; cbn; lia|reflexivity|reflexivity|unfold zlen; cbn; lia|by left| |constructor|reflexivity].
  intros k c Hk. done.
Qed.

(** A read that sleeps; [ax], backspace, [b] and a newline are typed, shift held
    for the [b]; the read gets [aB] and the newline. *)
Lemma console_line_discipline_witness :
  exists s', console_run (fun _ => Some [63]) 0 2 (fun _ => 1)
    [Read false 10; Kbd [30; 45; 14; 42; 48; 170; 28] []; Resume false 10 10] 0 demo_console
    = Ok [([], CSleep 10); ([97; 66; 10], CRet 3)] s' /\ at_line true s' (mkLine [] [] 1).
Proof.
  pose proof (console_line_discipline true (fun _ => Some [63]) 0 2 (fun _ => 1) (fun _ => mk_is_Some _ _ eq_refl)
    [Read false 10; Kbd [30; 45; 14; 42; 48; 170; 28] []; Resume false 10 10] 0 demo_console (mkLine [] [] 0) demo_at_line eq_refl) as H.
  destruct H as (s' & E & A & _).
  - repeat constructor; try lia. intros ? ? ? ? Hx. apply not_elem_of_nil in Hx. destruct Hx.
  - lia.
  - exists s'. split; [exact E|exact A].
Defined.

Lemma consolewrite_shows_witness : exists s', consolewrite [104; 105; 10] 3 demo_console = Ok 3 s'
  /\ screen s' (foldl (fun t c => term_put (u8 c) t) [] [104; 105; 10]) /\ serial s' = [104; 105; 10].
Proof.
  destruct (consolewrite_shows true [104; 105; 10] demo_console (mkLine [] [] 0) [] demo_at_line demo_screen eq_refl) as (s' & E & T & O).
  exists s'. split; [exact E|split; [exact T|exact O]].
Defined.
