(* ===== verification/Ide.v ===== *)
(** * ide.c: the disk driver

    The driver keeps a linked queue of buffers; the first one is the request the
    controller works on.  A process that calls [iderw] appends its buffer and
    sleeps; the interrupt handler finishes the first request, wakes its process
    and starts the next one.  The controller is hardware: it latches what is
    written to its ports ([outb], [outsl]); the drives behind it are an argument,
    a class with a read and a write of a sector; its status register is a stream
    of values, one per [inb]. *)

From S2P Require Import Prelude KMonad Params.

Definition SECTOR_SIZE : Z := 512.
Definition IDE_BSY : Z := 128.
Definition IDE_DRDY : Z := 64.
Definition IDE_DF : Z := 32.
Definition IDE_ERR : Z := 1.
Definition IDE_CMD_READ : Z := 32.
Definition IDE_CMD_WRITE : Z := 48.
Definition IDE_CMD_RDMUL : Z := 196.
Definition IDE_CMD_WRMUL : Z := 197.

(** What the drives promise: a sector of a drive holds what was last written. *)
Class Drive (D : Type) := {
  drive_read : D -> Z * Z -> list Z;
  drive_write : D -> Z * Z -> list Z -> D;
  read_write_eq d a v : drive_read (drive_write d a v) a = v;
  read_write_ne d a b v : a ≠ b -> drive_read (drive_write d a v) b = drive_read d b }.

(** [struct buf], as far as the driver uses it; [b_locked] is whether the running
    process holds the buffer's sleep lock. *)
Record ibuf := mkIbuf {
  b_flags : Z; b_dev : Z; b_blockno : Z; b_locked : bool; b_qnext : option nat; b_data : list Z }.

(** The controller: the registers 0x1f2 to 0x1f6, the command being carried out,
    and the data port. *)
Record ctl := mkCtl {
  r_count : Z; r_lba0 : Z; r_lba1 : Z; r_lba2 : Z; r_drive : Z;
  r_cmd : option Z; r_data : list Z }.

Section Ide.
Context {D : Type} `{Drive D}.

Record ide := mkIde {
  i_bufs : gmap nat ibuf; idequeue : option nat; havedisk1 : bool; idelock : bool;
  i_ctl : ctl; i_drives : D; i_tick : nat; i_woken : list nat }.

Definition I := M ide.

Definition set_ibufs (m : gmap nat ibuf) (s : ide) : ide :=
  mkIde m (idequeue s) (havedisk1 s) (idelock s) (i_ctl s) (i_drives s) (i_tick s) (i_woken s).
Definition set_queue (q : option nat) (s : ide) : ide :=
  mkIde (i_bufs s) q (havedisk1 s) (idelock s) (i_ctl s) (i_drives s) (i_tick s) (i_woken s).
Definition set_idelock (b : bool) (s : ide) : ide :=
  mkIde (i_bufs s) (idequeue s) (havedisk1 s) b (i_ctl s) (i_drives s) (i_tick s) (i_woken s).
Definition set_ctl (c : ctl) (s : ide) : ide :=
  mkIde (i_bufs s) (idequeue s) (havedisk1 s) (idelock s) c (i_drives s) (i_tick s) (i_woken s).
Definition set_drives (d : D) (s : ide) : ide :=
  mkIde (i_bufs s) (idequeue s) (havedisk1 s) (idelock s) (i_ctl s) d (i_tick s) (i_woken s).
Definition tick (s : ide) : ide :=
  mkIde (i_bufs s) (idequeue s) (havedisk1 s) (idelock s) (i_ctl s) (i_drives s) (S (i_tick s)) (i_woken s).
Definition add_woken (b : nat) (s : ide) : ide :=
  mkIde (i_bufs s) (idequeue s) (havedisk1 s) (idelock s) (i_ctl s) (i_drives s) (i_tick s) (i_woken s ++ [b]).

Definition get_ibuf (b : nat) : I ibuf := s <- gets id ;; from_opt (i_bufs s !! b).
Definition put_ibuf (b : nat) (x : ibuf) : I unit := modify (fun s => set_ibufs (<[b := x]> (i_bufs s)) s).

Definition acquire_ide : I unit :=
  s <- gets id ;; if idelock s then panic "acquire" else modify (set_idelock true).
Definition release_ide : I unit :=
  s <- gets id ;; if negb (idelock s) then panic "release" else modify (set_idelock false).

(** ** The controller *)

Section Driver.
(** The status register, and a bound for the waits on it. *)
Context (status : nat -> Z) (wait_fuel : nat).

(** [inb(0x1f7)] *)
Definition inb_status : I Z :=
  n <- gets i_tick ;; modify tick ;;; ret (status n).

(** A byte written to a register; a command starts with the registers it finds. *)
Definition latch (port v : Z) (c : ctl) : ctl :=
  if port =? 498 then mkCtl (u8 v) (r_lba0 c) (r_lba1 c) (r_lba2 c) (r_drive c) (r_cmd c) (r_data c)
  else if port =? 499 then mkCtl (r_count c) (u8 v) (r_lba1 c) (r_lba2 c) (r_drive c) (r_cmd c) (r_data c)
  else if port =? 500 then mkCtl (r_count c) (r_lba0 c) (u8 v) (r_lba2 c) (r_drive c) (r_cmd c) (r_data c)
  else if port =? 501 then mkCtl (r_count c) (r_lba0 c) (r_lba1 c) (u8 v) (r_drive c) (r_cmd c) (r_data c)
  else if port =? 502 then mkCtl (r_count c) (r_lba0 c) (r_lba1 c) (r_lba2 c) (u8 v) (r_cmd c) (r_data c)
  else if port =? 503 then mkCtl (r_count c) (r_lba0 c) (r_lba1 c) (r_lba2 c) (r_drive c) (Some (u8 v)) []
  else c.
Definition outb (port v : Z) : I unit := modify (fun s => set_ctl (latch port v (i_ctl s)) s).

(** [outsl(0x1f0, addr, cnt)] and [insl(0x1f0, addr, cnt)]. *)
Definition outsl (d : list Z) (cnt : Z) : I unit :=
  modify (fun s => let c := i_ctl s in
    set_ctl (mkCtl (r_count c) (r_lba0 c) (r_lba1 c) (r_lba2 c) (r_drive c) (r_cmd c) (take (Z.to_nat (4 * cnt)) d)) s).
Definition insl (cnt : Z) : I (list Z) :=
  c <- gets i_ctl ;; ret (take (Z.to_nat (4 * cnt)) (r_data c)).

(** The sector the registers address: the drive, and 28 bits of block address. *)
Definition addressed (c : ctl) : Z * Z :=
  (Z.land (Z.shiftr (r_drive c) 4) 1,
   Z.lor (r_lba0 c) (Z.lor (Z.shiftl (r_lba1 c) 8) (Z.lor (Z.shiftl (r_lba2 c) 16) (Z.shiftl (Z.land (r_drive c) 15) 24)))).

(** The controller has carried out the command, of one sector. *)
Definition complete : I unit :=
  s <- gets id ;;
  let c := i_ctl s in
  match r_cmd c with
  | None => ret tt
  | Some cmd =>
      let d := if cmd =? IDE_CMD_WRITE then r_data c else drive_read (i_drives s) (addressed c) in
      modify (set_ctl (mkCtl (r_count c) (r_lba0 c) (r_lba1 c) (r_lba2 c) (r_drive c) None d)) ;;;
      if cmd =? IDE_CMD_WRITE then modify (set_drives (drive_write (i_drives s) (addressed c) d)) else ret tt
  end.

(** ** The driver *)

Fixpoint idewait_loop (fuel : nat) : I Z :=
  match fuel with
  | O => halt fuel_stop
  | S fuel' =>
      r <- inb_status ;;
      if Z.land r (Z.lor IDE_BSY IDE_DRDY) =? IDE_DRDY then ret r else idewait_loop fuel'
  end.

Definition idewait (checkerr : bool) : I Z :=
  r <- idewait_loop wait_fuel ;;
  if checkerr && negb (Z.land r (Z.lor IDE_DF IDE_ERR) =? 0) then ret (-1) else ret 0.

Definition set_havedisk1 : I unit :=
  modify (fun s => mkIde (i_bufs s) (idequeue s) true (idelock s) (i_ctl s) (i_drives s) (i_tick s) (i_woken s)).

(** [initlock] and [ioapicenable] do not touch the driver's data but the lock. *)
Definition ideinit : I unit :=
  modify (set_idelock false) ;;;
  _ <- idewait false ;;
  outb 502 (Z.lor 224 (Z.shiftl 1 4)) ;;;
  _ <- for_until (seq 0 1000) (fun _ =>
         r <- inb_status ;; if negb (r =? 0) then set_havedisk1 ;;; ret (Some tt) else ret None) ;;
  outb 502 (Z.lor 224 (Z.shiftl 0 4)).

Definition idestart (b : option nat) : I unit :=
  match b with
  | None => panic "idestart"
  | Some b =>
      x <- get_ibuf b ;;
      if FSSIZE <=? b_blockno x then panic "incorrect blockno"
      else
        let sector_per_block := BSIZE / SECTOR_SIZE in
        let sector := i32 (b_blockno x * sector_per_block) in
        let read_cmd := if sector_per_block =? 1 then IDE_CMD_READ else IDE_CMD_RDMUL in
        let write_cmd := if sector_per_block =? 1 then IDE_CMD_WRITE else IDE_CMD_WRMUL in
        if 7 <? sector_per_block then panic "idestart"
        else
          _ <- idewait false ;;
          outb 1014 0 ;;;
          outb 498 sector_per_block ;;;
          outb 499 (Z.land sector 255) ;;;
          outb 500 (Z.land (Z.shiftr sector 8) 255) ;;;
          outb 501 (Z.land (Z.shiftr sector 16) 255) ;;;
          outb 502 (Z.lor 224 (Z.lor (Z.shiftl (Z.land (b_dev x) 1) 4) (Z.land (Z.shiftr sector 24) 15))) ;;;
          if negb (Z.land (b_flags x) B_DIRTY =? 0) then
            outb 503 write_cmd ;;; outsl (b_data x) (BSIZE / 4)
          else outb 503 read_cmd
  end.

Definition ideintr : I unit :=
  acquire_ide ;;;
  q <- gets idequeue ;;
  match q with
  | None => release_ide
  | Some b =>
      x <- get_ibuf b ;;
      modify (set_queue (b_qnext x)) ;;;
      (if Z.land (b_flags x) B_DIRTY =? 0 then
         r <- idewait true ;;
         when (0 <=? r)
           (d <- insl (BSIZE / 4) ;;
            put_ibuf b (mkIbuf (b_flags x) (b_dev x) (b_blockno x) (b_locked x) (b_qnext x) d))
       else ret tt) ;;;
      x <- get_ibuf b ;;
      let f := Z.land (Z.lor (b_flags x) B_VALID) (Z.lnot B_DIRTY) in
      put_ibuf b (mkIbuf f (b_dev x) (b_blockno x) (b_locked x) (b_qnext x) (b_data x)) ;;;
      modify (add_woken b) ;;;
      q <- gets idequeue ;;
      (match q with None => ret tt | Some _ => idestart q end) ;;;
      release_ide
  end.

(** [for(pp=&idequeue; *pp; pp=&( *pp)->qnext)]: the buffer whose [qnext] is the
    end of the queue, [None] for [idequeue] itself.  [fuel] is the number of
    buffers. *)
Fixpoint queue_end (fuel : nat) (pp cur : option nat) : I (option nat) :=
  match cur with
  | None => ret pp
  | Some b =>
      match fuel with
      | O => halt fuel_stop
      | S fuel' => x <- get_ibuf b ;; queue_end fuel' cur (b_qnext x)
      end
  end.

Definition set_qnext (b : nat) (q : option nat) : I unit :=
  x <- get_ibuf b ;;
  put_ibuf b (mkIbuf (b_flags x) (b_dev x) (b_blockno x) (b_locked x) q (b_data x)).

Inductive rw_result := RwDone | RwSleep.

(** The test of [iderw]'s loop, with the lock held: it returns, or sleeps, which
    gives the lock back. *)
Definition iderw_wait (b : nat) : I rw_result :=
  x <- get_ibuf b ;;
  release_ide ;;;
  ret (if Z.land (b_flags x) (Z.lor B_VALID B_DIRTY) =? B_VALID then RwDone else RwSleep).

Definition iderw (b : nat) : I rw_result :=
  x <- get_ibuf b ;;
  if negb (b_locked x) then panic "iderw: buf not locked"
  else if Z.land (b_flags x) (Z.lor B_VALID B_DIRTY) =? B_VALID then panic "iderw: nothing to do"
  else
    h <- gets havedisk1 ;;
    if negb (b_dev x =? 0) && negb h then panic "iderw: ide disk 1 not present"
    else
      acquire_ide ;;;
      set_qnext b None ;;;
      s <- gets id ;;
      pp <- queue_end (size (i_bufs s)) None (idequeue s) ;;
      (match pp with None => modify (set_queue (Some b)) | Some p => set_qnext p (Some b) end) ;;;
      q <- gets idequeue ;;
      (if bool_decide (q = Some b) then idestart (Some b) else ret tt) ;;;
      iderw_wait b.

(** The process wakes up in [sleep], which takes the lock again. *)
Definition iderw_resume (b : nat) : I rw_result := acquire_ide ;;; iderw_wait b.
End Driver.
End Ide.
