(* ===== verification/IdeSpec.v ===== *)
(** * The disk driver serves every request

    The queue is in order of arrival, the controller always works on its first
    buffer, and a request is finished after one interrupt for each request before
    it and one for itself; then the buffer and the disk agree. *)

From S2P Require Import Prelude KMonad Params Ide.

Definition dirty (x : ibuf) : bool := negb (Z.land (b_flags x) B_DIRTY =? 0).
Definition addr (x : ibuf) : Z * Z := (b_dev x, b_blockno x).

(** The buffers but for their place in the queue. *)
Definition norm (x : ibuf) : ibuf := mkIbuf (b_flags x) (b_dev x) (b_blockno x) (b_locked x) None (b_data x).

Fixpoint qseg (m : gmap nat ibuf) (h : option nat) (q : list nat) : Prop :=
  match q with
  | [] => h = None
  | b :: q' => h = Some b /\ exists x, m !! b = Some x /\ qseg m (b_qnext x) q'
  end.

Lemma qseg_insert m h q b x : b ∉ q -> qseg m h q -> qseg (<[b := x]> m) h q.
Proof.
  revert h. induction q as [|c q IH]; intros h Hb Hq; [done|]. apply not_elem_of_cons in Hb as [Hne Hb].
  destruct Hq as (-> & y & Hy & Hq). split; [done|]. exists y. rewrite lookup_insert_ne by done. auto.
Qed.

Lemma qseg_dom m h q b : qseg m h q -> b ∈ q -> is_Some (m !! b).
Proof.
  revert h. induction q as [|c q IH]; intros h Hq Hb; [by apply not_elem_of_nil in Hb|].
  destruct Hq as (-> & y & Hy & Hq). apply elem_of_cons in Hb as [->|Hb]; eauto.
Qed.

(** The last buffer of a queue gets a successor. *)
Lemma qseg_append m h q c y b x :
  qseg m h (q ++ [c]) -> m !! c = Some y -> m !! b = Some x -> b_qnext x = None -> NoDup (q ++ [c; b]) ->
  qseg (<[c := mkIbuf (b_flags y) (b_dev y) (b_blockno y) (b_locked y) (Some b) (b_data y)]> m) h (q ++ [c; b]).
Proof.
  intros Hq Hc Hb Hx. revert h Hq. induction q as [|d q IH]; intros h Hq Hn; cbn in *.
  - destruct Hq as (-> & z & Hz & Hq). split; [done|]. eexists. rewrite lookup_insert_eq. split; [done|]. cbn. split; [done|].
    exists x. rewrite lookup_insert_ne; [done|]. intros ->. apply NoDup_cons in Hn as [Hn _]. apply Hn. by left.
  - apply NoDup_cons in Hn as [Hd Hn]. destruct Hq as (-> & z & Hz & Hq). split; [done|]. exists z.
    rewrite lookup_insert_ne by (intros ->; apply Hd; set_solver). auto.
Qed.

Lemma qseg_length m h q : qseg m h q -> NoDup q -> (length q <= size m)%nat.
Proof.
  intros Hq Hn. rewrite <- size_dom, <- (size_list_to_set (C := gset nat)) by done. apply subseteq_size. intros b Hb.
  apply elem_of_list_to_set in Hb. apply elem_of_dom. by eapply qseg_dom.
Qed.

(** The registers that [idestart] writes address the block. *)
Definition regs_of (dev sector : Z) (cmd : option Z) (d : list Z) : ctl :=
  mkCtl (u8 1) (u8 (Z.land sector 255)) (u8 (Z.land (Z.shiftr sector 8) 255)) (u8 (Z.land (Z.shiftr sector 16) 255))
    (u8 (Z.lor 224 (Z.lor (Z.shiftl (Z.land dev 1) 4) (Z.land (Z.shiftr sector 24) 15)))) cmd d.

Lemma addressed_check : forallb (fun dev => forallb (fun sector =>
  bool_decide (addressed (regs_of dev sector None []) = (dev, sector))) (seqZ 0 1000)) (seqZ 0 2) = true.
Proof. vm_compute. reflexivity. Qed.

Lemma addressed_regs dev sector cmd d : 0 <= dev < 2 -> 0 <= sector < FSSIZE ->
  addressed (regs_of dev sector cmd d) = (dev, sector).
Proof.
  intros Hd Hs. pose proof (forallb_seqZ _ _ _ addressed_check Hd) as E.
  apply (forallb_seqZ _ _ sector) in E; [|done]. by apply bool_decide_eq_true in E.
Qed.

(** One register at a time. *)
Section Latch.
Context (v a b c d e : Z) (g : option Z) (h : list Z).
Lemma latch_ctl : latch 1014 v (mkCtl a b c d e g h) = mkCtl a b c d e g h. Proof. done. Qed.
Lemma latch_count : latch 498 v (mkCtl a b c d e g h) = mkCtl (u8 v) b c d e g h. Proof. done. Qed.
Lemma latch_lba0 : latch 499 v (mkCtl a b c d e g h) = mkCtl a (u8 v) c d e g h. Proof. done. Qed.
Lemma latch_lba1 : latch 500 v (mkCtl a b c d e g h) = mkCtl a b (u8 v) d e g h. Proof. done. Qed.
Lemma latch_lba2 : latch 501 v (mkCtl a b c d e g h) = mkCtl a b c (u8 v) e g h. Proof. done. Qed.
Lemma latch_drive : latch 502 v (mkCtl a b c d e g h) = mkCtl a b c d (u8 v) g h. Proof. done. Qed.
Lemma latch_cmd : latch 503 v (mkCtl a b c d e g h) = mkCtl a b c d e (Some (u8 v)) []. Proof. done. Qed.
End Latch.
Create Rewrite HintDb latch.
#[local] Hint Rewrite latch_ctl latch_count latch_lba0 latch_lba1 latch_lba2 latch_drive latch_cmd : latch.

Section Spec.
Context {D : Type} `{Drive D} (status : nat -> Z) (wait_fuel : nat).

(** The drive becomes ready within [wait_fuel] reads of its status, and has no
    errors. *)
Definition ready (r : Z) : bool := Z.land r (Z.lor IDE_BSY IDE_DRDY) =? IDE_DRDY.
Hypothesis becomes_ready : forall n, exists k, (k < wait_fuel)%nat /\ ready (status (n + k)) = true.
Hypothesis no_errors : forall n, ready (status n) = true -> Z.land (status n) (Z.lor IDE_DF IDE_ERR) = 0.

Definition set_tick (n : nat) (s : ide (D := D)) : ide :=
  mkIde (i_bufs s) (idequeue s) (havedisk1 s) (idelock s) (i_ctl s) (i_drives s) n (i_woken s).

Lemma idewait_loop_ok fuel s : (exists k, (k < fuel)%nat /\ ready (status (i_tick s + k)) = true) ->
  exists n, idewait_loop status fuel s = Ok (status n) (set_tick (S n) s) /\ ready (status n) = true.
Proof.
  revert s. induction fuel as [|fuel IH]; intros s (k & Hk & Hr); [lia|]. cbn [idewait_loop].
  rewrite (bind_Ok (inb_status status) _ s (status (i_tick s)) (tick s) eq_refl).
  fold (ready (status (i_tick s))). destruct (ready (status (i_tick s))) eqn:E; [by exists (i_tick s)|].
  destruct k as [|k]; [rewrite Nat.add_0_r in Hr; congruence|].
  destruct (IH (tick s)) as (n & En & Hn); [|by exists n].
  exists k. split; [lia|]. cbn. by rewrite Nat.add_succ_r in Hr.
Qed.

Lemma idewait_ok c s : exists n, idewait status wait_fuel c s = Ok 0 (set_tick n s).
Proof using becomes_ready no_errors.
  destruct (idewait_loop_ok wait_fuel s (becomes_ready (i_tick s))) as (n & E & Hr). exists (S n).
  unfold idewait. rewrite (bind_Ok _ _ _ _ _ E), (no_errors _ Hr). by destruct c.
Qed.

(** ** The invariant *)

Definition view (s : ide (D := D)) : gmap nat ibuf := norm <$> i_bufs s.

Definition buf_ok (s : ide (D := D)) (x : ibuf) : Prop :=
  (b_flags x = 0 \/ b_flags x = 2 \/ b_flags x = 4 \/ b_flags x = 6)
  /\ (b_dev x = 0 \/ b_dev x = 1 /\ havedisk1 s = true) /\ 0 <= b_blockno x < FSSIZE
  /\ length (b_data x) = Z.to_nat BSIZE.

(** The controller works on the buffer. *)
Definition working (c : ctl) (x : ibuf) : Prop :=
  addressed c = addr x
  /\ (if dirty x then r_cmd c = Some IDE_CMD_WRITE /\ r_data c = b_data x else r_cmd c = Some IDE_CMD_READ).

Record inv (s : ide (D := D)) (q : list nat) : Prop := {
  i_free : idelock s = false;
  i_seg : qseg (i_bufs s) (idequeue s) q;
  i_nodup : NoDup q;
  i_ok : forall b x, view s !! b = Some x -> buf_ok s x;
  i_inj : forall b c x y, view s !! b = Some x -> view s !! c = Some y -> addr x = addr y -> b = c;
  i_pending : forall b x, b ∈ q -> view s !! b = Some x -> b_flags x ≠ 2;
  i_sector : forall a, length (drive_read (i_drives s) a) = Z.to_nat BSIZE;
  i_active : match q with
             | [] => r_cmd (i_ctl s) = None
             | b :: _ => exists x, view s !! b = Some x /\ working (i_ctl s) x
             end }.

Lemma bind_outb {B} port v (k : unit -> I (D := D) B) c s :
  bind (outb port v) k (set_ctl c s) = k tt (set_ctl (latch port v c) s).
Proof. done. Qed.

Lemma set_ctl_id (s : ide (D := D)) : s = set_ctl (i_ctl s) s.
Proof. by destruct s. Qed.

(** [idestart] hands the buffer to the controller. *)
Lemma idestart_ok s b x : i_bufs s !! b = Some x -> buf_ok s x ->
  exists n c, idestart status wait_fuel (Some b) s = Ok tt (set_ctl c (set_tick n s)) /\ working c x.
Proof using becomes_ready no_errors.
  intros Hb (Hf & Hd & Hn & Hl). unfold idestart.
  rewrite (bind_Ok (get_ibuf b) _ s x s) by (unfold get_ibuf, bind, gets, id; by rewrite Hb).
  rewrite (proj2 (Z.leb_gt FSSIZE _)) by lia. change (BSIZE / SECTOR_SIZE) with 1. cbv zeta.
  rewrite Z.mul_1_r. change (1 =? 1) with true. change (7 <? 1) with false. cbv iota.
  rewrite i32_id by (unfold is_i32, FSSIZE in *; lia).
  destruct (idewait_ok false s) as [n En]. rewrite (bind_Ok _ _ _ _ _ En).
  set (c := if dirty x then regs_of (b_dev x) (b_blockno x) (Some IDE_CMD_WRITE) (b_data x)
            else regs_of (b_dev x) (b_blockno x) (Some IDE_CMD_READ) []).
  exists n, c. fold (dirty x). split.
  - rewrite (set_ctl_id (set_tick n s)) at 1. rewrite !bind_outb.
    destruct (i_ctl (set_tick n s)) as [a0 a1 a2 a3 a4 a5 a6]. autorewrite with latch. unfold c.
    destruct (dirty x).
    + rewrite bind_outb. autorewrite with latch. unfold outsl, modify. cbn [i_ctl set_ctl r_count r_lba0 r_lba1 r_lba2 r_drive r_cmd].
      rewrite take_ge; [reflexivity|]. rewrite Hl. change (4 * (BSIZE / 4)) with BSIZE. done.
    + unfold outb, modify. cbn [i_ctl set_ctl]. rewrite latch_cmd. reflexivity.
  - unfold working, c. assert (0 <= b_dev x < 2) by lia.
    destruct (dirty x); rewrite addressed_regs by done; done.
Qed.

Lemma bind_get_ibuf {B} b x (k : ibuf -> I (D := D) B) s : i_bufs s !! b = Some x -> bind (get_ibuf b) k s = k x s.
Proof. intros Hb. unfold bind, get_ibuf, gets, id, bind. by rewrite Hb. Qed.

Lemma bind_set_qnext {B} b n x (k : unit -> I (D := D) B) s : i_bufs s !! b = Some x ->
  bind (set_qnext b n) k s
  = k tt (set_ibufs (<[b := mkIbuf (b_flags x) (b_dev x) (b_blockno x) (b_locked x) n (b_data x)]> (i_bufs s)) s).
Proof. intros Hb. unfold set_qnext. rewrite <- bind_assoc, (bind_get_ibuf b x) by done. done. Qed.

Lemma bind_acquire {B} (k : unit -> I (D := D) B) s : idelock s = false -> bind acquire_ide k s = k tt (set_idelock true s).
Proof. intros Hl. unfold bind, acquire_ide, gets, id, bind. by rewrite Hl. Qed.

Lemma bind_release {B} (k : unit -> I (D := D) B) s : idelock s = true -> bind release_ide k s = k tt (set_idelock false s).
Proof. intros Hl. unfold bind, release_ide, gets, id, bind. by rewrite Hl. Qed.

Lemma queue_end_eq fuel pp h q (s : ide (D := D)) : qseg (i_bufs s) h q -> (length q <= fuel)%nat ->
  queue_end fuel pp h s = Ok (match last q with None => pp | Some c => Some c end) s.
Proof.
  revert pp h q. induction fuel as [|fuel IH]; intros pp h q Hq Hl; destruct q as [|b q]; cbn [length] in Hl; try lia.
  - cbn in Hq. by subst h.
  - cbn in Hq. by subst h.
  - destruct Hq as (-> & x & Hx & Hq). cbn [queue_end]. rewrite (bind_get_ibuf b x) by done.
    rewrite (IH (Some b) _ q Hq) by lia. destruct q; [done|]. rewrite last_cons_cons.
    by destruct (last (n :: q)) eqn:E; [|apply last_None in E].
Qed.

Lemma norm_insert b x (m : gmap nat ibuf) : norm <$> (<[b := x]> m) = <[b := norm x]> (norm <$> m).
Proof. apply fmap_insert. Qed.

(** A link does not show. *)
Lemma norm_link b n x (m : gmap nat ibuf) : m !! b = Some x ->
  norm <$> (<[b := mkIbuf (b_flags x) (b_dev x) (b_blockno x) (b_locked x) n (b_data x)]> m) = norm <$> m.
Proof.
  intros Hb. rewrite norm_insert. apply insert_id. rewrite lookup_fmap, Hb. done.
Qed.

(** ** A request *)

(** A process that holds the buffer's lock fills it and asks for it to be written
    ([f] is [B_DIRTY], with or without [B_VALID]) or read ([f] is 0). *)
Definition submit (b : nat) (f : Z) (d : list Z) : I (D := D) rw_result :=
  x <- get_ibuf b ;;
  put_ibuf b (mkIbuf f (b_dev x) (b_blockno x) true (b_qnext x) d) ;;;
  iderw status wait_fuel b.

(** The part of [iderw] that appends the buffer. *)
Lemma append_ok (s : ide (D := D)) q b x : qseg (i_bufs s) (idequeue s) q -> NoDup q -> b ∉ q -> i_bufs s !! b = Some x -> b_qnext x = None ->
  exists m h, (pp <- queue_end (size (i_bufs s)) None (idequeue s) ;;
      match pp with None => modify (set_queue (Some b)) | Some p => set_qnext p (Some b) end) s
    = Ok tt (set_ibufs m (set_queue h s))
    /\ qseg m h (q ++ [b]) /\ norm <$> m = norm <$> i_bufs s /\ h = (match q with [] => Some b | c :: _ => Some c end).
Proof.
  intros Hq Hn Hb Hx Hx0. pose proof (qseg_length _ _ _ Hq Hn) as Hl.
  rewrite (bind_Ok _ _ _ _ _ (queue_end_eq _ None _ q s Hq Hl)).
  destruct q as [|c q _] using rev_ind.
  - exists (i_bufs s), (Some b). split; [by destruct s|]. split; [|done]. cbn. eauto.
  - rewrite last_snoc. destruct (qseg_dom _ _ _ c Hq) as [y Hy]; [set_solver|].
    unfold set_qnext. rewrite (bind_get_ibuf c y) by done.
    exists (<[c := mkIbuf (b_flags y) (b_dev y) (b_blockno y) (b_locked y) (Some b) (b_data y)]> (i_bufs s)), (idequeue s).
    split; [by destruct s|].
    rewrite <- app_assoc. split; [|split].
    + eapply qseg_append; [exact Hq|done|exact Hx|done|]. change [c; b] with ([c] ++ [b]). rewrite app_assoc. apply NoDup_app.
      split_and!; [done| |apply NoDup_singleton]. intros z Hz ->%list_elem_of_singleton. done.
    + by apply norm_link.
    + destruct q; cbn in Hq |- *; destruct Hq as [-> _]; done.
Qed.

(** The last part of [iderw] finds the request unfinished. *)
Lemma wait_pending s b x : view s !! b = Some x -> idelock s = true -> b_flags x = 0 \/ b_flags x = 4 \/ b_flags x = 6 ->
  iderw_wait b s = Ok RwSleep (set_idelock false s).
Proof.
  intros Hx Hl Hf. unfold view in Hx. apply lookup_fmap_Some in Hx as (x0 & <- & Hx). unfold iderw_wait.
  rewrite (bind_get_ibuf b x0), bind_release by done. cbn in Hf. destruct Hf as [->|[->| ->]]; reflexivity.
Qed.

(** The invariant after a request was appended and, if it is the first, started. *)
Lemma inv_appended s s' q b x f d : inv s q -> b ∉ q -> view s !! b = Some x -> f = 0 \/ f = 4 \/ f = 6 ->
  length d = Z.to_nat BSIZE ->
  let y := mkIbuf f (b_dev x) (b_blockno x) true None d in
  idelock s' = false -> qseg (i_bufs s') (idequeue s') (q ++ [b]) -> view s' = <[b := y]> (view s) ->
  i_drives s' = i_drives s -> havedisk1 s' = havedisk1 s ->
  (match q with [] => working (i_ctl s') y | _ => i_ctl s' = i_ctl s end) -> inv s' (q ++ [b]).
Proof.
  intros [I1 I2 I3 I4 I5 I6 I7 I8] Hb Hx Hf Hd y E1 E2 E3 E4 E5 E6.
  assert (Hold : forall c z, view s' !! c = Some z -> c = b /\ z = y \/ c ≠ b /\ view s !! c = Some z).
  { intros c z. rewrite E3. rewrite lookup_insert_Some. naive_solver. }
  split; [done|done| | | | |by rewrite E4|].
  - apply NoDup_app. split_and!; [done| |apply NoDup_singleton]. intros z Hz ->%list_elem_of_singleton. done.
  - intros c z [[-> ->]|[_ Hz]]%Hold; unfold buf_ok; rewrite E5; [|by apply (I4 c)].
    destruct (I4 b x Hx) as (_ & ? & ? & _). cbn. split_and!; [tauto|done|lia|lia|done].
  - assert (Hy : addr y = addr x) by done.
    intros c c' z z' [[-> ->]|[N1 H1]]%Hold [[-> ->]|[N2 H2]]%Hold E; [done| | |by eapply I5].
    + by eapply I5; [exact Hx|exact H2|congruence].
    + by eapply I5; [exact H1|exact Hx|congruence].
  - intros c z Hc [[-> ->]|[Hne Hz]]%Hold; [cbn; lia|]. apply elem_of_app in Hc as [Hc|Hc%list_elem_of_singleton]; [by eapply I6|done].
  - destruct q as [|c q]; cbn [app].
    + exists y. rewrite E3, lookup_insert_eq. done.
    + destruct I8 as (z & Hz & Hw). exists z. rewrite E3, E6, lookup_insert_ne by set_solver. done.
Qed.

Lemma submit_ok s q b x f d : inv s q -> b ∉ q -> view s !! b = Some x ->
  f = 0 \/ f = 4 \/ f = 6 -> length d = Z.to_nat BSIZE ->
  exists s', submit b f d s = Ok RwSleep s' /\ inv s' (q ++ [b])
    /\ view s' = <[b := mkIbuf f (b_dev x) (b_blockno x) true None d]> (view s)
    /\ i_drives s' = i_drives s /\ i_woken s' = i_woken s.
Proof using becomes_ready no_errors.
  intros HI Hb Hx Hf Hd. pose proof (i_ok _ _ HI b x Hx) as (_ & Hdev & Hblk & _).
  pose proof Hx as Hv. unfold view in Hx. apply lookup_fmap_Some in Hx as (x0 & <- & Hx). cbn [norm b_dev b_blockno] in *.
  unfold submit. rewrite (bind_get_ibuf b x0) by done.
  set (x1 := mkIbuf f (b_dev x0) (b_blockno x0) true (b_qnext x0) d).
  rewrite (bind_Ok (put_ibuf b x1) _ s tt (set_ibufs (<[b := x1]> (i_bufs s)) s) eq_refl). unfold iderw.
  rewrite (bind_get_ibuf b x1) by apply lookup_insert_eq. cbn [negb b_locked x1 b_flags b_dev].
  replace (Z.land f (Z.lor B_VALID B_DIRTY) =? B_VALID) with false by (destruct Hf as [->|[->| ->]]; reflexivity).
  rewrite (bind_Ok (gets havedisk1) _ _ _ _ eq_refl).
  replace (negb (b_dev x0 =? 0) && _) with false by (cbn; destruct Hdev as [->|[_ ->]]; [done|by rewrite andb_false_r]).
  rewrite bind_acquire by apply HI. rewrite (bind_set_qnext b None x1) by apply lookup_insert_eq.
  cbn [i_bufs set_idelock set_ibufs]. rewrite insert_insert_eq.
  set (x2 := mkIbuf f (b_dev x0) (b_blockno x0) true None d). fold x2.
  set (s2 := set_ibufs (<[b := x2]> (i_bufs s)) (set_idelock true (set_ibufs (<[b := x1]> (i_bufs s)) s))).
  rewrite (bind_Ok (gets id) _ s2 s2 s2 eq_refl), bind_assoc.
  destruct (append_ok s2 q b x2) as (m & h & E & Hq & Hm & Hh); [by apply qseg_insert; [|apply HI]|apply HI|done|apply lookup_insert_eq|done|].
  rewrite (bind_Ok _ _ _ _ _ E), (bind_Ok (gets idequeue) _ _ _ _ eq_refl). cbn [idequeue set_ibufs set_queue].
  set (s3 := set_ibufs m (set_queue h s2)).
  assert (V3 : view s3 = <[b := x2]> (view s)) by (unfold view; cbn; rewrite Hm; apply norm_insert).
  assert (W : forall s4, view s4 = view s3 -> idelock s4 = true -> iderw_wait b s4 = Ok RwSleep (set_idelock false s4)).
  { intros s4 E4 L4. apply (wait_pending s4 b x2); [rewrite E4, V3; apply lookup_insert_eq|done|done]. }
  destruct q as [|c q].
  - subst h. rewrite bool_decide_eq_true_2 by done.
    assert (exists y, m !! b = Some y /\ norm y = x2) as (y & Hy & Ny).
    { apply (f_equal (lookup b)) in V3. rewrite lookup_insert_eq in V3. apply lookup_fmap_Some in V3 as (y & Hy & Hn). eauto. }
    destruct (idestart_ok s3 b y Hy) as (n & cc & Es & Hw).
    { rewrite <- Ny in *. unfold x2 in Ny. injection Ny as N1 N2 N3 N4 N5. unfold buf_ok. rewrite N1, N2, N3, N5. cbn.
      split_and!; [tauto|done|lia|lia|done]. }
    rewrite (bind_Ok _ _ _ _ _ Es), W by done. eexists. split; [reflexivity|].
    split; [|split; [exact V3|done]].
    apply (inv_appended s _ [] b (norm x0) f d HI Hb Hv Hf Hd); try done. cbn.
    unfold working, addr, dirty in *. injection Ny as N1 N2 N3 N4 N5. rewrite N1, N2, N3, N5 in Hw. done.
  - rewrite bool_decide_eq_false_2 by (rewrite Hh; set_solver).
    rewrite (bind_Ok (ret tt) _ s3 tt s3 eq_refl), W by done. eexists. split; [reflexivity|].
    split; [|split; [exact V3|done]]. by apply (inv_appended s _ (c :: q) b (norm x0) f d).
Qed.

(** ** An interrupt *)

(** The controller has finished, and the handler runs. *)
Definition interrupt : I (D := D) unit := complete ;;; ideintr status wait_fuel.

(** The result of a request for the buffer [x]. *)
Definition served_data (dr : D) (x : ibuf) : list Z := if dirty x then b_data x else drive_read dr (addr x).
Definition served (dr : D) (x : ibuf) : ibuf :=
  mkIbuf B_VALID (b_dev x) (b_blockno x) (b_locked x) None (served_data dr x).
Definition served_drives (dr : D) (x : ibuf) : D := if dirty x then drive_write dr (addr x) (b_data x) else dr.

Lemma complete_ok s x : working (i_ctl s) x ->
  exists c, complete s = Ok tt (set_ctl c (set_drives (served_drives (i_drives s) x) s))
    /\ r_cmd c = None /\ r_data c = served_data (i_drives s) x.
Proof.
  intros [Ha Hw]. unfold complete, served_drives, served_data. rewrite (bind_Ok (gets id) _ s s s eq_refl). cbv zeta.
  destruct (dirty x).
  - destruct Hw as [-> Hd]. rewrite Ha, Hd. eexists. split; [by destruct s|done].
  - rewrite Hw, Ha. eexists. split; [by destruct s|done].
Qed.

(** The handler up to the point where it looks for the next request. *)
Lemma finish_ok s b x : i_bufs s !! b = Some x -> buf_ok s x -> b_flags x ≠ 2 ->
  length (r_data (i_ctl s)) = Z.to_nat BSIZE -> (dirty x = true -> r_data (i_ctl s) = b_data x) ->
  exists n, ((if Z.land (b_flags x) B_DIRTY =? 0 then
         r <- idewait status wait_fuel true ;;
         when (0 <=? r)
           (d <- insl (BSIZE / 4) ;;
            put_ibuf b (mkIbuf (b_flags x) (b_dev x) (b_blockno x) (b_locked x) (b_qnext x) d))
       else ret tt) ;;;
      x <- get_ibuf b ;;
      put_ibuf b (mkIbuf (Z.land (Z.lor (b_flags x) B_VALID) (Z.lnot B_DIRTY)) (b_dev x) (b_blockno x) (b_locked x) (b_qnext x) (b_data x))) s
    = Ok tt (set_ibufs (<[b := mkIbuf B_VALID (b_dev x) (b_blockno x) (b_locked x) (b_qnext x) (r_data (i_ctl s))]> (i_bufs s))
               (set_tick n s)).
Proof using becomes_ready no_errors.
  intros Hx (Hf & _) Hf2 Hl Hd. unfold dirty in Hd.
  assert (F : Z.land (Z.lor (b_flags x) B_VALID) (Z.lnot B_DIRTY) = B_VALID) by (destruct Hf as [->|[->|[->| ->]]]; reflexivity).
  destruct (Z.land (b_flags x) B_DIRTY =? 0) eqn:E.
  - destruct (idewait_ok true s) as [n En]. exists n. rewrite <- bind_assoc, (bind_Ok _ _ _ _ _ En).
    change (0 <=? 0) with true. cbn [when]. unfold insl.
    rewrite <- !bind_assoc, (bind_Ok (gets i_ctl) _ _ _ _ eq_refl), (bind_Ok (ret _) _ _ _ _ eq_refl).
    rewrite take_ge by (change (4 * (BSIZE / 4)) with BSIZE; cbn [i_ctl set_tick]; lia).
    rewrite (bind_Ok (put_ibuf _ _) _ _ _ _ eq_refl). rewrite (bind_get_ibuf b _ _ _ (lookup_insert_eq _ _ _)).
    cbn [b_flags b_dev b_blockno b_locked b_qnext b_data]. rewrite F. unfold put_ibuf, modify. cbn [i_bufs set_ibufs].
    by rewrite insert_insert_eq.
  - exists (i_tick s). rewrite (bind_Ok (ret tt) _ _ _ _ eq_refl), (bind_get_ibuf b x) by done.
    rewrite F, Hd by done. by destruct s.
Qed.

(** The invariant after the first request was finished. *)
Lemma inv_finished s s' q b x : inv s (b :: q) -> view s !! b = Some x ->
  idelock s' = false -> qseg (i_bufs s') (idequeue s') q -> view s' = <[b := served (i_drives s) x]> (view s) ->
  i_drives s' = served_drives (i_drives s) x -> havedisk1 s' = havedisk1 s ->
  (match q with [] => r_cmd (i_ctl s') = None | c :: _ => exists y, view s !! c = Some y /\ working (i_ctl s') y end) ->
  inv s' q.
Proof.
  intros [I1 I2 I3 I4 I5 I6 I7 I8] Hx E1 E2 E3 E4 E5 E6. apply NoDup_cons in I3 as [Hb I3].
  assert (Hold : forall c z, view s' !! c = Some z -> c = b /\ z = served (i_drives s) x \/ c ≠ b /\ view s !! c = Some z).
  { intros c z. rewrite E3. rewrite lookup_insert_Some. naive_solver. }
  destruct (I4 b x Hx) as (Hf & Hdv & Hbl & Hd).
  split; [done|done|done| | | | |].
  - intros c z [[-> ->]|[_ Hz]]%Hold; unfold buf_ok; rewrite E5; [|by apply (I4 c)]. cbn.
    split_and!; [tauto|done|lia|lia|]. unfold served_data. by destruct (dirty x).
  - assert (Hy : addr (served (i_drives s) x) = addr x) by done.
    intros c c' z z' [[-> ->]|[N1 H1]]%Hold [[-> ->]|[N2 H2]]%Hold E; [done| | |by eapply I5].
    + by eapply I5; [exact Hx|exact H2|congruence].
    + by eapply I5; [exact H1|exact Hx|congruence].
  - intros c z Hc [[-> ->]|[Hne Hz]]%Hold; [done|]. eapply I6; [by right|done].
  - intros a. rewrite E4. unfold served_drives. destruct (dirty x); [|done]. destruct (decide (addr x = a)) as [<-|Hne].
    + by rewrite read_write_eq.
    + by rewrite read_write_ne.
  - destruct q as [|c q]; [done|]. destruct E6 as (y & Hy & Hw). exists y. rewrite E3, lookup_insert_ne by set_solver. done.
Qed.

Lemma interrupt_idle s : inv s [] -> interrupt s = Ok tt s.
Proof.
  intros [I1 I2 I3 I4 I5 I6 I7 I8]. unfold interrupt, complete.
  rewrite <- bind_assoc, (bind_Ok (gets id) _ s s s eq_refl). cbv zeta. rewrite I8, (bind_Ok (ret tt) _ s tt s eq_refl).
  unfold ideintr. rewrite bind_acquire, (bind_Ok (gets idequeue) _ _ _ _ eq_refl) by done. cbn in I2. cbn [idequeue set_idelock].
  rewrite I2. unfold release_ide, bind, gets, modify, id. cbn. destruct s; cbn in *. by subst.
Qed.

Lemma interrupt_ok s q b x : inv s (b :: q) -> view s !! b = Some x ->
  exists s', interrupt s = Ok tt s' /\ inv s' q /\ view s' = <[b := served (i_drives s) x]> (view s)
    /\ i_drives s' = served_drives (i_drives s) x /\ i_woken s' = i_woken s ++ [b].
Proof using becomes_ready no_errors.
  intros HI Hx. pose proof (i_active _ _ HI) as (x' & Hx' & Hw). rewrite Hx in Hx'. injection Hx' as <-.
  pose proof (i_ok _ _ HI b x Hx) as Hok. pose proof (i_pending _ _ HI b x ltac:(by left) Hx) as Hp.
  destruct (complete_ok s x Hw) as (c & Ec & C1 & C2). unfold interrupt. rewrite (bind_Ok _ _ _ _ _ Ec).
  set (s1 := set_ctl c (set_drives (served_drives (i_drives s) x) s)).
  pose proof (i_seg _ _ HI) as (Hq & x0 & Hx0 & Hseg). pose proof Hx as Hv. unfold view in Hx. rewrite lookup_fmap, Hx0 in Hx.
  injection Hx as <-. unfold ideintr. rewrite bind_acquire by apply HI.
  rewrite (bind_Ok (gets idequeue) _ _ _ _ eq_refl). cbn [idequeue set_idelock s1 set_ctl set_drives]. rewrite Hq.
  rewrite (bind_get_ibuf b x0), (bind_Ok (modify (set_queue (b_qnext x0))) _ _ _ _ eq_refl) by done. cbv zeta.
  set (s2 := set_queue (b_qnext x0) (set_idelock true s1)).
  assert (Hlen : length (r_data (i_ctl s2)) = Z.to_nat BSIZE).
  { cbn. rewrite C2. unfold served_data. destruct (dirty (norm x0)); [apply Hok|apply HI]. }
  destruct (finish_ok s2 b x0 Hx0 Hok Hp Hlen) as [n En].
  { intros Hd. cbn. rewrite C2. unfold served_data, dirty in *. cbn. by rewrite Hd. }
  rewrite bind_assoc in En |- *. rewrite bind_assoc, (bind_Ok _ _ _ _ _ En). clear En.
  set (y := mkIbuf B_VALID (b_dev x0) (b_blockno x0) (b_locked x0) (b_qnext x0) (r_data (i_ctl s2))).
  set (m := <[b := y]> (i_bufs s2)). rewrite (bind_Ok (modify (add_woken b)) _ _ _ _ eq_refl).
  set (s3 := add_woken b (set_ibufs m (set_tick n s2))). rewrite (bind_Ok (gets idequeue) _ _ _ _ eq_refl).
  assert (V3 : view s3 = <[b := served (i_drives s) (norm x0)]> (view s)).
  { unfold view, s3, m. cbn [i_bufs add_woken set_ibufs]. rewrite norm_insert. f_equal. unfold served, y, norm. cbn. by rewrite C2. }
  pose proof (i_nodup _ _ HI) as [Hb _]%NoDup_cons.
  assert (Hseg3 : qseg (i_bufs s3) (idequeue s3) q) by (by apply qseg_insert).
  destruct q as [|d q].
  - cbn in Hseg3 |- *. rewrite Hseg3, (bind_Ok (ret tt) _ s3 tt s3 eq_refl). eexists. split; [reflexivity|].
    split; [|done]. eapply (inv_finished s _ [] b (norm x0) HI Hv); done.
  - pose proof Hseg3 as (Hh & z & Hz & _). cbn in Hh. cbn [idequeue s3 s2 add_woken set_ibufs set_tick set_queue]. rewrite Hh.
    assert (Hd : view s !! d = Some (norm z)).
    { rewrite <- (lookup_insert_ne _ b d (served (i_drives s) (norm x0))), <- V3 by set_solver. unfold view. by rewrite lookup_fmap, Hz. }
    destruct (idestart_ok s3 d z Hz) as (n' & cc & Es & Hw'); [exact (i_ok _ _ HI d _ Hd)|].
    rewrite (bind_Ok _ _ _ _ _ Es). eexists. split; [reflexivity|]. split; [|split; [exact V3|done]].
    apply (inv_finished s _ (d :: q) b (norm x0) HI Hv); try done. exists (norm z). done.
Qed.

(** ** Every sequence of events *)

Lemma resume_eq s b x : view s !! b = Some x -> idelock s = false ->
  iderw_resume b s = Ok (if Z.land (b_flags x) (Z.lor B_VALID B_DIRTY) =? B_VALID then RwDone else RwSleep) s.
Proof.
  intros Hx Hl. unfold view in Hx. apply lookup_fmap_Some in Hx as (x0 & <- & Hx). unfold iderw_resume, iderw_wait.
  rewrite bind_acquire, (bind_get_ibuf b x0), bind_release by done. unfold ret. f_equal. destruct s; cbn in *. by subst.
Qed.

(** A process submits a buffer; the controller interrupts; a process wakes up and
    looks at its buffer. *)
Inductive event := Submit (b : nat) (f : Z) (d : list Z) | Interrupt | Resume (b : nat).

Definition ide_step (ev : event) : I (D := D) unit :=
  match ev with
  | Submit b f d => _ <- submit b f d ;; ret tt
  | Interrupt => interrupt
  | Resume b => _ <- iderw_resume b ;; ret tt
  end.

Definition ide_run (evs : list event) : I (D := D) unit := for_each evs ide_step.

(** A buffer is submitted by the one process that holds its lock, so not while it
    is in the queue; [n] buffers exist. *)
Fixpoint allowed (n : nat) (q : list nat) (evs : list event) : Prop :=
  match evs with
  | [] => True
  | Submit b f d :: evs' => (b < n)%nat /\ (b ∉ q) /\ (f = 0 \/ f = 4 \/ f = 6) /\ length d = Z.to_nat BSIZE /\ allowed n (q ++ [b]) evs'
  | Interrupt :: evs' => allowed n (tail q) evs'
  | Resume b :: evs' => (b < n)%nat /\ allowed n q evs'
  end.

Definition submits (b : nat) (ev : event) : bool := match ev with Submit c _ _ => (c =? b)%nat | _ => false end.
Fixpoint interrupts (evs : list event) : nat :=
  match evs with [] => 0 | Interrupt :: evs' => S (interrupts evs') | _ :: evs' => interrupts evs' end.

Definition has_bufs (n : nat) (s : ide (D := D)) : Prop := forall b, (b < n)%nat <-> is_Some (view s !! b).

Lemma has_bufs_insert n s s' c z : has_bufs n s -> is_Some (view s !! c) -> view s' = <[c := z]> (view s) -> has_bufs n s'.
Proof.
  intros Hn Hc E k. rewrite E. destruct (decide (k = c)) as [->|].
  - rewrite lookup_insert_eq. split; [eauto|]. intros _. by apply Hn.
  - rewrite lookup_insert_ne by done. apply Hn.
Qed.

(** How far the request for [b] is: [pre] requests are before it; or it is
    finished. *)
Inductive progress (b : nat) (x : ibuf) (w : list Z) (v : list Z) (s : ide (D := D)) (q : list nat) : option (list nat) -> Prop :=
| waiting pre post : q = pre ++ b :: post -> view s !! b = Some x -> drive_read (i_drives s) (addr x) = v ->
    progress b x w v s q (Some pre)
| finished : b ∉ q -> view s !! b = Some (mkIbuf B_VALID (b_dev x) (b_blockno x) (b_locked x) None w) ->
    drive_read (i_drives s) (addr x) = w -> b ∈ i_woken s -> progress b x w v s q None.

Definition next (ev : event) (o : option (list nat)) : option (list nat) :=
  match ev, o with
  | Interrupt, Some [] => None
  | Interrupt, Some (_ :: pre) => Some pre
  | _, _ => o
  end.

Lemma step_progress n b x w v s q o ev evs :
  inv s q -> has_bufs n s -> allowed n q (ev :: evs) -> submits b ev = false ->
  w = (if dirty x then b_data x else v) -> progress b x w v s q o ->
  exists s' q', ide_step ev s = Ok tt s' /\ inv s' q' /\ has_bufs n s' /\ allowed n q' evs
    /\ progress b x w v s' q' (next ev o).
Proof using becomes_ready no_errors.
  intros HI Hn Ha Hs Hw HP. destruct ev as [c f d| |c]; cbn [allowed ide_step submits] in *.
  - destruct Ha as (Hc & Hq & Hf & Hd & Ha). apply Hn in Hc as [y Hy]. apply Nat.eqb_neq in Hs.
    destruct (submit_ok s q c y f d HI Hq Hy Hf Hd) as (s' & E & I' & V' & D' & W'). exists s', (q ++ [c]).
    rewrite (bind_Ok _ _ _ _ _ E). split_and!; [done|done| |done|].
    + by eapply has_bufs_insert; [exact Hn| |exact V'].
    + assert (view s' !! b = view s !! b) as Eb by (rewrite V'; by apply lookup_insert_ne).
      destruct HP as [pre post -> H1 H2|H1 H2 H3 H4]; cbn [next].
      * apply (waiting _ _ _ _ _ _ pre (post ++ [c])); [by rewrite <- app_assoc|by rewrite Eb|by rewrite D'].
      * apply finished; [set_solver|by rewrite Eb|by rewrite D'|by rewrite W'].
  - destruct q as [|c q].
    { exists s, []. rewrite interrupt_idle by done. split_and!; try done.
      destruct HP as [[|] post E H1 H2|H1 H2 H3 H4]; [done|done|]. by apply finished. }
    destruct (qseg_dom _ _ _ c (i_seg _ _ HI) ltac:(by left)) as [y0 Hy0].
    assert (Hy : view s !! c = Some (norm y0)) by (unfold view; by rewrite lookup_fmap, Hy0). set (y := norm y0) in *.
    destruct (interrupt_ok s q c y HI Hy) as (s' & E & I' & V' & D' & W'). exists s', q.
    split_and!; [done|done| |done|].
    + by eapply has_bufs_insert; [exact Hn| |exact V'].
    + assert (Hoth : c ≠ b -> view s' !! b = view s !! b) by (intros; rewrite V'; by apply lookup_insert_ne).
      assert (Hdr : forall z, view s !! b = Some z -> addr z = addr x -> c ≠ b ->
        drive_read (i_drives s') (addr x) = drive_read (i_drives s) (addr x)).
      { intros z Hz Hzx Hne. rewrite D'. unfold served_drives. destruct (dirty y); [|done]. apply read_write_ne.
        intros Eq. apply Hne. eapply (i_inj _ _ HI); [exact Hy|exact Hz|congruence]. }
      destruct HP as [pre post E2 H1 H2|H1 H2 H3 H4].
      * destruct pre as [|c' pre]; cbn in E2; injection E2 as -> ->; cbn [next].
        -- rewrite H1 in Hy. injection Hy as Ey. rewrite <- Ey in *. pose proof (i_nodup _ _ HI) as [Hnb _]%NoDup_cons.
           apply finished; [done| | |rewrite W'; set_solver].
           ++ rewrite V', lookup_insert_eq. unfold served, served_data. by rewrite Hw, H2.
           ++ rewrite D', Hw. unfold served_drives. destruct (dirty x); [by rewrite read_write_eq|done].
        -- assert (c' ≠ b). { intros ->. pose proof (i_nodup _ _ HI) as [Hnb _]%NoDup_cons. set_solver. }
           apply (waiting _ _ _ _ _ _ pre post); [done|by rewrite Hoth|by rewrite (Hdr x)].
      * cbn [next]. assert (c ≠ b) by set_solver. apply finished; [set_solver|by rewrite Hoth|by rewrite (Hdr _ H2)|rewrite W'; set_solver].
  - destruct Ha as [Hc Ha]. apply Hn in Hc as [y Hy]. exists s, q.
    rewrite (bind_Ok _ _ _ _ _ (resume_eq s c y Hy (i_free _ _ HI))). split_and!; done.
Qed.

Lemma run_progress n b x w v evs : w = (if dirty x then b_data x else v) -> forall s q o,
  inv s q -> has_bufs n s -> allowed n q evs -> forallb (fun ev => negb (submits b ev)) evs = true -> progress b x w v s q o ->
  exists s' q', ide_run evs s = Ok tt s' /\ inv s' q' /\ progress b x w v s' q' (foldl (fun o ev => next ev o) o evs).
Proof using becomes_ready no_errors.
  intros Hw. induction evs as [|ev evs IH]; intros s q o HI Hn Ha Hs HP; [by exists s, q|].
  cbn [forallb] in Hs. apply andb_true_iff in Hs as [Hs1 Hs]. apply negb_true_iff in Hs1.
  destruct (step_progress n b x w v s q o ev evs HI Hn Ha Hs1 Hw HP) as (s1 & q1 & E1 & I1 & N1 & A1 & P1).
  destruct (IH s1 q1 _ I1 N1 A1 Hs P1) as (s2 & q2 & E2 & I2 & P2). exists s2, q2. split; [|done].
  unfold ide_run. cbn [for_each]. by rewrite (bind_Ok _ _ _ _ _ E1).
Qed.

Lemma next_done evs : foldl (fun o ev => next ev o) None evs = None.
Proof. induction evs as [|[]]; done. Qed.

Lemma next_enough evs pre : (length pre < interrupts evs)%nat -> foldl (fun o ev => next ev o) (Some pre) evs = None.
Proof.
  revert pre. induction evs as [|[] evs IH]; intros pre Hl; cbn in *; [lia|by apply IH| |by apply IH].
  destruct pre as [|c pre]; [apply next_done|]. apply IH. simpl in Hl. lia.
Qed.

(** C39: Every disk request completes, if the drive becomes ready whenever it is
    polled and reports no error.  A process submits a buffer while [q] requests
    are before it; whatever the other processes submit and however interrupts
    and wake-ups are ordered after that, once the controller has interrupted more
    than [length q] times the request is finished: its process was woken and its
    [iderw] returns, the buffer is valid and clean, a written buffer keeps its
    data, a read one holds what the block held when the request was made, and the
    block on the disk is equal to the buffer. *)
Theorem iderw_completes n s q b x f d evs :
  inv s q -> has_bufs n s -> view s !! b = Some x -> allowed n q (Submit b f d :: evs) ->
  forallb (fun ev => negb (submits b ev)) evs = true -> (length q < interrupts evs)%nat ->
  let w := if f =? 0 then drive_read (i_drives s) (addr x) else d in
  exists s' q', ide_run (Submit b f d :: evs) s = Ok tt s' /\ inv s' q' /\ (b ∉ q')
    /\ view s' !! b = Some (mkIbuf B_VALID (b_dev x) (b_blockno x) true None w)
    /\ drive_read (i_drives s') (addr x) = w /\ b ∈ i_woken s' /\ iderw_resume b s' = Ok RwDone s'.
Proof using becomes_ready no_errors.
  intros HI Hn Hx (Hb & Hq & Hf & Hd & Ha) Hs Hi w.
  destruct (submit_ok s q b x f d HI Hq Hx Hf Hd) as (s1 & E1 & I1 & V1 & D1 & W1).
  set (y := mkIbuf f (b_dev x) (b_blockno x) true None d) in *.
  assert (Hw : w = (if dirty y then b_data y else drive_read (i_drives s) (addr x))).
  { unfold w, dirty, y. cbn. destruct Hf as [->|[->| ->]]; reflexivity. }
  destruct (run_progress n b y w (drive_read (i_drives s) (addr x)) evs Hw s1 (q ++ [b]) (Some q) I1) as (s2 & q2 & E2 & I2 & P2).
  - eapply has_bufs_insert; [exact Hn|eauto|exact V1].
  - done.
  - done.
  - apply (waiting _ _ _ _ _ _ q []); [done|rewrite V1; apply lookup_insert_eq|by rewrite D1].
  - rewrite next_enough in P2 by done. inversion P2 as [|P2a P2b P2c P2d]. exists s2, q2.
    split; [unfold ide_run; cbn [for_each ide_step]; rewrite <- bind_assoc, (bind_Ok _ _ _ _ _ E1); exact E2|].
    split_and!; try done. rewrite (resume_eq s2 b _ P2b (i_free _ _ I2)). done.
Qed.
End Spec.

(** ** Errors *)

Section Error.
Context {D : Type} `{Drive D}.

Lemma idewait_error status (s : ide (D := D)) : status (i_tick s) = Z.lor IDE_DRDY IDE_ERR ->
  idewait status 1 true s = Ok (-1) (tick s).
Proof.
  intros Hs. unfold idewait. assert (E : idewait_loop status 1 s = Ok (status (i_tick s)) (tick s)).
  { cbn [idewait_loop]. rewrite (bind_Ok (inb_status status) _ s _ _ eq_refl), Hs. done. }
  rewrite (bind_Ok _ _ _ _ _ E), Hs. done.
Qed.

(** C40: A read that the drive reports as failed still ends with the buffer marked valid
    and its old data in it. *)
Theorem ide_read_error_valid (status : nat -> Z) (s : ide (D := D)) b x :
  idelock s = false -> idequeue s = Some b -> i_bufs s !! b = Some x -> b_flags x = 0 -> b_qnext x = None ->
  status (i_tick s) = Z.lor IDE_DRDY IDE_ERR ->
  exists s', ideintr status 1 s = Ok tt s'
    /\ i_bufs s' !! b = Some (mkIbuf B_VALID (b_dev x) (b_blockno x) (b_locked x) None (b_data x)).
Proof.
  intros Hl Hq Hb Hf Hn Hst. unfold ideintr. rewrite bind_acquire, (bind_Ok (gets idequeue) _ _ _ _ eq_refl) by done.
  cbn [idequeue set_idelock]. rewrite Hq, (bind_get_ibuf b x), Hf by done. cbv zeta. change (Z.land 0 B_DIRTY =? 0) with true.
  cbv iota. rewrite (bind_Ok (modify (set_queue (b_qnext x))) _ _ _ _ eq_refl).
  set (s1 := set_queue (b_qnext x) (set_idelock true s)).
  rewrite <- bind_assoc, (bind_Ok _ _ s1 _ _ (idewait_error status s1 Hst)). change (0 <=? -1) with false. cbn [when].
  rewrite (bind_Ok (ret tt) _ _ _ _ eq_refl), (bind_get_ibuf b x), Hf by done.
  rewrite (bind_Ok (put_ibuf _ _) _ _ _ _ eq_refl), (bind_Ok (modify (add_woken b)) _ _ _ _ eq_refl).
  rewrite (bind_Ok (gets idequeue) _ _ _ _ eq_refl). cbn [idequeue add_woken set_ibufs tick s1 set_queue]. rewrite Hn.
  rewrite (bind_Ok (ret tt) _ _ _ _ eq_refl). eexists. split; [reflexivity|]. cbn. apply lookup_insert_eq.
Qed.
End Error.

(** ** Witnesses *)

Definition map_read (d : gmap (Z * Z) (list Z)) (a : Z * Z) : list Z := default (replicate (Z.to_nat BSIZE) 0) (d !! a).

Lemma map_read_eq d a v : map_read (<[a := v]> d) a = v.
Proof. unfold map_read. by rewrite lookup_insert_eq. Qed.

Lemma map_read_ne d a b v : a ≠ b -> map_read (<[a := v]> d) b = map_read d b.
Proof. intros Hne. unfold map_read. by rewrite lookup_insert_ne. Qed.

#[export] Instance map_drive : Drive (gmap (Z * Z) (list Z)) := {
  drive_read := map_read; drive_write d a v := <[a := v]> d;
  read_write_eq := map_read_eq; read_write_ne := map_read_ne }.

(** Three buffers of three blocks, and a queue with nothing in it. *)
Definition demo_ide : ide (D := gmap (Z * Z) (list Z)) :=
  let x k := mkIbuf 0 0 k false None (replicate (Z.to_nat BSIZE) 0) in
  mkIde (list_to_map [(0%nat, x 2); (1%nat, x 5); (2%nat, x 7)]) None false false (mkCtl 0 0 0 0 0 None []) ∅ 0 [].

Lemma demo_ide_view b x : view demo_ide !! b = Some x ->
  (b = 0%nat /\ x = mkIbuf 0 0 2 false None (replicate (Z.to_nat BSIZE) 0))
  \/ (b = 1%nat /\ x = mkIbuf 0 0 5 false None (replicate (Z.to_nat BSIZE) 0))
  \/ (b = 2%nat /\ x = mkIbuf 0 0 7 false None (replicate (Z.to_nat BSIZE) 0)).
Proof.
  unfold view. intros (y & <- & Hy)%lookup_fmap_Some. cbn [i_bufs demo_ide list_to_map foldr] in Hy.
  apply lookup_insert_Some in Hy as [[<- <-]|[_ Hy]]; [by left|].
  apply lookup_insert_Some in Hy as [[<- <-]|[_ Hy]]; [right; by left|].
  apply lookup_insert_Some in Hy as [[<- <-]|[_ Hy]]; [right; by right|]. by rewrite lookup_empty in Hy.
Qed.

Lemma demo_ide_inv : inv demo_ide [].
Proof.
  split; [done|done|constructor| | | | |done].
  - intros b x Hx. unfold buf_ok, FSSIZE. apply demo_ide_view in Hx as [[_ ->]|[[_ ->]|[_ ->]]]; cbn -[replicate BSIZE];
      rewrite length_replicate; lia.
  - intros b c x y Hx Hy. apply demo_ide_view in Hx as [[-> ->]|[[-> ->]|[-> ->]]];
      apply demo_ide_view in Hy as [[-> ->]|[[-> ->]|[-> ->]]]; unfold addr; cbn -[replicate]; congruence.
  - intros b x Hb. by apply not_elem_of_nil in Hb.
  - intros a. cbn -[replicate BSIZE]. unfold map_read. by rewrite lookup_empty; apply length_replicate.
Qed.

Lemma demo_has_bufs : has_bufs 3 demo_ide.
Proof.
  intros b. split; [|by intros [x [[-> _]|[[-> _]|[-> _]]]%demo_ide_view]; lia].
  intros Hb. destruct b as [|[|[|b]]]; [by eexists..|lia].
Qed.

(** Block 5 is written while the request for block 2 is before it, and a third
    process reads block 7. *)
Lemma iderw_completes_witness : exists s',
  ide_run (fun _ => 64) 1 [Submit 0 0 (replicate (Z.to_nat BSIZE) 1); Submit 1 4 (replicate (Z.to_nat BSIZE) 9);
     Interrupt; Submit 2 0 (replicate (Z.to_nat BSIZE) 3); Resume 1; Interrupt] demo_ide = Ok tt s'
  /\ drive_read (i_drives s') (0, 5) = replicate (Z.to_nat BSIZE) 9 /\ iderw_resume 1%nat s' = Ok RwDone s'.
Proof.
  assert (R : forall n : nat, exists k, (k < 1)%nat /\ ready ((fun _ => 64) (n + k)%nat) = true) by (intros; exists 0%nat; split; [lia|reflexivity]).
  assert (N : forall n : nat, ready 64 = true -> Z.land 64 (Z.lor IDE_DF IDE_ERR) = 0) by done.
  destruct (submit_ok (fun _ => 64) 1 R N demo_ide [] 0%nat
    (mkIbuf 0 0 2 false None (replicate (Z.to_nat BSIZE) 0)) 0 (replicate (Z.to_nat BSIZE) 1) demo_ide_inv ltac:(set_solver) eq_refl
    ltac:(lia) (length_replicate _ _)) as (s1 & E1 & I1 & V1 & D1 & _).
  destruct (iderw_completes (fun _ => 64) 1 R N 3 s1 [0%nat] 1%nat
    (mkIbuf 0 0 5 false None (replicate (Z.to_nat BSIZE) 0)) 4 (replicate (Z.to_nat BSIZE) 9)
    [Interrupt; Submit 2 0 (replicate (Z.to_nat BSIZE) 3); Resume 1; Interrupt] I1) as (s' & q' & E & _ & _ & _ & H1 & _ & H2).
  - eapply (has_bufs_insert 3 demo_ide s1 0%nat); [exact demo_has_bufs|apply demo_has_bufs; lia|exact V1].
  - rewrite V1. reflexivity.
  - cbn -[replicate BSIZE]. rewrite !length_replicate. split_and!; (lia || set_solver).
  - reflexivity.
  - cbn. lia.
  - exists s'. split; [|split; [exact H1|exact H2]]. unfold ide_run in *. cbn [for_each ide_step] in *.
    rewrite <- bind_assoc, (bind_Ok _ _ _ _ _ E1). exact E.
Defined.

Lemma ide_read_error_valid_witness :
  let x := mkIbuf 0 0 5 true None [] in
  exists s', ideintr (fun _ => 65) 1 (mkIde {[ 1%nat := x ]} (Some 1%nat) false false (mkCtl 0 0 0 0 0 None []) (∅ : gmap (Z * Z) (list Z)) 0 []) = Ok tt s'
    /\ i_bufs s' !! 1%nat = Some (mkIbuf B_VALID 0 5 true None []).
Proof.
  intros x. exact (ide_read_error_valid (fun _ => 65) (mkIde {[ 1%nat := x ]} (Some 1%nat) false false (mkCtl 0 0 0 0 0 None []) (∅ : gmap (Z * Z) (list Z)) 0 [])
    1%nat x eq_refl eq_refl eq_refl eq_refl eq_refl eq_refl).
Defined.
