(* ===== verification/Mp.v ===== *)
(** * mp.c: the processors the firmware describes

    The tables are in memory that the firmware has filled, an argument here: [mem]
    is the byte at each virtual address.  The search for the floating pointer
    structure, the checks of the configuration table, and the walk over its
    entries. *)

From S2P Require Import Prelude KMonad Params Kalloc.

Section Mp.
Context (mem : Z -> Z).

(** [n] bytes at [p]; a little-endian number there. *)
Definition bytes_at (p : Z) (n : nat) : list Z := (fun i => mem (u32 (p + Z.of_nat i))) <$> seq 0 n.
Definition num_at (p : Z) (n : nat) : Z := le_val (bytes_at p n).

(** [sum]: an [int], returned as [uchar]. *)
Definition sum (addr : Z) (len : nat) : Z := u8 (foldl (fun s x => i32 (s + x)) 0 (bytes_at addr len)).

(** ["_MP_"] and ["PCMP"]. *)
Definition mp_signature : list Z := [95; 77; 80; 95].
Definition mpconf_signature : list Z := [80; 67; 77; 80].
Definition sizeof_mp : Z := 16.

(** [n] bounds the rounds of the loop over [p]. *)
Fixpoint mpsearch_from (n : nat) (p e : Z) : option Z :=
  match n with
  | O => None
  | S n' =>
      if p <? e then
        if bool_decide (bytes_at p 4 = mp_signature) && (sum p 16 =? 0) then Some p
        else mpsearch_from n' (u32 (p + sizeof_mp)) e
      else None
  end.

Definition mpsearch1 (a : Z) (len : nat) : option Z :=
  let addr := P2V a in
  let e := u32 (addr + Z.of_nat len) in
  mpsearch_from (S (len / 16)) addr e.

Definition mpsearch : option Z :=
  let bda := P2V 1024 in
  let byte i := mem (u32 (bda + i)) in
  let p := u32 (Z.shiftl (Z.lor (Z.shiftl (byte 15) 8) (byte 14)) 4) in
  let last := mpsearch1 983040 (Z.to_nat 65536) in
  if negb (p =? 0) then
    match mpsearch1 p 1024 with Some mp => Some mp | None => last end
  else
    let p := u32 (Z.lor (Z.shiftl (byte 20) 8) (byte 19) * 1024) in
    match mpsearch1 (u32 (p - 1024)) 1024 with Some mp => Some mp | None => last end.

(** The fields of [struct mp] and [struct mpconf]. *)
Definition mp_physaddr (mp : Z) : Z := num_at (mp + 4) 4.
Definition mp_imcrp (mp : Z) : Z := num_at (mp + 12) 1.
Definition conf_length (conf : Z) : Z := num_at (conf + 4) 2.
Definition conf_version (conf : Z) : Z := num_at (conf + 6) 1.
Definition conf_lapicaddr (conf : Z) : Z := num_at (conf + 36) 4.
Definition sizeof_mpconf : Z := 44.

(** The table, and the structure that points to it. *)
Definition mpconfig : option (Z * Z) :=
  match mpsearch with
  | None => None
  | Some mp =>
      if mp_physaddr mp =? 0 then None
      else
        let conf := P2V (mp_physaddr mp) in
        if negb (bool_decide (bytes_at conf 4 = mpconf_signature)) then None
        else if negb (conf_version conf =? 1) && negb (conf_version conf =? 4) then None
        else if negb (sum conf (Z.to_nat (conf_length conf)) =? 0) then None
        else Some (conf, mp)
  end.

(** [ncpu] with the [apicid]s of [cpus], [ioapicid], [lapic], and the ports
    written; [None] is a null [lapic]. *)
Record mpst := mkMpst { apicids : list Z; ncpu : Z; ioapicid : Z; lapic : option Z; mp_ports : list (Z * Z) }.

Definition MPPROC : Z := 0.
Definition MPBUS : Z := 1.
Definition MPIOAPIC : Z := 2.
Definition MPIOINTR : Z := 3.
Definition MPLINTR : Z := 4.
Definition sizeof_mpproc : Z := 20.
Definition sizeof_mpioapic : Z := 8.

(** [cpus[ncpu].apicid = proc->apicid; ncpu++;] *)
Definition add_cpu (id : Z) (s : mpst) : mpst :=
  mkMpst (<[Z.to_nat (ncpu s) := id]> (apicids s)) (ncpu s + 1) (ioapicid s) (lapic s) (mp_ports s).
Definition set_ioapicid (id : Z) (s : mpst) : mpst := mkMpst (apicids s) (ncpu s) id (lapic s) (mp_ports s).

(** The loop over the entries; the [break] of an entry of an unknown type leaves
    only the [switch].  The result is [ismp]. *)
Fixpoint mp_entries (fuel : nat) (p e : Z) (ismp : bool) : M mpst bool :=
  match fuel with
  | O => halt fuel_stop
  | S fuel' =>
      if p <? e then
        let t := mem (u32 p) in
        if t =? MPPROC then
          s <- gets id ;;
          when (ncpu s <? NCPU) (modify (add_cpu (mem (u32 (p + 1))))) ;;;
          mp_entries fuel' (u32 (p + sizeof_mpproc)) e ismp
        else if t =? MPIOAPIC then
          modify (set_ioapicid (mem (u32 (p + 1)))) ;;;
          mp_entries fuel' (u32 (p + sizeof_mpioapic)) e ismp
        else if (t =? MPBUS) || (t =? MPIOINTR) || (t =? MPLINTR) then
          mp_entries fuel' (u32 (p + 8)) e ismp
        else mp_entries fuel' p e false
      else ret ismp
  end.

Definition outb (port v : Z) : M mpst unit :=
  modify (fun s => mkMpst (apicids s) (ncpu s) (ioapicid s) (lapic s) (mp_ports s ++ [(port, v)])).

(** [imcr] is what the port 0x23 reads. *)
Definition mpinit (imcr : Z) (fuel : nat) : M mpst unit :=
  match mpconfig with
  | None => panic "Expect to run on an SMP"
  | Some (conf, mp) =>
      modify (fun s => mkMpst (apicids s) (ncpu s) (ioapicid s)
        (if conf_lapicaddr conf =? 0 then None else Some (conf_lapicaddr conf)) (mp_ports s)) ;;;
      ismp <- mp_entries fuel (u32 (conf + sizeof_mpconf)) (u32 (conf + conf_length conf)) true ;;
      if negb ismp then panic "Didn't find a suitable machine"
      else when (negb (mp_imcrp mp =? 0)) (outb 34 112 ;;; outb 35 (Z.lor imcr 1))
  end.

(** ** The entries *)

(** The entries of a table: a processor and an I/O APIC with their ids, and the
    others. *)
Inductive entry := EProc (id : Z) | EIoapic (id : Z) | EOther (t : Z).

Definition entry_size (x : entry) : Z := match x with EProc _ => 20 | _ => 8 end.

(** [l] is at [p] and ends at [e]. *)
Inductive table_at : Z -> Z -> list entry -> Prop :=
| table_nil e : table_at e e []
| table_cons p e x l : (match x with
    | EProc id => mem p = MPPROC /\ mem (p + 1) = id
    | EIoapic id => mem p = MPIOAPIC /\ mem (p + 1) = id
    | EOther t => mem p = t /\ (t = MPBUS \/ t = MPIOINTR \/ t = MPLINTR) end) ->
    0 <= p -> p + entry_size x <= e -> table_at (p + entry_size x) e l -> table_at p e (x :: l).

Definition procs (l : list entry) : list Z := omap (fun x => match x with EProc id => Some id | _ => None end) l.
Definition last_ioapic (old : Z) (l : list entry) : Z :=
  foldl (fun a x => match x with EIoapic id => id | _ => a end) old l.

(** The processors found so far are the first of [cpus]. *)
Definition cpus_are (ids : list Z) (s : mpst) : Prop :=
  ncpu s = zlen ids /\ take (length ids) (apicids s) = ids /\ (length ids <= 8)%nat /\ length (apicids s) = 8%nat.

Lemma add_cpu_are ids id s : cpus_are ids s -> ncpu s < NCPU -> cpus_are (ids ++ [id]) (add_cpu id s).
Proof.
  intros (Hn & Ht & Hl & Hlen) Hlt. unfold NCPU, zlen in *. rewrite Hn in Hlt. unfold cpus_are, add_cpu, zlen. cbn. rewrite length_app, length_insert. cbn.
  split; [lia|]. split; [|lia]. rewrite Hn. unfold zlen. rewrite Nat2Z.id, Nat.add_1_r.
  rewrite (take_S_r _ _ id) by (apply list_lookup_insert_eq; lia). f_equal. rewrite take_insert_ge by lia. exact Ht.
Qed.

Lemma table_le p e l : table_at p e l -> p <= e.
Proof. induction 1; [lia|]. destruct x; cbn in *; lia. Qed.

Lemma mp_entries_reads p e l : table_at p e l -> e < 4294967296 -> forall fuel ids s ismp, (length l < fuel)%nat -> cpus_are ids s ->
  exists s', mp_entries fuel p e ismp s = Ok ismp s' /\ cpus_are (take 8 (ids ++ procs l)) s' /\ ioapicid s' = last_ioapic (ioapicid s) l
    /\ lapic s' = lapic s /\ mp_ports s' = mp_ports s.
Proof.
  induction 1 as [e|p e x l Hx Hp Hle Ht IH]; intros He fuel ids s ismp Hf Hs; (destruct fuel as [|fuel]; [cbn in Hf; lia|]); cbn [mp_entries].
  - rewrite Z.ltb_irrefl. exists s. split; [done|]. cbn. rewrite app_nil_r, take_ge by apply Hs. done.
  - assert (Hsz : entry_size x = 20 \/ entry_size x = 8) by (destruct x; auto). rewrite (proj2 (Z.ltb_lt p e)) by lia.
    rewrite (u32_id p) by (unfold is_u32; lia). pose proof (table_le _ _ _ Ht). cbn in Hf.
    destruct x as [i|i|t]; cbn [entry_size] in *.
    + destruct Hx as [-> Hid]. cbv zeta. rewrite Z.eqb_refl. rewrite (u32_id (p + 1)), Hid by (unfold is_u32; lia).
      rewrite (bind_Ok (gets id) _ s s s eq_refl). unfold sizeof_mpproc. rewrite (u32_id (p + 20)) by (unfold is_u32; lia).
      destruct (ncpu s <? NCPU) eqn:E; bool_cases; cbn [when].
      * rewrite (bind_Ok (modify (add_cpu i)) _ s tt (add_cpu i s) eq_refl).
        destruct (IH He fuel (ids ++ [i]) (add_cpu i s) ismp ltac:(lia) (add_cpu_are _ _ _ Hs E)) as (s' & -> & Hs' & Hr).
        exists s'. split; [done|]. rewrite <- app_assoc in Hs'. done.
      * rewrite (bind_Ok (ret tt) _ s tt s eq_refl). destruct (IH He fuel ids s ismp ltac:(lia) Hs) as (s' & -> & Hs' & Hr).
        exists s'. split; [done|]. split; [|done]. assert (length ids = 8%nat) by (destruct Hs as (Hn & _ & ? & _); rewrite Hn in E; unfold zlen, NCPU in *; lia).
        rewrite take_app_le in Hs' by lia. by rewrite take_app_le by lia.
    + destruct Hx as [-> Hid]. cbv zeta. change (MPIOAPIC =? MPPROC) with false. rewrite Z.eqb_refl. rewrite (u32_id (p + 1)), Hid by (unfold is_u32; lia).
      rewrite (bind_Ok (modify (set_ioapicid i)) _ s tt (set_ioapicid i s) eq_refl). unfold sizeof_mpioapic. rewrite (u32_id (p + 8)) by (unfold is_u32; lia).
      destruct (IH He fuel ids (set_ioapicid i s) ismp ltac:(lia) Hs) as (s' & -> & Hs' & Hr). by exists s'.
    + destruct Hx as [-> Hty]. rewrite (u32_id (p + 8)) by (unfold is_u32; lia). destruct (IH He fuel ids s ismp ltac:(lia) Hs) as (s' & E & Hs' & Hr).
      exists s'. split; [|done]. by destruct Hty as [->|[->| ->]].
Qed.

(** An entry of an unknown type. *)
Lemma mp_entries_stuck fuel p e ismp s : p < e -> is_u32 p -> (4 < mem p \/ mem p < 0) -> mp_entries fuel p e ismp s = Halt fuel_stop s.
Proof.
  intros Hlt Hp Ht. revert ismp. induction fuel as [|fuel IH]; intros ismp; [done|]. cbn [mp_entries]. rewrite (proj2 (Z.ltb_lt p e)), (u32_id p Hp) by lia.
  unfold MPPROC, MPIOAPIC, MPBUS, MPIOINTR, MPLINTR. rewrite !(proj2 (Z.eqb_neq _ _)) by lia. apply IH.
Qed.

(** No more processors than [cpus] has room for, whatever the table holds. *)
Lemma mp_entries_bound fuel p e ismp s : ncpu s <= NCPU ->
  match mp_entries fuel p e ismp s with Ok _ s' | Halt _ s' => ncpu s' <= NCPU end.
Proof.
  revert p ismp s. induction fuel as [|fuel IH]; intros p ismp s Hs; [done|]. cbn [mp_entries]. destruct (p <? e); [|done].
  destruct (_ =? MPPROC); [|destruct (_ =? MPIOAPIC); [by apply (IH _ _ (set_ioapicid _ s))|destruct (_ || _); by apply IH]].
  rewrite (bind_Ok (gets id) _ s s s eq_refl). destruct (ncpu s <? NCPU) eqn:E; bool_cases; [|by apply IH].
  apply (IH _ _ (add_cpu _ s)). cbn. lia.
Qed.
End Mp.

(** ** What mpinit finds *)

Section Init.
Context (mem : Z -> Z) (conf mp : Z).

Definition first_cpus (n : Z) (l : list entry) : list Z := take (Z.to_nat n) (procs l).

(** For a configuration table whose entries have known types, [mpinit] ends
    and finds exactly the processors of the table, in order and at most NCPU, the
    last I/O APIC, and the address of the local APIC. *)
Theorem mpinit_finds imcr l s : mpconfig mem = Some (conf, mp) -> conf + conf_length mem conf < 4294967296 -> 0 <= conf ->
  table_at mem (conf + sizeof_mpconf) (conf + conf_length mem conf) l ->
  ncpu s = 0 -> length (apicids s) = 8%nat ->
  exists s', mpinit mem imcr (S (length l)) s = Ok tt s' /\ ncpu s' = zlen (first_cpus NCPU l)
    /\ take (Z.to_nat (ncpu s')) (apicids s') = first_cpus NCPU l /\ ncpu s' <= NCPU
    /\ ioapicid s' = last_ioapic (ioapicid s) l
    /\ lapic s' = (if conf_lapicaddr mem conf =? 0 then None else Some (conf_lapicaddr mem conf)).
Proof.
  intros Hc He H0 Ht Hn Hlen. unfold mpinit. rewrite Hc. pose proof (table_le _ _ _ _ Ht) as Hle. unfold sizeof_mpconf in *.
  rewrite !u32_id by (unfold is_u32; lia).
  match goal with |- exists s', bind (modify ?f) _ _ = _ /\ _ => rewrite (bind_Ok (modify f) _ s tt (f s) eq_refl); set (s2 := f s) end.
  destruct (mp_entries_reads mem _ _ l Ht ltac:(lia) (S (length l)) [] s2 true ltac:(lia)) as (s' & E & Hs' & Hio & Hla & Hpo).
  { unfold cpus_are, s2. cbn. rewrite Hn, Hlen. split; [done|]. split; [done|]. split; [lia|done]. }
  rewrite (bind_Ok _ _ _ _ _ E). cbn [negb app] in *. destruct Hs' as (H1 & H2 & H3 & H4).
  assert (Hfin : forall s'', ncpu s'' = ncpu s' -> apicids s'' = apicids s' -> ioapicid s'' = ioapicid s' -> lapic s'' = lapic s' ->
    ncpu s'' = zlen (first_cpus NCPU l) /\ take (Z.to_nat (ncpu s'')) (apicids s'') = first_cpus NCPU l /\ ncpu s'' <= NCPU
    /\ ioapicid s'' = last_ioapic (ioapicid s) l /\ lapic s'' = (if conf_lapicaddr mem conf =? 0 then None else Some (conf_lapicaddr mem conf))).
  { intros s'' -> -> -> ->. change (first_cpus NCPU l) with (take 8 (procs l)). split; [done|]. rewrite H1. unfold zlen at 1. rewrite Nat2Z.id. split; [done|].
    split; [unfold zlen, NCPU; lia|]. split; [done|]. by rewrite Hla. }
  destruct (negb (mp_imcrp mem mp =? 0)); cbn [when]; eexists; (split; [reflexivity|]); by apply Hfin.
Qed.

(** A configuration table with an entry of another type makes [mpinit] loop for
    ever: the [break] leaves the [switch], not the loop, so the panic for a
    machine that is not suitable is never reached. *)
Theorem mpinit_unknown_entry imcr fuel s : mpconfig mem = Some (conf, mp) -> is_u32 (conf + sizeof_mpconf) -> is_u32 (conf + conf_length mem conf) ->
  sizeof_mpconf < conf_length mem conf -> 4 < mem (conf + sizeof_mpconf) ->
  exists s', mpinit mem imcr fuel s = Halt fuel_stop s'.
Proof.
  intros Hc H1 H2 Hlt Ht. unfold mpinit. rewrite Hc, !u32_id by done. eexists. unfold bind at 1, modify at 1. unfold bind at 1.
  rewrite mp_entries_stuck; [reflexivity|lia|done|by left].
Qed.
End Init.

(** Two processors and an I/O APIC, with the tables in the BIOS ROM. *)
Definition demo_rom : list Z :=
  mp_signature ++ [16; 0; 15; 0; 1; 4; 1; 0; 128; 0; 0; 0]
  ++ mpconf_signature ++ [92; 0; 4; 135] ++ replicate 26 0 ++ [3; 0; 0; 0; 224; 254; 0; 0; 0; 0]
  ++ [0; 0] ++ replicate 18 0 ++ [0; 1] ++ replicate 18 0 ++ [2; 5] ++ replicate 6 0.
Definition demo_mem (rom : list Z) (a : Z) : Z :=
  let i := a - (KERNBASE + 983040) in if 0 <=? i then nth (Z.to_nat i) rom 0 else 0.
Definition demo_mpst : mpst := mkMpst (replicate 8 0) 0 0 None [].

Lemma mpinit_finds_witness : exists s', mpinit (demo_mem demo_rom) 0 4 demo_mpst = Ok tt s' /\ ncpu s' = 2 /\ take 2 (apicids s') = [0; 1] /\ ioapicid s' = 5.
Proof.
  destruct (mpinit_finds (demo_mem demo_rom) (KERNBASE + 983056) (KERNBASE + 983040) 0 [EProc 0; EProc 1; EIoapic 5] demo_mpst) as (s' & E & Hn & Ht & _ & Hio & _).
  - vm_compute. reflexivity.
  - vm_compute. reflexivity.
  - vm_compute. discriminate.
  - change (KERNBASE + 983056 + sizeof_mpconf) with 2148466748. change (KERNBASE + 983056 + conf_length (demo_mem demo_rom) (KERNBASE + 983056)) with 2148466796.
    repeat (apply table_cons; [vm_compute; auto|lia|cbn; lia|cbn [entry_size]]).
    apply table_nil.
  - reflexivity.
  - reflexivity.
  - exists s'. rewrite Hn in Ht. split; [exact E|]. split; [exact Hn|]. split; [exact Ht|exact Hio].
Defined.

(** A table with an entry of type 9. *)
Definition odd_rom : list Z :=
  mp_signature ++ [16; 0; 15; 0; 1; 4; 1; 0; 128; 0; 0; 0]
  ++ mpconf_signature ++ [52; 0; 4; 174] ++ replicate 26 0 ++ [3; 0; 0; 0; 224; 254; 0; 0; 0; 0] ++ [9] ++ replicate 7 0.

Lemma mpinit_unknown_entry_witness : exists s', mpinit (demo_mem odd_rom) 0 1000 demo_mpst = Halt fuel_stop s'.
Proof.
  apply (mpinit_unknown_entry (demo_mem odd_rom) (KERNBASE + 983056) (KERNBASE + 983040) 0 1000 demo_mpst).
  - vm_compute. reflexivity.
  - vm_compute. split; [discriminate|reflexivity].
  - vm_compute. split; [discriminate|reflexivity].
  - vm_compute. reflexivity.
  - vm_compute. reflexivity.
Defined.
