(* ===== verification/Boot.v ===== *)
(** * bootmain.c: the boot loader

    The boot loader reads the kernel from the disk, a sector at a time, to the
    physical addresses its program headers name.  The state is the physical memory
    and the disk controller of Ide.v; the sectors of the disk and the values of the
    status register are arguments. *)

From S2P Require Import Prelude KMonad Params Ide Mp.

Definition SECTSIZE : Z := 512.
Definition ELF_MAGIC : Z := 1179403647.

Record bootst := mkBoot { bm_mem : Z -> Z; bm_ctl : ctl; bm_tick : nat }.
Definition B := M bootst.

(** Bytes stored at [a]. *)
Definition store_bytes (a : Z) (l : list Z) (mem : Z -> Z) : Z -> Z :=
  fun x => match (if a <=? x then l !! Z.to_nat (x - a) else None) with Some c => c | None => mem x end.

Section Boot.
Context (sector : Z -> list Z) (status : nat -> Z) (wait_fuel : nat).

Definition set_mem (f : (Z -> Z) -> Z -> Z) : B unit := modify (fun s => mkBoot (f (bm_mem s)) (bm_ctl s) (bm_tick s)).
Definition boot_outb (port v : Z) : B unit := modify (fun s => mkBoot (bm_mem s) (latch port v (bm_ctl s)) (bm_tick s)).
Definition boot_inb : B Z :=
  n <- gets bm_tick ;; modify (fun s => mkBoot (bm_mem s) (bm_ctl s) (S (bm_tick s))) ;;; ret (status n).

Fixpoint wait_loop (fuel : nat) : B unit :=
  match fuel with
  | O => halt fuel_stop
  | S fuel' => r <- boot_inb ;; if negb (Z.land r 192 =? 64) then wait_loop fuel' else ret tt
  end.
Definition waitdisk : B unit := wait_loop wait_fuel.

(** [insl(0x1F0, dst, cnt)] after a command to read a sector of drive 0. *)
Definition boot_insl (dst cnt : Z) : B unit :=
  c <- gets bm_ctl ;;
  if bool_decide (r_cmd c = Some 32) && (r_count c =? 1) && (fst (addressed c) =? 0) then
    set_mem (store_bytes dst (take (Z.to_nat (4 * cnt)) (sector (snd (addressed c)))))
  else halt fault_stop.

Definition readsect (dst offset : Z) : B unit :=
  waitdisk ;;;
  boot_outb 498 1 ;;;
  boot_outb 499 offset ;;;
  boot_outb 500 (Z.shiftr offset 8) ;;;
  boot_outb 501 (Z.shiftr offset 16) ;;;
  boot_outb 502 (Z.lor (Z.shiftr offset 24) 224) ;;;
  boot_outb 503 32 ;;;
  waitdisk ;;;
  boot_insl dst (SECTSIZE / 4).

(** [fuel] bounds the rounds. *)
Fixpoint readseg_loop (fuel : nat) (pa epa offset : Z) : B unit :=
  if pa <? epa then
    match fuel with
    | O => halt fuel_stop
    | S fuel' => readsect pa offset ;;; readseg_loop fuel' (u32 (pa + SECTSIZE)) epa (u32 (offset + 1))
    end
  else ret tt.

Definition readseg (pa count offset : Z) : B unit :=
  let epa := u32 (pa + count) in
  let pa := u32 (pa - offset mod SECTSIZE) in
  let offset := u32 (offset / SECTSIZE + 1) in
  readseg_loop (Z.to_nat (count / SECTSIZE + 2)) pa epa offset.

(** The fields of [struct elfhdr] and [struct proghdr] in memory. *)
Definition elf_magic (mem : Z -> Z) (elf : Z) : Z := num_at mem elf 4.
Definition elf_entry (mem : Z -> Z) (elf : Z) : Z := num_at mem (elf + 24) 4.
Definition elf_phoff (mem : Z -> Z) (elf : Z) : Z := num_at mem (elf + 28) 4.
Definition elf_phnum (mem : Z -> Z) (elf : Z) : Z := num_at mem (elf + 44) 2.
Definition ph_off (mem : Z -> Z) (ph : Z) : Z := num_at mem (ph + 4) 4.
Definition ph_paddr (mem : Z -> Z) (ph : Z) : Z := num_at mem (ph + 12) 4.
Definition ph_filesz (mem : Z -> Z) (ph : Z) : Z := num_at mem (ph + 16) 4.
Definition ph_memsz (mem : Z -> Z) (ph : Z) : Z := num_at mem (ph + 20) 4.
Definition sizeof_proghdr : Z := 32.

(** [for(; ph < eph; ph++)], with [n] rounds left. *)
Fixpoint load_segments (n : nat) (ph : Z) : B unit :=
  match n with
  | O => ret tt
  | S n' =>
      mem <- gets bm_mem ;;
      let pa := ph_paddr mem ph in
      readseg pa (ph_filesz mem ph) (ph_off mem ph) ;;;
      mem <- gets bm_mem ;;
      when (ph_filesz mem ph <? ph_memsz mem ph)
        (set_mem (store_bytes (u32 (pa + ph_filesz mem ph)) (replicate (Z.to_nat (ph_memsz mem ph - ph_filesz mem ph)) 0))) ;;;
      load_segments n' (u32 (ph + sizeof_proghdr))
  end.

(** The entry point that is called, or [None] when [bootmain] returns. *)
Definition bootmain : B (option Z) :=
  let elf := 65536 in
  readseg elf 4096 0 ;;;
  mem <- gets bm_mem ;;
  if negb (elf_magic mem elf =? ELF_MAGIC) then ret None
  else
    load_segments (Z.to_nat (elf_phnum mem elf)) (u32 (elf + elf_phoff mem elf)) ;;;
    mem <- gets bm_mem ;;
    ret (Some (elf_entry mem elf)).
End Boot.

(** ** What is loaded *)

Section Load.
Context (sector : Z -> list Z) (status : nat -> Z) (wait_fuel : nat).
Hypothesis sector_len : forall n, length (sector n) = 512%nat.
Hypothesis disk_ready : forall n, exists k, (k < wait_fuel)%nat /\ Z.land (status (n + k)%nat) 192 = 64.

(** Byte [i] of the kernel's file, which starts at sector 1. *)
Definition file_byte (i : Z) : Z := nth (Z.to_nat (i mod 512)) (sector (i / 512 + 1)) 0.

Lemma wait_loop_ok fuel : forall s k, (k < fuel)%nat -> Z.land (status (bm_tick s + k)%nat) 192 = 64 ->
  exists t, wait_loop status fuel s = Ok tt (mkBoot (bm_mem s) (bm_ctl s) t).
Proof.
  induction fuel as [|fuel IH]; intros s k Hk Hr; [lia|]. cbn [wait_loop]. unfold boot_inb.
  set (s1 := mkBoot (bm_mem s) (bm_ctl s) (S (bm_tick s))).
  assert (E : (n <- gets bm_tick ;; modify (fun s => mkBoot (bm_mem s) (bm_ctl s) (S (bm_tick s))) ;;; ret (status n)) s = Ok (status (bm_tick s)) s1) by done.
  rewrite (bind_Ok _ _ _ _ _ E). destruct (Z.land (status (bm_tick s)) 192 =? 64) eqn:E64; cbn [negb]; [by eexists|].
  destruct k as [|k]; [rewrite Nat.add_0_r in Hr; apply Z.eqb_neq in E64; lia|].
  destruct (IH s1 k) as (t & Et); [lia|by replace (bm_tick s1 + k)%nat with (bm_tick s + S k)%nat by (unfold s1; cbn; lia)|]. exists t. exact Et.
Qed.

Lemma waitdisk_ok s : exists t, waitdisk status wait_fuel s = Ok tt (mkBoot (bm_mem s) (bm_ctl s) t).
Proof. destruct (disk_ready (bm_tick s)) as (k & Hk & Hr). by eapply wait_loop_ok. Qed.

Lemma lba_bytes o : 0 <= o < 16777216 ->
  Z.lor (u8 o) (Z.lor (Z.shiftl (u8 (Z.shiftr o 8)) 8) (Z.lor (Z.shiftl (u8 (Z.shiftr o 16)) 16) (Z.shiftl (Z.land (u8 (Z.lor (Z.shiftr o 24) 224)) 15) 24))) = o.
Proof.
  intros Ho. replace (Z.shiftr o 24) with 0 by (rewrite Z.shiftr_div_pow2 by lia; symmetry; apply Z.div_small; cbn; lia).
  change (Z.shiftl (Z.land (u8 (Z.lor 0 224)) 15) 24) with 0. rewrite Z.lor_0_r.
  unfold u8. apply Z.bits_inj'. intros n Hn. rewrite !Z.lor_spec, !Z.shiftl_spec by lia. change 256 with (2 ^ 8).
  destruct (decide (n < 8)).
  - rewrite Z.mod_pow2_bits_low by lia. rewrite !(Z.testbit_neg_r _ (n - _)) by lia. by rewrite !orb_false_r.
  - rewrite (Z.mod_pow2_bits_high o) by lia. cbn [orb]. destruct (decide (n < 16)).
    + rewrite Z.mod_pow2_bits_low, Z.shiftr_spec by lia. rewrite (Z.testbit_neg_r _ (n - 16)) by lia. rewrite orb_false_r. f_equal. lia.
    + rewrite Z.mod_pow2_bits_high by lia. cbn [orb]. destruct (decide (n < 24)).
      * rewrite Z.mod_pow2_bits_low, Z.shiftr_spec by lia. f_equal. lia.
      * rewrite Z.mod_pow2_bits_high by lia. symmetry. destruct (decide (o = 0)) as [->|]; [apply Z.bits_0|].
        apply Z.bits_above_log2; [lia|]. assert (Z.log2 o < 24); [|lia]. apply Z.log2_lt_pow2; lia.
Qed.

Lemma readsect_ok dst o s : 0 <= o < 16777216 ->
  exists c t, readsect sector status wait_fuel dst o s = Ok tt (mkBoot (store_bytes dst (sector o) (bm_mem s)) c t).
Proof.
  intros Ho. unfold readsect. destruct (waitdisk_ok s) as (t1 & E1). rewrite (bind_Ok _ _ _ _ _ E1). cbn [bm_mem bm_ctl].
  destruct (bm_ctl s) as [a b c d e g h]. unfold boot_outb.
  repeat match goal with |- context [bind (modify ?f) _ ?x] => rewrite (bind_Ok (modify f) _ x tt (f x) eq_refl) end.
  cbn [bm_mem bm_ctl bm_tick]. match goal with |- context [bind (waitdisk _ _) _ ?x] => destruct (waitdisk_ok x) as (t2 & E2); rewrite (bind_Ok _ _ _ _ _ E2) end.
  cbn [bm_mem bm_ctl bm_tick]. unfold boot_insl. rewrite (bind_Ok (gets bm_ctl) _ _ _ _ eq_refl). cbn [bm_ctl].
  match goal with |- context [addressed ?x] => set (cc := x) end.
  assert (Ec : cc = mkCtl (u8 1) (u8 o) (u8 (Z.shiftr o 8)) (u8 (Z.shiftr o 16)) (u8 (Z.lor (Z.shiftr o 24) 224)) (Some (u8 32)) []) by done.
  assert (Ea : addressed cc = (0, o)).
  { rewrite Ec. unfold addressed. cbn [r_lba0 r_lba1 r_lba2 r_drive]. rewrite lba_bytes by done. f_equal.
    replace (Z.shiftr o 24) with 0 by (rewrite Z.shiftr_div_pow2 by lia; symmetry; apply Z.div_small; cbn; lia). done. }
  rewrite Ea, Ec. cbn [fst snd r_cmd r_count]. rewrite bool_decide_true by done. cbn [andb]. change (u8 1 =? 1) with true. cbn [andb Z.eqb].
  unfold set_mem, modify. rewrite take_ge by (rewrite sector_len; done). cbn. eauto.
Qed.

(** [len] bytes of the file from [off] are at [pa]. *)
Definition filled (pa off len : Z) (mem : Z -> Z) (x : Z) : Z :=
  if (pa <=? x) && (x <? pa + len) then file_byte (off + (x - pa)) else mem x.

Lemma store_sector pa o mem x : 1 <= o -> store_bytes pa (sector o) mem x = filled pa (512 * (o - 1)) 512 mem x.
Proof.
  intros Ho. unfold store_bytes, filled. destruct (pa <=? x) eqn:E; bool_cases; cbn [andb]; [|done]. destruct (x <? pa + 512) eqn:E2; bool_cases.
  - unfold file_byte. replace ((512 * (o - 1) + (x - pa)) / 512 + 1) with o by mlia. replace ((512 * (o - 1) + (x - pa)) mod 512) with (x - pa) by mlia.
    destruct (lookup_lt_is_Some_2 (sector o) (Z.to_nat (x - pa))) as [c Hc]; [rewrite sector_len; lia|]. rewrite Hc. symmetry. by apply nth_lookup_Some.
  - by rewrite lookup_ge_None_2 by (rewrite sector_len; lia).
Qed.

Lemma readseg_loop_ok n : forall fuel pa epa o s, (n <= fuel)%nat -> 0 <= pa -> pa + 512 * Z.of_nat n < 4294967296 -> 1 <= o -> o + Z.of_nat n < 16777216 ->
  pa + 512 * Z.of_nat n - 512 < epa <= pa + 512 * Z.of_nat n ->
  exists s', readseg_loop sector status wait_fuel fuel pa epa o s = Ok tt s'
    /\ forall x, bm_mem s' x = filled pa (512 * (o - 1)) (512 * Z.of_nat n) (bm_mem s) x.
Proof.
  induction n as [|n IH]; intros fuel pa epa o s Hf Hpa Hb Ho Hob He.
  - exists s. split; [|intros x; unfold filled; destruct (pa <=? x) eqn:E1, (x <? pa + 512 * Z.of_nat 0) eqn:E2; cbn [andb]; bool_cases; (done || lia)].
    destruct fuel; cbn [readseg_loop]; by rewrite (proj2 (Z.ltb_ge pa epa)) by lia.
  - destruct fuel as [|fuel]; [lia|]. cbn [readseg_loop]. rewrite (proj2 (Z.ltb_lt pa epa)) by lia.
    destruct (readsect_ok pa o s) as (c & t & E); [lia|]. rewrite (bind_Ok _ _ _ _ _ E). unfold SECTSIZE.
    rewrite !u32_id by (unfold is_u32; lia). set (s1 := mkBoot _ c t).
    destruct (IH fuel (pa + 512) epa (o + 1) s1) as (s' & E' & Hm); [lia|lia|lia|lia|lia|lia|]. exists s'. split; [done|]. intros x. rewrite Hm.
    unfold filled at 1. unfold s1. cbn [bm_mem]. rewrite store_sector by done. unfold filled.
    destruct (pa + 512 <=? x) eqn:E1, (x <? pa + 512 + 512 * Z.of_nat n) eqn:E2, (pa <=? x) eqn:E3, (x <? pa + 512) eqn:E4, (x <? pa + 512 * Z.of_nat (S n)) eqn:E5; cbn [andb]; bool_cases; try lia; try done.
    f_equal. lia.
Qed.

Lemma readseg_ok pa count off s : 0 <= off < 4294967296 -> 0 <= count -> off mod 512 <= pa -> pa + count + 512 < 4294967296 -> off + count < 4294967296 ->
  exists s' n, readseg sector status wait_fuel pa count off s = Ok tt s' /\ count + off mod 512 <= 512 * n < count + off mod 512 + 512
    /\ forall x, bm_mem s' x = filled (pa - off mod 512) (off - off mod 512) (512 * n) (bm_mem s) x.
Proof.
  intros Hoff Hc Hpa Hb Hoc. unfold readseg, SECTSIZE. assert (Hm : 0 <= off mod 512 < 512) by mlia.
  rewrite !u32_id by (unfold is_u32; mlia). set (n := (count + off mod 512 + 511) / 512). assert (Hn : 0 <= n) by (unfold n; mlia).
  destruct (readseg_loop_ok (Z.to_nat n) (Z.to_nat (count / 512 + 2)) (pa - off mod 512) (pa + count) (off / 512 + 1) s) as (s' & E & Hm');
    rewrite ?Z2Nat.id by done; unfold n in *; [apply Z2Nat.inj_le; mlia|lia|mlia|mlia|mlia|mlia|].
  exists s', ((count + off mod 512 + 511) / 512). split; [done|]. split; [mlia|]. intros x. rewrite Hm', Z2Nat.id by done.
  replace (512 * (off / 512 + 1 - 1)) with (off - off mod 512) by mlia. done.
Qed.

(** ** The segments of the kernel *)

Record seg := mkSeg { sg_off : Z; sg_paddr : Z; sg_filesz : Z; sg_memsz : Z }.

(** A number at [p] of the file. *)
Definition file_num (p : Z) (n : nat) : Z := le_val ((fun i => file_byte (p + Z.of_nat i)) <$> seq 0 n).
Definition file_seg (ph : Z) : seg := mkSeg (file_num (ph + 4) 4) (file_num (ph + 12) 4) (file_num (ph + 16) 4) (file_num (ph + 20) 4).
Definition file_segs (ph : Z) (n : nat) : list seg := (fun i => file_seg (ph + 32 * Z.of_nat i)) <$> seq 0 n.

(** The segments go to increasing addresses from [lo] on; the start of the first
    sector of a segment does not reach into the one before. *)
Fixpoint segs_ok (lo : Z) (l : list seg) : Prop :=
  match l with
  | [] => True
  | g :: l' => lo <= sg_paddr g - sg_off g mod 512 /\ sg_filesz g <= sg_memsz g /\ sg_paddr g + sg_memsz g + 512 < 4294967296
      /\ sg_off g + sg_filesz g < 4294967296 /\ segs_ok (sg_paddr g + sg_memsz g) l'
  end.

(** The bytes of the file, and zeros up to the size in memory. *)
Definition loaded (mem : Z -> Z) (g : seg) : Prop :=
  (forall k, 0 <= k < sg_filesz g -> mem (sg_paddr g + k) = file_byte (sg_off g + k))
  /\ (forall k, sg_filesz g <= k < sg_memsz g -> mem (sg_paddr g + k) = 0).

(** The first page of the file is at 0x10000. *)
Definition scratch (mem : Z -> Z) : Prop := forall x, 65536 <= x < 69632 -> mem x = file_byte (x - 65536).

Lemma scratch_num mem p n : scratch mem -> 0 <= p -> p + Z.of_nat n <= 4096 -> num_at mem (65536 + p) n = file_num p n.
Proof.
  intros Hm Hp Hn. unfold num_at, file_num, bytes_at. f_equal. apply list_fmap_ext. intros i j Hj. apply lookup_seq in Hj as [-> Hj].
  rewrite u32_id by (unfold is_u32; lia). rewrite Hm by lia. f_equal. lia.
Qed.

Lemma file_byte_range i : (forall n, Forall (fun c => 0 <= c < 256) (sector n)) -> 0 <= file_byte i < 256.
Proof.
  intros Hb. unfold file_byte. destruct (lookup_lt_is_Some_2 (sector (i / 512 + 1)) (Z.to_nat (i mod 512))) as [c Hc]; [rewrite sector_len; mlia|].
  rewrite (nth_lookup_Some _ _ _ _ Hc). by eapply (Forall_lookup_1 _ _ _ _ (Hb _)).
Qed.

Hypothesis sector_bytes : forall n, Forall (fun c => 0 <= c < 256) (sector n).

Lemma file_num_range p n : 0 <= file_num p n < 256 ^ Z.of_nat n.
Proof.
  unfold file_num. pose proof (le_val_range ((fun i => file_byte (p + Z.of_nat i)) <$> seq 0 n)) as H.
  unfold zlen in H. rewrite length_fmap, length_seq in H.
  apply H. apply Forall_fmap, Forall_forall. intros i _. by apply file_byte_range.
Qed.

(** One segment. *)
Lemma load_segment_ok lo g n ph s : let mem := bm_mem s in
  ph_off mem ph = sg_off g -> ph_paddr mem ph = sg_paddr g -> ph_filesz mem ph = sg_filesz g -> ph_memsz mem ph = sg_memsz g ->
  (forall m, (forall x, x < lo -> m x = mem x) -> ph_filesz m ph = sg_filesz g /\ ph_memsz m ph = sg_memsz g) ->
  0 <= sg_off g < 4294967296 -> 0 <= sg_filesz g -> 0 <= lo -> lo <= sg_paddr g - sg_off g mod 512 -> sg_filesz g <= sg_memsz g ->
  sg_paddr g + sg_memsz g + 512 < 4294967296 -> sg_off g + sg_filesz g < 4294967296 ->
  exists s', load_segments sector status wait_fuel (S n) ph s = load_segments sector status wait_fuel n (u32 (ph + sizeof_proghdr)) s'
    /\ (forall x, x < lo -> bm_mem s' x = bm_mem s x) /\ loaded (bm_mem s') g.
Proof.
  intros mem E1 E2 E3 E4 Hkeep Ho Hf Hlo0 Hlo Hfm Hb Hob. unfold mem in *. clear mem. assert (Hm : 0 <= sg_off g mod 512 < 512) by mlia.
  destruct (readseg_ok (sg_paddr g) (sg_filesz g) (sg_off g) s) as (s1 & k & E & Hk & Hm1); [lia|lia|lia|lia|lia|].
  assert (Hlow : forall x, x < lo -> bm_mem s1 x = bm_mem s x) by (intros x Hx; rewrite Hm1; unfold filled; by rewrite (proj2 (Z.leb_gt _ _)) by lia).
  destruct (Hkeep _ Hlow) as [F1 F2]. cbn [load_segments]. rewrite (bind_Ok (gets bm_mem) _ s _ s eq_refl). cbv zeta. rewrite E1, E2, E3.
  rewrite (bind_Ok _ _ _ _ _ E), (bind_Ok (gets bm_mem) _ s1 _ s1 eq_refl), F1, F2, u32_id by (unfold is_u32; lia).
  assert (Hfile : forall j, 0 <= j < sg_filesz g -> bm_mem s1 (sg_paddr g + j) = file_byte (sg_off g + j)).
  { intros j Hj. rewrite Hm1. unfold filled. rewrite (proj2 (Z.leb_le _ _)), (proj2 (Z.ltb_lt _ _)) by lia. cbn [andb]. f_equal. lia. }
  destruct (sg_filesz g <? sg_memsz g) eqn:El; bool_cases; cbn [when].
  - eexists. unfold set_mem. rewrite (bind_Ok (modify _) _ s1 tt _ eq_refl). split; [reflexivity|]. cbn [bm_mem]. unfold store_bytes. split; [|split].
    + intros x Hx. rewrite (proj2 (Z.leb_gt _ _)) by lia. auto.
    + intros j Hj. rewrite (proj2 (Z.leb_gt _ _)) by lia. auto.
    + intros j Hj. rewrite (proj2 (Z.leb_le _ _)) by lia. rewrite lookup_replicate_2 by lia. done.
  - exists s1. rewrite (bind_Ok (ret tt) _ s1 tt s1 eq_refl). split; [done|]. split; [done|]. split; [done|]. intros j Hj. lia.
Qed.

(** All of them; what is below [lo] stays. *)
Lemma load_segments_ok n : forall lo p s, scratch (bm_mem s) -> 0 <= p -> p + 32 * Z.of_nat n <= 4096 -> 69632 <= lo -> segs_ok lo (file_segs p n) ->
  exists s', load_segments sector status wait_fuel n (65536 + p) s = Ok tt s' /\ (forall x, x < lo -> bm_mem s' x = bm_mem s x)
    /\ Forall (loaded (bm_mem s')) (file_segs p n).
Proof.
  induction n as [|n IH]; intros lo p s Hs Hp Hn Hlo Hok.
  { exists s. split; [done|]. split; [done|]. constructor. }
  assert (Esegs : file_segs p (S n) = file_seg p :: file_segs (p + 32) n).
  { unfold file_segs. cbn [seq fmap list_fmap]. rewrite Z.mul_0_r, Z.add_0_r. f_equal. rewrite <- fmap_S_seq, <- list_fmap_compose. apply list_fmap_ext.
    intros i j _. cbn. f_equal. lia. }
  rewrite Esegs in *. destruct Hok as (H1 & H2 & H3 & H4 & H5). set (g := file_seg p) in *.
  assert (Hnum : forall m q k, scratch m -> 0 <= q -> q + Z.of_nat k <= 32 -> num_at m (65536 + p + q) k = file_num (p + q) k).
  { intros m q k Hm Hq Hk. rewrite <- Z.add_assoc. apply scratch_num; [done|lia|lia]. }
  assert (Hkeep : forall m, (forall x, x < lo -> m x = bm_mem s x) -> scratch m) by (intros m Hm x Hx; rewrite Hm by lia; by apply Hs).
  destruct (load_segment_ok lo g n (65536 + p) s) as (s1 & E & Hlow & Hl); try (by apply Hnum); try lia.
  { intros m Hm. apply Hkeep in Hm. split; by apply Hnum. }
  { exact (file_num_range (p + 4) 4). }
  { apply (file_num_range (p + 16) 4). }
  assert (Hsz : 0 <= sg_memsz g) by apply (file_num_range (p + 20) 4). assert (Hmod : 0 <= sg_off g mod 512) by mlia.
  rewrite E. unfold sizeof_proghdr. rewrite u32_id by (unfold is_u32; lia). rewrite <- Z.add_assoc.
  destruct (IH (sg_paddr g + sg_memsz g) (p + 32) s1) as (s' & E' & Hlow' & Hl'); [by apply Hkeep|lia|lia|lia|done|].
  exists s'. split; [done|]. split; [intros x Hx; rewrite Hlow' by lia; by apply Hlow|]. constructor; [|done].
  destruct Hl as [L1 L2]. pose proof (file_num_range (p + 16) 4) as Hfs. change (file_num (p + 16) 4) with (sg_filesz g) in Hfs.
  split; intros k Hk; rewrite Hlow' by lia; auto.
Qed.

(** C36: The boot loader ends.  When the file on the disk is an ELF file whose
    program headers are in its first page and whose segments go to increasing
    addresses above the scratch page, every segment is in memory when the kernel's
    entry point is called: the bytes of the file, and zeros up to its size in
    memory, although sectors are read whole; without the magic number nothing is
    called. *)
Theorem bootmain_loads s : let phoff := file_num 28 4 in let phnum := file_num 44 2 in
  (file_num 0 4 = ELF_MAGIC -> phoff + 32 * phnum <= 4096 /\ segs_ok 69632 (file_segs phoff (Z.to_nat phnum))) ->
  exists s', bootmain sector status wait_fuel s = Ok (if file_num 0 4 =? ELF_MAGIC then Some (file_num 24 4) else None) s'
    /\ (file_num 0 4 = ELF_MAGIC -> Forall (loaded (bm_mem s')) (file_segs phoff (Z.to_nat phnum))).
Proof.
  intros phoff phnum Hok. unfold bootmain. destruct (readseg_ok 65536 4096 0 s) as (s1 & n & E & Hn & Hm); [lia|lia|by vm_compute|lia|lia|].
  change (0 mod 512) with 0 in *. rewrite (bind_Ok _ _ _ _ _ E), (bind_Ok (gets bm_mem) _ s1 _ s1 eq_refl).
  assert (Hs : scratch (bm_mem s1)).
  { intros x Hx. rewrite Hm. unfold filled. rewrite (proj2 (Z.leb_le _ _)), (proj2 (Z.ltb_lt _ _)) by lia. cbn [andb]. f_equal; lia. }
  unfold elf_magic, elf_phoff, elf_phnum, elf_entry. change (num_at (bm_mem s1) 65536 4) with (num_at (bm_mem s1) (65536 + 0) 4).
  rewrite !(scratch_num (bm_mem s1)) by (done || lia). fold phoff phnum. destruct (file_num 0 4 =? ELF_MAGIC) eqn:Em; bool_cases; cbn [negb].
  2:{ exists s1. split; [done|]. intros ?. congruence. }
  destruct (Hok Em) as [Hp Hsegs]. pose proof (file_num_range 28 4) as R1. pose proof (file_num_range 44 2) as R2. fold phoff in R1. fold phnum in R2.
  destruct (load_segments_ok (Z.to_nat phnum) 69632 phoff s1) as (s2 & E2 & Hlow & Hl); [done|lia|lia|lia|done|].
  rewrite u32_id by (unfold is_u32; lia). rewrite (bind_Ok _ _ _ _ _ E2), (bind_Ok (gets bm_mem) _ s2 _ s2 eq_refl).
  rewrite (scratch_num (bm_mem s2)) by (lia || (intros x Hx; rewrite Hlow by lia; by apply Hs)). by exists s2.
Qed.
End Load.

(** A kernel of one segment: three bytes at 1 MB, and two zeros. *)
Definition demo_header : list Z :=
  [127; 69; 76; 70] ++ replicate 20 0 ++ [12; 0; 16; 0] ++ [52; 0; 0; 0] ++ replicate 12 0 ++ [1; 0] ++ replicate 6 0
  ++ [1; 0; 0; 0] ++ [0; 2; 0; 0] ++ replicate 4 0 ++ [0; 0; 16; 0] ++ [3; 0; 0; 0] ++ [5; 0; 0; 0] ++ replicate 8 0.
Definition demo_disk (n : Z) : list Z :=
  if n =? 1 then demo_header ++ replicate (512 - length demo_header) 0
  else if n =? 2 then [250; 49; 192] ++ replicate 509 7 else replicate 512 0.

Lemma demo_disk_len n : length (demo_disk n) = 512%nat.
Proof. unfold demo_disk. destruct (n =? 1); [done|]. by destruct (n =? 2). Qed.
Lemma demo_disk_bytes n : Forall (fun c => 0 <= c < 256) (demo_disk n).
Proof.
  assert (H : forallb (fun c => (0 <=? c) && (c <? 256)) (demo_disk n) = true) by (unfold demo_disk; destruct (n =? 1); [done|]; by destruct (n =? 2)).
  rewrite forallb_forall in H. apply Forall_forall. intros c Hc. apply list_elem_of_In, H in Hc. bool_cases. lia.
Qed.

Lemma bootmain_loads_witness : exists s', bootmain demo_disk (fun _ => 64) 1 (mkBoot (fun _ => 1) (mkCtl 0 0 0 0 0 None []) 0) = Ok (Some 1048588) s'
  /\ bm_mem s' 1048578 = 192 /\ bm_mem s' 1048579 = 0.
Proof.
  destruct (bootmain_loads demo_disk (fun _ => 64) 1 demo_disk_len (fun n => ex_intro _ 0%nat (conj (le_n 1) eq_refl)) demo_disk_bytes
    (mkBoot (fun _ => 1) (mkCtl 0 0 0 0 0 None []) 0)) as (s' & E & Hl).
  - intros _. change (file_num demo_disk 28 4) with 52. change (file_num demo_disk 44 2) with 1. split; [lia|].
    change (file_segs demo_disk 52 (Z.to_nat 1)) with [mkSeg 512 1048576 3 5]. cbn [segs_ok sg_off sg_paddr sg_filesz sg_memsz].
    change (512 mod 512) with 0. split; [lia|]. split; [lia|]. split; [lia|]. split; [lia|constructor].
  - exists s'. split; [exact E|]. specialize (Hl eq_refl). change (file_segs demo_disk (file_num demo_disk 28 4) (Z.to_nat (file_num demo_disk 44 2))) with [mkSeg 512 1048576 3 5] in Hl.
    apply Forall_inv in Hl as [H1 H2]. cbn [sg_off sg_paddr sg_filesz sg_memsz] in H1, H2.
    split; [exact (H1 2 ltac:(lia))|exact (H2 3 ltac:(lia))].
Defined.
