(* ===== verification/Apic.v ===== *)
(** * The interrupt controllers and the clock: lapic.c, ioapic.c, picirq.c

    The devices are hardware: the local APIC is an array of registers of which the
    last value written is kept and what is read is an argument; the I/O APIC has an
    index register and a table behind it; the real-time clock is read through two
    ports, and its registers may change between any two reads. *)

From S2P Require Import Prelude KMonad Params Mp.

(** ** lapic.c *)

(** Register numbers and values. *)
Definition ID : Z := 8.
Definition VER : Z := 12.
Definition TPR : Z := 32.
Definition EOI : Z := 44.
Definition SVR : Z := 60.
Definition ENABLE : Z := 256.
Definition ESR : Z := 160.
Definition ICRLO : Z := 192.
Definition INIT : Z := 1280.
Definition STARTUP : Z := 1536.
Definition DELIVS : Z := 4096.
Definition ASSERT : Z := 16384.
Definition LEVEL : Z := 32768.
Definition BCAST : Z := 524288.
Definition ICRHI : Z := 196.
Definition TIMER : Z := 200.
Definition X1 : Z := 11.
Definition PERIODIC : Z := 131072.
Definition PCINT : Z := 208.
Definition LINT0 : Z := 212.
Definition LINT1 : Z := 216.
Definition ERROR : Z := 220.
Definition MASKED : Z := 65536.
Definition TICR : Z := 224.
Definition TDCR : Z := 248.
Definition T_IRQ0 : Z := 32.
Definition IRQ_TIMER : Z := 0.
Definition IRQ_ERROR : Z := 19.
Definition IRQ_SPURIOUS : Z := 31.

(** Whether [lapic] is null, the writes to its registers in order, the bytes
    written to ports and to memory, and how often a register was read. *)
Record lst := mkLst { l_null : bool; l_writes : list (Z * Z); l_ports : list (Z * Z); l_mem : list (Z * Z); l_reads : nat }.
Definition L := M lst.

Section Lapic.
(** What a register reads, each time. *)
Context (reg_read : nat -> Z -> Z).

Definition lapicr (index : Z) : L Z :=
  n <- gets l_reads ;;
  modify (fun s => mkLst (l_null s) (l_writes s) (l_ports s) (l_mem s) (S (l_reads s))) ;;;
  ret (reg_read n index).

Definition lapicw (index value : Z) : L unit :=
  modify (fun s => mkLst (l_null s) (l_writes s ++ [(index, value)]) (l_ports s) (l_mem s) (l_reads s)) ;;;
  _ <- lapicr ID ;;
  ret tt.

(** [while(lapic[ICRLO] & DELIVS);] *)
Fixpoint wait_delivered (fuel : nat) : L unit :=
  match fuel with
  | O => halt fuel_stop
  | S fuel' => v <- lapicr ICRLO ;; if negb (Z.land v DELIVS =? 0) then wait_delivered fuel' else ret tt
  end.

Definition lapicinit (fuel : nat) : L unit :=
  null <- gets l_null ;;
  if null : bool then ret tt
  else
    lapicw SVR (Z.lor ENABLE (T_IRQ0 + IRQ_SPURIOUS)) ;;;
    lapicw TDCR X1 ;;;
    lapicw TIMER (Z.lor PERIODIC (T_IRQ0 + IRQ_TIMER)) ;;;
    lapicw TICR 10000000 ;;;
    lapicw LINT0 MASKED ;;;
    lapicw LINT1 MASKED ;;;
    v <- lapicr VER ;;
    when (4 <=? Z.land (Z.shiftr v 16) 255) (lapicw PCINT MASKED) ;;;
    lapicw ERROR (T_IRQ0 + IRQ_ERROR) ;;;
    lapicw ESR 0 ;;;
    lapicw ESR 0 ;;;
    lapicw EOI 0 ;;;
    lapicw ICRHI 0 ;;;
    lapicw ICRLO (Z.lor BCAST (Z.lor INIT LEVEL)) ;;;
    wait_delivered fuel ;;;
    lapicw TPR 0.

Definition lapicid : L Z :=
  null <- gets l_null ;;
  if null : bool then ret 0 else v <- lapicr ID ;; ret (Z.shiftr v 24).

Definition lapiceoi : L unit :=
  null <- gets l_null ;;
  if null : bool then ret tt else lapicw EOI 0.

Definition lapic_outb (port v : Z) : L unit :=
  modify (fun s => mkLst (l_null s) (l_writes s) (l_ports s ++ [(port, v)]) (l_mem s) (l_reads s)).
(** A [ushort] stored at a physical address. *)
Definition store_ushort (a v : Z) : L unit :=
  modify (fun s => mkLst (l_null s) (l_writes s) (l_ports s) (l_mem s ++ [(a, u16 v)]) (l_reads s)).

Definition lapicstartap (apicid addr : Z) : L unit :=
  lapic_outb 112 15 ;;;
  lapic_outb 113 10 ;;;
  let wrv := Z.lor (Z.shiftl 64 4) 103 in
  store_ushort wrv 0 ;;;
  store_ushort (wrv + 2) (Z.shiftr addr 4) ;;;
  lapicw ICRHI (i32 (Z.shiftl apicid 24)) ;;;
  lapicw ICRLO (Z.lor INIT (Z.lor LEVEL ASSERT)) ;;;
  lapicw ICRLO (Z.lor INIT LEVEL) ;;;
  for_each (seq 0 2) (fun _ =>
    lapicw ICRHI (i32 (Z.shiftl apicid 24)) ;;;
    lapicw ICRLO (Z.lor STARTUP (Z.shiftr addr 12))).
End Lapic.

(** ** The clock *)

(** The selected register of the clock, and how often it was read. *)
Record cst := mkCst { c_index : Z; c_reads : nat }.

Record rtcdate := mkRtc { second : Z; minute : Z; hour : Z; day : Z; month : Z; year : Z }.
#[export] Instance rtcdate_eq_dec : EqDecision rtcdate.
Proof. solve_decision. Defined.

Section Clock.
(** The value of a register at each read; reads return a byte. *)
Context (rtc : nat -> Z -> Z).

Definition cmos_read (reg : Z) : M cst Z :=
  modify (fun s => mkCst reg (c_reads s)) ;;;
  s <- gets id ;;
  modify (fun s => mkCst (c_index s) (S (c_reads s))) ;;;
  ret (rtc (c_reads s) (c_index s)).

Definition fill_rtcdate : M cst rtcdate :=
  s <- cmos_read 0 ;;
  m <- cmos_read 2 ;;
  h <- cmos_read 4 ;;
  d <- cmos_read 7 ;;
  mo <- cmos_read 8 ;;
  y <- cmos_read 9 ;;
  ret (mkRtc s m h d mo y).

(** The [for(;;)] loop; the result is [t1]. *)
Fixpoint stable_date (fuel : nat) : M cst rtcdate :=
  match fuel with
  | O => halt fuel_stop
  | S fuel' =>
      t1 <- fill_rtcdate ;;
      a <- cmos_read 10 ;;
      if negb (Z.land a 128 =? 0) then stable_date fuel'
      else
        t2 <- fill_rtcdate ;;
        if bool_decide (t1 = t2) then ret t1 else stable_date fuel'
  end.

(** [CONV]: from two decimal digits. *)
Definition conv (x : Z) : Z := u32 (Z.shiftr x 4 * 10 + Z.land x 15).

Definition cmostime (fuel : nat) : M cst rtcdate :=
  sb <- cmos_read 11 ;;
  let bcd := Z.land sb (Z.shiftl 1 2) =? 0 in
  t1 <- stable_date fuel ;;
  let t1 := if bcd then mkRtc (conv (second t1)) (conv (minute t1)) (conv (hour t1)) (conv (day t1)) (conv (month t1)) (conv (year t1)) else t1 in
  ret (mkRtc (second t1) (minute t1) (hour t1) (day t1) (month t1) (u32 (year t1 + 2000))).
End Clock.

(** ** ioapic.c and picirq.c *)

Definition REG_ID : Z := 0.
Definition REG_VER : Z := 1.
Definition REG_TABLE : Z := 16.
Definition INT_DISABLED : Z := 65536.

(** The index register, the registers behind it, what was printed, and the ports
    written. *)
Record iost := mkIost { io_reg : Z; io_regs : Z -> Z; io_out : list string; io_ports : list (Z * Z) }.
Definition IO := M iost.

Definition ioapicread (reg : Z) : IO Z :=
  modify (fun s => mkIost reg (io_regs s) (io_out s) (io_ports s)) ;;;
  s <- gets id ;;
  ret (io_regs s (io_reg s)).

Definition ioapicwrite (reg data : Z) : IO unit :=
  modify (fun s => mkIost reg (io_regs s) (io_out s) (io_ports s)) ;;;
  modify (fun s => mkIost (io_reg s) (upd (io_regs s) (io_reg s) (u32 data)) (io_out s) (io_ports s)).

Definition ioapicinit (ioapicid : Z) : IO unit :=
  v <- ioapicread REG_VER ;;
  let maxintr := Z.land (Z.shiftr v 16) 255 in
  i <- ioapicread REG_ID ;;
  let id := Z.shiftr i 24 in
  when (negb (id =? ioapicid))
    (modify (fun s => mkIost (io_reg s) (io_regs s) (io_out s ++ ["ioapicinit: id isn't equal to ioapicid; not a MP"%string]) (io_ports s))) ;;;
  for_each (seqZ 0 (maxintr + 1)) (fun i =>
    ioapicwrite (REG_TABLE + 2 * i) (Z.lor INT_DISABLED (T_IRQ0 + i)) ;;;
    ioapicwrite (REG_TABLE + 2 * i + 1) 0).

Definition ioapicenable (irq cpunum : Z) : IO unit :=
  ioapicwrite (REG_TABLE + 2 * irq) (T_IRQ0 + irq) ;;;
  ioapicwrite (REG_TABLE + 2 * irq + 1) (Z.shiftl cpunum 24).

Definition picinit : IO unit :=
  let outb port v := modify (fun s => mkIost (io_reg s) (io_regs s) (io_out s) (io_ports s ++ [(port, v)])) in
  outb (32 + 1) 255 ;;;
  outb (160 + 1) 255.

(** ** The clock is read whole *)

Section Date.
Context (rtc : nat -> Z -> Z).

(** [t] is what six reads from the [n]th on return. *)
Definition date_at (n : nat) (t : rtcdate) : Prop :=
  t = mkRtc (rtc n 0) (rtc (n + 1) 2) (rtc (n + 2) 4) (rtc (n + 3) 7) (rtc (n + 4) 8) (rtc (n + 5) 9).

Lemma cmos_read_eq reg s : cmos_read rtc reg s = Ok (rtc (c_reads s) reg) (mkCst reg (S (c_reads s))).
Proof. done. Qed.

Lemma fill_rtcdate_eq s : exists t, fill_rtcdate rtc s = Ok t (mkCst 9 (6 + c_reads s)) /\ date_at (c_reads s) t.
Proof.
  eexists. split; [reflexivity|]. unfold date_at. cbn [c_reads].
  rewrite Nat.add_1_r, (Nat.add_comm _ 2), (Nat.add_comm _ 3), (Nat.add_comm _ 4), (Nat.add_comm _ 5). done.
Qed.

(** The clock stands still from the [n]th read on, and is not being updated. *)
Definition stands_still (n : nat) : Prop := forall k reg, (n <= k)%nat -> rtc k reg = rtc n reg /\ Z.land (rtc k 10) 128 = 0.

Lemma date_still n k1 k2 t1 t2 : stands_still n -> (n <= k1)%nat -> (n <= k2)%nat -> date_at k1 t1 -> date_at k2 t2 -> t1 = t2.
Proof.
  intros Hs H1 H2 -> ->. assert (He : forall i reg, rtc (k1 + i) reg = rtc (k2 + i) reg) by (intros i reg; rewrite (proj1 (Hs (k1 + i)%nat reg ltac:(lia))), (proj1 (Hs (k2 + i)%nat reg ltac:(lia))); done).
  pose proof (He 0%nat 0) as E0. rewrite !Nat.add_0_r in E0. by rewrite E0, !He.
Qed.

Lemma stable_date_ok N fuel : stands_still N -> forall s, (N - c_reads s < fuel)%nat ->
  exists t s' n, stable_date rtc fuel s = Ok t s' /\ (c_reads s <= n)%nat /\ date_at n t /\ date_at (n + 7) t /\ Z.land (rtc (n + 6) 10) 128 = 0.
Proof.
  intros HN. induction fuel as [|fuel IH]; intros s Hf; [lia|]. cbn [stable_date]. destruct (fill_rtcdate_eq s) as (t1 & E1 & D1).
  rewrite (bind_Ok _ _ _ _ _ E1), (bind_Ok _ _ _ _ _ (cmos_read_eq 10 _)). cbn [c_reads].
  assert (Hnext : (N <= c_reads s)%nat \/ forall s', (7 + c_reads s <= c_reads s')%nat -> (N - c_reads s' < fuel)%nat) by (destruct (decide (N <= c_reads s)%nat); [by left|right; lia]).
  destruct (Z.land (rtc (6 + c_reads s) 10) 128 =? 0) eqn:Eu; cbn [negb].
  2:{ destruct Hnext as [Hle|Hn]; [apply Z.eqb_neq in Eu; destruct Eu; apply (HN (6 + c_reads s)%nat 0); lia|].
      destruct (IH (mkCst 10 (S (6 + c_reads s)))) as (t & s' & n & E & Hn' & H); [apply Hn; cbn; lia|]. exists t, s', n. split; [exact E|]. split; [cbn in Hn'; lia|done]. }
  apply Z.eqb_eq in Eu. destruct (fill_rtcdate_eq (mkCst 10 (S (6 + c_reads s)))) as (t2 & E2 & D2). rewrite (bind_Ok _ _ _ _ _ E2).
  case_bool_decide as Heq.
  - subst t2. exists t1. eexists _, (c_reads s). split; [reflexivity|]. split; [lia|]. split; [done|]. rewrite (Nat.add_comm _ 7), (Nat.add_comm _ 6). done.
  - destruct Hnext as [Hle|Hn]; [destruct Heq; eapply (date_still N); [done| | |exact D1|exact D2]; cbn; lia|].
    destruct (IH (mkCst 9 (6 + S (6 + c_reads s)))) as (t & s' & n & E & Hn' & H); [apply Hn; cbn; lia|]. exists t, s', n. split; [exact E|]. split; [cbn in Hn'; lia|done].
Qed.
End Date.

(** The registers for a date: two decimal digits to a byte, or binary. *)
Definition bcd (x : Z) : Z := x / 10 * 16 + x mod 10.
Definition registers (binary : bool) (d : rtcdate) : rtcdate :=
  let e x := if binary then x else bcd x in mkRtc (e (second d)) (e (minute d)) (e (hour d)) (e (day d)) (e (month d)) (e (year d)).
Definition two_digits (d : rtcdate) : Prop :=
  Forall (fun x => 0 <= x < 100) [second d; minute d; hour d; day d; month d; year d].

Lemma conv_bcd x : 0 <= x < 100 -> conv (bcd x) = x.
Proof.
  intros Hx. assert (H : forallb (fun x => conv (bcd x) =? x) (seqZ 0 100) = true) by by vm_compute.
  apply (forallb_seqZ _ _ _ H) in Hx. by apply Z.eqb_eq.
Qed.

(** [cmostime] returns once the clock stands still, and what it returns is the
    date that the clock showed in two readings in a row with no update between
    them, so never a mixture of two dates; the digits are decoded when the clock
    is not in binary mode, and the year is in this century. *)
Theorem cmostime_reads rtc N fuel s : stands_still rtc N -> (N < fuel)%nat ->
  exists d s' n t, cmostime rtc fuel s = Ok d s' /\ date_at rtc n t /\ date_at rtc (n + 7) t /\ Z.land (rtc (n + 6)%nat 10) 128 = 0
    /\ forall x, two_digits x -> t = registers (negb (Z.land (rtc (c_reads s) 11) 4 =? 0)) x ->
         d = mkRtc (second x) (minute x) (hour x) (day x) (month x) (2000 + year x).
Proof.
  intros HN Hf. unfold cmostime. rewrite (bind_Ok _ _ _ _ _ (cmos_read_eq rtc 11 s)). set (s1 := mkCst 11 (S (c_reads s))).
  destruct (stable_date_ok rtc N fuel HN s1) as (t & s' & n & E & Hn & D1 & D2 & Hu); [lia|]. rewrite (bind_Ok _ _ _ _ _ E). change (Z.shiftl 1 2) with 4.
  eexists _, s', n, t. split; [reflexivity|]. split; [done|]. split; [done|]. split; [done|]. intros x Hx Ht.
  unfold two_digits in Hx. rewrite !Forall_cons in Hx. destruct Hx as (H1 & H2 & H3 & H4 & H5 & H6 & _).
  destruct (Z.land (rtc (c_reads s) 11) 4 =? 0); cbn [negb registers] in Ht; subst t; cbn; rewrite ?conv_bcd by done; f_equal; rewrite u32_id by (unfold is_u32; lia); lia.
Qed.

(** 2024-06-30 23:59:58 in two digits each, on a clock that is not binary. *)
Definition demo_rtc (n : nat) (reg : Z) : Z :=
  if reg =? 0 then 88 else if reg =? 2 then 89 else if reg =? 4 then 35 else if reg =? 7 then 48 else if reg =? 8 then 6 else if reg =? 9 then 36 else 0.

Lemma cmostime_reads_witness : exists s', cmostime demo_rtc 1 (mkCst 0 0) = Ok (mkRtc 58 59 23 30 6 2024) s'.
Proof.
  destruct (cmostime_reads demo_rtc 0 1 (mkCst 0 0)) as (d & s' & n & t & E & D & _ & _ & H).
  - intros k reg _. split; reflexivity.
  - lia.
  - exists s'. rewrite E. f_equal. apply (H (mkRtc 58 59 23 30 6 24)).
    + repeat constructor; cbn; lia.
    + rewrite D. reflexivity.
Defined.

(** ** The redirection table *)

Lemma ioapicwrite_eq reg data s : exists r, ioapicwrite reg data s = Ok tt (mkIost r (upd (io_regs s) reg (u32 data)) (io_out s) (io_ports s)).
Proof. by eexists. Qed.

(** The entry [i] of the table: its configuration and its processors. *)
Definition redirection (f : Z -> Z) (i : Z) : Z * Z := (f (REG_TABLE + 2 * i), f (REG_TABLE + 2 * i + 1)).

Lemma redirection_upd f i j a b : 
  redirection (upd (upd f (REG_TABLE + 2 * i) a) (REG_TABLE + 2 * i + 1) b) j = if decide (j = i) then (a, b) else redirection f j.
Proof.
  unfold redirection, upd, REG_TABLE. repeat case_decide; try lia; try done.
Qed.

Lemma io_init_loop l : forall s, exists r, for_each l (fun i => ioapicwrite (REG_TABLE + 2 * i) (Z.lor INT_DISABLED (T_IRQ0 + i)) ;;; ioapicwrite (REG_TABLE + 2 * i + 1) 0) s
    = Ok tt r /\ io_out r = io_out s /\ io_ports r = io_ports s
    /\ forall j, redirection (io_regs r) j = if decide (j ∈ l) then (u32 (Z.lor INT_DISABLED (T_IRQ0 + j)), 0) else redirection (io_regs s) j.
Proof.
  induction l as [|i l IH]; intros s; cbn [for_each].
  { exists s. split; [done|]. split; [done|]. split; [done|]. intros j. rewrite decide_False; [done|]. apply not_elem_of_nil. }
  destruct (ioapicwrite_eq (REG_TABLE + 2 * i) (Z.lor INT_DISABLED (T_IRQ0 + i)) s) as (r1 & E1).
  match type of E1 with _ = Ok tt ?x => set (s1 := x) in * end. destruct (ioapicwrite_eq (REG_TABLE + 2 * i + 1) 0 s1) as (r2 & E2).
  match type of E2 with _ = Ok tt ?x => set (s2 := x) in * end. destruct (IH s2) as (r & E & Ho & Hp & Hr).
  exists r. split.
  - assert (Eb : (ioapicwrite (REG_TABLE + 2 * i) (Z.lor INT_DISABLED (T_IRQ0 + i)) ;;; ioapicwrite (REG_TABLE + 2 * i + 1) 0) s = Ok tt s2) by (rewrite (bind_Ok _ _ _ _ _ E1); exact E2).
    rewrite (bind_Ok _ _ _ _ _ Eb). exact E.
  - split; [done|]. split; [done|]. intros j. rewrite Hr. unfold s2, s1. cbn [io_regs]. rewrite redirection_upd.
    destruct (decide (j ∈ l)) as [Hj|Hj]; [by rewrite decide_True by (apply elem_of_cons; by right)|].
    destruct (decide (j = i)) as [->|Hne]; [by rewrite decide_True by (apply elem_of_cons; by left)|].
    rewrite decide_False; [done|]. intros [?|?]%elem_of_cons; done.
Qed.

(** After [ioapicinit] every interrupt the controller has is disabled, edge
    triggered, with its vector, and routed to no processor; [ioapicenable] then
    enables exactly one of them, for one processor. *)
Theorem ioapic_routes ioapicid irq cpunum s : let maxintr := Z.land (Z.shiftr (io_regs s REG_VER) 16) 255 in
  0 <= irq <= maxintr -> 0 <= cpunum < 256 ->
  exists s', (ioapicinit ioapicid ;;; ioapicenable irq cpunum) s = Ok tt s'
    /\ forall j, 0 <= j <= maxintr ->
         redirection (io_regs s') j = if decide (j = irq) then (T_IRQ0 + irq, cpunum * 2 ^ 24) else (Z.lor INT_DISABLED (T_IRQ0 + j), 0).
Proof.
  intros maxintr Hirq Hcpu. assert (Hmax : 0 <= maxintr <= 255).
  { unfold maxintr. change 255 with (Z.ones 8) at 1 2. rewrite Z.land_ones by lia. change (2 ^ 8) with 256. mlia. }
  assert (Hlor : forall j, 0 <= j <= 255 -> u32 (Z.lor INT_DISABLED (T_IRQ0 + j)) = Z.lor INT_DISABLED (T_IRQ0 + j)).
  { intros j Hj. assert (H : forallb (fun j => u32 (Z.lor INT_DISABLED (T_IRQ0 + j)) =? Z.lor INT_DISABLED (T_IRQ0 + j)) (seqZ 0 256) = true) by by vm_compute.
    apply Z.eqb_eq. apply (forallb_seqZ _ _ _ H). lia. }
  assert (exists s1, ioapicinit ioapicid s = Ok tt s1 /\ forall j, redirection (io_regs s1) j =
    if decide (j ∈ seqZ 0 (maxintr + 1)) then (u32 (Z.lor INT_DISABLED (T_IRQ0 + j)), 0) else redirection (io_regs s) j) as (s1 & E1 & H1).
  { unfold ioapicinit. rewrite (bind_Ok (ioapicread REG_VER) _ s (io_regs s REG_VER) (mkIost REG_VER (io_regs s) (io_out s) (io_ports s)) eq_refl). cbv zeta. fold maxintr.
    rewrite (bind_Ok (ioapicread REG_ID) _ (mkIost REG_VER (io_regs s) (io_out s) (io_ports s)) (io_regs s REG_ID) (mkIost REG_ID (io_regs s) (io_out s) (io_ports s)) eq_refl).
    destruct (negb (Z.shiftr (io_regs s REG_ID) 24 =? ioapicid)); cbn [when].
    - match goal with |- context [bind (modify ?f) _ ?x] => rewrite (bind_Ok (modify f) _ x tt (f x) eq_refl); destruct (io_init_loop (seqZ 0 (maxintr + 1)) (f x)) as (r & E & _ & _ & Hr) end.
      exists r. split; [exact E|]. exact Hr.
    - match goal with |- context [bind (ret tt) _ ?x] => destruct (io_init_loop (seqZ 0 (maxintr + 1)) x) as (r & E & _ & _ & Hr) end. exists r. split; [exact E|]. exact Hr. }
  rewrite (bind_Ok _ _ _ _ _ E1). eexists. split; [reflexivity|]. intros j Hj. cbn [io_regs io_reg]. rewrite redirection_upd, H1.
  rewrite (decide_True (P := j ∈ seqZ 0 (maxintr + 1))) by (apply elem_of_seqZ; lia). rewrite Hlor by lia. case_decide; [|done].
  rewrite !u32_id by (unfold is_u32, T_IRQ0; rewrite ?Z.shiftl_mul_pow2 by lia; cbn; lia). by rewrite Z.shiftl_mul_pow2 by lia.
Qed.

Lemma ioapic_routes_witness : exists s', (ioapicinit 0 ;;; ioapicenable 1 0) (mkIost 0 (fun r => if r =? 1 then 1507328 else 0) [] []) = Ok tt s'
  /\ redirection (io_regs s') 1 = (33, 0) /\ redirection (io_regs s') 4 = (65572, 0).
Proof.
  destruct (ioapic_routes 0 1 0 (mkIost 0 (fun r => if r =? 1 then 1507328 else 0) [] [])) as (s' & E & H).
  - vm_compute. split; discriminate.
  - lia.
  - exists s'. split; [exact E|]. split; [rewrite (H 1)|rewrite (H 4)]; try reflexivity; vm_compute; split; discriminate.
Defined.
