(* ===== verification/Segs.v ===== *)
(** * Segments, gates and the way into the kernel

    mmu.h, the start of vm.c and of trap.c, and the loads of system registers of
    x86.h: the descriptor tables of each processor, the task-state segment, the
    interrupt table and the page-table register, with [seginit], [tvinit],
    [idtinit], [kvmalloc], [switchkvm] and [switchuvm]. *)

From S2P Require Import Prelude KMonad Params Kalloc Vm Proc Spinlock.

(** ** mmu.h *)

Definition SEG_KCODE : Z := 1.
Definition SEG_KDATA : Z := 2.
Definition SEG_UCODE : Z := 3.
Definition SEG_UDATA : Z := 4.
Definition SEG_TSS : Z := 5.
Definition NSEGS : Z := 6.
Definition DPL_USER : Z := 3.
Definition STA_X : Z := 8.
Definition STA_W : Z := 2.
Definition STA_R : Z := 2.
Definition STS_T32A : Z := 9.
Definition STS_IG32 : Z := 14.
Definition STS_TG32 : Z := 15.
Definition T_SYSCALL : Z := 64.

Record segdesc := mkSegdesc {
  lim_15_0 : Z; base_15_0 : Z; base_23_16 : Z; sd_type : Z; sd_s : Z; sd_dpl : Z; sd_p : Z;
  lim_19_16 : Z; sd_avl : Z; sd_rsv1 : Z; sd_db : Z; sd_g : Z; base_31_24 : Z }.

Record gatedesc := mkGatedesc {
  off_15_0 : Z; gd_cs : Z; gd_args : Z; gd_rsv1 : Z; gd_type : Z; gd_s : Z; gd_dpl : Z; gd_p : Z; off_31_16 : Z }.

(** A value stored in a bit-field of width [w]. *)
Definition field_of (w v : Z) : Z := Z.land v (Z.ones w).

Definition SEG (type base lim dpl : Z) : segdesc :=
  mkSegdesc (field_of 16 (Z.land (Z.shiftr lim 12) 65535)) (field_of 16 (Z.land (u32 base) 65535))
    (field_of 8 (Z.land (Z.shiftr (u32 base) 16) 255)) (field_of 4 type) 1 (field_of 2 dpl) 1
    (field_of 4 (Z.shiftr (u32 lim) 28)) 0 0 1 1 (field_of 8 (Z.shiftr (u32 base) 24)).

Definition SEG16 (type base lim dpl : Z) : segdesc :=
  mkSegdesc (field_of 16 (Z.land lim 65535)) (field_of 16 (Z.land (u32 base) 65535))
    (field_of 8 (Z.land (Z.shiftr (u32 base) 16) 255)) (field_of 4 type) 1 (field_of 2 dpl) 1
    (field_of 4 (Z.shiftr (u32 lim) 16)) 0 0 1 0 (field_of 8 (Z.shiftr (u32 base) 24)).

Definition set_s (v : Z) (d : segdesc) : segdesc :=
  mkSegdesc (lim_15_0 d) (base_15_0 d) (base_23_16 d) (sd_type d) (field_of 1 v) (sd_dpl d) (sd_p d)
    (lim_19_16 d) (sd_avl d) (sd_rsv1 d) (sd_db d) (sd_g d) (base_31_24 d).
Definition set_type (v : Z) (d : segdesc) : segdesc :=
  mkSegdesc (lim_15_0 d) (base_15_0 d) (base_23_16 d) (field_of 4 v) (sd_s d) (sd_dpl d) (sd_p d)
    (lim_19_16 d) (sd_avl d) (sd_rsv1 d) (sd_db d) (sd_g d) (base_31_24 d).

(** [SETGATE(gate, istrap, sel, off, d)], the value it gives the gate. *)
Definition SETGATE (istrap : bool) (sel off d : Z) : gatedesc :=
  mkGatedesc (field_of 16 (Z.land (u32 off) 65535)) (field_of 16 sel) 0 0 (if istrap then STS_TG32 else STS_IG32) 0
    (field_of 2 d) 1 (field_of 16 (Z.shiftr (u32 off) 16)).

(** The fields of the task-state segment that the kernel sets. *)
Record taskstate := mkTs { esp0 : Z; ss0 : Z; iomb : Z }.
Definition sizeof_taskstate : Z := 104.

(** ** Processors *)

(** The part of [struct cpu] that is not in Spinlock.v. *)
Record pcpu := mkPcpu { apicid : Z; ts : taskstate; gdt : list segdesc }.
(** The registers GDTR and IDTR (base and limit), TR and CR3. *)
Record regs := mkRegs { r_gdt : Z * Z; r_idt : Z * Z; r_tr : Z; r_cr3 : Z }.

Record hw := mkHw {
  h_sl : machine; h_cpus : list pcpu; h_regs : list regs; h_idt : list gatedesc; h_kpgdir : Z; h_mem : kmem }.

Definition sizeof_cpu : Z := 176.
Definition off_ts : Z := 8.
Definition off_gdt : Z := 112.

Section Segs.
(** The addresses of [cpus] and [idt], the entry points of vectors.S, the number of
    each processor's local APIC, and the linker symbol [data] (see [kmap]). *)
Context (cpus_addr idt_addr : Z) (vectors : list Z) (lapicid : nat -> Z) (data : Z).

Definition gdt_addr (i : nat) : Z := cpus_addr + sizeof_cpu * Z.of_nat i + off_gdt.
Definition ts_addr (i : nat) : Z := cpus_addr + sizeof_cpu * Z.of_nat i + off_ts.

Definition on_sl {A} (m : M machine A) : M hw A :=
  lift h_sl (fun t h => mkHw t (h_cpus h) (h_regs h) (h_idt h) (h_kpgdir h) (h_mem h)) m.
Definition on_hmem {A} (m : M kmem A) : M hw A :=
  lift h_mem (fun t h => mkHw (h_sl h) (h_cpus h) (h_regs h) (h_idt h) (h_kpgdir h) t) m.

Definition upd_cpu (i : nat) (f : pcpu -> option pcpu) : M hw unit :=
  l <- gets h_cpus ;;
  x <- from_opt (l !! i) ;;
  x <- from_opt (f x) ;;
  modify (fun h => mkHw (h_sl h) (<[i := x]> (h_cpus h)) (h_regs h) (h_idt h) (h_kpgdir h) (h_mem h)).
(** [cpus[i].gdt[k] = d] *)
Definition set_seg (i : nat) (k : Z) (d : segdesc) : M hw unit :=
  upd_cpu i (fun x => l ← zset (gdt x) k d; Some (mkPcpu (apicid x) (ts x) l)).
Definition upd_ts (i : nat) (f : taskstate -> taskstate) : M hw unit :=
  upd_cpu i (fun x => Some (mkPcpu (apicid x) (f (ts x)) (gdt x))).
Definition upd_regs (c : nat) (f : regs -> regs) : M hw unit :=
  l <- gets h_regs ;;
  x <- from_opt (l !! c) ;;
  modify (fun h => mkHw (h_sl h) (h_cpus h) (<[c := f x]> (h_regs h)) (h_idt h) (h_kpgdir h) (h_mem h)).
(** [SETGATE(idt[i], ...)] *)
Definition set_gate (i : Z) (g : gatedesc) : M hw unit :=
  l <- gets h_idt ;;
  l <- from_opt (zset l i g) ;;
  modify (fun h => mkHw (h_sl h) (h_cpus h) (h_regs h) l (h_kpgdir h) (h_mem h)).

(** ** x86.h *)

(** The operand of [lgdt] and [lidt]: [pd[0]] is the limit, [pd[1]] and [pd[2]] the
    halves of the address. *)
Definition pseudo_desc (p size : Z) : Z * Z :=
  let pd0 := u16 (size - 1) in let pd1 := u16 p in let pd2 := u16 (Z.shiftr (u32 p) 16) in
  (Z.lor (Z.shiftl pd2 16) pd1, pd0).
Definition lgdt (c : nat) (p size : Z) : M hw unit :=
  upd_regs c (fun r => mkRegs (pseudo_desc p size) (r_idt r) (r_tr r) (r_cr3 r)).
Definition lidt (c : nat) (p size : Z) : M hw unit :=
  upd_regs c (fun r => mkRegs (r_gdt r) (pseudo_desc p size) (r_tr r) (r_cr3 r)).
Definition lcr3 (c : nat) (v : Z) : M hw unit :=
  upd_regs c (fun r => mkRegs (r_gdt r) (r_idt r) (r_tr r) v).

(** The processor structure and the entry of its table at an address. *)
Definition seg_at (a : Z) : option (nat * Z) :=
  let o := a - cpus_addr in
  let k := o mod sizeof_cpu - off_gdt in
  if (0 <=? o) && (0 <=? k) && (k <? 8 * NSEGS) && (k mod 8 =? 0) then Some (Z.to_nat (o / sizeof_cpu), k / 8) else None.

(** [ltr] takes the descriptor of an available task-state segment and marks it busy;
    any other descriptor is a fault. *)
Definition ltr (c : nat) (sel : Z) : M hw unit :=
  l <- gets h_regs ;;
  r <- from_opt (l !! c) ;;
  let* (i, k) := from_opt (seg_at (fst (r_gdt r) + 8 * Z.shiftr sel 3)) in
  cs <- gets h_cpus ;;
  x <- from_opt (cs !! i) ;;
  d <- from_opt (zget (gdt x) k) ;;
  if (sd_s d =? 0) && (sd_type d =? STS_T32A) && (sd_p d =? 1) then
    set_seg i k (set_type (Z.lor STS_T32A 2) d) ;;;
    upd_regs c (fun r => mkRegs (r_gdt r) (r_idt r) sel (r_cr3 r))
  else halt fault_stop.

(** ** proc.c, vm.c and trap.c *)

(** [mycpu] on processor [c]: the index of its structure. *)
Definition mycpu (c : nat) : M hw nat :=
  x <- on_sl (get_cpu c) ;;
  if iflag x then panic "mycpu called with interrupts enabled"
  else
    l <- gets h_cpus ;;
    match list_find (fun x => apicid x = lapicid c) l with
    | Some (i, _) => ret i
    | None => panic "unknown apicid"
    end.

Definition cpuid (c : nat) : M hw Z := i <- mycpu c ;; ret (Z.of_nat i).

Definition seginit (c : nat) : M hw unit :=
  i <- cpuid c ;;
  let i := Z.to_nat i in
  set_seg i SEG_KCODE (SEG (Z.lor STA_X STA_R) 0 4294967295 0) ;;;
  set_seg i SEG_KDATA (SEG STA_W 0 4294967295 0) ;;;
  set_seg i SEG_UCODE (SEG (Z.lor STA_X STA_R) 0 4294967295 DPL_USER) ;;;
  set_seg i SEG_UDATA (SEG STA_W 0 4294967295 DPL_USER) ;;;
  lgdt c (gdt_addr i) (8 * NSEGS).

Definition tvinit : M hw unit :=
  for_each (seqZ 0 256) (fun i =>
    v <- from_opt (zget vectors i) ;;
    set_gate i (SETGATE false (Z.shiftl SEG_KCODE 3) v 0)) ;;;
  v <- from_opt (zget vectors T_SYSCALL) ;;
  set_gate T_SYSCALL (SETGATE true (Z.shiftl SEG_KCODE 3) v DPL_USER).

Definition idtinit (c : nat) : M hw unit := lidt c idt_addr (8 * 256).

Definition switchkvm (c : nat) : M hw unit := p <- gets h_kpgdir ;; lcr3 c (V2P p).

Definition kvmalloc (c : nat) : M hw unit :=
  p <- on_hmem (setupkvm data) ;;
  modify (fun h => mkHw (h_sl h) (h_cpus h) (h_regs h) (h_idt h) p (h_mem h)) ;;;
  switchkvm c.

Definition switchuvm (c : nat) (p : option proc) : M hw unit :=
  match p with
  | None => panic "switchuvm: no process"
  | Some p =>
      if p_kstack p =? 0 then panic "switchuvm: no kstack"
      else if p_pgdir p =? 0 then panic "switchuvm: no pgdir"
      else
        on_sl (pushcli c) ;;;
        i <- mycpu c ;;
        set_seg i SEG_TSS (SEG16 STS_T32A (ts_addr i) (sizeof_taskstate - 1) 0) ;;;
        i <- mycpu c ;;
        upd_cpu i (fun x => d ← zget (gdt x) SEG_TSS; l ← zset (gdt x) SEG_TSS (set_s 0 d); Some (mkPcpu (apicid x) (ts x) l)) ;;;
        i <- mycpu c ;;
        upd_ts i (fun t => mkTs (esp0 t) (Z.shiftl SEG_KDATA 3) (iomb t)) ;;;
        i <- mycpu c ;;
        upd_ts i (fun t => mkTs (u32 (p_kstack p + KSTACKSIZE)) (ss0 t) (iomb t)) ;;;
        i <- mycpu c ;;
        upd_ts i (fun t => mkTs (esp0 t) (ss0 t) 65535) ;;;
        ltr c (Z.shiftl SEG_TSS 3) ;;;
        lcr3 c (V2P (p_pgdir p)) ;;;
        on_sl (popcli c)
  end.

(** ** main.c, the part about the tables *)

(** [mpenter] and [mpmain] on another processor; [lapicinit] (Apic.v) and the loop of
    [scheduler] (Sched.v) do not touch the tables. *)
Definition mpenter (c : nat) : M hw unit := switchkvm c ;;; seginit c ;;; idtinit c.

(** [main]: the first processor sets its segments and the gates, [startothers] waits
    for each of the others in turn, and [mpmain] loads the interrupt table.  The calls
    between them start the devices, the buffer cache and the tables of files and
    processes. *)
Definition start_cpus (ncpu : nat) : M hw unit :=
  seginit 0 ;;; tvinit ;;; for_each (seq 1 (ncpu - 1)) mpenter ;;; idtinit 0.
End Segs.

(** The page directory of entry.S and entryother.S. *)
Definition PTE_PS : Z := 128.
Definition entrypgdir : list Z :=
  (fun i => if (i =? 0) || (i =? Z.shiftr KERNBASE 22) then Z.lor (Z.lor (Z.lor 0 PTE_P) PTE_W) PTE_PS else 0) <$> seqZ 0 NPDENTRIES.
