(* ===== verification/SegsSpec.v ===== *)
(** * The way into the kernel

    What a processor does with the tables of Segs.v when an interrupt comes, when a
    segment register is loaded and when a port is used (after the Intel manual, on
    the eight bytes of the descriptors), and the theorem that code in user mode
    enters the kernel by the gate of the system calls only, at the addresses of
    vectors.S, on the kernel stack of its process, and has no way to the kernel's
    segments or to the devices. *)

From S2P Require Import Prelude KMonad Params Kalloc Vm Proc Spinlock Segs.

(** ** Descriptors in memory *)

(** Bit-fields in the order of their declaration, from the low bits. *)
Fixpoint pack (l : list (Z * Z)) : Z :=
  match l with [] => 0 | (w, v) :: l' => v + 2 ^ w * pack l' end.

Definition segdesc_word (d : segdesc) : Z :=
  pack [(16, lim_15_0 d); (16, base_15_0 d); (8, base_23_16 d); (4, sd_type d); (1, sd_s d); (2, sd_dpl d); (1, sd_p d);
        (4, lim_19_16 d); (1, sd_avl d); (1, sd_rsv1 d); (1, sd_db d); (1, sd_g d); (8, base_31_24 d)].
Definition gatedesc_word (g : gatedesc) : Z :=
  pack [(16, off_15_0 g); (16, gd_cs g); (5, gd_args g); (3, gd_rsv1 g); (4, gd_type g); (1, gd_s g); (2, gd_dpl g); (1, gd_p g); (16, off_31_16 g)].

(** The processor's view: [n] bits from bit [lo]. *)
Definition bits_at (w lo n : Z) : Z := (w / 2 ^ lo) mod 2 ^ n.
Definition x_base (w : Z) : Z := bits_at w 16 24 + 16777216 * bits_at w 56 8.
Definition x_limit (w : Z) : Z :=
  let l := bits_at w 0 16 + 65536 * bits_at w 48 4 in if bits_at w 55 1 =? 1 then l * 4096 + 4095 else l.
(** Bit 4 of the type distinguishes segments of memory from system segments. *)
Definition x_type (w : Z) : Z := bits_at w 40 5.
Definition x_dpl (w : Z) : Z := bits_at w 45 2.
Definition x_present (w : Z) : bool := bits_at w 47 1 =? 1.
Definition x_code (w : Z) : bool := (bits_at w 43 2 =? 3).
Definition x_conforming (w : Z) : bool := bits_at w 42 1 =? 1.
Definition x_writable (w : Z) : bool := (bits_at w 43 2 =? 2) && (bits_at w 41 1 =? 1).
Definition g_offset (w : Z) : Z := bits_at w 0 16 + 65536 * bits_at w 48 16.
Definition g_selector (w : Z) : Z := bits_at w 16 16.

Section Hardware.
Context (cpus_addr idt_addr : Z).

(** The descriptor that a selector chooses; [None] for the null selector and beyond
    the limit of the table. *)
Definition x_select (h : hw) (r : regs) (sel : Z) : option Z :=
  let k := sel / 8 in
  if (k =? 0) || (snd (r_gdt r) <? 8 * k + 7) then None
  else
    '(i, j) ← seg_at cpus_addr (fst (r_gdt r) + 8 * k);
    x ← h_cpus h !! i;
    d ← zget (gdt x) j;
    Some (segdesc_word d).

Definition x_gate (h : hw) (r : regs) (n : Z) : option Z :=
  if snd (r_idt r) <? 8 * n + 7 then None
  else
    let o := fst (r_idt r) + 8 * n - idt_addr in
    if o mod 8 =? 0 then gatedesc_word <$> zget (h_idt h) (o / 8) else None.

(** The task-state segment of the register TR, with its limit. *)
Definition x_task (h : hw) (r : regs) : option (taskstate * Z) :=
  w ← x_select h r (r_tr r);
  let o := x_base w - cpus_addr in
  if (x_type w =? 11) && x_present w && (o mod sizeof_cpu =? off_ts) then x ← h_cpus h !! Z.to_nat (o / sizeof_cpu); Some (ts x, x_limit w)
  else None.

(** Entry at [en_cs]:[en_eip] with privilege [en_ring]; [en_stack] is the new stack, if
    the privilege changes; [en_if] says that interrupts stay as they were (else they
    are off). *)
Record entry := mkEntry { en_cs : Z; en_eip : Z; en_ring : Z; en_stack : option (Z * Z); en_if : bool }.
Inductive delivery := Enter (e : entry) | Fault (vector : Z).

(** The stack for privilege 0: writable, of that privilege, or an invalid-TSS fault. *)
Definition x_stack (h : hw) (r : regs) : option (Z * Z) :=
  '(t, lim) ← x_task h r;
  w ← x_select h r (ss0 t);
  if (9 <=? lim) && x_writable w && x_present w && (x_dpl w =? 0) && (ss0 t mod 4 =? 0) then Some (ss0 t, esp0 t) else None.

(** Interrupt [n] on a processor with privilege level [cpl]; [soft] for an [int n]. *)
Definition deliver (h : hw) (r : regs) (n : Z) (soft : bool) (cpl : Z) : delivery :=
  match x_gate h r n with
  | None => Fault 13
  | Some g =>
      if soft && (x_dpl g <? cpl) then Fault 13
      else if negb ((x_type g =? 14) || (x_type g =? 15)) then Fault 13
      else if negb (x_present g) then Fault 11
      else
        match x_select h r (g_selector g) with
        | None => Fault 13
        | Some w =>
            if negb (x_code w) || (cpl <? x_dpl w) then Fault 13
            else if negb (x_present w) then Fault 11
            else if x_limit w <? g_offset g then Fault 13
            else if negb (x_conforming w) && (x_dpl w <? cpl) then
              if negb (x_dpl w =? 0) then Fault 10
              else
                match x_stack h r with
                | None => Fault 10
                | Some st => Enter (mkEntry (g_selector g) (g_offset g) 0 (Some st) (x_type g =? 15))
                end
            else Enter (mkEntry (g_selector g) (g_offset g) cpl None (x_type g =? 15))
        end
  end.

(** Loading a data segment register at privilege [cpl]. *)
Definition loads_data (h : hw) (r : regs) (cpl sel : Z) : bool :=
  match x_select h r sel with
  | None => false
  | Some w => x_present w && (16 <=? x_type w) && (x_conforming w && x_code w || (Z.max cpl (sel mod 4) <=? x_dpl w))
  end.
(** A jump or call to a code segment. *)
Definition jumps (h : hw) (r : regs) (cpl sel : Z) : bool :=
  match x_select h r sel with
  | None => false
  | Some w => x_present w && x_code w && (if x_conforming w then x_dpl w <=? cpl else (sel mod 4 <=? cpl) && (x_dpl w =? cpl))
  end.
(** The linear address of [off] in a segment. *)
Definition linear (h : hw) (r : regs) (sel off : Z) : option Z :=
  w ← x_select h r sel; if x_limit w <? off then None else Some (u32 (x_base w + off)).

(** A port used at privilege 3 with an I/O privilege level of 0: the map of the task
    decides, and only ports whose bits are within the limit of the segment are in it. *)
Definition port_in_map (h : hw) (r : regs) (port : Z) : bool :=
  match x_task h r with
  | None => false
  | Some (t, lim) => iomb t + port / 8 + 1 <=? lim
  end.
End Hardware.

Lemma zset_seg (l : list segdesc) k d : length l = 6%nat -> 0 <= k < 6 -> zset l k d = Some (<[Z.to_nat k := d]> l).
Proof. intros Hl Hk. unfold zset. by rewrite (proj2 (Z.leb_le 0 k)), (proj2 (Z.ltb_lt k _)) by lia. Qed.

Lemma pseudo_desc_eq p size : 0 <= p < 4294967296 -> 1 <= size <= 65536 -> pseudo_desc p size = (p, size - 1).
Proof.
  intros Hp Hs. unfold pseudo_desc. rewrite (u32_id p) by done. unfold u16. rewrite Z.shiftr_div_pow2, Z.shiftl_mul_pow2, lor_low by (try lia; change (2 ^ 16) with 65536; mlia).
  change (2 ^ 16) with 65536. f_equal; mlia.
Qed.

Lemma seg_at_gdt cpus_addr c k : 0 <= k < 6 -> seg_at cpus_addr (gdt_addr cpus_addr c + 8 * k) = Some (c, k).
Proof.
  intros Hk. unfold seg_at, gdt_addr, sizeof_cpu, off_gdt, NSEGS. set (o := _ - cpus_addr). replace o with (112 + 8 * k + Z.of_nat c * 176) by (unfold o; lia).
  rewrite Z.div_add, Z.mod_add, (Z.div_small (112 + 8 * k)), (Z.mod_small (112 + 8 * k)) by lia. replace (112 + 8 * k - 112) with (k * 8) by lia.
  rewrite Z.mod_mul, Z.div_mul by lia. rewrite !(proj2 (Z.leb_le _ _)), (proj2 (Z.ltb_lt _ _)) by lia. cbn. f_equal. f_equal. lia.
Qed.

Lemma field_mod w v : 0 <= w -> field_of w v = v mod 2 ^ w.
Proof. apply Z.land_ones. Qed.

Lemma gate_fields istrap v dpl : is_u32 v -> 0 <= dpl < 4 -> let w := gatedesc_word (SETGATE istrap (Z.shiftl SEG_KCODE 3) v dpl) in
  g_offset w = v /\ g_selector w = 8 /\ x_type w = (if istrap then 15 else 14) /\ x_dpl w = dpl /\ x_present w = true.
Proof.
  intros Hv Hd. unfold SETGATE, gatedesc_word. rewrite !field_mod, (u32_id v), Z.shiftr_div_pow2 by (done || lia). change 65535 with (Z.ones 16). rewrite Z.land_ones by lia.
  change (Z.shiftl SEG_KCODE 3) with 8. cbn [pack off_15_0 gd_cs gd_args gd_rsv1 gd_type gd_s gd_dpl gd_p off_31_16]. unfold g_offset, g_selector, x_type, x_dpl, x_present, bits_at, is_u32 in *.
  rewrite (Z.mod_small dpl), (Z.mod_mod v), (Z.mod_small (v / 2 ^ 16)) by (try lia; change (2 ^ 16) with 65536; mlia).
  pose proof (Z.mod_pos_bound v 65536 ltac:(lia)) as H1. pose proof (Z.div_mod v 65536 ltac:(lia)) as H2. change (2 ^ 16) with 65536. set (lo := v mod 65536) in *. set (hi := v / 65536) in *.
  assert (H3 : 0 <= hi < 65536) by lia. replace (if istrap then STS_TG32 else STS_IG32) with (if istrap then 15 else 14) by done.
  split_and!; destruct istrap; cbn; mlia.
Qed.

Lemma tss_fields a : is_u32 a -> let w := segdesc_word (set_type 11 (set_s 0 (SEG16 STS_T32A a (sizeof_taskstate - 1) 0))) in
  x_base w = a /\ x_limit w = 103 /\ x_type w = 11 /\ x_present w = true.
Proof.
  intros Ha. unfold SEG16, segdesc_word, set_type, set_s. cbn [lim_15_0 base_15_0 base_23_16 sd_type sd_s sd_dpl sd_p lim_19_16 sd_avl sd_rsv1 sd_db sd_g base_31_24].
  rewrite !field_mod, (u32_id a), !Z.shiftr_div_pow2 by (done || lia). change 65535 with (Z.ones 16). change 255 with (Z.ones 8). rewrite !Z.land_ones by lia. unfold is_u32 in Ha.
  rewrite (Z.mod_mod a), (Z.mod_mod (a / 2 ^ 16)), (Z.mod_small (a / 2 ^ 24)) by (try lia; change (2 ^ 24) with 16777216; change (2 ^ 8) with 256; mlia).
  unfold x_base, x_limit, x_type, x_present, bits_at. cbn [pack]. change (2 ^ 16) with 65536. change (2 ^ 24) with 16777216. change (2 ^ 8) with 256.
  pose proof (Z.mod_pos_bound a 65536 ltac:(lia)) as H1. pose proof (Z.div_mod a 65536 ltac:(lia)) as H2. pose proof (Z.div_mod (a / 65536) 256 ltac:(lia)) as H3.
  pose proof (Z.mod_pos_bound (a / 65536) 256 ltac:(lia)) as H4. rewrite Z.div_div in H3 by lia. change (65536 * 256) with 16777216 in H3.
  set (b0 := a mod 65536) in *. set (b1 := (a / 65536) mod 256) in *. set (b2 := a / 16777216) in *. assert (H5 : 0 <= b2 < 256) by (clearbody b1; unfold b2; mlia).
  assert (H6 : a = b0 + 65536 * b1 + 16777216 * b2) by lia. clearbody b0 b1 b2. clear H2 H3. subst a.
  change (u32 (sizeof_taskstate - 1)) with 103. change (sizeof_taskstate - 1) with 103. change (103 / 65536) with 0. change (2 ^ 55) with 36028797018963968.
  split_and!; cbn; try mlia. rewrite (proj2 (Z.eqb_neq _ 1)) by mlia. mlia.
Qed.

Section Entry.
Context (cpus_addr idt_addr : Z) (vectors : list Z) (lapicid : nat -> Z) (n : nat).
Hypothesis Hcpus : 0 <= cpus_addr /\ cpus_addr + sizeof_cpu * Z.of_nat n <= 4294967296.
Hypothesis Hidt : 0 <= idt_addr < 4294967296.
Hypothesis Hid : forall i j, (i < n)%nat -> (j < n)%nat -> lapicid i = lapicid j -> i = j.

(** ** The state of the processors *)

(** Interrupts are off while the tables are loaded. *)
Definition sl_ok (m : machine) : Prop :=
  length (cpus m) = n /\ forall c x, cpus m !! c = Some x -> iflag x = false /\ 0 <= ncli x.

Record shape (h : hw) : Prop := {
  sh_sl : sl_ok (h_sl h);
  sh_cpus : length (h_cpus h) = n;
  sh_cpu : forall i x, h_cpus h !! i = Some x -> apicid x = lapicid i /\ length (gdt x) = 6%nat;
  sh_regs : length (h_regs h) = n;
  sh_idt : length (h_idt h) = 256%nat }.

Definition kcode : segdesc := SEG (Z.lor STA_X STA_R) 0 4294967295 0.
Definition kdata : segdesc := SEG STA_W 0 4294967295 0.
Definition ucode : segdesc := SEG (Z.lor STA_X STA_R) 0 4294967295 DPL_USER.
Definition udata : segdesc := SEG STA_W 0 4294967295 DPL_USER.
Definition tss (c : nat) : segdesc := set_s 0 (SEG16 STS_T32A (ts_addr cpus_addr c) (sizeof_taskstate - 1) 0).

Record flat (x : pcpu) : Prop := {
  fl_kcode : gdt x !! 1%nat = Some kcode; fl_kdata : gdt x !! 2%nat = Some kdata;
  fl_ucode : gdt x !! 3%nat = Some ucode; fl_udata : gdt x !! 4%nat = Some udata }.

Definition gate (i v : Z) : gatedesc :=
  if i =? T_SYSCALL then SETGATE true (Z.shiftl SEG_KCODE 3) v DPL_USER else SETGATE false (Z.shiftl SEG_KCODE 3) v 0.

Definition with_cpu (c : nat) (x : pcpu) (h : hw) : hw := mkHw (h_sl h) (<[c := x]> (h_cpus h)) (h_regs h) (h_idt h) (h_kpgdir h) (h_mem h).
Definition with_regs (c : nat) (r : regs) (h : hw) : hw := mkHw (h_sl h) (h_cpus h) (<[c := r]> (h_regs h)) (h_idt h) (h_kpgdir h) (h_mem h).
Definition with_sl (m : machine) (h : hw) : hw := mkHw m (h_cpus h) (h_regs h) (h_idt h) (h_kpgdir h) (h_mem h).
Definition with_idt (l : list gatedesc) (h : hw) : hw := mkHw (h_sl h) (h_cpus h) (h_regs h) l (h_kpgdir h) (h_mem h).

Lemma shape_cpu h c x : shape h -> apicid x = lapicid c -> length (gdt x) = 6%nat -> shape (with_cpu c x h).
Proof using.
  intros [S1 S2 S3 S4 S5] Ha Hl. split; cbn; try done; [by rewrite length_insert|]. intros i y [(-> & <- & _)|[_ Hi]]%list_lookup_insert_Some; [done|by apply S3].
Qed.

Lemma shape_regs h c r : shape h -> shape (with_regs c r h).
Proof using. intros [S1 S2 S3 S4 S5]. split; cbn; try done. by rewrite length_insert. Qed.

Lemma shape_sl h m : shape h -> sl_ok m -> shape (with_sl m h).
Proof using. by intros [S1 S2 S3 S4 S5]. Qed.

(** ** The operations *)

Lemma wp_mycpu h c (Q : nat -> hw -> Prop) : shape h -> (c < n)%nat -> Q c h -> wp (mycpu lapicid c) Q h.
Proof using Hid.
  intros [[S1 S1'] S2 S3 S4 S5] Hc HQ. unfold mycpu. apply wp_bind, wp_lift. destruct (lookup_lt_is_Some_2 (cpus (h_sl h)) c ltac:(lia)) as [x Hx].
  unfold get_cpu, wp. rewrite Hx. cbn. rewrite (proj1 (S1' _ _ Hx)). cbn. destruct (lookup_lt_is_Some_2 (h_cpus h) c ltac:(lia)) as [y Hy].
  assert (E : list_find (fun x => apicid x = lapicid c) (h_cpus h) = Some (c, y)).
  { apply list_find_Some. split; [done|]. split; [by apply S3|]. intros j z Hj Hlt E. assert (j = c); [|lia]. apply Hid; [lia|lia|]. rewrite <- E. symmetry. by apply S3. }
  rewrite E. by destruct h as [sl ? ? ? ? ?].
Qed.

Lemma wp_upd_cpu h c f x x' (Q : unit -> hw -> Prop) : h_cpus h !! c = Some x -> f x = Some x' -> Q tt (with_cpu c x' h) -> wp (upd_cpu c f) Q h.
Proof using. intros Hx Hf HQ. unfold upd_cpu, wp, bind, gets, from_opt, ret. rewrite Hx, Hf. done. Qed.

Lemma wp_upd_regs h c f r (Q : unit -> hw -> Prop) : h_regs h !! c = Some r -> Q tt (with_regs c (f r) h) -> wp (upd_regs c f) Q h.
Proof using. intros Hx HQ. unfold upd_regs, wp, bind, gets, from_opt, ret. rewrite Hx. done. Qed.

Lemma wp_set_seg h c k d x (Q : unit -> hw -> Prop) : h_cpus h !! c = Some x -> length (gdt x) = 6%nat -> 0 <= k < 6 ->
  Q tt (with_cpu c (mkPcpu (apicid x) (ts x) (<[Z.to_nat k := d]> (gdt x))) h) -> wp (set_seg c k d) Q h.
Proof using. intros Hx Hl Hk HQ. unfold set_seg. eapply wp_upd_cpu; [exact Hx| |exact HQ]. by rewrite zset_seg. Qed.

Lemma gdt_addr_range c : (c < n)%nat -> 0 <= gdt_addr cpus_addr c < 4294967296 /\ is_u32 (ts_addr cpus_addr c).
Proof using Hcpus. intros Hc. unfold gdt_addr, ts_addr, sizeof_cpu, off_gdt, off_ts, is_u32 in *. nia. Qed.

Lemma seginit_wp h c x r (Q : unit -> hw -> Prop) : shape h -> (c < n)%nat -> h_cpus h !! c = Some x -> h_regs h !! c = Some r ->
  (forall l, length l = 6%nat -> flat (mkPcpu (apicid x) (ts x) l) ->
     Q tt (with_regs c (mkRegs (gdt_addr cpus_addr c, 47) (r_idt r) (r_tr r) (r_cr3 r)) (with_cpu c (mkPcpu (apicid x) (ts x) l) h))) ->
  wp (seginit cpus_addr lapicid c) Q h.
Proof using Hid Hcpus.
  intros Hs Hc Hx Hr HQ. destruct (sh_cpu _ Hs _ _ Hx) as [Ha Hl]. pose proof (lookup_lt_Some _ _ _ Hx) as Hlt. unfold seginit, cpuid.
  apply wp_bind, wp_bind. apply wp_mycpu; [done|done|]. apply wp_ret. rewrite Nat2Z.id.
  apply wp_bind. eapply wp_set_seg; [exact Hx|done|done|]. apply wp_bind. eapply wp_set_seg; [by apply list_lookup_insert_eq|cbn; by rewrite length_insert|done|].
  apply wp_bind. eapply wp_set_seg; [apply list_lookup_insert_eq; cbn; by rewrite length_insert|cbn; by rewrite !length_insert|done|].
  apply wp_bind. eapply wp_set_seg; [apply list_lookup_insert_eq; cbn; by rewrite !length_insert|cbn; by rewrite !length_insert|done|].
  unfold lgdt. eapply wp_upd_regs; [exact Hr|]. rewrite pseudo_desc_eq by (done || by apply gdt_addr_range). cbn [apicid ts gdt].
  unfold with_cpu. cbn [h_cpus h_sl h_regs h_idt h_kpgdir h_mem]. rewrite !list_insert_insert_eq. apply HQ; [by rewrite !length_insert|].
  destruct (gdt x) as [|d0 [|d1 [|d2 [|d3 [|d4 [|d5 [|]]]]]]]; done.
Qed.

Hypothesis Hvec : length vectors = 256%nat /\ Forall is_u32 vectors.

Lemma wp_set_gate h i g (Q : unit -> hw -> Prop) : length (h_idt h) = 256%nat -> 0 <= i < 256 -> Q tt (with_idt (<[Z.to_nat i := g]> (h_idt h)) h) -> wp (set_gate i g) Q h.
Proof using.
  intros Hl Hi HQ. unfold set_gate, wp, bind, gets, zset. rewrite (proj2 (Z.leb_le 0 i)), (proj2 (Z.ltb_lt i _)) by (clear -Hl Hi; rewrite ?Hl; lia). done.
Qed.

Lemma tvinit_loop m : forall i h (Q : unit -> hw -> Prop), i + Z.of_nat m <= 256 -> 0 <= i -> length (h_idt h) = 256%nat ->
  (forall l, length l = 256%nat -> (forall j v, vectors !! j = Some v -> l !! j = if decide (i <= Z.of_nat j < i + Z.of_nat m) then Some (SETGATE false (Z.shiftl SEG_KCODE 3) v 0) else h_idt h !! j) ->
     Q tt (with_idt l h)) ->
  wp (for_each (seqZ i (Z.of_nat m)) (fun i => v <- from_opt (zget vectors i) ;; set_gate i (SETGATE false (Z.shiftl SEG_KCODE 3) v 0))) Q h.
Proof using Hvec n.
  induction m as [|m IH]; intros i h Q Hm Hi Hl HQ.
  - apply wp_ret. replace h with (with_idt (h_idt h) h) by (by destruct h). apply HQ; [done|]. intros j v _. by rewrite decide_False by lia.
  - rewrite seqZ_cons by lia. cbn [for_each]. destruct (zget_is_Some vectors i) as [v Hv]; [unfold zlen; lia|]. apply wp_bind, wp_bind.
    eapply wp_from_opt; [exact Hv|]. apply wp_set_gate; [done|lia|]. replace (Z.pred (Z.of_nat (S m))) with (Z.of_nat m) by lia.
    apply IH; [lia|lia|cbn; by rewrite length_insert|]. intros l Hll Hlk. apply (HQ l Hll). intros j w Hw. rewrite (Hlk j w Hw). cbn [with_idt h_idt].
    destruct (decide (Z.of_nat j = i)) as [<-|Hne].
    + rewrite decide_False, decide_True by lia. rewrite Nat2Z.id, list_lookup_insert_eq by (apply lookup_lt_Some in Hw; lia). rewrite zget_nat in Hv. congruence.
    + rewrite list_lookup_insert_ne by lia. destruct (decide (Z.succ i <= _ < _)), (decide (i <= _ < _)); try done; lia.
Qed.

Lemma tvinit_wp h (Q : unit -> hw -> Prop) : shape h -> (forall l, length l = 256%nat -> (forall j v, vectors !! j = Some v -> l !! j = Some (gate (Z.of_nat j) v)) -> Q tt (with_idt l h)) ->
  wp (tvinit vectors) Q h.
Proof using Hvec n.
  intros Hs HQ. unfold tvinit. apply wp_bind. apply (tvinit_loop 256 0); [lia|lia|apply Hs|]. intros l Hl Hlk.
  destruct (zget_is_Some vectors T_SYSCALL) as [v Hv]; [unfold zlen; rewrite (proj1 Hvec); done|]. apply wp_bind. eapply wp_from_opt; [exact Hv|].
  apply wp_set_gate; [done|done|]. cbn [with_idt h_idt]. apply HQ; [by rewrite length_insert|]. intros j w Hw. unfold gate. destruct (Z.eqb_spec (Z.of_nat j) T_SYSCALL) as [E|Hne].
  - rewrite <- E, Nat2Z.id, list_lookup_insert_eq by (apply lookup_lt_Some in Hw; lia). rewrite <- E, zget_nat in Hv. congruence.
  - rewrite list_lookup_insert_ne by (unfold T_SYSCALL in *; lia). rewrite (Hlk j w Hw). apply lookup_lt_Some in Hw. by rewrite decide_True by lia.
Qed.

Lemma idtinit_wp h c r (Q : unit -> hw -> Prop) : h_regs h !! c = Some r -> Q tt (with_regs c (mkRegs (r_gdt r) (idt_addr, 2047) (r_tr r) (r_cr3 r)) h) -> wp (idtinit idt_addr c) Q h.
Proof using Hidt. intros Hr HQ. unfold idtinit, lidt. eapply wp_upd_regs; [exact Hr|]. by rewrite pseudo_desc_eq by (done || lia). Qed.

(** Between [pushcli] and [popcli]. *)
Definition pushed (c : nat) (m : machine) : Prop := forall x, cpus m !! c = Some x -> 1 < ncli x \/ ncli x = 1 /\ intena x = false.

Lemma pushcli_wp h c (Q : unit -> hw -> Prop) : shape h -> (c < n)%nat -> (forall m, sl_ok m -> pushed c m -> Q tt (with_sl m h)) -> wp (on_sl (pushcli c)) Q h.
Proof using.
  intros [[S1 S1'] _ _ _ _] Hc HQ. apply wp_lift. destruct (lookup_lt_is_Some_2 (cpus (h_sl h)) c) as [x Hx]; [by rewrite S1|]. unfold pushcli, wp, bind, get_cpu. rewrite Hx. cbn.
  pose proof (S1' _ _ Hx) as [Hf Hn]. apply HQ; [split; [cbn; by rewrite length_insert|]|]; cbn.
  - intros i y [(-> & <- & _)|[_ Hi]]%list_lookup_insert_Some; [cbn; clear -Hn; lia|by eapply S1'].
  - intros y [(_ & <- & _)|[Hne _]]%list_lookup_insert_Some; [|done]. cbn. rewrite Hf. clear -Hn. destruct (Z.eqb_spec (ncli x) 0); [right|left]; lia || (split; [lia|done]).
Qed.

Lemma popcli_wp h c (Q : unit -> hw -> Prop) : shape h -> (c < n)%nat -> pushed c (h_sl h) -> (forall m, sl_ok m -> Q tt (with_sl m h)) -> wp (on_sl (popcli c)) Q h.
Proof using.
  intros [[S1 S1'] _ _ _ _] Hc Hpos HQ. apply wp_lift. destruct (lookup_lt_is_Some_2 (cpus (h_sl h)) c) as [x Hx]; [by rewrite S1|]. pose proof (Hpos _ Hx) as Hp.
  unfold popcli, wp, bind, get_cpu. rewrite Hx. cbn. pose proof (S1' _ _ Hx) as [Hf Hn]. rewrite Hf, (proj2 (Z.ltb_ge (ncli x - 1) 0)) by (clear -Hp; lia). cbn. apply HQ.
  split; [cbn; by rewrite length_insert|]. cbn. intros i y [(-> & <- & _)|[_ Hi]]%list_lookup_insert_Some; [|by eapply S1']. cbn. split; [|clear -Hp; lia].
  destruct Hp as [Hp|[_ ->]]; [|apply andb_false_r]. by rewrite (proj2 (Z.eqb_neq (ncli x - 1) 0)) by (clear -Hp; lia).
Qed.

Lemma wp_ltr h c x r d (Q : unit -> hw -> Prop) : h_cpus h !! c = Some x -> length (gdt x) = 6%nat -> h_regs h !! c = Some r -> fst (r_gdt r) = gdt_addr cpus_addr c ->
  gdt x !! 5%nat = Some d -> sd_s d = 0 -> sd_type d = STS_T32A -> sd_p d = 1 ->
  Q tt (with_regs c (mkRegs (r_gdt r) (r_idt r) 40 (r_cr3 r)) (with_cpu c (mkPcpu (apicid x) (ts x) (<[5%nat := set_type 11 d]> (gdt x))) h)) ->
  wp (ltr cpus_addr c 40) Q h.
Proof using.
  intros Hx Hl Hr Hg Hd D1 D2 D3 HQ. unfold ltr. apply wp_bind, wp_gets, wp_bind. eapply wp_from_opt; [exact Hr|]. apply wp_bind.
  eapply wp_from_opt; [rewrite Hg; exact (seg_at_gdt cpus_addr c 5 ltac:(clear; lia))|]. cbn beta iota. apply wp_bind, wp_gets, wp_bind. eapply wp_from_opt; [exact Hx|].
  apply wp_bind. eapply wp_from_opt; [exact Hd|]. rewrite D1, D2, D3. apply wp_bind. eapply wp_set_seg; [exact Hx|exact Hl|done|]. eapply wp_upd_regs; [exact Hr|]. exact HQ.
Qed.

Definition task_of (p : proc) : taskstate := mkTs (u32 (p_kstack p + KSTACKSIZE)) 16 65535.

Lemma switchuvm_wp h c p x r (Q : unit -> hw -> Prop) : shape h -> (c < n)%nat -> p_kstack p ≠ 0 -> p_pgdir p ≠ 0 -> h_cpus h !! c = Some x -> h_regs h !! c = Some r ->
  fst (r_gdt r) = gdt_addr cpus_addr c ->
  (forall m, sl_ok m -> Q tt (with_sl m (with_regs c (mkRegs (r_gdt r) (r_idt r) 40 (V2P (p_pgdir p)))
     (with_cpu c (mkPcpu (apicid x) (task_of p) (<[5%nat := set_type 11 (tss c)]> (gdt x))) h)))) ->
  wp (switchuvm cpus_addr lapicid c (Some p)) Q h.
Proof using Hid.
  intros Hs Hc Hk Hp Hx Hr Hg HQ. destruct (sh_cpu _ Hs _ _ Hx) as [Ha Hl]. assert (Hlt : (c < length (h_cpus h))%nat) by (by eapply lookup_lt_Some).
  assert (Hlt' : (c < length (h_regs h))%nat) by (by eapply lookup_lt_Some). unfold switchuvm.
  rewrite (proj2 (Z.eqb_neq _ _) Hk), (proj2 (Z.eqb_neq _ _) Hp). apply wp_bind. apply pushcli_wp; [done|done|]. intros m Hm Hpu. set (h1 := with_sl m h).
  assert (Hs1 : forall y, apicid y = lapicid c -> length (gdt y) = 6%nat -> shape (with_cpu c y h1)) by (intros y Hy Hy'; apply shape_cpu; [by apply shape_sl|done|done]).
  assert (Hat : forall y, h_cpus (with_cpu c y h1) !! c = Some y) by (intros y; by apply list_lookup_insert_eq).
  assert (Hin : forall y z, with_cpu c z (with_cpu c y h1) = with_cpu c z h1) by (intros y z; unfold with_cpu; cbn [h_cpus h_sl h_regs h_idt h_kpgdir h_mem]; by rewrite list_insert_insert_eq).
  apply wp_bind. apply wp_mycpu; [by apply shape_sl|done|]. apply wp_bind. eapply wp_set_seg; [exact Hx|done|done|].
  assert (Hlen : forall d, length (<[5%nat := d]> (gdt x)) = 6%nat) by (intros d; by rewrite length_insert).
  assert (H5 : forall d, <[5%nat := d]> (gdt x) !! 5%nat = Some d) by (intros d; apply list_lookup_insert_eq; rewrite Hl; clear; lia).
  change (Z.to_nat SEG_TSS) with 5%nat. change (Z.shiftl SEG_TSS 3) with 40.
  apply wp_bind. apply wp_mycpu; [apply Hs1; [exact Ha|apply Hlen]|done|]. apply wp_bind. eapply wp_upd_cpu; [apply Hat| |].
  { cbn [gdt]. unfold zget. cbn. rewrite H5. cbn. rewrite zset_seg by (apply Hlen || done). reflexivity. }
  rewrite Hin. cbn [apicid ts gdt]. change (Z.to_nat SEG_TSS) with 5%nat. rewrite list_insert_insert_eq.
  apply wp_bind. apply wp_mycpu; [apply Hs1; [exact Ha|apply Hlen]|done|]. apply wp_bind. eapply wp_upd_cpu; [apply Hat|reflexivity|]. rewrite Hin. cbn [apicid ts gdt].
  apply wp_bind. apply wp_mycpu; [apply Hs1; [exact Ha|apply Hlen]|done|]. apply wp_bind. eapply wp_upd_cpu; [apply Hat|reflexivity|]. rewrite Hin. cbn [apicid ts gdt].
  apply wp_bind. apply wp_mycpu; [apply Hs1; [exact Ha|apply Hlen]|done|]. apply wp_bind. eapply wp_upd_cpu; [apply Hat|reflexivity|]. rewrite Hin. cbn [apicid ts gdt esp0 ss0 iomb].
  fold (tss c). apply wp_bind. eapply wp_ltr; [apply Hat|apply Hlen|exact Hr|exact Hg|apply H5|done|done|done|]. rewrite Hin. cbn [apicid ts gdt]. rewrite list_insert_insert_eq.
  apply wp_bind. eapply wp_upd_regs; [by apply list_lookup_insert_eq|]. cbn [r_gdt r_idt r_tr]. unfold with_regs at 1. cbn [with_regs h_cpus h_sl h_regs h_idt h_kpgdir h_mem with_cpu]. rewrite list_insert_insert_eq.
  apply popcli_wp; [|done|exact Hpu|intros m' Hm'; by apply HQ]. apply (shape_regs (with_cpu c _ h1)). apply Hs1; [exact Ha|apply Hlen].
Qed.

(** ** The tables after any run *)

(** What the schedulers then do: run a process, or leave it. *)
Inductive seg_op := RunProc (c : nat) (p : proc) | LeaveProc (c : nat).
Definition run_op (o : seg_op) : M hw unit :=
  match o with RunProc c p => switchuvm cpus_addr lapicid c (Some p) | LeaveProc c => switchkvm c end.
Definition op_ok (o : seg_op) : Prop :=
  match o with RunProc c p => (c < n)%nat /\ p_kstack p ≠ 0 /\ p_pgdir p ≠ 0 | LeaveProc c => (c < n)%nat end.

(** The process a processor ran last. *)
Definition step_last (f : nat -> option proc) (o : seg_op) (c : nat) : option proc :=
  match o with RunProc c' p => if decide (c = c') then Some p else f c | LeaveProc _ => f c end.
Definition last_proc (ops : list seg_op) : nat -> option proc := foldl step_last (fun _ => None) ops.

(** The processors of [A] have their segments, those of [B] the interrupt table, and
    [f] gives the process whose task-state segment is loaded. *)
Record ready (A B : nat -> Prop) (f : nat -> option proc) (h : hw) : Prop := {
  rd_shape : shape h;
  rd_segs : forall c x r, A c -> h_cpus h !! c = Some x -> h_regs h !! c = Some r -> flat x /\ r_gdt r = (gdt_addr cpus_addr c, 47);
  rd_idt : forall c r, B c -> h_regs h !! c = Some r -> r_idt r = (idt_addr, 2047);
  rd_task : forall c x r p, f c = Some p -> h_cpus h !! c = Some x -> h_regs h !! c = Some r ->
    r_tr r = 40 /\ gdt x !! 5%nat = Some (set_type 11 (tss c)) /\ ts x = task_of p }.

Definition gates (h : hw) : Prop := forall j v, vectors !! j = Some v -> h_idt h !! j = Some (gate (Z.of_nat j) v).

Lemma ready_cpu A B f h c : ready A B f h -> (c < n)%nat -> exists x r, h_cpus h !! c = Some x /\ h_regs h !! c = Some r.
Proof using.
  intros [[_ S2 _ S4 _] _ _ _] Hc. destruct (lookup_lt_is_Some_2 (h_cpus h) c) as [x Hx]; [by rewrite S2|]. destruct (lookup_lt_is_Some_2 (h_regs h) c) as [r Hr]; [by rewrite S4|]. eauto.
Qed.

Lemma seginit_ready A B h c (Q : unit -> hw -> Prop) : ready A B (fun _ => None) h -> (c < n)%nat ->
  (forall h', ready (fun i => i = c \/ A i) B (fun _ => None) h' -> h_idt h' = h_idt h -> Q tt h') -> wp (seginit cpus_addr lapicid c) Q h.
Proof using Hid Hcpus.
  intros HR Hc HQ. destruct (ready_cpu _ _ _ _ _ HR Hc) as (x & r & Hx & Hr). destruct HR as [R1 R2 R3 _]. destruct (sh_cpu _ R1 _ _ Hx) as [Ha _].
  eapply seginit_wp; [exact R1|exact Hc|exact Hx|exact Hr|]. intros l Hl Hf. apply HQ; [|done]. split; cbn [with_regs with_cpu h_cpus h_regs]; [|..|done].
  - by apply shape_regs, shape_cpu.
  - intros i y q Hi [(-> & <- & _)|[Hne Hy]]%list_lookup_insert_Some [(E & <- & _)|[Hne' Hq]]%list_lookup_insert_Some; try done. destruct Hi as [->|Hi]; [done|by apply (R2 i)].
  - intros i q Hi [(-> & <- & _)|[_ Hq]]%list_lookup_insert_Some; [by apply (R3 i r)|by apply (R3 i q)].
Qed.

Lemma idtinit_ready A B f h c (Q : unit -> hw -> Prop) : ready A B f h -> (c < n)%nat ->
  (forall h', ready A (fun i => i = c \/ B i) f h' -> h_idt h' = h_idt h -> Q tt h') -> wp (idtinit idt_addr c) Q h.
Proof using Hidt.
  intros HR Hc HQ. destruct (ready_cpu _ _ _ _ _ HR Hc) as (x & r & Hx & Hr). destruct HR as [R1 R2 R3 R4].
  eapply idtinit_wp; [exact Hr|]. apply HQ; [|done]. split; cbn [with_regs h_cpus h_regs].
  - by apply shape_regs.
  - intros i y q Hi Hy [(-> & <- & _)|[Hne Hq]]%list_lookup_insert_Some; [by apply (R2 i y r)|by apply (R2 i)].
  - intros i q Hi [(-> & <- & _)|[Hne Hq]]%list_lookup_insert_Some; [done|]. destruct Hi as [->|Hi]; [done|by apply (R3 i)].
  - intros i y q p Hf Hy [(-> & <- & _)|[Hne Hq]]%list_lookup_insert_Some; [by apply (R4 i y r)|by apply (R4 i)].
Qed.

Lemma switchkvm_ready A B f h c (Q : unit -> hw -> Prop) : ready A B f h -> (c < n)%nat ->
  (forall h', ready A B f h' -> h_idt h' = h_idt h -> Q tt h') -> wp (switchkvm c) Q h.
Proof using.
  intros HR Hc HQ. destruct (ready_cpu _ _ _ _ _ HR Hc) as (x & r & Hx & Hr). destruct HR as [R1 R2 R3 R4]. unfold switchkvm. apply wp_bind, wp_gets.
  eapply wp_upd_regs; [exact Hr|]. apply HQ; [|done]. split; cbn [with_regs h_cpus h_regs].
  - by apply shape_regs.
  - intros i y q Hi Hy [(-> & <- & _)|[Hne Hq]]%list_lookup_insert_Some; [by apply (R2 i y r)|by apply (R2 i)].
  - intros i q Hi [(-> & <- & _)|[Hne Hq]]%list_lookup_insert_Some; [by apply (R3 i r)|by apply (R3 i)].
  - intros i y q p Hf Hy [(-> & <- & _)|[Hne Hq]]%list_lookup_insert_Some; [by apply (R4 i y r)|by apply (R4 i)].
Qed.

Lemma switchuvm_ready B f h c p (Q : unit -> hw -> Prop) : ready (fun _ => True) B f h -> op_ok (RunProc c p) ->
  (forall h', ready (fun _ => True) B (step_last f (RunProc c p)) h' -> h_idt h' = h_idt h -> Q tt h') -> wp (switchuvm cpus_addr lapicid c (Some p)) Q h.
Proof using Hid.
  intros HR (Hc & Hk & Hp) HQ. destruct (ready_cpu _ _ _ _ _ HR Hc) as (x & r & Hx & Hr). destruct HR as [R1 R2 R3 R4]. destruct (sh_cpu _ R1 _ _ Hx) as [Ha Hl].
  destruct (R2 c x r I Hx Hr) as [Hf Hg]. eapply switchuvm_wp; [exact R1|exact Hc|exact Hk|exact Hp|exact Hx|exact Hr|by rewrite Hg|]. intros m Hm. apply HQ; [|done].
  split; cbn [with_sl with_regs with_cpu h_cpus h_regs].
  - apply shape_sl; [|done]. apply shape_regs, shape_cpu; [done|done|]. cbn. by rewrite length_insert.
  - intros i y q _ [(-> & <- & _)|[Hne Hy]]%list_lookup_insert_Some [(E & <- & _)|[Hne' Hq]]%list_lookup_insert_Some; try done; [|by apply (R2 i)].
    split; [|done]. destruct Hf as [F1 F2 F3 F4]. split; cbn; by rewrite list_lookup_insert_ne.
  - intros i q Hi [(-> & <- & _)|[Hne Hq]]%list_lookup_insert_Some; [by apply (R3 i r)|by apply (R3 i)].
  - intros i y q p' Hl' [(-> & <- & _)|[Hne Hy]]%list_lookup_insert_Some [(E & <- & _)|[Hne' Hq]]%list_lookup_insert_Some; try done; cbn [step_last] in Hl'.
    + rewrite decide_True in Hl' by done. injection Hl' as <-. split; [done|]. split; [|done]. cbn. apply list_lookup_insert_eq. rewrite Hl. clear. lia.
    + rewrite decide_False in Hl' by done. by apply (R4 i y q).
Qed.

Lemma ops_ready B ops : forall f h (Q : unit -> hw -> Prop), Forall op_ok ops -> ready (fun _ => True) B f h ->
  (forall h', ready (fun _ => True) B (foldl step_last f ops) h' -> h_idt h' = h_idt h -> Q tt h') -> wp (for_each ops run_op) Q h.
Proof using Hid.
  induction ops as [|o ops IH]; intros f h Q Hok HR HQ; [by apply wp_ret, HQ|]. apply Forall_cons_1 in Hok as [Ho Hok]. cbn [for_each]. apply wp_bind. destruct o as [c p|c]; cbn [run_op].
  - eapply switchuvm_ready; [exact HR|exact Ho|]. intros h1 HR1 E1. eapply IH; [done|exact HR1|]. intros h' HR' E'. apply HQ; [done|by rewrite E'].
  - eapply switchkvm_ready; [exact HR|exact Ho|]. intros h1 HR1 E1. eapply IH; [done|exact HR1|]. intros h' HR' E'. apply HQ; [done|by rewrite E'].
Qed.

Lemma ready_sub (A A' B B' : nat -> Prop) f h : ready A B f h -> (forall c, (c < n)%nat -> A' c -> A c) -> (forall c, (c < n)%nat -> B' c -> B c) -> ready A' B' f h.
Proof using.
  intros [R1 R2 R3 R4] HA HB. split; [done| | |done].
  - intros c x r Hc Hx Hr. apply (R2 c); [|done|done]. apply HA; [|done]. rewrite <- (sh_regs _ R1). by eapply lookup_lt_Some.
  - intros c r Hc Hr. apply (R3 c); [|done]. apply HB; [|done]. rewrite <- (sh_regs _ R1). by eapply lookup_lt_Some.
Qed.

Lemma others_ready m : forall i h (Q : unit -> hw -> Prop), (i + m <= n)%nat -> ready (fun c => (c < i)%nat) (fun c => (1 <= c < i)%nat) (fun _ => None) h ->
  (forall h', ready (fun c => (c < i + m)%nat) (fun c => (1 <= c < i + m)%nat) (fun _ => None) h' -> h_idt h' = h_idt h -> Q tt h') ->
  wp (for_each (seq i m) (mpenter cpus_addr idt_addr lapicid)) Q h.
Proof using Hid Hcpus Hidt Hvec.
  induction m as [|m IH]; intros i h Q Hm HR HQ.
  - apply wp_ret. rewrite Nat.add_0_r in HQ. by apply HQ.
  - cbn [seq for_each]. apply wp_bind. unfold mpenter. apply wp_bind. eapply switchkvm_ready; [exact HR|lia|]. intros h1 HR1 E1. apply wp_bind. eapply seginit_ready; [exact HR1|lia|].
    intros h2 HR2 E2. eapply idtinit_ready; [exact HR2|lia|]. intros h3 HR3 E3. eapply (IH (S i)); [lia| |].
    + eapply ready_sub; [exact HR3| |]; cbn beta; intros c _; lia.
    + intros h' HR' E'. apply HQ; [eapply ready_sub; [exact HR'| |]; cbn beta; intros c _; lia|]. congruence.
Qed.

Lemma start_ready h (Q : unit -> hw -> Prop) : shape h -> (0 < n)%nat ->
  (forall h', ready (fun _ => True) (fun _ => True) (fun _ => None) h' -> gates h' -> Q tt h') -> wp (start_cpus cpus_addr idt_addr vectors lapicid n) Q h.
Proof using Hid Hcpus Hidt Hvec.
  intros Hs Hn HQ. assert (HR : ready (fun _ => False) (fun _ => False) (fun _ => None) h) by done. unfold start_cpus. apply wp_bind. eapply seginit_ready; [exact HR|lia|].
  intros h1 HR1 _. apply wp_bind, tvinit_wp; [apply HR1|]. intros l Hl Hg. apply wp_bind. eapply (others_ready (n - 1) 1); [lia| |].
  - destruct HR1 as [[S1 S2 S3 S4 S5] R2 R3 R4]. split; [by split| |by intros c r ?; lia|done]. intros c x r Hc. apply (R2 c). lia.
  - intros h2 HR2 E2. eapply idtinit_ready; [exact HR2|lia|]. intros h3 HR3 E3. apply HQ.
    + eapply ready_sub; [exact HR3| |]; cbn beta; intros c ? _; lia.
    + intros j v Hv. rewrite E3, E2. by apply Hg.
Qed.

(** ** What the processor reads *)

Lemma tss_word c : (c < n)%nat -> let w := segdesc_word (set_type 11 (tss c)) in x_base w = ts_addr cpus_addr c /\ x_limit w = 103 /\ x_type w = 11 /\ x_present w = true.
Proof using Hcpus.
  intros Hc. apply tss_fields. by apply gdt_addr_range.
Qed.

Section Ready.
Context (f : nat -> option proc) (h : hw) (c : nat) (p : proc) (x : pcpu) (r : regs).
Hypothesis HR : ready (fun _ => True) (fun _ => True) f h.
Hypothesis Hgates : gates h.
Hypothesis Hp : f c = Some p.
Hypothesis Hc : (c < n)%nat.
Hypothesis Hx : h_cpus h !! c = Some x.
Hypothesis Hr : h_regs h !! c = Some r.

Lemma sel_word k rpl : 1 <= k < 6 -> 0 <= rpl < 4 -> x_select cpus_addr h r (8 * k + rpl) = segdesc_word <$> gdt x !! Z.to_nat k.
Proof using HR Hx Hr.
  intros Hk Hrpl. destruct (rd_segs _ _ _ _ HR c x r I Hx Hr) as [_ Hg]. unfold x_select. rewrite Hg. cbn [fst snd].
  assert (E : (8 * k + rpl) / 8 = k) by (clear -Hk Hrpl; mlia). rewrite E. rewrite (proj2 (Z.eqb_neq k 0)), (proj2 (Z.ltb_ge 47 _)) by (clear -Hk; lia). cbn [orb].
  rewrite seg_at_gdt by (clear -Hk; lia). cbn. rewrite Hx. cbn. unfold zget. rewrite (proj2 (Z.leb_le 0 k)) by (clear -Hk; lia). by destruct (gdt x !! Z.to_nat k).
Qed.

Lemma sel_flat : x_select cpus_addr h r 8 = Some (segdesc_word kcode) /\ x_select cpus_addr h r 16 = Some (segdesc_word kdata)
  /\ x_select cpus_addr h r 40 = Some (segdesc_word (set_type 11 (tss c))).
Proof using HR Hx Hr Hp.
  destruct (rd_segs _ _ _ _ HR c x r I Hx Hr) as [[F1 F2 F3 F4] _]. destruct (rd_task _ _ _ _ HR c x r p Hp Hx Hr) as (_ & T & _).
  split_and!; [etrans; [exact (sel_word 1 0 ltac:(clear; lia) ltac:(clear; lia))|]|etrans; [exact (sel_word 2 0 ltac:(clear; lia) ltac:(clear; lia))|]|etrans; [exact (sel_word 5 0 ltac:(clear; lia) ltac:(clear; lia))|]].
  - change (Z.to_nat 1) with 1%nat. by rewrite F1.
  - change (Z.to_nat 2) with 2%nat. by rewrite F2.
  - change (Z.to_nat 5) with 5%nat. by rewrite T.
Qed.

Lemma task_word : x_task cpus_addr h r = Some (task_of p, 103).
Proof using HR Hx Hr Hp Hc Hcpus.
  destruct (rd_task _ _ _ _ HR c x r p Hp Hx Hr) as (T1 & T2 & T3). destruct (tss_word c Hc) as (W1 & W2 & W3 & W4). unfold x_task. rewrite T1. destruct sel_flat as (_ & _ & ->).
  cbn [mbind option_bind]. rewrite W1, W2, W3, W4. unfold ts_addr. assert (E : cpus_addr + sizeof_cpu * Z.of_nat c + off_ts - cpus_addr = 8 + Z.of_nat c * 176) by (unfold sizeof_cpu, off_ts; clear; lia).
  rewrite E. change sizeof_cpu with 176. rewrite Z.mod_add, Z.div_add by done. change (8 mod 176) with 8. change (8 / 176) with 0. cbn [Z.eqb off_ts andb Pos.eqb]. rewrite Z.add_0_l, Nat2Z.id, Hx. cbn. by rewrite T3.
Qed.

Lemma stack_word : x_stack cpus_addr h r = Some (16, u32 (p_kstack p + KSTACKSIZE)).
Proof using HR Hx Hr Hp Hc Hcpus. unfold x_stack. rewrite task_word. cbn [mbind option_bind task_of ss0 esp0]. destruct sel_flat as (_ & -> & _). reflexivity. Qed.

Lemma gate_word v vec : vectors !! v = Some vec -> is_u32 vec /\ x_gate idt_addr h r (Z.of_nat v) = Some (gatedesc_word (gate (Z.of_nat v) vec)).
Proof using HR Hr Hgates Hvec.
  intros Hv. split; [by apply (Forall_lookup_1 _ _ _ _ (proj2 Hvec) Hv)|]. unfold x_gate. rewrite (rd_idt _ _ _ _ HR c r I Hr). cbn [fst snd].
  assert (Hlt : Z.of_nat v < 256) by (apply lookup_lt_Some in Hv; clear -Hv Hvec; lia). rewrite (proj2 (Z.ltb_ge 2047 _)) by (clear -Hlt; lia).
  replace (idt_addr + 8 * Z.of_nat v - idt_addr) with (Z.of_nat v * 8) by (clear; lia). rewrite Z.mod_mul, Z.div_mul, zget_nat, (Hgates _ _ Hv) by done. done.
Qed.

(** An interrupt enters the kernel: by a gate from user mode only if it is that of the
    system calls. *)
Lemma deliver_user v vec soft : vectors !! v = Some vec ->
  deliver cpus_addr idt_addr h r (Z.of_nat v) soft 3 =
    if soft && negb (Z.of_nat v =? T_SYSCALL) then Fault 13
    else Enter (mkEntry 8 vec 0 (Some (16, u32 (p_kstack p + KSTACKSIZE))) (Z.of_nat v =? T_SYSCALL)).
Proof using HR Hx Hr Hp Hc Hcpus Hgates Hvec.
  intros Hv. destruct (gate_word v vec Hv) as [Hu Hg]. unfold deliver. rewrite Hg, stack_word. unfold gate.
  destruct (Z.of_nat v =? T_SYSCALL).
  - destruct (gate_fields true vec DPL_USER Hu) as (-> & -> & -> & -> & ->); [by unfold DPL_USER|]. destruct sel_flat as (-> & _). rewrite andb_false_r. cbn -[x_limit Z.ltb].
    change (x_limit _) with 4294967295. rewrite (proj2 (Z.ltb_ge 4294967295 vec)) by (unfold is_u32 in Hu; clear -Hu; lia). by destruct soft.
  - destruct (gate_fields false vec 0 Hu) as (-> & -> & -> & -> & ->); [done|]. destruct sel_flat as (-> & _). destruct soft; [done|]. cbn -[x_limit Z.ltb].
    change (x_limit _) with 4294967295. by rewrite (proj2 (Z.ltb_ge 4294967295 vec)) by (unfold is_u32 in Hu; clear -Hu; lia).
Qed.

Lemma deliver_kernel v vec : vectors !! v = Some vec -> deliver cpus_addr idt_addr h r (Z.of_nat v) false 0 = Enter (mkEntry 8 vec 0 None (Z.of_nat v =? T_SYSCALL)).
Proof using HR Hx Hr Hp Hgates Hvec.
  intros Hv. destruct (gate_word v vec Hv) as [Hu Hg]. unfold deliver. rewrite Hg. unfold gate. destruct (Z.of_nat v =? T_SYSCALL).
  - destruct (gate_fields true vec DPL_USER Hu) as (-> & -> & -> & -> & ->); [by unfold DPL_USER|]. destruct sel_flat as (-> & _). cbn -[x_limit Z.ltb].
    change (x_limit _) with 4294967295. by rewrite (proj2 (Z.ltb_ge 4294967295 vec)) by (unfold is_u32 in Hu; clear -Hu; lia).
  - destruct (gate_fields false vec 0 Hu) as (-> & -> & -> & -> & ->); [done|]. destruct sel_flat as (-> & _). cbn -[x_limit Z.ltb].
    change (x_limit _) with 4294967295. by rewrite (proj2 (Z.ltb_ge 4294967295 vec)) by (unfold is_u32 in Hu; clear -Hu; lia).
Qed.

Lemma no_ports port : 0 <= port -> port_in_map cpus_addr h r port = false.
Proof using HR Hx Hr Hp Hc Hcpus. intros H0. unfold port_in_map. rewrite task_word. cbn [task_of iomb]. apply Z.leb_gt. clear -H0. mlia. Qed.

(** The segments: flat, and the kernel's out of reach of user mode. *)
Lemma user_segments k rpl off : 1 <= k < 5 -> 0 <= rpl < 4 -> is_u32 off -> let sel := 8 * k + rpl in
  linear cpus_addr h r sel off = Some off /\ loads_data cpus_addr h r 3 sel = (3 <=? k) /\ jumps cpus_addr h r 3 sel = (k =? 3).
Proof using HR Hx Hr.
  intros Hk Hrpl Hoff sel. destruct (rd_segs _ _ _ _ HR c x r I Hx Hr) as [[F1 F2 F3 F4] _].
  assert (Hm : sel mod 4 = rpl) by (unfold sel; clear -Hrpl; mlia). assert (Hmax : Z.max 3 rpl = 3) by (clear -Hrpl; lia).
  assert (Hl : (4294967295 <? off) = false) by (apply Z.ltb_ge; unfold is_u32 in Hoff; clear -Hoff; lia).
  assert (Hw : exists d, x_select cpus_addr h r sel = Some (segdesc_word d) /\ d = nth (Z.to_nat k) [kcode; kcode; kdata; ucode; udata] kcode).
  { unfold sel. rewrite (sel_word k rpl) by (done || (clear -Hk; lia)). assert (Hc4 : k = 1 \/ k = 2 \/ k = 3 \/ k = 4) by (clear -Hk; lia). destruct Hc4 as [->|[->|[->| ->]]];
      [change (Z.to_nat 1) with 1%nat; rewrite F1|change (Z.to_nat 2) with 2%nat; rewrite F2|change (Z.to_nat 3) with 3%nat; rewrite F3|change (Z.to_nat 4) with 4%nat; rewrite F4]; eauto. }
  destruct Hw as (d & Hs & ->). unfold linear, loads_data, jumps. rewrite Hs, Hm, Hmax. cbn [mbind option_bind].
  assert (Hc4 : k = 1 \/ k = 2 \/ k = 3 \/ k = 4) by (clear -Hk; lia).
  destruct Hc4 as [->|[->|[->| ->]]]; (split_and!; [change (x_limit _) with 4294967295; change (x_base _) with 0; rewrite Hl, Z.add_0_l, u32_id by done; done|reflexivity|]).
  all: cbn -[Z.leb]; try reflexivity; rewrite (proj2 (Z.leb_le rpl 3)) by (clear -Hrpl; lia); reflexivity.
Qed.

Lemma other_segments k rpl : 0 <= k -> ~ 1 <= k < 5 -> 0 <= rpl < 4 -> let sel := 8 * k + rpl in
  loads_data cpus_addr h r 3 sel = false /\ jumps cpus_addr h r 3 sel = false.
Proof using HR Hx Hr Hp Hc Hcpus.
  intros Hk Hn Hrpl sel. destruct (rd_segs _ _ _ _ HR c x r I Hx Hr) as [_ Hg]. destruct (decide (k = 5)) as [->|Hne].
  - assert (Hs : x_select cpus_addr h r sel = Some (segdesc_word (set_type 11 (tss c)))).
    { destruct (rd_task _ _ _ _ HR c x r p Hp Hx Hr) as (_ & T & _). unfold sel. rewrite sel_word by (done || (clear; lia)). change (Z.to_nat 5) with 5%nat. by rewrite T. }
    unfold loads_data, jumps. rewrite Hs. destruct (tss_word c Hc) as (_ & _ & W3 & W4). rewrite W3, W4. split; [done|].
    assert (Hcode : x_code (segdesc_word (set_type 11 (tss c))) = false).
    { unfold x_type, x_code, bits_at in *. apply Z.eqb_neq. set (w := segdesc_word _) in *. clearbody w. clear -W3. replace (2 ^ 43) with (2 ^ 40 * 8) by done. rewrite <- Z.div_div by done.
      change (2 ^ 5) with 32 in W3. change (2 ^ 2) with 4. mlia. }
    by rewrite Hcode, andb_false_r.
  - assert (Hs : x_select cpus_addr h r sel = None).
    { unfold x_select. rewrite Hg. cbn [snd]. assert (E : sel / 8 = k) by (unfold sel; clear -Hk Hrpl; mlia). rewrite E.
      assert (E' : ((k =? 0) || (47 <? 8 * k + 7)) = true) by (apply orb_true_iff; rewrite Z.eqb_eq, Z.ltb_lt; clear -Hk Hn Hne; lia). by rewrite E'. }
    unfold loads_data, jumps. by rewrite Hs.
Qed.
End Ready.
End Entry.

(** C6: The way into the kernel.  After the processors have started as in main.c, any
    sequence of processes run and left on them is carried out; and then on a processor
    that has run process [p], code in user mode
    - enters the kernel by [int 64] and by no other [int n] (a general-protection fault),
    - enters it by an interrupt or exception at the address of its vector, with
      interrupts off unless it is a system call,
    - does so with privilege 0 on the kernel stack of [p], from its top; an interrupt of
      the kernel stays on its stack,
    - has no port in its map, sees memory unshifted, and may load the two user segments
      and no other, as data or to jump to. *)
Theorem kernel_entry cpus_addr idt_addr vectors lapicid n h ops : 0 <= cpus_addr /\ cpus_addr + sizeof_cpu * Z.of_nat n <= 4294967296 -> 0 <= idt_addr < 4294967296 ->
  length vectors = 256%nat /\ Forall is_u32 vectors -> (forall i j, (i < n)%nat -> (j < n)%nat -> lapicid i = lapicid j -> i = j) ->
  shape lapicid n h -> (0 < n)%nat -> Forall (op_ok n) ops ->
  wp (start_cpus cpus_addr idt_addr vectors lapicid n ;;; for_each ops (run_op cpus_addr lapicid)) (fun _ h' => forall c p, (c < n)%nat -> last_proc ops c = Some p ->
    exists r, h_regs h' !! c = Some r
    /\ (forall v vec soft, vectors !! v = Some vec -> deliver cpus_addr idt_addr h' r (Z.of_nat v) soft 3 =
          if soft && negb (Z.of_nat v =? T_SYSCALL) then Fault 13 else Enter (mkEntry 8 vec 0 (Some (16, u32 (p_kstack p + KSTACKSIZE))) (Z.of_nat v =? T_SYSCALL)))
    /\ (forall v vec, vectors !! v = Some vec -> deliver cpus_addr idt_addr h' r (Z.of_nat v) false 0 = Enter (mkEntry 8 vec 0 None (Z.of_nat v =? T_SYSCALL)))
    /\ (forall port, 0 <= port -> port_in_map cpus_addr h' r port = false)
    /\ (forall k rpl off, 1 <= k < 5 -> 0 <= rpl < 4 -> is_u32 off -> linear cpus_addr h' r (8 * k + rpl) off = Some off)
    /\ forall k rpl, 0 <= k -> 0 <= rpl < 4 -> loads_data cpus_addr h' r 3 (8 * k + rpl) = (k =? 3) || (k =? 4) /\ jumps cpus_addr h' r 3 (8 * k + rpl) = (k =? 3)) h.
Proof.
  intros Hcpus Hidt Hvec Hid Hs Hn Hops. apply wp_bind. eapply start_ready; [done|done|done|done|done|done|]. intros h1 HR1 Hg1. eapply ops_ready; [done|done|exact HR1|].
  intros h' HR E c p Hc Hp. assert (Hg : gates vectors h') by (intros j v Hj; rewrite E; by apply Hg1). destruct (ready_cpu _ _ _ _ _ _ _ _ _ HR Hc) as (x & r & Hx & Hr).
  exists r. split; [done|]. split_and!.
  - intros v vec soft. by eapply (deliver_user cpus_addr idt_addr vectors lapicid n).
  - intros v vec. by eapply (deliver_kernel cpus_addr idt_addr vectors lapicid n).
  - intros port. by eapply (no_ports cpus_addr idt_addr lapicid n).
  - intros k rpl off Hk Hrpl Hoff. by eapply (user_segments cpus_addr idt_addr lapicid n).
  - intros k rpl Hk Hrpl. destruct (decide (1 <= k < 5)) as [Hk5|Hk5].
    + destruct (user_segments cpus_addr idt_addr lapicid n _ h' c x r HR Hx Hr k rpl 0) as (_ & -> & ->); [done|done|by unfold is_u32|].
      split; [|done]. destruct (Z.leb_spec 3 k), (Z.eqb_spec k 3), (Z.eqb_spec k 4); try done; lia.
    + destruct (other_segments cpus_addr idt_addr lapicid n Hcpus _ h' c p x r HR Hp Hc Hx Hr k rpl) as [-> ->]; [done|done|done|].
      destruct (Z.eqb_spec k 3), (Z.eqb_spec k 4); try done; lia.
Qed.

(** The address a processor with 4-megabyte pages finds for [a] before paging is set
    up. *)
Definition big_page (pgdir : list Z) (a : Z) : option Z :=
  e ← zget pgdir (PDX a); if Z.land e (Z.lor PTE_P PTE_PS) =? Z.lor PTE_P PTE_PS then Some (Z.land e (Z.lnot 4194303) + a mod 4194304) else None.

(** The first page directory maps the low four megabytes where they are and at the
    kernel's addresses, and nothing else. *)
Lemma entrypgdir_maps a : is_u32 a ->
  big_page entrypgdir a = if (a <? 4194304) || ((KERNBASE <=? a) && (a <? KERNBASE + 4194304)) then Some (a mod 4194304) else None.
Proof.
  intros Ha. unfold big_page, PDX. rewrite (u32_id a Ha), Z.shiftr_div_pow2 by lia. change 1023 with (Z.ones 10). rewrite Z.land_ones by lia. change (2 ^ 22) with 4194304. change (2 ^ 10) with 1024.
  unfold is_u32 in Ha. assert (Hd : 0 <= a / 4194304 < 1024) by mlia. rewrite (Z.mod_small (a / 4194304)) by done. set (i := a / 4194304) in *.
  assert (E : zget entrypgdir i = Some (if (i =? 0) || (i =? 512) then 131 else 0)).
  { unfold zget. rewrite (proj2 (Z.leb_le 0 i)) by lia. unfold entrypgdir. rewrite list_lookup_fmap, lookup_seqZ_lt by (unfold NPDENTRIES; lia). cbn [fmap option_fmap option_map].
    rewrite Z.add_0_l, Z2Nat.id by lia. reflexivity. }
  rewrite E. cbn [mbind option_bind]. assert (Hi : i = a / 4194304) by done. clearbody i. unfold KERNBASE.
  destruct (Z.eqb_spec i 0), (Z.eqb_spec i 512), (Z.ltb_spec a 4194304), (Z.leb_spec 2147483648 a), (Z.ltb_spec a (2147483648 + 4194304)); cbn [orb andb]; try reflexivity; exfalso; mlia.
Qed.

(** Two processors that have just come up. *)
Definition demo_vectors : list Z := (fun i => 2148532224 + 8 * i) <$> seqZ 0 256.
Definition demo_seg : segdesc := mkSegdesc 0 0 0 0 0 0 0 0 0 0 0 0 0.
Definition demo_hw : hw :=
  mkHw (mkMachine (replicate 2 (mkCpu 1 false false)) []) [mkPcpu 0 (mkTs 0 0 0) (replicate 6 demo_seg); mkPcpu 1 (mkTs 0 0 0) (replicate 6 demo_seg)]
    (replicate 2 (mkRegs (0, 0) (0, 0) 0 0)) (replicate 256 (mkGatedesc 0 0 0 0 0 0 0 0 0)) 0 demo_kmem.
Definition demo_user (kstack : Z) : proc := set_kstack kstack (set_vm 4096 2147491840 free_proc).
Definition demo_ops : list seg_op := [RunProc 0 (demo_user 2147487744); RunProc 1 (demo_user 2147500032); LeaveProc 0; RunProc 0 (demo_user 2147504128)].

Lemma demo_shape : shape Z.of_nat 2 demo_hw.
Proof.
  split; [split; [done|]|done| |done|done].
  - intros c x Hx. apply lookup_replicate in Hx as [-> _]. done.
  - intros [|[|i]] x Hx; [injection Hx as <-; done..|done].
Qed.

Lemma kernel_entry_witness : exists h, (start_cpus 2148597760 2148601856 demo_vectors Z.of_nat 2 ;;; for_each demo_ops (run_op 2148597760 Z.of_nat)) demo_hw = Ok tt h
  /\ exists r, h_regs h !! 0%nat = Some r
  /\ deliver 2148597760 2148601856 h r 64 true 3 = Enter (mkEntry 8 2148532736 0 (Some (16, 2147508224)) true) /\ deliver 2148597760 2148601856 h r 14 true 3 = Fault 13
  /\ deliver 2148597760 2148601856 h r 14 false 3 = Enter (mkEntry 8 2148532336 0 (Some (16, 2147508224)) false).
Proof.
  assert (Hv : length demo_vectors = 256%nat /\ Forall is_u32 demo_vectors).
  { split; [reflexivity|]. apply Forall_fmap, Forall_forall. intros i Hi%elem_of_seqZ. unfold compose, is_u32. lia. }
  assert (Ho : Forall (op_ok 2) demo_ops) by (repeat constructor; lia || done).
  pose proof (kernel_entry 2148597760 2148601856 demo_vectors Z.of_nat 2 demo_hw demo_ops ltac:(unfold sizeof_cpu; lia) ltac:(lia) Hv ltac:(intros; lia) demo_shape ltac:(lia) Ho) as H.
  destruct (proj1 (wp_Ok _ _ _) H) as ([] & h & Hrun & H'). exists h. split; [exact Hrun|].
  destruct (H' 0%nat (demo_user 2147504128) ltac:(lia) eq_refl) as (r & Hr & Hu & _). exists r. split; [exact Hr|].
  split; [exact (Hu 64%nat _ true eq_refl)|]. split; [exact (Hu 14%nat _ true eq_refl)|exact (Hu 14%nat _ false eq_refl)].
Defined.
