(* ===== verification/Trap.v ===== *)
(** * trap.c: every trap, with the devices

    [trap] over the kernel of Exec.v together with the disk driver, the console and
    the local interrupt controller: the interrupts of the devices, the timer, system
    calls and exceptions.  What the devices have to say (key codes, bytes, status
    registers) are arguments.  A driver's [wakeup] is carried out on the process table
    when its handler returns, in the order of the calls; the handlers do not look at
    the table. *)

From S2P Require Import Prelude KMonad CString Params Kalloc Vm Proc Pipe Bio Users Store Fs Kern Sysfile Passwd Exec Console Ide Apic Segs.

Definition IRQ_KBD : Z := 1.
Definition IRQ_COM1 : Z := 4.
Definition IRQ_IDE : Z := 14.

(** [struct trapframe]: the fields that [trap] looks at, and the registers that
    system calls use. *)
Record tframe := mkFrame { f_trapno : Z; f_err : Z; f_cs : Z; f_regs : trapframe }.

(** The device's answers in one trap: codes of the keyboard controller, bytes of the
    serial port, and the page-fault address. *)
Record inputs := mkInputs { in_codes : list Z; in_serial : list Z; in_cr2 : Z }.

(** How [trap] ends: it returns, or the process has given up the processor; then
    [trap_resume] runs when it is scheduled again. *)
Inductive trap_end := Returned | Yielded.

Section Trap.
Context {S : Type} `{TxStore S} {D : Type} `{Drive D}.
Context (devsw_read : Z -> option (nat -> Z -> M (fs S) (Z * list Z))).
Context (devsw_write : Z -> option (nat -> list Z -> Z -> M (fs S) Z)).
(** The linker symbol [data]; the status register of the disk and the time its driver
    waits; the registers of the local APIC; [procdump] on the console; the channels of
    a buffer and of the console's input; an address for the name of the process. *)
Context (data : Z) (status : nat -> Z) (wait_fuel : nat) (reg_read : nat -> Z -> Z) (dump : C unit).
Context (buf_chan : nat -> chan) (input_chan : chan) (name_addr : Z).

Record tstate := mkTstate { t_kern : kern S; t_ide : ide (D := D); t_cons : console; t_shift : Z; t_lapic : lst }.
Local Abbreviation T := (M tstate).

Definition on_k {A} (m : M (kern S) A) : T A :=
  lift t_kern (fun k s => mkTstate k (t_ide s) (t_cons s) (t_shift s) (t_lapic s)) m.
Definition on_ide {A} (m : M (ide (D := D)) A) : T A :=
  lift t_ide (fun d s => mkTstate (t_kern s) d (t_cons s) (t_shift s) (t_lapic s)) m.
Definition on_cons {A} (m : C A) : T A :=
  lift t_cons (fun c s => mkTstate (t_kern s) (t_ide s) c (t_shift s) (t_lapic s)) m.
Definition on_lapic {A} (m : L A) : T A :=
  lift t_lapic (fun l s => mkTstate (t_kern s) (t_ide s) (t_cons s) (t_shift s) l) m.

(** [ideintr], [kbdintr] and [uartintr] with their wakeups. *)
Definition ide_trap : T unit :=
  w <- gets (fun s => i_woken (t_ide s)) ;;
  on_ide (ideintr status wait_fuel) ;;;
  w' <- gets (fun s => i_woken (t_ide s)) ;;
  for_each (drop (length w) w') (fun b => on_k (on_pt (wakeup (buf_chan b)))).

Definition cons_trap {A} (m : C A) : T A :=
  w <- gets (fun s => wakeups (t_cons s)) ;;
  a <- on_cons m ;;
  w' <- gets (fun s => wakeups (t_cons s)) ;;
  for_each (seq w (w' - w)) (fun _ => on_k (on_pt (wakeup input_chan))) ;;;
  ret a.

Definition kbd_trap (codes : list Z) : T unit :=
  sh <- gets t_shift ;;
  sh <- cons_trap (kbdintr dump codes sh) ;;
  modify (fun s => mkTstate (t_kern s) (t_ide s) (t_cons s) sh (t_lapic s)).

Definition uart_trap (bytes : list Z) : T unit := cons_trap (uartintr dump bytes).

Definition timer_tick : T unit :=
  on_k (modify (fun k => mkKern (k_fs k) (k_mem k) (k_pt k) (k_ftable k) (k_pipes k) (k_cur k) (u32 (k_ticks k + 1))) ;;;
        on_pt (wakeup ticks_chan)).

Definition eoi : T unit := on_lapic (lapiceoi reg_read).

(** "cpu%d: spurious interrupt at %x:%x\n" *)
Definition msg_spurious : list Z :=
  [99; 112; 117; 37; 100; 58; 32; 115; 112; 117; 114; 105; 111; 117; 115; 32; 105; 110; 116; 101; 114; 114; 117; 112; 116; 32;
   97; 116; 32; 37; 120; 58; 37; 120; 10; 0].
(** "unexpected trap %d from cpu %d eip %x (cr2=0x%x)\n" *)
Definition msg_unexpected : list Z :=
  [117; 110; 101; 120; 112; 101; 99; 116; 101; 100; 32; 116; 114; 97; 112; 32; 37; 100; 32; 102; 114; 111; 109; 32; 99; 112; 117; 32;
   37; 100; 32; 101; 105; 112; 32; 37; 120; 32; 40; 99; 114; 50; 61; 48; 120; 37; 120; 41; 10; 0].
(** "pid %d %s: trap %d err %d on cpu %d eip 0x%x addr 0x%x--kill proc\n" *)
Definition msg_kill : list Z :=
  [112; 105; 100; 32; 37; 100; 32; 37; 115; 58; 32; 116; 114; 97; 112; 32; 37; 100; 32; 101; 114; 114; 32; 37; 100; 32; 111; 110; 32;
   99; 112; 117; 32; 37; 100; 32; 101; 105; 112; 32; 48; 120; 37; 120; 32; 97; 100; 100; 114; 32; 48; 120; 37; 120; 45; 45; 107; 105;
   108; 108; 32; 112; 114; 111; 99; 10; 0].

(** The switch over [trapno]; [cpu] is [cpuid()] and [proc] says that [myproc()] is
    not null. *)
Definition trap_switch (cpu : Z) (proc : bool) (tf : tframe) (i : inputs) : T unit :=
  let no := f_trapno tf in
  if no =? T_IRQ0 + IRQ_TIMER then when (cpu =? 0) timer_tick ;;; eoi
  else if no =? T_IRQ0 + IRQ_IDE then ide_trap ;;; eoi
  else if no =? T_IRQ0 + IRQ_IDE + 1 then ret tt
  else if no =? T_IRQ0 + IRQ_KBD then kbd_trap (in_codes i) ;;; eoi
  else if no =? T_IRQ0 + IRQ_COM1 then uart_trap (in_serial i) ;;; eoi
  else if (no =? T_IRQ0 + 7) || (no =? T_IRQ0 + IRQ_SPURIOUS) then
    on_cons (cprintf (fun _ => None) (Some msg_spurious) [cpu; f_cs tf; tf_eip (f_regs tf)]) ;;; eoi
  else if negb proc || (Z.land (f_cs tf) 3 =? 0) then
    on_cons (cprintf (fun _ => None) (Some msg_unexpected) [no; cpu; tf_eip (f_regs tf); in_cr2 i]) ;;; panic "trap"
  else
    p <- on_k myproc ;;
    on_cons (cprintf (fun a => if a =? name_addr then Some (p_name p) else None) (Some msg_kill)
               [p_pid p; name_addr; no; f_err tf; cpu; tf_eip (f_regs tf); in_cr2 i]) ;;;
    on_k (upd_cur (set_killed true)).

Definition is_user (tf : tframe) : bool := Z.land (f_cs tf) 3 =? DPL_USER.

Definition trap (cpu : Z) (proc : bool) (tf : tframe) (i : inputs) : T trap_end :=
  if f_trapno tf =? T_SYSCALL then
    if negb proc then halt fault_stop
    else on_k (trap_syscall devsw_read devsw_write data (f_regs tf)) ;;; ret Returned
  else
    trap_switch cpu proc tf i ;;;
    if negb proc then ret Returned
    else
      on_k (exit_if_killed (is_user tf)) ;;;
      p <- on_k myproc ;;
      cur <- gets (fun s => k_cur (t_kern s)) ;;
      if bool_decide (p_state p = RUNNING) && (f_trapno tf =? T_IRQ0 + IRQ_TIMER) then
        on_k (on_pt (yield cur)) ;;; ret Yielded
      else on_k (exit_if_killed (is_user tf)) ;;; ret Returned.

(** The end of [trap] once the process runs again. *)
Definition trap_resume (tf : tframe) : T unit := on_k (exit_if_killed (is_user tf)).
End Trap.
