(* ===== verification/TrapSpec.v ===== *)
(** * Interrupts are served

    With the drivers in their invariants (IdeSpec.v, LineDisc.v), every interrupt is
    handled to the end, whatever processor it comes to and whatever it interrupts: the
    driver's part is done, the interrupt is acknowledged once, the processes that wait
    for it are ready, and nothing else in the kernel has changed. *)

From S2P Require Import Prelude KMonad CString Params Log LogOps Kalloc Vm Proc Pipe Bio Users Store Fs Kern Sysfile Passwd Exec Console ConsoleSpec LineDisc Ide IdeSpec Apic Segs Trap Access.

(** A process after wakeups on the channels. *)
Definition wake (chs : list chan) (p : proc) : proc :=
  if bool_decide (p_state p = SLEEPING) && existsb (fun c => bool_decide (p_chan p = Some c)) chs then set_state RUNNABLE p else p.

Definition with_procs {S} (l : list proc) (k : kern S) : kern S :=
  mkKern (k_fs k) (k_mem k) (mkPtab l (nextpid (k_pt k)) (initproc (k_pt k))) (k_ftable k) (k_pipes k) (k_cur k) (k_ticks k).
Definition with_ticks {S} (n : Z) (k : kern S) : kern S :=
  mkKern (k_fs k) (k_mem k) (k_pt k) (k_ftable k) (k_pipes k) (k_cur k) n.

Lemma insert_alter {A} (f : A -> A) (l : list A) i x : l !! i = Some x -> <[i := f x]> l = alter f i l.
Proof.
  intros Hi. apply list_eq. intros j. destruct (decide (i = j)) as [<-|Hne].
  - by rewrite list_lookup_insert_eq, list_lookup_alter_eq, Hi by (by eapply lookup_lt_Some).
  - by rewrite list_lookup_insert_ne, list_lookup_alter_ne.
Qed.

Lemma wake_nil p : wake [] p = p.
Proof. unfold wake. cbn. by rewrite andb_false_r. Qed.

Lemma wake_cons c chs p : wake chs (wake [c] p) = wake (c :: chs) p.
Proof.
  unfold wake at 2 3. cbn. rewrite orb_false_r. destruct (bool_decide (p_state p = SLEEPING)) eqn:E; cbn.
  - destruct (bool_decide (p_chan p = Some c)); cbn; [|unfold wake; by rewrite E]. unfold wake. by rewrite bool_decide_eq_false_2.
  - unfold wake. by rewrite E.
Qed.

Lemma wake_cur chs p : p_state p = RUNNING -> wake chs p = p.
Proof. intros E. unfold wake. by rewrite bool_decide_eq_false_2 by (by rewrite E). Qed.

Lemma wake_killed chs p : p_killed (wake chs p) = p_killed p.
Proof. unfold wake. by destruct (_ && _). Qed.

Section Served.
Context {S : Type} `{TxStore S} {D : Type} `{Drive D}.
Context (devsw_read : Z -> option (nat -> Z -> M (fs S) (Z * list Z))) (devsw_write : Z -> option (nat -> list Z -> Z -> M (fs S) Z)).
Context (data : Z) (status : nat -> Z) (wait_fuel : nat) (reg_read : nat -> Z -> Z) (dump : C unit) (buf_chan : nat -> chan) (input_chan : chan) (name_addr : Z) (port : bool).
(** The disk becomes ready in time and reports no errors; [procdump] prints. *)
Hypothesis becomes_ready : forall n, exists k, (k < wait_fuel)%nat /\ IdeSpec.ready (status (n + k)%nat) = true.
Hypothesis no_errors : forall n, IdeSpec.ready (status n) = true -> Z.land (status n) (Z.lor IDE_DF IDE_ERR) = 0.
Hypothesis dump_prints : prints dump.
Local Abbreviation st := (tstate (S := S) (D := D)).

Definition put_kern (k : kern S) (s : st) : st := mkTstate k (t_ide s) (t_cons s) (t_shift s) (t_lapic s).
Definition put_ide (d : ide (D := D)) (s : st) : st := mkTstate (t_kern s) d (t_cons s) (t_shift s) (t_lapic s).
Definition put_cons (c : console) (s : st) : st := mkTstate (t_kern s) (t_ide s) c (t_shift s) (t_lapic s).
Definition put_shift (v : Z) (s : st) : st := mkTstate (t_kern s) (t_ide s) (t_cons s) v (t_lapic s).
Definition put_lapic (l : lst) (s : st) : st := mkTstate (t_kern s) (t_ide s) (t_cons s) (t_shift s) l.

Definition woken_kern (chs : list chan) (k : kern S) : kern S := with_procs (wake chs <$> procs (k_pt k)) k.

Lemma wakeup_run c (k : kern S) : on_pt (wakeup c) k = Ok tt (woken_kern [c] k).
Proof using.
  unfold on_pt, lift, wakeup, wakeup1, map_procs, modify, woken_kern, with_procs. repeat f_equal. apply list_eq. intros i. rewrite list_lookup_imap, list_lookup_fmap.
  destruct (procs (k_pt k) !! i) as [p|]; [|done]. cbn. unfold wake. cbn. by rewrite orb_false_r.
Qed.

Lemma woken_nil (k : kern S) : woken_kern [] k = k.
Proof using.
  unfold woken_kern. assert (E : wake [] <$> procs (k_pt k) = procs (k_pt k)) by (apply list_eq; intros i; rewrite list_lookup_fmap; destruct (_ !! i); cbn; by rewrite ?wake_nil).
  rewrite E. by destruct k as [? ? [] ? ? ? ?].
Qed.

Lemma wakeups_run {A} (chan_of : A -> chan) l : forall s : st, for_each l (fun a => on_k (on_pt (wakeup (chan_of a)))) s = Ok tt (put_kern (woken_kern (chan_of <$> l) (t_kern s)) s).
Proof using.
  induction l as [|a l IH]; intros s; cbn [for_each fmap list_fmap].
  - rewrite woken_nil. by destruct s.
  - unfold bind at 1, on_k at 1, lift. rewrite wakeup_run. rewrite IH. cbn [put_kern t_kern t_ide t_cons t_shift t_lapic]. unfold put_kern, woken_kern, with_procs. cbn. do 4 f_equal.
    apply list_eq. intros i. rewrite !list_lookup_fmap. destruct (_ !! i); cbn; [|done]. by rewrite wake_cons.
Qed.

(** What each handler does. *)
Lemma ide_served (s : st) d0 q : inv d0 q -> complete d0 = Ok tt (t_ide s) ->
  exists d, ide_trap status wait_fuel buf_chan s = Ok tt (put_kern (woken_kern (buf_chan <$> take 1 q) (t_kern s)) (put_ide d s)) /\ inv d (tail q).
Proof using becomes_ready no_errors.
  intros Hinv Hc. assert (Hi : forall o, interrupt status wait_fuel d0 = o -> ideintr status wait_fuel (t_ide s) = o) by (intros o <-; unfold interrupt; by rewrite (bind_Ok _ _ _ _ _ Hc)).
  assert (Hw : i_woken (t_ide s) = i_woken d0).
  { unfold complete, bind, gets, id, modify, ret in Hc. destruct (r_cmd (i_ctl d0)) as [z|]; [destruct (z =? IDE_CMD_WRITE)|]; injection Hc as <-; done. }
  assert (Hd : exists d, ideintr status wait_fuel (t_ide s) = Ok tt d /\ inv d (tail q) /\ i_woken d = i_woken d0 ++ take 1 q).
  { destruct q as [|b q].
    - exists d0. split; [apply Hi; by apply interrupt_idle|]. cbn. by rewrite app_nil_r.
    - destruct (i_active _ _ Hinv) as (x & Hx & _). destruct (interrupt_ok status wait_fuel becomes_ready no_errors d0 q b x Hinv Hx) as (d & E & I & _ & _ & W).
      exists d. split; [by apply Hi|]. by split. }
  destruct Hd as (d & E & I & W). exists d. split; [|done]. unfold ide_trap. rewrite (bind_Ok (gets _) _ s _ s eq_refl).
  rewrite (bind_Ok (on_ide _) _ s tt (put_ide d s)) by (unfold on_ide, lift; by rewrite E). rewrite (bind_Ok (gets _) _ _ _ _ eq_refl). cbn [put_ide t_ide].
  rewrite Hw, W, drop_app_length, wakeups_run. done.
Qed.

Lemma cons_served {A} (m : C A) a c (s : st) : m (t_cons s) = Ok a c -> (wakeups (t_cons s) <= wakeups c)%nat ->
  cons_trap input_chan m s = Ok a (put_kern (woken_kern (replicate (wakeups c - wakeups (t_cons s)) input_chan) (t_kern s)) (put_cons c s)).
Proof using.
  intros E Hle. unfold cons_trap. rewrite (bind_Ok (gets _) _ s _ s eq_refl), (bind_Ok (on_cons m) _ s a (put_cons c s)) by (unfold on_cons, lift; by rewrite E).
  rewrite (bind_Ok (gets _) _ _ _ _ eq_refl), (bind_Ok _ _ _ _ _ (wakeups_run (fun _ => input_chan) _ _)). cbn [put_cons t_cons t_kern]. unfold ret. repeat f_equal.
  by rewrite (const_fmap _ _ input_chan), length_seq.
Qed.

(** The keys that reach the console. *)
Definition typed (keys : list Z) (L : line) : line := foldl (fun L c => line_key c L) L keys.

Lemma typed_woken keys : forall L, (woken L <= woken (typed keys L))%nat.
Proof using.
  induction keys as [|c keys IH]; intros L; [done|]. cbn [typed foldl]. etrans; [|apply IH]. unfold line_key, line_add.
  repeat (case_match; cbn [woken]; try lia).
Qed.

Lemma console_served keys (s : st) L : at_line port (t_cons s) L -> c_lock (t_cons s) = false -> Forall is_byte keys ->
  exists c, consoleintr dump keys (t_cons s) = Ok tt c /\ at_line port c (typed keys L) /\ c_lock c = false
    /\ (wakeups (t_cons s) <= wakeups c)%nat /\ (wakeups c - wakeups (t_cons s) = woken (typed keys L) - woken L)%nat.
Proof using dump_prints.
  intros HA Hl Hk. destruct (consoleintr_sim port dump keys (t_cons s) L HA Hl Hk dump_prints) as (c & E & A & Cl). exists c. split; [done|]. split; [done|]. split; [done|].
  rewrite (sim_woken _ _ _ (proj1 HA)), (sim_woken _ _ _ (proj1 A)). split; [apply typed_woken|done].
Qed.

Definition key_chans (keys : list Z) (L : line) : list chan := replicate (woken (typed keys L) - woken L) input_chan.

Lemma kbd_served (s : st) L codes : at_line port (t_cons s) L -> c_lock (t_cons s) = false -> Forall is_byte codes -> 0 <= t_shift s < 128 ->
  exists c keys sh, kbd_keys codes (t_shift s) = Some (keys, sh) /\ 0 <= sh < 128 /\ at_line port c (typed keys L) /\ c_lock c = false
    /\ kbd_trap dump input_chan codes s = Ok tt (put_shift sh (put_kern (woken_kern (key_chans keys L) (t_kern s)) (put_cons c s))).
Proof using dump_prints.
  intros HA Hl Hc Hs. destruct (kbd_keys_bytes codes (t_shift s) Hc Hs) as (keys & sh & E & Hk & Hs'). destruct (console_served keys s L HA Hl Hk) as (c & Ec & A & Cl & Hle & Hn).
  exists c, keys, sh. split_and!; try done; try lia. unfold kbd_trap. rewrite (bind_Ok (gets t_shift) _ s _ s eq_refl).
  assert (Em : kbdintr dump codes (t_shift s) (t_cons s) = Ok sh c).
  { unfold kbdintr. rewrite E. cbn [from_opt]. rewrite (bind_Ok (ret (keys, sh)) _ _ _ _ eq_refl). cbn beta iota. by rewrite (bind_Ok _ _ _ _ _ Ec). }
  rewrite (bind_Ok _ _ _ _ _ (cons_served _ _ _ _ Em Hle)). unfold key_chans. rewrite Hn. done.
Qed.

Lemma uart_served (s : st) L bytes : at_line port (t_cons s) L -> c_lock (t_cons s) = false -> Forall is_byte bytes ->
  let keys := if port then bytes else [] in
  exists c, at_line port c (typed keys L) /\ c_lock c = false
    /\ uart_trap dump input_chan bytes s = Ok tt (put_kern (woken_kern (key_chans keys L) (t_kern s)) (put_cons c s)).
Proof using dump_prints.
  intros HA Hl Hc keys. assert (Hk : Forall is_byte keys) by (unfold keys; by destruct port; [|constructor]). destruct (console_served keys s L HA Hl Hk) as (c & Ec & A & Cl & Hle & Hn).
  exists c. split; [done|]. split; [done|]. unfold uart_trap. assert (Em : uartintr dump bytes (t_cons s) = Ok tt c).
  { unfold uartintr. by rewrite (bind_Ok _ _ _ _ _ (uart_keys_eq port bytes _ L (proj1 HA) Hc)). }
  rewrite (cons_served _ _ _ _ Em Hle). unfold key_chans. by rewrite Hn.
Qed.

Lemma spurious_served (s : st) L args : at_line port (t_cons s) L -> c_lock (t_cons s) = false -> length args = 3%nat ->
  exists c, at_line port c L /\ c_lock c = false /\ on_cons (cprintf (fun _ => None) (Some msg_spurious) args) s = Ok tt (put_cons c s).
Proof using.
  intros [HS [t Ht]] Hl Ha. destruct args as [|x [|y [|z [|]]]]; try done.
  destruct (prints_cprintf (fun _ => None) msg_spurious [x; y; z] eq_refl (t_cons s) t Ht (sim_panicked _ _ _ HS) Hl) as (c & t' & E & Ht' & Hsame).
  exists c. split; [split; [by eapply sim_same|by exists t']|]. split; [by destruct Hsame as (_ & _ & -> & _)|]. unfold on_cons, lift. by rewrite E.
Qed.

Lemma eoi_sent (s : st) : exists l, eoi reg_read s = Ok tt (put_lapic l s) /\ l_null l = l_null (t_lapic s)
  /\ l_writes l = l_writes (t_lapic s) ++ (if l_null (t_lapic s) then [] else [(EOI, 0)]).
Proof using.
  unfold eoi, on_lapic, lift, lapiceoi, bind, gets. destruct (l_null (t_lapic s)) eqn:E.
  - exists (t_lapic s). split; [done|]. split; [done|]. by rewrite app_nil_r.
  - eexists. split; [reflexivity|]. done.
Qed.

(** ** One interrupt *)

Definition interrupt_nos : list Z :=
  [T_IRQ0 + IRQ_TIMER; T_IRQ0 + IRQ_IDE; T_IRQ0 + IRQ_IDE + 1; T_IRQ0 + IRQ_KBD; T_IRQ0 + IRQ_COM1; T_IRQ0 + 7; T_IRQ0 + IRQ_SPURIOUS].

(** The console's queues and the state of the shift keys after interrupt [no]. *)
Definition line_after (no : Z) (i : inputs) (sh : Z) (L : line) : line * Z :=
  if no =? T_IRQ0 + IRQ_KBD then let '(keys, sh) := default ([], sh) (kbd_keys (in_codes i) sh) in (typed keys L, sh)
  else if no =? T_IRQ0 + IRQ_COM1 then (typed (if port then in_serial i else []) L, sh)
  else (L, sh).
(** The channels woken: the clock's by processor 0, that of the buffer whose transfer
    is done, or that of the console, once for each line. *)
Definition chans_woken (cpu no : Z) (q : list nat) (L L' : line) : list chan :=
  if no =? T_IRQ0 + IRQ_TIMER then if cpu =? 0 then [ticks_chan] else []
  else if no =? T_IRQ0 + IRQ_IDE then buf_chan <$> take 1 q
  else replicate (woken L' - woken L) input_chan.
Definition ticks_after (cpu no t : Z) : Z := if (no =? T_IRQ0 + IRQ_TIMER) && (cpu =? 0) then u32 (t + 1) else t.
Definition acks (no : Z) : list (Z * Z) := if no =? T_IRQ0 + IRQ_IDE + 1 then [] else [(EOI, 0)].

Record served_by (cpu no : Z) (i : inputs) (q : list nat) (L : line) (s s' : st) : Prop := {
  sv_kern : let L' := (line_after no i (t_shift s) L).1 in
    t_kern s' = with_ticks (ticks_after cpu no (k_ticks (t_kern s))) (woken_kern (chans_woken cpu no q L L') (t_kern s));
  sv_ide : if no =? T_IRQ0 + IRQ_IDE then inv (t_ide s') (tail q) else t_ide s' = t_ide s;
  sv_line : at_line port (t_cons s') (line_after no i (t_shift s) L).1 /\ c_lock (t_cons s') = false;
  sv_shift : t_shift s' = (line_after no i (t_shift s) L).2 /\ 0 <= t_shift s' < 128;
  sv_eoi : l_null (t_lapic s') = l_null (t_lapic s) /\ l_writes (t_lapic s') = l_writes (t_lapic s) ++ (if l_null (t_lapic s) then [] else acks no) }.

Record devices (no : Z) (i : inputs) (q : list nat) (L : line) (s : st) : Prop := {
  dv_ide : no = T_IRQ0 + IRQ_IDE -> exists d0, inv d0 q /\ complete d0 = Ok tt (t_ide s);
  dv_line : at_line port (t_cons s) L /\ c_lock (t_cons s) = false;
  dv_shift : 0 <= t_shift s < 128;
  dv_bytes : Forall is_byte (in_codes i) /\ Forall is_byte (in_serial i) }.

Lemma woken_same (k : kern S) n : n = k_ticks k -> with_ticks n (woken_kern [] k) = k.
Proof using. intros ->. rewrite woken_nil. by destruct k. Qed.

Lemma timer_served (s : st) : timer_tick s = Ok tt (put_kern (with_ticks (u32 (k_ticks (t_kern s) + 1)) (woken_kern [ticks_chan] (t_kern s))) s).
Proof using. unfold timer_tick, on_k, lift. rewrite (bind_Ok (modify _) _ (t_kern s) tt _ eq_refl), wakeup_run. done. Qed.

(** A handler followed by the acknowledgement. *)
Lemma then_eoi (m : M st unit) s s1 : m s = Ok tt s1 -> t_lapic s1 = t_lapic s ->
  exists l, (m ;;; eoi reg_read) s = Ok tt (put_lapic l s1) /\ l_null l = l_null (t_lapic s) /\ l_writes l = l_writes (t_lapic s) ++ (if l_null (t_lapic s) then [] else [(EOI, 0)]).
Proof using. intros Em El. destruct (eoi_sent s1) as (l & E & N & W). rewrite El in N, W. exists l. split; [by rewrite (bind_Ok _ _ _ _ _ Em)|done]. Qed.

Lemma switch_served cpu proc tf i q L s : f_trapno tf ∈ interrupt_nos -> devices (f_trapno tf) i q L s ->
  exists s', trap_switch status wait_fuel reg_read dump buf_chan input_chan name_addr cpu proc tf i s = Ok tt s' /\ served_by cpu (f_trapno tf) i q L s s'.
Proof using becomes_ready no_errors dump_prints.
  intros Hno [D1 [D2 D2'] D3 [D4 D5]]. unfold trap_switch. pose proof (woken_same (t_kern s) _ eq_refl) as Hk.
  assert (E0 : replicate (woken L - woken L) input_chan = []) by (by rewrite Nat.sub_diag).
  unfold interrupt_nos in Hno. repeat (apply elem_of_cons in Hno as [Hno|Hno]); [..|by apply elem_of_nil in Hno]; rewrite Hno in *.
  - assert (Et : when (cpu =? 0) (timer_tick (S := S) (D := D)) s = Ok tt (put_kern (with_ticks (ticks_after cpu 32 (k_ticks (t_kern s))) (woken_kern (chans_woken cpu 32 q L L) (t_kern s))) s)).
    { unfold ticks_after, chans_woken. cbn -[timer_tick]. destruct (cpu =? 0); cbn [when]; [apply timer_served|]. rewrite woken_same by done. by destruct s. }
    destruct (then_eoi _ _ _ Et eq_refl) as (l & E & N & W). eexists. split; [exact E|]. by split.
  - destruct (D1 eq_refl) as (d0 & Hi & Hc). destruct (ide_served s d0 q Hi Hc) as (d & Ed & Hd). destruct (then_eoi _ _ _ Ed eq_refl) as (l & E & N & W). eexists. split; [exact E|]. by split.
  - exists s. split; [done|]. split; [|done|done|done|split; [done|]; destruct (l_null _); by rewrite app_nil_r].
    change (t_kern s = with_ticks (k_ticks (t_kern s)) (woken_kern (replicate (woken L - woken L) input_chan) (t_kern s))). by rewrite E0, Hk.
  - destruct (kbd_served s L (in_codes i) D2 D2' D4 D3) as (c & keys & sh & Ek & Hs & HA & Hl & Em). destruct (then_eoi _ _ _ Em eq_refl) as (l & E & N & W). eexists. split; [exact E|].
    split; unfold line_after; cbn -[typed]; rewrite ?Ek; cbn -[typed]; done.
  - destruct (uart_served s L (in_serial i) D2 D2' D5) as (c & HA & Hl & Em). destruct (then_eoi _ _ _ Em eq_refl) as (l & E & N & W). eexists. split; [exact E|]. by split.
  - destruct (spurious_served s L [cpu; f_cs tf; tf_eip (f_regs tf)] D2 D2' eq_refl) as (c & HA & Hl & Em). destruct (then_eoi _ _ _ Em eq_refl) as (l & E & N & W). eexists. split; [exact E|].
    split; [|done..]. change (t_kern s = with_ticks (k_ticks (t_kern s)) (woken_kern (replicate (woken L - woken L) input_chan) (t_kern s))). by rewrite E0, Hk.
  - destruct (spurious_served s L [cpu; f_cs tf; tf_eip (f_regs tf)] D2 D2' eq_refl) as (c & HA & Hl & Em). destruct (then_eoi _ _ _ Em eq_refl) as (l & E & N & W). eexists. split; [exact E|].
    split; [|done..]. change (t_kern s = with_ticks (k_ticks (t_kern s)) (woken_kern (replicate (woken L - woken L) input_chan) (t_kern s))). by rewrite E0, Hk.
Qed.

(** The current process after the trap. *)
Definition yields (proc : bool) (tf : tframe) : bool := proc && (f_trapno tf =? T_IRQ0 + IRQ_TIMER).
Definition yielded (b : bool) (k : kern S) : kern S :=
  if b then with_procs (alter (set_state RUNNABLE) (k_cur k) (procs (k_pt k))) k else k.

Lemma interrupt_run cpu proc tf i q L s : f_trapno tf ∈ interrupt_nos -> devices (f_trapno tf) i q L s ->
  (proc = true -> exists p, procs (k_pt (t_kern s)) !! k_cur (t_kern s) = Some p /\ p_state p = RUNNING /\ p_killed p = false) ->
  exists s1, served_by cpu (f_trapno tf) i q L s s1
    /\ trap devsw_read devsw_write data status wait_fuel reg_read dump buf_chan input_chan name_addr cpu proc tf i s
       = Ok (if yields proc tf then Yielded else Returned) (put_kern (yielded (yields proc tf) (t_kern s1)) s1).
Proof using becomes_ready no_errors dump_prints.
  intros Hno Hd Hp. destruct (switch_served cpu proc tf i q L s Hno Hd) as (s1 & E1 & Hs1). exists s1. split; [done|]. unfold trap.
  assert (Hns : (f_trapno tf =? T_SYSCALL) = false).
  { apply Z.eqb_neq. intros E. rewrite E in Hno. unfold interrupt_nos in Hno. repeat (apply elem_of_cons in Hno as [Hno|Hno]; [done|]). by apply elem_of_nil in Hno. }
  rewrite Hns, (bind_Ok _ _ _ _ _ E1). destruct proc; cbn [negb yields andb]; [|by destruct s1].
  destruct (Hp eq_refl) as (p & Hcur & Hrun & Hkill). assert (Hk1 : procs (k_pt (t_kern s1)) !! k_cur (t_kern s1) = Some p).
  { rewrite (sv_kern _ _ _ _ _ _ _ Hs1). cbn [with_ticks woken_kern with_procs k_pt k_cur procs]. rewrite list_lookup_fmap, Hcur. cbn. f_equal. by apply wake_cur. }
  assert (Hex : on_k (D := D) (exit_if_killed (is_user tf)) s1 = Ok tt s1).
  { unfold on_k, lift, exit_if_killed, myproc, bind. rewrite Hk1. cbn. rewrite Hkill. by destruct s1. }
  assert (Hmy : on_k (D := D) (myproc (S := S)) s1 = Ok p s1) by (unfold on_k, lift, myproc; rewrite Hk1; by destruct s1).
  rewrite (bind_Ok _ _ _ _ _ Hex), (bind_Ok _ _ _ _ _ Hmy), (bind_Ok (gets _) _ _ _ _ eq_refl), bool_decide_eq_true_2 by done. cbn [andb].
  destruct (f_trapno tf =? T_IRQ0 + IRQ_TIMER); [|rewrite (bind_Ok _ _ _ _ _ Hex); by destruct s1].
  unfold bind, on_k, lift, on_pt, lift, yield, upd_proc, bind, get_proc. rewrite Hk1. cbn [from_opt ret modify]. unfold ret, put_kern, yielded, with_procs, modify.
  by rewrite (insert_alter (set_state RUNNABLE) _ _ _ Hk1).
Qed.

(** ** Exceptions *)

(** [cprintf] of a message that can be printed. *)
Lemma message_shown string_at fmt args (s : st) L : at_line port (t_cons s) L -> c_lock (t_cons s) = false -> printable string_at fmt args = true ->
  exists c, on_cons (cprintf string_at (Some fmt) args) s = Ok tt (put_cons c s).
Proof using.
  intros [HS [t Ht]] Hl Ha. destruct (prints_cprintf string_at fmt args Ha (t_cons s) t Ht (sim_panicked _ _ _ HS) Hl) as (c & t' & E & _).
  exists c. unfold on_cons, lift. by rewrite E.
Qed.

Lemma exception_switch no : no ∉ interrupt_nos -> (no =? T_IRQ0 + IRQ_TIMER) = false /\ (no =? T_IRQ0 + IRQ_IDE) = false /\ (no =? T_IRQ0 + IRQ_IDE + 1) = false
  /\ (no =? T_IRQ0 + IRQ_KBD) = false /\ (no =? T_IRQ0 + IRQ_COM1) = false /\ ((no =? T_IRQ0 + 7) || (no =? T_IRQ0 + IRQ_SPURIOUS)) = false.
Proof using.
  unfold interrupt_nos. rewrite !not_elem_of_cons. intros (N1 & N2 & N3 & N4 & N5 & N6 & N7 & _).
  rewrite !(proj2 (Z.eqb_neq _ _)) by done. done.
Qed.

Lemma exception_run cpu tf i p L (s : st) : f_trapno tf ∉ interrupt_nos -> f_trapno tf ≠ T_SYSCALL -> at_line port (t_cons s) L -> c_lock (t_cons s) = false ->
  procs (k_pt (t_kern s)) !! k_cur (t_kern s) = Some p -> is_user tf = true ->
  let k := with_procs (alter (set_killed true) (k_cur (t_kern s)) (procs (k_pt (t_kern s)))) (t_kern s) in
  exists e s', trap devsw_read devsw_write data status wait_fuel reg_read dump buf_chan input_chan name_addr cpu true tf i s = Halt e s' /\ exit (A := unit) k = Halt e (t_kern s').
Proof using.
  intros Hno Hns HA Hl Hp Hu k. destruct (exception_switch _ Hno) as (N1 & N2 & N3 & N4 & N5 & N6). unfold trap, trap_switch. rewrite (proj2 (Z.eqb_neq _ _) Hns), N1, N2, N3, N4, N5, N6.
  assert (Hu' : Z.land (f_cs tf) 3 = 3) by (by apply Z.eqb_eq). rewrite Hu, Hu'. cbn [negb orb DPL_USER Z.eqb].
  assert (Hmy : on_k (D := D) (myproc (S := S)) s = Ok p s) by (unfold on_k, lift, myproc; rewrite Hp; by destruct s). rewrite <- bind_assoc, (bind_Ok _ _ _ _ _ Hmy), <- bind_assoc.
  destruct (message_shown (fun a => if a =? name_addr then Some (p_name p) else None) msg_kill [p_pid p; name_addr; f_trapno tf; f_err tf; cpu; tf_eip (f_regs tf); in_cr2 i] s L HA Hl) as [c Ec].
  { cbn. rewrite Z.eqb_refl, (bool_decide_eq_true_2 (is_Some _)) by done. by rewrite orb_true_r. }
  rewrite (bind_Ok _ _ _ _ _ Ec). assert (Ek : on_k (D := D) (upd_cur (set_killed true)) (put_cons c s) = Ok tt (put_kern k (put_cons c s))).
  { unfold on_k, lift, upd_cur, bind, gets, on_pt, lift, upd_proc, bind, get_proc. cbn [put_cons t_kern]. rewrite Hp. cbn. unfold k. by rewrite (insert_alter (set_killed true) _ _ _ Hp). }
  rewrite (bind_Ok _ _ _ _ _ Ek). destruct (exit_halts k) as (e & k' & Ex). exists e, (put_kern k' (put_kern k (put_cons c s))). split; [|done].
  assert (Hk : procs (k_pt k) !! k_cur k = Some (set_killed true p)) by (unfold k; cbn; by rewrite list_lookup_alter_eq, Hp).
  assert (Ei : exit_if_killed true k = Halt e k') by (unfold exit_if_killed, bind, myproc; rewrite Hk; exact Ex).
  unfold bind, on_k, lift. cbn [put_kern put_cons t_kern]. by rewrite Ei.
Qed.

(** In the kernel, or with no process, an exception stops the machine. *)
Lemma exception_panics cpu proc tf i L (s : st) : f_trapno tf ∉ interrupt_nos -> f_trapno tf ≠ T_SYSCALL -> at_line port (t_cons s) L -> c_lock (t_cons s) = false ->
  proc = false \/ Z.land (f_cs tf) 3 = 0 ->
  exists s', trap devsw_read devsw_write data status wait_fuel reg_read dump buf_chan input_chan name_addr cpu proc tf i s = Halt (panic_stop "trap") s' /\ t_kern s' = t_kern s.
Proof using.
  intros Hno Hns HA Hl Hpk. destruct (exception_switch _ Hno) as (N1 & N2 & N3 & N4 & N5 & N6). unfold trap, trap_switch. rewrite (proj2 (Z.eqb_neq _ _) Hns), N1, N2, N3, N4, N5, N6.
  assert (E : negb proc || (Z.land (f_cs tf) 3 =? 0) = true) by (destruct Hpk as [->| ->]; [done|by rewrite orb_true_r]). rewrite E, <- bind_assoc.
  destruct (message_shown (fun _ => None) msg_unexpected [f_trapno tf; cpu; tf_eip (f_regs tf); in_cr2 i] s L HA Hl eq_refl) as [c Ec].
  rewrite (bind_Ok _ _ _ _ _ Ec). by exists (put_cons c s).
Qed.
End Served.

(** C7: Traps other than system calls.  With the drivers in their invariants and a
    process running that was not killed (or none, in the scheduler): an interrupt is
    served to the end.  The finished disk transfer, the keys and bytes or the tick are
    taken in, exactly the processes that sleep on the event become ready, and nothing
    else in the kernel has changed; the interrupt is acknowledged once, except the one
    of the second disk channel, which is ignored; the process gives up the processor
    at the timer, and else goes on.  An exception in user mode marks the process as
    killed and ends as [exit] then ends, for the init process with the panic of
    [exit]; an exception in the kernel stops it with [panic("trap")]. *)
Theorem traps_handled {S} `{TxStore S} {D} `{Drive D} devsw_read devsw_write data status wait_fuel reg_read dump buf_chan input_chan name_addr port
    cpu proc tf i q L (s : tstate (S := S) (D := D)) :
  (forall n, exists k, (k < wait_fuel)%nat /\ IdeSpec.ready (status (n + k)%nat) = true) ->
  (forall n, IdeSpec.ready (status n) = true -> Z.land (status n) (Z.lor IDE_DF IDE_ERR) = 0) -> prints dump ->
  f_trapno tf ≠ T_SYSCALL -> devices port (f_trapno tf) i q L s ->
  (proc = true -> exists p, procs (k_pt (t_kern s)) !! k_cur (t_kern s) = Some p /\ p_state p = RUNNING /\ p_killed p = false) ->
  let run := trap devsw_read devsw_write data status wait_fuel reg_read dump buf_chan input_chan name_addr cpu proc tf i in
  if bool_decide (f_trapno tf ∈ interrupt_nos) then
    exists s1, served_by buf_chan input_chan port cpu (f_trapno tf) i q L s s1
      /\ run s = Ok (if yields proc tf then Yielded else Returned) (put_kern (yielded (yields proc tf) (t_kern s1)) s1)
  else (proc = true -> is_user tf = true ->
    let k := with_procs (alter (set_killed true) (k_cur (t_kern s)) (procs (k_pt (t_kern s)))) (t_kern s) in
    exists e s', run s = Halt e s' /\ exit (A := unit) k = Halt e (t_kern s')
      /\ (k_cur (t_kern s) = initproc (k_pt (t_kern s)) -> e = panic_stop "init exiting"))
  /\ (proc = false \/ Z.land (f_cs tf) 3 = 0 -> exists s', run s = Halt (panic_stop "trap") s' /\ t_kern s' = t_kern s).
Proof.
  intros Hb He Hd Hns Hdev Hp run. case_bool_decide as Hno.
  { by apply (interrupt_run devsw_read devsw_write data status wait_fuel reg_read dump buf_chan input_chan name_addr port). }
  destruct (dv_line _ _ _ _ _ _ Hdev) as [HA Hl]. split.
  - intros -> Hu k. destruct (Hp eq_refl) as (p & Hcur & _).
    destruct (exception_run devsw_read devsw_write data status wait_fuel reg_read dump buf_chan input_chan name_addr port cpu tf i p L s Hno Hns HA Hl Hcur Hu) as (e & s' & Hrun & Hex).
    exists e, s'. split; [exact Hrun|]. split; [exact Hex|]. intros Hi. by apply (exit_init k (t_kern s') e).
  - intros Hpk. by eapply (exception_panics devsw_read devsw_write data status wait_fuel reg_read dump buf_chan input_chan name_addr port).
Qed.

(** A key is pressed while a process runs in user mode. *)
Definition demo_trap : tstate (S := Log.store) (D := gmap (Z * Z) (list Z)) :=
  mkTstate (demo_kern 5) (mkIde ∅ None false false (mkCtl 0 0 0 0 0 None []) ∅ 0 []) demo_console 0 (mkLst false [] [] [] 0).
Definition demo_key : tframe := mkFrame 33 0 27 (mkTf 0 0 0).

Lemma traps_handled_witness : exists s1, served_by (fun b => ChAddr (Z.of_nat b)) (ChAddr 7) true 0 33 (mkInputs [30] [] 0) [] (mkLine [] [] 0) demo_trap s1
  /\ trap (fun _ => None) (fun _ => None) 0 (fun _ => 64) 1 (fun _ _ => 0) (ret tt) (fun b => ChAddr (Z.of_nat b)) (ChAddr 7) 8 0 true demo_key (mkInputs [30] [] 0) demo_trap
     = Ok Returned (put_kern (t_kern s1) s1).
Proof.
  apply (traps_handled (fun _ => None) (fun _ => None) 0 (fun _ => 64) 1 (fun _ _ => 0) (ret tt) (fun b => ChAddr (Z.of_nat b)) (ChAddr 7) 8 true 0 true demo_key (mkInputs [30] [] 0) [] (mkLine [] [] 0) demo_trap).
  - intros n. exists 0%nat. split; [lia|reflexivity].
  - intros n _. reflexivity.
  - apply prints_ret.
  - done.
  - split; [done|split; [exact demo_at_line|reflexivity]|cbn; lia|split; repeat constructor; done].
  - intros _. exists (demo_proc 5). done.
Defined.
