(* ===== verification/Mkfs.v ===== *)
(** * mkfs.c: the image builder

    mkfs runs on the host and writes the initial disk image: a super block, an
    empty log, the inodes, a bitmap, and the root directory with the given files.
    The state is the image file, as the list of its blocks, and the counters of
    inodes and blocks handed out.  [exit(1)] is [exited_stop]; a failed [assert]
    is a panic. *)

From S2P Require Import Prelude KMonad Params Bio Users Store Fs.

Definition NINODES : Z := 200.
Definition nbitmap : Z := FSSIZE / (BSIZE * 8) + 1.
Definition ninodeblocks : Z := NINODES / IPB + 1.
Definition nlog : Z := LOGSIZE.
(** [nmeta = 2 + nlog + ninodeblocks + nbitmap] and [nblocks = FSSIZE - nmeta] *)
Definition nmeta : Z := 2 + nlog + ninodeblocks + nbitmap.
Definition nblocks : Z := FSSIZE - nmeta.

Record mk := mkMk { m_img : list (list Z); freeinode : Z; freeblock : Z }.

Definition K := M mk.

(** The value whose bytes in memory are those of [x] in Intel order, on a host of
    that order. *)
Definition xshort (x : Z) : Z := le_val (le_bytes 2 (u16 x)).
Definition xint (x : Z) : Z := le_val (le_bytes 4 (u32 x)).

Definition sb : superblock :=
  mkSuperblock (xint FSSIZE) (xint nblocks) (xint NINODES) (xint nlog) (xint 2) (xint (2 + nlog))
    (xint (2 + nlog + ninodeblocks)).

Definition assert (b : bool) : K unit := if b then ret tt else panic "assert".

(** A write behind the end of the file leaves a hole of zeroes. *)
Definition wsect (sec : Z) (buf : list Z) : K unit :=
  modify (fun s =>
    let n := Z.to_nat sec in
    let img := if (n <? length (m_img s))%nat then <[n := buf]> (m_img s)
               else m_img s ++ replicate (n - length (m_img s)) zero_block ++ [buf] in
    mkMk img (freeinode s) (freeblock s)).

(** A read behind the end fails. *)
Definition rsect (sec : Z) : K (list Z) :=
  s <- gets id ;;
  match m_img s !! Z.to_nat sec with Some b => ret b | None => halt exited_stop end.

Definition winode (inum : Z) (ip : dinode) : K unit :=
  let bn := IBLOCK inum sb in
  buf <- rsect bn ;;
  wsect bn (write_dinode (dinode_off inum) ip buf).

Definition rinode (inum : Z) : K dinode :=
  let bn := IBLOCK inum sb in
  buf <- rsect bn ;;
  ret (read_dinode (dinode_off inum) buf).

(** [freeinode++] and [freeblock++] *)
Definition next_inode : K Z :=
  s <- gets id ;; modify (fun s => mkMk (m_img s) (u32 (freeinode s + 1)) (freeblock s)) ;;; ret (freeinode s).
Definition next_block : K Z :=
  s <- gets id ;; modify (fun s => mkMk (m_img s) (freeinode s) (u32 (freeblock s + 1))) ;;; ret (freeblock s).

Definition new_dinode (type : Z) : dinode :=
  mkDinode (Z.lor (Z.lor (Z.lor (Z.lor MODE_RUSR MODE_WUSR) MODE_XUSR) MODE_ROTH) MODE_XOTH) (i8 (xshort type)) 0 0
    (i16 (xshort 1)) (xint 0) (replicate NADDRS 0) (xint ROOT_UID).

Definition ialloc (type : Z) : K Z :=
  inum <- next_inode ;;
  winode inum (new_dinode type) ;;;
  ret inum.

(** [for(i = 0; i < used; i++) buf[i/8] = buf[i/8] | (0x1 << (i%8));] *)
Definition bitmap (used : nat) : list Z := foldl (fun b i => mark_bit (Z.of_nat i) b) zero_block (seq 0 used).

Definition balloc (used : Z) : K unit :=
  assert (used <? BSIZE * 8) ;;;
  wsect (sb_bmapstart sb) (bitmap (Z.to_nat used)).

(** The block of file block [fbn], allocated if there is none: the inode with its
    address, and the address. *)
Definition block_of (din : dinode) (fbn : Z) : K (dinode * Z) :=
  if fbn <? NDIRECT then
    a <- from_opt (zget (d_addrs din) fbn) ;;
    if xint a =? 0 then
      b <- next_block ;;
      let din := d_set_addrs (<[Z.to_nat fbn := xint b]> (d_addrs din)) din in
      ret (din, xint (xint b))
    else ret (din, xint a)
  else
    a <- from_opt (zget (d_addrs din) NDIRECT) ;;
    din <- (if xint a =? 0 then
              b <- next_block ;; ret (d_set_addrs (<[Z.to_nat NDIRECT := xint b]> (d_addrs din)) din)
            else ret din) ;;
    a <- from_opt (zget (d_addrs din) NDIRECT) ;;
    indirect <- rsect (xint a) ;;
    if ind_get indirect (fbn - NDIRECT) =? 0 then
      b <- next_block ;;
      wsect (xint a) (ind_set indirect (fbn - NDIRECT) (xint b)) ;;;
      ret (din, xint (xint b))
    else ret (din, xint (ind_get indirect (fbn - NDIRECT))).

(** The loop of [iappend]: [p] are the bytes left, at least one per round. *)
Fixpoint iappend_loop (fuel : nat) (din : dinode) (off : Z) (p : list Z) : K (dinode * Z) :=
  match p with
  | [] => ret (din, off)
  | _ =>
      match fuel with
      | O => halt fuel_stop
      | S fuel' =>
          let fbn := off / BSIZE in
          assert (fbn <? MAXFILE) ;;;
          let* (din, x) := block_of din fbn in
          let n1 := Z.min (zlen p) ((fbn + 1) * BSIZE - off) in
          buf <- rsect x ;;
          wsect x (splice (Z.to_nat (off - fbn * BSIZE)) (take (Z.to_nat n1) p) buf) ;;;
          iappend_loop fuel' din (off + n1) (drop (Z.to_nat n1) p)
      end
  end.

Definition iappend (inum : Z) (xp : list Z) : K unit :=
  din <- rinode inum ;;
  let* (din, off) := iappend_loop (length xp) din (xint (d_size din)) xp in
  winode inum (d_set_size (xint off) din).

(** [struct dirent] with a name copied by [strcpy] or [strncpy]. *)
Definition dirent_of (inum : Z) (name : list Z) : list Z :=
  mk_dirent (xshort inum) (take (Z.to_nat DIRSIZ) (name ++ replicate (Z.to_nat DIRSIZ) 0)).

Section Main.
(** The files of the host: what [read] returns until it returns 0. *)
Context (host : list Z -> option (list (list Z))).

Definition add_file (rootino : Z) (arg : list Z) : K unit :=
  assert (bool_decide (47 ∉ arg)) ;;;
  match host arg with
  | None => halt exited_stop
  | Some reads =>
      let name := match arg with c :: arg' => if c =? 95 then arg' else arg | [] => arg end in
      inum <- ialloc T_FILE ;;
      iappend rootino (dirent_of inum name) ;;;
      for_each reads (iappend inum)
  end.

(** The super block in a cleared buffer. *)
Definition sb_block : list Z :=
  splice 0 (le_bytes 4 (sb_size sb) ++ le_bytes 4 (sb_nblocks sb) ++ le_bytes 4 (sb_ninodes sb) ++ le_bytes 4 (sb_nlog sb)
    ++ le_bytes 4 (sb_logstart sb) ++ le_bytes 4 (sb_inodestart sb) ++ le_bytes 4 (sb_bmapstart sb)) zero_block.

(** [main] from the point where the image is open and empty; [args] are the files. *)
Definition mkfs (args : list (list Z)) : K unit :=
  assert (BSIZE mod sizeof_dinode =? 0) ;;;
  assert (BSIZE mod sizeof_dirent =? 0) ;;;
  modify (fun s => mkMk (m_img s) (freeinode s) nmeta) ;;;
  for_each (seqZ 0 FSSIZE) (fun i => wsect i zero_block) ;;;
  wsect 1 sb_block ;;;
  rootino <- ialloc T_DIR ;;
  assert (rootino =? ROOTINO) ;;;
  iappend rootino (dirent_of rootino [46]) ;;;
  iappend rootino (dirent_of rootino [46; 46]) ;;;
  for_each args (add_file rootino) ;;;
  din <- rinode rootino ;;
  let off := xint (d_size din) in
  let off := (off / BSIZE + 1) * BSIZE in
  winode rootino (d_set_size (xint off) din) ;;;
  s <- gets id ;;
  balloc (freeblock s).
End Main.

(** The image before [main]. *)
Definition mk_start : mk := mkMk [] 1 0.
