(* ===== verification/MkfsSpec.v ===== *)
(** * The image that mkfs builds is a file system the kernel can run on

    The layout that the theorems on the file system assume holds of the image, and
    its files have the contents they were given. *)

From S2P Require Import Prelude KMonad CString Params Bio BioSpec Log LogSpec Crash LogOps Users Store Fs FsSpec FileSpec Dinode Content ReadWrite Mkfs.

Lemma xint_id x : is_u32 x -> xint x = x.
Proof. intros Hx. unfold xint. rewrite u32_id by done. apply le_val_bytes. exact Hx. Qed.

Lemma xshort_id x : is_u16 x -> xshort x = x.
Proof. intros Hx. unfold xshort. rewrite u16_id by done. apply le_val_bytes. exact Hx. Qed.

(** ** The bitmap *)

Lemma length_bitmap n : length (bitmap n) = 512%nat /\ Forall is_byte (bitmap n).
Proof.
  unfold bitmap. induction n as [|n [IH1 IH2]]; [apply zero_block_wf|]. rewrite seq_S, foldl_app. cbn [foldl].
  by apply wf_block_mark.
Qed.

Lemma bitmap_S n : bitmap (S n) = mark_bit (Z.of_nat n) (bitmap n).
Proof. unfold bitmap. by rewrite seq_S, foldl_app. Qed.

Lemma bitmap_bit n b : (n <= 4096)%nat -> 0 <= b < 4096 -> bit_set (bitmap n) b = (b <? Z.of_nat n).
Proof.
  intros Hn Hb. induction n as [|n IH].
  - replace (b <? Z.of_nat 0) with false by (symmetry; apply Z.ltb_ge; lia). unfold bit_set, bitmap. cbn [seq foldl].
    assert (zero_block !!! Z.to_nat (b / 8) = 0) as ->; [|by rewrite Z.land_0_l].
    rewrite list_lookup_total_alt. unfold zero_block. rewrite lookup_replicate_2 by mlia. done.
  - rewrite bitmap_S, bit_set_mark; [|unfold bit_ok, zlen; destruct (length_bitmap n) as [-> _]; lia|lia].
    rewrite IH by lia. case_bool_decide; [subst; symmetry; apply Z.ltb_lt; lia|].
    destruct (Z.ltb_spec b (Z.of_nat n)), (Z.ltb_spec b (Z.of_nat (S n))); lia || done.
Qed.

(** ** The image and the blocks it stands for *)

(** [V] is the image with the bitmap that mkfs will write at the end. *)
Record rep (s : mk) (V : Z -> list Z) : Prop := {
  rp_len : length (m_img s) = Z.to_nat FSSIZE;
  rp_img : forall b, 0 <= b < FSSIZE -> b ≠ sb_bmapstart sb -> m_img s !! Z.to_nat b = Some (V b);
  rp_bits : V (sb_bmapstart sb) = bitmap (Z.to_nat (freeblock s));
  rp_wf : forall b, 0 <= b < FSSIZE -> wf_block (V b);
  rp_free : nmeta <= freeblock s <= FSSIZE;
  rp_zero : forall b, freeblock s <= b < FSSIZE -> V b = zero_block }.

Section Rep.
Context (s : mk) (V : Z -> list Z) (HR : rep s V).

Lemma rep_allocated b : 0 <= b < 4096 -> allocated sb V b = (b <? freeblock s).
Proof using HR.
  intros Hb. destruct HR. unfold allocated. rewrite rp_bits0, bitmap_bit.
  - by rewrite Z2Nat.id by (unfold nmeta, nlog, LOGSIZE, MAXOPBLOCKS in *; change ninodeblocks with 26 in *; change nbitmap with 1 in *; lia).
  - unfold FSSIZE in *. lia.
  - done.
Qed.

Lemma rep_fresh : freeblock s < FSSIZE -> fresh sb V (freeblock s).
Proof using HR.
  intros Hlt. pose proof HR as [H1 H2 H3 H4 H5 H6]. change nmeta with 59 in H5. unfold FSSIZE in *.
  assert (Ha : forall b, 0 <= b -> allocated sb (balloc_view sb V (freeblock s)) b
            = bool_decide (b = freeblock s) || allocated sb V b).
  { intros b Hb. unfold allocated at 1, balloc_view. rewrite upd_ne by (change (sb_bmapstart sb) with 58; lia).
    rewrite upd_eq, bit_set_mark; [by case_bool_decide| |done]. rewrite H3. unfold bit_ok, zlen.
    destruct (length_bitmap (Z.to_nat (freeblock s))) as [-> _]. lia. }
  split.
  - split; [change (sb_bmapstart sb) with 58; change (sb_size sb) with 1000; lia|]. rewrite Ha by lia. by rewrite bool_decide_true.
  - rewrite rep_allocated by lia. apply Z.ltb_ge. lia.
  - intros b Hb E. by rewrite Ha, E, orb_true_r.
  - intros b E Hne. apply balloc_view_other; [|done]. intros ->. rewrite rep_allocated in E by lia. apply Z.ltb_lt in E. lia.
  - unfold balloc_view. apply upd_eq.
  - by apply (free_blocks_mark _ _ _ (freeblock s)).
Qed.
End Rep.

(** A block is handed out. *)
Lemma next_block_rep s V : rep s V -> freeblock s < FSSIZE ->
  exists s', next_block s = Ok (freeblock s) s' /\ rep s' (balloc_view sb V (freeblock s))
    /\ freeblock s' = freeblock s + 1 /\ freeinode s' = freeinode s.
Proof.
  intros HR Hlt. pose proof HR as [H1 H2 H3 H4 H5 H6]. unfold next_block. change nmeta with 59 in H5. unfold FSSIZE in *.
  rewrite (bind_Ok (gets id) _ s s s eq_refl). eexists. split; [reflexivity|]. cbn [m_img freeinode freeblock].
  rewrite u32_id by (unfold is_u32; lia). split; [|done]. split; cbn [m_img freeinode freeblock]; try done.
  - intros b Hb Hne. unfold balloc_view. destruct (decide (b = freeblock s)) as [->|Hn].
    + rewrite upd_eq, <- (H6 (freeblock s)) by lia. apply H2; [done|done].
    + rewrite !upd_ne by done. by apply H2.
  - unfold balloc_view. rewrite upd_ne by (change (sb_bmapstart sb) with 58; lia). rewrite upd_eq, H3.
    replace (Z.to_nat (freeblock s + 1)) with (S (Z.to_nat (freeblock s))) by lia. rewrite bitmap_S. f_equal. lia.
  - intros b Hb. unfold balloc_view, upd. repeat case_decide; [apply zero_block_wf| |by apply H4].
    rewrite H3. apply wf_block_mark, length_bitmap.
  - change nmeta with 59. unfold FSSIZE. lia.
  - intros b Hb. unfold FSSIZE in *. unfold balloc_view. rewrite !upd_ne by (change (sb_bmapstart sb) with 58; lia). apply H6. lia.
Qed.

Lemma rsect_rep s V b : rep s V -> 0 <= b < FSSIZE -> b ≠ sb_bmapstart sb -> rsect b s = Ok (V b) s.
Proof. intros HR Hb Hne. unfold rsect. rewrite (bind_Ok (gets id) _ s s s eq_refl), (rp_img _ _ HR b Hb Hne). done. Qed.

(** A block in use is written. *)
Lemma wsect_rep s V b d : rep s V -> 0 <= b < freeblock s -> b ≠ sb_bmapstart sb -> wf_block d ->
  exists s', wsect b d s = Ok tt s' /\ rep s' (upd V b d) /\ freeblock s' = freeblock s /\ freeinode s' = freeinode s.
Proof.
  intros HR Hb Hne Hd. pose proof HR as [H1 H2 H3 H4 H5 H6]. unfold wsect. unfold FSSIZE in *.
  eexists. split; [reflexivity|]. cbn [m_img freeinode freeblock]. rewrite (proj2 (Nat.ltb_lt _ _)) by lia. split; [|done].
  split; cbn [m_img freeinode freeblock]; unfold FSSIZE; try done.
  - by rewrite length_insert.
  - intros c Hc Hnc. destruct (decide (c = b)) as [->|].
    + rewrite upd_eq. apply list_lookup_insert_eq. lia.
    + rewrite upd_ne by done. rewrite list_lookup_insert_ne by lia. by apply H2.
  - rewrite upd_ne by done. done.
  - intros c Hc. unfold upd. case_decide; [done|by apply H4].
  - intros c Hc. rewrite upd_ne by lia. by apply H6.
Qed.

(** ** Appending to a file *)

Lemma get_addr_eq {B} d k (f : Z -> K B) s : length (d_addrs d) = NADDRS -> 0 <= k <= NDIRECT ->
  bind (from_opt (zget (d_addrs d) k)) f s = f (d_addrs d !!! Z.to_nat k) s.
Proof.
  intros Hl Hk. change NADDRS with 12%nat in Hl. unfold NDIRECT in Hk.
  destruct (lookup_lt_is_Some_2 (d_addrs d) (Z.to_nat k)) as [a Ha]; [lia|].
  unfold zget. rewrite (proj2 (Z.leb_le 0 k)) by lia. rewrite Ha, list_lookup_total_alt, Ha. done.
Qed.

Lemma data_u32 V b : b = 0 \/ data_block sb V b -> is_u32 b.
Proof. intros [->|[Hb _]]; unfold is_u32; [lia|]. change (sb_bmapstart sb) with 58 in Hb. change (sb_size sb) with 1000 in Hb. lia. Qed.

Lemma faddr_u32 V d k : file_ok sb V d -> 0 <= k < MAXFILE -> is_u32 (faddr V d k).
Proof.
  intros Hok Hk. apply (data_u32 V). destruct (decide (faddr V d k = 0)); [by left|right]. by apply (fo_data _ _ _ Hok).
Qed.

Lemma ind_u32 V d : file_ok sb V d -> is_u32 (ind_addr d).
Proof.
  intros Hok. apply (data_u32 V). destruct (decide (ind_addr d = 0)); [by left|right]. by apply (fo_ind _ _ _ Hok).
Qed.

Lemma rep_data s V b : rep s V -> data_block sb V b -> nmeta <= b < freeblock s /\ b ≠ sb_bmapstart sb.
Proof.
  intros HR [Hb Ha]. change (sb_bmapstart sb) with 58 in *. change (sb_size sb) with 1000 in Hb. change nmeta with 59.
  rewrite (rep_allocated s V HR) in Ha by lia. apply Z.ltb_lt in Ha. lia.
Qed.

(** The blocks that [block_of] takes: one for the data and one for the indirect
    block, where they are missing. *)
Definition one (b : bool) : Z := if b then 1 else 0.
Definition takes (V : Z -> list Z) (d : dinode) (fbn : Z) : Z :=
  one (faddr V d fbn =? 0) + one ((NDIRECT <=? fbn) && (ind_addr d =? 0)).

(** What [block_of] achieves, from the image [s] and the inode [d]. *)
Record maps (s : mk) (V : Z -> list Z) (d : dinode) (fbn : Z) (d' : dinode) (b : Z) (s' : mk) (V' : Z -> list Z) : Prop := {
  ma_rep : rep s' V';
  ma_mapped : exists L', mapped sb V d ∅ V' d' L' fbn b;
  ma_takes : freeblock s' = freeblock s + takes V d fbn;
  ma_inode : freeinode s' = freeinode s;
  ma_ind : ind_addr d' = 0 <-> ind_addr d = 0 /\ fbn < NDIRECT }.

Lemma block_direct s V d fbn : rep s V -> file_ok sb V d -> 0 <= fbn < NDIRECT -> freeblock s + takes V d fbn <= FSSIZE ->
  exists d' b s' V', block_of d fbn s = Ok (d', b) s' /\ maps s V d fbn d' b s' V'.
Proof.
  intros HR Hok Hbn Hlt. pose proof (fo_len _ _ _ Hok) as Hl. unfold takes in *.
  rewrite (proj2 (Z.leb_gt NDIRECT fbn)) in * by lia. cbn [andb one] in *.
  assert (Hm : 0 <= fbn < MAXFILE) by (change MAXFILE with 139; unfold NDIRECT in Hbn; lia).
  assert (Hf : faddr V d fbn = d_addrs d !!! Z.to_nat fbn) by (unfold faddr; by rewrite (proj2 (Z.ltb_lt fbn NDIRECT)) by lia).
  pose proof (faddr_u32 V d fbn Hok Hm) as Hu. unfold block_of. rewrite (proj2 (Z.ltb_lt fbn NDIRECT)) by lia.
  rewrite get_addr_eq by (done || lia). rewrite <- Hf, xint_id by done. destruct (Z.eqb_spec (faddr V d fbn) 0) as [E|E]; cbn [one] in *.
  - destruct (next_block_rep s V HR ltac:(lia)) as (s1 & E1 & R1 & F1 & I1). rewrite (bind_Ok _ _ _ _ _ E1). cbv zeta.
    assert (Hb : is_u32 (freeblock s)) by (pose proof (rp_free _ _ HR) as Hx; change nmeta with 59 in Hx; unfold is_u32, FSSIZE in *; lia).
    rewrite !xint_id by done. do 4 eexists. split; [reflexivity|]. split; [exact R1| |unfold takes, one; rewrite E, (proj2 (Z.leb_gt NDIRECT fbn)) by lia; cbn; lia|done|].
    + eexists. apply mapped_direct; [change (sb_bmapstart sb) with 58; lia|done|done|done|apply rep_fresh; [done|lia]].
    + unfold ind_addr at 1. cbn. rewrite list_lookup_total_insert_ne by (unfold NDIRECT in *; lia). unfold ind_addr. intuition lia.
  - do 4 eexists. split; [reflexivity|]. split; [exact HR| |unfold takes, one; rewrite (proj2 (Z.eqb_neq _ 0) E), (proj2 (Z.leb_gt NDIRECT fbn)) by lia; cbn; lia|done|intuition lia].
    eexists. by apply mapped_refl.
Qed.

(** The entry of an existing indirect block. *)
Lemma block_entry s V d fbn : rep s V -> file_ok sb V d -> NDIRECT <= fbn < MAXFILE -> ind_addr d ≠ 0 ->
  freeblock s + one (faddr V d fbn =? 0) <= FSSIZE ->
  exists b s' V', (indirect <- rsect (ind_addr d) ;;
      if ind_get indirect (fbn - NDIRECT) =? 0 then
        b <- next_block ;;
        wsect (ind_addr d) (ind_set indirect (fbn - NDIRECT) (xint b)) ;;;
        ret (d, xint (xint b))
      else ret (d, xint (ind_get indirect (fbn - NDIRECT)))) s = Ok (d, b) s'
    /\ rep s' V' /\ (forall L, exists L', mapped sb V d L V' d L' fbn b)
    /\ (size (free_blocks sb V) <= size (free_blocks sb V') + 1)%nat
    /\ freeblock s' = freeblock s + one (faddr V d fbn =? 0) /\ freeinode s' = freeinode s.
Proof.
  intros HR Hok Hbn Hi Hlt. pose proof (fo_ind _ _ _ Hok Hi) as Hd. destruct (rep_data _ _ _ HR Hd) as [Hir Hib].
  pose proof (rp_free _ _ HR) as Hfb. change nmeta with 59 in *. unfold FSSIZE in *.
  assert (Hm : 0 <= fbn < MAXFILE) by (unfold NDIRECT in Hbn; lia).
  assert (Hf : faddr V d fbn = ind_get (V (ind_addr d)) (fbn - NDIRECT)).
  { unfold faddr. rewrite (proj2 (Z.ltb_ge fbn NDIRECT)) by lia. by rewrite (proj2 (Z.eqb_neq _ 0)). }
  rewrite (bind_Ok _ _ _ _ _ (rsect_rep s V (ind_addr d) HR ltac:(unfold FSSIZE; lia) Hib)). rewrite <- Hf.
  destruct (Z.eqb_spec (faddr V d fbn) 0) as [E|E]; cbn [one] in *.
  - destruct (next_block_rep s V HR ltac:(unfold FSSIZE; lia)) as (s1 & E1 & R1 & F1 & I1). rewrite (bind_Ok _ _ _ _ _ E1).
    assert (Hb : is_u32 (freeblock s)) by (unfold is_u32; lia). rewrite !xint_id by done.
    pose proof (rep_fresh s V HR ltac:(unfold FSSIZE; lia)) as Hfr.
    assert (Hwf : wf_block (ind_set (V (ind_addr d)) (fbn - NDIRECT) (freeblock s))).
    { apply wf_block_set_le; [change MAXFILE with 139 in *; unfold NDIRECT in *; lia|]. apply (rp_wf _ _ HR). unfold FSSIZE. lia. }
    destruct (wsect_rep s1 _ (ind_addr d) _ R1 ltac:(lia) Hib Hwf) as (s2 & E2 & R2 & F2 & I2). rewrite (bind_Ok _ _ _ _ _ E2).
    do 3 eexists. split; [reflexivity|]. split; [exact R2|]. split; [|split; [|split; [lia|congruence]]].
    + intros L. eexists. apply mapped_entry; try done. apply (rp_wf _ _ HR). unfold FSSIZE. lia.
    + apply entry_count; [congruence|done].
  - rewrite xint_id by (by apply faddr_u32). do 3 eexists. split; [reflexivity|]. split; [exact HR|].
    split; [|split; [lia|split; [lia|done]]]. intros L. exists L. by apply mapped_refl.
Qed.

Lemma block_indirect s V d fbn : rep s V -> file_ok sb V d -> NDIRECT <= fbn < MAXFILE -> freeblock s + takes V d fbn <= FSSIZE ->
  exists d' b s' V', block_of d fbn s = Ok (d', b) s' /\ maps s V d fbn d' b s' V'.
Proof.
  intros HR Hok Hbn Hlt. pose proof (fo_len _ _ _ Hok) as Hl. pose proof (ind_u32 V d Hok) as Hu.
  assert (Ht : takes V d fbn = one (faddr V d fbn =? 0) + one (ind_addr d =? 0)) by (unfold takes; by rewrite (proj2 (Z.leb_le NDIRECT fbn)) by lia).
  unfold block_of. rewrite (proj2 (Z.ltb_ge fbn NDIRECT)) by lia. rewrite get_addr_eq by (done || (unfold NDIRECT; lia)).
  fold (ind_addr d). rewrite xint_id by done. destruct (Z.eqb_spec (ind_addr d) 0) as [E|E]; cbn [one] in Ht.
  - assert (E0 : faddr V d fbn = 0) by (unfold faddr; rewrite (proj2 (Z.ltb_ge fbn NDIRECT)), E by lia; done).
    rewrite E0 in Ht. cbn [one Z.eqb] in Ht.
    destruct (next_block_rep s V HR ltac:(lia)) as (s1 & E1 & R1 & F1 & I1). rewrite <- bind_assoc, (bind_Ok _ _ _ _ _ E1).
    assert (Hb : is_u32 (freeblock s)) by (pose proof (rp_free _ _ HR) as Hx; change nmeta with 59 in Hx; unfold is_u32, FSSIZE in *; lia).
    rewrite (bind_Ok (ret _) _ _ _ _ eq_refl), xint_id by done.
    set (d1 := d_set_addrs _ d). assert (Ei : ind_addr d1 = freeblock s).
    { unfold ind_addr, d1. cbn. apply list_lookup_total_insert_eq. rewrite Hl. unfold NADDRS, NDIRECT. lia. }
    pose proof (indirect_new sb V d ∅ (freeblock s) ltac:(change (sb_bmapstart sb) with 58; lia) Hok E (rep_fresh s V HR ltac:(lia))) as HI.
    fold d1 in HI. pose proof (in_ok _ _ _ _ _ _ _ HI) as Hok1. pose proof (in_nz _ _ _ _ _ _ _ HI) as Hnz.
    rewrite get_addr_eq by (apply (fo_len _ _ _ Hok1) || (unfold NDIRECT; lia)). fold (ind_addr d1). rewrite xint_id by (by rewrite Ei).
    assert (Hm : 0 <= fbn < MAXFILE) by (unfold NDIRECT in Hbn; lia).
    assert (E1f : faddr (balloc_view sb V (freeblock s)) d1 fbn = 0) by (by rewrite (in_addr _ _ _ _ _ _ _ HI) by done).
    destruct (block_entry s1 _ d1 fbn R1 Hok1 Hbn Hnz) as (b & s2 & V2 & E2 & R2 & M2 & C2 & F2 & I2); [rewrite E1f; cbn [one Z.eqb]; lia|].
    rewrite E1f in F2. cbn [one Z.eqb] in F2.
    destruct (M2 ({[freeblock s]} ∪ ({[sb_bmapstart sb]} ∪ ∅))) as [L' M']. exists d1, b, s2, V2. split; [exact E2|].
    split; [exact R2| |lia|congruence|split; [done|lia]]. exists L'.
    eapply indirect_mapped; [change (sb_bmapstart sb) with 58; lia|done|exact HI|exact M'|done].
  - rewrite (bind_Ok (ret d) _ _ _ _ eq_refl). rewrite get_addr_eq by (done || (unfold NDIRECT; lia)). fold (ind_addr d).
    rewrite xint_id by done.
    destruct (block_entry s V d fbn HR Hok Hbn E ltac:(lia)) as (b & s2 & V2 & E2 & R2 & M2 & C2 & F2 & I2).
    destruct (M2 ∅) as [L' M']. exists d, b, s2, V2. split; [exact E2|]. split; [exact R2|by exists L'|lia|done|split; [done|lia]].
Qed.

Lemma block_of_ok s V d fbn : rep s V -> file_ok sb V d -> 0 <= fbn < MAXFILE -> freeblock s + takes V d fbn <= FSSIZE ->
  exists d' b s' V', block_of d fbn s = Ok (d', b) s' /\ maps s V d fbn d' b s' V'.
Proof.
  intros HR Hok Hbn Hlt. destruct (decide (fbn < NDIRECT)).
  - apply block_direct; [done|done|lia|lia].
  - apply block_indirect; [done|done|lia|lia].
Qed.

(** A file of [n] bytes has exactly these blocks, the indirect one included, and
    zeroes from its end to the end of its last block. *)
Definition nblk (n : Z) : Z := (n + 511) / 512 + one (5632 <? n).

Record exactly (V : Z -> list Z) (d : dinode) (n : Z) : Prop := {
  ex_data : forall k, 0 <= k < MAXFILE -> faddr V d k = 0 <-> n <= k * 512;
  ex_ind : ind_addr d = 0 <-> n <= 5632;
  ex_tail : forall p, 0 <= p < MAXBYTES -> n <= p -> faddr V d (p / BSIZE) ≠ 0 -> fbyte V d p = 0 }.

Lemma nblk_mono m n : m <= n -> nblk m <= nblk n.
Proof. intros H. unfold nblk, one. destruct (Z.ltb_spec 5632 m), (Z.ltb_spec 5632 n); mlia. Qed.

(** The block of the end of a file is mapped. *)
Lemma takes_eq V d off n1 : 0 <= off -> 0 < n1 -> off mod BSIZE + n1 <= BSIZE -> off + n1 <= MAXBYTES -> exactly V d off ->
  takes V d (off / BSIZE) = nblk (off + n1) - nblk off.
Proof.
  intros Hoff Hn Hfit Hmax [X1 X2 _]. destruct (pos_block off ltac:(lia)) as [Hbn Hmod].
  unfold BSIZE in *. change MAXBYTES with 71168 in *. change MAXFILE with 139 in *.
  unfold takes, nblk, one, NDIRECT. pose proof (X1 _ Hbn) as Y1.
  destruct (Z.eqb_spec (faddr V d (off / 512)) 0) as [E|E], (Z.eqb_spec (ind_addr d) 0) as [E'|E'];
    destruct (Z.leb_spec 11 (off / 512)), (Z.ltb_spec 5632 (off + n1)), (Z.ltb_spec 5632 off); cbn [andb];
    first [apply Y1 in E|assert (~ off <= off / 512 * 512) by tauto]; first [apply X2 in E'|assert (~ off <= 5632) by tauto]; mlia.
Qed.

Lemma exactly_step s V d off d1 b s1 V1 bytes :
  file_ok sb V d -> 0 <= off -> 0 < zlen bytes -> off mod BSIZE + zlen bytes <= BSIZE -> off + zlen bytes <= MAXBYTES ->
  exactly V d off -> maps s V d (off / BSIZE) d1 b s1 V1 -> length (V1 b) = 512%nat ->
  exactly (upd V1 b (splice (Z.to_nat (off mod BSIZE)) bytes (V1 b))) d1 (off + zlen bytes).
Proof.
  intros Hok Hoff Hn Hfit Hmax [X1 X2 X3] [_ [L M] _ _ Hi] Hl. destruct (pos_block off ltac:(lia)) as [Hbn Hmod].
  assert (Hbm : 0 <= sb_bmapstart sb) by (change (sb_bmapstart sb) with 58; lia).
  assert (Hoff' : 0 <= off /\ 0 < zlen bytes /\ off + zlen bytes <= MAXBYTES) by lia.
  set (V2 := upd V1 b _).
  assert (Hfa : forall k, 0 <= k < MAXFILE -> faddr V2 d1 k = 0 <-> off + zlen bytes <= k * 512).
  { intros k Hk. pose proof (block_faddr sb V d ∅ V1 d1 L off b bytes M Hoff' Hl k) as E. fold V2 in E. rewrite E.
    rewrite (mp_addr _ _ _ _ _ _ _ _ _ M) by done. pose proof (mp_nz _ _ _ _ _ _ _ _ _ M). unfold BSIZE in *. case_bool_decide as E'.
    + subst k. split; [done|]. mlia.
    + rewrite X1 by done. mlia. }
  split; [done| |].
  - rewrite Hi, X2. unfold BSIZE, NDIRECT in *. change MAXBYTES with 71168 in *. mlia.
  - intros p Hp Hge Hf. destruct (pos_block p Hp) as [Hpb Hpm]. rewrite Hfa in Hf by done.
    assert (Epb : p / BSIZE = off / BSIZE) by (unfold BSIZE in *; mlia).
    pose proof (block_bytes sb V d ∅ V1 d1 L off b bytes M Hoff' Hl p Epb) as Eb. fold V2 in Eb. rewrite Eb.
    rewrite list_lookup_total_alt, lookup_splice_out by (unfold zlen, BSIZE in *; mlia). rewrite <- list_lookup_total_alt.
    destruct (decide (faddr V d (off / BSIZE) = 0)) as [E0|E0].
    + destruct (mp_new _ _ _ _ _ _ _ _ _ M E0) as [-> _]. rewrite list_lookup_total_alt. unfold zero_block.
      rewrite lookup_replicate_2 by (unfold BSIZE in *; lia). done.
    + destruct (block_keep sb Hbm V d ∅ V1 d1 L off b Hok M Hl _ Hbn E0) as [_ Ek].
      rewrite (mp_old _ _ _ _ _ _ _ _ _ M E0), Ek, <- Epb. apply (X3 p Hp); [lia|]. by rewrite Epb.
Qed.

Lemma iappend_loop_ok fuel : forall s V d off p,
  rep s V -> file_ok sb V d -> exactly V d off -> 0 <= off -> off + zlen p <= MAXBYTES -> Forall is_byte p -> (length p <= fuel)%nat ->
  freeblock s + (nblk (off + zlen p) - nblk off) <= FSSIZE ->
  exists d' s' V', iappend_loop fuel d off p s = Ok (d', off + zlen p) s' /\ rep s' V' /\ wrote sb V d V' d' off p
    /\ exactly V' d' (off + zlen p)
    /\ freeblock s' = freeblock s + (nblk (off + zlen p) - nblk off) /\ freeinode s' = freeinode s.
Proof.
  assert (Hbm : 0 <= sb_bmapstart sb) by (change (sb_bmapstart sb) with 58; lia).
  induction fuel as [|fuel IH]; intros s V d off p HR Hok HX Hoff Hmax Hby Hl Hfree.
  { destruct p; [|simpl in Hl; lia]. exists d, s, V. change (zlen (@nil Z)) with 0. rewrite Z.add_0_r. split; [done|]. split; [done|]. split; [by apply wrote_nil|].
    split; [done|]. split; [lia|done]. }
  destruct p as [|c p0].
  { exists d, s, V. change (zlen (@nil Z)) with 0. rewrite Z.add_0_r. split; [done|]. split; [done|]. split; [by apply wrote_nil|].
    split; [done|]. split; [lia|done]. }
  cbn [iappend_loop]. set (p := c :: p0) in *. assert (Hp : 0 < zlen p) by (unfold zlen, p; simpl; lia).
  destruct (pos_block off ltac:(lia)) as [Hbn Hmod]. rewrite (proj2 (Z.ltb_lt _ MAXFILE)) by lia.
  rewrite (bind_Ok (assert true) _ s tt s eq_refl). cbv zeta.
  set (n1 := Z.min (zlen p) ((off / BSIZE + 1) * BSIZE - off)). set (bytes := take (Z.to_nat n1) p).
  assert (Hn1 : 0 < n1 <= zlen p /\ off mod BSIZE + n1 <= BSIZE) by (unfold n1, BSIZE in *; mlia).
  assert (Hz : zlen bytes = n1) by (unfold bytes, zlen in *; rewrite length_take; lia).
  pose proof (takes_eq V d off n1 Hoff ltac:(lia) ltac:(lia) ltac:(lia) HX) as Ht. pose proof (nblk_mono (off + n1) (off + zlen p) ltac:(lia)).
  destruct (block_of_ok s V d (off / BSIZE) HR Hok Hbn ltac:(lia)) as (d1 & b & s1 & V1 & E1 & HM). pose proof HM as [R1 [L1 M1] F1 I1 _].
  rewrite (bind_Ok _ _ _ _ _ E1). cbn beta iota.
  pose proof (mp_addr _ _ _ _ _ _ _ _ _ M1 _ Hbn) as Eb. rewrite bool_decide_true in Eb by done.
  pose proof (mp_ok _ _ _ _ _ _ _ _ _ M1) as Hok1. pose proof (mp_nz _ _ _ _ _ _ _ _ _ M1) as Hnz.
  assert (Hd : data_block sb V1 b) by (rewrite <- Eb; apply Hok1; [done|by rewrite Eb]).
  assert (Hbi : b ≠ ind_addr d1) by (rewrite <- Eb; apply (fo_sep _ _ _ Hok1); [done|by rewrite Eb]).
  destruct (rep_data _ _ _ R1 Hd) as [Hb1 Hb2]. pose proof (rp_free _ _ R1). change nmeta with 59 in *.
  assert (Hw : wf_block (V1 b)) by (apply (rp_wf _ _ R1); lia).
  rewrite (bind_Ok _ _ _ _ _ (rsect_rep s1 V1 b R1 ltac:(lia) Hb2)).
  replace (off - off / BSIZE * BSIZE) with (off mod BSIZE) by (unfold BSIZE; mlia).
  destruct (wsect_rep s1 V1 b (splice (Z.to_nat (off mod BSIZE)) bytes (V1 b)) R1 ltac:(lia) Hb2) as (s2 & E2 & R2 & F2 & I2).
  { apply wf_splice; [done|by apply Forall_take|]. unfold zlen, BSIZE in *. lia. }
  rewrite (bind_Ok _ _ _ _ _ E2).
  assert (W1 : wrote sb V d (upd V1 b (splice (Z.to_nat (off mod BSIZE)) bytes (V1 b))) d1 off bytes).
  { eapply wrote_block; [done|done|exact M1|lia|lia|apply Hw]. }
  pose proof (exactly_step _ _ _ _ _ _ _ _ bytes Hok Hoff ltac:(lia) ltac:(lia) ltac:(lia) HX HM (proj1 Hw)) as HX1. rewrite Hz in HX1.
  assert (Hz2 : zlen (drop (Z.to_nat n1) p) = zlen p - n1) by (unfold zlen in *; rewrite length_drop; lia).
  assert (Hend : off + n1 + (zlen p - n1) = off + zlen p) by lia.
  destruct (IH s2 _ d1 (off + n1) (drop (Z.to_nat n1) p) R2 (wr_ok _ _ _ _ _ _ _ W1) HX1) as (d2 & s3 & V3 & E3 & R3 & W3 & X3 & F3 & I3);
    rewrite ?Hz2, ?Hend in *; [lia|lia|by apply Forall_drop|rewrite length_drop; unfold zlen in *; lia|lia|].
  exists d2, s3, V3. split; [exact E3|]. split; [exact R3|]. split; [|split; [done|split; [lia|congruence]]].
  rewrite <- (take_drop (Z.to_nat n1) p). fold bytes. eapply wrote_trans; [done|lia|lia|exact W1|]. rewrite Hz. exact W3.
Qed.

(** ** All the files of the image *)

Definition dino (V : Z -> list Z) (j : Z) : dinode := read_dinode (dinode_off j) (V (IBLOCK j sb)).

(** A file whose blocks do not change keeps its exact shape. *)
Lemma frame_exactly V V' d n : (forall b, owns V d b -> V' b = V b) -> exactly V d n -> exactly V' d n.
Proof.
  intros Hsame [X1 X2 X3]. pose proof (frame_faddr V V' d Hsame) as Hf.
  split; [intros k Hk; rewrite Hf; auto|done|].
  intros p Hp Hn Hq. rewrite Hf in Hq. rewrite <- (X3 p Hp Hn Hq). unfold fbyte. rewrite Hf, Hsame; [done|].
  split; [done|right]. exists (p / BSIZE). split; [|done]. by apply pos_block.
Qed.

(** The inode of a file that mkfs made. *)
Definition made (type : Z) (d : dinode) : Prop := d = d_set_size (d_size d) (d_set_addrs (d_addrs d) (new_dinode type)).

Definition is_file (V : Z -> list Z) (type : Z) (bytes : list Z) (d : dinode) : Prop :=
  file_ok sb V d /\ dinode_ok d /\ made type d /\ file_bytes V d = bytes /\ exactly V d (zlen bytes).

(** The first block that no file has. *)
Definition used (files : list (Z * list Z)) : Z := foldr (fun x n => nblk (zlen x.2) + n) nmeta files.

(** The blocks before the inodes: the super block and the empty log. *)
Definition head_block (b : Z) : list Z := if b =? 1 then sb_block else zero_block.

(** Inode [1 + k] is the file [files !! k]: its type and its bytes. *)
Record fsinv (s : mk) (V : Z -> list Z) (files : list (Z * list Z)) : Prop := {
  fi_rep : rep s V;
  fi_count : freeinode s = 1 + zlen files;
  fi_max : freeinode s <= NINODES;
  fi_used : freeblock s = used files;
  fi_head : forall b, 0 < b < sb_inodestart sb -> V b = head_block b;
  fi_free : forall i, 0 <= i < NINODES -> ~ (1 <= i < freeinode s) -> d_type (dino V i) = 0;
  fi_file : forall k type bytes, files !! k = Some (type, bytes) -> is_file V type bytes (dino V (1 + Z.of_nat k));
  fi_sep : forall k k' b, (k < length files)%nat -> (k' < length files)%nat -> k ≠ k' ->
    owns V (dino V (1 + Z.of_nat k)) b -> ~ owns V (dino V (1 + Z.of_nat k')) b }.

(** A file whose blocks are as they were. *)
Lemma is_file_frame V V' type bytes d : (forall b, owns V d b -> V' b = V b) -> (forall b, data_block sb V b -> allocated sb V' b = true) ->
  is_file V type bytes d -> is_file V' type bytes d.
Proof.
  intros Hs Hm (A1 & A2 & A3 & A4 & A5). split_and!; try done; [by apply (frame_ok sb V)|by rewrite (frame_bytes sb V)|by apply (frame_exactly V)].
Qed.

Lemma used_app files type : used (files ++ [(type, [])]) = used files.
Proof. induction files as [|x l IH]; [done|]. unfold used in *. cbn [foldr app]. by rewrite IH. Qed.

Lemma used_insert files k type old new : files !! k = Some (type, old) ->
  used (<[k := (type, new)]> files) = used files + (nblk (zlen new) - nblk (zlen old)).
Proof.
  revert k. induction files as [|x l IH]; intros [|k] Hk; try done.
  - injection Hk as ->. unfold used. cbn. lia.
  - change (<[S k := (type, new)]> (x :: l)) with (x :: <[k := (type, new)]> l). specialize (IH k Hk).
    unfold used in *. cbn [foldr]. lia.
Qed.

Lemma iblock_range j : 0 <= j < NINODES -> 32 <= IBLOCK j sb < sb_bmapstart sb.
Proof.
  unfold IBLOCK, NINODES, IPB, BSIZE, sizeof_dinode. change (sb_inodestart sb) with 32. change (sb_bmapstart sb) with 58.
  change (512 / 64) with 8. intros. mlia.
Qed.

Definition mk_tx : tx := mkTx 1 (fun _ => true).

Lemma mk_layout : layout_ok sb mk_tx.
Proof.
  split; [change (sb_size sb) with 1000; unfold BPB, BSIZE; lia|done|done|change (sb_bmapstart sb) with 58; change (sb_size sb) with 1000; lia|].
  intros i Hi. change (sb_ninodes sb) with NINODES in Hi. pose proof (iblock_range i Hi). split; [done|lia].
Qed.

Lemma rep_meta s V : rep s V -> meta_used sb V.
Proof.
  intros HR b Hb. pose proof (rp_free _ _ HR) as Hf. change nmeta with 59 in Hf. change (sb_bmapstart sb) with 58 in Hb.
  rewrite (rep_allocated s V HR) by lia. apply Z.ltb_lt. lia.
Qed.

Lemma rinode_rep s V j : rep s V -> 0 <= j < NINODES -> rinode j s = Ok (dino V j) s.
Proof.
  intros HR Hj. pose proof (iblock_range j Hj) as Hi. change (sb_bmapstart sb) with 58 in Hi. unfold rinode.
  rewrite (bind_Ok _ _ _ _ _ (rsect_rep s V (IBLOCK j sb) HR ltac:(unfold FSSIZE; lia) ltac:(change (sb_bmapstart sb) with 58; lia))). done.
Qed.

Lemma winode_rep s V j d : rep s V -> 0 <= j < NINODES -> length (d_addrs d) = NADDRS ->
  let V' := upd V (IBLOCK j sb) (write_dinode (dinode_off j) d (V (IBLOCK j sb))) in
  exists s', winode j d s = Ok tt s' /\ rep s' V' /\ freeblock s' = freeblock s /\ freeinode s' = freeinode s.
Proof.
  intros HR Hj Hl V'. pose proof (iblock_range j Hj) as Hi. change (sb_bmapstart sb) with 58 in Hi. unfold winode.
  rewrite (bind_Ok _ _ _ _ _ (rsect_rep s V (IBLOCK j sb) HR ltac:(unfold FSSIZE; lia) ltac:(change (sb_bmapstart sb) with 58; lia))).
  pose proof (rp_free _ _ HR) as Hf. change nmeta with 59 in Hf.
  apply wsect_rep; [done|lia|change (sb_bmapstart sb) with 58; lia|].
  apply length_block_write; [apply (rp_wf _ _ HR); unfold FSSIZE; lia|done|lia].
Qed.

(** Storing one inode leaves the others. *)
Lemma dino_other V j d i : 0 <= i < NINODES -> 0 <= j < NINODES -> i ≠ j -> length (d_addrs d) = NADDRS ->
  wf_block (V (IBLOCK j sb)) ->
  dino (upd V (IBLOCK j sb) (write_dinode (dinode_off j) d (V (IBLOCK j sb)))) i = dino V i.
Proof.
  intros Hi Hj Hne Hl [Hw _]. unfold dino. destruct (decide (IBLOCK i sb = IBLOCK j sb)) as [E|E]; [|by rewrite upd_ne].
  rewrite E, upd_eq. pose proof (dinode_off_bound j ltac:(lia)). apply read_write_dinode_other; [done|lia|].
  apply dinode_off_apart; [lia|lia|done|]. unfold IBLOCK in E. lia.
Qed.

Lemma dino_same V j d : 0 <= j < NINODES -> dinode_ok d -> wf_block (V (IBLOCK j sb)) ->
  dino (upd V (IBLOCK j sb) (write_dinode (dinode_off j) d (V (IBLOCK j sb)))) j = d.
Proof.
  intros Hj Hd [Hw _]. unfold dino. rewrite upd_eq. pose proof (dinode_off_bound j ltac:(lia)). apply read_write_dinode; [done|lia].
Qed.

Lemma new_faddr V type k : 0 <= k < MAXFILE -> faddr V (new_dinode type) k = 0.
Proof.
  intros Hk. unfold faddr, ind_addr, new_dinode. cbn [d_addrs].
  assert (Hr : forall i, (i < 12)%nat -> replicate NADDRS 0 !!! i = 0).
  { intros i Hi. rewrite list_lookup_total_alt, lookup_replicate_2; done. }
  destruct (Z.ltb_spec k NDIRECT); [apply Hr; unfold NDIRECT in *; lia|]. rewrite Hr by (unfold NDIRECT; lia). done.
Qed.

Lemma new_ok V type : is_i8 type -> 0 <= type ->
  is_file V type [] (new_dinode type) /\ forall b, ~ owns V (new_dinode type) b.
Proof.
  intros Ht H0. assert (Hi : ind_addr (new_dinode type) = 0) by done. unfold is_file. split_and!.
  - split; [apply length_replicate| | | | |change (d_size (new_dinode type)) with 0; change MAXFILE with 139; unfold BSIZE; lia|].
    + intros k Hk. by rewrite new_faddr.
    + by rewrite Hi.
    + intros k k' Hk _. by rewrite new_faddr.
    + intros k Hk. by rewrite new_faddr.
    + intros k Hk. change (d_size (new_dinode type)) with 0. unfold BSIZE. lia.
  - split; cbn [d_perm d_major d_minor d_nlink d_size d_owner new_dinode].
    + split; [vm_compute; discriminate|reflexivity].
    + cbn [d_type new_dinode]. rewrite xshort_id by (unfold is_u16, is_i8 in *; lia). unfold i8, is_i8 in *. mlia.
    + unfold is_i16. lia.
    + unfold is_i16. lia.
    + split; [vm_compute; discriminate|reflexivity].
    + split; [vm_compute; discriminate|reflexivity].
    + split; [apply length_replicate|]. apply Forall_replicate. unfold is_u32. lia.
    + split; [vm_compute; discriminate|reflexivity].
  - done.
  - done.
  - split; [|done|].
    + intros k Hk. rewrite new_faddr by done. change (zlen (@nil Z)) with 0. lia.
    + intros p Hp _ Hf. destruct Hf. apply new_faddr. by apply pos_block.
  - intros b [Hb [->|(k & Hk & E)]]; [done|]. rewrite new_faddr in E by done. congruence.
Qed.

Lemma ialloc_ok s V files type : fsinv s V files -> freeinode s < NINODES -> is_i8 type -> 0 <= type ->
  exists s' V', ialloc type s = Ok (freeinode s) s' /\ fsinv s' V' (files ++ [(type, [])]) /\ freeblock s' = freeblock s.
Proof.
  intros [HR Hc Hm Hu Hh Hfr Hf Hsep] Hlt Ht H0. unfold ialloc.
  set (s1 := mkMk (m_img s) (u32 (freeinode s + 1)) (freeblock s)).
  assert (R1 : rep s1 V) by (destruct HR; by split). rewrite (bind_Ok next_inode _ s (freeinode s) s1 eq_refl). pose proof (zlen_nonneg files) as Hz.
  pose proof (new_ok V type Ht H0) as [(N1 & N2 & _) N5]. set (j := freeinode s) in *.
  assert (Hj : 0 <= j < NINODES) by lia. pose proof (iblock_range j Hj) as Hib.
  destruct (winode_rep s1 V j (new_dinode type) R1 Hj (fo_len _ _ _ N1)) as (s2 & E2 & R2 & F2 & I2).
  rewrite (bind_Ok _ _ _ _ _ E2).
  set (V2 := upd V (IBLOCK j sb) (write_dinode (dinode_off j) (new_dinode type) (V (IBLOCK j sb)))) in *.
  exists s2, V2. split; [reflexivity|]. split; [|done]. assert (Hw : wf_block (V (IBLOCK j sb))).
  { apply (rp_wf _ _ HR). change (sb_bmapstart sb) with 58 in Hib. unfold FSSIZE. lia. }
  assert (Hold : forall k type' bytes, files !! k = Some (type', bytes) -> let d := dino V (1 + Z.of_nat k) in
     dino V2 (1 + Z.of_nat k) = d /\ (forall b, owns V d b -> V2 b = V b)).
  { intros k type' bytes Hk d. apply lookup_lt_Some in Hk as Hl. split.
    - apply dino_other; [unfold zlen in *; lia|done|unfold zlen in *; lia|apply (fo_len _ _ _ N1)|done].
    - intros b Hb. destruct (owns_data _ _ _ _ (proj1 (Hf _ _ _ Hk)) Hb). unfold V2. apply upd_ne. lia. }
  assert (Hmono : forall b, data_block sb V b -> allocated sb V2 b = true).
  { intros b [_ Hb]. unfold V2. by rewrite meta_allocated by lia. }
  assert (Hnew : dino V2 j = new_dinode type) by (by apply dino_same).
  assert (Ej : 1 + Z.of_nat (length files) = j) by (unfold zlen in *; lia).
  split; [exact R2| | |by rewrite used_app, F2| | | |].
  - rewrite I2. cbn. rewrite u32_id by (unfold is_u32, NINODES in *; lia). unfold zlen in *. rewrite length_app. cbn. lia.
  - rewrite I2. cbn. rewrite u32_id by (unfold is_u32, NINODES in *; lia). lia.
  - intros b Hb. unfold V2. rewrite upd_ne; [by apply Hh|]. change (sb_inodestart sb) with 32 in Hb. lia.
  - intros i Hi Hn. rewrite I2 in Hn. cbn in Hn. rewrite u32_id in Hn by (unfold is_u32, NINODES in *; lia).
    unfold V2. rewrite dino_other by (done || lia || apply (fo_len _ _ _ N1)). apply Hfr; lia.
  - intros k type' bytes Hk. apply lookup_app_Some in Hk as [Hk|[Hk1 Hk2]].
    + destruct (Hold _ _ _ Hk) as [-> Hs]. apply (is_file_frame V); auto.
    + apply list_lookup_singleton_Some in Hk2 as [Hk2 [= <- <-]]. assert (k = length files) by lia. subst k.
      rewrite Ej, Hnew. by apply new_ok.
  - assert (Hown : forall k b, (k < length files)%nat -> owns V2 (dino V2 (1 + Z.of_nat k)) b -> owns V (dino V (1 + Z.of_nat k)) b).
    { intros k b Hk Hb. destruct (lookup_lt_is_Some_2 files k Hk) as [[t' y'] Hy]. destruct (Hold _ _ _ Hy) as [E Hs].
      rewrite E in Hb. by apply (frame_owns V V2). }
    intros k k' b Hk Hk' Hne B1 B2. rewrite length_app in Hk, Hk'. cbn in Hk, Hk'.
    assert (Hlast : forall b, ~ owns V2 (dino V2 (1 + Z.of_nat (length files))) b) by (rewrite Ej, Hnew; apply new_ok; done).
    destruct (decide (k = length files)) as [->|]; [by apply (Hlast b)|].
    destruct (decide (k' = length files)) as [->|]; [by apply (Hlast b)|].
    eapply (Hsep k k' b); [lia|lia|done|apply Hown; [lia|done]|apply Hown; [lia|done]].
Qed.

(** The cached inode that the lemmas on files ask for. *)
Definition entry (j : Z) : inode := mkInode ROOTDEV j 1 initsleeplock true (new_dinode T_FILE).

(** One file changes, on its own blocks and free ones. *)
Lemma fsinv_update s V files s2 V2 k type old new :
  let d := dino V (1 + Z.of_nat k) in let d2 := dino V2 (1 + Z.of_nat k) in
  fsinv s V files -> files !! k = Some (type, old) -> rep s2 V2 -> freeinode s2 = freeinode s ->
  freeblock s2 = freeblock s + (nblk (zlen new) - nblk (zlen old)) -> is_file V2 type new d2 ->
  (forall b, owns V2 d2 b -> owns V d b \/ allocated sb V b = false) ->
  (forall i, 0 <= i < NINODES -> i ≠ 1 + Z.of_nat k -> dino V2 i = dino V i) ->
  (forall b, data_block sb V b -> ~ owns V d b -> V2 b = V b) ->
  (forall b, data_block sb V b -> allocated sb V2 b = true) ->
  (forall b, 0 < b < sb_inodestart sb -> V2 b = V b) ->
  fsinv s2 V2 (<[k := (type, new)]> files).
Proof.
  intros d d2 [HR Hc Hm Hu Hh Hfr Hf Hsep] Hk R2 I2 F2 Hnew Hown Hdino Hsame Hmono Hhead. apply lookup_lt_Some in Hk as Hkl.
  assert (Hin : forall i, (i < length files)%nat -> 0 <= 1 + Z.of_nat i < NINODES) by (intros; unfold zlen in *; lia).
  assert (Hoth : forall i t y, files !! i = Some (t, y) -> i ≠ k -> dino V2 (1 + Z.of_nat i) = dino V (1 + Z.of_nat i)
     /\ (forall b, owns V (dino V (1 + Z.of_nat i)) b -> V2 b = V b)).
  { intros i t y Hi Hne. apply lookup_lt_Some in Hi as Hil. split; [apply Hdino; [by apply Hin|lia]|].
    intros b Hb. apply Hsame; [by eapply owns_data; [apply (Hf i t y)|]|]. by apply (Hsep i k b). }
  assert (Hback : forall i b, (i < length files)%nat -> i ≠ k -> owns V2 (dino V2 (1 + Z.of_nat i)) b ->
     owns V (dino V (1 + Z.of_nat i)) b /\ allocated sb V b = true).
  { intros i b Hi Hne Hb. destruct (lookup_lt_is_Some_2 files i Hi) as [[t y] Hy]. destruct (Hoth _ _ _ Hy Hne) as [E Hs].
    rewrite E in Hb. apply (frame_owns V V2) in Hb; [|done]. split; [done|]. eapply owns_data; [apply (Hf i t y Hy)|done]. }
  split; [done| |lia|by rewrite (used_insert _ _ _ _ _ Hk), F2, Hu|by intros b Hb; rewrite Hhead; [apply Hh|]| | |].
  - unfold zlen in *. rewrite length_insert. lia.
  - intros i Hi Hn. rewrite I2 in Hn. unfold zlen in *. rewrite Hdino by lia. by apply Hfr.
  - intros i t y Hi. destruct (decide (i = k)) as [->|Hne].
    + rewrite list_lookup_insert_eq in Hi by done. injection Hi as <- <-. exact Hnew.
    + rewrite list_lookup_insert_ne in Hi by done. destruct (Hoth _ _ _ Hi Hne) as [-> Hs].
      apply (is_file_frame V); auto.
  - intros i i' b Hi Hi' Hne B1 B2. rewrite length_insert in Hi, Hi'.
    destruct (decide (i = k)) as [->|Ni]; [|destruct (decide (i' = k)) as [->|Ni']].
    + destruct (Hback i' b Hi' ltac:(done) B2) as [C1 C2]. destruct (Hown b B1) as [C3|C3]; [|congruence]. by apply (Hsep i' k b).
    + destruct (Hback i b Hi Ni B1) as [C1 C2]. destruct (Hown b B2) as [C3|C3]; [|congruence]. by apply (Hsep i k b).
    + destruct (Hback i b Hi Ni B1), (Hback i' b Hi' Ni' B2). by apply (Hsep i i' b).
Qed.

Lemma iappend_ok s V files k type old p : fsinv s V files -> files !! k = Some (type, old) ->
  Forall is_byte p -> p ≠ [] -> zlen old + zlen p <= MAXBYTES ->
  used (<[k := (type, old ++ p)]> files) <= FSSIZE ->
  exists s' V', iappend (1 + Z.of_nat k) p s = Ok tt s' /\ fsinv s' V' (<[k := (type, old ++ p)]> files).
Proof.
  intros HI Hk Hby Hp Hmax Hfree. pose proof HI as [HR Hc Hm Hu Hh Hfr Hf Hsep]. apply lookup_lt_Some in Hk as Hkl.
  set (j := 1 + Z.of_nat k). assert (Hj : 0 <= j < NINODES) by (unfold j, zlen in *; lia).
  rewrite (used_insert _ _ _ _ _ Hk) in Hfree.
  assert (Hlen : zlen (old ++ p) = zlen old + zlen p) by (unfold zlen; rewrite length_app; lia). rewrite Hlen in Hfree.
  destruct (Hf _ _ _ Hk) as (Hok & Hd & Hmade & Hold & HX). fold j in Hok, Hd, Hmade, Hold, HX. set (d := dino V j) in *.
  pose proof (file_bytes_size sb V d Hok) as Hsz. rewrite Hold in Hsz.
  assert (Hp0 : 0 < zlen p) by (destruct p; [done|unfold zlen; simpl; lia]).
  unfold iappend. rewrite (bind_Ok _ _ _ _ _ (rinode_rep s V j HR Hj)). fold d.
  rewrite xint_id by apply (do_size _ Hd). rewrite <- Hsz.
  destruct (iappend_loop_ok (length p) s V d (zlen old) p HR Hok HX) as (d1 & s1 & V1 & E1 & R1 & W1 & X1 & F1 & I1);
    [apply zlen_nonneg|done|done|done|lia|].
  rewrite (bind_Ok _ _ _ _ _ E1). cbn beta iota.
  rewrite xint_id by (unfold is_u32, MAXBYTES, BSIZE, zlen in *; change MAXFILE with 139 in *; lia).
  pose proof (iblock_range j Hj) as Hib. pose proof (wr_ok _ _ _ _ _ _ _ W1) as Hok1.
  assert (Hw : wf_block (V1 (IBLOCK j sb))) by (apply (rp_wf _ _ R1); change (sb_bmapstart sb) with 58 in Hib; unfold FSSIZE; lia).
  pose proof (written_grown mk_tx sb mk_layout [entry j] 0 (entry j) ltac:(simpl; lia) Hj V d V1 d1 (zlen old) p Hok (rep_meta _ _ HR) Hd W1
    Hw ltac:(unfold zlen in *; lia) ltac:(lia)) as WN. cbv zeta in WN. change (i_inum (entry j)) with j in WN.
  set (d2 := d_set_size (zlen old + zlen p) d1) in *.
  destruct (winode_rep s1 V1 j d2 R1 Hj (fo_len _ _ _ Hok1)) as (s2 & E2 & R2 & F2 & I2).
  set (V2 := upd V1 (IBLOCK j sb) (write_dinode (dinode_off j) d2 (V1 (IBLOCK j sb)))) in *.
  exists s2, V2. split; [exact E2|]. destruct (wn_inode _ _ _ _ _ _ _ _ WN) as [Hd2 Hnew].
  change (dino V2 j = d2) in Hnew. eapply (fsinv_update s V files s2 V2 k type old); fold j; fold d; rewrite ?Hnew; try done.
  - congruence.
  - rewrite Hlen. lia.
  - assert (Hfa : forall i, faddr V2 d2 i = faddr V1 d1 i) by (intros i; apply (meta_faddr sb V1 d1); [lia|done]).
    unfold is_file. split_and!; [apply WN|done| | | ].
    + destruct (wr_d _ _ _ _ _ _ _ W1) as [a Ea]. unfold made, d2. rewrite Ea. unfold made in Hmade. rewrite Hmade. done.
    + rewrite (wn_bytes _ _ _ _ _ _ _ _ WN), Hold. unfold splice, zlen. rewrite Nat2Z.id, take_ge, drop_ge, app_nil_r by lia. done.
    + rewrite Hlen. destruct X1 as [Y1 Y2 Y3]. split; [intros i Hi; rewrite Hfa; auto|done|].
      intros q Hq Hge Hq0. rewrite Hfa in Hq0. rewrite <- (Y3 q Hq Hge Hq0). apply (meta_fbyte sb V1 d1); [lia|done..].
  - intros b [Hb Hx]. apply (wrote_owns sb V d V1 d1 (zlen old) p b Hok W1). split; [done|]. destruct Hx as [->|(i & Hi & E)]; [by left|].
    right. exists i. split; [done|]. rewrite <- E. symmetry. apply (meta_faddr sb V1 d1); [lia|done].
  - intros i Hi Hne. unfold V2. rewrite (dino_other V1 j d2) by (done || apply (fo_len _ _ _ Hok1)). unfold dino.
    pose proof (wrote_ib mk_tx sb mk_layout [entry i] 0 (entry i) ltac:(simpl; lia) Hi V d V1 d1 _ _ Hok (rep_meta _ _ HR) W1) as E.
    cbn [i_inum entry] in E. by rewrite E.
  - intros b [B1 B2] Hb. apply (wn_frame _ _ _ _ _ _ _ _ WN); [lia|done|lia|cbn [i_inum entry]; lia| |].
    + intros ->. apply Hb. split; [lia|by left].
    + intros q Hq E. apply Hb. split; [lia|right]. by exists q.
  - intros b [B1 B2]. apply (wn_mono _ _ _ _ _ _ _ _ WN); [lia|done].
  - intros b Hb. change (sb_inodestart sb) with 32 in Hb. change (sb_bmapstart sb) with 58 in Hib.
    assert (Hnd : forall c, data_block sb V c -> b ≠ c) by (intros c [Hc1 _] ->; change (sb_bmapstart sb) with 58 in Hc1; lia).
    apply (wn_frame _ _ _ _ _ _ _ _ WN); [lia|apply (rep_meta _ _ HR); change (sb_bmapstart sb) with 58; lia|change (sb_bmapstart sb) with 58; lia|cbn [i_inum entry]; lia| |].
    + intros E. destruct (decide (ind_addr d = 0)) as [E0|E0]; [lia|by apply (Hnd _ (fo_ind _ _ _ Hok E0))].
    + intros q Hq E. destruct (decide (faddr V d q = 0)) as [E0|E0]; [lia|by apply (Hnd _ (fo_data _ _ _ Hok _ Hq E0))].
Qed.

(** ** The whole image *)

Lemma used_grow files k type old p : files !! k = Some (type, old) -> used (<[k := (type, old)]> files) <= used (<[k := (type, old ++ p)]> files).
Proof.
  intros Hk. rewrite !(used_insert _ _ _ _ _ Hk). pose proof (nblk_mono (zlen old) (zlen (old ++ p))).
  unfold zlen in *. rewrite length_app in *. lia.
Qed.

Lemma reads_ok reads : forall s V files k type old, fsinv s V files -> files !! k = Some (type, old) ->
  Forall (fun r => r ≠ [] /\ Forall is_byte r) reads -> zlen (old ++ concat reads) <= MAXBYTES ->
  used (<[k := (type, old ++ concat reads)]> files) <= FSSIZE ->
  exists s' V', for_each reads (iappend (1 + Z.of_nat k)) s = Ok tt s' /\ fsinv s' V' (<[k := (type, old ++ concat reads)]> files).
Proof.
  induction reads as [|r reads IH]; intros s V files k type old HI Hk Hr Hmax Hu.
  { exists s, V. cbn [concat for_each]. rewrite app_nil_r, list_insert_id by done. done. }
  apply Forall_cons in Hr as [[Hr0 Hr1] Hr]. cbn [concat for_each] in *. rewrite app_assoc in *.
  assert (Hkl : (k < length files)%nat) by (by eapply lookup_lt_Some).
  pose proof (used_grow (<[k := (type, old ++ r)]> files) k type (old ++ r) (concat reads) ltac:(by apply list_lookup_insert_eq)) as Hg.
  rewrite !list_insert_insert_eq in Hg.
  destruct (iappend_ok s V files k type old r HI Hk Hr1 Hr0) as (s1 & V1 & E1 & I1);
    [unfold zlen in *; rewrite !length_app in *; lia|lia|]. rewrite (bind_Ok _ _ _ _ _ E1).
  destruct (IH s1 V1 _ k type (old ++ r) I1) as (s2 & V2 & E2 & I2); [by apply list_lookup_insert_eq|done|done|by rewrite list_insert_insert_eq|].
  rewrite list_insert_insert_eq in I2. by exists s2, V2.
Qed.

Definition file_name (arg : list Z) : list Z := match arg with c :: arg' => if c =? 95 then arg' else arg | [] => arg end.

(** What a file of the command line adds: an inode with its contents, and an entry
    of the root directory. *)
Definition spec_add (host : list Z -> option (list (list Z))) (files : list (Z * list Z)) (arg : list Z) : list (Z * list Z) :=
  match files with
  | (t, root) :: l =>
      (t, root ++ dirent_of (1 + zlen files) (file_name arg)) :: l ++ [(T_FILE, concat (default [] (host arg)))]
  | [] => []
  end.

Definition image_files (host : list Z -> option (list (list Z))) (args : list (list Z)) : list (Z * list Z) :=
  foldl (spec_add host) [(T_DIR, dirent_of ROOTINO [46] ++ dirent_of ROOTINO [46; 46])] args.

(** An argument mkfs accepts. *)
Definition arg_ok (host : list Z -> option (list (list Z))) (arg : list Z) : Prop :=
  (47 ∉ arg) /\ Forall is_byte arg /\ exists reads, host arg = Some reads /\ Forall (fun r => r ≠ [] /\ Forall is_byte r) reads
  /\ zlen (concat reads) <= MAXBYTES.

Lemma dirent_bytes inum name : 0 <= inum < 65536 -> Forall is_byte name ->
  length (dirent_of inum name) = 16%nat /\ Forall is_byte (dirent_of inum name).
Proof.
  intros Hi Hn. unfold dirent_of, mk_dirent. split.
  - rewrite length_app, length_le_bytes, length_take, length_app, length_replicate. unfold DIRSIZ. lia.
  - apply Forall_app. split; [apply le_bytes_byte|]. apply Forall_take, Forall_app. split; [done|].
    apply Forall_replicate. unfold is_byte. lia.
Qed.

Lemma used_snoc files x : used (files ++ [x]) = used files + nblk (zlen x.2).
Proof. induction files as [|y l IH]; unfold used in *; cbn [foldr app]; [lia|]. rewrite IH. lia. Qed.

Lemma nblk_pos n : 0 <= n -> 0 <= nblk n.
Proof. intros. unfold nblk, one. destruct (5632 <? n); mlia. Qed.

Lemma spec_add_used host files arg : used files <= used (spec_add host files arg).
Proof.
  destruct files as [|[t root] l]; [done|]. cbn [spec_add].
  change (used ((t, root ++ dirent_of (1 + zlen ((t, root) :: l)) (file_name arg)) :: l ++ [(T_FILE, concat (default [] (host arg)))]))
    with (nblk (zlen (root ++ dirent_of (1 + zlen ((t, root) :: l)) (file_name arg))) + used (l ++ [(T_FILE, concat (default [] (host arg)))])).
  rewrite used_snoc. cbn [snd]. pose proof (nblk_mono (zlen root) (zlen (root ++ dirent_of (1 + zlen ((t, root) :: l)) (file_name arg)))) as H1.
  pose proof (nblk_pos (zlen (concat (default [] (host arg)))) (zlen_nonneg _)).
  change (used ((t, root) :: l)) with (nblk (zlen root) + used l). unfold zlen in *. rewrite length_app in *. lia.
Qed.

Lemma file_name_bytes arg : Forall is_byte arg -> Forall is_byte (file_name arg).
Proof. intros H. destruct arg as [|c arg]; [done|]. cbn. apply Forall_cons in H as [? ?]. case_if; [done|by constructor]. Qed.

Lemma add_file_ok host s V t root l arg : fsinv s V ((t, root) :: l) -> arg_ok host arg ->
  1 + zlen ((t, root) :: l) < NINODES -> zlen root + 16 <= MAXBYTES ->
  used (spec_add host ((t, root) :: l) arg) <= FSSIZE ->
  exists s' V', add_file host ROOTINO arg s = Ok tt s' /\ fsinv s' V' (spec_add host ((t, root) :: l) arg).
Proof.
  intros HI (Hsl & Hab & reads & Hh & Hr & Hmax) Hn Hroot Hu. unfold add_file. rewrite bool_decide_true by done.
  rewrite (bind_Ok (assert true) _ s tt s eq_refl), Hh. fold (file_name arg).
  cbn [spec_add] in Hu |- *. rewrite Hh in Hu |- *. cbn [default] in Hu |- *.
  pose proof (fi_count _ _ _ HI) as Hc. set (files := (t, root) :: l) in *. set (inum := 1 + zlen files) in *.
  destruct (ialloc_ok s V files T_FILE HI) as (s1 & V1 & E1 & I1 & F1); [lia|unfold is_i8, T_FILE; lia|unfold T_FILE; lia|].
  rewrite (bind_Ok _ _ _ _ _ E1), Hc. set (de := dirent_of inum (file_name arg)).
  pose proof (zlen_nonneg files) as Hz. unfold NINODES in *.
  destruct (dirent_bytes inum (file_name arg)) as [D1 D2]; [lia|by apply file_name_bytes|]. fold de in D1, D2.
  set (body := concat reads) in *. change (files ++ [(T_FILE, [])]) with ((t, root) :: l ++ [(T_FILE, [])]) in I1.
  assert (U : used ((t, root ++ de) :: l ++ [(T_FILE, [])]) <= used ((t, root ++ de) :: l ++ [(T_FILE, body)])).
  { change (used ((t, root ++ de) :: l ++ [(T_FILE, [])])) with (nblk (zlen (root ++ de)) + used (l ++ [(T_FILE, [])])).
    change (used ((t, root ++ de) :: l ++ [(T_FILE, body)])) with (nblk (zlen (root ++ de)) + used (l ++ [(T_FILE, body)])).
    rewrite !used_snoc. cbn [snd]. pose proof (nblk_pos (zlen body) (zlen_nonneg _)). change (nblk (zlen (@nil Z))) with 0. lia. }
  destruct (iappend_ok s1 V1 _ 0 t root de I1 eq_refl D2) as (s2 & V2 & E2 & I2);
    [by destruct de|unfold zlen in *; rewrite D1; lia|change (used ((t, root ++ de) :: l ++ [(T_FILE, [])]) <= FSSIZE); eapply Z.le_trans; [exact U|exact Hu]|].
  change (1 + Z.of_nat 0) with ROOTINO in E2. rewrite (bind_Ok _ _ _ _ _ E2). cbn [insert list_insert] in I2.
  set (k := S (length l)). replace inum with (1 + Z.of_nat k) by (unfold inum, k, files, zlen; cbn [length]; lia).
  assert (Hk : ((t, root ++ de) :: l ++ [(T_FILE, [])]) !! k = Some (T_FILE, [])) by (cbn; by apply list_lookup_middle).
  assert (Ek : <[k := (T_FILE, body)]> ((t, root ++ de) :: l ++ [(T_FILE, [])]) = (t, root ++ de) :: l ++ [(T_FILE, body)]).
  { change ((t, root ++ de) :: <[length l := (T_FILE, body)]> (l ++ [(T_FILE, [])]) = (t, root ++ de) :: l ++ [(T_FILE, body)]).
    f_equal. rewrite insert_app_r_alt by lia. by rewrite Nat.sub_diag. }
  destruct (reads_ok reads s2 V2 _ k T_FILE [] I2 Hk Hr) as (s3 & V3 & E3 & I3); [done|rewrite app_nil_l; fold body; rewrite Ek; exact Hu|].
  rewrite app_nil_l in I3. fold body in I3. rewrite Ek in I3. by exists s3, V3.
Qed.

Lemma args_ok host args : forall s V t root l, fsinv s V ((t, root) :: l) -> Forall (arg_ok host) args ->
  1 + zlen ((t, root) :: l) + zlen args <= NINODES -> zlen root + 16 * zlen args <= MAXBYTES ->
  used (foldl (spec_add host) ((t, root) :: l) args) <= FSSIZE ->
  exists s' V' root' l', for_each args (add_file host ROOTINO) s = Ok tt s'
    /\ foldl (spec_add host) ((t, root) :: l) args = (t, root') :: l' /\ fsinv s' V' ((t, root') :: l')
    /\ zlen root' = zlen root + 16 * zlen args.
Proof.
  induction args as [|arg args IH]; intros s V t root l HI Ha Hn Hr Hu.
  { exists s, V, root, l. cbn. split_and!; try done. change (zlen (@nil (list Z))) with 0. lia. }
  apply Forall_cons in Ha as [Ha1 Ha]. cbn [foldl for_each] in *.
  assert (Hz : zlen (arg :: args) = 1 + zlen args) by (unfold zlen; cbn [length]; lia). pose proof (zlen_nonneg args).
  assert (Hg : forall as' fs, used fs <= used (foldl (spec_add host) fs as')).
  { clear. induction as' as [|a as' IH]; intros fs; cbn [foldl]; [done|]. pose proof (spec_add_used host fs a). specialize (IH (spec_add host fs a)). lia. }
  destruct (add_file_ok host s V t root l arg HI Ha1) as (s1 & V1 & E1 & I1); [lia|lia|specialize (Hg args (spec_add host ((t, root) :: l) arg)); lia|].
  rewrite (bind_Ok _ _ _ _ _ E1). cbn [spec_add] in I1, Hu |- *.
  set (de := dirent_of _ _) in *. assert (Hde : length de = 16%nat).
  { apply dirent_bytes; [unfold NINODES in *; pose proof (zlen_nonneg ((t, root) :: l)); lia|]. apply file_name_bytes, Ha1. }
  destruct (IH s1 V1 t (root ++ de) _ I1 Ha) as (s2 & V2 & root' & l' & E2 & E3 & I2 & Z2).
  - unfold zlen in *. cbn [length] in *. rewrite length_app. cbn [length]. lia.
  - unfold zlen in *. rewrite length_app, Hde. lia.
  - exact Hu.
  - exists s2, V2, root', l'. split; [done|]. split; [done|]. split; [done|]. rewrite Z2. unfold zlen in *. rewrite length_app, Hde. lia.
Qed.

(** ** The start *)

Lemma fill_zero n : forall k s, length (m_img s) = k ->
  for_each (seqZ (Z.of_nat k) (Z.of_nat n)) (fun i => wsect i zero_block) s
  = Ok tt (mkMk (m_img s ++ replicate n zero_block) (freeinode s) (freeblock s)).
Proof.
  induction n as [|n IH]; intros k s Hk.
  { change (Z.of_nat 0) with 0. destruct s. cbn. by rewrite app_nil_r. }
  rewrite seqZ_cons by lia. cbn [for_each]. replace (Z.succ (Z.of_nat k)) with (Z.of_nat (S k)) by lia.
  replace (Z.pred (Z.of_nat (S n))) with (Z.of_nat n) by lia.
  set (s1 := mkMk (m_img s ++ [zero_block]) (freeinode s) (freeblock s)).
  assert (E : wsect (Z.of_nat k) zero_block s = Ok tt s1).
  { unfold wsect, modify. rewrite Nat2Z.id, Hk, Nat.ltb_irrefl, Nat.sub_diag. done. }
  rewrite (bind_Ok _ _ _ _ _ E), IH; [|unfold s1; cbn; rewrite length_app; cbn; lia].
  unfold s1. cbn [m_img freeinode freeblock]. by rewrite <- app_assoc.
Qed.

Definition blank : mk := mkMk (<[1%nat := sb_block]> (replicate 1000 zero_block)) 1 nmeta.
Definition blank_view (b : Z) : list Z := if b =? sb_bmapstart sb then bitmap (Z.to_nat nmeta) else head_block b.

Lemma blank_inodes : forallb (fun i => d_type (dino blank_view i) =? 0) (seqZ 0 NINODES) = true.
Proof. vm_compute. reflexivity. Qed.

Lemma sb_block_wf : wf_block sb_block.
Proof.
  assert (H : forallb (fun x => (0 <=? x) && (x <? 256)) sb_block = true) by (vm_compute; reflexivity).
  split; [reflexivity|]. apply Forall_forall. intros x Hx. rewrite forallb_forall in H. rewrite list_elem_of_In in Hx.
  specialize (H x Hx). unfold is_byte. lia.
Qed.

Lemma blank_ok : fsinv blank blank_view [].
Proof.
  assert (Hh : forall b, wf_block (head_block b)).
  { intros b. unfold head_block. case_if; [apply sb_block_wf|apply zero_block_wf]. }
  split; try done.
  - split; [by vm_compute| |done| |change nmeta with 59; cbn [blank freeblock]; change nmeta with 59; unfold FSSIZE; lia|].
    + intros b Hb Hne. unfold blank_view. rewrite (proj2 (Z.eqb_neq _ _) Hne). unfold head_block, blank. cbn [m_img]. unfold FSSIZE in Hb.
      destruct (Z.eqb_spec b 1) as [->|Hn1]; [done|]. rewrite list_lookup_insert_ne by lia. apply lookup_replicate_2. lia.
    + intros b Hb. unfold blank_view. case_if; [apply length_bitmap|apply Hh].
    + intros b Hb. cbn [blank freeblock] in Hb. change nmeta with 59 in Hb. unfold blank_view, head_block. change (sb_bmapstart sb) with 58.
      rewrite !(proj2 (Z.eqb_neq _ _)) by lia. done.
  - intros b Hb. change (sb_inodestart sb) with 32 in Hb. unfold blank_view. change (sb_bmapstart sb) with 58.
    by rewrite (proj2 (Z.eqb_neq _ _)) by lia.
  - intros i Hi _. apply Z.eqb_eq. by apply (forallb_seqZ _ NINODES _ blank_inodes).
  - intros k k' b Hk. cbn in Hk. lia.
Qed.

(** ** The size of the root directory *)

Definition round_up (n : Z) : Z := (n / BSIZE + 1) * BSIZE.
Definition pad (root : list Z) : list Z := root ++ replicate (Z.to_nat (round_up (zlen root) - zlen root)) 0.

Lemma round_up_nblk n : 0 <= n -> n mod BSIZE ≠ 0 -> nblk (round_up n) = nblk n.
Proof. intros. unfold nblk, round_up, one, BSIZE in *. destruct (Z.ltb_spec 5632 ((n / 512 + 1) * 512)), (Z.ltb_spec 5632 n); mlia. Qed.

Lemma zlen_pad root : zlen (pad root) = round_up (zlen root).
Proof. unfold pad, zlen, round_up, BSIZE. rewrite length_app, length_replicate. mlia. Qed.

(** Rounding the size up to a part of the last block that is there shows its zeroes. *)
Lemma pad_file V V2 t root d : let d2 := d_set_size (round_up (zlen root)) d in
  is_file V t root d -> zlen root mod BSIZE ≠ 0 -> zlen root < round_up (zlen root) <= MAXBYTES ->
  file_ok sb V2 d2 -> dinode_ok d2 -> (forall i, faddr V2 d2 i = faddr V d i) ->
  (forall p, 0 <= p < MAXBYTES -> faddr V d (p / BSIZE) ≠ 0 -> fbyte V2 d2 p = fbyte V d p) ->
  (forall p, 0 <= p < round_up (zlen root) -> faddr V d (p / BSIZE) ≠ 0) -> is_file V2 t (pad root) d2.
Proof.
  intros d2 (Hok & Hd & Hmade & Hold & HX) Hmod Hr Hok2 Hd2 Hfa Hfb Hfull. set (r := round_up (zlen root)) in *.
  pose proof (file_bytes_size sb V d Hok) as Hsz. rewrite Hold in Hsz. pose proof (zlen_nonneg root) as Hz.
  unfold is_file. split_and!; [done|done| | |].
  - unfold made, d2 in *. by rewrite Hmade.
  - unfold file_bytes. cbn [d_size d2 d_set_size]. fold r. replace r with (zlen root + (r - zlen root)) by lia.
    rewrite seqZ_app, fmap_app by lia. unfold pad. fold r. f_equal.
    + rewrite <- Hold at 2. unfold file_bytes. rewrite <- Hsz. apply list_fmap_ext. intros i p Hp. apply lookup_seqZ in Hp as [-> Hp].
      apply Hfb; [lia|apply Hfull; lia].
    + apply list_eq. intros i. rewrite list_lookup_fmap. destruct (decide (i < Z.to_nat (r - zlen root))%nat) as [Hi|Hi].
      * rewrite lookup_seqZ_lt, lookup_replicate_2 by lia. cbn. f_equal. assert (Hf := Hfull (0 + zlen root + Z.of_nat i) ltac:(lia)).
        rewrite Hfb by (done || lia). apply (ex_tail _ _ _ HX); [lia|lia|done].
      * rewrite lookup_seqZ_ge by lia. symmetry. apply lookup_replicate_None. lia.
  - rewrite zlen_pad. fold r. destruct HX as [X1 X2 X3]. unfold r, round_up, BSIZE, MAXBYTES in *. change MAXFILE with 139 in *. split.
    + intros k Hk. rewrite Hfa, X1 by done. mlia.
    + change (ind_addr d2) with (ind_addr d). rewrite X2. mlia.
    + intros p Hp Hn Hf. rewrite Hfa in Hf. rewrite Hfb by done. apply X3; [done|lia|done].
Qed.

Lemma root_round s V t root l : fsinv s V ((t, root) :: l) -> zlen root mod BSIZE ≠ 0 ->
  exists s' V', winode ROOTINO (d_set_size (round_up (zlen root)) (dino V ROOTINO)) s = Ok tt s' /\ fsinv s' V' ((t, pad root) :: l).
Proof.
  intros HI Hmod. pose proof HI as [HR Hc Hm Hu Hh Hfr Hf Hsep].
  assert (Hj : 0 <= 1 + Z.of_nat 0 < NINODES) by (unfold NINODES; lia). change ROOTINO with (1 + Z.of_nat 0). set (j := 1 + Z.of_nat 0) in *.
  destruct (Hf 0%nat _ _ eq_refl) as (Hok & Hd & Hmade & Hold & HX). fold j in Hok, Hd, Hmade, Hold, HX.
  set (d := dino V j) in *. set (r := round_up (zlen root)). pose proof (file_bytes_size sb V d Hok) as Hsz. rewrite Hold in Hsz.
  pose proof (fo_size _ _ _ Hok) as Hmx. change MAXFILE with 139 in Hmx. pose proof (zlen_nonneg root) as Hz.
  assert (Hr : zlen root < r <= MAXBYTES /\ r <= (zlen root / 512 + 1) * 512).
  { unfold r, round_up, MAXBYTES, BSIZE in *. change MAXFILE with 139. mlia. }
  assert (Hfull : forall p, 0 <= p < r -> 0 <= p / 512 < MAXFILE /\ faddr V d (p / 512) ≠ 0).
  { intros p Hp. change MAXFILE with 139. unfold MAXBYTES, BSIZE in *. change MAXFILE with 139 in Hr. split; [mlia|]. rewrite (ex_data _ _ _ HX) by (change MAXFILE with 139; mlia). mlia. }
  pose proof (iblock_range j Hj) as Hib. change (sb_bmapstart sb) with 58 in Hib.
  assert (Hw : wf_block (V (IBLOCK j sb))) by (apply (rp_wf _ _ HR); unfold FSSIZE; lia).
  set (d2 := d_set_size r d). assert (Hd2 : dinode_ok d2). { destruct Hd. split; try done. unfold is_u32, MAXBYTES, BSIZE, d2 in *. cbn. change MAXFILE with 139 in Hr. lia. }
  destruct (winode_rep s V j d2 HR Hj (fo_len _ _ _ Hok)) as (s2 & E2 & R2 & F2 & I2).
  set (V2 := upd V (IBLOCK j sb) (write_dinode (dinode_off j) d2 (V (IBLOCK j sb)))) in *.
  assert (Hnew : dino V2 j = d2) by (by apply dino_same). exists s2, V2. split; [done|].
  assert (Hfa : forall i, faddr V2 d2 i = faddr V d i) by (intros i; apply (meta_faddr sb V d); [change (sb_bmapstart sb) with 58; lia|done]).
  assert (Hfb : forall p, 0 <= p < MAXBYTES -> faddr V d (p / BSIZE) ≠ 0 -> fbyte V2 d2 p = fbyte V d p).
  { intros p Hp Hn. apply (meta_fbyte sb V d); [change (sb_bmapstart sb) with 58; lia|done..]. }
  eapply (fsinv_update s V _ s2 V2 0 t root (pad root) HI eq_refl); fold j; fold d; rewrite ?Hnew; [exact R2|exact I2|..].
  - rewrite zlen_pad, round_up_nblk by done. lia.
  - apply (pad_file V); [|exact Hmod|fold r; lia| |exact Hd2|exact Hfa|exact Hfb|by intros p Hp; apply Hfull].
    { split; [exact Hok|]. split; [exact Hd|]. split; [exact Hmade|]. split; [exact Hold|exact HX]. }
    apply meta_ok; [change (sb_bmapstart sb) with 58; lia|done|fold r; lia|]. intros k Hk Hlt. fold r in Hlt.
    replace k with (k * BSIZE / 512) by (unfold BSIZE; mlia). apply Hfull. unfold BSIZE in *. lia.
  - intros b [Hb Hx]. left. split; [done|]. destruct Hx as [->|(i & Hi & E)]; [by left|]. right. exists i. by rewrite <- Hfa.
  - intros i Hi Hne. unfold V2. by apply dino_other; [| | |apply (fo_len _ _ _ Hok)|].
  - intros b [B1 B2] _. unfold V2. apply upd_ne. change (sb_bmapstart sb) with 58 in B1. lia.
  - intros b [B1 B2]. unfold V2. by rewrite meta_allocated by (change (sb_bmapstart sb) with 58; lia).
  - intros b Hb. change (sb_inodestart sb) with 32 in Hb. apply upd_ne. lia.
Qed.

(** ** The image *)

(** What mkfs promises the kernel: the blocks [V] hold the super block and an empty
    log, the bitmap marks the meta blocks and the blocks of the files and no other,
    inode [1 + k] is file [k] with its contents, no block is in two files, and the
    other inodes are free. *)
Record image (img : list (list Z)) (V : Z -> list Z) (files : list (Z * list Z)) : Prop := {
  im_blocks : img = V <$> seqZ 0 FSSIZE;
  im_wf : forall b, 0 <= b < FSSIZE -> wf_block (V b);
  im_sb : decode_superblock (V 1) = sb;
  im_log : hdr_n (V (sb_logstart sb)) = 0;
  im_bits : forall b, 0 <= b < FSSIZE -> allocated sb V b = (b <? used files);
  im_meta : meta_used sb V;
  im_file : forall k type bytes, files !! k = Some (type, bytes) -> is_file V type bytes (dino V (1 + Z.of_nat k));
  im_sep : forall k k' b, (k < length files)%nat -> (k' < length files)%nat -> k ≠ k' ->
    owns V (dino V (1 + Z.of_nat k)) b -> ~ owns V (dino V (1 + Z.of_nat k')) b;
  im_free : forall i, 0 <= i < NINODES -> ~ (1 <= i <= zlen files) -> d_type (dino V i) = 0 }.

(** Writing the bitmap completes the image. *)
Lemma balloc_image s V files : fsinv s V files ->
  exists s', balloc (freeblock s) s = Ok tt s' /\ image (m_img s') V files.
Proof.
  intros [HR Hc Hm Hu Hh Hfr Hf Hsep]. pose proof HR as [H1 H2 H3 H4 H5 H6]. unfold balloc, FSSIZE in *.
  rewrite (proj2 (Z.ltb_lt _ _)) by (unfold BSIZE; lia). rewrite (bind_Ok (assert true) _ s tt s eq_refl).
  eexists. split; [reflexivity|]. cbn [m_img]. change (sb_bmapstart sb) with 58 in *. rewrite H1. change (Z.to_nat 58 <? Z.to_nat 1000)%nat with true. cbn iota.
  split; unfold FSSIZE; try done.
  - apply list_eq. intros i. rewrite list_lookup_fmap. destruct (decide (i < 1000)%nat) as [Hi|Hi].
    + rewrite lookup_seqZ_lt by lia. cbn [fmap option_fmap option_map]. rewrite Z.add_0_l.
      destruct (decide (i = 58%nat)) as [->|Hne].
      * rewrite list_lookup_insert_eq by lia. by rewrite <- H3.
      * rewrite list_lookup_insert_ne by lia. rewrite <- (H2 (Z.of_nat i)) by lia. by rewrite Nat2Z.id.
    + rewrite lookup_seqZ_ge by lia. apply lookup_ge_None_2. rewrite length_insert. lia.
  - rewrite Hh by (change (sb_inodestart sb) with 32; lia). reflexivity.
  - change (sb_logstart sb) with 2. rewrite Hh by (change (sb_inodestart sb) with 32; lia). reflexivity.
  - intros b Hb. rewrite (rep_allocated s V HR) by lia. by rewrite Hu.
  - by apply (rep_meta s).
  - intros i Hi Hn. apply Hfr; lia.
Qed.

Definition final_files (host : list Z -> option (list (list Z))) (args : list (list Z)) : list (Z * list Z) :=
  match image_files host args with (t, root) :: l => (t, pad root) :: l | [] => [] end.

Lemma used_pad t root l : zlen root mod BSIZE ≠ 0 -> used ((t, pad root) :: l) = used ((t, root) :: l).
Proof.
  intros H. unfold used. cbn [foldr snd]. by rewrite zlen_pad, round_up_nblk by (done || apply zlen_nonneg).
Qed.

(** [main] up to the directory entries "." and "..". *)
Lemma root_ok host : let files := image_files host [] in
  exists s1 V1 s2 V2 s3 V3, ialloc T_DIR blank = Ok ROOTINO s1 /\ fsinv s1 V1 [(T_DIR, [])]
  /\ iappend ROOTINO (dirent_of ROOTINO [46]) s1 = Ok tt s2 /\ fsinv s2 V2 [(T_DIR, dirent_of ROOTINO [46])]
  /\ iappend ROOTINO (dirent_of ROOTINO [46; 46]) s2 = Ok tt s3 /\ fsinv s3 V3 files.
Proof.
  intros files. destruct (ialloc_ok blank blank_view [] T_DIR blank_ok) as (s1 & V1 & E1 & I1 & _); [done|by unfold is_i8, T_DIR|done|].
  destruct (dirent_bytes ROOTINO [46]) as [A1 A2]; [done|by repeat constructor|].
  destruct (dirent_bytes ROOTINO [46; 46]) as [B1 B2]; [done|by repeat constructor|].
  destruct (iappend_ok s1 V1 _ 0 T_DIR [] (dirent_of ROOTINO [46]) I1 eq_refl A2) as (s2 & V2 & E2 & I2);
    [done|by vm_compute|by vm_compute|].
  destruct (iappend_ok s2 V2 _ 0 T_DIR (dirent_of ROOTINO [46]) (dirent_of ROOTINO [46; 46]) I2 eq_refl B2) as (s3 & V3 & E3 & I3);
    [done|by vm_compute|by vm_compute|].
  by exists s1, V1, s2, V2, s3, V3.
Qed.

Lemma assert_true {A} (b : bool) (k : unit -> K A) s : b = true -> bind (assert b) k s = k tt s.
Proof. by intros ->. Qed.

(** [main] from start to end. *)
Lemma mkfs_ok host args : Forall (arg_ok host) args -> 2 + zlen args <= NINODES ->
  used (image_files host args) <= FSSIZE -> (16 * (2 + zlen args)) mod BSIZE ≠ 0 ->
  exists s V, mkfs host args mk_start = Ok tt s /\ image (m_img s) V (final_files host args).
Proof.
  intros Ha Hn Hu Hmod. unfold mkfs. rewrite !assert_true by done.
  rewrite (bind_Ok (modify (fun s => mkMk (m_img s) (freeinode s) nmeta)) _ mk_start tt (mkMk [] 1 nmeta) eq_refl).
  rewrite (bind_Ok _ _ _ _ _ (fill_zero 1000 0 (mkMk [] 1 nmeta) eq_refl)).
  assert (Es : wsect 1 sb_block (mkMk (replicate 1000 zero_block) 1 nmeta) = Ok tt blank) by reflexivity.
  rewrite (bind_Ok _ _ _ _ _ Es). destruct (root_ok host) as (s1 & V1 & s2 & V2 & s3 & V3 & E1 & _ & E2 & _ & E3 & I3).
  rewrite (bind_Ok _ _ _ _ _ E1), assert_true, (bind_Ok _ _ _ _ _ E2), (bind_Ok _ _ _ _ _ E3) by done.
  destruct (args_ok host args s3 V3 _ _ _ I3 Ha) as (s4 & V4 & root & l & E4 & Ef & I4 & Zr); [|change MAXBYTES with 71168; unfold NINODES in *|exact Hu|].
  { change (zlen (image_files host [])) with 1. unfold zlen at 1. cbn [length]. lia. }
  { change (zlen (dirent_of ROOTINO [46] ++ dirent_of ROOTINO [46; 46])) with 32. lia. }
  rewrite (bind_Ok _ _ _ _ _ E4). assert (Hz : zlen root = 16 * (2 + zlen args)) by (rewrite Zr; change (zlen (dirent_of ROOTINO [46] ++ dirent_of ROOTINO [46; 46])) with 32; lia).
  rewrite (bind_Ok _ _ _ _ _ (rinode_rep s4 V4 ROOTINO (fi_rep _ _ _ I4) ltac:(unfold ROOTINO, NINODES; lia))).
  destruct (fi_file _ _ _ I4 0%nat _ _ eq_refl) as (Hok & Hd & _ & Hby & _). change (1 + Z.of_nat 0) with ROOTINO in *.
  pose proof (file_bytes_size _ _ _ Hok) as Hsz. rewrite Hby in Hsz. rewrite (xint_id (d_size _)) by apply (do_size _ Hd). rewrite <- Hsz.
  cbv zeta. fold (round_up (zlen root)). pose proof (zlen_nonneg args). rewrite xint_id by (unfold is_u32, round_up, BSIZE, NINODES in *; mlia).
  destruct (root_round s4 V4 _ _ _ I4) as (s5 & V5 & E5 & I5); [by rewrite Hz|]. rewrite (bind_Ok _ _ _ _ _ E5).
  rewrite (bind_Ok (gets id) _ s5 s5 s5 eq_refl). destruct (balloc_image s5 V5 _ I5) as (s6 & E6 & I6). exists s6, V5. split; [done|].
  unfold final_files. unfold image_files. rewrite Ef. exact I6.
Qed.

(** C37: mkfs builds the image: for acceptable files that fit the inodes and blocks, it
    returns, and the image it leaves has the files of the command line. *)
Theorem mkfs_image host args : Forall (arg_ok host) args -> 2 + zlen args <= NINODES ->
  used (image_files host args) <= FSSIZE -> (16 * (2 + zlen args)) mod BSIZE ≠ 0 ->
  exists s V, mkfs host args mk_start = Ok tt s /\ image (m_img s) V (final_files host args).
Proof. exact (mkfs_ok host args). Qed.

Lemma demo_args : Forall (arg_ok (fun _ => Some [[104; 105]; [10]])) [[95; 97]].
Proof.
  constructor; [|constructor]. split; [|split; [repeat constructor; done|]].
  - apply (bool_decide_unpack _). by vm_compute.
  - eexists. split; [reflexivity|]. split; [|done]. repeat constructor; done.
Qed.

Lemma demo_image : exists s V, mkfs (fun _ => Some [[104; 105]; [10]]) [[95; 97]] mk_start = Ok tt s
  /\ image (m_img s) V (final_files (fun _ => Some [[104; 105]; [10]]) [[95; 97]]).
Proof. apply mkfs_ok; [exact demo_args|done|by vm_compute|done]. Qed.

(** The kernel's example: an image with one file [_a] that holds three bytes in two
    reads. *)
Lemma mkfs_image_witness : exists s V, mkfs (fun _ => Some [[104; 105]; [10]]) [[95; 97]] mk_start = Ok tt s
  /\ image (m_img s) V [(T_DIR, pad (dirent_of 1 [46] ++ dirent_of 1 [46; 46] ++ dirent_of 2 [97])); (T_FILE, [104; 105; 10])].
Proof.
  apply (mkfs_image (fun _ => Some [[104; 105]; [10]]) [[95; 97]]); [exact demo_args|done|by vm_compute|done].
Defined.

(** Thirty empty files make a root directory of exactly one block; its size is
    rounded to two blocks, and the second one does not exist. *)
Theorem mkfs_root_hole :
  match mkfs (fun _ => Some []) ((fun i => [95; 65 + i]) <$> seqZ 0 30) mk_start with
  | Ok _ s =>
      let root := read_dinode (dinode_off ROOTINO) (m_img s !!! Z.to_nat (IBLOCK ROOTINO sb)) in
      d_size root = 1024 /\ d_addrs root !! 1%nat = Some 0
  | Halt _ _ => False
  end.
Proof. vm_compute. done. Qed.
