(* ===== verification/MkfsBoot.v ===== *)
(** * The image of mkfs as a tree of names

    The image has the directory structure that the theorem on path names assumes,
    and the kernel finds every file of the command line under its name in the root
    directory. *)

From S2P Require Import Prelude KMonad CString Params Bio Users Store Fs FsSpec FileSpec Dinode Content Paths ICache Dirs Names Mkfs MkfsSpec.

(** The entries of the root directory. *)
Definition entry_of (x : Z * list Z) : list Z := dirent_of x.1 x.2.
Definition root_entries (args : list (list Z)) : list (Z * list Z) :=
  (ROOTINO, [46]) :: (ROOTINO, [46; 46]) :: imap (fun k a => (2 + Z.of_nat k, file_name a)) args.
Definition file_of (host : list Z -> option (list (list Z))) (a : list Z) : Z * list Z := (T_FILE, concat (default [] (host a))).

Lemma image_files_eq host args :
  image_files host args = (T_DIR, concat (entry_of <$> root_entries args)) :: (file_of host <$> args).
Proof.
  induction args as [|a args IH] using rev_ind; [cbn [imap fmap list_fmap]; by rewrite <- app_nil_r|].
  unfold image_files in *. rewrite foldl_snoc, IH. cbn [spec_add]. unfold root_entries. rewrite imap_app. cbn [imap].
  rewrite !fmap_cons, !fmap_app. cbn [concat]. rewrite concat_app, !app_assoc. f_equal. f_equal. f_equal. cbn [fmap list_fmap concat].
  rewrite app_nil_r. f_equal. unfold zlen, entry_of. cbn [length fst snd]. rewrite length_fmap. f_equal. lia.
Qed.

Lemma dirents_concat des rest : Forall (fun de => length de = 16%nat) des -> dirents (concat des ++ rest) = des ++ dirents rest.
Proof.
  induction 1 as [|de des Hd _ IH]; [done|]. cbn [concat app]. rewrite <- app_assoc, (dirents_app de _ 1) by done. by rewrite dirents_one, IH.
Qed.

(** ** Entries *)

Lemma zero_inum de : Forall (fun v => v = 0) de -> de_inum de = 0.
Proof.
  intros Hz. unfold de_inum, get_le. assert (Hs : Forall (fun v => v = 0) (slice 0 2 de)) by (unfold slice; by apply Forall_take, Forall_drop).
  induction Hs as [|v l -> _ IH]; [done|]. cbn [le_val]. by rewrite IH.
Qed.

Lemma zero_dirents m de : de ∈ dirents (replicate m 0) -> de_inum de = 0.
Proof.
  intros (i & -> & _)%list_elem_of_fmap. apply zero_inum. unfold dirent_at, slice. apply Forall_take, Forall_drop. by apply Forall_replicate.
Qed.

Lemma entry_ok i name : 0 <= i < 65536 -> nonzero name ->
  length (dirent_of i name) = 16%nat /\ de_inum (dirent_of i name) = i /\ cstrn 14 (de_name (dirent_of i name)) = take 14 name.
Proof.
  intros Hi Hn. unfold dirent_of, mk_dirent. change (Z.to_nat DIRSIZ) with 14%nat. split_and!.
  - rewrite length_app, length_le_bytes, length_take, length_app, length_replicate. lia.
  - rewrite xshort_id by (unfold is_u16; lia). unfold de_inum, get_le, slice. rewrite drop_0, take_app_length' by (by rewrite length_le_bytes).
    rewrite le_val_bytes; unfold u16; [mlia|]. change (256 ^ Z.of_nat 2) with 65536. mlia.
  - unfold de_name, slice. rewrite drop_app_length' by (by rewrite length_le_bytes). rewrite take_take. change (14 `min` 14)%nat with 14%nat.
    rewrite take_app, take_replicate. assert (E : ((14 - length name) `min` 14 = 14 - length (take 14 name))%nat) by (rewrite length_take; lia).
    rewrite E, <- (app_nil_r (replicate _ 0)). apply cstrn_app_zero; [by apply Forall_take|]. rewrite length_take. lia.
Qed.

Section Root.
Context (host : list Z -> option (list (list Z))) (args : list (list Z)).
Hypothesis Hcount : 2 + zlen args <= NINODES.
Hypothesis Hnames : Forall (fun a => nonzero (file_name a)) args.

Lemma root_entry_ok x : x ∈ root_entries args -> 1 <= x.1 <= 1 + zlen args /\ nonzero x.2.
Proof using Hcount Hnames.
  unfold zlen, NINODES in *. intros [->|[->|Hx]%elem_of_cons]%elem_of_cons; [split; [cbn; unfold ROOTINO; lia|by repeat constructor]..|].
  apply list_elem_of_lookup in Hx as (j & Hj). rewrite list_lookup_imap in Hj. apply fmap_Some in Hj as (a & Ha & ->). cbn [fst snd].
  apply lookup_lt_Some in Ha as Hl. split; [lia|]. by apply (Forall_lookup_1 _ _ _ _ Hnames Ha).
Qed.

Definition root_bytes : list Z := pad (concat (entry_of <$> root_entries args)).

Lemma root_lengths : Forall (fun de => length de = 16%nat) (entry_of <$> root_entries args).
Proof using Hcount Hnames.
  apply Forall_fmap, Forall_forall. intros x Hx. destruct (root_entry_ok x Hx) as [Hi Hn]. apply (entry_ok x.1 x.2); [unfold NINODES in *; lia|done].
Qed.

Lemma root_size : zlen root_bytes = round_up (16 * (2 + zlen args)).
Proof using Hcount Hnames.
  unfold root_bytes. rewrite zlen_pad. f_equal. assert (H : forall l : list (list Z), Forall (fun de => length de = 16%nat) l -> zlen (concat l) = 16 * zlen l).
  { unfold zlen. induction 1 as [|x l Hx _ IH]; [done|]. cbn [concat length]. rewrite length_app. lia. }
  rewrite (H _ root_lengths). unfold zlen. rewrite length_fmap. unfold root_entries. cbn [length]. rewrite length_imap. lia.
Qed.

Lemma root_dirents : exists m, dirents root_bytes = (entry_of <$> root_entries args) ++ dirents (replicate m 0).
Proof using Hcount Hnames.
  eexists. unfold root_bytes, pad. apply dirents_concat, root_lengths.
Qed.

(** The entry of a file is the first one with its name. *)
Lemma root_find k a : NoDup (take 14 <$> (root_entries args).*2) -> args !! k = Some a ->
  dir_find (take 14 (file_name a)) root_bytes = Some ((2 + k)%nat, entry_of (2 + Z.of_nat k, file_name a)).
Proof using Hcount Hnames.
  intros Hnd Hk. destruct root_dirents as [m Hm]. unfold dir_find. rewrite Hm.
  assert (He : root_entries args !! (2 + k)%nat = Some (2 + Z.of_nat k, file_name a)).
  { change (imap (fun k a => (2 + Z.of_nat k, file_name a)) args !! k = Some (2 + Z.of_nat k, file_name a)).
    by rewrite list_lookup_imap, Hk. }
  apply list_find_app_l. apply list_find_Some. split; [by rewrite list_lookup_fmap, He|].
  destruct (root_entry_ok _ (list_elem_of_lookup_2 _ _ _ He)) as [Hi Hn]. cbn [fst snd] in Hi, Hn.
  destruct (entry_ok (2 + Z.of_nat k) (file_name a)) as (_ & E2 & E3); [unfold NINODES in *; lia|done|].
  split; [split; [unfold entry_of; cbn [fst snd]; lia|done]|]. intros j y Hy Hlt [_ En]. rewrite list_lookup_fmap in Hy.
  apply fmap_Some in Hy as ([i' n'] & Hj & ->). destruct (root_entry_ok _ (list_elem_of_lookup_2 _ _ _ Hj)) as [Hi' Hn']. cbn [fst snd] in Hi', Hn'.
  destruct (entry_ok i' n') as (_ & _ & E3'); [unfold NINODES in *; lia|done|]. unfold entry_of in En. cbn [fst snd] in En. rewrite E3' in En.
  assert (j = (2 + k)%nat); [|lia]. eapply NoDup_lookup; [exact Hnd| |].
  - rewrite !list_lookup_fmap, Hj. cbn. by rewrite En.
  - rewrite !list_lookup_fmap, He. done.
Qed.
End Root.

Lemma made_fields type d : made type d -> is_i8 type -> 0 <= type -> d_type d = type /\ d_nlink d = 1 /\ d_perm d = d_perm (new_dinode type).
Proof.
  intros Hm Ht H0. unfold made in Hm. rewrite Hm. split; [|done]. change (i8 (xshort type) = type).
  rewrite xshort_id by (unfold is_u16, is_i8 in *; lia). unfold is_i8, i8 in *. mlia.
Qed.

Section Image.
Context (host : list Z -> option (list (list Z))) (args : list (list Z)) (img : list (list Z)) (V : Z -> list Z).
Hypothesis Him : image img V (final_files host args).
Hypothesis Hcount : 2 + zlen args <= NINODES.
Hypothesis Hnames : Forall (fun a => nonzero (file_name a)) args.

Lemma final_files_eq : final_files host args = (T_DIR, root_bytes args) :: (file_of host <$> args).
Proof using. unfold final_files. by rewrite image_files_eq. Qed.

Lemma image_root : is_file V T_DIR (root_bytes args) (disk_inode sb V ROOTINO).
Proof using Him. apply (im_file _ _ _ Him 0). by rewrite final_files_eq. Qed.

Lemma image_arg k a : args !! k = Some a -> is_file V T_FILE (concat (default [] (host a))) (disk_inode sb V (2 + Z.of_nat k)).
Proof using Him.
  intros Hk. replace (2 + Z.of_nat k) with (1 + Z.of_nat (S k)) by lia. apply (im_file _ _ _ Him). rewrite final_files_eq.
  change ((file_of host <$> args) !! k = Some (T_FILE, concat (default [] (host a)))). by rewrite list_lookup_fmap, Hk.
Qed.

(** The inodes in use. *)
Lemma image_inode i : 1 <= i <= 1 + zlen args -> exists type bytes, is_file V type bytes (disk_inode sb V i)
  /\ d_type (disk_inode sb V i) = type /\ d_nlink (disk_inode sb V i) = 1 /\ (i = 1 /\ type = T_DIR \/ type = T_FILE).
Proof using Him.
  intros Hi. assert (H : exists type bytes, is_file V type bytes (disk_inode sb V i) /\ (i = 1 /\ type = T_DIR \/ type = T_FILE)).
  { destruct (decide (i = 1)) as [->|Hne]; [exists T_DIR, (root_bytes args); split; [apply image_root|by left]|].
    destruct (lookup_lt_is_Some_2 args (Z.to_nat (i - 2))) as [a Ha]; [unfold zlen in *; lia|]. pose proof (image_arg _ _ Ha) as Hf.
    replace (2 + Z.of_nat (Z.to_nat (i - 2))) with i in Hf by lia. eexists _, _. split; [exact Hf|by right]. }
  destruct H as (type & bytes & Hf & Ht). exists type, bytes.
  destruct (made_fields type (disk_inode sb V i)) as (M1 & M2 & _); [apply Hf|destruct Ht as [[_ ->]| ->]; unfold is_i8, T_DIR, T_FILE; lia..|]. done.
Qed.

Lemma image_live i : 1 <= i <= 1 + zlen args -> live sb V i /\ d_nlink (disk_inode sb V i) ≠ 0.
Proof using Him Hcount.
  intros Hi. destruct (image_inode i Hi) as (type & bytes & _ & Ht & Hl & Hty). split; [|by rewrite Hl].
  split; [change (sb_ninodes sb) with NINODES; lia|]. rewrite Ht. destruct Hty as [[_ ->]| ->]; done.
Qed.

Lemma image_used i : live sb V i -> 1 <= i <= 1 + zlen args.
Proof using Him.
  intros [Hi Ht]. destruct (decide (1 <= i <= zlen (final_files host args))) as [H|H]; [|by destruct Ht; apply (im_free _ _ _ Him i Hi H)].
  revert H. rewrite final_files_eq. unfold zlen. cbn [length]. rewrite length_fmap. lia.
Qed.

Lemma image_tree : tree_ok sb V.
Proof using Him Hcount Hnames.
  intros i Hi Ht. change (sb_ninodes sb) with NINODES in Hi.
  assert (Hr : 1 <= i <= 1 + zlen args) by (apply image_used; split; [done|by rewrite Ht]).
  destruct (image_inode i Hr) as (type & bytes & _ & Ht' & _ & [[-> _]| ->]); [|by rewrite Ht in Ht'].
  destruct image_root as (R1 & _ & _ & R2 & _). split; [done|]. change 1 with ROOTINO. split.
  - rewrite <- (file_bytes_size _ _ _ R1), R2. unfold root_bytes. rewrite zlen_pad. unfold round_up, BSIZE. mlia.
  - rewrite R2. destruct (root_dirents args Hcount Hnames) as [m ->]. intros de [Hde|Hde]%elem_of_app H0; [|by apply zero_dirents in Hde].
    apply list_elem_of_fmap in Hde as (x & -> & Hx). destruct (root_entry_ok args Hcount Hnames x Hx) as [Hx1 Hx2].
    destruct (entry_ok x.1 x.2) as (_ & E2 & _); [unfold NINODES in *; lia|done|]. unfold entry_of. rewrite E2. by apply image_live.
Qed.

Lemma image_search cur : may_search cur (disk_inode sb V ROOTINO) = true /\ d_type (disk_inode sb V ROOTINO) = T_DIR.
Proof using Him.
  destruct (made_fields T_DIR (disk_inode sb V ROOTINO)) as (M1 & _ & M3); [apply image_root|by unfold is_i8, T_DIR..|]. split; [|done].
  unfold may_search, has_execute_permission, perm_bit, i_type, i_perm. cbn [i_d]. rewrite M1, M3. by destruct (has_own _ _).
Qed.
End Image.


