(* ===== verification/FirstBoot.v ===== *)
(** * The first boot

    On a disk that has no /passwd yet, the first process makes the file and the
    account of the administrator.  Together with mkfs and the recovery of the log:
    a kernel that starts on an image of mkfs ends its initialisation with that one
    account, in memory and on the disk, and with every file of the image. *)

From S2P Require Import Mkfs MkfsSpec MkfsBoot Prelude KMonad CString Params Bio BioSpec Log LogSpec Crash LogOps Users Store Fs Kalloc Vm Proc Pipe Kern Sysfile Passwd FsSpec FileSpec Dinode Content ReadWrite Paths ICache Dirs Names Tree Create Access Accounts.

(** ** The first table *)

Definition root_user : User := mkUser (field str_root) (field [48; 48; 48; 48]) ROOT_UID.
Definition first_table : list User := root_user :: replicate (Z.to_nat NUSER - 1) empty_user.

Lemma clear_slot_run u i e (Q : unit -> utab -> Prop) : utable u !! i = Some e -> user_wf e ->
  Q tt (set_utable (<[i := empty_user]> (utable u)) u) -> wp (clear_slot i) Q u.
Proof.
  intros Hi He HQ. unfold clear_slot. apply wp_bind, wp_gets, wp_bind. eapply wp_from_opt; [exact Hi|]. apply wp_bind.
  eapply wp_from_opt; [apply memset_field, (uw_name _ He)|]. apply wp_bind. eapply wp_from_opt; [apply memset_field, (uw_pass _ He)|]. by apply wp_modify.
Qed.

(** Slots from [i] on are cleared. *)
Lemma clear_slots n : forall i u (Q : unit -> utab -> Prop), length (utable u) = (i + n)%nat -> Forall user_wf (utable u) ->
  Q tt (set_utable (take i (utable u) ++ replicate n empty_user) u) -> wp (for_each (seq i n) clear_slot) Q u.
Proof.
  induction n as [|n IH]; intros i u Q Hl Hwf HQ; cbn [seq for_each].
  - apply wp_ret. rewrite take_ge, app_nil_r in HQ by lia. by destruct u.
  - destruct (lookup_lt_is_Some_2 (utable u) i) as [e He]; [lia|]. apply wp_bind. eapply clear_slot_run; [exact He|by eapply Forall_lookup_1|].
    apply IH; cbn [utable set_utable].
    + rewrite length_insert. lia.
    + apply Forall_insert; [done|]. apply field_wf; cbn; done || lia.
    + assert (E : take (S i) (<[i := empty_user]> (utable u)) ++ replicate n empty_user = take i (utable u) ++ replicate (S n) empty_user).
      { rewrite (take_S_r _ _ empty_user) by (apply list_lookup_insert_eq; lia). rewrite take_insert_ge by lia. by rewrite <- app_assoc. }
      rewrite E. by destruct u.
Qed.

Lemma init_table_wp u (Q : unit -> utab -> Prop) : length (utable u) = Z.to_nat NUSER -> Forall user_wf (utable u) ->
  Q tt (set_utable first_table (set_next_uid (ROOT_UID + 1) u)) -> wp init_table Q u.
Proof.
  intros Hl Hwf HQ. unfold init_table. apply wp_bind, wp_modify, wp_bind. change (Z.to_nat NUSER - 1)%nat with 9%nat. change (Z.to_nat NUSER) with 10%nat in Hl.
  apply clear_slots; cbn [utable set_next_uid]; [lia|done|]. destruct (utable u) as [|e t] eqn:Eu; [done|]. pose proof (Forall_inv Hwf) as He.
  apply wp_bind, wp_gets. cbn [utable set_utable take app]. apply wp_bind. eapply wp_from_opt; [reflexivity|]. change (Z.to_nat USERNAME_MAXLEN) with 16%nat. change (Z.to_nat USER_PW_MAXLEN) with 16%nat.
  apply wp_bind. eapply wp_from_opt; [apply strncpy_spec; [rewrite (uw_name _ He); done|done]|].
  apply wp_bind. eapply wp_from_opt; [apply strncpy_spec; [rewrite (uw_pass _ He); done|done]|]. apply wp_modify.
  rewrite !drop_ge by (rewrite ?(uw_name _ He), ?(uw_pass _ He); done). by destruct u.
Qed.

Lemma first_table_ok ip l : ut_ok (mkUtab first_table (ROOT_UID + 1) true ip l).
Proof.
  assert (Hin : forall a, a ∈ first_table -> a = root_user \/ a = empty_user).
  { intros a [->|[-> _]%elem_of_replicate]%elem_of_cons; [by left|by right]. }
  assert (Hat : forall i a, first_table !! i = Some a -> used a = true -> i = 0%nat).
  { intros [|i] a Hi Hu; [done|]. cbn in Hi. apply lookup_replicate in Hi as [-> _]. done. }
  split; cbn [utable next_uid].
  - done.
  - apply Forall_forall. intros a [->| ->]%Hin; apply field_wf; cbn; try lia; try (by repeat constructor); unfold is_u32, ROOT_UID; lia.
  - intros i j a b Hi Hj Ua Ub _. by rewrite (Hat i a Hi Ua), (Hat j b Hj Ub).
  - intros i j a b Hi Hj Ua E. pose proof (Hat i a Hi Ua) as ->. injection Hi as <-. destruct (used b) eqn:Ub; [by rewrite (Hat j b Hj Ub)|].
    exfalso. unfold used in Ub. rewrite <- E in Ub. done.
  - intros a [->| ->]%Hin; done.
  - done.
  - exists root_user. split_and!; [by left|done|done].
Qed.

(** The administrator's is the only account. *)
Lemma first_account name pw uid : account first_table name pw uid <-> name = str_root /\ pw = [48; 48; 48; 48] /\ uid = ROOT_UID.
Proof.
  split.
  - intros (a & Ha & Hu & <- & <- & <-). apply elem_of_cons in Ha as [->|[-> _]%elem_of_replicate]; done.
  - intros (-> & -> & ->). exists root_user. split_and!; [by left|done..].
Qed.

(** ** Making /passwd *)

(** After a name was added, changes of its inode alone keep the rest. *)
Lemma named_then sb V dp nm i V1 V2 : named sb V dp nm i V1 -> kept_but sb (fun j => j = i) V1 V2 -> d_type (disk_inode sb V i) = 0 -> live sb V dp ->
  named sb V dp nm i V2.
Proof.
  intros [P1 P2 P3 P4] Hk Hi Hdp. assert (Hne : forall j, live sb V j -> j ≠ i) by (intros j [_ Hj] ->; by rewrite Hi in Hj).
  assert (Hl : live sb V1 dp). { split; [apply Hdp|]. rewrite (proj1 P1). apply Hdp. }
  destruct (Hk dp Hl (Hne dp Hdp)) as (_ & E1 & E2). split.
  - by rewrite E1.
  - by rewrite E1, E2.
  - intros nm' Hn. rewrite E1, E2. by apply P3.
  - intros j Hj Hd. destruct (P4 j Hj Hd) as [F1 F2]. assert (Hlj : live sb V1 j) by (split; [apply Hj|rewrite F1; apply Hj]).
    destruct (Hk j Hlj (Hne j Hj)) as (_ & G1 & G2). rewrite F1 in G1, G2. split; [done|]. by rewrite G2.
Qed.

Definition passwd_name : list Z := [112; 97; 115; 115; 119; 100].

Section First.
Context {S : Type} `{TxStore S}.
Context (devsw_read : Z -> option (nat -> Z -> M (fs S) (Z * list Z))).
Context (devsw_write : Z -> option (nat -> list Z -> Z -> M (fs S) Z)).
Context (home : Z -> bool).
Local Abbreviation c := (mkTx 1 home).

(** The table in an empty file. *)
Lemma write_new_wp sb V L ic ut cu s lk f k i r (Q : unit -> fs S -> Prop) : layout_ok sb c -> walk_st c sb V L ic ut cu s lk f -> disk_ok sb V ->
  f_icache s !! k = Some (locked_inode sb V (c_pid cu) i r) -> 0 < r -> live sb V i -> d_type (disk_inode sb V i) = T_FILE -> d_size (disk_inode sb V i) = 0 ->
  storable ut -> (4 <= size (free_blocks sb V))%nat -> (size L + 13 <= log_capacity)%nat ->
  (forall s' V' L', walk_st c sb V' L' ic ut cu s' lk f -> disk_ok sb V' -> kept_but sb (fun j => j = i) V V' -> live sb V' i ->
     f_icache s' !! k = Some (locked_inode sb V' (c_pid cu) i r) ->
     (exists ad, disk_inode sb V' i = d_set_size passwd_size (d_set_addrs ad (disk_inode sb V i))) -> file_bytes V' (disk_inode sb V' i) = passwd_bytes ut -> Q tt s') ->
  wp (write_usertable devsw_write k) Q s.
Proof using.
  intros Hly Hs Hdk Hk Hr Hi Ht Hz (Hlen & Hwf & Hnx) Hfree Hlog HQ. destruct (read_utable_bytes (utable ut) Hlen Hwf) as [Hzl _]. pose proof (ly_bmap_in _ _ Hly) as Hbm.
  set (d := disk_inode sb V i) in *. unfold write_usertable. apply wp_bind, wp_gets. rewrite (wk_ut _ _ _ _ _ _ _ _ _ _ Hs). apply wp_bind.
  assert (Hle : zlen (le_bytes 4 (next_uid ut)) = 4) by done. change sizeof_utable with 360 in *.
  eapply (writei_walk c sb ic ut cu Hly ltac:(done) devsw_write V L s lk f k i r _ 0 4 1); [exact Hs|exact Hdk|exact Hk|exact Hr|exact Hi|exact Ht|fold d; lia|lia|done|apply le_bytes_byte|done|lia|lia|].
  intros s1 V1 L1 Hs1 Hdk1 Hst1 Hi1 Eic1 (ad1 & Ed1) Eb1 HL1 Hf1. fold d in Ed1, Eb1. rewrite Hz in Ed1. change (0 `max` (0 + 4)) with 4 in Ed1.
  assert (E0 : file_bytes V d = []) by (unfold file_bytes; by rewrite Hz). rewrite E0 in Eb1. change (Z.to_nat 4) with 4%nat in Eb1. rewrite take_ge in Eb1 by done.
  change (negb (4 =? 4)) with false. cbv iota. apply wp_bind. pose proof (lookup_lt_Some _ _ _ Hk) as Hkl.
  eapply (writei_walk c sb ic ut cu Hly ltac:(done) devsw_write V1 L1 s1 lk f k i r _ 4 360 1);
    [exact Hs1|exact Hdk1|rewrite Eic1; by apply list_lookup_insert_eq|exact Hr|exact Hi1|rewrite Ed1; exact Ht|rewrite Ed1; cbn; lia|lia|done|by apply utable_bytes_range|done|lia|lia|].
  intros s2 V2 L2 Hs2 Hdk2 Hst2 Hi2 Eic2 (ad2 & Ed2) Eb2 HL2 Hf2. change (negb (360 =? 360)) with false. cbv iota. apply wp_ret.
  apply (HQ s2 V2 L2); [exact Hs2|exact Hdk2| |exact Hi2| | |].
  - eapply kept_but_trans; [eapply (kept_step sb V V1 i); [lia|apply Hdk|done|done]|eapply (kept_step sb V1 V2 i); [lia|apply Hdk1|done|done]].
  - rewrite Eic2. apply list_lookup_insert_eq. rewrite Eic1. by rewrite length_insert.
  - exists ad2. rewrite Ed2, Ed1. done.
  - rewrite Eb2, Eb1. unfold passwd_bytes. change (Z.to_nat 4) with 4%nat. unfold zlen in Hzl. rewrite (take_ge (utable_bytes _)) by lia.
    change (splice (Z.to_nat 0) (le_bytes 4 (next_uid ut)) []) with (le_bytes 4 (next_uid ut) ++ []). rewrite app_nil_r.
    unfold splice. rewrite take_ge, drop_ge by (rewrite length_le_bytes; lia). by rewrite app_nil_r.
Qed.

(** The file that [create_usertable] leaves. *)
Definition passwd_dinode (ad : list Z) : dinode := mkDinode (Z.lor MODE_RUSR MODE_WUSR) T_FILE 0 0 1 passwd_size ad ROOT_UID.

Lemma create_usertable_wp s V i (Q : nat -> fs S -> Prop) : let sb := f_sb s in let ut := set_utable first_table (set_next_uid (ROOT_UID + 1) (f_ut s)) in
  create_ready s c V ∅ -> resolve sb V (f_cur s) true ROOTINO (elems passwd_path) = Some ROOTINO ->
  dir_find passwd_name (file_bytes V (disk_inode sb V ROOTINO)) = None -> may_write (f_cur s) (disk_inode sb V ROOTINO) = true ->
  first_inode sb V i -> d_size (disk_inode sb V ROOTINO) + 16 <= MAXBYTES -> length (utable (f_ut s)) = Z.to_nat NUSER -> Forall user_wf (utable (f_ut s)) ->
  (forall s' V' L' k r, walk_st c sb V' L' (f_icache s) ut (f_cur s) s' {[k]} (more k no_ref) -> disk_ok sb V' -> named sb V ROOTINO passwd_name i V' ->
     live sb V' i -> f_icache s' !! k = Some (locked_inode sb V' (c_pid (f_cur s)) i r) -> 0 < r ->
     (exists ad, disk_inode sb V' i = passwd_dinode ad) -> file_bytes V' (disk_inode sb V' i) = passwd_bytes ut -> Q k s') ->
  (10 <= size (free_blocks sb V))%nat ->
  wp (create_usertable devsw_read devsw_write) Q s.
Proof using.
  intros sb ut Hready Hres Hnone Hmw Hfi Hsz Hul Huw HQ Hfree. pose proof (ce_names _ _ _ _ Hready) as Hnr. pose proof (nr_layout _ _ _ _ Hnr) as Hly. fold sb in Hly. pose proof (ly_bmap_in _ _ Hly) as Hbm.
  unfold create_usertable. apply wp_bind, wp_on_ut. eapply init_table_wp; [done|done|]. fold ut. set (s1 := with_ut ut s).
  assert (Hready1 : create_ready s1 c V ∅) by (destruct Hready as [[? ? ? ? ? ? ?] ? ? ? ? ?]; split; [by split|done..]).
  assert (Hstart : start_at s1 passwd_path ROOTINO) by done.
  apply wp_bind. eapply wp_mono; [apply (create_wp s1 c V ∅ Hready1 devsw_read devsw_write passwd_path [] T_FILE 0 0 ROOTINO Hstart)|].
  { by repeat constructor. } { by repeat constructor. } { done. } { done. } { by exists i. }
  { intros dp E. change (resolve sb V (f_cur s) true ROOTINO (elems passwd_path) = Some dp) in E. rewrite Hres in E. injection E as <-. split; [done|]. done. }
  cbn [s1 with_ut f_sb f_cur f_icache f_ut]. fold sb. intros r0 s2 Hpost. unfold create_post in Hpost. rewrite Hres in Hpost. destruct Hpost as (e & He & Hpost).
  injection He as <-. change (take 14 [112; 97; 115; 115; 119; 100]) with passwd_name in Hpost. rewrite Hnone, Hmw in Hpost.
  destruct Hpost as (k & q & V2 & L2 & i2 & -> & Hcr & Hs2 & Hk2 & HL2 & Hfr2 & _ & _). pose proof Hcr as [Cd Cn Cf Cl (sz & ad & Ci) Cb _].
  assert (i2 = i) as ->.
  { destruct Cf as (H1 & H2 & H3), Hfi as (G1 & G2 & G3). destruct (Z.lt_trichotomy i2 i) as [Hlt|[E|Hgt]]; [|done|]; exfalso; [by apply (G3 i2); [lia|]|by apply (H3 i); [lia|]]. }
  change (T_FILE =? T_DIR) with false in Cb. cbv iota in Cb. rewrite size_empty in HL2.
  assert (Hq : 0 < q). { pose proof (ca_ref _ _ _ _ _ _ (wk_cache _ _ _ _ _ _ _ _ _ _ Hs2)) as Hcr2. destruct (lookup_lt_is_Some_2 (f_icache s) k) as [y Hy].
    - rewrite <- (ca_len _ _ _ _ _ _ (wk_cache _ _ _ _ _ _ _ _ _ _ Hs2)). by eapply lookup_lt_Some.
    - destruct (Hcr2 k y _ Hy Hk2) as (E & ? & _). cbn in E. pose proof (more_one k). lia. }
  assert (Hsz0 : sz = 0). { assert (E : zlen (file_bytes V2 (disk_inode sb V2 i)) = 0) by (by rewrite Cb). rewrite (file_bytes_size sb) in E by (by apply (bl_file _ _ (dk_blocks _ _ Cd))). by rewrite Ci in E. }
  subst sz. set (d2 := disk_inode sb V2 i) in *. set (d3 := d_set_owner ROOT_UID (d_set_perm (Z.lor MODE_RUSR MODE_WUSR) d2)).
  assert (Hd2 : dinode_ok d2) by (apply disk_inode_ok; [eapply walk_wf, Hs2|apply Cl]). pose proof (lookup_lt_Some _ _ _ Hk2) as Hkl.
  unfold own. apply wp_bind, wp_bind. eapply wp_upd_d; [exact Hk2|]. apply wp_bind. eapply wp_upd_d; [by apply list_lookup_insert_eq|].
  cbn [put_ic f_icache f_store f_sb f_ut f_cur]. rewrite list_insert_insert_eq.
  match goal with |- wp _ _ ?st => change st with (put_ic (<[k := set_d d3 (locked_inode sb V2 (c_pid (f_cur s)) i q)]> (f_icache s2)) s2) end.
  eapply (iupdate_walk c sb (f_icache s) ut (f_cur s) Hly ltac:(done) V2 L2 s2 {[k]} _ k i q d3); [exact Hs2|exact Cd|exact Hk2|exact Hq|exact Cl| |reflexivity|reflexivity|reflexivity|done| |].
  { destruct Hd2. by split. }
  { split; [change log_capacity with 29%nat; lia|rewrite map_size_empty; lia]. }
  intros s3 V3 Hs3 Hdk3 Hst3 Ed3 Hl3 Edat3 Eic3. pose proof (size_one_le (IBLOCK i sb) L2) as HL3. apply wp_bind.
  pose proof (lookup_lt_Some _ _ _ Hk2) as Hk3l.
  eapply (write_new_wp sb V3 _ (f_icache s) ut (f_cur s) s3 {[k]} (more k no_ref) k i q);
    [exact Hly|exact Hs3|exact Hdk3|rewrite Eic3; by apply list_lookup_insert_eq|exact Hq|exact Hl3|by rewrite Ed3; unfold d3; rewrite Ci|by rewrite Ed3; unfold d3; rewrite Ci| | | |].
  { split; [done|]. split; [apply (ut_wf _ (first_table_ok None initsleeplock))|done]. }
  { assert (E : free_blocks sb V3 = free_blocks sb V2) by (unfold free_blocks, allocated; by rewrite Edat3 by lia). rewrite E. lia. }
  { change log_capacity with 29%nat. lia. }
  intros s4 V4 L4 Hs4 Hdk4 Hkept4 Hl4 Hk4 (ad4 & Ed4) Eb4. apply wp_ret. apply (HQ s4 V4 L4 k q); try assumption.
  - eapply named_then; [exact Cn| |apply Hfi|apply (nr_root _ _ _ _ Hnr)]. eapply kept_but_trans; [|exact Hkept4]. eapply (kept_step sb V2 V3 i); [lia|apply Cd|done|done].
  - exists ad4. rewrite Ed4, Ed3. unfold d3. rewrite Ci. done.
Qed.

(** ** [init_usertable] on a new disk *)

(** The state of the first process on a disk without the file. *)
Record unmade (s : fs S) (V : Z -> list Z) (i : Z) : Prop := {
  um_new : utable_initialized (f_ut s) = false;
  um_table : length (utable (f_ut s)) = Z.to_nat NUSER /\ Forall user_wf (utable (f_ut s));
  um_layout : layout_ok (f_sb s) c;
  um_holds : holds s (mkTx 0 home) V ∅ ∅;
  um_disk : disk_ok (f_sb s) V;
  um_root : live (f_sb s) V ROOTINO /\ d_nlink (disk_inode (f_sb s) V ROOTINO) ≠ 0 /\ d_type (disk_inode (f_sb s) V ROOTINO) = T_DIR;
  um_access : may_search (f_cur s) (disk_inode (f_sb s) V ROOTINO) = true /\ may_write (f_cur s) (disk_inode (f_sb s) V ROOTINO) = true;
  um_cache : cache (f_sb s) V ∅ no_ref (f_icache s) (f_icache s);
  um_free : exists j1 j2 x1 x2, j1 ≠ j2 /\ f_icache s !! j1 = Some x1 /\ f_icache s !! j2 = Some x2 /\ i_ref x1 = 0 /\ i_ref x2 = 0;
  um_name : dir_find passwd_name (file_bytes V (disk_inode (f_sb s) V ROOTINO)) = None;
  um_inode : first_inode (f_sb s) V i /\ sb_ninodes (f_sb s) <= 65536;
  um_space : d_size (disk_inode (f_sb s) V ROOTINO) + 16 <= MAXBYTES /\ (10 <= size (free_blocks (f_sb s) V))%nat }.

(** What it leaves. *)
Record first_accounts (s : fs S) (V : Z -> list Z) (i : Z) (s' : fs S) (V' : Z -> list Z) (ip : nat) : Prop := {
  fa_accounts : accounts_ok home s' V' ip i;
  fa_table : utable (f_ut s') = first_table /\ next_uid (f_ut s') = ROOT_UID + 1;
  fa_sb : f_sb s' = f_sb s;
  fa_disk : disk_ok (f_sb s) V';
  fa_file : exists ad, disk_inode (f_sb s) V' i = passwd_dinode ad;
  fa_named : named (f_sb s) V ROOTINO passwd_name i V' }.

Lemma init_new_wp s V i : unmade s V i ->
  wp (init_usertable devsw_read devsw_write) (fun r s' => r = 0 /\ exists V' ip, first_accounts s V i s' V' ip) s.
Proof using.
  intros [U1 [U2 U2'] U3 U4 U5 (U6 & U6' & U6'') [U7 U7'] U8 U9 U10 [U11 U11'] [U12 U13]]. set (sb := f_sb s) in *. pose proof (ly_bmap_in _ _ U3) as Hbm.
  assert (Hroom : room ∅ ∅ 0) by (split; [rewrite size_empty; vm_compute; lia|rewrite map_size_empty; lia]).
  unfold init_usertable. apply wp_bind, wp_gets. rewrite U1. apply wp_bind. eapply wp_begin_op; [exact U4|]. intros t1 Hh1. set (s1 := put_store t1 s) in *.
  assert (Hnr : names_ready s1 c V ∅) by (split; [exact U3|exact Hroom|exact Hh1|apply U5|by split|exact U8|exact U9]).
  destruct (namex_spec s1 c V ∅ devsw_read false passwd_path [] (replicate 14 0) ROOTINO Hnr) as (r & s2 & Hrun & Hpost); [done|by repeat constructor|done|].
  assert (Eres : forall par, resolve sb V (f_cur s) par ROOTINO (elems passwd_path) = if par : bool then Some ROOTINO else None).
  { intros par. change (elems passwd_path) with [passwd_name]. cbn [resolve]. rewrite U6'', U7. change (take 14 passwd_name) with passwd_name. rewrite U10. by destruct par. }
  change (resolve _ _ _ _ _ _) with (resolve sb V (f_cur s) false ROOTINO (elems passwd_path)) in Hpost. rewrite Eres in Hpost. destruct Hpost as [-> Hw].
  pose proof Hw as [W1 W2 W3 W4 W5]. change (f_sb s1) with sb in *. change (f_ut s1) with (f_ut s) in *. change (f_cur s1) with (f_cur s) in *. change (f_icache s1) with (f_icache s) in *.
  apply wp_bind. unfold namei. apply wp_bind. apply wp_Ok. eexists _, s2. split; [exact Hrun|]. apply wp_ret. cbn [fmap option_fmap option_map].
  assert (Hfree2 : exists j1 j2 x1 x2, j1 ≠ j2 /\ f_icache s2 !! j1 = Some x1 /\ f_icache s2 !! j2 = Some x2 /\ i_ref x1 = 0 /\ i_ref x2 = 0).
  { destruct U9 as (j1 & j2 & x1 & x2 & Hj & E1 & E2 & R1 & R2).
    assert (Hg : forall j x, f_icache s !! j = Some x -> i_ref x = 0 -> exists x', f_icache s2 !! j = Some x' /\ i_ref x' = 0).
    { intros j x Hx Hr. destruct (lookup_lt_is_Some_2 (f_icache s2) j) as [x' Hx']; [rewrite (ca_len _ _ _ _ _ _ W5); by eapply lookup_lt_Some|].
      exists x'. split; [done|]. destruct (ca_ref _ _ _ _ _ _ W5 _ _ _ Hx Hx') as (E & _). unfold no_ref in E. lia. }
    destruct (Hg _ _ E1 R1) as (y1 & Y1 & Z1), (Hg _ _ E2 R2) as (y2 & Y2 & Z2). by exists j1, j2, y1, y2. }
  assert (Hready : create_ready s2 c V ∅).
  { split; rewrite ?W1; [|done|done|done|lia|rewrite size_empty; vm_compute; lia]. split; rewrite ?W1; [exact U3|exact Hroom|exact W4|apply U5|by split|by eapply cache_self|exact Hfree2]. }
  apply wp_bind. eapply (create_usertable_wp s2 V i); rewrite ?W1, ?W2, ?W3; [exact Hready|by rewrite Eres|exact U10|exact U7'|exact U11|exact U12|exact U2|exact U2'| |exact U13].
  intros s3 V3 L3 k q Hs3 Hdk3 Hna3 Hl3 Hk3 Hq (ad & Ed3) Eb3. pose proof Hs3 as [X1 X2 X3 X4 X5]. set (ut := set_utable first_table _) in *.
  apply wp_bind. eapply (iunlock_wp sb V3 s3 {[k]} _ _ k); [exact X5|exact Hk3|exact Hq|by rewrite X3|]. intros ic4 Hca4 Eic4. rewrite unlock_one in Hca4.
  apply wp_bind. eapply wp_end_op; [exact X4|]. intros t5 V5 Hh5 Hhome. apply wp_bind, wp_on_ut. eapply wp_modify. apply wp_ret. split; [done|].
  assert (Hino : forall j, 0 <= j < sb_ninodes sb -> V5 (IBLOCK j sb) = V3 (IBLOCK j sb)) by (intros j Hj; apply Hhome; by destruct (ly_inodes _ _ U3 j Hj)).
  assert (Hdat : forall b, sb_bmapstart sb <= b < sb_size sb -> V5 b = V3 b).
  { intros b Hb. apply Hhome. destruct (decide (b = sb_bmapstart sb)) as [->|]; [apply (ly_bmap _ _ U3)|apply (ly_home _ _ U3); lia]. }
  pose proof (view_inode sb V3 V5 Hino) as Vi. pose proof (view_file sb V3 V5 ltac:(lia) Hdat ltac:(lia)) as Vf.
  assert (Hd5 : disk_inode sb V5 i = passwd_dinode ad) by (rewrite Vi; [done|apply Hl3]).
  destruct (Vf _ (bl_file _ _ (dk_blocks _ _ Hdk3) i Hl3)) as (F1 & F2 & _). rewrite Ed3 in F1, F2. rewrite Ed3 in Eb3.
  exists V5, k. split; cbn [with_ut put_store put_ic f_sb f_ut f_icache]; rewrite ?X1, ?X2; fold sb; [| |exact eq_refl| | |].
  - split; cbn [with_ut put_store put_ic f_sb f_ut f_icache]; rewrite ?X1, ?X2, ?Hd5; cbn [utable next_uid utable_ip utable_lock set_utable set_next_uid ut]; try done.
    + split; cbn [with_ut put_store put_ic f_sb f_ut f_icache]; rewrite ?X1, ?Hd5; try done.
      * eapply cache_view_all; [exact Vi|]. by eapply cache_self.
      * exists (set_ilock initsleeplock (locked_inode sb V3 (c_pid (f_cur s)) i q)). split; [|done]. rewrite Eic4. apply list_lookup_insert_eq. by eapply lookup_lt_Some.
    + rewrite F2. exact Eb3.
    + apply first_table_ok.
  - done.
  - by eapply (view_disk sb V3 V5); [lia|..|lia|].
  - by exists ad.
  - assert (Hz : d_type (disk_inode sb V i) = 0) by apply U11.
    eapply named_then; [exact Hna3| |exact Hz|exact U6]. intros j Hj _. split; [by apply (view_live sb V3 V5 Hino)|]. rewrite Vi by apply Hj. split; [done|].
    by apply Vf, (bl_file _ _ (dk_blocks _ _ Hdk3)).
Qed.
End First.

(** ** The log of an image *)

(** [forkret], after the release of ptable.lock: the first process initialises the
    file system, the log and the table of users; [first] is the static variable. *)
Definition forkret (devsw_read : Z -> option (nat -> Z -> M (fs Log.store) (Z * list Z))) (devsw_write : Z -> option (nat -> list Z -> Z -> M (fs Log.store) Z))
    (first : bool) : M (fs Log.store) bool :=
  if first then
    iinit ROOTDEV ;;;
    on_store (initlog ROOTDEV) ;;;
    init_usertable devsw_read devsw_write ;;;
    ret false
  else ret first.

Definition image_log : log := mkLog (sb_logstart sb) (sb_nlog sb) 0 0 ROOTDEV 0 (lh_block log_bss).
Definition image_home : Z -> bool := home_block image_log FSSIZE.

(** [readsb] of the file system is that of the log. *)
Lemma fs_readsb dev s : Fs.readsb dev s = on_store (Log.readsb dev) s.
Proof.
  unfold Fs.readsb, Log.readsb, Fs.bread, Fs.read_data, Fs.brelse, tx_bread, tx_read_data, tx_brelse, log_store.
  unfold on_store, lift, bind, ret. destruct (on_bio (Bio.bread dev 1) (f_store s)) as [bp s1|]; [|done]. cbn [f_store].
  destruct (on_bio (Bio.read_data bp) s1) as [d s2|]; [|done]. cbn [f_store]. by destruct (on_bio (Bio.brelse bp) s2).
Qed.

Section ImageLog.
Context (W : Z -> list Z).
Hypothesis Hsb : decode_superblock (W 1) = sb.
Hypothesis Hlog : hdr_n (W (sb_logstart sb)) = 0.

Lemma initlog_wp st : rep (s_bio st) W ∅ ∅ ∅ -> disksize (s_bio st) = FSSIZE -> s_log st = log_bss ->
  wp (initlog ROOTDEV) (fun _ st' => exists V', log_rep st' (mkA V' ∅ ∅ ∅ 0 image_home) /\ forall b, b ≠ sb_logstart sb -> V' b = W b) st.
Proof using Hsb Hlog.
  intros HR Hz Hl. unfold initlog. change (BSIZE <=? sizeof_logheader) with false. cbv iota. apply wp_bind. eapply wp_mono.
  { apply (readsb_spec st W HR). by rewrite Hz. }
  cbn beta. intros q s1 (-> & Hl1 & (HR1 & _ & _ & Hz1 & _)). apply wp_bind, wp_set_log. rewrite Hl1, Hl, Hsb.
  change (mkLog _ _ _ _ _ _ _) with image_log. set (s2 := mkStore (s_bio s1) image_log).
  assert (Hb : hdr_blocks (W (sb_logstart sb)) = []) by (unfold hdr_blocks; by rewrite Hlog).
  assert (El : load_hdr (W (sb_logstart sb)) image_log = image_log) by (unfold load_hdr; by rewrite Hb, Hlog).
  eapply wp_mono; [apply (recover_spec s2 W); change (l_start (s_log s2)) with (sb_logstart sb)|].
  - exact HR1.
  - done.
  - change (s_log s2) with image_log. rewrite El. cbn [s2 s_bio]. rewrite Hz1, Hz. split; try done. intros i b _ Hc. cbn in Hc. lia.
  - cbn beta. change (l_start (s_log s2)) with (sb_logstart sb). change (s_log s2) with image_log. rewrite El.
    intros [] s' [Hs' Hd]. pose proof (done_with_disk _ _ _ _ _ Hd eq_refl) as Hdk. destruct Hd as (HR' & _ & _ & Hz' & _). cbn [s2 s_bio] in Hz'.
    exists (V_recovered s2 W). split; [|intros b Hne; unfold V_recovered, install_ws; rewrite upd_ne by done].
    2:{ change (s_log s2) with image_log. change (l_start image_log) with (sb_logstart sb). by rewrite El. }
    apply log_rep_empty; rewrite ?Hs', ?Hz', ?Hz1, ?Hz; try done. rewrite Hdk. unfold V_recovered. change (l_start (set_lh_n 0 image_log)) with (sb_logstart sb).
    rewrite upd_eq. apply hdr_n_clear,  (rep_data_wf _ _ _ _ _ HR).
Qed.
End ImageLog.

(** ** A new image *)

Lemma used_nonneg files : 0 <= MkfsSpec.used files.
Proof.
  unfold MkfsSpec.used. induction files as [|x l IH]; cbn [foldr]; [done|]. pose proof (Z.div_pos (zlen x.2 + 511) 512) as Hd. pose proof (zlen_nonneg x.2).
  unfold nblk at 1. unfold one. destruct (5632 <? zlen x.2); lia.
Qed.

Section NewImage.
Context (host : list Z -> option (list (list Z))) (args : list (list Z)) (img : list (list Z)) (V : Z -> list Z).
Hypothesis Him : image img V (final_files host args).
Hypothesis Hcount : 3 + zlen args <= NINODES.
Hypothesis Hnames : Forall (fun a => nonzero (file_name a)) args.

Lemma image_disk : disk_ok sb V.
Proof using Him Hcount Hnames.
  assert (Hlen : zlen (final_files host args) = 1 + zlen args) by (rewrite final_files_eq; unfold zlen; cbn [length]; rewrite length_fmap; lia).
  split; [split|eapply image_tree; [done|lia|done]].
  - apply Him.
  - intros i Hi%(image_used _ _ _ _ Him). destruct (image_inode _ _ _ _ Him i Hi) as (? & ? & Hf & _). apply Hf.
  - intros i j b Hi%(image_used _ _ _ _ Him) Hj%(image_used _ _ _ _ Him) Hne. unfold zlen in *.
    pose proof (im_sep _ _ _ Him (Z.to_nat (i - 1)) (Z.to_nat (j - 1)) b ltac:(lia) ltac:(lia) ltac:(lia)) as Hs.
    by replace (1 + Z.of_nat (Z.to_nat (i - 1))) with i in Hs by lia; replace (1 + Z.of_nat (Z.to_nat (j - 1))) with j in Hs by lia.
Qed.

Lemma image_first : first_inode sb V (2 + zlen args).
Proof using Him Hcount.
  pose proof (zlen_nonneg args). split; [change (sb_ninodes sb) with NINODES; lia|]. split.
  - destruct (decide (d_type (disk_inode sb V (2 + zlen args)) = 0)) as [|Hn]; [done|]. assert (Hl : live sb V (2 + zlen args)) by (split; [change (sb_ninodes sb) with NINODES; lia|done]).
    apply (image_used _ _ _ _ Him) in Hl. lia.
  - intros j Hj. apply (image_live _ _ _ _ Him ltac:(lia) j). lia.
Qed.

Lemma image_absent nm : Forall (fun a => take 14 (file_name a) ≠ nm) args -> nm ≠ [46] -> nm ≠ [46; 46] ->
  dir_find nm (root_bytes args) = None.
Proof using Hcount Hnames.
  intros Hno H1 H2. destruct (root_dirents args ltac:(lia) Hnames) as [m Hm]. unfold dir_find. rewrite Hm. apply list_find_None, Forall_app. split.
  - apply Forall_fmap, Forall_forall. intros x Hx [_ En]. destruct (root_entry_ok args ltac:(lia) Hnames x Hx) as [Hx1 Hx2].
    destruct (entry_ok x.1 x.2) as (_ & _ & E); [unfold NINODES in *; lia|done|]. unfold compose, entry_of in En. rewrite E in En.
    apply elem_of_cons in Hx as [->|[->|Hx]%elem_of_cons]; [done..|]. apply list_elem_of_lookup in Hx as (j & Hj). rewrite list_lookup_imap in Hj.
    apply fmap_Some in Hj as (a & Ha & ->). by apply (Forall_lookup_1 _ _ _ _ Hno Ha).
  - apply Forall_forall. intros de Hde [H0 _]. by apply H0, (zero_dirents m).
Qed.

Lemma image_space n : MkfsSpec.used (final_files host args) + Z.of_nat n <= FSSIZE -> (n <= size (free_blocks sb V))%nat.
Proof using Him.
  intros Hu. set (u := MkfsSpec.used _) in *. pose proof (used_nonneg (final_files host args)) as H0. fold u in H0.
  rewrite <- (Nat2Z.id n), <- (length_seqZ u (Z.of_nat n)), <- (size_list_to_set (C := gset Z)) by apply NoDup_seqZ. apply subseteq_size. intros b Hb%elem_of_list_to_set%elem_of_seqZ.
  apply elem_of_free_blocks. change (sb_size sb) with FSSIZE. split; [lia|]. rewrite (im_bits _ _ _ Him) by lia. apply Z.ltb_ge. lia.
Qed.
End NewImage.

(** ** The first process *)

(** The kernel's memory when [main] starts [userinit]: everything zero, but for the
    buffer cache of [binit] and [next_uid]. *)
Definition bss_inode : inode := mkInode 0 0 0 initsleeplock false (mkDinode 0 0 0 0 0 0 (replicate NADDRS 0) 0).
Definition bss_fs (dk : gmap Z (list Z)) (pid : Z) : fs Log.store :=
  mkFs (mkStore (binit dk FSSIZE pid) log_bss) (mkSuperblock 0 0 0 0 0 0 0) (replicate (Z.to_nat NINODE) bss_inode)
    (mkUtab (replicate (Z.to_nat NUSER) empty_user) (ROOT_UID + 1) false None initsleeplock) (mkCurproc pid ROOT_UID None).

(** [p->cwd = namei("/")] of [userinit], then the process runs. *)
Definition first_process (devsw_read : Z -> option (nat -> Z -> M (fs Log.store) (Z * list Z))) (devsw_write : Z -> option (nat -> list Z -> Z -> M (fs Log.store) Z)) : M (fs Log.store) bool :=
  cwd <- namei devsw_read [SLASH; 0] ;;
  modify (fun s => mkFs (f_store s) (f_sb s) (f_icache s) (f_ut s) (mkCurproc (c_pid (f_cur s)) (c_uid (f_cur s)) cwd)) ;;;
  forkret devsw_read devsw_write true.

Definition cwd_inode : inode := mkInode ROOTDEV ROOTINO 1 initsleeplock false (mkDinode 0 0 0 0 0 0 (replicate NADDRS 0) 0).
Definition cwd_icache : list inode := cwd_inode :: replicate (Z.to_nat NINODE - 1) bss_inode.

Lemma userinit_cwd dr dk pid : namei dr [SLASH; 0] (bss_fs dk pid) =
  Ok (Some 0%nat) (mkFs (f_store (bss_fs dk pid)) (f_sb (bss_fs dk pid)) cwd_icache (f_ut (bss_fs dk pid)) (f_cur (bss_fs dk pid))).
Proof. reflexivity. Qed.

Lemma cwd_cache V : live sb V ROOTINO -> cache sb V ∅ no_ref cwd_icache cwd_icache.
Proof.
  intros Hl. assert (Hx : forall j x, cwd_icache !! j = Some x -> j = 0%nat /\ x = cwd_inode \/ x = bss_inode).
  { intros [|j] x Hj; [left; by injection Hj as <-|right]. change (replicate (Z.to_nat NINODE - 1) bss_inode !! j = Some x) in Hj. by apply lookup_replicate in Hj as [-> _]. }
  split; [done|done| | |].
  - intros j x Hj. destruct (Hx j x Hj) as [[_ ->]| ->]; split; cbn; unfold bss_inode; cbn; done || lia.
  - intros j j' x x' Hj Hj' Hr Hr' _. destruct (Hx j x Hj) as [[-> _]| ->]; [|by cbn in Hr]. destruct (Hx j' x' Hj') as [[-> _]| ->]; [done|by cbn in Hr'].
  - intros j x x' Hj Hj'. rewrite Hj in Hj'. injection Hj' as <-. unfold no_ref. split; [lia|]. split; [|done]. destruct (Hx j x Hj) as [[_ ->]| ->]; cbn; lia.
Qed.

Lemma image_layout n : layout_ok sb (mkTx n image_home).
Proof.
  assert (Hh : forall b, 32 <= b < 1000 -> image_home b = true).
  { intros b Hb. apply home_block_true. change (l_start image_log) with 2. change (l_size image_log) with 30. unfold FSSIZE. lia. }
  destruct mk_layout as [L1 _ _ L4 L5]. split; cbn [t_home]; [done| |by apply Hh|done|].
  - intros b Hb. apply Hh. change (sb_bmapstart sb) with 58 in Hb. change (sb_size sb) with 1000 in Hb. lia.
  - intros i Hi. destruct (L5 i Hi) as [_ Hr]. split; [|done]. apply Hh. change (sb_ninodes sb) with NINODES in Hi. pose proof (iblock_range i Hi) as Hb.
    change (sb_bmapstart sb) with 58 in Hb. lia.
Qed.

(** The initialisation up to the table of users. *)
Lemma forkret_start dr dw W st ut cu (Q : bool -> fs Log.store -> Prop) : decode_superblock (W 1) = sb -> hdr_n (W (sb_logstart sb)) = 0 ->
  rep (s_bio st) W ∅ ∅ ∅ -> disksize (s_bio st) = FSSIZE -> s_log st = log_bss ->
  (forall st' V', log_rep st' (mkA V' ∅ ∅ ∅ 0 image_home) -> (forall b, b ≠ sb_logstart sb -> V' b = W b) ->
     wp (init_usertable dr dw) (fun _ => Q false) (mkFs st' sb cwd_icache ut cu)) ->
  wp (forkret dr dw true) Q (mkFs st (mkSuperblock 0 0 0 0 0 0 0) cwd_icache ut cu).
Proof.
  intros Hsb Hlog HR Hz Hl HQ. unfold forkret, iinit. apply wp_bind, wp_bind, wp_modify. cbn [f_store f_sb f_icache f_ut f_cur].
  change (set_ilock initsleeplock <$> cwd_icache) with cwd_icache. apply wp_bind. unfold wp at 1. rewrite fs_readsb.
  apply wp_lift. cbn [f_store]. eapply wp_mono; [apply (readsb_spec st W HR); by rewrite Hz|]. cbn beta. intros q st1 (-> & Hl1 & (HR1 & _ & _ & Hz1 & _)).
  apply wp_modify. cbn [f_store f_sb f_icache f_ut f_cur]. rewrite Hsb. apply wp_bind, wp_lift. cbn [f_store].
  eapply wp_mono; [apply (initlog_wp W Hsb Hlog st1 HR1); congruence|]. cbn beta. intros [] st2 (V' & HL & HV). cbn [f_store f_sb f_icache f_ut f_cur].
  apply wp_bind. eapply wp_mono; [by apply (HQ st2 V')|]. cbn beta. intros _ s' Hs'. by apply wp_ret.
Qed.

Section Boot.
Context (host : list Z -> option (list (list Z))) (args : list (list Z)) (img : list (list Z)) (V : Z -> list Z).
Hypothesis Him : image img V (final_files host args).
Hypothesis Hcount : 3 + zlen args <= NINODES.
Hypothesis Hnames : Forall (fun a => nonzero (file_name a)) args.
Hypothesis Hpasswd : Forall (fun a => take 14 (file_name a) ≠ passwd_name) args.
Hypothesis Hspace : MkfsSpec.used (final_files host args) + 10 <= FSSIZE.

(** The view of the booted kernel is that of the image, but for the log. *)
Lemma image_views V' : (forall b, 0 <= b < FSSIZE -> b ≠ sb_logstart sb -> V' b = V b) ->
  0 <= sb_bmapstart sb /\ (forall j, 0 <= j < sb_ninodes sb -> V' (IBLOCK j sb) = V (IBLOCK j sb))
  /\ (forall b, sb_bmapstart sb <= b < sb_size sb -> V' b = V b) /\ sb_bmapstart sb < sb_size sb.
Proof using.
  intros HV. change (sb_bmapstart sb) with 58. change (sb_size sb) with 1000. split_and!; [lia| |intros b Hb; apply HV; [unfold FSSIZE; lia|change (sb_logstart sb) with 2; lia]|lia].
  intros j Hj. pose proof (iblock_range j Hj) as Hb. change (sb_bmapstart sb) with 58 in Hb. apply HV; [unfold FSSIZE; lia|change (sb_logstart sb) with 2; lia].
Qed.

Lemma image_unmade st V' cu : log_rep st (mkA V' ∅ ∅ ∅ 0 image_home) -> (forall b, 0 <= b < FSSIZE -> b ≠ sb_logstart sb -> V' b = V b) -> c_uid cu = ROOT_UID ->
  unmade image_home (mkFs st sb cwd_icache (mkUtab (replicate (Z.to_nat NUSER) empty_user) (ROOT_UID + 1) false None initsleeplock) cu) V' (2 + zlen args).
Proof using Him Hcount Hnames Hpasswd Hspace.
  intros HL HV Hcu. destruct (image_views V' HV) as (Hbm & Hino & Hdat & Hlt). pose proof (zlen_nonneg args) as Hz0.
  destruct (image_live _ _ _ _ Him ltac:(lia) ROOTINO) as [Hlr Hnl]; [unfold ROOTINO; lia|].
  pose proof (view_inode sb V V' Hino) as Vi. pose proof (Vi ROOTINO (proj1 Hlr)) as Er. pose proof (image_disk _ _ _ _ Him Hcount Hnames) as Hdk.
  destruct (view_file sb V V' Hbm Hdat Hlt _ (bl_file _ _ (dk_blocks _ _ Hdk) _ Hlr)) as (_ & Fb & _). destruct (image_root _ _ _ _ Him) as (R1 & _ & R2 & R3 & _).
  destruct (made_fields T_DIR (disk_inode sb V ROOTINO) R2) as (M1 & _ & M3); [by unfold is_i8, T_DIR..|].
  assert (Hlr' : live sb V' ROOTINO) by (by apply (view_live sb V V' Hino)).
  split; cbn [f_ut f_sb f_icache f_cur utable utable_initialized]; rewrite ?Er, ?Fb, ?R3.
  - done.
  - split; [by rewrite length_replicate|]. apply Forall_replicate, field_wf; cbn; try lia; try (by repeat constructor); unfold is_u32; lia.
  - apply image_layout.
  - exact HL.
  - by apply (view_disk sb V V').
  - done.
  - unfold may_search, may_write, has_execute_permission, has_write_permission, has_own, perm_bit, i_type, i_perm. cbn [i_d]. by rewrite M1, M3, Hcu, Z.eqb_refl, orb_true_r.
  - by apply cwd_cache.
  - by exists 1%nat, 2%nat, bss_inode, bss_inode.
  - by apply (image_absent args).
  - split; [|by unfold NINODES]. destruct (image_first _ _ _ _ Him Hcount) as (I1 & I2 & I3). split; [done|]. split; [by rewrite Vi by lia|]. intros j Hj. rewrite Vi by lia. by apply I3.
  - split; [|exact (view_free sb V V' Hbm Hdat Hlt 10 (image_space _ _ _ _ Him 10 Hspace))]. rewrite <- (file_bytes_size _ _ _ R1), R3, root_size by (lia || done). unfold round_up, BSIZE, NINODES in *. change MAXBYTES with 71168. mlia.
Qed.

Lemma first_boot_run devsw_read devsw_write dk pid : map_Forall (fun _ d => wf_block d) dk -> (forall k d, img !! k = Some d -> dread dk (Z.of_nat k) = d) ->
  let i := 2 + zlen args in
  exists s' V' ip ad, first_process devsw_read devsw_write (bss_fs dk pid) = Ok false s'
    /\ accounts_ok image_home s' V' ip i /\ utable (f_ut s') = first_table /\ f_sb s' = sb /\ disk_ok sb V' /\ disk_inode sb V' i = passwd_dinode ad
    /\ named sb V ROOTINO passwd_name i V'.
Proof using Him Hcount Hnames Hpasswd Hspace.
  intros Hdk Himg i. assert (HW : forall b, 0 <= b < FSSIZE -> dread dk b = V b).
  { intros b Hb. rewrite <- (Z2Nat.id b) by lia. apply Himg. rewrite (im_blocks _ _ _ Him), list_lookup_fmap, lookup_seqZ_lt by lia. done. }
  assert (Hwp : wp (first_process devsw_read devsw_write) (fun r s' => r = false /\ exists s0 V0 V' ip, first_accounts image_home s0 V0 i s' V' ip
      /\ f_sb s0 = sb /\ forall b, 0 <= b < FSSIZE -> b ≠ sb_logstart sb -> V0 b = V b) (bss_fs dk pid)).
  { unfold first_process. apply wp_bind. apply wp_Ok. eexists _, _. split; [apply userinit_cwd|]. apply wp_bind, wp_modify. cbn [f_store f_sb f_icache f_ut f_cur bss_fs].
    apply (forkret_start _ _ (dread dk)); [rewrite HW by done; apply Him|rewrite HW by done; apply Him|by apply binit_rep|done|done|].
    intros st' V0 HL HV. assert (HV0 : forall b, 0 <= b < FSSIZE -> b ≠ sb_logstart sb -> V0 b = V b) by (intros b Hb Hne; rewrite HV by done; by apply HW).
    eapply wp_mono; [apply (init_new_wp _ _ image_home _ V0 i); by apply image_unmade|]. cbn beta. intros r s' [_ (V' & ip & Hf)]. split; [done|]. eexists _, V0, V', ip. done. }
  apply wp_Ok in Hwp as (r & s' & Hrun & -> & s0 & V0 & V' & ip & [F1 [F2 _] F3 F4 [ad F5] F6] & Es & HV0). rewrite Es in *.
  exists s', V', ip, ad. split_and!; try done. destruct (image_views V0 HV0) as (Hbm & Hino & Hdat & Hlt). pose proof (zlen_nonneg args).
  apply (view_named sb V V0 Hbm Hino Hdat Hlt _ _ _ _ (image_disk _ _ _ _ Him Hcount Hnames)); [|exact F6]. apply (image_live _ _ _ _ Him ltac:(lia)). unfold ROOTINO. lia.
Qed.
End Boot.

(** The disk with an image written to it. *)
Definition disk_of (img : list (list Z)) : gmap Z (list Z) := list_to_map (imap (fun k d => (Z.of_nat k, d)) img).

Lemma disk_of_nodup (img : list (list Z)) : NoDup (imap (fun k d => (Z.of_nat k, d)) img).*1.
Proof.
  apply NoDup_alt. intros i j x. rewrite !list_lookup_fmap, !list_lookup_imap. destruct (img !! i), (img !! j); cbn; try done. intros [= <-] [= E]. lia.
Qed.

Lemma disk_of_read img k d : img !! k = Some d -> dread (disk_of img) (Z.of_nat k) = d.
Proof.
  intros Hk. unfold dread, disk_of. erewrite elem_of_list_to_map_1; [done|apply disk_of_nodup|]. apply (list_elem_of_lookup_2 _ k). by rewrite list_lookup_imap, Hk.
Qed.

Lemma disk_of_wf img : Forall wf_block img -> map_Forall (fun _ d => wf_block d) (disk_of img).
Proof.
  intros Hw b d Hb. apply elem_of_list_to_map_2, list_elem_of_lookup in Hb as (k & Hk). rewrite list_lookup_imap in Hk.
  destruct (img !! k) as [x|] eqn:Hx; [|done]. injection Hk as _ <-. by apply (Forall_lookup_1 _ _ _ _ Hw Hx).
Qed.

Lemma image_wf img V files : image img V files -> Forall wf_block img.
Proof. intros Him. rewrite (im_blocks _ _ _ Him). apply Forall_fmap, Forall_forall. intros b Hb%elem_of_seqZ. apply (im_wf _ _ _ Him). lia. Qed.

(** C15: The first boot.  A kernel that starts on an image of mkfs with no file passwd,
    an inode and ten blocks to spare runs its initialisation to the end: [namei] of
    [userinit], then [iinit], [initlog] and [init_usertable] in [forkret].  It leaves
    /passwd on the disk, a file that only the administrator may read or write and that
    holds the table in memory; the one account is the administrator's, with its fixed
    password; the disk is in order; every path of the image leads where it did, and
    every file of the command line has its contents. *)
Theorem first_boot devsw_read devsw_write host args img V pid : image img V (final_files host args) -> 3 + zlen args <= NINODES ->
  Forall (fun a => nonzero (file_name a)) args -> Forall (fun a => take 14 (file_name a) ≠ passwd_name) args ->
  MkfsSpec.used (final_files host args) + 10 <= FSSIZE ->
  let i := 2 + zlen args in
  exists s' V' ip ad, first_process devsw_read devsw_write (bss_fs (disk_of img) pid) = Ok false s' /\ f_sb s' = sb
    /\ accounts_ok image_home s' V' ip i /\ disk_inode sb V' i = passwd_dinode ad
    /\ (forall name pw uid, account (utable (f_ut s')) name pw uid <-> name = str_root /\ pw = [48; 48; 48; 48] /\ uid = ROOT_UID)
    /\ disk_ok sb V' /\ (forall cur, resolve sb V' cur false ROOTINO (elems passwd_path) = Some i)
    /\ (forall cur par es r, resolve sb V cur par ROOTINO es = Some r -> resolve sb V' cur par ROOTINO es = Some r)
    /\ forall k a, args !! k = Some a -> file_bytes V' (disk_inode sb V' (2 + Z.of_nat k)) = concat (default [] (host a)).
Proof.
  intros Him Hcount Hnames Hpw Hspace i. pose proof (zlen_nonneg args) as Hz.
  destruct (first_boot_run host args img V Him Hcount Hnames Hpw Hspace devsw_read devsw_write _ pid (disk_of_wf _ (image_wf _ _ _ Him)) (disk_of_read img)) as (s' & V' & ip & ad & Hrun & Hac & Ht & Es & Hok & Hd & Hna).
  destruct (image_live _ _ _ _ Him ltac:(lia) ROOTINO) as [Hlr _]; [unfold ROOTINO; lia|]. pose proof (image_tree _ _ _ _ Him ltac:(lia) Hnames) as Htr.
  assert (Hno : dir_find passwd_name (file_bytes V (disk_inode sb V ROOTINO)) = None).
  { destruct (image_root _ _ _ _ Him) as (_ & _ & _ & -> & _). by apply (image_absent args). }
  exists s', V', ip, ad. rewrite Ht. split_and!; try done.
  - intros name pw uid. apply first_account.
  - intros cur. eapply (resolve_new sb V V' ROOTINO i passwd_name cur Htr Hna Hno _ passwd_name); try done.
    destruct (image_search _ _ _ _ Him cur) as [M1 M2]. change (elems passwd_path) with [passwd_name]. cbn [resolve]. by rewrite M1, M2.
  - intros cur par es r. by apply (resolve_kept sb V V' ROOTINO i passwd_name cur).
  - intros k a Hk. apply lookup_lt_Some in Hk as Hl. destruct (image_live _ _ _ _ Him ltac:(lia) (2 + Z.of_nat k)) as [Hlk _]; [unfold zlen in *; lia|].
    destruct (na_kept _ _ _ _ _ _ Hna _ Hlk) as [-> ->]; [unfold ROOTINO; lia|]. by apply (image_arg _ _ _ _ Him).
Qed.

(** The image with the one file [_a]. *)
Lemma first_boot_witness : exists m s, mkfs (fun _ => Some [[104; 105]; [10]]) [[95; 97]] mk_start = Ok tt m
  /\ first_process (fun _ => None) (fun _ => None) (bss_fs (disk_of (m_img m)) 1) = Ok false s
  /\ account (utable (f_ut s)) str_root [48; 48; 48; 48] ROOT_UID.
Proof.
  destruct demo_image as (m & V & Hrun & Him).
  destruct (first_boot (fun _ => None) (fun _ => None) (fun _ => Some [[104; 105]; [10]]) [[95; 97]] (m_img m) V 1 Him) as (s & V' & ip & ad & Hs & _ & _ & _ & Hacc & _).
  - done.
  - repeat constructor; done.
  - repeat constructor; done.
  - by vm_compute.
  - exists m, s. split; [exact Hrun|]. split; [exact Hs|]. exact (proj2 (Hacc _ _ _) (conj eq_refl (conj eq_refl eq_refl))).
Defined.
